(* ===== verification/_CoqProject ===== *)
-Q . S2P
Prelude.v
Enums.v
Mlq.v
BaseCodec.v
Base64.v
Compression.v
Security.v
VpnProto.v
DnsParser.v
DnsTransport.v
DnsAnswers.v
DomainMatcher.v
DnsQuery.v
GoFloat.v
ArqState.v
Arq.v
TxQueue.v
ArqData.v
ArqControl.v
ArqInv.v
ArqEvents.v
ArqKeeps.v
ArqNet.v
ArqTerm.v
ArqRetransmit.v
FragmentStore.v
SessionAccept.v
Inflight.v
GoHeap.v
Session.v
SessionInv.v
SessionServe.v
SessionServeInv.v
SessionFair.v
SessionReach.v
SessionStore.v
SessionStoreInv.v
SessionLife.v
CookieTracker.v
DeferredSession.v
DeferredSessionInv.v
DeferredSessionLife.v
DeferredTracking.v
NetIP.v
SocksProto.v
ServerConfig.v
VpnTyped.v
DeferredPool.v
ServerState.v
ServerPackets.v
ServerIngress.v
ServerInv.v
ServerDeferred.v
ServerReach.v
ServerJobs.v
ServerLife.v
ClientConn.v
ClientSession.v
Handshake.v
DnsCache.v
DnsCacheInv.v
DnsCacheLife.v
Balancer.v
BalancerInv.v
BalancerLife.v
