(* ===== verification/Prelude.v ===== *)
(** * Verification of the MasterDNS tunnel

    The repository bundles several censorship-circumvention tunnels.  This development is about
    MasterDNS (src/masterdns/internal): a client turns TCP streams into packets, packets into DNS
    queries under a tunnel domain, and sends them through ordinary resolvers to a server, which
    answers with TXT records and connects the streams to their targets.

    ** The parts and how they interact

    A packet ([VpnProto.Packet]) is compressed (Compression.v), encrypted and written in base 36
    (Security.v, BaseCodec.v), cut into the labels of a query (DnsTransport.v, DnsQuery.v) and sent.
    The server parses the datagram (DnsParser.v), finds its domain (DomainMatcher.v), decodes the
    packet, validates number and cookie of the session (SessionStore.v) and hands it to a handler
    (ServerPackets.v): data and acknowledgements go to the ARQ of the stream (Arq*.v), requests that
    need the network go to a worker pool (DeferredSession.v).  The answer is what the scheduler of the
    session (SessionServe.v) takes from the transmit queues of the streams (TxQueue.v, Mlq.v), written
    into TXT records (DnsTransport.v, Base64.v, DnsAnswers.v).

    ** Files and sources (below src/masterdns/internal)

    - Prelude.v: record updates, the error type [outcome], byte lists, fixed-width integers, tactics.
    - Enums.v: enums/; Mlq.v: mlq/mlq.go; FragmentStore.v: fragmentstore/; Inflight.v: inflight/.
    - BaseCodec.v, Base64.v: basecodec/; Compression.v: compression/; Security.v: security/codec.go.
    - VpnProto.v, SessionAccept.v, VpnTyped.v: vpnproto/.
    - DnsParser.v, DnsTransport.v, DnsAnswers.v, DnsQuery.v: dnsparser/; DomainMatcher.v:
      domainmatcher/.
    - GoFloat.v, GoHeap.v, NetIP.v: float64, container/heap and net/netip of Go, as far as used.
    - ArqState.v, Arq.v, ArqData.v, ArqControl.v: arq/arq.go; ArqInv.v, ArqEvents.v, ArqKeeps.v,
      ArqNet.v, ArqTerm.v, ArqRetransmit.v: theorems on it.
    - TxQueue.v: client/stream_client.go and udpserver/stream_server.go.
    - Session.v, SessionServe.v, SessionStore.v: udpserver/session.go and the scheduler of
      server_session.go; SessionInv.v, SessionServeInv.v, SessionFair.v, SessionReach.v,
      SessionStoreInv.v, SessionLife.v: theorems on them.
    - CookieTracker.v: udpserver/invalid_cookie_tracker.go; DeferredTracking.v: the packets in flight
      of server_postsession.go; DeferredSession.v, DeferredSessionInv.v, DeferredSessionLife.v:
      udpserver/deferred_session.go; DeferredPool.v: the interface between the pool and the server.
    - SocksProto.v: socksproto/ and the guard of socks5_upstream.go; ServerConfig.v: config/server.go.
    - ServerState.v, ServerPackets.v, ServerIngress.v, ServerDeferred.v: the server (udpserver/server.go,
      server_postsession.go, server_ingress.go, server_session.go, server_deferred.go, parts of
      server_runtime.go, dns_tunnel.go, socks5_upstream.go); ServerInv.v, ServerReach.v, ServerJobs.v,
      ServerLife.v: theorems on it.
    - ClientSession.v: client/session.go, client/tunnel_query.go, and what belongs to them of client.go,
      async_runtime.go, tunnel_runtime.go and mtu.go; Handshake.v: theorems on client and server.
    - ClientConn.v, Balancer.v: client/balancer.go; BalancerInv.v, BalancerLife.v: theorems on it.
    - DnsCache.v: dnscache/store.go; DnsCacheInv.v, DnsCacheLife.v: theorems on it.

    ** Conventions

    A Go struct is a record with the Go field names, a method is a function from the state to its
    result and the new state.  Bytes, and integers of any width, are [Z] with the wrap-around written
    out; a slice or a string is a list of bytes; a map is a [gmap]; a shared object is an address in a
    store.  [outcome] is [Ok], an error value, or [Panic] for a run-time panic (index out of range).
    Times are nanoseconds; [time.Now()] and the bytes of [crypto/rand] are arguments, and a datagram
    reads the clock once.  Texts are compared as ASCII ([ToLower] maps A to Z).  A map that Go
    enumerates in random order is enumerated in an order that is an argument or does not matter.
    Libraries that are not in the repository are classes of operations with the laws their
    documentation gives ([Crypto], [Compressors]), each with a concrete instance that the witnesses
    use.

    Loops that are not structural take fuel: the length of the input plus one where each turn consumes
    a byte (codecs, names, records), the number of tasks and channels for a removal of the worker pool
    ([compaction_left]).  Theorems on results are stated for the functions with that fuel, so they
    include that it is enough.

    ** What the theorems show

    - Wire formats: whatever the client writes the server reads and back, over any resolver
      (tunnel_query_roundtrip, vpn_response_roundtrip, and the steps between them: parse_build,
      build_parse, codec, base 36, compression, packed blocks, SOCKS5 targets), and no input panics or loops
      (dns_input_total).
    - Reliable streams: in-order delivery without loss or duplication over a network that loses,
      duplicates, delays and reorders packets, as long as a data packet that arrives is at most 32768
      chunks older than the receiver's position and an acknowledgement less than 65536 chunks older than
      the sender's (the assumption of ArqNet.v), a close that loses nothing, an invariant of every interleaving of critical sections, and the end of terminal states.
    - Fragments: a message is handed out exactly once within the retention time.  Compression: no
      payload of a compression type decompresses to more than 10 MiB.  SOCKS5 targets: the guard refuses
      exactly the addresses of its blocks, and what it misses when they are written as names.
    - Queues: the multi-level queue refines a sequence of FIFO lists; identities of packets are exact.
    - DNS cache: the sharded map and list refine lists in the order of use, an answer stays until its
      shard fills up or its time ends, and the file of a cache gives the cache back.
    - Resolvers: an invariant of the balancer over all operations, targets that are different and
      active, the best scores, a fair rotation, exact sweeps, a floor of two resolvers and how
      overlapping reports break it.
    - Sessions: invariants of the session, its scheduler and the table over all sequences of
      operations; the scheduler loses nothing and is fair; the handshake is idempotent.
    - Worker pool: an invariant of all interleavings of workers, enqueues and removals; removals end.
    - Server: every datagram is handled to its end, keeps the invariant of the whole server and changes
      only the session it authenticates for; closing a session leaves nothing of it behind.
    - Client and server: the handshake over any resolver ends with a session whose number, cookie,
      response mode, compression types, MTUs and policy are given exactly on both sides, or with a full table; after a reset, a client that asks for base64 answers gets no session.

    ** Atomicity

    A critical section is one step.  ARQ methods that lock several times are sequences of sections and
    interleave (ArqInv.v); the worker pool interleaves at the level of channel operations and locks
    (DeferredSession.v).  The server's theorems treat the handling of one datagram, the part of a job
    before or after the dialling, and one turn of the cleanup as one step each; the program may
    interleave handlers of different datagrams, which share state only through the components above.

    ** Not modelled

    Socket loops, the UDP fallback and the upstream resolvers of the server, the listeners of the
    client, log messages, reading configuration files and command lines: input and output with little
    logic of their own.  The other tunnels of the repository (bond-server, awgproxy, olcrtc,
    free-turn-proxy, openflux, wdtt, csqtt, snolc), the applications and the vendored cores (sing-box,
    xray-core, amneziawg-go) are separate programs that share no code with MasterDNS. *)

From stdpp Require Import base tactics list gmap strings fin_maps.
From Stdlib Require Import ZArith Lia.
#[global] Open Scope Z_scope.

(** ** Record updates

    Go code updates struct fields in place.  [r <| f := v |>] is the functional
    version; a record that wants it gives an [Eta] instance (the constructor
    applied to all projections) and one [Setter] instance per mutable field. *)

Class Eta (R : Type) := eta : R -> R.
Class Setter {R E : Type} (getter : R -> E) := set : (E -> E) -> R -> R.
Arguments set {R E} getter {_} _ _ : assert.

Ltac derive_setter :=
  lazymatch goal with
  | |- @Setter ?R ?E ?g =>
      let h := constr:(_ : Eta R) in
      let b := eval hnf in h in
      lazymatch eval pattern g in b with
      | ?abs _ => let t := eval cbv beta in (fun (f : E -> E) => abs (fun r => f (g r))) in exact t
      end
  end.

Notation "r <| f := v |>" := (set f (fun _ => v) r)
  (at level 1, f at level 0, left associativity, format "r  <| f  :=  v |>").
Notation "r <| f ::= g |>" := (set f g r)
  (at level 1, f at level 0, left associativity, format "r  <| f  ::=  g |>").

(** ** Outcomes of fallible Go code

    A Go function that returns [(T, error)] yields [Ok] or [Err]; an index or a
    slice expression out of range is a run-time panic, a third outcome that the
    safety theorems exclude. *)

Inductive outcome (E A : Type) : Type :=
| Ok (a : A)
| Err (e : E)
| Panic.
Arguments Ok {E A} a.
Arguments Err {E A} e.
Arguments Panic {E A}.

Definition obind {E A B} (c : outcome E A) (k : A -> outcome E B) : outcome E B :=
  match c with Ok a => k a | Err e => Err e | Panic => Panic end.

Declare Scope go_scope.
Delimit Scope go_scope with go.
#[global] Open Scope go_scope.

Notation "'let!' x := c 'in' k" := (obind c (fun x => k))
  (at level 10, x pattern, c at level 100, k at level 200) : go_scope.
Notation "'check!' b 'else' e 'in' k" := (if b then k else Err e)
  (at level 10, b at level 100, e at level 100, k at level 200) : go_scope.

Definition is_panic {E A} (c : outcome E A) : bool :=
  match c with Panic => true | _ => false end.

(** Re-labelling of the error, as [if err != nil { return ErrX }] does. *)
Definition map_err {E E' A} (f : E -> E') (c : outcome E A) : outcome E' A :=
  match c with Ok a => Ok a | Err e => Err (f e) | Panic => Panic end.

(** ** Fixed-width integers *)

Definition wrap8 (x : Z) : Z := x mod 256.
Definition wrap16 (x : Z) : Z := x mod 65536.
Definition wrap32 (x : Z) : Z := x mod 4294967296.
Definition wrap64 (x : Z) : Z := x mod 18446744073709551616.

Definition u8 (x : Z) : Prop := 0 <= x < 256.
Definition u16 (x : Z) : Prop := 0 <= x < 65536.
Definition u32 (x : Z) : Prop := 0 <= x < 4294967296.

(** ** Bytes and slices: a [[]byte] is a list of integers below 256. *)

Abbreviation bytes := (list Z).
Definition bytes_ok (l : bytes) : Prop := Forall u8 l.

Definition len {A} (l : list A) : Z := Z.of_nat (length l).

(** [data[i]] *)
Definition at_ {E A} (l : list A) (i : Z) : outcome E A :=
  if 0 <=? i then
    match l !! Z.to_nat i with Some x => Ok x | None => Panic end
  else Panic.

(** [data[a:b]] *)
Definition slice {E A} (l : list A) (a b : Z) : outcome E (list A) :=
  if (0 <=? a) && (a <=? b) && (b <=? len l)
  then Ok (take (Z.to_nat (b - a)) (drop (Z.to_nat a) l))
  else Panic.

(** [data[i] = v] *)
Definition put {E A} (l : list A) (i : Z) (v : A) : outcome E (list A) :=
  if (0 <=? i) && (i <? len l) then Ok (<[Z.to_nat i := v]> l) else Panic.

(** [copy(data[off:], src)] *)
Definition copy_at {E A} (l : list A) (off : Z) (src : list A) : outcome E (list A) :=
  if (0 <=? off) && (off <=? len l) then
    let n := Nat.min (length l - Z.to_nat off) (length src) in
    Ok (take (Z.to_nat off) l ++ take n src ++ drop (Z.to_nat off + n) l)
  else Panic.

(** [make([]byte, n)], for a length that is not negative. *)
Definition make_bytes (n : Z) : bytes := replicate (Z.to_nat n) 0.

(** Big-endian 16-bit fields, [byte(v >> 8), byte(v)] and its reading. *)
Definition be16 (v : Z) : bytes := [wrap8 (Z.shiftr v 8); wrap8 v].
Definition of_be16 (hi lo : Z) : Z := Z.lor (Z.shiftl hi 8) lo.

(** Big-endian 32-bit fields. *)
Definition be32 (v : Z) : bytes :=
  [wrap8 (Z.shiftr v 24); wrap8 (Z.shiftr v 16); wrap8 (Z.shiftr v 8); wrap8 v].

(** [binary.BigEndian.Uint16(data[a:a+2])] *)
Definition get16 {E} (l : bytes) (a : Z) : outcome E Z :=
  let! hi := at_ l a in let! lo := at_ l (a + 1) in Ok (of_be16 hi lo).

(** ** Tactics *)

(** Turns boolean comparisons of the code into propositions for [lia]. *)
Ltac zbool :=
  repeat match goal with
  | H : andb _ _ = true |- _ => apply andb_true_iff in H; destruct H
  | H : andb _ _ = false |- _ => apply andb_false_iff in H
  | H : orb _ _ = false |- _ => apply orb_false_iff in H; destruct H
  | H : orb _ _ = true |- _ => apply orb_true_iff in H
  | H : negb _ = true |- _ => apply negb_true_iff in H
  | H : negb _ = false |- _ => apply negb_false_iff in H
  | H : (_ <=? _) = true |- _ => apply Z.leb_le in H
  | H : (_ <=? _) = false |- _ => apply Z.leb_gt in H
  | H : (_ <? _) = true |- _ => apply Z.ltb_lt in H
  | H : (_ <? _) = false |- _ => apply Z.ltb_ge in H
  | H : (_ =? _) = true |- _ => apply Z.eqb_eq in H
  | H : (_ =? _) = false |- _ => apply Z.eqb_neq in H
  end.

(** Case analysis on the next condition of the code. *)
Ltac case_if :=
  match goal with
  | |- context [if ?b then _ else _] =>
      lazymatch b with
      | context [if _ then _ else _] => fail
      | _ => destruct b eqn:?
      end
  | H : context [if ?b then _ else _] |- _ =>
      lazymatch b with
      | context [if _ then _ else _] => fail
      | _ => destruct b eqn:?
      end
  end.

Create HintDb go.

(** ** Generic lemmas *)

Section outcomes.
Context {E A B : Type}.

Lemma obind_ok_inv (c : outcome E A) (k : A -> outcome E B) b :
  obind c k = Ok b -> exists a, c = Ok a /\ k a = Ok b.
Proof. destruct c; simpl; naive_solver. Qed.

Lemma obind_no_panic (c : outcome E A) (k : A -> outcome E B) :
  is_panic c = false -> (forall a, c = Ok a -> is_panic (k a) = false) ->
  is_panic (obind c k) = false.
Proof. destruct c; simpl; naive_solver. Qed.
End outcomes.

Section slices.
Context {E A : Type}.
Implicit Types l : list A.

Lemma len_nonneg l : 0 <= len l.
Proof. unfold len; lia. Qed.

Lemma len_app l1 l2 : len (l1 ++ l2) = len l1 + len l2.
Proof. unfold len. rewrite length_app. lia. Qed.

Lemma len_cons x l : len (x :: l) = 1 + len l.
Proof. unfold len. simpl length. lia. Qed.

Lemma len_nil : len (@nil A) = 0.
Proof. reflexivity. Qed.

Lemma at_ok l i : 0 <= i < len l -> exists x, at_ (E:=E) l i = Ok x /\ l !! Z.to_nat i = Some x.
Proof.
  unfold at_, len; intros [H1 H2].
  destruct (0 <=? i) eqn:?; zbool; [| lia].
  destruct (lookup_lt_is_Some_2 l (Z.to_nat i)) as [x Hx]; [lia|].
  rewrite Hx. eauto.
Qed.

Lemma at_no_panic l i : 0 <= i < len l -> is_panic (at_ (E:=E) l i) = false.
Proof. intros H. destruct (at_ok l i H) as (x & -> & _). done. Qed.

Lemma at_cons_0 x l : at_ (E:=E) (x :: l) 0 = Ok x.
Proof. reflexivity. Qed.

Lemma at_cons_S x l i : 0 < i -> at_ (E:=E) (x :: l) i = at_ l (i - 1).
Proof.
  intros. unfold at_. replace (0 <=? i) with true by (symmetry; apply Z.leb_le; lia).
  replace (0 <=? i - 1) with true by (symmetry; apply Z.leb_le; lia).
  replace (Z.to_nat i) with (S (Z.to_nat (i - 1))) by lia. done.
Qed.

Lemma at_app_r l1 l2 i : at_ (E:=E) (l1 ++ l2) (len l1 + i) = if 0 <=? i then at_ l2 i else at_ (l1 ++ l2) (len l1 + i).
Proof.
  destruct (0 <=? i) eqn:Hi; [|done]. zbool. unfold at_, len.
  replace (0 <=? _ + i) with true by (symmetry; apply Z.leb_le; lia).
  replace (0 <=? i) with true by (symmetry; apply Z.leb_le; lia).
  rewrite Z2Nat.inj_add by lia. rewrite Nat2Z.id.
  rewrite lookup_app_r by lia.
  replace (length l1 + Z.to_nat i - length l1)%nat with (Z.to_nat i) by lia. done.
Qed.

Lemma slice_ok l a b :
  0 <= a <= b -> b <= len l ->
  slice (E:=E) l a b = Ok (take (Z.to_nat (b - a)) (drop (Z.to_nat a) l)).
Proof.
  intros. unfold slice.
  replace ((0 <=? a) && (a <=? b) && (b <=? len l)) with true; [done|].
  symmetry. rewrite !andb_true_iff, !Z.leb_le. lia.
Qed.

Lemma slice_no_panic l a b :
  0 <= a <= b -> b <= len l -> is_panic (slice (E:=E) l a b) = false.
Proof. intros. rewrite slice_ok by lia. done. Qed.

Lemma slice_app l1 l2 l3 a b :
  a = len l1 -> b = len l1 + len l2 -> slice (E:=E) (l1 ++ l2 ++ l3) a b = Ok l2.
Proof.
  intros -> ->. pose proof (len_nonneg l1). pose proof (len_nonneg l2). pose proof (len_nonneg l3).
  rewrite slice_ok by (rewrite ?len_app; lia). unfold len.
  replace (Z.to_nat (Z.of_nat (length l1))) with (length l1) by lia.
  rewrite drop_app_length. f_equal.
  replace (Z.to_nat _) with (length l2) by lia. apply take_app_length.
Qed.

Lemma slice_all l a : a = len l -> slice (E:=E) l 0 a = Ok l.
Proof.
  intros ->. rewrite <- (app_nil_r l) at 1. rewrite <- (app_nil_l (l ++ [])).
  apply slice_app; unfold len; simpl; lia.
Qed.

Lemma slice_tail l1 l2 a b :
  a = len l1 -> b = len l1 + len l2 -> slice (E:=E) (l1 ++ l2) a b = Ok l2.
Proof. intros. rewrite <- (app_nil_r l2) at 1. by apply slice_app. Qed.

Lemma at_middle l1 x l2 i : i = len l1 -> at_ (E:=E) (l1 ++ x :: l2) i = Ok x.
Proof.
  intros ->. unfold at_, len. replace (0 <=? _) with true by (symmetry; apply Z.leb_le; lia).
  by rewrite Nat2Z.id, list_lookup_middle.
Qed.

Lemma put_ok l i v : 0 <= i < len l -> put (E:=E) l i v = Ok (<[Z.to_nat i := v]> l).
Proof.
  intros. unfold put. replace ((0 <=? i) && (i <? len l)) with true; [done|].
  symmetry. rewrite andb_true_iff, Z.leb_le, Z.ltb_lt. lia.
Qed.

Lemma put_middle l1 x l2 i v : i = len l1 -> put (E:=E) (l1 ++ x :: l2) i v = Ok (l1 ++ v :: l2).
Proof.
  intros ->. pose proof (len_nonneg l1). pose proof (len_nonneg l2).
  rewrite put_ok by (rewrite len_app, len_cons; lia).
  unfold len. rewrite Nat2Z.id, <- (Nat.add_0_r (length l1)), insert_app_r. done.
Qed.

Lemma copy_at_end l1 l2 off src :
  off = len l1 -> length src = length l2 -> copy_at (E:=E) (l1 ++ l2) off src = Ok (l1 ++ src).
Proof.
  intros -> Hl. unfold copy_at. pose proof (len_nonneg l1). pose proof (len_nonneg l2).
  replace ((0 <=? _) && _) with true
    by (symmetry; rewrite andb_true_iff, !Z.leb_le, len_app; lia).
  unfold len. rewrite Nat2Z.id, length_app.
  replace (Nat.min (length l1 + length l2 - length l1) (length src)) with (length src) by lia.
  rewrite take_app_length, firstn_all, drop_ge by (rewrite length_app; lia).
  by rewrite app_nil_r.
Qed.
End slices.

Lemma u8_wrap8 x : u8 (wrap8 x).
Proof. apply Z.mod_pos_bound. lia. Qed.

Lemma wrap8_id x : u8 x -> wrap8 x = x.
Proof. intros. apply Z.mod_small. done. Qed.

Lemma wrap16_id x : u16 x -> wrap16 x = x.
Proof. intros. apply Z.mod_small. done. Qed.

Lemma u16_wrap16 x : u16 (wrap16 x).
Proof. apply Z.mod_pos_bound. lia. Qed.

Lemma bytes_ok_app l1 l2 : bytes_ok (l1 ++ l2) <-> bytes_ok l1 /\ bytes_ok l2.
Proof. apply Forall_app. Qed.

#[export] Hint Resolve u8_wrap8 u16_wrap16 len_nonneg : go.

Lemma lor_shiftl_disjoint hi lo n :
  0 <= n -> 0 <= lo < 2 ^ n -> Z.lor (Z.shiftl hi n) lo = 2 ^ n * hi + lo.
Proof.
  intros Hn Hlo. pose proof (Z.add_lor_land (Z.shiftl hi n) lo) as H.
  assert (Z.land (Z.shiftl hi n) lo = 0) as Hz.
  { apply Z.bits_inj'. intros i Hi. rewrite Z.land_spec, Z.bits_0.
    destruct (Z.ltb_spec i n).
    - rewrite Z.shiftl_spec_low by lia. done.
    - rewrite <- (Z.mod_small lo (2 ^ n)) by lia.
      rewrite Z.mod_pow2_bits_high by lia. apply andb_false_r. }
  rewrite Z.shiftl_mul_pow2 in * by lia. lia.
Qed.

Lemma of_be16_arith hi lo : u8 hi -> u8 lo -> of_be16 hi lo = 256 * hi + lo.
Proof. unfold of_be16, u8. intros. rewrite lor_shiftl_disjoint by lia. lia. Qed.

(** The two bytes of a 16-bit field read back as the field. *)
Lemma of_be16_be16 v : u16 v -> of_be16 (wrap8 (Z.shiftr v 8)) (wrap8 v) = v.
Proof.
  intros Hv. rewrite of_be16_arith by apply u8_wrap8.
  unfold wrap8, u16 in *. rewrite Z.shiftr_div_pow2 by lia. change (2 ^ 8) with 256.
  rewrite (Z.mod_small (v / 256)) by (split; [apply Z.div_pos; lia|apply Z.div_lt_upper_bound; lia]).
  pose proof (Z.div_mod v 256). lia.
Qed.

Lemma u16_of_be16 hi lo : u8 hi -> u8 lo -> u16 (of_be16 hi lo).
Proof. intros. rewrite of_be16_arith by done. unfold u8, u16 in *. lia. Qed.

(** The field read from two bytes is written back as the same bytes. *)
Lemma be16_of_be16 hi lo : u8 hi -> u8 lo -> be16 (of_be16 hi lo) = [hi; lo].
Proof.
  intros Hh Hl. unfold be16. rewrite of_be16_arith by done.
  unfold wrap8, u8 in *. rewrite Z.shiftr_div_pow2 by lia. change (2^8) with 256.
  f_equal; [|f_equal].
  - replace (256 * hi + lo) with (lo + hi * 256) by lia.
    rewrite Z.div_add, (Z.div_small lo), Z.add_0_l, Z.mod_small by lia. done.
  - replace (256 * hi + lo) with (lo + hi * 256) by lia.
    rewrite Z.mod_add, Z.mod_small by lia. done.
Qed.

Lemma bytes_ok_be16 v : bytes_ok (be16 v).
Proof. repeat constructor; apply u8_wrap8. Qed.

#[export] Hint Resolve bytes_ok_be16 u16_of_be16 : go.

Section filters.
Context {A : Type} (P : A -> Prop) `{!forall x, Decision (P x)}.

Lemma list_filter_all l : Forall P l -> filter P l = l.
Proof. induction 1; [done|]. rewrite filter_cons_True by done. by f_equal. Qed.

Lemma list_filter_none l : Forall (fun x => ~ P x) l -> filter P l = [].
Proof. induction 1; [done|]. by rewrite filter_cons_False by done. Qed.
End filters.

Lemma alter_insert {A} (f : A -> A) (l : list A) i x : l !! i = Some x -> alter f i l = <[i := f x]> l.
Proof.
  intros H. apply list_eq. intros j. destruct (decide (i = j)) as [<- | Hne].
  - rewrite list_lookup_alter_eq, list_lookup_insert_eq by (by eapply lookup_lt_Some). by rewrite H.
  - by rewrite list_lookup_alter_ne, list_lookup_insert_ne.
Qed.
