(* ===== verification/Enums.v ===== *)
(** * Packet types, identities, acknowledgements and priorities

    The constants and tables of src/masterdns/internal/enums: the packet types
    (dns.go), the queue identity of a packet (packet_identity.go), the pairing of
    control packets with their acknowledgements (packet_ack.go), the queue
    priority of each type (packet_priority.go) and their names (dns_names.go).  Go maps are [gmap]s, [switch]
    statements are tests on the case lists of the source. *)

From stdpp Require Import pretty base tactics list gmap fin_maps.
From Stdlib Require Import ZArith Lia.
From S2P Require Import Prelude.

(** ** Packet types (dns.go) *)

Definition PACKET_MTU_UP_REQ : Z := 1.
Definition PACKET_MTU_UP_RES : Z := 2.
Definition PACKET_MTU_DOWN_REQ : Z := 3.
Definition PACKET_MTU_DOWN_RES : Z := 4.
Definition PACKET_SESSION_INIT : Z := 5.
Definition PACKET_SESSION_ACCEPT : Z := 6.
Definition PACKET_PING : Z := 7.
Definition PACKET_PONG : Z := 8.
Definition PACKET_STREAM_SYN : Z := 9.
Definition PACKET_STREAM_SYN_ACK : Z := 10.
Definition PACKET_STREAM_CONNECTED : Z := 11.
Definition PACKET_STREAM_CONNECTED_ACK : Z := 12.
Definition PACKET_STREAM_CONNECT_FAIL : Z := 13.
Definition PACKET_STREAM_CONNECT_FAIL_ACK : Z := 14.
Definition PACKET_STREAM_DATA : Z := 15.
Definition PACKET_STREAM_DATA_ACK : Z := 16.
Definition PACKET_STREAM_DATA_NACK : Z := 17.
Definition PACKET_STREAM_RESEND : Z := 18.
Definition PACKET_PACKED_CONTROL_BLOCKS : Z := 19.
Definition PACKET_STREAM_CLOSE_WRITE : Z := 20.
Definition PACKET_STREAM_CLOSE_WRITE_ACK : Z := 21.
Definition PACKET_STREAM_CLOSE_READ : Z := 22.
Definition PACKET_STREAM_CLOSE_READ_ACK : Z := 23.
Definition PACKET_STREAM_RST : Z := 24.
Definition PACKET_STREAM_RST_ACK : Z := 25.
Definition PACKET_SOCKS5_SYN : Z := 26.
Definition PACKET_SOCKS5_SYN_ACK : Z := 27.
Definition PACKET_SOCKS5_CONNECT_FAIL : Z := 28.
Definition PACKET_SOCKS5_CONNECT_FAIL_ACK : Z := 29.
Definition PACKET_SOCKS5_RULESET_DENIED : Z := 30.
Definition PACKET_SOCKS5_RULESET_DENIED_ACK : Z := 31.
Definition PACKET_SOCKS5_NETWORK_UNREACHABLE : Z := 32.
Definition PACKET_SOCKS5_NETWORK_UNREACHABLE_ACK : Z := 33.
Definition PACKET_SOCKS5_HOST_UNREACHABLE : Z := 34.
Definition PACKET_SOCKS5_HOST_UNREACHABLE_ACK : Z := 35.
Definition PACKET_SOCKS5_CONNECTION_REFUSED : Z := 36.
Definition PACKET_SOCKS5_CONNECTION_REFUSED_ACK : Z := 37.
Definition PACKET_SOCKS5_TTL_EXPIRED : Z := 38.
Definition PACKET_SOCKS5_TTL_EXPIRED_ACK : Z := 39.
Definition PACKET_SOCKS5_COMMAND_UNSUPPORTED : Z := 40.
Definition PACKET_SOCKS5_COMMAND_UNSUPPORTED_ACK : Z := 41.
Definition PACKET_SOCKS5_ADDRESS_TYPE_UNSUPPORTED : Z := 42.
Definition PACKET_SOCKS5_ADDRESS_TYPE_UNSUPPORTED_ACK : Z := 43.
Definition PACKET_SOCKS5_AUTH_FAILED : Z := 44.
Definition PACKET_SOCKS5_AUTH_FAILED_ACK : Z := 45.
Definition PACKET_SOCKS5_UPSTREAM_UNAVAILABLE : Z := 46.
Definition PACKET_SOCKS5_UPSTREAM_UNAVAILABLE_ACK : Z := 47.
Definition PACKET_SOCKS5_CONNECTED : Z := 48.
Definition PACKET_SOCKS5_CONNECTED_ACK : Z := 49.
Definition PACKET_DNS_QUERY_REQ : Z := 50.
Definition PACKET_DNS_QUERY_RES : Z := 51.
Definition PACKET_DNS_QUERY_REQ_ACK : Z := 52.
Definition PACKET_DNS_QUERY_RES_ACK : Z := 53.
Definition PACKET_SESSION_CLOSE : Z := 54.
Definition PACKET_SESSION_BUSY : Z := 55.
Definition PACKET_ERROR_DROP : Z := 255.

(** [packetType] is one of the constants of a [case] clause. *)
Definition case_of (packetType : Z) (cases : list Z) : bool :=
  existsb (Z.eqb packetType) cases.

(** ** Queue identity (packet_identity.go) *)

(** Data and fragment-aware control packets. *)
Definition identity_seq_frag_types : list Z :=
  [PACKET_STREAM_DATA; PACKET_STREAM_RESEND;
   PACKET_STREAM_DATA_ACK; PACKET_STREAM_DATA_NACK;
   PACKET_STREAM_SYN; PACKET_STREAM_SYN_ACK;
   PACKET_SOCKS5_SYN; PACKET_SOCKS5_SYN_ACK;
   PACKET_DNS_QUERY_REQ; PACKET_DNS_QUERY_REQ_ACK;
   PACKET_DNS_QUERY_RES; PACKET_DNS_QUERY_RES_ACK].

(** Terminal and result packets. *)
Definition identity_seq_types : list Z :=
  [PACKET_STREAM_CLOSE_WRITE; PACKET_STREAM_CLOSE_WRITE_ACK;
   PACKET_STREAM_CLOSE_READ; PACKET_STREAM_CLOSE_READ_ACK;
   PACKET_STREAM_RST; PACKET_STREAM_RST_ACK;
   PACKET_STREAM_CONNECTED; PACKET_STREAM_CONNECTED_ACK;
   PACKET_STREAM_CONNECT_FAIL; PACKET_STREAM_CONNECT_FAIL_ACK;
   PACKET_SOCKS5_CONNECT_FAIL; PACKET_SOCKS5_CONNECT_FAIL_ACK;
   PACKET_SOCKS5_RULESET_DENIED; PACKET_SOCKS5_RULESET_DENIED_ACK;
   PACKET_SOCKS5_NETWORK_UNREACHABLE; PACKET_SOCKS5_NETWORK_UNREACHABLE_ACK;
   PACKET_SOCKS5_HOST_UNREACHABLE; PACKET_SOCKS5_HOST_UNREACHABLE_ACK;
   PACKET_SOCKS5_CONNECTION_REFUSED; PACKET_SOCKS5_CONNECTION_REFUSED_ACK;
   PACKET_SOCKS5_TTL_EXPIRED; PACKET_SOCKS5_TTL_EXPIRED_ACK;
   PACKET_SOCKS5_COMMAND_UNSUPPORTED; PACKET_SOCKS5_COMMAND_UNSUPPORTED_ACK;
   PACKET_SOCKS5_ADDRESS_TYPE_UNSUPPORTED; PACKET_SOCKS5_ADDRESS_TYPE_UNSUPPORTED_ACK;
   PACKET_SOCKS5_AUTH_FAILED; PACKET_SOCKS5_AUTH_FAILED_ACK;
   PACKET_SOCKS5_UPSTREAM_UNAVAILABLE; PACKET_SOCKS5_UPSTREAM_UNAVAILABLE_ACK;
   PACKET_SOCKS5_CONNECTED; PACKET_SOCKS5_CONNECTED_ACK;
   PACKET_PACKED_CONTROL_BLOCKS; PACKET_ERROR_DROP;
   PACKET_PING; PACKET_PONG].

(** Session control packets. *)
Definition identity_stream_types : list Z :=
  [PACKET_SESSION_CLOSE; PACKET_SESSION_BUSY].


Definition PacketTypeStreamKey (streamID packetType : Z) : Z :=
  Z.lor (Z.shiftl streamID 40) (Z.shiftl packetType 32).

Definition packetIdentitySeq (streamID packetType sequenceNum : Z) : Z :=
  Z.lor (Z.lor (Z.shiftl streamID 40) (Z.shiftl packetType 32)) (Z.shiftl sequenceNum 8).

Definition packetIdentitySeqFrag (streamID packetType sequenceNum fragmentID : Z) : Z :=
  Z.lor (Z.lor (Z.lor (Z.shiftl streamID 40) (Z.shiftl packetType 32)) (Z.shiftl sequenceNum 8))
    fragmentID.

Definition PacketIdentityKey (streamID packetType sequenceNum fragmentID : Z) : Z :=
  if case_of packetType identity_seq_frag_types
  then packetIdentitySeqFrag streamID packetType sequenceNum fragmentID
  else if case_of packetType identity_seq_types
  then packetIdentitySeq streamID packetType sequenceNum
  else if case_of packetType identity_stream_types
  then PacketTypeStreamKey streamID packetType
  else packetIdentitySeqFrag streamID packetType sequenceNum fragmentID.

(** ** Acknowledgement pairs (packet_ack.go) *)

(** The acknowledgement type of each control packet type. *)
Definition ControlAckPairs : gmap Z Z := list_to_map
  [(PACKET_DNS_QUERY_REQ, PACKET_DNS_QUERY_REQ_ACK);
   (PACKET_DNS_QUERY_RES, PACKET_DNS_QUERY_RES_ACK);
   (PACKET_STREAM_SYN, PACKET_STREAM_SYN_ACK);
   (PACKET_STREAM_CONNECTED, PACKET_STREAM_CONNECTED_ACK);
   (PACKET_STREAM_CONNECT_FAIL, PACKET_STREAM_CONNECT_FAIL_ACK);
   (PACKET_STREAM_CLOSE_WRITE, PACKET_STREAM_CLOSE_WRITE_ACK);
   (PACKET_STREAM_CLOSE_READ, PACKET_STREAM_CLOSE_READ_ACK);
   (PACKET_STREAM_RST, PACKET_STREAM_RST_ACK);
   (PACKET_SOCKS5_SYN, PACKET_SOCKS5_SYN_ACK);
   (PACKET_SOCKS5_CONNECT_FAIL, PACKET_SOCKS5_CONNECT_FAIL_ACK);
   (PACKET_SOCKS5_RULESET_DENIED, PACKET_SOCKS5_RULESET_DENIED_ACK);
   (PACKET_SOCKS5_NETWORK_UNREACHABLE, PACKET_SOCKS5_NETWORK_UNREACHABLE_ACK);
   (PACKET_SOCKS5_HOST_UNREACHABLE, PACKET_SOCKS5_HOST_UNREACHABLE_ACK);
   (PACKET_SOCKS5_CONNECTION_REFUSED, PACKET_SOCKS5_CONNECTION_REFUSED_ACK);
   (PACKET_SOCKS5_TTL_EXPIRED, PACKET_SOCKS5_TTL_EXPIRED_ACK);
   (PACKET_SOCKS5_COMMAND_UNSUPPORTED, PACKET_SOCKS5_COMMAND_UNSUPPORTED_ACK);
   (PACKET_SOCKS5_ADDRESS_TYPE_UNSUPPORTED, PACKET_SOCKS5_ADDRESS_TYPE_UNSUPPORTED_ACK);
   (PACKET_SOCKS5_AUTH_FAILED, PACKET_SOCKS5_AUTH_FAILED_ACK);
   (PACKET_SOCKS5_UPSTREAM_UNAVAILABLE, PACKET_SOCKS5_UPSTREAM_UNAVAILABLE_ACK);
   (PACKET_SOCKS5_CONNECTED, PACKET_SOCKS5_CONNECTED_ACK)].

(** The packet types that end a stream. *)
Definition PacketsCloseStream : gmap Z Z := list_to_map
  [(PACKET_STREAM_RST, PACKET_STREAM_RST_ACK);
   (PACKET_STREAM_CLOSE_WRITE, PACKET_STREAM_CLOSE_WRITE_ACK);
   (PACKET_STREAM_CLOSE_READ, PACKET_STREAM_CLOSE_READ_ACK);
   (PACKET_SOCKS5_RULESET_DENIED, PACKET_SOCKS5_RULESET_DENIED_ACK);
   (PACKET_SOCKS5_NETWORK_UNREACHABLE, PACKET_SOCKS5_NETWORK_UNREACHABLE_ACK);
   (PACKET_SOCKS5_HOST_UNREACHABLE, PACKET_SOCKS5_HOST_UNREACHABLE_ACK);
   (PACKET_SOCKS5_CONNECTION_REFUSED, PACKET_SOCKS5_CONNECTION_REFUSED_ACK);
   (PACKET_SOCKS5_TTL_EXPIRED, PACKET_SOCKS5_TTL_EXPIRED_ACK);
   (PACKET_SOCKS5_COMMAND_UNSUPPORTED, PACKET_SOCKS5_COMMAND_UNSUPPORTED_ACK);
   (PACKET_SOCKS5_ADDRESS_TYPE_UNSUPPORTED, PACKET_SOCKS5_ADDRESS_TYPE_UNSUPPORTED_ACK);
   (PACKET_SOCKS5_AUTH_FAILED, PACKET_SOCKS5_AUTH_FAILED_ACK);
   (PACKET_SOCKS5_UPSTREAM_UNAVAILABLE, PACKET_SOCKS5_UPSTREAM_UNAVAILABLE_ACK);
   (PACKET_STREAM_CONNECT_FAIL, PACKET_STREAM_CONNECT_FAIL_ACK);
   (PACKET_SOCKS5_CONNECT_FAIL, PACKET_SOCKS5_CONNECT_FAIL_ACK)].


Definition GetPacketCloseStream (packetType : Z) : option Z := PacketsCloseStream !! packetType.

(** The table [init] fills by ranging over [ControlAckPairs]. *)
Definition reverseControlAckPairs : gmap Z Z :=
  map_fold (fun packetType ackType acc => <[ackType := packetType]> acc) ∅ ControlAckPairs.

Definition ControlAckFor (packetType : Z) : option Z := ControlAckPairs !! packetType.

Definition ReverseControlAckFor (ackType : Z) : option Z := reverseControlAckPairs !! ackType.

(** ** Priorities (packet_priority.go) *)

Definition PacketPriorityCritical : Z := 0.
Definition PacketPriorityRetry : Z := 1.
Definition PacketPriorityHigh : Z := 2.
Definition PacketPriorityNormal : Z := 3.
Definition PacketPriorityLow : Z := 4.
Definition PacketPriorityIdle : Z := 5.

(** Types queued with [PacketPriorityCritical]. *)
Definition critical_types : list Z :=
  [PACKET_STREAM_DATA_ACK; PACKET_STREAM_DATA_NACK;
   PACKET_STREAM_SYN; PACKET_STREAM_SYN_ACK;
   PACKET_STREAM_CONNECTED; PACKET_STREAM_CONNECTED_ACK;
   PACKET_STREAM_CONNECT_FAIL; PACKET_STREAM_CONNECT_FAIL_ACK;
   PACKET_STREAM_CLOSE_WRITE_ACK; PACKET_STREAM_CLOSE_READ;
   PACKET_STREAM_CLOSE_READ_ACK; PACKET_STREAM_RST;
   PACKET_STREAM_RST_ACK; PACKET_SOCKS5_SYN;
   PACKET_SOCKS5_SYN_ACK; PACKET_SOCKS5_CONNECT_FAIL;
   PACKET_SOCKS5_CONNECT_FAIL_ACK; PACKET_SOCKS5_RULESET_DENIED;
   PACKET_SOCKS5_RULESET_DENIED_ACK; PACKET_SOCKS5_NETWORK_UNREACHABLE;
   PACKET_SOCKS5_NETWORK_UNREACHABLE_ACK; PACKET_SOCKS5_HOST_UNREACHABLE;
   PACKET_SOCKS5_HOST_UNREACHABLE_ACK; PACKET_SOCKS5_CONNECTION_REFUSED;
   PACKET_SOCKS5_CONNECTION_REFUSED_ACK; PACKET_SOCKS5_TTL_EXPIRED;
   PACKET_SOCKS5_TTL_EXPIRED_ACK; PACKET_SOCKS5_COMMAND_UNSUPPORTED;
   PACKET_SOCKS5_COMMAND_UNSUPPORTED_ACK; PACKET_SOCKS5_ADDRESS_TYPE_UNSUPPORTED;
   PACKET_SOCKS5_ADDRESS_TYPE_UNSUPPORTED_ACK; PACKET_SOCKS5_AUTH_FAILED;
   PACKET_SOCKS5_AUTH_FAILED_ACK; PACKET_SOCKS5_UPSTREAM_UNAVAILABLE;
   PACKET_SOCKS5_UPSTREAM_UNAVAILABLE_ACK; PACKET_SOCKS5_CONNECTED;
   PACKET_SOCKS5_CONNECTED_ACK; PACKET_DNS_QUERY_REQ_ACK;
   PACKET_DNS_QUERY_RES_ACK].

(** Types queued with [PacketPriorityRetry]. *)
Definition retry_types : list Z :=
  [PACKET_STREAM_RESEND; PACKET_DNS_QUERY_RES;
   PACKET_DNS_QUERY_REQ].

(** Types queued with [PacketPriorityLow]. *)
Definition low_types : list Z :=
  [PACKET_STREAM_CLOSE_WRITE; PACKET_SESSION_CLOSE].

(** Types queued with [PacketPriorityIdle]. *)
Definition idle_types : list Z :=
  [PACKET_PING; PACKET_PONG].


Definition DefaultPacketPriority (packetType : Z) : Z :=
  if case_of packetType critical_types then PacketPriorityCritical
  else if case_of packetType retry_types then PacketPriorityRetry
  else if packetType =? PACKET_STREAM_DATA then PacketPriorityNormal
  else if case_of packetType low_types then PacketPriorityLow
  else if case_of packetType idle_types then PacketPriorityIdle
  else PacketPriorityNormal.

Definition NormalizePacketPriority (packetType priority : Z) : Z :=
  if (PacketPriorityCritical <=? priority) && (priority <=? PacketPriorityIdle)
  then priority
  else DefaultPacketPriority packetType.

(** ** Properties *)

(** The names of the packet types, for reasons and logs. *)
Definition packet_type_names : list (Z * string) :=
  [(PACKET_MTU_UP_REQ, "PACKET_MTU_UP_REQ");
   (PACKET_MTU_UP_RES, "PACKET_MTU_UP_RES");
   (PACKET_MTU_DOWN_REQ, "PACKET_MTU_DOWN_REQ");
   (PACKET_MTU_DOWN_RES, "PACKET_MTU_DOWN_RES");
   (PACKET_SESSION_INIT, "PACKET_SESSION_INIT");
   (PACKET_SESSION_ACCEPT, "PACKET_SESSION_ACCEPT");
   (PACKET_PING, "PACKET_PING");
   (PACKET_PONG, "PACKET_PONG");
   (PACKET_STREAM_SYN, "PACKET_STREAM_SYN");
   (PACKET_STREAM_SYN_ACK, "PACKET_STREAM_SYN_ACK");
   (PACKET_STREAM_CONNECTED, "PACKET_STREAM_CONNECTED");
   (PACKET_STREAM_CONNECTED_ACK, "PACKET_STREAM_CONNECTED_ACK");
   (PACKET_STREAM_CONNECT_FAIL, "PACKET_STREAM_CONNECT_FAIL");
   (PACKET_STREAM_CONNECT_FAIL_ACK, "PACKET_STREAM_CONNECT_FAIL_ACK");
   (PACKET_STREAM_DATA, "PACKET_STREAM_DATA");
   (PACKET_STREAM_DATA_ACK, "PACKET_STREAM_DATA_ACK");
   (PACKET_STREAM_RESEND, "PACKET_STREAM_RESEND");
   (PACKET_PACKED_CONTROL_BLOCKS, "PACKET_PACKED_CONTROL_BLOCKS");
   (PACKET_STREAM_CLOSE_WRITE, "PACKET_STREAM_CLOSE_WRITE");
   (PACKET_STREAM_CLOSE_WRITE_ACK, "PACKET_STREAM_CLOSE_WRITE_ACK");
   (PACKET_STREAM_CLOSE_READ, "PACKET_STREAM_CLOSE_READ");
   (PACKET_STREAM_CLOSE_READ_ACK, "PACKET_STREAM_CLOSE_READ_ACK");
   (PACKET_STREAM_RST, "PACKET_STREAM_RST");
   (PACKET_STREAM_RST_ACK, "PACKET_STREAM_RST_ACK");
   (PACKET_SOCKS5_SYN, "PACKET_SOCKS5_SYN");
   (PACKET_SOCKS5_SYN_ACK, "PACKET_SOCKS5_SYN_ACK");
   (PACKET_SOCKS5_CONNECT_FAIL, "PACKET_SOCKS5_CONNECT_FAIL");
   (PACKET_SOCKS5_CONNECT_FAIL_ACK, "PACKET_SOCKS5_CONNECT_FAIL_ACK");
   (PACKET_SOCKS5_RULESET_DENIED, "PACKET_SOCKS5_RULESET_DENIED");
   (PACKET_SOCKS5_RULESET_DENIED_ACK, "PACKET_SOCKS5_RULESET_DENIED_ACK");
   (PACKET_SOCKS5_NETWORK_UNREACHABLE, "PACKET_SOCKS5_NETWORK_UNREACHABLE");
   (PACKET_SOCKS5_HOST_UNREACHABLE, "PACKET_SOCKS5_HOST_UNREACHABLE");
   (PACKET_SOCKS5_HOST_UNREACHABLE_ACK, "PACKET_SOCKS5_HOST_UNREACHABLE_ACK");
   (PACKET_SOCKS5_CONNECTION_REFUSED, "PACKET_SOCKS5_CONNECTION_REFUSED");
   (PACKET_SOCKS5_CONNECTION_REFUSED_ACK, "PACKET_SOCKS5_CONNECTION_REFUSED_ACK");
   (PACKET_SOCKS5_TTL_EXPIRED, "PACKET_SOCKS5_TTL_EXPIRED");
   (PACKET_SOCKS5_TTL_EXPIRED_ACK, "PACKET_SOCKS5_TTL_EXPIRED_ACK");
   (PACKET_SOCKS5_COMMAND_UNSUPPORTED, "PACKET_SOCKS5_COMMAND_UNSUPPORTED");
   (PACKET_SOCKS5_COMMAND_UNSUPPORTED_ACK, "PACKET_SOCKS5_COMMAND_UNSUPPORTED_ACK");
   (PACKET_SOCKS5_ADDRESS_TYPE_UNSUPPORTED, "PACKET_SOCKS5_ADDRESS_TYPE_UNSUPPORTED");
   (PACKET_SOCKS5_ADDRESS_TYPE_UNSUPPORTED_ACK, "PACKET_SOCKS5_ADDRESS_TYPE_UNSUPPORTED_ACK");
   (PACKET_SOCKS5_AUTH_FAILED, "PACKET_SOCKS5_AUTH_FAILED");
   (PACKET_SOCKS5_AUTH_FAILED_ACK, "PACKET_SOCKS5_AUTH_FAILED_ACK");
   (PACKET_SOCKS5_UPSTREAM_UNAVAILABLE, "PACKET_SOCKS5_UPSTREAM_UNAVAILABLE");
   (PACKET_SOCKS5_UPSTREAM_UNAVAILABLE_ACK, "PACKET_SOCKS5_UPSTREAM_UNAVAILABLE_ACK");
   (PACKET_SOCKS5_CONNECTED, "PACKET_SOCKS5_CONNECTED");
   (PACKET_SOCKS5_CONNECTED_ACK, "PACKET_SOCKS5_CONNECTED_ACK");
   (PACKET_DNS_QUERY_REQ, "PACKET_DNS_QUERY_REQ");
   (PACKET_DNS_QUERY_RES, "PACKET_DNS_QUERY_RES");
   (PACKET_DNS_QUERY_REQ_ACK, "PACKET_DNS_QUERY_REQ_ACK");
   (PACKET_DNS_QUERY_RES_ACK, "PACKET_DNS_QUERY_RES_ACK");
   (PACKET_SESSION_CLOSE, "PACKET_SESSION_CLOSE");
   (PACKET_SESSION_BUSY, "PACKET_SESSION_BUSY");
   (PACKET_STREAM_DATA_NACK, "PACKET_STREAM_DATA_NACK");
   (PACKET_ERROR_DROP, "PACKET_ERROR_DROP")]%string.

Definition PacketTypeName (packetType : Z) : string :=
  match List.find (fun p => packetType =? p.1) packet_type_names with
  | Some (_, name) => name
  | None => ("PACKET_" +:+ pretty (Z.to_N packetType))%string
  end.

(** What a queue identity is meant to distinguish: the sequence number is part
    of it unless the type is a session control type, the fragment unless the type
    is also a terminal or result type. *)
Definition packet_identity (streamID packetType sequenceNum fragmentID : Z) :
    Z * Z * option Z * option Z :=
  if case_of packetType identity_stream_types then (streamID, packetType, None, None)
  else if case_of packetType identity_seq_types then (streamID, packetType, Some sequenceNum, None)
  else (streamID, packetType, Some sequenceNum, Some fragmentID).

Lemma packetIdentitySeqFrag_arith s t n f :
  u16 s -> u8 t -> u16 n -> u8 f ->
  packetIdentitySeqFrag s t n f = 2 ^ 40 * s + 2 ^ 32 * t + 2 ^ 8 * n + f.
Proof.
  unfold packetIdentitySeqFrag, u8, u16. intros.
  assert (Hshl : forall a n, 0 <= n -> Z.shiftl a n = 2 ^ n * a)
    by (intros; rewrite Z.shiftl_mul_pow2 by lia; lia).
  rewrite (lor_shiftl_disjoint s) by (rewrite ?Hshl; lia).
  replace (2 ^ 40 * s + Z.shiftl t 32) with (Z.shiftl (2 ^ 8 * s + t) 32)
    by (rewrite !Hshl; lia).
  rewrite (lor_shiftl_disjoint (2 ^ 8 * s + t)) by (rewrite ?Hshl; lia).
  replace (2 ^ 32 * (2 ^ 8 * s + t) + Z.shiftl n 8)
    with (Z.shiftl (2 ^ 32 * s + 2 ^ 24 * t + n) 8) by (rewrite !Hshl; lia).
  rewrite lor_shiftl_disjoint by lia. lia.
Qed.

Lemma packetIdentitySeq_frag0 s t n : packetIdentitySeq s t n = packetIdentitySeqFrag s t n 0.
Proof. unfold packetIdentitySeq, packetIdentitySeqFrag. by rewrite Z.lor_0_r. Qed.

Lemma PacketTypeStreamKey_frag0 s t : PacketTypeStreamKey s t = packetIdentitySeqFrag s t 0 0.
Proof.
  unfold PacketTypeStreamKey, packetIdentitySeqFrag.
  by rewrite Z.shiftl_0_l, !Z.lor_0_r.
Qed.

Lemma case_of_In t l : case_of t l = true <-> In t l.
Proof.
  unfold case_of. rewrite existsb_exists. split.
  - intros (x & Hx & He). apply Z.eqb_eq in He. by subst.
  - intros H. exists t. split; [done|apply Z.eqb_refl].
Qed.

(** A key is the identity packed at bits 40, 32, 8 and 0, absent parts as 0. *)
Lemma PacketIdentityKey_packs s t n f :
  u16 s -> u8 t -> u16 n -> u8 f ->
  let '(s', t', on, ofr) := packet_identity s t n f in
  PacketIdentityKey s t n f = 2 ^ 40 * s' + 2 ^ 32 * t' + 2 ^ 8 * default 0 on + default 0 ofr.
Proof.
  intros Hs Ht Hn Hf. unfold packet_identity, PacketIdentityKey.
  destruct (case_of t identity_stream_types) eqn:E1.
  - apply case_of_In in E1. rewrite PacketTypeStreamKey_frag0.
    destruct E1 as [<-|[<-|[]]]; cbn [case_of existsb]; simpl; rewrite packetIdentitySeqFrag_arith;
      unfold u8, u16 in *; try lia; done.
  - destruct (case_of t identity_seq_types) eqn:E2.
    + assert (case_of t identity_seq_frag_types = false) as ->.
      { apply case_of_In in E2. repeat (destruct E2 as [<-|E2]; [reflexivity|]). destruct E2. }
      rewrite packetIdentitySeq_frag0, packetIdentitySeqFrag_arith; unfold u8, u16 in *; simpl; lia.
    + case_if; rewrite packetIdentitySeqFrag_arith by done; simpl; lia.
Qed.

Lemma packet_identity_shape s t n f s' t' n' f' :
  packet_identity s t n f = packet_identity s' t' n' f' <->
  s = s' /\ t = t' /\
  (case_of t identity_stream_types = false -> n = n') /\
  (case_of t identity_stream_types = false -> case_of t identity_seq_types = false -> f = f').
Proof.
  unfold packet_identity. split.
  - repeat case_if; intros; simplify_eq; naive_solver.
  - intros (-> & -> & Hn & Hf). repeat case_if; naive_solver.
Qed.

Lemma PacketIdentityKey_identity s t n f s' t' n' f' :
  u16 s -> u8 t -> u16 n -> u8 f -> u16 s' -> u8 t' -> u16 n' -> u8 f' ->
  PacketIdentityKey s t n f = PacketIdentityKey s' t' n' f' <->
  packet_identity s t n f = packet_identity s' t' n' f'.
Proof.
  intros Hs Ht Hn Hf Hs' Ht' Hn' Hf'.
  pose proof (PacketIdentityKey_packs s t n f Hs Ht Hn Hf) as H.
  pose proof (PacketIdentityKey_packs s' t' n' f' Hs' Ht' Hn' Hf') as H'.
  split.
  - intros E. rewrite E in H. clear E. apply packet_identity_shape.
    unfold packet_identity, u8, u16 in *.
    assert (s = s' /\ t = t') as [-> ->].
    { destruct (case_of t identity_stream_types), (case_of t identity_seq_types),
        (case_of t' identity_stream_types), (case_of t' identity_seq_types);
        cbn [default from_option id] in *; lia. }
    destruct (case_of t' identity_stream_types), (case_of t' identity_seq_types);
      cbn [default from_option id] in *; intuition lia.
  - intros E. rewrite E in H. destruct (packet_identity s' t' n' f') as [[[??]?]?]. congruence.
Qed.

(** C23: two packets get the same transmit-queue key exactly when they have the
    same identity, so the duplicate suppression of the queue neither merges two
    distinct packets nor keeps two copies of one (all fields at their width). *)
Theorem PacketIdentityKey_exact s t n f s' t' n' f' :
  u16 s -> u8 t -> u16 n -> u8 f -> u16 s' -> u8 t' -> u16 n' -> u8 f' ->
  PacketIdentityKey s t n f = PacketIdentityKey s' t' n' f' <->
  packet_identity s t n f = packet_identity s' t' n' f'.
Proof. apply PacketIdentityKey_identity. Qed.

Lemma PacketIdentityKey_exact_witness :
  PacketIdentityKey 3 PACKET_STREAM_DATA 7 0 = PacketIdentityKey 3 PACKET_STREAM_DATA 7 0 <->
  packet_identity 3 PACKET_STREAM_DATA 7 0 = packet_identity 3 PACKET_STREAM_DATA 7 0.
Proof. apply PacketIdentityKey_exact; vm_compute; split; congruence. Defined.

(** the reverse acknowledgement table is the exact inverse of
    [ControlAckPairs], and every stream-closing type has the acknowledgement that
    [ControlAckPairs] gives it. *)
Theorem control_ack_tables_consistent :
  (forall t a, ReverseControlAckFor a = Some t <-> ControlAckFor t = Some a) /\
  (forall t a, GetPacketCloseStream t = Some a -> ControlAckFor t = Some a).
Proof.
  assert (Hinv : forall (m1 m2 : gmap Z Z),
    (forallb (fun '(k, v) => bool_decide (m2 !! v = Some k)) (map_to_list m1)) = true ->
    forall k v, m1 !! k = Some v -> m2 !! v = Some k).
  { intros m1 m2 H k v Hk. rewrite forallb_forall in H.
    specialize (H (k, v)). simpl in H. apply bool_decide_eq_true in H; [done|].
    apply list_elem_of_In, elem_of_map_to_list. done. }
  split.
  - intros t a. unfold ReverseControlAckFor, ControlAckFor. split; apply Hinv; vm_compute; reflexivity.
  - intros t a. unfold GetPacketCloseStream, ControlAckFor. intros H.
    assert (PacketsCloseStream ⊆ ControlAckPairs) as Hsub.
    { apply (bool_decide_eq_true (PacketsCloseStream ⊆ ControlAckPairs)). vm_compute. reflexivity. }
    eapply lookup_weaken; done.
Qed.

Lemma DefaultPacketPriority_range t :
  PacketPriorityCritical <= DefaultPacketPriority t <= PacketPriorityIdle.
Proof. unfold DefaultPacketPriority. repeat case_if; vm_compute; split; congruence. Qed.

(** A normalised priority is a level of the queue, whatever was asked for. *)
Lemma NormalizePacketPriority_range t p :
  0 <= NormalizePacketPriority t p <= 5.
Proof.
  unfold NormalizePacketPriority. case_if; zbool; [done|]. apply DefaultPacketPriority_range.
Qed.
