(* ===== verification/Mlq.v ===== *)
(** * The multi-level transmit queue

    src/masterdns/internal/mlq/mlq.go: six FIFO levels ([container/list]), a
    16-bit mask of the non-empty levels, an atomic size counter and a census that
    finds an element by key.  A [*list.Element] is modelled by its identity and its
    (immutable) value; [list.Remove] removes by identity.  Each operation runs
    under the queue's mutex, so it is one function on the state. *)

From stdpp Require Import base tactics list gmap fin_maps.
From Stdlib Require Import ZArith Lia.
From S2P Require Import Prelude.

(** [x] as an int32. *)
Definition swrap32 (x : Z) : Z := (x + 2147483648) mod 4294967296 - 2147483648.

(** [bits.TrailingZeros16] *)
Fixpoint ctz (bits : nat) (x : Z) : Z :=
  match bits with
  | O => 0
  | S b => if Z.odd x then 0 else 1 + ctz b (Z.div2 x)
  end.
Definition TrailingZeros16 (x : Z) : Z := ctz 16 x.

(** [mask | 1<<p] and [mask &^ 1<<p] on a uint16. *)
Definition set_bit16 (mask p : Z) : Z := wrap16 (Z.lor mask (Z.shiftl 1 p)).
Definition clear_bit16 (mask p : Z) : Z := Z.ldiff mask (Z.shiftl 1 p).

Section mlq.
Context {T : Type}.

Record queueEntry := mkEntry { key : Z; item : T }.

(** A list element: its address and the value stored in it. *)
Record Element := mkElement { elem_id : nat; elem_value : queueEntry }.

Record censusEntry := mkCensus { priority : Z; elem : Element }.

Record MultiLevelQueue := mkMLQ {
  queues : list (list Element);
  bitmask : Z;
  fastSize : Z;
  census : gmap Z censusEntry;
  next_elem : nat   (* allocation counter for element addresses *)
}.

#[export] Instance eta_mlq : Eta MultiLevelQueue :=
  fun m => mkMLQ (queues m) (bitmask m) (fastSize m) (census m) (next_elem m).
#[export] Instance set_queues : Setter queues := ltac:(derive_setter).
#[export] Instance set_bitmask : Setter bitmask := ltac:(derive_setter).
#[export] Instance set_fastSize : Setter fastSize := ltac:(derive_setter).
#[export] Instance set_census : Setter census := ltac:(derive_setter).
#[export] Instance set_next_elem : Setter next_elem := ltac:(derive_setter).

Definition levels : Z := 6.

Definition New : MultiLevelQueue := mkMLQ (replicate 6 []) 0 0 ∅ 0.

(** [m.queues[p].items] *)
Definition items (m : MultiLevelQueue) (p : Z) : list Element :=
  default [] (queues m !! Z.to_nat p).

(** [q.items.Remove(e)] *)
Definition list_remove (e : Element) (q : list Element) : list Element :=
  filter (fun e' => elem_id e' <> elem_id e) q.

(** [q.items.Remove(e); delete(m.census, k); m.fastSize.Add(-1)] and the
    clearing of the level's bit when the level became empty, as the code of
    [popLocked], [RemoveByKey], [PopIf] and [PopAnyIf] does. *)
Definition drop_element (m : MultiLevelQueue) (p k : Z) (e : Element) : MultiLevelQueue :=
  let q := list_remove e (items m p) in
  let m := m <| queues ::= <[Z.to_nat p := q]> |>
             <| census ::= delete k |>
             <| fastSize ::= (fun n => swrap32 (n - 1)) |> in
  if len q =? 0 then m <| bitmask ::= (fun b => clear_bit16 b p) |> else m.

Definition Push (m : MultiLevelQueue) (prio k : Z) (x : T) : bool * MultiLevelQueue :=
  match census m !! k with
  | Some _ => (false, m)
  | None =>
      let prio := if (prio <? 0) || (levels <=? prio) then 3 else prio in
      let e := mkElement (next_elem m) (mkEntry k x) in
      (true,
       m <| queues ::= <[Z.to_nat prio := items m prio ++ [e]]> |>
         <| next_elem ::= S |>
         <| census ::= <[k := mkCensus prio e]> |>
         <| bitmask ::= (fun b => set_bit16 b prio) |>
         <| fastSize ::= (fun n => swrap32 (n + 1)) |>)
  end.

(** The loop of [popLocked]; each iteration that finds an empty level clears one
    bit of the mask, so 17 iterations always reach a result. *)
Fixpoint popLocked_loop (fuel : nat) (m : MultiLevelQueue) : option (T * Z) * MultiLevelQueue :=
  match fuel with
  | O => (None, m)
  | S fuel =>
      if bitmask m =? 0 then (None, m)
      else
        let p := TrailingZeros16 (bitmask m) in
        match items m p with
        | [] => popLocked_loop fuel (m <| bitmask ::= (fun b => clear_bit16 b p) |>)
        | front :: _ =>
            let entry := elem_value front in
            (Some (item entry, p), drop_element m p (key entry) front)
        end
  end.

Definition popLocked : MultiLevelQueue -> option (T * Z) * MultiLevelQueue := popLocked_loop 17.

Definition Pop (m : MultiLevelQueue) : option (T * Z) * MultiLevelQueue := popLocked m.

Fixpoint Peek_loop (fuel : nat) (m : MultiLevelQueue) (tempMask : Z) : option (T * Z) :=
  match fuel with
  | O => None
  | S fuel =>
      if tempMask =? 0 then None
      else
        let p := TrailingZeros16 tempMask in
        match items m p with
        | front :: _ => Some (item (elem_value front), p)
        | [] => Peek_loop fuel m (clear_bit16 tempMask p)
        end
  end.

Definition Peek (m : MultiLevelQueue) : option (T * Z) :=
  if bitmask m =? 0 then None else Peek_loop 17 m (bitmask m).

Definition Get (m : MultiLevelQueue) (k : Z) : option T :=
  match census m !! k with
  | Some c => Some (item (elem_value (elem c)))
  | None => None
  end.

Definition RemoveByKey (m : MultiLevelQueue) (k : Z) : option T * MultiLevelQueue :=
  match census m !! k with
  | None => (None, m)
  | Some c =>
      if (priority c <? 0) || (levels <=? priority c) then (None, m)
      else (Some (item (elem_value (elem c))), drop_element m (priority c) k (elem c))
  end.

Definition Count (m : MultiLevelQueue) (p : Z) : Z :=
  if (p <? 0) || (levels <=? p) then 0 else len (items m p).

Definition Size (m : MultiLevelQueue) : Z := Z.of_nat (size (census m)).

Definition FastSize (m : MultiLevelQueue) : Z := fastSize m.

(** The items handed to the callback, in order, and the emptied queue. *)
Definition Clear (m : MultiLevelQueue) : list T * MultiLevelQueue :=
  (flat_map (map (fun e => item (elem_value e))) (queues m),
   m <| queues ::= map (fun _ => []) |> <| census := ∅ |> <| bitmask := 0 |> <| fastSize := 0 |>).

Definition HighestPriority (m : MultiLevelQueue) : Z :=
  if bitmask m =? 0 then -1 else TrailingZeros16 (bitmask m).

(** A nil predicate accepts every item. *)
Definition accepts (predicate : option (T -> bool)) (x : T) : bool :=
  match predicate with Some f => f x | None => true end.

Definition PopIf (m : MultiLevelQueue) (p : Z) (predicate : option (T -> bool)) :
    option T * MultiLevelQueue :=
  if (bitmask m =? 0) || (p <? 0) || (levels <=? p) then (None, m)
  else if Z.land (bitmask m) (Z.shiftl 1 p) =? 0 then (None, m)
  else match items m p with
       | [] => (None, m <| bitmask ::= (fun b => clear_bit16 b p) |>)
       | front :: _ =>
           let entry := elem_value front in
           if accepts predicate (item entry)
           then (Some (item entry), drop_element m p (key entry) front)
           else (None, m)
       end.

Fixpoint PopAnyIf_loop (fuel : nat) (m : MultiLevelQueue) (maxPriority : Z)
    (predicate : option (T -> bool)) (tempMask : Z) : option T * MultiLevelQueue :=
  match fuel with
  | O => (None, m)
  | S fuel =>
      if tempMask =? 0 then (None, m)
      else
        let p := TrailingZeros16 tempMask in
        if maxPriority <? p then (None, m)
        else match List.find (fun e => accepts predicate (item (elem_value e))) (items m p) with
             | Some e =>
                 let entry := elem_value e in
                 (Some (item entry), drop_element m p (key entry) e)
             | None => PopAnyIf_loop fuel m maxPriority predicate (clear_bit16 tempMask p)
             end
  end.

Definition PopAnyIf (m : MultiLevelQueue) (maxPriority : Z) (predicate : option (T -> bool)) :
    option T * MultiLevelQueue :=
  if bitmask m =? 0 then (None, m) else PopAnyIf_loop 17 m maxPriority predicate (bitmask m).
End mlq.

Arguments queueEntry : clear implicits.
Arguments Element : clear implicits.
Arguments censusEntry : clear implicits.
Arguments MultiLevelQueue : clear implicits.

(** ** Abstract specification: a list sorted by level, FIFO inside a level *)

Module Spec.
(** Level, key and item of each queued packet. *)
Abbreviation pq T := (list (Z * Z * T)).

Section spec.
Context {T : Type}.

(** The first element satisfying [P], and the list without it. *)
Fixpoint extract {A} (P : A -> bool) (l : list A) : option (A * list A) :=
  match l with
  | [] => None
  | x :: l =>
      if P x then Some (x, l)
      else match extract P l with Some (y, l') => Some (y, x :: l') | None => None end
  end.

Definition prio (x : Z * Z * T) : Z := x.1.1.
Definition pkey (x : Z * Z * T) : Z := x.1.2.

Definition take_first (P : Z * Z * T -> bool) (l : pq T) : option T * pq T :=
  match extract P l with Some (x, l') => (Some x.2, l') | None => (None, l) end.

Definition push (l : pq T) (p k : Z) (x : T) : bool * pq T :=
  if existsb (fun y => pkey y =? k) l then (false, l)
  else
    let p := if (p <? 0) || (6 <=? p) then 3 else p in
    (true, filter (fun y => prio y <= p) l ++ (p, k, x) :: filter (fun y => ~ prio y <= p) l).

Definition pop (l : pq T) : option (T * Z) * pq T :=
  match l with [] => (None, []) | (p, _, x) :: l' => (Some (x, p), l') end.

Definition peek (l : pq T) : option (T * Z) := (pop l).1.

Definition get (l : pq T) (k : Z) : option T := (take_first (fun y => pkey y =? k) l).1.

Definition remove_by_key (l : pq T) (k : Z) : option T * pq T := take_first (fun y => pkey y =? k) l.

Definition pop_any_if (l : pq T) (maxp : Z) (f : option (T -> bool)) : option T * pq T :=
  take_first (fun y => (prio y <=? maxp) && accepts f y.2) l.

Definition pop_if (l : pq T) (p : Z) (f : option (T -> bool)) : option T * pq T :=
  match extract (fun y => prio y =? p) l with
  | Some (x, l') => if accepts f x.2 then (Some x.2, l') else (None, l)
  | None => (None, l)
  end.

Definition clear (l : pq T) : list T * pq T := (map (fun y => y.2) l, []).

Definition count (l : pq T) (p : Z) : Z := len (filter (fun y => prio y = p) l).

Definition highest (l : pq T) : Z := match l with [] => -1 | y :: _ => prio y end.
End spec.
End Spec.

(** ** Sequences of calls *)

Section runs.
Context {T : Type}.

Inductive op :=
  | OpPush (p k : Z) (x : T)
  | OpPop
  | OpPeek
  | OpGet (k : Z)
  | OpRemoveByKey (k : Z)
  | OpPopIf (p : Z) (predicate : option (T -> bool))
  | OpPopAnyIf (maxPriority : Z) (predicate : option (T -> bool))
  | OpClear
  | OpCount (p : Z)
  | OpSize
  | OpFastSize
  | OpHighestPriority.

(** What a call returns. *)
Inductive answer :=
  | AFlag (b : bool)
  | APop (r : option (T * Z))
  | AItem (r : option T)
  | AItems (l : list T)
  | ANum (n : Z).

Definition on_fst {A B C} (f : A -> C) (x : A * B) : C * B := (f x.1, x.2).

(** One call on the implementation, and on the specification. *)
Definition call (m : MultiLevelQueue T) (o : op) : answer * MultiLevelQueue T :=
  match o with
  | OpPush p k x => on_fst AFlag (Push m p k x)
  | OpPop => on_fst APop (Pop m)
  | OpPeek => (APop (Peek m), m)
  | OpGet k => (AItem (Get m k), m)
  | OpRemoveByKey k => on_fst AItem (RemoveByKey m k)
  | OpPopIf p f => on_fst AItem (PopIf m p f)
  | OpPopAnyIf p f => on_fst AItem (PopAnyIf m p f)
  | OpClear => on_fst AItems (Clear m)
  | OpCount p => (ANum (Count m p), m)
  | OpSize => (ANum (Size m), m)
  | OpFastSize => (ANum (FastSize m), m)
  | OpHighestPriority => (ANum (HighestPriority m), m)
  end.

Definition spec_call (l : Spec.pq T) (o : op) : answer * Spec.pq T :=
  match o with
  | OpPush p k x => on_fst AFlag (Spec.push l p k x)
  | OpPop => on_fst APop (Spec.pop l)
  | OpPeek => (APop (Spec.peek l), l)
  | OpGet k => (AItem (Spec.get l k), l)
  | OpRemoveByKey k => on_fst AItem (Spec.remove_by_key l k)
  | OpPopIf p f => on_fst AItem (Spec.pop_if l p f)
  | OpPopAnyIf p f => on_fst AItem (Spec.pop_any_if l p f)
  | OpClear => on_fst AItems (Spec.clear l)
  | OpCount p => (ANum (Spec.count l p), l)
  | OpSize => (ANum (len l), l)
  | OpFastSize => (ANum (swrap32 (len l)), l)
  | OpHighestPriority => (ANum (Spec.highest l), l)
  end.

Fixpoint run {S} (f : S -> op -> answer * S) (s : S) (os : list op) : list answer * S :=
  match os with
  | [] => ([], s)
  | o :: os =>
      let '(a, s) := f s o in
      let '(l, s) := run f s os in (a :: l, s)
  end.
End runs.

Arguments op : clear implicits.
Arguments answer : clear implicits.

(** ** Bits of the level mask *)

Lemma ctz_spec (b : nat) (x : Z) :
  0 <= x < 2 ^ Z.of_nat b -> x <> 0 ->
  0 <= ctz b x < Z.of_nat b /\ Z.testbit x (ctz b x) = true /\
  (forall i, 0 <= i < ctz b x -> Z.testbit x i = false).
Proof.
  revert x. induction b as [|b IH]; intros x Hx Hnz; simpl ctz.
  { simpl in Hx. lia. }
  destruct (Z.odd x) eqn:Ho.
  { split; [lia|]. split; [by rewrite Z.bit0_odd|]. intros; lia. }
  assert (Hd : x = 2 * Z.div2 x).
  { pose proof (Z.div2_odd x) as Hx2. rewrite Ho in Hx2. simpl in Hx2. lia. }
  rewrite Nat2Z.inj_succ, Z.pow_succ_r in Hx by lia.
  destruct (IH (Z.div2 x)) as (H1 & H2 & H3); [lia|lia|].
  assert (Hbit : forall i, 0 <= i -> Z.testbit x (1 + i) = Z.testbit (Z.div2 x) i).
  { intros i Hi. rewrite Hd at 1. replace (1 + i) with (Z.succ i) by lia.
    by rewrite Z.testbit_even_succ. }
  split; [lia|]. split; [by rewrite Hbit by lia|].
  intros i Hi. destruct (decide (i = 0)) as [->|]; [by rewrite Z.bit0_odd|].
  replace i with (1 + (i - 1)) by lia. rewrite Hbit by lia. apply H3. lia.
Qed.

Lemma testbit_clear_bit16 m p i :
  0 <= p -> 0 <= i -> Z.testbit (clear_bit16 m p) i = Z.testbit m i && negb (i =? p).
Proof.
  intros. unfold clear_bit16. rewrite Z.ldiff_spec, Z.shiftl_1_l, Z.pow2_bits_eqb by lia.
  by rewrite (Z.eqb_sym p i).
Qed.

Lemma testbit_set_bit16 m p i :
  0 <= p < 16 -> 0 <= m < 65536 -> 0 <= i ->
  Z.testbit (set_bit16 m p) i = Z.testbit m i || (i =? p).
Proof.
  intros Hp Hm Hi. unfold set_bit16, wrap16. change 65536 with (2 ^ 16) in *.
  assert (Hhigh : forall j, 16 <= j -> Z.testbit m j = false).
  { intros j Hj. rewrite <- (Z.mod_small m (2 ^ 16)) by lia. apply Z.mod_pow2_bits_high. lia. }
  destruct (Z.ltb_spec i 16).
  - rewrite Z.mod_pow2_bits_low, Z.lor_spec, Z.shiftl_1_l, Z.pow2_bits_eqb by lia.
    by rewrite (Z.eqb_sym p i).
  - rewrite Z.mod_pow2_bits_high, Hhigh by lia. symmetry. apply Z.eqb_neq. lia.
Qed.

Lemma set_bit16_range m p : 0 <= set_bit16 m p < 65536.
Proof. unfold set_bit16. apply u16_wrap16. Qed.

Lemma bits_bound v n :
  0 <= n -> 0 <= v -> (forall i, n <= i -> Z.testbit v i = false) -> v < 2 ^ n.
Proof.
  intros Hn Hv Hb. assert (v = v mod 2 ^ n) as ->.
  { apply Z.bits_inj'. intros i Hi. destruct (Z.ltb_spec i n).
    - by rewrite Z.mod_pow2_bits_low by lia.
    - by rewrite Z.mod_pow2_bits_high, Hb by lia. }
  apply Z.mod_pos_bound. lia.
Qed.

Lemma clear_bit16_range m p : 0 <= p -> 0 <= m < 65536 -> 0 <= clear_bit16 m p < 65536.
Proof.
  intros Hp Hm. assert (0 <= clear_bit16 m p) by (apply Z.ldiff_nonneg; lia).
  split; [done|]. change 65536 with (2 ^ 16) in *. apply bits_bound; [lia..|].
  intros i Hi. rewrite testbit_clear_bit16 by lia.
  rewrite <- (Z.mod_small m (2 ^ 16)) by lia. by rewrite Z.mod_pow2_bits_high by lia.
Qed.

Lemma mask_zero m : 0 <= m -> (forall i, 0 <= i -> Z.testbit m i = false) -> m = 0.
Proof. intros. apply Z.bits_inj'. intros. rewrite Z.bits_0. auto. Qed.

(** ** Invariant and refinement *)

Section refinement.
Context {T : Type}.
Implicit Types (m : MultiLevelQueue T) (e : Element T) (q : list (Element T)).

Abbreviation ekey e := (key (elem_value e)).
Abbreviation eitem e := (item (elem_value e)).

(** The abstract queue a list of levels stands for, the first level being [p]. *)
Definition view (p : Z) (e : Element T) : Z * Z * T := (p, ekey e, eitem e).

Fixpoint absl (p : Z) (qs : list (list (Element T))) : Spec.pq T :=
  match qs with
  | [] => []
  | q :: qs => map (view p) q ++ absl (p + 1) qs
  end.

Definition abs m : Spec.pq T := absl 0 (queues m).

Record wf m : Prop := {
  wf_levels : length (queues m) = 6%nat;
  wf_mask_range : 0 <= bitmask m < 65536;
  wf_mask : forall p, 0 <= p -> Z.testbit (bitmask m) p = negb (len (items m p) =? 0);
  wf_census : forall k c, census m !! k = Some c <->
    0 <= priority c < 6 /\ elem c ∈ items m (priority c) /\ ekey (elem c) = k;
  wf_fresh : forall e, e ∈ concat (queues m) -> (elem_id e < next_elem m)%nat;
  wf_ids : NoDup (map elem_id (concat (queues m)));
  wf_keys : NoDup (map (fun e => ekey e) (concat (queues m)));
  wf_size : size (census m) = length (concat (queues m));
  wf_fast : fastSize m = swrap32 (Size m)
}.

Lemma items_out m p : length (queues m) = 6%nat -> 6 <= p -> items m p = [].
Proof.
  intros H Hp. unfold items. rewrite (lookup_ge_None_2 (queues m)); [done|lia].
Qed.

Lemma items_split m p :
  length (queues m) = 6%nat -> 0 <= p < 6 ->
  exists l1 l2, queues m = l1 ++ items m p :: l2 /\ length l1 = Z.to_nat p.
Proof.
  intros Hl Hp. unfold items.
  destruct (lookup_lt_is_Some_2 (queues m) (Z.to_nat p)) as [q Hq]; [lia|].
  rewrite Hq. exists (take (Z.to_nat p) (queues m)), (drop (S (Z.to_nat p)) (queues m)).
  split; [symmetry; by apply take_drop_middle|]. rewrite length_take. lia.
Qed.

Lemma insert_middle (l1 l2 : list (list (Element T))) q q' i :
  length l1 = i -> <[i := q']> (l1 ++ q :: l2) = l1 ++ q' :: l2.
Proof. intros <-. rewrite <- (Nat.add_0_r (length l1)), insert_app_r. done. Qed.

Lemma absl_app p l1 l2 : absl p (l1 ++ l2) = absl p l1 ++ absl (p + len l1) l2.
Proof.
  revert p. induction l1 as [|q l1 IH]; intros p; simpl.
  - rewrite len_nil, Z.add_0_r. done.
  - rewrite IH, len_cons, app_assoc.
    replace (p + 1 + len l1) with (p + (1 + len l1)) by lia. done.
Qed.

Lemma absl_prio p qs : Forall (fun y => p <= Spec.prio y < p + len qs) (absl p qs).
Proof.
  revert p. induction qs as [|q qs IH]; intros p; simpl; [constructor|].
  rewrite len_cons. pose proof (len_nonneg qs). apply Forall_app. split.
  - apply Forall_map, Forall_true. intros e. unfold Spec.prio; simpl. lia.
  - eapply Forall_impl; [apply IH|]. simpl. intros; lia.
Qed.

Lemma absl_keys p qs : map Spec.pkey (absl p qs) = map (fun e => ekey e) (concat qs).
Proof.
  revert p. induction qs as [|q qs IH]; intros p; simpl; [done|].
  rewrite !map_app, IH, map_map. done.
Qed.

Lemma absl_elem p qs y : y ∈ absl p qs ->
  exists e i, e ∈ concat qs /\ y = view i e.
Proof.
  revert p. induction qs as [|q qs IH]; intros p; simpl; [set_solver|].
  rewrite !elem_of_app. intros [Hy|Hy].
  - apply list_elem_of_fmap in Hy as (e & -> & He). exists e, p. rewrite elem_of_app. auto.
  - destruct (IH _ Hy) as (e & i & He & ->). exists e, i. rewrite elem_of_app. auto.
Qed.

Lemma elem_items_concat m p e :
  e ∈ items m p -> e ∈ concat (queues m).
Proof.
  unfold items. destruct (queues m !! Z.to_nat p) as [q|] eqn:Hq; simpl; [|set_solver].
  intros He. apply list_elem_of_In, in_concat. exists q.
  split; [apply list_elem_of_In; by eapply list_elem_of_lookup_2|by apply list_elem_of_In].
Qed.

Lemma items_insert m p p' q :
  length (queues m) = 6%nat -> 0 <= p < 6 -> 0 <= p' ->
  default [] (<[Z.to_nat p := q]> (queues m) !! Z.to_nat p') =
  if p' =? p then q else items m p'.
Proof.
  intros. destruct (Z.eqb_spec p' p) as [->|].
  - rewrite list_lookup_insert_eq by lia. done.
  - rewrite list_lookup_insert_ne by lia. done.
Qed.

(** The lowest set bit of the mask names the first non-empty level. *)
Lemma first_level m :
  wf m -> bitmask m <> 0 ->
  let p := TrailingZeros16 (bitmask m) in
  0 <= p < 6 /\ items m p <> [] /\ forall i, 0 <= i < p -> items m i = [].
Proof.
  intros W Hnz p. pose proof (wf_mask_range _ W).
  destruct (ctz_spec 16 (bitmask m)) as (H1 & H2 & H3); [simpl; lia|done|].
  fold (TrailingZeros16 (bitmask m)) in H1, H2, H3. fold p in H1, H2, H3.
  rewrite (wf_mask _ W) in H2 by lia.
  assert (items m p <> []) as Hne by (intros Hi; rewrite Hi in H2; done).
  split; [|split; [done|]].
  - destruct (Z.ltb_spec p 6); [lia|]. rewrite items_out in Hne by (apply W || lia). done.
  - intros i Hi. specialize (H3 i Hi). rewrite (wf_mask _ W) in H3 by lia.
    destruct (items m i); done.
Qed.

Lemma list_remove_middle q1 q2 e :
  NoDup (map elem_id (q1 ++ e :: q2)) -> list_remove e (q1 ++ e :: q2) = q1 ++ q2.
Proof.
  rewrite map_app, NoDup_app. simpl. rewrite NoDup_cons. intros (_ & H1 & H2 & _).
  unfold list_remove. rewrite filter_app, filter_cons_False by (intros []; done).
  assert (Hf : forall l : list (Element T), elem_id e ∉ map elem_id l ->
    filter (fun e' => elem_id e' <> elem_id e) l = l).
  { induction l as [|x l IH]; [done|]. simpl. rewrite not_elem_of_cons. intros [? ?].
    rewrite filter_cons_True by congruence. f_equal. auto. }
  rewrite !Hf; [done|done|]. intros Hi. apply (H1 (elem_id e) Hi). left.
Qed.

(** Removing the element [e] of level [p]: the invariant is kept and the
    abstract queue loses exactly that element. *)
Lemma drop_element_correct m p e q1 q2 :
  wf m -> 0 <= p < 6 -> items m p = q1 ++ e :: q2 ->
  let m' := drop_element m p (ekey e) e in
  wf m' /\
  exists l1 l2, length l1 = Z.to_nat p /\ queues m = l1 ++ (q1 ++ e :: q2) :: l2 /\
    queues m' = l1 ++ (q1 ++ q2) :: l2.
Proof.
  intros W Hp Hq m'.
  destruct (items_split m p (wf_levels _ W) Hp) as (l1 & l2 & Hs & Hl). rewrite Hq in Hs.
  pose proof (wf_ids _ W) as Hids. rewrite Hs, concat_app in Hids. simpl in Hids.
  assert (Hrm : list_remove e (items m p) = q1 ++ q2).
  { rewrite Hq. apply list_remove_middle.
    rewrite !map_app, !NoDup_app in Hids. rewrite map_app, NoDup_app. tauto. }
  assert (Hqs : queues m' = l1 ++ (q1 ++ q2) :: l2).
  { unfold m', drop_element. rewrite Hrm. case_if; simpl; rewrite Hs; by apply insert_middle. }
  assert (Hcen : census m' = delete (ekey e) (census m)).
  { unfold m', drop_element. case_if; done. }
  assert (Hperm : concat (queues m) ≡ₚ e :: concat (queues m')).
  { rewrite Hs, Hqs, !concat_app. simpl. solve_Permutation. }
  assert (Hin : census m !! ekey e = Some (mkCensus p e)).
  { apply (wf_census _ W). simpl. split; [done|]. split; [|done]. rewrite Hq. set_solver. }
  assert (Hit : forall i, 0 <= i -> items m' i = if i =? p then q1 ++ q2 else items m i).
  { intros i Hi. unfold items at 1. unfold m', drop_element.
    rewrite <- (items_insert m p i (q1 ++ q2)) by (apply W || done).
    rewrite Hrm. case_if; done. }
  split; [|eauto].
  pose proof (wf_keys _ W) as Hkeys. rewrite Hperm in Hkeys.
  clear Hids. pose proof (wf_ids _ W) as Hids. rewrite Hperm in Hids.
  simpl in Hkeys, Hids. apply NoDup_cons in Hkeys as [Hk1 Hk2], Hids as [Hi1 Hi2].
  assert (Hsz : size (census m') = length (concat (queues m'))).
  { rewrite Hcen, map_size_delete_Some by eauto. rewrite (wf_size _ W), Hperm. done. }
  split; try done.
  - rewrite Hqs, <- (wf_levels _ W), Hs, !length_app. done.
  - unfold m', drop_element. pose proof (wf_mask_range _ W).
    case_if; simpl; [apply clear_bit16_range; lia|done].
  - intros i Hi. rewrite Hit by done. unfold m', drop_element. rewrite Hrm.
    destruct (len (q1 ++ q2) =? 0) eqn:E; simpl.
    + rewrite testbit_clear_bit16, (wf_mask _ W) by lia.
      destruct (Z.eqb_spec i p); [|by rewrite andb_true_r]. rewrite andb_false_r, E. done.
    + rewrite (wf_mask _ W) by lia. destruct (Z.eqb_spec i p) as [->|]; [|done].
      rewrite E, Hq. unfold len. rewrite length_app. simpl.
      apply negb_true_iff, Z.eqb_neq. lia.
  - intros k c. rewrite Hcen, lookup_delete_Some, (wf_census _ W).
    split.
    + intros (Hne & H1 & H2 & H3). split; [done|]. split; [|done].
      rewrite Hit by lia. destruct (Z.eqb_spec (priority c) p) as [Hpc|]; [|done].
      rewrite Hpc, Hq in H2. apply elem_of_app. apply elem_of_app in H2.
      destruct H2 as [|H2]; [auto|]. apply elem_of_cons in H2 as [Heq|]; [|auto].
      rewrite Heq in H3. congruence.
    + intros (H1 & H2 & H3).
      assert (elem c ∈ concat (queues m')) as Hc by (by eapply elem_items_concat).
      rewrite Hit in H2 by lia. split; [|split; [done|split; [|done]]].
      * intros <-. apply Hk1. rewrite <- H3. by apply (list_elem_of_fmap_2 (fun e => ekey e)).
      * destruct (Z.eqb_spec (priority c) p) as [->|]; [|done]. rewrite Hq. set_solver.
  - intros e' He'. unfold m', drop_element.
    assert (elem_id e' < next_elem m)%nat; [|case_if; done].
    apply (wf_fresh _ W). rewrite Hperm. by right.
  - unfold Size. rewrite Hcen. unfold m', drop_element.
    rewrite map_size_delete_Some by eauto.
    assert (0 < size (census m))%nat by (rewrite (wf_size _ W), Hperm; simpl; lia).
    assert (swrap32 (fastSize m - 1) = swrap32 (Z.of_nat (Nat.pred (size (census m))))) as Hw.
    { rewrite (wf_fast _ W). unfold Size, swrap32.
      replace (Z.of_nat (Nat.pred (size (census m)))) with (Z.of_nat (size (census m)) - 1) by lia.
      set (x := Z.of_nat (size (census m))).
      pose proof (Zminus_mod_idemp_l (x + 2147483648) 1 4294967296) as Hmod.
      replace ((x + 2147483648) mod 4294967296 - 2147483648 - 1 + 2147483648)
        with ((x + 2147483648) mod 4294967296 - 1) by lia.
      rewrite Hmod. do 2 f_equal. lia. }
    case_if; done.
Qed.

(** The abstract queue around level [p]. *)
Lemma abs_level m p l1 l2 q :
  queues m = l1 ++ q :: l2 -> length l1 = Z.to_nat p -> 0 <= p ->
  abs m = absl 0 l1 ++ map (view p) q ++ absl (p + 1) l2.
Proof.
  intros Hs Hl Hp. unfold abs. rewrite Hs, absl_app. simpl.
  replace (len l1) with p by (unfold len; lia). done.
Qed.

Lemma abs_around m p l1 l2 q1 e q2 :
  queues m = l1 ++ (q1 ++ e :: q2) :: l2 -> length l1 = Z.to_nat p -> 0 <= p ->
  abs m = (absl 0 l1 ++ map (view p) q1) ++ view p e :: (map (view p) q2 ++ absl (p + 1) l2).
Proof.
  intros Hs Hl Hp. rewrite (abs_level m p l1 l2 _ Hs Hl Hp).
  by rewrite map_app, <- !app_assoc.
Qed.

Lemma levels_empty m p l1 l2 q :
  queues m = l1 ++ q :: l2 -> length l1 = Z.to_nat p ->
  (forall i, 0 <= i < p -> items m i = []) -> absl 0 l1 = [].
Proof.
  intros Hs Hl He.
  assert (Hall : Forall (fun q => q = []) l1).
  { apply Forall_lookup. intros i x Hx.
    pose proof (lookup_lt_Some _ _ _ Hx) as Hlt.
    specialize (He (Z.of_nat i) ltac:(lia)). unfold items in He.
    rewrite Nat2Z.id, Hs, lookup_app_l, Hx in He by lia. done. }
  clear Hs Hl He. generalize 0. induction Hall as [|x l -> _ IH]; intros z; simpl; [done|apply IH].
Qed.

Lemma mask0_abs m : wf m -> bitmask m = 0 -> abs m = [].
Proof.
  intros W H0. unfold abs.
  assert (He : forall i, 0 <= i -> items m i = []).
  { intros i Hi. pose proof (wf_mask _ W i Hi) as Hb. rewrite H0, Z.bits_0 in Hb.
    destruct (items m i); done. }
  destruct (items_split m 5 (wf_levels _ W)) as (l1 & l2 & Hs & Hl); [lia|].
  assert (l2 = []) as ->.
  { pose proof (wf_levels _ W) as H6. rewrite Hs, length_app, Hl in H6. simpl in H6.
    destruct l2; simpl in H6; [done|lia]. }
  rewrite Hs, He by lia. rewrite absl_app.
  rewrite (levels_empty m 5 l1 [] (items m 5)); [done|done|done|]. intros; apply He; lia.
Qed.

Lemma extract_split {A} (P : A -> bool) l1 x l2 :
  P x = true -> Forall (fun y => P y = false) l1 ->
  Spec.extract P (l1 ++ x :: l2) = Some (x, l1 ++ l2).
Proof.
  intros Hx Hall. induction Hall as [|y l Hy _ IH]; simpl; [by rewrite Hx|].
  rewrite Hy, IH. done.
Qed.

Lemma extract_none {A} (P : A -> bool) l :
  Forall (fun y => P y = false) l -> Spec.extract P l = None.
Proof. induction 1 as [|y l Hy _ IH]; simpl; [done|]. rewrite Hy, IH. done. Qed.

(** Dequeuing the element [e] of level [p] is what the specification does when
    [e] is the first one its test [P] accepts. *)
Lemma drop_element_refines m p e q1 q2 (P : Z * Z * T -> bool) :
  wf m -> 0 <= p < 6 -> items m p = q1 ++ e :: q2 -> P (view p e) = true ->
  (forall l1 l2, queues m = l1 ++ items m p :: l2 -> length l1 = Z.to_nat p ->
     Forall (fun y => P y = false) (absl 0 l1 ++ map (view p) q1)) ->
  wf (drop_element m p (ekey e) e) /\
  Spec.extract P (abs m) = Some (view p e, abs (drop_element m p (ekey e) e)).
Proof.
  intros W Hp Hq HP Hbefore.
  destruct (drop_element_correct m p e q1 q2 W Hp Hq) as (W' & l1 & l2 & Hl & Hs & Hs').
  split; [done|].
  rewrite (abs_around m p l1 l2 q1 e q2 Hs Hl) by lia.
  rewrite extract_split; [|done|by apply (Hbefore l1 l2); [rewrite Hq|]].
  rewrite (abs_level _ p l1 l2 _ Hs' Hl) by lia. by rewrite map_app, <- !app_assoc.
Qed.

Lemma extract_head l y l' :
  Spec.extract (fun _ : Z * Z * T => true) l = Some (y, l') -> l = y :: l'.
Proof. destruct l; simpl; naive_solver. Qed.

Lemma popLocked_nonempty m e q :
  bitmask m <> 0 -> items m (TrailingZeros16 (bitmask m)) = e :: q ->
  popLocked m = (Some (eitem e, TrailingZeros16 (bitmask m)),
                 drop_element m (TrailingZeros16 (bitmask m)) (ekey e) e).
Proof.
  intros Hnz Hq. unfold popLocked. generalize 16%nat. intros n. cbn [popLocked_loop].
  destruct (Z.eqb_spec (bitmask m) 0); [done|]. by rewrite Hq.
Qed.

Lemma popLocked_zero m : bitmask m = 0 -> popLocked m = (None, m).
Proof.
  intros H. unfold popLocked. generalize 16%nat. intros n. cbn [popLocked_loop].
  by rewrite H.
Qed.

Lemma Pop_refines m :
  wf m -> wf (Pop m).2 /\ Spec.pop (abs m) = ((Pop m).1, abs (Pop m).2).
Proof.
  intros W. unfold Pop. destruct (Z.eqb_spec (bitmask m) 0) as [H0|Hnz].
  { rewrite popLocked_zero, mask0_abs by done. cbn [fst snd]. by rewrite mask0_abs. }
  destruct (first_level m W Hnz) as (Hp & Hne & Hlow).
  destruct (items m (TrailingZeros16 (bitmask m))) as [|e q] eqn:Hq; [done|].
  rewrite (popLocked_nonempty m e q Hnz Hq). cbn [fst snd].
  set (p := TrailingZeros16 (bitmask m)) in *.
  destruct (drop_element_refines m p e [] q (fun _ => true) W Hp Hq eq_refl) as [W' Habs].
  { intros l1 l2 Hs Hl. rewrite (levels_empty m p l1 l2 _ Hs Hl Hlow). constructor. }
  split; [done|]. apply extract_head in Habs. rewrite Habs at 1. done.
Qed.

Lemma Peek_refines m : wf m -> Spec.peek (abs m) = Peek m.
Proof.
  intros W. unfold Spec.peek. rewrite (proj2 (Pop_refines m W)). cbn [fst].
  unfold Peek, Pop. destruct (Z.eqb_spec (bitmask m) 0) as [H0|Hnz].
  { by rewrite popLocked_zero. }
  destruct (first_level m W Hnz) as (_ & Hne & _).
  destruct (items m (TrailingZeros16 (bitmask m))) as [|e q] eqn:Hq; [done|].
  rewrite (popLocked_nonempty m e q Hnz Hq). generalize 16%nat. intros n. cbn [Peek_loop].
  destruct (Z.eqb_spec (bitmask m) 0); [done|]. by rewrite Hq.
Qed.

(** A key queued at level [p] is the first occurrence of that key. *)
Lemma RemoveByKey_refines m k :
  wf m -> wf (RemoveByKey m k).2 /\
  Spec.remove_by_key (abs m) k = ((RemoveByKey m k).1, abs (RemoveByKey m k).2).
Proof.
  intros W. unfold RemoveByKey, Spec.remove_by_key, Spec.take_first.
  pose proof (absl_keys 0 (queues m)) as Hkeys. fold (abs m) in Hkeys.
  destruct (census m !! k) as [c|] eqn:Hc.
  - apply (wf_census _ W) in Hc as (Hp & Hin & <-).
    replace (priority c <? 0) with false by (symmetry; apply Z.ltb_ge; lia).
    replace (levels <=? priority c) with false by (symmetry; apply Z.leb_gt; unfold levels; lia).
    cbn [orb fst snd]. apply list_elem_of_split in Hin as (q1 & q2 & Hq).
    destruct (drop_element_refines m (priority c) (elem c) q1 q2
      (fun y => Spec.pkey y =? ekey (elem c)) W Hp Hq) as [W' Habs].
    { unfold Spec.pkey, view; simpl. apply Z.eqb_refl. }
    { intros l1 l2 Hs Hl. apply Forall_forall. intros y Hy. apply Z.eqb_neq. intros Heq.
      pose proof (wf_keys _ W) as Hnd. rewrite <- Hkeys in Hnd.
      rewrite Hq in Hs. rewrite (abs_around m _ l1 l2 q1 _ q2 Hs Hl) in Hnd by lia.
      rewrite map_app, map_cons, NoDup_app in Hnd. destruct Hnd as (_ & Hd & _).
      apply (Hd (Spec.pkey y)); [by apply list_elem_of_fmap_2|].
      rewrite Heq. left. }
    rewrite Habs. done.
  - cbn [fst snd]. split; [done|]. rewrite extract_none; [done|].
    apply Forall_forall. intros y Hy. apply Z.eqb_neq. intros Heq.
    assert (Hky : k ∈ map Spec.pkey (abs m)) by (rewrite <- Heq; by apply list_elem_of_fmap_2).
    rewrite Hkeys in Hky. apply list_elem_of_fmap in Hky as (e & -> & He).
    apply list_elem_of_In, in_concat in He as (q & Hq & He).
    apply list_elem_of_In, list_elem_of_lookup in Hq as (i & Hi).
    assert (Hc' : census m !! ekey e = Some (mkCensus (Z.of_nat i) e)); [|congruence].
    apply (wf_census _ W). simpl. unfold items. rewrite Nat2Z.id, Hi. simpl.
    apply lookup_lt_Some in Hi. rewrite (wf_levels _ W) in Hi.
    split; [lia|]. split; [|done]. by apply list_elem_of_In.
Qed.

Lemma Get_refines m k : wf m -> Spec.get (abs m) k = Get m k.
Proof.
  intros W. unfold Spec.get. fold (Spec.remove_by_key (abs m) k).
  rewrite (proj2 (RemoveByKey_refines m k W)). cbn [fst]. unfold RemoveByKey, Get.
  destruct (census m !! k) as [c|] eqn:Hc; [|done].
  apply (wf_census _ W) in Hc as (Hp & _).
  replace (priority c <? 0) with false by (symmetry; apply Z.ltb_ge; lia).
  replace (levels <=? priority c) with false by (symmetry; apply Z.leb_gt; unfold levels; lia).
  done.
Qed.

Lemma swrap32_step x d : swrap32 (swrap32 x + d) = swrap32 (x + d).
Proof.
  unfold swrap32.
  replace ((x + 2147483648) mod 4294967296 - 2147483648 + d + 2147483648)
    with ((x + 2147483648) mod 4294967296 + d) by lia.
  rewrite Zplus_mod_idemp_l. do 2 f_equal. lia.
Qed.

Lemma swrap32_id x : - 2147483648 <= x < 2147483648 -> swrap32 x = x.
Proof. intros. unfold swrap32. rewrite Z.mod_small by lia. lia. Qed.

Lemma key_census m k : wf m -> existsb (fun y => Spec.pkey y =? k) (abs m) = bool_decide (is_Some (census m !! k)).
Proof.
  intros W. pose proof (Get_refines m k W) as H. unfold Spec.get, Spec.take_first, Get in H.
  assert (Hex : existsb (fun y => Spec.pkey y =? k) (abs m) =
    match Spec.extract (fun y => Spec.pkey y =? k) (abs m) with Some _ => true | None => false end).
  { generalize (abs m) as l0. induction l0 as [|y l IH]; simpl; [done|].
    destruct (Spec.pkey y =? k); simpl; [done|]. rewrite IH.
    destruct (Spec.extract _ l) as [[??]|]; done. }
  rewrite Hex. destruct (Spec.extract _ (abs m)) as [[??]|]; destruct (census m !! k); simpl in *; done.
Qed.

Lemma absl_filter_le p l1 q l2 :
  len l1 = p ->
  filter (fun y => Spec.prio y <= p) (absl 0 l1 ++ map (view p) q ++ absl (p + 1) l2) =
    absl 0 l1 ++ map (view p) q /\
  filter (fun y => ~ Spec.prio y <= p) (absl 0 l1 ++ map (view p) q ++ absl (p + 1) l2) =
    absl (p + 1) l2.
Proof.
  intros Hl. pose proof (absl_prio 0 l1) as H1. pose proof (absl_prio (p + 1) l2) as H2.
  assert (Hq : Forall (fun y => Spec.prio y <= p) (map (view p) q)).
  { apply Forall_map, Forall_true. intros e. unfold Spec.prio. simpl. lia. }
  rewrite !filter_app. split.
  - rewrite (list_filter_all _ (absl 0 l1)), (list_filter_all _ (map (view p) q));
      [|done|eapply Forall_impl; [exact H1|simpl; intros; lia]].
    rewrite list_filter_none, app_nil_r; [done|].
    eapply Forall_impl; [exact H2|simpl; intros; lia].
  - rewrite (list_filter_none _ (absl 0 l1)), (list_filter_none _ (map (view p) q)).
    + rewrite list_filter_all; [done|]. eapply Forall_impl; [exact H2|simpl; intros; lia].
    + eapply Forall_impl; [exact Hq|simpl; intros; lia].
    + eapply Forall_impl; [exact H1|simpl; intros; lia].
Qed.

(** The invariant is kept when a fresh element is appended to a level. *)
Lemma Push_wf m p k x :
  wf m -> wf (Push m p k x).2.
Proof.
  intros W. unfold Push. destruct (census m !! k) as [c|] eqn:Hk; [done|]. cbn [snd].
  set (p' := if (p <? 0) || (levels <=? p) then 3 else p).
  assert (Hp : 0 <= p' < 6).
  { unfold p', levels. case_if; zbool; lia. }
  clearbody p'. clear p. rename p' into p.
  set (e := mkElement (next_elem m) (mkEntry k x)).
  destruct (items_split m p (wf_levels _ W) Hp) as (l1 & l2 & Hs & Hl).
  assert (Hqs : <[Z.to_nat p := items m p ++ [e]]> (queues m) = l1 ++ (items m p ++ [e]) :: l2).
  { rewrite Hs. by apply insert_middle. }
  assert (Hperm : concat (l1 ++ (items m p ++ [e]) :: l2) ≡ₚ e :: concat (queues m)).
  { rewrite Hs, !concat_app. simpl. solve_Permutation. }
  assert (Hnk : forall e', e' ∈ concat (queues m) -> ekey e' <> k).
  { intros e' He' Heq. pose proof (key_census m k W) as Hex. rewrite Hk in Hex.
    simpl in Hex. rewrite <- not_true_iff_false, existsb_exists in Hex. apply Hex.
    assert (Hin : ekey e' ∈ map Spec.pkey (abs m)).
    { unfold abs. rewrite absl_keys. by apply (list_elem_of_fmap_2 (fun e => ekey e)). }
    apply list_elem_of_fmap in Hin as (y & Hy & Hyin). exists y.
    split; [by apply list_elem_of_In|]. apply Z.eqb_eq. congruence. }
  split; simpl; rewrite ?Hqs, ?Hperm.
  - rewrite <- Hqs, length_insert. apply W.
  - apply set_bit16_range.
  - intros i Hi. rewrite testbit_set_bit16, (wf_mask _ W) by (apply W || lia).
    unfold items at 2. simpl. rewrite items_insert by (apply W || lia).
    destruct (Z.eqb_spec i p) as [->|]; [|by rewrite orb_false_r].
    rewrite orb_true_r. unfold len. rewrite length_app. simpl.
    symmetry. apply negb_true_iff, Z.eqb_neq. lia.
  - intros k' c. unfold items. simpl. destruct (decide (k' = k)) as [->|Hne].
    + rewrite lookup_insert_eq. split.
      * intros [= <-]. simpl. split; [done|]. split; [|done].
        rewrite items_insert, Z.eqb_refl by (apply W || lia). set_solver.
      * intros (H1 & H2 & H3). rewrite items_insert in H2 by (apply W || lia).
        destruct (Z.eqb_spec (priority c) p) as [Hpc|].
        -- apply elem_of_app in H2 as [H2|H2].
           ++ exfalso. eapply Hnk; [by eapply elem_items_concat|done].
           ++ apply list_elem_of_singleton in H2. destruct c; simpl in *. congruence.
        -- exfalso. eapply Hnk; [by eapply elem_items_concat|done].
    + rewrite lookup_insert_ne, (wf_census _ W) by done.
      split; intros (H1 & H2 & H3); (split; [done|split; [|done]]);
        rewrite items_insert in * by (apply W || lia);
        destruct (Z.eqb_spec (priority c) p) as [Hpc|]; try done; try rewrite Hpc in *.
      * apply elem_of_app. auto.
      * apply elem_of_app in H2 as [|H2]; [done|].
        apply list_elem_of_singleton in H2. rewrite H2 in H3. simpl in H3. congruence.
  - intros e' He'. rewrite Hperm in He'. apply elem_of_cons in He' as [->|He']; simpl; [lia|].
    pose proof (wf_fresh _ W e' He'). lia.
  - constructor; [|apply W]. intros Hin. apply list_elem_of_fmap in Hin as (e' & Heq & He').
    pose proof (wf_fresh _ W e' He'). simpl in Heq. lia.
  - constructor; [|apply W]. intros Hin. apply list_elem_of_fmap in Hin as (e' & Heq & He').
    by apply (Hnk e').
  - rewrite map_size_insert_None by done. by rewrite (wf_size _ W).
  - unfold Size. simpl. rewrite map_size_insert_None by done.
    rewrite (wf_fast _ W), swrap32_step. unfold Size. f_equal. lia.
Qed.

Lemma Push_refines m p k x :
  wf m -> Spec.push (abs m) p k x = ((Push m p k x).1, abs (Push m p k x).2).
Proof.
  intros W. unfold Spec.push, Push. rewrite key_census by done.
  destruct (census m !! k) as [c|] eqn:Hk; [done|].
  rewrite bool_decide_false by (intros [? ?]; done). cbn [fst snd]. f_equal.
  change 6 with levels. set (p' := if (p <? 0) || (levels <=? p) then 3 else p).
  assert (Hp : 0 <= p' < 6) by (unfold p', levels; case_if; zbool; lia).
  destruct (items_split m p' (wf_levels _ W) Hp) as (l1 & l2 & Hs & Hl).
  rewrite (abs_level m p' l1 l2 _ Hs Hl) by lia.
  destruct (absl_filter_le p' l1 (items m p') l2) as [-> ->]; [unfold len; lia|].
  set (e := mkElement (next_elem m) (mkEntry k x)).
  unfold abs. cbn [queues set set_queues set_next_elem set_census set_bitmask set_fastSize].
  replace (<[Z.to_nat p' := items m p' ++ [e]]> (queues m)) with (l1 ++ (items m p' ++ [e]) :: l2)
    by (rewrite Hs; symmetry; by apply insert_middle).
  rewrite absl_app. simpl. replace (0 + len l1) with p' by (unfold len; lia).
  rewrite map_app, <- !app_assoc. done.
Qed.

Lemma PopIf_refines m p f :
  wf m -> wf (PopIf m p f).2 /\ Spec.pop_if (abs m) p f = ((PopIf m p f).1, abs (PopIf m p f).2).
Proof.
  intros W. unfold PopIf, Spec.pop_if.
  assert (Hnone : (p < 0 \/ 6 <= p \/ items m p = []) ->
    Spec.extract (fun y => Spec.prio y =? p) (abs m) = None).
  { intros Hc. apply extract_none. apply Forall_forall. intros y Hy. apply Z.eqb_neq. intros Heq.
    pose proof (absl_prio 0 (queues m)) as Hpr. rewrite Forall_forall in Hpr.
    specialize (Hpr y Hy). unfold len in Hpr. rewrite (wf_levels _ W) in Hpr.
    destruct (items_split m p (wf_levels _ W)) as (l1 & l2 & Hs & Hl); [lia|].
    destruct Hc as [?|[?|Hi]]; [lia..|]. rewrite Hi in Hs.
    rewrite (abs_level m p l1 l2 _ Hs Hl) in Hy by lia. simpl in Hy.
    pose proof (absl_prio 0 l1) as H1. pose proof (absl_prio (p + 1) l2) as H2.
    rewrite Forall_forall in H1, H2. unfold len in H1.
    apply elem_of_app in Hy as [Hy|Hy]; [specialize (H1 y Hy)|specialize (H2 y Hy)]; lia. }
  destruct ((bitmask m =? 0) || (p <? 0) || (levels <=? p)) eqn:Hg.
  { cbn [fst snd]. split; [done|]. rewrite Hnone; [done|].
    unfold levels in Hg. zbool. destruct Hg as [Hg|Hg]; zbool; [|lia].
    destruct Hg as [Hg|Hg]; zbool; [|lia].
    destruct (Z.ltb_spec p 0); [lia|]. right; right.
    pose proof (wf_mask _ W p) as Hb. rewrite Hg, Z.bits_0 in Hb.
    destruct (items m p); [done|]. discriminate Hb. lia. }
  zbool. unfold levels in *.
  assert (Hland : (Z.land (bitmask m) (Z.shiftl 1 p) =? 0) = negb (Z.testbit (bitmask m) p)).
  { destruct (Z.testbit (bitmask m) p) eqn:Hb; simpl.
    - apply Z.eqb_neq. intros H0'. apply (f_equal (fun z => Z.testbit z p)) in H0'.
      rewrite Z.land_spec, Z.shiftl_1_l, Z.pow2_bits_true, Hb, Z.bits_0 in H0' by lia. done.
    - apply Z.eqb_eq, Z.bits_inj'. intros i Hi.
      rewrite Z.land_spec, Z.shiftl_1_l, Z.pow2_bits_eqb, Z.bits_0 by lia.
      destruct (Z.eqb_spec p i) as [<-|]; [by rewrite Hb|apply andb_false_r]. }
  rewrite Hland, (wf_mask _ W), negb_involutive by lia.
  destruct (items m p) as [|e q] eqn:Hq.
  { cbn [len fst snd]. split; [done|]. rewrite Hnone; [done|]. auto. }
  replace (len (e :: q) =? 0) with false
    by (symmetry; apply Z.eqb_neq; rewrite len_cons; pose proof (len_nonneg q); lia).
  destruct (drop_element_refines m p e [] q (fun y => Spec.prio y =? p) W) as [W' Habs];
    [lia|done|apply Z.eqb_refl| |].
  { intros l1 l2 Hs Hl. simpl. rewrite app_nil_r. eapply Forall_impl; [apply absl_prio|].
    simpl. intros y Hy. apply Z.eqb_neq. unfold len in Hy. lia. }
  rewrite Habs. cbn [snd view]. destruct (accepts f (eitem e)); done.
Qed.

(** Every queued element sits at some level of the mask. *)
Lemma abs_elem m y : wf m -> y ∈ abs m ->
  exists p e, 0 <= p < 6 /\ e ∈ items m p /\ y = view p e.
Proof.
  intros W Hy. assert (Hg : forall qs i, y ∈ absl i qs ->
    exists j q e, qs !! j = Some q /\ e ∈ q /\ y = view (i + Z.of_nat j) e).
  { clear. induction qs as [|q qs IH]; intros i; simpl; [set_solver|].
    rewrite elem_of_app. intros [Hy|Hy].
    - apply list_elem_of_fmap in Hy as (e & -> & He). exists 0%nat, q, e.
      rewrite Z.add_0_r. done.
    - destruct (IH _ Hy) as (j & q' & e & Hj & He & ->). exists (S j), q', e.
      split; [done|]. split; [done|]. f_equal. lia. }
  destruct (Hg _ _ Hy) as (j & q & e & Hj & He & ->). exists (Z.of_nat j), e.
  pose proof (lookup_lt_Some _ _ _ Hj) as Hlt. rewrite (wf_levels _ W) in Hlt.
  split; [lia|]. unfold items. rewrite Nat2Z.id, Hj. done.
Qed.

Lemma find_split {A} (f : A -> bool) l x :
  List.find f l = Some x ->
  exists l1 l2, l = l1 ++ x :: l2 /\ f x = true /\ Forall (fun y => f y = false) l1.
Proof.
  induction l as [|y l IH]; simpl; [done|]. destruct (f y) eqn:Hy.
  - intros [= <-]. exists [], l. auto.
  - intros (l1 & l2 & -> & Hx & Hall)%IH. exists (y :: l1), l2. auto.
Qed.

Definition passes maxp f (y : Z * Z * T) : bool := (Spec.prio y <=? maxp) && accepts f y.2.

Lemma rejected_before m maxp f n l1 :
  wf m -> (forall i e, 0 <= i < n -> e ∈ items m i -> passes maxp f (view i e) = false) ->
  len l1 <= n -> (exists l2, queues m = l1 ++ l2) ->
  Forall (fun y => passes maxp f y = false) (absl 0 l1).
Proof.
  intros W Hrej Hl [l2 Hs]. apply Forall_forall. intros y Hy.
  pose proof (absl_prio 0 l1) as Hpr. rewrite Forall_forall in Hpr. specialize (Hpr y Hy).
  destruct (abs_elem m y W) as (p & e & Hp & He & ->).
  { unfold abs. rewrite Hs, absl_app. apply elem_of_app. by left. }
  unfold Spec.prio in Hpr; simpl in Hpr. apply Hrej; [lia|done].
Qed.

(** Loop invariant of [PopAnyIf]: [tempMask] is the mask without its bits below
    [n], and no level below [n] holds an element the test accepts. *)
Lemma PopAnyIf_loop_refines fuel m maxp f tm n :
  wf m -> 0 <= n -> 17 <= Z.of_nat fuel + n -> 0 <= tm < 65536 ->
  (forall i, 0 <= i -> Z.testbit tm i = Z.testbit (bitmask m) i && (n <=? i)) ->
  (forall i e, 0 <= i < n -> e ∈ items m i -> passes maxp f (view i e) = false) ->
  let r := PopAnyIf_loop fuel m maxp f tm in
  wf r.2 /\ Spec.pop_any_if (abs m) maxp f = (r.1, abs r.2).
Proof.
  intros W. revert tm n. unfold Spec.pop_any_if, Spec.take_first. fold (passes maxp f).
  assert (Hnone : (forall i e, 0 <= i -> e ∈ items m i -> passes maxp f (view i e) = false) ->
    Spec.extract (passes maxp f) (abs m) = None).
  { intros Hall. apply extract_none, Forall_forall. intros y Hy.
    destruct (abs_elem m y W Hy) as (p & e & Hp & He & ->). apply Hall; [lia|done]. }
  assert (Hbit : forall i e, 0 <= i -> e ∈ items m i -> Z.testbit (bitmask m) i = true).
  { intros i e Hi He. rewrite (wf_mask _ W) by done. destruct (items m i); [set_solver|].
    rewrite len_cons. pose proof (len_nonneg l). apply negb_true_iff, Z.eqb_neq. lia. }
  induction fuel as [|fuel IH]; intros tm n Hn Hf Htm Hbits Hrej; cbn [PopAnyIf_loop].
  { cbn [fst snd]. split; [done|]. rewrite Hnone; [done|]. intros i e Hi He.
    destruct (Z.ltb_spec i n); [by apply Hrej|]. rewrite items_out in He by (apply W || lia).
    set_solver. }
  destruct (Z.eqb_spec tm 0) as [->|Hnz].
  { cbn [fst snd]. split; [done|]. rewrite Hnone; [done|]. intros i e Hi He.
    specialize (Hbits i Hi). rewrite Z.bits_0, (Hbit i e) in Hbits by done. simpl in Hbits.
    apply Hrej; [|done]. symmetry in Hbits. zbool. lia. }
  destruct (ctz_spec 16 tm) as (Hp & Hset & Hlow); [simpl; lia|done|].
  fold (TrailingZeros16 tm) in Hp, Hset, Hlow. set (p := TrailingZeros16 tm) in *.
  rewrite Hbits in Hset by lia. apply andb_true_iff in Hset as [Hset Hnp]. zbool.
  assert (Hrej' : forall i e, 0 <= i < p -> e ∈ items m i -> passes maxp f (view i e) = false).
  { intros i e Hi He. specialize (Hlow i Hi). rewrite Hbits, (Hbit i e) in Hlow by (done || lia).
    simpl in Hlow. apply Hrej; [zbool; lia|done]. }
  destruct (Z.ltb_spec maxp p) as [Hmax|Hmax].
  { cbn [fst snd]. split; [done|]. rewrite Hnone; [done|]. intros i e Hi He.
    destruct (Z.ltb_spec i p); [by apply Hrej'|]. unfold passes, Spec.prio; simpl.
    apply andb_false_iff. left. apply Z.leb_gt. lia. }
  destruct (List.find _ (items m p)) as [e|] eqn:Hfind.
  - apply find_split in Hfind as (q1 & q2 & Hq & Hacc & Hrest). cbn [fst snd].
    assert (Hp6 : 0 <= p < 6).
    { destruct (Z.ltb_spec p 6); [lia|]. rewrite items_out in Hq by (apply W || lia).
      destruct q1; done. }
    destruct (drop_element_refines m p e q1 q2 (passes maxp f) W Hp6 Hq) as [W' Habs].
    { unfold passes, Spec.prio; simpl. rewrite Hacc. apply andb_true_iff. split; [zbool; lia|done]. }
    { intros l1 l2 Hs Hl. apply Forall_app. split.
      - apply (rejected_before m maxp f p); [done|done|unfold len; lia|eauto].
      - apply Forall_map. eapply Forall_impl; [exact Hrest|]. simpl. intros y Hy.
        unfold passes; simpl. by rewrite Hy, andb_false_r. }
    rewrite Habs. done.
  - apply (IH _ (p + 1)); [lia|lia|by apply clear_bit16_range; lia| |].
    + intros i Hi. rewrite testbit_clear_bit16, Hbits by lia.
      destruct (Z.testbit (bitmask m) i) eqn:Hb; [simpl|done].
      destruct (Z.ltb_spec i p) as [Hip|Hip].
      * specialize (Hlow i ltac:(lia)). rewrite Hbits, Hb in Hlow by lia. simpl in Hlow.
        rewrite Hlow. symmetry. apply Z.leb_gt. lia.
      * replace (n <=? i) with true by (symmetry; apply Z.leb_le; lia). simpl.
        destruct (Z.eqb_spec i p); symmetry; [apply Z.leb_gt|apply Z.leb_le]; lia.
    + intros i e Hi He. destruct (Z.ltb_spec i p); [apply Hrej'; [lia|done]|].
      assert (i = p) as -> by lia. unfold passes; simpl.
      rewrite (List.find_none _ _ Hfind e) by (by apply list_elem_of_In). apply andb_false_r.
Qed.

Lemma PopAnyIf_refines m maxp f :
  wf m -> wf (PopAnyIf m maxp f).2 /\
  Spec.pop_any_if (abs m) maxp f = ((PopAnyIf m maxp f).1, abs (PopAnyIf m maxp f).2).
Proof.
  intros W. unfold PopAnyIf. destruct (Z.eqb_spec (bitmask m) 0) as [H0|Hnz].
  { cbn [fst snd]. rewrite mask0_abs by done. done. }
  apply (PopAnyIf_loop_refines 17 m maxp f (bitmask m) 0); [done|lia|lia|apply W| |intros; lia].
  intros i Hi. replace (0 <=? i) with true by (symmetry; apply Z.leb_le; lia).
  by rewrite andb_true_r.
Qed.

Lemma New_wf : wf (New (T := T)).
Proof.
  assert (Hit : forall p, items (New (T := T)) p = []).
  { intros p. unfold items, New. cbn [queues].
    destruct (replicate 6 [] !! Z.to_nat p) eqn:E; [|done].
    by apply lookup_replicate in E as [-> _]. }
  split; simpl; try done.
  - intros p Hp. rewrite Z.bits_0, Hit. done.
  - intros k c. rewrite lookup_empty, Hit. split; [done|]. intros (_ & H & _). set_solver.
  - intros e He. set_solver.
  - constructor.
  - constructor.
Qed.

Lemma Clear_wf m : wf m -> wf (Clear m).2.
Proof.
  intros W.
  assert (Hnil : concat (map (fun _ => []) (queues m)) = ([] : list (Element T))).
  { induction (queues m); simpl; done. }
  assert (Hit : forall p, items (Clear m).2 p = []).
  { intros p. unfold items. simpl. rewrite list_lookup_fmap. destruct (queues m !! _); done. }
  split; simpl; rewrite ?Hnil; try done.
  - rewrite length_map. apply W.
  - intros p Hp. rewrite Z.bits_0. fold (items (Clear m).2 p). by rewrite Hit.
  - intros k c. rewrite lookup_empty, Hit. split; [done|]. intros (_ & H & _). set_solver.
  - intros e He. set_solver.
  - constructor.
  - constructor.
Qed.

Lemma Clear_refines m : Spec.clear (abs m) = ((Clear m).1, abs (Clear m).2).
Proof.
  unfold Spec.clear, Clear, abs. simpl. f_equal.
  - generalize 0. induction (queues m) as [|q qs IH]; intros z; simpl; [done|].
    rewrite map_app, (IH (z + 1)), map_map. done.
  - generalize 0. induction (queues m) as [|q qs IH]; intros z; simpl; [done|]. apply IH.
Qed.

Lemma Size_refines m : wf m -> Size m = len (abs m).
Proof.
  intros W. unfold Size, len. rewrite (wf_size _ W). f_equal.
  rewrite <- (length_map Spec.pkey (abs m)). unfold abs.
  by rewrite absl_keys, length_map.
Qed.

Lemma Count_refines m p : wf m -> Count m p = Spec.count (abs m) p.
Proof.
  intros W. unfold Count, Spec.count, levels.
  destruct ((p <? 0) || (6 <=? p)) eqn:E; zbool.
  - rewrite list_filter_none; [done|]. eapply Forall_impl; [apply absl_prio|].
    simpl. intros y Hy. unfold len in Hy. rewrite (wf_levels _ W) in Hy. lia.
  - destruct (items_split m p (wf_levels _ W)) as (l1 & l2 & Hs & Hl); [lia|].
    rewrite (abs_level m p l1 l2 _ Hs Hl), !filter_app by lia.
    rewrite (list_filter_none _ (absl 0 l1)), (list_filter_none _ (absl (p + 1) l2)),
      (list_filter_all _ (map _ _)).
    + unfold len. rewrite app_nil_r. simpl. by rewrite length_map.
    + apply Forall_map, Forall_true. done.
    + eapply Forall_impl; [apply absl_prio|]. simpl; intros; lia.
    + eapply Forall_impl; [apply absl_prio|]. simpl; intros. unfold len in *. lia.
Qed.

Lemma HighestPriority_refines m : wf m -> HighestPriority m = Spec.highest (abs m).
Proof.
  intros W. unfold HighestPriority. destruct (Z.eqb_spec (bitmask m) 0) as [H0|Hnz].
  { by rewrite mask0_abs. }
  destruct (first_level m W Hnz) as (Hp & Hne & Hlow). set (p := TrailingZeros16 _) in *.
  destruct (items_split m p (wf_levels _ W) Hp) as (l1 & l2 & Hs & Hl).
  rewrite (abs_level m p l1 l2 _ Hs Hl), (levels_empty m p l1 l2 _ Hs Hl Hlow) by lia.
  destruct (items m p); done.
Qed.

(** Each call preserves the invariant and answers as the specification does. *)
Lemma call_refines m o :
  wf m -> wf (call m o).2 /\ spec_call (abs m) o = ((call m o).1, abs (call m o).2).
Proof.
  intros W. destruct o; unfold call, spec_call, on_fst; cbn [fst snd].
  - split; [by apply Push_wf|]. by rewrite Push_refines.
  - destruct (Pop_refines m W) as [? ->]. done.
  - by rewrite Peek_refines.
  - by rewrite Get_refines.
  - destruct (RemoveByKey_refines m k W) as [? ->]. done.
  - destruct (PopIf_refines m p predicate W) as [? ->]. done.
  - destruct (PopAnyIf_refines m maxPriority predicate W) as [? ->]. done.
  - split; [by apply Clear_wf|]. by rewrite Clear_refines.
  - by rewrite Count_refines.
  - by rewrite Size_refines.
  - unfold FastSize. by rewrite (wf_fast _ W), Size_refines.
  - by rewrite HighestPriority_refines.
Qed.

Lemma run_refines os m :
  wf m -> wf (run call m os).2 /\
  run spec_call (abs m) os = ((run call m os).1, abs (run call m os).2).
Proof.
  revert m. induction os as [|o os IH]; intros m W; [done|]. cbn [run].
  destruct (call_refines m o W) as [W' Heq]. rewrite Heq.
  destruct (call m o) as [a m']. cbn [fst snd] in *.
  destruct (IH m' W') as [W'' ->]. destruct (run call m' os). done.
Qed.

(** C5: Every sequence of calls on a new multi-level queue answers as the
    specification does: one list kept in level order, first-in first-out inside a
    level, that refuses a key already queued, pops its first element, finds and
    removes by key, and pops the first element that passes a test. *)
Theorem MultiLevelQueue_refines_spec (os : list (op T)) :
  (run call New os).1 = (run spec_call [] os).1.
Proof.
  pose proof (run_refines os New New_wf) as [_ H].
  change (abs New) with (@nil (Z * Z * T)) in H. by rewrite H.
Qed.

(** In a queue reached by any sequence of calls, the census, the level lists
    and the mask agree: a key is in the census exactly when one element of its
    level carries it, a level's bit is set exactly when the level is not empty,
    and the lock-free size equals the number of queued packets as an int32. *)
Theorem MultiLevelQueue_invariant (os : list (op T)) :
  wf (run call New os).2.
Proof. apply run_refines, New_wf. Qed.
End refinement.
