(* ===== verification/BaseCodec.v ===== *)
(** * Base 36 codec (masterdns basecodec)

    Models src/masterdns/internal/basecodec: the lower-case base 36 codec that
    turns an encrypted packet into DNS labels (lowerbase36.go) and the functions
    that select it (codec.go).  Seven bytes become eleven characters; a shorter
    last block has its own character count.  Go strings and byte slices are both
    lists of bytes.  The theorems give the length of an encoding, the round trip
    under any change of letter case, and that decoding never panics. *)

From stdpp Require Import base tactics list strings sets.
From Stdlib Require Import ZArith Lia.
From S2P Require Import Prelude.

Inductive base36_error := ErrInvalidLowerBase36.

Definition lowerBase36Alphabet : bytes :=
  [48; 49; 50; 51; 52; 53; 54; 55; 56; 57;
   97; 98; 99; 100; 101; 102; 103; 104; 105; 106;
   107; 108; 109; 110; 111; 112; 113; 114; 115; 116;
   117; 118; 119; 120; 121; 122].

Definition lowerBase36EncodedCharsByBytes : list Z := [0; 2; 4; 5; 7; 8; 10; 11].
Definition lowerBase36DecodedBytesByChars : list Z := [0; 0; 1; 0; 2; 3; 0; 4; 5; 0; 6; 7].

(** [for i, ch := range lowerBase36Alphabet] of the table construction. *)
Fixpoint fill_decode_map (i : Z) (alphabet table : bytes) : bytes :=
  match alphabet with
  | [] => table
  | ch :: rest =>
      let table := <[Z.to_nat ch := wrap8 i]> table in
      let table :=
        if (97 <=? ch) && (ch <=? 122) then <[Z.to_nat (wrap8 (wrap8 (ch - 97) + 65)) := wrap8 i]> table
        else table in
      fill_decode_map (i + 1) rest table
  end.

Definition newLowerBase36DecodeMap : bytes :=
  fill_decode_map 0 lowerBase36Alphabet (replicate 256 255).

Definition lowerBase36DecodeMap : bytes := Eval vm_compute in newLowerBase36DecodeMap.

Definition EncodedLenLowerBase36 (n : Z) : outcome base36_error Z :=
  if n <=? 0 then Ok 0
  else
    let blocks := n / 7 in
    let rem := n mod 7 in
    let! c := at_ lowerBase36EncodedCharsByBytes rem in
    Ok (blocks * 11 + c).

(** [writeBase36Block(dst[offset:offset+count], val, count)], from the last
    character to the first. *)
Fixpoint writeBase36Block_loop (dst : bytes) (offset : Z) (i : nat) (val : Z) :
    outcome base36_error bytes :=
  match i with
  | O => Ok dst
  | S i =>
      let! digit := at_ lowerBase36Alphabet (val mod 36) in
      let! dst := put dst (offset + Z.of_nat i) digit in
      writeBase36Block_loop dst offset i (val / 36)
  end.

Definition writeBase36Block (dst : bytes) (offset val count : Z) : outcome base36_error bytes :=
  let! _ := slice dst offset (offset + count) in
  writeBase36Block_loop dst offset (Z.to_nat count) val.

(** [for _, b := range src { val = (val << 8) | uint64(b) }] *)
Definition be_value (src : bytes) : Z :=
  fold_left (fun val b => wrap64 (Z.lor (Z.shiftl val 8) b)) src 0.

(** The seven shifts of a full block. *)
Definition block_value (src : bytes) : outcome base36_error Z :=
  let! b0 := at_ src 0 in let! b1 := at_ src 1 in let! b2 := at_ src 2 in
  let! b3 := at_ src 3 in let! b4 := at_ src 4 in let! b5 := at_ src 5 in
  let! b6 := at_ src 6 in
  Ok (Z.lor (Z.lor (Z.lor (Z.lor (Z.lor (Z.lor (Z.shiftl b0 48) (Z.shiftl b1 40))
    (Z.shiftl b2 32)) (Z.shiftl b3 24)) (Z.shiftl b4 16)) (Z.shiftl b5 8)) b6).

(** The loop of [EncodeLowerBase36To] over full blocks, then the last block. Each
    turn but the last takes 7 bytes off [src], so [length data] + 1 turns are enough. *)
Fixpoint EncodeLowerBase36To_loop (fuel : nat) (dst : bytes) (offset : Z) (src : bytes) :
    outcome base36_error (Z * bytes) :=
  match fuel with
  | O => Ok (offset, dst)
  | S fuel =>
      if 7 <=? len src then
        let! val := block_value src in
        let! dst := writeBase36Block dst offset val 11 in
        let! src := slice src 7 (len src) in
        EncodeLowerBase36To_loop fuel dst (offset + 11) src
      else if 0 <? len src then
        let val := be_value src in
        let! charCount := at_ lowerBase36EncodedCharsByBytes (len src) in
        let! dst := writeBase36Block dst offset val charCount in
        Ok (offset + charCount, dst)
      else Ok (offset, dst)
  end.

(** The number of characters written, and the buffer. *)
Definition EncodeLowerBase36To (dst data : bytes) : outcome base36_error (Z * bytes) :=
  if len data =? 0 then Ok (0, dst) else EncodeLowerBase36To_loop (S (length data)) dst 0 data.

Definition EncodeLowerBase36Bytes (data : bytes) : outcome base36_error bytes :=
  let! n := EncodedLenLowerBase36 (len data) in
  let! (n, out) := EncodeLowerBase36To (make_bytes n) data in
  slice out 0 n.

Definition EncodeLowerBase36 (data : bytes) : outcome base36_error bytes :=
  if len data =? 0 then Ok [] else EncodeLowerBase36Bytes data.

Definition decodedLenLowerBase36 (encodedLen : Z) : outcome base36_error Z :=
  if encodedLen <=? 0 then Ok 0
  else
    let blocks := encodedLen / 11 in
    let rem := encodedLen mod 11 in
    if len lowerBase36DecodedBytesByChars <=? rem then Err ErrInvalidLowerBase36
    else
      let! decodedRem := at_ lowerBase36DecodedBytesByChars rem in
      if negb (rem =? 0) && (decodedRem =? 0) then Err ErrInvalidLowerBase36
      else Ok (blocks * 7 + decodedRem).

Definition lowerBase36NextDecodeBlock (remaining : Z) : outcome base36_error (Z * Z) :=
  if 11 <=? remaining then Ok (7, 11)
  else let! n := at_ lowerBase36DecodedBytesByChars remaining in Ok (n, remaining).

Fixpoint readBase36Block_loop (data : bytes) (val : Z) : outcome base36_error Z :=
  match data with
  | [] => Ok val
  | ch :: data =>
      let! digit := at_ lowerBase36DecodeMap ch in
      if digit =? 255 then Err ErrInvalidLowerBase36
      else readBase36Block_loop data (wrap64 (wrap64 (val * 36) + digit))
  end.

Definition readBase36Block (data : bytes) : outcome base36_error Z := readBase36Block_loop data 0.

(** [for i := blockSize - 1; i >= 0; i-- { out[offset+i] = byte(val); val >>= 8 }] *)
Fixpoint write_block (out : bytes) (offset : Z) (i : nat) (val : Z) : outcome base36_error bytes :=
  match i with
  | O => Ok out
  | S i =>
      let! out := put out (offset + Z.of_nat i) (wrap8 val) in
      write_block out offset i (Z.shiftr val 8)
  end.

(** The loop of [DecodeLowerBase36]; each turn takes at least one character off
    [src], so [length data] + 1 turns are enough. *)
Fixpoint DecodeLowerBase36_loop (fuel : nat) (out : bytes) (offset : Z) (src : bytes) :
    outcome base36_error bytes :=
  match fuel with
  | O => Ok out
  | S fuel =>
      if 0 <? len src then
        let! (blockSize, charCount) := lowerBase36NextDecodeBlock (len src) in
        let! chars := slice src 0 charCount in
        let! val := readBase36Block chars in
        let! out := write_block out offset (Z.to_nat blockSize) val in
        let! src := slice src charCount (len src) in
        DecodeLowerBase36_loop fuel out (offset + blockSize) src
      else Ok out
  end.

Definition DecodeLowerBase36 (data : bytes) : outcome base36_error bytes :=
  if len data =? 0 then Ok []
  else
    let! totalBytes := decodedLenLowerBase36 (len data) in
    DecodeLowerBase36_loop (S (length data)) (make_bytes totalBytes) 0 data.

(** The string variants read the same bytes. *)
Definition readBase36BlockString (data : bytes) : outcome base36_error Z := readBase36Block_loop data 0.

Fixpoint DecodeLowerBase36String_loop (fuel : nat) (out : bytes) (offset : Z) (src : bytes) :
    outcome base36_error bytes :=
  match fuel with
  | O => Ok out
  | S fuel =>
      if 0 <? len src then
        let! (blockSize, charCount) := lowerBase36NextDecodeBlock (len src) in
        let! chars := slice src 0 charCount in
        let! val := readBase36BlockString chars in
        let! out := write_block out offset (Z.to_nat blockSize) val in
        let! src := slice src charCount (len src) in
        DecodeLowerBase36String_loop fuel out (offset + blockSize) src
      else Ok out
  end.

Definition DecodeLowerBase36String (data : bytes) : outcome base36_error bytes :=
  if len data =? 0 then Ok []
  else
    let! totalBytes := decodedLenLowerBase36 (len data) in
    DecodeLowerBase36String_loop (S (length data)) (make_bytes totalBytes) 0 data.

(** codec.go selects base 36. *)
Definition EncodedLen (n : Z) : outcome base36_error Z := EncodedLenLowerBase36 n.
Definition EncodeTo (dst data : bytes) : outcome base36_error (Z * bytes) := EncodeLowerBase36To dst data.
Definition EncodeToBytes (data : bytes) : outcome base36_error bytes := EncodeLowerBase36Bytes data.
Definition Encode (data : bytes) : outcome base36_error bytes := EncodeLowerBase36 data.
Definition Decode (data : bytes) : outcome base36_error bytes := DecodeLowerBase36 data.
Definition DecodeString (data : bytes) : outcome base36_error bytes := DecodeLowerBase36String data.

(** ** Reference definitions *)

Definition alpha (d : Z) : Z := default 0 (lowerBase36Alphabet !! Z.to_nat d).

(** The [n] low base 36 digits and the [n] low bytes of a value, most significant first. *)
Fixpoint digits36 (n : nat) (v : Z) : bytes :=
  match n with O => [] | S n => digits36 n (v / 36) ++ [alpha (v mod 36)] end.

Fixpoint be_bytes (n : nat) (v : Z) : bytes :=
  match n with O => [] | S n => be_bytes n (Z.shiftr v 8) ++ [wrap8 v] end.

(** Characters for a last block of [k] bytes. *)
Definition chars (k : nat) : nat := Z.to_nat (default 0 (lowerBase36EncodedCharsByBytes !! k)).

Definition lower (c : Z) : Z := if (65 <=? c) && (c <=? 90) then c + 32 else c.

(** ** Blocks *)

Lemma length_digits36 n v : length (digits36 n v) = n.
Proof. revert v. induction n; intros; simpl; [done|]. rewrite length_app, IHn. simpl. lia. Qed.

Lemma length_be_bytes n v : length (be_bytes n v) = n.
Proof. revert v. induction n; intros; simpl; [done|]. rewrite length_app, IHn. simpl. lia. Qed.

Lemma at_alphabet d : 0 <= d < 36 -> at_ (E:=base36_error) lowerBase36Alphabet d = Ok (alpha d).
Proof.
  intros. destruct (at_ok (E:=base36_error) lowerBase36Alphabet d) as (x & -> & Hx); [done|].
  unfold alpha. by rewrite Hx.
Qed.

Lemma snoc_of_length {A} (l : list A) n : length l = S n -> exists l' x, l = l' ++ [x] /\ length l' = n.
Proof.
  intros Hl. destruct (exists_last (l := l)) as (l' & x & ->); [by destruct l|].
  rewrite length_app in Hl. simpl in Hl. exists l', x. split; [done|lia].
Qed.

Lemma writeBase36Block_loop_spec n : forall pre mid post val,
  length mid = n -> 0 <= val ->
  writeBase36Block_loop (pre ++ mid ++ post) (len pre) n val = Ok (pre ++ digits36 n val ++ post).
Proof.
  induction n as [|n IH]; intros pre mid post val Hm Hv; cbn [writeBase36Block_loop digits36].
  { destruct mid; [done|]. discriminate. }
  destruct (snoc_of_length mid n Hm) as (mid' & x & -> & Hm').
  rewrite at_alphabet by (apply Z.mod_pos_bound; lia). cbn [obind].
  rewrite <- !(assoc_L (++)). cbn [app]. rewrite (assoc_L (++)).
  rewrite put_middle by (rewrite len_app; unfold len; lia). cbn [obind].
  rewrite <- (assoc_L (++)), IH by (done || (apply Z.div_pos; lia)).
  done.
Qed.

Lemma writeBase36Block_spec pre mid post val count offset :
  offset = len pre -> len mid = count -> 0 <= val ->
  writeBase36Block (pre ++ mid ++ post) offset val count =
    Ok (pre ++ digits36 (Z.to_nat count) val ++ post).
Proof.
  intros -> <- Hv. unfold writeBase36Block. rewrite (slice_app pre mid post) by done. cbn [obind].
  apply writeBase36Block_loop_spec; [unfold len; lia|done].
Qed.

Lemma write_block_spec n : forall pre mid post val,
  length mid = n -> write_block (pre ++ mid ++ post) (len pre) n val = Ok (pre ++ be_bytes n val ++ post).
Proof.
  induction n as [|n IH]; intros pre mid post val Hm; cbn [write_block be_bytes].
  { destruct mid; [done|]. discriminate. }
  destruct (snoc_of_length mid n Hm) as (mid' & x & -> & Hm').
  rewrite <- !(assoc_L (++)). cbn [app]. rewrite (assoc_L (++)).
  rewrite put_middle by (rewrite len_app; unfold len; lia). cbn [obind].
  rewrite <- (assoc_L (++)), IH by done. done.
Qed.

(** Blocks are small enough for a uint64. *)
Definition horner (l : bytes) : Z := fold_left (fun v b => 256 * v + b) l 0.

Lemma horner_app l b : horner (l ++ [b]) = 256 * horner l + b.
Proof. unfold horner. by rewrite fold_left_app. Qed.

Lemma horner_range l : bytes_ok l -> 0 <= horner l < 256 ^ len l.
Proof.
  induction l as [|b l IH] using rev_ind; intros Hl; [done|].
  apply bytes_ok_app in Hl as [Hl Hb]. specialize (IH Hl). inversion Hb as [|? ? Hb' _]; subst.
  unfold u8 in Hb'. rewrite horner_app, len_app. change (len [b]) with 1.
  rewrite Z.pow_add_r by (pose proof (len_nonneg l); lia). lia.
Qed.

Lemma be_value_horner l : bytes_ok l -> len l <= 8 -> be_value l = horner l.
Proof.
  induction l as [|b l IH] using rev_ind; intros Hl Hlen; [done|].
  apply bytes_ok_app in Hl as [Hl Hb]. inversion Hb as [|? ? Hb' _]; subst.
  rewrite len_app in Hlen. change (len [b]) with 1 in Hlen.
  pose proof (horner_range (l ++ [b])) as Hr. rewrite horner_app in *.
  unfold be_value in *. rewrite fold_left_app. simpl. rewrite IH by (done || lia).
  rewrite lor_shiftl_disjoint by (lia || done).
  unfold wrap64. apply Z.mod_small.
  specialize (Hr ltac:(apply bytes_ok_app; done)). rewrite len_app in Hr. change (len [b]) with 1 in Hr.
  assert (256 ^ (len l + 1) <= 256 ^ 8) by (apply Z.pow_le_mono_r; lia). lia.
Qed.

Lemma be_bytes_horner l : bytes_ok l -> be_bytes (length l) (horner l) = l.
Proof.
  induction l as [|b l IH] using rev_ind; intros Hl; [done|].
  apply bytes_ok_app in Hl as [Hl Hb]. inversion Hb as [|? ? Hb' _]; subst. unfold u8 in Hb'.
  rewrite length_app, Nat.add_1_r. cbn [be_bytes]. rewrite horner_app.
  rewrite Z.shiftr_div_pow2 by lia. change (2 ^ 8) with 256.
  replace (256 * horner l + b) with (b + horner l * 256) by lia.
  rewrite Z.div_add, (Z.div_small b), Z.add_0_l, IH by (done || lia).
  unfold wrap8. rewrite Z.mod_add, Z.mod_small by lia. done.
Qed.

Lemma block_value_horner b0 b1 b2 b3 b4 b5 b6 l :
  bytes_ok [b0; b1; b2; b3; b4; b5; b6] ->
  block_value (b0 :: b1 :: b2 :: b3 :: b4 :: b5 :: b6 :: l) = Ok (horner [b0; b1; b2; b3; b4; b5; b6]).
Proof.
  intros H. unfold block_value, at_. simpl. unfold horner. simpl fold_left.
  unfold bytes_ok in H. rewrite !Forall_cons in H. unfold u8 in *. f_equal. rewrite <- !Z.lor_assoc.
  rewrite (lor_shiftl_disjoint b5 b6 8) by lia. rewrite (lor_shiftl_disjoint b4 _ 16) by lia.
  rewrite (lor_shiftl_disjoint b3 _ 24) by lia. rewrite (lor_shiftl_disjoint b2 _ 32) by lia.
  rewrite (lor_shiftl_disjoint b1 _ 40) by lia. rewrite (lor_shiftl_disjoint b0 _ 48) by lia.
  lia.
Qed.

(** ** Reading characters *)

Lemma decode_alpha d : 0 <= d < 36 -> at_ (E:=base36_error) lowerBase36DecodeMap (alpha d) = Ok d.
Proof.
  intros Hd. assert (H : forallb (fun n => match at_ (E:=base36_error) lowerBase36DecodeMap (alpha (Z.of_nat n)) with
    Ok x => x =? Z.of_nat n | _ => false end) (seq 0 36) = true) by (vm_compute; reflexivity).
  rewrite forallb_forall in H. specialize (H (Z.to_nat d) ltac:(apply in_seq; lia)).
  rewrite Z2Nat.id in H by lia. destruct (at_ _ (alpha d)); zbool; congruence.
Qed.

Lemma readBase36Block_app l1 l2 acc :
  readBase36Block_loop (l1 ++ l2) acc =
  let! v := readBase36Block_loop l1 acc in readBase36Block_loop l2 v.
Proof.
  revert acc. induction l1 as [|c l1 IH]; intros acc; simpl; [done|].
  destruct (at_ _ c); simpl; [|done..]. destruct (_ =? 255); [done|]. apply IH.
Qed.

Lemma read_digits36 n : forall v, 0 <= v < 36 ^ Z.of_nat n -> 36 ^ Z.of_nat n <= 18446744073709551616 ->
  readBase36Block (digits36 n v) = Ok v.
Proof.
  unfold readBase36Block. induction n as [|n IH]; intros v Hv Hn.
  { simpl in *. f_equal. lia. }
  cbn [digits36]. rewrite Nat2Z.inj_succ, Z.pow_succ_r in * by lia.
  assert (0 <= v / 36 < 36 ^ Z.of_nat n).
  { split; [apply Z.div_pos; lia|apply Z.div_lt_upper_bound; lia]. }
  pose proof (Z.mod_pos_bound v 36 ltac:(lia)). pose proof (Z.div_mod v 36 ltac:(lia)).
  rewrite readBase36Block_app, IH by lia. cbn [obind readBase36Block_loop].
  rewrite decode_alpha by done. cbn [obind].
  replace (v mod 36 =? 255) with false by (symmetry; apply Z.eqb_neq; lia).
  f_equal. unfold wrap64. rewrite (Z.mod_small (v / 36 * 36)) by lia.
  rewrite Z.mod_small by lia. lia.
Qed.

Lemma decode_map_range : Forall (fun x => x < 36 \/ x = 255) lowerBase36DecodeMap.
Proof.
  apply Forall_forall. intros x Hx. assert (H : forallb (fun x => (x <? 36) || (x =? 255)) lowerBase36DecodeMap = true)
    by (vm_compute; reflexivity).
  rewrite forallb_forall in H. apply list_elem_of_In, H in Hx. zbool. destruct Hx; zbool; lia.
Qed.

Lemma read_no_panic l acc : bytes_ok l -> is_panic (readBase36Block_loop l acc) = false.
Proof.
  intros Hl. revert acc. induction Hl as [|c l Hc _ IH]; intros acc; simpl; [done|].
  apply obind_no_panic; [apply at_no_panic, Hc|]. intros d _. case_if; [done|apply IH].
Qed.

(** ** Encoding *)

(** Induction over full blocks of seven bytes. *)
Lemma blocks_ind (k : nat) (P : bytes -> Prop) :
  (0 < k)%nat -> (forall s, (length s < k)%nat -> P s) ->
  (forall b s, length b = k -> P s -> P (b ++ s)) -> forall s, P s.
Proof.
  intros Hk Hs Hb s. induction s as [s IH] using (induction_ltof1 _ (@length Z)). unfold ltof in IH.
  destruct (decide (length s < k)%nat); [by apply Hs|].
  rewrite <- (take_drop k s). apply Hb; [rewrite length_take; lia|].
  apply IH. rewrite length_drop. lia.
Qed.

(** [e] is the text of [data]: full blocks, then the last one. *)
Inductive encodes : bytes -> bytes -> Prop :=
| encodes_last s : (length s < 7)%nat -> encodes s (digits36 (chars (length s)) (horner s))
| encodes_block b s e : length b = 7%nat -> encodes s e ->
    encodes (b ++ s) (digits36 11 (horner b) ++ e).

Lemma length_encodes s e : encodes s e ->
  len e = len s / 7 * 11 + Z.of_nat (chars (Z.to_nat (len s mod 7))).
Proof.
  induction 1 as [s Hs|b s e Hb He IH].
  - unfold len at 1. rewrite length_digits36. unfold len.
    rewrite Z.div_small, Z.mod_small by lia. rewrite Nat2Z.id. lia.
  - rewrite !len_app, IH. unfold len at 1 4 6. rewrite length_digits36, Hb.
    replace (Z.of_nat 7 + len s) with (len s + 1 * 7) by lia.
    rewrite Z.div_add, Z.mod_add by lia. lia.
Qed.

Lemma chars_at k : 0 <= k < 8 ->
  at_ (E:=base36_error) lowerBase36EncodedCharsByBytes k = Ok (Z.of_nat (chars (Z.to_nat k))).
Proof.
  intros Hk. destruct (at_ok (E:=base36_error) lowerBase36EncodedCharsByBytes k Hk) as (x & -> & Hx).
  unfold chars. rewrite Hx. simpl. f_equal.
  assert (0 <= x); [|lia]. apply list_elem_of_lookup_2 in Hx. unfold lowerBase36EncodedCharsByBytes in Hx.
  repeat (apply elem_of_cons in Hx as [->|Hx]; [lia|]). set_solver.
Qed.

Lemma EncodedLenLowerBase36_spec n : 0 <= n ->
  EncodedLenLowerBase36 n = Ok (n / 7 * 11 + Z.of_nat (chars (Z.to_nat (n mod 7)))).
Proof.
  intros Hn. unfold EncodedLenLowerBase36. destruct (Z.leb_spec n 0).
  { assert (n = 0) as -> by lia. done. }
  rewrite chars_at by (pose proof (Z.mod_pos_bound n 7); lia). done.
Qed.

Lemma encodes_exists s : bytes_ok s -> exists e, encodes s e.
Proof.
  revert s. apply (blocks_ind 7 (fun s => bytes_ok s -> exists e, encodes s e)); [lia|eauto using encodes|]. intros b s Hb IH.
  intros [_ H]%bytes_ok_app. destruct (IH H) as [e He]. eauto using encodes.
Qed.

Lemma list_of_7 (b : bytes) : length b = 7%nat ->
  exists b0 b1 b2 b3 b4 b5 b6, b = [b0; b1; b2; b3; b4; b5; b6].
Proof.
  intros H. do 7 (destruct b as [|? b]; [discriminate|]). destruct b; [|discriminate]. eauto 10.
Qed.

(** The encoding loop fills the buffer with the text. *)
Lemma EncodeLowerBase36To_loop_spec s e : encodes s e -> forall fuel pre mid,
  bytes_ok s -> (length s < fuel)%nat -> length mid = length e ->
  EncodeLowerBase36To_loop fuel (pre ++ mid) (len pre) s = Ok (len pre + len e, pre ++ e).
Proof.
  induction 1 as [s Hs|b s e Hb He IH]; intros fuel pre mid Hok Hf Hm.
  - destruct fuel as [|fuel]; [lia|]. cbn [EncodeLowerBase36To_loop].
    replace (7 <=? len s) with false by (symmetry; apply Z.leb_gt; unfold len; lia).
    destruct (Z.ltb_spec 0 (len s)) as [Hp|Hp].
    + rewrite chars_at by (unfold len in *; lia). cbn [obind].
      rewrite be_value_horner by (done || (unfold len; lia)).
      rewrite length_digits36 in Hm.
      pose proof (horner_range s Hok). rewrite <- (app_nil_r mid).
      replace (Z.to_nat (len s)) with (length s) by (unfold len; lia).
      rewrite writeBase36Block_spec by (done || lia || (unfold len; lia)).
      cbn [obind]. rewrite app_nil_r, Nat2Z.id. unfold len. by rewrite length_digits36.
    + destruct s; [|rewrite len_cons in Hp; pose proof (len_nonneg s); lia].
      simpl in *. destruct mid; [|done]. by rewrite Z.add_0_r.
  - destruct fuel as [|fuel]; [rewrite length_app in Hf; lia|]. cbn [EncodeLowerBase36To_loop].
    apply bytes_ok_app in Hok as [Hokb Hoks].
    rewrite len_app. replace (len b) with 7 by (unfold len; lia). pose proof (len_nonneg s).
    replace (7 <=? 7 + len s) with true by (symmetry; apply Z.leb_le; lia).
    destruct (list_of_7 b Hb) as (b0 & b1 & b2 & b3 & b4 & b5 & b6 & ->).
    rewrite length_app, length_digits36 in Hm.
    pose proof (horner_range _ Hokb). cbn [app].
    rewrite block_value_horner by done. cbn [obind].
    rewrite <- (take_drop 11 mid).
    rewrite writeBase36Block_spec by (done || lia || (unfold len; rewrite length_take; lia)).
    cbn [obind]. rewrite <- (app_nil_r s) at 1.
    rewrite (slice_app [b0; b1; b2; b3; b4; b5; b6] s []) by done. cbn [obind].
    rewrite (assoc_L (++)). replace (len pre + 11) with (len (pre ++ digits36 11 (horner [b0; b1; b2; b3; b4; b5; b6])))
      by (rewrite len_app; unfold len; rewrite length_digits36; lia).
    rewrite IH; [|done|simpl in Hf; lia|rewrite length_drop; lia].
    rewrite !len_app, (assoc_L (++)). f_equal. f_equal. lia.
Qed.

Lemma make_bytes_length n : 0 <= n -> len (make_bytes n) = n.
Proof. intros. unfold len, make_bytes. rewrite length_replicate. lia. Qed.

Lemma EncodeLowerBase36Bytes_spec s e :
  bytes_ok s -> encodes s e -> EncodeLowerBase36Bytes s = Ok e.
Proof.
  intros Hs He. unfold EncodeLowerBase36Bytes.
  rewrite EncodedLenLowerBase36_spec, <- (length_encodes s e He) by apply len_nonneg. cbn [obind].
  unfold EncodeLowerBase36To. destruct (Z.eqb_spec (len s) 0) as [H0|H0].
  { destruct s; [|rewrite len_cons in H0; pose proof (len_nonneg s); lia].
    assert (Hl : len e = 0) by (rewrite (length_encodes [] e He); reflexivity).
    destruct e; [done|]. rewrite len_cons in Hl. pose proof (len_nonneg e). lia. }
  pose proof (EncodeLowerBase36To_loop_spec s e He (S (length s)) [] (make_bytes (len e)) Hs) as H.
  cbn [app] in H. change (len (@nil Z)) with 0 in H. rewrite H; [|lia|].
  - cbn [obind]. rewrite Z.add_0_l. by apply slice_all.
  - unfold make_bytes, len. rewrite length_replicate. lia.
Qed.

Lemma EncodeLowerBase36_spec s e : bytes_ok s -> encodes s e -> EncodeLowerBase36 s = Ok e.
Proof.
  intros Hs He. unfold EncodeLowerBase36. destruct (Z.eqb_spec (len s) 0) as [H0|H0].
  - rewrite <- (EncodeLowerBase36Bytes_spec s e Hs He).
    destruct s; [done|]. rewrite len_cons in H0. pose proof (len_nonneg s). lia.
  - by apply EncodeLowerBase36Bytes_spec.
Qed.

Lemma digits36_alphabet n v : Forall (fun c => c ∈ lowerBase36Alphabet) (digits36 n v).
Proof.
  revert v. induction n as [|n IH]; intros v; simpl; [constructor|].
  apply Forall_app. split; [apply IH|]. constructor; [|constructor].
  pose proof (Z.mod_pos_bound v 36 ltac:(lia)).
  destruct (at_ok (E:=base36_error) lowerBase36Alphabet (v mod 36)) as (x & _ & Hx); [done|].
  unfold alpha. rewrite Hx. by eapply list_elem_of_lookup_2.
Qed.

Lemma encodes_alphabet s e : encodes s e -> Forall (fun c => c ∈ lowerBase36Alphabet) e.
Proof. induction 1; [|apply Forall_app; split]; auto using digits36_alphabet. Qed.

(** ** Decoding *)

Lemma chars_decode k : (0 < k < 7)%nat ->
  (0 < chars k < 11)%nat /\
  at_ (E:=base36_error) lowerBase36DecodedBytesByChars (Z.of_nat (chars k)) = Ok (Z.of_nat k) /\
  256 ^ Z.of_nat k <= 36 ^ Z.of_nat (chars k) <= 18446744073709551616.
Proof.
  intros Hk. assert (k = 1 \/ k = 2 \/ k = 3 \/ k = 4 \/ k = 5 \/ k = 6)%nat as Hc by lia.
  destruct Hc as [->|[->|[->|[->|[->| ->]]]]]; vm_compute; repeat split; try done; lia.
Qed.

Lemma readBase36Block_horner n l :
  bytes_ok l -> 256 ^ len l <= 36 ^ Z.of_nat n <= 18446744073709551616 ->
  readBase36Block (digits36 n (horner l)) = Ok (horner l).
Proof. intros Hl Hn. pose proof (horner_range l Hl). apply read_digits36; lia. Qed.

Lemma DecodeLowerBase36_loop_spec s e : encodes s e -> forall fuel pre mid,
  bytes_ok s -> (length e < fuel)%nat -> length mid = length s ->
  DecodeLowerBase36_loop fuel (pre ++ mid) (len pre) e = Ok (pre ++ s).
Proof.
  induction 1 as [s Hs|b s e Hb He IH]; intros fuel pre mid Hok Hf Hm.
  - destruct fuel as [|fuel]; [lia|]. cbn [DecodeLowerBase36_loop].
    destruct (decide (length s = 0%nat)) as [H0|H0].
    { apply nil_length_inv in H0 as ->. apply nil_length_inv in Hm as ->. done. }
    destruct (chars_decode (length s)) as (Hc & Hat & Hp); [lia|].
    assert (Hl : len (digits36 (chars (length s)) (horner s)) = Z.of_nat (chars (length s)))
      by (unfold len; by rewrite length_digits36).
    rewrite Hl. replace (0 <? _) with true by (symmetry; apply Z.ltb_lt; lia).
    unfold lowerBase36NextDecodeBlock.
    replace (11 <=? _) with false by (symmetry; apply Z.leb_gt; lia).
    rewrite Hat. cbn [obind]. rewrite slice_all by done. cbn [obind].
    rewrite readBase36Block_horner by done. cbn [obind]. rewrite Nat2Z.id, <- (app_nil_r mid).
    rewrite write_block_spec, be_bytes_horner by done. cbn [obind].
    rewrite <- (app_nil_r (digits36 _ _)), <- (app_nil_r (digits36 _ _ ++ [])), <- (assoc_L (++)).
    rewrite slice_app by (rewrite ?Hl; unfold len; simpl; lia). cbn [obind].
    rewrite app_nil_r. destruct fuel; done.
  - destruct fuel as [|fuel]; [lia|]. cbn [DecodeLowerBase36_loop].
    apply bytes_ok_app in Hok as [Hokb Hoks].
    assert (Hl : len (digits36 11 (horner b)) = 11) by (unfold len; by rewrite length_digits36).
    rewrite len_app, Hl. pose proof (len_nonneg e).
    replace (0 <? _) with true by (symmetry; apply Z.ltb_lt; lia).
    unfold lowerBase36NextDecodeBlock.
    replace (11 <=? _) with true by (symmetry; apply Z.leb_le; lia). cbn [obind].
    rewrite (slice_app [] (digits36 11 (horner b)) e) by (rewrite ?Hl; done). cbn [obind].
    rewrite readBase36Block_horner by (done || (unfold len; rewrite Hb; vm_compute; split; discriminate)).
    cbn [obind]. rewrite length_app in Hm. rewrite <- (take_drop 7 mid).
    change (Z.to_nat 7) with 7%nat.
    rewrite write_block_spec by (rewrite length_take; lia). cbn [obind].
    replace (be_bytes 7 (horner b)) with b by (rewrite <- Hb; symmetry; by apply be_bytes_horner).
    rewrite <- (app_nil_r e) at 1.
    rewrite slice_app by (rewrite ?Hl; lia). cbn [obind].
    rewrite (assoc_L (++)). replace (len pre + 7) with (len (pre ++ b))
      by (rewrite len_app; unfold len; lia).
    rewrite length_app, length_digits36 in Hf.
    rewrite IH, (assoc_L (++)); [done|done|lia|rewrite length_drop; lia].
Qed.

Lemma encodes_decodedLen s e : encodes s e -> decodedLenLowerBase36 (len e) = Ok (len s).
Proof.
  intros He. unfold decodedLenLowerBase36. rewrite (length_encodes s e He).
  set (n := len s). assert (Hn : 0 <= n) by apply len_nonneg.
  pose proof (Z.div_mod n 7 ltac:(lia)) as Hdm. pose proof (Z.mod_pos_bound n 7 ltac:(lia)) as Hm.
  set (q := n / 7) in *. assert (0 <= q) by (apply Z.div_pos; lia).
  set (r := Z.to_nat (n mod 7)). assert (n mod 7 = Z.of_nat r) by (unfold r; lia).
  destruct (decide (r = 0%nat)) as [Hr|Hr].
  - rewrite Hr. change (Z.of_nat (chars 0)) with 0. rewrite Z.add_0_r.
    destruct (Z.leb_spec (q * 11) 0); [f_equal; lia|].
    rewrite Z.div_mul, Z.mod_mul by lia. change (len lowerBase36DecodedBytesByChars) with 12. simpl. f_equal. lia.
  - destruct (chars_decode r) as (Hc & Hat & _); [lia|].
    replace (q * 11 + Z.of_nat (chars r) <=? 0) with false by (symmetry; apply Z.leb_gt; lia).
    replace (q * 11 + Z.of_nat (chars r)) with (Z.of_nat (chars r) + q * 11) by lia.
    rewrite Z.div_add, Z.mod_add, Z.div_small, (Z.mod_small (Z.of_nat (chars r))) by lia.
    change (len lowerBase36DecodedBytesByChars) with 12.
    replace (12 <=? _) with false by (symmetry; apply Z.leb_gt; lia).
    rewrite Hat. cbn [obind]. replace (Z.of_nat r =? 0) with false by (symmetry; apply Z.eqb_neq; lia).
    rewrite andb_false_r. f_equal. lia.
Qed.

Lemma DecodeLowerBase36_encodes s e : bytes_ok s -> encodes s e -> DecodeLowerBase36 e = Ok s.
Proof.
  intros Hs He. unfold DecodeLowerBase36. pose proof (encodes_decodedLen s e He) as Hd.
  destruct (Z.eqb_spec (len e) 0) as [H0|H0].
  { rewrite H0 in Hd. injection Hd as Hd. destruct s; [done|].
    rewrite len_cons in Hd. pose proof (len_nonneg s). lia. }
  rewrite Hd. cbn [obind].
  apply (DecodeLowerBase36_loop_spec s e He _ [] (make_bytes (len s))); [done|lia|].
  unfold make_bytes, len. rewrite length_replicate. lia.
Qed.

(** ** Letter case *)

Lemma decode_map_lower c :
  u8 c -> u8 (lower c) /\ at_ (E:=base36_error) lowerBase36DecodeMap (lower c) = at_ lowerBase36DecodeMap c.
Proof.
  intros Hc. assert (H : forallb (fun n =>
    let c := Z.of_nat n in
    (lower c <? 256) && (0 <=? lower c) &&
    match at_ (E:=base36_error) lowerBase36DecodeMap (lower c), at_ (E:=base36_error) lowerBase36DecodeMap c with
    | Ok x, Ok y => x =? y | _, _ => false end) (seq 0 256) = true) by (vm_compute; reflexivity).
  unfold u8 in *. rewrite forallb_forall in H.
  specialize (H (Z.to_nat c) ltac:(apply in_seq; lia)). rewrite Z2Nat.id in H by lia. cbv zeta in H.
  destruct (at_ _ (lower c)), (at_ _ c); zbool; try done. split; [lia|congruence].
Qed.

Lemma readBase36Block_lower l acc :
  bytes_ok l -> readBase36Block_loop (map lower l) acc = readBase36Block_loop l acc.
Proof.
  intros Hl. revert acc. induction Hl as [|c l Hc _ IH]; intros acc; simpl; [done|].
  rewrite (proj2 (decode_map_lower c Hc)). destruct (at_ _ c); simpl; [|done..].
  destruct (_ =? 255); [done|]. apply IH.
Qed.

Lemma slice_map {E A B} (f : A -> B) l a b :
  slice (E:=E) (map f l) a b = let! x := slice l a b in Ok (map f x).
Proof.
  unfold slice, len. rewrite length_map. case_if; simpl; [|done].
  by rewrite skipn_map, firstn_map.
Qed.

Lemma slice_bytes_ok {E} l a b x : bytes_ok l -> slice (E:=E) l a b = Ok x -> bytes_ok x.
Proof.
  unfold slice. intros Hl. case_if; [|done]. intros [= <-]. by apply Forall_take, Forall_drop.
Qed.

Lemma DecodeLowerBase36_loop_lower fuel : forall out offset s, bytes_ok s ->
  DecodeLowerBase36_loop fuel out offset (map lower s) = DecodeLowerBase36_loop fuel out offset s.
Proof.
  induction fuel as [|fuel IH]; intros out offset s Hs; cbn [DecodeLowerBase36_loop]; [done|].
  replace (len (map lower s)) with (len s) by (unfold len; by rewrite length_map).
  case_if; [|done]. destruct (lowerBase36NextDecodeBlock (len s)) as [[n c]| |]; cbn [obind]; [|done..].
  rewrite !slice_map. destruct (slice s 0 c) as [x| |] eqn:Hx; cbn [obind]; [|done..].
  unfold readBase36Block. rewrite readBase36Block_lower by (by eapply slice_bytes_ok).
  destruct (readBase36Block_loop x 0); cbn [obind]; [|done..].
  destruct (write_block _ _ _ _); cbn [obind]; [|done..].
  destruct (slice s c (len s)) as [y| |] eqn:Hy; cbn [obind]; [|done..].
  apply IH. by eapply slice_bytes_ok.
Qed.

Lemma DecodeLowerBase36_lower s : bytes_ok s -> DecodeLowerBase36 (map lower s) = DecodeLowerBase36 s.
Proof.
  intros Hs. unfold DecodeLowerBase36.
  replace (len (map lower s)) with (len s) by (unfold len; by rewrite length_map).
  rewrite length_map. case_if; [done|].
  destruct (decodedLenLowerBase36 _); cbn [obind]; [|done..]. by apply DecodeLowerBase36_loop_lower.
Qed.

(** ** Decoding arbitrary text *)

Lemma decoded_table n : 0 <= n < 12 ->
  exists k, at_ (E:=base36_error) lowerBase36DecodedBytesByChars n = Ok k /\ 0 <= k <= 7.
Proof.
  intros Hn. destruct (at_ok (E:=base36_error) lowerBase36DecodedBytesByChars n Hn) as (k & -> & Hk).
  exists k. split; [done|]. apply list_elem_of_lookup_2 in Hk. unfold lowerBase36DecodedBytesByChars in Hk.
  repeat (apply elem_of_cons in Hk as [->|Hk]; [lia|]). set_solver.
Qed.

(** Bytes a text of [n] characters decodes to. *)
Definition decoded_size (n : Z) : Z :=
  n / 11 * 7 + default 0 (lowerBase36DecodedBytesByChars !! Z.to_nat (n mod 11)).

Lemma decodedLen_size n m : 0 <= n -> decodedLenLowerBase36 n = Ok m -> m = decoded_size n.
Proof.
  unfold decodedLenLowerBase36, decoded_size. intros Hn. destruct (Z.leb_spec n 0).
  { intros [= <-]. assert (n = 0) as -> by lia. done. }
  case_if; [done|]. zbool. change (len lowerBase36DecodedBytesByChars) with 12 in *.
  pose proof (Z.mod_pos_bound n 11 ltac:(lia)).
  destruct (at_ok (E:=base36_error) lowerBase36DecodedBytesByChars (n mod 11)) as (k & -> & ->);
    [change (len lowerBase36DecodedBytesByChars) with 12; lia|].
  cbn [obind]. case_if; [done|]. intros [= <-]. done.
Qed.

Lemma decoded_size_block n : decoded_size (11 + n) = 7 + decoded_size n.
Proof.
  unfold decoded_size. replace (11 + n) with (n + 1 * 11) by lia.
  rewrite Z.div_add, Z.mod_add by lia. lia.
Qed.

Lemma decoded_size_small n : 0 <= n < 11 -> decoded_size n = default 0 (lowerBase36DecodedBytesByChars !! Z.to_nat n).
Proof. intros. unfold decoded_size. rewrite Z.div_small, Z.mod_small by lia. done. Qed.

Lemma DecodeLowerBase36_loop_total s : forall fuel pre mid,
  bytes_ok s -> len mid = decoded_size (len s) ->
  (exists r, DecodeLowerBase36_loop fuel (pre ++ mid) (len pre) s = Ok r) \/
  DecodeLowerBase36_loop fuel (pre ++ mid) (len pre) s = Err ErrInvalidLowerBase36.
Proof.
  apply (blocks_ind 11 (fun s => forall fuel pre mid, bytes_ok s -> len mid = decoded_size (len s) ->
    (exists r, DecodeLowerBase36_loop fuel (pre ++ mid) (len pre) s = Ok r) \/
    DecodeLowerBase36_loop fuel (pre ++ mid) (len pre) s = Err ErrInvalidLowerBase36)); [lia|..]; clear s.
  - intros s Hs fuel pre mid Hok Hm. destruct fuel as [|fuel]; cbn [DecodeLowerBase36_loop]; [eauto|].
    case_if; [|eauto]. zbool. unfold lowerBase36NextDecodeBlock.
    replace (11 <=? len s) with false by (symmetry; apply Z.leb_gt; unfold len; lia).
    destruct (at_ok (E:=base36_error) lowerBase36DecodedBytesByChars (len s)) as (k & -> & Hk);
      [change (len lowerBase36DecodedBytesByChars) with 12; unfold len in *; lia|].
    rewrite decoded_size_small, Hk in Hm by (unfold len in *; lia). simpl in Hm. cbn [obind].
    rewrite slice_all by done. cbn [obind]. pose proof (read_no_panic s 0 Hok) as Hnp.
    unfold readBase36Block. destruct (readBase36Block_loop s 0) as [v|[]|]; cbn [obind]; [|auto|done].
    rewrite <- (app_nil_r mid), write_block_spec by (unfold len in Hm; lia). cbn [obind].
    rewrite slice_ok by (unfold len; lia). cbn [obind].
    rewrite drop_ge by (unfold len; lia). rewrite take_nil.
    destruct fuel; cbn; eauto.
  - intros b s Hb IH fuel pre mid Hok Hm. destruct fuel as [|fuel]; cbn [DecodeLowerBase36_loop]; [eauto|].
    apply bytes_ok_app in Hok as [Hokb Hoks]. assert (Hl : len b = 11) by (unfold len; lia).
    pose proof (len_nonneg s).
    rewrite len_app, Hl in *. replace (0 <? _) with true by (symmetry; apply Z.ltb_lt; lia).
    unfold lowerBase36NextDecodeBlock. replace (11 <=? _) with true by (symmetry; apply Z.leb_le; lia).
    cbn [obind]. rewrite (slice_app [] b s) by (rewrite ?Hl; done). cbn [obind].
    pose proof (read_no_panic b 0 Hokb) as Hnp.
    unfold readBase36Block. destruct (readBase36Block_loop b 0) as [v|[]|]; cbn [obind]; [|auto|done].
    rewrite decoded_size_block in Hm.
    assert (Hs0 : 0 <= decoded_size (len s)).
    { unfold decoded_size. pose proof (Z.mod_pos_bound (len s) 11 ltac:(lia)).
      destruct (decoded_table (len s mod 11)) as (k & Hk & Hk0); [lia|]. unfold at_ in Hk.
      destruct (0 <=? _); [|done]. destruct (_ !! _); [|done]. injection Hk as ->. simpl.
      pose proof (Z.div_pos (len s) 11). lia. }
    assert (Hm7 : (7 <= length mid)%nat) by (unfold len in Hm at 1; lia).
    rewrite <- (take_drop 7 mid). change (Z.to_nat 7) with 7%nat.
    rewrite write_block_spec by (rewrite length_take; lia). cbn [obind].
    rewrite slice_tail by (rewrite ?Hl; lia). cbn [obind].
    rewrite (assoc_L (++)). replace (len pre + 7) with (len (pre ++ be_bytes 7 v))
      by (rewrite len_app; unfold len; rewrite length_be_bytes; lia).
    apply IH; [done|]. unfold len in Hm at 1. unfold len at 1. rewrite length_drop. lia.
Qed.

Lemma DecodeLowerBase36_total s :
  bytes_ok s -> is_panic (DecodeLowerBase36 s) = false.
Proof.
  intros Hs. unfold DecodeLowerBase36. case_if; [done|].
  destruct (decodedLenLowerBase36 (len s)) as [m|[]|] eqn:Hd; cbn [obind]; [|done|].
  - apply decodedLen_size in Hd; [|apply len_nonneg].
    change (is_panic (DecodeLowerBase36_loop (S (length s)) ([] ++ make_bytes m) (len (@nil Z)) s) = false).
    destruct (DecodeLowerBase36_loop_total s (S (length s)) [] (make_bytes m) Hs) as [[r ->]| ->]; [|done..].
    rewrite Hd. apply make_bytes_length. unfold decoded_size.
    pose proof (len_nonneg s). pose proof (Z.mod_pos_bound (len s) 11 ltac:(lia)).
    destruct (decoded_table (len s mod 11)) as (k & Hk & Hk0); [lia|]. unfold at_ in Hk.
    destruct (0 <=? _); [|done]. destruct (_ !! _); [|done]. injection Hk as ->. simpl.
    pose proof (Z.div_pos (len s) 11). lia.
  - unfold decodedLenLowerBase36 in Hd. case_if; [done|]. case_if; [done|].
    change (len lowerBase36DecodedBytesByChars) with 12 in *. zbool.
    pose proof (Z.mod_pos_bound (len s) 11 ltac:(lia)).
    destruct (decoded_table (len s mod 11)) as (k & Hk & _); [lia|]. rewrite Hk in Hd. cbn [obind] in Hd.
    by case_if.
Qed.

(** Encoding, its length and its alphabet, and decoding under any letter case. *)
Lemma Encode_Decode (data : bytes) (H : bytes_ok data) :
  exists e, Encode data = Ok e /\ EncodeToBytes data = Ok e /\ EncodedLen (len data) = Ok (len e) /\
    Forall (fun c => c ∈ lowerBase36Alphabet) e /\
    forall s, bytes_ok s -> map lower s = e -> Decode s = Ok data /\ DecodeString s = Ok data.
Proof.
  destruct (encodes_exists data H) as [e He]. exists e.
  split; [by apply EncodeLowerBase36_spec|]. split; [by apply EncodeLowerBase36Bytes_spec|]. split.
  { unfold EncodedLen. rewrite EncodedLenLowerBase36_spec by apply len_nonneg.
    by rewrite <- (length_encodes data e). }
  split; [by eapply encodes_alphabet|]. intros s Hs <-.
  assert (Hd : Decode s = Ok data); [|split; exact Hd].
  unfold Decode. rewrite <- (DecodeLowerBase36_lower s Hs). by apply DecodeLowerBase36_encodes.
Qed.

(** ** Properties *)

(** Every byte string has an encoding of exactly [EncodedLen] characters, all
    lower-case letters or digits (so legal in DNS labels), and decoding it gives
    the byte string back, also after any change of the letter case on the way, as
    resolvers that randomise the case of names do. *)
Theorem base36_roundtrip (data : bytes) (H : bytes_ok data) :
  exists e, Encode data = Ok e /\ EncodeToBytes data = Ok e /\ EncodedLen (len data) = Ok (len e) /\
    Forall (fun c => c ∈ lowerBase36Alphabet) e /\
    forall s, bytes_ok s -> map lower s = e -> Decode s = Ok data /\ DecodeString s = Ok data.
Proof. by apply Encode_Decode. Qed.

Lemma base36_roundtrip_witness :
  bytes_ok [222; 173; 190; 239; 0; 1; 2; 3] /\
  exists e, Encode [222; 173; 190; 239; 0; 1; 2; 3] = Ok e /\ EncodeToBytes [222; 173; 190; 239; 0; 1; 2; 3] = Ok e /\
    EncodedLen (len [222; 173; 190; 239; 0; 1; 2; 3]) = Ok (len e) /\
    Forall (fun c => c ∈ lowerBase36Alphabet) e /\
    forall s, bytes_ok s -> map lower s = e ->
      Decode s = Ok [222; 173; 190; 239; 0; 1; 2; 3] /\ DecodeString s = Ok [222; 173; 190; 239; 0; 1; 2; 3].
Proof.
  assert (Hb : bytes_ok [222; 173; 190; 239; 0; 1; 2; 3]) by (repeat constructor; lia).
  split; [exact Hb|]. exact (base36_roundtrip _ Hb).
Defined.

(** Decoding any text ends with bytes or with the error value: no index or
    slice of the decoder is ever out of range. *)
Theorem base36_decode_total (s : bytes) (H : bytes_ok s) :
  is_panic (Decode s) = false /\ is_panic (DecodeString s) = false.
Proof.
  split; by apply DecodeLowerBase36_total.
Qed.

Lemma base36_decode_total_witness :
  bytes_ok [122; 122; 46] /\ is_panic (Decode [122; 122; 46]) = false /\
  is_panic (DecodeString [122; 122; 46]) = false.
Proof.
  assert (Hb : bytes_ok [122; 122; 46]) by (repeat constructor; lia).
  split; [exact Hb|]. exact (base36_decode_total _ Hb).
Defined.
