(* ===== verification/Base64.v ===== *)
(** * Unpadded base64 (basecodec/rawbase64.go)

    The server can write the TXT answers as base64.  The encoding itself is
    [base64.RawStdEncoding] of Go's standard library: groups of three bytes become
    four characters, a last group of one or two bytes becomes two or three; the
    decoder skips line breaks and refuses any other character outside the alphabet. *)

From stdpp Require Import base tactics list.
From Stdlib Require Import ZArith Lia.
From S2P Require Import Prelude.

(** ** The standard library encoding *)

Definition b64_char (d : Z) : Z :=
  if d <? 26 then 65 + d else if d <? 52 then 71 + d else if d <? 62 then d - 4 else if d =? 62 then 43 else 47.

Definition b64_value (c : Z) : option Z :=
  if (65 <=? c) && (c <=? 90) then Some (c - 65)
  else if (97 <=? c) && (c <=? 122) then Some (c - 71)
  else if (48 <=? c) && (c <=? 57) then Some (c + 4)
  else if c =? 43 then Some 62 else if c =? 47 then Some 63 else None.

(** The 24 bits of a group as six-bit digits and as bytes. *)
Definition b64_digit (v k : Z) : Z := b64_char (Z.land (Z.shiftr v k) 63).

Fixpoint b64_encode (data : bytes) : bytes :=
  match data with
  | b0 :: b1 :: b2 :: data =>
      let v := Z.lor (Z.lor (Z.shiftl b0 16) (Z.shiftl b1 8)) b2 in
      b64_digit v 18 :: b64_digit v 12 :: b64_digit v 6 :: b64_digit v 0 :: b64_encode data
  | [b0; b1] =>
      let v := Z.lor (Z.shiftl b0 16) (Z.shiftl b1 8) in [b64_digit v 18; b64_digit v 12; b64_digit v 6]
  | [b0] => let v := Z.shiftl b0 16 in [b64_digit v 18; b64_digit v 12]
  | [] => []
  end.

Definition quantum (d0 d1 d2 d3 : Z) : Z :=
  Z.lor (Z.lor (Z.lor (Z.shiftl d0 18) (Z.shiftl d1 12)) (Z.shiftl d2 6)) d3.

Fixpoint b64_quanta (l : bytes) : option bytes :=
  match l with
  | c0 :: c1 :: c2 :: c3 :: l =>
      d0 ← b64_value c0; d1 ← b64_value c1; d2 ← b64_value c2; d3 ← b64_value c3; rest ← b64_quanta l;
      let v := quantum d0 d1 d2 d3 in
      Some (wrap8 (Z.shiftr v 16) :: wrap8 (Z.shiftr v 8) :: wrap8 v :: rest)
  | [c0; c1; c2] =>
      d0 ← b64_value c0; d1 ← b64_value c1; d2 ← b64_value c2;
      let v := quantum d0 d1 d2 0 in Some [wrap8 (Z.shiftr v 16); wrap8 (Z.shiftr v 8)]
  | [c0; c1] =>
      d0 ← b64_value c0; d1 ← b64_value c1; Some [wrap8 (Z.shiftr (quantum d0 d1 0 0) 16)]
  | [_] => None
  | [] => Some []
  end.

Definition b64_decode (l : bytes) : option bytes := b64_quanta (filter (fun c => c <> 10 /\ c <> 13) l).

(** ** rawbase64.go *)

Inductive base64_error := CorruptInputError.

Definition EncodeRawBase64 (data : bytes) : bytes := if len data =? 0 then [] else b64_encode data.

Definition EncodedRawBase64Len (n : Z) : Z := Z.quot n 3 * 4 + Z.quot (Z.rem n 3 * 8 + 5) 6.

Definition EncodeRawBase64To (dst data : bytes) : bytes := if len data =? 0 then dst else dst ++ b64_encode data.

(** [EncodeRawBase64Into(dst[off:], data)]: the encoder indexes past the end of a
    destination that is too short. *)
Definition EncodeRawBase64Into {E} (dst : bytes) (off : Z) (data : bytes) : outcome E bytes :=
  if len data =? 0 then Ok dst
  else if len dst - off <? EncodedRawBase64Len (len data) then Panic
  else copy_at dst off (b64_encode data).

Definition DecodeRawBase64 (data : bytes) : outcome base64_error bytes :=
  if len data =? 0 then Ok []
  else match b64_decode data with Some out => Ok out | None => Err CorruptInputError end.

(** ** Round trip *)

Lemma b64_value_char d : 0 <= d < 64 -> b64_value (b64_char d) = Some d.
Proof. intros H. unfold b64_char, b64_value. repeat case_if; zbool; try (f_equal; lia); lia. Qed.

Lemma b64_char_text d : 0 <= d < 64 -> 43 <= b64_char d < 128.
Proof. intros H. unfold b64_char. repeat case_if; zbool; lia. Qed.

Lemma land_63 v : Z.land v 63 = v mod 64.
Proof. by apply (Z.land_ones v 6). Qed.

Lemma digit_range v k : 0 <= Z.land (Z.shiftr v k) 63 < 64.
Proof. rewrite land_63. by apply Z.mod_pos_bound. Qed.

Lemma b64_value_digit v k : b64_value (b64_digit v k) = Some (Z.land (Z.shiftr v k) 63).
Proof. apply b64_value_char, digit_range. Qed.

Lemma quantum_arith d0 d1 d2 d3 :
  0 <= d0 < 64 -> 0 <= d1 < 64 -> 0 <= d2 < 64 -> 0 <= d3 < 64 ->
  quantum d0 d1 d2 d3 = 262144 * d0 + 4096 * d1 + 64 * d2 + d3.
Proof.
  intros. unfold quantum.
  change 18 with (6 + 12). rewrite <- Z.shiftl_shiftl, <- Z.shiftl_lor, (lor_shiftl_disjoint d0 d1 6) by lia.
  change 12 with (6 + 6). rewrite <- Z.shiftl_shiftl, <- Z.shiftl_lor, (lor_shiftl_disjoint _ d2 6) by lia.
  rewrite lor_shiftl_disjoint by lia. change (2 ^ 6) with 64. lia.
Qed.

Lemma group_arith b0 b1 b2 : u8 b0 -> u8 b1 -> u8 b2 ->
  Z.lor (Z.lor (Z.shiftl b0 16) (Z.shiftl b1 8)) b2 = 65536 * b0 + 256 * b1 + b2.
Proof.
  unfold u8. intros.
  change 16 with (8 + 8). rewrite <- Z.shiftl_shiftl, <- Z.shiftl_lor, (lor_shiftl_disjoint b0 b1 8) by lia.
  rewrite lor_shiftl_disjoint by lia. change (2 ^ 8) with 256. lia.
Qed.

(** The digits of a 24-bit value put together again. *)
Lemma quantum_digits v : 0 <= v < 16777216 ->
  quantum (Z.land (Z.shiftr v 18) 63) (Z.land (Z.shiftr v 12) 63) (Z.land (Z.shiftr v 6) 63) (Z.land (Z.shiftr v 0) 63) = v.
Proof.
  intros. rewrite quantum_arith by apply digit_range. rewrite !land_63, !Z.shiftr_div_pow2 by lia.
  change (2 ^ 18) with 262144. change (2 ^ 12) with 4096. change (2 ^ 6) with 64. change (2 ^ 0) with 1.
  Z.to_euclidean_division_equations. lia.
Qed.

Lemma group_bytes b0 b1 b2 : u8 b0 -> u8 b1 -> u8 b2 ->
  let v := 65536 * b0 + 256 * b1 + b2 in
  wrap8 (Z.shiftr v 16) = b0 /\ wrap8 (Z.shiftr v 8) = b1 /\ wrap8 v = b2.
Proof.
  unfold u8, wrap8. cbv zeta. intros. rewrite !Z.shiftr_div_pow2 by lia. change (2 ^ 16) with 65536. change (2 ^ 8) with 256.
  Z.to_euclidean_division_equations. lia.
Qed.

(** Lists in steps of three. *)
Lemma triples_ind (P : bytes -> Prop) :
  P [] -> (forall a, P [a]) -> (forall a b, P [a; b]) -> (forall a b c l, P l -> P (a :: b :: c :: l)) -> forall l, P l.
Proof. intros H0 H1 H2 H3. fix IH 1. intros [|a [|b [|c l]]]; [done..|]. apply H3, IH. Qed.

(** The low digits of a group that is not full are zero. *)
Lemma low_digit_0 b0 b1 : Z.land (Z.shiftr (65536 * b0 + 256 * b1 + 0) 0) 63 = 0.
Proof.
  rewrite land_63, Z.shiftr_0_r. replace (65536 * b0 + 256 * b1 + 0) with ((1024 * b0 + 4 * b1) * 64) by lia.
  by apply Z.mod_mul.
Qed.

Lemma low_digit_1 b0 : Z.land (Z.shiftr (65536 * b0 + 256 * 0 + 0) 6) 63 = 0.
Proof.
  rewrite land_63, Z.shiftr_div_pow2 by lia. change (2 ^ 6) with 64.
  replace (65536 * b0 + 256 * 0 + 0) with (16 * b0 * 64 * 64) by lia. rewrite Z.div_mul by lia. by apply Z.mod_mul.
Qed.

Lemma quanta_1 b0 : u8 b0 -> b64_quanta (b64_encode [b0]) = Some [b0].
Proof.
  intros H0. cbn [b64_encode b64_quanta]. rewrite !b64_value_digit. cbn [mbind option_bind].
  assert (Hg : Z.shiftl b0 16 = 65536 * b0 + 256 * 0 + 0) by (rewrite Z.shiftl_mul_pow2 by lia; lia).
  assert (Hq := quantum_digits (65536 * b0 + 256 * 0 + 0) ltac:(unfold u8 in *; lia)).
  rewrite low_digit_1, low_digit_0 in Hq. rewrite Hg, Hq. by destruct (group_bytes b0 0 0) as (-> & _).
Qed.

Lemma quanta_2 b0 b1 : u8 b0 -> u8 b1 -> b64_quanta (b64_encode [b0; b1]) = Some [b0; b1].
Proof.
  intros H0 H1. cbn [b64_encode b64_quanta]. rewrite !b64_value_digit. cbn [mbind option_bind].
  assert (Hg := group_arith b0 b1 0 H0 H1 ltac:(done)). rewrite Z.lor_0_r in Hg.
  assert (Hq := quantum_digits (65536 * b0 + 256 * b1 + 0) ltac:(unfold u8 in *; lia)).
  rewrite low_digit_0 in Hq. rewrite Hg, Hq. by destruct (group_bytes b0 b1 0) as (-> & -> & _).
Qed.

Lemma b64_quanta_encode data : bytes_ok data -> b64_quanta (b64_encode data) = Some data.
Proof.
  induction data as [|b0|b0 b1|b0 b1 b2 data IH] using triples_ind; unfold bytes_ok; rewrite ?Forall_cons.
  - done.
  - intros [H0 _]. by apply quanta_1.
  - intros (H0 & H1 & _). by apply quanta_2.
  - intros (H0 & H1 & H2 & Hd). cbn [b64_encode b64_quanta]. rewrite group_arith by done.
    rewrite !b64_value_digit, IH by done. cbn [mbind option_bind].
    rewrite quantum_digits by (unfold u8 in *; lia). by destruct (group_bytes b0 b1 b2) as (-> & -> & ->).
Qed.

Lemma b64_encode_text data : Forall (fun c => 43 <= c < 128) (b64_encode data).
Proof.
  induction data as [|b0|b0 b1|b0 b1 b2 data IH] using triples_ind; cbn [b64_encode];
    repeat constructor; try apply b64_char_text, digit_range; done.
Qed.

Lemma length_b64_encode data : len (b64_encode data) = EncodedRawBase64Len (len data).
Proof.
  unfold EncodedRawBase64Len. rewrite !Z.quot_div_nonneg, Z.rem_mod_nonneg
    by (try lia; try apply len_nonneg; pose proof (Z.rem_bound_pos (len data) 3); pose proof (len_nonneg data); lia).
  induction data as [|b0|b0 b1|b0 b1 b2 data IH] using triples_ind; [done..|].
  cbn [b64_encode]. rewrite !len_cons, IH. pose proof (len_nonneg data).
  Z.to_euclidean_division_equations. lia.
Qed.

Lemma DecodeRawBase64_encode data : bytes_ok data -> DecodeRawBase64 (b64_encode data) = Ok data.
Proof.
  intros Hb. unfold DecodeRawBase64. case_if; zbool.
  - destruct data as [|b0 [|b1 [|b2 data]]]; [done|..]; cbn [b64_encode] in *; rewrite ?len_cons in *;
      unfold len in *; lia.
  - unfold b64_decode. rewrite list_filter_all.
    + by rewrite b64_quanta_encode.
    + eapply Forall_impl; [apply b64_encode_text|]. simpl. lia.
Qed.

Lemma EncodeRawBase64Into_spec {E} (pre mid data : bytes) off :
  off = len pre -> len mid = EncodedRawBase64Len (len data) -> EncodeRawBase64Into (E:=E) (pre ++ mid) off data = Ok (pre ++ b64_encode data).
Proof.
  intros -> Hl. unfold EncodeRawBase64Into. case_if; zbool.
  - destruct data; [|unfold len in *; simpl in *; lia]. destruct mid; [done|]. rewrite len_cons in Hl. pose proof (len_nonneg mid).
    change (EncodedRawBase64Len (len [])) with 0 in Hl. lia.
  - rewrite len_app, (proj2 (Z.ltb_ge _ _)) by lia. apply copy_at_end; [done|].
    pose proof (length_b64_encode data). unfold len in *. lia.
Qed.
