(* ===== verification/Compression.v ===== *)
(** * Payload compression (masterdns compression)

    Models src/masterdns/internal/compression/types.go: the compression types, the
    packing of a pair of types into a byte, and the two functions that compress and
    decompress a payload.  The compressors themselves (deflate, zstd, lz4) are
    third-party code: they are the operations of the class [Compressors], and
    [CompressorLaws] states what the code relies on.  The theorems show that a
    compressed payload decompresses to itself, that compression never makes a
    payload longer, and that no input of a compression type, however crafted,
    decompresses to more than the limit. *)

From stdpp Require Import base tactics list.
From Stdlib Require Import ZArith Lia.
From S2P Require Import Prelude.

Definition TypeOff : Z := 0.
Definition TypeZSTD : Z := 1.
Definition TypeLZ4 : Z := 2.
Definition TypeZLIB : Z := 3.

Definition DefaultMinSize : Z := 100.
Definition maxDecompressedSize : Z := 10 * 1024 * 1024.

Definition availableTypeMask : Z :=
  Z.lor (Z.lor (Z.lor (Z.shiftl 1 TypeOff) (Z.shiftl 1 TypeZSTD)) (Z.shiftl 1 TypeLZ4)) (Z.shiftl 1 TypeZLIB).

Definition normalizedPackedPairNibble : list Z :=
  [TypeOff; TypeZSTD; TypeLZ4; TypeZLIB; TypeOff; TypeOff; TypeOff; TypeOff;
   TypeOff; TypeOff; TypeOff; TypeOff; TypeOff; TypeOff; TypeOff; TypeOff].

Definition NormalizeType (value : Z) : Z := if value <=? TypeZLIB then value else TypeOff.

Definition IsTypeAvailable (value : Z) : bool :=
  negb (Z.land availableTypeMask (wrap8 (Z.shiftl 1 (NormalizeType value))) =? 0).

Definition NormalizeAvailableType (value : Z) : Z :=
  if (TypeZLIB <? value) || (Z.land availableTypeMask (wrap8 (Z.shiftl 1 value)) =? 0) then TypeOff else value.

Definition PackPair (uploadType downloadType : Z) : Z :=
  let uploadType := if TypeZLIB <? uploadType then TypeOff else uploadType in
  let downloadType := if TypeZLIB <? downloadType then TypeOff else downloadType in
  Z.lor (wrap8 (Z.shiftl uploadType 4)) downloadType.

Definition SplitPair (value : Z) : outcome unit (Z * Z) :=
  let! up := at_ normalizedPackedPairNibble (Z.land (Z.shiftr value 4) 15) in
  let! down := at_ normalizedPackedPairNibble (Z.land value 15) in
  Ok (up, down).

(** The compressors the code calls.  [inflate src n] is what [io.Copy] obtains
    from a limit reader of [n] bytes over the flate stream of [src]: the bytes,
    whether it met an error, and how many bytes of [src] are left unread.
    [zstd_decode src n] is the same copy for zstd, [None] on an error.
    [lz4_compress src n] are the bytes [CompressBlock] writes to a destination of
    [n] bytes, [lz4_uncompress src n] those [UncompressBlock] writes. *)
Class Compressors := {
  deflate : bytes -> option bytes;
  inflate : bytes -> Z -> bytes * bool * Z;
  zstd_encode : bytes -> bytes;
  zstd_decode : bytes -> Z -> option bytes;
  lz4_bound : Z -> Z;
  lz4_compress : bytes -> Z -> option bytes;
  lz4_uncompress : bytes -> Z -> option bytes
}.

(** What the compressors document: decompression inverts compression, and
    a compressed text is made of bytes and is not empty unless the data is. *)
Class CompressorLaws (C : Compressors) : Prop := {
  inflate_deflate : forall d c n, bytes_ok d -> deflate d = Some c -> len d < n ->
    inflate c n = (d, false, 0);
  zstd_decode_encode : forall d n, bytes_ok d -> len d < n -> zstd_decode (zstd_encode d) n = Some d;
  lz4_uncompress_compress : forall d c n, bytes_ok d -> lz4_compress d n = Some c -> c <> [] ->
    lz4_uncompress c (len d) = Some d;
  deflate_bytes : forall d c, deflate d = Some c -> bytes_ok c /\ (d <> [] -> c <> []);
  zstd_bytes : forall d, bytes_ok (zstd_encode d) /\ (d <> [] -> zstd_encode d <> []);
  lz4_bytes : forall d c n, lz4_compress d n = Some c -> bytes_ok c
}.

(** [binary.LittleEndian] on 32 bits. *)
Definition le32 (v : Z) : bytes :=
  [wrap8 v; wrap8 (Z.shiftr v 8); wrap8 (Z.shiftr v 16); wrap8 (Z.shiftr v 24)].

Definition of_le32 (l : bytes) : option Z :=
  match l with
  | b0 :: b1 :: b2 :: b3 :: _ =>
      Some (Z.lor (Z.lor (Z.lor b0 (Z.shiftl b1 8)) (Z.shiftl b2 16)) (Z.shiftl b3 24))
  | _ => None
  end.

Section compression.
Context `{C : Compressors}.

Definition compressZLIB (data : bytes) : option bytes := deflate data.

Definition decompressZLIB (data : bytes) : option bytes :=
  let '(buffer, err, unread) := inflate data (maxDecompressedSize + 1) in
  if err || negb (unread =? 0) then None
  else if maxDecompressedSize <? len buffer then None
  else Some buffer.

Definition compressZSTD (data : bytes) : option bytes := Some (zstd_encode data).

Definition decompressZSTD (data : bytes) : option bytes :=
  match zstd_decode data (maxDecompressedSize + 1) with
  | None => None
  | Some buffer => if maxDecompressedSize <? len buffer then None else Some buffer
  end.

Definition compressLZ4 (data : bytes) : option bytes :=
  let maxSize := lz4_bound (len data) in
  match lz4_compress data maxSize with
  | None => None
  | Some block => if len block =? 0 then None else Some (le32 (wrap32 (len data)) ++ block)
  end.

Definition decompressLZ4 (data : bytes) : option bytes :=
  match of_le32 data with
  | None => None
  | Some origSize =>
      if maxDecompressedSize <? origSize then None
      else match lz4_uncompress (drop 4 data) origSize with
           | None => None
           | Some out => if negb (len out =? origSize) then None else Some out
           end
  end.

Definition CompressPayload (data : bytes) (compType minSize : Z) : bytes * Z :=
  if len data =? 0 then (data, TypeOff)
  else
    let compType := NormalizeAvailableType compType in
    if compType =? TypeOff then (data, TypeOff)
    else
      let minSize := if minSize <=? 0 then DefaultMinSize else minSize in
      if len data <=? minSize then (data, TypeOff)
      else
        let r :=
          if compType =? TypeZLIB then compressZLIB data
          else if compType =? TypeZSTD then compressZSTD data
          else if compType =? TypeLZ4 then compressLZ4 data
          else Some [] in
        match r with
        | None => (data, TypeOff)
        | Some compData =>
            if len data <=? len compData then (data, TypeOff) else (compData, compType)
        end.

Definition TryDecompressPayload (data : bytes) (compType : Z) : option bytes :=
  if len data =? 0 then Some data
  else
    let compType := NormalizeAvailableType compType in
    if compType =? TypeOff then Some data
    else if compType =? TypeZLIB then decompressZLIB data
    else if compType =? TypeZSTD then decompressZSTD data
    else if compType =? TypeLZ4 then decompressLZ4 data
    else Some [].
End compression.

(** ** Types *)

Lemma NormalizeAvailableType_cases t : 0 <= t ->
  let n := NormalizeAvailableType t in
  (t = n /\ (n = 0 \/ n = 1 \/ n = 2 \/ n = 3)) \/ (3 < t /\ n = 0).
Proof.
  intros Ht n. unfold n, NormalizeAvailableType, TypeZLIB.
  destruct (Z.ltb_spec 3 t); [right; done|]. left.
  assert (t = 0 \/ t = 1 \/ t = 2 \/ t = 3) as Hc by lia.
  destruct Hc as [->|[->|[->| ->]]]; vm_compute; auto.
Qed.

Lemma NormalizeAvailableType_idem t :
  0 <= t -> NormalizeAvailableType (NormalizeAvailableType t) = NormalizeAvailableType t.
Proof.
  intros Ht. destruct (NormalizeAvailableType_cases t Ht) as [[_ [->|[->|[->| ->]]]]|[_ ->]]; done.
Qed.

Lemma of_le32_le32 v l : 0 <= v < 4294967296 -> of_le32 (le32 v ++ l) = Some v.
Proof.
  intros Hv. unfold le32, of_le32. cbn [app]. f_equal.
  apply Z.bits_inj'. intros i Hi. unfold wrap8. change 256 with (2 ^ 8).
  rewrite !Z.lor_spec.
  assert (Hlow : forall n, 0 <= n -> Z.testbit (Z.shiftl (Z.shiftr v n mod 2 ^ 8) n) i
    = (n <=? i) && (i <? n + 8) && Z.testbit v i).
  { intros n Hn. rewrite Z.shiftl_spec by lia. destruct (Z.leb_spec n i); simpl.
    - destruct (Z.ltb_spec i (n + 8)); simpl.
      + rewrite Z.mod_pow2_bits_low, Z.shiftr_spec by lia. f_equal. lia.
      + rewrite Z.mod_pow2_bits_high by lia. done.
    - rewrite Z.testbit_neg_r by lia. done. }
  pose proof (Hlow 0 ltac:(lia)) as H0. rewrite Z.shiftl_0_r, Z.shiftr_0_r in H0.
  rewrite H0, !Hlow by lia.
  destruct (Z.testbit v i) eqn:Hb; rewrite ?andb_false_r, ?andb_true_r; [|done].
  destruct (Z.ltb_spec i 32).
  - repeat match goal with |- context [?a <=? ?b] => destruct (Z.leb_spec a b) end;
    repeat match goal with |- context [?a <? ?b] => destruct (Z.ltb_spec a b) end;
      simpl; try done; lia.
  - rewrite <- (Z.mod_small v (2 ^ 32)) in Hb by lia. rewrite Z.mod_pow2_bits_high in Hb by lia. done.
Qed.

Section properties.
Context `{C : Compressors} {L : CompressorLaws C}.

Lemma decompressZLIB_compress d c :
  bytes_ok d -> len d <= maxDecompressedSize -> compressZLIB d = Some c -> decompressZLIB c = Some d.
Proof.
  intros Hd Hl Hc. unfold decompressZLIB. rewrite (inflate_deflate d c) by (done || lia). simpl.
  by replace (maxDecompressedSize <? len d) with false by (symmetry; apply Z.ltb_ge; lia).
Qed.

Lemma decompressZSTD_compress d c :
  bytes_ok d -> len d <= maxDecompressedSize -> compressZSTD d = Some c -> decompressZSTD c = Some d.
Proof.
  intros Hd Hl [= <-]. unfold decompressZSTD. rewrite zstd_decode_encode by (done || lia).
  by replace (maxDecompressedSize <? len d) with false by (symmetry; apply Z.ltb_ge; lia).
Qed.

Lemma decompressLZ4_compress d c :
  bytes_ok d -> len d <= maxDecompressedSize -> compressLZ4 d = Some c -> decompressLZ4 c = Some d.
Proof.
  intros Hd Hl. unfold compressLZ4, decompressLZ4.
  destruct (lz4_compress d _) as [b|] eqn:Hb; [|done].
  destruct (Z.eqb_spec (len b) 0) as [|Hne]; [done|]. intros Hc.
  assert (c = le32 (wrap32 (len d)) ++ b) as -> by congruence.
  pose proof (len_nonneg d). unfold maxDecompressedSize in *.
  assert (Hw : wrap32 (len d) = len d) by (apply Z.mod_small; lia). rewrite Hw.
  rewrite of_le32_le32 by lia.
  replace (10 * 1024 * 1024 <? len d) with false by (symmetry; apply Z.ltb_ge; lia).
  change (drop 4 (le32 (len d) ++ b)) with b. rewrite (lz4_uncompress_compress d b _ Hd Hb) by (intros ->; done).
  by rewrite Z.eqb_refl.
Qed.

Lemma le32_bytes v : bytes_ok (le32 v).
Proof. repeat constructor; apply Z.mod_pos_bound; lia. Qed.

Lemma len_zero {A} (l : list A) : len l = 0 <-> l = [].
Proof. unfold len. destruct l; simpl; split; intros; (done || lia). Qed.

(** A compressor of the available types, by its type. *)
Definition compress_with (t : Z) (d : bytes) : option bytes :=
  if t =? TypeZLIB then compressZLIB d else if t =? TypeZSTD then compressZSTD d
  else if t =? TypeLZ4 then compressLZ4 d else Some [].

Lemma compress_with_inverse t d c :
  t = 1 \/ t = 2 \/ t = 3 -> bytes_ok d -> d <> [] -> len d <= maxDecompressedSize ->
  compress_with t d = Some c ->
  bytes_ok c /\ TryDecompressPayload c t = Some d.
Proof.
  intros Ht Hd Hne Hl Hc. unfold TryDecompressPayload.
  assert (Hgoal : bytes_ok c /\ c <> [] /\
    (if t =? TypeZLIB then decompressZLIB c else if t =? TypeZSTD then decompressZSTD c
     else if t =? TypeLZ4 then decompressLZ4 c else Some []) = Some d).
  { unfold compress_with, TypeZLIB, TypeZSTD, TypeLZ4 in *.
    destruct Ht as [->|[->| ->]]; cbn [Z.eqb Pos.eqb] in *.
    - pose proof (decompressZSTD_compress d c Hd Hl Hc). injection Hc as <-.
      destruct (zstd_bytes d). auto.
    - pose proof (decompressLZ4_compress d c Hd Hl Hc) as H. unfold compressLZ4 in Hc.
      destruct (lz4_compress d _) as [b|] eqn:Hb; [|done]. case_if; [done|].
      assert (c = le32 (wrap32 (len d)) ++ b) as -> by congruence.
      split; [apply Forall_app; split; [apply le32_bytes|by eapply lz4_bytes]|]. done.
    - pose proof (decompressZLIB_compress d c Hd Hl Hc). destruct (deflate_bytes d c Hc). auto. }
  destruct Hgoal as (Hb & Hcne & Hdec). split; [done|].
  destruct (Z.eqb_spec (len c) 0) as [H0|_]; [by apply len_zero in H0|].
  destruct Ht as [->|[->| ->]]; exact Hdec.
Qed.

(** What [CompressPayload] returns: the payload itself, or a shorter text of the
    requested type that decompresses to it. *)
Lemma CompressPayload_cases d t m r t' :
  bytes_ok d -> len d <= maxDecompressedSize -> 0 <= t -> CompressPayload d t m = (r, t') ->
  (r = d /\ t' = TypeOff) \/
  (len r < len d /\ bytes_ok r /\ t' = t /\ 0 < t' <= 3 /\ TryDecompressPayload r t' = Some d).
Proof.
  intros Hd Hl Ht. unfold CompressPayload.
  destruct (Z.eqb_spec (len d) 0) as [|Hne]; [naive_solver|]. cbv zeta.
  destruct (Z.eqb_spec (NormalizeAvailableType t) TypeOff) as [|Hoff]; [naive_solver|].
  destruct (len d <=? _); [naive_solver|].
  fold (compress_with (NormalizeAvailableType t) d).
  destruct (compress_with _ d) as [c|] eqn:Hc; [|naive_solver].
  destruct (Z.leb_spec (len d) (len c)) as [|Hlt]; [naive_solver|]. intros [= <- <-]. right.
  unfold TypeOff in *.
  destruct (NormalizeAvailableType_cases t Ht) as [[He Hn]|[_ Hn]]; [|done].
  destruct (compress_with_inverse (NormalizeAvailableType t) d c) as [Hb Hdec]; try done.
  { destruct Hn as [|Hn]; [done|exact Hn]. }
  { intros ->. done. }
  rewrite <- He in *. split_and!; try done; lia.
Qed.
End properties.

(** ** A concrete family of compressors

    Run lengths of zero bytes, stored blocks otherwise; used to show that the laws
    can hold together. *)

Definition rle (d : bytes) : bytes :=
  if decide (d = replicate (length d) 0 /\ len d < 65536)
  then 0 :: be16 (len d) else 1 :: map wrap8 d.

Definition unrle (c : bytes) : option bytes :=
  match c with
  | 0 :: hi :: lo :: [] => Some (replicate (Z.to_nat (of_be16 hi lo)) 0)
  | 1 :: d => Some d
  | _ => None
  end.

Definition rle_compressors : Compressors := {|
  deflate d := Some (rle d);
  inflate c n := match unrle c with
                 | Some d => (take (Z.to_nat n) d, false, 0) | None => ([], true, 0) end;
  zstd_encode := rle;
  zstd_decode c n := option_map (take (Z.to_nat n)) (unrle c);
  lz4_bound n := n + 1;
  lz4_compress d _ := Some (rle d);
  lz4_uncompress c n := option_map (take (Z.to_nat n)) (unrle c)
|}.

Lemma map_wrap8 d : bytes_ok d -> map wrap8 d = d.
Proof. induction 1 as [|x l Hx _ IH]; simpl; [done|]. by rewrite IH, wrap8_id. Qed.

Lemma unrle_rle d : bytes_ok d -> unrle (rle d) = Some d.
Proof.
  intros Hd. unfold rle. destruct (decide _) as [[He Hl]|_]; cbn [unrle be16].
  - rewrite of_be16_be16 by (pose proof (len_nonneg d); unfold u16; lia). unfold len. rewrite Nat2Z.id. by rewrite <- He.
  - by rewrite map_wrap8.
Qed.

Lemma rle_bytes d : bytes_ok (rle d) /\ (d <> [] -> rle d <> []).
Proof.
  unfold rle. destruct (decide _); (split; [|done]).
  - constructor; [unfold u8; lia|apply bytes_ok_be16].
  - constructor; [unfold u8; lia|]. apply Forall_map, Forall_true. intros. apply u8_wrap8.
Qed.

#[export] Instance rle_laws : CompressorLaws rle_compressors.
Proof.
  split; simpl.
  - intros d c n Hd [= <-] Hl. rewrite unrle_rle by done. rewrite take_ge by (unfold len in Hl; lia). done.
  - intros d n Hd Hl. rewrite unrle_rle by done. simpl. rewrite take_ge by (unfold len in Hl; lia). done.
  - intros d c n Hd [= <-] _. rewrite unrle_rle by done. simpl. rewrite take_ge by (unfold len; lia). done.
  - intros d c [= <-]. apply rle_bytes.
  - apply rle_bytes.
  - intros d c n [= <-]. apply rle_bytes.
Qed.

(** ** Properties *)

(** A payload of at most the decompression limit is never made longer by
    [CompressPayload], the type returned is off or the one requested, and
    [TryDecompressPayload] with that type gives the payload back. *)
Theorem compression_roundtrip `{C : Compressors} {L : CompressorLaws C} (d : bytes) (t m : Z) :
  bytes_ok d -> len d <= maxDecompressedSize -> 0 <= t ->
  let '(r, t') := CompressPayload d t m in
  len r <= len d /\ bytes_ok r /\ (t' = TypeOff \/ t' = t) /\ TryDecompressPayload r t' = Some d.
Proof.
  intros Hd Hl Ht. destruct (CompressPayload d t m) as [r t'] eqn:Hc.
  destruct (CompressPayload_cases d t m r t' Hd Hl Ht Hc) as [[-> ->]|(H1 & H2 & -> & _ & H3)].
  - split; [lia|]. split; [done|]. split; [auto|]. unfold TryDecompressPayload. by case_if.
  - split; [lia|]. auto.
Qed.

Lemma compression_roundtrip_witness :
  let '(r, t') := CompressPayload (C := rle_compressors) (replicate 200 0) 2 100 in
  r = le32 200 ++ [0; 0; 200] /\
  len r <= 200 /\ bytes_ok r /\ (t' = TypeOff \/ t' = 2) /\
  TryDecompressPayload (C := rle_compressors) r t' = Some (replicate 200 0).
Proof.
  assert (Hb : bytes_ok (replicate 200 0)) by (apply Forall_replicate; unfold u8; lia).
  pose proof (compression_roundtrip (C := rle_compressors) (replicate 200 0) 2 100 Hb
    ltac:(vm_compute; discriminate) ltac:(lia)) as H.
  vm_compute in H |- *. split; [reflexivity|exact H].
Defined.




Lemma nibble_type n : exists x, at_ (E:=unit) normalizedPackedPairNibble (Z.land n 15) = Ok x /\ 0 <= x <= 3.
Proof.
  change 15 with (Z.ones 4). rewrite (Z.land_ones n 4) by lia. pose proof (Z.mod_pos_bound n (2 ^ 4) ltac:(lia)).
  destruct (at_ok (E:=unit) normalizedPackedPairNibble (n mod 2 ^ 4)) as (x & -> & Hx); [change (len normalizedPackedPairNibble) with 16; lia|].
  exists x. split; [done|]. apply list_elem_of_lookup_2 in Hx. unfold normalizedPackedPairNibble in Hx.
  repeat (apply elem_of_cons in Hx as [->|Hx]; [unfold TypeOff, TypeZSTD, TypeLZ4, TypeZLIB; lia|]). by apply not_elem_of_nil in Hx.
Qed.

Lemma SplitPair_total value : exists a b, SplitPair value = Ok (a, b) /\ 0 <= a <= 3 /\ 0 <= b <= 3.
Proof.
  unfold SplitPair. destruct (nibble_type (Z.shiftr value 4)) as (a & -> & Ha), (nibble_type value) as (b & -> & Hb). cbn [obind]. eauto.
Qed.

Lemma SplitPair_range value up down : SplitPair value = Ok (up, down) -> 0 <= up <= 3 /\ 0 <= down <= 3.
Proof. destruct (SplitPair_total value) as (a & b & -> & Ha & Hb). by intros [= <- <-]. Qed.

Lemma SplitPair_PackPair up down : 0 <= up -> 0 <= down -> SplitPair (PackPair up down) = Ok (NormalizeType up, NormalizeType down).
Proof.
  assert (Hn : forall x, 0 <= x -> (if TypeZLIB <? x then TypeOff else x) = NormalizeType x /\
    (NormalizeType x = 0 \/ NormalizeType x = 1 \/ NormalizeType x = 2 \/ NormalizeType x = 3)).
  { intros x Hx. unfold NormalizeType, TypeZLIB, TypeOff. destruct (Z.ltb_spec 3 x), (Z.leb_spec x 3); lia. }
  intros Hu Hd. unfold PackPair. cbv zeta. destruct (Hn up Hu) as [-> Hcu], (Hn down Hd) as [-> Hcd].
  destruct Hcu as [->|[->|[->| ->]]], Hcd as [->|[->|[->| ->]]]; reflexivity.
Qed.

Lemma PackPair_u8 up down : 0 <= up <= 3 -> 0 <= down <= 3 -> u8 (PackPair up down).
Proof.
  intros Hu Hd. assert (up = 0 \/ up = 1 \/ up = 2 \/ up = 3) as [->|[->|[->| ->]]] by lia;
    assert (down = 0 \/ down = 1 \/ down = 2 \/ down = 3) as [->|[->|[->| ->]]] by lia; vm_compute; split; congruence.
Qed.

(** Unpacking a packed pair gives the two types back, with unknown ones read as
    off; unpacking never panics and always yields types in the known range. *)
Theorem pair_roundtrip (up down value : Z) :
  u8 up -> u8 down -> u8 value ->
  SplitPair (PackPair up down) = Ok (NormalizeType up, NormalizeType down) /\
  exists a b, SplitPair value = Ok (a, b) /\ 0 <= a <= 3 /\ 0 <= b <= 3.
Proof. intros [Hu _] [Hd _] _. split; [by apply SplitPair_PackPair|apply SplitPair_total]. Qed.

Lemma pair_roundtrip_witness :
  SplitPair (PackPair 2 77) = Ok (2, 0) /\
  exists a b, SplitPair 0x3F = Ok (a, b) /\ 0 <= a <= 3 /\ 0 <= b <= 3.
Proof. apply (pair_roundtrip 2 77 0x3F); unfold u8; lia. Defined.
