(* ===== verification/Security.v ===== *)
(** * Packet encryption (masterdns security)

    Models src/masterdns/internal/security/codec.go: the six encryption methods,
    key derivation, and the codec that encrypts a packet and writes it as base 36
    text.  Hashes, ChaCha20 and AES-GCM are library code: they are the operations
    of the class [Crypto], with the laws the code relies on in [CryptoLaws].  The
    random nonce of a call is the result of [rnd].  A [Codec] pointer is an option,
    [None] for nil.  The theorems show that for every method what one side
    encrypts and encodes the other side decodes and decrypts. *)

From stdpp Require Import base tactics list.
From Stdlib Require Import ZArith Lia.
From S2P Require Import Prelude BaseCodec Compression.

Inductive codec_error :=
| ErrInvalidCodecMethod
| ErrInvalidCiphertext
| ErrNonce          (* rand.Read failed *)
| ErrCipher         (* the cipher refused the key or the nonce *)
| ErrEncoding (e : base36_error).

Definition chachaNonceSize : Z := 16.
Definition aesNonceSize : Z := 12.

Record Codec := mkCodec { method : Z; codec_key : bytes }.

(** Hashes and ciphers.  [chacha20_xor key nonce counter src] is a new cipher with
    its counter set, applied to [src]. *)
Class Crypto := {
  sha256 : bytes -> bytes;
  md5 : bytes -> bytes;
  chacha20_xor : bytes -> bytes -> Z -> bytes -> outcome codec_error bytes;
  gcm_seal : bytes -> bytes -> bytes -> bytes;
  gcm_open : bytes -> bytes -> bytes -> option bytes
}.

Definition gcm_overhead : Z := 16.

(** [aes.NewCipher] accepts keys of 16, 24 and 32 bytes. *)
Definition aes_key_ok (key : bytes) : bool := (len key =? 16) || (len key =? 24) || (len key =? 32).

(** ChaCha20 is an involution while its 32-bit block counter does not overflow;
    opening inverts sealing. *)
Class CryptoLaws (C : Crypto) : Prop := {
  sha256_ok : forall k, len (sha256 k) = 32 /\ bytes_ok (sha256 k);
  md5_ok : forall k, len (md5 k) = 16 /\ bytes_ok (md5 k);
  chacha20_involutive : forall key nonce counter src,
    len key = 32 -> len nonce = 12 -> bytes_ok src -> u32 counter ->
    counter + (len src + 63) / 64 <= 4294967296 ->
    exists out, chacha20_xor key nonce counter src = Ok out /\ len out = len src /\ bytes_ok out /\
      chacha20_xor key nonce counter out = Ok src;
  gcm_open_seal : forall key nonce src,
    aes_key_ok key = true -> len nonce = 12 -> bytes_ok src ->
    gcm_open key nonce (gcm_seal key nonce src) = Some src;
  gcm_seal_ok : forall key nonce src, bytes_ok src ->
    len (gcm_seal key nonce src) = len src + gcm_overhead /\ bytes_ok (gcm_seal key nonce src)
}.

Section codec.
Context `{C : Crypto}.

Definition requiredDerivedKeyLength (m : Z) : Z :=
  if (m =? 2) || (m =? 5) then 32 else if m =? 3 then 16 else if m =? 4 then 24 else 32.

Definition deriveKey (m : Z) (rawKey : bytes) : bytes :=
  let targetLen := requiredDerivedKeyLength m in
  if (m =? 2) || (m =? 5) then sha256 rawKey
  else if m =? 3 then md5 rawKey
  else
    let n := Z.to_nat targetLen in
    take n rawKey ++ replicate (n - length rawKey) 0.

Definition newAESGCM (key : bytes) : outcome codec_error unit :=
  if aes_key_ok key then Ok tt else Err ErrCipher.

Definition NewCodec (m : Z) (rawKey : bytes) : outcome codec_error Codec :=
  if (m <? 0) || (5 <? m) then Err ErrInvalidCodecMethod
  else
    let derivedKey := deriveKey m rawKey in
    if (m =? 3) || (m =? 4) || (m =? 5) then
      let! _ := newAESGCM derivedKey in Ok (mkCodec m derivedKey)
    else Ok (mkCodec m derivedKey).

Definition noCrypto (data : bytes) : outcome codec_error bytes := Ok data.

(** [for i := ...; i < i+n { dst[offset+i] = data[offset+i] ^ key[i] }] *)
Fixpoint xor_loop (n : nat) (dst data key : bytes) (offset i : Z) : outcome codec_error bytes :=
  match n with
  | O => Ok dst
  | S n =>
      let! d := at_ data (offset + i) in
      let! k := at_ key i in
      let! dst := put dst (offset + i) (Z.lxor d k) in
      xor_loop n dst data key offset (i + 1)
  end.

(** The loop over full blocks; it returns the buffer and the final offset. *)
Fixpoint xor_blocks (fullBlocks : nat) (dst data key : bytes) (offset : Z) :
    outcome codec_error (bytes * Z) :=
  match fullBlocks with
  | O => Ok (dst, offset)
  | S n =>
      let! dst := xor_loop (length key) dst data key offset 0 in
      xor_blocks n dst data key (offset + len key)
  end.

(** The loop for a one-byte key. *)
Fixpoint xor_mask (n : nat) (dst data : bytes) (mask i : Z) : outcome codec_error bytes :=
  match n with
  | O => Ok dst
  | S n =>
      let! d := at_ data i in
      let! dst := put dst i (Z.lxor d mask) in
      xor_mask n dst data mask (i + 1)
  end.

Definition xorCrypto (key data : bytes) : outcome codec_error bytes :=
  let keyLen := len key in
  if (len data =? 0) || (keyLen =? 0) then Ok data
  else
    let dst := make_bytes (len data) in
    if keyLen =? 1 then
      let! mask := at_ key 0 in
      xor_mask (length data) dst data mask 0
    else
      let! (dst, offset) := xor_blocks (Z.to_nat (len data / keyLen)) dst data key 0 in
      xor_loop (Z.to_nat (len data - offset)) dst data key offset 0.

Definition nonce_counter (nonce : bytes) : outcome codec_error Z :=
  match of_le32 nonce with Some c => Ok c | None => Panic end.

Definition chachaEncrypt (key : bytes) (rnd : Z -> option bytes) (data : bytes) : outcome codec_error bytes :=
  if len data =? 0 then Ok []
  else
    match rnd chachaNonceSize with
    | None => Err ErrNonce
    | Some nonce =>
        let! tail := slice nonce 4 (len nonce) in
        let! counter := nonce_counter nonce in
        let! out := chacha20_xor key tail counter data in
        Ok (nonce ++ out)
    end.

Definition chachaDecrypt (key data : bytes) : outcome codec_error bytes :=
  if len data =? 0 then Ok []
  else if len data <=? chachaNonceSize then Err ErrInvalidCiphertext
  else
    let! nonce := slice data 0 chachaNonceSize in
    let! ciphertext := slice data chachaNonceSize (len data) in
    let! tail := slice nonce 4 (len nonce) in
    let! counter := nonce_counter nonce in
    chacha20_xor key tail counter ciphertext.

Definition aesEncryptor (key : bytes) (rnd : Z -> option bytes) (src : bytes) : outcome codec_error bytes :=
  if len src =? 0 then Ok []
  else
    match rnd aesNonceSize with
    | None => Err ErrNonce
    | Some nonce => Ok (nonce ++ gcm_seal key nonce src)
    end.

Definition aesDecryptor (key src : bytes) : outcome codec_error bytes :=
  if len src =? 0 then Ok []
  else if len src <=? aesNonceSize then Err ErrInvalidCiphertext
  else
    let! nonce := slice src 0 aesNonceSize in
    let! ciphertext := slice src aesNonceSize (len src) in
    match gcm_open key nonce ciphertext with
    | Some plaintext => Ok plaintext
    | None => Err ErrInvalidCiphertext
    end.

(** The [encrypt] and [decrypt] fields that [NewCodec] sets. *)
Definition codec_encrypt (c : Codec) (rnd : Z -> option bytes) (data : bytes) : outcome codec_error bytes :=
  if method c =? 0 then noCrypto data
  else if method c =? 1 then xorCrypto (codec_key c) data
  else if method c =? 2 then chachaEncrypt (codec_key c) rnd data
  else aesEncryptor (codec_key c) rnd data.

Definition codec_decrypt (c : Codec) (data : bytes) : outcome codec_error bytes :=
  if method c =? 0 then noCrypto data
  else if method c =? 1 then xorCrypto (codec_key c) data
  else if method c =? 2 then chachaDecrypt (codec_key c) data
  else aesDecryptor (codec_key c) data.

Definition Encrypt (c : option Codec) (rnd : Z -> option bytes) (data : bytes) : outcome codec_error bytes :=
  match c with None => Err ErrInvalidCodecMethod | Some c => codec_encrypt c rnd data end.

Definition Decrypt (c : option Codec) (data : bytes) : outcome codec_error bytes :=
  match c with None => Err ErrInvalidCodecMethod | Some c => codec_decrypt c data end.

Definition Method (c : option Codec) : Z := match c with None => 0 | Some c => method c end.

Definition EncryptAndEncode (c : option Codec) (rnd : Z -> option bytes) (data : bytes) : outcome codec_error bytes :=
  match c with
  | None => Err ErrInvalidCodecMethod
  | Some c =>
      if method c =? 0 then map_err ErrEncoding (BaseCodec.Encode data)
      else
        let! encrypted := codec_encrypt c rnd data in
        map_err ErrEncoding (BaseCodec.Encode encrypted)
  end.

Definition EncryptAndEncodeBytes (c : option Codec) (rnd : Z -> option bytes) (data : bytes) : outcome codec_error bytes :=
  match c with
  | None => Err ErrInvalidCodecMethod
  | Some c =>
      if method c =? 0 then map_err ErrEncoding (BaseCodec.EncodeToBytes data)
      else
        let! encrypted := codec_encrypt c rnd data in
        map_err ErrEncoding (BaseCodec.EncodeToBytes encrypted)
  end.

Definition DecodeAndDecrypt (c : option Codec) (data : bytes) : outcome codec_error bytes :=
  match c with
  | None => Err ErrInvalidCodecMethod
  | Some c =>
      let! decoded := map_err ErrEncoding (BaseCodec.Decode data) in
      if method c =? 0 then Ok decoded else codec_decrypt c decoded
  end.

Definition DecodeStringAndDecrypt (c : option Codec) (data : bytes) : outcome codec_error bytes :=
  match c with
  | None => Err ErrInvalidCodecMethod
  | Some c =>
      let! decoded := map_err ErrEncoding (BaseCodec.DecodeString data) in
      if method c =? 0 then Ok decoded else codec_decrypt c decoded
  end.
End codec.

(** ** The XOR cipher *)

(** The key repeated over [n] bytes. *)
Definition keystream (key : bytes) (n : nat) : bytes := take n (concat (replicate (S (n / length key)) key)).

Definition xor_bytes : bytes -> bytes -> bytes := zip_with Z.lxor.

Lemma length_xor_bytes a b : (length a <= length b)%nat -> length (xor_bytes a b) = length a.
Proof. intros. unfold xor_bytes. rewrite length_zip_with. lia. Qed.

Lemma xor_bytes_involutive a k : (length a <= length k)%nat -> xor_bytes (xor_bytes a k) k = a.
Proof.
  revert k. induction a as [|x a IH]; intros [|y k] Hl; simpl in *; try done; [lia|].
  rewrite Z.lxor_assoc, Z.lxor_nilpotent, Z.lxor_0_r. f_equal. apply IH. lia.
Qed.

Lemma u8_lxor x y : u8 x -> u8 y -> u8 (Z.lxor x y).
Proof.
  unfold u8. intros Hx Hy. change 256 with (2 ^ 8) in *.
  assert (H : Z.lxor x y = Z.lxor x y mod 2 ^ 8).
  { apply Z.bits_inj'. intros i Hi. rewrite Z.lxor_spec. destruct (Z.ltb_spec i 8).
    - by rewrite Z.mod_pow2_bits_low, Z.lxor_spec by lia.
    - rewrite Z.mod_pow2_bits_high by lia.
      rewrite <- (Z.mod_small x (2 ^ 8)), <- (Z.mod_small y (2 ^ 8)) by lia.
      by rewrite !Z.mod_pow2_bits_high by lia. }
  rewrite H. apply Z.mod_pos_bound. lia.
Qed.

Lemma xor_bytes_ok a k : bytes_ok a -> bytes_ok k -> bytes_ok (xor_bytes a k).
Proof.
  intros Ha. revert k. induction Ha as [|x a Hx _ IH]; intros k Hk; simpl; [constructor|].
  destruct Hk as [|y k Hy Hk]; [constructor|]. constructor; [by apply u8_lxor|by apply IH].
Qed.

Lemma xor_loop_spec n : forall (mid kmid dpre dmid dpost kpre kpost pre post : bytes) offset,
  length mid = n -> length dmid = n -> length kmid = n -> len dpre = len pre ->
  len pre = offset + len kpre ->
  xor_loop n (pre ++ mid ++ post) (dpre ++ dmid ++ dpost) (kpre ++ kmid ++ kpost) offset (len kpre) =
    Ok (pre ++ xor_bytes dmid kmid ++ post).
Proof.
  induction n as [|n IH]; intros mid kmid dpre dmid dpost kpre kpost pre post offset Hm Hd Hk Hl Ho;
    cbn [xor_loop].
  { destruct mid, dmid, kmid; try discriminate. done. }
  destruct mid as [|x mid], dmid as [|d dmid], kmid as [|k kmid]; try discriminate.
  simpl in Hm, Hd, Hk. cbn [app].
  rewrite (at_middle dpre d) by lia. cbn [obind]. rewrite (at_middle kpre k) by lia. cbn [obind].
  rewrite put_middle by lia. cbn [obind].
  rewrite (cons_middle (Z.lxor d k) pre), (cons_middle d dpre), (cons_middle k kpre).
  rewrite !(assoc_L (++)), <- (assoc_L (++) (pre ++ _)), <- (assoc_L (++) (dpre ++ _)), <- (assoc_L (++) (kpre ++ _)).
  replace (len kpre + 1) with (len (kpre ++ [k])) by (rewrite len_app; done).
  rewrite IH by (try lia; rewrite !len_app; change (len [Z.lxor d k]) with 1; change (len [d]) with 1; change (len [k]) with 1; lia).
  by rewrite <- !(assoc_L (++)).
Qed.

Lemma xor_bytes_app a1 a2 k1 k2 :
  length a1 = length k1 -> xor_bytes (a1 ++ a2) (k1 ++ k2) = xor_bytes a1 k1 ++ xor_bytes a2 k2.
Proof. intros. by apply zip_with_app. Qed.

Lemma xor_blocks_spec n : forall (mid dpre dmid dpost key pre post : bytes),
  length mid = (n * length key)%nat -> length dmid = (n * length key)%nat -> len dpre = len pre ->
  xor_blocks n (pre ++ mid ++ post) (dpre ++ dmid ++ dpost) key (len pre) =
    Ok (pre ++ xor_bytes dmid (concat (replicate n key)) ++ post, len pre + len mid).
Proof.
  induction n as [|n IH]; intros mid dpre dmid dpost key pre post Hm Hd Hl; cbn [xor_blocks].
  { destruct mid, dmid; try discriminate. simpl. by rewrite Z.add_0_r. }
  simpl in Hm, Hd. set (k := length key) in *.
  rewrite <- (take_drop k mid), <- (take_drop k dmid), <- !(assoc_L (++)).
  assert (Hkey : key = [] ++ key ++ []) by (by rewrite app_nil_r).
  pose proof (xor_loop_spec k (take k mid) key dpre (take k dmid) (drop k dmid ++ dpost) [] [] pre
    (drop k mid ++ post) (len pre)) as Hx.
  cbn [app] in Hx. rewrite app_nil_r in Hx. change (len (@nil Z)) with 0 in Hx.
  rewrite Hx by (rewrite ?length_take; lia || done). cbn [obind]. clear Hx.
  set (x := xor_bytes (take k dmid) key).
  assert (Hxl : length x = k) by (unfold x; rewrite length_xor_bytes; rewrite length_take; lia).
  rewrite (assoc_L (++) pre), (assoc_L (++) dpre).
  replace (len pre + len key) with (len (pre ++ x)) by (rewrite len_app; unfold len; lia).
  rewrite IH; [|rewrite length_drop; lia..|].
  - cbn [replicate concat]. rewrite xor_bytes_app by (rewrite length_take; lia). fold x.
    rewrite <- !(assoc_L (++)). do 2 f_equal. rewrite !len_app. unfold len. rewrite length_take. lia.
  - rewrite !len_app, Hl. unfold len. rewrite length_take. lia.
Qed.

Lemma xor_mask_spec n : forall (mid dpre dmid pre : bytes) mask,
  length mid = n -> length dmid = n -> len dpre = len pre ->
  xor_mask n (pre ++ mid) (dpre ++ dmid) mask (len pre) = Ok (pre ++ xor_bytes dmid (replicate n mask)).
Proof.
  induction n as [|n IH]; intros mid dpre dmid pre mask Hm Hd Hl; cbn [xor_mask].
  { destruct mid, dmid; try discriminate. done. }
  destruct mid as [|x mid], dmid as [|d dmid]; try discriminate. simpl in Hm, Hd.
  rewrite (at_middle dpre d) by lia. cbn [obind]. rewrite put_middle by lia. cbn [obind].
  rewrite (cons_middle (Z.lxor d mask) pre), (cons_middle d dpre).
  rewrite !(assoc_L (++)).
  replace (len pre + 1) with (len (pre ++ [Z.lxor d mask])) by (rewrite len_app; done).
  rewrite IH by (try lia; rewrite !len_app, Hl; done).
  by rewrite <- !(assoc_L (++)).
Qed.

Lemma length_repeat_key (key : bytes) m : length (concat (replicate m key)) = (m * length key)%nat.
Proof. induction m as [|m IH]; simpl; [done|]. by rewrite length_app, IH. Qed.

Lemma length_keystream key n : key <> [] -> length (keystream key n) = n.
Proof.
  intros Hk. unfold keystream. rewrite length_take.
  rewrite length_repeat_key. assert (length key <> 0%nat) by (by destruct key).
  pose proof (Nat.div_mod_eq n (length key)). pose proof (Nat.mod_upper_bound n (length key)). lia.
Qed.

Lemma keystream_split key n : key <> [] ->
  keystream key n = concat (replicate (n / length key) key) ++ take (n mod length key) key.
Proof.
  intros Hk. unfold keystream.
  rewrite <- Nat.add_1_r, replicate_add, concat_app. cbn [replicate concat]. rewrite app_nil_r.
  assert (length key <> 0%nat) by (by destruct key).
  pose proof (Nat.div_mod_eq n (length key)) as Hn. rewrite take_app, length_repeat_key, take_ge
    by (rewrite length_repeat_key; lia).
  do 2 f_equal. lia.
Qed.

(** The optimised loops compute the byte-wise XOR with the repeated key. *)
Lemma xorCrypto_spec key data :
  xorCrypto key data = Ok (if decide (key = []) then data else xor_bytes data (keystream key (length data))).
Proof.
  unfold xorCrypto. destruct (Z.eqb_spec (len data) 0) as [H0|H0]; cbn [orb].
  { apply len_zero in H0 as ->. by destruct (decide _). }
  destruct (Z.eqb_spec (len key) 0) as [Hk|Hk]; cbn [orb].
  { apply len_zero in Hk as ->. done. }
  destruct (decide (key = [])) as [->|Hne]; [done|].
  destruct (Z.eqb_spec (len key) 1) as [H1|H1].
  - destruct key as [|mask [|? ?]]; unfold len in H1; simpl in H1; [lia| |lia]. rewrite at_cons_0. cbn [obind].
    pose proof (xor_mask_spec (length data) (make_bytes (len data)) [] data [] mask) as Hx.
    cbn [app] in Hx. change (len (@nil Z)) with 0 in Hx. rewrite Hx; [|unfold make_bytes, len; rewrite length_replicate; lia|done..].
    assert (Hrep : forall m, concat (replicate m [mask]) = replicate m mask).
    { induction m as [|m IH]; simpl; [done|]. by rewrite IH. }
    rewrite keystream_split by done. simpl (length [mask]). rewrite Nat.div_1_r, Nat.mod_1_r, Hrep.
    by rewrite app_nil_r.
  - set (n := length data). set (k := length key). assert (k <> 0%nat) by (unfold k; by destruct key).
    pose proof (Nat.div_mod_eq n k) as Hn. pose proof (Nat.mod_upper_bound n k) as Hmod.
    replace (Z.to_nat (len data / len key)) with (n / k)%nat
      by (unfold len; fold n; fold k; rewrite <- Nat2Z.inj_div; lia).
    set (a := (n / k * k)%nat). assert (Ha : (a + n mod k = n)%nat) by (unfold a; lia). set (dst := make_bytes (len data)).
    assert (Hdst : length dst = n) by (unfold dst, make_bytes, len; rewrite length_replicate; lia).
    pose proof (xor_blocks_spec (n / k) (take a dst) [] (take a data) (drop a data) key [] (drop a dst)) as Hb.
    cbn [app] in Hb. rewrite !take_drop in Hb. change (len (@nil Z)) with 0 in Hb.
    rewrite Hb by (rewrite ?length_take; unfold n in *; lia || done). cbn [obind]. clear Hb.
    set (x := xor_bytes _ _).
    assert (Hx : length x = a).
    { unfold x. rewrite length_xor_bytes; rewrite ?length_take; fold n; [lia|].
      rewrite length_repeat_key. fold k. fold a. lia. }
    assert (Hta : len (take a dst) = Z.of_nat a) by (unfold len; rewrite length_take; lia).
    rewrite Hta, Z.add_0_l. replace (Z.to_nat (len data - Z.of_nat a)) with (n mod k)%nat
      by (unfold len; fold n; lia).
    pose proof (xor_loop_spec (n mod k) (drop a dst) (take (n mod k) key) (take a data) (drop a data) []
      [] (drop (n mod k) key) x [] (Z.of_nat a)) as Hl.
    cbn [app] in Hl. rewrite !app_nil_r, !take_drop in Hl. change (len (@nil Z)) with 0 in Hl.
    rewrite Hl by (unfold len; rewrite ?length_drop, ?length_take; fold n k; lia).
    rewrite keystream_split by done. fold n k. rewrite <- (take_drop a data) at 2.
    rewrite xor_bytes_app; [done|]. rewrite length_take. fold n.
    rewrite length_repeat_key. fold k. lia.
Qed.

(** ** Round trips *)

(** What a random source gives: as many bytes as asked, or an error. *)
Definition rnd_ok (rnd : Z -> option bytes) : Prop :=
  forall n, 0 <= n -> match rnd n with Some b => len b = n /\ bytes_ok b | None => False end.

(** The block counter that the nonce of a ChaCha20 packet carries leaves room for
    the blocks of the packet. *)
Definition counter_fits (rnd : Z -> option bytes) (data : bytes) : Prop :=
  match rnd chachaNonceSize with
  | Some nonce =>
      match of_le32 nonce with
      | Some counter => counter + (len data + 63) / 64 <= 4294967296
      | None => False
      end
  | None => False
  end.

Section roundtrips.
Context `{C : Crypto} {L : CryptoLaws C}.

Lemma of_le32_range l c : bytes_ok l -> of_le32 l = Some c -> u32 c.
Proof.
  intros Hl. destruct l as [|b0 [|b1 [|b2 [|b3 l]]]]; try done. simpl. intros [= <-].
  unfold bytes_ok in Hl. rewrite !Forall_cons in Hl. unfold u8, u32 in *.
  rewrite Z.lor_comm, (Z.lor_comm _ (Z.shiftl b2 16)), (Z.lor_comm b0).
  rewrite (lor_shiftl_disjoint b1 b0 8), (lor_shiftl_disjoint b2 _ 16), (lor_shiftl_disjoint b3 _ 24) by lia.
  lia.
Qed.

Lemma chacha_roundtrip key rnd data :
  len key = 32 -> rnd_ok rnd -> bytes_ok data -> counter_fits rnd data ->
  exists e, chachaEncrypt key rnd data = Ok e /\ bytes_ok e /\ chachaDecrypt key e = Ok data.
Proof.
  intros Hk Hr Hd Hc. unfold chachaEncrypt, chachaDecrypt. destruct (Z.eqb_spec (len data) 0) as [H0|H0].
  { apply len_zero in H0 as ->. exists []. split; [done|]. split; [constructor|done]. }
  unfold counter_fits in Hc. specialize (Hr chachaNonceSize ltac:(unfold chachaNonceSize; lia)).
  destruct (rnd chachaNonceSize) as [nonce|]; [|done]. destruct Hr as [Hn Hnb].
  destruct (of_le32 nonce) as [counter|] eqn:Hcnt; [|done].
  assert (Hsplit : nonce = take 4 nonce ++ drop 4 nonce) by (by rewrite take_drop).
  assert (Htail : slice (E:=codec_error) nonce 4 (len nonce) = Ok (drop 4 nonce)).
  { rewrite Hsplit at 1. apply slice_tail; unfold len, chachaNonceSize in *;
      rewrite ?length_take, ?length_drop; lia. }
  destruct (chacha20_involutive key (drop 4 nonce) counter data) as (out & He & Hlo & Hob & Hd').
  { done. } { unfold len, chachaNonceSize in *. rewrite length_drop. lia. } { done. }
  { exact (of_le32_range nonce counter Hnb Hcnt). } { done. }
  unfold nonce_counter. rewrite Htail, Hcnt. cbn [obind]. rewrite He. cbn [obind].
  exists (nonce ++ out). split; [done|]. split; [by apply bytes_ok_app|].
  pose proof (len_nonneg data). unfold chachaNonceSize in *. rewrite len_app, Hn, Hlo.
  replace (16 + len data =? 0) with false by (symmetry; apply Z.eqb_neq; lia).
  replace (16 + len data <=? 16) with false by (symmetry; apply Z.leb_gt; lia).
  rewrite <- (app_nil_l (nonce ++ out)) at 1. rewrite slice_app by (simpl; unfold len in *; simpl; lia).
  cbn [obind]. rewrite slice_tail by lia. cbn [obind]. rewrite Htail, Hcnt. cbn [obind]. done.
Qed.

Lemma aes_roundtrip key rnd data :
  aes_key_ok key = true -> rnd_ok rnd -> bytes_ok data ->
  exists e, aesEncryptor key rnd data = Ok e /\ bytes_ok e /\ aesDecryptor key e = Ok data.
Proof.
  intros Hk Hr Hd. unfold aesEncryptor, aesDecryptor. destruct (Z.eqb_spec (len data) 0) as [H0|H0].
  { apply len_zero in H0 as ->. exists []. split; [done|]. split; [constructor|done]. }
  specialize (Hr aesNonceSize ltac:(unfold aesNonceSize; lia)).
  destruct (rnd aesNonceSize) as [nonce|]; [|done]. destruct Hr as [Hn Hnb].
  destruct (gcm_seal_ok key nonce data Hd) as [Hl Hb]. unfold gcm_overhead, aesNonceSize in *.
  exists (nonce ++ gcm_seal key nonce data). split; [done|]. split; [by apply bytes_ok_app|].
  pose proof (len_nonneg data). rewrite len_app, Hn, Hl.
  replace (12 + (len data + 16) =? 0) with false by (symmetry; apply Z.eqb_neq; lia).
  replace (12 + (len data + 16) <=? 12) with false by (symmetry; apply Z.leb_gt; lia).
  rewrite <- (app_nil_l (nonce ++ _)) at 1. rewrite slice_app by (simpl; unfold len in *; simpl; lia).
  cbn [obind]. rewrite slice_tail by lia. cbn [obind]. by rewrite gcm_open_seal.
Qed.

Lemma xor_roundtrip key data :
  bytes_ok key -> bytes_ok data ->
  exists e, xorCrypto key data = Ok e /\ bytes_ok e /\ xorCrypto key e = Ok data.
Proof.
  intros Hk Hd. rewrite xorCrypto_spec. destruct (decide (key = [])) as [->|Hne].
  { exists data. split; [done|]. split; [done|]. by rewrite xorCrypto_spec. }
  pose proof (length_keystream key (length data) Hne) as Hl.
  assert (Hkb : bytes_ok (keystream key (length data))).
  { unfold keystream. apply Forall_take, Forall_concat, Forall_replicate, Hk. }
  eexists. split; [done|]. split; [by apply xor_bytes_ok|].
  rewrite xorCrypto_spec. destruct (decide (key = [])); [done|].
  rewrite length_xor_bytes by lia. by rewrite xor_bytes_involutive by lia.
Qed.

(** The keys [NewCodec] derives fit their methods. *)
Lemma NewCodec_key m rawKey c :
  bytes_ok rawKey -> NewCodec m rawKey = Ok c ->
  method c = m /\ 0 <= m <= 5 /\ bytes_ok (codec_key c) /\
  (m = 2 -> len (codec_key c) = 32) /\ (3 <= m -> aes_key_ok (codec_key c) = true).
Proof.
  intros Hb. unfold NewCodec. destruct ((m <? 0) || (5 <? m)) eqn:Hm; [done|]. zbool.
  assert (Hkey : bytes_ok (deriveKey m rawKey)).
  { unfold deriveKey. case_if; [apply sha256_ok|]. case_if; [apply md5_ok|]. apply bytes_ok_app.
    split; [by apply Forall_take|]. apply Forall_replicate. unfold u8; lia. }
  assert (Hk2 : m = 2 -> len (deriveKey m rawKey) = 32) by (intros ->; apply sha256_ok).
  unfold newAESGCM. destruct ((m =? 3) || (m =? 4) || (m =? 5)) eqn:Hm5.
  - destruct (aes_key_ok (deriveKey m rawKey)) eqn:Hk; cbn [obind]; [|done].
    intros [= <-]. simpl. split_and!; (done || lia || auto).
  - intros [= <-]. simpl. split_and!; (done || lia || auto).
Qed.

(** The methods 0 to 5 always give a codec. *)
Lemma NewCodec_ok m rawKey : 0 <= m <= 5 -> exists c, NewCodec m rawKey = Ok c.
Proof.
  intros Hm. unfold NewCodec. replace ((m <? 0) || (5 <? m)) with false
    by (symmetry; apply orb_false_iff; rewrite !Z.ltb_ge; lia).
  assert (Hc : m = 0 \/ m = 1 \/ m = 2 \/ m = 3 \/ m = 4 \/ m = 5) by lia.
  unfold newAESGCM, aes_key_ok.
  destruct Hc as [->|[->|[->|[->|[->| ->]]]]]; cbn [Z.eqb Pos.eqb orb]; try (eexists; done).
  - unfold deriveKey. cbn [Z.eqb Pos.eqb orb]. destruct (md5_ok rawKey) as [-> _]. eexists; done.
  - unfold deriveKey. cbn [Z.eqb Pos.eqb orb requiredDerivedKeyLength]. unfold len.
    rewrite length_app, length_take, length_replicate.
    match goal with |- context [Z.of_nat ?x] => replace x with 24%nat by lia end. eexists; done.
  - unfold deriveKey. cbn [Z.eqb Pos.eqb orb]. destruct (sha256_ok rawKey) as [-> _]. eexists; done.
Qed.

Lemma codec_roundtrip_raw m rawKey c rnd data :
  bytes_ok rawKey -> NewCodec m rawKey = Ok c -> rnd_ok rnd -> bytes_ok data ->
  (m = 2 -> counter_fits rnd data) ->
  exists e, codec_encrypt c rnd data = Ok e /\ bytes_ok e /\ codec_decrypt c e = Ok data.
Proof.
  intros Hk Hc Hr Hd Hf. destruct (NewCodec_key m rawKey c Hk Hc) as (Hm & Hrange & Hkb & H2 & H3).
  unfold codec_encrypt, codec_decrypt. rewrite Hm.
  destruct (Z.eqb_spec m 0). { exists data. done. }
  destruct (Z.eqb_spec m 1). { by apply xor_roundtrip. }
  destruct (Z.eqb_spec m 2). { apply chacha_roundtrip; auto. }
  apply aes_roundtrip; auto. apply H3. lia.
Qed.

Lemma codec_roundtrip_text m rawKey c rnd data :
  bytes_ok rawKey -> NewCodec m rawKey = Ok c -> rnd_ok rnd -> bytes_ok data ->
  (m = 2 -> counter_fits rnd data) ->
  exists text, EncryptAndEncode (Some c) rnd data = Ok text /\
    EncryptAndEncodeBytes (Some c) rnd data = Ok text /\
    Forall (fun ch => ch ∈ lowerBase36Alphabet) text /\
    forall s, bytes_ok s -> map lower s = text ->
      DecodeAndDecrypt (Some c) s = Ok data /\ DecodeStringAndDecrypt (Some c) s = Ok data.
Proof.
  intros Hk Hc Hr Hd Hf.
  destruct (codec_roundtrip_raw m rawKey c rnd data Hk Hc Hr Hd Hf) as (e & He & Heb & Hdec).
  assert (He0 : method c = 0 -> e = data).
  { intros H0. unfold codec_encrypt in He. rewrite H0 in He. by injection He. }
  destruct (Encode_Decode e Heb) as (t & H1 & H2 & _ & H3 & H4). exists t.
  unfold EncryptAndEncode, EncryptAndEncodeBytes, DecodeAndDecrypt, DecodeStringAndDecrypt.
  destruct (Z.eqb_spec (method c) 0) as [H0|H0].
  - rewrite <- (He0 H0), H1, H2. split_and!; [done|done|done|].
    intros s Hs Hls. destruct (H4 s Hs Hls) as [-> ->]. done.
  - rewrite He. cbn [obind]. rewrite H1, H2. split_and!; [done|done|done|].
    intros s Hs Hls. destruct (H4 s Hs Hls) as [-> ->]. cbn [obind map_err]. done.
Qed.
End roundtrips.

(** ** A concrete cipher suite, to show that the laws can hold together *)

Definition toy_crypto : Crypto := {|
  sha256 k := replicate 32 (wrap8 (len k));
  md5 k := replicate 16 (wrap8 (len k));
  chacha20_xor key nonce counter src :=
    if (len key =? 32) && (len nonce =? 12) then
      if counter + (len src + 63) / 64 <=? 4294967296 then Ok (map (Z.lxor 165) src) else Panic
    else Err ErrCipher;
  gcm_seal key nonce src := src ++ replicate 16 7;
  gcm_open key nonce ct := Some (take (length ct - 16) ct)
|}.

#[export] Instance toy_laws : CryptoLaws toy_crypto.
Proof.
  split; simpl.
  - intros k. split; [done|]. repeat constructor; apply u8_wrap8.
  - intros k. split; [done|]. repeat constructor; apply u8_wrap8.
  - intros key nonce counter src -> -> Hs Hc Hf. rewrite !Z.eqb_refl. simpl.
    replace (_ <=? _) with true by (symmetry; by apply Z.leb_le).
    exists (map (Z.lxor 165) src). split; [done|].
    assert (Hl : len (map (Z.lxor 165) src) = len src) by (unfold len; by rewrite length_map).
    split; [done|]. split.
    { apply Forall_map. eapply Forall_impl; [exact Hs|]. intros x Hx. apply u8_lxor; [unfold u8; lia|done]. }
    rewrite Hl. replace (_ <=? _) with true by (symmetry; by apply Z.leb_le). f_equal.
    rewrite map_map. rewrite <- (map_id src) at 2. apply map_ext. intros x.
    by rewrite <- Z.lxor_assoc, Z.lxor_nilpotent, Z.lxor_0_l.
  - intros key nonce src _ _ _. rewrite length_app. simpl (length (replicate _ _)).
    rewrite Nat.add_sub, take_app_length. done.
  - intros key nonce src Hs. split; [rewrite len_app; done|]. apply bytes_ok_app. split; [done|].
    repeat constructor; lia.
Qed.

(** ** Properties *)

(** For every encryption method, what [EncryptAndEncode] writes for a packet
    [DecodeStringAndDecrypt] of a codec with the same key turns back into the
    packet, also when the letter case of the text was changed; the text consists of
    lower-case letters and digits.  With ChaCha20 this needs a nonce whose block
    counter does not overflow within the packet. *)
Theorem codec_roundtrip `{C : Crypto} {L : CryptoLaws C} (m : Z) (rawKey : bytes) (c : Codec)
    (rnd : Z -> option bytes) (data : bytes) :
  bytes_ok rawKey -> NewCodec m rawKey = Ok c -> rnd_ok rnd -> bytes_ok data ->
  (m = 2 -> counter_fits rnd data) ->
  exists text, EncryptAndEncode (Some c) rnd data = Ok text /\
    EncryptAndEncodeBytes (Some c) rnd data = Ok text /\
    Forall (fun ch => ch ∈ lowerBase36Alphabet) text /\
    forall s, bytes_ok s -> map lower s = text ->
      DecodeAndDecrypt (Some c) s = Ok data /\ DecodeStringAndDecrypt (Some c) s = Ok data.
Proof. apply codec_roundtrip_text. Qed.

Definition toy_rnd (n : Z) : option bytes := Some (replicate (Z.to_nat n) 9).

Lemma toy_rnd_ok : rnd_ok toy_rnd.
Proof.
  intros n Hn. simpl. unfold len. rewrite length_replicate. split; [lia|].
  apply Forall_replicate. unfold u8; lia.
Qed.

Lemma codec_roundtrip_witness :
  NewCodec (C := toy_crypto) 2 [1; 2; 3] = Ok (mkCodec 2 (replicate 32 3)) /\
  exists text, EncryptAndEncode (C := toy_crypto) (Some (mkCodec 2 (replicate 32 3))) toy_rnd [5; 6; 7; 8] = Ok text /\
    EncryptAndEncodeBytes (C := toy_crypto) (Some (mkCodec 2 (replicate 32 3))) toy_rnd [5; 6; 7; 8] = Ok text /\
    Forall (fun ch => ch ∈ lowerBase36Alphabet) text /\
    forall s, bytes_ok s -> map lower s = text ->
      DecodeAndDecrypt (C := toy_crypto) (Some (mkCodec 2 (replicate 32 3))) s = Ok [5; 6; 7; 8] /\
      DecodeStringAndDecrypt (C := toy_crypto) (Some (mkCodec 2 (replicate 32 3))) s = Ok [5; 6; 7; 8].
Proof.
  assert (Hc : NewCodec (C := toy_crypto) 2 [1; 2; 3] = Ok (mkCodec 2 (replicate 32 3))) by reflexivity.
  split; [exact Hc|].
  apply (codec_roundtrip (C := toy_crypto) 2 [1; 2; 3] _ toy_rnd [5; 6; 7; 8]).
  - repeat constructor; lia.
  - exact Hc.
  - exact toy_rnd_ok.
  - repeat constructor; lia.
  - intros _. vm_compute. discriminate.
Defined.

(** The XOR method computes byte [i] of the result as byte [i] of the packet
    XOR byte [i mod keyLen] of the key: the block loops of the code are equivalent
    to the textbook definition, and never index out of range. *)
Theorem xorCrypto_equiv (key data : bytes) (r : bytes) :
  key <> [] -> xorCrypto key data = Ok r ->
  length r = length data /\
  forall i d, data !! i = Some d ->
    exists k, key !! (i mod length key)%nat = Some k /\ r !! i = Some (Z.lxor d k).
Proof.
  intros Hne. rewrite xorCrypto_spec. destruct (decide (key = [])); [done|]. intros [= <-].
  pose proof (length_keystream key (length data) Hne) as Hl.
  split; [apply length_xor_bytes; lia|]. intros i d Hd.
  assert (Hk0 : length key <> 0%nat) by (by destruct key).
  pose proof (lookup_lt_Some _ _ _ Hd) as Hi.
  destruct (lookup_lt_is_Some_2 key (i mod length key)) as [k Hk]; [by apply Nat.mod_upper_bound|].
  exists k. split; [done|]. unfold xor_bytes. rewrite lookup_zip_with, Hd. simpl.
  assert (Hks : keystream key (length data) !! i = Some k); [|by rewrite Hks].
  unfold keystream. rewrite lookup_take_lt by lia.
  assert (Hrep : forall m j, (j < m * length key)%nat -> concat (replicate m key) !! j = key !! (j mod length key)%nat).
  { induction m as [|m IH]; intros j Hj; [lia|]. simpl. destruct (decide (j < length key)%nat).
    - rewrite lookup_app_l, Nat.mod_small by lia. done.
    - rewrite lookup_app_r, IH by lia. f_equal.
      replace j with (j - length key + 1 * length key)%nat at 2 by lia. by rewrite Nat.Div0.mod_add. }
  rewrite Hrep; [done|]. pose proof (Nat.div_mod_eq (length data) (length key)).
  pose proof (Nat.mod_upper_bound (length data) (length key)). lia.
Qed.

Lemma xorCrypto_equiv_witness :
  xorCrypto [1; 2; 3] [10; 20; 30; 40; 50] = Ok [11; 22; 29; 41; 48] /\
  length [11; 22; 29; 41; 48] = length [10; 20; 30; 40; 50] /\
  forall i d, [10; 20; 30; 40; 50] !! i = Some d ->
    exists k, [1; 2; 3] !! (i mod length [1; 2; 3])%nat = Some k /\ [11; 22; 29; 41; 48] !! i = Some (Z.lxor d k).
Proof.
  assert (H : xorCrypto [1; 2; 3] [10; 20; 30; 40; 50] = Ok [11; 22; 29; 41; 48]) by reflexivity.
  split; [exact H|]. apply (xorCrypto_equiv [1; 2; 3] [10; 20; 30; 40; 50]); [discriminate|exact H].
Defined.
