(* ===== verification/VpnProto.v ===== *)
(** * Packet wire format (masterdns vpnproto)

    Models src/masterdns/internal/vpnproto: the header layout chosen by packet
    type (parser.go), the builder (builder.go), control blocks packed into one
    packet (packing.go, utils.go) and compression of payloads (payload.go).
    [BuildRaw] writes a buffer byte by byte at running offsets as the code does,
    and every index of [parseFrom] is checked, so that absence of panics is a
    theorem.  The theorems: parsing a built packet gives its fields back, the
    bytes of a parsed packet are the ones the builder writes for its fields,
    parsing is total, packed blocks round trip, and a packet survives the whole
    text path (compress, build, encrypt, encode; decode, decrypt, parse, inflate). *)

From stdpp Require Import base tactics list.
From Stdlib Require Import ZArith Lia.
From S2P Require Import Prelude Enums BaseCodec Compression Security.

Inductive vpn_error :=
| ErrPacketTooShort
| ErrInvalidPacketType
| ErrInvalidHeaderCheck
| ErrInvalidEncodedData
| ErrCodecUnavailable
| ErrInvalidCompressedPayload
| ErrCodec (e : codec_error).

Definition integrityLength : Z := 2.
Definition minHeaderLength : Z := 4.

(** [1 << iota], where iota is 2 at [packetFlagValid]. *)
Definition packetFlagValid : Z := 4.
Definition packetFlagStream : Z := 8.
Definition packetFlagSequence : Z := 16.
Definition packetFlagFragment : Z := 32.
Definition packetFlagCompression : Z := 64.

Definition validOnly : list Z :=
  [PACKET_MTU_UP_RES; PACKET_MTU_DOWN_REQ; PACKET_SESSION_INIT; PACKET_SESSION_ACCEPT;
   PACKET_SESSION_BUSY; PACKET_SESSION_CLOSE; PACKET_PING; PACKET_PONG; PACKET_ERROR_DROP;
   PACKET_MTU_UP_REQ; PACKET_MTU_DOWN_RES].

Definition streamAndSeq : list Z :=
  [PACKET_STREAM_SYN; PACKET_STREAM_SYN_ACK; PACKET_STREAM_DATA; PACKET_STREAM_DATA_ACK;
   PACKET_STREAM_DATA_NACK; PACKET_STREAM_RESEND; PACKET_STREAM_CLOSE_WRITE;
   PACKET_STREAM_CLOSE_WRITE_ACK; PACKET_STREAM_CLOSE_READ; PACKET_STREAM_CLOSE_READ_ACK;
   PACKET_STREAM_RST; PACKET_STREAM_RST_ACK; PACKET_MTU_UP_REQ; PACKET_MTU_DOWN_RES;
   PACKET_SOCKS5_SYN; PACKET_SOCKS5_SYN_ACK; PACKET_STREAM_CONNECTED;
   PACKET_STREAM_CONNECTED_ACK; PACKET_STREAM_CONNECT_FAIL; PACKET_STREAM_CONNECT_FAIL_ACK;
   PACKET_SOCKS5_CONNECT_FAIL; PACKET_SOCKS5_CONNECT_FAIL_ACK; PACKET_SOCKS5_RULESET_DENIED;
   PACKET_SOCKS5_RULESET_DENIED_ACK; PACKET_SOCKS5_NETWORK_UNREACHABLE;
   PACKET_SOCKS5_NETWORK_UNREACHABLE_ACK; PACKET_SOCKS5_HOST_UNREACHABLE;
   PACKET_SOCKS5_HOST_UNREACHABLE_ACK; PACKET_SOCKS5_CONNECTION_REFUSED;
   PACKET_SOCKS5_CONNECTION_REFUSED_ACK; PACKET_SOCKS5_TTL_EXPIRED;
   PACKET_SOCKS5_TTL_EXPIRED_ACK; PACKET_SOCKS5_COMMAND_UNSUPPORTED;
   PACKET_SOCKS5_COMMAND_UNSUPPORTED_ACK; PACKET_SOCKS5_ADDRESS_TYPE_UNSUPPORTED;
   PACKET_SOCKS5_ADDRESS_TYPE_UNSUPPORTED_ACK; PACKET_SOCKS5_AUTH_FAILED;
   PACKET_SOCKS5_AUTH_FAILED_ACK; PACKET_SOCKS5_UPSTREAM_UNAVAILABLE;
   PACKET_SOCKS5_UPSTREAM_UNAVAILABLE_ACK; PACKET_SOCKS5_CONNECTED;
   PACKET_SOCKS5_CONNECTED_ACK; PACKET_DNS_QUERY_REQ; PACKET_DNS_QUERY_RES;
   PACKET_DNS_QUERY_REQ_ACK; PACKET_DNS_QUERY_RES_ACK].

Definition frag_types : list Z :=
  [PACKET_STREAM_DATA; PACKET_STREAM_RESEND; PACKET_SOCKS5_SYN; PACKET_DNS_QUERY_REQ;
   PACKET_DNS_QUERY_RES; PACKET_DNS_QUERY_REQ_ACK; PACKET_DNS_QUERY_RES_ACK;
   PACKET_MTU_UP_REQ; PACKET_MTU_DOWN_RES].

Definition comp_types : list Z :=
  [PACKET_STREAM_DATA; PACKET_STREAM_RESEND; PACKET_PACKED_CONTROL_BLOCKS;
   PACKET_DNS_QUERY_REQ; PACKET_DNS_QUERY_RES; PACKET_MTU_UP_REQ; PACKET_MTU_DOWN_RES].

(** [flags[packetType] |= bits], for each type of a list. *)
Definition or_flags (flagbits : Z) (types : list Z) (flags : list Z) : list Z :=
  fold_left (fun flags t => alter (fun f => Z.lor f flagbits) (Z.to_nat t) flags) types flags.

Definition buildPacketFlags : list Z :=
  let flags := replicate 256 0 in
  let flags := or_flags packetFlagValid validOnly flags in
  let flags := or_flags (Z.lor packetFlagValid (Z.lor packetFlagStream packetFlagSequence)) streamAndSeq flags in
  let flags := or_flags packetFlagFragment frag_types flags in
  or_flags (Z.lor packetFlagValid packetFlagCompression) comp_types flags.

Definition packetFlags : list Z := Eval vm_compute in buildPacketFlags.

(** [flags & bit != 0] *)
Definition has (flags bit : Z) : bool := negb (Z.land flags bit =? 0).

Record Packet := mkPacket {
  SessionID : Z;
  PacketType : Z;
  SessionCookie : Z;
  HasStreamID : bool;
  StreamID : Z;
  HasSequenceNum : bool;
  SequenceNum : Z;
  HasFragmentInfo : bool;
  FragmentID : Z;
  TotalFragments : Z;
  HasCompressionType : bool;
  CompressionType : Z;
  HeaderLength : Z;
  Payload : bytes
}.

Record BuildOptions := mkBuildOptions {
  oSessionID : Z;
  oPacketType : Z;
  oSessionCookie : Z;
  oStreamID : Z;
  oSequenceNum : Z;
  oFragmentID : Z;
  oTotalFragments : Z;
  oCompressionType : Z;
  oPayload : bytes
}.

Definition computeHeaderCheckByte_step (acc idx value : Z) : Z :=
  let acc := wrap8 (acc + wrap8 (value + wrap8 idx)) in
  Z.lxor acc (wrap8 (Z.shiftl value (Z.land idx 3))).

Fixpoint computeHeaderCheckByte_loop (acc idx : Z) (header : bytes) : Z :=
  match header with
  | [] => acc
  | value :: header =>
      computeHeaderCheckByte_loop (computeHeaderCheckByte_step acc idx value) (idx + 1) header
  end.

Definition computeHeaderCheckByte (header : bytes) : Z :=
  computeHeaderCheckByte_loop (wrap8 (len header * 17 + 0x5D)) 0 header.

(** The header length both sides compute from the flags. *)
Definition header_len (flags : Z) : Z :=
  let n := 2 + integrityLength in
  let n := if has flags packetFlagStream then n + 2 else n in
  let n := if has flags packetFlagSequence then n + 2 else n in
  let n := if has flags packetFlagFragment then n + 2 else n in
  if has flags packetFlagCompression then n + 1 else n.

Definition parseFrom (data : bytes) (start : Z) : outcome vpn_error Packet :=
  let! data := slice data start (len data) in
  if len data <? minHeaderLength then Err ErrPacketTooShort
  else
    let! packetType := at_ data 1 in
    let! flags := at_ packetFlags packetType in
    if negb (has flags packetFlagValid) then Err ErrInvalidPacketType
    else if len data <? header_len flags then Err ErrPacketTooShort
    else
      let! sessionID := at_ data 0 in
      let offset := 2 in
      let! (streamID, offset) :=
        if has flags packetFlagStream
        then let! v := get16 data offset in Ok (v, offset + 2) else Ok (0, offset) in
      let! (sequenceNum, offset) :=
        if has flags packetFlagSequence
        then let! v := get16 data offset in Ok (v, offset + 2) else Ok (0, offset) in
      let! (fragmentID, totalFragments, offset) :=
        if has flags packetFlagFragment
        then let! f := at_ data offset in let! t := at_ data (offset + 1) in Ok (f, t, offset + 2)
        else Ok (0, 0, offset) in
      let! (compressionType, offset) :=
        if has flags packetFlagCompression
        then let! c := at_ data offset in Ok (c, offset + 1) else Ok (0, offset) in
      let! cookie := at_ data offset in
      let! checkByte := at_ data (offset + 1) in
      let! header := slice data 0 (offset + 1) in
      let expected := computeHeaderCheckByte header in
      if negb (checkByte =? expected) then Err ErrInvalidHeaderCheck
      else
        let headerLength := offset + integrityLength in
        let! payload := slice data headerLength (len data) in
        Ok (mkPacket sessionID packetType cookie
              (has flags packetFlagStream) streamID
              (has flags packetFlagSequence) sequenceNum
              (has flags packetFlagFragment) fragmentID totalFragments
              (has flags packetFlagCompression) compressionType
              headerLength payload).

Definition ParseAtOffset (data : bytes) (offset : Z) : outcome vpn_error Packet :=
  if (offset <? 0) || (len data <=? offset) then Err ErrPacketTooShort else parseFrom data offset.

Definition Parse (data : bytes) : outcome vpn_error Packet := ParseAtOffset data 0.

Definition BuildRaw (opts : BuildOptions) : outcome vpn_error bytes :=
  let! flags := at_ packetFlags (oPacketType opts) in
  if negb (has flags packetFlagValid) then Err ErrInvalidPacketType
  else
    let headerLen := header_len flags in
    let raw := make_bytes (headerLen + len (oPayload opts)) in
    let! raw := put raw 0 (oSessionID opts) in
    let! raw := put raw 1 (oPacketType opts) in
    let offset := 2 in
    let! (raw, offset) :=
      if has flags packetFlagStream then
        let! raw := put raw offset (wrap8 (Z.shiftr (oStreamID opts) 8)) in
        let! raw := put raw (offset + 1) (wrap8 (oStreamID opts)) in Ok (raw, offset + 2)
      else Ok (raw, offset) in
    let! (raw, offset) :=
      if has flags packetFlagSequence then
        let! raw := put raw offset (wrap8 (Z.shiftr (oSequenceNum opts) 8)) in
        let! raw := put raw (offset + 1) (wrap8 (oSequenceNum opts)) in Ok (raw, offset + 2)
      else Ok (raw, offset) in
    let! (raw, offset) :=
      if has flags packetFlagFragment then
        let! raw := put raw offset (oFragmentID opts) in
        let! raw := put raw (offset + 1) (oTotalFragments opts) in Ok (raw, offset + 2)
      else Ok (raw, offset) in
    let! (raw, offset) :=
      if has flags packetFlagCompression then
        let! raw := put raw offset (oCompressionType opts) in Ok (raw, offset + 1)
      else Ok (raw, offset) in
    let! raw := put raw offset (oSessionCookie opts) in
    let offset := offset + 1 in
    let! header := slice raw 0 offset in
    let! raw := put raw offset (computeHeaderCheckByte header) in
    let offset := offset + 1 in
    copy_at raw offset (oPayload opts).

Definition packet_flags (packetType : Z) : Z := default 0 (packetFlags !! Z.to_nat packetType).

Definition hasStreamExtension (packetType : Z) : bool := has (packet_flags packetType) packetFlagStream.
Definition hasSequenceExtension (packetType : Z) : bool := has (packet_flags packetType) packetFlagSequence.
Definition hasFragmentExtension (packetType : Z) : bool := has (packet_flags packetType) packetFlagFragment.
Definition hasCompressionExtension (packetType : Z) : bool := has (packet_flags packetType) packetFlagCompression.

Definition HeaderRawSize (packetType : Z) : Z :=
  let flags := packet_flags packetType in
  if negb (has flags packetFlagValid) then 0 else header_len flags.

(** [for packetType := range len(packetFlags)] *)
Definition all_packet_types : list Z := map Z.of_nat (seq 0 256).

Definition MaxHeaderRawSize : Z :=
  fold_left (fun maxSize packetType =>
    let size := HeaderRawSize packetType in if maxSize <? size then size else maxSize) all_packet_types 0.

Definition MaxHeaderPacketType : Z :=
  (fold_left (fun '(maxSize, bestType) packetType =>
    let size := HeaderRawSize packetType in
    if maxSize <? size then (size, packetType) else (maxSize, bestType)) all_packet_types (0, 0)).2.

(** ** Text form *)

Section text.
Context `{CR : Crypto} `{CP : Compressors}.

Definition ParseFromLabels (labels : bytes) (codec : option Codec) : outcome vpn_error Packet :=
  match codec with
  | None => Err ErrCodecUnavailable
  | Some _ =>
      if len labels =? 0 then Err ErrInvalidEncodedData
      else
        let! raw := map_err ErrCodec (DecodeStringAndDecrypt codec labels) in
        Parse raw
  end.

Definition BuildEncoded (opts : BuildOptions) (codec : option Codec) (rnd : Z -> option bytes) :
    outcome vpn_error bytes :=
  let! raw := BuildRaw opts in
  match codec with
  | None => Err ErrCodecUnavailable
  | Some _ => map_err ErrCodec (EncryptAndEncode codec rnd raw)
  end.

Definition PreparePayload (packetType : Z) (payload : bytes) (requestedCompression minSize : Z) : bytes * Z :=
  let requestedCompression := NormalizeAvailableType requestedCompression in
  if requestedCompression =? TypeOff then (payload, TypeOff)
  else if negb (hasCompressionExtension packetType) then (payload, TypeOff)
  else if len payload =? 0 then (payload, TypeOff)
  else CompressPayload payload requestedCompression minSize.

Definition InflatePayload (p : Packet) : outcome vpn_error Packet :=
  if negb (HasCompressionType p) || (CompressionType p =? TypeOff) then Ok p
  else
    match TryDecompressPayload (Payload p) (CompressionType p) with
    | None => Err ErrInvalidCompressedPayload
    | Some payload =>
        Ok (mkPacket (SessionID p) (PacketType p) (SessionCookie p) (HasStreamID p) (StreamID p)
              (HasSequenceNum p) (SequenceNum p) (HasFragmentInfo p) (FragmentID p) (TotalFragments p)
              (HasCompressionType p) (CompressionType p) (HeaderLength p) payload)
    end.

Definition ParseInflatedFromLabels (labels : bytes) (codec : option Codec) : outcome vpn_error Packet :=
  let! packet := ParseFromLabels labels codec in InflatePayload packet.

Definition ParseInflated (data : bytes) : outcome vpn_error Packet :=
  let! packet := Parse data in InflatePayload packet.

Definition BuildRawAuto (o : BuildOptions) (minSize : Z) : outcome vpn_error bytes :=
  let '(payload, compressionType) := PreparePayload (oPacketType o) (oPayload o) (oCompressionType o) minSize in
  BuildRaw (mkBuildOptions (oSessionID o) (oPacketType o) (oSessionCookie o) (oStreamID o) (oSequenceNum o)
              (oFragmentID o) (oTotalFragments o) compressionType payload).

Definition BuildEncodedAuto (o : BuildOptions) (codec : option Codec) (rnd : Z -> option bytes) (minSize : Z) :
    outcome vpn_error bytes :=
  let! raw := BuildRawAuto o minSize in
  match codec with
  | None => Err ErrCodecUnavailable
  | Some _ => map_err ErrCodec (EncryptAndEncode codec rnd raw)
  end.
End text.

(** ** Packed control blocks *)

Definition PackedControlBlockSize : Z := 7.

Definition packable_types : list Z :=
  [PACKET_STREAM_DATA_ACK; PACKET_STREAM_DATA_NACK; PACKET_STREAM_SYN_ACK;
   PACKET_STREAM_CLOSE_WRITE_ACK; PACKET_STREAM_CLOSE_READ_ACK; PACKET_STREAM_RST_ACK;
   PACKET_SOCKS5_SYN_ACK; PACKET_STREAM_CONNECTED; PACKET_STREAM_CONNECTED_ACK;
   PACKET_STREAM_CONNECT_FAIL; PACKET_STREAM_CONNECT_FAIL_ACK; PACKET_SOCKS5_CONNECT_FAIL;
   PACKET_SOCKS5_RULESET_DENIED; PACKET_SOCKS5_NETWORK_UNREACHABLE;
   PACKET_SOCKS5_HOST_UNREACHABLE; PACKET_SOCKS5_CONNECTION_REFUSED; PACKET_SOCKS5_TTL_EXPIRED;
   PACKET_SOCKS5_COMMAND_UNSUPPORTED; PACKET_SOCKS5_ADDRESS_TYPE_UNSUPPORTED;
   PACKET_SOCKS5_AUTH_FAILED; PACKET_SOCKS5_UPSTREAM_UNAVAILABLE; PACKET_SOCKS5_CONNECTED;
   PACKET_SOCKS5_CONNECTED_ACK; PACKET_SOCKS5_CONNECT_FAIL_ACK;
   PACKET_SOCKS5_RULESET_DENIED_ACK; PACKET_SOCKS5_NETWORK_UNREACHABLE_ACK;
   PACKET_SOCKS5_HOST_UNREACHABLE_ACK; PACKET_SOCKS5_CONNECTION_REFUSED_ACK;
   PACKET_SOCKS5_TTL_EXPIRED_ACK; PACKET_SOCKS5_COMMAND_UNSUPPORTED_ACK;
   PACKET_SOCKS5_ADDRESS_TYPE_UNSUPPORTED_ACK; PACKET_SOCKS5_AUTH_FAILED_ACK;
   PACKET_SOCKS5_UPSTREAM_UNAVAILABLE_ACK; PACKET_DNS_QUERY_REQ_ACK; PACKET_DNS_QUERY_RES_ACK].

Definition IsPackableControlPacket (packetType payloadLen : Z) : bool :=
  if negb (payloadLen =? 0) then false else case_of packetType packable_types.

(** Type, stream, sequence number, fragment and total of one block. *)
Record ControlBlock := mkBlock { bType : Z; bStream : Z; bSeq : Z; bFrag : Z; bTotal : Z }.

Definition AppendPackedControlBlock (dst : bytes) (b : ControlBlock) : bytes :=
  dst ++ [bType b; wrap8 (Z.shiftr (bStream b) 8); wrap8 (bStream b);
          wrap8 (Z.shiftr (bSeq b) 8); wrap8 (bSeq b); bFrag b; bTotal b].

(** The loop of [ForEachPackedControlBlock]; [yield] threads the state of the
    caller's closure and tells whether to go on.  Each turn advances the offset by
    7, so the payload length bounds the turns. *)
Fixpoint ForEachPackedControlBlock_loop {S} (fuel : nat) (payload : bytes)
    (yield : S -> ControlBlock -> S * bool) (s : S) (offset : Z) : outcome vpn_error S :=
  match fuel with
  | O => Ok s
  | Datatypes.S fuel =>
      if offset + PackedControlBlockSize <=? len payload then
        let! ptype := at_ payload offset in
        let! streamID := get16 payload (offset + 1) in
        let! sn := get16 payload (offset + 3) in
        let! fragID := at_ payload (offset + 5) in
        let! total := at_ payload (offset + 6) in
        let '(s, continue) := yield s (mkBlock ptype streamID sn fragID total) in
        if continue then ForEachPackedControlBlock_loop fuel payload yield s (offset + PackedControlBlockSize)
        else Ok s
      else Ok s
  end.

Definition ForEachPackedControlBlock {S} (payload : bytes)
    (yield : S -> ControlBlock -> S * bool) (s : S) : outcome vpn_error S :=
  ForEachPackedControlBlock_loop (Datatypes.S (length payload)) payload yield s 0.

Definition CalculateMaxPackedBlocks (mtu percent absoluteMax : Z) : Z :=
  let mtu := Z.max mtu 1 in
  let percent := Z.max percent 30 in
  let effectiveSize := Z.quot (mtu * percent) 100 in
  Z.max (Z.min (Z.max (Z.quot effectiveSize PackedControlBlockSize) 1) absoluteMax) 1.

(** ** The layout *)

(** The header of a packet up to the cookie, as the layout comment of parser.go
    gives it. *)
Definition header_bytes (o : BuildOptions) : bytes :=
  let flags := packet_flags (oPacketType o) in
  [oSessionID o; oPacketType o] ++
  (if has flags packetFlagStream then be16 (oStreamID o) else []) ++
  (if has flags packetFlagSequence then be16 (oSequenceNum o) else []) ++
  (if has flags packetFlagFragment then [oFragmentID o; oTotalFragments o] else []) ++
  (if has flags packetFlagCompression then [oCompressionType o] else []) ++
  [oSessionCookie o].

Definition wire (o : BuildOptions) : bytes :=
  header_bytes o ++ computeHeaderCheckByte (header_bytes o) :: oPayload o.

Definition opts_ok (o : BuildOptions) : Prop :=
  u8 (oSessionID o) /\ u8 (oPacketType o) /\ u8 (oSessionCookie o) /\ u16 (oStreamID o) /\
  u16 (oSequenceNum o) /\ u8 (oFragmentID o) /\ u8 (oTotalFragments o) /\ u8 (oCompressionType o) /\
  bytes_ok (oPayload o).

(** The packet the parser returns for a built one: fields of absent extensions are zero. *)
Definition packet_of (o : BuildOptions) : Packet :=
  let flags := packet_flags (oPacketType o) in
  mkPacket (oSessionID o) (oPacketType o) (oSessionCookie o)
    (has flags packetFlagStream) (if has flags packetFlagStream then oStreamID o else 0)
    (has flags packetFlagSequence) (if has flags packetFlagSequence then oSequenceNum o else 0)
    (has flags packetFlagFragment) (if has flags packetFlagFragment then oFragmentID o else 0)
    (if has flags packetFlagFragment then oTotalFragments o else 0)
    (has flags packetFlagCompression) (if has flags packetFlagCompression then oCompressionType o else 0)
    (header_len flags) (oPayload o).

Definition opts_of (p : Packet) : BuildOptions :=
  mkBuildOptions (SessionID p) (PacketType p) (SessionCookie p) (StreamID p) (SequenceNum p)
    (FragmentID p) (TotalFragments p) (CompressionType p) (Payload p).

Definition valid_type (t : Z) : bool := has (packet_flags t) packetFlagValid.

Lemma packetFlags_at {E} t : u8 t -> at_ (E:=E) packetFlags t = Ok (packet_flags t).
Proof.
  intros Ht. destruct (at_ok (E:=E) packetFlags t) as (f & -> & Hf); [exact Ht|].
  unfold packet_flags. by rewrite Hf.
Qed.

Lemma put_cursor {E} (w : bytes) n off v :
  off = len w -> put (E:=E) (w ++ replicate (S n) 0) off v = Ok ((w ++ [v]) ++ replicate n 0).
Proof. intros Ho. cbn [replicate]. rewrite put_middle by done. by rewrite <- (assoc_L (++)). Qed.

(** Evaluates an index into a list whose first elements are known. *)
Ltac eval_at :=
  match goal with
  | |- context [@at_ ?E ?A ?l ?i] =>
      let r := eval hnf in (@at_ E A l i) in change (@at_ E A l i) with r
  end.

(** Rewrites the bounds of a slice of the goal to those of a known one. *)
Ltac same_bounds H :=
  match type of H with
  | slice ?d ?a ?b = _ =>
      match goal with |- context [slice d ?a' ?b'] => change (slice d a' b') with (slice (E:=vpn_error) d a b) end
  end.

(** Writes the next byte of a buffer under construction. *)
Ltac put_next := rewrite put_cursor by reflexivity; cbn [obind].

Lemma BuildRaw_wire o :
  u8 (oPacketType o) -> BuildRaw o = if valid_type (oPacketType o) then Ok (wire o) else Err ErrInvalidPacketType.
Proof.
  intros Ht. unfold BuildRaw, wire, header_bytes, valid_type, header_len. rewrite packetFlags_at by done.
  cbn [obind]. set (f := packet_flags (oPacketType o)).
  destruct (has f packetFlagValid); cbn [negb]; [|done].
  set (m := length (oPayload o)).
  assert (Hmake : forall k, 0 <= k -> make_bytes (k + len (oPayload o)) = [] ++ replicate (Z.to_nat k + m) 0).
  { intros k Hk. unfold make_bytes, len. fold m. cbn [app]. f_equal. lia. }
  assert (Hpay : length (oPayload o) = length (replicate m 0)) by (by rewrite length_replicate).
  destruct (has f packetFlagStream), (has f packetFlagSequence), (has f packetFlagFragment),
    (has f packetFlagCompression); cbv zeta; unfold integrityLength; rewrite Hmake by lia;
    match goal with |- context [replicate (Z.to_nat ?k + m)] =>
      let n := eval vm_compute in (Z.to_nat k) in change (Z.to_nat k) with n end;
    cbn [Nat.add]; repeat put_next;
    rewrite <- (app_nil_l ((_ ++ [oSessionCookie o]) ++ _)) at 1; rewrite slice_app by reflexivity;
    cbn [obind]; put_next; rewrite copy_at_end by (reflexivity || exact Hpay);
    rewrite <- !(assoc_L (++)); reflexivity.
Qed.

Lemma len_header o : len (header_bytes o) = header_len (packet_flags (oPacketType o)) - 1.
Proof.
  unfold header_bytes, header_len, integrityLength. set (f := packet_flags _).
  destruct (has f packetFlagStream), (has f packetFlagSequence), (has f packetFlagFragment),
    (has f packetFlagCompression); reflexivity.
Qed.

(** Parsing header bytes followed by any check byte. *)
Lemma Parse_header o chk :
  opts_ok o -> Parse (header_bytes o ++ chk :: oPayload o) =
  if negb (valid_type (oPacketType o)) then Err ErrInvalidPacketType
  else if chk =? computeHeaderCheckByte (header_bytes o) then Ok (packet_of o) else Err ErrInvalidHeaderCheck.
Proof.
  intros (_ & Ht & _ & Hs & Hq & _). unfold Parse, ParseAtOffset.
  set (data := header_bytes o ++ chk :: oPayload o).
  assert (Hlen : len data = header_len (packet_flags (oPacketType o)) + len (oPayload o)).
  { unfold data. rewrite len_app, len_header, len_cons. lia. }
  pose proof (len_nonneg (oPayload o)) as Hp.
  assert (Hmin : 4 <= header_len (packet_flags (oPacketType o))).
  { unfold header_len, integrityLength. repeat case_if; lia. }
  replace ((0 <? 0) || (len data <=? 0)) with false by (symmetry; apply orb_false_iff; rewrite Z.leb_gt; split; [done|lia]).
  unfold parseFrom. rewrite slice_all by done. cbn [obind]. unfold minHeaderLength.
  replace (len data <? 4) with false by (symmetry; apply Z.ltb_ge; lia).
  assert (H1 : at_ (E:=vpn_error) data 1 = Ok (oPacketType o)) by reflexivity.
  rewrite H1. cbn [obind]. rewrite packetFlags_at by done. cbn [obind].
  fold (valid_type (oPacketType o)). destruct (valid_type (oPacketType o)); cbn [negb]; [|done].
  replace (len data <? header_len _) with false by (symmetry; apply Z.ltb_ge; lia).
  assert (Hpre : slice (E:=vpn_error) data 0 (header_len (packet_flags (oPacketType o)) - 1) = Ok (header_bytes o)).
  { unfold data. rewrite <- (app_nil_l (header_bytes o ++ _)). apply slice_app; [done|].
    rewrite len_header. done. }
  assert (Hpost : slice (E:=vpn_error) data (header_len (packet_flags (oPacketType o))) (len data) = Ok (oPayload o)).
  { unfold data. rewrite (cons_middle chk), (assoc_L (++)). apply slice_tail; rewrite !len_app, len_header; change (len [chk]) with 1; lia. }
  clear Hlen Hmin H1. revert Hpre Hpost.
  unfold packet_of, header_len, integrityLength. subst data. unfold header_bytes. cbv zeta.
  set (f := packet_flags (oPacketType o)).
  destruct (has f packetFlagStream), (has f packetFlagSequence), (has f packetFlagFragment),
    (has f packetFlagCompression); cbv iota beta; unfold get16, be16; cbn [app]; intros Hpre Hpost;
    repeat (eval_at; cbn [obind]); rewrite ?of_be16_be16 by done;
    same_bounds Hpre; rewrite Hpre; cbn [obind];
    (destruct (chk =? _); cbn [negb]; [|done]); same_bounds Hpost; rewrite Hpost; reflexivity.
Qed.

(** Reading an optional header field off a byte list. *)
Lemma field16 (b : bool) rest n :
  bytes_ok rest -> 0 <= n -> (if b then 2 else 0) + n <= len rest ->
  exists v rest', u16 v /\ (b = false -> v = 0) /\ rest = (if b then be16 v else []) ++ rest' /\
    n <= len rest' /\ bytes_ok rest'.
Proof.
  intros Hb Hn Hl. destruct b.
  - destruct rest as [|x [|y rest]]; rewrite ?len_cons, ?len_nil in Hl; [lia..|].
    unfold bytes_ok in Hb. rewrite !Forall_cons in Hb. destruct Hb as (Hx & Hy & Hb).
    exists (of_be16 x y), rest. rewrite be16_of_be16 by done.
    split_and!; [by apply u16_of_be16|done|done|lia|done].
  - exists 0, rest. unfold u16. split_and!; (done || lia).
Qed.

Lemma field8_8 (b : bool) rest n :
  bytes_ok rest -> 0 <= n -> (if b then 2 else 0) + n <= len rest ->
  exists v w rest', u8 v /\ u8 w /\ (b = false -> v = 0 /\ w = 0) /\
    rest = (if b then [v; w] else []) ++ rest' /\ n <= len rest' /\ bytes_ok rest'.
Proof.
  intros Hb Hn Hl. destruct b.
  - destruct rest as [|x [|y rest]]; rewrite ?len_cons, ?len_nil in Hl; [lia..|].
    unfold bytes_ok in Hb. rewrite !Forall_cons in Hb. destruct Hb as (Hx & Hy & Hb).
    exists x, y, rest. split_and!; (done || lia).
  - exists 0, 0, rest. unfold u8. split_and!; (done || lia).
Qed.

Lemma field8 (b : bool) rest n :
  bytes_ok rest -> 0 <= n -> (if b then 1 else 0) + n <= len rest ->
  exists v rest', u8 v /\ (b = false -> v = 0) /\
    rest = (if b then [v] else []) ++ rest' /\ n <= len rest' /\ bytes_ok rest'.
Proof.
  intros Hb Hn Hl. destruct b.
  - destruct rest as [|x rest]; rewrite ?len_cons, ?len_nil in Hl; [lia|].
    unfold bytes_ok in Hb. rewrite !Forall_cons in Hb. destruct Hb as (Hx & Hb).
    exists x, rest. split_and!; (done || lia).
  - exists 0, rest. unfold u8. split_and!; (done || lia).
Qed.

Lemma header_len_sum f :
  header_len f = 2 + ((if has f packetFlagStream then 2 else 0) + ((if has f packetFlagSequence then 2 else 0) +
    ((if has f packetFlagFragment then 2 else 0) + ((if has f packetFlagCompression then 1 else 0) + 2)))).
Proof. unfold header_len, integrityLength. repeat case_if; reflexivity. Qed.

(** Any bytes long enough for the header of their type have the shape of a packet. *)
Lemma wire_shape a t rest :
  bytes_ok (a :: t :: rest) -> header_len (packet_flags t) <= len (a :: t :: rest) ->
  exists o chk, opts_ok o /\ oPacketType o = t /\ opts_of (packet_of o) = o /\
    a :: t :: rest = header_bytes o ++ chk :: oPayload o.
Proof.
  intros Hb Hl. unfold bytes_ok in Hb. rewrite !Forall_cons in Hb. destruct Hb as (Ha & Ht & Hb).
  rewrite header_len_sum, !len_cons in Hl. set (f := packet_flags t) in *.
  assert (Hif : forall (b : bool) x, 0 <= x -> 0 <= (if b then x else 0)) by (intros []; lia).
  pose proof (Hif (has f packetFlagSequence) 2 ltac:(lia)).
  pose proof (Hif (has f packetFlagFragment) 2 ltac:(lia)).
  pose proof (Hif (has f packetFlagCompression) 1 ltac:(lia)).
  destruct (field16 (has f packetFlagStream) rest ((if has f packetFlagSequence then 2 else 0) +
    ((if has f packetFlagFragment then 2 else 0) + ((if has f packetFlagCompression then 1 else 0) + 2))))
    as (st & r1 & Hst & Hst0 & E1 & Hl1 & Hb1); [done|lia|lia|].
  apply field16 in Hl1 as (sq & r2 & Hsq & Hsq0 & E2 & Hl2 & Hb2); [|done|lia].
  apply field8_8 in Hl2 as (fi & to & r3 & Hfi & Hto & Hf0 & E3 & Hl3 & Hb3); [|done|lia].
  apply field8 in Hl3 as (co & r4 & Hco & Hco0 & E4 & Hl4 & Hb4); [|done|lia].
  destruct r4 as [|ck [|chk pay]]; rewrite ?len_cons, ?len_nil in Hl4; [lia..|].
  unfold bytes_ok in Hb4. rewrite !Forall_cons in Hb4. destruct Hb4 as (Hck & _ & Hpay).
  exists (mkBuildOptions a t ck st sq fi to co pay), chk.
  unfold opts_ok, opts_of, packet_of, header_bytes; simpl. fold f. split_and!; try done.
  - f_equal; case_if; auto; symmetry; naive_solver.
  - rewrite E1, E2, E3, E4, <- !(assoc_L (++)). done.
Qed.

Lemma Parse_cases data :
  bytes_ok data ->
  Parse data = Err ErrPacketTooShort \/ Parse data = Err ErrInvalidPacketType \/
  exists o chk, opts_ok o /\ opts_of (packet_of o) = o /\ valid_type (oPacketType o) = true /\
    data = header_bytes o ++ chk :: oPayload o.
Proof.
  intros Hb. unfold Parse, ParseAtOffset. case_if; [auto|]. zbool. unfold parseFrom.
  rewrite slice_all by done. cbn [obind]. unfold minHeaderLength. case_if; [auto|]. zbool.
  destruct data as [|a [|t rest]]; rewrite ?len_cons, ?len_nil in *; [lia..|].
  pose proof Hb as Hb'. unfold bytes_ok in Hb'. rewrite !Forall_cons in Hb'. destruct Hb' as (_ & Ht & _).
  eval_at. cbn [obind]. rewrite packetFlags_at by done. cbn [obind].
  destruct (has (packet_flags t) packetFlagValid) eqn:Hv; cbn [negb]; [|auto].
  destruct (_ <? header_len _) eqn:Hl; [auto|]. zbool. right; right.
  destruct (wire_shape a t rest) as (o & chk & Ho & Hot & Hoo & E); [done|rewrite !len_cons; lia|].
  exists o, chk. split_and!; try done. unfold valid_type. by rewrite Hot.
Qed.

(** Parsing at an offset is parsing what follows it. *)
Lemma ParseAtOffset_drop data offset : 0 <= offset < len data -> ParseAtOffset data offset = Parse (drop (Z.to_nat offset) data).
Proof.
  intros Ho. unfold Parse, ParseAtOffset, parseFrom. set (d := drop (Z.to_nat offset) data).
  assert (Hd : len d = len data - offset) by (unfold d, len in *; rewrite length_drop; lia).
  replace ((offset <? 0) || (len data <=? offset)) with false
    by (symmetry; apply orb_false_iff; rewrite Z.leb_gt, Z.ltb_ge; lia).
  replace ((0 <? 0) || (len d <=? 0)) with false
    by (symmetry; apply orb_false_iff; rewrite Z.leb_gt; split; [done|lia]).
  rewrite (slice_all d) by done. rewrite slice_ok by lia.
  rewrite take_ge by (rewrite length_drop; unfold len; lia). done.
Qed.

Lemma bytes_ok_header o : opts_ok o -> bytes_ok (header_bytes o).
Proof.
  intros (? & ? & ? & ? & ? & ? & ? & ? & ?). unfold header_bytes, bytes_ok. cbv zeta.
  unfold be16. repeat case_if; cbn [app]; rewrite !Forall_cons; auto 20 using u8_wrap8.
Qed.

Lemma computeHeaderCheckByte_loop_u8 h : forall acc i, u8 acc -> u8 (computeHeaderCheckByte_loop acc i h).
Proof.
  induction h as [|v h IH]; intros acc i Ha; simpl; [done|]. apply IH.
  unfold computeHeaderCheckByte_step. apply u8_lxor; apply u8_wrap8.
Qed.

Lemma bytes_ok_wire o : opts_ok o -> bytes_ok (wire o).
Proof.
  intros Ho. unfold wire. apply bytes_ok_app. split; [by apply bytes_ok_header|].
  constructor; [|apply Ho]. apply computeHeaderCheckByte_loop_u8, u8_wrap8.
Qed.

Lemma ParseAtOffset_total (data : bytes) (offset : Z) : bytes_ok data ->
  is_panic (ParseAtOffset data offset) = false.
Proof.
  intros H.
  destruct ((offset <? 0) || (len data <=? offset)) eqn:Hg; [by unfold ParseAtOffset; rewrite Hg|]. zbool.
  rewrite ParseAtOffset_drop by lia.
  destruct (Parse_cases (drop (Z.to_nat offset) data)) as [->|[->|(o & chk & Ho & _ & Hv & ->)]];
    [by apply Forall_drop|done|done|].
  rewrite Parse_header, Hv by done. cbn [negb]. by case_if.
Qed.

(** ** Packed blocks *)

Definition block_ok (b : ControlBlock) : Prop :=
  u8 (bType b) /\ u16 (bStream b) /\ u16 (bSeq b) /\ u8 (bFrag b) /\ u8 (bTotal b).

Definition block_bytes (b : ControlBlock) : bytes := AppendPackedControlBlock [] b.

(** The payload a sender builds for a list of blocks. *)
Definition pack_blocks (bs : list ControlBlock) : bytes := fold_left AppendPackedControlBlock bs [].

(** The closure of a receiver that handles every block, and of one that stops
    after the first block its test rejects. *)
Definition visit_while (stop : ControlBlock -> bool) (l : list ControlBlock) (b : ControlBlock) :
    list ControlBlock * bool := (l ++ [b], negb (stop b)).

Fixpoint until (stop : ControlBlock -> bool) (bs : list ControlBlock) : list ControlBlock :=
  match bs with [] => [] | b :: bs => b :: if stop b then [] else until stop bs end.

Lemma pack_blocks_concat bs : forall dst,
  fold_left AppendPackedControlBlock bs dst = dst ++ concat (map block_bytes bs).
Proof.
  induction bs as [|b bs IH]; intros dst; simpl; [by rewrite app_nil_r|].
  rewrite IH. unfold AppendPackedControlBlock at 1. by rewrite <- (assoc_L (++)).
Qed.

Lemma at_shift {E} (pre l : bytes) off i :
  off = len pre -> 0 <= i -> at_ (E:=E) (pre ++ l) (off + i) = at_ l i.
Proof.
  intros -> Hi. rewrite at_app_r. by replace (0 <=? i) with true by (symmetry; by apply Z.leb_le).
Qed.

Lemma ForEach_loop_spec stop bs : forall fuel pre junk acc,
  Forall block_ok bs -> len junk < 7 -> (length bs < fuel)%nat ->
  ForEachPackedControlBlock_loop fuel (pre ++ concat (map block_bytes bs) ++ junk)
    (visit_while stop) acc (len pre) = Ok (acc ++ until stop bs).
Proof.
  induction bs as [|b bs IH]; intros fuel pre junk acc Hok Hj Hf;
    (destruct fuel as [|fuel]; [simpl in Hf; lia|]); cbn [ForEachPackedControlBlock_loop map concat until];
    unfold PackedControlBlockSize; rewrite !len_app.
  { replace (_ <=? _) with false by (symmetry; apply Z.leb_gt; rewrite len_nil; lia). by rewrite app_nil_r. }
  inversion Hok as [|? ? (Ht & Hs & Hq & Hfr & Hto) Hok']; subst.
  pose proof (len_nonneg (concat (map block_bytes bs))). pose proof (len_nonneg junk).
  change (len (block_bytes b)) with 7.
  replace (_ <=? _) with true by (symmetry; apply Z.leb_le; lia).
  unfold get16. set (tail := concat (map block_bytes bs) ++ junk).
  replace (pre ++ (block_bytes b ++ concat (map block_bytes bs)) ++ junk) with (pre ++ block_bytes b ++ tail)
    by (unfold tail; by rewrite <- !(assoc_L (++))).
  rewrite <- (Z.add_0_r (len pre)) at 1.
  rewrite <- !Z.add_assoc, !(at_shift pre (block_bytes b ++ tail) (len pre)) by lia.
  repeat (eval_at; cbn [obind]). rewrite !of_be16_be16 by done. unfold visit_while at 1.
  replace (mkBlock _ _ _ _ _) with b by (by destruct b). destruct (stop b); cbn [negb]; [done|].
  rewrite (assoc_L (++) pre). replace (len pre + 7) with (len (pre ++ block_bytes b)) by (rewrite len_app; done).
  unfold tail. rewrite IH by (try done; simpl in Hf; lia). by rewrite <- (assoc_L (++)).
Qed.

Lemma ForEach_loop_no_panic {S} (yield : S -> ControlBlock -> S * bool) fuel : forall payload s off,
  0 <= off -> is_panic (ForEachPackedControlBlock_loop fuel payload yield s off) = false.
Proof.
  induction fuel as [|fuel IH]; intros payload s off Ho; simpl; [done|].
  unfold PackedControlBlockSize. case_if; [|done]. zbool. unfold get16.
  repeat (apply obind_no_panic; [first [apply at_no_panic; lia
    | repeat (apply obind_no_panic; [apply at_no_panic; lia|intros ? _]); done]|intros ? _]).
  destruct (yield _ _) as [s' []]; [|done]. apply IH. lia.
Qed.

(** ** The text path *)

Section text_path.
Context `{CR : Crypto} {CRL : CryptoLaws CR} `{CP : Compressors} {CPL : CompressorLaws CP}.

Definition with_payload (o : BuildOptions) (compressionType : Z) (payload : bytes) : BuildOptions :=
  mkBuildOptions (oSessionID o) (oPacketType o) (oSessionCookie o) (oStreamID o) (oSequenceNum o)
    (oFragmentID o) (oTotalFragments o) compressionType payload.

(** What [PreparePayload] makes of a payload is inflated back to it. *)
Lemma prepare_inflate o minSize payload ct :
  opts_ok o -> len (oPayload o) <= maxDecompressedSize ->
  PreparePayload (oPacketType o) (oPayload o) (oCompressionType o) minSize = (payload, ct) ->
  opts_ok (with_payload o ct payload) /\ len payload <= len (oPayload o) /\
  (ct = TypeOff \/ ct = oCompressionType o) /\
  InflatePayload (packet_of (with_payload o ct payload)) = Ok (packet_of (with_payload o ct (oPayload o))).
Proof.
  intros Ho Hl. pose proof Ho as (? & ? & ? & ? & ? & ? & ? & Hct & Hp).
  assert (Hoff : forall p, p = oPayload o -> opts_ok (with_payload o TypeOff p) /\ len p <= len (oPayload o) /\
    (TypeOff = TypeOff \/ TypeOff = oCompressionType o) /\
    InflatePayload (packet_of (with_payload o TypeOff p)) = Ok (packet_of (with_payload o TypeOff (oPayload o)))).
  { intros p ->. split; [|split; [lia|split; [auto|]]].
    - unfold opts_ok, with_payload, TypeOff, u8 in *; simpl. split_and!; (done || lia).
    - unfold InflatePayload. simpl. destruct (has _ packetFlagCompression); done. }
  unfold PreparePayload. unfold u8 in Hct.
  destruct (NormalizeAvailableType_cases (oCompressionType o)) as [[He Hn]|[_ Hn]]; [lia| |].
  2: { rewrite Hn. intros [= <- <-]. by apply Hoff. }
  rewrite <- He. destruct (oCompressionType o =? TypeOff); [intros [= <- <-]; by apply Hoff|].
  destruct (hasCompressionExtension (oPacketType o)) eqn:Hx; cbn [negb]; [|intros [= <- <-]; by apply Hoff].
  destruct (len (oPayload o) =? 0); [intros [= <- <-]; by apply Hoff|]. intros Hc.
  apply CompressPayload_cases in Hc as [[-> ->]|(Hc1 & Hc2 & -> & Hc3 & Hc4)]; [by apply Hoff| |done|done|lia].
  split; [|split; [lia|split; [auto|]]].
  - unfold opts_ok, with_payload; simpl. unfold u8 in *. split_and!; (done || lia).
  - unfold InflatePayload, packet_of, with_payload; simpl.
    unfold hasCompressionExtension in Hx. rewrite Hx. cbn [negb orb].
    destruct (Z.eqb_spec (oCompressionType o) TypeOff); [unfold TypeOff in *; lia|]. by rewrite Hc4.
Qed.

Lemma DecodeStringAndDecrypt_nil (c : Codec) : DecodeStringAndDecrypt (Some c) [] = Ok [].
Proof.
  unfold DecodeStringAndDecrypt. change (DecodeString []) with (@Ok base36_error bytes []). cbn [map_err obind].
  unfold codec_decrypt, noCrypto, chachaDecrypt, aesDecryptor. rewrite xorCrypto_spec.
  repeat case_if; try done.
Qed.

Lemma counter_fits_mono rnd d d' : len d' <= len d -> counter_fits rnd d -> counter_fits rnd d'.
Proof.
  unfold counter_fits. intros Hl. destruct (rnd _) as [n|]; [|done]. destruct (of_le32 n); [|done].
  intros. assert ((len d' + 63) / 64 <= (len d + 63) / 64) by (apply Z.div_le_mono; lia). lia.
Qed.

Lemma text_roundtrip o minSize m rawKey c rnd :
  opts_ok o -> valid_type (oPacketType o) = true -> len (oPayload o) <= maxDecompressedSize ->
  bytes_ok rawKey -> NewCodec m rawKey = Ok c -> rnd_ok rnd -> (m = 2 -> counter_fits rnd (wire o)) ->
  exists text ct, BuildEncodedAuto o (Some c) rnd minSize = Ok text /\
    (ct = TypeOff \/ ct = oCompressionType o) /\
    Forall (fun ch => ch ∈ lowerBase36Alphabet) text /\
    forall s, bytes_ok s -> map lower s = text ->
      ParseInflatedFromLabels s (Some c) = Ok (packet_of (with_payload o ct (oPayload o))).
Proof.
  intros Ho Hv Hl Hk Hc Hr Hf. unfold BuildEncodedAuto, BuildRawAuto.
  destruct (PreparePayload _ _ _ _) as [payload ct] eqn:Hprep.
  destruct (prepare_inflate o minSize payload ct Ho Hl Hprep) as (Ho' & Hlen & Hct & Hinf).
  fold (with_payload o ct payload). set (o' := with_payload o ct payload) in *.
  assert (Hv' : valid_type (oPacketType o') = true) by done.
  rewrite BuildRaw_wire, Hv' by apply Ho'. cbn [obind].
  assert (Hwl : len (wire o') <= len (wire o)).
  { unfold wire. rewrite !len_app, !len_header, !len_cons.
    change (oPacketType o') with (oPacketType o). change (oPayload o') with payload. lia. }
  destruct (codec_roundtrip_text m rawKey c rnd (wire o') Hk Hc Hr (bytes_ok_wire o' Ho')) as (t & He & _ & Ha & Hd).
  { intros Hm. eapply counter_fits_mono; [exact Hwl|auto]. }
  rewrite He. exists t, ct. split_and!; [done|done|done|].
  intros s Hs Hls. destruct (Hd s Hs Hls) as [_ Hdec].
  unfold ParseInflatedFromLabels, ParseFromLabels. destruct (Z.eqb_spec (len s) 0) as [H0|H0].
  { apply len_zero in H0 as ->. rewrite DecodeStringAndDecrypt_nil in Hdec. injection Hdec as Hdec.
    unfold wire, header_bytes in Hdec. discriminate Hdec. }
  rewrite Hdec. cbn [map_err obind]. unfold wire.
  rewrite Parse_header, Hv', Z.eqb_refl by done. cbn [negb obind]. exact Hinf.
Qed.
End text_path.

(** ** Properties *)

(** A packet of any valid type is built without error, to as many bytes as
    [HeaderRawSize] and the payload need, and parsing those bytes gives every field
    back; extensions the type does not have read as absent and zero. *)
Theorem parse_build (o : BuildOptions) :
  opts_ok o -> valid_type (oPacketType o) = true ->
  exists raw, BuildRaw o = Ok raw /\ bytes_ok raw /\
    len raw = HeaderRawSize (oPacketType o) + len (oPayload o) /\ Parse raw = Ok (packet_of o).
Proof.
  intros Ho Hv. exists (wire o). rewrite BuildRaw_wire, Hv by apply Ho.
  split; [done|]. split; [by apply bytes_ok_wire|]. split.
  - unfold wire, HeaderRawSize. fold (valid_type (oPacketType o)). rewrite Hv. cbn [negb].
    rewrite len_app, len_header, len_cons. lia.
  - unfold wire. rewrite Parse_header, Hv, Z.eqb_refl by done. done.
Qed.

Definition example_opts : BuildOptions :=
  mkBuildOptions 7 PACKET_STREAM_DATA 99 0x1234 0xFFFE 2 5 1 [10; 20; 30].

Lemma example_opts_ok : opts_ok example_opts.
Proof. unfold opts_ok, example_opts; simpl. unfold PACKET_STREAM_DATA, u8, u16. split_and!; try lia.
  repeat constructor; lia. Qed.

Lemma parse_build_witness :
  exists raw, BuildRaw example_opts = Ok raw /\ bytes_ok raw /\
    len raw = HeaderRawSize PACKET_STREAM_DATA + 3 /\ Parse raw = Ok (packet_of example_opts).
Proof. exact (parse_build example_opts example_opts_ok eq_refl). Defined.

(** The parser accepts only what the builder writes: if it accepts some bytes,
    the builder gives the same bytes for the parsed fields. *)
Theorem build_parse (data : bytes) (p : Packet) :
  bytes_ok data -> Parse data = Ok p -> BuildRaw (opts_of p) = Ok data.
Proof.
  intros Hb Hp. destruct (Parse_cases data Hb) as [H|[H|(o & chk & Ho & Hoo & Hv & ->)]]; [congruence..|].
  rewrite Parse_header, Hv in Hp by done. cbn [negb] in Hp.
  destruct (Z.eqb_spec chk (computeHeaderCheckByte (header_bytes o))) as [Hchk|]; [|done]. rewrite Hchk.
  injection Hp as <-. rewrite Hoo, BuildRaw_wire, Hv by apply Ho. done.
Qed.

Lemma build_parse_witness :
  exists data p, Parse data = Ok p /\ BuildRaw (opts_of p) = Ok data.
Proof.
  exists (wire example_opts), (packet_of example_opts).
  assert (H : Parse (wire example_opts) = Ok (packet_of example_opts)) by (vm_compute; reflexivity).
  split; [exact H|].
  apply (build_parse (wire example_opts)); [exact (bytes_ok_wire _ example_opts_ok)|exact H].
Defined.

(** Parsing arbitrary received bytes, from any offset, ends with a packet or
    an error value, never with an index or slice out of range. *)
Theorem parse_total (data : bytes) (offset : Z) (H : bytes_ok data) :
  is_panic (ParseAtOffset data offset) = false.
Proof. by apply ParseAtOffset_total. Qed.

Lemma parse_total_witness : is_panic (ParseAtOffset [1; 2; 15; 4; 5] 1) = false.
Proof. apply (parse_total [1; 2; 15; 4; 5] 1). repeat constructor; lia. Defined.

(** A receiver that walks a packed payload sees exactly the blocks the sender
    appended, in order, up to and including the first one at which it stops;
    trailing bytes shorter than a block are ignored; walking any payload never
    panics. *)
Theorem packed_blocks_roundtrip (bs : list ControlBlock) (junk : bytes) (stop : ControlBlock -> bool) :
  Forall block_ok bs -> len junk < PackedControlBlockSize ->
  ForEachPackedControlBlock (pack_blocks bs ++ junk) (visit_while stop) [] = Ok (until stop bs) /\
  forall payload, is_panic (ForEachPackedControlBlock payload (visit_while stop) []) = false.
Proof.
  intros Hb Hj. split; [|intros; by apply ForEach_loop_no_panic].
  unfold ForEachPackedControlBlock, pack_blocks. rewrite pack_blocks_concat.
  change ([] ++ concat (map block_bytes bs)) with (concat (map block_bytes bs)).
  apply (ForEach_loop_spec stop bs _ [] junk []); [done|done|].
  rewrite length_app. assert (length bs <= length (concat (map block_bytes bs)))%nat; [|lia].
  clear. induction bs; simpl; [lia|]. lia.
Qed.

Definition example_blocks : list ControlBlock :=
  [mkBlock PACKET_STREAM_DATA_ACK 1 2 0 0; mkBlock PACKET_STREAM_RST_ACK 65535 500 3 4].

Lemma packed_blocks_roundtrip_witness :
  ForEachPackedControlBlock (pack_blocks example_blocks ++ [1; 2; 3]) (visit_while (fun _ => false)) [] =
    Ok example_blocks /\
  forall payload, is_panic (ForEachPackedControlBlock payload (visit_while (fun _ => false)) []) = false.
Proof.
  apply (packed_blocks_roundtrip example_blocks [1; 2; 3] (fun _ => false)); [|reflexivity].
  repeat constructor; unfold PACKET_STREAM_DATA_ACK, PACKET_STREAM_RST_ACK, u16; simpl; lia.
Defined.

(** The number of blocks packed into a packet is at least one, at most the
    configured maximum (when that is positive), and those blocks fit into the
    configured share of the MTU unless not even one does. *)
Theorem packed_blocks_fit (mtu percent absoluteMax : Z) :
  let n := CalculateMaxPackedBlocks mtu percent absoluteMax in
  1 <= n /\ n <= Z.max 1 absoluteMax /\
  (n = 1 \/ n * PackedControlBlockSize * 100 <= Z.max mtu 1 * Z.max percent 30).
Proof.
  unfold CalculateMaxPackedBlocks, PackedControlBlockSize. cbv zeta.
  set (a := Z.max mtu 1 * Z.max percent 30). assert (0 <= a) by (unfold a; nia).
  rewrite (Z.quot_div_nonneg a) by lia. pose proof (Z.div_pos a 100).
  rewrite Z.quot_div_nonneg by lia.
  pose proof (Z.mul_div_le a 100). pose proof (Z.mul_div_le (a / 100) 7). lia.
Qed.

(** End to end through the text form: a packet the sender compresses, builds,
    encrypts and writes as base 36 text is returned with all its fields and its
    payload by the receiver that holds the same key, for every encryption method
    and compression type, even if the letter case of the text changed on the way.
    The only field that may differ is the compression type, which is off when
    compressing did not help. *)
Theorem packet_text_roundtrip `{CR : Crypto} {CRL : CryptoLaws CR} `{CP : Compressors} {CPL : CompressorLaws CP}
    (o : BuildOptions) (minSize m : Z) (rawKey : bytes) (c : Codec) (rnd : Z -> option bytes) :
  opts_ok o -> valid_type (oPacketType o) = true -> len (oPayload o) <= maxDecompressedSize ->
  bytes_ok rawKey -> NewCodec m rawKey = Ok c -> rnd_ok rnd -> (m = 2 -> counter_fits rnd (wire o)) ->
  exists text ct, BuildEncodedAuto o (Some c) rnd minSize = Ok text /\
    (ct = TypeOff \/ ct = oCompressionType o) /\
    Forall (fun ch => ch ∈ lowerBase36Alphabet) text /\
    forall s, bytes_ok s -> map lower s = text ->
      ParseInflatedFromLabels s (Some c) = Ok (packet_of (with_payload o ct (oPayload o))).
Proof. apply text_roundtrip. Qed.

Lemma packet_text_roundtrip_witness :
  exists text ct, BuildEncodedAuto (CR := toy_crypto) (CP := rle_compressors) example_opts
      (Some (mkCodec 5 (replicate 32 3))) toy_rnd 1 = Ok text /\
    (ct = TypeOff \/ ct = oCompressionType example_opts) /\
    Forall (fun ch => ch ∈ lowerBase36Alphabet) text /\
    forall s, bytes_ok s -> map lower s = text ->
      ParseInflatedFromLabels (CR := toy_crypto) (CP := rle_compressors) s (Some (mkCodec 5 (replicate 32 3))) =
        Ok (packet_of (with_payload example_opts ct [10; 20; 30])).
Proof.
  apply (packet_text_roundtrip (CR := toy_crypto) (CP := rle_compressors) example_opts 1 5 [1; 2; 3]).
  - exact example_opts_ok.
  - reflexivity.
  - vm_compute. discriminate.
  - repeat constructor; lia.
  - reflexivity.
  - exact toy_rnd_ok.
  - discriminate.
Defined.
