(* ===== verification/DnsParser.v ===== *)
(** * DNS messages (masterdns dnsparser: parser.go, response.go, policy.go)

    The tunnel's packets travel in DNS queries and in the TXT records of the answers.
    This file models the message parser (header, names with compression pointers,
    questions, resource records, the three "lite" parsers the server and the client
    route datagrams with) and the builders of the short responses (empty, refused, name
    error, ...), which copy the question section and the OPT record of the request.

    A Go function that returns an offset together with its error is modelled with the
    offset in the error, because some callers use it.  The loop that walks a name has
    fuel; it reports exhaustion as [Panic], and the theorems exclude that, so they show
    that the walk ends on every input, pointer loops included. *)

From stdpp Require Import base tactics list.
From Stdlib Require Import ZArith Lia.
From S2P Require Import Prelude Enums.

(** ** Constants (enums/dns.go, parser.go, response.go) *)

Definition DNS_RECORD_TYPE_A : Z := 1.
Definition DNS_RECORD_TYPE_NS : Z := 2.
Definition DNS_RECORD_TYPE_CNAME : Z := 5.
Definition DNS_RECORD_TYPE_SOA : Z := 6.
Definition DNS_RECORD_TYPE_PTR : Z := 12.
Definition DNS_RECORD_TYPE_MX : Z := 15.
Definition DNS_RECORD_TYPE_TXT : Z := 16.
Definition DNS_RECORD_TYPE_AAAA : Z := 28.
Definition DNS_RECORD_TYPE_SRV : Z := 33.
Definition DNS_RECORD_TYPE_NAPTR : Z := 35.
Definition DNS_RECORD_TYPE_OPT : Z := 41.
Definition DNS_RECORD_TYPE_TLSA : Z := 52.
Definition DNS_RECORD_TYPE_SVCB : Z := 64.
Definition DNS_RECORD_TYPE_HTTPS : Z := 65.
Definition DNS_RECORD_TYPE_CAA : Z := 257.
Definition DNSQ_CLASS_IN : Z := 1.
Definition DNSR_CODE_NO_ERROR : Z := 0.
Definition DNSR_CODE_FORMAT_ERROR : Z := 1.
Definition DNSR_CODE_SERVER_FAILURE : Z := 2.
Definition DNSR_CODE_NAME_ERROR : Z := 3.
Definition DNSR_CODE_NOT_IMPLEMENTED : Z := 4.
Definition DNSR_CODE_REFUSED : Z := 5.

Definition dnsHeaderSize : Z := 12.
Definition maxNameJumps : Z := 10.
Definition maxNameWireLength : Z := 255.
Definition maxLikelyQuestions : Z := 64.
Definition maxLikelyAnswers : Z := 256.
Definition maxLikelyAuthority : Z := 256.
Definition maxLikelyAdditional : Z := 256.

Inductive dns_error :=
| ErrDnsPacketTooShort | ErrInvalidName | ErrInvalidQuestion | ErrInvalidAnswer | ErrNotDNSMessage | ErrNotDNSRequest.

(** ** Messages *)

Record Header := mkHeader {
  hID : Z; hFlags : Z; hQR : Z; hOpCode : Z; hAA : Z; hTC : Z; hRD : Z; hRA : Z; hZ : Z; hRCode : Z;
  hQDCount : Z; hANCount : Z; hNSCount : Z; hARCount : Z
}.

Record Question := mkQuestion { qName : bytes; qType : Z; qClass : Z }.

Record ResourceRecord := mkRR { rName : bytes; rType : Z; rClass : Z; rTTL : Z; rRDLen : Z; rRData : bytes }.

Record DnsPacket := mkDnsPacket {
  pHeader : Header;
  Questions : list Question;
  Answers : list ResourceRecord;
  Authorities : list ResourceRecord;
  Additional : list ResourceRecord
}.

Record LitePacket := mkLite {
  lHeader : Header;
  lQuestions : list Question;
  FirstQuestion : Question;
  HasQuestion : bool;
  QuestionEndOffset : Z
}.

Definition no_question : Question := mkQuestion [] 0 0.

(** [binary.BigEndian.Uint32(data[a:a+4])] *)
Definition get32 {E} (l : bytes) (a : Z) : outcome E Z :=
  let! hi := get16 l a in let! lo := get16 l (a + 2) in Ok (Z.lor (Z.shiftl hi 16) lo).

Definition parseHeader {E} (data : bytes) : outcome E Header :=
  let! flags := get16 data 2 in
  let! id := get16 data 0 in
  let! qd := get16 data 4 in
  let! an := get16 data 6 in
  let! ns := get16 data 8 in
  let! ar := get16 data 10 in
  let bits k m := Z.land (Z.shiftr flags k) m in
  Ok (mkHeader id flags (bits 15 0x1) (bits 11 0xF) (bits 10 0x1) (bits 9 0x1) (bits 8 0x1) (bits 7 0x1)
        (bits 4 0x7) (Z.land flags 0xF) qd an ns ar).

(** ** Names *)

Definition is_upper (c : Z) : bool := (65 <=? c) && (c <=? 90).
Definition lower_byte (c : Z) : Z := if is_upper c then wrap8 (c + 32) else c.

Definition writeLowerASCIILabel (dst label : bytes) : bytes :=
  match list_find is_upper label with
  | None => dst ++ label
  | Some (upperIndex, _) => dst ++ take upperIndex label ++ map lower_byte (drop upperIndex label)
  end.

Section walk.
Variable data : bytes.

(** The loop of [walkName]; the builder is [None] where the code passes nil. *)
Fixpoint walkName_loop (fuel : nat) (offset nextOffset jumps wireLen : Z) (jumped hasLabel : bool)
    (name : option bytes) : outcome (Z * dns_error) (Z * bool * option bytes) :=
  match fuel with
  | O => Panic
  | S fuel =>
      if len data <=? offset then Err (nextOffset, ErrInvalidName)
      else
        let! length := at_ data offset in
        if length =? 0 then Ok (if jumped then nextOffset else offset + 1, hasLabel, name)
        else if 192 <=? length then
          if (len data <=? offset + 1) || (maxNameJumps <=? jumps) then Err (nextOffset, ErrInvalidName)
          else
            let! v := get16 data offset in
            let ptr := Z.land v 0x3FFF in
            if (ptr <? dnsHeaderSize) || (offset <=? ptr) || (len data <=? ptr) then Err (nextOffset, ErrInvalidName)
            else walkName_loop fuel ptr (if jumped then nextOffset else offset + 2) (jumps + 1) wireLen true hasLabel name
        else if 63 <? length then Err (nextOffset, ErrInvalidName)
        else if maxNameWireLength <? wireLen + length + 1 then Err (nextOffset, ErrInvalidName)
        else
          let end_ := offset + 1 + length in
          if len data <? end_ then Err (nextOffset, ErrInvalidName)
          else
            let! name :=
              match name with
              | None => Ok None
              | Some b =>
                  let! label := slice data (offset + 1) end_ in
                  Ok (Some (writeLowerASCIILabel (if hasLabel then b ++ [46] else b) label))
              end in
            walkName_loop fuel end_ (if jumped then nextOffset else end_) jumps (wireLen + length + 1) jumped true name
  end.

(** A label takes at least two of the 255 bytes a name may have and at most ten
    pointers are followed, so 138 turns are enough. *)
Definition name_fuel : nat := 138.

Definition walkName (offset : Z) (name : option bytes) : outcome (Z * dns_error) (Z * bool * option bytes) :=
  if len data <=? offset then Err (offset, ErrInvalidName)
  else walkName_loop name_fuel offset offset 0 1 false false name.

Definition parseName (offset : Z) : outcome (Z * dns_error) (bytes * Z) :=
  let! (nextOffset, hasLabel, name) := walkName offset (Some []) in
  Ok (if hasLabel then default [] name else [46], nextOffset).

Definition skipName (offset : Z) : outcome (Z * dns_error) Z :=
  let! (nextOffset, _, _) := walkName offset None in Ok nextOffset.

(** ** Sections of a message *)

Fixpoint parseQuestions (count : nat) (offset : Z) : outcome (Z * dns_error) (list Question * Z) :=
  match count with
  | O => Ok ([], offset)
  | S count =>
      let! (name, nextOffset) := map_err (fun _ => (offset, ErrInvalidQuestion)) (parseName offset) in
      if len data <? nextOffset + 4 then Err (nextOffset, ErrInvalidQuestion)
      else
        let! t := get16 data nextOffset in
        let! c := get16 data (nextOffset + 2) in
        let! (questions, offset) := parseQuestions count (nextOffset + 4) in
        Ok (mkQuestion name t c :: questions, offset)
  end.

Fixpoint parseResourceRecords (count : nat) (offset : Z) : outcome (Z * dns_error) (list ResourceRecord * Z) :=
  match count with
  | O => Ok ([], offset)
  | S count =>
      let! (name, nextOffset) := map_err (fun _ => (offset, ErrInvalidAnswer)) (parseName offset) in
      if len data <? nextOffset + 10 then Err (nextOffset, ErrInvalidAnswer)
      else
        let! t := get16 data nextOffset in
        let! c := get16 data (nextOffset + 2) in
        let! ttl := get32 data (nextOffset + 4) in
        let! rdLen := get16 data (nextOffset + 8) in
        let offset := nextOffset + 10 in
        let end_ := offset + rdLen in
        if len data <? end_ then Err (offset, ErrInvalidAnswer)
        else
          let! rdata := slice data offset end_ in
          let! (records, offset) := parseResourceRecords count end_ in
          Ok (mkRR name t c ttl rdLen rdata :: records, offset)
  end.

Fixpoint skipQuestions (count : nat) (offset : Z) : outcome (Z * dns_error) Z :=
  match count with
  | O => Ok offset
  | S count =>
      let! nextOffset := map_err (fun _ => (offset, ErrInvalidQuestion)) (skipName offset) in
      if len data <? nextOffset + 4 then Err (offset, ErrInvalidQuestion)
      else skipQuestions count (nextOffset + 4)
  end.

Fixpoint skipResourceRecords (count : nat) (offset : Z) : outcome (Z * dns_error) Z :=
  match count with
  | O => Ok offset
  | S count =>
      let! nextOffset := map_err (fun _ => (offset, ErrInvalidAnswer)) (skipName offset) in
      if len data <? nextOffset + 10 then Err (offset, ErrInvalidAnswer)
      else
        let! rdLen := get16 data (nextOffset + 8) in
        let recordEnd := nextOffset + 10 + rdLen in
        if len data <? recordEnd then Err (offset, ErrInvalidAnswer)
        else skipResourceRecords count recordEnd
  end.

(** The start and length of the first OPT record, (0, 0) when there is none. *)
Fixpoint findFirstOPTRecordInAdditional {E} (count : nat) (offset : Z) : outcome E (Z * Z) :=
  match count with
  | O => Ok (0, 0)
  | S count =>
      match skipName offset with
      | Panic => Panic
      | Err _ => Ok (0, 0)
      | Ok nextOffset =>
          if len data <? nextOffset + 10 then Ok (0, 0)
          else
            let! recordType := get16 data nextOffset in
            let! rdLen := get16 data (nextOffset + 8) in
            let recordEnd := nextOffset + 10 + rdLen in
            if len data <? recordEnd then Ok (0, 0)
            else if recordType =? DNS_RECORD_TYPE_OPT then Ok (offset, recordEnd - offset)
            else findFirstOPTRecordInAdditional count recordEnd
      end
  end.

Definition findOPTRecordRange {E} (header : Header) (questionEndOffset : Z) : outcome E (Z * Z) :=
  if (hARCount header =? 0) || (questionEndOffset <? dnsHeaderSize) || (len data <? questionEndOffset) then Ok (0, 0)
  else
    match skipResourceRecords (Z.to_nat (hANCount header)) questionEndOffset with
    | Panic => Panic
    | Err _ => Ok (0, 0)
    | Ok offset =>
        match skipResourceRecords (Z.to_nat (hNSCount header)) offset with
        | Panic => Panic
        | Err _ => Ok (0, 0)
        | Ok offset => findFirstOPTRecordInAdditional (Z.to_nat (hARCount header)) offset
        end
    end.

(** The bytes of the question section, the count to announce and its end. *)
Definition extractQuestionSection {E} (header : Header) : outcome E (bytes * Z * Z) :=
  if hQDCount header =? 0 then Ok ([], 0, dnsHeaderSize)
  else
    match skipQuestions (Z.to_nat (hQDCount header)) dnsHeaderSize with
    | Panic => Panic
    | Err _ => Ok ([], 0, 0)
    | Ok offset => let! q := slice data dnsHeaderSize offset in Ok (q, hQDCount header, offset)
    end.
End walk.

(** ** Parsers *)

Definition isLikelyDNSMessageHeader (h : Header) : bool :=
  if ((hQR h =? 0) && (hQDCount h =? 0)) || (maxLikelyQuestions <? hQDCount h) then false
  else if 6 <? hOpCode h then false
  else if negb (Z.land (hFlags h) 0x0040 =? 0) then false
  else if maxLikelyAnswers <? hANCount h then false
  else if maxLikelyAuthority <? hNSCount h then false
  else negb (maxLikelyAdditional <? hARCount h).

Definition isLikelyDNSRequestHeader (h : Header) : bool :=
  if negb (hQR h =? 0) || (hQDCount h =? 0) then false else isLikelyDNSMessageHeader h.

Definition parsePacketLiteWithHeader (data : bytes) (h : Header) : outcome dns_error LitePacket :=
  if hQDCount h =? 0 then Ok (mkLite h [] no_question false dnsHeaderSize)
  else
    let! (questions, offset) :=
      map_err (fun _ => ErrInvalidQuestion) (parseQuestions data (Z.to_nat (hQDCount h)) dnsHeaderSize) in
    let hasQuestion := 0 <? len questions in
    let! first := if hasQuestion then at_ questions 0 else Ok no_question in
    Ok (mkLite h questions first hasQuestion offset).

Definition ParsePacketLite (data : bytes) : outcome dns_error LitePacket :=
  if len data <? dnsHeaderSize then Err ErrDnsPacketTooShort
  else let! h := parseHeader data in parsePacketLiteWithHeader data h.

Definition ParseDNSRequestLite (data : bytes) : outcome dns_error LitePacket :=
  if len data <? dnsHeaderSize then Err ErrDnsPacketTooShort
  else
    let! h := parseHeader data in
    if negb (isLikelyDNSRequestHeader h) then Err ErrNotDNSRequest else parsePacketLiteWithHeader data h.

Definition ParseDNSDatagramLite (data : bytes) : outcome dns_error LitePacket :=
  if len data <? dnsHeaderSize then Err ErrDnsPacketTooShort
  else
    let! h := parseHeader data in
    if negb (isLikelyDNSMessageHeader h) then Err ErrNotDNSMessage
    else
      let! offset := map_err snd (skipQuestions data (Z.to_nat (hQDCount h)) dnsHeaderSize) in
      let! offset := map_err snd (skipResourceRecords data (Z.to_nat (hANCount h)) offset) in
      let! offset := map_err snd (skipResourceRecords data (Z.to_nat (hNSCount h)) offset) in
      let! offset := map_err snd (skipResourceRecords data (Z.to_nat (hARCount h)) offset) in
      if negb (offset =? len data) then Err ErrNotDNSMessage else parsePacketLiteWithHeader data h.

Definition ParsePacket (data : bytes) : outcome dns_error DnsPacket :=
  if len data <? dnsHeaderSize then Err ErrDnsPacketTooShort
  else
    let! h := parseHeader data in
    let! (questions, offset) := map_err snd (parseQuestions data (Z.to_nat (hQDCount h)) dnsHeaderSize) in
    let! (answers, offset) := map_err snd (parseResourceRecords data (Z.to_nat (hANCount h)) offset) in
    let! (authorities, offset) := map_err snd (parseResourceRecords data (Z.to_nat (hNSCount h)) offset) in
    let! (additional, _) := map_err snd (parseResourceRecords data (Z.to_nat (hARCount h)) offset) in
    Ok (mkDnsPacket h questions answers authorities additional).

(** ** Policy (policy.go) *)

Definition supported_types : list Z :=
  [DNS_RECORD_TYPE_A; DNS_RECORD_TYPE_AAAA; DNS_RECORD_TYPE_CNAME; DNS_RECORD_TYPE_MX; DNS_RECORD_TYPE_NS;
   DNS_RECORD_TYPE_PTR; DNS_RECORD_TYPE_SRV; DNS_RECORD_TYPE_SVCB; DNS_RECORD_TYPE_CAA; DNS_RECORD_TYPE_NAPTR;
   DNS_RECORD_TYPE_SOA; DNS_RECORD_TYPE_HTTPS; DNS_RECORD_TYPE_TLSA].

Definition IsSupportedTunnelDNSQuery (qType qClass : Z) : bool :=
  if negb (qClass =? DNSQ_CLASS_IN) then false else case_of qType supported_types.

(** ** Responses (response.go) *)

Definition flagQR : Z := Z.shiftl 1 15.
Definition flagAA : Z := Z.shiftl 1 10.
Definition flagTC : Z := Z.shiftl 1 9.
Definition flagRD : Z := Z.shiftl 1 8.
Definition flagRA : Z := Z.shiftl 1 7.
Definition flagCD : Z := Z.shiftl 1 4.
Definition opcodeMask : Z := 0x7800.

Definition copied_flags (requestFlags flags : Z) : Z :=
  let flags := if negb (Z.land requestFlags flagRD =? 0) then Z.lor flags flagRD else flags in
  if negb (Z.land requestFlags flagCD =? 0) then Z.lor flags flagCD else flags.

Definition buildResponseFlags (requestFlags rcode : Z) : Z :=
  let flags := Z.lor (Z.lor (Z.lor flagQR flagRA) (Z.land requestFlags opcodeMask)) (Z.land rcode 0x0F) in
  Z.land (copied_flags requestFlags flags) (Z.lnot (Z.lor flagAA flagTC)).

Definition buildAuthoritativeResponseFlags (requestFlags rcode : Z) : Z :=
  let flags := Z.lor (Z.lor (Z.lor flagQR flagAA) (Z.land requestFlags opcodeMask)) (Z.land rcode 0x0F) in
  Z.land (copied_flags requestFlags flags) (Z.lnot (Z.lor flagRA flagTC)).

Definition getARCount (optLen : Z) : Z := if 0 <? optLen then 1 else 0.

(** [binary.BigEndian.PutUint16(packet[a:a+2], v)] *)
Definition put16 {E} (l : bytes) (a v : Z) : outcome E bytes :=
  let! l := put l a (wrap8 (Z.shiftr v 8)) in put l (a + 1) (wrap8 v).

(** The header, question section and OPT record both builders write. *)
Definition write_response (request : bytes) (id flags questionCount questionLen questionEnd optStart optLen : Z) :
    outcome dns_error bytes :=
  let response := make_bytes (dnsHeaderSize + questionLen + optLen) in
  let! response := put16 response 0 id in
  let! response := put16 response 2 flags in
  let! response := put16 response 4 questionCount in
  let! response := put16 response 10 (wrap16 (getARCount optLen)) in
  let! response :=
    if 0 <? questionLen then let! q := slice request dnsHeaderSize questionEnd in copy_at response dnsHeaderSize q
    else Ok response in
  if 0 <? optLen then
    let! opt := slice request optStart (optStart + optLen) in copy_at response (dnsHeaderSize + questionLen) opt
  else Ok response.

Definition buildResponseWithRCode (request : bytes) (rcode : Z) : outcome dns_error bytes :=
  if len request <? dnsHeaderSize then Err ErrDnsPacketTooShort
  else
    let! h := parseHeader request in
    if negb (isLikelyDNSRequestHeader h) then Err ErrNotDNSRequest
    else
      let skipped := skipQuestions request (Z.to_nat (hQDCount h)) dnsHeaderSize in
      let! (questionEndOffset, ok) :=
        match skipped with Ok o => Ok (o, true) | Err (o, _) => Ok (o, false) | Panic => Panic end in
      let '(questionLen, questionCount) :=
        if ok && (dnsHeaderSize <=? questionEndOffset) && (questionEndOffset <=? len request)
        then (questionEndOffset - dnsHeaderSize, hQDCount h) else (0, 0) in
      let! (optStart, optLen) := findOPTRecordRange request h questionEndOffset in
      write_response request (hID h) (buildResponseFlags (hFlags h) rcode) questionCount questionLen questionEndOffset
        optStart optLen.

Definition buildResponseWithFlagsLite (request : bytes) (parsed : LitePacket) (flags : Z) : outcome dns_error bytes :=
  if len request <? dnsHeaderSize then Err ErrDnsPacketTooShort
  else if negb (isLikelyDNSRequestHeader (lHeader parsed)) then Err ErrNotDNSRequest
  else
    let! (optStart, optLen) := findOPTRecordRange request (lHeader parsed) (QuestionEndOffset parsed) in
    let questionLen :=
      if (dnsHeaderSize <=? QuestionEndOffset parsed) && (QuestionEndOffset parsed <=? len request)
      then QuestionEndOffset parsed - dnsHeaderSize else 0 in
    write_response request (hID (lHeader parsed)) flags (hQDCount (lHeader parsed)) questionLen (QuestionEndOffset parsed)
      optStart optLen.

Definition buildResponseWithRCodeLite (request : bytes) (parsed : LitePacket) (rcode : Z) : outcome dns_error bytes :=
  buildResponseWithFlagsLite request parsed (buildResponseFlags (hFlags (lHeader parsed)) rcode).

Definition buildAuthoritativeResponseWithRCodeLite (request : bytes) (parsed : LitePacket) (rcode : Z) :
    outcome dns_error bytes :=
  buildResponseWithFlagsLite request parsed (buildAuthoritativeResponseFlags (hFlags (lHeader parsed)) rcode).

Definition buildNoDataResponseLite (request : bytes) (parsed : LitePacket) : outcome dns_error bytes :=
  buildResponseWithRCodeLite request parsed DNSR_CODE_NO_ERROR.

Definition BuildEmptyNoErrorResponse (request : bytes) : outcome dns_error bytes :=
  buildResponseWithRCode request DNSR_CODE_NO_ERROR.

Definition BuildEmptyNoErrorResponseFromLite (request : bytes) (parsed : LitePacket) : outcome dns_error bytes :=
  buildResponseWithRCodeLite request parsed DNSR_CODE_NO_ERROR.

Definition BuildNoDataResponseFromLite (request : bytes) (parsed : LitePacket) : outcome dns_error bytes :=
  buildNoDataResponseLite request parsed.

Definition BuildNoDataResponse (request : bytes) : outcome dns_error bytes :=
  let! parsed := ParseDNSRequestLite request in BuildNoDataResponseFromLite request parsed.

Definition BuildNameErrorResponseFromLite (request : bytes) (parsed : LitePacket) : outcome dns_error bytes :=
  buildAuthoritativeResponseWithRCodeLite request parsed DNSR_CODE_NAME_ERROR.

Definition BuildFormatErrorResponse (request : bytes) : outcome dns_error bytes :=
  buildResponseWithRCode request DNSR_CODE_FORMAT_ERROR.

Definition BuildFormatErrorResponseFromLite (request : bytes) (parsed : LitePacket) : outcome dns_error bytes :=
  buildResponseWithRCodeLite request parsed DNSR_CODE_FORMAT_ERROR.

Definition BuildRefusedResponseFromLite (request : bytes) (parsed : LitePacket) : outcome dns_error bytes :=
  buildResponseWithRCodeLite request parsed DNSR_CODE_REFUSED.

Definition BuildServerFailureResponse (request : bytes) : outcome dns_error bytes :=
  buildResponseWithRCode request DNSR_CODE_SERVER_FAILURE.

Definition BuildServerFailureResponseFromLite (request : bytes) (parsed : LitePacket) : outcome dns_error bytes :=
  buildResponseWithRCodeLite request parsed DNSR_CODE_SERVER_FAILURE.

Definition BuildNotImplementedResponseFromLite (request : bytes) (parsed : LitePacket) : outcome dns_error bytes :=
  buildResponseWithRCodeLite request parsed DNSR_CODE_NOT_IMPLEMENTED.

(** ** Names: the walk ends, stays in the message and reads only what it needs *)

Lemma writeLowerASCIILabel_spec dst label : writeLowerASCIILabel dst label = dst ++ map lower_byte label.
Proof.
  unfold writeLowerASCIILabel.
  assert (Hid : forall l : bytes, (forall c, c ∈ l -> is_upper c = false) -> map lower_byte l = l).
  { induction l as [|c l IH]; intros H; [done|]. simpl. unfold lower_byte at 1. rewrite (H c) by left.
    f_equal. apply IH. intros x Hx. apply H. by right. }
  destruct (list_find is_upper label) as [[i c]|] eqn:E.
  - apply list_find_Some in E as (Hi & _ & Hlt). rewrite <- (take_drop i label) at 3. rewrite map_app. f_equal. f_equal.
    symmetry. apply Hid. intros x (j & Hj)%list_elem_of_lookup. apply lookup_take_Some in Hj as [Hj Hji].
    specialize (Hlt j x Hj Hji). by destruct (is_upper x).
  - f_equal. symmetry. apply Hid. intros x Hx. apply list_find_None in E. rewrite Forall_forall in E.
    specialize (E x Hx). by destruct (is_upper x).
Qed.

Lemma at_value {E} (l : bytes) i x : at_ (E:=E) l i = Ok x -> 0 <= i < len l /\ l !! Z.to_nat i = Some x.
Proof.
  unfold at_. case_if; [|done]. zbool. destruct (l !! Z.to_nat i) eqn:Hl; [|done]. intros [= ->].
  apply lookup_lt_Some in Hl as Hlt. unfold len. split; [lia|done].
Qed.

Lemma at_u8 {E} (l : bytes) i x : bytes_ok l -> at_ (E:=E) l i = Ok x -> u8 x.
Proof. intros Hb [_ Hx]%at_value. by eapply Forall_lookup_1. Qed.

Lemma get16_ok {E} (l : bytes) i : bytes_ok l -> 0 <= i -> i + 2 <= len l -> exists v, get16 (E:=E) l i = Ok v /\ u16 v.
Proof.
  intros Hb Hi Hl. unfold get16. destruct (at_ok (E:=E) l i) as (x & Hx & _); [lia|].
  destruct (at_ok (E:=E) l (i + 1)) as (y & Hy & _); [lia|]. rewrite Hx, Hy. simpl. eexists. split; [done|].
  apply u16_of_be16; eapply at_u8; eauto.
Qed.

Section walk_total.
Context (data : bytes) (Hdata : bytes_ok data).

(** Turns left: pointers to follow and labels that still fit. *)
Definition turns (wireLen jumps : Z) : Z := (255 - wireLen) / 2 + (10 - jumps) + 1.

(** The walk does not index out of range, has enough fuel, and moves forward: past a
    name without pointers, or past the first pointer. *)
Lemma walkName_loop_total fuel : forall offset nextOffset jumps wireLen jumped hasLabel name,
  0 <= offset -> wireLen <= 255 -> jumps <= 10 -> turns wireLen jumps <= Z.of_nat fuel ->
  let r := walkName_loop data fuel offset nextOffset jumps wireLen jumped hasLabel name in
  is_panic r = false /\
  forall n h b, r = Ok (n, h, b) -> if jumped then n = nextOffset else offset < n <= len data.
Proof.
  induction fuel as [|fuel IH]; intros offset nextOffset jumps wireLen jumped hasLabel name Ho Hw Hj Hf.
  { exfalso. unfold turns in Hf. pose proof (Z.div_pos (255 - wireLen) 2). lia. }
  cbv zeta. cbn [walkName_loop]. case_if; [done|]. zbool.
  destruct (at_ok (E:=Z * dns_error) data offset) as (x & Hx & _); [lia|]. pose proof (at_u8 _ _ _ Hdata Hx) as Hu.
  rewrite Hx. cbn [obind]. case_if; zbool.
  { split; [done|]. intros n h b [= <- <- <-]. destruct jumped; [done|lia]. }
  case_if; zbool.
  - case_if; [done|]. zbool. destruct (get16_ok (E:=Z * dns_error) data offset Hdata) as (v & Hv & _); [lia..|].
    rewrite Hv. cbn [obind]. case_if; [done|]. zbool.
    destruct (IH (Z.land v 0x3FFF) (if jumped then nextOffset else offset + 2) (jumps + 1) wireLen true hasLabel name) as [Hp Hn].
    + unfold dnsHeaderSize in *. lia.
    + done.
    + unfold maxNameJumps in *. lia.
    + unfold turns in *. lia.
    + split; [done|]. intros n h b Hr. rewrite (Hn n h b Hr). destruct jumped; [done|lia].
  - case_if; [done|]. case_if; [done|]. case_if; [done|]. zbool. unfold maxNameWireLength in *.
    rewrite slice_ok by (unfold u8 in *; lia). cbn [obind].
    assert (Ht : turns (wireLen + x + 1) jumps <= Z.of_nat fuel).
    { unfold turns in *. unfold u8 in Hu. pose proof (Z.div_le_mono (255 - (wireLen + x + 1)) (255 - wireLen + (-1) * 2) 2).
      rewrite Z.div_add in * by lia. lia. }
    assert (Hgo : forall nm, let r := walkName_loop data fuel (offset + 1 + x) (if jumped then nextOffset else offset + 1 + x)
        jumps (wireLen + x + 1) jumped true nm in
      is_panic r = false /\ forall n h b, r = Ok (n, h, b) -> if jumped then n = nextOffset else offset < n <= len data).
    { intros nm. edestruct (IH (offset + 1 + x)) as [Hp Hn]; [unfold u8 in *; lia|..|split; [exact Hp|]]; [lia..|done|].
      intros n h b Hr. specialize (Hn n h b Hr). destruct jumped; [done|unfold u8 in *; lia]. }
    destruct name; apply Hgo.
Qed.

Lemma walkName_total offset name :
  0 <= offset ->
  is_panic (walkName data offset name) = false /\
  forall n h b, walkName data offset name = Ok (n, h, b) -> offset < n <= len data.
Proof.
  intros Ho. unfold walkName. case_if; [done|]. zbool.
  apply (walkName_loop_total name_fuel offset offset 0 1 false false name); [lia..|]. unfold turns, name_fuel. done.
Qed.

(** Without a builder the walk takes the same way. *)
Lemma walkName_loop_skip fuel : forall offset nextOffset jumps wireLen jumped hasLabel b,
  0 <= offset ->
  walkName_loop data fuel offset nextOffset jumps wireLen jumped hasLabel None =
    let! (n, h, _) := walkName_loop data fuel offset nextOffset jumps wireLen jumped hasLabel (Some b) in Ok (n, h, None).
Proof.
  induction fuel as [|fuel IH]; intros offset nextOffset jumps wireLen jumped hasLabel b Ho; [done|].
  cbn [walkName_loop]. case_if; [done|]. destruct (at_ data offset) as [x|e|] eqn:Hx; cbn [obind]; [|done..].
  pose proof (at_u8 _ _ _ Hdata Hx) as Hu. case_if; [done|]. case_if.
  - case_if; [done|]. destruct (get16 data offset) as [v|e|]; cbn [obind]; [|done..]. case_if; [done|]. zbool.
    apply IH. unfold dnsHeaderSize in *. lia.
  - case_if; [done|]. case_if; [done|]. case_if; [done|]. zbool. rewrite slice_ok by (unfold u8 in *; lia). cbn [obind].
    apply IH. unfold u8 in *. lia.
Qed.

Lemma skipName_parseName offset : 0 <= offset -> skipName data offset = let! (_, n) := parseName data offset in Ok n.
Proof.
  intros Ho. unfold skipName, parseName, walkName. case_if; [done|]. rewrite (walkName_loop_skip _ _ _ _ _ _ _ []) by done.
  by destruct (walkName_loop _ _ _ _ _ _ _ _ _) as [[[n h] b]|e|].
Qed.

Lemma parseName_total offset : 0 <= offset ->
  is_panic (parseName data offset) = false /\ forall s n, parseName data offset = Ok (s, n) -> offset < n <= len data.
Proof.
  intros Ho. destruct (walkName_total offset (Some []) Ho) as [H1 H2]. unfold parseName.
  destruct (walkName data offset (Some [])) as [[[n h] b]|e|]; [|done..]. split; [done|].
  intros s n' [= _ <-]. by eapply H2.
Qed.

Lemma skipName_total offset : 0 <= offset ->
  is_panic (skipName data offset) = false /\ forall n, skipName data offset = Ok n -> offset < n <= len data.
Proof.
  intros Ho. rewrite skipName_parseName by done. destruct (parseName_total offset Ho) as [H1 H2].
  destruct (parseName data offset) as [[s n]|e|]; [|done..]. split; [done|]. intros n' [= <-]. by eapply H2.
Qed.
End walk_total.

(** ** A message extended at its end, with another header *)

(** [data'] has the bytes of [data] after the header, and possibly more. *)
Definition extends (data data' : bytes) : Prop :=
  len data <= len data' /\ forall i, 12 <= i < len data -> data' !! Z.to_nat i = data !! Z.to_nat i.

Section extension.
Context (data data' : bytes) (Hext : extends data data').

Lemma at_extends {E} i x : 12 <= i -> at_ (E:=E) data i = Ok x -> at_ (E:=E) data' i = Ok x.
Proof.
  intros Hi [Hr Hx]%at_value. unfold at_. rewrite (proj2 (Z.leb_le 0 i)) by lia.
  rewrite (proj2 Hext) by lia. by rewrite Hx.
Qed.

Lemma get16_extends {E} i x : 12 <= i -> get16 (E:=E) data i = Ok x -> get16 (E:=E) data' i = Ok x.
Proof.
  unfold get16. intros Hi (a & Ha & (b & Hb & Hx)%obind_ok_inv)%obind_ok_inv.
  by rewrite (at_extends i a), (at_extends (i + 1) b) by (done || lia).
Qed.

Lemma slice_extends {E} a b l : 12 <= a -> slice (E:=E) data a b = Ok l -> slice (E:=E) data' a b = Ok l.
Proof.
  intros Ha. unfold slice. case_if; [|done]. zbool. intros [= <-]. destruct Hext as [Hl Hi].
  assert (Hc : (0 <=? a) && (a <=? b) && (b <=? len data') = true) by (rewrite !andb_true_iff, !Z.leb_le; lia).
  rewrite Hc. f_equal. apply list_eq. intros i.
  destruct (decide (i < Z.to_nat (b - a))%nat); [|by rewrite !lookup_take_ge by lia].
  rewrite !lookup_take_lt, !lookup_drop by done. specialize (Hi (Z.of_nat (Z.to_nat a + i)) ltac:(lia)).
  by rewrite Nat2Z.id in Hi.
Qed.

Lemma walkName_loop_extends fuel : forall offset nextOffset jumps wireLen jumped hasLabel name r,
  12 <= offset -> bytes_ok data ->
  walkName_loop data fuel offset nextOffset jumps wireLen jumped hasLabel name = Ok r ->
  walkName_loop data' fuel offset nextOffset jumps wireLen jumped hasLabel name = Ok r.
Proof.
  induction fuel as [|fuel IH]; intros offset nextOffset jumps wireLen jumped hasLabel name r Ho Hb; [done|].
  cbn [walkName_loop]. destruct Hext as [Hl _]. case_if; [done|]. zbool. rewrite (proj2 (Z.leb_gt (len data') offset)) by lia.
  intros (x & Hx & Hr)%obind_ok_inv. pose proof (at_u8 _ _ _ Hb Hx) as Hu. rewrite (at_extends offset x) by done.
  cbn [obind]. case_if; [done|]. case_if.
  - destruct ((len data <=? offset + 1) || (maxNameJumps <=? jumps)) eqn:E1; [done|]. zbool.
    rewrite (proj2 (Z.leb_gt (len data') (offset + 1))), (proj2 (Z.leb_gt maxNameJumps jumps)) by lia. cbn [orb].
    apply obind_ok_inv in Hr as (v & Hv & Hr). rewrite (get16_extends offset v) by done. cbn [obind].
    destruct ((_ <? _) || _ || _) eqn:E2; [done|]. zbool.
    rewrite (proj2 (Z.ltb_ge (Z.land v 0x3FFF) dnsHeaderSize)), (proj2 (Z.leb_gt offset (Z.land v 0x3FFF))),
      (proj2 (Z.leb_gt (len data') (Z.land v 0x3FFF))) by lia.
    cbn [orb]. apply IH; [unfold dnsHeaderSize in *; lia|done|done].
  - case_if; [done|]. case_if; [done|]. destruct (len data <? offset + 1 + x) eqn:E3; [done|]. zbool.
    rewrite (proj2 (Z.ltb_ge (len data') (offset + 1 + x))) by lia. destruct name as [b0|]; cbn [obind] in *.
    + apply obind_ok_inv in Hr as (nm & Hnm & Hr). apply obind_ok_inv in Hnm as (lbl & Hlbl & [= <-]).
      rewrite (slice_extends (offset + 1) (offset + 1 + x) lbl) by (done || lia). cbn [obind].
      apply IH; [unfold u8 in *; lia|done|done].
    + apply IH; [unfold u8 in *; lia|done|done].
Qed.

Lemma walkName_extends offset name r : 12 <= offset -> bytes_ok data ->
  walkName data offset name = Ok r -> walkName data' offset name = Ok r.
Proof.
  intros Ho Hb. unfold walkName. case_if; [done|]. zbool. rewrite (proj2 (Z.leb_gt (len data') offset)) by (destruct Hext; lia).
  by apply walkName_loop_extends.
Qed.
End extension.

(** ** Names without pointers *)

Definition wire_label (l : bytes) : bytes := len l :: l.
Definition wire_name (ls : list bytes) : bytes := concat (map wire_label ls) ++ [0].
Definition label_ok (l : bytes) : Prop := 1 <= len l <= 63 /\ bytes_ok l.
Definition name_ok (ls : list bytes) : Prop := Forall label_ok ls /\ len (wire_name ls) <= 255.

(** The labels joined with dots. *)
Fixpoint dotted (ls : list bytes) : bytes :=
  match ls with
  | [] => []
  | [l] => l
  | l :: ls => l ++ 46 :: dotted ls
  end.

Fixpoint add_labels (hasLabel : bool) (b : bytes) (ls : list bytes) : bytes :=
  match ls with
  | [] => b
  | l :: ls => add_labels true ((if hasLabel then b ++ [46] else b) ++ map lower_byte l) ls
  end.

Lemma add_labels_dotted ls : forall b,
  add_labels true b ls = match ls with [] => b | _ => b ++ 46 :: dotted (map (map lower_byte) ls) end.
Proof.
  induction ls as [|l ls IH]; intros b; [done|]. cbn [add_labels map dotted]. rewrite IH.
  destruct ls as [|l' ls]; cbn [map]; by rewrite <- !(assoc_L (++)).
Qed.

Lemma walk_labels post (next jumps : Z) (jumped : bool) ls : forall fuel data pre offset wireLen (hasLabel : bool) (name : option bytes),
  Forall label_ok ls -> data = pre ++ wire_name ls ++ post -> offset = len pre ->
  wireLen + len (wire_name ls) - 1 <= 255 -> (length ls < fuel)%nat ->
  walkName_loop data fuel offset (if jumped then next else offset) jumps wireLen jumped hasLabel name =
  Ok (if jumped then next else offset + len (wire_name ls), hasLabel || negb (bool_decide (ls = [])),
      match name with Some b => Some (add_labels hasLabel b ls) | None => None end).
Proof.
  induction ls as [|l ls IH]; intros fuel data pre offset wireLen hasLabel name Hls -> -> Hw Hf;
    (destruct fuel as [|fuel]; [simpl in Hf; lia|]); cbn [walkName_loop].
  - change (wire_name []) with [0] in *. cbn [app]. rewrite len_app, len_cons. pose proof (len_nonneg post).
    rewrite (proj2 (Z.leb_gt _ _)), at_middle by (done || lia). cbn [obind]. rewrite Z.eqb_refl.
    rewrite orb_false_r. by destruct jumped, name.
  - apply Forall_cons in Hls as [[Hl Hb] Hls].
    assert (Hwire : wire_name (l :: ls) = len l :: l ++ wire_name ls).
    { unfold wire_name. simpl. by rewrite <- (assoc_L (++)). }
    rewrite Hwire in *. rewrite len_cons, len_app in Hw.
    assert (Hpos : 1 <= len (wire_name ls)) by (unfold wire_name; rewrite len_app; pose proof (len_nonneg (concat (map wire_label ls))); change (len [0]) with 1; lia).
    pose proof (len_nonneg post). cbn [app].
    assert (Hlen : len (pre ++ len l :: (l ++ wire_name ls) ++ post) = len pre + 1 + len l + len (wire_name ls) + len post)
      by (rewrite !len_app, len_cons, !len_app; lia).
    rewrite Hlen. rewrite (proj2 (Z.leb_gt _ _)) by lia. rewrite at_middle by done. cbn [obind].
    rewrite (proj2 (Z.eqb_neq _ _)), (proj2 (Z.leb_gt 192 _)), (proj2 (Z.ltb_ge 63 _)) by lia.
    unfold maxNameWireLength. rewrite (proj2 (Z.ltb_ge 255 _)), (proj2 (Z.ltb_ge _ (len pre + 1 + len l))) by lia.
    set (data := pre ++ len l :: (l ++ wire_name ls) ++ post).
    assert (Hd : data = (pre ++ len l :: l) ++ wire_name ls ++ post)
      by (unfold data; simpl; by rewrite <- !(assoc_L (++))).
    assert (Hp : len (pre ++ len l :: l) = len pre + 1 + len l) by (rewrite len_app, len_cons; lia).
    assert (Hs : slice (E:=Z * dns_error) data (len pre + 1) (len pre + 1 + len l) = Ok l).
    { unfold data. change (pre ++ len l :: (l ++ wire_name ls) ++ post) with (pre ++ ([len l] ++ (l ++ wire_name ls) ++ post)).
      rewrite (assoc_L (++) pre), <- (assoc_L (++) l). apply slice_app; rewrite len_app; change (len [len l]) with 1; lia. }
    rewrite Hs. cbn [obind].
    assert (Hgo : forall nm, walkName_loop data fuel (len pre + 1 + len l) (if jumped then next else len pre + 1 + len l) jumps
        (wireLen + len l + 1) jumped true nm =
      Ok (if jumped then next else len pre + len (len l :: l ++ wire_name ls), true,
          match nm with Some b => Some (add_labels true b ls) | None => None end)).
    { intros nm. rewrite (IH fuel data (pre ++ len l :: l) (len pre + 1 + len l) (wireLen + len l + 1) true nm)
        by (done || simpl in Hf; lia).
      rewrite len_cons, len_app. destruct jumped; [done|]. do 3 f_equal. lia. }
    replace (if jumped then if jumped then next else len pre else len pre + 1 + len l)
      with (if jumped then next else len pre + 1 + len l) by (by destruct jumped).
    destruct name as [b|]; cbn [obind]; rewrite Hgo; rewrite orb_true_r; [|done].
    cbn [add_labels]. by rewrite writeLowerASCIILabel_spec.
Qed.

(** A name of at most 255 bytes has at most 127 labels. *)
Lemma name_ok_length ls : name_ok ls -> (length ls <= 127)%nat.
Proof.
  intros [Hls Hw]. assert (H : 2 * len ls <= len (concat (map wire_label ls))).
  { clear Hw. induction Hls as [|l ls [Hl _] _ IH]; [done|]. cbn [map concat]. unfold wire_label at 1.
    rewrite len_app, !len_cons. lia. }
  unfold wire_name in Hw. rewrite len_app in Hw. change (len [0]) with 1 in Hw. unfold len in *. lia.
Qed.

Lemma parseName_wire data pre ls post :
  name_ok ls -> data = pre ++ wire_name ls ++ post ->
  parseName data (len pre) = Ok (if bool_decide (ls = []) then [46] else dotted (map (map lower_byte) ls), len pre + len (wire_name ls)).
Proof.
  intros Hok Hd. pose proof (name_ok_length ls Hok) as Hn. destruct Hok as [Hls Hw]. unfold parseName, walkName.
  pose proof (len_nonneg post). assert (1 <= len (wire_name ls)) by
    (unfold wire_name; rewrite len_app; pose proof (len_nonneg (concat (map wire_label ls))); change (len [0]) with 1; lia).
  rewrite (proj2 (Z.leb_gt (len data) (len pre))) by (rewrite Hd, !len_app; lia).
  rewrite (walk_labels post (len pre) 0 false ls name_fuel data pre (len pre) 1 false (Some [])) by (done || unfold name_fuel; lia).
  cbn [obind orb default]. f_equal. f_equal. destruct ls as [|l ls]; [done|]. rewrite bool_decide_eq_false_2 by done.
  cbn [negb add_labels]. change ([] ++ map lower_byte l) with (map lower_byte l). rewrite add_labels_dotted.
  by destruct ls.
Qed.

(** A pointer to a name earlier in the message. *)
Lemma parseName_pointer data ptr ls pre post offset :
  name_ok ls -> data = pre ++ wire_name ls ++ post -> ptr = len pre -> 12 <= ptr < offset -> ptr < 16384 ->
  get16 (E:=Z * dns_error) data offset = Ok (Z.lor 0xC000 ptr) -> bytes_ok data ->
  parseName data offset =
    Ok (if bool_decide (ls = []) then [46] else dotted (map (map lower_byte) ls), offset + 2).
Proof.
  intros Hok Hd Hp Hr Hs Hg Hb. pose proof (name_ok_length ls Hok) as Hn. destruct Hok as [Hls Hw].
  assert (Hat : exists x y, at_ (E:=Z * dns_error) data offset = Ok x /\ at_ (E:=Z * dns_error) data (offset + 1) = Ok y /\
    of_be16 x y = Z.lor 0xC000 ptr).
  { unfold get16 in Hg. apply obind_ok_inv in Hg as (x & Hx & Hg). apply obind_ok_inv in Hg as (y & Hy & [= Hv]). eauto. }
  destruct Hat as (x & y & Hx & Hy & Hv). pose proof (at_u8 _ _ _ Hb Hx) as Hux. pose proof (at_u8 _ _ _ Hb Hy) as Huy.
  apply at_value in Hy as [Hy _].
  assert (Hlor : Z.lor 0xC000 ptr = 0xC000 + ptr).
  { change (Z.lor (Z.shiftl 3 14) ptr = 49152 + ptr). rewrite lor_shiftl_disjoint by lia. lia. }
  assert (Hx192 : 192 <= x) by (rewrite of_be16_arith, Hlor in Hv by done; unfold u8 in *; lia).
  assert (Hland : Z.land (Z.lor 0xC000 ptr) 0x3FFF = ptr).
  { rewrite Hlor. change 0x3FFF with (Z.ones 14). rewrite Z.land_ones by lia. change (2 ^ 14) with 16384.
    replace (49152 + ptr) with (ptr + 3 * 16384) by lia. rewrite Z.mod_add by lia. apply Z.mod_small. lia. }
  unfold parseName, walkName. rewrite (proj2 (Z.leb_gt (len data) offset)) by lia.
  assert (Hfu : exists f, name_fuel = S f /\ f = 137%nat) by (by exists 137%nat). destruct Hfu as (f & -> & Hf).
  cbn [walkName_loop]. rewrite (proj2 (Z.leb_gt (len data) offset)) by lia.
  rewrite Hx. cbn [obind]. rewrite (proj2 (Z.eqb_neq x 0)), (proj2 (Z.leb_le 192 x)) by lia.
  rewrite (proj2 (Z.leb_gt (len data) (offset + 1))) by lia. cbn [orb]. change (maxNameJumps <=? 0) with false.
  rewrite Hg. cbn [obind]. rewrite Hland. unfold dnsHeaderSize.
  rewrite (proj2 (Z.ltb_ge ptr 12)), (proj2 (Z.leb_gt offset ptr)), (proj2 (Z.leb_gt (len data) ptr)) by lia.
  cbn [orb]. rewrite (walk_labels post (offset + 2) (0 + 1) true ls f data pre ptr 1 false (Some [])) by (done || lia).
  cbn [obind orb default]. f_equal. f_equal. destruct ls as [|l ls]; [done|]. rewrite bool_decide_eq_false_2 by done.
  cbn [negb add_labels]. change ([] ++ map lower_byte l) with (map lower_byte l). rewrite add_labels_dotted. by destruct ls.
Qed.

(** ** Sections *)

Section sections.
Context (data : bytes) (Hdata : bytes_ok data).

Lemma get32_ok {E} i : 0 <= i -> i + 4 <= len data -> exists v, get32 (E:=E) data i = Ok v.
Proof.
  intros. unfold get32. destruct (get16_ok (E:=E) data i Hdata) as (x & -> & _); [lia..|].
  destruct (get16_ok (E:=E) data (i + 2) Hdata) as (y & -> & _); [lia..|]. simpl. eauto.
Qed.

Lemma parseQuestions_total count : forall offset, 0 <= offset <= len data ->
  is_panic (parseQuestions data count offset) = false /\
  forall qs n, parseQuestions data count offset = Ok (qs, n) -> offset <= n <= len data /\ length qs = count.
Proof.
  induction count as [|count IH]; intros offset Ho; cbn [parseQuestions].
  { split; [done|]. intros qs n [= <- <-]. split; [lia|done]. }
  destruct (parseName_total data Hdata offset ltac:(lia)) as [Hp Hn].
  destruct (parseName data offset) as [[s n]|e|]; [|done..]. specialize (Hn s n eq_refl). cbn [map_err obind].
  case_if; [done|]. zbool. destruct (get16_ok (E:=Z * dns_error) data n Hdata) as (t & -> & _); [lia..|].
  destruct (get16_ok (E:=Z * dns_error) data (n + 2) Hdata) as (c & -> & _); [lia..|]. cbn [obind].
  destruct (IH (n + 4) ltac:(lia)) as [Hp2 Hn2]. destruct (parseQuestions data count (n + 4)) as [[qs m]|e|]; [|done..].
  cbn [obind]. split; [done|]. intros qs' n' [= <- <-]. destruct (Hn2 qs m eq_refl) as [? <-]. split; [lia|done].
Qed.

Lemma parseResourceRecords_total count : forall offset, 0 <= offset <= len data ->
  is_panic (parseResourceRecords data count offset) = false /\
  forall rs n, parseResourceRecords data count offset = Ok (rs, n) -> offset <= n <= len data /\ length rs = count.
Proof.
  induction count as [|count IH]; intros offset Ho; cbn [parseResourceRecords].
  { split; [done|]. intros qs n [= <- <-]. split; [lia|done]. }
  destruct (parseName_total data Hdata offset ltac:(lia)) as [Hp Hn].
  destruct (parseName data offset) as [[s n]|e|]; [|done..]. specialize (Hn s n eq_refl). cbn [map_err obind].
  case_if; [done|]. zbool. destruct (get16_ok (E:=Z * dns_error) data n Hdata) as (t & -> & _); [lia..|].
  destruct (get16_ok (E:=Z * dns_error) data (n + 2) Hdata) as (c & -> & _); [lia..|].
  destruct (get32_ok (E:=Z * dns_error) (n + 4)) as (ttl & ->); [lia..|].
  destruct (get16_ok (E:=Z * dns_error) data (n + 8) Hdata) as (rd & -> & Hrd); [lia..|]. cbn [obind].
  case_if; [done|]. zbool. unfold u16 in Hrd. rewrite slice_ok by lia. cbn [obind].
  destruct (IH (n + 10 + rd) ltac:(lia)) as [Hp2 Hn2].
  destruct (parseResourceRecords data count (n + 10 + rd)) as [[rs m]|e|]; [|done..].
  cbn [obind]. split; [done|]. intros rs' n' [= <- <-]. destruct (Hn2 rs m eq_refl) as [? <-]. split; [lia|done].
Qed.

(** The skipping functions are the parsing ones without their result. *)
Lemma skipQuestions_parse count : forall offset, 0 <= offset <= len data ->
  map_err snd (skipQuestions data count offset) = let! (_, n) := map_err snd (parseQuestions data count offset) in Ok n.
Proof.
  induction count as [|count IH]; intros offset Ho; [done|]. cbn [skipQuestions parseQuestions].
  rewrite skipName_parseName by (done || lia). destruct (parseName_total data Hdata offset ltac:(lia)) as [_ Hn].
  destruct (parseName data offset) as [[s n]|e|]; [|done..]. specialize (Hn s n eq_refl). cbn [map_err obind].
  case_if; [done|]. zbool. destruct (get16_ok (E:=Z * dns_error) data n Hdata) as (t & -> & _); [lia..|].
  destruct (get16_ok (E:=Z * dns_error) data (n + 2) Hdata) as (c & -> & _); [lia..|]. cbn [obind].
  rewrite IH by lia. by destruct (parseQuestions data count (n + 4)) as [[qs m]|e|].
Qed.

Lemma skipResourceRecords_parse count : forall offset, 0 <= offset <= len data ->
  map_err snd (skipResourceRecords data count offset) =
    let! (_, n) := map_err snd (parseResourceRecords data count offset) in Ok n.
Proof.
  induction count as [|count IH]; intros offset Ho; [done|]. cbn [skipResourceRecords parseResourceRecords].
  rewrite skipName_parseName by (done || lia). destruct (parseName_total data Hdata offset ltac:(lia)) as [_ Hn].
  destruct (parseName data offset) as [[s n]|e|]; [|done..]. specialize (Hn s n eq_refl). cbn [map_err obind].
  case_if; [done|]. zbool. destruct (get16_ok (E:=Z * dns_error) data n Hdata) as (t & -> & _); [lia..|].
  destruct (get16_ok (E:=Z * dns_error) data (n + 2) Hdata) as (c & -> & _); [lia..|].
  destruct (get32_ok (E:=Z * dns_error) (n + 4)) as (ttl & ->); [lia..|].
  destruct (get16_ok (E:=Z * dns_error) data (n + 8) Hdata) as (rd & -> & Hrd); [lia..|]. cbn [obind].
  case_if; [done|]. zbool. unfold u16 in Hrd. rewrite slice_ok by lia. cbn [obind].
  rewrite IH by lia. by destruct (parseResourceRecords data count (n + 10 + rd)) as [[rs m]|e|].
Qed.

Lemma skipQuestions_total count offset : 0 <= offset <= len data ->
  is_panic (skipQuestions data count offset) = false /\
  forall n, skipQuestions data count offset = Ok n -> offset <= n <= len data.
Proof.
  intros Ho. pose proof (skipQuestions_parse count offset Ho) as H. destruct (parseQuestions_total count offset Ho) as [Hp Hn].
  destruct (parseQuestions data count offset) as [[qs m]|e|], (skipQuestions data count offset) as [x|e'|]; try done.
  simpl in H. split; [done|]. intros n [= <-]. injection H as ->. by destruct (Hn qs m eq_refl).
Qed.

Lemma skipResourceRecords_total count offset : 0 <= offset <= len data ->
  is_panic (skipResourceRecords data count offset) = false /\
  forall n, skipResourceRecords data count offset = Ok n -> offset <= n <= len data.
Proof.
  intros Ho. pose proof (skipResourceRecords_parse count offset Ho) as H.
  destruct (parseResourceRecords_total count offset Ho) as [Hp Hn].
  destruct (parseResourceRecords data count offset) as [[qs m]|e|], (skipResourceRecords data count offset) as [x|e'|]; try done.
  simpl in H. split; [done|]. intros n [= <-]. injection H as ->. by destruct (Hn qs m eq_refl).
Qed.

Lemma findFirstOPT_total {E} count : forall offset, 0 <= offset <= len data ->
  exists s l, findFirstOPTRecordInAdditional (E:=E) data count offset = Ok (s, l) /\
    (l = 0 \/ offset <= s /\ 0 < l /\ s + l <= len data).
Proof.
  induction count as [|count IH]; intros offset Ho; cbn [findFirstOPTRecordInAdditional]; [by exists 0, 0; auto|].
  destruct (skipName_total data Hdata offset ltac:(lia)) as [Hp Hn].
  destruct (skipName data offset) as [n|e|]; [|by exists 0, 0; auto|done]. specialize (Hn n eq_refl).
  case_if; [by exists 0, 0; auto|]. zbool. destruct (get16_ok (E:=E) data n Hdata) as (t & -> & _); [lia..|].
  destruct (get16_ok (E:=E) data (n + 8) Hdata) as (rd & -> & Hrd); [lia..|]. cbn [obind].
  case_if; [by exists 0, 0; auto|]. zbool. unfold u16 in Hrd. case_if.
  - exists offset, (n + 10 + rd - offset). split; [done|]. lia.
  - destruct (IH (n + 10 + rd) ltac:(lia)) as (s & l & Hf & Hb). exists s, l. split; [done|]. lia.
Qed.

Lemma findOPTRecordRange_total {E} h o :
  exists s l, findOPTRecordRange (E:=E) data h o = Ok (s, l) /\ (l = 0 \/ 12 <= s /\ 0 < l /\ s + l <= len data).
Proof.
  unfold findOPTRecordRange. case_if; [by exists 0, 0; auto|]. zbool. unfold dnsHeaderSize in *.
  destruct (skipResourceRecords_total (Z.to_nat (hANCount h)) o ltac:(lia)) as [Hp Hn].
  destruct (skipResourceRecords data (Z.to_nat (hANCount h)) o) as [o1|e|]; [|by exists 0, 0; auto|done].
  specialize (Hn o1 eq_refl). destruct (skipResourceRecords_total (Z.to_nat (hNSCount h)) o1 ltac:(lia)) as [Hp2 Hn2].
  destruct (skipResourceRecords data (Z.to_nat (hNSCount h)) o1) as [o2|e|]; [|by exists 0, 0; auto|done].
  specialize (Hn2 o2 eq_refl). destruct (findFirstOPT_total (E:=E) (Z.to_nat (hARCount h)) o2 ltac:(lia)) as (s & l & Hf & Hb).
  exists s, l. split; [done|]. lia.
Qed.

Lemma parseHeader_ok {E} : 12 <= len data ->
  exists h, parseHeader (E:=E) data = Ok h /\ u16 (hID h) /\ u16 (hFlags h) /\ u16 (hQDCount h) /\ u16 (hANCount h) /\
    u16 (hNSCount h) /\ u16 (hARCount h).
Proof.
  intros Hl. unfold parseHeader. destruct (get16_ok (E:=E) data 2 Hdata) as (a & -> & ?); [lia..|].
  destruct (get16_ok (E:=E) data 0 Hdata) as (b & -> & ?); [lia..|]. destruct (get16_ok (E:=E) data 4 Hdata) as (c & -> & ?); [lia..|].
  destruct (get16_ok (E:=E) data 6 Hdata) as (d & -> & ?); [lia..|]. destruct (get16_ok (E:=E) data 8 Hdata) as (e & -> & ?); [lia..|].
  destruct (get16_ok (E:=E) data 10 Hdata) as (f & -> & ?); [lia..|]. simpl. eauto 10.
Qed.

Lemma parseLiteWithHeader_total h : 12 <= len data -> 0 <= hQDCount h -> is_panic (parsePacketLiteWithHeader data h) = false.
Proof.
  intros Hl Hq. unfold parsePacketLiteWithHeader. case_if; [done|]. unfold dnsHeaderSize.
  destruct (parseQuestions_total (Z.to_nat (hQDCount h)) 12 ltac:(lia)) as [Hp Hn].
  destruct (parseQuestions _ _ _) as [[qs n]|e|]; [|done..]. cbn [map_err obind]. case_if; [|done]. zbool.
  by destruct (at_ok (E:=dns_error) qs 0) as (x & -> & _); [unfold len in *; lia|].
Qed.
End sections.

(** ** Messages with a twelve-byte header *)

Definition message_header (id flags qd an ns ar : Z) : bytes :=
  be16 id ++ be16 flags ++ be16 qd ++ be16 an ++ be16 ns ++ be16 ar.

(** The header the parser returns for those fields. *)
Definition header_of (id flags qd an ns ar : Z) : Header :=
  let bits k m := Z.land (Z.shiftr flags k) m in
  mkHeader id flags (bits 15 0x1) (bits 11 0xF) (bits 10 0x1) (bits 9 0x1) (bits 8 0x1) (bits 7 0x1)
    (bits 4 0x7) (Z.land flags 0xF) qd an ns ar.

Lemma put_head {E} (hd tl : bytes) i v : 0 <= i < len hd -> put (E:=E) (hd ++ tl) i v = Ok (<[Z.to_nat i := v]> hd ++ tl).
Proof.
  intros Hi. rewrite put_ok by (rewrite len_app; pose proof (len_nonneg tl); lia). f_equal. apply insert_app_l. unfold len in Hi. lia.
Qed.

Lemma put16_head {E} (hd tl : bytes) a v : 0 <= a -> a + 2 <= len hd ->
  put16 (E:=E) (hd ++ tl) a v = Ok (<[Z.to_nat (a + 1) := wrap8 v]> (<[Z.to_nat a := wrap8 (Z.shiftr v 8)]> hd) ++ tl).
Proof.
  intros. unfold put16. rewrite put_head by lia. cbn [obind]. apply put_head. unfold len in *. rewrite length_insert. lia.
Qed.

Lemma at_head {E} (hd tl : bytes) i : 0 <= i < len hd -> at_ (E:=E) (hd ++ tl) i = at_ hd i.
Proof. intros Hi. unfold at_. case_if; [|done]. by rewrite lookup_app_l by (unfold len in Hi; lia). Qed.

Lemma get16_head {E} (hd tl : bytes) a : 0 <= a -> a + 2 <= len hd -> get16 (E:=E) (hd ++ tl) a = get16 hd a.
Proof. intros. unfold get16. by rewrite !at_head by lia. Qed.

Lemma parseHeader_message {E} id flags qd an ns ar body :
  u16 id -> u16 flags -> u16 qd -> u16 an -> u16 ns -> u16 ar ->
  parseHeader (E:=E) (message_header id flags qd an ns ar ++ body) = Ok (header_of id flags qd an ns ar).
Proof.
  intros. unfold parseHeader. assert (Hl : len (message_header id flags qd an ns ar) = 12) by done.
  rewrite !get16_head by (rewrite ?Hl; lia). unfold get16, message_header, be16. cbn [app at_ Z.leb Z.compare obind].
  cbv [at_]. simpl. by rewrite !of_be16_be16.
Qed.

Lemma copy_at_middle {E A} (l1 l2 l3 : list A) off src :
  off = len l1 -> length src = length l2 -> copy_at (E:=E) (l1 ++ l2 ++ l3) off src = Ok (l1 ++ src ++ l3).
Proof.
  intros -> Hl. unfold copy_at. pose proof (len_nonneg l1). pose proof (len_nonneg (l2 ++ l3)).
  replace ((0 <=? _) && _) with true by (symmetry; rewrite andb_true_iff, !Z.leb_le, len_app; lia).
  unfold len. rewrite Nat2Z.id, length_app, take_app_length. rewrite length_app.
  replace (Nat.min (length l1 + (length l2 + length l3) - length l1) (length src)) with (length src) by lia.
  rewrite firstn_all. rewrite drop_app_add. by rewrite Hl, drop_app_length.
Qed.

Lemma make_bytes_app a b : 0 <= a -> 0 <= b -> make_bytes (a + b) = make_bytes a ++ make_bytes b.
Proof. intros. unfold make_bytes. rewrite Z2Nat.inj_add by lia. apply replicate_add. Qed.

Lemma len_make_bytes n : 0 <= n -> len (make_bytes n) = n.
Proof. intros. unfold len, make_bytes. rewrite length_replicate. lia. Qed.

Lemma write_response_spec request id flags qc q optStart opt :
  slice (E:=dns_error) request 12 (12 + len q) = Ok q ->
  slice (E:=dns_error) request optStart (optStart + len opt) = Ok opt \/ opt = [] ->
  write_response request id flags qc (len q) (12 + len q) optStart (len opt) =
    Ok (message_header id flags qc 0 0 (getARCount (len opt)) ++ q ++ opt).
Proof.
  intros Hq Ho. unfold write_response, dnsHeaderSize. pose proof (len_nonneg q). pose proof (len_nonneg opt).
  rewrite <- Z.add_assoc, !make_bytes_app by lia. change (make_bytes 12) with (replicate 12 0). cbn [replicate].
  rewrite put16_head by (done || vm_compute; congruence). cbn [obind].
  rewrite put16_head by (done || vm_compute; congruence). cbn [obind].
  rewrite put16_head by (done || vm_compute; congruence). cbn [obind].
  rewrite put16_head by (done || vm_compute; congruence). cbn [obind].
  assert (Har : wrap16 (getARCount (len opt)) = getARCount (len opt)) by (unfold getARCount; by case_if). rewrite Har.
  match goal with |- context [?hd ++ make_bytes (len q) ++ make_bytes (len opt)] =>
    assert (Hh : hd = message_header id flags qc 0 0 (getARCount (len opt))) by reflexivity; rewrite Hh end.
  set (hd := message_header _ _ _ _ _ _). assert (Hl : 12 = len hd) by done.
  assert (Hq2 : (if 0 <? len q then let! q0 := slice (E:=dns_error) request 12 (12 + len q) in
      copy_at (hd ++ make_bytes (len q) ++ make_bytes (len opt)) 12 q0 else Ok (hd ++ make_bytes (len q) ++ make_bytes (len opt)))
    = Ok (hd ++ q ++ make_bytes (len opt))).
  { case_if; zbool.
    - rewrite Hq. cbn [obind]. apply copy_at_middle; [done|]. pose proof (len_make_bytes (len q)). unfold len in *. lia.
    - destruct q; [done|]. rewrite len_cons in *. pose proof (len_nonneg q). lia. }
  rewrite Hq2. cbn [obind]. case_if; zbool.
  - destruct Ho as [Ho|Ho]; [|rewrite Ho in *; unfold len in *; simpl in *; lia]. rewrite Ho. cbn [obind].
    rewrite (assoc_L (++) hd). rewrite copy_at_end; [by rewrite <- (assoc_L (++))| |].
    + rewrite len_app, <- Hl. lia.
    + pose proof (len_make_bytes (len opt)). unfold len in *. lia.
  - destruct opt; [done|]. rewrite len_cons in *. pose proof (len_nonneg opt). lia.
Qed.

(** ** Flags of a response *)

Lemma bit_field f k : 0 <= k -> Z.land (Z.shiftr f k) 1 = Z.b2z (Z.testbit f k).
Proof.
  intros Hk. rewrite (Z.land_ones _ 1) by lia. change (2 ^ 1) with 2. rewrite <- Z.bit0_mod, Z.shiftr_spec by lia.
  by rewrite Z.add_0_l.
Qed.

Lemma testbit_pow2 f k : 0 <= k -> Z.testbit f k = negb (Z.land f (Z.shiftl 1 k) =? 0).
Proof.
  intros Hk. destruct (Z.testbit f k) eqn:E.
  - symmetry. apply negb_true_iff, Z.eqb_neq. intros H0. apply (f_equal (fun z => Z.testbit z k)) in H0.
    rewrite Z.land_spec, E, Z.shiftl_spec, Z.sub_diag, Z.bits_0 in H0 by lia. done.
  - symmetry. apply negb_false_iff, Z.eqb_eq. apply Z.bits_inj'. intros i Hi. rewrite Z.land_spec, Z.bits_0.
    destruct (Z.eq_dec i k) as [->|Hne]; [by rewrite E|].
    rewrite Z.shiftl_1_l, Z.pow2_bits_false by lia. apply andb_false_r.
Qed.

Lemma testbit_lnot_mask m k : 0 <= k -> Z.testbit (Z.lnot m) k = negb (Z.testbit m k).
Proof. intros. by apply Z.lnot_spec. Qed.

(** Membership of a bit in a mask given as a range. *)
Lemma testbit_ones_range n k : 0 <= k -> 0 <= n -> Z.testbit (Z.ones n) k = (k <? n).
Proof. intros. rewrite Z.testbit_ones by lia. rewrite (proj2 (Z.leb_le 0 k)) by lia. done. Qed.

Lemma testbit_flag i k : 0 <= k -> 0 <= i -> Z.testbit (Z.shiftl 1 i) k = (k =? i).
Proof.
  intros. rewrite Z.shiftl_1_l. destruct (Z.eqb_spec k i) as [->|]; [by apply Z.pow2_bits_true|by apply Z.pow2_bits_false].
Qed.

Lemma testbit_opcodeMask k : 0 <= k -> Z.testbit opcodeMask k = (11 <=? k) && (k <? 15).
Proof.
  intros Hk. change opcodeMask with (Z.shiftl (Z.ones 4) 11). destruct (Z.leb_spec 11 k).
  - rewrite Z.shiftl_spec, testbit_ones_range by lia. simpl. destruct (Z.ltb_spec (k - 11) 4), (Z.ltb_spec k 15); done || lia.
  - by rewrite Z.shiftl_spec_low by lia.
Qed.

Lemma testbit_copied rf f k : 0 <= k ->
  Z.testbit (copied_flags rf f) k =
    Z.testbit f k || ((k =? 8) && Z.testbit rf 8) || ((k =? 4) && Z.testbit rf 4).
Proof.
  intros Hk. unfold copied_flags, flagRD, flagCD. rewrite <- (testbit_pow2 rf 8), <- (testbit_pow2 rf 4) by lia.
  destruct (Z.testbit rf 8), (Z.testbit rf 4); rewrite ?Z.lor_spec, ?testbit_flag by lia;
    rewrite ?andb_true_r, ?andb_false_r, ?orb_false_r; done.
Qed.

Lemma testbit_response_flags (set clear : Z) rf rc k :
  0 <= k ->
  Z.testbit (Z.land (copied_flags rf (Z.lor (Z.lor set (Z.land rf opcodeMask)) (Z.land rc 0x0F))) (Z.lnot clear)) k =
  (Z.testbit set k || (Z.testbit rf k && (11 <=? k) && (k <? 15)) || (Z.testbit rc k && (k <? 4)) ||
   ((k =? 8) && Z.testbit rf 8) || ((k =? 4) && Z.testbit rf 4)) && negb (Z.testbit clear k).
Proof.
  intros Hk. rewrite Z.land_spec, testbit_lnot_mask, testbit_copied, !Z.lor_spec, !Z.land_spec, testbit_opcodeMask by lia.
  change 0x0F with (Z.ones 4). rewrite testbit_ones_range by lia. by rewrite (andb_assoc (Z.testbit rf k)).
Qed.

(** A value whose bits from 16 on are zero is a 16-bit value. *)
Lemma u16_bits f : 0 <= f -> (forall k, 16 <= k -> Z.testbit f k = false) -> u16 f.
Proof.
  intros Hf Hk. unfold u16. destruct (Z.eq_dec f 0) as [->|]; [lia|]. split; [lia|].
  destruct (Z.lt_ge_cases f 65536) as [|Hge]; [done|]. exfalso.
  assert (16 <= Z.log2 f) by (apply (Z.log2_le_mono 65536); lia). pose proof (Z.bit_log2 f ltac:(lia)) as Hb.
  by rewrite Hk in Hb by lia.
Qed.

Definition response_flags (aa : bool) (rf rc : Z) : Z :=
  if aa then buildAuthoritativeResponseFlags rf rc else buildResponseFlags rf rc.

Lemma response_flags_bits (aa : bool) rf rc k : 0 <= k ->
  Z.testbit (response_flags aa rf rc) k =
    (((k =? 15) || (k =? if aa then 10 else 7)) || (Z.testbit rf k && (11 <=? k) && (k <? 15)) || (Z.testbit rc k && (k <? 4)) ||
     ((k =? 8) && Z.testbit rf 8) || ((k =? 4) && Z.testbit rf 4)) && negb ((k =? if aa then 7 else 10) || (k =? 9)).
Proof.
  intros Hk. unfold response_flags, buildAuthoritativeResponseFlags, buildResponseFlags.
  destruct aa; rewrite testbit_response_flags by done; unfold flagQR, flagAA, flagTC, flagRA;
    by rewrite !Z.lor_spec, !testbit_flag by lia.
Qed.

Lemma response_flags_u16 (aa : bool) rf rc : 0 <= rf -> 0 <= rc -> u16 (response_flags aa rf rc).
Proof.
  intros Hrf Hrc. apply u16_bits.
  - unfold response_flags, buildAuthoritativeResponseFlags, buildResponseFlags, copied_flags.
    destruct aa; apply Z.land_nonneg; left; repeat case_if; repeat (apply Z.lor_nonneg; split); try done;
      apply Z.land_nonneg; auto.
  - intros k Hk. rewrite response_flags_bits by lia.
    rewrite (proj2 (Z.eqb_neq k 15)), (proj2 (Z.eqb_neq k 8)), (proj2 (Z.eqb_neq k 4)), (proj2 (Z.ltb_ge k 15)),
      (proj2 (Z.ltb_ge k 4)) by lia.
    rewrite (proj2 (Z.eqb_neq k (if aa then 10 else 7))) by (destruct aa; lia). by rewrite !andb_false_r.
Qed.

Lemma response_flags_opcode (aa : bool) rf rc :
  Z.land (Z.shiftr (response_flags aa rf rc) 11) 0xF = Z.land (Z.shiftr rf 11) 0xF.
Proof.
  apply Z.bits_inj'. intros k Hk. rewrite !Z.land_spec, !Z.shiftr_spec by lia. change 0xF with (Z.ones 4).
  rewrite testbit_ones_range by lia. destruct (Z.ltb_spec k 4); [|by rewrite !andb_false_r].
  rewrite !andb_true_r, response_flags_bits by lia.
  rewrite (proj2 (Z.eqb_neq (k + 11) 15)), (proj2 (Z.eqb_neq (k + 11) 8)), (proj2 (Z.eqb_neq (k + 11) 4)),
    (proj2 (Z.ltb_lt (k + 11) 15)), (proj2 (Z.leb_le 11 (k + 11))), (proj2 (Z.ltb_ge (k + 11) 4)), (proj2 (Z.eqb_neq (k + 11) 9)) by lia.
  rewrite (proj2 (Z.eqb_neq (k + 11) (if aa then 10 else 7))), (proj2 (Z.eqb_neq (k + 11) (if aa then 7 else 10))) by (destruct aa; lia).
  cbn [orb andb negb]. by rewrite !andb_true_r, !andb_false_r, !orb_false_r.
Qed.

Lemma response_flags_rcode (aa : bool) rf rc : Z.land (response_flags aa rf rc) 0xF = Z.land rc 0xF.
Proof.
  apply Z.bits_inj'. intros k Hk. rewrite !Z.land_spec. change 0xF with (Z.ones 4).
  rewrite testbit_ones_range by lia. destruct (Z.ltb_spec k 4); [|by rewrite !andb_false_r].
  rewrite !andb_true_r, response_flags_bits by lia.
  rewrite (proj2 (Z.eqb_neq k 15)), (proj2 (Z.eqb_neq k 8)), (proj2 (Z.eqb_neq k 4)), (proj2 (Z.leb_gt 11 k)),
    (proj2 (Z.ltb_lt k 4)), (proj2 (Z.eqb_neq k 9)) by lia.
  rewrite (proj2 (Z.eqb_neq k (if aa then 10 else 7))), (proj2 (Z.eqb_neq k (if aa then 7 else 10))) by (destruct aa; lia).
  cbn [orb andb negb]. by rewrite !andb_true_r, !andb_false_r, !orb_false_r.
Qed.

(** The single bits: an answer, authoritative or recursive, not truncated, with the
    recursion-desired bit of the request. *)
Lemma response_flags_single (aa : bool) rf rc :
  let f := response_flags aa rf rc in
  Z.land (Z.shiftr f 15) 1 = 1 /\ Z.land (Z.shiftr f 10) 1 = Z.b2z aa /\ Z.land (Z.shiftr f 9) 1 = 0 /\
  Z.land (Z.shiftr f 8) 1 = Z.land (Z.shiftr rf 8) 1 /\ Z.land (Z.shiftr f 7) 1 = Z.b2z (negb aa).
Proof.
  cbv zeta. rewrite !bit_field, !response_flags_bits by lia.
  destruct aa; simpl; rewrite !andb_false_r, ?andb_true_r, ?orb_false_r, ?orb_true_r; done.
Qed.

(** ** Routing and responses *)

Lemma parseName_extends data data' offset r : extends data data' -> bytes_ok data -> 12 <= offset ->
  parseName data offset = Ok r -> parseName data' offset = Ok r.
Proof.
  intros He Hb Ho. unfold parseName. intros ([[n h] b] & Hw & Hr)%obind_ok_inv.
  by rewrite (walkName_extends data data' He offset (Some []) (n, h, b)).
Qed.

Lemma parseQuestions_extends data data' : extends data data' -> bytes_ok data -> forall count offset r,
  12 <= offset -> parseQuestions data count offset = Ok r -> parseQuestions data' count offset = Ok r.
Proof.
  intros He Hb. induction count as [|count IH]; intros offset r Ho; [done|]. cbn [parseQuestions].
  intros ([s n] & Hn & Hr)%obind_ok_inv.
  assert (Hp : parseName data offset = Ok (s, n)) by (by destruct (parseName data offset) as [[]|e|]; simplify_eq/=).
  pose proof (proj2 (parseName_total data Hb offset ltac:(lia)) s n Hp) as Hrange.
  rewrite (parseName_extends data data' offset (s, n)) by done. cbn [map_err obind].
  destruct (len data <? n + 4) eqn:E; [done|]. zbool. rewrite (proj2 (Z.ltb_ge (len data') (n + 4))) by (destruct He; lia).
  apply obind_ok_inv in Hr as (t & Ht & Hr). apply obind_ok_inv in Hr as (c & Hc & Hr).
  rewrite (get16_extends data data' He n t), (get16_extends data data' He (n + 2) c) by (done || lia). cbn [obind].
  apply obind_ok_inv in Hr as ([qs m] & Hqs & Hr). by rewrite (IH (n + 4) (qs, m)) by (done || lia).
Qed.

Lemma parseResourceRecords_extends data data' : extends data data' -> bytes_ok data -> forall count offset r,
  12 <= offset -> parseResourceRecords data count offset = Ok r -> parseResourceRecords data' count offset = Ok r.
Proof.
  intros He Hb. induction count as [|count IH]; intros offset r Ho; [done|]. cbn [parseResourceRecords].
  intros ([s n] & Hn & Hr)%obind_ok_inv.
  assert (Hp : parseName data offset = Ok (s, n)) by (by destruct (parseName data offset) as [[]|e|]; simplify_eq/=).
  pose proof (proj2 (parseName_total data Hb offset ltac:(lia)) s n Hp) as Hrange.
  rewrite (parseName_extends data data' offset (s, n)) by done. cbn [map_err obind].
  destruct (len data <? n + 10) eqn:E; [done|]. zbool. rewrite (proj2 (Z.ltb_ge (len data') (n + 10))) by (destruct He; lia).
  apply obind_ok_inv in Hr as (t & Ht & Hr). apply obind_ok_inv in Hr as (c & Hc & Hr).
  apply obind_ok_inv in Hr as (ttl & Httl & Hr). apply obind_ok_inv in Hr as (rd & Hrd & Hr).
  unfold get32 in *. apply obind_ok_inv in Httl as (t1 & Ht1 & Httl). apply obind_ok_inv in Httl as (t2 & Ht2 & Httl).
  assert (Hu : u16 rd).
  { destruct (get16_ok (E:=Z * dns_error) data (n + 8) Hb) as (v & Hv & Hu); [lia..|]. congruence. }
  rewrite (get16_extends data data' He n t), (get16_extends data data' He (n + 2) c), (get16_extends data data' He (n + 4) t1),
    (get16_extends data data' He (n + 4 + 2) t2), (get16_extends data data' He (n + 8) rd) by (done || lia). cbn [obind].
  injection Httl as ->. destruct (len data <? n + 10 + rd) eqn:E2; [done|]. zbool.
  rewrite (proj2 (Z.ltb_ge (len data') (n + 10 + rd))) by (destruct He; lia).
  apply obind_ok_inv in Hr as (sl & Hsl & Hr). rewrite (slice_extends data data' He _ _ sl) by (done || lia). cbn [obind].
  apply obind_ok_inv in Hr as ([rs m] & Hrs & Hr). unfold u16 in Hu. by rewrite (IH (n + 10 + rd) (rs, m)) by (done || lia).
Qed.

Lemma extends_app data junk : extends data (data ++ junk).
Proof.
  split; [rewrite len_app; pose proof (len_nonneg junk); lia|]. intros i Hi. apply lookup_app_l. unfold len in Hi. lia.
Qed.

Lemma parseHeader_app {E} data junk : 12 <= len data -> parseHeader (E:=E) (data ++ junk) = parseHeader data.
Proof. intros Hl. unfold parseHeader. by rewrite !get16_head by lia. Qed.

(** The four sections of a message the datagram parser accepts, one after the other. *)
Lemma datagram_sections data lp : bytes_ok data -> ParseDNSDatagramLite data = Ok lp ->
  exists h n1 n2 n3 qs rs1 rs2 rs3, 12 <= len data /\ parseHeader (E:=dns_error) data = Ok h /\
    isLikelyDNSMessageHeader h = true /\
    parseQuestions data (Z.to_nat (hQDCount h)) 12 = Ok (qs, n1) /\ 12 <= n1 <= len data /\
    parseResourceRecords data (Z.to_nat (hANCount h)) n1 = Ok (rs1, n2) /\ 12 <= n2 <= len data /\
    parseResourceRecords data (Z.to_nat (hNSCount h)) n2 = Ok (rs2, n3) /\ 12 <= n3 <= len data /\
    parseResourceRecords data (Z.to_nat (hARCount h)) n3 = Ok (rs3, len data) /\
    parsePacketLiteWithHeader data h = Ok lp.
Proof.
  intros Hb. unfold ParseDNSDatagramLite, dnsHeaderSize. case_if; [done|]. zbool.
  intros (h & Hh & Hr)%obind_ok_inv. destruct (isLikelyDNSMessageHeader h) eqn:El; [|done]. cbn [negb] in Hr.
  assert (Hdata := Hb). rewrite skipQuestions_parse in Hr by (done || lia).
  destruct (parseQuestions_total data Hb (Z.to_nat (hQDCount h)) 12 ltac:(lia)) as [_ Hn1].
  destruct (parseQuestions data _ 12) as [[qs n1]|e|] eqn:E1; [|done..]. cbn [map_err obind] in Hr.
  destruct (Hn1 qs n1 eq_refl) as [Hr1 _]. rewrite skipResourceRecords_parse in Hr by (done || lia).
  destruct (parseResourceRecords_total data Hb (Z.to_nat (hANCount h)) n1 ltac:(lia)) as [_ Hn2].
  destruct (parseResourceRecords data _ n1) as [[rs1 n2]|e|] eqn:E2; [|done..]. cbn [map_err obind] in Hr.
  destruct (Hn2 rs1 n2 eq_refl) as [Hr2 _]. rewrite skipResourceRecords_parse in Hr by (done || lia).
  destruct (parseResourceRecords_total data Hb (Z.to_nat (hNSCount h)) n2 ltac:(lia)) as [_ Hn3].
  destruct (parseResourceRecords data _ n2) as [[rs2 n3]|e|] eqn:E3; [|done..]. cbn [map_err obind] in Hr.
  destruct (Hn3 rs2 n3 eq_refl) as [Hr3 _]. rewrite skipResourceRecords_parse in Hr by (done || lia).
  destruct (parseResourceRecords data _ n3) as [[rs3 n4]|e|] eqn:E4; [|done..]. cbn [map_err obind] in Hr.
  destruct (Z.eqb_spec n4 (len data)) as [->|]; [|done]. cbn [negb] in Hr.
  exists h, n1, n2, n3, qs, rs1, rs2, rs3. split_and!; done || lia.
Qed.

Lemma skip_ok_of_parse data count offset qs n : bytes_ok data -> 0 <= offset <= len data ->
  parseQuestions data count offset = Ok (qs, n) -> skipQuestions data count offset = Ok n.
Proof.
  intros Hb Ho Hp. pose proof (skipQuestions_parse data Hb count offset Ho) as H. rewrite Hp in H. simpl in H.
  by destruct (skipQuestions data count offset); simplify_eq/=.
Qed.

(** The datagram parser on the same message with trailing bytes. *)
Lemma datagram_trailing data lp x junk : bytes_ok data -> bytes_ok (x :: junk) -> ParseDNSDatagramLite data = Ok lp ->
  ParseDNSDatagramLite (data ++ x :: junk) = Err ErrNotDNSMessage.
Proof.
  intros Hb Hj Hp. destruct (datagram_sections data lp Hb Hp) as
    (h & n1 & n2 & n3 & qs & rs1 & rs2 & rs3 & Hl & Hh & Hlk & H1 & R1 & H2 & R2 & H3 & R3 & H4 & _).
  set (d := data ++ x :: junk). assert (Hbd : bytes_ok d) by (apply bytes_ok_app; auto).
  assert (Hld : len d = len data + 1 + len junk) by (unfold d; rewrite len_app, len_cons; lia).
  pose proof (len_nonneg junk). assert (He : extends data d) by apply extends_app.
  unfold ParseDNSDatagramLite, dnsHeaderSize. rewrite (proj2 (Z.ltb_ge (len d) 12)) by lia.
  unfold d at 1. rewrite parseHeader_app, Hh by done. cbn [obind]. rewrite Hlk. cbn [negb].
  rewrite skipQuestions_parse, (parseQuestions_extends data d He Hb _ 12 _ ltac:(lia) H1) by (done || lia). cbn [map_err obind].
  rewrite skipResourceRecords_parse, (parseResourceRecords_extends data d He Hb _ n1 _ ltac:(lia) H2) by (done || lia).
  cbn [map_err obind].
  rewrite skipResourceRecords_parse, (parseResourceRecords_extends data d He Hb _ n2 _ ltac:(lia) H3) by (done || lia).
  cbn [map_err obind].
  rewrite skipResourceRecords_parse, (parseResourceRecords_extends data d He Hb _ n3 _ ltac:(lia) H4) by (done || lia).
  cbn [map_err obind]. by rewrite (proj2 (Z.eqb_neq (len data) (len d))) by lia.
Qed.

Lemma lite_fields data h lp : parsePacketLiteWithHeader data h = Ok lp -> hQDCount h <> 0 ->
  exists qs n, parseQuestions data (Z.to_nat (hQDCount h)) 12 = Ok (qs, n) /\ lp = mkLite h qs (hd no_question qs) (0 <? len qs) n.
Proof.
  unfold parsePacketLiteWithHeader, dnsHeaderSize. intros Hp Hq. rewrite (proj2 (Z.eqb_neq _ _)) in Hp by done.
  destruct (parseQuestions data _ 12) as [[qs n]|e|]; [|done..]. cbn [map_err obind] in Hp. exists qs, n. split; [done|].
  destruct (0 <? len qs) eqn:E; cbn [obind] in Hp; destruct qs as [|q qs]; by simplify_eq/=.
Qed.

Lemma response_ok aa request h parsed rc :
  bytes_ok request -> 12 <= len request -> parseHeader (E:=dns_error) request = Ok h -> isLikelyDNSRequestHeader h = true ->
  parsePacketLiteWithHeader request h = Ok parsed -> 0 <= rc ->
  exists q opt, slice (E:=dns_error) request 12 (QuestionEndOffset parsed) = Ok q /\ 12 + len q = QuestionEndOffset parsed /\
    bytes_ok opt /\
    buildResponseWithFlagsLite request parsed (response_flags aa (hFlags h) rc) =
      Ok (message_header (hID h) (response_flags aa (hFlags h) rc) (hQDCount h) 0 0 (getARCount (len opt)) ++ q ++ opt).
Proof.
  intros Hb Hl Hh Hlk Hp Hrc. assert (Hq0 : hQDCount h <> 0).
  { unfold isLikelyDNSRequestHeader in Hlk. case_if; [done|]. by zbool. }
  destruct (lite_fields _ _ _ Hp Hq0) as (qs & n & Hqs & ->). cbn [QuestionEndOffset lHeader].
  destruct (proj2 (parseQuestions_total request Hb _ 12 ltac:(lia)) qs n Hqs) as [Hr _].
  destruct (findOPTRecordRange_total request Hb (E:=dns_error) h n) as (s & l & Hopt & Hbnd).
  set (q := take (Z.to_nat (n - 12)) (drop (Z.to_nat 12) request)).
  assert (Hlq : len q = n - 12) by (unfold q, len in *; rewrite length_take, length_drop; lia).
  set (opt := if 0 <? l then take (Z.to_nat l) (drop (Z.to_nat s) request) else []).
  assert (Hlo : len opt = l).
  { unfold opt. case_if; zbool; [|rewrite len_nil; lia]. unfold len in *. rewrite length_take, length_drop. lia. }
  assert (Hsq : slice (E:=dns_error) request 12 n = Ok q) by (by rewrite slice_ok by lia).
  exists q, opt. split; [done|]. split; [lia|]. split.
  { unfold opt. case_if; [|constructor]. by apply Forall_take, Forall_drop. }
  unfold buildResponseWithFlagsLite, dnsHeaderSize. cbn [lHeader QuestionEndOffset].
  rewrite (proj2 (Z.ltb_ge (len request) 12)), Hlk, Hopt by done. cbn [negb obind].
  rewrite (proj2 (Z.leb_le 12 n)), (proj2 (Z.leb_le n (len request))) by lia. cbn [andb].
  rewrite <- Hlq, <- Hlo. replace n with (12 + len q) at 1 by lia.
  apply write_response_spec; [by replace (12 + len q) with n by lia|].
  destruct (Z_lt_le_dec 0 l); [left|right; by unfold opt; rewrite (proj2 (Z.ltb_ge 0 l))].
  rewrite Hlo, slice_ok by lia. unfold opt. rewrite (proj2 (Z.ltb_lt 0 l)) by lia. do 2 f_equal. lia.
Qed.

Lemma response_builders_agree request h parsed rc :
  bytes_ok request -> 12 <= len request -> parseHeader (E:=dns_error) request = Ok h -> isLikelyDNSRequestHeader h = true ->
  parsePacketLiteWithHeader request h = Ok parsed ->
  buildResponseWithRCode request rc = buildResponseWithRCodeLite request parsed rc.
Proof.
  intros Hb Hl Hh Hlk Hp. assert (Hq0 : hQDCount h <> 0).
  { unfold isLikelyDNSRequestHeader in Hlk. case_if; [done|]. by zbool. }
  destruct (lite_fields _ _ _ Hp Hq0) as (qs & n & Hqs & ->).
  destruct (proj2 (parseQuestions_total request Hb _ 12 ltac:(lia)) qs n Hqs) as [Hr _].
  unfold buildResponseWithRCode, buildResponseWithRCodeLite, buildResponseWithFlagsLite, dnsHeaderSize. cbn [lHeader QuestionEndOffset].
  rewrite (proj2 (Z.ltb_ge (len request) 12)), Hh by done. cbn [obind]. rewrite Hlk. cbn [negb].
  rewrite (skip_ok_of_parse request _ 12 qs n) by (done || lia). cbn [obind andb].
  rewrite (proj2 (Z.leb_le 12 n)), (proj2 (Z.leb_le n (len request))) by lia. cbn [andb].
  by destruct (findOPTRecordRange request h n) as [[s l]|e|].
Qed.

(** The request cut after its question section extends to the response. *)
Lemma extends_cut request n hdr q opt :
  12 <= n <= len request -> slice (E:=dns_error) request 12 n = Ok q -> len hdr = 12 ->
  extends (take (Z.to_nat n) request) (hdr ++ q ++ opt).
Proof.
  intros Hn. rewrite slice_ok by lia. intros [= <-] Hh.
  set (q := take (Z.to_nat (n - 12)) (drop (Z.to_nat 12) request)).
  assert (Hq : len q = n - 12) by (unfold q, len in *; rewrite length_take, length_drop; lia).
  assert (Hc : len (take (Z.to_nat n) request) = n) by (unfold len in *; rewrite length_take; lia).
  split; [rewrite !len_app; pose proof (len_nonneg opt); lia|]. intros i Hi. rewrite Hc in Hi. unfold len in *.
  rewrite lookup_take_lt, lookup_app_r, lookup_app_l by lia. unfold q. rewrite lookup_take_lt, lookup_drop by lia. f_equal. lia.
Qed.

Lemma parsers_total data : bytes_ok data ->
  is_panic (ParsePacket data) = false /\ is_panic (ParsePacketLite data) = false /\
  is_panic (ParseDNSRequestLite data) = false /\ is_panic (ParseDNSDatagramLite data) = false.
Proof.
  intros Hb. unfold ParsePacket, ParsePacketLite, ParseDNSRequestLite, ParseDNSDatagramLite, dnsHeaderSize.
  destruct (Z.ltb_spec (len data) 12); [done|]. destruct (parseHeader_ok data Hb (E:=dns_error)) as (h & Hh & _ & _ & Hqd & _); [lia|].
  rewrite Hh. cbn [obind]. assert (Hlite : is_panic (parsePacketLiteWithHeader data h) = false).
  { apply parseLiteWithHeader_total; [done|lia|unfold u16 in Hqd; lia]. }
  split_and!; [|done|by case_if|].
  - destruct (parseQuestions_total data Hb (Z.to_nat (hQDCount h)) 12 ltac:(lia)) as [Hp Hn].
    destruct (parseQuestions _ _ _) as [[qs n]|e|]; [|done..]. cbn [map_err obind]. destruct (Hn qs n eq_refl) as [? _].
    destruct (parseResourceRecords_total data Hb (Z.to_nat (hANCount h)) n ltac:(lia)) as [Hp1 Hn1].
    destruct (parseResourceRecords _ _ n) as [[r1 n1]|e|]; [|done..]. cbn [map_err obind]. destruct (Hn1 r1 n1 eq_refl) as [? _].
    destruct (parseResourceRecords_total data Hb (Z.to_nat (hNSCount h)) n1 ltac:(lia)) as [Hp2 Hn2].
    destruct (parseResourceRecords _ _ n1) as [[r2 n2]|e|]; [|done..]. cbn [map_err obind]. destruct (Hn2 r2 n2 eq_refl) as [? _].
    destruct (parseResourceRecords_total data Hb (Z.to_nat (hARCount h)) n2 ltac:(lia)) as [Hp3 _].
    by destruct (parseResourceRecords _ _ n2) as [[r3 n3]|e|].
  - case_if; [done|]. destruct (skipQuestions_total data Hb (Z.to_nat (hQDCount h)) 12 ltac:(lia)) as [Hp Hn].
    destruct (skipQuestions _ _ _) as [n|e|]; [|done..]. cbn [map_err obind]. specialize (Hn n eq_refl).
    destruct (skipResourceRecords_total data Hb (Z.to_nat (hANCount h)) n ltac:(lia)) as [Hp1 Hn1].
    destruct (skipResourceRecords _ _ n) as [n1|e|]; [|done..]. cbn [map_err obind]. specialize (Hn1 n1 eq_refl).
    destruct (skipResourceRecords_total data Hb (Z.to_nat (hNSCount h)) n1 ltac:(lia)) as [Hp2 Hn2].
    destruct (skipResourceRecords _ _ n1) as [n2|e|]; [|done..]. cbn [map_err obind]. specialize (Hn2 n2 eq_refl).
    destruct (skipResourceRecords_total data Hb (Z.to_nat (hARCount h)) n2 ltac:(lia)) as [Hp3 _].
    destruct (skipResourceRecords _ _ n2) as [n3|e|]; [|done..]. cbn [map_err obind]. by case_if.
Qed.

Lemma opt_slice (request : bytes) s l : l = 0 \/ 12 <= s /\ 0 < l /\ s + l <= len request ->
  exists opt, len opt = l /\ (slice (E:=dns_error) request s (s + len opt) = Ok opt \/ opt = []).
Proof.
  intros [->|(Hs & Hl & Hb)]; [exists []; auto|]. exists (take (Z.to_nat l) (drop (Z.to_nat s) request)).
  assert (Hlen : len (take (Z.to_nat l) (drop (Z.to_nat s) request)) = l) by (unfold len in *; rewrite length_take, length_drop; lia).
  split; [done|]. left. rewrite Hlen, slice_ok by lia. do 2 f_equal. lia.
Qed.

Lemma buildResponseWithRCode_total request rcode : bytes_ok request -> is_panic (buildResponseWithRCode request rcode) = false.
Proof.
  intros Hb. unfold buildResponseWithRCode, dnsHeaderSize. case_if; [done|]. zbool.
  destruct (parseHeader_ok request Hb (E:=dns_error)) as (h & -> & _); [lia|]. cbn [obind]. case_if; [done|].
  destruct (skipQuestions_total request Hb (Z.to_nat (hQDCount h)) 12 ltac:(lia)) as [Hp Hn].
  destruct (skipQuestions _ _ _) as [n|[n e]|] eqn:Es; [|cbn [obind andb]|done].
  - specialize (Hn n eq_refl). cbn [obind andb]. rewrite (proj2 (Z.leb_le 12 n)), (proj2 (Z.leb_le n (len request))) by lia. cbn [andb].
    destruct (findOPTRecordRange_total request Hb (E:=dns_error) h n) as (s & l & -> & Hl). cbn [obind].
    destruct (opt_slice request s l Hl) as (opt & <- & Ho).
    set (q := take (Z.to_nat (n - 12)) (drop (Z.to_nat 12) request)).
    assert (Hlq : len q = n - 12) by (unfold q, len in *; rewrite length_take, length_drop; lia).
    rewrite <- Hlq. replace n with (12 + len q) by lia. rewrite write_response_spec; [done| |done].
    replace (12 + len q) with n by lia. by rewrite slice_ok by lia.
  - destruct (findOPTRecordRange_total request Hb (E:=dns_error) h n) as (s & l & -> & Hl). cbn [obind].
    destruct (opt_slice request s l Hl) as (opt & <- & Ho).
    assert (Hw : write_response request (hID h) (buildResponseFlags (hFlags h) rcode) 0 0 n s (len opt) =
      write_response request (hID h) (buildResponseFlags (hFlags h) rcode) 0 (len (@nil Z)) (12 + len (@nil Z)) s (len opt)) by reflexivity.
    rewrite Hw, write_response_spec; [done| |done]. change (12 + len (@nil Z)) with 12. by rewrite slice_ok by lia.
Qed.

(** ** Theorems *)

(** A routing boundary.  When [ParseDNSDatagramLite] accepts a datagram, the full
    parser accepts it too, with the same header and questions and with as many records
    in each section as the header declares; and the same datagram followed by any
    further bytes is rejected. *)
Theorem datagram_boundary (data : bytes) (lp : LitePacket) :
  bytes_ok data -> ParseDNSDatagramLite data = Ok lp ->
  (exists p, ParsePacket data = Ok p /\ pHeader p = lHeader lp /\ Questions p = lQuestions lp /\
     len (Questions p) = hQDCount (pHeader p) /\ len (Answers p) = hANCount (pHeader p) /\
     len (Authorities p) = hNSCount (pHeader p) /\ len (Additional p) = hARCount (pHeader p)) /\
  forall x junk, bytes_ok (x :: junk) -> ParseDNSDatagramLite (data ++ x :: junk) = Err ErrNotDNSMessage.
Proof.
  intros Hb Hp. split; [|intros x junk Hj; by eapply datagram_trailing].
  destruct (datagram_sections data lp Hb Hp) as
    (h & n1 & n2 & n3 & qs & rs1 & rs2 & rs3 & Hl & Hh & Hlk & H1 & R1 & H2 & R2 & H3 & R3 & H4 & Hlite).
  destruct (parseHeader_ok data Hb (E:=dns_error) Hl) as (h' & Hh' & _ & _ & U1 & U2 & U3 & U4).
  assert (h' = h) as -> by congruence. exists (mkDnsPacket h qs rs1 rs2 rs3).
  unfold ParsePacket, dnsHeaderSize. rewrite (proj2 (Z.ltb_ge (len data) 12)), Hh by done. cbn [obind].
  rewrite H1. cbn [map_err obind]. rewrite H2. cbn [map_err obind]. rewrite H3. cbn [map_err obind]. rewrite H4. cbn [map_err obind].
  assert (Hlp : lHeader lp = h /\ lQuestions lp = qs).
  { destruct (Z.eq_dec (hQDCount h) 0) as [E|E].
    - unfold parsePacketLiteWithHeader in Hlite. rewrite E in Hlite, H1. simpl in Hlite. injection Hlite as <-. by injection H1 as <- _.
    - destruct (lite_fields _ _ _ Hlite E) as (qs' & n' & Hq & ->). simpl. split; [done|]. congruence. }
  destruct Hlp as [-> ->]. cbn [pHeader Questions Answers Authorities Additional].
  pose proof (proj2 (proj2 (parseQuestions_total data Hb _ 12 ltac:(lia)) qs n1 H1)).
  pose proof (proj2 (proj2 (parseResourceRecords_total data Hb _ n1 ltac:(lia)) rs1 n2 H2)).
  pose proof (proj2 (proj2 (parseResourceRecords_total data Hb _ n2 ltac:(lia)) rs2 n3 H3)).
  pose proof (proj2 (proj2 (parseResourceRecords_total data Hb _ n3 ltac:(lia)) rs3 _ H4)).
  unfold len, u16 in *. split_and!; done || lia.
Qed.

(** A query for a.b with an OPT record. *)
Definition sample_query : bytes :=
  message_header 7 256 1 0 0 1 ++ [1; 65; 1; 98; 0; 0; 16; 0; 1] ++ [0; 0; 41; 16; 0; 0; 0; 0; 0; 0; 0].

Lemma sample_query_ok : bytes_ok sample_query.
Proof. repeat constructor; vm_compute; congruence. Qed.

Lemma datagram_boundary_witness :
  (exists p, ParsePacket sample_query = Ok p /\ Questions p = [mkQuestion [97; 46; 98] 16 1]) /\
  ParseDNSDatagramLite (sample_query ++ [0]) = Err ErrNotDNSMessage.
Proof.
  assert (H : exists lp, ParseDNSDatagramLite sample_query = Ok lp /\ lQuestions lp = [mkQuestion [97; 46; 98] 16 1])
    by (eexists; split; vm_compute; reflexivity).
  destruct H as (lp & Hlp & Hq). destruct (datagram_boundary sample_query lp sample_query_ok Hlp) as [(p & Hp & _ & Hqs & _) Hr].
  split; [exists p; split; [exact Hp|congruence]|]. apply Hr. repeat constructor; vm_compute; congruence.
Defined.

Lemma request_cases request parsed : bytes_ok request -> ParseDNSRequestLite request = Ok parsed ->
  12 <= len request /\ exists h qs n, parseHeader (E:=dns_error) request = Ok h /\ isLikelyDNSRequestHeader h = true /\
    parsePacketLiteWithHeader request h = Ok parsed /\ parseQuestions request (Z.to_nat (hQDCount h)) 12 = Ok (qs, n) /\
    parsed = mkLite h qs (hd no_question qs) true n /\ 12 <= n <= len request /\ len qs = hQDCount h /\
    u16 (hID h) /\ u16 (hFlags h) /\ u16 (hQDCount h) /\ hQDCount h <> 0.
Proof.
  intros Hb. unfold ParseDNSRequestLite, dnsHeaderSize. case_if; [done|]. zbool.
  destruct (parseHeader_ok request Hb (E:=dns_error)) as (h & Hh & U1 & U2 & U3 & _); [lia|]. rewrite Hh. cbn [obind].
  destruct (isLikelyDNSRequestHeader h) eqn:Hlk; [|done]. cbn [negb]. intros Hp. split; [lia|].
  assert (Hq0 : hQDCount h <> 0) by (unfold isLikelyDNSRequestHeader in Hlk; case_if; [done|]; by zbool).
  destruct (lite_fields _ _ _ Hp Hq0) as (qs & n & Hqs & ->).
  destruct (proj2 (parseQuestions_total request Hb _ 12 ltac:(lia)) qs n Hqs) as [Hr Hlen].
  assert (Hl : len qs = hQDCount h) by (unfold len, u16 in *; lia).
  exists h, qs, n. rewrite (proj2 (Z.ltb_lt 0 (len qs))) in * by (unfold u16 in *; lia). split_and!; done || lia.
Qed.

(** A response answers its request.  For a request that [ParseDNSRequestLite] accepts
    and whose names do not run past its question section, every short response (no
    data, refused, name error, server failure, ...) is built, with the parsed request at
    hand or without, and is parsed by the other side as a response with the identifier,
    the operation and the questions of the request, the given response code, no records,
    not truncated, and authoritative only for a name error. *)
Theorem response_mirrors_request (request : bytes) (parsed : LitePacket) (aa : bool) (rcode : Z) :
  bytes_ok request -> ParseDNSRequestLite request = Ok parsed ->
  ParseDNSRequestLite (take (Z.to_nat (QuestionEndOffset parsed)) request) = Ok parsed -> 0 <= rcode ->
  exists response h,
    (if aa then buildAuthoritativeResponseWithRCodeLite else buildResponseWithRCodeLite) request parsed rcode = Ok response /\
    (aa = false -> buildResponseWithRCode request rcode = Ok response) /\
    ParsePacketLite response =
      Ok (mkLite h (lQuestions parsed) (FirstQuestion parsed) true (QuestionEndOffset parsed)) /\
    hID h = hID (lHeader parsed) /\ hQR h = 1 /\ hOpCode h = hOpCode (lHeader parsed) /\ hAA h = Z.b2z aa /\ hTC h = 0 /\
    hRD h = hRD (lHeader parsed) /\ hRCode h = Z.land rcode 0xF /\ hQDCount h = hQDCount (lHeader parsed) /\
    hANCount h = 0 /\ hNSCount h = 0.
Proof.
  intros Hb Hp Hcut Hrc. destruct (request_cases request parsed Hb Hp) as
    (Hl & h & qs & n & Hh & Hlk & Hlite & Hqs & -> & Hn & Hlq & U1 & U2 & U3 & Hq0). cbn [QuestionEndOffset lHeader lQuestions FirstQuestion] in *.
  destruct (response_ok aa request h _ rcode Hb Hl Hh Hlk Hlite Hrc) as (q & opt & Hq & Hqn & Hbo & Hresp).
  cbn [QuestionEndOffset] in *. set (f := response_flags aa (hFlags h) rcode) in *.
  assert (Uf : u16 f) by (apply response_flags_u16; unfold u16 in U2; lia).
  exists (message_header (hID h) f (hQDCount h) 0 0 (getARCount (len opt)) ++ q ++ opt),
    (header_of (hID h) f (hQDCount h) 0 0 (getARCount (len opt))).
  assert (Hhdr : hOpCode h = Z.land (Z.shiftr (hFlags h) 11) 0xF /\ hRD h = Z.land (Z.shiftr (hFlags h) 8) 1).
  { unfold parseHeader in Hh. repeat (apply obind_ok_inv in Hh as (? & _ & Hh)). injection Hh as <-. done. }
  destruct (response_flags_single aa (hFlags h) rcode) as (F15 & F10 & F9 & F8 & _).
  pose proof (response_flags_opcode aa (hFlags h) rcode) as Fop. pose proof (response_flags_rcode aa (hFlags h) rcode) as Frc.
  split; [|split; [|split]].
  - destruct aa; exact Hresp.
  - intros ->. rewrite (response_builders_agree request h _ rcode Hb Hl Hh Hlk Hlite). exact Hresp.
  - assert (Hbt : bytes_ok (take (Z.to_nat n) request)) by (by apply Forall_take).
    destruct (request_cases _ _ Hbt Hcut) as (_ & h' & qs' & n' & _ & _ & _ & Hqs' & Heq & _).
    assert (h' = h /\ qs' = qs /\ n' = n) as (-> & -> & ->) by (by inversion Heq).
    assert (He := extends_cut request n (message_header (hID h) f (hQDCount h) 0 0 (getARCount (len opt))) q opt Hn Hq eq_refl).
    set (resp := message_header _ _ _ _ _ _ ++ q ++ opt) in *.
    assert (Hlr : 12 <= len resp) by (unfold resp; rewrite len_app; pose proof (len_nonneg (q ++ opt)); change (len _) with 12 at 1; lia).
    unfold ParsePacketLite, dnsHeaderSize. rewrite (proj2 (Z.ltb_ge (len resp) 12)) by lia.
    unfold resp at 1. rewrite parseHeader_message by (done || unfold getARCount; by case_if). cbn [obind].
    unfold parsePacketLiteWithHeader, header_of. cbn [hQDCount]. rewrite (proj2 (Z.eqb_neq _ 0)) by done.
    unfold dnsHeaderSize. rewrite (parseQuestions_extends _ resp He Hbt _ 12 (qs, n) ltac:(lia) Hqs'). cbn [map_err obind].
    rewrite (proj2 (Z.ltb_lt 0 (len qs))) by (unfold u16 in *; lia). by destruct qs.
  - unfold header_of. simpl. destruct Hhdr as [-> ->]. split_and!; done.
Qed.

Lemma response_mirrors_request_witness :
  exists response lp, buildResponseWithRCode sample_query DNSR_CODE_REFUSED = Ok response /\
    ParsePacketLite response = Ok lp /\ lQuestions lp = [mkQuestion [97; 46; 98] 16 1] /\ hRCode (lHeader lp) = DNSR_CODE_REFUSED.
Proof.
  assert (H : exists lp, ParseDNSRequestLite sample_query = Ok lp /\ lQuestions lp = [mkQuestion [97; 46; 98] 16 1] /\
    ParseDNSRequestLite (take (Z.to_nat (QuestionEndOffset lp)) sample_query) = Ok lp)
    by (eexists; split; [vm_compute; reflexivity|split; vm_compute; reflexivity]).
  destruct H as (lp & Hlp & Hq & Hcut).
  destruct (response_mirrors_request sample_query lp false DNSR_CODE_REFUSED sample_query_ok Hlp Hcut) as
    (resp & h & _ & Hb & Hp & _ & _ & _ & _ & _ & _ & Hr & _); [vm_compute; congruence|].
  exists resp, (mkLite h (lQuestions lp) (FirstQuestion lp) true (QuestionEndOffset lp)).
  split; [exact (Hb eq_refl)|]. split; [exact Hp|]. split; [exact Hq|exact Hr].
Defined.
