(* ===== verification/DnsTransport.v ===== *)
(** * The tunnel's packets in DNS messages (masterdns dnsparser: transport.go)

    A client packet becomes the labels of a query name under the tunnel domain, a server
    packet the TXT records of the answer: one record when the frame fits, else numbered
    chunks of which the first carries the packet header and their number.

    Strings are byte strings.  [strings.TrimSpace], [strings.ToLower] and
    [strings.EqualFold] are modelled on ASCII; theorems about names assume ASCII names.
    The identifier of a query comes from a counter that is explicit here; its random
    seed is the initial value. *)

From stdpp Require Import base tactics list.
From Stdlib Require Import ZArith Lia.
From S2P Require Import Prelude Enums BaseCodec Base64 Compression Security VpnProto DnsParser.

Inductive transport_error :=
| DnsError (e : dns_error) | VpnError (e : vpn_error) | Base64Error (e : base64_error)
| ErrTXTAnswerMissing | ErrTXTAnswerMalformed | ErrTXTAnswerTooLarge.

Definition maxDNSNameLen : Z := 253.
Definition maxDNSLabelLen : Z := 63.
Definition maxTXTAnswerPayload : Z := 255.
Definition maxTXTEncodedChunk : Z := 191.

(** ** Strings *)

Definition is_space (c : Z) : bool := ((9 <=? c) && (c <=? 13)) || (c =? 32).

Fixpoint trim_left (s : bytes) : bytes :=
  match s with
  | c :: s' => if is_space c then trim_left s' else s
  | [] => []
  end.

Definition TrimSpace (s : bytes) : bytes := reverse (trim_left (reverse (trim_left s))).
Definition ToLower (s : bytes) : bytes := map lower_byte s.

(** [strings.TrimSuffix(s, ".")] *)
Definition trim_dot (s : bytes) : bytes :=
  match reverse s with
  | c :: r => if c =? 46 then reverse r else s
  | [] => s
  end.

Definition EqualFold (a b : bytes) : bool := bool_decide (ToLower a = ToLower b).

Definition sameDNSName (a b : bytes) : bool := EqualFold (trim_dot a) (trim_dot b).

(** [offset += copy(packet[offset:], src)] *)
Definition copy_adv {E} (l : bytes) (off : Z) (src : bytes) : outcome E (bytes * Z) :=
  let! l' := copy_at l off src in Ok (l', off + Z.min (len l - off) (len src)).

Definition put32 {E} (l : bytes) (a v : Z) : outcome E bytes :=
  let! l := put l a (wrap8 (Z.shiftr v 24)) in
  let! l := put l (a + 1) (wrap8 (Z.shiftr v 16)) in
  let! l := put l (a + 2) (wrap8 (Z.shiftr v 8)) in
  put l (a + 3) (wrap8 v).

(** ** Names *)

(** The loop of [encodeDNSNameStrict] over the positions 0 to len(name). *)
Fixpoint encodeDNSName_loop (fuel : nat) (name : bytes) (i labelStart writeOffset : Z) (encoded : bytes) :
    outcome dns_error (bytes * Z) :=
  match fuel with
  | O => Ok (encoded, writeOffset)
  | S fuel =>
      if len name <? i then Ok (encoded, writeOffset)
      else
        let! inside := if i <? len name then let! c := at_ name i in Ok (negb (c =? 46)) else Ok false in
        if (inside : bool) then encodeDNSName_loop fuel name (i + 1) labelStart writeOffset encoded
        else
          let labelLen := i - labelStart in
          if (labelLen =? 0) || (maxDNSLabelLen <? labelLen) then Err ErrInvalidName
          else
            let! encoded := put encoded writeOffset (wrap8 labelLen) in
            let! label := slice name labelStart i in
            let! (encoded, writeOffset) := copy_adv encoded (writeOffset + 1) label in
            encodeDNSName_loop fuel name (i + 1) (i + 1) writeOffset encoded
  end.

Definition encodeDNSNameStrict (name : bytes) : outcome dns_error bytes :=
  let name := trim_dot (TrimSpace name) in
  if bool_decide (name = []) then Ok [0]
  else if maxDNSNameLen <? len name then Err ErrInvalidName
  else
    let! (encoded, writeOffset) := encodeDNSName_loop (length name + 2) name 0 0 0 (make_bytes (len name + 2)) in
    let! encoded := put encoded writeOffset 0 in
    slice encoded 0 (writeOffset + 1).

Definition encodedQNameLen (encodedChars domainLen : Z) : Z :=
  if encodedChars <=? 0 then domainLen
  else encodedChars + Z.quot (encodedChars - 1) maxDNSLabelLen + 1 + domainLen.

(** The binary search of [CalculateMaxEncodedQNameChars]. *)
Fixpoint qname_search (fuel : nat) (domainLen low high best : Z) : Z :=
  match fuel with
  | O => best
  | S fuel =>
      if low <=? high then
        let mid := Z.quot (low + high) 2 in
        if encodedQNameLen mid domainLen <=? maxDNSNameLen then qname_search fuel domainLen (mid + 1) high mid
        else qname_search fuel domainLen low (mid - 1) best
      else best
  end.

Definition CalculateMaxEncodedQNameChars (domain : bytes) : Z :=
  let domainLen := len (trim_dot (TrimSpace domain)) in
  if domainLen <=? 0 then maxDNSNameLen else qname_search 254 domainLen 0 maxDNSNameLen 0.

(** The pieces of 63 bytes, and [EncodeDataToLabels]. *)
Fixpoint chunks_of (fuel : nat) (n : Z) (data : bytes) : list bytes :=
  match fuel with
  | O => []
  | S fuel => if len data <=? 0 then [] else take (Z.to_nat n) data :: chunks_of fuel n (drop (Z.to_nat n) data)
  end.

Definition EncodeDataToLabels (data : bytes) : bytes :=
  if len data <=? maxDNSLabelLen then data else dotted (chunks_of (length data) maxDNSLabelLen data).

Definition BuildTunnelQuestionName (domain encodedFrame : bytes) : outcome dns_error bytes :=
  let domain := trim_dot (ToLower (TrimSpace domain)) in
  if bool_decide (domain = []) then Err ErrInvalidName
  else if bool_decide (encodedFrame = []) then Ok domain
  else
    let name := EncodeDataToLabels encodedFrame ++ 46 :: domain in
    if maxDNSNameLen <? len name then Err ErrInvalidName else Ok name.

Definition PrepareTunnelDomainQname (domain : bytes) : outcome dns_error (bytes * bytes) :=
  let normalizedDomain := trim_dot (ToLower (TrimSpace domain)) in
  if bool_decide (normalizedDomain = []) then Err ErrInvalidName
  else let! domainQname := encodeDNSNameStrict normalizedDomain in Ok (normalizedDomain, domainQname).

(** ** Queries *)

(** [dnsIDCounter.Add(1)]: the identifier and the new counter. *)
Definition nextDNSRequestID (counter : Z) : Z * Z := (wrap16 (wrap32 (counter + 1)), wrap32 (counter + 1)).

Definition opt_len (ednsUDPSize : Z) : Z := if 0 <? ednsUDPSize then 11 else 0.

(** The header of a query. *)
Definition write_query_header (packet : bytes) (requestID ednsUDPSize : Z) : outcome dns_error bytes :=
  let! packet := put16 packet 0 requestID in
  let! packet := put16 packet 2 0x0100 in
  let! packet := put16 packet 4 1 in
  put16 packet 10 (if 0 <? ednsUDPSize then 1 else 0).

(** Type, class and OPT record after the name. *)
Definition write_query_tail (packet : bytes) (offset qType ednsUDPSize : Z) : outcome dns_error bytes :=
  let! packet := put16 packet offset qType in
  let! packet := put16 packet (offset + 2) DNSQ_CLASS_IN in
  let offset := offset + 4 in
  if 0 <? ednsUDPSize then
    let! packet := put packet offset 0x00 in
    let offset := offset + 1 in
    let! packet := put16 packet offset DNS_RECORD_TYPE_OPT in
    let offset := offset + 2 in
    let! packet := put16 packet offset ednsUDPSize in
    let offset := offset + 2 + 4 in
    put16 packet offset 0
  else Ok packet.

Definition buildTXTQuestionPacketPrepared (qname : bytes) (qType ednsUDPSize counter : Z) : outcome dns_error (bytes * Z) :=
  let '(requestID, counter) := nextDNSRequestID counter in
  let packet := make_bytes (dnsHeaderSize + len qname + 4 + opt_len ednsUDPSize) in
  let! packet := write_query_header packet requestID ednsUDPSize in
  let! (packet, offset) := copy_adv packet dnsHeaderSize qname in
  let! packet := write_query_tail packet offset qType ednsUDPSize in
  Ok (packet, counter).

Definition BuildTXTQuestionPacket (name : bytes) (qType ednsUDPSize counter : Z) : outcome dns_error (bytes * Z) :=
  let! qname := encodeDNSNameStrict name in
  buildTXTQuestionPacketPrepared qname qType ednsUDPSize counter.

(** The loop that writes the frame as labels. *)
Fixpoint write_labels (fuel : nat) (packet : bytes) (offset start : Z) (frame : bytes) : outcome dns_error (bytes * Z) :=
  match fuel with
  | O => Ok (packet, offset)
  | S fuel =>
      if start <? len frame then
        let end_ := if len frame <? start + maxDNSLabelLen then len frame else start + maxDNSLabelLen in
        let! packet := put packet offset (wrap8 (end_ - start)) in
        let! label := slice frame start end_ in
        let! (packet, offset) := copy_adv packet (offset + 1) label in
        write_labels fuel packet offset (start + maxDNSLabelLen) frame
      else Ok (packet, offset)
  end.

Definition BuildTunnelTXTQuestionPacketPrepared (normalizedDomain domainQname encodedFrame : bytes)
    (qType ednsUDPSize counter : Z) : outcome dns_error (bytes * Z) :=
  if bool_decide (normalizedDomain = []) || (len domainQname =? 0) then Err ErrInvalidName
  else if len encodedFrame =? 0 then buildTXTQuestionPacketPrepared domainQname qType ednsUDPSize counter
  else if maxDNSNameLen <? encodedQNameLen (len encodedFrame) (len normalizedDomain) then Err ErrInvalidName
  else
    let labelCount := Z.quot (len encodedFrame + maxDNSLabelLen - 1) maxDNSLabelLen in
    let qnameLen := len encodedFrame + labelCount + len domainQname in
    let packet := make_bytes (dnsHeaderSize + qnameLen + 4 + opt_len ednsUDPSize) in
    let '(requestID, counter) := nextDNSRequestID counter in
    let! packet := write_query_header packet requestID ednsUDPSize in
    let! (packet, offset) := write_labels (length encodedFrame) packet dnsHeaderSize 0 encodedFrame in
    let! (packet, offset) := copy_adv packet offset domainQname in
    let! packet := write_query_tail packet offset qType ednsUDPSize in
    Ok (packet, counter).

Definition BuildTunnelTXTQuestionPacket (domain encodedFrame : bytes) (qType ednsUDPSize counter : Z) :
    outcome dns_error (bytes * Z) :=
  let! (normalizedDomain, domainQname) := PrepareTunnelDomainQname domain in
  BuildTunnelTXTQuestionPacketPrepared normalizedDomain domainQname encodedFrame qType ednsUDPSize counter.

(** ** TXT answers *)

(** A character string of more than 255 bytes is split. *)
Fixpoint txt_parts (fuel : nat) (out : bytes) (writeOffset start : Z) (data : bytes) : outcome transport_error bytes :=
  match fuel with
  | O => Ok out
  | S fuel =>
      if start <? len data then
        let end_ := Z.min (start + 255) (len data) in
        let! out := put out writeOffset (wrap8 (end_ - start)) in
        let! part := slice data start end_ in
        let! (out, writeOffset) := copy_adv out (writeOffset + 1) part in
        txt_parts fuel out writeOffset (start + 255) data
      else Ok out
  end.

Definition appendLengthPrefixedTXT (data : bytes) : outcome transport_error bytes :=
  if len data <=? 255 then
    let out := make_bytes (1 + len data) in
    let! out := put out 0 (wrap8 (len data)) in
    copy_at out 1 data
  else txt_parts (length data) (make_bytes (len data + (1 + Z.quot (len data - 1) 255))) 0 0 data.

Definition appendLengthPrefixedBase64TXT (data : bytes) : outcome transport_error bytes :=
  let encodedLen := EncodedRawBase64Len (len data) in
  let out := make_bytes (1 + encodedLen) in
  let! out := put out 0 (wrap8 encodedLen) in
  EncodeRawBase64Into out 1 data.

Definition buildTXTAnswerChunk (data : bytes) (baseEncode : bool) : outcome transport_error bytes :=
  if baseEncode then appendLengthPrefixedBase64TXT data else appendLengthPrefixedTXT data.

Definition buildLengthPrefixedTXTChunk (prefix : Z) (data : bytes) : outcome transport_error bytes :=
  let out := make_bytes (2 + len data) in
  let! out := put out 0 (wrap8 (1 + len data)) in
  let! out := put out 1 prefix in
  copy_at out 2 data.

Fixpoint appendRawTXTAnswerChunks (fuel : nat) (chunks : list bytes) (payload : bytes) (cursor chunkID maxChunkNData : Z) :
    outcome transport_error (list bytes) :=
  match fuel with
  | O => Ok chunks
  | S fuel =>
      if cursor <? len payload then
        let end_ := Z.min (cursor + maxChunkNData) (len payload) in
        let! part := slice payload cursor end_ in
        let! chunk := buildLengthPrefixedTXTChunk (wrap8 chunkID) part in
        appendRawTXTAnswerChunks fuel (chunks ++ [chunk]) payload end_ (chunkID + 1) maxChunkNData
      else Ok chunks
  end.

(** The buffer [rawChunk] is reused from chunk to chunk. *)
Fixpoint appendBase64TXTAnswerChunks (fuel : nat) (rawChunk : bytes) (chunks : list bytes) (payload : bytes)
    (cursor chunkID maxChunkNData : Z) : outcome transport_error (list bytes) :=
  match fuel with
  | O => Ok chunks
  | S fuel =>
      if cursor <? len payload then
        let end_ := Z.min (cursor + maxChunkNData) (len payload) in
        let! rawChunk := put rawChunk 0 (wrap8 chunkID) in
        let! part := slice payload cursor end_ in
        let! (rawChunk, offset) := copy_adv rawChunk 1 part in
        let! used := slice rawChunk 0 offset in
        let! chunk := appendLengthPrefixedBase64TXT used in
        appendBase64TXTAnswerChunks fuel rawChunk (chunks ++ [chunk]) payload end_ (chunkID + 1) maxChunkNData
      else Ok chunks
  end.

(** [rawChunk0]: a zero, the number of chunks, the packet header and the first data. *)
Definition first_chunk (rawFrame : bytes) (header : Packet) (chunk0DataLen totalChunks : Z) : outcome transport_error bytes :=
  let headerLen := HeaderLength header in
  let rawChunk0 := make_bytes (2 + headerLen + chunk0DataLen) in
  let! rawChunk0 := put rawChunk0 0 0x00 in
  let! rawChunk0 := put rawChunk0 1 (wrap8 totalChunks) in
  let! hdr := slice rawFrame 0 headerLen in
  let! rawChunk0 := copy_at rawChunk0 2 hdr in
  let! first := slice (Payload header) 0 chunk0DataLen in
  copy_at rawChunk0 (2 + headerLen) first.

Definition buildTXTAnswerChunks (rawFrame : bytes) (baseEncode : bool) : outcome transport_error (list bytes) :=
  let maxChunk := if baseEncode then maxTXTEncodedChunk else maxTXTAnswerPayload in
  if len rawFrame =? 0 then let! c := appendLengthPrefixedTXT [] in Ok [c]
  else if len rawFrame <=? maxChunk then let! c := buildTXTAnswerChunk rawFrame baseEncode in Ok [c]
  else
    match Parse rawFrame with
    | Panic => Panic
    | Err _ => let! c := buildTXTAnswerChunk rawFrame baseEncode in Ok [c]
    | Ok header =>
        let headerLen := HeaderLength header in
        let maxChunk0Data := Z.max (maxChunk - 2 - headerLen) 0 in
        let remaining := len (Payload header) - maxChunk0Data in
        let maxChunkNData := maxChunk - 1 in
        let totalChunks := if 0 <? remaining then 1 + Z.quot (remaining + maxChunkNData - 1) maxChunkNData else 1 in
        if 255 <? totalChunks then Err ErrTXTAnswerTooLarge
        else
          let chunk0DataLen := Z.min maxChunk0Data (len (Payload header)) in
          let! rawChunk0 := first_chunk rawFrame header chunk0DataLen totalChunks in
          if baseEncode then
            let! c := appendLengthPrefixedBase64TXT rawChunk0 in
            appendBase64TXTAnswerChunks (length (Payload header)) (make_bytes (1 + maxChunkNData)) [c] (Payload header)
              maxChunk0Data 1 maxChunkNData
          else
            let! c := appendLengthPrefixedTXT rawChunk0 in
            appendRawTXTAnswerChunks (length (Payload header)) [c] (Payload header) maxChunk0Data 1 maxChunkNData
    end.

(** ** Responses with TXT records *)

Definition extractFirstQuestionNameWire (packet : bytes) : outcome transport_error (option (bytes * bytes)) :=
  if len packet <? dnsHeaderSize then Ok None
  else
    let! header := parseHeader packet in
    if hQDCount header =? 0 then Ok None
    else
      match parseName packet dnsHeaderSize with
      | Panic => Panic
      | Err _ => Ok None
      | Ok (name, nextOffset) =>
          if (nextOffset <=? dnsHeaderSize) || (len packet <? nextOffset) then Ok None
          else let! rawName := slice packet dnsHeaderSize nextOffset in Ok (Some (rawName, name))
      end.

Definition responseAnswerNameBytes (questionPacket answerName : bytes) : outcome transport_error bytes :=
  let! first := extractFirstQuestionNameWire questionPacket in
  match first with
  | Some (rawName, parsedName) =>
      if sameDNSName parsedName answerName then Ok rawName else map_err DnsError (encodeDNSNameStrict answerName)
  | None => map_err DnsError (encodeDNSNameStrict answerName)
  end.

Definition write_answer_header (response : bytes) (h : Header) (questionCount answerCount optLen : Z) :
    outcome transport_error bytes :=
  let! response := put16 response 0 (hID h) in
  let! response := put16 response 2 (buildResponseFlags (hFlags h) DNSR_CODE_NO_ERROR) in
  let! response := put16 response 4 questionCount in
  let! response := put16 response 6 (wrap16 answerCount) in
  let! response := put16 response 8 0 in
  put16 response 10 (wrap16 (getARCount optLen)).

(** Type, class, TTL, length and data of a record, after its name. *)
Definition write_txt_record (response : bytes) (offset : Z) (payload : bytes) : outcome transport_error (bytes * Z) :=
  let! response := put16 response offset DNS_RECORD_TYPE_TXT in
  let! response := put16 response (offset + 2) DNSQ_CLASS_IN in
  let! response := put32 response (offset + 4) 0 in
  let! response := put16 response (offset + 8) (wrap16 (len payload)) in
  copy_adv response (offset + 10) payload.

Definition buildSingleTXTResponsePacket (questionPacket answerName answerPayload : bytes) : outcome transport_error bytes :=
  if len questionPacket <? dnsHeaderSize then Err (DnsError ErrDnsPacketTooShort)
  else
    let! header := parseHeader questionPacket in
    let! (questionBytes, questionCount, questionEndOffset) := extractQuestionSection questionPacket header in
    let! (optStart, optLen) := findOPTRecordRange questionPacket header questionEndOffset in
    let! nameBytes := responseAnswerNameBytes questionPacket answerName in
    let response := make_bytes (dnsHeaderSize + len questionBytes + len nameBytes + 10 + len answerPayload + optLen) in
    let! response := write_answer_header response header questionCount 1 optLen in
    let! (response, offset) := copy_adv response dnsHeaderSize questionBytes in
    let! (response, offset) := copy_adv response offset nameBytes in
    let! (response, offset) := write_txt_record response offset answerPayload in
    if 0 <? optLen then
      let! opt := slice questionPacket optStart (optStart + optLen) in copy_at response offset opt
    else Ok response.

(** The records of [BuildTXTResponsePacket]: the first has the name, the others a
    pointer to it where it can be pointed to. *)
Fixpoint write_records (response : bytes) (offset firstAnswerNameOffset : Z) (useCompression first : bool)
    (nameBytes : bytes) (payloads : list bytes) : outcome transport_error (bytes * Z) :=
  match payloads with
  | [] => Ok (response, offset)
  | payload :: payloads =>
      let! (response, offset) :=
        if useCompression && negb first && (firstAnswerNameOffset <=? 0x3FFF) then
          let! response := put16 response offset (Z.lor 0xC000 firstAnswerNameOffset) in Ok (response, offset + 2)
        else copy_adv response offset nameBytes in
      let! (response, offset) := write_txt_record response offset payload in
      write_records response offset firstAnswerNameOffset useCompression false nameBytes payloads
  end.

(** The space the records take. *)
Fixpoint answers_len (useCompression first : bool) (nameBytes : bytes) (payloads : list bytes) : Z :=
  match payloads with
  | [] => 0
  | payload :: payloads =>
      (if useCompression && negb first then 2 else len nameBytes) + 10 + len payload +
      answers_len useCompression false nameBytes payloads
  end.

Definition BuildTXTResponsePacket (questionPacket answerName : bytes) (answerPayloads : list bytes) :
    outcome transport_error bytes :=
  match answerPayloads with
  | [payload] => buildSingleTXTResponsePacket questionPacket answerName payload
  | _ =>
      if len questionPacket <? dnsHeaderSize then Err (DnsError ErrDnsPacketTooShort)
      else
        let! header := parseHeader questionPacket in
        let! (questionBytes, questionCount, questionEndOffset) := extractQuestionSection questionPacket header in
        let! (optStart, optLen) := findOPTRecordRange questionPacket header questionEndOffset in
        let! nameBytes := responseAnswerNameBytes questionPacket answerName in
        let useCompression := 1 <? len answerPayloads in
        let answerLen := answers_len useCompression true nameBytes answerPayloads in
        let response := make_bytes (dnsHeaderSize + len questionBytes + answerLen + optLen) in
        let! response := write_answer_header response header questionCount (len answerPayloads) optLen in
        let! (response, offset) := copy_adv response dnsHeaderSize questionBytes in
        let! (response, offset) := write_records response offset offset useCompression true nameBytes answerPayloads in
        if 0 <? optLen then
          let! opt := slice questionPacket optStart (optStart + optLen) in copy_at response offset opt
        else Ok response
  end.

Section vpn_response.
Context `{CP : Compressors}.

Definition BuildVPNResponsePacket (questionPacket answerName : bytes) (packet : Packet) (baseEncode : bool) :
    outcome transport_error bytes :=
  let! rawFrame := map_err VpnError (BuildRawAuto (opts_of packet) DefaultMinSize) in
  let maxChunk := if baseEncode then maxTXTEncodedChunk else maxTXTAnswerPayload in
  if len rawFrame <=? maxChunk then
    let! chunk := buildTXTAnswerChunk rawFrame baseEncode in
    buildSingleTXTResponsePacket questionPacket answerName chunk
  else
    let! answerPayloads := buildTXTAnswerChunks rawFrame baseEncode in
    BuildTXTResponsePacket questionPacket answerName answerPayloads.

(** ** Reading the answers *)

Fixpoint txt_total (fuel : nat) (rData : bytes) (offset totalLen : Z) : outcome transport_error Z :=
  match fuel with
  | O => Ok totalLen
  | S fuel =>
      if offset <? len rData then
        let! size := at_ rData offset in
        let offset := offset + 1 in
        if size =? 0 then txt_total fuel rData offset totalLen
        else if len rData <? offset + size then Ok (totalLen + (len rData - offset))
        else txt_total fuel rData (offset + size) (totalLen + size)
      else Ok totalLen
  end.

Fixpoint txt_copy (fuel : nat) (rData : bytes) (offset : Z) (out : bytes) (writeOffset : Z) : outcome transport_error bytes :=
  match fuel with
  | O => Ok out
  | S fuel =>
      if offset <? len rData then
        let! size := at_ rData offset in
        let offset := offset + 1 in
        if size =? 0 then txt_copy fuel rData offset out writeOffset
        else if len rData <? offset + size then
          let! rest := slice rData offset (len rData) in copy_at out writeOffset rest
        else
          let! part := slice rData offset (offset + size) in
          let! (out, writeOffset) := copy_adv out writeOffset part in
          txt_copy fuel rData (offset + size) out writeOffset
      else Ok out
  end.

Definition extractTXTBytes (rData : bytes) : outcome transport_error bytes :=
  if len rData =? 0 then Ok []
  else
    let! b0 := at_ rData 0 in
    if b0 + 1 =? len rData then slice rData 1 (len rData)
    else
      let! totalLen := txt_total (length rData) rData 0 0 in
      if totalLen =? 0 then Ok [] else txt_copy (length rData) rData 0 (make_bytes totalLen) 0.

Fixpoint extractTXTAnswerPayloads (answers : list ResourceRecord) : outcome transport_error (list bytes) :=
  match answers with
  | [] => Ok []
  | answer :: answers =>
      if negb (rType answer =? DNS_RECORD_TYPE_TXT) then extractTXTAnswerPayloads answers
      else
        let! raw := extractTXTBytes (rRData answer) in
        let! rest := extractTXTAnswerPayloads answers in
        Ok (if len raw =? 0 then rest else raw :: rest)
  end.

(** The chunks seen so far, with their count, the announced count and the header. *)
Record assembly := mkAssembly {
  chunks : list (option bytes);
  totalExpected : Z;
  seenChunks : Z;
  header : option Packet
}.

Definition decode_answer (baseEncoded : bool) (raw : bytes) : outcome transport_error bytes :=
  if baseEncoded then map_err Base64Error (DecodeRawBase64 raw) else Ok raw.

Definition note_chunk (s : assembly) (i : Z) (payload : bytes) : outcome transport_error (list (option bytes) * Z) :=
  let! old := at_ (chunks s) i in
  let! cs := put (chunks s) i (Some payload) in
  Ok (cs, match old with None => seenChunks s + 1 | Some _ => seenChunks s end).

Definition assemble_one (baseEncoded : bool) (s : assembly) (raw : bytes) : outcome transport_error assembly :=
  let! raw := decode_answer baseEncoded raw in
  if len raw =? 0 then Ok s
  else
    let! b0 := at_ raw 0 in
    if b0 =? 0x00 then
      if len raw <? 3 then Err ErrTXTAnswerMalformed
      else
        let! total := at_ raw 1 in
        if (total <=? 0) || (len (chunks s) <? total) then Err ErrTXTAnswerMalformed
        else
          let! parsed := map_err VpnError (ParseAtOffset raw 2) in
          let! (cs, seen) := note_chunk s 0 (Payload parsed) in
          Ok (mkAssembly cs total seen (Some parsed))
    else if len (chunks s) <=? b0 then Err ErrTXTAnswerMalformed
    else
      let! rest := slice raw 1 (len raw) in
      let! (cs, seen) := note_chunk s b0 rest in
      Ok (mkAssembly cs (totalExpected s) seen (header s)).

Fixpoint assemble_all (baseEncoded : bool) (s : assembly) (raws : list bytes) : outcome transport_error assembly :=
  match raws with
  | [] => Ok s
  | raw :: raws => let! s := assemble_one baseEncoded s raw in assemble_all baseEncoded s raws
  end.

Definition assemble_start : assembly := mkAssembly (replicate 256 None) 0 0 None.

Definition inflate (p : Packet) : outcome transport_error Packet := map_err VpnError (InflatePayload p).

Definition set_payload (p : Packet) (payload : bytes) : Packet :=
  mkPacket (SessionID p) (PacketType p) (SessionCookie p) (HasStreamID p) (StreamID p) (HasSequenceNum p) (SequenceNum p)
    (HasFragmentInfo p) (FragmentID p) (TotalFragments p) (HasCompressionType p) (CompressionType p) (HeaderLength p) payload.

(** The checks after the loop: all announced chunks are there and no other. *)
Definition assemble_finish (s : assembly) : outcome transport_error Packet :=
  match header s with
  | None => Err ErrTXTAnswerMalformed
  | Some h =>
      if (totalExpected s <=? 0) || negb (seenChunks s =? totalExpected s) then Err ErrTXTAnswerMalformed
      else
        let n := Z.to_nat (totalExpected s) in
        if existsb (fun c => match c with None => true | Some _ => false end) (take n (chunks s)) then Err ErrTXTAnswerMalformed
        else if existsb (fun c => match c with None => false | Some _ => true end) (drop n (chunks s))
        then Err ErrTXTAnswerMalformed
        else inflate (set_payload h (concat (map (default []) (take n (chunks s)))))
  end.

Definition assembleVPNResponse (rawAnswers : list bytes) (baseEncoded : bool) : outcome transport_error Packet :=
  match rawAnswers with
  | [raw] => let! raw := decode_answer baseEncoded raw in map_err VpnError (ParseInflated raw)
  | _ => let! s := assemble_all baseEncoded assemble_start rawAnswers in assemble_finish s
  end.

Definition ExtractVPNResponse (packet : bytes) (baseEncoded : bool) : outcome transport_error Packet :=
  let! parsed := map_err DnsError (ParsePacket packet) in
  let! rawAnswers := extractTXTAnswerPayloads (Answers parsed) in
  match rawAnswers with
  | [] => Err ErrTXTAnswerMissing
  | _ => assembleVPNResponse rawAnswers baseEncoded
  end.
End vpn_response.

(** ** Writing at a cursor: a buffer is what has been written followed by zeros *)

Section cursor.
Context {E : Type}.

Lemma make_bytes_0 n : n = 0 -> make_bytes n = [].
Proof. by intros ->. Qed.

Lemma put_zero (w : bytes) n off v : off = len w -> 0 <= n ->
  put (E:=E) (w ++ make_bytes (1 + n)) off v = Ok ((w ++ [v]) ++ make_bytes n).
Proof.
  intros -> Hn. rewrite make_bytes_app by lia. change (make_bytes 1) with [0]. cbn [app].
  rewrite put_middle by done. by rewrite <- (assoc_L (++)).
Qed.

Lemma put16_zero (w : bytes) n off v : off = len w -> 0 <= n ->
  put16 (E:=E) (w ++ make_bytes (2 + n)) off v = Ok ((w ++ be16 v) ++ make_bytes n).
Proof.
  intros -> Hn. unfold put16, be16. replace (2 + n) with (1 + (1 + n)) by lia. rewrite put_zero by (done || lia). cbn [obind].
  rewrite put_zero by (rewrite ?len_app; done || lia). by rewrite <- !(assoc_L (++)).
Qed.

Lemma copy_adv_zero (w src : bytes) n off : off = len w -> 0 <= n ->
  copy_adv (E:=E) (w ++ make_bytes (len src + n)) off src = Ok ((w ++ src) ++ make_bytes n, len w + len src).
Proof.
  intros -> Hn. pose proof (len_nonneg src). unfold copy_adv. rewrite make_bytes_app by lia.
  rewrite copy_at_middle; [|done|pose proof (len_make_bytes (len src)); unfold len in *; lia]. cbn [obind].
  rewrite !len_app, !len_make_bytes by lia. rewrite <- (assoc_L (++)). do 2 f_equal. lia.
Qed.
End cursor.

(** ** Names written by the encoder *)

Definition dot_free (l : bytes) : Prop := Forall (fun c => c <> 46) l.

(** The labels written so far and the rest of the name from [labelStart] on. *)
Record encoding (name : bytes) (i labelStart writeOffset : Z) (encoded : bytes) (done_ : list bytes) : Prop := {
  e_labels : Forall label_ok done_;
  e_nodots : Forall dot_free done_;
  e_written : encoded = concat (map wire_label done_) ++ make_bytes (len name + 2 - writeOffset);
  e_offset : writeOffset = len (concat (map wire_label done_));
  e_start : labelStart = writeOffset;
  e_range : 0 <= labelStart <= i /\ i <= len name + 1;
  e_name : take (Z.to_nat labelStart) (name ++ [46]) = concat (map (fun l => l ++ [46]) done_);
  e_label : Forall (fun c => c <> 46) (drop (Z.to_nat labelStart) (take (Z.to_nat i) name));
  e_last : i = len name + 1 -> labelStart = i
}.

Lemma concat_wire_dots ls : len (concat (map wire_label ls)) = len (concat (map (fun l => l ++ [46]) ls)).
Proof.
  induction ls as [|l ls IH]; [done|]. cbn [map concat]. rewrite !len_app, IH. unfold wire_label. rewrite len_cons.
  change (len [46]) with 1. lia.
Qed.

Lemma take_snoc {A} (l : list A) n x : l !! n = Some x -> take (S n) l = take n l ++ [x].
Proof. apply take_S_r. Qed.

(** A character inside a label. *)
Lemma encoding_inside name i st wo enc ls c :
  encoding name i st wo enc ls -> i < len name -> name !! Z.to_nat i = Some c -> c <> 46 -> encoding name (i + 1) st wo enc ls.
Proof.
  intros [H1 H2 H3 H4 H5 H6 H7 H8 H9] Hi Hc Hne. split; try done; [lia| |lia].
  replace (Z.to_nat (i + 1)) with (S (Z.to_nat i)) by lia. rewrite (take_S_r _ _ c) by done.
  rewrite drop_app_le by (rewrite length_take; unfold len in *; lia). apply Forall_app. split; [done|]. by constructor.
Qed.

(** The end of a label. *)
Lemma encoding_boundary name i st wo enc ls :
  bytes_ok name -> encoding name i st wo enc ls -> i <= len name -> (name ++ [46]) !! Z.to_nat i = Some 46 ->
  0 < i - st <= 63 ->
  exists label, slice (E:=dns_error) name st i = Ok label /\ len label = i - st /\
    forall enc', enc' = concat (map wire_label (ls ++ [label])) ++ make_bytes (len name + 2 - (i + 1)) ->
      encoding name (i + 1) (i + 1) (i + 1) enc' (ls ++ [label]).
Proof.
  intros Hb [H1 H2 H3 H4 H5 H6 H7 H8 H9] Hi Hdot Hl. set (label := take (Z.to_nat (i - st)) (drop (Z.to_nat st) name)).
  assert (Hlen : len label = i - st) by (unfold label, len in *; rewrite length_take, length_drop; lia).
  assert (Hlab : drop (Z.to_nat st) (take (Z.to_nat i) name) = label).
  { unfold label. rewrite skipn_firstn_comm. f_equal. lia. }
  exists label. split; [by rewrite slice_ok by lia|]. split; [done|]. intros enc' ->. rewrite map_app, concat_app. cbn [map concat].
  rewrite app_nil_r. assert (Hw : len (concat (map wire_label ls) ++ wire_label label) = i + 1).
  { rewrite len_app, <- H4. unfold wire_label. rewrite len_cons. lia. }
  split; try done; try lia.
  - apply Forall_app. split; [done|]. constructor; [|done]. split; [lia|]. unfold label. by apply Forall_take, Forall_drop.
  - apply Forall_app. split; [done|]. constructor; [|done]. unfold dot_free. by rewrite <- Hlab.
  - by rewrite map_app, concat_app; cbn [map concat]; rewrite app_nil_r.
  - rewrite map_app, concat_app. cbn [map concat]. by rewrite app_nil_r.
  - rewrite map_app, concat_app, <- H7. cbn [map concat]. rewrite app_nil_r.
    replace (Z.to_nat (i + 1)) with (S (Z.to_nat i)) by lia. rewrite (take_S_r _ _ 46) by done. rewrite (assoc_L (++)). f_equal.
    replace (Z.to_nat i) with (Z.to_nat st + Z.to_nat (i - st))%nat by lia. rewrite <- take_take_drop. f_equal.
    unfold label. rewrite drop_app_le by (unfold len in *; lia). rewrite take_app_le; [done|]. rewrite length_drop. unfold len in *. lia.
  - rewrite drop_ge; [constructor|]. rewrite length_take. lia.
Qed.

Lemma encode_loop_sound name : bytes_ok name -> forall fuel i st wo enc ls,
  encoding name i st wo enc ls -> (Z.to_nat (len name + 2 - i) <= fuel)%nat ->
  match encodeDNSName_loop fuel name i st wo enc with
  | Ok (enc', wo') => exists ls', encoding name (len name + 1) wo' wo' enc' ls'
  | Err e => e = ErrInvalidName
  | Panic => False
  end.
Proof.
  intros Hb. induction fuel as [|fuel IH]; intros i st wo enc ls He Hf.
  { destruct He as [_ _ _ _ _ H6 _ _ _]. lia. }
  pose proof He as [H1 H2 H3 H4 H5 H6 H7 H8 H9]. cbn [encodeDNSName_loop]. case_if; zbool.
  { exists ls. rewrite H5 in He. by replace (len name + 1) with i by lia. }
  assert (Hdot : (i <? len name) = true /\ (exists c, name !! Z.to_nat i = Some c /\ c <> 46) \/
    (name ++ [46]) !! Z.to_nat i = Some 46 /\
    (if i <? len name then let! c := at_ (E:=dns_error) name i in Ok (negb (c =? 46)) else Ok false) = Ok false).
  { destruct (Z.ltb_spec i (len name)) as [Hlt|Hge].
    - destruct (at_ok (E:=dns_error) name i) as (c & Hc & Hl); [lia|]. rewrite Hc. cbn [obind].
      destruct (Z.eqb_spec c 46) as [->|]; [right|left; split; eauto]. split; [|done]. rewrite lookup_app_l; [done|]. unfold len in *; lia.
    - right. split; [|done]. rewrite lookup_app_r by (unfold len in *; lia).
      replace (Z.to_nat i - length name)%nat with 0%nat by (unfold len in *; lia). done. }
  destruct Hdot as [[Hlt (c & Hc & Hne)]|[Hdot ->]].
  - rewrite Hlt. zbool. destruct (at_ok (E:=dns_error) name i) as (c' & Hc' & Hl'); [lia|]. rewrite Hc'. cbn [obind].
    assert (c' = c) as -> by congruence. rewrite (proj2 (Z.eqb_neq c 46)) by done. cbn [negb].
    apply (IH _ _ _ _ ls); [by eapply encoding_inside|lia].
  - cbn [obind]. case_if; [done|]. zbool. unfold maxDNSLabelLen in *.
    destruct (encoding_boundary name i st wo enc ls Hb He ltac:(lia) Hdot ltac:(lia)) as (label & Hsl & Hlen & Hnext).
    assert (Hbuf : make_bytes (len name + 2 - wo) = make_bytes (1 + (len label + (len name + 2 - (i + 1))))) by (f_equal; lia).
    rewrite H3, Hbuf, put_zero by lia. cbn [obind]. rewrite Hsl. cbn [obind].
    rewrite copy_adv_zero by (rewrite ?len_app; change (len [wrap8 (i - st)]) with 1; lia). cbn [obind].
    assert (Hwo : len (concat (map wire_label ls) ++ [wrap8 (i - st)]) + len label = i + 1).
    { rewrite len_app, <- H4. change (len [wrap8 (i - st)]) with 1. lia. }
    rewrite Hwo. apply (IH _ _ _ _ (ls ++ [label])); [|lia]. apply Hnext. f_equal. rewrite map_app, concat_app. cbn [map concat].
    rewrite app_nil_r, <- (assoc_L (++)), wrap8_id by (unfold u8; lia). cbn [app]. by rewrite <- Hlen.
Qed.

Lemma dotted_snoc ls : concat (map (fun l => l ++ [46]) ls) = match ls with [] => [] | _ => dotted ls ++ [46] end.
Proof.
  induction ls as [|l ls IH]; [done|]. cbn [map concat]. rewrite IH. destruct ls as [|l' ls]; [by rewrite app_nil_r|].
  cbn [dotted]. by rewrite <- !(assoc_L (++)).
Qed.

(** What the encoder writes is always a well-formed name, with the labels of its
    argument. *)
Lemma encodeDNSNameStrict_sound name b : bytes_ok name -> encodeDNSNameStrict name = Ok b ->
  exists ls, name_ok ls /\ Forall dot_free ls /\ b = wire_name ls /\ dotted ls = trim_dot (TrimSpace name).
Proof.
  intros Hbn. unfold encodeDNSNameStrict. set (nm := trim_dot (TrimSpace name)).
  assert (Hb : bytes_ok nm).
  { assert (Htl : forall s : bytes, bytes_ok s -> bytes_ok (trim_left s)).
    { induction s as [|c s IH]; intros Hs; [done|]. cbn [trim_left]. inversion Hs; subst. case_if; [by apply IH|done]. }
    assert (Hts : bytes_ok (TrimSpace name)) by (unfold TrimSpace; by apply Forall_reverse, Htl, Forall_reverse, Htl).
    unfold nm, trim_dot. destruct (reverse (TrimSpace name)) as [|c r] eqn:Er; [done|]. case_if; [|done].
    apply (f_equal reverse) in Er. rewrite reverse_involutive, reverse_cons in Er. rewrite Er in Hts. by apply Forall_app in Hts as [? _]. }
  case_bool_decide as Hnil; [intros [= <-]; exists []; split_and!; [split; [constructor|done]|constructor|done|by rewrite Hnil]|].
  case_if; [done|]. zbool. unfold maxDNSNameLen in *. pose proof (len_nonneg nm).
  assert (H0 : encoding nm 0 0 0 (make_bytes (len nm + 2)) []).
  { split; try done; try lia; try constructor; try lia. by rewrite Z.sub_0_r. }
  pose proof (encode_loop_sound nm Hb (length nm + 2) 0 0 0 _ [] H0 ltac:(unfold len; lia)) as Hs.
  destruct (encodeDNSName_loop _ _ _ _ _ _) as [[enc wo]|e|]; [|done..]. destruct Hs as (ls & [H1 H2 H3 H4 H5 H6 H7 H8 H9]).
  cbn [obind]. rewrite H9 in * by done. rewrite H3. replace (len nm + 2 - (len nm + 1)) with (1 + 0) by lia.
  rewrite put_zero by lia. cbn [obind]. rewrite app_nil_r. rewrite slice_all by (rewrite len_app; change (len [0]) with 1; lia).
  intros [= <-]. exists ls. split_and!; [split; [done|]|done|done|].
  - unfold wire_name. rewrite len_app. change (len [0]) with 1. lia.
  - rewrite take_ge in H7 by (rewrite length_app; unfold len; simpl; lia). rewrite dotted_snoc in H7.
    destruct ls; [by destruct nm|]. by apply app_inj_tail in H7 as [-> _].
Qed.
