(* ===== verification/DnsAnswers.v ===== *)
(** * Server packets in TXT answers (masterdns dnsparser: transport.go)

    The downstream direction: a packet is written into one TXT record, or split over
    numbered records, and read back by the client, in whatever order a resolver returns
    the records. *)

From stdpp Require Import base tactics list sorting.
From Stdlib Require Import ZArith Lia.
From S2P Require Import Prelude Enums BaseCodec Base64 Compression Security VpnProto DnsParser DnsTransport.

Lemma lookup_map {A B} (f : A -> B) l i : map f l !! i = f <$> l !! i.
Proof. apply list_lookup_fmap. Qed.

(** ** One character string *)

Definition chunk_max (be : bool) : Z := if be then maxTXTEncodedChunk else maxTXTAnswerPayload.
Definition txt_body (be : bool) (raw : bytes) : bytes := if be then b64_encode raw else raw.
Definition txt_of (be : bool) (raw : bytes) : bytes := len (txt_body be raw) :: txt_body be raw.

Lemma len_txt_body be raw : len raw <= chunk_max be -> len (txt_body be raw) <= 255.
Proof.
  intros Hl. destruct be; unfold txt_body, chunk_max, maxTXTEncodedChunk, maxTXTAnswerPayload in *; [|lia].
  rewrite length_b64_encode. unfold EncodedRawBase64Len. pose proof (len_nonneg raw).
  rewrite !Z.quot_div_nonneg, Z.rem_mod_nonneg by (try lia; pose proof (Z.rem_bound_pos (len raw) 3); lia).
  Z.to_euclidean_division_equations. lia.
Qed.

Lemma appendLengthPrefixedTXT_ok raw : len raw <= 255 -> appendLengthPrefixedTXT raw = Ok (len raw :: raw).
Proof.
  intros Hl. pose proof (len_nonneg raw). unfold appendLengthPrefixedTXT. rewrite (proj2 (Z.leb_le _ _)) by done.
  change (make_bytes (1 + len raw)) with ([] ++ make_bytes (1 + len raw)). rewrite put_zero by (done || lia). cbn [obind].
  rewrite wrap8_id by (unfold u8; lia).
  rewrite copy_at_end; [done|done|]. pose proof (len_make_bytes (len raw)). unfold len in *. lia.
Qed.

Lemma appendLengthPrefixedBase64TXT_ok raw : len raw <= 191 ->
  appendLengthPrefixedBase64TXT raw = Ok (len (b64_encode raw) :: b64_encode raw).
Proof.
  intros Hl. pose proof (len_txt_body true raw Hl) as Hb. unfold txt_body in Hb. pose proof (length_b64_encode raw) as He.
  pose proof (len_nonneg (b64_encode raw)). unfold appendLengthPrefixedBase64TXT. rewrite <- He.
  change (make_bytes (1 + len (b64_encode raw))) with ([] ++ make_bytes (1 + len (b64_encode raw))).
  rewrite put_zero by (done || lia). cbn [obind]. rewrite wrap8_id by (unfold u8; lia).
  rewrite EncodeRawBase64Into_spec; [done|done|]. rewrite <- He. apply len_make_bytes. lia.
Qed.

Lemma buildTXTAnswerChunk_ok be raw : len raw <= chunk_max be -> buildTXTAnswerChunk raw be = Ok (txt_of be raw).
Proof.
  intros Hl. unfold buildTXTAnswerChunk, txt_of, txt_body. destruct be.
  - by apply appendLengthPrefixedBase64TXT_ok.
  - by apply appendLengthPrefixedTXT_ok.
Qed.

Lemma b64_encode_nil raw : b64_encode raw = [] -> raw = [].
Proof. by destruct raw as [|? [|? [|? ?]]]. Qed.

Lemma extract_txt be raw : extractTXTBytes (txt_of be raw) = Ok (txt_body be raw).
Proof.
  unfold extractTXTBytes, txt_of. set (b := txt_body be raw). pose proof (len_nonneg b).
  rewrite (proj2 (Z.eqb_neq _ 0)) by (rewrite len_cons; lia). rewrite at_cons_0. cbn [obind].
  rewrite len_cons, (proj2 (Z.eqb_eq _ _)) by lia. change (len b :: b) with ([len b] ++ b). by apply slice_tail.
Qed.

Lemma decode_body be raw : bytes_ok raw -> decode_answer be (txt_body be raw) = Ok raw.
Proof. intros Hb. destruct be; unfold decode_answer, txt_body; [by rewrite DecodeRawBase64_encode|done]. Qed.

Lemma extract_records (nm : bytes) be raws :
  Forall (fun raw => raw <> []) raws ->
  extractTXTAnswerPayloads (map (fun p => mkRR nm 16 1 0 (len p) p) (map (txt_of be) raws)) = Ok (map (txt_body be) raws).
Proof.
  induction 1 as [|raw raws Hne _ IH]; [done|]. cbn [map extractTXTAnswerPayloads rType rRData].
  change (16 =? DNS_RECORD_TYPE_TXT) with true. cbn [negb]. rewrite extract_txt. cbn [obind]. rewrite IH. cbn [obind].
  destruct (Z.eqb_spec (len (txt_body be raw)) 0) as [H0|]; [|done]. exfalso. apply len_zero in H0.
  destruct be; [by apply b64_encode_nil in H0|done].
Qed.

(** ** Numbered chunks *)

Fixpoint numbered (id : Z) (parts : list bytes) : list bytes :=
  match parts with
  | [] => []
  | p :: parts => (wrap8 id :: p) :: numbered (id + 1) parts
  end.

Lemma chunks_of_concat n : 0 < n -> forall fuel data, (length data <= fuel)%nat -> concat (chunks_of fuel n data) = data.
Proof.
  intros Hn. induction fuel as [|fuel IH]; intros data Hf; [destruct data; [done|simpl in Hf; lia]|]. cbn [chunks_of]. case_if; zbool.
  - destruct data; [done|]. rewrite len_cons in *. pose proof (len_nonneg data). lia.
  - cbn [concat]. rewrite IH, take_drop; [done|]. rewrite length_drop. unfold len in *. lia.
Qed.

Lemma chunks_of_bounds n : 0 < n -> forall fuel data, Forall (fun p => 0 < len p <= n) (chunks_of fuel n data).
Proof.
  intros Hn. induction fuel as [|fuel IH]; intros data; [constructor|]. cbn [chunks_of]. case_if; [constructor|]. zbool.
  constructor; [|apply IH]. unfold len in *. rewrite length_take. lia.
Qed.

Lemma chunks_of_bytes_ok n : forall fuel data, bytes_ok data -> Forall bytes_ok (chunks_of fuel n data).
Proof.
  induction fuel as [|fuel IH]; intros data Hb; [constructor|]. cbn [chunks_of]. case_if; [constructor|].
  constructor; [by apply Forall_take|]. apply IH. by apply Forall_drop.
Qed.

(** The number of pieces, as the code computes it. *)
Lemma len_chunks_of n : 0 < n -> forall fuel data, (length data <= fuel)%nat ->
  len (chunks_of fuel n data) = (len data + n - 1) / n.
Proof.
  intros Hn. induction fuel as [|fuel IH]; intros data Hf.
  { destruct data; [|simpl in Hf; lia]. cbn [chunks_of]. change (len []) with 0. symmetry. apply Z.div_small. unfold len. simpl. lia. }
  cbn [chunks_of]. case_if; zbool.
  - assert (Hz : len data = 0) by (pose proof (len_nonneg data); lia). rewrite Hz, len_nil. symmetry. apply Z.div_small. lia.
  - rewrite len_cons, IH by (rewrite length_drop; unfold len in *; lia).
    assert (Hd : len (drop (Z.to_nat n) data) = Z.max 0 (len data - n)) by (unfold len; rewrite length_drop; lia). rewrite Hd.
    destruct (Z.le_gt_cases n (len data)).
    + rewrite Z.max_r by lia. replace (len data + n - 1) with (len data - n + n - 1 + 1 * n) by lia. rewrite Z.div_add by lia. lia.
    + rewrite Z.max_l by lia. rewrite (Z.div_small (0 + n - 1)) by lia.
      replace (len data + n - 1) with (len data - 1 + 1 * n) by lia. rewrite Z.div_add, Z.div_small by lia. lia.
Qed.

Lemma slice_cursor {E} (payload : bytes) cursor n :
  0 <= cursor < len payload -> 0 < n ->
  slice (E:=E) payload cursor (Z.min (cursor + n) (len payload)) = Ok (take (Z.to_nat n) (drop (Z.to_nat cursor) payload)).
Proof.
  intros Hc Hn. rewrite slice_ok by lia. f_equal. destruct (Z.le_gt_cases (cursor + n) (len payload)).
  - do 2 f_equal. lia.
  - rewrite !take_ge; [done|..]; rewrite length_drop; unfold len in *; lia.
Qed.

Lemma raw_chunks_spec payload n : 0 < n <= 254 -> forall fuel cs cursor id, 0 <= cursor ->
  appendRawTXTAnswerChunks fuel cs payload cursor id n =
    Ok (cs ++ map (txt_of false) (numbered id (chunks_of fuel n (drop (Z.to_nat cursor) payload)))).
Proof.
  intros Hn. induction fuel as [|fuel IH]; intros cs cursor id Hc; cbn [appendRawTXTAnswerChunks chunks_of]; [by rewrite app_nil_r|].
  assert (Hd : len (drop (Z.to_nat cursor) payload) = Z.max 0 (len payload - cursor)) by (unfold len; rewrite length_drop; lia).
  rewrite Hd. destruct (Z.ltb_spec cursor (len payload)).
  - rewrite (proj2 (Z.leb_gt _ _)) by lia. rewrite slice_cursor by lia. cbn [obind]. set (part := take (Z.to_nat n) _).
    assert (Hp : 0 < len part <= n) by (unfold part, len in *; rewrite length_take, length_drop; lia).
    assert (Hb : buildLengthPrefixedTXTChunk (wrap8 id) part = Ok (txt_of false (wrap8 id :: part))).
    { unfold buildLengthPrefixedTXTChunk, txt_of, txt_body. replace (2 + len part) with (1 + (1 + len part)) by lia.
      change (make_bytes (1 + (1 + len part))) with ([] ++ make_bytes (1 + (1 + len part))). rewrite put_zero by (done || lia).
      cbn [obind]. rewrite put_zero by (done || lia). cbn [obind].
      rewrite copy_at_end; [|done|pose proof (len_make_bytes (len part)); unfold len in *; lia].
      rewrite wrap8_id by (unfold u8; lia). rewrite len_cons. done. }
    rewrite Hb. cbn [obind]. rewrite IH by lia. cbn [numbered map]. rewrite <- (assoc_L (++)). cbn [app]. do 6 f_equal.
    destruct (Z.le_gt_cases (cursor + n) (len payload)).
    + rewrite Z.min_l by lia. rewrite drop_drop. f_equal. lia.
    + rewrite Z.min_r by lia. rewrite !drop_ge; [done|..]; rewrite ?length_drop; unfold len in *; lia.
  - rewrite (proj2 (Z.leb_le _ _)) by lia. by rewrite app_nil_r.
Qed.

Lemma base64_chunks_spec payload n : 0 < n <= 190 -> forall fuel raw cs cursor id, len raw = 1 + n -> 0 <= cursor ->
  appendBase64TXTAnswerChunks fuel raw cs payload cursor id n =
    Ok (cs ++ map (txt_of true) (numbered id (chunks_of fuel n (drop (Z.to_nat cursor) payload)))).
Proof.
  intros Hn. induction fuel as [|fuel IH]; intros raw cs cursor id Hraw Hc; cbn [appendBase64TXTAnswerChunks chunks_of]; [by rewrite app_nil_r|].
  assert (Hd : len (drop (Z.to_nat cursor) payload) = Z.max 0 (len payload - cursor)) by (unfold len; rewrite length_drop; lia).
  rewrite Hd. destruct (Z.ltb_spec cursor (len payload)).
  - rewrite (proj2 (Z.leb_gt _ _)) by lia. destruct raw as [|b0 raw]; [rewrite len_nil in Hraw; lia|]. rewrite len_cons in Hraw.
    rewrite (put_middle [] b0 raw) by done. cbn [obind app]. rewrite slice_cursor by lia. cbn [obind]. set (part := take (Z.to_nat n) _).
    assert (Hp : 0 < len part <= n) by (unfold part, len in *; rewrite length_take, length_drop; lia).
    set (k := Z.to_nat (len part)). assert (Hk : length (take k raw) = length part) by (rewrite length_take; unfold len in *; lia).
    assert (Hcp : copy_adv (E:=transport_error) (wrap8 id :: raw) 1 part = Ok (wrap8 id :: part ++ drop k raw, 1 + len part)).
    { unfold copy_adv. rewrite <- (take_drop k raw) at 1. change (wrap8 id :: take k raw ++ drop k raw) with ([wrap8 id] ++ take k raw ++ drop k raw).
      rewrite copy_at_middle by done. cbn [obind app]. rewrite len_cons. do 2 f_equal. lia. }
    rewrite Hcp. cbn [obind].
    assert (Hs : slice (E:=transport_error) (wrap8 id :: part ++ drop k raw) 0 (1 + len part) = Ok (wrap8 id :: part)).
    { change (wrap8 id :: part ++ drop k raw) with ([] ++ (wrap8 id :: part) ++ drop k raw). apply slice_app; [done|]. rewrite len_cons. unfold len. simpl. lia. }
    rewrite Hs. cbn [obind]. rewrite appendLengthPrefixedBase64TXT_ok by (rewrite len_cons; lia). cbn [obind].
    assert (Hd' : len (drop k raw) = len raw - len part) by (unfold len in *; rewrite length_drop; lia).
    rewrite IH by (rewrite ?len_cons, ?len_app; lia). cbn [numbered map]. rewrite <- (assoc_L (++)). cbn [app].
    unfold txt_of at 2, txt_body at 1 2. do 6 f_equal. destruct (Z.le_gt_cases (cursor + n) (len payload)).
    + rewrite Z.min_l by lia. rewrite drop_drop. f_equal. lia.
    + rewrite Z.min_r by lia. rewrite !drop_ge; [done|..]; rewrite ?length_drop; unfold len in *; lia.
  - rewrite (proj2 (Z.leb_le _ _)) by lia. by rewrite app_nil_r.
Qed.

(** ** The chunks of a frame *)

Lemma header_len_bounds t : 4 <= header_len (packet_flags t) <= 11.
Proof. unfold header_len, integrityLength. repeat case_if; lia. Qed.

Section frame.
Context (be : bool) (o : BuildOptions) (Ho : opts_ok o) (Hv : valid_type (oPacketType o) = true).

Local Abbreviation hlen := (header_len (packet_flags (oPacketType o))).

(** The payload bytes of the first chunk and of each other one. *)
Definition first_data : Z := chunk_max be - 2 - hlen.
Definition next_data : Z := chunk_max be - 1.
Definition parts : list bytes := chunks_of (length (oPayload o)) next_data (drop (Z.to_nat first_data) (oPayload o)).
Definition pieces : list bytes := take (Z.to_nat first_data) (oPayload o) :: parts.
Definition header_part : bytes := header_bytes o ++ [computeHeaderCheckByte (header_bytes o)].

(** Chunk [k] as it is before the text encoding. *)
Definition raw_chunk (k : nat) : bytes :=
  if decide (k = 0)%nat then 0 :: wrap8 (len pieces) :: header_part ++ take (Z.to_nat first_data) (oPayload o)
  else wrap8 (Z.of_nat k) :: pieces !!! k.

Definition raw_chunks : list bytes := map raw_chunk (seq 0 (length pieces)).

Lemma data_bounds : 150 < first_data /\ 0 < next_data <= 254.
Proof.
  pose proof (header_len_bounds (oPacketType o)). unfold first_data, next_data, chunk_max, maxTXTEncodedChunk, maxTXTAnswerPayload.
  destruct be; lia.
Qed.

Lemma len_header_part : len header_part = hlen.
Proof. unfold header_part. rewrite len_app, len_header. change (len [_]) with 1. lia. Qed.

Lemma wire_parts : wire o = header_part ++ oPayload o.
Proof. unfold wire, header_part. by rewrite <- (assoc_L (++)). Qed.

Lemma numbered_map ps : forall id, numbered (Z.of_nat id) ps = map (fun k => wrap8 (Z.of_nat k) :: ps !!! (k - id)%nat) (seq id (length ps)).
Proof.
  induction ps as [|p ps IH]; intros id; [done|]. cbn [numbered length seq map]. rewrite Nat.sub_diag. f_equal.
  replace (Z.of_nat id + 1) with (Z.of_nat (S id)) by lia. rewrite IH. apply map_ext_in. intros k Hk. apply in_seq in Hk.
  f_equal. replace (k - id)%nat with (S (k - S id)) by lia. done.
Qed.

Lemma raw_chunks_cons : raw_chunks = raw_chunk 0 :: numbered 1 parts.
Proof.
  unfold raw_chunks, pieces. cbn [length seq map]. f_equal. rewrite (numbered_map parts 1 : numbered 1 parts = _). apply map_ext_in.
  intros k Hk. apply in_seq in Hk. unfold raw_chunk. rewrite decide_False by lia. f_equal. unfold pieces.
  destruct k as [|k]; [lia|]. by replace (S k - 1)%nat with k by lia.
Qed.

Lemma pieces_concat : concat pieces = oPayload o.
Proof.
  unfold pieces, parts. cbn [concat]. pose proof data_bounds. rewrite chunks_of_concat by (rewrite ?length_drop; lia). apply take_drop.
Qed.

Lemma len_pieces : first_data < len (oPayload o) ->
  len pieces = 1 + Z.quot (len (oPayload o) - first_data + next_data - 1) next_data.
Proof.
  intros Hl. unfold pieces, parts. pose proof data_bounds. rewrite len_cons, len_chunks_of by (rewrite ?length_drop; lia).
  assert (Hd : len (drop (Z.to_nat first_data) (oPayload o)) = len (oPayload o) - first_data) by (unfold len in *; rewrite length_drop; lia).
  rewrite Hd, Z.quot_div_nonneg by lia. done.
Qed.

Lemma len_raw_chunk0 : len (raw_chunk 0) <= chunk_max be.
Proof.
  unfold raw_chunk. rewrite decide_True by done. rewrite !len_cons, len_app, len_header_part. pose proof data_bounds.
  assert (len (take (Z.to_nat first_data) (oPayload o)) <= first_data) by (unfold len; rewrite length_take; lia).
  unfold first_data in *. lia.
Qed.

Lemma first_chunk_spec : first_data <= len (oPayload o) ->
  first_chunk (wire o) (packet_of o) first_data (len pieces) = Ok (raw_chunk 0).
Proof.
  intros Hl. pose proof data_bounds as Hdb. pose proof (header_len_bounds (oPacketType o)) as Hhl. unfold first_chunk.
  change (HeaderLength (packet_of o)) with hlen. change (Payload (packet_of o)) with (oPayload o).
  set (fst_ := take (Z.to_nat first_data) (oPayload o)).
  assert (Hlf : len fst_ = first_data) by (unfold fst_, len in *; rewrite length_take; lia).
  replace (2 + hlen + first_data) with (1 + (1 + (hlen + first_data))) by lia.
  change (make_bytes (1 + (1 + (hlen + first_data)))) with ([] ++ make_bytes (1 + (1 + (hlen + first_data)))).
  rewrite put_zero by (done || lia). cbn [obind]. rewrite put_zero by (done || lia). cbn [obind].
  assert (Hsl : slice (E:=transport_error) (wire o) 0 hlen = Ok header_part).
  { rewrite wire_parts. change (header_part ++ oPayload o) with ([] ++ header_part ++ oPayload o).
    apply slice_app; [done|]. rewrite len_header_part. done. }
  rewrite Hsl. cbn [obind]. rewrite make_bytes_app by lia.
  rewrite copy_at_middle; [|done|pose proof len_header_part; pose proof (len_make_bytes hlen); unfold len in *; lia]. cbn [obind].
  rewrite slice_ok by lia. cbn [obind]. rewrite Z.sub_0_r, drop_0. fold fst_. rewrite (assoc_L (++)).
  rewrite copy_at_end.
  - unfold raw_chunk. rewrite decide_True by done. done.
  - rewrite len_app, len_header_part. change (len (([] ++ [0]) ++ [wrap8 (len pieces)])) with 2. lia.
  - pose proof (len_make_bytes first_data). unfold len in *. lia.
Qed.

Lemma build_chunks : chunk_max be < len (wire o) -> len pieces <= 255 ->
  buildTXTAnswerChunks (wire o) be = Ok (map (txt_of be) raw_chunks).
Proof.
  intros Hbig Htot. pose proof data_bounds as Hdb. pose proof (header_len_bounds (oPacketType o)) as Hhl.
  assert (Hlw : len (wire o) = hlen + len (oPayload o)) by (rewrite wire_parts, len_app, len_header_part; lia).
  assert (Hfd : first_data = chunk_max be - 2 - hlen) by done. assert (Hnd : next_data = chunk_max be - 1) by done.
  unfold buildTXTAnswerChunks. fold (chunk_max be). rewrite (proj2 (Z.eqb_neq _ 0)), (proj2 (Z.leb_gt _ _)) by lia.
  unfold wire at 1. rewrite Parse_header, Hv, Z.eqb_refl by done. cbn [negb]. change (HeaderLength (packet_of o)) with hlen.
  change (Payload (packet_of o)) with (oPayload o). rewrite <- Hfd, <- Hnd. rewrite (Z.max_l first_data 0) by lia.
  rewrite (proj2 (Z.ltb_lt 0 (len (oPayload o) - first_data))) by lia. rewrite <- len_pieces by lia.
  rewrite (proj2 (Z.ltb_ge 255 _)) by lia. rewrite (Z.min_l first_data), first_chunk_spec by lia. cbn [obind].
  rewrite raw_chunks_cons. cbn [map]. pose proof len_raw_chunk0 as Hl0. unfold parts. destruct be eqn:Hbe; unfold chunk_max in Hl0.
  - rewrite appendLengthPrefixedBase64TXT_ok by done. cbn [obind]. rewrite base64_chunks_spec.
    + done.
    + unfold chunk_max, maxTXTEncodedChunk in Hnd. lia.
    + apply len_make_bytes. lia.
    + lia.
  - rewrite appendLengthPrefixedTXT_ok by done. cbn [obind]. rewrite raw_chunks_spec; [done|lia|lia].
Qed.

(** ** Putting the chunks together, in any order *)

Definition first_packet : Packet := packet_of (with_payload o (oCompressionType o) (take (Z.to_nat first_data) (oPayload o))).

(** The state after the chunks [ks], each seen once. *)
Definition cell (ks : list nat) (i : nat) : option bytes := if decide (i ∈ ks) then pieces !! i else None.

Definition seen_state (ks : list nat) : assembly :=
  mkAssembly (map (cell ks) (seq 0 256)) (if decide (0 ∈ ks)%nat then len pieces else 0) (len ks)
    (if decide (0 ∈ ks)%nat then Some first_packet else None).

Lemma bytes_ok_pieces k p : pieces !! k = Some p -> bytes_ok p.
Proof.
  destruct Ho as (_ & _ & _ & _ & _ & _ & _ & _ & Hb). destruct k as [|k]; simpl.
  - intros [= <-]. by apply Forall_take.
  - intros Hp. eapply Forall_lookup_1; [|exact Hp]. apply chunks_of_bytes_ok. by apply Forall_drop.
Qed.

Lemma bytes_ok_raw_chunk k : bytes_ok (raw_chunk k).
Proof.
  pose proof (bytes_ok_wire o Ho) as Hw. rewrite wire_parts in Hw. apply bytes_ok_app in Hw as [Hh Hp].
  unfold raw_chunk. case_decide.
  - constructor; [unfold u8; lia|]. constructor; [apply u8_wrap8|]. apply bytes_ok_app. split; [done|]. by apply Forall_take.
  - constructor; [apply u8_wrap8|]. rewrite list_lookup_total_alt. destruct (pieces !! k) eqn:E; [|constructor]. simpl. by eapply bytes_ok_pieces.
Qed.

Lemma raw_chunk_nonempty k : raw_chunk k <> [].
Proof. unfold raw_chunk. by case_decide. Qed.

Lemma parse_first : ParseAtOffset (raw_chunk 0) 2 = Ok first_packet.
Proof.
  unfold raw_chunk. rewrite decide_True by done. set (t := take (Z.to_nat first_data) (oPayload o)).
  pose proof len_header_part. pose proof (header_len_bounds (oPacketType o)). pose proof (len_nonneg t).
  rewrite ParseAtOffset_drop by (rewrite !len_cons, len_app; lia). change (drop (Z.to_nat 2) _) with (header_part ++ t).
  assert (Hw : header_part ++ t = header_bytes (with_payload o (oCompressionType o) t) ++
    computeHeaderCheckByte (header_bytes (with_payload o (oCompressionType o) t)) :: oPayload (with_payload o (oCompressionType o) t)).
  { unfold header_part. by rewrite <- (assoc_L (++)). }
  rewrite Hw, Parse_header; [|destruct Ho as (? & ? & ? & ? & ? & ? & ? & ? & ?); unfold opts_ok, with_payload; simpl; split_and!; try done; by apply Forall_take].
  change (oPacketType (with_payload _ _ _)) with (oPacketType o). rewrite Hv, Z.eqb_refl. done.
Qed.

Lemma note_seen ks k p : (k < length pieces)%nat -> len pieces <= 255 -> k ∉ ks -> pieces !! k = Some p ->
  note_chunk (seen_state ks) (Z.of_nat k) p = Ok (map (cell (k :: ks)) (seq 0 256), len (k :: ks)).
Proof.
  intros Hk Ht Hn Hp. unfold note_chunk. cbn [chunks seen_state seenChunks].
  assert (Hl : length (map (cell ks) (seq 0 256)) = 256%nat) by (by rewrite length_map, length_seq).
  assert (Hc : map (cell ks) (seq 0 256) !! k = Some None).
  { rewrite list_lookup_fmap, lookup_seq_lt by (unfold len in *; lia). simpl. unfold cell. by rewrite decide_False. }
  unfold at_. rewrite (proj2 (Z.leb_le 0 _)), Nat2Z.id by lia. rewrite Hc. cbn [obind].
  rewrite put_ok by (unfold len; rewrite Hl; unfold len in *; lia). cbn [obind]. rewrite Nat2Z.id, len_cons. do 2 f_equal; [|lia].
  apply list_eq. intros i. destruct (decide (i = k)) as [->|Hne].
  - rewrite list_lookup_insert_eq by (rewrite Hl; unfold len in *; lia).
    rewrite list_lookup_fmap, lookup_seq_lt by (unfold len in *; lia). simpl. unfold cell. rewrite decide_True by left. by rewrite Hp.
  - rewrite list_lookup_insert_ne, !list_lookup_fmap by done.
    destruct (seq 0 256 !! i) as [j|] eqn:Ej; [|done]. simpl. f_equal. apply lookup_seq in Ej as [-> _].
    unfold cell. apply decide_ext. rewrite elem_of_cons. naive_solver.
Qed.

Lemma assemble_step ks k : (k < length pieces)%nat -> len pieces <= 255 -> k ∉ ks ->
  assemble_one be (seen_state ks) (txt_body be (raw_chunk k)) = Ok (seen_state (k :: ks)).
Proof.
  intros Hk Ht Hn. unfold assemble_one. rewrite decode_body by apply bytes_ok_raw_chunk. cbn [obind].
  destruct (lookup_lt_is_Some_2 pieces k Hk) as [p Hp].
  assert (Hlc : len (chunks (seen_state ks)) = 256) by (unfold len; cbn [chunks seen_state]; by rewrite length_map, length_seq).
  destruct (decide (k = 0)%nat) as [->|Hk0].
  - pose proof parse_first as Hpf. pose proof len_header_part. pose proof (header_len_bounds (oPacketType o)). unfold raw_chunk in *.
    rewrite decide_True in * by done. set (t := take _ (oPayload o)) in *. pose proof (len_nonneg t).
    rewrite (proj2 (Z.eqb_neq _ 0)) by (rewrite !len_cons, len_app; lia). rewrite at_cons_0. cbn [obind].
    rewrite (Z.eqb_refl 0), (proj2 (Z.ltb_ge _ 3)) by (rewrite !len_cons, len_app; lia).
    rewrite at_cons_S by lia. change (1 - 1) with 0. rewrite at_cons_0. cbn [obind]. rewrite Hlc.
    assert (Hw : wrap8 (len pieces) = len pieces) by (apply wrap8_id; unfold u8, pieces in *; rewrite len_cons in *; pose proof (len_nonneg parts); lia).
    rewrite Hw in *. assert (1 <= len pieces) by (unfold pieces; rewrite len_cons; pose proof (len_nonneg parts); lia).
    rewrite (proj2 (Z.leb_gt _ 0)), (proj2 (Z.ltb_ge 256 _)) by lia. cbn [orb]. rewrite Hpf. cbn [map_err obind].
    assert (Hns := note_seen ks 0 t Hk Ht Hn eq_refl). change (Z.of_nat 0) with 0 in Hns.
    change (Payload first_packet) with t. rewrite Hns. cbn [obind]. unfold seen_state.
    by rewrite !(decide_True (P := 0%nat ∈ 0%nat :: ks)) by left.
  - unfold raw_chunk. rewrite decide_False by done. rewrite (list_lookup_total_correct _ _ _ Hp). pose proof (len_nonneg p).
    assert (Hw : wrap8 (Z.of_nat k) = Z.of_nat k) by (apply wrap8_id; unfold u8, len in *; lia). rewrite Hw.
    rewrite (proj2 (Z.eqb_neq _ 0)) by (rewrite len_cons; lia). rewrite at_cons_0. cbn [obind]. rewrite (proj2 (Z.eqb_neq _ 0)) by lia.
    rewrite Hlc, (proj2 (Z.leb_gt 256 _)) by (unfold len in *; lia).
    change (Z.of_nat k :: p) with ([Z.of_nat k] ++ p). rewrite slice_tail by (done || rewrite len_app; done). cbn [obind].
    rewrite (note_seen ks k p Hk Ht Hn Hp). cbn [obind totalExpected header seen_state]. unfold seen_state.
    by rewrite !(decide_ext (0%nat ∈ k :: ks) (0%nat ∈ ks)) by (rewrite elem_of_cons; naive_solver).
Qed.

Lemma assemble_run ks' : forall ks, NoDup (ks' ++ ks) -> Forall (fun k => (k < length pieces)%nat) ks' -> len pieces <= 255 ->
  assemble_all be (seen_state ks) (map (fun k => txt_body be (raw_chunk k)) ks') = Ok (seen_state (reverse ks' ++ ks)).
Proof.
  induction ks' as [|k ks' IH]; intros ks Hnd Hf Ht; [done|]. apply Forall_cons in Hf as [Hk Hf]. cbn [map assemble_all].
  rewrite assemble_step; [|done|done|cbn [app] in Hnd; apply NoDup_cons in Hnd as [Hn _]; rewrite elem_of_app in Hn; tauto].
  cbn [obind]. rewrite IH; [|by rewrite <- Permutation_middle|done|done]. by rewrite reverse_cons, <- (assoc_L (++)).
Qed.

Lemma seen_all ks : ks ≡ₚ seq 0 (length pieces) -> len pieces <= 255 ->
  take (length pieces) (map (cell ks) (seq 0 256)) = map Some pieces /\
  drop (length pieces) (map (cell ks) (seq 0 256)) = replicate (256 - length pieces) None.
Proof.
  intros Hp Ht. unfold len in Ht. split; apply list_eq; intros i.
  - destruct (decide (i < length pieces)%nat) as [Hi|Hi].
    + destruct (lookup_lt_is_Some_2 pieces i Hi) as [p Hpi]. rewrite (lookup_map Some pieces i), Hpi.
      rewrite lookup_take_lt, list_lookup_fmap, lookup_seq_lt by lia. simpl. unfold cell.
      by rewrite decide_True, Hpi by (rewrite Hp; apply elem_of_seq; lia).
    + rewrite lookup_take_ge by lia. symmetry. apply lookup_ge_None. rewrite length_map. lia.
  - rewrite lookup_drop, list_lookup_fmap. destruct (decide (i < 256 - length pieces)%nat) as [Hi|Hi].
    + rewrite lookup_seq_lt, lookup_replicate_2 by lia. cbn [fmap option_fmap option_map]. unfold cell.
      rewrite decide_False; [done|]. rewrite Hp, elem_of_seq. lia.
    + rewrite lookup_seq_ge by lia. symmetry. apply lookup_ge_None. rewrite length_replicate. lia.
Qed.

Lemma assemble_any_order `{CP : Compressors} rs :
  rs ≡ₚ raw_chunks -> (2 <= length pieces)%nat -> len pieces <= 255 ->
  assembleVPNResponse (map (txt_body be) rs) be = inflate (packet_of o).
Proof.
  intros Hrs H2 Ht. apply Permutation_map_inv in Hrs as (ks & -> & Hks).
  assert (Hlen : length ks = length pieces) by (by rewrite <- Hks, length_seq).
  rewrite map_map. assert (Hmulti : assembleVPNResponse (map (fun k => txt_body be (raw_chunk k)) ks) be =
    let! s := assemble_all be assemble_start (map (fun k => txt_body be (raw_chunk k)) ks) in assemble_finish s).
  { destruct ks as [|k1 [|k2 ks]]; [done|rewrite <- Hlen in H2; simpl in H2; lia|done]. }
  rewrite Hmulti. assert (Hst : assemble_start = seen_state []) by reflexivity.
  rewrite Hst, assemble_run; [|rewrite app_nil_r, <- Hks; apply NoDup_seq| |done].
  2: { apply Forall_forall. intros k. rewrite <- Hks, elem_of_seq. lia. }
  cbn [obind]. rewrite app_nil_r. set (ks' := reverse ks). assert (Hks' : ks' ≡ₚ seq 0 (length pieces)) by (unfold ks'; by rewrite reverse_Permutation).
  assert (H0 : 0%nat ∈ ks') by (rewrite Hks'; apply elem_of_seq; lia).
  destruct (seen_all ks' Hks' Ht) as [Htake Hdrop].
  unfold assemble_finish. cbn [header seen_state totalExpected seenChunks chunks]. rewrite !decide_True by done.
  assert (Hl' : len ks' = len pieces) by (unfold len, ks'; by rewrite length_reverse, Hlen). rewrite Hl', Z.eqb_refl.
  rewrite (proj2 (Z.leb_gt _ 0)) by (unfold len; lia). cbn [orb negb]. unfold len at 1 2 3. rewrite Nat2Z.id, Htake, Hdrop.
  assert (Ha : forall l, existsb (fun c : option bytes => match c with None => true | Some _ => false end) (map Some l) = false)
    by (induction l; done).
  assert (Hb : forall n, existsb (fun c : option bytes => match c with None => false | Some _ => true end) (replicate n None) = false)
    by (induction n; done).
  rewrite Ha, Hb. f_equal. rewrite map_map. cbn [default]. rewrite map_id, pieces_concat. unfold first_packet, set_payload, packet_of, with_payload.
  simpl. done.
Qed.
End frame.

(** ** Records and responses *)

Definition record_tail (p : bytes) : bytes := be16 16 ++ be16 1 ++ [0; 0; 0; 0] ++ be16 (len p) ++ p.

Fixpoint records (first : bool) (nm : bytes) (ptr : Z) (payloads : list bytes) : bytes :=
  match payloads with
  | [] => []
  | p :: payloads => (if first then nm else be16 (Z.lor 0xC000 ptr)) ++ record_tail p ++ records false nm ptr payloads
  end.

Lemma len_record_tail p : len (record_tail p) = 10 + len p.
Proof. unfold record_tail, be16. rewrite !len_app, !len_cons, !len_nil. lia. Qed.

Lemma put32_zero {E} (w : bytes) n off : off = len w -> 0 <= n ->
  put32 (E:=E) (w ++ make_bytes (4 + n)) off 0 = Ok ((w ++ [0; 0; 0; 0]) ++ make_bytes n).
Proof.
  intros -> Hn. unfold put32. replace (4 + n) with (1 + (1 + (1 + (1 + n)))) by lia.
  rewrite put_zero by (done || lia). cbn [obind]. rewrite put_zero by (rewrite ?len_app; done || lia). cbn [obind].
  rewrite put_zero by (rewrite ?len_app; change (len [_]) with 1; lia). cbn [obind].
  rewrite put_zero by (rewrite ?len_app; change (len [_]) with 1; lia). by rewrite <- !(assoc_L (++)).
Qed.

Lemma write_txt_record_ok (w p : bytes) n off : off = len w -> 0 <= n -> len p < 65536 ->
  write_txt_record (w ++ make_bytes (10 + len p + n)) off p = Ok ((w ++ record_tail p) ++ make_bytes n, len w + 10 + len p).
Proof.
  intros -> Hn Hp. pose proof (len_nonneg p). unfold write_txt_record, DNS_RECORD_TYPE_TXT, DNSQ_CLASS_IN.
  replace (10 + len p + n) with (2 + (2 + (4 + (2 + (len p + n))))) by lia.
  rewrite put16_zero by (done || lia). cbn [obind].
  rewrite put16_zero by (rewrite ?len_app; done || lia). cbn [obind].
  rewrite put32_zero by (rewrite ?len_app; change (len (be16 _)) with 2; lia). cbn [obind].
  rewrite put16_zero by (rewrite ?len_app; change (len (be16 _)) with 2; change (len [0; 0; 0; 0]) with 4; lia). cbn [obind].
  rewrite wrap16_id by (unfold u16; lia).
  rewrite copy_adv_zero by (rewrite ?len_app; change (len (be16 _)) with 2; change (len [0; 0; 0; 0]) with 4; lia).
  unfold record_tail. rewrite !len_app. change (len (be16 _)) with 2. change (len [0; 0; 0; 0]) with 4.
  rewrite <- !(assoc_L (++)). do 2 f_equal. lia.
Qed.

Lemma answers_len_nonneg c f nm ps : 0 <= answers_len c f nm ps.
Proof.
  revert f. induction ps as [|p ps IH]; intros f; cbn [answers_len]; [lia|]. specialize (IH false). pose proof (len_nonneg p).
  pose proof (len_nonneg nm). case_if; lia.
Qed.

Lemma write_records_ok nm ptr ps : ptr <= 0x3FFF -> Forall (fun p => len p < 65536) ps -> forall first (w : bytes) n off,
  off = len w -> 0 <= n ->
  write_records (w ++ make_bytes (answers_len true first nm ps + n)) off ptr true first nm ps =
    Ok ((w ++ records first nm ptr ps) ++ make_bytes n, len w + answers_len true first nm ps).
Proof.
  intros Hptr. induction 1 as [|p ps Hp _ IH]; intros first w n off -> Hn.
  { cbn [write_records records answers_len]. rewrite app_nil_r. do 2 f_equal. lia. }
  cbn [write_records records answers_len andb]. rewrite (proj2 (Z.leb_le _ _)), andb_true_r by done.
  pose proof (answers_len_nonneg true false nm ps). pose proof (len_nonneg p). pose proof (len_nonneg nm).
  set (a := answers_len true false nm ps) in *. destruct first; cbn [negb].
  - replace (len nm + 10 + len p + a + n) with (len nm + (10 + len p + (a + n))) by lia.
    rewrite copy_adv_zero by (done || lia). cbn [obind]. rewrite write_txt_record_ok by (rewrite ?len_app; lia). cbn [obind].
    unfold a. rewrite IH by (rewrite ?len_app, ?len_record_tail; lia). rewrite !len_app, len_record_tail, <- !(assoc_L (++)). do 2 f_equal. lia.
  - replace (2 + 10 + len p + a + n) with (2 + (10 + len p + (a + n))) by lia.
    rewrite put16_zero by (done || lia). cbn [obind]. rewrite write_txt_record_ok by (rewrite ?len_app; change (len (be16 _)) with 2; lia).
    cbn [obind]. unfold a. rewrite IH by (rewrite ?len_app, ?len_record_tail; change (len (be16 _)) with 2; lia).
    rewrite !len_app, len_record_tail, <- !(assoc_L (++)). change (len (be16 _)) with 2. do 2 f_equal. lia.
Qed.

Lemma write_answer_header_ok h qc an ol n : 0 <= n -> u16 an -> 0 <= ol ->
  write_answer_header (make_bytes (12 + n)) h qc an ol =
    Ok (message_header (hID h) (buildResponseFlags (hFlags h) 0) qc an 0 (getARCount ol) ++ make_bytes n).
Proof.
  intros Hn Ha Ho. unfold write_answer_header, DNSR_CODE_NO_ERROR. replace (12 + n) with (2 + (2 + (2 + (2 + (2 + (2 + n)))))) by lia.
  change (make_bytes (2 + (2 + (2 + (2 + (2 + (2 + n))))))) with ([] ++ make_bytes (2 + (2 + (2 + (2 + (2 + (2 + n))))))).
  do 6 (rewrite put16_zero by (done || lia); cbn [obind]).
  rewrite (wrap16_id an), (wrap16_id (getARCount ol)) by (done || unfold getARCount, u16; case_if; lia).
  unfold message_header. rewrite <- !(assoc_L (++)). done.
Qed.

(** ** Queries the server answers *)

(** A query with one question whose name has no pointers (a pointer could only point
    into the name itself), and whose OPT record, if any, is owned by the root, as RFC
    6891 requires. *)
Record plain_query (query : bytes) (ls : list bytes) : Prop := {
  pq_bytes : bytes_ok query;
  pq_name : name_ok ls;
  pq_labels : ls <> [];
  pq_layout : exists hdr tc rest, query = hdr ++ wire_name ls ++ tc ++ rest /\ len hdr = 12 /\ len tc = 4;
  pq_count : get16 (E:=transport_error) query 4 = Ok 1;
  pq_root : forall h s l, parseHeader (E:=transport_error) query = Ok h ->
    findOPTRecordRange (E:=transport_error) query h (12 + len (wire_name ls) + 4) = Ok (s, l) -> 0 < l ->
    query !! Z.to_nat s = Some 0
}.

(** An OPT record as it can be copied: root, type, class, TTL, length and data. *)
Definition opt_record (opt : bytes) : Prop :=
  exists b1 b2 b3 b4 b5 b6 b7 b8 b9 b10 rdata,
    opt = [0; b1; b2; b3; b4; b5; b6; b7; b8; b9; b10] ++ rdata /\ of_be16 b9 b10 = len rdata /\ bytes_ok opt.

Lemma root_skip data s n : bytes_ok data -> 0 <= s -> data !! Z.to_nat s = Some 0 -> skipName data s = Ok n -> n = s + 1.
Proof.
  intros Hb Hs H0. unfold skipName, walkName. case_if; [done|]. zbool.
  assert (Hfu : exists f, name_fuel = S f) by (by exists 137%nat). destruct Hfu as (f & ->). cbn [walkName_loop].
  rewrite (proj2 (Z.leb_gt (len data) s)) by lia. unfold at_. rewrite (proj2 (Z.leb_le 0 s)), H0 by lia. cbn [obind].
  rewrite Z.eqb_refl. by intros [= <-].
Qed.

Lemma list_of_11 (l : bytes) : (11 <= length l)%nat ->
  exists b0 b1 b2 b3 b4 b5 b6 b7 b8 b9 b10 r, l = [b0; b1; b2; b3; b4; b5; b6; b7; b8; b9; b10] ++ r.
Proof. destruct l as [|? [|? [|? [|? [|? [|? [|? [|? [|? [|? [|? r]]]]]]]]]]]; simpl; intros; try lia. eauto 20. Qed.

(** The OPT record that is found has that shape. *)
Lemma findFirstOPT_shape {E} data : bytes_ok data -> forall count offset s l,
  0 <= offset <= len data -> findFirstOPTRecordInAdditional (E:=E) data count offset = Ok (s, l) -> 0 < l ->
  data !! Z.to_nat s = Some 0 ->
  0 <= s /\ s + l <= len data /\ opt_record (take (Z.to_nat l) (drop (Z.to_nat s) data)).
Proof.
  intros Hb. induction count as [|count IH]; intros offset s l Ho; cbn [findFirstOPTRecordInAdditional]; [intros [= <- <-]; lia|].
  destruct (skipName_total data Hb offset ltac:(lia)) as [_ Hn].
  destruct (skipName data offset) as [n|e|] eqn:Es; [|intros [= <- <-]; lia|done]. specialize (Hn n eq_refl).
  case_if; [intros [= <- <-]; lia|]. zbool. intros (t & Ht & Hr)%obind_ok_inv. apply obind_ok_inv in Hr as (rd & Hrd & Hr).
  assert (Hu : u16 rd) by (destruct (get16_ok (E:=E) data (n + 8) Hb) as (v & Hv & ?); [lia..|]; congruence). unfold u16 in Hu.
  revert Hr. case_if; [intros [= <- <-]; lia|]. zbool. case_if; [|apply IH; lia]. intros [= <- <-] Hl H0.
  assert (n = offset + 1) as -> by (by eapply root_skip; [..|exact Es]; [done|lia|]).
  split; [lia|]. split; [lia|]. set (opt := take _ _).
  assert (Hlo : length opt = Z.to_nat (11 + rd)) by (unfold opt; rewrite length_take, length_drop; unfold len in *; lia).
  destruct (list_of_11 opt) as (b0 & b1 & b2 & b3 & b4 & b5 & b6 & b7 & b8 & b9 & b10 & r & Hopt); [lia|].
  assert (Hbo : bytes_ok opt) by (by apply Forall_take, Forall_drop).
  assert (Hdata : data = take (Z.to_nat offset) data ++ opt ++ drop (Z.to_nat offset + length opt) data).
  { rewrite Hlo. unfold opt. replace (offset + 1 + 10 + rd - offset) with (11 + rd) by lia.
    rewrite <- drop_drop, take_drop. by rewrite take_drop. }
  assert (Hat : forall i x, (i < length opt)%nat -> opt !! i = Some x -> data !! (Z.to_nat offset + i)%nat = Some x).
  { intros i x Hi Hx. rewrite Hdata. rewrite lookup_app_r by (rewrite length_take; lia).
    replace (Z.to_nat offset + i - length (take (Z.to_nat offset) data))%nat with i by (rewrite length_take; unfold len in *; lia).
    by rewrite lookup_app_l. }
  assert (b0 = 0) as ->.
  { pose proof (Hat 0%nat b0 ltac:(lia)) as Hx. rewrite Hopt in Hx. specialize (Hx eq_refl). rewrite Nat.add_0_r in Hx. congruence. }
  exists b1, b2, b3, b4, b5, b6, b7, b8, b9, b10, r. split; [done|]. split; [|done].
  unfold get16, at_ in Hrd. rewrite !(proj2 (Z.leb_le 0 _)) in Hrd by lia.
  replace (Z.to_nat (offset + 1 + 8)) with (Z.to_nat offset + 9)%nat in Hrd by lia.
  replace (Z.to_nat (offset + 1 + 8 + 1)) with (Z.to_nat offset + 10)%nat in Hrd by lia.
  rewrite (Hat 9%nat b9), (Hat 10%nat b10) in Hrd by (lia || by rewrite Hopt). cbn [obind] in Hrd. injection Hrd as ->.
  rewrite Hopt, length_app in Hlo. simpl in Hlo. unfold len. lia.
Qed.

Lemma query_opt query ls h : plain_query query ls -> 12 <= len query -> parseHeader (E:=transport_error) query = Ok h ->
  12 + len (wire_name ls) + 4 <= len query ->
  exists s l opt, findOPTRecordRange (E:=transport_error) query h (12 + len (wire_name ls) + 4) = Ok (s, l) /\ len opt = l /\
    (l = 0 \/ 0 < l /\ slice (E:=transport_error) query s (s + l) = Ok opt /\ opt_record opt).
Proof.
  intros Q Hl Hh Hr. pose proof (pq_bytes _ _ Q) as Hb. set (e := 12 + len (wire_name ls) + 4) in *.
  destruct (findOPTRecordRange_total query Hb (E:=transport_error) h e) as (s & l & Hf & Hbnd). exists s, l.
  destruct (Z_lt_le_dec 0 l) as [Hpos|Hz]; [|exists []; split_and!; [done|rewrite len_nil; lia|left; lia]].
  pose proof (pq_root _ _ Q h s l Hh Hf Hpos) as H0. exists (take (Z.to_nat l) (drop (Z.to_nat s) query)).
  assert (Hs : 0 <= s /\ s + l <= len query /\ opt_record (take (Z.to_nat l) (drop (Z.to_nat s) query))).
  { unfold findOPTRecordRange in Hf. revert Hf. case_if; [intros [= <- <-]; lia|]. zbool. unfold dnsHeaderSize in *.
    destruct (skipResourceRecords_total query Hb (Z.to_nat (hANCount h)) e ltac:(lia)) as [_ Hn1].
    destruct (skipResourceRecords query _ e) as [o1|er|]; [|intros [= <- <-]; lia|done]. specialize (Hn1 o1 eq_refl).
    destruct (skipResourceRecords_total query Hb (Z.to_nat (hNSCount h)) o1 ltac:(lia)) as [_ Hn2].
    destruct (skipResourceRecords query _ o1) as [o2|er|]; [|intros [= <- <-]; lia|done]. specialize (Hn2 o2 eq_refl).
    intros Hf. eapply findFirstOPT_shape; [done| |exact Hf|done|done]. lia. }
  destruct Hs as (Hs1 & Hs2 & Hopt). split; [done|]. split; [unfold len in *; rewrite length_take, length_drop; lia|].
  right. split; [done|]. split; [|done]. rewrite slice_ok by lia. do 2 f_equal. lia.
Qed.

(** ** The response and how it is parsed *)

Section response.
Context (query : bytes) (ls : list bytes) (Q : plain_query query ls).

Lemma query_facts : exists h tc, parseHeader (E:=transport_error) query = Ok h /\ hQDCount h = 1 /\ u16 (hID h) /\ u16 (hFlags h) /\
  len tc = 4 /\ bytes_ok tc /\ 12 + len (wire_name ls) + 4 <= len query /\
  slice (E:=transport_error) query 12 (12 + len (wire_name ls) + 4) = Ok (wire_name ls ++ tc) /\
  slice (E:=transport_error) query 12 (12 + len (wire_name ls)) = Ok (wire_name ls) /\
  parseName query 12 = Ok (dotted (map (map lower_byte) ls), 12 + len (wire_name ls)).
Proof.
  destruct Q as [Hb Hn Hne (hdr & tc & rest & Hq & Hhdr & Htc) Hcnt _]. pose proof (len_nonneg (wire_name ls)). pose proof (len_nonneg rest).
  assert (Hl : len query = 12 + len (wire_name ls) + 4 + len rest) by (rewrite Hq, !len_app; lia).
  destruct (parseHeader_ok query Hb (E:=transport_error)) as (h & Hh & U1 & U2 & _); [lia|].
  exists h, tc. split; [done|]. split.
  { unfold parseHeader in Hh. repeat (apply obind_ok_inv in Hh as (? & ? & Hh)). injection Hh as <-. simpl. congruence. }
  split; [done|]. split; [done|]. split; [done|].
  split. { rewrite Hq in Hb. apply bytes_ok_app in Hb as [_ Hb]. apply bytes_ok_app in Hb as [_ Hb]. by apply bytes_ok_app in Hb as [? _]. }
  split; [lia|]. split; [|split].
  - rewrite Hq. rewrite (assoc_L (++) (wire_name ls)). apply slice_app; [done|]. rewrite len_app. lia.
  - rewrite Hq. apply slice_app; [done|]. lia.
  - rewrite <- Hhdr. rewrite (parseName_wire query hdr ls (tc ++ rest)) by done. by rewrite bool_decide_eq_false_2 by done.
Qed.

Lemma skipQuestions_query : skipQuestions query 1 12 = Ok (12 + len (wire_name ls) + 4).
Proof.
  destruct query_facts as (h & tc & _ & _ & _ & _ & _ & _ & Hl & _ & _ & Hp). pose proof (len_nonneg (wire_name ls)).
  cbn [skipQuestions]. rewrite skipName_parseName by (apply Q || lia). rewrite Hp. cbn [map_err obind].
  by rewrite (proj2 (Z.ltb_ge _ _)) by lia.
Qed.

Lemma extractQuestion_query h tc : hQDCount h = 1 ->
  slice (E:=transport_error) query 12 (12 + len (wire_name ls) + 4) = Ok (wire_name ls ++ tc) ->
  extractQuestionSection (E:=transport_error) query h = Ok (wire_name ls ++ tc, 1, 12 + len (wire_name ls) + 4).
Proof.
  intros Hc Hs. unfold extractQuestionSection, dnsHeaderSize. rewrite Hc. change (1 =? 0) with false. cbn iota.
  change (Z.to_nat 1) with 1%nat. rewrite skipQuestions_query, Hs. done.
Qed.

(** The name of the answers: the question's own bytes, or the encoded answer name. *)
Lemma answer_name nm :
  responseAnswerNameBytes query nm =
    if sameDNSName (dotted (map (map lower_byte) ls)) nm then Ok (wire_name ls) else map_err DnsError (encodeDNSNameStrict nm).
Proof.
  destruct query_facts as (h & tc & Hh & Hc & _ & _ & _ & _ & Hl & _ & Hs & Hp). pose proof (len_nonneg (wire_name ls)).
  assert (Hpos : 1 <= len (wire_name ls)) by
    (unfold wire_name; rewrite len_app; pose proof (len_nonneg (concat (map wire_label ls))); change (len [0]) with 1; lia).
  unfold responseAnswerNameBytes, extractFirstQuestionNameWire, dnsHeaderSize. rewrite (proj2 (Z.ltb_ge _ _)) by lia. rewrite Hh. cbn [obind].
  rewrite Hc. change (1 =? 0) with false. cbn iota. rewrite Hp.
  rewrite (proj2 (Z.leb_gt _ 12)), (proj2 (Z.ltb_ge (len query) _)) by lia. cbn [orb]. rewrite Hs. done.
Qed.

(** The bytes of the response. *)
Definition response_bytes (h : Header) (tc opt nb : bytes) (ps : list bytes) : bytes :=
  message_header (hID h) (buildResponseFlags (hFlags h) 0) 1 (len ps) 0 (getARCount (len opt)) ++
  (wire_name ls ++ tc) ++ records true nb (12 + len (wire_name ls) + 4) ps ++ opt.

(** What the builders read from the query, and how they finish. *)
Lemma response_env : exists h tc opt s, parseHeader (E:=transport_error) query = Ok h /\ u16 (hID h) /\ u16 (hFlags h) /\
  len tc = 4 /\ bytes_ok tc /\ (opt = [] \/ opt_record opt) /\ 12 <= len query /\
  extractQuestionSection (E:=transport_error) query h = Ok (wire_name ls ++ tc, 1, 12 + len (wire_name ls) + 4) /\
  findOPTRecordRange (E:=transport_error) query h (12 + len (wire_name ls) + 4) = Ok (s, len opt) /\
  forall w off, off = len w ->
    (if 0 <? len opt then let! o := slice (E:=transport_error) query s (s + len opt) in copy_at (w ++ make_bytes (len opt)) off o
     else Ok (w ++ make_bytes (len opt))) = Ok (w ++ opt).
Proof.
  destruct query_facts as (h & tc & Hh & Hc & U1 & U2 & Htc & Hbt & Hl & Hsq & _ & _). pose proof (len_nonneg (wire_name ls)).
  destruct (query_opt query ls h Q ltac:(lia) Hh Hl) as (s & l & opt & Hf & <- & Hopt). pose proof (len_nonneg opt).
  exists h, tc, opt, s. split_and!; try done.
  - destruct Hopt as [Hz|(_ & _ & ?)]; [left; by apply len_zero|by right].
  - lia.
  - by apply extractQuestion_query.
  - intros w off ->. destruct Hopt as [Hz|(Hlp & Hs & _)].
    + apply len_zero in Hz as ->. done.
    + rewrite (proj2 (Z.ltb_lt 0 _)), Hs by lia. cbn [obind]. apply copy_at_end; [done|]. pose proof (len_make_bytes (len opt)). unfold len in *. lia.
Qed.

Lemma len_records nb ptr ps : forall first, len (records first nb ptr ps) = answers_len true first nb ps.
Proof.
  induction ps as [|p ps IH]; intros first; [done|]. cbn [records answers_len andb]. rewrite !len_app, len_record_tail, IH.
  destruct first; cbn [negb]; change (len (be16 _)) with 2; lia.
Qed.

Lemma single_shape nm nb p : responseAnswerNameBytes query nm = Ok nb -> len p < 65536 ->
  exists h tc opt, parseHeader (E:=transport_error) query = Ok h /\ u16 (hID h) /\ u16 (hFlags h) /\ len tc = 4 /\ bytes_ok tc /\
    (opt = [] \/ opt_record opt) /\ buildSingleTXTResponsePacket query nm p = Ok (response_bytes h tc opt nb [p]).
Proof.
  intros Hnb Hp. destruct response_env as (h & tc & opt & s & Hh & U1 & U2 & Htc & Hbt & Hopt & Hl & Hq & Hf & Hend).
  exists h, tc, opt. split_and!; try done. set (q := wire_name ls ++ tc) in *. pose proof (len_nonneg p). pose proof (len_nonneg nb).
  pose proof (len_nonneg q). pose proof (len_nonneg opt). unfold buildSingleTXTResponsePacket, dnsHeaderSize.
  rewrite (proj2 (Z.ltb_ge _ _)), Hh by lia. cbn [obind]. rewrite Hq. cbn [obind]. rewrite Hf. cbn [obind]. rewrite Hnb. cbn [obind].
  replace (12 + len q + len nb + 10 + len p + len opt) with (12 + (len q + (len nb + (10 + len p + len opt)))) by lia.
  rewrite write_answer_header_ok by (done || lia). cbn [obind]. set (hd_ := message_header _ _ _ _ _ _). assert (Hhd : len hd_ = 12) by done.
  rewrite copy_adv_zero by lia. cbn [obind]. rewrite copy_adv_zero by (rewrite ?len_app; lia). cbn [obind].
  rewrite write_txt_record_ok by (rewrite ?len_app; lia). cbn [obind]. rewrite Hend by (rewrite ?len_app, ?len_record_tail; lia).
  unfold response_bytes. cbn [records]. rewrite app_nil_r. change (len [p]) with 1. fold hd_ q. by rewrite <- !(assoc_L (++)).
Qed.

Lemma multi_shape nm nb ps : responseAnswerNameBytes query nm = Ok nb -> 2 <= len ps < 65536 -> Forall (fun p => len p < 65536) ps ->
  exists h tc opt, parseHeader (E:=transport_error) query = Ok h /\ u16 (hID h) /\ u16 (hFlags h) /\ len tc = 4 /\ bytes_ok tc /\
    (opt = [] \/ opt_record opt) /\ BuildTXTResponsePacket query nm ps = Ok (response_bytes h tc opt nb ps).
Proof.
  intros Hnb Hn Hps. destruct response_env as (h & tc & opt & s & Hh & U1 & U2 & Htc & Hbt & Hopt & Hl & Hq & Hf & Hend).
  exists h, tc, opt. split_and!; try done. set (q := wire_name ls ++ tc) in *. assert (Hwl : len (wire_name ls) <= 255) by apply Q.
  assert (Hlq : 12 + len q = 12 + len (wire_name ls) + 4) by (unfold q; rewrite len_app; lia).
  pose proof (len_nonneg q). pose proof (len_nonneg opt). unfold BuildTXTResponsePacket, dnsHeaderSize.
  destruct ps as [|p1 [|p2 ps]]; [rewrite len_nil in Hn; lia|unfold len in Hn; simpl in Hn; lia|]. set (pl := p1 :: p2 :: ps) in *.
  rewrite (proj2 (Z.ltb_ge _ _)), Hh by lia. cbn [obind]. rewrite Hq. cbn [obind]. rewrite Hf. cbn [obind]. rewrite Hnb. cbn [obind].
  rewrite (proj2 (Z.ltb_lt 1 _)) by lia. pose proof (answers_len_nonneg true true nb pl).
  replace (12 + len q + answers_len true true nb pl + len opt) with (12 + (len q + (answers_len true true nb pl + len opt))) by lia.
  rewrite write_answer_header_ok by (unfold u16; lia). cbn [obind]. set (hd_ := message_header _ _ _ _ _ _). assert (Hhd : len hd_ = 12) by done.
  rewrite copy_adv_zero by lia. cbn [obind]. rewrite Hhd, write_records_ok by (done || rewrite ?len_app; lia). cbn [obind].
  rewrite Hend by (rewrite ?len_app, ?len_records; lia). unfold response_bytes. fold hd_ q. rewrite Hlq. by rewrite <- !(assoc_L (++)).
Qed.
End response.

Lemma get16_at {E} (pre post : bytes) v off : off = len pre -> u16 v -> get16 (E:=E) (pre ++ be16 v ++ post) off = Ok v.
Proof.
  intros -> Hv. unfold get16, be16. cbn [app]. rewrite at_middle by done. cbn [obind].
  change (pre ++ wrap8 (Z.shiftr v 8) :: wrap8 v :: post) with (pre ++ [wrap8 (Z.shiftr v 8)] ++ wrap8 v :: post).
  rewrite (assoc_L (++)), at_middle by (rewrite len_app; done). cbn [obind]. by rewrite of_be16_be16.
Qed.

Lemma get16_app_r {E} (w l : bytes) i : 0 <= i -> get16 (E:=E) (w ++ l) (len w + i) = get16 l i.
Proof.
  intros Hi. unfold get16. rewrite at_app_r, (proj2 (Z.leb_le 0 i)) by done. rewrite <- Z.add_assoc, at_app_r, (proj2 (Z.leb_le 0 (i + 1))) by lia.
  done.
Qed.

Lemma get32_app_r {E} (w l : bytes) i : 0 <= i -> get32 (E:=E) (w ++ l) (len w + i) = get32 l i.
Proof. intros Hi. unfold get32. rewrite get16_app_r by done. rewrite <- Z.add_assoc. by rewrite get16_app_r by lia. Qed.

(** The fields of a record after its name. *)
Lemma record_fields {E} (w p post : bytes) : len p < 65536 ->
  get16 (E:=E) (w ++ record_tail p ++ post) (len w) = Ok 16 /\ get16 (E:=E) (w ++ record_tail p ++ post) (len w + 2) = Ok 1 /\
  get32 (E:=E) (w ++ record_tail p ++ post) (len w + 4) = Ok 0 /\ get16 (E:=E) (w ++ record_tail p ++ post) (len w + 8) = Ok (len p) /\
  slice (E:=E) (w ++ record_tail p ++ post) (len w + 10) (len w + 10 + len p) = Ok p.
Proof.
  intros Hp. pose proof (len_nonneg p). rewrite <- (Z.add_0_r (len w)) at 1. rewrite !get16_app_r, get32_app_r by lia.
  unfold record_tail, be16. cbn [app]. split_and!; try reflexivity.
  - change (@Ok E Z (of_be16 (wrap8 (Z.shiftr (len p) 8)) (wrap8 (len p))) = Ok (len p)). by rewrite of_be16_be16 by (unfold u16; lia).
  - set (f := [wrap8 (Z.shiftr 16 8); wrap8 16; wrap8 (Z.shiftr 1 8); wrap8 1; 0; 0; 0; 0; wrap8 (Z.shiftr (len p) 8); wrap8 (len p)]).
    change (slice (E:=E) (w ++ f ++ p ++ post) (len w + 10) (len w + 10 + len p) = Ok p).
    rewrite (assoc_L (++)). apply slice_app; rewrite len_app; change (len f) with 10; lia.
Qed.

Lemma parse_record data pre np p post nm count :
  data = pre ++ np ++ record_tail p ++ post -> parseName data (len pre) = Ok (nm, len pre + len np) -> len p < 65536 ->
  parseResourceRecords data (S count) (len pre) =
    let! (rs, o) := parseResourceRecords data count (len pre + len np + 10 + len p) in Ok (mkRR nm 16 1 0 (len p) p :: rs, o).
Proof.
  intros Hd Hn Hp. cbn [parseResourceRecords]. rewrite Hn. cbn [map_err obind]. pose proof (len_nonneg p). pose proof (len_nonneg post).
  assert (Hl : len data = len pre + len np + 10 + len p + len post) by (rewrite Hd, !len_app, len_record_tail; lia).
  rewrite (proj2 (Z.ltb_ge _ _)) by lia. assert (Hw : len (pre ++ np) = len pre + len np) by (rewrite len_app; lia).
  destruct (record_fields (E:=Z * dns_error) (pre ++ np) p post Hp) as (F1 & F2 & F3 & F4 & F5).
  rewrite <- (assoc_L (++)), <- Hd, Hw in F1, F2, F3, F4, F5. rewrite F1, F2, F3, F4. cbn [obind].
  rewrite (proj2 (Z.ltb_ge _ _)) by lia. rewrite F5. done.
Qed.

Lemma parse_records ls data pre0 post0 ptr : name_ok ls -> data = pre0 ++ wire_name ls ++ post0 -> ptr = len pre0 -> 12 <= ptr < 16384 ->
  bytes_ok data -> forall ps pre post first,
  Forall (fun p => len p < 65536) ps -> data = pre ++ records first (wire_name ls) ptr ps ++ post ->
  (if first then len pre = ptr else ptr < len pre) ->
  parseResourceRecords data (length ps) (len pre) =
    Ok (map (fun p => mkRR (if bool_decide (ls = []) then [46] else dotted (map (map lower_byte) ls)) 16 1 0 (len p) p) ps,
        len pre + len (records first (wire_name ls) ptr ps)).
Proof.
  intros Hok Hd0 Hptr Hr Hb. induction ps as [|p ps IH]; intros pre post first Hps Hd Hf.
  { cbn [length parseResourceRecords records map]. rewrite len_nil. do 2 f_equal. lia. }
  apply Forall_cons in Hps as [Hp Hps]. cbn [length records map] in *. set (np := if first then wire_name ls else be16 (Z.lor 0xC000 ptr)) in *.
  rewrite <- !(assoc_L (++)) in Hd. set (rest := records false (wire_name ls) ptr ps) in *.
  assert (Hu : u16 (Z.lor 0xC000 ptr)).
  { change (u16 (Z.lor (Z.shiftl 3 14) ptr)). rewrite lor_shiftl_disjoint by lia. unfold u16. lia. }
  assert (Hn : parseName data (len pre) = Ok (if bool_decide (ls = []) then [46] else dotted (map (map lower_byte) ls), len pre + len np)).
  { destruct first.
    - by apply (parseName_wire data pre ls (record_tail p ++ rest ++ post)).
    - change (len np) with 2. apply (parseName_pointer data ptr ls pre0 post0); try done; try lia.
      rewrite Hd. unfold np. by apply get16_at. }
  assert (Hnp : 0 < len np).
  { unfold np. destruct first; [|done]. unfold wire_name. rewrite len_app. pose proof (len_nonneg (concat (map wire_label ls))). change (len [0]) with 1. lia. }
  rewrite (parse_record data pre np p (rest ++ post) _ (length ps) Hd Hn Hp).
  assert (Hpre : len (pre ++ np ++ record_tail p) = len pre + len np + 10 + len p) by (rewrite !len_app, len_record_tail; lia).
  rewrite <- Hpre. rewrite (IH (pre ++ np ++ record_tail p) post false); [|done| |].
  - cbn [obind]. do 2 f_equal. rewrite !len_app, len_record_tail. fold rest. lia.
  - rewrite Hd. by rewrite <- !(assoc_L (++)).
  - pose proof (len_nonneg p). rewrite Hpre. destruct first; lia.
Qed.

Lemma parse_opt data pre opt : data = pre ++ opt -> opt_record opt ->
  exists rs, parseResourceRecords data 1 (len pre) = Ok (rs, len data).
Proof.
  intros Hd (b1 & b2 & b3 & b4 & b5 & b6 & b7 & b8 & b9 & b10 & rd & Hopt & Hrd & Hb).
  assert (Hl : len data = len pre + 11 + len rd) by (rewrite Hd, Hopt, !len_app; change (len [_; _; _; _; _; _; _; _; _; _; _]) with 11; lia).
  assert (Hn : parseName data (len pre) = Ok ([46], len pre + 1)).
  { rewrite (parseName_wire data pre [] ([b1; b2; b3; b4; b5; b6; b7; b8; b9; b10] ++ rd)); [done|by split; [constructor|]|]. by rewrite Hd, Hopt. }
  pose proof (len_nonneg rd). cbn [parseResourceRecords]. rewrite Hn. cbn [map_err obind]. rewrite (proj2 (Z.ltb_ge _ _)) by lia.
  assert (Hdd : data = (pre ++ [0]) ++ [b1; b2; b3; b4; b5; b6; b7; b8; b9; b10] ++ rd) by (by rewrite Hd, Hopt, <- (assoc_L (++))).
  assert (Hw : len (pre ++ [0]) = len pre + 1) by (rewrite len_app; done). rewrite <- Hw.
  assert (G : forall E i, 0 <= i -> get16 (E:=E) data (len (pre ++ [0]) + i) = get16 ([b1; b2; b3; b4; b5; b6; b7; b8; b9; b10] ++ rd) i)
    by (intros; rewrite Hdd; by apply get16_app_r).
  set (f := [b1; b2; b3; b4; b5; b6; b7; b8; b9; b10] ++ rd) in *.
  assert (F0 : get16 (E:=Z * dns_error) f 0 = Ok (of_be16 b1 b2)) by reflexivity.
  assert (F2 : get16 (E:=Z * dns_error) f 2 = Ok (of_be16 b3 b4)) by reflexivity.
  assert (F4 : get16 (E:=Z * dns_error) f 4 = Ok (of_be16 b5 b6)) by reflexivity.
  assert (F6 : get16 (E:=Z * dns_error) f (4 + 2) = Ok (of_be16 b7 b8)) by reflexivity.
  assert (F8 : get16 (E:=Z * dns_error) f 8 = Ok (len rd)) by (rewrite <- Hrd; reflexivity).
  pose proof (G (Z * dns_error)%type 0 ltac:(lia)) as G0. rewrite Z.add_0_r in G0. rewrite G0. unfold get32. rewrite <- Z.add_assoc, !G by lia.
  rewrite F0, F2, F4, F6, F8. cbn [obind]. pose proof (len_nonneg pre).
  rewrite (proj2 (Z.ltb_ge _ _)) by (rewrite Hw; lia). rewrite slice_ok by (rewrite ?Hw; lia). cbn [obind]. eexists. do 2 f_equal. rewrite Hw. lia.
Qed.

Lemma bytes_ok_wire_name ls : name_ok ls -> bytes_ok (wire_name ls).
Proof.
  intros [Hl _]. unfold wire_name. apply bytes_ok_app. split; [|repeat constructor; lia].
  induction Hl as [|l ls [Hlen Hb] _ IH]; [constructor|]. cbn [map concat]. apply bytes_ok_app. split; [|done].
  unfold wire_label. constructor; [unfold u8; lia|done].
Qed.

Lemma bytes_ok_records nb ptr ps : bytes_ok nb -> Forall bytes_ok ps -> forall first, bytes_ok (records first nb ptr ps).
Proof.
  intros Hn. induction 1 as [|p ps Hp _ IH]; intros first; [constructor|]. cbn [records]. unfold record_tail.
  repeat (apply bytes_ok_app; split); auto with go. 2: repeat constructor; lia. destruct first; auto with go.
Qed.

Lemma bytes_ok_message_header a b c d e f : bytes_ok (message_header a b c d e f).
Proof. unfold message_header. repeat (apply bytes_ok_app; split); auto with go. Qed.

Lemma bytes_ok_response ls h tc opt nb ps :
  bytes_ok (wire_name ls) -> bytes_ok tc -> (opt = [] \/ opt_record opt) -> bytes_ok nb -> Forall bytes_ok ps ->
  bytes_ok (response_bytes ls h tc opt nb ps).
Proof.
  intros Hn Hbt Hopt Hnb Hbp. unfold response_bytes. rewrite !bytes_ok_app. split_and!; auto using bytes_ok_message_header, bytes_ok_records.
  destruct Hopt as [->|(? & ? & ? & ? & ? & ? & ? & ? & ? & ? & ? & _ & _ & ?)]; [constructor|done].
Qed.

Lemma parse_question data hd_ ls tc post : bytes_ok data -> name_ok ls -> data = hd_ ++ wire_name ls ++ tc ++ post ->
  len hd_ = 12 -> len tc = 4 -> exists qs, parseQuestions data 1 12 = Ok (qs, 12 + len (wire_name ls) + 4).
Proof.
  intros Hb Hn Hd Hh Htc. pose proof (parseName_wire data hd_ ls (tc ++ post) Hn Hd) as Hp. rewrite Hh in Hp.
  cbn [parseQuestions]. rewrite Hp. cbn [map_err obind].
  pose proof (len_nonneg post). pose proof (len_nonneg (wire_name ls)).
  assert (Hld : len data = 12 + len (wire_name ls) + 4 + len post) by (rewrite Hd, !len_app; lia).
  rewrite (proj2 (Z.ltb_ge _ _)) by lia.
  destruct (get16_ok (E:=Z * dns_error) data (12 + len (wire_name ls)) Hb) as (t & -> & _); [lia..|].
  destruct (get16_ok (E:=Z * dns_error) data (12 + len (wire_name ls) + 2) Hb) as (c & -> & _); [lia..|]. cbn [obind]. eauto.
Qed.

Lemma parse_response ls h tc opt ls' ps :
  name_ok ls -> name_ok ls' -> u16 (hID h) -> u16 (hFlags h) -> len tc = 4 -> bytes_ok tc ->
  (opt = [] \/ opt_record opt) -> ps <> [] -> len ps < 65536 -> Forall (fun p => len p < 65536) ps -> Forall bytes_ok ps ->
  exists p nm, ParsePacket (response_bytes ls h tc opt (wire_name ls') ps) = Ok p /\
    Answers p = map (fun p => mkRR nm 16 1 0 (len p) p) ps.
Proof.
  intros Hn Hn' U1 U2 Htc Hbt Hopt Hne Hc Hps Hbp.
  assert (Hb : bytes_ok (response_bytes ls h tc opt (wire_name ls') ps)) by (apply bytes_ok_response; auto using bytes_ok_wire_name).
  pose proof (len_nonneg (wire_name ls)). assert (Hwl : len (wire_name ls) <= 255) by apply Hn. pose proof (len_nonneg ps).
  unfold response_bytes in *. set (e := 12 + len (wire_name ls) + 4) in *. set (f := buildResponseFlags (hFlags h) 0) in *.
  set (ar := getARCount (len opt)) in *. set (hd_ := message_header (hID h) f 1 (len ps) 0 ar) in *.
  set (recs := records true (wire_name ls') e ps) in *. set (data := hd_ ++ (wire_name ls ++ tc) ++ recs ++ opt) in *.
  assert (Hhl : len hd_ = 12) by done. assert (Uf : u16 f) by (apply (response_flags_u16 false); unfold u16 in U2; lia).
  assert (Har : u16 ar) by (unfold ar, getARCount, u16; case_if; lia).
  assert (Hdata : data = (hd_ ++ wire_name ls ++ tc) ++ recs ++ opt) by (unfold data; by rewrite <- !(assoc_L (++))).
  set (pre := hd_ ++ wire_name ls ++ tc) in *. assert (Hpre : len pre = e) by (unfold pre, e; rewrite !len_app; lia).
  unfold ParsePacket, dnsHeaderSize. pose proof (len_nonneg ((wire_name ls ++ tc) ++ recs ++ opt)).
  rewrite (proj2 (Z.ltb_ge (len data) 12)) by (unfold data; rewrite len_app; lia).
  unfold data at 1. unfold hd_ at 1. rewrite parseHeader_message by (done || unfold u16; lia).
  cbn [obind header_of hQDCount hANCount hNSCount hARCount]. change (Z.to_nat 1) with 1%nat. change (Z.to_nat 0) with 0%nat.
  destruct (parse_question data hd_ ls tc (recs ++ opt) Hb Hn ltac:(unfold data; by rewrite <- !(assoc_L (++))) Hhl Htc) as (qs & ->).
  fold e. cbn [map_err obind]. replace (Z.to_nat (len ps)) with (length ps) by (unfold len; lia). rewrite <- Hpre.
  destruct ps as [|p ps]; [done|]. set (pl := p :: ps) in *.
  assert (Hfirst : data = pre ++ wire_name ls' ++ (record_tail p ++ records false (wire_name ls') e ps) ++ opt).
  { rewrite Hdata. unfold recs, pl. cbn [records]. by rewrite <- !(assoc_L (++)). }
  rewrite (parse_records ls' data pre _ e Hn' Hfirst (eq_sym Hpre) ltac:(lia) Hb pl pre opt true Hps Hdata Hpre). cbn [map_err obind parseResourceRecords].
  fold recs. assert (Hend : len pre + len recs = len (pre ++ recs)) by (rewrite len_app; lia). rewrite Hend.
  assert (Hao : exists rs, parseResourceRecords data (Z.to_nat ar) (len (pre ++ recs)) = Ok (rs, len data)).
  { unfold ar, getARCount. destruct Hopt as [->|Hopt].
    - change (Z.to_nat _) with 0%nat. cbn [parseResourceRecords]. exists []. do 2 f_equal. by rewrite Hdata, app_nil_r.
    - assert (0 < len opt) by (destruct Hopt as (? & ? & ? & ? & ? & ? & ? & ? & ? & ? & ? & -> & _); unfold len; rewrite length_app; simpl; lia).
      rewrite (proj2 (Z.ltb_lt 0 _)) by done. change (Z.to_nat 1) with 1%nat. eapply parse_opt; [|done]. by rewrite Hdata, <- (assoc_L (++)). }
  destruct Hao as (rs & ->). cbn [map_err obind]. eexists _, _. split; [done|]. done.
Qed.

(** ** Reading the answers in any order *)

(** The part of the answers the client looks at. *)
Definition txt_data (p : DnsPacket) : list (Z * bytes) := map (fun r => (rType r, rRData r)) (Answers p).

Lemma extract_permuted be (rs : list ResourceRecord) raws :
  Forall (fun raw => raw <> []) raws ->
  map (fun r => (rType r, rRData r)) rs ≡ₚ map (fun raw => (16, txt_of be raw)) raws ->
  exists raws', raws' ≡ₚ raws /\ extractTXTAnswerPayloads rs = Ok (map (txt_body be) raws').
Proof.
  intros Hne Hp. apply Permutation_map_inv in Hp as (raws' & Heq & Hp). exists raws'. split; [done|].
  rewrite Hp in Hne. clear Hp. revert raws' Hne Heq. induction rs as [|r rs IH]; intros [|raw raws'] Hne Heq; try done.
  apply Forall_cons in Hne as [H1 Hne]. cbn [map] in Heq. injection Heq as Ht Hd Heq.
  cbn [extractTXTAnswerPayloads map]. rewrite Ht. change (16 =? DNS_RECORD_TYPE_TXT) with true. cbn [negb].
  rewrite Hd, extract_txt. cbn [obind]. rewrite (IH raws' Hne Heq). cbn [obind].
  destruct (Z.eqb_spec (len (txt_body be raw)) 0) as [H0|]; [|done]. exfalso. apply len_zero in H0.
  destruct be; [by apply b64_encode_nil in H0|done].
Qed.

Lemma bytes_ok_txt be raw : bytes_ok raw -> len raw <= chunk_max be -> bytes_ok (txt_of be raw).
Proof.
  intros Hb Hl. pose proof (len_txt_body be raw Hl). pose proof (len_nonneg (txt_body be raw)). unfold txt_of.
  constructor; [unfold u8; lia|]. destruct be; unfold txt_body; [|done].
  eapply Forall_impl; [apply b64_encode_text|]. simpl. unfold u8. lia.
Qed.

Lemma len_raw_chunk be o k : len (raw_chunk be o k) <= chunk_max be.
Proof.
  destruct (decide (k = 0)%nat) as [->|Hk]; [apply len_raw_chunk0|]. unfold raw_chunk. rewrite decide_False by done. rewrite len_cons.
  pose proof (data_bounds be o) as [_ Hd]. assert (Hn : next_data be = chunk_max be - 1) by done.
  rewrite list_lookup_total_alt. destruct (pieces be o !! k) as [p|] eqn:E; [|change (len (default inhabitant None)) with 0; lia]. simpl.
  destruct k as [|k]; [done|]. unfold pieces in E. simpl in E. unfold parts in E.
  pose proof (chunks_of_bounds (next_data be) ltac:(lia) (length (oPayload o)) (drop (Z.to_nat (first_data be o)) (oPayload o))) as Hf.
  rewrite Forall_forall in Hf. specialize (Hf p (list_elem_of_lookup_2 _ _ _ E)). lia.
Qed.

(** The records of a frame: one, or the numbered chunks. *)
Definition frame_records (be : bool) (o : BuildOptions) : list bytes :=
  if len (wire o) <=? chunk_max be then [wire o] else raw_chunks be o.

Lemma frame_records_ok be o : opts_ok o -> valid_type (oPacketType o) = true ->
  Forall (fun raw => raw <> []) (frame_records be o) /\ Forall (fun raw => len raw <= chunk_max be) (frame_records be o) /\
  Forall bytes_ok (frame_records be o).
Proof.
  intros Ho Hv. unfold frame_records. case_if; zbool.
  - rewrite !Forall_singleton. split_and!; [by unfold wire, header_bytes|done|by apply bytes_ok_wire].
  - unfold raw_chunks. split_and!; apply Forall_map, Forall_forall; intros k _.
    + apply raw_chunk_nonempty.
    + apply len_raw_chunk.
    + by apply bytes_ok_raw_chunk.
Qed.

Lemma pieces_count be o : len (oPayload o) <= 48000 -> chunk_max be < len (wire o) ->
  (2 <= length (pieces be o))%nat /\ len (pieces be o) <= 255.
Proof.
  intros Hl Hbig. pose proof (data_bounds be o) as [Hd1 Hd2]. assert (Hn : next_data be = chunk_max be - 1) by done.
  pose proof (header_len_bounds (oPacketType o)).
  assert (Hw : len (wire o) = header_len (packet_flags (oPacketType o)) + len (oPayload o))
    by (rewrite wire_parts, len_app, len_header_part; lia).
  assert (Hfd : first_data be o = chunk_max be - 2 - header_len (packet_flags (oPacketType o))) by done.
  assert (Hc : chunk_max be = 191 \/ chunk_max be = 255) by (destruct be; auto).
  pose proof (len_pieces be o ltac:(lia)) as Hp. rewrite Z.quot_div_nonneg in Hp by lia.
  assert (1 <= (len (oPayload o) - first_data be o + next_data be - 1) / next_data be) by (apply Z.div_le_lower_bound; lia).
  assert ((len (oPayload o) - first_data be o + next_data be - 1) / next_data be < 255) by (apply Z.div_lt_upper_bound; lia).
  unfold len in Hp at 1. split; [lia|]. unfold len. lia.
Qed.

Lemma assemble_records `{CP : Compressors} be o rs : opts_ok o -> valid_type (oPacketType o) = true -> len (oPayload o) <= 48000 ->
  rs ≡ₚ frame_records be o -> assembleVPNResponse (map (txt_body be) rs) be = inflate (packet_of o).
Proof.
  intros Ho Hv Hl. unfold frame_records. case_if; zbool; intros Hp.
  - apply Permutation_singleton_r in Hp as ->. cbn [map assembleVPNResponse]. rewrite decode_body by (by apply bytes_ok_wire). cbn [obind].
    unfold ParseInflated, wire. rewrite Parse_header, Hv, Z.eqb_refl by done. done.
  - destruct (pieces_count be o Hl ltac:(lia)). by apply assemble_any_order.
Qed.

Lemma build_response (be : bool) o query ls nm nb : plain_query query ls -> opts_ok o -> valid_type (oPacketType o) = true -> len (oPayload o) <= 48000 ->
  responseAnswerNameBytes query nm = Ok nb ->
  exists h tc opt, u16 (hID h) /\ u16 (hFlags h) /\ len tc = 4 /\ bytes_ok tc /\ (opt = [] \/ opt_record opt) /\
    (let maxChunk := if be then maxTXTEncodedChunk else maxTXTAnswerPayload in
     if len (wire o) <=? maxChunk then
       let! chunk := buildTXTAnswerChunk (wire o) be in buildSingleTXTResponsePacket query nm chunk
     else let! ps := buildTXTAnswerChunks (wire o) be in BuildTXTResponsePacket query nm ps) =
    Ok (response_bytes ls h tc opt nb (map (txt_of be) (frame_records be o))).
Proof.
  intros Q Ho Hv Hl Hnb. destruct (frame_records_ok be o Ho Hv) as (_ & Hmax & _). cbv zeta. fold (chunk_max be). unfold frame_records in *.
  assert (Hlt : forall raw, len raw <= chunk_max be -> len (txt_of be raw) < 65536)
    by (intros raw Hr; pose proof (len_txt_body be raw Hr); unfold txt_of; rewrite len_cons; lia).
  destruct (Z.leb_spec (len (wire o)) (chunk_max be)) as [Hs|Hbig].
  - rewrite buildTXTAnswerChunk_ok by done. cbn [obind].
    destruct (single_shape query ls Q nm nb (txt_of be (wire o)) Hnb ltac:(auto)) as (h & tc & opt & _ & H). exists h, tc, opt. tauto.
  - destruct (pieces_count be o Hl Hbig) as [H2 H255]. rewrite build_chunks by done. cbn [obind].
    assert (Hlen : len (map (txt_of be) (raw_chunks be o)) = len (pieces be o))
      by (unfold len, raw_chunks; by rewrite !length_map, length_seq).
    destruct (multi_shape query ls Q nm nb (map (txt_of be) (raw_chunks be o)) Hnb) as (h & tc & opt & _ & H).
    + rewrite Hlen. unfold len in *. lia.
    + apply Forall_map. eapply Forall_impl; [exact Hmax|]. simpl. auto.
    + exists h, tc, opt. tauto.
Qed.

(** The records of a response, under the header that [PreparePayload] chose. *)
Lemma vpn_response_records `{CP : Compressors} {CPL : CompressorLaws CP} (query name : bytes) (ls : list bytes)
    (packet : Packet) (be : bool) payload ct :
  plain_query query ls -> sameDNSName (dotted (map (map lower_byte) ls)) name = true ->
  opts_ok (opts_of packet) -> valid_type (PacketType packet) = true -> len (Payload packet) <= 48000 ->
  PreparePayload (PacketType packet) (Payload packet) (CompressionType packet) DefaultMinSize = (payload, ct) ->
  let o := with_payload (opts_of packet) ct payload in
  opts_ok o /\ len payload <= 48000 /\ frame_records be o <> [] /\
  exists response full, BuildVPNResponsePacket query name packet be = Ok response /\ ParsePacket response = Ok full /\
    txt_data full = map (fun raw => (16, txt_of be raw)) (frame_records be o).
Proof.
  intros Q Hname Ho Hv Hl Hprep o'.
  assert (Hnb : responseAnswerNameBytes query name = Ok (wire_name ls)) by (by rewrite (answer_name query ls Q), Hname).
  destruct (prepare_inflate (opts_of packet) DefaultMinSize payload ct Ho ltac:(unfold maxDecompressedSize; simpl; lia) Hprep) as (Ho' & Hlen & Hct & Hinf).
  fold o' in Ho'. assert (Hl' : len (oPayload o') <= 48000) by (simpl in *; lia).
  assert (Hv' : valid_type (oPacketType o') = true) by done.
  destruct (build_response be o' query ls name (wire_name ls) Q Ho' Hv' Hl' Hnb) as (h & tc & opt & U1 & U2 & Htc & Hbt & Hopt & Hbuild).
  destruct (frame_records_ok be o' Ho' Hv') as (Hne & Hmax & Hbr). set (raws := frame_records be o') in *.
  assert (Hraws : raws <> [] /\ len raws < 65536).
  { unfold raws, frame_records. case_if; [done|]. zbool. destruct (pieces_count be o' Hl' ltac:(lia)) as [H2 H255].
    split; [by rewrite raw_chunks_cons|]. unfold raw_chunks, len in *. rewrite length_map, length_seq. lia. }
  split; [done|]. split; [done|]. split; [apply Hraws|].
  destruct (parse_response ls h tc opt ls (map (txt_of be) raws)) as (full & nm & Hparse & Hans); try done.
  - apply Q.
  - apply Q.
  - destruct raws; [tauto|done].
  - unfold len in *. rewrite length_map. lia.
  - apply Forall_map. eapply Forall_impl; [exact Hmax|]. intros raw Hr. pose proof (len_txt_body be raw Hr). simpl. unfold txt_of. rewrite len_cons. lia.
  - apply Forall_map. rewrite Forall_forall in Hbr, Hmax |- *. intros raw Hr. by apply bytes_ok_txt; auto.
  - eexists _, full. split; [|split; [exact Hparse|]].
    + unfold BuildVPNResponsePacket, BuildRawAuto.
      change (PreparePayload (oPacketType (opts_of packet)) (oPayload (opts_of packet)) (oCompressionType (opts_of packet)) DefaultMinSize)
        with (PreparePayload (PacketType packet) (Payload packet) (CompressionType packet) DefaultMinSize).
      rewrite Hprep. change (mkBuildOptions _ _ _ _ _ _ _ _ _) with o'.
      rewrite BuildRaw_wire, Hv' by apply Ho'. cbn [map_err obind]. exact Hbuild.
    + unfold txt_data. by rewrite Hans, !map_map.
Qed.

(** The client reads a message with the data of these records. *)
Lemma extract_message `{CP : Compressors} message full' be mode raws : raws <> [] -> Forall (fun raw => raw <> []) raws ->
  ParsePacket message = Ok full' -> txt_data full' ≡ₚ map (fun raw => (16, txt_of be raw)) raws ->
  exists raws', raws' ≡ₚ raws /\ ExtractVPNResponse message mode = assembleVPNResponse (map (txt_body be) raws') mode.
Proof.
  intros Hn Hne Hm Hp. destruct (extract_permuted be (Answers full') raws Hne Hp) as (raws' & Hp' & Hex).
  exists raws'. split; [done|]. unfold ExtractVPNResponse. rewrite Hm. cbn [map_err obind]. rewrite Hex. cbn [obind].
  destruct raws'; [by apply Permutation_nil_l in Hp'|done].
Qed.

(** The downstream round trip, for the theorems on the server. *)
Lemma vpn_response_ok `{CP : Compressors} {CPL : CompressorLaws CP} (query name : bytes) (ls : list bytes)
    (packet : Packet) (be : bool) :
  plain_query query ls -> sameDNSName (dotted (map (map lower_byte) ls)) name = true ->
  opts_ok (opts_of packet) -> valid_type (PacketType packet) = true -> len (Payload packet) <= 48000 ->
  exists response full ct,
    BuildVPNResponsePacket query name packet be = Ok response /\ ParsePacket response = Ok full /\
    (ct = TypeOff \/ ct = CompressionType packet) /\
    forall message full', ParsePacket message = Ok full' -> txt_data full' ≡ₚ txt_data full ->
      ExtractVPNResponse message be = Ok (packet_of (with_payload (opts_of packet) ct (Payload packet))).
Proof.
  intros Q Hname Ho Hv Hl. destruct (PreparePayload (PacketType packet) (Payload packet) (CompressionType packet) DefaultMinSize) as [payload ct] eqn:Hprep.
  destruct (vpn_response_records query name ls packet be payload ct Q Hname Ho Hv Hl Hprep) as (Ho' & Hl' & Hn & response & full & Hb & Hp & Ht).
  destruct (prepare_inflate (opts_of packet) DefaultMinSize payload ct Ho ltac:(unfold maxDecompressedSize; simpl; lia) Hprep) as (_ & _ & Hct & Hinf).
  exists response, full, ct. split_and!; [done|done|done|]. intros message full' Hm Hperm. rewrite Ht in Hperm.
  destruct (frame_records_ok be (with_payload (opts_of packet) ct payload) Ho' Hv) as (Hne & _ & _).
  destruct (extract_message message full' be be _ Hn Hne Hm Hperm) as (raws' & Hp' & ->).
  rewrite (assemble_records be _ raws' Ho' Hv Hl' Hp'). unfold inflate. by rewrite Hinf.
Qed.

(** C9: Downstream round trip.  The server answers any plain query under the name it
    parsed from it with a packet of any valid type and up to 48000 bytes of payload,
    compressed or not, base64 or raw, in one TXT record or split over many.  The
    response is a DNS message, and from every message that carries the same TXT data,
    in whatever order a resolver returns the records, the client gets the packet back
    with all its fields and its payload.  (The compression type reads as off when
    compressing did not help.) *)
Theorem vpn_response_roundtrip `{CP : Compressors} {CPL : CompressorLaws CP} (query name : bytes) (ls : list bytes)
    (packet : Packet) (be : bool) :
  plain_query query ls -> sameDNSName (dotted (map (map lower_byte) ls)) name = true ->
  opts_ok (opts_of packet) -> valid_type (PacketType packet) = true -> len (Payload packet) <= 48000 ->
  exists response full ct,
    BuildVPNResponsePacket query name packet be = Ok response /\ ParsePacket response = Ok full /\
    (ct = TypeOff \/ ct = CompressionType packet) /\
    forall message full', ParsePacket message = Ok full' -> txt_data full' ≡ₚ txt_data full ->
      ExtractVPNResponse message be = Ok (packet_of (with_payload (opts_of packet) ct (Payload packet))).
Proof. apply vpn_response_ok. Qed.

(** The sample query, answered with 300 bytes: two raw records, or two base64 ones. *)
Lemma sample_plain : plain_query sample_query [[65]; [98]].
Proof.
  split.
  - exact sample_query_ok.
  - split; [|vm_compute; congruence]. repeat constructor; vm_compute; congruence.
  - done.
  - exists (message_header 7 256 1 0 0 1), [0; 16; 0; 1], [0; 0; 41; 16; 0; 0; 0; 0; 0; 0; 0]. done.
  - reflexivity.
  - intros h s l Hh Hf _. injection Hh as <-. vm_compute in Hf. injection Hf as <- <-. reflexivity.
Qed.

Definition sample_packet : Packet :=
  mkPacket 7 PACKET_STREAM_DATA 99 true 513 true 9 true 0 1 true 0 0 (replicate 300 5).

Lemma vpn_response_roundtrip_witness :
  exists response, BuildVPNResponsePacket (CP := rle_compressors) sample_query [65; 46; 66; 46] sample_packet true = Ok response /\
    exists p, ExtractVPNResponse (CP := rle_compressors) response true = Ok p /\ Payload p = replicate 300 5 /\ SequenceNum p = 9.
Proof.
  destruct (vpn_response_roundtrip (CP := rle_compressors) sample_query [65; 46; 66; 46] [[65]; [98]] sample_packet true) as
    (response & full & ct & Hb & Hp & Hct & Hx).
  - exact sample_plain.
  - reflexivity.
  - unfold opts_ok, opts_of, sample_packet, u8, u16, PACKET_STREAM_DATA; simpl. split_and!; try lia. repeat constructor; lia.
  - reflexivity.
  - vm_compute. discriminate.
  - exists response. split; [exact Hb|]. specialize (Hx response full Hp (Permutation_refl _)).
    eexists. split; [exact Hx|]. split; reflexivity.
Defined.

(** ** No datagram stops the client or the server *)

Lemma slice_bytes {E} (l : bytes) a b x : bytes_ok l -> slice (E:=E) l a b = Ok x -> bytes_ok x.
Proof. intros Hl. unfold slice. case_if; [|done]. intros [= <-]. by apply Forall_take, Forall_drop. Qed.

Lemma records_bytes_ok data count : bytes_ok data -> forall offset rs n, parseResourceRecords data count offset = Ok (rs, n) ->
  Forall (fun r => bytes_ok (rRData r)) rs.
Proof.
  intros Hb. induction count as [|count IH]; intros offset rs n; cbn [parseResourceRecords]; [intros [= <- _]; constructor|].
  intros ([s m] & _ & Hr)%obind_ok_inv. destruct (len data <? m + 10); [done|].
  do 4 apply obind_ok_inv in Hr as (? & _ & Hr). case_if; [done|]. apply obind_ok_inv in Hr as (rd & Hrd & Hr).
  apply obind_ok_inv in Hr as ([rs' n'] & Hrs & [= <- <-]). constructor; [by eapply slice_bytes|by eapply IH].
Qed.

Lemma copy_adv_ok (l src : bytes) off : 0 <= off -> off + len src <= len l -> bytes_ok l -> bytes_ok src ->
  exists l', copy_adv (E:=transport_error) l off src = Ok (l', off + len src) /\ len l' = len l /\ bytes_ok l'.
Proof.
  intros Ho Hl Hb Hs. pose proof (len_nonneg src). unfold copy_adv, copy_at. rewrite (proj2 (Z.leb_le 0 off)), (proj2 (Z.leb_le off (len l))) by lia.
  cbn [andb obind]. rewrite Z.min_r by lia. eexists. split; [done|].
  replace (Nat.min (length l - Z.to_nat off) (length src)) with (length src) by (unfold len in *; lia). rewrite firstn_all. split.
  - rewrite !len_app. unfold len in *. rewrite length_take, length_drop. lia.
  - rewrite !bytes_ok_app. split_and!; [by apply Forall_take|done|by apply Forall_drop].
Qed.

Lemma txt_loops rData : bytes_ok rData -> forall fuel offset, 0 <= offset ->
  exists k, 0 <= k /\ (forall t, txt_total fuel rData offset t = Ok (t + k)) /\
    forall out wo, 0 <= wo -> len out = wo + k -> bytes_ok out -> exists r, txt_copy fuel rData offset out wo = Ok r /\ bytes_ok r.
Proof.
  intros Hb. induction fuel as [|fuel IH]; intros offset Ho; cbn [txt_total txt_copy].
  { exists 0. split; [lia|]. split; [intros; f_equal; lia|eauto]. }
  destruct (Z.ltb_spec offset (len rData)) as [Hlt|]; [|exists 0; split; [lia|]; split; [intros; f_equal; lia|eauto]].
  destruct (at_ok (E:=transport_error) rData offset) as (size & Hs & _); [lia|]. pose proof (at_u8 _ _ _ Hb Hs) as Hu. unfold u8 in Hu.
  rewrite Hs. cbn [obind]. destruct (Z.eqb_spec size 0); [apply IH; lia|]. destruct (Z.ltb_spec (len rData) (offset + 1 + size)).
  - exists (len rData - (offset + 1)). split; [lia|]. split; [done|]. intros out wo Hw Hl Hbo. rewrite slice_ok by lia. cbn [obind].
    set (rest := take _ _). assert (Hr : len rest = len rData - (offset + 1)) by (unfold rest, len in *; rewrite length_take, length_drop; lia).
    destruct (copy_adv_ok out rest wo Hw ltac:(lia) Hbo) as (l' & Hc & _ & Hbl); [by apply Forall_take, Forall_drop|].
    unfold copy_adv in Hc. destruct (copy_at out wo rest) as [x|e|]; [|done..]. injection Hc as -> _. eauto.
  - destruct (IH (offset + 1 + size) ltac:(lia)) as (k & Hk & Ht & Hc). exists (size + k). split; [lia|].
    split; [intros t; rewrite Ht; f_equal; lia|]. intros out wo Hw Hl Hbo. rewrite slice_ok by lia. cbn [obind].
    set (part := take _ _). assert (Hp : len part = size) by (unfold part, len in *; rewrite length_take, length_drop; lia).
    destruct (copy_adv_ok out part wo Hw ltac:(lia) Hbo) as (l' & -> & Hl' & Hbl); [by apply Forall_take, Forall_drop|]. cbn [obind].
    apply Hc; [lia|lia|done].
Qed.

Lemma bytes_ok_make n : bytes_ok (make_bytes n).
Proof. apply Forall_replicate. unfold u8. lia. Qed.

Lemma extractTXTBytes_total rData : bytes_ok rData -> exists r, extractTXTBytes rData = Ok r /\ bytes_ok r.
Proof.
  intros Hb. unfold extractTXTBytes. destruct (Z.eqb_spec (len rData) 0) as [|Hne]; [eexists; split; [done|constructor]|].
  pose proof (len_nonneg rData). destruct (at_ok (E:=transport_error) rData 0) as (b0 & -> & _); [lia|]. cbn [obind].
  case_if. { rewrite slice_ok by lia. eexists. split; [done|]. by apply Forall_take, Forall_drop. }
  destruct (txt_loops rData Hb (length rData) 0 ltac:(lia)) as (k & Hk & Ht & Hc). rewrite Ht. cbn [obind].
  case_if; [eexists; split; [done|constructor]|]. apply Hc; [lia|by rewrite len_make_bytes by lia|apply bytes_ok_make].
Qed.

Lemma extractAnswers_total rs : Forall (fun r => bytes_ok (rRData r)) rs ->
  exists raws, extractTXTAnswerPayloads rs = Ok raws /\ Forall bytes_ok raws.
Proof.
  induction 1 as [|r rs Hr _ (raws & IH & Hb)]; cbn [extractTXTAnswerPayloads]; [by exists []|]. case_if; [eauto|].
  destruct (extractTXTBytes_total _ Hr) as (raw & -> & Hraw). cbn [obind]. rewrite IH. cbn [obind]. case_if; eauto.
Qed.

Lemma b64_quanta_bytes : forall l r, b64_quanta l = Some r -> bytes_ok r.
Proof.
  fix IH 1. intros [|c0 [|c1 [|c2 [|c3 l]]]] r; cbn [b64_quanta]; intros H; simplify_option_eq;
    repeat (apply List.Forall_cons; [apply u8_wrap8|]); first [by constructor|eapply IH; eassumption].
Qed.

Lemma decode_total be raw : bytes_ok raw -> is_panic (decode_answer be raw) = false /\ forall r, decode_answer be raw = Ok r -> bytes_ok r.
Proof.
  intros Hb. unfold decode_answer. destruct be; [|split; [done|]; by intros r [= <-]]. unfold DecodeRawBase64.
  case_if; [split; [done|]; intros r [= <-]; constructor|]. unfold b64_decode. destruct (b64_quanta _) as [x|] eqn:E; [|done].
  split; [done|]. intros r [= <-]. by eapply b64_quanta_bytes.
Qed.

Lemma note_total s i p : len (chunks s) = 256 -> 0 <= i < 256 -> exists cs n, note_chunk s i p = Ok (cs, n) /\ len cs = 256.
Proof.
  intros Hl Hi. unfold note_chunk. destruct (at_ok (E:=transport_error) (chunks s) i) as (x & -> & _); [lia|]. cbn [obind].
  rewrite put_ok by lia. cbn [obind]. eexists _, _. split; [done|]. unfold len in *. rewrite length_insert. lia.
Qed.

Lemma assemble_one_total be s raw : len (chunks s) = 256 -> bytes_ok raw ->
  is_panic (assemble_one be s raw) = false /\ forall s', assemble_one be s raw = Ok s' -> len (chunks s') = 256.
Proof.
  intros Hl Hb. unfold assemble_one. destruct (decode_total be raw Hb) as [Hp Hd].
  destruct (decode_answer be raw) as [r|e|]; [|done..]. specialize (Hd r eq_refl). cbn [obind].
  destruct (Z.eqb_spec (len r) 0) as [|Hne]; [split; [done|]; by intros s' [= <-]|]. pose proof (len_nonneg r).
  destruct (at_ok (E:=transport_error) r 0) as (b0 & Hb0 & _); [lia|]. pose proof (at_u8 _ _ _ Hd Hb0) as Hu. unfold u8 in Hu.
  rewrite Hb0. cbn [obind]. rewrite Hl. case_if.
  - destruct (Z.ltb_spec (len r) 3); [done|]. destruct (at_ok (E:=transport_error) r 1) as (t & -> & _); [lia|]. cbn [obind].
    case_if; [done|]. pose proof (ParseAtOffset_total r 2 Hd) as Hpt. destruct (ParseAtOffset r 2) as [pk|e|]; [|done..]. cbn [map_err obind].
    destruct (note_total s 0 (Payload pk) Hl ltac:(lia)) as (cs & n & -> & Hcs). cbn [obind]. split; [done|]. by intros s' [= <-].
  - case_if; [done|]. rewrite slice_ok by lia. cbn [obind].
    destruct (note_total s b0 (take (Z.to_nat (len r - 1)) (drop (Z.to_nat 1) r)) Hl ltac:(lia)) as (cs & n & -> & Hcs). cbn [obind].
    split; [done|]. by intros s' [= <-].
Qed.

Lemma assemble_all_total be raws : Forall bytes_ok raws -> forall s, len (chunks s) = 256 -> is_panic (assemble_all be s raws) = false.
Proof.
  induction 1 as [|raw raws Hr _ IH]; intros s Hl; [done|]. cbn [assemble_all]. destruct (assemble_one_total be s raw Hl Hr) as [Hp Hn].
  destruct (assemble_one be s raw) as [s'|e|]; [|done..]. cbn [obind]. apply IH. by apply Hn.
Qed.

Lemma inflate_total `{CP : Compressors} p : is_panic (inflate p) = false.
Proof. unfold inflate, InflatePayload. case_if; [done|]. by destruct (TryDecompressPayload _ _). Qed.

Lemma assemble_finish_total `{CP : Compressors} s : is_panic (assemble_finish s) = false.
Proof. unfold assemble_finish. destruct (header s); [|done]. case_if; [done|]. do 2 (destruct (existsb _ _); [done|]). apply inflate_total. Qed.

Lemma ExtractVPNResponse_total `{CP : Compressors} data be : bytes_ok data -> is_panic (ExtractVPNResponse data be) = false.
Proof.
  intros Hb. unfold ExtractVPNResponse. pose proof (proj1 (parsers_total data Hb)) as Hp.
  destruct (ParsePacket data) as [full|e|] eqn:Ef; [|done..]. cbn [map_err obind].
  assert (Hr : Forall (fun r => bytes_ok (rRData r)) (Answers full)).
  { unfold ParsePacket in Ef. case_if; [done|]. apply obind_ok_inv in Ef as (h & _ & Ef). apply obind_ok_inv in Ef as ([qs n] & _ & Ef).
    apply obind_ok_inv in Ef as ([rs1 n1] & H1 & Ef). apply obind_ok_inv in Ef as ([rs2 n2] & _ & Ef).
    apply obind_ok_inv in Ef as ([rs3 n3] & _ & [= <-]). cbn [Answers].
    destruct (parseResourceRecords data _ n) as [[rs m]|e|] eqn:E1; [|done..]. injection H1 as <- _. by eapply records_bytes_ok. }
  destruct (extractAnswers_total _ Hr) as (raws & -> & Hraws). cbn [obind]. destruct raws as [|raw [|raw2 raws]]; [done| |].
  - apply Forall_cons in Hraws as [Hraw _]. cbn [assembleVPNResponse]. destruct (decode_total be raw Hraw) as [Hd1 Hd2].
    destruct (decode_answer be raw) as [r|e|]; [|done..]. cbn [obind]. unfold ParseInflated, Parse.
    pose proof (ParseAtOffset_total r 0 (Hd2 r eq_refl)) as Hpt. destruct (ParseAtOffset r 0) as [pk|e|]; [|done..]. cbn [obind].
    pose proof (inflate_total pk) as Hi. unfold inflate in Hi. exact Hi.
  - unfold assembleVPNResponse. pose proof (assemble_all_total be _ Hraws assemble_start eq_refl) as Ha.
    destruct (assemble_all be assemble_start (raw :: raw2 :: raws)) as [s|e|]; [|done..]. cbn [obind]. apply assemble_finish_total.
Qed.

(** C11: No datagram stops either side.  On every datagram, also one whose names have
    pointers in a circle or whose TXT chunks contradict each other, the parsers, the
    response builder of the server and the client's extraction of a tunnel packet
    return a value or one of the declared errors: no walk over a name runs on, no index
    or slice is out of range. *)
Theorem dns_input_total `{CP : Compressors} (data : bytes) (rcode : Z) (be : bool) :
  bytes_ok data ->
  is_panic (ParsePacket data) = false /\ is_panic (ParsePacketLite data) = false /\
  is_panic (ParseDNSRequestLite data) = false /\ is_panic (ParseDNSDatagramLite data) = false /\
  is_panic (buildResponseWithRCode data rcode) = false /\ is_panic (ExtractVPNResponse data be) = false.
Proof.
  intros Hb. destruct (parsers_total data Hb) as (H1 & H2 & H3 & H4).
  split_and!; auto using buildResponseWithRCode_total, ExtractVPNResponse_total.
Qed.

(** A query whose name is a label followed by a pointer to that label. *)
Definition looping_query : bytes := message_header 7 256 1 0 0 0 ++ [1; 97; 192; 12; 0; 16; 0; 1].

Lemma dns_input_total_witness : is_panic (ParsePacket looping_query) = false /\ ParsePacket looping_query = Err ErrInvalidQuestion.
Proof.
  split; [apply (dns_input_total (CP := rle_compressors) looping_query 0 false)|vm_compute; reflexivity].
  repeat constructor; vm_compute; congruence.
Defined.
