(* ===== verification/DomainMatcher.v ===== *)
(** The tunnel domains of the server: [masterdns/internal/domainmatcher/matcher.go].

    The configured domains are normalised, sorted and put into a trie of labels, read from
    the last label to the first; [Match] classifies a parsed request by the deepest domain
    the trie knows on the way through its name.  The theorem compares the trie with a scan
    over the sorted list.

    A [domainNode] is only reachable from its parent, so the nodes are values of a tree
    whose children are a map from labels; a nil map is the empty one and the nil root of an
    empty configuration is [None].  [sort.Slice] runs on distinct domains with a total
    order, so its result does not depend on the map's iteration order. *)

From stdpp Require Import base tactics list gmap sorting.
From Stdlib Require Import ZArith Lia.
From S2P Require Import Prelude Enums DnsParser DnsTransport.

(** ** Data *)

Inductive Action := ActionFormatError | ActionNoData | ActionProcess.

Inductive reason :=
  | missing_question | empty_qname | unauthorized_domain | unsupported_qtype
  | missing_vpn_labels | labels_too_short | matched_vpn_domain.

Record Decision := mkDecision {
  dAction : Action;
  dReason : reason;
  dQuestion : Question;
  RequestName : bytes;
  BaseDomain : bytes;
  Labels : bytes;
  QuestionType : Z
}.

Inductive domainNode := Node (children : gmap bytes domainNode) (domain : bytes).

Definition children (n : domainNode) : gmap bytes domainNode := let 'Node c _ := n in c.
Definition domain (n : domainNode) : bytes := let 'Node _ d := n in d.
Definition empty_node : domainNode := Node ∅ [].

Record Matcher := mkMatcher {
  allowedDomains : list bytes;
  root : option domainNode;
  minLabelLength : Z
}.

(** ** Strings *)

(** [strings.LastIndexByte]: the last position of [c], or -1. *)
Fixpoint LastIndexByte (s : bytes) (c : Z) : Z :=
  match s with
  | [] => -1
  | x :: s =>
      let r := LastIndexByte s c in
      if 0 <=? r then r + 1 else if x =? c then 0 else -1
  end.

(** [s < t] on strings. *)
Fixpoint string_lt (s t : bytes) : bool :=
  match s, t with
  | _, [] => false
  | [], _ :: _ => true
  | a :: s, b :: t => if a =? b then string_lt s t else a <? b
  end.

Definition normalizeDomain (d : bytes) : bytes := trim_dot (ToLower (TrimSpace d)).

Definition normalizeParsedDomain (d : bytes) : bytes := trim_dot d.

Definition stripLabelDots (labels : bytes) : bytes := filter (fun c => c <> 46) labels.

(** ** Building *)

(** The order of [sort.Slice]: longer first, then by bytes. *)
Definition domain_less (s t : bytes) : bool := if len s =? len t then string_lt s t else len t <? len s.

Definition sort_le (s t : bytes) : Prop := domain_less t s = false.

#[global] Instance sort_le_dec : RelDecision sort_le := fun s t => bool_eq_dec _ _.

Definition normalizeDomains (domains : list bytes) : list bytes :=
  let unique : gset bytes := list_to_set (filter (fun d => d <> [] /\ d <> [46]) (map normalizeDomain domains)) in
  merge_sort sort_le (elements unique).

(** The inner loop of [buildDomainTrie] for one domain. *)
Fixpoint insert_domain (fuel : nat) (d : bytes) (offset : Z) (node : domainNode) : domainNode :=
  match fuel with
  | O => node
  | S fuel =>
      if 0 <? offset then
        let start := LastIndexByte (take (Z.to_nat offset) d) 46 in
        let labelStart := start + 1 in
        let label := take (Z.to_nat (offset - labelStart)) (drop (Z.to_nat labelStart) d) in
        let child := default empty_node (children node !! label) in
        let child := if start <? 0 then Node (children child) d else insert_domain fuel d start child in
        Node (<[label := child]> (children node)) (domain node)
      else Node (children node) d
  end.

Definition buildDomainTrie (domains : list bytes) : option domainNode :=
  if bool_decide (domains = []) then None
  else Some (fold_left (fun node d => insert_domain (S (length d)) d (len d) node) domains empty_node).

Definition New (domains : list bytes) (minLabelLength : Z) : Matcher :=
  let normalized := normalizeDomains domains in
  mkMatcher normalized (buildDomainTrie normalized) (if minLabelLength <? 1 then 3 else minLabelLength).

Definition Domains (m : Matcher) : list bytes := allowedDomains m.

(** ** Matching *)

(** The loop of [findAllowedDomain]: the base domain and [matchedPos]. *)
Fixpoint find_loop (fuel : nat) (name : bytes) (node : domainNode) (offset : Z) (baseDomain : bytes) (matchedPos : Z) : bytes * Z :=
  match fuel with
  | O => (baseDomain, matchedPos)
  | S fuel =>
      if 0 <? offset then
        let start := LastIndexByte (take (Z.to_nat offset) name) 46 in
        let labelStart := start + 1 in
        match children node !! take (Z.to_nat (offset - labelStart)) (drop (Z.to_nat labelStart) name) with
        | None => (baseDomain, matchedPos)
        | Some node =>
            let '(baseDomain, matchedPos) :=
              if bool_decide (domain node = []) then (baseDomain, matchedPos) else (domain node, labelStart) in
            if start <? 0 then (baseDomain, matchedPos) else find_loop fuel name node start baseDomain matchedPos
        end
      else (baseDomain, matchedPos)
  end.

(** [None] is [matched = false]. *)
Definition findAllowedDomain (requestName : bytes) (root : option domainNode) : option (bytes * bytes) :=
  match root with
  | None => None
  | Some root =>
      if bool_decide (requestName = []) then None
      else
        let '(baseDomain, matchedPos) := find_loop (S (length requestName)) requestName root (len requestName) [] (-1) in
        if matchedPos <? 0 then None
        else if matchedPos =? 0 then Some (baseDomain, [])
        else Some (baseDomain, stripLabelDots (take (Z.to_nat (matchedPos - 1)) requestName))
  end.

Definition Match (m : Matcher) (parsed : LitePacket) : Decision :=
  if negb (HasQuestion parsed) then mkDecision ActionFormatError missing_question no_question [] [] [] 0
  else
    let q0 := FirstQuestion parsed in
    let requestName := normalizeParsedDomain (qName q0) in
    if bool_decide (requestName = []) || bool_decide (requestName = [46]) then
      mkDecision ActionFormatError empty_qname no_question [] [] [] 0
    else
      match findAllowedDomain requestName (root m) with
      | None => mkDecision ActionNoData unauthorized_domain q0 requestName [] [] (qType q0)
      | Some (baseDomain, labels) =>
          if negb (qType q0 =? DNS_RECORD_TYPE_TXT) then
            mkDecision ActionNoData unsupported_qtype q0 requestName baseDomain [] (qType q0)
          else if bool_decide (labels = []) then
            mkDecision ActionNoData missing_vpn_labels q0 requestName baseDomain [] (qType q0)
          else if len labels <? minLabelLength m then
            mkDecision ActionNoData labels_too_short q0 requestName baseDomain labels (qType q0)
          else mkDecision ActionProcess matched_vpn_domain q0 requestName baseDomain labels (qType q0)
      end.

(** ** The labels of a name *)

Lemma LastIndexByte_free s : dot_free s -> LastIndexByte s 46 = -1.
Proof. induction 1 as [|c s Hc _ IH]; [done|]. cbn [LastIndexByte]. rewrite IH. cbn. by rewrite (proj2 (Z.eqb_neq c 46)). Qed.

Lemma LastIndexByte_last p s : dot_free s -> LastIndexByte (p ++ 46 :: s) 46 = len p.
Proof.
  intros Hs. induction p as [|c p IH]; cbn [app LastIndexByte]; [by rewrite LastIndexByte_free|].
  rewrite IH, len_cons. pose proof (len_nonneg p). rewrite (proj2 (Z.leb_le 0 (len p))) by lia. lia.
Qed.

Fixpoint split_dots (s : bytes) : list bytes :=
  match s with
  | [] => [[]]
  | c :: s =>
      if c =? 46 then [] :: split_dots s
      else match split_dots s with l :: ls => (c :: l) :: ls | [] => [[c]] end
  end.

Lemma split_dots_nonempty s : split_dots s <> [].
Proof. destruct s as [|c s]; cbn [split_dots]; [done|]. case_if; [done|]. by destruct (split_dots s). Qed.

Lemma split_dots_free s : Forall dot_free (split_dots s).
Proof.
  induction s as [|c s IH]; cbn [split_dots]; [repeat constructor|]. destruct (Z.eqb_spec c 46); [by repeat constructor|].
  destruct (split_dots s) as [|l ls]; [by repeat constructor|]. apply Forall_cons in IH as [Hl Hls]. constructor; [by constructor|done].
Qed.

Lemma dotted_split s : dotted (split_dots s) = s.
Proof.
  induction s as [|c s IH]; [done|]. cbn [split_dots]. pose proof (split_dots_nonempty s) as Hne. destruct (Z.eqb_spec c 46) as [->|].
  - cbn [dotted]. destruct (split_dots s); [done|]. by rewrite IH.
  - destruct (split_dots s) as [|l ls]; [done|]. rewrite <- IH. by destruct ls.
Qed.

Lemma split_dots_app l s : dot_free l -> split_dots (l ++ 46 :: s) = l :: split_dots s.
Proof. induction 1 as [|c l Hc _ IH]; [done|]. cbn [app split_dots]. by rewrite (proj2 (Z.eqb_neq c 46)), IH. Qed.

Lemma split_dots_free_id l : dot_free l -> split_dots l = [l].
Proof. induction 1 as [|c l Hc _ IH]; [done|]. cbn [split_dots]. by rewrite (proj2 (Z.eqb_neq c 46)), IH. Qed.

Lemma split_dotted ls : ls <> [] -> Forall dot_free ls -> split_dots (dotted ls) = ls.
Proof.
  intros Hne Hf. induction Hf as [|l ls Hl Hls IH]; [done|]. destruct ls as [|l' ls]; [by apply split_dots_free_id|].
  cbn [dotted]. rewrite split_dots_app by done. f_equal. by apply IH.
Qed.

Lemma dotted_app xs ys : xs <> [] -> ys <> [] -> dotted (xs ++ ys) = dotted xs ++ 46 :: dotted ys.
Proof.
  intros Hx Hy. induction xs as [|x xs IH]; [done|]. destruct xs as [|x' xs].
  - cbn [app dotted]. by destruct ys.
  - cbn [app dotted] in *. rewrite IH by done. by rewrite <- (assoc_L (++)).
Qed.

(** ** The trie as a map from paths of labels to domains *)

Fixpoint get (node : domainNode) (path : list bytes) : bytes :=
  match path with
  | [] => domain node
  | l :: path => match children node !! l with Some child => get child path | None => [] end
  end.

Fixpoint put_path (node : domainNode) (path : list bytes) (d : bytes) : domainNode :=
  match path with
  | [] => Node (children node) d
  | l :: path => Node (<[l := put_path (default empty_node (children node !! l)) path d]> (children node)) (domain node)
  end.

Lemma get_empty path : get empty_node path = [].
Proof. destruct path; [done|]. cbn [get]. change (children empty_node) with (∅ : gmap bytes domainNode). by rewrite lookup_empty. Qed.

Lemma get_put_path path q d node : get (put_path node path d) q = if decide (path = q) then d else get node q.
Proof.
  revert q node. induction path as [|l path IH]; intros q node; cbn [put_path].
  { destruct q; cbn [get domain children]; by case_decide. }
  destruct q as [|l' q]; cbn [get domain children]; [by case_decide|]. destruct (decide (l = l')) as [<-|Hne].
  - rewrite lookup_insert, decide_True, IH by done. destruct (decide (path = q)) as [->|]; [by rewrite decide_True|].
    rewrite decide_False by congruence. destruct (children node !! l); [done|]. apply get_empty.
  - rewrite lookup_insert_ne, decide_False by congruence. done.
Qed.

(** The labels of a domain from the last to the first; the loops do not visit an empty
    first label. *)
Definition path_of (segs : list bytes) : list bytes :=
  match segs with [] :: r => reverse r | _ => reverse segs end.

Lemma path_of_snoc pre l : pre <> [] -> path_of (pre ++ [l]) = l :: path_of pre.
Proof. intros Hne. destruct pre as [|[|c x] pre]; [done| |]; cbn [path_of app]; by rewrite ?reverse_snoc, <- ?(reverse_snoc (_ :: _)). Qed.

(** Where the last label of the first [len (dotted (pre ++ [l]))] bytes starts. *)
Lemma last_label pre l rest : Forall dot_free (pre ++ [l]) ->
  let s := dotted (pre ++ [l]) ++ rest in
  let start := LastIndexByte (take (Z.to_nat (len (dotted (pre ++ [l])))) s) 46 in
  start = (if bool_decide (pre = []) then -1 else len (dotted pre)) /\
  take (Z.to_nat (len (dotted (pre ++ [l])) - (start + 1))) (drop (Z.to_nat (start + 1)) s) = l.
Proof.
  intros Hf s start. assert (Hl : dot_free l) by (apply Forall_app in Hf as [_ Hl]; by inversion Hl). unfold start, s, len. rewrite Nat2Z.id, take_app_length.
  case_bool_decide as Hp.
  - subst pre. cbn [app dotted]. rewrite LastIndexByte_free by done. split; [done|].
    change (Z.to_nat (-1 + 1)) with 0%nat. rewrite drop_0. replace (Z.to_nat _) with (length l) by lia. apply take_app_length.
  - rewrite dotted_app by done. cbn [dotted]. rewrite LastIndexByte_last by done. split; [done|].
    replace (Z.to_nat (len (dotted pre) + 1)) with (length (dotted pre ++ [46])) by (rewrite length_app; unfold len; simpl; lia).
    replace ((dotted pre ++ 46 :: l) ++ rest) with ((dotted pre ++ [46]) ++ (l ++ rest)) by (rewrite <- !(assoc_L (++)); done).
    rewrite drop_app_length. replace (Z.to_nat _) with (length l); [apply take_app_length|].
    rewrite length_app. cbn [length]. unfold len. lia.
Qed.

Lemma dotted_pos pre l : pre <> [] -> 0 < len (dotted (pre ++ [l])) /\ len (dotted pre) < len (dotted (pre ++ [l])).
Proof. intros. rewrite dotted_app, len_app, len_cons by done. pose proof (len_nonneg (dotted pre)). pose proof (len_nonneg (dotted [l])). lia. Qed.

Lemma insert_domain_put d : forall segs rest fuel node, segs <> [] -> Forall dot_free segs -> d = dotted segs ++ rest ->
  (length (dotted segs) < fuel)%nat ->
  insert_domain fuel d (len (dotted segs)) node = put_path node (path_of segs) d.
Proof.
  induction segs as [|l pre IH] using rev_ind; intros rest fuel node Hne Hf Hd Hfuel; [done|].
  destruct fuel as [|fuel]; [lia|]. cbn [insert_domain].
  destruct (last_label pre l rest Hf) as [Hs Hl]. rewrite <- Hd in Hs, Hl. rewrite Hl. rewrite Hs.
  case_bool_decide as Hp.
  - subst pre. cbn [app dotted path_of] in *. destruct (Z.ltb_spec 0 (len l)) as [Hpos|Hz].
    + destruct l; [by vm_compute in Hpos|]. done.
    + destruct l; [done|]. rewrite len_cons in Hz. pose proof (len_nonneg l). lia.
  - destruct (dotted_pos pre l Hp) as [Hpos Hlt]. rewrite (proj2 (Z.ltb_lt _ _) Hpos). pose proof (len_nonneg (dotted pre)).
    rewrite (proj2 (Z.ltb_ge (len (dotted pre)) 0)) by lia. rewrite path_of_snoc by done. cbn [put_path].
    apply Forall_app in Hf as [Hf _]. rewrite (IH (46 :: l ++ rest)); [done|done|done| |unfold len in *; lia].
    rewrite Hd, dotted_app by done. by rewrite <- (assoc_L (++)).
Qed.

(** ** The walk through a name *)

(** Where the labels [x] of a name [y ++ x] start. *)
Definition pos (y : list bytes) : Z := if bool_decide (y = []) then 0 else len (dotted y) + 1.

(** What the walk over the labels [pre] from [node] finds: nothing below [node], or the
    domain at the longest path that has one. *)
Definition walk_result (node : domainNode) (pre : list bytes) (b : bytes) (mp : Z) (r : bytes * Z) : Prop :=
  (r = (b, mp) /\ forall y x, pre = y ++ x -> x <> [] -> get node (reverse x) = []) \/
  (exists y x, pre = y ++ x /\ x <> [] /\ get node (reverse x) <> [] /\ r = (get node (reverse x), pos y) /\
    forall y' x', pre = y' ++ x' -> (length x < length x')%nat -> get node (reverse x') = []).

(** No domain of the trie begins with a dot. *)
Definition no_dot_first (node : domainNode) : Prop := forall q, get node (q ++ [[]]) = [].

Lemma get_child node l child q : children node !! l = Some child -> get node (l :: q) = get child q.
Proof. intros H. cbn [get]. by rewrite H. Qed.

Lemma snoc_split (pre y x : list bytes) l : pre ++ [l] = y ++ x -> x <> [] -> exists x', x = x' ++ [l] /\ pre = y ++ x'.
Proof.
  intros H Hx. destruct x as [|l' x' _] using rev_ind; [done|]. rewrite (assoc_L (++)) in H.
  apply app_inj_tail in H as [-> <-]. eauto.
Qed.

(** One step: the last label has a child [child], and the walk goes on below it. *)
Lemma walk_step node child pre l b mp r : pre <> [] -> children node !! l = Some child ->
  (let '(b', mp') := if bool_decide (domain child = []) then (b, mp) else (domain child, pos pre) in walk_result child pre b' mp' r) ->
  walk_result node (pre ++ [l]) b mp r.
Proof.
  intros Hne Hc Hw.
  assert (Hdeep : forall y x, pre = y ++ x -> x <> [] -> get child (reverse x) <> [] -> r = (get child (reverse x), pos y) ->
    (forall y' x', pre = y' ++ x' -> (length x < length x')%nat -> get child (reverse x') = []) -> walk_result node (pre ++ [l]) b mp r).
  { intros y x -> Hx Hg Hr Hmax. right. exists y, (x ++ [l]). rewrite reverse_snoc, (get_child _ _ _ _ Hc), (assoc_L (++)).
    split_and!; [done|by destruct x|done|done|]. intros y' x' Hsp Hlen. rewrite length_app in Hlen. cbn [length] in Hlen.
    destruct (snoc_split _ _ _ _ Hsp) as (x'' & -> & Hpre); [intros ->; simpl in Hlen; lia|]. rewrite reverse_snoc, (get_child _ _ _ _ Hc).
    eapply Hmax; [done|]. rewrite length_app in Hlen. cbn [length] in Hlen. lia. }
  case_bool_decide as Hd.
  - destruct Hw as [[-> Hnone]|(y & x & Hp & Hx & Hg & Hr & Hmax)]; [|by eapply Hdeep]. left. split; [done|].
    intros y x Hsp Hx. destruct (snoc_split _ _ _ _ Hsp Hx) as (x' & -> & Hpre). rewrite reverse_snoc, (get_child _ _ _ _ Hc).
    destruct x' as [|a x']; [done|]. by eapply Hnone.
  - destruct Hw as [[-> Hnone]|(y & x & Hp & Hx & Hg & Hr & Hmax)]; [|by eapply Hdeep]. right. exists pre, [l].
    split_and!; [done|done| | |].
    + by rewrite reverse_singleton, (get_child _ _ _ _ Hc).
    + by rewrite reverse_singleton, (get_child _ _ _ _ Hc).
    + intros y' x' Hsp Hlen. destruct (snoc_split _ _ _ _ Hsp) as (x'' & -> & Hpre); [intros ->; simpl in Hlen; lia|].
      rewrite reverse_snoc, (get_child _ _ _ _ Hc). eapply Hnone; [done|]. by destruct x''; cbn in Hlen; [lia|].
Qed.

Lemma find_loop_result name : forall pre rest fuel node b mp, pre <> [] -> Forall dot_free pre -> name = dotted pre ++ rest ->
  (length (dotted pre) < fuel)%nat -> no_dot_first node -> walk_result node pre b mp (find_loop fuel name node (len (dotted pre)) b mp).
Proof.
  induction pre as [|l pre IH] using rev_ind; intros rest fuel node b mp Hne Hf Hn Hfuel Hdot; [done|].
  destruct fuel as [|fuel]; [lia|]. cbn [find_loop]. destruct (last_label pre l rest Hf) as [Hs Hl]. rewrite <- Hn in Hs, Hl.
  rewrite Hl, Hs. clear Hl Hs. destruct (Z.ltb_spec 0 (len (dotted (pre ++ [l])))) as [Hpos|Hz].
  - destruct (children node !! l) as [child|] eqn:Hc.
    2:{ left. split; [done|]. intros y x Hsp Hx. destruct (snoc_split _ _ _ _ Hsp Hx) as (x' & -> & _).
        rewrite reverse_snoc. cbn [get]. by rewrite Hc. }
    destruct (decide (pre = [])) as [->|Hp].
    + rewrite (bool_decide_true (@nil bytes = [])) by done. change (-1 + 1) with 0. change (-1 <? 0) with true. cbv iota.
      assert (Hone : forall y x, [l] = y ++ x -> x <> [] -> y = [] /\ x = [l]).
      { intros [|a y] x Hsp Hx; [done|]. injection Hsp as -> Hsp. by destruct y, x. }
      case_bool_decide as Hd.
      * left. split; [done|]. intros y x Hsp Hx. destruct (Hone _ _ Hsp Hx) as [-> ->]. by rewrite reverse_singleton, (get_child _ _ _ _ Hc).
      * right. exists [], [l]. rewrite reverse_singleton, (get_child _ _ _ _ Hc). split_and!; [done|done|done|done|].
        intros y' x' Hsp Hlen. destruct (Hone y' x' Hsp) as [-> ->]; [intros ->; simpl in Hlen; lia|]. simpl in Hlen. lia.
    + rewrite (bool_decide_false (pre = [])) by done. pose proof (len_nonneg (dotted pre)). destruct (dotted_pos pre l Hp) as [_ Hlt].
      rewrite (proj2 (Z.ltb_ge (len (dotted pre)) 0)) by lia. apply (walk_step _ child); [done|done|].
      replace (pos pre) with (len (dotted pre) + 1) by (unfold pos; by rewrite bool_decide_false).
      destruct (if bool_decide (domain child = []) then _ else _) as [b' mp']. apply Forall_app in Hf as [Hf _].
      apply (IH (46 :: l ++ rest)); [done|done| |unfold len in *; lia|].
      * rewrite Hn, dotted_app by done. by rewrite <- (assoc_L (++)).
      * intros q. rewrite <- (get_child _ _ _ _ Hc). apply (Hdot (l :: q)).
  - destruct (decide (pre = [])) as [->|Hp]; [|destruct (dotted_pos pre l Hp); lia]. cbn [app dotted] in Hz.
    assert (l = []) as -> by (destruct l; [done|]; rewrite len_cons in Hz; pose proof (len_nonneg l); lia).
    left. split; [done|]. intros y x Hsp Hx. destruct (snoc_split [] _ _ _ Hsp Hx) as (x' & -> & Hn'). destruct y, x'; [|done..]. apply (Hdot []).
Qed.

(** ** The contents of the trie *)

(** A domain that does not start with a dot. *)
Definition plain_domain (d : bytes) : Prop := d <> [] /\ head d <> Some 46.

Lemma split_plain d : plain_domain d -> exists l ls, split_dots d = l :: ls /\ l <> [].
Proof.
  intros [Hne Hh]. destruct d as [|c d]; [done|]. cbn [split_dots]. simpl in Hh. destruct (Z.eqb_spec c 46); [congruence|].
  destruct (split_dots d); eauto.
Qed.

Lemma path_plain d : plain_domain d -> path_of (split_dots d) = reverse (split_dots d).
Proof. intros Hd. destruct (split_plain d Hd) as (l & ls & -> & Hl). by destruct l. Qed.

Lemma split_inj d d' : split_dots d = split_dots d' -> d = d'.
Proof. intros H. by rewrite <- (dotted_split d), H, dotted_split. Qed.

Definition trie_of (ds : list bytes) : domainNode :=
  fold_left (fun node d => insert_domain (S (length d)) d (len d) node) ds empty_node.

Lemma get_trie_snoc ds d q : plain_domain d ->
  get (trie_of (ds ++ [d])) q = if decide (reverse (split_dots d) = q) then d else get (trie_of ds) q.
Proof.
  intros Hd. unfold trie_of. rewrite fold_left_app. cbn [fold_left]. rewrite <- (path_plain d Hd), <- get_put_path. f_equal.
  rewrite <- (insert_domain_put d (split_dots d) [] (S (length d))); rewrite ?dotted_split, ?app_nil_r; auto using split_dots_nonempty, split_dots_free.
Qed.

Lemma get_trie ds : Forall plain_domain ds -> forall q d, d <> [] ->
  get (trie_of ds) q = d <-> d ∈ ds /\ reverse (split_dots d) = q.
Proof.
  induction ds as [|d0 ds IH] using rev_ind; intros Hp q d Hne.
  { unfold trie_of. cbn [fold_left]. rewrite get_empty. split; [congruence|]. by intros [?%elem_of_nil _]. }
  apply Forall_app in Hp as [Hp Hd0]. apply (Forall_cons_1 plain_domain) in Hd0 as [Hd0 _]. rewrite get_trie_snoc by done. rewrite elem_of_app, list_elem_of_singleton.
  case_decide as Hq.
  - split; [intros <-; eauto|]. intros [_ Hq2]. rewrite <- Hq in Hq2. apply (inj reverse) in Hq2. by apply split_inj in Hq2.
  - rewrite (IH Hp q d Hne). split; [intros [??]; eauto|]. intros [[?| ->] ?]; [done|]. congruence.
Qed.

Lemma trie_no_dot_first ds : Forall plain_domain ds -> no_dot_first (trie_of ds).
Proof.
  intros Hp q. destruct (get (trie_of ds) (q ++ [[]])) as [|c d] eqn:Hg; [done|]. exfalso.
  apply get_trie in Hg as [Hin Hq]; [|done..]. rewrite Forall_forall in Hp. destruct (split_plain _ (Hp _ Hin)) as (l & ls & Hs & Hl).
  rewrite Hs, reverse_cons in Hq. by apply app_inj_tail in Hq as [_ ->].
Qed.

(** ** The scan *)

(** The part of [name] before the domain [d], where [name] is [d] or ends in a dot and
    [d]. *)
Definition before (d name : bytes) : option bytes :=
  let k := (length name - length d - 1)%nat in
  if bool_decide (name = d) then Some []
  else if bool_decide (drop k name = 46 :: d) then Some (take k name) else None.

(** The first domain of the list that matches, and the labels before it. *)
Fixpoint scan (ds : list bytes) (name : bytes) : option (bytes * bytes) :=
  match ds with
  | [] => None
  | d :: ds => match before d name with Some p => Some (d, stripLabelDots p) | None => scan ds name end
  end.

Lemma split_dots_cat p s : split_dots (p ++ 46 :: s) = split_dots p ++ split_dots s.
Proof.
  induction p as [|c p IH]; [done|]. cbn [app split_dots]. rewrite IH. destruct (c =? 46); [done|].
  pose proof (split_dots_nonempty p). by destruct (split_dots p).
Qed.

Lemma before_labels d name y : split_dots name = y ++ split_dots d -> before d name = Some (dotted y).
Proof.
  intros Hs. assert (Hn : name = if bool_decide (y = []) then d else dotted y ++ 46 :: d).
  { rewrite <- (dotted_split name), Hs. case_bool_decide as Hy; [subst y; apply dotted_split|].
    rewrite dotted_app by auto using split_dots_nonempty. by rewrite dotted_split. }
  unfold before. case_bool_decide as Hy; [subst y; by rewrite bool_decide_true|]. subst name.
  assert (Hl : (length (dotted y ++ 46%Z :: d) - length d - 1)%nat = length (dotted y)) by (rewrite length_app; cbn [length]; lia).
  rewrite bool_decide_false by (intros Hx; apply (f_equal length) in Hx; rewrite length_app in Hx; cbn [length] in Hx; lia).
  by rewrite Hl, drop_app_length, take_app_length, bool_decide_true.
Qed.

Lemma before_split d name p : before d name = Some p -> exists y, split_dots name = y ++ split_dots d /\ p = dotted y.
Proof.
  unfold before. case_bool_decide as Hn; [intros [= <-]; subst; by exists []|]. case_bool_decide as Hd; [|done]. intros [= <-].
  set (k := (length name - length d - 1)%nat) in *. exists (split_dots (take k name)). rewrite dotted_split. split; [|done].
  by rewrite <- split_dots_cat, <- Hd, take_drop.
Qed.

Lemma scan_none ds name : (forall d, d ∈ ds -> before d name = None) -> scan ds name = None.
Proof.
  induction ds as [|d ds IH]; intros H; [done|]. cbn [scan]. rewrite (H d) by left. apply IH. intros d' Hd'. apply H. by right.
Qed.

Lemma scan_none_inv ds name : scan ds name = None -> forall d, d ∈ ds -> before d name = None.
Proof.
  induction ds as [|d0 ds IH]; cbn [scan]; [by intros _ d ?%elem_of_nil|]. destruct (before d0 name) eqn:E; [done|].
  intros H d [->|Hd]%elem_of_cons; [done|]. by apply IH.
Qed.

(** In a list whose domains only get shorter, a scan finds the longest that matches. *)
Definition longest_first (ds : list bytes) : Prop := StronglySorted (fun s t => len t <= len s) ds.

Lemma scan_longest ds name d p : longest_first ds -> d ∈ ds -> before d name = Some p ->
  (forall d' p', d' ∈ ds -> before d' name = Some p' -> len d <= len d' -> d' = d) -> scan ds name = Some (d, stripLabelDots p).
Proof.
  intros Hs Hin Hb Hmax. induction Hs as [|d0 ds Hs IH Hle]; [by apply elem_of_nil in Hin|]. cbn [scan].
  destruct (before d0 name) as [p0|] eqn:E0.
  - assert (d0 = d) as ->; [|congruence]. apply (Hmax d0 p0); [left|done|]. apply elem_of_cons in Hin as [->|Hin]; [lia|].
    rewrite Forall_forall in Hle. by apply Hle.
  - apply elem_of_cons in Hin as [->|Hin]; [congruence|]. apply IH; [done|]. intros d' p' Hd'. apply Hmax. by right.
Qed.

Lemma suffix_longer {A} (y1 x1 y2 x2 : list A) : y1 ++ x1 = y2 ++ x2 -> (length x1 <= length x2)%nat -> exists z, x2 = z ++ x1 /\ y1 = y2 ++ z.
Proof.
  revert y2. induction y1 as [|a y1 IH]; intros y2 H Hl.
  - cbn [app] in H. subst x1. rewrite length_app in Hl. destruct y2; [|cbn [length] in Hl; lia]. by exists [].
  - destruct y2 as [|b y2]; [cbn [app] in H; subst x2; by exists (a :: y1)|]. injection H as -> H.
    destruct (IH y2 H Hl) as (z & -> & ->). by exists z.
Qed.

Lemma suffix_len (y1 y2 : list bytes) d1 d2 : y1 ++ split_dots d1 = y2 ++ split_dots d2 ->
  (length (split_dots d2) <= length (split_dots d1))%nat -> len d1 <= len d2 -> d1 = d2.
Proof.
  intros H Hl Hlen. destruct (suffix_longer y2 _ y1 _ (eq_sym H) Hl) as (z & Hz & _). destruct (decide (z = [])) as [->|Hne]; [by apply split_inj|].
  apply (f_equal dotted) in Hz. rewrite dotted_app, !dotted_split in Hz by auto using split_dots_nonempty. subst d1.
  rewrite len_app, len_cons in Hlen. pose proof (len_nonneg (dotted z)). lia.
Qed.

Lemma find_scan ds name : Forall plain_domain ds -> longest_first ds -> ds <> [] -> name <> [] ->
  findAllowedDomain name (buildDomainTrie ds) = scan ds name.
Proof.
  intros Hp Hs Hds Hn. unfold findAllowedDomain, buildDomainTrie. rewrite !bool_decide_false by done. fold (trie_of ds).
  pose proof (find_loop_result name (split_dots name) [] (S (length name)) (trie_of ds) [] (-1)) as Hw. rewrite dotted_split, app_nil_r in Hw.
  destruct (Hw (split_dots_nonempty name) (split_dots_free name) eq_refl ltac:(lia) (trie_no_dot_first ds Hp)) as
    [[-> Hnone]|(y & x & Hsp & Hx & Hg & -> & Hmax)]; clear Hw.
  - change (-1 <? 0) with true. cbv iota. symmetry. apply scan_none. intros d Hd. destruct (before d name) as [p|] eqn:Hb; [exfalso|done].
    apply before_split in Hb as (y & Hsp & _). specialize (Hnone y (split_dots d) Hsp (split_dots_nonempty d)).
    rewrite Forall_forall in Hp. destruct (Hp d Hd) as [Hne _]. rewrite (proj2 (get_trie ds (proj2 (Forall_forall _ _) Hp) _ d Hne)) in Hnone; eauto.
  - remember (get (trie_of ds) (reverse x)) as d eqn:Ed. symmetry in Ed. destruct (proj1 (get_trie ds Hp (reverse x) d Hg) Ed) as [Hin Hrev].
    apply (inj reverse) in Hrev. subst x. rewrite (scan_longest ds name d (dotted y)); [|done|done|by apply before_labels|].
    + assert (Hpos : pos y = 0 /\ y = [] \/ pos y = len (dotted y) + 1 /\ y <> []) by (unfold pos; case_bool_decide; eauto).
      pose proof (len_nonneg (dotted y)). destruct Hpos as [[-> ->]|[-> Hy]]; [done|].
      rewrite (proj2 (Z.ltb_ge _ 0)), (proj2 (Z.eqb_neq _ 0)) by lia. do 3 f_equal. rewrite <- (dotted_split name), Hsp, dotted_app by done.
      replace (Z.to_nat _) with (length (dotted y)) by (unfold len; lia). apply take_app_length.
    + intros d' p' Hd' Hb' Hle. apply before_split in Hb' as (y' & Hsp' & _). symmetry. eapply suffix_len; [by rewrite <- Hsp, <- Hsp'| |done].
      destruct (decide (length (split_dots d') <= length (split_dots d))%nat) as [|Hgt]; [done|]. exfalso.
      assert (Hd0 : d' <> []) by (rewrite Forall_forall in Hp; by apply Hp). apply Hd0. rewrite <- (Hmax y' (split_dots d') Hsp' ltac:(lia)).
      symmetry. by apply get_trie.
Qed.

(** ** The order of the domains *)

Lemma string_lt_irrefl s : string_lt s s = false.
Proof. induction s as [|a s IH]; [done|]. cbn [string_lt]. by rewrite Z.eqb_refl. Qed.

Lemma string_lt_asym s t : string_lt s t = true -> string_lt t s = false.
Proof.
  revert t. induction s as [|a s IH]; intros [|b t]; try done. cbn [string_lt]. rewrite (Z.eqb_sym b a). destruct (Z.eqb_spec a b); [apply IH|].
  intros ?%Z.ltb_lt. apply Z.ltb_ge. lia.
Qed.

Lemma string_le_trans s t u : string_lt t s = false -> string_lt u t = false -> string_lt u s = false.
Proof.
  revert t u. induction s as [|a s IH]; intros [|b t] [|c u]; try done. cbn [string_lt].
  destruct (Z.eqb_spec b a), (Z.eqb_spec c b), (Z.eqb_spec c a); subst; rewrite ?Z.ltb_ge; try lia; eauto.
Qed.

#[local] Instance sort_le_total : Total sort_le.
Proof.
  intros s t. unfold sort_le, domain_less. rewrite (Z.eqb_sym (len s)). destruct (Z.eqb_spec (len t) (len s)).
  - destruct (string_lt t s) eqn:E; [right; by apply string_lt_asym|by left].
  - destruct (Z.lt_total (len s) (len t)) as [|[|]]; [right|lia|left]; apply Z.ltb_ge; lia.
Qed.

#[local] Instance sort_le_trans : Transitive sort_le.
Proof.
  intros s t u. unfold sort_le, domain_less. destruct (Z.eqb_spec (len t) (len s)), (Z.eqb_spec (len u) (len t)), (Z.eqb_spec (len u) (len s)); try lia; rewrite ?Z.ltb_ge; try lia.
  intros H1 H2. by eapply string_le_trans.
Qed.

Lemma normalizeDomains_sorted domains : longest_first (normalizeDomains domains).
Proof.
  unfold longest_first, normalizeDomains. set (l := elements _).
  pose proof (StronglySorted_merge_sort sort_le l) as Hs. induction Hs as [|d ds _ IH Hle]; constructor; [done|].
  eapply Forall_impl; [exact Hle|]. intros t. unfold sort_le, domain_less. destruct (Z.eqb_spec (len t) (len d)); [lia|]. intros ?%Z.ltb_ge. lia.
Qed.

Lemma elem_of_normalizeDomains domains d :
  d ∈ normalizeDomains domains <-> d <> [] /\ d <> [46] /\ exists x, x ∈ domains /\ normalizeDomain x = d.
Proof.
  unfold normalizeDomains. rewrite (merge_sort_Permutation sort_le), elem_of_elements, elem_of_list_to_set, list_elem_of_filter.
  rewrite list_elem_of_fmap. naive_solver.
Qed.

Lemma scan_some ds name d labels : scan ds name = Some (d, labels) -> exists p, d ∈ ds /\ before d name = Some p /\ labels = stripLabelDots p.
Proof.
  induction ds as [|d0 ds IH]; cbn [scan]; [done|]. destruct (before d0 name) as [p|] eqn:E.
  - intros [= <- <-]. exists p. split_and!; [left|done|done].
  - intros H. destruct (IH H) as (p & Hin & ?). exists p. split; [by right|done].
Qed.

Lemma scan_is_longest ds name d labels d' p' : longest_first ds -> scan ds name = Some (d, labels) -> d' ∈ ds -> before d' name = Some p' -> len d' <= len d.
Proof.
  induction 1 as [|d0 ds _ IH Hle]; cbn [scan]; [done|]. destruct (before d0 name) as [p|] eqn:E.
  - intros [= <- <-] [->|Hin]%elem_of_cons _; [lia|]. rewrite Forall_forall in Hle. by apply Hle.
  - intros Hs [->|Hin]%elem_of_cons; [congruence|]. by apply IH.
Qed.

Lemma plain_normalized domains : Forall (fun d => head (normalizeDomain d) <> Some 46) domains -> Forall plain_domain (normalizeDomains domains).
Proof.
  rewrite !Forall_forall. intros H d (Hne & _ & x & Hx & <-)%elem_of_normalizeDomains. split; [done|]. by apply H.
Qed.

Lemma find_New domains minLen name : Forall (fun d => head (normalizeDomain d) <> Some 46) domains ->
  findAllowedDomain name (root (New domains minLen)) = scan (normalizeDomains domains) name.
Proof.
  intros H. apply plain_normalized in H. cbn [New root]. destruct (decide (normalizeDomains domains = [])) as [->|Hne]; [done|].
  destruct (decide (name = [])) as [->|Hn]; [|by apply find_scan; auto using normalizeDomains_sorted].
  rewrite scan_none. { unfold buildDomainTrie. by rewrite bool_decide_false. }
  intros d Hd. rewrite Forall_forall in H. destruct (H d Hd) as [Hd0 _]. unfold before. rewrite !bool_decide_false; done.
Qed.

(** C24: The trie is an optimisation.  For every configuration whose domains do not begin
    with a dot, and every name, the walk through the trie finds what a scan over the
    normalised domains finds: the longest domain that the name equals or ends in after a
    dot, with the labels before it joined without their dots; no domain, when none is such
    a suffix. *)
Theorem trie_matches_scan (domains : list bytes) (minLen : Z) (name : bytes) :
  Forall (fun d => head (normalizeDomain d) <> Some 46) domains ->
  findAllowedDomain name (root (New domains minLen)) = scan (normalizeDomains domains) name /\
  match findAllowedDomain name (root (New domains minLen)) with
  | None => forall d, d ∈ normalizeDomains domains -> before d name = None
  | Some (d, labels) =>
      exists p, d ∈ normalizeDomains domains /\ before d name = Some p /\ labels = stripLabelDots p /\
        forall d' p', d' ∈ normalizeDomains domains -> before d' name = Some p' -> len d' <= len d
  end.
Proof.
  intros H. rewrite find_New by done. split; [done|]. pose proof (normalizeDomains_sorted domains) as Hs.
  destruct (scan _ name) as [[d labels]|] eqn:E.
  - destruct (scan_some _ _ _ _ E) as (p & Hin & Hb & Hl). exists p. split_and!; [done..|]. intros d' p'. by eapply scan_is_longest.
  - by apply scan_none_inv.
Qed.

(** The domains "t.co" and "A.T.co.", and a request "xx.yy.a.t.co". *)
Definition sample_domains : list bytes := [[116; 46; 99; 111]; [65; 46; 84; 46; 99; 111; 46]].

Lemma trie_matches_scan_witness :
  findAllowedDomain [120; 120; 46; 121; 121; 46; 97; 46; 116; 46; 99; 111] (root (New sample_domains 3)) =
    scan (normalizeDomains sample_domains) [120; 120; 46; 121; 121; 46; 97; 46; 116; 46; 99; 111] /\
  scan (normalizeDomains sample_domains) [120; 120; 46; 121; 121; 46; 97; 46; 116; 46; 99; 111] =
    Some ([97; 46; 116; 46; 99; 111], [120; 120; 121; 121]).
Proof.
  split; [|vm_compute; reflexivity]. refine (proj1 (trie_matches_scan sample_domains 3 _ _)). repeat constructor; vm_compute; congruence.
Defined.
