(* ===== verification/DnsQuery.v ===== *)
(** Queries of the tunnel, from the client to the server.

    The client cuts the encoded text of a packet into labels below its tunnel domain and
    sends a TXT query ([BuildTunnelTXTQuestionPacket] of dnsparser/transport.go); the
    resolver on the way may change the identifier, the flags, the OPT record and the case
    of letters; the server parses the request, finds its domain ([Match] of
    domainmatcher/matcher.go) and decodes the labels
    ([ParseInflatedFromLabels] of vpnproto/parser.go).  This file shows the shape of the
    query, the capacity of a name and the composition of the three components. *)

From stdpp Require Import base tactics list.
From Stdlib Require Import ZArith Lia.
From S2P Require Import Prelude Enums BaseCodec Compression Security VpnProto DnsParser DnsTransport DnsAnswers DomainMatcher.

(** ** The pieces of a frame *)

Lemma chunks_of_spec fuel : forall data, (length data <= fuel)%nat -> bytes_ok data ->
  concat (chunks_of fuel 63 data) = data /\ Forall label_ok (chunks_of fuel 63 data) /\
  Z.of_nat (length (chunks_of fuel 63 data)) = Z.quot (len data + 63 - 1) 63.
Proof.
  induction fuel as [|fuel IH]; intros data Hf Hb; cbn [chunks_of]; [by destruct data; [|simpl in Hf; lia]|].
  rewrite Z.quot_div_nonneg by (pose proof (len_nonneg data); lia). destruct (Z.leb_spec (len data) 0) as [Hz|Hp].
  { assert (data = []) as -> by (destruct data; [done|rewrite len_cons in Hz; pose proof (len_nonneg data); lia]). done. }
  change (Z.to_nat 63) with 63%nat. destruct (IH (drop 63 data)) as (Hc & Hl & Hn).
  { rewrite length_drop. unfold len in Hp. lia. }
  { by apply Forall_drop. }
  cbn [concat length]. rewrite Hc, take_drop. split_and!; [done| |].
  - constructor; [|done]. split; [unfold len in *; rewrite length_take; lia|by apply Forall_take].
  - rewrite Nat2Z.inj_succ, Hn. pose proof (len_nonneg (drop 63 data)). rewrite Z.quot_div_nonneg by lia.
    unfold len in *. rewrite length_drop. destruct (Z.le_gt_cases (Z.of_nat (length data)) 63).
    + replace (Z.of_nat (length data - 63)) with 0 by lia. change ((0 + 63 - 1) / 63) with 0.
      apply Z.div_unique with (Z.of_nat (length data) - 1); lia.
    + replace (Z.of_nat (length data) + 63 - 1) with (Z.of_nat (length data - 63) + 63 - 1 + 1 * 63) by lia. rewrite Z.div_add by lia. lia.
Qed.

Definition frame_labels (frame : bytes) : list bytes := chunks_of (length frame) 63 frame.

Lemma len_wire_labels ls : len (concat (map wire_label ls)) = len (concat ls) + Z.of_nat (length ls).
Proof.
  induction ls as [|l ls IH]; [done|]. cbn [map concat length]. rewrite !len_app, IH. unfold wire_label. rewrite len_cons. lia.
Qed.

Lemma len_frame_labels frame : bytes_ok frame ->
  len (concat (map wire_label (frame_labels frame))) = len frame + Z.quot (len frame + 63 - 1) 63.
Proof.
  intros Hb. destruct (chunks_of_spec (length frame) frame ltac:(lia) Hb) as (Hc & _ & Hn).
  rewrite len_wire_labels. unfold frame_labels. by rewrite Hc, Hn.
Qed.

Lemma write_labels_ok frame : forall fuel w start n, 0 <= start -> 0 <= n ->
  let ls := concat (map wire_label (chunks_of fuel 63 (drop (Z.to_nat start) frame))) in
  write_labels fuel (w ++ make_bytes (len ls + n)) (len w) start frame = Ok (w ++ ls ++ make_bytes n, len w + len ls).
Proof.
  induction fuel as [|fuel IH]; intros w start n Hs Hn; cbn [chunks_of write_labels map concat]; [by rewrite len_nil, Z.add_0_r|].
  assert (Hrem : len (drop (Z.to_nat start) frame) = Z.max 0 (len frame - start)) by (unfold len; rewrite length_drop; lia).
  destruct (Z.ltb_spec start (len frame)) as [Hlt|Hge].
  2:{ rewrite (proj2 (Z.leb_le _ 0)) by lia. cbn. by rewrite len_nil, Z.add_0_r. }
  rewrite (proj2 (Z.leb_gt _ 0)) by lia. cbn [map concat]. unfold maxDNSLabelLen.
  set (e := if len frame <? start + 63 then len frame else start + 63). assert (He : e = Z.min (len frame) (start + 63)).
  { unfold e. destruct (Z.ltb_spec (len frame) (start + 63)); lia. }
  set (l := take (Z.to_nat 63) (drop (Z.to_nat start) frame)). assert (Hl : len l = e - start).
  { unfold l, len in *. rewrite length_take, length_drop. lia. }
  set (rest := concat _). assert (Hrest : rest = concat (map wire_label (chunks_of fuel 63 (drop (Z.to_nat (start + 63)) frame)))).
  { unfold rest. rewrite drop_drop. do 4 f_equal. lia. }
  pose proof (len_nonneg rest). rewrite len_app. unfold wire_label at 1. rewrite len_cons.
  replace (1 + len l + len rest + n) with (1 + (len l + (len rest + n))) by lia. rewrite put_zero by lia. cbn [obind].
  rewrite slice_ok by lia. cbn [obind]. replace (take (Z.to_nat (e - start)) (drop (Z.to_nat start) frame)) with l.
  2:{ unfold l. destruct (Z.le_gt_cases (start + 63) (len frame)); [f_equal; lia|]. rewrite !take_ge; [done|..]; rewrite length_drop; unfold len in *; lia. }
  rewrite copy_adv_zero by (rewrite ?len_app; change (len [_]) with 1; lia). cbn [obind].
  replace (len (w ++ [wrap8 (e - start)]) + len l) with (len ((w ++ [wrap8 (e - start)]) ++ l)) by (by rewrite len_app).
  rewrite Hrest. rewrite IH by lia. rewrite <- Hrest, wrap8_id by (unfold u8; lia). unfold wire_label. rewrite Hl. f_equal. f_equal.
  - rewrite <- !(assoc_L (++)). done.
  - rewrite !len_app. change (len [_]) with 1. rewrite len_cons. lia.
Qed.

(** ** The bytes of a query *)

Definition opt_bytes (ednsUDPSize : Z) : bytes :=
  if 0 <? ednsUDPSize then [0] ++ be16 41 ++ be16 ednsUDPSize ++ [0; 0; 0; 0] ++ be16 0 else [].

Definition query_bytes (id : Z) (ls : list bytes) (qType ednsUDPSize : Z) : bytes :=
  message_header id 0x0100 1 0 0 (if 0 <? ednsUDPSize then 1 else 0) ++ (wire_name ls ++ be16 qType ++ be16 1) ++ opt_bytes ednsUDPSize.

Lemma skip_zero (w : bytes) m n : 0 <= m -> 0 <= n -> w ++ make_bytes (m + n) = (w ++ make_bytes m) ++ make_bytes n.
Proof. intros. rewrite make_bytes_app by done. by rewrite (assoc_L (++)). Qed.

Lemma write_query_header_ok id e n : 0 <= n ->
  write_query_header (make_bytes (12 + n)) id e = Ok (message_header id 0x0100 1 0 0 (if 0 <? e then 1 else 0) ++ make_bytes n).
Proof.
  intros Hn. unfold write_query_header. rewrite make_bytes_app by lia.
  do 4 (rewrite put16_head by (first [lia|vm_compute; congruence]); cbn [obind]). done.
Qed.

Lemma write_query_tail_ok w t e : write_query_tail (w ++ make_bytes (4 + opt_len e)) (len w) t e =
  Ok (w ++ be16 t ++ be16 1 ++ opt_bytes e).
Proof.
  unfold write_query_tail, opt_len, opt_bytes, DNSQ_CLASS_IN, DNS_RECORD_TYPE_OPT. destruct (0 <? e).
  - replace (4 + 11) with (2 + (2 + (1 + (2 + (2 + (4 + (2 + 0))))))) by lia.
    do 2 (rewrite put16_zero by (rewrite ?len_app; change (len (be16 _)) with 2; lia); cbn [obind]).
    rewrite put_zero by (rewrite ?len_app; change (len (be16 _)) with 2; lia). cbn [obind].
    do 2 (rewrite put16_zero by (rewrite ?len_app; change (len (be16 _)) with 2; change (len [0]) with 1; lia); cbn [obind]).
    rewrite (skip_zero _ 4) by lia.
    rewrite put16_zero by (rewrite ?len_app; change (len (be16 _)) with 2; change (len [0]) with 1; change (len (make_bytes 4)) with 4; lia).
    f_equal. rewrite app_nil_r, <- !(assoc_L (++)). done.
  - replace (4 + 0) with (2 + (2 + 0)) by lia.
    do 2 (rewrite put16_zero by (rewrite ?len_app; change (len (be16 _)) with 2; lia); cbn [obind]).
    f_equal. by rewrite app_nil_r, <- (assoc_L (++)).
Qed.

Lemma BuildPrepared_ok nd dls frame t e counter :
  nd <> [] -> bytes_ok frame -> frame <> [] -> encodedQNameLen (len frame) (len nd) <= maxDNSNameLen ->
  BuildTunnelTXTQuestionPacketPrepared nd (wire_name dls) frame t e counter =
    Ok (query_bytes (fst (nextDNSRequestID counter)) (frame_labels frame ++ dls) t e, snd (nextDNSRequestID counter)).
Proof.
  intros Hnd Hb Hne Hfit. unfold BuildTunnelTXTQuestionPacketPrepared. rewrite bool_decide_false by done. cbn [orb].
  assert (Hw : 1 <= len (wire_name dls)) by (unfold wire_name; rewrite len_app; pose proof (len_nonneg (concat (map wire_label dls))); change (len [0]) with 1; lia).
  assert (Hl : 0 < len frame) by (destruct frame; [done|]; rewrite len_cons; pose proof (len_nonneg frame); lia).
  rewrite !(proj2 (Z.eqb_neq _ 0)), (proj2 (Z.ltb_ge _ _)) by lia. unfold dnsHeaderSize, maxDNSLabelLen.
  pose proof (len_frame_labels frame Hb) as Hfl. set (fl := concat _) in Hfl. destruct (nextDNSRequestID counter) as [id counter'].
  assert (Ho : 0 <= opt_len e) by (unfold opt_len; case_if; lia). pose proof (len_nonneg fl).
  replace (12 + (len frame + Z.quot (len frame + 63 - 1) 63 + len (wire_name dls)) + 4 + opt_len e) with
    (12 + (len fl + (len (wire_name dls) + (4 + opt_len e)))) by lia.
  rewrite write_query_header_ok by lia. cbn [obind]. set (hd_ := message_header _ _ _ _ _ _).
  change 12 with (len hd_). unfold fl, frame_labels. rewrite <- (drop_0 frame) at 2 4. rewrite (write_labels_ok frame (length frame) hd_ 0) by lia.
  cbn [obind]. rewrite (assoc_L (++)), copy_adv_zero by (rewrite ?len_app; lia). cbn [obind].
  rewrite <- !len_app. rewrite write_query_tail_ok. cbn [obind fst snd]. unfold query_bytes. fold hd_. unfold frame_labels, wire_name.
  rewrite map_app, concat_app, drop_0, <- !(assoc_L (++)). done.
Qed.

(** ** Letter case *)

Lemma lower_byte_fixed x c : c <= 63 -> lower_byte x = c -> x = c.
Proof.
  unfold lower_byte, is_upper. intros Hc. destruct (Z.leb_spec 65 x), (Z.leb_spec x 90); cbn [andb]; try done.
  rewrite wrap8_id by (unfold u8; lia). lia.
Qed.

Lemma lower_byte_small c : c <= 63 -> lower_byte c = c.
Proof. intros Hc. unfold lower_byte, is_upper. by rewrite (proj2 (Z.leb_gt 65 c)) by lia. Qed.

Lemma ToLower_app a b : ToLower (a ++ b) = ToLower a ++ ToLower b.
Proof. apply map_app. Qed.

Lemma len_ToLower s : len (ToLower s) = len s.
Proof. unfold len, ToLower. by rewrite length_map. Qed.

Lemma ToLower_split s a b : ToLower s = a ++ b -> exists s1 s2, s = s1 ++ s2 /\ ToLower s1 = a /\ ToLower s2 = b.
Proof. intros H. apply map_eq_app in H as (s1 & s2 & -> & <- & <-). by exists s1, s2. Qed.

Lemma ToLower_small s t : Forall (fun c => c <= 63) t -> ToLower s = t -> s = t.
Proof.
  revert t. induction s as [|c s IH]; intros [|d t] Hs H; try done. apply Forall_cons in Hs as [Hd Ht]. injection H as H1 H2.
  f_equal; [by apply lower_byte_fixed|by apply IH].
Qed.

Lemma wire_name_cons l ls : wire_name (l :: ls) = [len l] ++ l ++ wire_name ls.
Proof. unfold wire_name. cbn [map concat]. by rewrite <- (assoc_L (++)). Qed.

(** A question that differs from a well-formed one in the case of letters only has the
    same labels up to case: the length bytes are no letters. *)
Lemma case_variant ls : Forall label_ok ls -> forall q, ToLower q = ToLower (wire_name ls) ->
  exists ls', q = wire_name ls' /\ map ToLower ls' = map ToLower ls.
Proof.
  induction 1 as [|l ls [Hl _] _ IH]; intros q Hq.
  - exists []. split; [|done]. apply ToLower_small; [by repeat constructor|done].
  - rewrite wire_name_cons, !ToLower_app in Hq.
    apply ToLower_split in Hq as (q1 & q2 & -> & Hq1 & Hq). apply ToLower_split in Hq as (q3 & q4 & -> & Hq3 & Hq4).
    destruct (IH q4 Hq4) as (ls' & -> & Hls). exists (q3 :: ls'). cbn [map]. rewrite Hq3, Hls. split; [|done].
    rewrite wire_name_cons. f_equal.
    assert (len q3 = len l) as -> by (by rewrite <- (len_ToLower q3), Hq3, len_ToLower).
    apply ToLower_small; [by constructor; [lia|]|]. rewrite Hq1. cbn. by rewrite lower_byte_small by lia.
Qed.

Lemma name_ok_variant ls ls' : name_ok ls -> map ToLower ls' = map ToLower ls -> bytes_ok (wire_name ls') -> name_ok ls'.
Proof.
  intros [Hls Hw] Hm Hb. assert (Hlen : map len ls' = map len ls).
  { apply (f_equal (map len)) in Hm. rewrite !map_map in Hm. by rewrite !(map_ext (fun x => len (ToLower x)) len len_ToLower) in Hm. }
  split.
  - unfold wire_name in Hb. apply bytes_ok_app in Hb as [Hb _]. clear Hm Hw. revert ls Hls Hlen.
    induction ls' as [|l' ls' IH]; intros [|l ls] Hls Hlen; try done. injection Hlen as Hl Hlen.
    apply Forall_cons in Hls as [[Hl1 _] Hls]. cbn [map concat] in Hb. apply bytes_ok_app in Hb as [Hb1 Hb2].
    apply Forall_cons in Hb1 as [_ Hb1]. constructor; [split; [lia|done]|by eapply IH].
  - assert (Hc : len (concat (map wire_label ls')) = len (concat (map wire_label ls))).
    { clear -Hlen. revert ls Hlen. induction ls' as [|l' ls' IH]; intros [|l ls] Hlen; try done. injection Hlen as Hl Hlen.
      cbn [map concat]. rewrite !len_app, (IH ls Hlen). unfold wire_label. rewrite !len_cons. lia. }
    unfold wire_name in *. rewrite len_app in *. lia.
Qed.

(** ** What the server reads *)

Lemma parse_request id flags ar ls tail qt :
  u16 id -> u16 flags -> u16 ar -> u16 qt -> name_ok ls -> ls <> [] -> isLikelyDNSRequestHeader (header_of id flags 1 0 0 ar) = true ->
  exists e, ParseDNSRequestLite (message_header id flags 1 0 0 ar ++ (wire_name ls ++ be16 qt ++ be16 1) ++ tail) =
    Ok (mkLite (header_of id flags 1 0 0 ar) [mkQuestion (dotted (map ToLower ls)) qt 1] (mkQuestion (dotted (map ToLower ls)) qt 1) true e).
Proof.
  intros U1 U2 U3 U4 Hok Hne Hh. unfold ParseDNSRequestLite, dnsHeaderSize. set (hd_ := message_header _ _ _ _ _ _).
  assert (Hhd : len hd_ = 12) by done. set (body := _ ++ tail). rewrite (proj2 (Z.ltb_ge _ 12)) by (rewrite len_app, Hhd; pose proof (len_nonneg body); lia).
  unfold hd_ at 1. rewrite parseHeader_message by (done || (unfold u16; lia)). cbn [obind]. rewrite Hh. cbn [negb].
  unfold parsePacketLiteWithHeader. change (hQDCount (header_of id flags 1 0 0 ar)) with 1. cbn [Z.eqb]. change (Z.to_nat 1) with 1%nat.
  change dnsHeaderSize with (len hd_). cbn [parseQuestions].
  rewrite (parseName_wire _ hd_ ls (be16 qt ++ be16 1 ++ tail)) by (done || (unfold body; by rewrite <- !(assoc_L (++)))).
  rewrite bool_decide_false by done. cbn [map_err obind].
  assert (Hd : hd_ ++ body = (hd_ ++ wire_name ls) ++ be16 qt ++ be16 1 ++ tail) by (unfold body; by rewrite <- !(assoc_L (++))).
  rewrite Hd, <- len_app. pose proof (len_nonneg tail). rewrite (proj2 (Z.ltb_ge _ _)) by (rewrite !(len_app (hd_ ++ _)), !len_app; change (len (be16 _)) with 2; lia).
  rewrite get16_at by done. cbn [obind]. rewrite (assoc_L (++) (hd_ ++ wire_name ls)).
  rewrite get16_at by (try (unfold u16; lia); rewrite (len_app (hd_ ++ _)); change (len (be16 _)) with 2; lia). cbn [obind]. cbn. by eexists.
Qed.

Lemma dotted_last_free ls l : dot_free l -> l <> [] -> trim_dot (dotted (ls ++ [l])) = dotted (ls ++ [l]).
Proof.
  intros Hl Hne. destruct l as [|c l _] using rev_ind; [done|]. apply Forall_app in Hl as [_ Hc]. apply Forall_inv in Hc.
  assert (Hd : exists p, dotted (ls ++ [l ++ [c]]) = p ++ [c]).
  { destruct (decide (ls = [])) as [->|Hls]; [by exists l|]. rewrite dotted_app by done. exists (dotted ls ++ 46 :: l). by rewrite <- (assoc_L (++)). }
  destruct Hd as [p ->]. unfold trim_dot. rewrite reverse_snoc. by rewrite (proj2 (Z.eqb_neq c 46)).
Qed.

Lemma strip_dotted ls : Forall dot_free ls -> stripLabelDots (dotted ls) = concat ls.
Proof.
  assert (Hfree : forall l, dot_free l -> filter (fun c => c <> 46) l = l) by (intros l Hl; by apply list_filter_all).
  intros Hf. induction Hf as [|l ls Hl Hls IH]; [done|]. unfold stripLabelDots in *. destruct ls as [|l' ls]; [cbn; by rewrite app_nil_r, Hfree|].
  change (dotted (l :: l' :: ls)) with (l ++ 46 :: dotted (l' :: ls)). rewrite filter_app, filter_cons_False, IH, Hfree by (done || naive_solver). done.
Qed.

(** No other domain of the configuration is a subdomain of [nd]. *)
Definition no_subdomain (nd : bytes) (domains : list bytes) : Prop :=
  forall d, d ∈ normalizeDomains domains -> d <> nd -> before nd d = None.

Lemma find_domain domains minLen fls dls :
  Forall (fun d => head (normalizeDomain d) <> Some 46) domains -> dotted dls ∈ normalizeDomains domains ->
  no_subdomain (dotted dls) domains -> dls <> [] -> Forall dot_free (fls ++ dls) ->
  findAllowedDomain (dotted (fls ++ dls)) (root (New domains minLen)) = Some (dotted dls, concat fls).
Proof.
  intros Hp Hin Hsub Hne Hf. rewrite find_New by done. pose proof (proj1 (Forall_app _ _ _) Hf) as [Hf1 Hf2].
  assert (Hsplit : split_dots (dotted (fls ++ dls)) = fls ++ split_dots (dotted dls)).
  { rewrite !split_dotted by (done || by destruct fls, dls). done. }
  rewrite (scan_longest _ _ (dotted dls) (dotted fls)); [by rewrite strip_dotted|apply normalizeDomains_sorted|done|by apply before_labels|].
  intros d' p' Hd' Hb' Hle. destruct (decide (d' = dotted dls)) as [|Hd]; [done|]. exfalso.
  apply before_split in Hb' as (y' & Hy' & _). rewrite Hsplit in Hy'.
  destruct (decide (length (split_dots (dotted dls)) <= length (split_dots d'))%nat) as [Hl|Hl].
  - destruct (suffix_longer _ _ _ _ Hy' Hl) as (z & Hz & _). apply before_labels in Hz. by rewrite (Hsub d' Hd' Hd) in Hz.
  - apply Hd. symmetry. eapply suffix_len; [exact Hy'|lia|done].
Qed.

(** ** How much a name holds *)

Lemma encodedQNameLen_pos n dl : 1 <= n -> encodedQNameLen n dl = n + (n - 1) / 63 + 1 + dl.
Proof.
  intros Hn. unfold encodedQNameLen, maxDNSLabelLen. rewrite (proj2 (Z.leb_gt n 0)) by lia. by rewrite Z.quot_div_nonneg by lia.
Qed.

Lemma encodedQNameLen_mono n m dl : 1 <= n <= m -> encodedQNameLen n dl <= encodedQNameLen m dl.
Proof.
  intros H. rewrite !encodedQNameLen_pos by lia. pose proof (Z.div_le_mono (n - 1) (m - 1) 63 ltac:(lia) ltac:(lia)). lia.
Qed.

(** The binary search ends, at the largest length that fits. *)
Lemma qname_search_spec dl : forall fuel low high best,
  0 <= low <= high + 1 -> low <= best + 1 -> (best = 0 \/ 1 <= best /\ encodedQNameLen best dl <= 253) ->
  (forall n, high < n -> 253 < encodedQNameLen n dl) -> (Z.to_nat (high - low + 1) <= fuel)%nat ->
  forall n, 1 <= n -> encodedQNameLen n dl <= 253 <-> n <= qname_search fuel dl low high best.
Proof.
  assert (Hend : forall best high n, (best = 0 \/ 1 <= best /\ encodedQNameLen best dl <= 253) -> high <= best ->
    (forall n, high < n -> 253 < encodedQNameLen n dl) -> 1 <= n -> encodedQNameLen n dl <= 253 <-> n <= best).
  { intros best high n Hb Hh Hout Hn. split; [intros He; destruct (Z.le_gt_cases n best); [done|]; specialize (Hout n ltac:(lia)); lia|].
    intros Hle. destruct Hb as [->|[_ Hb]]; [lia|]. pose proof (encodedQNameLen_mono n best dl ltac:(lia)). lia. }
  induction fuel as [|fuel IH]; intros low high best Hlh Hlb Hb Hout Hf n Hn; cbn [qname_search].
  { eapply Hend; eauto. lia. }
  destruct (Z.leb_spec low high); [|eapply Hend; eauto; lia]. unfold maxDNSNameLen. rewrite Z.quot_div_nonneg by lia.
  pose proof (Z.div_le_lower_bound (low + high) 2 low ltac:(lia) ltac:(lia)) as Hm1.
  pose proof (Z.div_le_upper_bound (low + high) 2 high ltac:(lia) ltac:(lia)) as Hm2. set (mid := (low + high) / 2) in *.
  destruct (Z.leb_spec (encodedQNameLen mid dl) 253).
  - apply IH; try done; try lia.
  - apply IH; try done; try lia. intros k Hk. destruct (Z.eq_dec mid 0) as [Hz|Hz].
    + rewrite Hz in *. change (encodedQNameLen 0 dl) with dl in *. destruct (Z.eq_dec k 0) as [->|]; [done|].
      rewrite encodedQNameLen_pos by lia. pose proof (Z.div_pos (k - 1) 63 ltac:(lia) ltac:(lia)). lia.
    + pose proof (encodedQNameLen_mono mid k dl ltac:(lia)). lia.
Qed.

Lemma trim_dot_ToLower s : trim_dot (ToLower s) = ToLower (trim_dot s).
Proof.
  destruct s as [|c s _] using rev_ind; [done|]. unfold trim_dot. rewrite ToLower_app. cbn [ToLower map]. rewrite !reverse_snoc.
  destruct (Z.eqb_spec c 46) as [->|Hc]; [cbn; by rewrite !reverse_involutive|].
  rewrite (proj2 (Z.eqb_neq (lower_byte c) 46)), ToLower_app; [done|]. intros H. apply Hc. by apply (lower_byte_fixed c 46).
Qed.

Lemma qname_capacity domain n : 1 <= n -> normalizeDomain domain <> [] ->
  encodedQNameLen n (len (normalizeDomain domain)) <= maxDNSNameLen <-> n <= CalculateMaxEncodedQNameChars domain.
Proof.
  intros Hn Hne. unfold CalculateMaxEncodedQNameChars. rewrite <- (len_ToLower (trim_dot _)), <- trim_dot_ToLower. fold (normalizeDomain domain).
  set (dl := len (normalizeDomain domain)). assert (Hdl : 1 <= dl).
  { unfold dl. destruct (normalizeDomain domain) as [|c r]; [done|]. rewrite len_cons. pose proof (len_nonneg r). lia. }
  rewrite (proj2 (Z.leb_gt dl 0)) by lia. unfold maxDNSNameLen. apply qname_search_spec; try lia.
  intros k Hk. rewrite encodedQNameLen_pos by lia. pose proof (Z.div_pos (k - 1) 63 ltac:(lia) ltac:(lia)). lia.
Qed.

Lemma len_trim_left s : len (trim_left s) <= len s.
Proof. induction s as [|c s IH]; cbn [trim_left]; [lia|]. case_if; [|lia]. rewrite len_cons. lia. Qed.

Lemma len_reverse {A} (l : list A) : len (reverse l) = len l.
Proof. unfold len. by rewrite length_reverse. Qed.

Lemma len_trim s : len (trim_dot (TrimSpace s)) <= len s.
Proof.
  assert (Ht : len (TrimSpace s) <= len s).
  { unfold TrimSpace. rewrite len_reverse. pose proof (len_trim_left (reverse (trim_left s))). pose proof (len_trim_left s).
    rewrite len_reverse in *. lia. }
  unfold trim_dot. destruct (reverse (TrimSpace s)) as [|c r] eqn:E; [done|]. case_if; [|done].
  apply (f_equal len) in E. rewrite len_reverse, len_cons in E. rewrite len_reverse. lia.
Qed.

Lemma len_wire_dotted ls : len (wire_name ls) <= len (dotted ls) + 2.
Proof.
  unfold wire_name. rewrite len_app, concat_wire_dots, dotted_snoc. change (len [0]) with 1. destruct ls; [done|]. rewrite len_app. change (len [46]) with 1. lia.
Qed.

(** The labels of a query: the pieces of the frame, then the domain. *)
Lemma query_name_ok (frame nd : bytes) dls : bytes_ok frame -> frame <> [] -> name_ok dls -> len (dotted dls) <= len nd ->
  encodedQNameLen (len frame) (len nd) <= maxDNSNameLen -> name_ok (frame_labels frame ++ dls).
Proof.
  intros Hb Hne [Hd _] Hl Hfit. destruct (chunks_of_spec (length frame) frame ltac:(lia) Hb) as (_ & Hlab & _).
  split; [by apply Forall_app|]. unfold wire_name. rewrite map_app, concat_app, <- (assoc_L (++)), len_app. fold (wire_name dls).
  rewrite len_frame_labels by done. pose proof (len_wire_dotted dls). assert (1 <= len frame) by (destruct frame; [done|]; rewrite len_cons; pose proof (len_nonneg frame); lia).
  rewrite encodedQNameLen_pos in Hfit by done. unfold maxDNSNameLen in *. rewrite Z.quot_div_nonneg by lia.
  replace (len frame + 63 - 1) with (len frame - 1 + 1 * 63) by lia. rewrite Z.div_add by lia. lia.
Qed.

Lemma bytes_ok_lower s : bytes_ok s -> bytes_ok (ToLower s).
Proof.
  unfold bytes_ok, ToLower. rewrite !Forall_forall. intros H c (x & -> & Hx)%list_elem_of_fmap. specialize (H x Hx). unfold lower_byte, u8 in *.
  case_if; [apply u8_wrap8|done].
Qed.

Lemma bytes_ok_trim s : bytes_ok s -> bytes_ok (TrimSpace s) /\ bytes_ok (trim_dot s).
Proof.
  assert (Htl : forall s : bytes, bytes_ok s -> bytes_ok (trim_left s)).
  { induction s0 as [|c s0 IH]; intros Hs; [done|]. cbn [trim_left]. inversion Hs; subst. case_if; [by apply IH|done]. }
  intros Hs. split; [unfold TrimSpace; by apply Forall_reverse, Htl, Forall_reverse, Htl|].
  unfold trim_dot. destruct (reverse s) as [|c r] eqn:Er; [done|]. case_if; [|done].
  apply (f_equal reverse) in Er. rewrite reverse_involutive, reverse_cons in Er. subst s. by apply Forall_app in Hs as [? _].
Qed.

Lemma bytes_ok_normalize d : bytes_ok d -> bytes_ok (normalizeDomain d).
Proof. intros Hd. apply bytes_ok_trim, bytes_ok_lower, bytes_ok_trim, Hd. Qed.

(** A domain the client can use, with the labels it writes for it. *)
Lemma prepared_labels domain nd qn : bytes_ok domain -> PrepareTunnelDomainQname domain = Ok (nd, qn) ->
  nd = normalizeDomain domain /\ nd <> [] /\
  exists dls, name_ok dls /\ Forall dot_free dls /\ qn = wire_name dls /\ dotted dls = trim_dot (TrimSpace nd).
Proof.
  intros Hb. unfold PrepareTunnelDomainQname. fold (normalizeDomain domain). case_bool_decide as Hne; [done|].
  intros (q & Hq & [= <- <-])%obind_ok_inv. split_and!; [done|done|]. apply encodeDNSNameStrict_sound; [by apply bytes_ok_normalize|done].
Qed.

Lemma build_query domain nd qn frame t e counter : bytes_ok domain -> PrepareTunnelDomainQname domain = Ok (nd, qn) ->
  bytes_ok frame -> frame <> [] -> len frame <= CalculateMaxEncodedQNameChars domain ->
  exists dls, name_ok (frame_labels frame ++ dls) /\ Forall dot_free dls /\ dotted dls = trim_dot (TrimSpace nd) /\
    BuildTunnelTXTQuestionPacket domain frame t e counter =
      Ok (query_bytes (fst (nextDNSRequestID counter)) (frame_labels frame ++ dls) t e, snd (nextDNSRequestID counter)).
Proof.
  intros Hb Hp Hf Hne Hfit. destruct (prepared_labels _ _ _ Hb Hp) as (-> & Hnd & dls & Hok & Hdf & -> & Hd).
  assert (Hn : 1 <= len frame) by (destruct frame; [done|]; rewrite len_cons; pose proof (len_nonneg frame); lia).
  apply (qname_capacity domain) in Hfit; [|done..]. exists dls. split_and!; [|done|done|].
  - eapply query_name_ok; [done|done|done| |exact Hfit]. rewrite Hd. apply len_trim.
  - unfold BuildTunnelTXTQuestionPacket. rewrite Hp. cbn [obind]. by apply BuildPrepared_ok.
Qed.

(** The capacity of a query is exact.  For every domain the client accepts, the length
    [CalculateMaxEncodedQNameChars] finds by its binary search is the length of the longest
    frame that a query holds: a frame up to it is sent in a query whose name is well
    formed (labels of at most 63 bytes, at most 255 on the wire) and carries the frame's
    bytes in order, and a longer one is refused. *)
Theorem question_capacity (domain nd qn frame : bytes) (t e counter : Z) :
  bytes_ok domain -> PrepareTunnelDomainQname domain = Ok (nd, qn) -> bytes_ok frame -> frame <> [] ->
  if len frame <=? CalculateMaxEncodedQNameChars domain then
    exists ls dls, BuildTunnelTXTQuestionPacket domain frame t e counter =
        Ok (query_bytes (fst (nextDNSRequestID counter)) (ls ++ dls) t e, snd (nextDNSRequestID counter)) /\
      name_ok (ls ++ dls) /\ concat ls = frame /\ dotted dls = trim_dot (TrimSpace nd)
  else BuildTunnelTXTQuestionPacket domain frame t e counter = Err ErrInvalidName.
Proof.
  intros Hb Hp Hf Hne. destruct (Z.leb_spec (len frame) (CalculateMaxEncodedQNameChars domain)) as [Hfit|Hbig].
  - destruct (build_query domain nd qn frame t e counter) as (dls & Hok & _ & Hd & Hbq); [done..|].
    exists (frame_labels frame), dls. split_and!; [done|done| |done]. by apply chunks_of_spec.
  - destruct (prepared_labels _ _ _ Hb Hp) as (-> & Hnd & dls & Hok & _ & -> & Hd).
    assert (Hn : 1 <= len frame) by (destruct frame; [done|]; rewrite len_cons; pose proof (len_nonneg frame); lia).
    unfold BuildTunnelTXTQuestionPacket. rewrite Hp. cbn [obind]. unfold BuildTunnelTXTQuestionPacketPrepared.
    rewrite bool_decide_false by done. cbn [orb]. assert (1 <= len (wire_name dls)) by (unfold wire_name; rewrite len_app;
      pose proof (len_nonneg (concat (map wire_label dls))); change (len [0]) with 1; lia).
    rewrite !(proj2 (Z.eqb_neq _ 0)) by lia. rewrite (proj2 (Z.ltb_lt _ _)); [done|].
    destruct (Z.le_gt_cases (encodedQNameLen (len frame) (len (normalizeDomain domain))) maxDNSNameLen) as [Hle|]; [|lia].
    apply qname_capacity in Hle; [lia|done|done].
Qed.

Lemma question_capacity_witness :
  CalculateMaxEncodedQNameChars [116; 46; 99; 111] = 245 /\
  BuildTunnelTXTQuestionPacket [116; 46; 99; 111] (replicate 246 97) 16 1232 0 = Err ErrInvalidName.
Proof.
  split; [vm_compute; reflexivity|].
  refine (question_capacity [116; 46; 99; 111] [116; 46; 99; 111] [1; 116; 2; 99; 111; 0] (replicate 246 97) 16 1232 0 _ _ _ _).
  - repeat constructor; vm_compute; congruence.
  - vm_compute. reflexivity.
  - apply Forall_replicate. unfold u8. lia.
  - discriminate.
Defined.

(** ** From the client's packet to the server's *)

Lemma alphabet_text text : Forall (fun ch => ch ∈ lowerBase36Alphabet) text ->
  bytes_ok text /\ dot_free text /\ ToLower text = text /\ map lower text = text.
Proof.
  assert (Ha : forall c, c ∈ lowerBase36Alphabet -> u8 c /\ c <> 46 /\ lower_byte c = c /\ lower c = c).
  { intros c Hc. assert (Hall : Forall (fun c => (0 <=? c) && (c <? 256) && negb (c =? 46) && (lower_byte c =? c) && (lower c =? c)) lowerBase36Alphabet)
      by (repeat constructor).
    rewrite Forall_forall in Hall. specialize (Hall c Hc). unfold u8. apply Is_true_true in Hall. zbool. lia. }
  induction 1 as [|c text Hc _ (IH1 & IH2 & IH3 & IH4)]; [by repeat constructor|]. destruct (Ha c Hc) as (H1 & H2 & H3 & H4).
  split_and!; [by constructor|by constructor|..]; cbn [ToLower map]; f_equal; done.
Qed.

Lemma frame_labels_spec frame : bytes_ok frame -> dot_free frame -> ToLower frame = frame -> frame <> [] ->
  concat (frame_labels frame) = frame /\ Forall dot_free (frame_labels frame) /\ map ToLower (frame_labels frame) = frame_labels frame /\
  frame_labels frame <> [].
Proof.
  intros Hb Hd Hl Hne. destruct (chunks_of_spec (length frame) frame ltac:(lia) Hb) as (Hc & _ & _). fold (frame_labels frame) in Hc.
  assert (Hparts : forall x, x ∈ frame_labels frame -> dot_free x /\ ToLower x = x).
  { intros x (l1 & l2 & Hx)%list_elem_of_split. rewrite Hx, concat_app in Hc. cbn [concat] in Hc. split.
    - rewrite <- Hc in Hd. apply Forall_app in Hd as [_ Hd]. by apply Forall_app in Hd as [Hd _].
    - rewrite <- Hc, !ToLower_app in Hl. apply app_inj_1 in Hl as [_ Hl]; [|by unfold ToLower; rewrite length_map].
      by apply app_inj_1 in Hl as [Hl _]; [|unfold ToLower; rewrite length_map]. }
  split_and!; [done| | |].
  - apply Forall_forall. intros x Hx. by apply Hparts.
  - rewrite <- (map_id (frame_labels frame)) at 2. apply map_ext_in. intros x Hx%list_elem_of_In. by apply Hparts.
  - intros Hn. rewrite Hn in Hc. by subst frame.
Qed.

Lemma ToLower_dotted ls : ToLower (dotted ls) = dotted (map ToLower ls).
Proof.
  induction ls as [|l ls IH]; [done|]. destruct ls as [|l' ls]; [done|]. change (dotted (l :: l' :: ls)) with (l ++ 46 :: dotted (l' :: ls)).
  change (dotted (map ToLower (l :: l' :: ls))) with (ToLower l ++ 46 :: dotted (map ToLower (l' :: ls))). rewrite <- IH, ToLower_app. done.
Qed.

Lemma dot_free_lower l : dot_free l -> dot_free (ToLower l).
Proof.
  unfold dot_free, ToLower. rewrite !Forall_forall. intros H c (x & -> & Hx)%list_elem_of_fmap Hc. by apply (H x Hx), (lower_byte_fixed x 46).
Qed.

Lemma lower_labels dls : dls <> [] -> Forall dot_free dls -> ToLower (dotted dls) = dotted dls -> map ToLower dls = dls.
Proof.
  intros Hne Hf H. rewrite ToLower_dotted in H. apply (f_equal split_dots) in H. rewrite (split_dotted dls Hne Hf), split_dotted in H; [done|by destruct dls|].
  rewrite Forall_forall in *. intros x (y & -> & Hy)%list_elem_of_fmap. by apply dot_free_lower, Hf.
Qed.

Lemma lower_byte_idem c : lower_byte (lower_byte c) = lower_byte c.
Proof.
  unfold lower_byte, is_upper. destruct (Z.leb_spec 65 c), (Z.leb_spec c 90); cbn [andb]; try (rewrite (proj2 (Z.leb_gt 65 c)) by lia; done);
    try (rewrite (proj2 (Z.leb_le 65 c)), (proj2 (Z.leb_gt c 90)) by lia; done).
  rewrite wrap8_id by (unfold u8; lia). by rewrite (proj2 (Z.leb_gt (c + 32) 90)), andb_false_r by lia.
Qed.

Lemma ToLower_idem s : ToLower (ToLower s) = ToLower s.
Proof. unfold ToLower. rewrite map_map. apply map_ext, lower_byte_idem. Qed.

(** The server's decision on any case variant of the query. *)
Lemma match_query domains minLen frame dls id flags ar tail question :
  bytes_ok frame -> dot_free frame -> ToLower frame = frame -> frame <> [] -> (if minLen <? 1 then 3 else minLen) <= len frame ->
  name_ok (frame_labels frame ++ dls) -> Forall dot_free dls -> dls <> [] -> ToLower (dotted dls) = dotted dls ->
  Forall (fun d => head (normalizeDomain d) <> Some 46) domains -> dotted dls ∈ normalizeDomains domains -> no_subdomain (dotted dls) domains ->
  u16 id -> u16 flags -> u16 ar -> isLikelyDNSRequestHeader (header_of id flags 1 0 0 ar) = true -> bytes_ok question ->
  ToLower question = ToLower (wire_name (frame_labels frame ++ dls) ++ be16 DNS_RECORD_TYPE_TXT ++ be16 1) ->
  exists lp ls, ParseDNSRequestLite (message_header id flags 1 0 0 ar ++ question ++ tail) = Ok lp /\
    question = wire_name ls ++ be16 DNS_RECORD_TYPE_TXT ++ be16 1 /\ name_ok ls /\ ls <> [] /\ hQR (lHeader lp) = 0 /\ HasQuestion lp = true /\
    let d := Match (New domains minLen) lp in
    dAction d = ActionProcess /\ BaseDomain d = dotted dls /\ Labels d = frame /\ RequestName d = dotted (map ToLower ls).
Proof.
  intros Hb Hdf Hlow Hne Hmin Hok Hddf Hdne Hdlow Hplain Hin Hsub U1 U2 U3 Hh Hbq Hq.
  destruct (frame_labels_spec frame Hb Hdf Hlow Hne) as (Hc & Hfdf & Hflow & Hfne).
  rewrite ToLower_app in Hq. apply ToLower_split in Hq as (q1 & q2 & -> & Hq1 & Hq2).
  apply ToLower_small in Hq2; [|by repeat constructor]. subst q2. destruct (case_variant _ (proj1 Hok) q1 Hq1) as (ls' & -> & Hls).
  apply bytes_ok_app in Hbq as [Hbq _]. pose proof (name_ok_variant _ _ Hok Hls Hbq) as Hok'.
  assert (ls' <> []) as Hne' by (intros ->; destruct (frame_labels frame); done).
  destruct (parse_request id flags ar ls' tail DNS_RECORD_TYPE_TXT) as [e He]; try done.
  change (ToLower (be16 DNS_RECORD_TYPE_TXT ++ be16 1)) with (be16 DNS_RECORD_TYPE_TXT ++ be16 1). rewrite He. eexists _, ls'. split; [done|].
  split; [done|]. split; [done|]. split; [done|]. split.
  { unfold isLikelyDNSRequestHeader in Hh. destruct (Z.eqb_spec (hQR (header_of id flags 1 0 0 ar)) 0); [done|done]. }
  split; [done|]. rewrite Hls, map_app, Hflow, (lower_labels dls) by done. set (name := dotted (frame_labels frame ++ dls)).
  assert (Hname : normalizeParsedDomain name = name).
  { destruct dls as [|l dls _] using rev_ind; [done|]. unfold name. rewrite (assoc_L (++)). apply Forall_app in Hddf as [_ Hl%Forall_inv].
    apply dotted_last_free; [done|]. destruct Hok as [Hok _]. apply Forall_app in Hok as [_ Hok]. apply Forall_app in Hok as [_ Hok%Forall_inv].
    intros ->. destruct Hok as [Hok _]. change (len []) with 0 in Hok. lia. }
  unfold Match. cbn [HasQuestion negb FirstQuestion qName qType]. rewrite Hname.
  assert (Hd0 : dotted dls <> []) by (by apply elem_of_normalizeDomains in Hin as [? _]).
  assert (Hn2 : name <> [] /\ name <> [46]).
  { unfold name. rewrite dotted_app by done. split; [by destruct (dotted (frame_labels frame))|].
    destruct (dotted (frame_labels frame)) as [|c [|]]; [|done..]. intros [=]. done. }
  rewrite !bool_decide_false by apply Hn2. cbn [orb]. unfold name.
  rewrite find_domain by (try done; by apply Forall_app). rewrite Hc, Z.eqb_refl. cbn [negb]. rewrite bool_decide_false by done.
  cbn [New minLabelLength]. rewrite (proj2 (Z.ltb_ge _ _)) by done. done.
Qed.

(** The client's domain and the server's list of domains fit together. *)
Record tunnel_domain (domain : bytes) (domains : list bytes) : Prop := {
  td_bytes : bytes_ok domain;
  (** the client accepts the domain *)
  td_prepared : exists nd qn, PrepareTunnelDomainQname domain = Ok (nd, qn);
  (** no spaces and no second dot at the end *)
  td_trimmed : trim_dot (TrimSpace (normalizeDomain domain)) = normalizeDomain domain;
  (** the server is configured with it, and with no subdomain of it *)
  td_allowed : normalizeDomain domain ∈ normalizeDomains domains;
  td_nested : no_subdomain (normalizeDomain domain) domains;
  td_plain : Forall (fun d => head (normalizeDomain d) <> Some 46) domains
}.

Lemma normalize_lower d : ToLower (normalizeDomain d) = normalizeDomain d.
Proof. unfold normalizeDomain. by rewrite <- trim_dot_ToLower, ToLower_idem. Qed.

Lemma query_roundtrip domain domains minLen frame edns counter : tunnel_domain domain domains ->
  Forall (fun ch => ch ∈ lowerBase36Alphabet) frame -> frame <> [] -> (if minLen <? 1 then 3 else minLen) <= len frame ->
  len frame <= CalculateMaxEncodedQNameChars domain ->
  exists id question ar tail counter',
    BuildTunnelTXTQuestionPacket domain frame DNS_RECORD_TYPE_TXT edns counter =
      Ok (message_header id 0x0100 1 0 0 ar ++ question ++ tail, counter') /\ bytes_ok question /\
    forall id' flags' ar' question' tail',
      u16 id' -> u16 flags' -> u16 ar' -> isLikelyDNSRequestHeader (header_of id' flags' 1 0 0 ar') = true ->
      bytes_ok question' -> ToLower question' = ToLower question ->
      exists lp ls, ParseDNSRequestLite (message_header id' flags' 1 0 0 ar' ++ question' ++ tail') = Ok lp /\
        question' = wire_name ls ++ be16 DNS_RECORD_TYPE_TXT ++ be16 1 /\ name_ok ls /\ ls <> [] /\ hQR (lHeader lp) = 0 /\ HasQuestion lp = true /\
        let d := Match (New domains minLen) lp in
        dAction d = ActionProcess /\ BaseDomain d = normalizeDomain domain /\ Labels d = frame /\ RequestName d = dotted (map ToLower ls).
Proof.
  intros [Hb (nd & qn & Hp) Htrim Hin Hsub Hplain] Ha Hne Hmin Hfit. destruct (alphabet_text frame Ha) as (Hfb & Hfd & Hfl & _).
  destruct (prepared_labels _ _ _ Hb Hp) as (-> & Hnd & _).
  destruct (build_query _ _ _ frame DNS_RECORD_TYPE_TXT edns counter Hb Hp Hfb Hne Hfit) as (dls & Hok & Hdf & Hd & Hbq).
  rewrite Htrim in Hd. rewrite Hbq. unfold query_bytes. eexists _, _, _, _, _. split; [done|].
  split; [apply bytes_ok_app; split; [by apply bytes_ok_wire_name|repeat constructor; vm_compute; congruence]|]. intros id' flags' ar' question' tail' U1 U2 U3 Hh Hbq' Hq.
  rewrite <- Hd in *. eapply match_query; try done; [|by rewrite Hd, normalize_lower]. intros ->. done.
Qed.

(** C7: What the client sends is what the server gets, over any resolver.  A packet of any
    valid type whose text fits the tunnel domain is sent in one TXT query.  A resolver may
    forward that query with another identifier, other flags, another additional section
    and any mix of upper and lower case in the name; as long as it is a request with this
    one question the server parses it, finds the client's domain among its own and decodes
    the very packet, with its payload decrypted and inflated. *)
Theorem tunnel_query_roundtrip `{CR : Crypto} {CRL : CryptoLaws CR} `{CP : Compressors} {CPL : CompressorLaws CP}
    (o : BuildOptions) (minSize m : Z) (rawKey : bytes) (c : Codec) (rnd : Z -> option bytes)
    (domain : bytes) (domains : list bytes) (minLen edns counter : Z) :
  opts_ok o -> valid_type (oPacketType o) = true -> len (oPayload o) <= maxDecompressedSize ->
  bytes_ok rawKey -> NewCodec m rawKey = Ok c -> rnd_ok rnd -> (m = 2 -> counter_fits rnd (wire o)) ->
  tunnel_domain domain domains ->
  exists text ct, BuildEncodedAuto o (Some c) rnd minSize = Ok text /\ (ct = TypeOff \/ ct = oCompressionType o) /\
    ((if minLen <? 1 then 3 else minLen) <= len text <= CalculateMaxEncodedQNameChars domain ->
     exists id question ar tail counter',
       BuildTunnelTXTQuestionPacket domain text DNS_RECORD_TYPE_TXT edns counter =
         Ok (message_header id 0x0100 1 0 0 ar ++ question ++ tail, counter') /\ bytes_ok question /\
       forall id' flags' ar' question' tail',
         u16 id' -> u16 flags' -> u16 ar' -> isLikelyDNSRequestHeader (header_of id' flags' 1 0 0 ar') = true ->
         bytes_ok question' -> ToLower question' = ToLower question ->
         exists lp, ParseDNSRequestLite (message_header id' flags' 1 0 0 ar' ++ question' ++ tail') = Ok lp /\
           dAction (Match (New domains minLen) lp) = ActionProcess /\
           BaseDomain (Match (New domains minLen) lp) = normalizeDomain domain /\
           ParseInflatedFromLabels (Labels (Match (New domains minLen) lp)) (Some c) =
             Ok (packet_of (with_payload o ct (oPayload o)))).
Proof.
  intros Ho Hv Hl Hk Hc Hr Hf Htd. destruct (text_roundtrip o minSize m rawKey c rnd) as (text & ct & Hb & Hct & Ha & Hd); [done..|].
  exists text, ct. split; [done|]. split; [done|]. intros [Hmin Hfit]. destruct (alphabet_text text Ha) as (Htb & _ & _ & Htl).
  assert (Hne : text <> []). { intros ->. change (len []) with 0 in Hmin. destruct (Z.ltb_spec minLen 1); lia. }
  destruct (query_roundtrip domain domains minLen text edns counter) as (id & q & ar & tail & counter' & Hq & Hqb & Hall); [done..|].
  exists id, q, ar, tail, counter'. split; [done|]. split; [done|]. intros id' flags' ar' q' tail' U1 U2 U3 Hh Hbq Hlq.
  destruct (Hall id' flags' ar' q' tail' U1 U2 U3 Hh Hbq Hlq) as (lp & ls & Hp & _ & _ & _ & _ & _ & Hact & Hbase & Hlab & _).
  exists lp. split_and!; [done|done|done|]. rewrite Hlab. by apply Hd.
Qed.

(** The domain "t.co" of the client, and a server that has it and "v.t.io". *)
Lemma sample_tunnel_domain : tunnel_domain [84; 46; 99; 111] [[118; 46; 116; 46; 105; 111]; [116; 46; 99; 111; 46]].
Proof.
  split.
  - repeat constructor; vm_compute; congruence.
  - eexists _, _. vm_compute. reflexivity.
  - vm_compute. reflexivity.
  - apply (bool_decide_unpack _). vm_compute. exact I.
  - intros d (_ & _ & x & Hx & <-)%elem_of_normalizeDomains Hne.
    apply elem_of_cons in Hx as [->|Hx]; [vm_compute; reflexivity|]. apply elem_of_cons in Hx as [->|Hx%elem_of_nil]; [|done].
    by destruct Hne.
  - repeat constructor; vm_compute; congruence.
Qed.

Lemma tunnel_query_roundtrip_witness :
  exists text ct, BuildEncodedAuto (CR := toy_crypto) (CP := rle_compressors) example_opts
      (Some (mkCodec 5 (replicate 32 3))) toy_rnd 1 = Ok text /\ (ct = TypeOff \/ ct = oCompressionType example_opts) /\
    exists header question tail counter' lp,
      BuildTunnelTXTQuestionPacket [84; 46; 99; 111] text DNS_RECORD_TYPE_TXT 1232 0 = Ok (header ++ question ++ tail, counter') /\
      ParseDNSRequestLite (message_header 77 0 1 0 0 0 ++ question) = Ok lp /\
      ParseInflatedFromLabels (CR := toy_crypto) (CP := rle_compressors)
        (Labels (Match (New [[118; 46; 116; 46; 105; 111]; [116; 46; 99; 111; 46]] 3) lp)) (Some (mkCodec 5 (replicate 32 3))) =
        Ok (packet_of (with_payload example_opts ct [10; 20; 30])).
Proof.
  destruct (tunnel_query_roundtrip (CR := toy_crypto) (CP := rle_compressors) example_opts 1 5 [1; 2; 3] (mkCodec 5 (replicate 32 3)) toy_rnd
    [84; 46; 99; 111] [[118; 46; 116; 46; 105; 111]; [116; 46; 99; 111; 46]] 3 1232 0) as (text & ct & Hb & Hct & Hq).
  - exact example_opts_ok.
  - reflexivity.
  - vm_compute. discriminate.
  - repeat constructor; lia.
  - reflexivity.
  - exact toy_rnd_ok.
  - discriminate.
  - exact sample_tunnel_domain.
  - exists text, ct. split; [exact Hb|]. split; [exact Hct|].
    destruct Hq as (id & q & ar & tail & counter' & Hbq & Hqb & Hall).
    { vm_compute in Hb. injection Hb as <-. vm_compute. split; congruence. }
    destruct (Hall 77 0 0 q []) as (lp & Hp & _ & _ & Hd); [unfold u16; lia..|reflexivity|exact Hqb|reflexivity|].
    rewrite app_nil_r in Hp. exists (message_header id 0x0100 1 0 0 ar), q, tail, counter', lp. split; [exact Hbq|]. split; [exact Hp|exact Hd].
Defined.
