(* ===== verification/GoFloat.v ===== *)
(** * Go's float64

    IEEE 754 binary64 arithmetic on the Standard Library's [SpecFloat], which is
    executable and free of axioms: conversions from and to integers, the
    comparisons and the operations that the sources use, each rounded once, and decimal
    literals.  A
    conversion to an integer truncates; outside the range of int64 it yields the
    smallest int64, as on amd64 (the language leaves it to the implementation). *)

From stdpp Require Import base tactics.
From Stdlib Require Import ZArith Lia Floats.SpecFloat.
From S2P Require Import Prelude.

Abbreviation float64 := spec_float.

Definition prec : Z := 53.
Definition emax : Z := 1024.

(** [float64(z)] *)
Definition float64_of_int (z : Z) : float64 := binary_normalize prec emax z 0 false.

(** The literal [n/d]: the quotient of two exact integers is rounded once, as the
    literal is. *)
Definition float64_lit (n d : Z) : float64 := SFdiv prec emax (float64_of_int n) (float64_of_int d).

Definition fmul (x y : float64) : float64 := SFmul prec emax x y.
Definition fdiv (x y : float64) : float64 := SFdiv prec emax x y.
Definition fadd (x y : float64) : float64 := SFadd prec emax x y.
Definition fsub (x y : float64) : float64 := SFsub prec emax x y.
Definition flt (x y : float64) : bool := SFltb x y.

Definition min_int64 : Z := - 2 ^ 63.

(** [int(x)], [time.Duration(x)] *)
Definition int_of_float64 (x : float64) : Z :=
  match x with
  | S754_zero _ => 0
  | S754_finite s m e =>
      let v := if 0 <=? e then Z.pos m * 2 ^ e else Z.shiftr (Z.pos m) (- e) in
      let v := if s then - v else v in
      if (min_int64 <=? v) && (v <? 2 ^ 63) then v else min_int64
  | _ => min_int64
  end.

(** [int(math.Round(x))]: halves are rounded away from zero. *)
Definition int_of_round (x : float64) : Z :=
  match x with
  | S754_finite s m e =>
      let v := if 0 <=? e then Z.pos m * 2 ^ e else Z.shiftr (Z.pos m + 2 ^ (- e - 1)) (- e) in
      if s then - v else v
  | _ => 0
  end.

Definition time_Second : Z := 1000000000.
Definition time_Millisecond : Z := 1000000.

(** [time.Duration(x * float64(time.Second))] *)
Definition seconds (x : float64) : Z := int_of_float64 (fmul x (float64_of_int time_Second)).

Definition four_fifths_lit : float64 := Eval vm_compute in float64_lit 8 10.

(** [int(float64(n) * 0.8)] over a range of integers. *)
Fixpoint scaled_ok (fuel : nat) (n : Z) : bool :=
  match fuel with
  | O => true
  | S fuel =>
      (int_of_float64 (fmul (float64_of_int n) four_fifths_lit) =? n * 8 / 10) && scaled_ok fuel (n + 1)
  end.

Lemma scaled_ok_spec fuel n : scaled_ok fuel n = true ->
  forall k, n <= k < n + Z.of_nat fuel ->
  int_of_float64 (fmul (float64_of_int k) four_fifths_lit) = k * 8 / 10.
Proof.
  revert n. induction fuel as [|fuel IH]; intros n H k Hk; [lia|].
  cbn [scaled_ok] in H. apply andb_true_iff in H as [H1 H2]. zbool.
  destruct (decide (k = n)) as [->|]; [done|]. apply (IH (n + 1) H2). lia.
Qed.

Lemma four_fifths_range : scaled_ok (Z.to_nat 8192) 0 = true.
Proof. vm_compute. reflexivity. Qed.

(** The rounding of 0.8 never shows for the window sizes in use. *)
Lemma four_fifths k : 0 <= k < 8192 ->
  int_of_float64 (fmul (float64_of_int k) (float64_lit 8 10)) = k * 8 / 10.
Proof.
  intros Hk. replace (float64_lit 8 10) with four_fifths_lit by (vm_compute; reflexivity).
  apply (scaled_ok_spec (Z.to_nat 8192) 0); [exact four_fifths_range|lia].
Qed.
