(* ===== verification/ArqState.v ===== *)
(** * ARQ stream: state (masterdns arq)

    The state of src/masterdns/internal/arq/arq.go: the enumerations, the items of
    the send buffers, the [ARQ] struct, its construction by [NewARQ], and the small
    helpers on that state.  Fields that never change after construction are grouped
    in [Tuning]; every other field has its Go name.  A time is a number of
    nanoseconds with 0 for the zero [time.Time]; a duration is a number of
    nanoseconds.  The two one-slot signal channels are booleans (a token is
    present), [rxChan] is the list of its queued payloads, the local connection is
    its presence, the bytes it accepted and whether its sides are closed. *)

From stdpp Require Import base tactics list gmap strings.
From Stdlib Require Import ZArith Lia Floats.SpecFloat.
From S2P Require Import Prelude Enums GoFloat.

Inductive StreamState :=
| StateOpen
| StateHalfClosedLocal
| StateHalfClosedRemote
| StateClosing
| StateReset
| StateClosed
| StateDraining
| StateTimeWait.

#[export] Instance StreamState_eq_dec : EqDecision StreamState.
Proof. solve_decision. Defined.

Definition is_state (s s' : StreamState) : bool := bool_decide (s = s').

Record arqDataItem := mkDataItem {
  dData : bytes;
  dCreatedAt : Z;
  dLastSentAt : Z;
  dDispatched : bool;
  dLastNackSentAt : Z;
  dRetries : Z;
  dCurrentRTO : Z;
  dSampleEligible : bool;
  dCompressionType : Z;
  dTTL : Z
}.

#[export] Instance eta_data : Eta arqDataItem := fun i => mkDataItem (dData i) (dCreatedAt i) (dLastSentAt i)
  (dDispatched i) (dLastNackSentAt i) (dRetries i) (dCurrentRTO i) (dSampleEligible i) (dCompressionType i) (dTTL i).
#[export] Instance set_dLastSentAt : Setter dLastSentAt := ltac:(derive_setter).
#[export] Instance set_dDispatched : Setter dDispatched := ltac:(derive_setter).
#[export] Instance set_dLastNackSentAt : Setter dLastNackSentAt := ltac:(derive_setter).
#[export] Instance set_dRetries : Setter dRetries := ltac:(derive_setter).
#[export] Instance set_dCurrentRTO : Setter dCurrentRTO := ltac:(derive_setter).
#[export] Instance set_dSampleEligible : Setter dSampleEligible := ltac:(derive_setter).

Record arqControlItem := mkControlItem {
  cPacketType : Z;
  cSequenceNum : Z;
  cFragmentID : Z;
  cTotalFragments : Z;
  cAckType : Z;
  cPayload : bytes;
  cPriority : Z;
  cCreatedAt : Z;
  cLastSentAt : Z;
  cDispatched : bool;
  cRetries : Z;
  cCurrentRTO : Z;
  cSampleEligible : bool;
  cTTL : Z
}.

#[export] Instance eta_control : Eta arqControlItem := fun i => mkControlItem (cPacketType i) (cSequenceNum i)
  (cFragmentID i) (cTotalFragments i) (cAckType i) (cPayload i) (cPriority i) (cCreatedAt i) (cLastSentAt i)
  (cDispatched i) (cRetries i) (cCurrentRTO i) (cSampleEligible i) (cTTL i).
#[export] Instance set_cLastSentAt : Setter cLastSentAt := ltac:(derive_setter).
#[export] Instance set_cDispatched : Setter cDispatched := ltac:(derive_setter).
#[export] Instance set_cRetries : Setter cRetries := ltac:(derive_setter).
#[export] Instance set_cCurrentRTO : Setter cCurrentRTO := ltac:(derive_setter).
#[export] Instance set_cSampleEligible : Setter cSampleEligible := ltac:(derive_setter).

Record adaptiveRTOState := mkAdaptive { srtt : Z; rttvar : Z; currentBase : Z; initialized : bool }.

Record rxPayload := mkRx { rx_sn : Z; rx_data : bytes }.

Record rtxJob := mkJob { job_sn : Z; job_data : bytes; job_compressionType : Z }.

Definition setupControlPacketTypes (packetType : Z) : bool :=
  case_of packetType [PACKET_STREAM_SYN; PACKET_SOCKS5_SYN].

(** [Config], with its durations in seconds as float64. *)
Record Config := mkConfig {
  WindowSize : Z;
  RTO : float64;
  MaxRTO : float64;
  IsVirtual : bool;
  StartPaused : bool;
  EnableControlReliability : bool;
  ControlRTO : float64;
  ControlMaxRTO : float64;
  ControlMaxRetries : Z;
  InactivityTimeout : float64;
  DataPacketTTL : float64;
  MaxDataRetries : Z;
  ControlPacketTTL : float64;
  DataNackMaxGap : Z;
  DataNackInitialDelaySeconds : float64;
  DataNackRepeatSeconds : float64;
  TerminalDrainTimeout : float64;
  TerminalAckWaitTimeout : float64;
  CfgCompressionType : Z;
  CfgIsClient : bool;
  InboundQueueSize : Z
}.

(** The fields that are set once. *)
Record Tuning := mkTuning {
  streamID : Z;
  sessionID : Z;
  mtu : Z;
  compressionType : Z;
  IsClient : bool;
  windowSize : Z;
  receiveWindowSize : Z;
  limit : Z;
  rto : Z;
  maxRTO : Z;
  inactivityTimeout : Z;
  dataPacketTTL : Z;
  maxDataRetries : Z;
  terminalDrainTimeout : Z;
  terminalAckWait : Z;
  enableControlReliability : bool;
  controlRto : Z;
  controlMaxRto : Z;
  controlMaxRetries : Z;
  controlPacketTTL : Z;
  dataNackMaxGap : Z;
  dataNackInitialDelay : Z;
  dataNackRepeatInterval : Z;
  rxCap : Z
}.

Record ARQ := mkARQ {
  tun : Tuning;
  ioReady : bool;
  streamWorkersStarted : bool;
  localConn : bool;
  connClosed : bool;
  connWriteClosed : bool;
  connWritten : bytes;
  sndNxt : Z;
  rcvNxt : Z;
  sndBuf : gmap Z arqDataItem;
  rcvBuf : gmap Z bytes;
  controlSndBuf : gmap Z arqControlItem;
  state : StreamState;
  closed : bool;
  closeReason : string;
  lastActivity : Z;
  closeReadSent : bool;
  closeReadReceived : bool;
  closeReadAcked : bool;
  closeReadSeqSent : option Z;
  closeWriteSent : bool;
  closeWriteReceived : bool;
  closeWriteAcked : bool;
  closeWriteSeqSent : option Z;
  rstReceived : bool;
  rstSent : bool;
  rstAcked : bool;
  rstSeqSent : option Z;
  localWriteClosed : bool;
  localWriterBroken : bool;
  localWritePending : bool;
  stopLocalRead : bool;
  deferredClose : bool;
  deferredReason : string;
  deferredDeadline : Z;
  deferredPacket : Z;
  clientEOFAt : Z;
  closeReadAckedAt : Z;
  lastDuplicateAckAt : Z;
  waitingAck : bool;
  waitingAckFor : Z;
  ackWaitDeadline : Z;
  drainProgressAt : Z;
  drainQueueFailAt : Z;
  drainQueueFails : Z;
  drainStallLogged : bool;
  windowNotFull : bool;
  flushSignal : bool;
  dataAdaptiveRTO : adaptiveRTOState;
  controlAdaptiveRTO : adaptiveRTOState;
  isVirtual : bool;
  firstDataNackSeen : gmap Z Z;
  lastDataNackSent : gmap Z Z;
  cancelled : bool;
  rxChan : list rxPayload;
  pendingInbound : Z
}.

#[export] Instance eta_arq : Eta ARQ := fun a => mkARQ (tun a)
  (ioReady a) (streamWorkersStarted a) (localConn a) (connClosed a) (connWriteClosed a)
  (connWritten a) (sndNxt a) (rcvNxt a) (sndBuf a) (rcvBuf a)
  (controlSndBuf a) (state a) (closed a) (closeReason a) (lastActivity a)
  (closeReadSent a) (closeReadReceived a) (closeReadAcked a) (closeReadSeqSent a) (closeWriteSent a)
  (closeWriteReceived a) (closeWriteAcked a) (closeWriteSeqSent a) (rstReceived a) (rstSent a)
  (rstAcked a) (rstSeqSent a) (localWriteClosed a) (localWriterBroken a) (localWritePending a)
  (stopLocalRead a) (deferredClose a) (deferredReason a) (deferredDeadline a) (deferredPacket a)
  (clientEOFAt a) (closeReadAckedAt a) (lastDuplicateAckAt a) (waitingAck a) (waitingAckFor a)
  (ackWaitDeadline a) (drainProgressAt a) (drainQueueFailAt a) (drainQueueFails a) (drainStallLogged a)
  (windowNotFull a) (flushSignal a) (dataAdaptiveRTO a) (controlAdaptiveRTO a) (isVirtual a)
  (firstDataNackSeen a) (lastDataNackSent a) (cancelled a) (rxChan a) (pendingInbound a).
#[export] Instance set_ioReady : Setter ioReady := ltac:(derive_setter).
#[export] Instance set_streamWorkersStarted : Setter streamWorkersStarted := ltac:(derive_setter).
#[export] Instance set_localConn : Setter localConn := ltac:(derive_setter).
#[export] Instance set_connClosed : Setter connClosed := ltac:(derive_setter).
#[export] Instance set_connWriteClosed : Setter connWriteClosed := ltac:(derive_setter).
#[export] Instance set_connWritten : Setter connWritten := ltac:(derive_setter).
#[export] Instance set_sndNxt : Setter sndNxt := ltac:(derive_setter).
#[export] Instance set_rcvNxt : Setter rcvNxt := ltac:(derive_setter).
#[export] Instance set_sndBuf : Setter sndBuf := ltac:(derive_setter).
#[export] Instance set_rcvBuf : Setter rcvBuf := ltac:(derive_setter).
#[export] Instance set_controlSndBuf : Setter controlSndBuf := ltac:(derive_setter).
#[export] Instance set_state : Setter state := ltac:(derive_setter).
#[export] Instance set_closed : Setter closed := ltac:(derive_setter).
#[export] Instance set_closeReason : Setter closeReason := ltac:(derive_setter).
#[export] Instance set_lastActivity : Setter lastActivity := ltac:(derive_setter).
#[export] Instance set_closeReadSent : Setter closeReadSent := ltac:(derive_setter).
#[export] Instance set_closeReadReceived : Setter closeReadReceived := ltac:(derive_setter).
#[export] Instance set_closeReadAcked : Setter closeReadAcked := ltac:(derive_setter).
#[export] Instance set_closeReadSeqSent : Setter closeReadSeqSent := ltac:(derive_setter).
#[export] Instance set_closeWriteSent : Setter closeWriteSent := ltac:(derive_setter).
#[export] Instance set_closeWriteReceived : Setter closeWriteReceived := ltac:(derive_setter).
#[export] Instance set_closeWriteAcked : Setter closeWriteAcked := ltac:(derive_setter).
#[export] Instance set_closeWriteSeqSent : Setter closeWriteSeqSent := ltac:(derive_setter).
#[export] Instance set_rstReceived : Setter rstReceived := ltac:(derive_setter).
#[export] Instance set_rstSent : Setter rstSent := ltac:(derive_setter).
#[export] Instance set_rstAcked : Setter rstAcked := ltac:(derive_setter).
#[export] Instance set_rstSeqSent : Setter rstSeqSent := ltac:(derive_setter).
#[export] Instance set_localWriteClosed : Setter localWriteClosed := ltac:(derive_setter).
#[export] Instance set_localWriterBroken : Setter localWriterBroken := ltac:(derive_setter).
#[export] Instance set_localWritePending : Setter localWritePending := ltac:(derive_setter).
#[export] Instance set_stopLocalRead : Setter stopLocalRead := ltac:(derive_setter).
#[export] Instance set_deferredClose : Setter deferredClose := ltac:(derive_setter).
#[export] Instance set_deferredReason : Setter deferredReason := ltac:(derive_setter).
#[export] Instance set_deferredDeadline : Setter deferredDeadline := ltac:(derive_setter).
#[export] Instance set_deferredPacket : Setter deferredPacket := ltac:(derive_setter).
#[export] Instance set_clientEOFAt : Setter clientEOFAt := ltac:(derive_setter).
#[export] Instance set_closeReadAckedAt : Setter closeReadAckedAt := ltac:(derive_setter).
#[export] Instance set_lastDuplicateAckAt : Setter lastDuplicateAckAt := ltac:(derive_setter).
#[export] Instance set_waitingAck : Setter waitingAck := ltac:(derive_setter).
#[export] Instance set_waitingAckFor : Setter waitingAckFor := ltac:(derive_setter).
#[export] Instance set_ackWaitDeadline : Setter ackWaitDeadline := ltac:(derive_setter).
#[export] Instance set_drainProgressAt : Setter drainProgressAt := ltac:(derive_setter).
#[export] Instance set_drainQueueFailAt : Setter drainQueueFailAt := ltac:(derive_setter).
#[export] Instance set_drainQueueFails : Setter drainQueueFails := ltac:(derive_setter).
#[export] Instance set_drainStallLogged : Setter drainStallLogged := ltac:(derive_setter).
#[export] Instance set_windowNotFull : Setter windowNotFull := ltac:(derive_setter).
#[export] Instance set_flushSignal : Setter flushSignal := ltac:(derive_setter).
#[export] Instance set_dataAdaptiveRTO : Setter dataAdaptiveRTO := ltac:(derive_setter).
#[export] Instance set_controlAdaptiveRTO : Setter controlAdaptiveRTO := ltac:(derive_setter).
#[export] Instance set_isVirtual : Setter isVirtual := ltac:(derive_setter).
#[export] Instance set_firstDataNackSeen : Setter firstDataNackSeen := ltac:(derive_setter).
#[export] Instance set_lastDataNackSent : Setter lastDataNackSent := ltac:(derive_setter).
#[export] Instance set_cancelled : Setter cancelled := ltac:(derive_setter).
#[export] Instance set_rxChan : Setter rxChan := ltac:(derive_setter).
#[export] Instance set_pendingInbound : Setter pendingInbound := ltac:(derive_setter).

(** [CloseOptions] *)
Record CloseOptions := mkCloseOptions {
  Force : bool;
  SendRST : bool;
  SendCloseWrite : bool;
  SendCloseRead : bool;
  AfterDrain : bool;
  TTL : Z
}.

(** ** Times *)

Definition IsZero (t : Z) : bool := t =? 0.
Definition After (t u : Z) : bool := u <? t.

(** ** Small utilities *)

Definition minF (x y : float64) : float64 := if flt x y then x else y.
Definition maxF (x y : float64) : float64 := if flt y x then x else y.
Definition maxI (x y : Z) : Z := if y <? x then x else y.
Definition absDuration (d : Z) : Z := if d <? 0 then - d else d.
Definition clampDuration (v minV maxV : Z) : Z :=
  if v <? minV then minV else if maxV <? v then maxV else v.

Definition updateAdaptiveRTO (st : adaptiveRTOState) (sample minRTO maxRTO : Z) : adaptiveRTOState :=
  let sample := clampDuration sample minRTO maxRTO in
  let '(srtt', rttvar') :=
    if initialized st then
      let delta := absDuration (srtt st - sample) in
      (Z.quot (7 * srtt st + sample) 8, Z.quot (3 * rttvar st + delta) 4)
    else (sample, Z.quot sample 2) in
  mkAdaptive srtt' rttvar' (clampDuration (srtt' + 4 * rttvar') minRTO maxRTO) true.

Definition dataRetransmitRTOGrowthFactor : float64 := float64_lit 135 100.
Definition controlRetransmitRTOGrowthFactor : float64 := float64_lit 125 100.
Definition setupControlRTOGrowthFactor : float64 := float64_lit 115 100.

(** [time.Duration(float64(d) * growth)] *)
Definition grow (d : Z) (growth : float64) : Z := int_of_float64 (fmul (float64_of_int d) growth).

(** ** Construction *)

Definition NewARQ (streamID' sessionID' : Z) (conn : bool) (mtu' : Z) (cfg : Config) (now : Z) : ARQ :=
  let windowSize' := Z.max (WindowSize cfg) 300 in
  let receiveWindowSize' := Z.max windowSize' (windowSize' * 2) in
  let limit' := Z.max (int_of_float64 (fmul (float64_of_int windowSize') (float64_lit 8 10))) 50 in
  let userMaxRto := maxF (float64_lit 5 100) (MaxRTO cfg) in
  let rto' := seconds (minF (maxF (float64_lit 5 100) (RTO cfg)) userMaxRto) in
  let userControlMaxRto := maxF (float64_lit 5 100) (ControlMaxRTO cfg) in
  let controlRto' := seconds (minF (maxF (float64_lit 5 100) (ControlRTO cfg)) userControlMaxRto) in
  let rxCap' :=
    if 0 <? InboundQueueSize cfg then InboundQueueSize cfg
    else if windowSize' <=? 512 then windowSize' * 4
    else if windowSize' <=? 2048 then windowSize' * 2
    else windowSize' + Z.quot windowSize' 2 in
  let t := {|
    streamID := streamID'; sessionID := sessionID'; mtu := mtu';
    compressionType := CfgCompressionType cfg; IsClient := CfgIsClient cfg;
    windowSize := windowSize'; receiveWindowSize := receiveWindowSize'; limit := limit';
    rto := rto'; maxRTO := seconds userMaxRto;
    inactivityTimeout := seconds (maxF (float64_of_int 120) (InactivityTimeout cfg));
    dataPacketTTL := seconds (maxF (float64_of_int 120) (DataPacketTTL cfg));
    maxDataRetries := maxI 60 (MaxDataRetries cfg);
    terminalDrainTimeout := seconds (maxF (float64_of_int 60) (TerminalDrainTimeout cfg));
    terminalAckWait := seconds (maxF (float64_of_int 30) (TerminalAckWaitTimeout cfg));
    enableControlReliability := EnableControlReliability cfg;
    controlRto := controlRto'; controlMaxRto := seconds userControlMaxRto;
    controlMaxRetries := maxI 5 (ControlMaxRetries cfg);
    controlPacketTTL := seconds (maxF (float64_of_int 120) (ControlPacketTTL cfg));
    dataNackMaxGap := maxI 0 (DataNackMaxGap cfg);
    dataNackInitialDelay := seconds (maxF (float64_of_int 0) (DataNackInitialDelaySeconds cfg));
    dataNackRepeatInterval := seconds (maxF (float64_lit 1 10) (DataNackRepeatSeconds cfg));
    rxCap := rxCap' |} in
  {| tun := t;
     ioReady := negb (StartPaused cfg); streamWorkersStarted := false;
     localConn := conn; connClosed := false; connWriteClosed := false; connWritten := [];
     sndNxt := 0; rcvNxt := 0; sndBuf := ∅; rcvBuf := ∅; controlSndBuf := ∅;
     state := StateOpen; closed := false; closeReason := EmptyString; lastActivity := now;
     closeReadSent := false; closeReadReceived := false; closeReadAcked := false; closeReadSeqSent := None;
     closeWriteSent := false; closeWriteReceived := false; closeWriteAcked := false; closeWriteSeqSent := None;
     rstReceived := false; rstSent := false; rstAcked := false; rstSeqSent := None;
     localWriteClosed := false; localWriterBroken := false; localWritePending := false;
     stopLocalRead := false; deferredClose := false; deferredReason := EmptyString;
     deferredDeadline := 0; deferredPacket := 0; clientEOFAt := 0; closeReadAckedAt := 0;
     lastDuplicateAckAt := 0; waitingAck := false; waitingAckFor := 0; ackWaitDeadline := 0;
     drainProgressAt := 0; drainQueueFailAt := 0; drainQueueFails := 0; drainStallLogged := false;
     windowNotFull := true; flushSignal := false;
     dataAdaptiveRTO := mkAdaptive 0 0 rto' false; controlAdaptiveRTO := mkAdaptive 0 0 controlRto' false;
     isVirtual := IsVirtual cfg; firstDataNackSeen := ∅; lastDataNackSent := ∅;
     cancelled := false; rxChan := []; pendingInbound := 0 |}.
