(* ===== verification/Arq.v ===== *)
(** * ARQ stream: operations (masterdns arq)

    The methods of src/masterdns/internal/arq/arq.go.  A method that holds the
    mutex once is a function on [ARQ]; one that takes it several times is composed
    of the functions for its critical sections (named [..._locked]) and of the
    calls in between, in the order of the code.  The transmission layer is the
    interface [PacketEnqueuer]: its state [W] is passed along, and an optional
    method the enqueuer does not implement is the identity.  [now] is what
    [time.Now()] returns during the call.  Log output is left out. *)

From stdpp Require Import base tactics list gmap strings.
From Stdlib Require Import ZArith Lia Floats.SpecFloat.
From S2P Require Import Prelude Enums GoFloat ArqState.

(** The arguments of [PushTXPacket]. *)
Record TXRequest := mkTX {
  txPriority : Z;
  txPacketType : Z;
  txSequenceNum : Z;
  txFragmentID : Z;
  txTotalFragments : Z;
  txCompressionType : Z;
  txTTL : Z;
  txPayload : bytes
}.

(** [PacketEnqueuer] with the optional [queuedDataRemover], [queuedDataNackRemover]
    and [terminalOwner]. *)
Class PacketEnqueuer (W : Type) := {
  PushTXPacket : W -> TXRequest -> bool * W;
  RemoveQueuedData : W -> Z -> W;
  RemoveQueuedDataNack : W -> Z -> W;
  OnARQClosed : W -> string -> W
}.

(** ** Critical sections that only touch the ARQ state *)

Definition signalWindowNotFull (a : ARQ) : ARQ := a <| windowNotFull := true |>.
Definition signalFlushReady (a : ARQ) : ARQ := a <| flushSignal := true |>.
Definition setState (newState : StreamState) (a : ARQ) : ARQ := a <| state := newState |>.

Definition IsReset (a : ARQ) : bool := is_state (state a) StateReset || rstReceived a || rstSent a.

Definition clearDataNackStateLocked (a : ARQ) : ARQ :=
  a <| firstDataNackSeen := ∅ |> <| lastDataNackSent := ∅ |>.

Definition clearAllQueues (clearControl : bool) (a : ARQ) : ARQ :=
  let a := a <| sndBuf := ∅ |> <| rcvBuf := ∅ |> in
  let a := if clearControl then a <| controlSndBuf := ∅ |> else a in
  signalWindowNotFull (clearDataNackStateLocked a).

(** [for sn := a.rcvNxt; ; sn++] until a missing sequence number.  The numbers
    visited are distinct keys of [rcvBuf], so one turn more than its size ends the
    loop whenever the loop ends. *)
Fixpoint contiguousReady_loop (fuel : nat) (buf : gmap Z bytes) (sn : Z) : Z :=
  match fuel with
  | O => 0
  | S fuel =>
      match buf !! sn with
      | None => 0
      | Some _ => 1 + contiguousReady_loop fuel buf (wrap16 (sn + 1))
      end
  end.

Definition contiguousReadyLocked (a : ARQ) : Z :=
  contiguousReady_loop (S (size (rcvBuf a))) (rcvBuf a) (rcvNxt a).

Definition currentDataBaseRTO (a : ARQ) : Z :=
  let base := currentBase (dataAdaptiveRTO a) in
  if base <=? 0 then rto (tun a) else clampDuration base (rto (tun a)) (maxRTO (tun a)).

Definition currentControlBaseRTO (a : ARQ) : Z :=
  let base := currentBase (controlAdaptiveRTO a) in
  if base <=? 0 then controlRto (tun a) else clampDuration base (controlRto (tun a)) (controlMaxRto (tun a)).

Definition noteSuccessfulDataSample (sample : Z) (a : ARQ) : ARQ :=
  a <| dataAdaptiveRTO := updateAdaptiveRTO (dataAdaptiveRTO a) sample (rto (tun a)) (maxRTO (tun a)) |>.

Definition noteSuccessfulControlSample (sample : Z) (a : ARQ) : ARQ :=
  a <| controlAdaptiveRTO :=
         updateAdaptiveRTO (controlAdaptiveRTO a) sample (controlRto (tun a)) (controlMaxRto (tun a)) |>.

(** [uint32(packetType)<<24 | uint32(sequenceNum)<<8 | uint32(fragmentID)] *)
Definition controlKey (packetType sequenceNum fragmentID : Z) : Z :=
  Z.lor (Z.lor (Z.shiftl packetType 24) (Z.shiftl sequenceNum 8)) fragmentID.

Definition NoteTXPacketDequeued (packetType sequenceNum fragmentID now : Z) (a : ARQ) : ARQ :=
  if (packetType =? PACKET_STREAM_DATA) || (packetType =? PACKET_STREAM_RESEND) then
    a <| sndBuf ::= alter (fun i => i <| dLastSentAt := now |> <| dDispatched := true |>) sequenceNum |>
  else if negb (enableControlReliability (tun a)) then a
  else
    a <| controlSndBuf ::= alter (fun i => i <| cLastSentAt := now |> <| cDispatched := true |>)
                             (controlKey packetType sequenceNum fragmentID) |>.

Definition markCloseReadAcked (now : Z) (a : ARQ) : ARQ :=
  let a := a <| closeReadAcked := true |> <| closeReadAckedAt := now |> in
  if closeReadReceived a then setState StateClosing a else a.

Definition MarkCloseWriteSent (a : ARQ) : ARQ :=
  let a := a <| closeWriteSent := true |> <| localWriterBroken := true |>
             <| localWriteClosed := true |> <| rcvBuf := ∅ |> in
  if closeReadReceived a then setState StateClosing a else a.

Definition markCloseWriteAcked (a : ARQ) : ARQ :=
  a <| closeWriteAcked := true |> <| localWriterBroken := true |> <| localWriteClosed := true |>.

Definition markLocalWriterBroken (a : ARQ) : ARQ :=
  a <| localWriterBroken := true |> <| localWritePending := false |> <| rcvBuf := ∅ |>.

Definition noteClientEOF (now : Z) (a : ARQ) : ARQ :=
  if IsClient (tun a) && IsZero (clientEOFAt a) then a <| clientEOFAt := now |> else a.

(** The flag update, and [CloseWrite] on the connection. *)
Definition halfCloseLocalWriter (a : ARQ) : ARQ :=
  if localWriteClosed a || closed a then a
  else
    let a := a <| localWriteClosed := true |> in
    if localConn a then a <| connWriteClosed := true |> else a.

Definition clearWaitingAck (packetType : Z) (a : ARQ) : ARQ :=
  if waitingAck a && (waitingAckFor a =? packetType)
  then a <| waitingAck := false |> <| waitingAckFor := 0 |> <| ackWaitDeadline := 0 |> else a.

Definition resetDrainTrackingLocked (now : Z) (a : ARQ) : ARQ :=
  a <| drainProgressAt := now |> <| drainQueueFailAt := 0 |> <| drainQueueFails := 0 |>
    <| drainStallLogged := false |>.

Definition noteDrainProgressLocked (now : Z) (a : ARQ) : ARQ := resetDrainTrackingLocked now a.

Definition noteDrainQueueFailure (now : Z) (a : ARQ) : ARQ :=
  if deferredClose a || is_state (state a) StateDraining
  then a <| drainQueueFailAt := now |> <| drainQueueFails ::= (fun n => n + 1) |> else a.

Definition clearTrackedControlPacket (packetType sequenceNum fragmentID : Z) (a : ARQ) : ARQ :=
  a <| controlSndBuf ::= delete (controlKey packetType sequenceNum fragmentID) |>.

Definition MarkRstSent (a : ARQ) : ARQ :=
  setState StateReset (clearAllQueues true (a <| rstSent := true |>)).

Definition markRstAcked (a : ARQ) : ARQ :=
  setState StateReset (clearAllQueues true (a <| rstAcked := true |>)).

(** [a.deferredClose = false; a.deferredReason = ...] *)
Definition clearDeferred (a : ARQ) : ARQ :=
  a <| deferredClose := false |> <| deferredReason := EmptyString |>
    <| deferredDeadline := 0 |> <| deferredPacket := 0 |>.

Definition startStreamWorkers (a : ARQ) : ARQ :=
  if streamWorkersStarted a then a
  else if negb (localConn a) then a
  else signalFlushReady (a <| streamWorkersStarted := true |>).

Definition Start (a : ARQ) : ARQ := if ioReady a then startStreamWorkers a else a.

Definition SetLocalConn (a : ARQ) : ARQ :=
  if localConn a then a
  else
    let a := a <| localConn := true |> in
    if negb (cancelled a) && ioReady a then signalFlushReady (startStreamWorkers a) else a.

Definition SetIOReady (ready : bool) (a : ARQ) : ARQ :=
  let changed := negb (eqb (ioReady a) ready) in
  let a := a <| ioReady := ready |> in
  if negb changed then a
  else if ready then signalFlushReady (startStreamWorkers a) else a.

Definition isGracefulCloseInProgress (a : ARQ) : bool :=
  closed a ||
  (waitingAck a && ((waitingAckFor a =? PACKET_STREAM_CLOSE_READ) || (waitingAckFor a =? PACKET_STREAM_CLOSE_WRITE))) ||
  (deferredClose a && ((deferredPacket a =? PACKET_STREAM_CLOSE_READ) || (deferredPacket a =? PACKET_STREAM_CLOSE_WRITE))) ||
  (match state a with
   | StateHalfClosedLocal | StateHalfClosedRemote | StateClosing | StateDraining | StateTimeWait => true
   | _ => false
   end) ||
  (closeReadSent a || closeReadReceived a || closeWriteSent a || closeWriteReceived a).

(** The first section of [finalizeClose]; [None] is the early return. *)
Definition finalizeClose_locked (reason : string) (a : ARQ) : option ARQ :=
  if closed a || isVirtual a then None
  else
    let a := a <| closeReason := reason |> <| closed := true |> in
    let a := clearDeferred a in
    let a := a <| waitingAck := false |> <| waitingAckFor := 0 |> <| ackWaitDeadline := 0 |> in
    let a :=
      if is_state (state a) StateReset || rstReceived a || rstSent a then setState StateReset a
      else if closeReadSent a || closeReadReceived a || closeWriteSent a || closeWriteReceived a
      then setState StateTimeWait a
      else setState StateClosing a in
    let a := a <| cancelled := true |> in
    let a := if localConn a then a <| connClosed := true |> else a in
    Some (clearAllQueues true a).

(** The conditions of [tryFinalizeRemoteEOF] and [tryFinalizeClientLocalDisconnect]. *)
Definition remoteEOF_shouldClose (a : ARQ) : bool :=
  let waitingForCloseReadAck := waitingAck a && (waitingAckFor a =? PACKET_STREAM_CLOSE_READ) in
  let receiveDrained := (bool_decide (rcvBuf a = ∅) && (pendingInbound a =? 0)) || localWriterBroken a in
  let writeSideSettled :=
    (negb (localWriterBroken a) && (negb (closeWriteSent a) || closeWriteAcked a)) ||
    (localWriterBroken a && (closeWriteAcked a || closeWriteReceived a)) in
  negb (closed a) && closeReadReceived a && receiveDrained &&
  (negb (localWritePending a) || localWriterBroken a) &&
  (closeReadAcked a || (closeReadSent a && negb waitingForCloseReadAck)) &&
  writeSideSettled.

Definition clientDisconnect_shouldClose (a : ARQ) : bool :=
  IsClient (tun a) && negb (closed a) && localWriterBroken a && closeWriteAcked a && closeReadSent a &&
  closeReadAcked a && bool_decide (sndBuf a = ∅) && bool_decide (rcvBuf a = ∅) && (pendingInbound a =? 0) &&
  negb (localWritePending a) && negb (waitingAck a) && negb (deferredClose a).

Definition ack_request (sn : Z) : TXRequest :=
  mkTX (DefaultPacketPriority PACKET_STREAM_DATA_ACK) PACKET_STREAM_DATA_ACK sn 0 0 0 0 [].

Definition nack_request (sn : Z) : TXRequest :=
  mkTX (DefaultPacketPriority PACKET_STREAM_DATA_NACK) PACKET_STREAM_DATA_NACK sn 0 0 0 0 [].

Definition data_request (packetType sn comp ttl : Z) (data : bytes) : TXRequest :=
  mkTX (DefaultPacketPriority packetType) packetType sn 0 0 comp ttl data.

(** ** Operations that also use the enqueuer *)

Section arq.
Context {W : Type} `{PE : PacketEnqueuer W}.

(** An ARQ stream with the state of its enqueuer. *)
Abbreviation stream := (ARQ * W)%type.

Definition upd (f : ARQ -> ARQ) (s : stream) : stream := (f s.1, s.2).

Definition push (r : TXRequest) (s : stream) : bool * stream :=
  let '(ok, w) := PushTXPacket s.2 r in (ok, (s.1, w)).

Definition removeQueued (sns : list Z) (s : stream) : stream :=
  (s.1, fold_left RemoveQueuedData sns s.2).

Definition removeQueuedNacks (sns : list Z) (s : stream) : stream :=
  (s.1, fold_left RemoveQueuedDataNack sns s.2).

(** The sequence numbers of a buffer, [for sn := range m]. *)
Definition keys {A} (m : gmap Z A) : list Z := (map_to_list m).*1.

Definition clearOutboundStateLocked (clearControl : bool) (s : stream) : stream :=
  let s := removeQueued (keys (sndBuf s.1)) s in
  let s := removeQueuedNacks (keys (lastDataNackSent s.1)) s in
  upd (fun a =>
    let a := a <| sndBuf := ∅ |> in
    let a := if clearControl then a <| controlSndBuf := ∅ |> else a in
    signalWindowNotFull (clearDataNackStateLocked a)) s.

Definition finalizeClose (reason : string) (s : stream) : stream :=
  match finalizeClose_locked reason s.1 with
  | None => s
  | Some a => (a, OnARQClosed s.2 reason)
  end.

Definition tryFinalizeClientLocalDisconnect (s : stream) : stream :=
  if clientDisconnect_shouldClose s.1 then finalizeClose "client local disconnect completed" s else s.

Definition tryFinalizeRemoteEOF (s : stream) : stream :=
  if remoteEOF_shouldClose s.1 then finalizeClose "close handshake completed" s
  else tryFinalizeClientLocalDisconnect s.

(** Returns whether the stream was finalized. *)
Definition tryFinalizePeerResetDrain (s : stream) : bool * stream :=
  let a := s.1 in
  if negb (rstReceived a) || closed a then (false, s)
  else if 0 <? contiguousReadyLocked a then (false, upd signalFlushReady s)
  else if localWritePending a || (0 <? pendingInbound a) then (false, s)
  else if negb (bool_decide (rcvBuf a = ∅))
  then (true, finalizeClose "peer reset received with non-contiguous buffered data" s)
  else (true, finalizeClose "peer reset received" s).

Definition MarkCloseReadSent_locked (a : ARQ) : ARQ :=
  let a := a <| closeReadSent := true |> in
  if closeReadReceived a then setState StateClosing a else setState StateHalfClosedLocal a.

Definition MarkCloseReadSent (s : stream) : stream :=
  tryFinalizeRemoteEOF (upd MarkCloseReadSent_locked s).

Definition MarkCloseReadReceived_locked (a : ARQ) : ARQ :=
  let a := a <| closeReadReceived := true |> in
  if closeReadSent a then setState StateClosing a else setState StateHalfClosedRemote a.

Definition MarkCloseReadReceived (s : stream) : stream :=
  if isVirtual s.1 then s
  else tryFinalizeRemoteEOF (upd signalFlushReady (upd MarkCloseReadReceived_locked s)).

Definition MarkRstReceived (s : stream) : stream :=
  if isVirtual s.1 then s
  else
    let s := upd (fun a => a <| rstReceived := true |> <| stopLocalRead := true |>) s in
    let s := clearOutboundStateLocked true s in
    upd signalFlushReady (upd (setState StateReset) s).

(** The section of [SendControlPacketWithTTL] after the push. *)
Definition trackControl (packetType sequenceNum fragmentID totalFragments : Z) (payload : bytes)
    (priority expectedAck ttl now initialRTO : Z) (ok : bool) (a : ARQ) : ARQ :=
  let lastSentAt := if ok then 0 else now - initialRTO in
  a <| controlSndBuf ::= <[controlKey packetType sequenceNum fragmentID :=
         mkControlItem packetType sequenceNum fragmentID totalFragments expectedAck payload priority now
           lastSentAt (negb ok) 0 initialRTO true ttl]> |>.

Definition SendControlPacketWithTTL (packetType sequenceNum fragmentID totalFragments : Z) (payload : bytes)
    (priority : Z) (trackForAck : bool) (customAckType : option Z) (ttl now : Z) (s : stream) : bool * stream :=
  let priority := NormalizePacketPriority packetType priority in
  let request := mkTX priority packetType sequenceNum fragmentID totalFragments 0 ttl payload in
  if negb (enableControlReliability (tun s.1)) || negb trackForAck then push request s
  else
    match (match customAckType with Some t => Some t | None => ControlAckFor packetType end) with
    | None => (true, s)
    | Some expectedAck =>
        match controlSndBuf s.1 !! controlKey packetType sequenceNum fragmentID with
        | Some _ => (true, s)
        | None =>
            let initialRTO := currentControlBaseRTO s.1 in
            let initialRTO :=
              if setupControlPacketTypes packetType && (350 * time_Millisecond <? initialRTO)
              then 350 * time_Millisecond else initialRTO in
            let '(ok, s) := push request s in
            (ok, upd (trackControl packetType sequenceNum fragmentID totalFragments payload priority
                        expectedAck ttl now initialRTO ok) s)
        end
    end.

(** The preamble of [emitTerminalPacketWithTTL]. *)
Definition emit_preamble (reason : string) (a : ARQ) : ARQ :=
  clearDeferred (a <| closeReason := reason |> <| stopLocalRead := true |>).

(** [a.waitingAck = true; ...] *)
Definition startAckWait (packetType now : Z) (a : ARQ) : ARQ :=
  a <| waitingAck := true |> <| waitingAckFor := packetType |>
    <| ackWaitDeadline := now + terminalAckWait (tun a) |>.

Definition send_terminal (packetType seq ackType ttl now : Z) (s : stream) : stream :=
  (SendControlPacketWithTTL packetType seq 0 0 [] (DefaultPacketPriority packetType)
     (enableControlReliability (tun s.1)) (Some ackType) ttl now s).2.

Definition emitTerminalPacketWithTTL (packetType : Z) (reason : string) (ttl now : Z) (s : stream) : stream :=
  if closed s.1 || isVirtual s.1 then s
  else
    let s := upd (emit_preamble reason) s in
    let a := s.1 in
    if waitingAck a && (waitingAckFor a =? packetType) then s
    else if packetType =? PACKET_STREAM_CLOSE_READ then
      if rstSent a || rstReceived a || closeReadSent a then s
      else
        let seq := default 0 (closeReadSeqSent a) in
        let s := upd (fun a => startAckWait packetType now (a <| closeReadSeqSent := Some seq |>)) s in
        send_terminal PACKET_STREAM_CLOSE_READ seq PACKET_STREAM_CLOSE_READ_ACK ttl now (MarkCloseReadSent s)
    else if packetType =? PACKET_STREAM_CLOSE_WRITE then
      if rstReceived a || rstSent a || closeWriteSent a then s
      else
        let seq := default 0 (closeWriteSeqSent a) in
        let s := upd (fun a => startAckWait packetType now (a <| closeWriteSeqSent := Some seq |>)) s in
        send_terminal PACKET_STREAM_CLOSE_WRITE seq PACKET_STREAM_CLOSE_WRITE_ACK ttl now (upd MarkCloseWriteSent s)
    else if packetType =? PACKET_STREAM_RST then
      if rstReceived a || rstSent a then s
      else
        let seq := default 0 (rstSeqSent a) in
        let s := upd (fun a => startAckWait packetType now (clearAllQueues true (a <| rstSeqSent := Some seq |>))) s in
        send_terminal PACKET_STREAM_RST seq PACKET_STREAM_RST_ACK ttl now (upd MarkRstSent s)
    else s.

(** The reset section of [Close]. *)
Definition close_rst_locked (reason : string) (a : ARQ) : ARQ :=
  clearDeferred (setState StateReset (a <| closeReason := reason |>)).

Definition alreadyResetting (a : ARQ) : bool :=
  rstSent a || rstReceived a ||
  (waitingAck a && (waitingAckFor a =? PACKET_STREAM_RST)) ||
  (deferredClose a && (deferredPacket a =? PACKET_STREAM_RST)).

(** [Close], with [deferTerminalPacket] as an argument: the latter may end in a
    [Close] that does not wait for the drain, which ties the knot below. *)
Definition Close_with (deferTerminal : string -> Z -> Z -> stream -> stream)
    (reason : string) (opts : CloseOptions) (now : Z) (s : stream) : stream :=
  if isVirtual s.1 && negb (Force opts) then s
  else if Force opts || (negb (SendRST opts) && negb (SendCloseRead opts) && negb (SendCloseWrite opts)) then
    finalizeClose reason (upd (fun a => a <| isVirtual := false |>) s)
  else if SendCloseRead opts then
    if AfterDrain opts then deferTerminal reason PACKET_STREAM_CLOSE_READ now s
    else emitTerminalPacketWithTTL PACKET_STREAM_CLOSE_READ reason (TTL opts) now s
  else if SendCloseWrite opts then
    emitTerminalPacketWithTTL PACKET_STREAM_CLOSE_WRITE reason (TTL opts) now s
  else if closed s.1 then s
  else if alreadyResetting s.1 then s
  else
    let hasPendingData := negb (bool_decide (sndBuf s.1 = ∅)) in
    let s := upd (close_rst_locked reason) s in
    if AfterDrain opts && hasPendingData then deferTerminal reason PACKET_STREAM_RST now s
    else emitTerminalPacketWithTTL PACKET_STREAM_RST reason (TTL opts) now s.

(** The packet to emit once the drain is over. *)
Definition settle_decision (now : Z) (a : ARQ) : option (Z * string) :=
  if closed a || negb (deferredClose a) then None
  else if bool_decide (sndBuf a = ∅) then Some (deferredPacket a, deferredReason a)
  else if negb (IsZero (deferredDeadline a)) && After now (deferredDeadline a)
  then Some (PACKET_STREAM_RST, (deferredReason a +:+ " but drain timeout expired")%string)
  else None.

Definition settleTerminalDrain (now : Z) (s : stream) : stream :=
  match settle_decision now s.1 with
  | None => s
  | Some (packetType, reason) =>
      Close_with (fun _ _ _ s => s) reason
        (mkCloseOptions false (packetType =? PACKET_STREAM_RST) (packetType =? PACKET_STREAM_CLOSE_WRITE)
           (packetType =? PACKET_STREAM_CLOSE_READ) false 0) now (upd clearDeferred s)
  end.

Definition defer_locked (reason : string) (packetType now : Z) (a : ARQ) : ARQ :=
  let a := if is_state (state a) StateReset || is_state (state a) StateClosed then a else setState StateDraining a in
  let a := a <| stopLocalRead := true |> <| deferredClose := true |> <| deferredReason := reason |>
             <| deferredPacket := packetType |> in
  let deadline := now + terminalDrainTimeout (tun a) in
  let a := if IsZero (deferredDeadline a) || After deadline (deferredDeadline a)
           then a <| deferredDeadline := deadline |> else a in
  resetDrainTrackingLocked now a.

Definition deferTerminalPacket (reason : string) (packetType now : Z) (s : stream) : stream :=
  if closed s.1 || isVirtual s.1 then s
  else
    let s := upd (defer_locked reason packetType now) s in
    if bool_decide (sndBuf s.1 = ∅) then settleTerminalDrain now s else s.

Definition Close : string -> CloseOptions -> Z -> stream -> stream := Close_with deferTerminalPacket.

(** Options of the calls in the code. *)
Definition send_rst : CloseOptions := mkCloseOptions false true false false false 0.
Definition send_close_read (afterDrain : bool) : CloseOptions := mkCloseOptions false false false true afterDrain 0.
Definition send_close_write : CloseOptions := mkCloseOptions false false true false false 0.

Definition MarkCloseWriteReceived (now : Z) (s : stream) : stream :=
  if isVirtual s.1 then s
  else
    let s := upd (fun a => a <| closeWriteReceived := true |> <| stopLocalRead := true |>) s in
    let s := removeQueued (keys (sndBuf s.1)) s in
    let s := upd (fun a => signalWindowNotFull (a <| sndBuf := ∅ |>)) s in
    tryFinalizeRemoteEOF (settleTerminalDrain now s).

Definition maybeInitiateClientCloseReadAfterWriterBreak (now : Z) (s : stream) : stream :=
  let a := s.1 in
  let shouldInitiate :=
    IsClient (tun a) && localWriterBroken a && negb (closed a) && negb (rstSent a) && negb (rstReceived a) &&
    negb (closeReadSent a) && negb (closeReadReceived a) in
  let pendingOutbound := negb (bool_decide (sndBuf a = ∅)) || localWritePending a in
  if negb shouldInitiate then s
  else Close "Client local endpoint disconnected after write side closed" (send_close_read pendingOutbound) now s.
End arq.
