(* ===== verification/TxQueue.v ===== *)
(** * Transmit queue of a stream (masterdns client and udpserver)

    The two implementations of arq's [PacketEnqueuer]: [Stream_client] of
    src/masterdns/internal/client/stream_client.go and [Stream_server] of
    src/masterdns/internal/udpserver/stream_server.go.  Both put packets into a
    multi-level queue under their identity key and keep at most one copy of a data
    packet queued.  What [time.Now()] returns is the field [clock]; packets taken
    from the pool have every field set that is read later.  The registries of the
    client and the session that learn about a closed stream are outside this file. *)

From stdpp Require Import base tactics list gmap strings.
From Stdlib Require Import ZArith Lia.
From S2P Require Import Prelude Enums Mlq Compression VpnProto GoFloat ArqState Arq.

(** The fields of a queued packet that [PushTXPacket] sets; [isControlCounted] is
    only used on the client. *)
Record txPacket := mkTxPacket {
  pktType : Z;
  pktSequenceNum : Z;
  pktFragmentID : Z;
  pktTotalFragments : Z;
  pktCompressionType : Z;
  pktPayload : bytes;
  pktCreatedAt : Z;
  pktTTL : Z;
  isControlCounted : bool
}.

Abbreviation txMLQ := (MultiLevelQueue txPacket).

Definition packet_of (r : TXRequest) (now : Z) (counted : bool) : txPacket :=
  mkTxPacket (txPacketType r) (txSequenceNum r) (txFragmentID r) (txTotalFragments r) (txCompressionType r)
    (txPayload r) now (txTTL r) counted.

(** [dataKey], [resendKey] and [key] of both [PushTXPacket]. *)
Definition dataKey (id : Z) (r : TXRequest) : Z := PacketIdentityKey id PACKET_STREAM_DATA (txSequenceNum r) (txFragmentID r).
Definition resendKey (id : Z) (r : TXRequest) : Z := PacketIdentityKey id PACKET_STREAM_RESEND (txSequenceNum r) (txFragmentID r).
Definition request_key (id : Z) (r : TXRequest) : Z := PacketIdentityKey id (txPacketType r) (txSequenceNum r) (txFragmentID r).

Definition queued (q : txMLQ) (k : Z) : bool := match Mlq.Get q k with Some _ => true | None => false end.

(** The [switch packetType] in front of the push. *)
Definition duplicate (q : txMLQ) (id : Z) (r : TXRequest) : bool :=
  if txPacketType r =? PACKET_STREAM_DATA then queued q (dataKey id r) || queued q (resendKey id r)
  else if txPacketType r =? PACKET_STREAM_RESEND then queued q (resendKey id r)
  else false.

(** The steps under [txQueueMu] that both sides share. *)
Definition push_queue (q : txMLQ) (id : Z) (r : TXRequest) (p : txPacket) : bool * txMLQ :=
  if duplicate q id r then (false, q)
  else
    let '(ok, q) := Mlq.Push q (NormalizePacketPriority (txPacketType r) (txPriority r)) (request_key id r) p in
    if negb ok then (false, q)
    else (true, if txPacketType r =? PACKET_STREAM_RESEND then (Mlq.RemoveByKey q (dataKey id r)).2 else q).

Module StreamClient.
Record Stream_client := mkClient {
  StreamID : Z;
  clock : Z;
  NetConn : bool;
  Status : string;
  txQueue : txMLQ;
  controlCount : Z;
  cleanupDone : bool
}.

#[export] Instance eta_client : Eta Stream_client :=
  fun s => mkClient (StreamID s) (clock s) (NetConn s) (Status s) (txQueue s) (controlCount s) (cleanupDone s).
#[export] Instance set_clock : Setter clock := ltac:(derive_setter).
#[export] Instance set_NetConn : Setter NetConn := ltac:(derive_setter).
#[export] Instance set_Status : Setter Status := ltac:(derive_setter).
#[export] Instance set_txQueue : Setter txQueue := ltac:(derive_setter).
#[export] Instance set_controlCount : Setter controlCount := ltac:(derive_setter).
#[export] Instance set_cleanupDone : Setter cleanupDone := ltac:(derive_setter).

(** The counter is an [atomic.Int32]. *)
Definition count (d : Z) (s : Stream_client) : Stream_client := s <| controlCount ::= (fun n => swrap32 (n + d)) |>.

(** The packet is in the queue when its flag is set, so the queued packet carries
    the flag. *)
Definition PushTXPacket (s : Stream_client) (r : TXRequest) : bool * Stream_client :=
  if (txPacketType r =? PACKET_PING) && (500 <? Mlq.FastSize (txQueue s)) then (false, s)
  else
    let counted := IsPackableControlPacket (txPacketType r) (len (txPayload r)) in
    let '(ok, q) := push_queue (txQueue s) (StreamID s) r (packet_of r (clock s) counted) in
    let s := s <| txQueue := q |> in
    if ok then (true, if counted then count 1 s else s) else (false, s).

(** The queue part of [NoteTXPacketDequeued]; the ARQ part is
    [Arq.NoteTXPacketDequeued]. *)
Definition uncount (p : txPacket) (s : Stream_client) : Stream_client := if isControlCounted p then count (-1) s else s.

Definition PopNextTXPacket (s : Stream_client) : option (txPacket * Z) * Stream_client :=
  let '(r, q) := Mlq.Pop (txQueue s) in
  let s := s <| txQueue := q |> in
  (r, match r with Some (p, _) => uncount p s | None => s end).

Definition GetQueuedPacket (s : Stream_client) (packetType sequenceNum fragmentID : Z) : option txPacket :=
  Mlq.Get (txQueue s) (PacketIdentityKey (StreamID s) packetType sequenceNum fragmentID).

(** One removal by identity. *)
Definition remove_one (packetType sequenceNum : Z) (s : Stream_client) : bool * Stream_client :=
  let '(r, q) := Mlq.RemoveByKey (txQueue s) (PacketIdentityKey (StreamID s) packetType sequenceNum 0) in
  let s := s <| txQueue := q |> in
  match r with Some p => (true, uncount p s) | None => (false, s) end.

Definition RemoveQueuedData (s : Stream_client) (sequenceNum : Z) : bool * Stream_client :=
  let '(r1, s) := remove_one PACKET_STREAM_DATA sequenceNum s in
  let '(r2, s) := remove_one PACKET_STREAM_RESEND sequenceNum s in
  (r1 || r2, s).

Definition RemoveQueuedDataNack (s : Stream_client) (sequenceNum : Z) : bool * Stream_client :=
  remove_one PACKET_STREAM_DATA_NACK sequenceNum s.

Definition cleanupResources (s : Stream_client) : Stream_client :=
  s <| NetConn := false |> <| txQueue := (Mlq.Clear (txQueue s)).2 |> <| controlCount := 0 |> <| Status := "CLOSED"%string |>.

(** [cleanupOnce.Do] *)
Definition finalizeAfterARQClose (s : Stream_client) : Stream_client :=
  if cleanupDone s then s else cleanupResources (s <| cleanupDone := true |>).

Definition OnARQClosed (s : Stream_client) (reason : string) : Stream_client := finalizeAfterARQClose s.

#[global] Instance client_enqueuer : PacketEnqueuer Stream_client := {
  Arq.PushTXPacket := PushTXPacket;
  Arq.RemoveQueuedData s sn := (RemoveQueuedData s sn).2;
  Arq.RemoveQueuedDataNack s sn := (RemoveQueuedDataNack s sn).2;
  Arq.OnARQClosed := OnARQClosed
}.

(** The queue of [new_stream]. *)
Definition new_stream (streamID now : Z) (conn : bool) : Stream_client :=
  mkClient streamID now conn "PENDING" (Mlq.New (T := txPacket)) 0 false.

Inductive op :=
| OpTick (now : Z)
| OpPush (r : TXRequest)
| OpPop
| OpPopAnyIf (maxPriority : Z) (predicate : option (txPacket -> bool))
| OpRemoveData (sn : Z)
| OpRemoveNack (sn : Z)
| OpClosed (reason : string).

Definition step (s : Stream_client) (o : op) : Stream_client :=
  match o with
  | OpTick now => s <| clock := now |>
  | OpPush r => (PushTXPacket s r).2
  | OpPop => (PopNextTXPacket s).2
  | OpPopAnyIf maxPriority predicate =>
      let '(r, q) := Mlq.PopAnyIf (txQueue s) maxPriority predicate in
      let s := s <| txQueue := q |> in
      match r with Some p => uncount p s | None => s end
  | OpRemoveData sn => (RemoveQueuedData s sn).2
  | OpRemoveNack sn => (RemoveQueuedDataNack s sn).2
  | OpClosed reason => OnARQClosed s reason
  end.
End StreamClient.

Module StreamServer.
Record Stream_server := mkServer {
  ID : Z;
  clock : Z;
  LastActivity : Z;
  CloseTime : Z;
  UpstreamConn : bool;
  TargetHost : bytes;
  TargetPort : Z;
  Connected : bool;
  Status : string;
  TXQueue : txMLQ;
  cleanupDone : bool
}.

#[export] Instance eta_server : Eta Stream_server :=
  fun s => mkServer (ID s) (clock s) (LastActivity s) (CloseTime s) (UpstreamConn s) (TargetHost s) (TargetPort s)
             (Connected s) (Status s) (TXQueue s) (cleanupDone s).
#[export] Instance set_clock : Setter clock := ltac:(derive_setter).
#[export] Instance set_LastActivity : Setter LastActivity := ltac:(derive_setter).
#[export] Instance set_CloseTime : Setter CloseTime := ltac:(derive_setter).
#[export] Instance set_UpstreamConn : Setter UpstreamConn := ltac:(derive_setter).
#[export] Instance set_TargetHost : Setter TargetHost := ltac:(derive_setter).
#[export] Instance set_TargetPort : Setter TargetPort := ltac:(derive_setter).
#[export] Instance set_Connected : Setter Connected := ltac:(derive_setter).
#[export] Instance set_Status : Setter Status := ltac:(derive_setter).
#[export] Instance set_TXQueue : Setter TXQueue := ltac:(derive_setter).
#[export] Instance set_cleanupDone : Setter cleanupDone := ltac:(derive_setter).

Definition PushTXPacket (s : Stream_server) (r : TXRequest) : bool * Stream_server :=
  let s := s <| LastActivity := clock s |> in
  let '(ok, q) := push_queue (TXQueue s) (ID s) r (packet_of r (clock s) false) in
  (ok, s <| TXQueue := q |>).

Definition remove_one (packetType sequenceNum : Z) (s : Stream_server) : bool * Stream_server :=
  let '(r, q) := Mlq.RemoveByKey (TXQueue s) (PacketIdentityKey (ID s) packetType sequenceNum 0) in
  (match r with Some _ => true | None => false end, s <| TXQueue := q |>).

Definition RemoveQueuedData (s : Stream_server) (sequenceNum : Z) : bool * Stream_server :=
  let '(r1, s) := remove_one PACKET_STREAM_DATA sequenceNum s in
  let '(r2, s) := remove_one PACKET_STREAM_RESEND sequenceNum s in
  (r1 || r2, s).

Definition RemoveQueuedDataNack (s : Stream_server) (sequenceNum : Z) : bool * Stream_server :=
  remove_one PACKET_STREAM_DATA_NACK sequenceNum s.

Definition ClearTXQueue (s : Stream_server) : Stream_server := s <| TXQueue := (Mlq.Clear (TXQueue s)).2 |>.

Definition FastTXQueueSize (s : Stream_server) : Z := Mlq.FastSize (TXQueue s).

Definition PopNextTXPacket (s : Stream_server) : option (txPacket * Z) * Stream_server :=
  let '(r, q) := Mlq.Pop (TXQueue s) in (r, s <| TXQueue := q |>).

Definition PopAnyTXPacket (s : Stream_server) (maxPriority : Z) (predicate : option (txPacket -> bool)) :
    option txPacket * Stream_server :=
  let '(r, q) := Mlq.PopAnyIf (TXQueue s) maxPriority predicate in (r, s <| TXQueue := q |>).

(** [arqClosed] is [s.ARQ.IsClosed()]. *)
Definition attachUpstreamConn (arqClosed : bool) (host : bytes) (port : Z) (status : string) (s : Stream_server) : bool * Stream_server :=
  if bool_decide (Status s = "CLOSED"%string) || negb (IsZero (CloseTime s)) then (false, s)
  else if arqClosed then (false, s)
  else if UpstreamConn s || Connected s then (false, s)
  else
    let s := s <| UpstreamConn := true |> <| TargetHost := host |> <| TargetPort := port |> <| Connected := true |> in
    let s := if bool_decide (status = EmptyString) then s else s <| Status := status |> in
    (true, s <| LastActivity := clock s |>).

Definition cleanupResources (s : Stream_server) : Stream_server :=
  ClearTXQueue (s <| Status := "CLOSED"%string |> <| CloseTime := clock s |> <| Connected := false |>
                  <| UpstreamConn := false |>).

Definition finalizeAfterARQClose (s : Stream_server) : Stream_server :=
  if cleanupDone s then s else cleanupResources (s <| cleanupDone := true |>).

Definition OnARQClosed (s : Stream_server) (reason : string) : Stream_server := finalizeAfterARQClose s.

Definition closeUpstreamOnly (status : string) (s : Stream_server) : Stream_server :=
  let s :=
    if bool_decide (status = EmptyString)
    then (if bool_decide (Status s = "CLOSED"%string) then s else s <| Status := "CLOSING"%string |>)
    else s <| Status := status |> in
  s <| CloseTime := clock s |> <| Connected := false |> <| UpstreamConn := false |>.

(** [stream.Status = "CLOSED"; stream.CloseTime = closeTime] *)
Definition setClosed (closeTime : Z) (s : Stream_server) : Stream_server :=
  s <| Status := "CLOSED"%string |> <| CloseTime := closeTime |>.

#[global] Instance server_enqueuer : PacketEnqueuer Stream_server := {
  Arq.PushTXPacket := PushTXPacket;
  Arq.RemoveQueuedData s sn := (RemoveQueuedData s sn).2;
  Arq.RemoveQueuedDataNack s sn := (RemoveQueuedDataNack s sn).2;
  Arq.OnARQClosed := OnARQClosed
}.

Definition NewStreamServer (streamID now : Z) : Stream_server :=
  mkServer streamID now now 0 false [] 0 false "PENDING" (Mlq.New (T := txPacket)) false.

Inductive op :=
| OpTick (now : Z)
| OpPush (r : TXRequest)
| OpPop
| OpPopAny (maxPriority : Z) (predicate : option (txPacket -> bool))
| OpRemoveData (sn : Z)
| OpRemoveNack (sn : Z)
| OpAttach (arqClosed : bool) (host : bytes) (port : Z) (status : string)
| OpCloseUpstream (status : string)
| OpClear
| OpSetClosed (closeTime : Z)
| OpClosed (reason : string).

Definition step (s : Stream_server) (o : op) : Stream_server :=
  match o with
  | OpTick now => s <| clock := now |>
  | OpPush r => (PushTXPacket s r).2
  | OpPop => (PopNextTXPacket s).2
  | OpPopAny maxPriority predicate => (PopAnyTXPacket s maxPriority predicate).2
  | OpRemoveData sn => (RemoveQueuedData s sn).2
  | OpRemoveNack sn => (RemoveQueuedDataNack s sn).2
  | OpAttach arqClosed host port status => (attachUpstreamConn arqClosed host port status s).2
  | OpCloseUpstream status => closeUpstreamOnly status s
  | OpClear => ClearTXQueue s
  | OpSetClosed closeTime => setClosed closeTime s
  | OpClosed reason => OnARQClosed s reason
  end.
End StreamServer.

(** ** Lemmas on the queue *)

(** The keys present in the queue. *)
Definition present (q : txMLQ) (k : Z) : Prop := is_Some (census q !! k).

Lemma queued_spec q k : queued q k = true <-> present q k.
Proof.
  unfold queued, present, Mlq.Get. destruct (census q !! k); split; intros H; try done; first [by eexists|by destruct H].
Qed.

Lemma drop_present q p k e : forall j, present (drop_element q p k e) j -> present q j /\ j <> k.
Proof.
  intros j. unfold present, drop_element. case_if; simpl; rewrite lookup_delete_is_Some; naive_solver.
Qed.

Lemma popLocked_loop_present fuel : forall q j, present (popLocked_loop fuel q).2 j -> present q j.
Proof.
  induction fuel as [|fuel IH]; intros q j; simpl; [done|]. case_if; [done|].
  destruct (items q _) as [|e l]; [intros H; exact (IH _ j H)|]. by intros [? _]%drop_present.
Qed.

Lemma PopAnyIf_loop_present fuel q maxp f : forall tm j, present (PopAnyIf_loop fuel q maxp f tm).2 j -> present q j.
Proof.
  induction fuel as [|fuel IH]; intros tm j; simpl; [done|]. case_if; [done|]. case_if; [done|].
  destruct (List.find _ _); [by intros [? _]%drop_present|apply IH].
Qed.

Lemma PopAnyIf_present q maxp f j : present (Mlq.PopAnyIf q maxp f).2 j -> present q j.
Proof. unfold Mlq.PopAnyIf. case_if; [done|apply PopAnyIf_loop_present]. Qed.

Lemma RemoveByKey_present q k j : present (Mlq.RemoveByKey q k).2 j -> present q j.
Proof. unfold Mlq.RemoveByKey. destruct (census q !! k); [|done]. case_if; [done|]. by intros [? _]%drop_present. Qed.

Lemma Push_present q prio k x j :
  present (Mlq.Push q prio k x).2 j -> present q j \/ (Mlq.Push q prio k x).1 = true /\ j = k.
Proof.
  unfold Mlq.Push. destruct (census q !! k); [by left|]. unfold present. simpl.
  rewrite lookup_insert_is_Some. naive_solver.
Qed.

Lemma RemoveByKey_absent q k : Mlq.wf q -> ~ present (Mlq.RemoveByKey q k).2 k.
Proof.
  intros W. unfold Mlq.RemoveByKey. destruct (census q !! k) as [c|] eqn:Hc; [|intros [x Hx]; cbn [snd] in Hx; congruence].
  destruct (wf_census _ W k c) as [Hw _]. destruct (Hw Hc) as [? _]. case_if; [unfold levels in *; zbool; lia|].
  by intros [_ ?]%drop_present.
Qed.

Lemma push_queue_wf q id r p : Mlq.wf q -> Mlq.wf (push_queue q id r p).2.
Proof.
  intros W. unfold push_queue. case_if; [done|].
  pose proof (Push_wf q (NormalizePacketPriority (txPacketType r) (txPriority r)) (request_key id r) p W) as W'.
  destruct (Mlq.Push _ _ _ _) as [ok q']. cbn [snd] in W'. case_if; [done|]. cbn [snd]. case_if; [|done].
  by apply RemoveByKey_refines.
Qed.

(** Equal keys have equal types, and a data packet and its retransmission are
    identified by the same numbers. *)
Lemma key_type id t t' n f n' f' : u16 id -> u8 t -> u8 t' -> u16 n -> u16 n' -> u8 f -> u8 f' ->
  PacketIdentityKey id t n f = PacketIdentityKey id t' n' f' -> t = t'.
Proof.
  intros. apply (PacketIdentityKey_identity id t n f id t' n' f') in H6; try done.
  apply packet_identity_shape in H6. by destruct H6 as (_ & ? & _).
Qed.

Lemma data_resend_key id n f n' f' : u16 id -> u16 n -> u16 n' -> u8 f -> u8 f' ->
  PacketIdentityKey id PACKET_STREAM_DATA n f = PacketIdentityKey id PACKET_STREAM_DATA n' f' <->
  PacketIdentityKey id PACKET_STREAM_RESEND n f = PacketIdentityKey id PACKET_STREAM_RESEND n' f'.
Proof.
  intros. rewrite !PacketIdentityKey_identity by (done || unfold u8; vm_compute; split; congruence).
  unfold packet_identity. simpl. naive_solver.
Qed.

(** No data packet is queued both for its first transmission and for a
    retransmission. *)
Definition single_copy (id : Z) (q : txMLQ) : Prop := forall n f, u16 n -> u8 f ->
  present q (PacketIdentityKey id PACKET_STREAM_DATA n f) ->
  present q (PacketIdentityKey id PACKET_STREAM_RESEND n f) -> False.

Lemma single_copy_sub id q q' : (forall j, present q' j -> present q j) -> single_copy id q -> single_copy id q'.
Proof. intros Hs Hq n f Hn Hf H1 H2. by apply (Hq n f); auto. Qed.

Definition request_ok (r : TXRequest) : Prop := u8 (txPacketType r) /\ u16 (txSequenceNum r) /\ u8 (txFragmentID r).

(** What the queue holds after a push: what it held before, and the pushed packet
    unless it was refused; a retransmission replaces the packet it repeats. *)
Lemma push_queue_present id q r p j : Mlq.wf q -> present (push_queue q id r p).2 j ->
  (present q j \/ duplicate q id r = false /\ j = request_key id r) /\
  (duplicate q id r = false -> ~ present q (request_key id r) ->
   txPacketType r = PACKET_STREAM_RESEND -> j <> dataKey id r).
Proof.
  intros W. unfold push_queue. destruct (duplicate q id r); [intros; split; [by left|done]|].
  set (prio := NormalizePacketPriority _ _).
  pose proof (Push_present q prio (request_key id r) p) as Hp. pose proof (Push_wf q prio (request_key id r) p W) as W'.
  unfold Mlq.Push in *. destruct (census q !! request_key id r) as [c|] eqn:Hc; cbn [fst snd negb] in *.
  - intros Hj. split; [by left|]. intros _ []. by exists c.
  - match goal with |- context [Mlq.RemoveByKey ?x] => set (q' := x) in * end. case_if; zbool.
    + intros Hj. pose proof (RemoveByKey_present _ _ _ Hj) as Hj'. split; [destruct (Hp j Hj'); naive_solver|].
      intros _ _ _ ->. by apply (RemoveByKey_absent q' (dataKey id r)).
    + intros Hj. split; [destruct (Hp j Hj); naive_solver|done].
Qed.

Lemma push_queue_single id q r p : u16 id -> request_ok r -> Mlq.wf q -> single_copy id q ->
  single_copy id (push_queue q id r p).2.
Proof.
  intros Hid (Ht & Hs & Hf) W Hq n f Hn Hf' H1 H2.
  destruct (push_queue_present id q r p _ W H1) as [P1 R1].
  destruct (push_queue_present id q r p _ W H2) as [P2 _].
  assert (u8 PACKET_STREAM_DATA /\ u8 PACKET_STREAM_RESEND) as [Hd Hr] by (vm_compute; repeat split; congruence).
  assert (PACKET_STREAM_DATA <> PACKET_STREAM_RESEND) by done.
  destruct P1 as [P1|[D1 P1]], P2 as [P2|[D2 P2]]; [by apply (Hq n f)| | |].
  - (* a retransmission was added *)
    pose proof P2 as Hk. unfold request_key in P2. apply key_type in P2; try done. apply R1; try done.
    + rewrite <- Hk. intros Hp. apply (Hq n f); auto.
    + apply data_resend_key; try done. unfold request_key in Hk. rewrite <- P2 in Hk. done.
  - (* a first transmission was added *)
    pose proof P1 as Hk. unfold request_key in P1. apply key_type in P1; try done. unfold duplicate in D1.
    rewrite <- P1 in D1. simpl in D1. apply orb_false_iff in D1 as [_ D1].
    assert (resendKey id r = PacketIdentityKey id PACKET_STREAM_RESEND n f) as Hkk.
    { symmetry. apply data_resend_key; try done. unfold request_key in Hk. rewrite <- P1 in Hk. done. }
    rewrite Hkk in D1. apply queued_spec in P2. congruence.
  - rewrite <- P2 in P1. apply key_type in P1; done.
Qed.

(** ** Invariant of the two stream types *)

Definition tx_inv (id : Z) (q : txMLQ) : Prop := Mlq.wf q /\ single_copy id q.

Lemma tx_inv_new id : tx_inv id Mlq.New.
Proof.
  split; [apply New_wf|]. intros n f _ _ [c Hc]. change (census Mlq.New) with (∅ : gmap Z (censusEntry txPacket)) in Hc.
  by rewrite lookup_empty in Hc.
Qed.

Lemma tx_inv_push id q r p : u16 id -> request_ok r -> tx_inv id q -> tx_inv id (push_queue q id r p).2.
Proof. intros Hid Hr [W S]. split; [by apply push_queue_wf|by apply push_queue_single]. Qed.

Lemma tx_inv_pop id q : tx_inv id q -> tx_inv id (Mlq.Pop q).2.
Proof.
  intros [W S]. split; [by apply Pop_refines|]. apply (single_copy_sub id q); [|done]. apply popLocked_loop_present.
Qed.

Lemma tx_inv_pop_any id q maxp f : tx_inv id q -> tx_inv id (Mlq.PopAnyIf q maxp f).2.
Proof.
  intros [W S]. split; [by apply PopAnyIf_refines|]. apply (single_copy_sub id q); [|done]. apply PopAnyIf_present.
Qed.

Lemma tx_inv_remove id q k : tx_inv id q -> tx_inv id (Mlq.RemoveByKey q k).2.
Proof.
  intros [W S]. split; [by apply RemoveByKey_refines|]. apply (single_copy_sub id q); [|done]. apply RemoveByKey_present.
Qed.

Lemma tx_inv_clear id q : tx_inv id q -> tx_inv id (Mlq.Clear q).2.
Proof. intros [W S]. split; [by apply Clear_wf|]. intros n f _ _ [c Hc]. simpl in Hc. by rewrite lookup_empty in Hc. Qed.

Create HintDb tx.
#[export] Hint Resolve tx_inv_push tx_inv_pop tx_inv_pop_any tx_inv_remove tx_inv_clear : tx.

Module ClientProofs.
Import StreamClient.

Definition op_ok (o : op) : Prop := match o with OpPush r => request_ok r | _ => True end.
Definition inv (s : Stream_client) : Prop := tx_inv (StreamID s) (txQueue s).

Lemma client_uncount_inv p s q : tx_inv (StreamID s) q -> inv (uncount p (s <| txQueue := q |>)).
Proof. unfold uncount, count, inv. by case_if. Qed.

Lemma client_remove_one_inv t sn s : inv s -> inv (remove_one t sn s).2.
Proof.
  unfold inv. intros I. unfold remove_one.
  pose proof (tx_inv_remove _ _ (PacketIdentityKey (StreamID s) t sn 0) I) as I'.
  destruct (Mlq.RemoveByKey _ _) as [[p|] q]; [|done]. exact (client_uncount_inv p s q I').
Qed.

Lemma client_remove_one_id t sn s : StreamID (remove_one t sn s).2 = StreamID s.
Proof. unfold remove_one. destruct (Mlq.RemoveByKey _ _) as [[p|] q]; [|done]. simpl. unfold uncount. by case_if. Qed.

Lemma client_step_id s o : StreamID (step s o) = StreamID s.
Proof.
  destruct o as [now|r| |maxp f|sn|sn|reason]; cbn [step]; [done| | | | |apply client_remove_one_id|].
  - unfold PushTXPacket. case_if; [done|]. destruct (push_queue _ _ _ _) as [[] q]; [|done]. simpl. by case_if.
  - unfold PopNextTXPacket. destruct (Mlq.Pop _) as [[[p k]|] q]; [|done]. simpl. unfold uncount. by case_if.
  - destruct (Mlq.PopAnyIf _ _ _) as [[p|] q]; [|done]. unfold uncount. by case_if.
  - unfold RemoveQueuedData. pose proof (client_remove_one_id PACKET_STREAM_DATA sn s) as H1.
    destruct (remove_one PACKET_STREAM_DATA sn s) as [r1 s1]. pose proof (client_remove_one_id PACKET_STREAM_RESEND sn s1) as H2.
    destruct (remove_one PACKET_STREAM_RESEND sn s1). simpl in *. congruence.
  - unfold OnARQClosed, finalizeAfterARQClose. by case_if.
Qed.

Lemma client_step_inv s o : u16 (StreamID s) -> op_ok o -> inv s -> inv (step s o).
Proof.
  unfold inv. intros Hid Ho I. destruct o as [now|r| |maxp f|sn|sn|reason]; cbn [step]; [done| | | | | |].
  - unfold PushTXPacket. case_if; [done|]. set (p := packet_of _ _ _).
    pose proof (tx_inv_push _ _ r p Hid Ho I) as I'. destruct (push_queue _ _ _ _) as [[] q]; [|done]. simpl. by case_if.
  - unfold PopNextTXPacket. pose proof (tx_inv_pop _ _ I) as I'.
    destruct (Mlq.Pop _) as [[[p k]|] q]; [|done]. exact (client_uncount_inv p s q I').
  - pose proof (tx_inv_pop_any _ _ maxp f I) as I'.
    destruct (Mlq.PopAnyIf _ _ _) as [[p|] q]; [|done]. exact (client_uncount_inv p s q I').
  - unfold RemoveQueuedData. pose proof (client_remove_one_inv PACKET_STREAM_DATA sn s I) as I1.
    destruct (remove_one PACKET_STREAM_DATA sn s) as [r1 s1]. pose proof (client_remove_one_inv PACKET_STREAM_RESEND sn s1 I1) as I2.
    destruct (remove_one PACKET_STREAM_RESEND sn s1). done.
  - by apply client_remove_one_inv.
  - unfold OnARQClosed, finalizeAfterARQClose. case_if; [done|]. by apply tx_inv_clear.
Qed.

Lemma client_steps_inv ops : forall s, u16 (StreamID s) -> Forall op_ok ops -> inv s ->
  inv (fold_left step ops s) /\ StreamID (fold_left step ops s) = StreamID s.
Proof.
  induction ops as [|o ops IH]; intros s Hid Ho I; [done|]. apply Forall_cons in Ho as [Ho Hr]. simpl.
  rewrite <- (client_step_id s o). apply IH; rewrite ?client_step_id; [done..|by apply client_step_inv].
Qed.

Lemma client_remove_one_absent t sn s k : Mlq.wf (txQueue s) ->
  present (txQueue (remove_one t sn s).2) k ->
  present (txQueue s) k /\ k <> PacketIdentityKey (StreamID s) t sn 0.
Proof.
  intros W. unfold remove_one. set (j := PacketIdentityKey _ _ _ _).
  pose proof (RemoveByKey_present (txQueue s) j k) as H1. pose proof (RemoveByKey_absent (txQueue s) j W) as H2.
  destruct (Mlq.RemoveByKey (txQueue s) j) as [[p|] q]; simpl in *; [unfold uncount; case_if|];
    (intros Hk; split; [by apply H1|by intros ->]).
Qed.

Lemma client_RemoveQueuedData_gone s sn k : inv s -> present (txQueue (RemoveQueuedData s sn).2) k ->
  k <> PacketIdentityKey (StreamID s) PACKET_STREAM_DATA sn 0 /\
  k <> PacketIdentityKey (StreamID s) PACKET_STREAM_RESEND sn 0.
Proof.
  intros I. unfold RemoveQueuedData. pose proof (client_remove_one_inv PACKET_STREAM_DATA sn s I) as [W1 _].
  pose proof (client_remove_one_absent PACKET_STREAM_DATA sn s k (proj1 I)) as A1.
  pose proof (client_remove_one_id PACKET_STREAM_DATA sn s) as E1.
  destruct (remove_one PACKET_STREAM_DATA sn s) as [r1 s1]. cbn [snd] in *.
  pose proof (client_remove_one_absent PACKET_STREAM_RESEND sn s1 k W1) as A2.
  destruct (remove_one PACKET_STREAM_RESEND sn s1) as [r2 s2]. cbn [snd] in *. intros Hk.
  destruct (A2 Hk) as [Hk' ?]. rewrite <- E1 at 2. destruct (A1 Hk'). done.
Qed.

(** On a client stream, after any sequence of pushes, pops, removals and closes,
    a data packet is never queued both as STREAM_DATA and as STREAM_RESEND; and once
    its acknowledgement has made [RemoveQueuedData] run, no copy of it is left. *)
Theorem client_single_copy id now conn ops sn :
  u16 id -> Forall op_ok ops ->
  let s := fold_left step ops (new_stream id now conn) in
  single_copy id (txQueue s) /\
  let q := txQueue (RemoveQueuedData s sn).2 in
  queued q (PacketIdentityKey id PACKET_STREAM_DATA sn 0) = false /\
  queued q (PacketIdentityKey id PACKET_STREAM_RESEND sn 0) = false.
Proof.
  intros Hid Ho s. destruct (client_steps_inv ops (new_stream id now conn) Hid Ho (tx_inv_new id)) as [I E].
  fold s in I, E. simpl in E. cbv zeta. pose proof (client_RemoveQueuedData_gone s sn) as G. rewrite E in G.
  split; [rewrite <- E; apply I|].
  split; apply not_true_is_false; rewrite queued_spec; intros Hk; by destruct (G _ I Hk).
Qed.

Lemma client_single_copy_witness :
  let s := fold_left step [OpPush (mkTX 3 PACKET_STREAM_DATA 7 0 0 0 0 [1]); OpPush (mkTX 3 PACKET_STREAM_RESEND 7 0 0 0 0 [1])]
             (new_stream 5 1 true) in
  single_copy 5 (txQueue s) /\
  let q := txQueue (RemoveQueuedData s 7).2 in
  queued q (PacketIdentityKey 5 PACKET_STREAM_DATA 7 0) = false /\
  queued q (PacketIdentityKey 5 PACKET_STREAM_RESEND 7 0) = false.
Proof.
  apply client_single_copy; [unfold u16; lia|].
  repeat constructor; vm_compute; congruence.
Defined.
End ClientProofs.

Module ServerProofs.
Import StreamServer.

Definition op_ok (o : op) : Prop := match o with OpPush r => request_ok r | _ => True end.
Definition inv (s : Stream_server) : Prop := tx_inv (ID s) (TXQueue s).

Lemma server_remove_one_inv t sn s : inv s -> inv (remove_one t sn s).2 /\ ID (remove_one t sn s).2 = ID s.
Proof.
  unfold inv. intros I. unfold remove_one. pose proof (tx_inv_remove _ _ (PacketIdentityKey (ID s) t sn 0) I) as I'.
  destruct (Mlq.RemoveByKey _ _) as [r q]. done.
Qed.

Lemma server_step_inv s o : u16 (ID s) -> op_ok o -> inv s -> inv (step s o) /\ ID (step s o) = ID s.
Proof.
  unfold inv. intros Hid Ho I. destruct o as [now|r| |maxp f|sn|sn|closed host port status|status| |t|reason]; cbn [step]; [done| | | | | | | | | |].
  - unfold PushTXPacket. set (p := packet_of _ _ _). pose proof (tx_inv_push _ _ r p Hid Ho I) as I'.
    change (TXQueue s <| LastActivity := clock s |>) with (TXQueue s). change (ID s <| LastActivity := clock s |>) with (ID s).
    destruct (push_queue _ _ _ _) as [ok q]. done.
  - unfold PopNextTXPacket. pose proof (tx_inv_pop _ _ I) as I'. destruct (Mlq.Pop _) as [x q]. done.
  - unfold PopAnyTXPacket. pose proof (tx_inv_pop_any _ _ maxp f I) as I'. destruct (Mlq.PopAnyIf _ _ _) as [x q]. done.
  - unfold RemoveQueuedData. destruct (server_remove_one_inv PACKET_STREAM_DATA sn s I) as [I1 E1].
    destruct (remove_one PACKET_STREAM_DATA sn s) as [r1 s1]. destruct (server_remove_one_inv PACKET_STREAM_RESEND sn s1 I1) as [I2 E2].
    destruct (remove_one PACKET_STREAM_RESEND sn s1). simpl in *. split; [done|congruence].
  - by apply server_remove_one_inv.
  - unfold attachUpstreamConn. by repeat case_if.
  - unfold closeUpstreamOnly. by repeat case_if.
  - split; [by apply tx_inv_clear|done].
  - done.
  - unfold OnARQClosed, finalizeAfterARQClose. case_if; [done|]. split; [by apply tx_inv_clear|done].
Qed.

Lemma server_steps_inv ops : forall s, u16 (ID s) -> Forall op_ok ops -> inv s ->
  inv (fold_left step ops s) /\ ID (fold_left step ops s) = ID s.
Proof.
  induction ops as [|o ops IH]; intros s Hid Ho I; [done|]. apply Forall_cons in Ho as [Ho Hr]. simpl.
  destruct (server_step_inv s o Hid Ho I) as [I' E]. rewrite <- E. apply IH; [by rewrite E|done..].
Qed.

Lemma server_remove_one_absent t sn s k : Mlq.wf (TXQueue s) -> present (TXQueue (remove_one t sn s).2) k ->
  present (TXQueue s) k /\ k <> PacketIdentityKey (ID s) t sn 0.
Proof.
  intros W. unfold remove_one. set (j := PacketIdentityKey _ _ _ _).
  pose proof (RemoveByKey_present (TXQueue s) j k) as H1. pose proof (RemoveByKey_absent (TXQueue s) j W) as H2.
  destruct (Mlq.RemoveByKey (TXQueue s) j) as [r q]; simpl in *. intros Hk. split; [by apply H1|by intros ->].
Qed.

Lemma server_RemoveQueuedData_gone s sn k : inv s -> present (TXQueue (RemoveQueuedData s sn).2) k ->
  k <> PacketIdentityKey (ID s) PACKET_STREAM_DATA sn 0 /\ k <> PacketIdentityKey (ID s) PACKET_STREAM_RESEND sn 0.
Proof.
  intros I. unfold RemoveQueuedData. destruct (server_remove_one_inv PACKET_STREAM_DATA sn s I) as [[W1 _] E1].
  pose proof (server_remove_one_absent PACKET_STREAM_DATA sn s k (proj1 I)) as A1.
  destruct (remove_one PACKET_STREAM_DATA sn s) as [r1 s1]. cbn [snd] in *.
  pose proof (server_remove_one_absent PACKET_STREAM_RESEND sn s1 k W1) as A2.
  destruct (remove_one PACKET_STREAM_RESEND sn s1) as [r2 s2]. cbn [snd] in *. intros Hk.
  destruct (A2 Hk) as [Hk' ?]. rewrite <- E1 at 2. destruct (A1 Hk'). done.
Qed.

(** The same on a server stream: never both copies of a data packet queued, and
    none after [RemoveQueuedData]; a closed stream cannot get an upstream
    connection again. *)
Theorem server_single_copy id now ops sn :
  u16 id -> Forall op_ok ops ->
  let s := fold_left step ops (NewStreamServer id now) in
  single_copy id (TXQueue s) /\
  (let q := TXQueue (RemoveQueuedData s sn).2 in
   queued q (PacketIdentityKey id PACKET_STREAM_DATA sn 0) = false /\
   queued q (PacketIdentityKey id PACKET_STREAM_RESEND sn 0) = false) /\
  (forall arqClosed host port status, Status s = "CLOSED"%string -> attachUpstreamConn arqClosed host port status s = (false, s)).
Proof.
  intros Hid Ho s. destruct (server_steps_inv ops (NewStreamServer id now) Hid Ho (tx_inv_new id)) as [I E].
  fold s in I, E. simpl in E. cbv zeta. pose proof (server_RemoveQueuedData_gone s sn) as G. rewrite E in G.
  split; [rewrite <- E; apply I|]. split.
  - split; apply not_true_is_false; rewrite queued_spec; intros Hk; by destruct (G _ I Hk).
  - intros arqClosed host port status Hs. unfold attachUpstreamConn. by rewrite bool_decide_eq_true_2.
Qed.

Lemma server_single_copy_witness :
  let s := fold_left step [OpPush (mkTX 3 PACKET_STREAM_RESEND 7 0 0 0 0 [1]); OpPush (mkTX 3 PACKET_STREAM_DATA 7 0 0 0 0 [1]);
             OpClosed "done"] (NewStreamServer 5 1) in
  single_copy 5 (TXQueue s) /\
  (let q := TXQueue (RemoveQueuedData s 7).2 in
   queued q (PacketIdentityKey 5 PACKET_STREAM_DATA 7 0) = false /\
   queued q (PacketIdentityKey 5 PACKET_STREAM_RESEND 7 0) = false) /\
  (forall arqClosed host port status, Status s = "CLOSED"%string -> attachUpstreamConn arqClosed host port status s = (false, s)).
Proof.
  apply server_single_copy; [unfold u16; lia|].
  repeat constructor; vm_compute; congruence.
Defined.
End ServerProofs.
