(* ===== verification/ArqData.v ===== *)
(** * ARQ stream: data plane (masterdns arq)

    Inbound data with its acknowledgements and negative acknowledgements, delivery
    to the local connection, outbound data read from it, and the acknowledgements
    that free the send buffer.  The goroutines are modelled by their iterations:
    [ioLoop_read] is one turn of [ioLoop] with what [Read] returned, [rxLoop_recv] and
    [rxLoop_done] the two cases of [rxLoop], [writeLoop_turn] one turn of the inner
    loop of [writeLoop] with what the calls to [Write] returned. *)

From stdpp Require Import base tactics list gmap strings.
From Stdlib Require Import ZArith Lia Floats.SpecFloat.
From S2P Require Import Prelude Enums GoFloat ArqState Arq.

(** ** Errors of the local connection *)

Inductive ioErrorClass := ioErrorFatal | ioErrorTimeout | ioErrorEOF | ioErrorClosed | ioErrorTransient.

(** What [errors.Is] and [errors.As] report of an error. *)
Record goError := mkError {
  is_eof : bool;               (* io.EOF *)
  is_closed : bool;            (* net.ErrClosed or io.ErrClosedPipe *)
  is_net_timeout : bool;       (* a net.Error whose Timeout() holds *)
  op_again : bool;             (* a net.OpError whose Err is EAGAIN, EWOULDBLOCK or EINTR *)
  is_again : bool;             (* EAGAIN, EWOULDBLOCK or EINTR *)
  err_text : string
}.

Definition classifyIOError (err : option goError) : ioErrorClass :=
  match err with
  | None => ioErrorFatal
  | Some e =>
      if is_eof e then ioErrorEOF
      else if is_closed e then ioErrorClosed
      else if is_net_timeout e then ioErrorTimeout
      else if op_again e then ioErrorTransient
      else if is_again e then ioErrorTransient
      else ioErrorFatal
  end.

Definition ioRetryBackoff : Z := 100 * time_Millisecond.
Definition ioTransientReadBudget : Z := 3 * time_Second.
Definition ioTransientWriteBudget : Z := 3.

(** ** Critical sections *)

(** [needCloseWrite] of [ReceiveData] and [processReceivedData]. *)
Definition needCloseWrite (a : ARQ) : bool :=
  localWriterBroken a && negb (closeWriteSent a) &&
  negb (waitingAck a && (waitingAckFor a =? PACKET_STREAM_CLOSE_WRITE)) &&
  negb (closed a) && negb (rstReceived a) && negb (rstSent a).

Definition decPendingInbound (a : ARQ) : ARQ :=
  if 0 <? pendingInbound a then a <| pendingInbound ::= (fun n => n - 1) |> else a.

(** What [processReceivedData] decides about a packet. *)
Inductive rx_verdict :=
| RxWriterGone        (* the local writer is gone *)
| RxOld               (* already delivered: acknowledge again *)
| RxDrop              (* outside the window *)
| RxKeep (isNew : bool) (* in the window *).

Definition rx_decide (sn : Z) (a : ARQ) : rx_verdict :=
  if localWriterBroken a || closeWriteSent a || closeWriteAcked a then RxWriterGone
  else
    let diff := wrap16 (sn - rcvNxt a) in
    if 32768 <=? diff then RxOld
    else if receiveWindowSize (tun a) <? diff then RxDrop
    else
      let exists_ := match rcvBuf a !! sn with Some _ => true | None => false end in
      if negb exists_ && (receiveWindowSize (tun a) <=? Z.of_nat (size (rcvBuf a))) && negb (sn =? rcvNxt a)
      then RxDrop
      else RxKeep (negb exists_).

(** The first section of [processReceivedData]. *)
Definition rx_locked (sn : Z) (data : bytes) (now : Z) (a : ARQ) : ARQ :=
  let a := decPendingInbound a in
  match rx_decide sn a with
  | RxWriterGone => a
  | RxOld | RxDrop | RxKeep false => a <| lastActivity := now |>
  | RxKeep true => a <| lastActivity := now |> <| rcvBuf ::= <[sn := data]> |>
  end.

(** The section of [writeLoop] that takes the contiguous chunks off [rcvBuf].  Each
    turn removes an element, so one turn more than the size ends the loop. *)
Fixpoint take_ready (fuel : nat) (a : ARQ) : list bytes * ARQ :=
  match fuel with
  | O => ([], a)
  | S fuel =>
      match rcvBuf a !! rcvNxt a with
      | None => ([], a)
      | Some data =>
          let '(chunks, a) :=
            take_ready fuel (a <| rcvBuf ::= delete (rcvNxt a) |> <| rcvNxt ::= (fun n => wrap16 (n + 1)) |>) in
          (data :: chunks, a)
      end
  end.

Definition drain_locked (a : ARQ) : list bytes * ARQ :=
  let '(toWrite, a) := take_ready (S (size (rcvBuf a))) a in
  (toWrite, a <| localWritePending := negb (bool_decide (toWrite = [])) |>).

(** The section of [ioLoop] that assigns a sequence number to a chunk. *)
Definition send_locked (raw : bytes) (now : Z) (a : ARQ) : ARQ :=
  let a := a <| lastActivity := now |> in
  let sn := sndNxt a in
  let currentRTO := currentDataBaseRTO a in
  a <| sndNxt := wrap16 (sn + 1) |>
    <| sndBuf ::= <[sn := mkDataItem raw now 0 false 0 0 currentRTO true (compressionType (tun a)) 0]> |>.

(** The section after a refused push of new data. *)
Definition send_refused (sn now : Z) (a : ARQ) : ARQ :=
  a <| sndBuf ::= alter (fun i => i <| dDispatched := true |> <| dLastSentAt := now - dCurrentRTO i |>) sn |>.

(** The first section of [ReceiveAck]. *)
Definition ack_locked (sn now : Z) (a : ARQ) : ARQ :=
  let a := a <| lastActivity := now |> in
  match sndBuf a !! sn with
  | None => a
  | Some _ =>
      let a := a <| sndBuf ::= delete sn |> in
      let a := if deferredClose a || is_state (state a) StateDraining then noteDrainProgressLocked now a else a in
      if Z.of_nat (size (sndBuf a)) <? limit (tun a) then signalWindowNotFull a else a
  end.

Definition ack_sample (sn now : Z) (a : ARQ) : option Z :=
  match sndBuf a !! sn with
  | Some info =>
      if dSampleEligible info && dDispatched info && negb (IsZero (dLastSentAt info))
      then Some (now - dLastSentAt info) else None
  | None => None
  end.

Definition seqBehind (base candidate : Z) : bool :=
  negb (candidate =? base) && (wrap16 (base - candidate) <? 32768).

Definition pruneDataNackStateLocked (rcvNxt' : Z) (a : ARQ) : ARQ :=
  a <| firstDataNackSeen ::= filter (fun kv => seqBehind rcvNxt' kv.1 = false) |>
    <| lastDataNackSent ::= filter (fun kv => seqBehind rcvNxt' kv.1 = false) |>.

Definition shouldSendDataNack (sn now : Z) (a : ARQ) : bool * ARQ :=
  match firstDataNackSeen a !! sn with
  | None => (dataNackInitialDelay (tun a) <=? 0, a <| firstDataNackSeen ::= <[sn := now]> |>)
  | Some firstSeenAt =>
      if (0 <? dataNackInitialDelay (tun a)) && (now - firstSeenAt <? dataNackInitialDelay (tun a)) then (false, a)
      else
        match lastDataNackSent a !! sn with
        | None => (true, a)
        | Some lastSentAt => (dataNackRepeatInterval (tun a) <=? now - lastSentAt, a)
        end
  end.

Definition noteDataNackSent (sn now : Z) (a : ARQ) : ARQ := a <| lastDataNackSent ::= <[sn := now]> |>.

Definition buffered (a : ARQ) (sn : Z) : bool := match rcvBuf a !! sn with Some _ => true | None => false end.

(** [for missing := rcvNxt; missing != sn; missing++], at most 65535 turns. *)
Fixpoint missing_upto (fuel : nat) (a : ARQ) (missing sn : Z) : list Z :=
  match fuel with
  | O => []
  | S fuel =>
      if missing =? sn then []
      else
        let rest := missing_upto fuel a (wrap16 (missing + 1)) sn in
        if buffered a missing then rest else missing :: rest
  end.

(** The sampling loop: the first [sampleCount] missing numbers. *)
Fixpoint missing_sample (fuel : nat) (a : ARQ) (missing sn added sampleCount : Z) : list Z :=
  match fuel with
  | O => []
  | S fuel =>
      if (missing =? sn) || (sampleCount <=? added) then []
      else if buffered a missing then missing_sample fuel a (wrap16 (missing + 1)) sn added sampleCount
      else missing :: missing_sample fuel a (wrap16 (missing + 1)) sn (added + 1) sampleCount
  end.

(** [for candidate := frontier; ; candidate--] *)
Fixpoint frontier_missing (fuel : nat) (a : ARQ) (candidate rcvNxt' : Z) (seen : list Z) : list Z :=
  match fuel with
  | O => []
  | S fuel =>
      if negb (buffered a candidate) then
        if bool_decide (candidate ∈ seen) then [] else [candidate]
      else if candidate =? rcvNxt' then []
      else frontier_missing fuel a (wrap16 (candidate - 1)) rcvNxt' seen
  end.

(** All sequence numbers of a uint16. *)
Definition seq_space : nat := Z.to_nat 65536.

(** The numbers [maybeSendDataNacks] reports for an arrival [diff] ahead. *)
Definition missing_seqs (sn : Z) (a : ARQ) : list Z :=
  let gap := dataNackMaxGap (tun a) in
  let diff := wrap16 (sn - rcvNxt a) in
  let windowSpan := wrap16 gap in
  if diff <=? windowSpan then missing_upto seq_space a (rcvNxt a) sn
  else
    let sampleCount := maxI 1 (Z.quot (gap + 19) 20) in
    let first := missing_sample seq_space a (rcvNxt a) sn 0 sampleCount in
    let frontier := wrap16 (rcvNxt a + windowSpan - 1) in
    first ++ frontier_missing seq_space a frontier (rcvNxt a) first.

(** [for candidate := a.rcvNxt; ; candidate++] while within [maxGap]. *)
Fixpoint gap_loop (fuel : nat) (a : ARQ) (candidate maxGap : Z) : list Z :=
  match fuel with
  | O => []
  | S fuel =>
      if maxGap <=? wrap16 (candidate - rcvNxt a) then []
      else
        let rest := gap_loop fuel a (wrap16 (candidate + 1)) maxGap in
        if buffered a candidate then rest else candidate :: rest
  end.

Definition gapRecoveryCandidatesLocked (a : ARQ) : list Z :=
  if (dataNackMaxGap (tun a) <=? 0) || bool_decide (rcvBuf a = ∅) then []
  else if buffered a (rcvNxt a) then []
  else gap_loop seq_space a (rcvNxt a) (wrap16 (dataNackMaxGap (tun a))).

Definition finalAck_due (now : Z) (a : ARQ) : bool :=
  negb (closed a) && negb (rstSent a) && negb (rstReceived a) && IsClient (tun a) && closeReadSent a &&
  closeReadAcked a && negb (closeReadReceived a) && negb (closeWriteSent a) && negb (closeWriteAcked a) &&
  negb (closeWriteReceived a) && negb (localWriterBroken a) && bool_decide (rcvBuf a = ∅) &&
  (pendingInbound a =? 0) && negb (localWritePending a) && (0 <? rcvNxt a) &&
  (2 * time_Second <=? now - lastActivity a) &&
  (IsZero (lastDuplicateAckAt a) || (2 * time_Second <=? now - lastDuplicateAckAt a)).

(** ** Operations *)

Section data_plane.
Context {W : Type} `{PE : PacketEnqueuer W}.
Abbreviation stream := (ARQ * W)%type.

Definition inbound_after_writer : string := "Inbound data received after local writer closed".

Definition ReceiveData (sn : Z) (data : bytes) (now : Z) (s : stream) : bool * stream :=
  let a := s.1 in
  if closed a || rstReceived a || rstSent a then (false, s)
  else if localWriterBroken a then
    (false, if needCloseWrite a then Close inbound_after_writer send_close_write now s else s)
  else
    let s := upd (fun a => a <| pendingInbound ::= (fun n => n + 1) |>) s in
    if len (rxChan s.1) <? rxCap (tun s.1)
    then (true, upd (fun a => a <| rxChan ::= (fun q => q ++ [mkRx sn data]) |>) s)
    else (false, upd decPendingInbound s).

Definition clearSentDataNack (sn : Z) (s : stream) : stream :=
  let s := upd (fun a => a <| firstDataNackSeen ::= delete sn |> <| lastDataNackSent ::= delete sn |>) s in
  (s.1, RemoveQueuedDataNack s.2 sn).

(** [for _, missing := range missingSeqs]; [onFail] is what a refused push does. *)
Fixpoint send_nacks (missing : list Z) (now : Z) (onFail : ARQ -> ARQ) (s : stream) : stream :=
  match missing with
  | [] => s
  | sn :: missing =>
      let '(should, a) := shouldSendDataNack sn now s.1 in
      let s := (a, s.2) in
      if negb should then send_nacks missing now onFail s
      else
        let '(ok, s) := push (nack_request sn) s in
        send_nacks missing now onFail (upd (if ok then noteDataNackSent sn now else onFail) s)
  end.

Definition maybeSendDataNacks (sn now : Z) (s : stream) : stream :=
  if dataNackMaxGap (tun s.1) <=? 0 then s
  else if closed s.1 then s
  else
    let diff := wrap16 (sn - rcvNxt s.1) in
    if (diff =? 0) || (32768 <=? diff) then s
    else
      let s := upd (pruneDataNackStateLocked (rcvNxt s.1)) s in
      send_nacks (missing_seqs sn s.1) now (noteDrainQueueFailure now) s.

Definition processReceivedData (sn : Z) (data : bytes) (now : Z) (s : stream) : stream :=
  let a := decPendingInbound s.1 in
  let s' := upd (rx_locked sn data now) s in
  match rx_decide sn a with
  | RxWriterGone => if needCloseWrite a then Close inbound_after_writer send_close_write now s' else s'
  | RxOld => (push (ack_request sn) s').2
  | RxDrop => s'
  | RxKeep isNew =>
      let s' := (push (ack_request sn) s').2 in
      let s' := if isNew then clearSentDataNack sn s' else s' in
      upd signalFlushReady (maybeSendDataNacks sn now s')
  end.

Definition processReceivedDataBatch (batch : list rxPayload) (now : Z) (s : stream) : stream :=
  fold_left (fun s p => processReceivedData (rx_sn p) (rx_data p) now s) batch s.

(** [case payload := <-a.rxChan] *)
Definition rxLoop_recv (now : Z) (s : stream) : stream :=
  match rxChan s.1 with
  | [] => s
  | p :: q => processReceivedData (rx_sn p) (rx_data p) now (upd (fun a => a <| rxChan := q |>) s)
  end.

(** [case <-a.ctx.Done()] *)
Definition rxLoop_done (a : ARQ) : ARQ :=
  let drained := len (rxChan a) in
  let a := a <| rxChan := [] |> in
  if 0 <? drained then a <| pendingInbound ::= (fun n => Z.max 0 (n - drained)) |> else a.

(** Result of writing chunks to the local connection. *)
Inductive write_result := WriteDone | WriteExit | WriteBlocked.

Definition write_error_close (graceful closedOnly : bool) (text : string) : string :=
  if closedOnly then
    if graceful then "Local App Closed Connection (writer closed during graceful close)"
    else "Local App Closed Connection (writer closed)"
  else if graceful then ("Local App Write Error during graceful close: " +:+ text)%string
  else ("Local App Write Error: " +:+ text)%string.

(** The writer gives up: it marks itself broken and announces the close. *)
Definition writer_broken (closedOnly : bool) (text : string) (now : Z) (s : stream) : stream :=
  let s := upd markLocalWriterBroken s in
  Close (write_error_close (isGracefulCloseInProgress s.1) closedOnly text) send_close_write now s.

(** [for len(remaining) > 0], one [Write] per element of [results] (the bytes it
    accepted and its error); without further results the call blocks. *)
Fixpoint write_chunk (results : list (Z * option goError)) (remaining : bytes) (transientRetries now : Z)
    (s : stream) : write_result * list (Z * option goError) * stream :=
  if len remaining <=? 0 then (WriteDone, results, s)
  else
    match results with
    | [] => (WriteBlocked, [], s)
    | (n, err) :: results =>
        let n := Z.max 0 (Z.min n (len remaining)) in
        let s := upd (fun a => a <| connWritten ::= (fun l => l ++ take (Z.to_nat n) remaining) |>) s in
        let remaining := drop (Z.to_nat n) remaining in
        match err with
        | None => write_chunk results remaining transientRetries now s
        | Some e =>
            match classifyIOError err with
            | ioErrorTimeout | ioErrorTransient =>
                if ioTransientWriteBudget <=? transientRetries
                then (WriteExit, results, writer_broken false (err_text e) now s)
                else write_chunk results remaining (transientRetries + 1) now s
            | ioErrorEOF | ioErrorClosed => (WriteExit, results, writer_broken true (err_text e) now s)
            | ioErrorFatal => (WriteExit, results, writer_broken false (err_text e) now s)
            end
        end
    end.

(** What one turn of the inner loop of [writeLoop] ends with. *)
Inductive write_turn := TurnReturn | TurnBreak | TurnAgain | TurnBlocked.

Definition writeLoop_turn (results : list (Z * option goError)) (now : Z) (s : stream) : write_turn * stream :=
  if closed s.1 then (TurnReturn, s)
  else if negb (ioReady s.1) then (TurnBreak, s)
  else if negb (localConn s.1) then
    (TurnReturn, Close "Local connection missing for writer" (mkCloseOptions false true false false true 0) now s)
  else
    let '(toWrite, a) := drain_locked s.1 in
    let s := (a, s.2) in
    match toWrite with
    | [] =>
        let s := if closeReadReceived s.1 && (pendingInbound s.1 =? 0) then upd halfCloseLocalWriter s else s in
        let '(done, s) := if rstReceived s.1 then tryFinalizePeerResetDrain s else (false, s) in
        if done then (TurnReturn, s) else (TurnBreak, tryFinalizeRemoteEOF s)
    | _ =>
        let '(r, _, s) := write_chunk results (concat toWrite) 0 now s in
        match r with
        | WriteBlocked => (TurnBlocked, s)
        | WriteExit => (TurnReturn, upd (fun a => a <| localWritePending := false |>) s)
        | WriteDone =>
            let s := upd (fun a => a <| localWritePending := false |>) s in
            let '(done, s) := tryFinalizePeerResetDrain s in
            if done then (TurnReturn, s) else (TurnAgain, tryFinalizeRemoteEOF s)
        end
    end.

Definition ReceiveAck (sn now : Z) (s : stream) : bool * stream :=
  let a := s.1 in
  let sample := ack_sample sn now a in
  let s' := upd (ack_locked sn now) s in
  match sndBuf a !! sn with
  | None => (false, s')
  | Some _ =>
      let s' := match sample with Some x => upd (noteSuccessfulDataSample x) s' | None => s' end in
      let s' := (s'.1, RemoveQueuedData s'.2 sn) in
      let s' := if closeReadReceived s'.1 then tryFinalizeRemoteEOF s' else s' in
      (true, settleTerminalDrain now s')
  end.

Definition HandleDataNack (sn now : Z) (s : stream) : bool * stream :=
  if closed s.1 || IsReset s.1 then (false, s)
  else
    let s := upd (fun a => a <| lastActivity := now |>) s in
    match sndBuf s.1 !! sn with
    | None => (false, s)
    | Some info =>
        let prev := dLastNackSentAt info in
        if negb (IsZero prev) && (now - prev <? dataNackRepeatInterval (tun s.1)) then (false, s)
        else
          let s := upd (fun a => a <| sndBuf ::= alter (fun i => i <| dLastNackSentAt := now |>) sn |>) s in
          let '(ok, s) := push (data_request PACKET_STREAM_RESEND sn (dCompressionType info) (dTTL info) (dData info)) s in
          if negb ok then
            (false, upd (fun a => a <| sndBuf ::= alter (fun i =>
               if dLastNackSentAt i =? now then i <| dLastNackSentAt := prev |> else i) sn |>) s)
          else (true, upd (fun a => a <| sndBuf ::= alter (fun i => i <| dSampleEligible := false |>) sn |>) s)
    end.

Definition runGapRecoveryWatchdog (now : Z) (s : stream) : stream :=
  let a := s.1 in
  if (dataNackMaxGap (tun a) <=? 0) || closed a then s
  else
    let missingSeqs := gapRecoveryCandidatesLocked a in
    if bool_decide (missingSeqs = []) then s
    else if now - lastActivity a <? dataNackRepeatInterval (tun a) then s
    else send_nacks missingSeqs now (fun a => a) (upd (pruneDataNackStateLocked (rcvNxt a)) s).

Definition runFinalAckWatchdog (now : Z) (s : stream) : stream :=
  if negb (finalAck_due now s.1) then s
  else
    let ackSN := wrap16 (rcvNxt s.1 - 1) in
    (push (ack_request ackSN) (upd (fun a => a <| lastDuplicateAckAt := now |>) s)).2.

(** Local variables of [ioLoop] that survive a turn. *)
Record io_locals := mkIoLocals { transientReadSince : Z }.

(** How a turn of [ioLoop] ends: another turn, the early return on a cancelled
    context, or the end of the loop with what the code after it has to do. *)
Inductive io_exit :=
| IoNext (l : io_locals)
| IoReturn
| IoLeave (resetRequired resetAfterDrain gracefulEOF alreadyHandled : bool) (errorReason : string).

(** The chunk read becomes an unacknowledged packet and is queued for sending. *)
Definition send_chunk (raw : bytes) (now : Z) (s : stream) : stream :=
  let sn := sndNxt s.1 in
  let s := upd (send_locked raw now) s in
  let '(ok, s) := push (data_request PACKET_STREAM_DATA sn (compressionType (tun s.1)) 0 raw) s in
  if ok then s else upd (send_refused sn now) s.

(** One turn of [ioLoop], after [waitWindowNotFull] let it through; [Read] returned
    the bytes [raw] and [err]. *)
Definition ioLoop_read (l : io_locals) (raw : bytes) (err : option goError) (now : Z) (s : stream) : io_exit * stream :=
  let a := s.1 in
  if stopLocalRead a || closed a then (IoLeave false false false true EmptyString, s)
  else if negb (ioReady a) then (if cancelled a then IoReturn else IoNext l, s)
  else if negb (localConn a) then (IoLeave true false false false "Local connection missing", s)
  else
    let some := negb (bool_decide (raw = [])) in
    let s := if some then send_chunk raw now s else s in
    let l := if some then mkIoLocals 0 else l in
    match err with
    | None => (IoNext l, s)
    | Some e =>
        match classifyIOError err with
        | ioErrorTimeout => (IoNext (mkIoLocals 0), s)
        | ioErrorTransient =>
            if IsZero (transientReadSince l) then (IoNext (mkIoLocals now), s)
            else if ioTransientReadBudget <? now - transientReadSince l
            then (IoLeave true some false false ("Repeated transient read errors: " +:+ err_text e)%string, s)
            else (IoNext l, s)
        | ioErrorEOF =>
            (IoLeave false false true false "Local App Closed Connection (EOF)", upd (noteClientEOF now) s)
        | ioErrorClosed =>
            if isGracefulCloseInProgress s.1 then (IoLeave false false false true EmptyString, s)
            else (IoLeave true some false false "Local connection closed", s)
        | ioErrorFatal => (IoLeave true some false false ("Read Error: " +:+ err_text e)%string, s)
        end
    end.

(** The code after the loop. *)
Definition ioLoop_after (resetRequired resetAfterDrain gracefulEOF alreadyHandled : bool) (errorReason : string)
    (now : Z) (s : stream) : stream :=
  if closed s.1 || alreadyHandled then s
  else if resetRequired then Close errorReason (mkCloseOptions false true false false resetAfterDrain 0) now s
  else if gracefulEOF then Close errorReason (send_close_read true) now s
  else s.

(** [waitWindowNotFull] returns when this holds. *)
Definition window_open (a : ARQ) : bool :=
  (Z.of_nat (size (sndBuf a)) <? limit (tun a)) || closed a || cancelled a.
End data_plane.
