(* ===== verification/ArqControl.v ===== *)
(** * ARQ stream: control plane and timers (masterdns arq)

    Acknowledgements of control packets, and the periodic [checkRetransmits] with
    its terminal state machine.  Where the code ranges over a map, the order of the
    enumeration is the argument [order] (Go leaves it unspecified). *)

From stdpp Require Import base tactics list gmap strings.
From Stdlib Require Import ZArith Lia Floats.SpecFloat.
From S2P Require Import Prelude Enums GoFloat ArqState Arq ArqData.

Definition is_close_stream (packetType : Z) : bool :=
  match GetPacketCloseStream packetType with Some _ => true | None => false end.

(** ** Retransmission candidates *)

(** The loop over [sndBuf]: jobs found so far, whether a TTL expired, whether the
    retries of a packet are used up; the loop stops at the first of these. *)
Fixpoint scan_sndBuf (order : list Z) (now drainRTOCap : Z) (draining : bool) (a : ARQ) :
    list rtxJob * bool * bool :=
  match order with
  | [] => ([], false, false)
  | sn :: order =>
      match sndBuf a !! sn with
      | None => scan_sndBuf order now drainRTOCap draining a
      | Some info =>
          if (0 <? dTTL info) && (dTTL info <=? now - dCreatedAt info) then ([], true, false)
          else if negb (0 <? dTTL info) && (dataPacketTTL (tun a) <=? now - dCreatedAt info) &&
                  (maxDataRetries (tun a) <=? dRetries info) then ([], false, true)
          else
            let effectiveRTO :=
              if draining && (drainRTOCap <? dCurrentRTO info) then drainRTOCap else dCurrentRTO info in
            let '(jobs, ttlExpired, retryExceeded) := scan_sndBuf order now drainRTOCap draining a in
            if negb (dDispatched info) || (now - dLastSentAt info <? effectiveRTO)
            then (jobs, ttlExpired, retryExceeded)
            else (mkJob sn (dData info) (dCompressionType info) :: jobs, ttlExpired, retryExceeded)
      end
  end.

(** [insertBest]: the position is found from the end; [best] pairs an index with
    its distance. *)
Fixpoint best_pos (jobs : list rtxJob) (best : list (nat * Z)) (sn dist : Z) (pos : nat) : nat :=
  match pos with
  | O => O
  | S prev =>
      match best !! prev with
      | Some (prevIdx, prevDist) =>
          let prevSn := match jobs !! prevIdx with Some j => job_sn j | None => 0 end in
          if (dist <? prevDist) || ((prevDist =? dist) && (prevSn <=? sn)) then S prev
          else best_pos jobs best sn dist prev
      | None => O
      end
  end.

Definition insertBest (jobs : list rtxJob) (frontBudget : nat) (best : list (nat * Z)) (idx : nat) (sn dist : Z) :
    list (nat * Z) :=
  let pos := best_pos jobs best sn dist (length best) in
  take frontBudget (take pos best ++ (idx, dist) :: drop pos best).

(** [for i := range jobs] *)
Fixpoint best_loop (jobs : list rtxJob) (sndNxt' : Z) (frontBudget : nat) (i : nat) (rest : list rtxJob)
    (best : list (nat * Z)) : list (nat * Z) :=
  match rest with
  | [] => best
  | j :: rest =>
      let dist := wrap16 (sndNxt' - job_sn j) in
      let best' :=
        if (length best <? frontBudget)%nat then insertBest jobs frontBudget best i (job_sn j) dist
        else
          match last best with
          | Some (lastIdx, lastDist) =>
              let lastSn := match jobs !! lastIdx with Some l => job_sn l | None => 0 end in
              if (lastDist <? dist) || ((dist =? lastDist) && (job_sn j <? lastSn))
              then insertBest jobs frontBudget best i (job_sn j) dist else best
          | None => best
          end in
      best_loop jobs sndNxt' frontBudget (S i) rest best'
  end.

Definition frontBudget_of (windowSize' : Z) (njobs : nat) : nat :=
  let b := Z.quot windowSize' 10 in
  let b := if b <? 1 then 1 else b in
  let b := if 64 <? b then 64 else b in
  Nat.min (Z.to_nat b) njobs.

Definition retransmitPriorityKinds (jobs : list rtxJob) (a : ARQ) : list bool :=
  match jobs with
  | [] => []
  | [_] => [true]
  | _ =>
      let best := best_loop jobs (sndNxt a) (frontBudget_of (windowSize (tun a)) (length jobs)) 0 jobs [] in
      map (fun i => bool_decide (i ∈ best.*1)) (seq 0 (length jobs))
  end.

(** The section after a job was queued. *)
Definition retransmitted (sn now drainRTOCap : Z) (draining : bool) (a : ARQ) : ARQ :=
  let dataFloor := currentDataBaseRTO a in
  let maxRTO' := if draining && (drainRTOCap <? maxRTO (tun a)) then drainRTOCap else maxRTO (tun a) in
  a <| sndBuf ::= alter (fun i =>
         i <| dLastSentAt := now |> <| dDispatched := false |> <| dRetries ::= (fun n => n + 1) |>
           <| dSampleEligible := false |>
           <| dCurrentRTO := clampDuration (grow (dCurrentRTO i) dataRetransmitRTOGrowthFactor) dataFloor maxRTO' |>) sn |>.

Definition control_retransmitted (key now : Z) (a : ARQ) : ARQ :=
  a <| controlSndBuf ::= alter (fun i =>
         let setup := setupControlPacketTypes (cPacketType i) in
         let growth := if setup then setupControlRTOGrowthFactor else controlRetransmitRTOGrowthFactor in
         let floorRto := currentControlBaseRTO a in
         let floorRto := if setup && (350 * time_Millisecond <? floorRto) then 350 * time_Millisecond else floorRto in
         i <| cLastSentAt := now |> <| cDispatched := false |> <| cRetries ::= (fun n => n + 1) |>
           <| cSampleEligible := false |>
           <| cCurrentRTO := clampDuration (grow (cCurrentRTO i) growth) floorRto (controlMaxRto (tun a)) |>) key |>.

(** Why a tracked control packet is given up. *)
Definition control_expired (now : Z) (info : arqControlItem) (a : ARQ) : option string :=
  if 0 <? cTTL info then
    if cTTL info <=? now - cCreatedAt info then Some "Packet TTL expired"%string else None
  else
    let setup := setupControlPacketTypes (cPacketType info) in
    let maxRetries := if setup && (controlMaxRetries (tun a) <? 120) then 120 else controlMaxRetries (tun a) in
    let packetTTL :=
      if setup && (controlPacketTTL (tun a) <? 300 * time_Second) then 300 * time_Second else controlPacketTTL (tun a) in
    let expiredByTTL := packetTTL <=? now - cCreatedAt info in
    let exceededRetries := maxRetries <=? cRetries info in
    if expiredByTTL || exceededRetries
    then Some (if exceededRetries then "Control packet max retransmissions exceeded" else "Control packet expired")%string
    else None.

(** Conditions of [handleTerminalRetransmitState]. *)
Definition drain_stalled (now : Z) (a : ARQ) : bool :=
  let stalledFor := if IsZero (drainProgressAt a) then 0 else now - drainProgressAt a in
  let queueBlocked :=
    (3 <=? drainQueueFails a) && negb (IsZero (drainQueueFailAt a)) && (now - drainQueueFailAt a <=? 30 * time_Second) in
  negb (bool_decide (sndBuf a = ∅)) && queueBlocked && (20 * time_Second <=? stalledFor).

Definition closeWriteAfterEOF_due (now : Z) (a : ARQ) : bool :=
  let receiveDrained := bool_decide (rcvBuf a = ∅) && (pendingInbound a =? 0) && negb (localWritePending a) in
  let peerFinishedSending := closeReadReceived a || localWriterBroken a in
  IsClient (tun a) &&
  ((negb (IsZero (clientEOFAt a)) && (2 * time_Second <=? now - clientEOFAt a)) ||
   (negb (IsZero (closeReadAckedAt a)) && (2 * time_Second <=? now - closeReadAckedAt a))) &&
  negb (closed a) && negb (rstSent a) && negb (rstReceived a) && closeReadSent a && closeReadAcked a &&
  negb (closeWriteSent a) && negb (closeWriteAcked a) && negb (closeWriteReceived a) &&
  negb (waitingAck a && (waitingAckFor a =? PACKET_STREAM_CLOSE_WRITE)) &&
  receiveDrained && peerFinishedSending.

Definition has_pending (a : ARQ) : bool :=
  negb (bool_decide (sndBuf a = ∅)) ||
  (enableControlReliability (tun a) && negb (bool_decide (controlSndBuf a = ∅))).

(** The section of [ReceiveControlAck]: what is tracked, the sample, and the buffer
    without the acknowledged packets. *)
Definition control_tracked (originPtype key : Z) (a : ARQ) : bool :=
  match controlSndBuf a !! key with
  | Some _ => true
  | None =>
      is_close_stream originPtype &&
      existsb (fun kv => cPacketType kv.2 =? originPtype) (map_to_list (controlSndBuf a))
  end.

Definition control_sample (key now : Z) (a : ARQ) : option Z :=
  match controlSndBuf a !! key with
  | Some info =>
      if cSampleEligible info && cDispatched info && negb (IsZero (cLastSentAt info))
      then Some (now - cLastSentAt info) else None
  | None => None
  end.

Definition control_untrack (originPtype key : Z) (a : ARQ) : ARQ :=
  if is_close_stream originPtype
  then a <| controlSndBuf ::= filter (fun kv => cPacketType kv.2 <> originPtype) |>
  else a <| controlSndBuf ::= delete key |>.

Section control_plane.
Context {W : Type} `{PE : PacketEnqueuer W}.
Abbreviation stream := (ARQ * W)%type.

Definition handleTrackedPacketTTLExpiry (packetType : Z) (reason : string) (now : Z) (s : stream) : stream :=
  if is_close_stream packetType && negb (packetType =? PACKET_STREAM_CLOSE_READ) &&
     negb (packetType =? PACKET_STREAM_CLOSE_WRITE)
  then finalizeClose reason s
  else Close reason send_rst now s.

Definition handleTrackedTerminalAck (originPtype : Z) (s : stream) : bool * stream :=
  if is_close_stream originPtype && negb (originPtype =? PACKET_STREAM_CLOSE_READ) &&
     negb (originPtype =? PACKET_STREAM_CLOSE_WRITE) && negb (originPtype =? PACKET_STREAM_RST)
  then (true, finalizeClose (PacketTypeName originPtype +:+ " acknowledged")%string s)
  else (false, s).

Definition closeReadAcked_steps (now : Z) (s : stream) : stream :=
  tryFinalizeRemoteEOF (upd (clearWaitingAck PACKET_STREAM_CLOSE_READ) (upd (markCloseReadAcked now) s)).

Definition closeWriteAcked_steps (now : Z) (s : stream) : stream :=
  let s := upd (clearWaitingAck PACKET_STREAM_CLOSE_WRITE) (upd markCloseWriteAcked s) in
  tryFinalizeRemoteEOF (maybeInitiateClientCloseReadAfterWriterBreak now s).

Definition rstAcked_steps (s : stream) : stream := finalizeClose "RST acknowledged" (upd markRstAcked s).

Definition handleWaitingTerminalAck (ackPacketType : Z)
    (isWaitingCloseRead isWaitingCloseWrite isWaitingRst : bool) (now : Z) (s : stream) : bool * stream :=
  if (ackPacketType =? PACKET_STREAM_CLOSE_READ_ACK) && isWaitingCloseRead then (true, closeReadAcked_steps now s)
  else if (ackPacketType =? PACKET_STREAM_CLOSE_WRITE_ACK) && isWaitingCloseWrite then (true, closeWriteAcked_steps now s)
  else if (ackPacketType =? PACKET_STREAM_RST_ACK) && isWaitingRst then (true, rstAcked_steps s)
  else (false, s).

Definition handleTrackedCloseOrResetAck (originPtype now : Z) (s : stream) : bool * stream :=
  if originPtype =? PACKET_STREAM_CLOSE_READ then (true, closeReadAcked_steps now s)
  else if originPtype =? PACKET_STREAM_CLOSE_WRITE then (true, closeWriteAcked_steps now s)
  else if originPtype =? PACKET_STREAM_RST then (true, rstAcked_steps s)
  else (false, s).

Definition ReceiveControlAck (ackPacketType sequenceNum fragmentID now : Z) (s : stream) : bool * stream :=
  let s := upd (fun a => a <| lastActivity := now |>) s in
  match ReverseControlAckFor ackPacketType with
  | None => (false, s)
  | Some originPtype =>
      let a := s.1 in
      let key := controlKey originPtype sequenceNum fragmentID in
      let tracked := control_tracked originPtype key a in
      let waitingFor := waitingAckFor a in
      let isWaitingCloseRead :=
        (ackPacketType =? PACKET_STREAM_CLOSE_READ_ACK) && (waitingFor =? PACKET_STREAM_CLOSE_READ) in
      let isWaitingCloseWrite :=
        (ackPacketType =? PACKET_STREAM_CLOSE_WRITE_ACK) && (waitingFor =? PACKET_STREAM_CLOSE_WRITE) in
      let isWaitingRst := (ackPacketType =? PACKET_STREAM_RST_ACK) && (waitingFor =? PACKET_STREAM_RST) in
      if negb tracked && negb isWaitingCloseRead && negb isWaitingCloseWrite && negb isWaitingRst then (false, s)
      else
        let sample := if tracked then control_sample key now a else None in
        let s := if tracked then upd (control_untrack originPtype key) s else s in
        let s := match sample with Some x => upd (noteSuccessfulControlSample x) s | None => s end in
        let '(done, s) := if tracked then handleTrackedCloseOrResetAck originPtype now s else (false, s) in
        if done then (true, s)
        else
          let '(done, s) := if tracked then handleTrackedTerminalAck originPtype s else (false, s) in
          if done then (true, s)
          else
            let '(done, s) :=
              handleWaitingTerminalAck ackPacketType isWaitingCloseRead isWaitingCloseWrite isWaitingRst now s in
            if done then (true, s) else (tracked, s)
  end.

Definition HandleAckPacket (packetType sequenceNum fragmentID now : Z) (s : stream) : bool * stream :=
  if packetType =? PACKET_STREAM_DATA_ACK then ReceiveAck sequenceNum now s
  else
    match ReverseControlAckFor packetType with
    | None => (false, s)
    | Some _ => ReceiveControlAck packetType sequenceNum fragmentID now s
    end.

(** [for i, j := range jobs] of [checkRetransmits]. *)
Fixpoint send_jobs (jobs : list rtxJob) (kinds : list bool) (now drainRTOCap : Z) (draining : bool) (s : stream) : stream :=
  match jobs, kinds with
  | j :: jobs, kind :: kinds =>
      let packetType := if kind then PACKET_STREAM_RESEND else PACKET_STREAM_DATA in
      let '(ok, s) := push (data_request packetType (job_sn j) (job_compressionType j) 0 (job_data j)) s in
      let s := upd (if ok then retransmitted (job_sn j) now drainRTOCap draining else noteDrainQueueFailure now) s in
      send_jobs jobs kinds now drainRTOCap draining s
  | _, _ => s
  end.

(** [for key, info := range a.controlSndBuf]: goes on with the rest, or ends at the
    first expired packet. *)
Fixpoint checkControlRetransmits (order : list Z) (now : Z) (s : stream) : stream :=
  match order with
  | [] => s
  | key :: order =>
      match controlSndBuf s.1 !! key with
      | None => checkControlRetransmits order now s
      | Some info =>
          match control_expired now info s.1 with
          | Some reason =>
              handleTrackedPacketTTLExpiry (cPacketType info) reason now
                (upd (fun a => a <| controlSndBuf ::= delete key |>) s)
          | None =>
              if negb (cDispatched info) || (now - cLastSentAt info <? cCurrentRTO info)
              then checkControlRetransmits order now s
              else
                let '(ok, s) := push (mkTX (cPriority info) (cPacketType info) (cSequenceNum info) (cFragmentID info)
                                       (cTotalFragments info) 0 (cTTL info) (cPayload info)) s in
                checkControlRetransmits order now (if ok then upd (control_retransmitted key now) s else s)
          end
      end
  end.

(** Returns whether [checkRetransmits] must stop. *)
Definition handleTerminalRetransmitState (now : Z) (s : stream) : bool * stream :=
  let a := s.1 in
  if deferredClose a then
    let shouldClose := bool_decide (sndBuf a = ∅) in
    let shouldAbort := negb (IsZero (deferredDeadline a)) && After now (deferredDeadline a) in
    let shouldAbortEarly := drain_stalled now a in
    let s := if shouldAbortEarly then upd (fun a => a <| drainStallLogged := true |>) s else s in
    let s :=
      if shouldClose || shouldAbort then settleTerminalDrain now s
      else if shouldAbortEarly then Close "Deferred drain stalled after resend queue pressure" send_rst now s
      else s in
    (closed s.1, s)
  else if waitingAck a && negb (IsZero (ackWaitDeadline a)) && After now (ackWaitDeadline a) then
    if waitingAckFor a =? PACKET_STREAM_RST then (true, finalizeClose "Terminal ACK wait timeout" s)
    else if (waitingAckFor a =? PACKET_STREAM_CLOSE_READ) || (waitingAckFor a =? PACKET_STREAM_CLOSE_WRITE)
    then (false, Close "Close handshake ACK wait timeout" send_rst now s)
    else (false, s)
  else if rstReceived a && negb (closed a) then tryFinalizePeerResetDrain s
  else if closeWriteAfterEOF_due now a then (false, Close "Client close-read grace elapsed" send_close_write now s)
  else if inactivityTimeout (tun a) <? now - lastActivity a then
    if has_pending a then (false, upd (fun a => a <| lastActivity := now |>) s)
    else (true, Close "Stream Inactivity Timeout (Dead)" send_rst now s)
  else (false, s).

(** [order] enumerates [sndBuf] and [corder] [controlSndBuf]. *)
Definition checkRetransmits (order corder : list Z) (now : Z) (s : stream) : stream :=
  if closed s.1 then s
  else
    let s := runFinalAckWatchdog now (runGapRecoveryWatchdog now s) in
    let '(stop, s) := handleTerminalRetransmitState now s in
    if stop then s
    else
      let a := s.1 in
      let draining := deferredClose a || is_state (state a) StateDraining in
      let drainRTOCap := clampDuration (2 * time_Second) (rto (tun a)) (maxRTO (tun a)) in
      let '(jobs, ttlExpired, retryExceeded) := scan_sndBuf order now drainRTOCap draining a in
      if ttlExpired then handleTrackedPacketTTLExpiry PACKET_STREAM_DATA "Packet TTL expired" now s
      else if retryExceeded then Close "Max retransmissions exceeded" send_rst now s
      else
        let s := send_jobs jobs (retransmitPriorityKinds jobs a) now drainRTOCap draining s in
        if enableControlReliability (tun s.1) then checkControlRetransmits corder now s else s.

(** The sleep between two turns of [retransmitLoop]. *)
Definition retransmit_interval (a : ARQ) : Z :=
  let rtoFactor :=
    if enableControlReliability (tun a) && (controlRto (tun a) <? rto (tun a)) then controlRto (tun a) else rto (tun a) in
  let baseInterval := Z.max (Z.quot rtoFactor 3) (50 * time_Millisecond) in
  if has_pending a then baseInterval else Z.max (baseInterval * 4) (100 * time_Millisecond).
End control_plane.
