(* ===== verification/ArqInv.v ===== *)
(** * ARQ stream: critical sections and invariants (masterdns arq)

    Goroutines of one stream interleave between critical sections, never inside
    one.  [section] lists the critical sections of arq.go as steps on the state, with
    arbitrary local variables, so that every interleaving of the methods is a
    sequence of steps; [..._sections] lemmas show that the methods are such
    sequences.  The invariant [arq_inv] is proved by induction on the steps. *)

From stdpp Require Import base tactics list gmap strings relations.
From Stdlib Require Import ZArith Lia Floats.SpecFloat.
From S2P Require Import Prelude Enums GoFloat ArqState Arq ArqData ArqControl.

(** Sections that neither move the sequence numbers nor add data to a buffer. *)
Inductive quiet : ARQ -> ARQ -> Prop :=
| q_signal_window a : quiet a (signalWindowNotFull a)
| q_signal_flush a : quiet a (signalFlushReady a)
| q_dequeued a pt sn fr now : quiet a (NoteTXPacketDequeued pt sn fr now a)
| q_data_sample a x : quiet a (noteSuccessfulDataSample x a)
| q_control_sample a x : quiet a (noteSuccessfulControlSample x a)
| q_close_read_acked a now : quiet a (markCloseReadAcked now a)
| q_close_read_sent a : quiet a (MarkCloseReadSent_locked a)
| q_close_read_received a : isVirtual a = false -> quiet a (MarkCloseReadReceived_locked a)
| q_close_write_acked a : quiet a (markCloseWriteAcked a)
| q_client_eof a now : quiet a (noteClientEOF now a)
| q_half_close a : quiet a (halfCloseLocalWriter a)
| q_clear_waiting a pt : quiet a (clearWaitingAck pt a)
| q_drain_failure a now : quiet a (noteDrainQueueFailure now a)
| q_clear_tracked a pt sn fr : quiet a (clearTrackedControlPacket pt sn fr a)
| q_start a : quiet a (Start a)
| q_set_conn a : quiet a (SetLocalConn a)
| q_set_ready a b : quiet a (SetIOReady b a)
| q_activity a now : quiet a (a <| lastActivity := now |>)
| q_dup_ack a now : quiet a (a <| lastDuplicateAckAt := now |>)
| q_track a pt sn fr total payload prio ack ttl now r ok :
    quiet a (trackControl pt sn fr total payload prio ack ttl now r ok a)
| q_emit_preamble a reason : closed a = false -> isVirtual a = false -> quiet a (emit_preamble reason a)
| q_emit_close_read a reason seq now : closed a = false -> isVirtual a = false ->
    quiet a (startAckWait PACKET_STREAM_CLOSE_READ now (emit_preamble reason a <| closeReadSeqSent := Some seq |>))
| q_emit_close_write a reason seq now : closed a = false -> isVirtual a = false ->
    quiet a (startAckWait PACKET_STREAM_CLOSE_WRITE now (emit_preamble reason a <| closeWriteSeqSent := Some seq |>))
| q_close_rst a reason : closed a = false -> alreadyResetting a = false -> quiet a (close_rst_locked reason a)
| q_clear_deferred a : quiet a (clearDeferred a)
| q_defer a reason pt now : closed a = false -> isVirtual a = false -> quiet a (defer_locked reason pt now a)
| q_not_virtual a : quiet a (a <| isVirtual := false |>)
| q_pending_inc a : quiet a (a <| pendingInbound ::= (fun n => n + 1) |>)
| q_pending_dec a : quiet a (decPendingInbound a)
| q_rx_put a p : u16 (rx_sn p) -> len (rxChan a) < rxCap (tun a) -> quiet a (a <| rxChan ::= (fun q => q ++ [p]) |>)
| q_rx_get a p q : rxChan a = p :: q -> quiet a (a <| rxChan := q |>)
| q_rx_done a : quiet a (rxLoop_done a)
| q_prune a n : quiet a (pruneDataNackStateLocked n a)
| q_should_nack a sn now : quiet a (shouldSendDataNack sn now a).2
| q_nack_sent a sn now : quiet a (noteDataNackSent sn now a)
| q_nack_clear a sn : quiet a (a <| firstDataNackSeen ::= delete sn |> <| lastDataNackSent ::= delete sn |>)
| q_refused a sn now : quiet a (send_refused sn now a)
| q_nacked a sn now : quiet a (a <| sndBuf ::= alter (fun i => i <| dLastNackSentAt := now |>) sn |>)
| q_nack_undo a sn now prev : quiet a (a <| sndBuf ::= alter (fun i =>
    if dLastNackSentAt i =? now then i <| dLastNackSentAt := prev |> else i) sn |>)
| q_no_sample a sn : quiet a (a <| sndBuf ::= alter (fun i => i <| dSampleEligible := false |>) sn |>)
| q_retransmitted a sn now draining :
    quiet a (retransmitted sn now (clampDuration (2 * time_Second) (rto (tun a)) (maxRTO (tun a))) draining a)
| q_control_retransmitted a key now : quiet a (control_retransmitted key now a)
| q_untrack a pt key : quiet a (control_untrack pt key a)
| q_control_delete a key : quiet a (a <| controlSndBuf ::= delete key |>)
| q_stall_logged a : quiet a (a <| drainStallLogged := true |>)
| q_write_done a : quiet a (a <| localWritePending := false |>).

(** Sections that discard data: of the send buffer, the receive buffer, or both. *)
Inductive discard : ARQ -> ARQ -> Prop :=
| d_rst_sent a : discard a (MarkRstSent a)
| d_rst_acked a : discard a (markRstAcked a)
| d_emit_rst a reason seq now : closed a = false -> isVirtual a = false ->
    discard a (startAckWait PACKET_STREAM_RST now
                 (clearAllQueues true (emit_preamble reason a <| rstSeqSent := Some seq |>)))
| d_finalize a a' reason : finalizeClose_locked reason a = Some a' -> discard a a'
| d_rst_received a : isVirtual a = false ->
    discard a (setState StateReset (signalWindowNotFull (clearDataNackStateLocked
      (a <| rstReceived := true |> <| stopLocalRead := true |> <| sndBuf := ∅ |> <| controlSndBuf := ∅ |>))))
| d_close_write_received a : isVirtual a = false ->
    discard a (signalWindowNotFull (a <| closeWriteReceived := true |> <| stopLocalRead := true |> <| sndBuf := ∅ |>)).

Inductive discard_rcv : ARQ -> ARQ -> Prop :=
| d_close_write_sent a : discard_rcv a (MarkCloseWriteSent a)
| d_writer_broken a : discard_rcv a (markLocalWriterBroken a).

(** All sections; the four that handle data are named by what they handle. *)
Inductive section : ARQ -> ARQ -> Prop :=
| s_quiet a a' : quiet a a' -> section a a'
| s_discard a a' : discard a a' -> section a a'
| s_discard_rcv a a' : discard_rcv a a' -> section a a'
| s_send a raw now : section a (send_locked raw now a)
| s_ack a sn now : section a (ack_locked sn now a)
| s_rx a sn data now : u16 sn -> section a (rx_locked sn data now a)
| s_drain a : section a (drain_locked a).2
| s_written a l : section a (a <| connWritten ::= (fun w => w ++ l) |>).

Definition sections : ARQ -> ARQ -> Prop := rtc section.

(** ** Tuning *)

(** What [NewARQ] guarantees of the tuning for a sane configuration. *)
Record tuning_ok (t : Tuning) : Prop := {
  t_rto : 0 < rto t <= maxRTO t;
  t_control_rto : 0 < controlRto t <= controlMaxRto t;
  t_recv_window : 0 < receiveWindowSize t;
  t_limit : 0 < limit t;
  t_space : receiveWindowSize t + limit t < 32767;
  t_rx : 0 < rxCap t;
  t_drain : 0 < terminalDrainTimeout t;
  t_ack : 0 < terminalAckWait t
}.

Definition data_rto_ok (t : Tuning) (i : arqDataItem) : Prop := rto t <= dCurrentRTO i <= maxRTO t.

Record arq_inv (a : ARQ) : Prop := {
  i_snd : u16 (sndNxt a);
  i_rcv : u16 (rcvNxt a);
  i_sndBuf : forall sn i, sndBuf a !! sn = Some i -> u16 sn /\ data_rto_ok (tun a) i;
  i_rcvBuf : forall sn d, rcvBuf a !! sn = Some d ->
    u16 sn /\ wrap16 (sn - rcvNxt a) <= receiveWindowSize (tun a);
  i_closed : closed a = true -> cancelled a = true /\ deferredClose a = false /\ waitingAck a = false;
  i_deferred : deferredClose a = true -> stopLocalRead a = true;
  i_waiting : waitingAck a = true -> stopLocalRead a = true /\
    (waitingAckFor a = PACKET_STREAM_CLOSE_READ \/ waitingAckFor a = PACKET_STREAM_CLOSE_WRITE \/
     waitingAckFor a = PACKET_STREAM_RST);
  i_pending : 0 <= pendingInbound a;
  i_rxChan : len (rxChan a) <= rxCap (tun a) /\ Forall (fun p => u16 (rx_sn p)) (rxChan a)
}.

Lemma clampDuration_range v lo hi : lo <= hi -> lo <= clampDuration v lo hi <= hi.
Proof. unfold clampDuration. intros. repeat case_if; zbool; lia. Qed.

Lemma currentDataBaseRTO_range a : tuning_ok (tun a) -> rto (tun a) <= currentDataBaseRTO a <= maxRTO (tun a).
Proof.
  intros T. pose proof (t_rto _ T). unfold currentDataBaseRTO. case_if; [lia|]. apply clampDuration_range. lia.
Qed.

Create HintDb arq.
#[export] Hint Unfold signalWindowNotFull signalFlushReady setState NoteTXPacketDequeued noteSuccessfulDataSample
  noteSuccessfulControlSample markCloseReadAcked MarkCloseReadSent_locked MarkCloseReadReceived_locked
  markCloseWriteAcked noteClientEOF halfCloseLocalWriter clearWaitingAck noteDrainQueueFailure
  clearTrackedControlPacket Start SetLocalConn SetIOReady startStreamWorkers trackControl emit_preamble startAckWait
  close_rst_locked clearDeferred defer_locked resetDrainTrackingLocked decPendingInbound rxLoop_done
  pruneDataNackStateLocked shouldSendDataNack noteDataNackSent send_refused retransmitted control_retransmitted
  control_untrack clearAllQueues clearDataNackStateLocked MarkRstSent markRstAcked MarkCloseWriteSent
  markLocalWriterBroken noteDrainProgressLocked : arq.

(** Case analysis on the conditions of a section, then its effect on one field. *)
Ltac sec :=
  autounfold with arq;
  repeat match goal with
  | |- context [match ?x with Some _ => _ | None => _ end] => destruct x eqn:?
  | |- context [if ?b then _ else _] => destruct b eqn:?
  end;
  simpl.

(** What a quiet section leaves alone. *)
Record undisturbed (a a' : ARQ) : Prop := {
  u_tun : tun a' = tun a;
  u_sndNxt : sndNxt a' = sndNxt a;
  u_rcvNxt : rcvNxt a' = rcvNxt a;
  u_rcvBuf : rcvBuf a' = rcvBuf a;
  u_connWritten : connWritten a' = connWritten a;
  u_closed : closed a' = closed a;
  u_cancelled : cancelled a' = cancelled a;
  u_stop : stopLocalRead a = true -> stopLocalRead a' = true
}.

Lemma quiet_undisturbed a a' : quiet a a' -> undisturbed a a'.
Proof. destruct 1; (split; [sec; reflexivity..|]); sec; done. Qed.

(** The send buffer keeps its packets; only their bookkeeping may change. *)
Definition same_packet (t : Tuning) (i i' : arqDataItem) : Prop :=
  dData i' = dData i /\ (data_rto_ok t i -> data_rto_ok t i').

Definition same_packets (t : Tuning) (m m' : gmap Z arqDataItem) : Prop :=
  forall sn, option_Forall2 (same_packet t) (m !! sn) (m' !! sn).

Lemma same_packets_refl t m : same_packets t m m.
Proof. intros sn. destruct (m !! sn); constructor. done. Qed.

Lemma same_packets_alter t (f : arqDataItem -> arqDataItem) k m :
  (forall i, same_packet t i (f i)) -> same_packets t m (alter f k m).
Proof.
  intros Hf sn. destruct (decide (sn = k)) as [->|].
  - rewrite lookup_alter_eq. destruct (m !! k); constructor. apply Hf.
  - rewrite lookup_alter_ne by done. destruct (m !! sn); constructor. done.
Qed.

Lemma retransmit_rto_range t v floor (draining : bool) :
  tuning_ok t -> rto t <= floor <= maxRTO t ->
  let cap := clampDuration (2 * time_Second) (rto t) (maxRTO t) in
  let maxRTO' := if draining && (cap <? maxRTO t) then cap else maxRTO t in
  rto t <= clampDuration v floor maxRTO' <= maxRTO t.
Proof.
  intros T Hf. pose proof (t_rto _ T).
  pose proof (clampDuration_range (2 * time_Second) (rto t) (maxRTO t)). cbv zeta.
  set (cap := clampDuration (2 * time_Second) (rto t) (maxRTO t)) in *. clearbody cap.
  unfold clampDuration. repeat case_if; zbool; lia.
Qed.

Lemma quiet_sndBuf a a' : tuning_ok (tun a) -> quiet a a' -> same_packets (tun a) (sndBuf a) (sndBuf a').
Proof.
  intros T H. destruct H; try (sec; apply same_packets_refl); autounfold with arq.
  - repeat case_if; simpl; try apply same_packets_refl. apply same_packets_alter. done.
  - simpl. apply same_packets_alter. done.
  - simpl. apply same_packets_alter. done.
  - simpl. apply same_packets_alter. intros i. case_if; done.
  - simpl. apply same_packets_alter. done.
  - cbn [sndBuf set set_sndBuf]. apply same_packets_alter. intros i. split; [done|]. intros _.
    unfold data_rto_ok. simpl. apply retransmit_rto_range; [done|]. by apply currentDataBaseRTO_range.
Qed.

(** ** Preservation *)

Lemma quiet_inv a a' : tuning_ok (tun a) -> arq_inv a -> quiet a a' -> arq_inv a'.
Proof.
  intros T I H. pose proof (quiet_undisturbed a a' H) as U. pose proof (quiet_sndBuf a a' T H) as P.
  destruct U as [Ut Us Ur Ub Uw Uc Ucan Ustop]. destruct I as [I1 I2 I3 I4 I5 I6 I7 I8 I9].
  split; rewrite ?Ut, ?Us, ?Ur, ?Ub, ?Uc; try done.
  - intros sn i' Hi. specialize (P sn). rewrite Hi in P. inversion P as [i ? [_ Hr] Hsn|]; subst.
    destruct (I3 sn i) as [? ?]; [done|]. auto.
  - intros Hc. destruct (I5 Hc) as (H1 & H2 & H3). rewrite Ucan. split; [done|]. clear -H H2 H3 Hc.
    destruct H; try congruence; sec; auto.
  - intros Hd. destruct (stopLocalRead a) eqn:Hs; [by apply Ustop|]. clear -H Hd I6 Hs. revert Hd.
    destruct H; sec; intros Hd; try done; try (specialize (I6 Hd)); try congruence.
  - clear -H I7 Ustop. revert Ustop. destruct H; sec; intros Ustop Hw; try done; try (destruct (I7 Hw); auto);
      split; auto.
  - clear -H I8. destruct H; sec; try done; zbool; lia.
  - clear -H I9 T. destruct H; sec; try done.
    + rewrite len_app, Forall_app. change (len [p]) with 1. split; [lia|]. split; [apply I9|]. by constructor.
    + rewrite H, len_cons in I9. destruct I9 as [? [_ ?]%Forall_cons]. pose proof (len_nonneg q). split; [lia|done].
    + pose proof (t_rx _ T). rewrite len_nil. split; [lia|done].
    + pose proof (t_rx _ T). rewrite len_nil. split; [lia|done].
Qed.

Lemma wrap16_sub_succ k n : u16 k -> u16 n -> k <> n ->
  wrap16 (k - wrap16 (n + 1)) = wrap16 (k - n) - 1.
Proof.
  unfold wrap16, u16. intros Hk Hn Hne.
  rewrite Zminus_mod_idemp_r. replace (k - (n + 1)) with (k - n - 1) by lia.
  pose proof (Z.mod_pos_bound (k - n) 65536 ltac:(lia)).
  pose proof (Z.div_mod (k - n) 65536 ltac:(lia)).
  assert ((k - n) mod 65536 <> 0).
  { intros Hz. assert (k - n = 65536 * ((k - n) / 65536)) by lia. nia. }
  symmetry. apply (Z.mod_unique_pos _ _ ((k - n) / 65536)); lia.
Qed.

(** Draining only touches the receive buffer and its sequence number. *)
Lemma take_ready_shape fuel : forall a, exists b n, (take_ready fuel a).2 = a <| rcvBuf := b |> <| rcvNxt := n |>.
Proof.
  induction fuel as [|fuel IH]; intros a; simpl.
  { exists (rcvBuf a), (rcvNxt a). by destruct a. }
  destruct (rcvBuf a !! rcvNxt a); [|exists (rcvBuf a), (rcvNxt a); by destruct a].
  match goal with |- context [take_ready fuel ?x] => destruct (IH x) as (b & n & Hb); destruct (take_ready fuel x) end.
  simpl in *. exists b, n. rewrite Hb. by destruct a.
Qed.

Lemma take_ready_inv fuel : forall a,
  u16 (rcvNxt a) -> (forall sn d, rcvBuf a !! sn = Some d -> u16 sn /\ wrap16 (sn - rcvNxt a) <= receiveWindowSize (tun a)) ->
  let a' := (take_ready fuel a).2 in
  u16 (rcvNxt a') /\
  (forall sn d, rcvBuf a' !! sn = Some d -> u16 sn /\ wrap16 (sn - rcvNxt a') <= receiveWindowSize (tun a')).
Proof.
  induction fuel as [|fuel IH]; intros a Hn Hb; simpl; [done|].
  destruct (rcvBuf a !! rcvNxt a) as [d0|] eqn:Hd; [|done].
  match goal with |- context [take_ready fuel ?x] => specialize (IH x); destruct (take_ready fuel x) end.
  apply IH; simpl; [apply u16_wrap16|]. intros sn d. rewrite lookup_delete_Some. intros [Hne Hsn].
  destruct (Hb sn d Hsn) as [Hu Hw]. split; [done|]. rewrite wrap16_sub_succ by auto. lia.
Qed.

Lemma drain_inv a : arq_inv a -> arq_inv (drain_locked a).2.
Proof.
  intros [I1 I2 I3 I4 I5 I6 I7 I8 I9]. unfold drain_locked.
  destruct (take_ready_inv (S (size (rcvBuf a))) a I2 I4) as [H1 H2].
  destruct (take_ready_shape (S (size (rcvBuf a))) a) as (b & n & Hs).
  destruct (take_ready _ a) as [l a']. simpl in H1, H2, Hs. subst a'. split; simpl; auto.
Qed.

Lemma send_inv a raw now : tuning_ok (tun a) -> arq_inv a -> arq_inv (send_locked raw now a).
Proof.
  intros T [I1 I2 I3 I4 I5 I6 I7 I8 I9]. split; simpl; auto; [apply u16_wrap16|].
  intros sn i. rewrite lookup_insert_Some. intros [[<- <-]|[_ Hi]]; [|by apply I3].
  split; [done|]. unfold data_rto_ok. simpl.
  pose proof (currentDataBaseRTO_range (a <| lastActivity := now |>)) as Hr. exact (Hr T).
Qed.

Lemma ack_inv a sn now : arq_inv a -> arq_inv (ack_locked sn now a).
Proof.
  intros [I1 I2 I3 I4 I5 I6 I7 I8 I9]. unfold ack_locked. simpl.
  destruct (sndBuf a !! sn) eqn:Hs; [|split; simpl; auto].
  assert (Hd : forall k i, delete sn (sndBuf a) !! k = Some i -> u16 k /\ data_rto_ok (tun a) i).
  { intros k i. rewrite lookup_delete_Some. intros [_ Hk]. by apply I3. }
  autounfold with arq. repeat case_if; split; simpl; auto.
Qed.

Lemma rx_inv a sn data now : u16 sn -> arq_inv a -> arq_inv (rx_locked sn data now a).
Proof.
  intros Hu I. assert (I' : arq_inv (decPendingInbound a)).
  { destruct I as [I1 I2 I3 I4 I5 I6 I7 I8 I9]. unfold decPendingInbound. case_if; split; simpl; auto. zbool. lia. }
  unfold rx_locked. set (b := decPendingInbound a) in *. clearbody b.
  destruct I' as [I1 I2 I3 I4 I5 I6 I7 I8 I9].
  destruct (rx_decide sn b) as [| | |[]] eqn:Hd; try (split; simpl; done).
  split; simpl; auto. intros k d. rewrite lookup_insert_Some. intros [[<- <-]|[_ Hk]]; [|by eapply I4].
  split; [done|]. unfold rx_decide in Hd. repeat case_if; try done; zbool; lia.
Qed.

(** Closes the goals about emptied buffers and untouched fields. *)
Ltac emptied := simpl; auto; try done; try (intros ? ?; rewrite lookup_empty; done).

Lemma discard_inv a a' : arq_inv a -> discard a a' -> arq_inv a'.
Proof.
  intros [I1 I2 I3 I4 I5 I6 I7 I8 I9] H. destruct H as [a|a|a reason seq now Hc Hv|a a' reason H|a Hv|a Hv].
  - split; autounfold with arq; emptied.
  - split; autounfold with arq; emptied.
  - split; autounfold with arq; emptied. congruence.
  - unfold finalizeClose_locked in H. case_if; [done|]. injection H as <-.
    split; autounfold with arq; repeat case_if; emptied.
  - split; autounfold with arq; emptied. intros Hw. by destruct (I7 Hw).
  - split; autounfold with arq; emptied. intros Hw. by destruct (I7 Hw).
Qed.

Lemma discard_rcv_inv a a' : arq_inv a -> discard_rcv a a' -> arq_inv a'.
Proof. intros [I1 I2 I3 I4 I5 I6 I7 I8 I9] H. destruct H; split; sec; emptied. Qed.

Lemma section_tun a a' : section a a' -> tun a' = tun a.
Proof.
  destruct 1 as [a a' H|a a' H|a a' H|a raw now|a sn now|a sn data now _|a|a l].
  - by apply quiet_undisturbed.
  - destruct H as [| | |a a' reason H| |]; autounfold with arq; try done.
    unfold finalizeClose_locked in H. case_if; [done|]. injection H as <-. sec; done.
  - destruct H; sec; done.
  - done.
  - unfold ack_locked. simpl. destruct (sndBuf a !! sn); [|done]. sec; done.
  - unfold rx_locked, decPendingInbound. destruct (rx_decide _ _) as [| | |[]]; case_if; done.
  - unfold drain_locked. destruct (take_ready_shape (S (size (rcvBuf a))) a) as (b & n & Hs).
    destruct (take_ready _ a). simpl in Hs. subst. done.
  - done.
Qed.

Lemma section_inv a a' : tuning_ok (tun a) -> arq_inv a -> section a a' -> arq_inv a'.
Proof.
  intros T I H. destruct H.
  - by eapply quiet_inv.
  - by eapply discard_inv.
  - by eapply discard_rcv_inv.
  - by apply send_inv.
  - by apply ack_inv.
  - by apply rx_inv.
  - by apply drain_inv.
  - destruct I. split; simpl; auto.
Qed.

Lemma sections_inv a a' : tuning_ok (tun a) -> arq_inv a -> sections a a' -> tun a' = tun a /\ arq_inv a'.
Proof.
  intros T I H. revert T I. induction H as [a|a b c Hab _ IH]; intros T I; [done|].
  pose proof (section_tun a b Hab) as Ht. destruct (IH) as [IHt IHi]; [by rewrite Ht|by eapply section_inv|].
  split; [congruence|done].
Qed.

(** ** Methods are sequences of sections *)

Lemma sections_trans a b c : sections a b -> sections b c -> sections a c.
Proof. unfold sections. intros. by etrans. Qed.

Lemma sections_refl a : sections a a.
Proof. apply rtc_refl. Qed.

Lemma sections_one a b : section a b -> sections a b.
Proof. apply rtc_once. Qed.

Lemma sections_quiet a b : quiet a b -> sections a b.
Proof. intros. by apply rtc_once, s_quiet. Qed.

(** A method names its sections; their bodies do not matter here. *)
Ltac step_quiet H := unfold upd; cbn [fst snd]; apply sections_quiet; exact H.

Section methods.
Context {W : Type} `{PE : PacketEnqueuer W}.
Abbreviation stream := (ARQ * W)%type.
Implicit Types s : stream.

Lemma push_state r s : (push r s).2.1 = s.1.
Proof. unfold push. by destruct (PushTXPacket s.2 r). Qed.

Lemma finalizeClose_sections reason s : sections s.1 (finalizeClose reason s).1.
Proof.
  unfold finalizeClose. destruct (finalizeClose_locked reason s.1) eqn:H; [|apply sections_refl].
  by eapply sections_one, s_discard, d_finalize.
Qed.

Lemma tryFinalizeRemoteEOF_sections s : sections s.1 (tryFinalizeRemoteEOF s).1.
Proof.
  unfold tryFinalizeRemoteEOF, tryFinalizeClientLocalDisconnect.
  repeat case_if; auto using finalizeClose_sections, sections_refl.
Qed.

Lemma tryFinalizePeerResetDrain_sections s : sections s.1 (tryFinalizePeerResetDrain s).2.1.
Proof.
  unfold tryFinalizePeerResetDrain. repeat case_if; simpl; auto using finalizeClose_sections, sections_refl.
  apply sections_quiet, q_signal_flush.
Qed.

Lemma MarkCloseReadSent_sections s : sections s.1 (MarkCloseReadSent s).1.
Proof.
  unfold MarkCloseReadSent. eapply sections_trans; [|apply tryFinalizeRemoteEOF_sections].
  apply sections_quiet, q_close_read_sent.
Qed.

Lemma MarkCloseReadReceived_sections s : sections s.1 (MarkCloseReadReceived s).1.
Proof.
  unfold MarkCloseReadReceived. case_if; [apply sections_refl|].
  eapply sections_trans; [|apply tryFinalizeRemoteEOF_sections].
  eapply sections_trans; apply sections_quiet; [by apply q_close_read_received|apply q_signal_flush].
Qed.

Lemma MarkRstReceived_sections s : sections s.1 (MarkRstReceived s).1.
Proof.
  unfold MarkRstReceived. case_if; [apply sections_refl|]. simpl.
  eapply sections_trans; [apply sections_one, s_discard, d_rst_received; done|].
  apply sections_quiet, q_signal_flush.
Qed.

Lemma SendControlPacketWithTTL_sections pt sn fr total payload prio track ack ttl now s :
  sections s.1 (SendControlPacketWithTTL pt sn fr total payload prio track ack ttl now s).2.1.
Proof.
  unfold SendControlPacketWithTTL. case_if; [rewrite push_state; apply sections_refl|].
  destruct (match ack with Some t => Some t | None => ControlAckFor pt end); [|apply sections_refl].
  destruct (controlSndBuf s.1 !! _); [apply sections_refl|].
  match goal with |- context [push ?r s] => pose proof (push_state r s); destruct (push r s) as [ok s'] end.
  simpl in *. rewrite <- H. apply sections_quiet, q_track.
Qed.

Lemma emitTerminalPacketWithTTL_sections pt reason ttl now s :
  sections s.1 (emitTerminalPacketWithTTL pt reason ttl now s).1.
Proof.
  unfold emitTerminalPacketWithTTL, send_terminal. destruct (closed s.1 || isVirtual s.1) eqn:Hc; [apply sections_refl|].
  zbool. assert (Hpre : sections s.1 (upd (emit_preamble reason) s).1) by (by apply sections_quiet, q_emit_preamble).
  repeat case_if; try exact Hpre; zbool; subst;
    (eapply sections_trans; [|apply SendControlPacketWithTTL_sections]).
  - eapply sections_trans; [|apply MarkCloseReadSent_sections].
    step_quiet (q_emit_close_read s.1 reason (default 0 (closeReadSeqSent (emit_preamble reason s.1))) now H H0).
  - unfold upd; cbn [fst snd].
    refine (sections_trans _ _ _ (sections_quiet _ _ (q_emit_close_write s.1 reason
      (default 0 (closeWriteSeqSent (emit_preamble reason s.1))) now H H0)) _).
    exact (sections_one _ _ (s_discard_rcv _ _ (d_close_write_sent _))).
  - unfold upd; cbn [fst snd].
    refine (sections_trans _ _ _ (sections_one _ _ (s_discard _ _ (d_emit_rst s.1 reason
      (default 0 (rstSeqSent (emit_preamble reason s.1))) now H H0))) _).
    exact (sections_one _ _ (s_discard _ _ (d_rst_sent _))).
Qed.

Lemma Close_with_sections df reason opts now s :
  (forall r p n s, sections s.1 (df r p n s).1) -> sections s.1 (Close_with df reason opts now s).1.
Proof.
  intros Hd. unfold Close_with. case_if; [apply sections_refl|]. case_if.
  { eapply sections_trans; [|apply finalizeClose_sections]. apply sections_quiet, q_not_virtual. }
  case_if; [case_if; [apply Hd|apply emitTerminalPacketWithTTL_sections]|].
  case_if; [apply emitTerminalPacketWithTTL_sections|].
  destruct (closed s.1) eqn:Hc; [apply sections_refl|].
  destruct (alreadyResetting s.1) eqn:Hr; [apply sections_refl|].
  refine (sections_trans _ _ _ (sections_quiet _ _ (q_close_rst s.1 reason Hc Hr)) _).
  case_if.
  - exact (Hd reason PACKET_STREAM_RST now (upd (close_rst_locked reason) s)).
  - exact (emitTerminalPacketWithTTL_sections _ _ _ _ (upd (close_rst_locked reason) s)).
Qed.

Lemma settleTerminalDrain_sections now s : sections s.1 (settleTerminalDrain now s).1.
Proof.
  unfold settleTerminalDrain. destruct (settle_decision now s.1) as [[pt reason]|]; [|apply sections_refl].
  eapply sections_trans; [apply sections_quiet, (q_clear_deferred s.1)|].
  apply (Close_with_sections _ _ _ _ (upd clearDeferred s)). intros. apply sections_refl.
Qed.

Lemma deferTerminalPacket_sections reason pt now s : sections s.1 (deferTerminalPacket reason pt now s).1.
Proof.
  unfold deferTerminalPacket. destruct (closed s.1 || isVirtual s.1) eqn:Hc; [apply sections_refl|]. zbool.
  assert (Hd : sections s.1 (upd (defer_locked reason pt now) s).1) by (by apply sections_quiet, q_defer).
  case_if; [|done]. eapply sections_trans; [exact Hd|apply settleTerminalDrain_sections].
Qed.

Lemma Close_sections reason opts now s : sections s.1 (Close reason opts now s).1.
Proof. apply Close_with_sections. intros. apply deferTerminalPacket_sections. Qed.
End methods.

#[export] Hint Resolve sections_refl finalizeClose_sections tryFinalizeRemoteEOF_sections
  tryFinalizePeerResetDrain_sections settleTerminalDrain_sections Close_sections : arq.

Section methods2.
Context {W : Type} `{PE : PacketEnqueuer W}.
Abbreviation stream := (ARQ * W)%type.
Implicit Types s : stream.

Lemma MarkCloseWriteReceived_sections now s : sections s.1 (MarkCloseWriteReceived now s).1.
Proof.
  unfold MarkCloseWriteReceived. destruct (isVirtual s.1) eqn:Hv; [apply sections_refl|].
  eapply sections_trans; [|apply tryFinalizeRemoteEOF_sections].
  eapply sections_trans; [|apply settleTerminalDrain_sections].
  exact (sections_one _ _ (s_discard _ _ (d_close_write_received s.1 Hv))).
Qed.

Lemma maybeInitiate_sections now s : sections s.1 (maybeInitiateClientCloseReadAfterWriterBreak now s).1.
Proof. unfold maybeInitiateClientCloseReadAfterWriterBreak. case_if; auto with arq. Qed.

Lemma ReceiveData_sections sn data now s : u16 sn -> sections s.1 (ReceiveData sn data now s).2.1.
Proof.
  intros Hsn. unfold ReceiveData. case_if; [apply sections_refl|]. case_if.
  { cbn [snd]. case_if; auto with arq. }
  refine (sections_trans _ _ _ (sections_quiet _ _ (q_pending_inc s.1)) _).
  destruct (len _ <? _) eqn:Hl; zbool.
  - exact (sections_quiet _ _ (q_rx_put _ (mkRx sn data) Hsn Hl)).
  - exact (sections_quiet _ _ (q_pending_dec _)).
Qed.

Lemma clearSentDataNack_sections sn s : sections s.1 (clearSentDataNack sn s).1.
Proof. exact (sections_quiet _ _ (q_nack_clear s.1 sn)). Qed.

Lemma send_nacks_sections missing now onFail : (forall a, sections a (onFail a)) ->
  forall s, sections s.1 (send_nacks missing now onFail s).1.
Proof.
  intros Hf. induction missing as [|sn missing IH]; intros s; cbn [send_nacks]; [apply sections_refl|].
  pose proof (q_should_nack s.1 sn now) as Hq. destruct (shouldSendDataNack sn now s.1) as [should a]. cbn [snd] in Hq.
  refine (sections_trans _ _ _ (sections_quiet _ _ Hq) _). case_if; [apply (IH (a, s.2))|].
  pose proof (push_state (nack_request sn) (a, s.2)) as Hp. destruct (push _ _) as [ok s']. cbn [fst snd] in Hp.
  eapply sections_trans; [|apply IH]. rewrite <- Hp. unfold upd; cbn [fst]. destruct ok; [|apply Hf].
  exact (sections_quiet _ _ (q_nack_sent _ sn now)).
Qed.

Lemma maybeSendDataNacks_sections sn now s : sections s.1 (maybeSendDataNacks sn now s).1.
Proof.
  unfold maybeSendDataNacks. repeat (case_if; [apply sections_refl|]).
  refine (sections_trans _ _ _ (sections_quiet _ _ (q_prune s.1 (rcvNxt s.1))) _).
  apply (send_nacks_sections _ now _) with (s := upd (pruneDataNackStateLocked (rcvNxt s.1)) s).
  intros a. exact (sections_quiet _ _ (q_drain_failure a now)).
Qed.

Lemma processReceivedData_sections sn data now s :
  u16 sn -> sections s.1 (processReceivedData sn data now s).1.
Proof.
  intros Hsn. unfold processReceivedData. set (s1 := upd (rx_locked sn data now) s).
  assert (H1 : sections s.1 s1.1) by exact (sections_one _ _ (s_rx s.1 sn data now Hsn)).
  destruct (rx_decide _ _) as [| | |b].
  - case_if; [|done]. eapply sections_trans; [exact H1|apply Close_sections].
  - by rewrite push_state.
  - done.
  - pose proof (push_state (ack_request sn) s1) as Hp. set (s2 := (push (ack_request sn) s1).2) in *.
    rewrite <- Hp in H1. eapply sections_trans; [exact H1|].
    eapply sections_trans; [|exact (sections_quiet _ _ (q_signal_flush _))].
    eapply sections_trans; [|apply maybeSendDataNacks_sections].
    destruct b; [apply clearSentDataNack_sections|apply sections_refl].
Qed.

Lemma rxLoop_recv_sections now s :
  Forall (fun p => u16 (rx_sn p)) (rxChan s.1) -> sections s.1 (rxLoop_recv now s).1.
Proof.
  unfold rxLoop_recv. destruct (rxChan s.1) as [|p q] eqn:Hq; [intros; apply sections_refl|].
  intros [H1 _]%Forall_cons.
  refine (sections_trans _ _ _ (sections_quiet _ _ (q_rx_get s.1 p q Hq)) _).
  exact (processReceivedData_sections _ _ now (upd (fun a => a <| rxChan := q |>) s) H1).
Qed.

Lemma writer_broken_sections b text now s : sections s.1 (writer_broken b text now s).1.
Proof.
  unfold writer_broken.
  refine (sections_trans _ _ _ (sections_one _ _ (s_discard_rcv _ _ (d_writer_broken s.1))) _).
  exact (Close_sections _ _ _ (upd markLocalWriterBroken s)).
Qed.

Lemma write_chunk_sections results : forall remaining retries now s,
  sections s.1 (write_chunk results remaining retries now s).2.1.
Proof.
  induction results as [|[n err] results IH]; intros remaining retries now s; cbn [write_chunk];
    (case_if; [apply sections_refl|]); [apply sections_refl|].
  set (l := take _ remaining). set (s1 := upd _ s).
  assert (H1 : sections s.1 s1.1) by exact (sections_one _ _ (s_written s.1 l)).
  destruct err as [e|]; [|eapply sections_trans; [exact H1|apply IH]].
  destruct (classifyIOError _); try (eapply sections_trans; [exact H1|apply writer_broken_sections]);
    case_if; eapply sections_trans; try exact H1; try apply writer_broken_sections; apply IH.
Qed.

Lemma writeLoop_turn_sections results now s : sections s.1 (writeLoop_turn results now s).2.1.
Proof.
  unfold writeLoop_turn. case_if; [apply sections_refl|]. case_if; [apply sections_refl|].
  case_if; [apply Close_sections|].
  pose proof (s_drain s.1) as Hd. destruct (drain_locked s.1) as [toWrite a]. cbn [snd] in Hd.
  refine (sections_trans _ _ _ (sections_one _ _ Hd) _). clear Hd.
  destruct toWrite as [|c cs].
  - set (s1 := if closeReadReceived (a, s.2).1 && (pendingInbound (a, s.2).1 =? 0) then upd halfCloseLocalWriter (a, s.2) else (a, s.2)).
    assert (H1 : sections a s1.1).
    { unfold s1. case_if; [|apply sections_refl]. exact (sections_quiet _ _ (q_half_close _)). }
    pose proof (tryFinalizePeerResetDrain_sections s1) as H2.
    destruct (rstReceived s1.1).
    + destruct (tryFinalizePeerResetDrain s1) as [[] s2]; cbn [snd] in *.
      * eapply sections_trans; [exact H1|exact H2].
      * eapply sections_trans; [exact H1|]. eapply sections_trans; [exact H2|apply tryFinalizeRemoteEOF_sections].
    + eapply sections_trans; [exact H1|apply tryFinalizeRemoteEOF_sections].
  - pose proof (write_chunk_sections results (concat (c :: cs)) 0 now (a, s.2)) as H1.
    destruct (write_chunk _ _ _ _ _) as [[r rest] s1]. cbn [fst snd] in H1.
    assert (H2 : sections a (upd (fun a => a <| localWritePending := false |>) s1).1).
    { eapply sections_trans; [exact H1|]. exact (sections_quiet _ _ (q_write_done _)). }
    destruct r; [|exact H2|exact H1].
    pose proof (tryFinalizePeerResetDrain_sections (upd (fun a => a <| localWritePending := false |>) s1)) as H3.
    destruct (tryFinalizePeerResetDrain _) as [[] s2]; cbn [snd] in *.
    + eapply sections_trans; [exact H2|exact H3].
    + eapply sections_trans; [exact H2|]. eapply sections_trans; [exact H3|apply tryFinalizeRemoteEOF_sections].
Qed.

Lemma ReceiveAck_sections sn now s : sections s.1 (ReceiveAck sn now s).2.1.
Proof.
  unfold ReceiveAck. refine (sections_trans _ _ _ (sections_one _ _ (s_ack s.1 sn now)) _).
  destruct (sndBuf s.1 !! sn); [|apply sections_refl]. cbn [snd].
  eapply sections_trans; [|apply settleTerminalDrain_sections].
  set (s1 := match ack_sample sn now s.1 with Some _ => _ | None => _ end).
  assert (H1 : sections (ack_locked sn now s.1) s1.1).
  { unfold s1. destruct (ack_sample _ _ _) as [x|]; [exact (sections_quiet _ _ (q_data_sample _ x))|apply sections_refl]. }
  eapply sections_trans; [exact H1|]. cbn [fst].
  case_if; [exact (tryFinalizeRemoteEOF_sections (s1.1, RemoveQueuedData s1.2 sn))|apply sections_refl].
Qed.

Lemma HandleDataNack_sections sn now s : sections s.1 (HandleDataNack sn now s).2.1.
Proof.
  unfold HandleDataNack. case_if; [apply sections_refl|].
  refine (sections_trans _ _ _ (sections_quiet _ _ (q_activity s.1 now)) _).
  set (s1 := upd _ s). destruct (sndBuf s1.1 !! sn) as [info|]; [|apply sections_refl].
  case_if; [apply sections_refl|].
  refine (sections_trans _ _ _ (sections_quiet _ _ (q_nacked s1.1 sn now)) _).
  set (s2 := upd _ s1). match goal with |- context [push ?r s2] => pose proof (push_state r s2) as Hp; destruct (push r s2) as [ok s3] end.
  cbn [fst snd] in Hp. change (sections s2.1 (if negb ok then (false, upd (fun a => a <| sndBuf ::= alter (fun i =>
    if dLastNackSentAt i =? now then i <| dLastNackSentAt := dLastNackSentAt info |> else i) sn |>) s3)
    else (true, upd (fun a => a <| sndBuf ::= alter (fun i => i <| dSampleEligible := false |>) sn |>) s3)).2.1).
  rewrite <- Hp. destruct ok; cbn [negb].
  - exact (sections_quiet _ _ (q_no_sample _ sn)).
  - exact (sections_quiet _ _ (q_nack_undo _ sn now (dLastNackSentAt info))).
Qed.

Lemma watchdogs_sections now s : sections s.1 (runFinalAckWatchdog now (runGapRecoveryWatchdog now s)).1.
Proof.
  apply (sections_trans _ (runGapRecoveryWatchdog now s).1).
  - unfold runGapRecoveryWatchdog. repeat (case_if; [apply sections_refl|]).
    refine (sections_trans _ _ _ (sections_quiet _ _ (q_prune s.1 (rcvNxt s.1))) _).
    apply (send_nacks_sections _ now _) with (s := upd (pruneDataNackStateLocked (rcvNxt s.1)) s).
    intros. apply sections_refl.
  - unfold runFinalAckWatchdog. case_if; [apply sections_refl|]. rewrite push_state.
    exact (sections_quiet _ _ (q_dup_ack _ now)).
Qed.

Lemma send_chunk_sections raw now s : sections s.1 (send_chunk raw now s).1.
Proof.
  unfold send_chunk. refine (sections_trans _ _ _ (sections_one _ _ (s_send s.1 raw now)) _).
  set (s1 := upd _ s). match goal with |- context [push ?r s1] => pose proof (push_state r s1) as Hp; destruct (push r s1) as [ok s2] end.
  cbn [snd] in Hp. change (send_locked raw now s.1) with s1.1. rewrite <- Hp.
  case_if; [apply sections_refl|]. exact (sections_quiet _ _ (q_refused _ _ now)).
Qed.

Lemma ioLoop_read_sections l raw err now s : sections s.1 (ioLoop_read l raw err now s).2.1.
Proof.
  unfold ioLoop_read. case_if; [apply sections_refl|]. case_if; [apply sections_refl|]. case_if; [apply sections_refl|].
  set (s1 := if negb (bool_decide (raw = [])) then send_chunk raw now s else s).
  assert (H1 : sections s.1 s1.1) by (unfold s1; case_if; [apply send_chunk_sections|apply sections_refl]).
  clearbody s1. destruct err as [e|]; [|exact H1]. destruct (classifyIOError _); repeat case_if; try exact H1.
  eapply sections_trans; [exact H1|]. exact (sections_quiet _ _ (q_client_eof _ now)).
Qed.

Lemma ioLoop_after_sections b1 b2 b3 b4 reason now s : sections s.1 (ioLoop_after b1 b2 b3 b4 reason now s).1.
Proof. unfold ioLoop_after. repeat case_if; auto with arq. Qed.
End methods2.

#[export] Hint Resolve MarkCloseWriteReceived_sections maybeInitiate_sections ReceiveAck_sections watchdogs_sections : arq.

Section methods3.
Context {W : Type} `{PE : PacketEnqueuer W}.
Abbreviation stream := (ARQ * W)%type.
Implicit Types s : stream.

Lemma handleTrackedPacketTTLExpiry_sections pt reason now s :
  sections s.1 (handleTrackedPacketTTLExpiry pt reason now s).1.
Proof. unfold handleTrackedPacketTTLExpiry. case_if; auto with arq. Qed.

Lemma closeReadAcked_sections now s : sections s.1 (closeReadAcked_steps now s).1.
Proof.
  unfold closeReadAcked_steps. eapply sections_trans; [|apply tryFinalizeRemoteEOF_sections].
  refine (sections_trans _ _ _ (sections_quiet _ _ (q_close_read_acked s.1 now)) _).
  exact (sections_quiet _ _ (q_clear_waiting _ _)).
Qed.

Lemma closeWriteAcked_sections now s : sections s.1 (closeWriteAcked_steps now s).1.
Proof.
  unfold closeWriteAcked_steps. eapply sections_trans; [|apply tryFinalizeRemoteEOF_sections].
  eapply sections_trans; [|apply maybeInitiate_sections].
  refine (sections_trans _ _ _ (sections_quiet _ _ (q_close_write_acked s.1)) _).
  exact (sections_quiet _ _ (q_clear_waiting _ _)).
Qed.

Lemma rstAcked_sections s : sections s.1 (rstAcked_steps s).1.
Proof.
  unfold rstAcked_steps. eapply sections_trans; [|apply finalizeClose_sections].
  exact (sections_one _ _ (s_discard _ _ (d_rst_acked s.1))).
Qed.

Lemma handleWaitingTerminalAck_sections pt b1 b2 b3 now s : sections s.1 (handleWaitingTerminalAck pt b1 b2 b3 now s).2.1.
Proof.
  unfold handleWaitingTerminalAck. case_if; [apply closeReadAcked_sections|].
  case_if; [apply closeWriteAcked_sections|]. case_if; [apply rstAcked_sections|apply sections_refl].
Qed.

Lemma handleTrackedCloseOrResetAck_sections pt now s : sections s.1 (handleTrackedCloseOrResetAck pt now s).2.1.
Proof.
  unfold handleTrackedCloseOrResetAck. case_if; [apply closeReadAcked_sections|].
  case_if; [apply closeWriteAcked_sections|]. case_if; [apply rstAcked_sections|apply sections_refl].
Qed.

Lemma handleTrackedTerminalAck_sections pt s : sections s.1 (handleTrackedTerminalAck pt s).2.1.
Proof. unfold handleTrackedTerminalAck. case_if; [apply finalizeClose_sections|apply sections_refl]. Qed.

(** A step whose boolean result decides whether the rest runs. *)
Lemma sections_try a (r : bool * stream) (rest : stream -> bool * stream) :
  sections a r.2.1 -> (forall s, sections s.1 (rest s).2.1) ->
  sections a (let '(done, s) := r in if done then (true, s) else rest s).2.1.
Proof. intros H1 H2. destruct r as [[] s]; [done|]. eapply sections_trans; [exact H1|apply H2]. Qed.

Lemma ReceiveControlAck_sections pt sn fr now s : sections s.1 (ReceiveControlAck pt sn fr now s).2.1.
Proof.
  unfold ReceiveControlAck.
  refine (sections_trans _ _ _ (sections_quiet _ _ (q_activity s.1 now)) _).
  destruct (ReverseControlAckFor pt) as [origin|]; [|apply sections_refl].
  change (s.1 <| lastActivity := now |>) with (upd (fun a => a <| lastActivity := now |>) s).1.
  generalize (upd (fun a => a <| lastActivity := now |>) s). clear s. intros s. cbv zeta.
  case_if; [apply sections_refl|]. destruct (control_tracked _ _ _).
  - apply sections_try; [|intros s'; apply sections_try; [apply handleTrackedTerminalAck_sections|]].
    + eapply sections_trans; [|apply handleTrackedCloseOrResetAck_sections].
      refine (sections_trans _ _ _ (sections_quiet _ _ (q_untrack s.1 origin (controlKey origin sn fr))) _).
      destruct (control_sample _ _ _) as [x|]; [|apply sections_refl].
      exact (sections_quiet _ _ (q_control_sample _ x)).
    + intros s''. apply sections_try; [apply handleWaitingTerminalAck_sections|]. intros. apply sections_refl.
  - apply sections_try; [apply handleWaitingTerminalAck_sections|]. intros. apply sections_refl.
Qed.

Lemma HandleAckPacket_sections pt sn fr now s : sections s.1 (HandleAckPacket pt sn fr now s).2.1.
Proof.
  unfold HandleAckPacket. case_if; [apply ReceiveAck_sections|].
  destruct (ReverseControlAckFor pt); [apply ReceiveControlAck_sections|apply sections_refl].
Qed.

Lemma send_jobs_sections jobs : forall kinds now draining s,
  sections s.1 (send_jobs jobs kinds now (clampDuration (2 * time_Second) (rto (tun s.1)) (maxRTO (tun s.1))) draining s).1.
Proof.
  induction jobs as [|j jobs IH]; intros [|kind kinds] now draining s; try apply sections_refl. cbn [send_jobs].
  match goal with |- context [push ?r s] => pose proof (push_state r s) as Hp; destruct (push r s) as [ok s1] end.
  cbn [snd] in Hp. rewrite <- Hp. set (cap := clampDuration _ _ _).
  set (f := if ok then retransmitted (job_sn j) now cap draining else noteDrainQueueFailure now).
  assert (Hs : section s1.1 (f s1.1)).
  { apply s_quiet. unfold f. destruct ok; [exact (q_retransmitted s1.1 _ now draining)|exact (q_drain_failure s1.1 now)]. }
  refine (sections_trans _ _ _ (sections_one _ _ Hs) _).
  pose proof (IH kinds now draining (upd f s1)) as Hi. unfold cap. rewrite <- (section_tun _ _ Hs). exact Hi.
Qed.

Lemma checkControlRetransmits_sections order now : forall s, sections s.1 (checkControlRetransmits order now s).1.
Proof.
  induction order as [|key order IH]; intros s; cbn [checkControlRetransmits]; [apply sections_refl|].
  destruct (controlSndBuf s.1 !! key) as [info|]; [|apply IH].
  destruct (control_expired now info s.1) as [reason|].
  { eapply sections_trans; [|apply handleTrackedPacketTTLExpiry_sections].
    exact (sections_quiet _ _ (q_control_delete s.1 key)). }
  case_if; [apply IH|].
  match goal with |- context [push ?r s] => pose proof (push_state r s) as Hp; destruct (push r s) as [ok s1] end.
  cbn [snd] in Hp. rewrite <- Hp. eapply sections_trans; [|apply IH].
  destruct ok; [exact (sections_quiet _ _ (q_control_retransmitted s1.1 key now))|apply sections_refl].
Qed.

Lemma handleTerminalRetransmitState_sections now s : sections s.1 (handleTerminalRetransmitState now s).2.1.
Proof.
  unfold handleTerminalRetransmitState. case_if.
  - set (s1 := if drain_stalled now s.1 then upd (fun a => a <| drainStallLogged := true |>) s else s).
    assert (H1 : sections s.1 s1.1).
    { unfold s1. case_if; [exact (sections_quiet _ _ (q_stall_logged s.1))|apply sections_refl]. }
    clearbody s1. cbn [snd]. eapply sections_trans; [exact H1|].
    case_if; [apply settleTerminalDrain_sections|]. case_if; [apply Close_sections|apply sections_refl].
  - case_if.
    { case_if; [apply finalizeClose_sections|]. case_if; [apply Close_sections|apply sections_refl]. }
    case_if; [apply tryFinalizePeerResetDrain_sections|]. case_if; [apply Close_sections|].
    case_if; [|apply sections_refl]. case_if; [exact (sections_quiet _ _ (q_activity s.1 now))|apply Close_sections].
Qed.

Lemma checkRetransmits_sections order corder now s : sections s.1 (checkRetransmits order corder now s).1.
Proof.
  unfold checkRetransmits. case_if; [apply sections_refl|].
  eapply sections_trans; [apply (watchdogs_sections now)|].
  generalize (runFinalAckWatchdog now (runGapRecoveryWatchdog now s)). clear. intros s.
  pose proof (handleTerminalRetransmitState_sections now s) as H1.
  destruct (handleTerminalRetransmitState now s) as [stop s1]. cbn [snd] in H1.
  eapply sections_trans; [exact H1|]. case_if; [apply sections_refl|]. cbv zeta.
  destruct (scan_sndBuf _ _ _ _ _) as [[jobs ttlExpired] retryExceeded].
  case_if; [apply handleTrackedPacketTTLExpiry_sections|]. case_if; [apply Close_sections|].
  case_if; [eapply sections_trans; [|apply checkControlRetransmits_sections]|]; apply send_jobs_sections.
Qed.
End methods3.
