(* ===== verification/ArqEvents.v ===== *)
(** * ARQ stream: events and the stream invariant (masterdns arq)

    [event] lists what can happen to a stream: a packet arrives, the local connection
    is readable or writable, the timer fires, the owner closes it.  [handle] runs the
    method arq.go runs.  Every method is a sequence of critical sections, so the
    invariant of [ArqInv] holds between any two sections of any interleaving. *)

From stdpp Require Import base tactics list gmap strings relations.
From Stdlib Require Import ZArith Lia Floats.SpecFloat.
From S2P Require Import Prelude Enums GoFloat ArqState Arq TxQueue ArqData ArqControl ArqInv.

Inductive event :=
| EvStart
| EvReceiveData (sn : Z) (data : bytes)
| EvRxRecv
| EvRxDone
| EvRead (l : io_locals) (raw : bytes) (err : option goError)
| EvReadEnd (resetRequired resetAfterDrain gracefulEOF alreadyHandled : bool) (errorReason : string)
| EvWrite (results : list (Z * option goError))
| EvAckPacket (packetType sequenceNum fragmentID : Z)
| EvDataNack (sn : Z)
| EvTimer (order corder : list Z)
| EvControl (packetType sequenceNum fragmentID totalFragments : Z) (payload : bytes) (priority : Z)
    (trackForAck : bool) (customAckType : option Z) (ttl : Z)
| EvDequeued (packetType sequenceNum fragmentID : Z)
| EvClose (reason : string) (opts : CloseOptions)
| EvCloseReadSent
| EvCloseReadReceived
| EvCloseWriteSent
| EvCloseWriteReceived
| EvRstSent
| EvRstReceived
| EvSetLocalConn
| EvSetIOReady (ready : bool).

(** Sequence numbers are 16 bits wide. *)
Definition event_ok (e : event) : Prop := match e with EvReceiveData sn _ => u16 sn | _ => True end.

Section events.
Context {W : Type} `{PE : PacketEnqueuer W}.
Abbreviation stream := (ARQ * W)%type.

Definition handle (now : Z) (e : event) (s : stream) : stream :=
  match e with
  | EvStart => upd Start s
  | EvReceiveData sn data => (ReceiveData sn data now s).2
  | EvRxRecv => rxLoop_recv now s
  | EvRxDone => upd rxLoop_done s
  | EvRead l raw err => (ioLoop_read l raw err now s).2
  | EvReadEnd b1 b2 b3 b4 reason => ioLoop_after b1 b2 b3 b4 reason now s
  | EvWrite results => (writeLoop_turn results now s).2
  | EvAckPacket pt sn fr => (HandleAckPacket pt sn fr now s).2
  | EvDataNack sn => (HandleDataNack sn now s).2
  | EvTimer order corder => checkRetransmits order corder now s
  | EvControl pt sn fr total payload prio track ack ttl =>
      (SendControlPacketWithTTL pt sn fr total payload prio track ack ttl now s).2
  | EvDequeued pt sn fr => upd (NoteTXPacketDequeued pt sn fr now) s
  | EvClose reason opts => Close reason opts now s
  | EvCloseReadSent => MarkCloseReadSent s
  | EvCloseReadReceived => MarkCloseReadReceived s
  | EvCloseWriteSent => upd MarkCloseWriteSent s
  | EvCloseWriteReceived => MarkCloseWriteReceived now s
  | EvRstSent => upd MarkRstSent s
  | EvRstReceived => MarkRstReceived s
  | EvSetLocalConn => upd SetLocalConn s
  | EvSetIOReady ready => upd (SetIOReady ready) s
  end.

Fixpoint run (events : list (Z * event)) (s : stream) : stream :=
  match events with
  | [] => s
  | (now, e) :: events => run events (handle now e s)
  end.
End events.

(** The part of the tuning that [NewARQ] computes in floating point: the timeouts
    are positive and the initial timeouts do not exceed the maximal ones.  It holds
    of the defaults of config/client.go and config/server.go. *)
Definition timing_ok (cfg : Config) : bool :=
  let t := tun (NewARQ 0 0 false 0 cfg 0) in
  (0 <? rto t) && (rto t <=? maxRTO t) && (0 <? controlRto t) && (controlRto t <=? controlMaxRto t) &&
  (0 <? terminalDrainTimeout t) && (0 <? terminalAckWait t).

(** The configurations of client/stream_client.go and udpserver with the default
    settings. *)
Definition default_client_config (isVirtual startPaused : bool) (comp : Z) : Config :=
  mkConfig 600 (float64_of_int 1) (float64_of_int 5) isVirtual startPaused true (float64_lit 5 10) (float64_of_int 3)
    400 (float64_of_int 1800) (float64_of_int 2400) 1200 (float64_of_int 1200) 16 (float64_lit 1 10)
    (float64_of_int 1) (float64_of_int 120) (float64_of_int 90) comp true 0.

Lemma NewARQ_tuning streamID sessionID conn mtu cfg now :
  WindowSize cfg <= 8000 -> timing_ok cfg = true -> tuning_ok (tun (NewARQ streamID sessionID conn mtu cfg now)).
Proof.
  intros Hw Ht. unfold timing_ok in Ht. simpl in Ht. zbool.
  set (w := Z.max (WindowSize cfg) 300). assert (Hr : 300 <= w <= 8000) by lia.
  pose proof (four_fifths w ltac:(lia)) as Hl.
  assert (w * 8 / 10 <= 6400) by (apply Z.div_le_upper_bound; lia).
  assert (0 <= w * 8 / 10) by (apply Z.div_pos; lia).
  split; simpl; fold w; rewrite ?Hl; try lia.
  pose proof (Z.quot_pos w 2 ltac:(lia) ltac:(lia)).
  repeat case_if; zbool; lia.
Qed.

Lemma NewARQ_inv streamID sessionID conn mtu cfg now :
  timing_ok cfg = true -> WindowSize cfg <= 8000 -> arq_inv (NewARQ streamID sessionID conn mtu cfg now).
Proof.
  intros Ht Hw. pose proof (NewARQ_tuning streamID sessionID conn mtu cfg now Hw Ht) as T.
  split; try done; try (intros ? ?; simpl; rewrite lookup_empty; done).
  pose proof (t_rx _ T). cbn [rxChan NewARQ]. rewrite len_nil. split; [lia|constructor].
Qed.

Section events_proofs.
Context {W : Type} `{PE : PacketEnqueuer W}.
Abbreviation stream := (ARQ * W)%type.
Implicit Types s : stream.

Lemma handle_sections now e s : event_ok e -> arq_inv s.1 -> sections s.1 (handle now e s).1.
Proof.
  intros Ho I. destruct e; cbn [handle event_ok] in *; try (solve [auto with arq]).
  - exact (sections_quiet _ _ (q_start s.1)).
  - by apply ReceiveData_sections.
  - apply rxLoop_recv_sections. apply I.
  - exact (sections_quiet _ _ (q_rx_done s.1)).
  - apply ioLoop_read_sections.
  - apply ioLoop_after_sections.
  - apply writeLoop_turn_sections.
  - apply HandleAckPacket_sections.
  - apply HandleDataNack_sections.
  - apply checkRetransmits_sections.
  - apply SendControlPacketWithTTL_sections.
  - exact (sections_quiet _ _ (q_dequeued s.1 _ _ _ now)).
  - apply MarkCloseReadSent_sections.
  - apply MarkCloseReadReceived_sections.
  - exact (sections_one _ _ (s_discard_rcv _ _ (d_close_write_sent s.1))).
  - exact (sections_one _ _ (s_discard _ _ (d_rst_sent s.1))).
  - apply MarkRstReceived_sections.
  - exact (sections_quiet _ _ (q_set_conn s.1)).
  - exact (sections_quiet _ _ (q_set_ready s.1 _)).
Qed.

Lemma run_sections events : forall s,
  Forall (fun ev => event_ok ev.2) events -> tuning_ok (tun s.1) -> arq_inv s.1 -> sections s.1 (run events s).1.
Proof.
  induction events as [|[now e] events IH]; intros s Ho T I; cbn [run]; [apply sections_refl|].
  apply Forall_cons in Ho as [Ho Hrest]. pose proof (handle_sections now e s Ho I) as H1.
  eapply sections_trans; [exact H1|]. destruct (sections_inv _ _ T I H1) as [Ht Hi]. by apply IH; rewrite ?Ht.
Qed.

(** C3: Take a new stream whose window is at most the 8000 the configuration files
    allow and whose timeouts are in order.  After any sequence of critical sections,
    in particular after any sequence of events, and between any two sections of
    methods that interleave, the stream satisfies [arq_inv]: sequence numbers stay 16
    bits wide; every buffered inbound packet lies inside the receive window; the
    retransmission timeout of every unacknowledged packet is between the configured
    bounds; a closed stream is cancelled and neither drains nor waits; a stream that
    drains or waits for a terminal acknowledgement no longer reads; the inbound
    counter is not negative and the inbound channel not above its capacity. *)
Theorem arq_invariant streamID sessionID conn mtu cfg now (w : W) :
  WindowSize cfg <= 8000 -> timing_ok cfg = true ->
  let a0 := NewARQ streamID sessionID conn mtu cfg now in
  (forall a, sections a0 a -> arq_inv a) /\
  (forall events, Forall (fun ev => event_ok ev.2) events -> sections a0 (run events (a0, w)).1).
Proof.
  intros Hw Ht a0. pose proof (NewARQ_tuning streamID sessionID conn mtu cfg now Hw Ht) as T.
  pose proof (NewARQ_inv streamID sessionID conn mtu cfg now Ht Hw) as I. split.
  - intros a Ha. by apply (sections_inv a0 a).
  - intros events Ho. by apply (run_sections events (a0, w)).
Qed.
End events_proofs.

(** A client stream that sends one chunk, receives one and is closed. *)
Definition sample_events : list (Z * event) :=
  [(1, EvStart); (2, EvRead (mkIoLocals 0) [10; 20] None); (3, EvDequeued PACKET_STREAM_DATA 0 0);
   (4, EvReceiveData 0 [7]); (5, EvRxRecv); (6, EvWrite [(1, None)]); (7, EvAckPacket PACKET_STREAM_DATA_ACK 0 0);
   (8, EvClose "done" send_rst); (9, EvTimer [] [])].

Lemma arq_invariant_witness :
  let cfg := default_client_config false false 0 in
  let a0 := NewARQ 1 2 true 1200 cfg 1 in
  (forall a, sections a0 a -> arq_inv a) /\
  (forall events, Forall (fun ev => event_ok ev.2) events ->
     sections a0 (run events (a0, StreamClient.new_stream 1 1 true)).1).
Proof. apply arq_invariant; [vm_compute; congruence|vm_compute; reflexivity]. Defined.
