(* ===== verification/ArqKeeps.v ===== *)
(** What the ARQ does to its enqueuer.

    The ARQ uses the transmit queue of its stream only through the four methods of
    [PacketEnqueuer] (src/masterdns/internal/arq/arq.go), so what these keep, every event of
    the stream keeps. *)

From stdpp Require Import base tactics list gmap strings.
From Stdlib Require Import ZArith Lia.
From S2P Require Import Prelude Enums GoFloat ArqState Arq TxQueue ArqData ArqControl ArqEvents.

Section keeps.
Context {W : Type} `{PE : PacketEnqueuer W} (P : W -> Prop).
Hypothesis P_push : forall w r, P w -> P (PushTXPacket w r).2.
Hypothesis P_closed : forall w reason, P w -> P (OnARQClosed w reason).
Hypothesis P_data : forall w sn, P w -> P (RemoveQueuedData w sn).
Hypothesis P_nack : forall w sn, P w -> P (RemoveQueuedDataNack w sn).

Lemma push_keeps r s : P s.2 -> P (push r s).2.2.
Proof. intros H. unfold push. pose proof (P_push s.2 r H). by destruct (PushTXPacket s.2 r). Qed.

Lemma SendControl_keeps pt sn fr tf pl pr tr ack ttl now s : P s.2 -> P (SendControlPacketWithTTL pt sn fr tf pl pr tr ack ttl now s).2.2.
Proof.
  intros H. unfold SendControlPacketWithTTL. case_if; [by apply push_keeps|]. destruct (match ack with Some t => Some t | None => ControlAckFor pt end); [|done].
  destruct (controlSndBuf s.1 !! _); [done|]. match goal with |- context [push ?r s] => pose proof (push_keeps r s H) as Hk; destruct (push r s) end.
  done.
Qed.

Lemma finalizeClose_keeps reason s : P s.2 -> P (finalizeClose reason s).2.
Proof. intros H. unfold finalizeClose. destruct (finalizeClose_locked reason s.1); [|done]. by apply P_closed. Qed.

Lemma MarkCloseReadSent_keeps s : P s.2 -> P (MarkCloseReadSent s).2.
Proof.
  intros H. unfold MarkCloseReadSent, tryFinalizeRemoteEOF, tryFinalizeClientLocalDisconnect. repeat (case_if; try done); by apply finalizeClose_keeps.
Qed.

Lemma emitTerminal_keeps pt reason ttl now s : P s.2 -> P (emitTerminalPacketWithTTL pt reason ttl now s).2.
Proof.
  intros H. unfold emitTerminalPacketWithTTL. repeat (case_if; try done); unfold send_terminal; apply SendControl_keeps; try done.
  by apply MarkCloseReadSent_keeps.
Qed.

Lemma settle_keeps now s : P s.2 -> P (settleTerminalDrain now s).2.
Proof.
  intros H. unfold settleTerminalDrain. destruct (settle_decision now s.1) as [[pt reason]|]; [|done]. unfold Close_with.
  repeat (case_if; try done); try (by apply finalizeClose_keeps); by apply emitTerminal_keeps.
Qed.

Lemma defer_keeps reason pt now s : P s.2 -> P (deferTerminalPacket reason pt now s).2.
Proof. intros H. unfold deferTerminalPacket. case_if; [done|]. case_bool_decide; [|done]. by apply settle_keeps. Qed.

Lemma Close_keeps reason opts now s : P s.2 -> P (Close reason opts now s).2.
Proof.
  intros H. unfold Close, Close_with.
  repeat (case_if; try done); try (by apply finalizeClose_keeps); try (by apply emitTerminal_keeps); by apply defer_keeps.
Qed.


Lemma removeQueued_keeps sns s : P s.2 -> P (removeQueued sns s).2.
Proof. unfold removeQueued. cbn [snd]. generalize (s.2). induction sns as [| sn sns IH]; intros w H; [done |]. cbn [fold_left]. by apply IH, P_data. Qed.

Lemma removeQueuedNacks_keeps sns s : P s.2 -> P (removeQueuedNacks sns s).2.
Proof. unfold removeQueuedNacks. cbn [snd]. generalize (s.2). induction sns as [| sn sns IH]; intros w H; [done |]. cbn [fold_left]. by apply IH, P_nack. Qed.

Lemma tryRemoteEOF_keeps s : P s.2 -> P (tryFinalizeRemoteEOF s).2.
Proof. intros H. unfold tryFinalizeRemoteEOF, tryFinalizeClientLocalDisconnect. repeat (case_if; try done); by apply finalizeClose_keeps. Qed.

Lemma tryPeerReset_keeps s : P s.2 -> P (tryFinalizePeerResetDrain s).2.2.
Proof. intros H. unfold tryFinalizePeerResetDrain. repeat (case_if; try done); by apply finalizeClose_keeps. Qed.

Lemma ReceiveData_keeps sn data now s : P s.2 -> P (ReceiveData sn data now s).2.2.
Proof. intros H. unfold ReceiveData. repeat (case_if; try done). by apply Close_keeps. Qed.

Lemma send_nacks_keeps l now f s : P s.2 -> P (send_nacks l now f s).2.
Proof.
  revert s. induction l as [| sn l IH]; intros s H; [done |]. cbn [send_nacks]. destruct (shouldSendDataNack sn now s.1) as [b a]. case_if; [by apply IH |].
  pose proof (push_keeps (nack_request sn) (a, s.2) H) as Hp. destruct (push (nack_request sn) (a, s.2)) as [ok s']. by apply IH.
Qed.

Lemma processReceivedData_keeps sn data now s : P s.2 -> P (processReceivedData sn data now s).2.
Proof.
  intros H. unfold processReceivedData. destruct (rx_decide sn (decPendingInbound s.1)) as [| | | isNew].
  - case_if; [by apply Close_keeps | done].
  - by apply push_keeps.
  - done.
  - pose proof (push_keeps (ack_request sn) (upd (rx_locked sn data now) s) H) as Hp. set (s1 := (push _ _).2) in *. cbn [snd upd].
    set (s2 := if isNew then _ else _). assert (P s2.2) as H1 by (unfold s2; destruct isNew; [by apply P_nack | done]).
    clearbody s2. unfold maybeSendDataNacks. repeat (case_if; try done). by apply send_nacks_keeps.
Qed.

Lemma write_chunk_keeps results remaining n now s : P s.2 -> P (write_chunk results remaining n now s).2.2.
Proof.
  revert remaining n s. induction results as [| [k err] results IH]; intros remaining n s H; cbn [write_chunk].
  - by case_if.
  - case_if; [done |]. destruct err as [e |]; [| by apply IH].
    destruct (classifyIOError (Some e)); try (by apply Close_keeps); case_if; try (by apply Close_keeps); by apply IH.
Qed.

Lemma writeLoop_keeps results now s : P s.2 -> P (writeLoop_turn results now s).2.2.
Proof.
  intros H. unfold writeLoop_turn. case_if; [done |]. case_if; [done |]. case_if; [by apply Close_keeps |].
  destruct (drain_locked s.1) as [toWrite a]. destruct toWrite as [| c cs].
  - set (s1 := if closeReadReceived _ && _ then _ else _). assert (P s1.2) as H1 by (unfold s1; by case_if).
    set (r := if rstReceived s1.1 then _ else _). assert (P r.2.2) as H2 by (unfold r; case_if; [by apply tryPeerReset_keeps | done]).
    destruct r as [[] s2]; [done | by apply tryRemoteEOF_keeps].
  - pose proof (write_chunk_keeps results (concat (c :: cs)) 0 now (a, s.2) H) as Hw.
    destruct (write_chunk results (concat (c :: cs)) 0 now (a, s.2)) as [[[] rs] s1]; [| done | done]. cbn [snd] in Hw.
    pose proof (tryPeerReset_keeps (upd (fun a => a <| localWritePending := false |>) s1) Hw) as H2.
    destruct (tryFinalizePeerResetDrain _) as [[] s2]; [done | by apply tryRemoteEOF_keeps].
Qed.

Lemma ReceiveAck_keeps sn now s : P s.2 -> P (ReceiveAck sn now s).2.2.
Proof.
  intros H. unfold ReceiveAck. destruct (sndBuf s.1 !! sn); [| done]. cbn [snd]. apply settle_keeps.
  set (s1 := match ack_sample sn now s.1 with Some _ => _ | None => _ end). assert (P s1.2) as H1 by (unfold s1; by case_match).
  apply (P_data _ sn) in H1. case_if; [by apply tryRemoteEOF_keeps | done].
Qed.

Lemma HandleDataNack_keeps sn now s : P s.2 -> P (HandleDataNack sn now s).2.2.
Proof.
  intros H. unfold HandleDataNack. case_if; [done |]. case_match; [| done]. case_if; [done |].
  match goal with |- context [push ?r ?x] => pose proof (push_keeps r x H) as Hp; destruct (push r x) as [ok s1] end. by case_if.
Qed.

Lemma closeRead_keeps now s : P s.2 -> P (closeReadAcked_steps now s).2.
Proof. intros H. by apply tryRemoteEOF_keeps. Qed.

Lemma closeWrite_keeps now s : P s.2 -> P (closeWriteAcked_steps now s).2.
Proof. intros H. apply tryRemoteEOF_keeps. unfold maybeInitiateClientCloseReadAfterWriterBreak. case_if; [done | by apply Close_keeps]. Qed.

Lemma rstAcked_keeps s : P s.2 -> P (rstAcked_steps s).2.
Proof. intros H. by apply finalizeClose_keeps. Qed.

Lemma ReceiveControlAck_keeps pt sn fr now s : P s.2 -> P (ReceiveControlAck pt sn fr now s).2.2.
Proof.
  intros H. unfold ReceiveControlAck. destruct (ReverseControlAckFor pt) as [origin |]; [| done]. case_if; [done |].
  set (tracked := control_tracked _ _ _). set (s1 := if tracked then upd (control_untrack _ _) _ else _).
  assert (P s1.2) as H1 by (unfold s1; by case_if). set (s2 := match (if tracked then _ else _) with Some _ => _ | None => _ end).
  assert (P s2.2) as H2 by (unfold s2; by case_match). clearbody s1 s2.
  set (r3 := if tracked then handleTrackedCloseOrResetAck origin now s2 else _).
  assert (P r3.2.2) as H3.
  { unfold r3, handleTrackedCloseOrResetAck. repeat (case_if; try done); [by apply closeRead_keeps | by apply closeWrite_keeps | by apply rstAcked_keeps]. }
  destruct r3 as [[] s3]; [done |]. set (r4 := if tracked then handleTrackedTerminalAck origin s3 else _).
  assert (P r4.2.2) as H4 by (unfold r4, handleTrackedTerminalAck; repeat (case_if; try done); by apply finalizeClose_keeps).
  destruct r4 as [[] s4]; [done |]. unfold handleWaitingTerminalAck.
  repeat (case_if; try done); [by apply closeRead_keeps | by apply closeWrite_keeps | by apply rstAcked_keeps].
Qed.

Lemma HandleAckPacket_keeps pt sn fr now s : P s.2 -> P (HandleAckPacket pt sn fr now s).2.2.
Proof. intros H. unfold HandleAckPacket. case_if; [by apply ReceiveAck_keeps |]. case_match; [by apply ReceiveControlAck_keeps | done]. Qed.

Lemma ttlExpiry_keeps pt reason now s : P s.2 -> P (handleTrackedPacketTTLExpiry pt reason now s).2.
Proof. intros H. unfold handleTrackedPacketTTLExpiry. case_if; [by apply finalizeClose_keeps | by apply Close_keeps]. Qed.

Lemma send_jobs_keeps jobs kinds now cap draining s : P s.2 -> P (send_jobs jobs kinds now cap draining s).2.
Proof.
  revert kinds s. induction jobs as [| j jobs IH]; intros [| k kinds] s H; try done. cbn [send_jobs].
  match goal with |- context [push ?r s] => pose proof (push_keeps r s H) as Hp; destruct (push r s) as [ok s1] end. by apply IH.
Qed.

Lemma controlRetransmits_keeps order now s : P s.2 -> P (checkControlRetransmits order now s).2.
Proof.
  revert s. induction order as [| key order IH]; intros s H; [done |]. cbn [checkControlRetransmits]. case_match; [| by apply IH].
  case_match; [by apply ttlExpiry_keeps |]. case_if; [by apply IH |].
  match goal with |- context [push ?r s] => pose proof (push_keeps r s H) as Hp; destruct (push r s) as [ok s1] end.
  apply IH. by case_if.
Qed.

Lemma terminalState_keeps now s : P s.2 -> P (handleTerminalRetransmitState now s).2.2.
Proof.
  intros H. unfold handleTerminalRetransmitState. repeat (case_if; try done); cbn [snd]; try (by apply settle_keeps); try (by apply Close_keeps);
    try (by apply finalizeClose_keeps); by apply tryPeerReset_keeps.
Qed.

Lemma checkRetransmits_keeps order corder now s : P s.2 -> P (checkRetransmits order corder now s).2.
Proof.
  intros H. unfold checkRetransmits. case_if; [done |].
  assert (P (runGapRecoveryWatchdog now s).2) as H1 by (unfold runGapRecoveryWatchdog; repeat (case_if; try done); by apply send_nacks_keeps).
  assert (P (runFinalAckWatchdog now (runGapRecoveryWatchdog now s)).2) as H2 by (unfold runFinalAckWatchdog; case_if; [done | by apply push_keeps]).
  apply (terminalState_keeps now) in H2. destruct (handleTerminalRetransmitState _ _) as [[] s2]; [done |].
  destruct (scan_sndBuf _ _ _ _ _) as [[jobs b1] b2]. case_if; [by apply ttlExpiry_keeps |]. case_if; [by apply Close_keeps |].
  case_if; [apply controlRetransmits_keeps |]; by apply send_jobs_keeps.
Qed.

Lemma handle_keeps now e s : P s.2 -> P (handle now e s).2.
Proof.
  intros H. destruct e; cbn [handle]; try done.
  - by apply ReceiveData_keeps.
  - unfold rxLoop_recv. case_match; [done | by apply processReceivedData_keeps].
  - unfold ioLoop_read. case_if; [done |]. case_if; [done |]. case_if; [done |].
    set (s1 := if negb _ then send_chunk raw now s else s). assert (P s1.2) as H1.
    { unfold s1. case_if; [| done]. unfold send_chunk. match goal with |- context [push ?r ?x] => pose proof (push_keeps r x H) as Hp; destruct (push r x) end. by case_if. }
    clearbody s1. destruct err; [| done]. case_match; repeat case_if; done.
  - unfold ioLoop_after. repeat (case_if; try done); by apply Close_keeps.
  - by apply writeLoop_keeps.
  - by apply HandleAckPacket_keeps.
  - by apply HandleDataNack_keeps.
  - by apply checkRetransmits_keeps.
  - by apply SendControl_keeps.
  - by apply Close_keeps.
  - by apply MarkCloseReadSent_keeps.
  - unfold MarkCloseReadReceived. case_if; [done | by apply tryRemoteEOF_keeps].
  - unfold MarkCloseWriteReceived. case_if; [done |]. apply tryRemoteEOF_keeps, settle_keeps. apply removeQueued_keeps. exact H.
  - unfold MarkRstReceived. case_if; [done |]. apply removeQueuedNacks_keeps. apply removeQueued_keeps. exact H.
Qed.
End keeps.
