(* ===== verification/ArqNet.v ===== *)
(** * Two ARQ streams and the network between them (masterdns arq)

    One direction of a connection: a sender and a receiver, each a full [ARQ] state
    whose critical sections interleave freely, and a network that may lose,
    duplicate, delay and reorder data packets and acknowledgements.  The history of
    sent chunks, the chunks handed to the writer and the acknowledgements sent so far
    are ghost state.  Sequence numbers are 16 bits wide, so the network may not keep a
    packet for arbitrarily long: a data packet is at most 32768 chunks older than the
    receiver's position, an acknowledgement less than 65536 chunks older than the
    sender's. *)

From stdpp Require Import base tactics list gmap sets strings relations.
From Stdlib Require Import ZArith Lia Floats.SpecFloat.
From S2P Require Import Prelude Enums GoFloat ArqState Arq TxQueue ArqData ArqControl ArqInv ArqEvents.

Record net := mkNet {
  snd_side : ARQ;
  rcv_side : ARQ;
  hist : list bytes;      (* chunks the sender read from its local connection *)
  read : nat;             (* number of chunks the receiver's writer has taken *)
  pend : bytes;           (* taken, but not yet written to the local connection *)
  acks : gset nat;        (* chunks for which an acknowledgement was sent *)
  dropped : bool;         (* the sender discarded its send buffer *)
  rdropped : bool         (* the receiver discarded its receive buffer *)
}.

(** The sequence number of a chunk. *)
Definition sq (i : nat) : Z := wrap16 (Z.of_nat i).

Definition window (n : net) : Z := receiveWindowSize (tun (rcv_side n)).
Definition burst (n : net) : Z := limit (tun (snd_side n)).

(** Does [rx_locked] answer with an acknowledgement? *)
Definition rx_acks (sn : Z) (a : ARQ) : bool :=
  match rx_decide sn (decPendingInbound a) with RxOld | RxKeep _ => true | RxWriterGone | RxDrop => false end.

(** The effect of each step of this direction. *)
Definition send_net (raw : bytes) (now : Z) (n : net) : net :=
  mkNet (send_locked raw now (snd_side n)) (rcv_side n) (hist n ++ [raw]) (read n) (pend n) (acks n)
    (dropped n) (rdropped n).

Definition deliver_net (i : nat) (data : bytes) (now : Z) (n : net) : net :=
  mkNet (snd_side n) (rx_locked (sq i) data now (rcv_side n)) (hist n) (read n) (pend n)
    (if rx_acks (sq i) (rcv_side n) then {[i]} ∪ acks n else acks n) (dropped n) (rdropped n).

Definition reack_net (i : nat) (n : net) : net :=
  mkNet (snd_side n) (rcv_side n) (hist n) (read n) (pend n) ({[i]} ∪ acks n) (dropped n) (rdropped n).

Definition ack_net (i : nat) (now : Z) (n : net) : net :=
  mkNet (ack_locked (sq i) now (snd_side n)) (rcv_side n) (hist n) (read n) (pend n) (acks n) (dropped n) (rdropped n).

Definition drain_net (n : net) : net :=
  mkNet (snd_side n) (drain_locked (rcv_side n)).2 (hist n) (read n + length (drain_locked (rcv_side n)).1)
    (pend n ++ concat (drain_locked (rcv_side n)).1) (acks n) (dropped n) (rdropped n).

Definition write_net (k : nat) (n : net) : net :=
  mkNet (snd_side n) ((rcv_side n) <| connWritten ::= (fun w => w ++ take k (pend n)) |>) (hist n) (read n)
    (drop k (pend n)) (acks n) (dropped n) (rdropped n).

Inductive net_step : net -> net -> Prop :=
(** a chunk is read and sent: the window is open, and the sequence number is not in use *)
| n_send n raw now :
    Z.of_nat (size (sndBuf (snd_side n))) < burst n ->
    sndBuf (snd_side n) !! sndNxt (snd_side n) = None ->
    (dropped n = true -> Z.of_nat (length (hist n)) - Z.of_nat (read n) <= window n + burst n) ->
    net_step n (send_net raw now n)
(** a copy of chunk [i] reaches the receiver *)
| n_deliver n i data now :
    hist n !! i = Some data ->
    Z.of_nat (read n) - Z.of_nat i <= 32768 ->
    net_step n (deliver_net i data now n)
(** the watchdog repeats the last acknowledgement *)
| n_final_ack n i :
    read n = S i ->
    net_step n (reack_net i n)
(** an acknowledgement of chunk [i] reaches the sender *)
| n_ack n i now :
    i ∈ acks n ->
    Z.of_nat (length (hist n)) - Z.of_nat i < 65536 ->
    net_step n (ack_net i now n)
(** the writer takes the contiguous chunks, and writes some bytes *)
| n_drain n :
    net_step n (drain_net n)
| n_write n k :
    net_step n (write_net k n)
(** every other critical section of the sender: timers, control packets, the other direction *)
| n_snd_quiet n a : quiet (snd_side n) a ->
    net_step n (mkNet a (rcv_side n) (hist n) (read n) (pend n) (acks n) (dropped n) (rdropped n))
| n_snd_rx n sn data now :
    net_step n (mkNet (rx_locked sn data now (snd_side n)) (rcv_side n) (hist n) (read n) (pend n) (acks n) (dropped n) (rdropped n))
| n_snd_drain n :
    net_step n (mkNet (drain_locked (snd_side n)).2 (rcv_side n) (hist n) (read n) (pend n) (acks n) (dropped n) (rdropped n))
| n_snd_write n l :
    net_step n (mkNet ((snd_side n) <| connWritten ::= (fun w => w ++ l) |>) (rcv_side n) (hist n) (read n) (pend n) (acks n) (dropped n) (rdropped n))
| n_snd_discard_rcv n a : discard_rcv (snd_side n) a ->
    net_step n (mkNet a (rcv_side n) (hist n) (read n) (pend n) (acks n) (dropped n) (rdropped n))
| n_snd_discard n a : discard (snd_side n) a ->
    net_step n (mkNet a (rcv_side n) (hist n) (read n) (pend n) (acks n) true (rdropped n))
(** every other critical section of the receiver *)
| n_rcv_quiet n a : quiet (rcv_side n) a ->
    net_step n (mkNet (snd_side n) a (hist n) (read n) (pend n) (acks n) (dropped n) (rdropped n))
| n_rcv_send n raw now :
    net_step n (mkNet (snd_side n) (send_locked raw now (rcv_side n)) (hist n) (read n) (pend n) (acks n) (dropped n) (rdropped n))
| n_rcv_ack n sn now :
    net_step n (mkNet (snd_side n) (ack_locked sn now (rcv_side n)) (hist n) (read n) (pend n) (acks n) (dropped n) (rdropped n))
| n_rcv_discard_rcv n a : discard_rcv (rcv_side n) a ->
    net_step n (mkNet (snd_side n) a (hist n) (read n) (pend n) (acks n) (dropped n) true)
| n_rcv_discard n a : discard (rcv_side n) a ->
    net_step n (mkNet (snd_side n) a (hist n) (read n) (pend n) (acks n) (dropped n) true).

Definition net_steps : net -> net -> Prop := rtc net_step.

Definition net_init (s r : ARQ) : net := mkNet s r [] 0 [] ∅ false false.

(** ** Sequence numbers and chunk indices *)

Lemma sq_u16 i : u16 (sq i).
Proof. apply u16_wrap16. Qed.

Lemma sq_succ i : wrap16 (sq i + 1) = sq (S i).
Proof. unfold sq, wrap16. rewrite Zplus_mod_idemp_l. f_equal. lia. Qed.

Lemma sq_ahead i j : Z.of_nat j <= Z.of_nat i < Z.of_nat j + 65536 -> wrap16 (sq i - sq j) = Z.of_nat i - Z.of_nat j.
Proof.
  intros H. unfold sq, wrap16. rewrite <- Zminus_mod. apply Z.mod_small. lia.
Qed.

Lemma sq_behind i j : Z.of_nat i < Z.of_nat j <= Z.of_nat i + 65536 ->
  wrap16 (sq i - sq j) = 65536 - (Z.of_nat j - Z.of_nat i).
Proof.
  intros H. unfold sq, wrap16. rewrite <- Zminus_mod. symmetry.
  apply (Z.mod_unique_pos _ _ (-1)); lia.
Qed.

Lemma sq_inj i j : sq i = sq j -> Z.abs (Z.of_nat i - Z.of_nat j) < 65536 -> i = j.
Proof.
  intros He Hd. destruct (decide (j <= i)%nat).
  - pose proof (sq_ahead i j ltac:(lia)) as H. rewrite He, Z.sub_diag in H. unfold wrap16 in H. rewrite Z.mod_0_l in H; lia.
  - pose proof (sq_ahead j i ltac:(lia)) as H. rewrite He, Z.sub_diag in H. unfold wrap16 in H. rewrite Z.mod_0_l in H; lia.
Qed.

(** ** Invariant *)

Record net_inv (n : net) : Prop := {
  ni_tun_s : tuning_ok (tun (snd_side n));
  ni_tun_r : tuning_ok (tun (rcv_side n));
  ni_space : window n + burst n < 32767;
  ni_sndNxt : sndNxt (snd_side n) = sq (length (hist n));
  ni_rcvNxt : rcvNxt (rcv_side n) = sq (read n);
  ni_read : (read n <= length (hist n))%nat;
  ni_rcvBuf : forall sn d, rcvBuf (rcv_side n) !! sn = Some d -> exists i,
    sn = sq i /\ hist n !! i = Some d /\ (read n <= i)%nat /\ Z.of_nat i <= Z.of_nat (read n) + window n;
  ni_sndBuf : forall sn it, sndBuf (snd_side n) !! sn = Some it -> exists i,
    sn = sq i /\ hist n !! i = Some (dData it);
  ni_acks : forall i, i ∈ acks n -> (i < length (hist n))%nat /\ Z.of_nat i <= Z.of_nat (read n) + window n;
  ni_unacked : dropped n = false -> forall i, (i < length (hist n))%nat -> i ∉ acks n ->
    is_Some (sndBuf (snd_side n) !! sq i) /\ Z.of_nat (length (hist n)) - Z.of_nat i <= 65536;
  ni_ahead : Z.of_nat (length (hist n)) <= Z.of_nat (read n) + window n + 1 + burst n;
  ni_kept : rdropped n = false -> forall i, i ∈ acks n -> (read n <= i)%nat -> is_Some (rcvBuf (rcv_side n) !! sq i);
  ni_written : connWritten (rcv_side n) ++ pend n = concat (take (read n) (hist n))
}.

Lemma net_init_inv s r : tuning_ok (tun s) -> tuning_ok (tun r) -> receiveWindowSize (tun r) + limit (tun s) < 32767 ->
  sndNxt s = 0 -> rcvNxt r = 0 -> sndBuf s = ∅ -> rcvBuf r = ∅ -> connWritten r = [] ->
  net_inv (net_init s r).
Proof.
  intros Ts Tr Hs H1 H2 H3 H4 H5. pose proof (t_recv_window _ Tr). pose proof (t_limit _ Ts).
  split; simpl; unfold window, burst; simpl; try done; try lia.
  - intros sn d. by rewrite H4, lookup_empty.
  - intros sn d. by rewrite H3, lookup_empty.
  - by rewrite H5.
Qed.

(** ** Sections that do not concern this direction *)

Record snd_same (a a' : ARQ) : Prop := {
  ss_tun : tun a' = tun a;
  ss_nxt : sndNxt a' = sndNxt a;
  ss_buf : dData <$> sndBuf a' = dData <$> sndBuf a
}.

Record rcv_same (a a' : ARQ) : Prop := {
  rs_tun : tun a' = tun a;
  rs_nxt : rcvNxt a' = rcvNxt a;
  rs_buf : rcvBuf a' = rcvBuf a;
  rs_written : connWritten a' = connWritten a
}.

(** What a discarding section may lose. *)
Record snd_less (a a' : ARQ) : Prop := {
  sl_tun : tun a' = tun a;
  sl_nxt : sndNxt a' = sndNxt a;
  sl_buf : forall sn it, sndBuf a' !! sn = Some it -> sndBuf a !! sn = Some it
}.

Record rcv_less (a a' : ARQ) : Prop := {
  rl_tun : tun a' = tun a;
  rl_nxt : rcvNxt a' = rcvNxt a;
  rl_buf : forall sn d, rcvBuf a' !! sn = Some d -> rcvBuf a !! sn = Some d;
  rl_written : connWritten a' = connWritten a
}.

Lemma same_packets_data t m m' : same_packets t m m' -> dData <$> m' = dData <$> m.
Proof.
  intros H. apply map_eq. intros sn. rewrite !lookup_fmap. specialize (H sn).
  destruct H as [i i' [Hd _]|]; simpl; congruence.
Qed.

Lemma quiet_snd_same a a' : tuning_ok (tun a) -> quiet a a' -> snd_same a a'.
Proof.
  intros T H. pose proof (quiet_undisturbed a a' H) as U. pose proof (quiet_sndBuf a a' T H) as P.
  split; [apply U|apply U|by eapply same_packets_data].
Qed.

Lemma quiet_rcv_same a a' : quiet a a' -> rcv_same a a'.
Proof. intros H. pose proof (quiet_undisturbed a a' H) as U. by destruct U. Qed.

Lemma rx_snd_same a sn data now : snd_same a (rx_locked sn data now a).
Proof.
  unfold rx_locked, decPendingInbound. destruct (rx_decide _ _) as [| | |[]]; case_if; by split.
Qed.

Lemma drain_snd_same a : snd_same a (drain_locked a).2.
Proof.
  unfold drain_locked. destruct (take_ready_shape (S (size (rcvBuf a))) a) as (b & n & Hs).
  destruct (take_ready _ a). simpl in Hs. subst. by split.
Qed.

Lemma discard_rcv_snd_same a a' : discard_rcv a a' -> snd_same a a'.
Proof. destruct 1; split; sec; done. Qed.

Lemma ack_rcv_same a sn now : rcv_same a (ack_locked sn now a).
Proof. unfold ack_locked. simpl. destruct (sndBuf a !! sn); [|by split]. split; sec; done. Qed.

Ltac less := simpl; try done; try (intros ? ?; rewrite lookup_empty; done).

Lemma discard_less a a' : discard a a' -> snd_less a a' /\ rcv_less a a'.
Proof.
  destruct 1 as [a|a|a reason seq now Hc Hv|a a' reason H|a Hv|a Hv]; [| | | unfold finalizeClose_locked in H;
    case_if; [done|]; injection H as <- | |];
    split; split; autounfold with arq; repeat case_if; less.
Qed.

Lemma discard_rcv_less a a' : discard_rcv a a' -> rcv_less a a'.
Proof. destruct 1; split; sec; less. Qed.

Lemma net_snd_same n a : snd_same (snd_side n) a -> net_inv n ->
  net_inv (mkNet a (rcv_side n) (hist n) (read n) (pend n) (acks n) (dropped n) (rdropped n)).
Proof.
  intros [Ht Hn Hb] []. split; simpl; unfold window, burst in *; simpl; rewrite ?Ht, ?Hn; try done.
  - intros sn it Hi. assert (Hd : (dData <$> sndBuf a) !! sn = Some (dData it)) by (rewrite lookup_fmap, Hi; done).
    rewrite Hb, lookup_fmap in Hd. destruct (sndBuf (snd_side n) !! sn) as [it'|] eqn:E; [|done]. simpl in Hd.
    destruct (ni_sndBuf0 sn it' E) as (i & ? & ?). exists i. split; [done|congruence].
  - intros Hd i Hi Ha. destruct (ni_unacked0 Hd i Hi Ha) as [Hs ?]. split; [|done].
    rewrite <- (fmap_is_Some dData), <- lookup_fmap, Hb, lookup_fmap, fmap_is_Some. done.
Qed.

Lemma net_rcv_same n a : rcv_same (rcv_side n) a -> net_inv n ->
  net_inv (mkNet (snd_side n) a (hist n) (read n) (pend n) (acks n) (dropped n) (rdropped n)).
Proof.
  intros [Ht Hn Hb Hw] []. split; simpl; unfold window, burst in *; simpl; rewrite ?Ht, ?Hn, ?Hb, ?Hw; done.
Qed.

Lemma net_snd_less n a : snd_less (snd_side n) a -> net_inv n ->
  net_inv (mkNet a (rcv_side n) (hist n) (read n) (pend n) (acks n) true (rdropped n)).
Proof.
  intros [Ht Hn Hb] []. split; simpl; unfold window, burst in *; simpl; rewrite ?Ht, ?Hn; try done.
  intros sn it Hi. apply (ni_sndBuf0 sn it). auto.
Qed.

Lemma net_rcv_less n a : rcv_less (rcv_side n) a -> net_inv n ->
  net_inv (mkNet (snd_side n) a (hist n) (read n) (pend n) (acks n) (dropped n) true).
Proof.
  intros [Ht Hn Hb Hw] []. split; simpl; unfold window, burst in *; simpl; rewrite ?Ht, ?Hn, ?Hw; try done.
  intros sn d Hi. apply (ni_rcvBuf0 sn d). auto.
Qed.

(** ** Sections of this direction *)

Lemma distinct_keys {A} (m : gmap Z A) (l : list Z) :
  NoDup l -> (forall k, k ∈ l -> is_Some (m !! k)) -> (length l <= size m)%nat.
Proof.
  intros Hl Hk. rewrite <- (size_list_to_set (C := gset Z) l Hl), <- (size_dom (D := gset Z)).
  apply subseteq_size. intros k Hin. apply elem_of_dom, Hk. set_solver.
Qed.

(** The chunks beyond the receive window cannot be acknowledged, so they fill the
    send buffer. *)
Lemma beyond_window n : net_inv n -> dropped n = false ->
  Z.of_nat (length (hist n)) - (Z.of_nat (read n) + window n + 1) <= Z.of_nat (size (sndBuf (snd_side n))).
Proof.
  intros I Hd. pose proof (ni_space _ I). pose proof (ni_ahead _ I). pose proof (t_recv_window _ (ni_tun_r _ I)).
  pose proof (t_limit _ (ni_tun_s _ I)). unfold window, burst in *.
  set (w := receiveWindowSize (tun (rcv_side n))) in *. set (lo := Z.to_nat (Z.of_nat (read n) + w + 1)).
  destruct (decide (length (hist n) <= lo)%nat) as [|Hlo]; [lia|].
  set (cnt := (length (hist n) - lo)%nat).
  assert (cnt <= size (sndBuf (snd_side n)))%nat; [|lia].
  rewrite <- (length_seq cnt lo), <- (length_fmap sq). apply distinct_keys.
  - apply NoDup_fmap_2_strong; [|apply NoDup_seq]. intros i j Hi Hj He. apply elem_of_seq in Hi, Hj.
    apply sq_inj; [done|]. lia.
  - intros k Hk. apply list_elem_of_fmap in Hk as (i & -> & Hi). apply elem_of_seq in Hi.
    apply (ni_unacked _ I Hd); [lia|]. intros Ha. destruct (ni_acks _ I i Ha) as [_ Hx]. unfold window in Hx. fold w in Hx. lia.
Qed.

Lemma net_send n raw now : net_inv n ->
  Z.of_nat (size (sndBuf (snd_side n))) < burst n ->
  sndBuf (snd_side n) !! sndNxt (snd_side n) = None ->
  (dropped n = true -> Z.of_nat (length (hist n)) - Z.of_nat (read n) <= window n + burst n) ->
  net_inv (send_net raw now n).
Proof.
  intros I Hsz Hnone Hdr. pose proof (beyond_window n I) as Hb. destruct I.
  split; simpl; unfold window, burst in *; simpl; rewrite ?length_app; simpl; try done.
  - rewrite ni_sndNxt0, sq_succ. f_equal. lia.
  - lia.
  - intros sn d Hd. destruct (ni_rcvBuf0 sn d Hd) as (i & ? & Hi & ?). exists i. split; [done|]. split; [|done].
    by apply lookup_app_l_Some.
  - intros sn it. rewrite lookup_insert_Some. intros [[<- <-]|[_ Hi]].
    + exists (length (hist n)). split; [done|]. simpl. rewrite lookup_app_r, Nat.sub_diag by lia. done.
    + destruct (ni_sndBuf0 sn it Hi) as (i & ? & ?). exists i. split; [done|]. by apply lookup_app_l_Some.
  - intros i Hi. destruct (ni_acks0 i Hi). split; lia.
  - intros Hd i Hi Ha. destruct (decide (i = length (hist n))) as [->|Hne].
    + rewrite ni_sndNxt0, lookup_insert_eq. split; [by eexists|lia].
    + destruct (ni_unacked0 Hd i) as [[it Hit] Hle]; [lia|done|].
      assert (sq i <> sndNxt (snd_side n)) by congruence.
      split; [rewrite lookup_insert_ne by done; by eexists|].
      destruct (decide (Z.of_nat (length (hist n)) - Z.of_nat i = 65536)) as [He|]; [|lia].
      exfalso. apply H. rewrite ni_sndNxt0. unfold sq, wrap16.
      replace (Z.of_nat (length (hist n))) with (Z.of_nat i + 1 * 65536) by lia. by rewrite Z_mod_plus_full.
  - destruct (dropped n); [specialize (Hdr eq_refl)|specialize (Hb eq_refl)]; lia.
  - rewrite take_app_le by done. done.
Qed.

Lemma rx_kept n i : net_inv n -> (i < length (hist n))%nat -> Z.of_nat (read n) - Z.of_nat i <= 32768 ->
  match rx_decide (sq i) (decPendingInbound (rcv_side n)) with
  | RxOld => (i < read n)%nat
  | RxKeep b => (read n <= i)%nat /\ Z.of_nat i <= Z.of_nat (read n) + window n /\
                b = bool_decide (rcvBuf (rcv_side n) !! sq i = None)
  | RxWriterGone | RxDrop => True
  end.
Proof.
  intros I Hi Hage. pose proof (ni_space _ I). pose proof (ni_ahead _ I). pose proof (ni_rcvNxt _ I) as Hn.
  assert (Hsame : tun (decPendingInbound (rcv_side n)) = tun (rcv_side n) /\
    rcvNxt (decPendingInbound (rcv_side n)) = rcvNxt (rcv_side n) /\
    rcvBuf (decPendingInbound (rcv_side n)) = rcvBuf (rcv_side n)) by (unfold decPendingInbound; by case_if).
  destruct Hsame as (Et & En & Eb). unfold rx_decide. case_if; [done|]. rewrite Et, En, Eb, Hn. unfold window, burst in *.
  destruct (decide (read n <= i)%nat).
  - rewrite sq_ahead by lia. case_if; zbool; [lia|]. case_if; [done|]. zbool.
    destruct (rcvBuf (rcv_side n) !! sq i); cbn [negb andb]; [|case_if; [done|]]; (split; [done|]; split; [lia|done]).
  - rewrite sq_behind by lia. case_if; zbool; lia.
Qed.

Lemma net_deliver n i data now : net_inv n -> hist n !! i = Some data -> Z.of_nat (read n) - Z.of_nat i <= 32768 ->
  net_inv (deliver_net i data now n).
Proof.
  intros I Hi Hage. pose proof (lookup_lt_Some _ _ _ Hi) as Hlt. pose proof (rx_kept n i I Hlt Hage) as Hk.
  unfold deliver_net, rx_acks, rx_locked. set (b := decPendingInbound (rcv_side n)) in *.
  assert (Hb : rcv_same (rcv_side n) b) by (unfold b, decPendingInbound; case_if; by split).
  pose proof (t_recv_window _ (ni_tun_r _ I)) as Hw0. unfold window in *.
  set (n' := mkNet (snd_side n) b (hist n) (read n) (pend n) (acks n) (dropped n) (rdropped n)).
  assert (I' : net_inv n') by (by apply net_rcv_same). clear I. destruct Hb as [Et En Eb Ew].
  destruct I'. simpl in *. unfold window, burst in *. simpl in *.
  assert (Hacks : forall j, j ∈ ({[i]} ∪ acks n : gset nat) -> j = i \/ j ∈ acks n) by set_solver.
  destruct (rx_decide (sq i) b) as [| | |new].
  - split; simpl; unfold window, burst; simpl; done.
  - split; simpl; unfold window, burst; simpl; try done.
    + intros j [->|Hj]%Hacks; [split; [done|]; rewrite Et; lia|by apply ni_acks0].
    + intros Hd j Hj Ha. apply ni_unacked0; [done..|set_solver].
    + intros Hd j [->|Hj]%Hacks Hr; [lia|by apply ni_kept0].
  - split; simpl; unfold window, burst; simpl; done.
  - destruct Hk as (Hr & Hw & Hnew).
    assert (Hkeep : forall m, (forall k d, m !! k = Some d -> b.(rcvBuf) !! k = Some d \/ k = sq i /\ d = data) ->
      (forall k, is_Some (rcvBuf b !! k) -> is_Some (m !! k)) -> is_Some (m !! sq i) ->
      net_inv (mkNet (snd_side n) (b <| lastActivity := now |> <| rcvBuf := m |>) (hist n) (read n) (pend n)
        ({[i]} ∪ acks n) (dropped n) (rdropped n))).
    { intros m Hm Hmono Hmi. split; simpl; unfold window, burst; simpl; try done.
      - intros k d Hkd. destruct (Hm k d Hkd) as [?|[-> ->]]; [by apply ni_rcvBuf0|].
        exists i. rewrite Et. done.
      - intros j [->|Hj]%Hacks; [split; [done|]; rewrite Et; lia|by apply ni_acks0].
      - intros Hd j Hj Ha. apply ni_unacked0; [done..|set_solver].
      - intros Hd j [->|Hj]%Hacks Hrj; [done|]. apply Hmono. by apply ni_kept0. }
    destruct new.
    + apply (Hkeep (<[sq i := data]> (rcvBuf b))).
      * intros k d. rewrite lookup_insert_Some. naive_solver.
      * intros k. rewrite lookup_insert_is_Some. destruct (decide (sq i = k)); [by left|by right].
      * rewrite lookup_insert_eq. by eexists.
    + apply (Hkeep (rcvBuf b)); [by left|done|]. symmetry in Hnew. apply bool_decide_eq_false in Hnew.
      rewrite Eb. destruct (rcvBuf (rcv_side n) !! sq i); [by eexists|done].
Qed.

Lemma net_final_ack n i : net_inv n -> read n = S i ->
  net_inv (reack_net i n).
Proof.
  intros I Hr. pose proof (t_recv_window _ (ni_tun_r _ I)). destruct I.
  assert (Hacks : forall j, j ∈ ({[i]} ∪ acks n : gset nat) -> j = i \/ j ∈ acks n) by set_solver.
  split; simpl; unfold window, burst in *; simpl; try done.
  - intros j [->|Hj]%Hacks; [lia|by apply ni_acks0].
  - intros Hd j Hj Ha. apply ni_unacked0; [done..|set_solver].
  - intros Hd j [->|Hj]%Hacks Hrj; [lia|by apply ni_kept0].
Qed.

Lemma net_ack n i now : net_inv n -> i ∈ acks n -> Z.of_nat (length (hist n)) - Z.of_nat i < 65536 ->
  net_inv (ack_net i now n).
Proof.
  intros I Hi Hage.
  assert (Ha : forall k it, sndBuf (ack_locked (sq i) now (snd_side n)) !! k = Some it -> sndBuf (snd_side n) !! k = Some it).
  { intros k it. unfold ack_locked. simpl. destruct (sndBuf (snd_side n) !! sq i); [|done].
    sec; rewrite lookup_delete_Some; by intros [_ ?]. }
  assert (Hk : forall k, k <> sq i -> sndBuf (ack_locked (sq i) now (snd_side n)) !! k = sndBuf (snd_side n) !! k).
  { intros k Hne. unfold ack_locked. simpl. destruct (sndBuf (snd_side n) !! sq i); [|done].
    sec; by rewrite lookup_delete_ne. }
  assert (Ht : tun (ack_locked (sq i) now (snd_side n)) = tun (snd_side n)) by apply section_tun, s_ack.
  assert (Hn : sndNxt (ack_locked (sq i) now (snd_side n)) = sndNxt (snd_side n)).
  { unfold ack_locked. simpl. destruct (sndBuf (snd_side n) !! sq i); [|done]. sec; done. }
  destruct I. split; simpl; unfold window, burst in *; simpl; rewrite ?Ht, ?Hn; try done.
  - intros sn it Hit. by apply ni_sndBuf0, Ha.
  - intros Hd j Hj Hnot. destruct (ni_unacked0 Hd j Hj Hnot) as [Hs Hle]. split; [|done].
    rewrite Hk; [done|]. intros He. apply Hnot. destruct (ni_acks0 i Hi) as [Hlt _].
    assert (j = i) as -> by (apply sq_inj; [done|lia]). done.
Qed.

(** The receive buffer holds chunks of [h] from [r] on, at most [w] ahead. *)
Definition buffered (h : list bytes) (w : Z) (r : nat) (m : gmap Z bytes) : Prop := forall sn d, m !! sn = Some d ->
  exists i, sn = sq i /\ h !! i = Some d /\ (r <= i)%nat /\ Z.of_nat i <= Z.of_nat r + w.

Lemma take_ready_hist h w fuel : w < 32767 -> forall a r,
  rcvNxt a = sq r -> buffered h w r (rcvBuf a) -> (r <= length h)%nat ->
  let '(l, a') := take_ready fuel a in
  l = take (length l) (drop r h) /\ (r + length l <= length h)%nat /\ rcvNxt a' = sq (r + length l) /\
  buffered h w (r + length l) (rcvBuf a') /\
  (forall j, (r + length l <= j)%nat -> Z.of_nat j <= Z.of_nat r + w -> rcvBuf a' !! sq j = rcvBuf a !! sq j).
Proof.
  intros Hw. induction fuel as [|fuel IH]; intros a r Hn Hb Hr; simpl; [by rewrite Nat.add_0_r|].
  destruct (rcvBuf a !! rcvNxt a) as [d|] eqn:Hd; [|simpl; by rewrite Nat.add_0_r].
  destruct (Hb _ _ Hd) as (i & Hsn & Hi & Hge & Hle).
  assert (i = r) as -> by (apply sq_inj; [congruence|lia]).
  pose proof (lookup_lt_Some _ _ _ Hi).
  match goal with |- context [take_ready fuel ?x] => specialize (IH x (S r)); destruct (take_ready fuel x) as [l a'] end.
  destruct IH as (Hl & Hlen & Hn' & Hb' & Hk); simpl.
  - by rewrite Hn, sq_succ.
  - intros sn d'. rewrite lookup_delete_Some. intros [Hne Hs]. destruct (Hb sn d' Hs) as (j & -> & ? & ? & ?).
    exists j. assert (j <> r) by (intros ->; congruence). repeat split; [done|lia|lia].
  - lia.
  - rewrite Nat.add_succ_r. split; [|split; [lia|split; [done|split; [done|]]]].
    + rewrite (drop_S h d r Hi). simpl. f_equal. done.
    + intros j Hj Hjw. rewrite Hk by lia. simpl. apply lookup_delete_ne. rewrite Hn.
      intros He. assert (r = j) by (apply sq_inj; [done|lia]). lia.
Qed.

Lemma net_drain n : net_inv n ->
  net_inv (drain_net n).
Proof.
  intros I. unfold drain_net, drain_locked. set (fuel := S (size (rcvBuf (rcv_side n)))).
  pose proof (t_limit _ (ni_tun_s _ I)). pose proof (ni_space _ I).
  pose proof (take_ready_hist (hist n) (window n) fuel) as H1. specialize (H1 ltac:(unfold window, burst in *; lia)).
  specialize (H1 (rcv_side n) (read n) (ni_rcvNxt _ I) (ni_rcvBuf _ I) (ni_read _ I)).
  destruct (take_ready_shape fuel (rcv_side n)) as (b & m & Hs).
  destruct (take_ready fuel (rcv_side n)) as [l a]. simpl in Hs. destruct H1 as (Hl & Hlen & Hnx & Hb & Hk).
  destruct I. split; simpl; unfold window, burst in *; subst a; simpl in *; try done.
  - intros i Hi. destruct (ni_acks0 i Hi). split; lia.
  - lia.
  - intros Hd i Hi Hr. destruct (ni_acks0 i Hi). rewrite Hk by lia. apply ni_kept0; [done..|lia].
  - rewrite app_assoc, ni_written0, <- take_take_drop, concat_app. f_equal. f_equal. done.
Qed.

Lemma net_write n k : net_inv n ->
  net_inv (write_net k n).
Proof.
  intros []. split; simpl; unfold window, burst in *; simpl; try done.
  rewrite <- app_assoc, take_drop. done.
Qed.

Lemma net_step_inv n n' : net_step n n' -> net_inv n -> net_inv n'.
Proof.
  intros H I. destruct H.
  - by apply net_send.
  - by apply net_deliver.
  - by apply net_final_ack.
  - by apply net_ack.
  - by apply net_drain.
  - by apply net_write.
  - apply net_snd_same; [|done]. apply quiet_snd_same; [apply I|done].
  - apply net_snd_same; [|done]. apply rx_snd_same.
  - apply net_snd_same; [|done]. apply drain_snd_same.
  - apply net_snd_same; [|done]. by split.
  - apply net_snd_same; [|done]. by apply discard_rcv_snd_same.
  - apply net_snd_less; [|done]. by apply discard_less.
  - apply net_rcv_same; [|done]. by apply quiet_rcv_same.
  - apply net_rcv_same; [|done]. by split.
  - apply net_rcv_same; [|done]. apply ack_rcv_same.
  - apply net_rcv_less; [|done]. by apply discard_rcv_less.
  - apply net_rcv_less; [|done]. by apply discard_less.
Qed.

Lemma net_steps_inv n n' : net_steps n n' -> net_inv n -> net_inv n'.
Proof. induction 1 as [|n1 n2 n3 H _ IH]; [done|]. intros I. apply IH. by eapply net_step_inv. Qed.

(** ** The writer's turn takes everything that is in order *)

(** One turn more than the size of the buffer is enough: the loop stops because the
    next chunk is missing. *)
Lemma take_ready_stops fuel : forall a, (size (rcvBuf a) < fuel)%nat ->
  let a' := (take_ready fuel a).2 in rcvBuf a' !! rcvNxt a' = None.
Proof.
  induction fuel as [|fuel IH]; intros a Hs; [lia|]. simpl. destruct (rcvBuf a !! rcvNxt a) as [d|] eqn:Hd; [|done].
  match goal with |- context [take_ready fuel ?x] => specialize (IH x); destruct (take_ready fuel x) as [l a'] end.
  apply IH. simpl. rewrite map_size_delete_Some by (by eexists).
  assert (size (rcvBuf a) <> 0%nat); [|lia]. intros He%map_size_empty_inv. rewrite He, lookup_empty in Hd. done.
Qed.

Lemma drained_all n : net_inv n -> dropped n = false -> rdropped n = false -> sndBuf (snd_side n) = ∅ ->
  connWritten (rcv_side n) ++ pend n ++ concat (drain_locked (rcv_side n)).1 = concat (hist n).
Proof.
  intros I Hd Hrd Hs. rewrite app_assoc, (ni_written _ I).
  assert (Hacked : forall i, (i < length (hist n))%nat -> i ∈ acks n).
  { intros i Hi. destruct (decide (i ∈ acks n)); [done|]. destruct (ni_unacked _ I Hd i Hi n0) as [[it Hit] _].
    by rewrite Hs, lookup_empty in Hit. }
  unfold drain_locked. set (fuel := S (size (rcvBuf (rcv_side n)))).
  pose proof (t_limit _ (ni_tun_s _ I)). pose proof (ni_space _ I).
  pose proof (take_ready_stops fuel (rcv_side n) ltac:(unfold fuel; lia)) as Hstop.
  pose proof (take_ready_hist (hist n) (window n) fuel) as H1. specialize (H1 ltac:(unfold window, burst in *; lia)).
  specialize (H1 (rcv_side n) (read n) (ni_rcvNxt _ I) (ni_rcvBuf _ I) (ni_read _ I)).
  destruct (take_ready fuel (rcv_side n)) as [l a]. cbn [fst snd] in *. destruct H1 as (Hl & Hlen & Hnx & Hb & Hk).
  destruct (decide (read n + length l = length (hist n))%nat) as [He|Hne].
  - rewrite <- concat_app. f_equal. rewrite Hl, (take_ge (drop _ _)) by (rewrite length_drop; lia). apply take_drop.
  - exfalso. set (j := (read n + length l)%nat) in *.
    pose proof (Hacked j ltac:(lia)) as Hj. destruct (ni_acks _ I j Hj) as [_ Hjw].
    destruct (ni_kept _ I Hrd j Hj ltac:(lia)) as [d Hdd]. rewrite Hnx, Hk, Hdd in Hstop; [done|lia|lia].
Qed.

(** ** Properties *)

(** Two fresh streams, as the two ends create them. *)
Definition fresh_net (streamID sessionID mtu now : Z) (cs cr : Config) : net :=
  net_init (NewARQ streamID sessionID true mtu cs now) (NewARQ streamID sessionID true mtu cr now).

Lemma NewARQ_sizes streamID sessionID conn mtu cfg now : WindowSize cfg <= 8000 ->
  let t := tun (NewARQ streamID sessionID conn mtu cfg now) in
  receiveWindowSize t <= 16000 /\ limit t <= 6400.
Proof.
  intros Hw. simpl. set (w := Z.max (WindowSize cfg) 300). rewrite (four_fifths w) by lia.
  assert (w * 8 / 10 <= 6400) by (apply Z.div_le_upper_bound; lia). lia.
Qed.

Lemma fresh_net_inv streamID sessionID mtu now cs cr n :
  WindowSize cs <= 8000 -> WindowSize cr <= 8000 -> timing_ok cs = true -> timing_ok cr = true ->
  net_steps (fresh_net streamID sessionID mtu now cs cr) n -> net_inv n.
Proof.
  intros Hs Hr Ts Tr H. apply (net_steps_inv _ _ H). clear H.
  destruct (NewARQ_sizes streamID sessionID true mtu cs now Hs) as [_ ?].
  destruct (NewARQ_sizes streamID sessionID true mtu cr now Hr) as [? _].
  apply net_init_inv; try done; [by apply NewARQ_tuning..|lia].
Qed.

(** C1: In-order delivery.  Two fresh streams whose windows are at most the 8000 the
    configurations allow, a network that loses, duplicates, delays and reorders (data
    that arrives at most 32768 chunks late, acknowledgements less than 65536), and
    any interleaving of the critical sections of both ends, resets and closes
    included: what the receiver has written to its local connection is always a
    prefix of what the sender has read from its own, nothing missing, nothing
    repeated, nothing out of order. *)
Theorem arq_in_order_delivery streamID sessionID mtu now cs cr n :
  WindowSize cs <= 8000 -> WindowSize cr <= 8000 -> timing_ok cs = true -> timing_ok cr = true ->
  net_steps (fresh_net streamID sessionID mtu now cs cr) n ->
  connWritten (rcv_side n) `prefix_of` concat (hist n).
Proof.
  intros Hs Hr Ts Tr H. pose proof (fresh_net_inv _ _ _ _ _ _ _ Hs Hr Ts Tr H) as I.
  rewrite <- (take_drop (read n) (hist n)), concat_app, <- (ni_written _ I), <- app_assoc. by eexists.
Qed.

(** C2: Lossless close.  In the same system, as long as neither end has discarded its
    buffer: once the send buffer is empty, what is written, what the writer holds and
    what its next turn takes off the receive buffer are together exactly what was
    sent.  The send buffer is empty whenever [settleTerminalDrain] ends a graceful
    drain, so a stream closed with [AfterDrain] announces its end only after the
    peer has everything. *)
Theorem arq_lossless_close streamID sessionID mtu now cs cr n t :
  WindowSize cs <= 8000 -> WindowSize cr <= 8000 -> timing_ok cs = true -> timing_ok cr = true ->
  net_steps (fresh_net streamID sessionID mtu now cs cr) n -> dropped n = false -> rdropped n = false ->
  (sndBuf (snd_side n) = ∅ \/
   exists packetType reason, settle_decision t (snd_side n) = Some (packetType, reason) /\ packetType <> PACKET_STREAM_RST) ->
  connWritten (rcv_side n) ++ pend n ++ concat (drain_locked (rcv_side n)).1 = concat (hist n).
Proof.
  intros Hs Hr Ts Tr H Hd Hrd He. pose proof (fresh_net_inv _ _ _ _ _ _ _ Hs Hr Ts Tr H) as I.
  apply (drained_all n I Hd Hrd).
  destruct He as [He|(pt & reason & Hdec & Hpt)]; [done|]. unfold settle_decision in Hdec.
  case_if; [done|]. case_if; [by apply bool_decide_eq_true in Heqb0|]. case_if; [|done]. congruence.
Qed.

(** A run: two chunks are sent and arrive in the wrong order, the first twice. *)
Definition sample_cfg : Config := default_client_config false false 0.
Definition sample0 : net := fresh_net 1 2 1200 1 sample_cfg sample_cfg.
Definition sample1 : net := send_net [3] 11 (send_net [1; 2] 10 sample0).
Definition sample2 : net := deliver_net 0 [1; 2] 22 (deliver_net 0 [1; 2] 21 (deliver_net 1 [3] 20 sample1)).
Definition sample3 : net := ack_net 0 31 (ack_net 1 30 sample2).
Definition sample4 : net := write_net 2 (drain_net sample3).

Lemma sample_run : net_steps sample0 sample4.
Proof.
  eapply rtc_l; [apply (n_send sample0 [1; 2] 10); vm_compute; congruence|].
  eapply rtc_l; [apply (n_send _ [3] 11); vm_compute; congruence|].
  eapply rtc_l; [apply (n_deliver sample1 1 [3] 20); vm_compute; congruence|].
  eapply rtc_l; [apply (n_deliver _ 0 [1; 2] 21); vm_compute; congruence|].
  eapply rtc_l; [apply (n_deliver _ 0 [1; 2] 22); vm_compute; congruence|].
  eapply rtc_l; [apply (n_ack sample2 1 30); vm_compute; reflexivity|].
  eapply rtc_l; [apply (n_ack _ 0 31); vm_compute; reflexivity|].
  eapply rtc_l; [apply (n_drain sample3)|].
  eapply rtc_l; [apply (n_write _ 2)|]. apply rtc_refl.
Qed.

Lemma arq_in_order_delivery_witness :
  net_steps sample0 sample4 /\ connWritten (rcv_side sample4) = [1; 2] /\
  connWritten (rcv_side sample4) `prefix_of` concat (hist sample4).
Proof.
  split; [exact sample_run|]. split; [vm_compute; reflexivity|].
  apply (arq_in_order_delivery 1 2 1200 1 sample_cfg sample_cfg);
    [vm_compute; congruence|vm_compute; congruence|vm_compute; reflexivity|vm_compute; reflexivity|exact sample_run].
Defined.

Lemma arq_lossless_close_witness :
  pend sample4 = [3] /\
  connWritten (rcv_side sample4) ++ pend sample4 ++ concat (drain_locked (rcv_side sample4)).1 = concat (hist sample4).
Proof.
  split; [vm_compute; reflexivity|].
  apply (arq_lossless_close 1 2 1200 1 sample_cfg sample_cfg sample4 40);
    [vm_compute; congruence|vm_compute; congruence|vm_compute; reflexivity|vm_compute; reflexivity|exact sample_run
    |vm_compute; reflexivity|vm_compute; reflexivity|left; vm_compute; reflexivity].
Defined.
