(* ===== verification/ArqTerm.v ===== *)
(** * ARQ stream: terminal states end (masterdns arq)

    With a silent peer a stream does not stay forever in a terminal state.  Two
    timer turns, each later than the deadline in force, close a stream that waits for
    the acknowledgement of a terminal packet or that drains unsent data. *)

From stdpp Require Import base tactics list gmap strings.
From Stdlib Require Import ZArith Lia Floats.SpecFloat.
From S2P Require Import Prelude Enums GoFloat ArqState Arq TxQueue ArqData ArqControl ArqInv ArqEvents.

(** The fields the terminal state machine looks at. *)
Record term_same (a a' : ARQ) : Prop := {
  e_tun : tun a' = tun a;
  e_closed : closed a' = closed a;
  e_virtual : isVirtual a' = isVirtual a;
  e_waiting : waitingAck a' = waitingAck a;
  e_for : waitingAckFor a' = waitingAckFor a;
  e_deadline : ackWaitDeadline a' = ackWaitDeadline a;
  e_deferred : deferredClose a' = deferredClose a;
  e_ddeadline : deferredDeadline a' = deferredDeadline a;
  e_dpacket : deferredPacket a' = deferredPacket a;
  e_rstSent : rstSent a' = rstSent a;
  e_rstReceived : rstReceived a' = rstReceived a;
  e_sndBuf : dom (sndBuf a') = dom (sndBuf a)
}.

#[export] Instance term_same_refl : Reflexive term_same.
Proof. by intros a. Qed.

#[export] Instance term_same_trans : Transitive term_same.
Proof. intros a b c [] []. split; congruence. Qed.

(** A reset was sent and its acknowledgement is awaited until [d], or the stream is
    closed. *)
Definition rst_wait (d : Z) (a : ARQ) : Prop :=
  closed a = true \/
  (closed a = false /\ isVirtual a = false /\ deferredClose a = false /\
   waitingAck a = true /\ waitingAckFor a = PACKET_STREAM_RST /\ ackWaitDeadline a = d).

Lemma rst_wait_same d a a' : term_same a a' -> rst_wait d a -> rst_wait d a'.
Proof. intros []. unfold rst_wait. rewrite e_closed0, e_virtual0, e_deferred0, e_waiting0, e_for0, e_deadline0. done. Qed.

Section terminal.
Context {W : Type} `{PE : PacketEnqueuer W}.
Abbreviation stream := (ARQ * W)%type.
Implicit Types s : stream.

Lemma send_nacks_same missing now : forall s, term_same s.1 (send_nacks missing now (fun a => a) s).1.
Proof.
  induction missing as [|sn missing IH]; intros s; cbn [send_nacks]; [done|].
  assert (H1 : term_same s.1 (shouldSendDataNack sn now s.1).2) by (unfold shouldSendDataNack; sec; by split).
  destruct (shouldSendDataNack sn now s.1) as [should a]. cbn [snd] in H1. etrans; [exact H1|].
  case_if; [apply (IH (a, s.2))|]. pose proof (push_state (nack_request sn) (a, s.2)) as Hp.
  destruct (push _ _) as [ok s']. cbn [fst snd] in Hp. etrans; [|apply IH]. rewrite <- Hp.
  destruct ok; [|done]. by split.
Qed.

Lemma watchdogs_same now s : term_same s.1 (runFinalAckWatchdog now (runGapRecoveryWatchdog now s)).1.
Proof.
  transitivity (runGapRecoveryWatchdog now s).1.
  - unfold runGapRecoveryWatchdog. repeat (case_if; [done|]).
    etrans; [|apply send_nacks_same]. by split.
  - unfold runFinalAckWatchdog. case_if; [done|]. rewrite push_state. by split.
Qed.

Lemma finalizeClose_closed reason s : isVirtual s.1 = false -> closed (finalizeClose reason s).1 = true.
Proof.
  intros Hv. unfold finalizeClose, finalizeClose_locked. rewrite Hv, orb_false_r.
  destruct (closed s.1) eqn:Hc; [done|]. simpl. autounfold with arq. repeat case_if; done.
Qed.

(** A stream that waits for the acknowledgement of its reset ignores further
    requests to reset it. *)
Lemma rst_wait_Close d reason now s : rst_wait d s.1 -> rst_wait d (Close reason send_rst now s).1.
Proof.
  unfold Close, Close_with. intros H. simpl. destruct (isVirtual s.1); [done|]. simpl.
  destruct H as [Hc|(Hc & Hv & Hd & Hw & Hf & Hdl)]; rewrite Hc; [by left|].
  unfold alreadyResetting. rewrite Hw, Hf, Hd. simpl. rewrite !orb_true_r. simpl. by right.
Qed.

Lemma rst_wait_finalize d reason s : rst_wait d s.1 -> rst_wait d (finalizeClose reason s).1.
Proof.
  intros [Hc|(Hc & Hv & _)]; left; [|by apply finalizeClose_closed].
  unfold finalizeClose, finalizeClose_locked. by rewrite Hc.
Qed.

Lemma rst_wait_expiry d pt reason now s : rst_wait d s.1 -> rst_wait d (handleTrackedPacketTTLExpiry pt reason now s).1.
Proof. unfold handleTrackedPacketTTLExpiry. case_if; [apply rst_wait_finalize|apply rst_wait_Close]. Qed.

Lemma send_jobs_same jobs cap draining now : forall kinds s, term_same s.1 (send_jobs jobs kinds now cap draining s).1.
Proof.
  induction jobs as [|j jobs IH]; intros [|kind kinds] s; try done. cbn [send_jobs].
  match goal with |- context [push ?r s] => pose proof (push_state r s) as Hp; destruct (push r s) as [ok s1] end.
  cbn [snd] in Hp. rewrite <- Hp. etrans; [|apply IH]. destruct ok.
  - unfold upd, retransmitted. split; simpl; try done. apply dom_alter_L.
  - unfold upd; cbn [fst]. split; sec; done.
Qed.

Lemma rst_wait_control d order now : forall s, rst_wait d s.1 -> rst_wait d (checkControlRetransmits order now s).1.
Proof.
  induction order as [|key order IH]; intros s H; cbn [checkControlRetransmits]; [done|].
  destruct (controlSndBuf s.1 !! key) as [info|]; [|by apply IH].
  destruct (control_expired now info s.1) as [reason|].
  { apply rst_wait_expiry. exact H. }
  case_if; [by apply IH|].
  match goal with |- context [push ?r s] => pose proof (push_state r s) as Hp; destruct (push r s) as [ok s1] end.
  cbn [snd] in Hp. rewrite <- Hp in H. apply IH. destruct ok; exact H.
Qed.

(** The part of [checkRetransmits] after the terminal state machine. *)
Lemma rst_wait_rest d order corder now s : rst_wait d s.1 ->
  let a := s.1 in
  let draining := deferredClose a || is_state (state a) StateDraining in
  let drainRTOCap := clampDuration (2 * time_Second) (rto (tun a)) (maxRTO (tun a)) in
  rst_wait d (let '(jobs, ttlExpired, retryExceeded) := scan_sndBuf order now drainRTOCap draining a in
    if ttlExpired then handleTrackedPacketTTLExpiry PACKET_STREAM_DATA "Packet TTL expired" now s
    else if retryExceeded then Close "Max retransmissions exceeded" send_rst now s
    else
      let s := send_jobs jobs (retransmitPriorityKinds jobs a) now drainRTOCap draining s in
      if enableControlReliability (tun s.1) then checkControlRetransmits corder now s else s).1.
Proof.
  intros H. cbv zeta. destruct (scan_sndBuf _ _ _ _ _) as [[jobs ttl] retry].
  case_if; [by apply rst_wait_expiry|]. case_if; [by apply rst_wait_Close|].
  assert (Hs : forall kinds cap draining, rst_wait d (send_jobs jobs kinds now cap draining s).1)
    by (intros; by apply (rst_wait_same d s.1), H; apply send_jobs_same).
  case_if; [apply rst_wait_control|]; apply Hs.
Qed.

Lemma SendControl_same pt sn fr total payload prio track ack ttl now s :
  term_same s.1 (SendControlPacketWithTTL pt sn fr total payload prio track ack ttl now s).2.1.
Proof.
  unfold SendControlPacketWithTTL. case_if; [by rewrite push_state|].
  destruct (match ack with Some t => Some t | None => ControlAckFor pt end); [|done].
  destruct (controlSndBuf s.1 !! _); [done|].
  match goal with |- context [push ?r s] => pose proof (push_state r s) as Hp; destruct (push r s) as [ok s1] end.
  cbn [fst snd] in *. rewrite <- Hp. by split.
Qed.

(** A reset that does not wait for a drain never defers. *)
Lemma Close_with_rst df reason now s :
  Close_with df reason (mkCloseOptions false (PACKET_STREAM_RST =? PACKET_STREAM_RST)
    (PACKET_STREAM_RST =? PACKET_STREAM_CLOSE_WRITE) (PACKET_STREAM_RST =? PACKET_STREAM_CLOSE_READ) false 0) now s =
  Close reason send_rst now s.
Proof.
  change (mkCloseOptions _ _ _ _ _ _) with send_rst. unfold Close, Close_with, send_rst.
  cbn [Force SendRST SendCloseWrite SendCloseRead AfterDrain TTL andb orb negb]. reflexivity.
Qed.

Lemma Close_rst_waits reason now s :
  closed s.1 = false -> isVirtual s.1 = false -> rstSent s.1 = false -> rstReceived s.1 = false ->
  (waitingAck s.1 = true -> waitingAckFor s.1 <> PACKET_STREAM_RST) ->
  (deferredClose s.1 = true -> deferredPacket s.1 <> PACKET_STREAM_RST) ->
  rst_wait (now + terminalAckWait (tun s.1)) (Close reason send_rst now s).1.
Proof.
  intros Hc Hv Hs Hr Hw Hd. unfold Close, Close_with. rewrite Hv, Hc. cbn [andb orb negb Force SendRST SendCloseRead SendCloseWrite AfterDrain send_rst].
  assert (Hw' : waitingAck s.1 && (waitingAckFor s.1 =? PACKET_STREAM_RST) = false).
  { destruct (waitingAck s.1); [|done]. apply Z.eqb_neq. auto. }
  assert (alreadyResetting s.1 = false) as ->.
  { unfold alreadyResetting. rewrite Hs, Hr, Hw'. destruct (deferredClose s.1); [|done]. simpl. apply Z.eqb_neq. auto. }
  unfold emitTerminalPacketWithTTL, upd. cbn [fst snd].
  change (closed (close_rst_locked reason s.1)) with (closed s.1). change (isVirtual (close_rst_locked reason s.1)) with (isVirtual s.1).
  rewrite Hc, Hv. cbn [orb]. set (a := emit_preamble reason (close_rst_locked reason s.1)).
  change (waitingAck a) with (waitingAck s.1). change (waitingAckFor a) with (waitingAckFor s.1). rewrite Hw'.
  change (rstReceived a) with (rstReceived s.1). change (rstSent a) with (rstSent s.1). rewrite Hs, Hr. simpl.
  unfold send_terminal. eapply rst_wait_same; [apply SendControl_same|]. right. simpl. done.
Qed.

(** After the terminal state machine has led to [rst_wait], so has the whole turn. *)
Lemma tick_waits d order corder now s s' :
  term_same s.1 s'.1 -> closed s.1 = false ->
  runFinalAckWatchdog now (runGapRecoveryWatchdog now s) = s' ->
  rst_wait d (handleTerminalRetransmitState now s').2.1 -> rst_wait d (checkRetransmits order corder now s).1.
Proof.
  intros Hs Hc He H. unfold checkRetransmits. rewrite Hc, He.
  destruct (handleTerminalRetransmitState now s') as [stop s2]. cbn [snd] in H.
  destruct stop; [done|]. by apply rst_wait_rest.
Qed.

Lemma tick_rst d order corder now s :
  rst_wait d s.1 -> 0 < d < now -> closed (checkRetransmits order corder now s).1 = true.
Proof.
  intros [Hc|H] Hd; unfold checkRetransmits; [by rewrite Hc|]. destruct H as (Hc & Hv & Hdef & Hw & Hf & Hdl).
  rewrite Hc. pose proof (watchdogs_same now s) as E.
  set (s1 := runFinalAckWatchdog now (runGapRecoveryWatchdog now s)) in *. destruct E.
  unfold handleTerminalRetransmitState. rewrite e_deferred0, e_waiting0, e_deadline0, e_for0, Hdef, Hw, Hf, Hdl.
  unfold IsZero, After. rewrite (proj2 (Z.eqb_neq d 0)), (proj2 (Z.ltb_lt d now)) by lia.
  rewrite Z.eqb_refl. cbn [andb negb fst snd]. apply finalizeClose_closed. congruence.
Qed.

(** A turn after the deadline of a half-close sends a reset. *)
Lemma tick_half_close order corder now s :
  closed s.1 = false -> isVirtual s.1 = false -> deferredClose s.1 = false -> waitingAck s.1 = true ->
  waitingAckFor s.1 = PACKET_STREAM_CLOSE_READ \/ waitingAckFor s.1 = PACKET_STREAM_CLOSE_WRITE ->
  0 < ackWaitDeadline s.1 < now -> rstSent s.1 = false -> rstReceived s.1 = false ->
  rst_wait (now + terminalAckWait (tun s.1)) (checkRetransmits order corder now s).1.
Proof.
  intros Hc Hv Hdef Hw Hf Hdl Hs Hr. pose proof (watchdogs_same now s) as E.
  apply (tick_waits _ _ _ _ _ (runFinalAckWatchdog now (runGapRecoveryWatchdog now s))); [done..|].
  set (s1 := runFinalAckWatchdog now (runGapRecoveryWatchdog now s)) in *. destruct E. rewrite <- e_tun0.
  unfold handleTerminalRetransmitState. rewrite e_deferred0, e_waiting0, e_deadline0, Hdef, Hw.
  unfold IsZero, After. rewrite (proj2 (Z.eqb_neq (ackWaitDeadline s.1) 0)), (proj2 (Z.ltb_lt (ackWaitDeadline s.1) now)) by lia.
  cbn [andb negb]. rewrite e_for0.
  destruct Hf as [Hf|Hf]; rewrite Hf; [change (PACKET_STREAM_CLOSE_READ =? PACKET_STREAM_RST) with false
    |change (PACKET_STREAM_CLOSE_WRITE =? PACKET_STREAM_RST) with false]; rewrite Z.eqb_refl, ?orb_true_r; cbn [orb snd];
    apply Close_rst_waits; try congruence; intros _; rewrite e_for0, Hf; done.
Qed.

(** A turn after the deadline of a drain with unacknowledged data sends a reset. *)
Lemma tick_drain order corder now s :
  closed s.1 = false -> isVirtual s.1 = false -> deferredClose s.1 = true -> sndBuf s.1 <> ∅ ->
  0 < deferredDeadline s.1 < now -> rstSent s.1 = false -> rstReceived s.1 = false ->
  (waitingAck s.1 = true -> waitingAckFor s.1 <> PACKET_STREAM_RST) ->
  rst_wait (now + terminalAckWait (tun s.1)) (checkRetransmits order corder now s).1.
Proof.
  intros Hc Hv Hdef Hne Hdl Hs Hr Hw. pose proof (watchdogs_same now s) as E.
  apply (tick_waits _ _ _ _ _ (runFinalAckWatchdog now (runGapRecoveryWatchdog now s))); [done..|].
  set (s1 := runFinalAckWatchdog now (runGapRecoveryWatchdog now s)) in *. destruct E. rewrite <- e_tun0.
  assert (Hne1 : bool_decide (sndBuf s1.1 = ∅) = false).
  { apply bool_decide_eq_false. intros He. apply Hne. apply dom_empty_inv_L. rewrite <- e_sndBuf0, He. apply dom_empty_L. }
  unfold handleTerminalRetransmitState. rewrite e_deferred0, e_ddeadline0, Hdef, Hne1.
  unfold IsZero, After. rewrite (proj2 (Z.eqb_neq (deferredDeadline s.1) 0)), (proj2 (Z.ltb_lt (deferredDeadline s.1) now)) by lia.
  cbn [andb orb negb snd].
  set (s2 := if drain_stalled now s1.1 then upd (fun a => a <| drainStallLogged := true |>) s1 else s1).
  assert (E2 : term_same s1.1 s2.1) by (unfold s2; case_if; by split).
  assert (B2 : sndBuf s2.1 = sndBuf s1.1) by (unfold s2; by case_if).
  destruct E2. rewrite <- e_tun1. unfold settleTerminalDrain, settle_decision.
  rewrite e_closed1, e_closed0, e_deferred1, e_deferred0, e_ddeadline1, e_ddeadline0, B2, Hc, Hdef, Hne1.
  unfold IsZero, After. rewrite (proj2 (Z.eqb_neq (deferredDeadline s.1) 0)), (proj2 (Z.ltb_lt (deferredDeadline s.1) now)) by lia.
  cbn [andb orb negb]. set (reason := (_ +:+ _)%string).
  rewrite Close_with_rst.
  apply (Close_rst_waits reason now (upd clearDeferred s2)); cbn; try congruence. intros Hw2. rewrite e_for1, e_for0. apply Hw. congruence.
Qed.
End terminal.

(** C4: Terminal states end.  Take any stream that is neither closed nor virtual and has
    not been reset by its peer, and suppose the peer is silent.  If the stream waits
    for the acknowledgement of its reset, or of a half-close, or drains unacknowledged
    data, and the deadline of that wait has passed at a timer turn, then a second turn
    more than [terminalAckWait] later leaves it closed: a drain or a half-close that
    times out becomes a reset, and a reset that is not acknowledged is finalised. *)
Theorem terminal_states_end {W} `{PacketEnqueuer W} (s : ARQ * W) t1 t2 order1 corder1 order2 corder2 :
  closed s.1 = false -> isVirtual s.1 = false -> rstReceived s.1 = false ->
  0 < t1 -> 0 < terminalAckWait (tun s.1) -> t1 + terminalAckWait (tun s.1) < t2 ->
  (deferredClose s.1 = false /\ waitingAck s.1 = true /\ 0 < ackWaitDeadline s.1 < t1 /\
   (waitingAckFor s.1 = PACKET_STREAM_RST \/
    rstSent s.1 = false /\
    (waitingAckFor s.1 = PACKET_STREAM_CLOSE_READ \/ waitingAckFor s.1 = PACKET_STREAM_CLOSE_WRITE))) \/
  (deferredClose s.1 = true /\ sndBuf s.1 <> ∅ /\ 0 < deferredDeadline s.1 < t1 /\ rstSent s.1 = false /\
   (waitingAck s.1 = true -> waitingAckFor s.1 <> PACKET_STREAM_RST)) ->
  closed (checkRetransmits order2 corder2 t2 (checkRetransmits order1 corder1 t1 s)).1 = true.
Proof.
  intros Hc Hv Hr Ht1 Hw Ht2 [(Hdef & Hwt & Hdl & [Hf|[Hs Hf]])|(Hdef & Hne & Hdl & Hs & Hf)].
  - apply (tick_rst (t1 + terminalAckWait (tun s.1))); [left|lia]. eapply tick_rst; [|exact Hdl]. by right.
  - apply (tick_rst (t1 + terminalAckWait (tun s.1))); [by apply tick_half_close|lia].
  - apply (tick_rst (t1 + terminalAckWait (tun s.1))); [by apply tick_drain|lia].
Qed.

(** A client stream with one unacknowledged chunk that was told to close after the
    drain, and an hour of silence. *)
Definition draining_stream : ARQ * StreamClient.Stream_client :=
  run [(1, EvStart); (2, EvRead (mkIoLocals 0) [10; 20] None); (3, EvClose "done" (send_close_read true))]
    (NewARQ 1 2 true 1200 (default_client_config false false 0) 1, StreamClient.new_stream 1 1 true).

Lemma terminal_states_end_witness :
  closed (checkRetransmits [] [] (7200 * time_Second) (checkRetransmits [0] [] (3600 * time_Second) draining_stream)).1 = true.
Proof.
  apply terminal_states_end; try (vm_compute; reflexivity).
  right. split; [vm_compute; reflexivity|]. split; [intros He; apply (f_equal size) in He; vm_compute in He; discriminate|].
  split; [vm_compute; split; reflexivity|]. split; [vm_compute; reflexivity|]. intros Hx. vm_compute in Hx. discriminate.
Defined.
