(* ===== verification/ArqRetransmit.v ===== *)
(** * ARQ stream: which packets are asked for and which are resent first (masterdns arq)

    The loops that collect missing sequence numbers for negative acknowledgements,
    and the bounded insertion that picks the packets to resend with priority, are
    shown equal to direct definitions: a filter over the gap, and the oldest packets
    by rank. *)

From stdpp Require Import base tactics list gmap strings sorting.
From Stdlib Require Import ZArith Lia Floats.SpecFloat.
From S2P Require Import Prelude Enums GoFloat ArqState Arq ArqData ArqControl.

(** ** Missing sequence numbers *)

(** [k] numbers from [m0] on. *)
Definition numbers (m0 : Z) (n : nat) : list Z := map (fun k => wrap16 (m0 + Z.of_nat k)) (seq 0 n).

(** The numbers of the first [n] from the next expected one that are not buffered. *)
Definition gap_numbers (a : ARQ) (n : nat) : list Z :=
  filter (fun m => rcvBuf a !! m = None) (numbers (rcvNxt a) n).

Lemma numbers_cons m0 n : u16 m0 -> numbers m0 (S n) = m0 :: numbers (wrap16 (m0 + 1)) n.
Proof.
  intros H. unfold numbers. cbn [seq map]. f_equal.
  - rewrite Z.add_0_r. unfold wrap16, u16 in *. apply Z.mod_small. lia.
  - rewrite <- seq_shift, map_map. apply map_ext. intros k. unfold wrap16. rewrite Zplus_mod_idemp_l. f_equal. lia.
Qed.

Lemma buffered_spec a m : buffered a m = negb (bool_decide (rcvBuf a !! m = None)).
Proof. unfold buffered. by destruct (rcvBuf a !! m). Qed.

Lemma filter_missing a m l :
  filter (fun m => rcvBuf a !! m = None) (m :: l) =
  if buffered a m then filter (fun m => rcvBuf a !! m = None) l else m :: filter (fun m => rcvBuf a !! m = None) l.
Proof. rewrite filter_cons, buffered_spec. case_decide; case_bool_decide; done. Qed.

(** The number [n] steps after [m] is [m] itself only for [n = 0]. *)
Lemma ahead_ne m n : u16 m -> 0 < Z.of_nat n < 65536 -> wrap16 (m + Z.of_nat n) <> m.
Proof.
  unfold u16, wrap16. intros Hm Hn He.
  pose proof (Z.div_mod (m + Z.of_nat n) 65536 ltac:(lia)). rewrite He in H. nia.
Qed.

Lemma ahead_succ m n : wrap16 (wrap16 (m + 1) + Z.of_nat n) = wrap16 (m + Z.of_nat (S n)).
Proof. unfold wrap16. rewrite Zplus_mod_idemp_l. f_equal. lia. Qed.

Lemma missing_upto_spec a n : forall fuel m, u16 m -> (n < fuel)%nat -> Z.of_nat n < 65536 ->
  missing_upto fuel a m (wrap16 (m + Z.of_nat n)) = filter (fun m => rcvBuf a !! m = None) (numbers m n).
Proof.
  induction n as [|n IH]; intros fuel m Hm Hf Hn; (destruct fuel as [|fuel]; [lia|]); cbn [missing_upto].
  - rewrite Z.add_0_r. unfold wrap16, u16 in *. rewrite Z.mod_small by lia. by rewrite Z.eqb_refl.
  - pose proof (ahead_ne m (S n) Hm ltac:(lia)) as Hne. rewrite (proj2 (Z.eqb_neq m _)) by congruence.
    rewrite numbers_cons, filter_missing, <- ahead_succ, IH by (done || apply u16_wrap16 || lia). done.
Qed.

Lemma missing_sample_spec a c n : forall fuel m added, u16 m -> (n < fuel)%nat -> Z.of_nat n < 65536 -> added <= c ->
  missing_sample fuel a m (wrap16 (m + Z.of_nat n)) added c =
  take (Z.to_nat (c - added)) (filter (fun m => rcvBuf a !! m = None) (numbers m n)).
Proof.
  induction n as [|n IH]; intros fuel m added Hm Hf Hn Ha; (destruct fuel as [|fuel]; [lia|]); cbn [missing_sample].
  - rewrite Z.add_0_r. unfold wrap16 at 1. unfold u16 in Hm. rewrite Z.mod_small, Z.eqb_refl by lia. by destruct (Z.to_nat (c - added)).
  - pose proof (ahead_ne m (S n) Hm ltac:(lia)) as Hne. rewrite (proj2 (Z.eqb_neq m _)) by congruence. cbn [orb].
    case_if; zbool.
    + by replace (Z.to_nat (c - added)) with 0%nat by lia.
    + rewrite numbers_cons, filter_missing, <- ahead_succ by done. case_if.
      * apply IH; [apply u16_wrap16|lia|lia|lia].
      * rewrite IH by (apply u16_wrap16 || lia). replace (Z.to_nat (c - added)) with (S (Z.to_nat (c - (added + 1)))) by lia.
        done.
Qed.

Lemma gap_loop_spec a n : forall fuel k, u16 (rcvNxt a) -> (n < fuel)%nat -> Z.of_nat (k + n) < 65536 ->
  gap_loop fuel a (wrap16 (rcvNxt a + Z.of_nat k)) (Z.of_nat (k + n)) =
  filter (fun m => rcvBuf a !! m = None) (numbers (wrap16 (rcvNxt a + Z.of_nat k)) n).
Proof.
  induction n as [|n IH]; intros fuel k Hu Hf Hn; (destruct fuel as [|fuel]; [lia|]); cbn [gap_loop].
  all: assert (Hd : wrap16 (wrap16 (rcvNxt a + Z.of_nat k) - rcvNxt a) = Z.of_nat k)
    by (unfold wrap16; rewrite Zminus_mod_idemp_l; replace (rcvNxt a + Z.of_nat k - rcvNxt a) with (Z.of_nat k) by lia;
        apply Z.mod_small; lia).
  all: rewrite Hd.
  - rewrite (proj2 (Z.leb_le _ _)) by lia. done.
  - rewrite (proj2 (Z.leb_gt _ _)) by lia. rewrite numbers_cons, filter_missing by apply u16_wrap16.
    assert (Hs : wrap16 (wrap16 (rcvNxt a + Z.of_nat k) + 1) = wrap16 (rcvNxt a + Z.of_nat (S k))).
    { unfold wrap16. rewrite Zplus_mod_idemp_l. f_equal. lia. }
    rewrite Hs. replace (k + S n)%nat with (S k + n)%nat by lia. rewrite IH by (done || lia). done.
Qed.

Lemma numbers_snoc m n : numbers m (S n) = numbers m n ++ [wrap16 (m + Z.of_nat n)].
Proof. unfold numbers. rewrite seq_S, map_app. done. Qed.

(** Walking down from the end of the gap finds its last missing number. *)
Lemma frontier_spec a seen n : forall fuel, u16 (rcvNxt a) -> (n < fuel)%nat -> Z.of_nat n < 65536 ->
  frontier_missing fuel a (wrap16 (rcvNxt a + Z.of_nat n)) (rcvNxt a) seen =
  match last (gap_numbers a (S n)) with
  | Some m => if bool_decide (m ∈ seen) then [] else [m]
  | None => []
  end.
Proof.
  induction n as [|n IH]; intros fuel Hu Hf Hn; (destruct fuel as [|fuel]; [lia|]); cbn [frontier_missing];
    unfold gap_numbers; rewrite numbers_snoc, filter_app, filter_missing, filter_nil; set (m := wrap16 (rcvNxt a + _)).
  - destruct (buffered a m); cbn [negb]; [|by rewrite last_snoc].
    assert (m = rcvNxt a) as ->.
    { unfold m, wrap16, u16 in *. rewrite Z.add_0_r. apply Z.mod_small. lia. }
    by rewrite Z.eqb_refl.
  - destruct (buffered a m) eqn:Hb; cbn [negb]; [|by rewrite last_snoc].
    rewrite (proj2 (Z.eqb_neq m _)) by (apply ahead_ne; [done|lia]).
    rewrite app_nil_r.
    assert (wrap16 (m - 1) = wrap16 (rcvNxt a + Z.of_nat n)) as ->.
    { unfold m, wrap16. rewrite Zminus_mod_idemp_l. f_equal. lia. }
    apply IH; [done|lia|lia].
Qed.

(** Negative acknowledgements name the gap.  For a packet that arrives [diff] numbers
    ahead of the next expected one, [maybeSendDataNacks] asks for exactly the numbers
    of the gap that are not buffered when the gap is at most the configured one, and
    else for the first few of them and the last one within the configured gap; the
    watchdog asks for exactly the missing numbers within the configured gap.  The
    loops end for every state. *)
Theorem nack_candidates a sn :
  u16 (rcvNxt a) -> u16 sn -> 0 < dataNackMaxGap (tun a) < 65536 ->
  let gap := dataNackMaxGap (tun a) in
  let diff := wrap16 (sn - rcvNxt a) in
  (diff <= gap -> missing_seqs sn a = gap_numbers a (Z.to_nat diff)) /\
  (gap < diff ->
   let first := take (Z.to_nat (Z.max 1 ((gap + 19) / 20))) (gap_numbers a (Z.to_nat diff)) in
   missing_seqs sn a = first ++
     match last (gap_numbers a (Z.to_nat gap)) with
     | Some m => if bool_decide (m ∈ first) then [] else [m]
     | None => []
     end) /\
  (rcvBuf a <> ∅ -> rcvBuf a !! rcvNxt a = None -> gapRecoveryCandidatesLocked a = gap_numbers a (Z.to_nat gap)).
Proof.
  intros Hr Hs Hg gap diff. assert (Hdiff : 0 <= diff < 65536) by apply Z.mod_pos_bound, eq_refl.
  assert (Hsn : sn = wrap16 (rcvNxt a + Z.of_nat (Z.to_nat diff))).
  { unfold diff, wrap16, u16 in *. rewrite Z2Nat.id by (apply Z.mod_pos_bound; lia). rewrite Zplus_mod_idemp_r.
    replace (rcvNxt a + (sn - rcvNxt a)) with sn by lia. symmetry. apply Z.mod_small. lia. }
  assert (Hwg : wrap16 gap = gap) by (unfold wrap16; apply Z.mod_small; lia).
  assert (Hsp : Z.of_nat seq_space = 65536) by (unfold seq_space; lia).
  unfold missing_seqs, gapRecoveryCandidatesLocked. fold gap diff. rewrite Hwg.
  generalize dependent seq_space. intros sp Hsp. split; [|split].
  - intros Hle. rewrite (proj2 (Z.leb_le _ _)) by lia. rewrite Hsn at 1. apply missing_upto_spec; [done|lia|lia].
  - intros Hlt. rewrite (proj2 (Z.leb_gt _ _)) by lia. cbv zeta.
    assert (Hc : maxI 1 (Z.quot (gap + 19) 20) = Z.max 1 ((gap + 19) / 20)).
    { unfold maxI. rewrite Z.quot_div_nonneg by lia. case_if; zbool; lia. }
    rewrite Hc.
    assert (Hm : missing_sample sp a (rcvNxt a) sn 0 (Z.max 1 ((gap + 19) / 20)) =
      take (Z.to_nat (Z.max 1 ((gap + 19) / 20))) (gap_numbers a (Z.to_nat diff))).
    { rewrite Hsn at 1. rewrite missing_sample_spec by (lia || done). by rewrite Z.sub_0_r. }
    rewrite Hm. f_equal.
    replace (rcvNxt a + gap - 1) with (rcvNxt a + Z.of_nat (Z.to_nat (gap - 1))) by lia.
    rewrite frontier_spec by (lia || done). replace (S (Z.to_nat (gap - 1))) with (Z.to_nat gap) by lia. done.
  - intros Hne Hnone. rewrite buffered_spec.
    rewrite (bool_decide_eq_false_2 (rcvBuf a = ∅)), (bool_decide_eq_true_2 _ Hnone) by done.
    rewrite (proj2 (Z.leb_gt _ _)) by lia. cbn [orb negb]. pose proof (gap_loop_spec a (Z.to_nat gap) sp 0 Hr) as H.
    rewrite Nat.add_0_l, Z2Nat.id in H by lia. rewrite Z.add_0_r in H.
    unfold wrap16 in H. rewrite (Z.mod_small (rcvNxt a)) in H by (unfold u16 in Hr; lia). apply H; lia.
Qed.

(** The client's default stream after chunks 3 and 5 arrived and 0 was delivered. *)
Definition gap_sample : ARQ :=
  rx_locked 5 [50] 4 (rx_locked 3 [30] 3 (drain_locked (rx_locked 0 [0] 2
    (NewARQ 1 2 true 1200 (mkConfig 600 (float64_of_int 1) (float64_of_int 5) false false true (float64_lit 5 10)
       (float64_of_int 3) 400 (float64_of_int 1800) (float64_of_int 2400) 1200 (float64_of_int 1200) 16 (float64_lit 1 10)
       (float64_of_int 1) (float64_of_int 120) (float64_of_int 90) 0 true 0) 1))).2).

Lemma nack_candidates_witness :
  missing_seqs 7 gap_sample = [1; 2; 4; 6] /\ missing_seqs 40 gap_sample = [1; 16].
Proof.
  assert (Hr : u16 (rcvNxt gap_sample)) by (vm_compute; split; congruence).
  assert (Hg : 0 < dataNackMaxGap (tun gap_sample) < 65536) by (vm_compute; split; congruence).
  destruct (nack_candidates gap_sample 7 Hr) as [H7 _]; [vm_compute; split; congruence|exact Hg|].
  destruct (nack_candidates gap_sample 40 Hr) as [_ [H40 _]]; [vm_compute; split; congruence|exact Hg|].
  rewrite H7, H40 by (vm_compute; congruence). split; vm_compute; reflexivity.
Defined.

(** ** Packets to resend with priority *)

(** How far a job is behind the next number to send: the larger, the older. *)
Definition job_dist (sndNxt' : Z) (j : rtxJob) : Z := wrap16 (sndNxt' - job_sn j).

(** The positions of the jobs older than [d]. *)
Definition is_older (nx : Z) (jobs : list rtxJob) (d : Z) (i : nat) : bool :=
  match jobs !! i with Some j => d <? job_dist nx j | None => false end.

Definition older (nx : Z) (jobs : list rtxJob) (d : Z) : list nat :=
  filter (fun i => is_older nx jobs d i = true) (seq 0 (length jobs)).

(** Sorted by decreasing distance. *)
Definition sorted (best : list (nat * Z)) : Prop := StronglySorted (fun x y => y.2 < x.2) best.

(** [best] holds the [k] oldest of the first [n] jobs. *)
Record best_ok (nx : Z) (jobs : list rtxJob) (k n : nat) (best : list (nat * Z)) : Prop := {
  b_sorted : sorted best;
  b_len : length best = Nat.min k n;
  b_job : forall i d, (i, d) ∈ best -> (i < n)%nat /\ exists j, jobs !! i = Some j /\ d = job_dist nx j;
  b_rest : forall i j, (i < n)%nat -> jobs !! i = Some j -> i ∉ best.*1 ->
    length best = k /\ forall x, x ∈ best -> job_dist nx j < x.2
}.

Lemma sorted_insert best p i d :
  sorted best -> (forall q x, best !! q = Some x -> (q < p)%nat -> d < x.2) ->
  (forall q x, best !! q = Some x -> (p <= q)%nat -> x.2 < d) -> sorted (take p best ++ (i, d) :: drop p best).
Proof.
  revert best. induction p as [|p IH]; intros best Hs Hlt Hge.
  - rewrite take_0, drop_0. constructor; [done|]. apply Forall_lookup. intros q x Hx. simpl. apply (Hge q x Hx). lia.
  - destruct best as [|y best]; [repeat constructor|]. simpl. apply StronglySorted_inv in Hs as [Hs Hy].
    constructor.
    + apply IH; [done|intros q x Hx Hq; apply (Hlt (S q) x Hx); lia|intros q x Hx Hq; apply (Hge (S q) x Hx); lia].
    + rewrite Forall_app, Forall_cons. split; [by apply Forall_take|]. split; [|by apply Forall_drop].
      apply (Hlt 0%nat y eq_refl). lia.
Qed.

Lemma sorted_lookup best : sorted best -> forall q r x y,
  best !! q = Some x -> best !! r = Some y -> (q < r)%nat -> y.2 < x.2.
Proof.
  induction 1 as [|z best Hs IH Hz]; intros q r x y Hx Hy Hqr; [done|]. destruct r as [|r]; [lia|]. simpl in Hy.
  destruct q as [|q]; simpl in Hx.
  - injection Hx as <-. rewrite Forall_lookup in Hz. exact (Hz r y Hy).
  - apply (IH q r); [done..|lia].
Qed.

Lemma sorted_split k l : sorted l -> sorted (take k l) /\ forall x y, x ∈ take k l -> y ∈ drop k l -> y.2 < x.2.
Proof.
  intros H. rewrite <- (take_drop k l) in H. unfold sorted in *. revert H. generalize (drop k l) as l2.
  induction (take k l) as [|z l1 IH]; intros l2 H; [split; [constructor|intros x y Hx; by apply not_elem_of_nil in Hx]|].
  apply StronglySorted_inv in H as [H Hz]. destruct (IH l2 H) as [Hs Ho]. rewrite Forall_app in Hz. destruct Hz as [Hz1 Hz2].
  split; [by constructor|]. intros x y [->|Hx]%elem_of_cons Hy; [|by apply Ho]. rewrite Forall_forall in Hz2. by apply Hz2.
Qed.

(** The position [insertBest] finds separates the older from the younger. *)
Lemma best_pos_spec jobs best sn d pos :
  sorted best -> (forall x, x ∈ best -> x.2 <> d) -> (pos <= length best)%nat ->
  (forall q x, best !! q = Some x -> (pos <= q)%nat -> x.2 < d) ->
  let p := best_pos jobs best sn d pos in
  (p <= length best)%nat /\
  (forall q x, best !! q = Some x -> (q < p)%nat -> d < x.2) /\
  (forall q x, best !! q = Some x -> (p <= q)%nat -> x.2 < d).
Proof.
  intros Hs Hne. induction pos as [|pos IH]; intros Hp Hge; cbn [best_pos]; [repeat split; [lia|intros; lia|done]|].
  destruct (best !! pos) as [[pi pd]|] eqn:Hb; [|apply lookup_ge_None in Hb; lia].
  assert (Hpd : pd <> d) by (apply (Hne (pi, pd)); by eapply list_elem_of_lookup_2).
  destruct (d <? pd) eqn:Hd; cbn [orb]; zbool.
  - split; [lia|]. split; [|done]. intros q x Hx Hq. destruct (decide (q = pos)) as [->|]; [naive_solver|].
    assert (pd < x.2); [|lia]. apply (sorted_lookup best Hs q pos x (pi, pd)); [done..|lia].
  - rewrite (proj2 (Z.eqb_neq pd d)) by done. cbn [andb]. apply IH; [lia|]. intros q x Hx Hq.
    destruct (decide (q = pos)) as [->|]; [rewrite Hb in Hx; injection Hx as <-; simpl; lia|]. apply (Hge q x Hx). lia.
Qed.

Section priority.
Variables (nx : Z) (jobs : list rtxJob) (k : nat).
Hypothesis Hk : (0 < k)%nat.
(** The jobs come from a map, so their sequence numbers differ. *)
Hypothesis Hdist : forall i i' j j', jobs !! i = Some j -> jobs !! i' = Some j' -> job_dist nx j = job_dist nx j' -> i = i'.

Lemma insertBest_ok n best j : best_ok nx jobs k n best -> jobs !! n = Some j ->
  (length best = k -> forall x, last best = Some x -> x.2 < job_dist nx j) ->
  best_ok nx jobs k (S n) (insertBest jobs k best n (job_sn j) (job_dist nx j)).
Proof.
  intros [Hs Hl Hj Hr] Hn Hfull. unfold insertBest. set (d := job_dist nx j) in *.
  assert (Hne : forall x, x ∈ best -> x.2 <> d).
  { intros [i e] Hx He0. simpl in He0. subst e. destruct (Hj i d Hx) as [Hi (j' & Hj' & He)].
    pose proof (Hdist _ _ _ _ Hj' Hn (eq_sym He)). lia. }
  destruct (best_pos_spec jobs best (job_sn j) d (length best) Hs Hne) as (Hp & Hlt & Hge); [done| |].
  { intros q x Hx Hq. apply lookup_lt_Some in Hx. lia. }
  set (p := best_pos jobs best (job_sn j) d (length best)) in *.
  set (new := take p best ++ (n, d) :: drop p best).
  assert (Hnew : sorted new) by (by apply sorted_insert).
  assert (Hlen : length new = S (length best)).
  { unfold new. rewrite length_app, length_take_le by done. cbn [length]. rewrite length_drop. lia. }
  assert (Hin : forall x, x ∈ new <-> x = (n, d) \/ x ∈ best).
  { intros x. unfold new. rewrite elem_of_app, elem_of_cons. rewrite <- (take_drop p best) at 3. rewrite elem_of_app. tauto. }
  assert (Htake : forall x, x ∈ take k new -> x ∈ new) by (intros x Hx; rewrite <- (take_drop k new); set_solver).
  destruct (sorted_split k new Hnew) as [Hts Htd].
  assert (Hcut : forall i e j', (i, e) ∈ new -> jobs !! i = Some j' -> e = job_dist nx j' -> i ∉ (take k new).*1 ->
    length (take k new) = k /\ forall x, x ∈ take k new -> job_dist nx j' < x.2).
  { intros i e j' Hie Hji -> Hni.
    assert (Hd : (i, job_dist nx j') ∈ drop k new).
    { rewrite <- (take_drop k new), elem_of_app in Hie. destruct Hie as [Hie|]; [|done].
      exfalso. apply Hni. apply list_elem_of_fmap. by exists (i, job_dist nx j'). }
    split; [|intros x Hx; exact (Htd x _ Hx Hd)]. rewrite length_take. destruct (decide (k <= length new)%nat); [lia|].
    rewrite drop_ge in Hd by lia. by apply not_elem_of_nil in Hd. }
  split.
  - done.
  - rewrite length_take, Hlen, Hl. lia.
  - intros i e Hie%Htake%Hin. destruct Hie as [[= -> ->]|Hie]; [split; [lia|by exists j]|].
    destruct (Hj i e Hie) as [? ?]. split; [lia|done].
  - intros i j' Hi Hji Hni. destruct (decide (i = n)) as [->|Hin'].
    + apply (Hcut n d); [by apply Hin; left|done| |done]. unfold d. congruence.
    + destruct (decide (i ∈ best.*1)) as [Hb|Hb].
      * apply list_elem_of_fmap in Hb as ([i0 e] & -> & Hb). destruct (Hj _ _ Hb) as [_ (j0 & Hj0 & ->)].
        simpl in *. assert (j0 = j') as -> by congruence. apply (Hcut i0 (job_dist nx j')); [apply Hin; by right|done..].
      * destruct (Hr i j') as [Hk' Hlt']; [lia|done|done|]. split; [rewrite length_take; lia|].
        assert (Hd : job_dist nx j' < d).
        { destruct (last best) as [x|] eqn:Hx; [|apply last_None in Hx; subst best; simpl in Hk'; lia].
          pose proof (Hfull Hk' x eq_refl). assert (x ∈ best) by (apply last_Some in Hx as [l ->]; set_solver).
          specialize (Hlt' x H0). lia. }
        intros x Hx%Htake%Hin. destruct Hx as [->|Hx]; [done|by apply Hlt'].
Qed.

Lemma best_loop_ok rest : forall n best, best_ok nx jobs k n best -> drop n jobs = rest -> (n <= length jobs)%nat ->
  best_ok nx jobs k (length jobs) (best_loop jobs nx k n rest best).
Proof.
  induction rest as [|j rest IH]; intros n best H Hd Hn; cbn [best_loop].
  - apply (f_equal length) in Hd. rewrite length_drop in Hd. simpl in Hd. by replace (length jobs) with n by lia.
  - assert (Hj : jobs !! n = Some j) by (by rewrite <- (Nat.add_0_r n), <- lookup_drop, Hd).
    assert (Hd' : drop (S n) jobs = rest) by (rewrite (drop_S jobs j n Hj) in Hd; congruence).
    pose proof (lookup_lt_Some _ _ _ Hj). apply IH; [|done|lia]. change (wrap16 (nx - job_sn j)) with (job_dist nx j).
    pose proof (b_len _ _ _ _ _ H) as Hl. case_if; zbool.
    + apply insertBest_ok; [done..|]. apply Nat.ltb_lt in Heqb. lia.
    + apply Nat.ltb_ge in Heqb. destruct (last best) as [[li ld]|] eqn:Hx.
      2: { apply last_None in Hx. subst best. simpl in Heqb. lia. }
      assert (Hin : (li, ld) ∈ best) by (apply last_Some in Hx as [l ->]; set_solver).
      destruct (b_job _ _ _ _ _ H li ld Hin) as [Hli (jl & Hjl & ->)].
      assert (Hne : job_dist nx j <> job_dist nx jl) by (intros He; pose proof (Hdist _ _ _ _ Hj Hjl He); lia).
      rewrite (proj2 (Z.eqb_neq _ _) Hne). cbn [andb]. rewrite orb_false_r. case_if; zbool.
      * apply insertBest_ok; [done..|]. intros _ x Hx'. rewrite Hx in Hx'. injection Hx' as <-. done.
      * destruct H as [Hs _ Hjb Hr]. split; [done|lia| |].
        -- intros i d Hi. destruct (Hjb i d Hi). split; [lia|done].
        -- intros i j' Hi Hji Hni. destruct (decide (i = n)) as [->|]; [|apply (Hr i j'); [lia|done..]].
           assert (j' = j) as -> by congruence. split; [lia|]. intros x Hxin.
           assert (job_dist nx jl <= x.2); [|lia].
           apply last_Some in Hx as [l ->]. apply elem_of_app in Hxin as [Hxin|Hxin%list_elem_of_singleton]; [|by subst].
           destruct (sorted_split (length l) _ Hs) as [_ Ho].
           rewrite take_app_length, drop_app_length in Ho. specialize (Ho x (li, job_dist nx jl) Hxin). simpl in Ho.
           assert (job_dist nx jl < x.2); [apply Ho; set_solver|lia].
Qed.

Lemma best_nodup best : best_ok nx jobs k (length jobs) best -> NoDup best.*1.
Proof.
  intros [Hs _ Hj _]. apply NoDup_alt. intros p q i Hp Hq.
  rewrite list_lookup_fmap in Hp, Hq. destruct (best !! p) as [[ip dp]|] eqn:Ep; [|done].
  destruct (best !! q) as [[iq dq]|] eqn:Eq; [|done]. simpl in *. injection Hp as ->. injection Hq as ->.
  destruct (Hj i dp) as [_ (j1 & H1 & ->)]; [by eapply list_elem_of_lookup_2|].
  destruct (Hj i dq) as [_ (j2 & H2 & ->)]; [by eapply list_elem_of_lookup_2|]. assert (j1 = j2) as -> by congruence.
  destruct (decide (p = q)) as [|Hne]; [done|]. exfalso. destruct (decide (p < q)%nat).
  - pose proof (sorted_lookup best Hs p q _ _ Ep Eq ltac:(lia)). simpl in *. lia.
  - pose proof (sorted_lookup best Hs q p _ _ Eq Ep ltac:(lia)). simpl in *. lia.
Qed.

(** A job is among the [k] best exactly when fewer than [k] jobs are older. *)
Lemma best_rank best i j : best_ok nx jobs k (length jobs) best -> jobs !! i = Some j ->
  i ∈ best.*1 <-> (length (older nx jobs (job_dist nx j)) < k)%nat.
Proof.
  intros H Hi. pose proof (best_nodup best H) as Hnd. destruct H as [Hs Hl Hj Hr].
  pose proof (lookup_lt_Some _ _ _ Hi) as Hlt. split.
  - intros Hin. apply list_elem_of_fmap in Hin as ([i0 d] & -> & Hin). simpl in *.
    destruct (Hj _ _ Hin) as [_ (j0 & Hj0 & ->)]. assert (j0 = j) as -> by congruence.
    apply list_elem_of_lookup in Hin as [q Hq]. pose proof (lookup_lt_Some _ _ _ Hq).
    assert (length (older nx jobs (job_dist nx j)) <= q)%nat; [|lia].
    rewrite <- (length_take_le best q), <- (length_fmap fst) by lia.
    apply submseteq_length, NoDup_submseteq; [apply NoDup_filter, NoDup_seq|].
    intros i1 Hi1. apply list_elem_of_filter in Hi1 as [Ho Hi1]. apply elem_of_seq in Hi1. unfold is_older in Ho.
    destruct (jobs !! i1) as [j1|] eqn:E1; [|done]. zbool.
    destruct (decide (i1 ∈ best.*1)) as [Hb|Hb].
    + apply list_elem_of_fmap in Hb as ([i2 d2] & -> & Hb). destruct (Hj _ _ Hb) as [_ (j2 & H2 & ->)]. simpl in *.
      assert (j2 = j1) as -> by congruence. apply list_elem_of_lookup in Hb as [r Hr2].
      apply list_elem_of_fmap. exists (i2, job_dist nx j1). split; [done|].
      apply list_elem_of_lookup. exists r. rewrite lookup_take_lt; [done|].
      destruct (decide (r < q)%nat); [done|]. destruct (decide (r = q)) as [->|]; [rewrite Hq in Hr2; injection Hr2 as -> ?; lia|].
      pose proof (sorted_lookup best Hs q r _ _ Hq Hr2 ltac:(lia)). simpl in *. lia.
    + exfalso. destruct (Hr i1 j1) as [_ Hx]; [lia|done..|]. specialize (Hx (i0, job_dist nx j)). simpl in Hx.
      assert (job_dist nx j1 < job_dist nx j); [|lia]. apply Hx. by eapply list_elem_of_lookup_2.
  - intros Hrank. destruct (decide (i ∈ best.*1)) as [|Hni]; [done|]. exfalso.
    destruct (Hr i j Hlt Hi Hni) as [Hk' Hx]. assert (k <= length (older nx jobs (job_dist nx j)))%nat; [|lia].
    rewrite <- Hk', <- (length_fmap fst). apply submseteq_length, NoDup_submseteq; [done|].
    intros i1 Hi1. apply list_elem_of_fmap in Hi1 as ([i2 d2] & -> & Hb). simpl.
    destruct (Hj _ _ Hb) as [Hlt2 (j2 & H2 & ->)]. apply list_elem_of_filter. split; [|apply elem_of_seq; lia].
    unfold is_older. rewrite H2. apply Z.ltb_lt. exact (Hx _ Hb).
Qed.
End priority.

Lemma job_dist_inj nx jobs : NoDup (map job_sn jobs) -> Forall (fun j => u16 (job_sn j)) jobs ->
  forall i i' j j', jobs !! i = Some j -> jobs !! i' = Some j' -> job_dist nx j = job_dist nx j' -> i = i'.
Proof.
  intros Hnd Hu i i' j j' Hi Hi' He. rewrite NoDup_alt in Hnd. rewrite Forall_lookup in Hu.
  pose proof (Hu _ _ Hi) as U1. pose proof (Hu _ _ Hi') as U2. simpl in *.
  apply (Hnd i i' (job_sn j)); rewrite list_lookup_fmap; [by rewrite Hi|]. rewrite Hi'. simpl. f_equal.
  unfold job_dist, wrap16, u16 in *.
  pose proof (Z.div_mod (nx - job_sn j) 65536 ltac:(lia)). pose proof (Z.div_mod (nx - job_sn j') 65536 ltac:(lia)).
  rewrite He in H. nia.
Qed.

Lemma frontBudget_pos w n : (0 < n)%nat -> (0 < frontBudget_of w n)%nat.
Proof. intros Hn. unfold frontBudget_of. repeat case_if; zbool; lia. Qed.

(** Resend priority.  Among the packets due for retransmission (a list of distinct
    sequence numbers) exactly the oldest ones are sent as STREAM_RESEND: a packet gets
    priority if and only if fewer than the budget, a tenth of the window and at most
    64, are older.  The single pass with its bounded insertion computes this rank. *)
Theorem resend_priority jobs a :
  NoDup (map job_sn jobs) -> Forall (fun j => u16 (job_sn j)) jobs ->
  let kinds := retransmitPriorityKinds jobs a in
  length kinds = length jobs /\
  forall i j, jobs !! i = Some j ->
    kinds !! i = Some (bool_decide (length (older (sndNxt a) jobs (job_dist (sndNxt a) j)) <
                                    frontBudget_of (windowSize (tun a)) (length jobs))%nat).
Proof.
  intros Hnd Hu. cbv zeta. pose proof (job_dist_inj (sndNxt a) jobs Hnd Hu) as Hd.
  destruct jobs as [|j0 [|j1 jobs]]; [done| |].
  - split; [done|]. intros i j Hi. destruct i; [|done]. injection Hi as ->. simpl. f_equal. symmetry.
    apply bool_decide_eq_true_2. pose proof (frontBudget_pos (windowSize (tun a)) 1 ltac:(lia)).
    unfold older, is_older. simpl. rewrite filter_cons. simpl. rewrite Z.ltb_irrefl. case_decide; simpl; [done|lia].
  - set (js := j0 :: j1 :: jobs) in *. unfold retransmitPriorityKinds, js. fold js.
    set (k := frontBudget_of _ _). assert (Hk : (0 < k)%nat) by (apply frontBudget_pos; simpl; lia).
    assert (Hb : best_ok (sndNxt a) js k (length js) (best_loop js (sndNxt a) k 0 js [])).
    { apply best_loop_ok; [done|done| |done|lia]. split; [constructor|by rewrite Nat.min_0_r| |intros; lia].
      intros i d Hi. by apply not_elem_of_nil in Hi. }
    split; [by rewrite length_map, length_seq|]. intros i j Hi. pose proof (lookup_lt_Some _ _ _ Hi).
    rewrite list_lookup_fmap, lookup_seq_lt by done. simpl. f_equal.
    apply bool_decide_ext. eapply best_rank; eassumption.
Qed.

Definition job_sample : list rtxJob := [mkJob 9 [9] 0; mkJob 4 [4] 0; mkJob 7 [7] 0].

Lemma resend_priority_witness :
  length (retransmitPriorityKinds job_sample (gap_sample <| sndNxt := 12 |>)) = 3%nat /\
  retransmitPriorityKinds job_sample (gap_sample <| sndNxt := 12 |>) !! 1%nat = Some true.
Proof.
  destruct (resend_priority job_sample (gap_sample <| sndNxt := 12 |>)) as [Hl Hk].
  - apply (bool_decide_unpack _). vm_compute. exact I.
  - repeat constructor; vm_compute; congruence.
  - split; [exact Hl|]. rewrite (Hk 1%nat (mkJob 4 [4] 0) eq_refl). vm_compute. reflexivity.
Defined.
