(* ===== verification/FragmentStore.v ===== *)
(** * Reassembly of fragmented payloads (masterdns fragmentstore)

    src/masterdns/internal/fragmentstore/store.go.  An entry keeps 256 chunks, [None]
    for a nil slice.  Every method holds the mutex from start to end.  Times and
    durations are nanoseconds, 0 the zero time.  The theorems show that within the retention
    time a message is handed out exactly once, and that an empty fragment blocks its message. *)

From stdpp Require Import base tactics list gmap.
From Stdlib Require Import ZArith Lia.
From S2P Require Import Prelude.

Record entry := mkFragEntry {
  createdAt : Z;
  totalFragments : Z;
  chunks : gmap Z bytes;   (* the non-nil chunks *)
  count : Z                (* a uint8 *)
}.

#[export] Instance eta_entry : Eta entry := fun e => mkFragEntry (createdAt e) (totalFragments e) (chunks e) (count e).
#[export] Instance set_chunks : Setter chunks := ltac:(derive_setter).
#[export] Instance set_count : Setter count := ltac:(derive_setter).

Section store.
Context {K : Type} `{Countable K}.

Record Store := mkStore {
  items : gmap K entry;
  completed : gmap K Z;
  lastPurge : Z
}.

#[export] Instance eta_store : Eta Store := fun s => mkStore (items s) (completed s) (lastPurge s).
#[export] Instance set_items : Setter items := ltac:(derive_setter).
#[export] Instance set_completed : Setter completed := ltac:(derive_setter).
#[export] Instance set_lastPurge : Setter lastPurge := ltac:(derive_setter).

Definition New : Store := mkStore ∅ ∅ 0.

Definition purgeLocked (now retention : Z) (s : Store) : Store :=
  if retention <=? 0 then s <| items := ∅ |> <| completed := ∅ |>
  else
    let deadline := now - retention in
    s <| items ::= filter (fun kv => (deadline <? createdAt kv.2) = true) |>
      <| completed ::= filter (fun kv => (now <? kv.2) = true) |>.

(** [if now.Sub(s.lastPurge) >= time.Second] *)
Definition maybe_purge (now retention : Z) (s : Store) : Store :=
  if 1000000000 <=? now - lastPurge s then (purgeLocked now retention s) <| lastPurge := now |> else s.

Definition is_completed (key : K) (now : Z) (s : Store) : bool :=
  match completed s !! key with Some expiresAt => now <? expiresAt | None => false end.

(** [append(chunk[:0], payload...)]: nil stays nil when nothing is appended. *)
Definition store_chunk (id : Z) (payload : bytes) (c : gmap Z bytes) : gmap Z bytes :=
  match c !! id, payload with
  | None, [] => c
  | _, _ => <[id := payload]> c
  end.

(** [for idx := 0; idx < totalFragments; idx++], [None] when a chunk is nil. *)
Fixpoint assemble (n : nat) (idx : Z) (c : gmap Z bytes) : option bytes :=
  match n with
  | O => Some []
  | S n =>
      match c !! idx with
      | None => None
      | Some chunk => match assemble n (idx + 1) c with Some rest => Some (chunk ++ rest) | None => None end
      end
  end.

(** The results: assembled payload, ready, already completed. *)
Definition Collect (key : K) (payload : bytes) (fragmentID total now retention : Z) (s : Store) :
    (bytes * bool * bool) * Store :=
  if total <=? 1 then
    if retention <=? 0 then ((payload, true, false), s)
    else
      let s := maybe_purge now retention s in
      if is_completed key now s then (([], false, true), s)
      else ((payload, true, false),
            s <| items ::= delete key |> <| completed ::= <[key := now + retention]> |>)
  else if total <=? fragmentID then (([], false, false), s)
  else
    let s := maybe_purge now retention s in
    if is_completed key now s then (([], false, true), s)
    else
      let fresh := mkFragEntry now total ∅ 0 in
      let current :=
        match items s !! key with
        | Some e => if totalFragments e =? total then e else fresh
        | None => fresh
        end in
      let current :=
        match chunks current !! fragmentID with
        | None => current <| count ::= (fun n => wrap8 (n + 1)) |>
        | Some _ => current
        end in
      let current := current <| chunks ::= store_chunk fragmentID payload |> in
      let s := s <| items ::= <[key := current]> |> in
      if count current <? total then (([], false, false), s)
      else
        match assemble (Z.to_nat total) 0 (chunks current) with
        | None => (([], false, false), s)
        | Some assembled =>
            let s := s <| items ::= delete key |> in
            ((assembled, true, false),
             if 0 <? retention then s <| completed ::= <[key := now + retention]> |>
             else s <| completed ::= delete key |>)
        end.

Definition Purge (now retention : Z) (s : Store) : Store := purgeLocked now retention s.

Definition Remove (key : K) (s : Store) : Store := s <| items ::= delete key |> <| completed ::= delete key |>.

Definition RemoveIf (match_ : K -> bool) (s : Store) : Store :=
  s <| items ::= filter (fun kv => match_ kv.1 = false) |> <| completed ::= filter (fun kv => match_ kv.1 = false) |>.

(** A call of [Collect]. *)
Record call := mkCall { cKey : K; cPayload : bytes; cID : Z; cTotal : Z; cNow : Z }.

Definition collect (retention : Z) (c : call) (s : Store) : (bytes * bool * bool) * Store :=
  Collect (cKey c) (cPayload c) (cID c) (cTotal c) (cNow c) retention s.

Fixpoint collect_all (retention : Z) (cs : list call) (s : Store) : list (bytes * bool * bool) * Store :=
  match cs with
  | [] => ([], s)
  | c :: cs =>
      let '(r, s) := collect retention c s in
      let '(rs, s) := collect_all retention cs s in
      (r :: rs, s)
  end.

Lemma collect_all_app r cs ds s :
  collect_all r (cs ++ ds) s =
  ((collect_all r cs s).1 ++ (collect_all r ds (collect_all r cs s).2).1, (collect_all r ds (collect_all r cs s).2).2).
Proof.
  revert s. induction cs as [|c cs IH]; intros s; cbn [collect_all app fst snd]; [by destruct (collect_all r ds s)|].
  destruct (collect r c s) as [x s1]. rewrite IH. by destruct (collect_all r cs s1).
Qed.

Lemma collect_all_length r cs s : length (collect_all r cs s).1 = length cs.
Proof.
  revert s. induction cs as [|c cs IH]; intros s; [done|]. cbn [collect_all]. destruct (collect r c s) as [x s1]. specialize (IH s1).
  destruct (collect_all r cs s1). cbn in *. congruence.
Qed.
End store.

(** ** Reassembly of one message *)

Section message.
Context {K : Type} `{Countable K}.
Variables (k : K) (n : Z) (p : Z -> bytes) (r t0 : Z).
Hypothesis Hn : 2 <= n <= 255.
Hypothesis Hp : forall i, 0 <= i < n -> p i <> [].
Implicit Types (s : Store (K := K)) (c : call (K := K)).

Definition all_ids : gset Z := list_to_set (seqZ 0 n).

(** Calls while the message is in flight: those for its key carry its fragments. *)
Definition in_flight c : Prop :=
  t0 <= cNow c < t0 + r /\ (cKey c = k -> cTotal c = n /\ 0 <= cID c < n /\ cPayload c = p (cID c)).

(** The fragments of the message among some calls. *)
Definition ids (cs : list call) : gset Z := list_to_set (map cID (filter (fun c => cKey c = k) cs)).

(** The store after the fragments [S] arrived. *)
Record partial (S : gset Z) s : Prop := {
  p_completed : completed s !! k = None;
  p_none : S = ∅ -> items s !! k = None;
  p_some : S <> ∅ -> exists e, items s !! k = Some e /\ totalFragments e = n /\ t0 <= createdAt e /\
    count e = Z.of_nat (size S) /\ forall i, chunks e !! i = if decide (i ∈ S) then Some (p i) else None
}.

Lemma all_ids_spec i : i ∈ all_ids <-> 0 <= i < n.
Proof. unfold all_ids. rewrite elem_of_list_to_set, elem_of_seqZ. lia. Qed.

Lemma all_ids_size : Z.of_nat (size all_ids) = n.
Proof. unfold all_ids. rewrite size_list_to_set by apply NoDup_seqZ. rewrite length_seqZ. lia. Qed.

Lemma maybe_purge_partial S now s : 0 < r -> t0 <= now < t0 + r -> partial S s -> partial S (maybe_purge now r s).
Proof.
  intros Hr Ht [Hc Hno Hso]. unfold maybe_purge, purgeLocked. case_if; [|by split]. case_if; zbool; [lia|].
  split; simpl.
  - apply map_lookup_filter_None. by left.
  - intros He. apply map_lookup_filter_None. left. auto.
  - intros Hne. destruct (Hso Hne) as (e & He & Ht' & Hcr & Hcnt & Hch). exists e. split; [|done].
    apply map_lookup_filter_Some. split; [done|]. simpl. apply Z.ltb_lt. lia.
Qed.

(** A call for another key. *)
Lemma collect_other S c s : 0 < r -> in_flight c -> cKey c <> k -> partial S s -> partial S (collect r c s).2.
Proof.
  intros Hr [Ht _] Hk P. unfold collect, Collect.
  pose proof (maybe_purge_partial S (cNow c) s Hr Ht P) as P'. set (s' := maybe_purge (cNow c) r s) in *.
  assert (Hupd : forall e e' (s1 : Store), items s1 = items s' \/ items s1 = <[cKey c := e]> (items s') \/
      items s1 = delete (cKey c) (items s') \/ items s1 = delete (cKey c) (<[cKey c := e]> (items s')) ->
    completed s1 = completed s' \/ completed s1 = <[cKey c := e']> (completed s') \/ completed s1 = delete (cKey c) (completed s') ->
    partial S s1).
  { intros e e' s1 Hi Hc1. destruct P' as [Hc Hno Hso].
    assert (Ei : items s1 !! k = items s' !! k).
    { destruct Hi as [->|[->|[->| ->]]]; [done|by rewrite lookup_insert_ne|by rewrite lookup_delete_ne|].
      by rewrite lookup_delete_ne, lookup_insert_ne. }
    assert (Ec : completed s1 !! k = completed s' !! k).
    { destruct Hc1 as [->|[->| ->]]; [done|by rewrite lookup_insert_ne|by rewrite lookup_delete_ne]. }
    split; rewrite ?Ei, ?Ec; done. }
  assert ((r <=? 0) = false) as -> by (apply Z.leb_gt; lia). assert ((0 <? r) = true) as -> by (apply Z.ltb_lt; lia).
  case_if; [case_if; [done|]|].
  { apply (Hupd (mkFragEntry 0 0 ∅ 0) (cNow c + r)); simpl; auto. }
  case_if; [done|]. case_if; [done|].
  match goal with |- context [<[cKey c := ?e]>] => set (cur := e) end.
  case_if; [apply (Hupd cur 0); simpl; auto|]. destruct (assemble _ _ _); apply (Hupd cur (cNow c + r)); simpl; auto.
Qed.

Lemma assemble_all m : forall i (c : gmap Z bytes), (forall j, i <= j < i + Z.of_nat m -> c !! j = Some (p j)) ->
  assemble m i c = Some (concat (map p (seqZ i (Z.of_nat m)))).
Proof.
  induction m as [|m IH]; intros i c Hc; [done|]. cbn [assemble]. rewrite Hc by lia.
  rewrite IH by (intros j Hj; apply Hc; lia). rewrite (seqZ_cons i) by lia. cbn [map concat].
  do 5 f_equal; lia.
Qed.

(** The entry [Collect] works on, after it counted and stored fragment [i]. *)
Lemma partial_update S i s now : 0 <= i < n -> S ⊆ all_ids -> t0 <= now -> partial S s ->
  let fresh := mkFragEntry now n ∅ 0 in
  let current := match items s !! k with Some e => if totalFragments e =? n then e else fresh | None => fresh end in
  let current := match chunks current !! i with
                 | None => current <| count ::= (fun m => wrap8 (m + 1)) |> | Some _ => current end in
  let current := current <| chunks ::= store_chunk i (p i) |> in
  totalFragments current = n /\ t0 <= createdAt current /\ count current = Z.of_nat (size ({[i]} ∪ S)) /\
  forall j, chunks current !! j = if decide (j ∈ ({[i]} ∪ S : gset Z)) then Some (p j) else None.
Proof.
  intros Hi HS Hnow [Hc Hno Hso]. cbv zeta.
  set (current := match items s !! k with Some e => if totalFragments e =? n then e else _ | None => _ end).
  assert (HC : totalFragments current = n /\ t0 <= createdAt current /\ count current = Z.of_nat (size S) /\
    forall j, chunks current !! j = if decide (j ∈ S) then Some (p j) else None).
  { unfold current. destruct (decide (S = ∅)) as [->|Hne].
    - rewrite Hno by done. simpl. split; [done|]. split; [done|]. split; [reflexivity|].
      intros j. rewrite lookup_empty. case_decide; [set_solver|done].
    - destruct (Hso Hne) as (e & -> & He & ? & ? & ?). by rewrite He, Z.eqb_refl. }
  clearbody current. destruct HC as (Ht & Hcr & Hcnt & Hch).
  pose proof (subseteq_size _ _ HS) as Hsz. pose proof all_ids_size as Hall.
  assert (Hst : forall c0 : gmap Z bytes, store_chunk i (p i) c0 = <[i := p i]> c0).
  { intros c0. unfold store_chunk. pose proof (Hp i Hi). destruct (c0 !! i), (p i); done. }
  assert (Hlook : forall j, <[i := p i]> (chunks current) !! j =
    if decide (j ∈ ({[i]} ∪ S : gset Z)) then Some (p j) else None).
  { intros j. destruct (decide (i = j)) as [<-|Hij].
    - rewrite lookup_insert_eq. rewrite decide_True; [done|set_solver].
    - rewrite lookup_insert_ne, Hch by done. destruct (decide (j ∈ S)); [rewrite decide_True|rewrite decide_False]; set_solver. }
  rewrite Hch. destruct (decide (i ∈ S)) as [Hin|Hin]; simpl; rewrite Hst; (split; [done|]; split; [done|]; split; [|done]).
  - replace ({[i]} ∪ S) with S by set_solver. done.
  - assert (Hsz' : (size ({[i]} ∪ S : gset Z) <= size all_ids)%nat).
    { apply subseteq_size. pose proof (proj2 (all_ids_spec i) Hi). set_solver. }
    rewrite size_union, size_singleton in Hsz' by set_solver.
    rewrite Hcnt, size_union, size_singleton by set_solver. unfold wrap8. rewrite Z.mod_small by lia. lia.
Qed.

(** A fragment that does not complete the message is kept; the one that does is
    answered with the message. *)
Lemma collect_fragment S c s : 0 < r -> in_flight c -> cKey c = k -> S ⊆ all_ids -> partial S s ->
  let S' := {[cID c]} ∪ S in
  (S' <> all_ids -> (collect r c s).1 = ([], false, false) /\ partial S' (collect r c s).2) /\
  (S' = all_ids ->
   (collect r c s).1 = (concat (map p (seqZ 0 n)), true, false) /\
   completed (collect r c s).2 !! k = Some (cNow c + r)).
Proof.
  intros Hr [Ht Hm] Hk HS P S'. destruct (Hm Hk) as (Htot & Hid & Hpay). unfold collect, Collect.
  rewrite Htot, Hpay, Hk. rewrite (proj2 (Z.leb_gt n 1)), (proj2 (Z.leb_gt n (cID c))) by lia.
  pose proof (maybe_purge_partial S (cNow c) s Hr Ht P) as P'. set (s' := maybe_purge (cNow c) r s) in *.
  assert (is_completed k (cNow c) s' = false) as -> by (unfold is_completed; by rewrite (p_completed _ _ P')).
  destruct (partial_update S (cID c) s' (cNow c) Hid HS ltac:(lia) P') as (Htf & Hcr & Hcnt & Hch).
  cbv zeta in Htf, Hcr, Hcnt, Hch |- *.
  match type of Htf with totalFragments ?x = _ => set (current := x) in * end.
  assert (HS' : S' ⊆ all_ids) by (unfold S'; pose proof (proj2 (all_ids_spec (cID c)) Hid); set_solver).
  pose proof (subseteq_size _ _ HS') as Hsz. pose proof all_ids_size as Hall. fold S' in Hcnt, Hch. split.
  - intros Hne. assert ((count current <? n) = true) as ->.
    { apply Z.ltb_lt. destruct (decide (size all_ids <= size S')%nat) as [Hle|]; [|lia].
      exfalso. apply Hne. by apply set_subseteq_size_eq. }
    split; [done|]. split; simpl.
    + apply P'.
    + intros He. exfalso. unfold S' in He. set_solver.
    + intros _. exists current. rewrite lookup_insert_eq. done.
  - intros He. assert ((count current <? n) = false) as -> by (apply Z.ltb_ge; rewrite Hcnt, He; lia).
    rewrite (assemble_all (Z.to_nat n) 0 (chunks current)).
    + rewrite Z2Nat.id by lia. split; [done|]. simpl. rewrite (proj2 (Z.ltb_lt 0 r)) by lia. simpl. by rewrite lookup_insert_eq.
    + intros j Hj. rewrite Hch, decide_True; [done|]. rewrite He. apply all_ids_spec. lia.
Qed.

Lemma ids_snoc cs c : ids (cs ++ [c]) = if decide (cKey c = k) then {[cID c]} ∪ ids cs else ids cs.
Proof.
  unfold ids. rewrite filter_app, map_app, list_to_set_app_L, filter_cons, filter_nil.
  case_decide; simpl; set_solver.
Qed.

Lemma collect_all_snoc cs c s :
  collect_all r (cs ++ [c]) s =
  ((collect_all r cs s).1 ++ [(collect r c (collect_all r cs s).2).1], (collect r c (collect_all r cs s).2).2).
Proof. rewrite collect_all_app. cbn [collect_all]. by destruct (collect r c _). Qed.

(** While fragments are missing, every fragment is kept and nothing is returned. *)
Lemma collect_all_partial cs : forall s, 0 < r -> Forall in_flight cs -> partial ∅ s -> ids cs <> all_ids -> ids cs ⊆ all_ids ->
  partial (ids cs) (collect_all r cs s).2 /\
  forall i c, cs !! i = Some c -> cKey c = k -> (collect_all r cs s).1 !! i = Some ([], false, false).
Proof.
  induction cs as [|c cs IH] using rev_ind; intros s Hr Hf P Hne Hsub; [done|].
  rewrite Forall_app, Forall_singleton in Hf. destruct Hf as [Hf Hc]. rewrite ids_snoc in *.
  assert (Hsub0 : ids cs ⊆ all_ids) by (case_decide; set_solver).
  assert (Hne0 : ids cs <> all_ids).
  { intros He. apply Hne. case_decide; [|done]. destruct Hc as [_ Hm]. destruct (Hm H0) as (_ & Hid & _).
    pose proof (proj2 (all_ids_spec (cID c)) Hid). set_solver. }
  destruct (IH s Hr Hf P Hne0 Hsub0) as [P1 Hres]. rewrite collect_all_snoc. cbn [fst snd].
  set (s1 := (collect_all r cs s).2) in *.
  pose proof (collect_all_length r cs s) as Hlen.
  assert (Hlast : forall x, (forall i c', cs !! i = Some c' -> cKey c' = k -> (collect_all r cs s).1 !! i = Some ([], false, false)) ->
    (cKey c = k -> x = ([], false, false)) ->
    forall i c', (cs ++ [c]) !! i = Some c' -> cKey c' = k -> ((collect_all r cs s).1 ++ [x]) !! i = Some ([], false, false)).
  { intros x H1 H2 i c' Hi Hk. apply lookup_app_Some in Hi as [Hi|[Hge Hi]].
    - apply lookup_app_l_Some. by apply (H1 i c').
    - apply list_lookup_singleton_Some in Hi as [Hi <-]. rewrite lookup_app_r by lia.
      replace (i - length (collect_all r cs s).1)%nat with 0%nat by lia. simpl. by rewrite H2. }
  case_decide as Hk.
  - destruct (collect_fragment (ids cs) c s1 Hr Hc Hk Hsub0 P1) as [Hmiss _]. destruct (Hmiss Hne) as [Hr1 P2].
    split; [done|]. apply Hlast; done.
  - split; [by apply collect_other|]. by apply Hlast.
Qed.
End message.

Section properties.
Context {K : Type} `{Countable K}.

Lemma maybe_purge_completed (k : K) now r (s : Store) e :
  0 < r -> completed s !! k = Some e -> now < e -> completed (maybe_purge now r s) !! k = Some e.
Proof.
  intros Hr He Hlt. unfold maybe_purge, purgeLocked. case_if; [|done]. case_if; zbool; [lia|]. simpl.
  apply map_lookup_filter_Some. split; [done|]. simpl. by apply Z.ltb_lt.
Qed.

Lemma assemble_missing (m : nat) : forall i j (c : gmap Z bytes), i <= j < i + Z.of_nat m -> c !! j = None -> assemble m i c = None.
Proof.
  induction m as [|m IH]; intros i j c Hj Hc; [lia|]. cbn [assemble].
  destruct (decide (i = j)) as [->|]; [by rewrite Hc|]. destruct (c !! i); [|done]. by rewrite (IH (i + 1) j c) by (done || lia).
Qed.

(** Fragment [i0] of message [k] is nil. *)
Definition nil_chunk (k : K) (i0 : Z) (s : Store (K := K)) : Prop := forall e, items s !! k = Some e -> chunks e !! i0 = None.

Lemma nil_chunk_sub k i0 (s s' : Store) :
  (forall e, items s' !! k = Some e -> items s !! k = Some e) -> nil_chunk k i0 s -> nil_chunk k i0 s'.
Proof. intros Hs Hn e He. by apply Hn, Hs. Qed.

Lemma maybe_purge_sub (k : K) now r (s : Store) e : items (maybe_purge now r s) !! k = Some e -> items s !! k = Some e.
Proof.
  unfold maybe_purge, purgeLocked. case_if; [|done]. case_if; simpl; [by rewrite lookup_empty|].
  by intros [? _]%map_lookup_filter_Some.
Qed.

(** A completed message: any call, for it or for another one, leaves the mark until its time. *)
Lemma collect_completed (k : K) r e c (s : Store) : 0 < r -> cNow c < e -> completed s !! k = Some e ->
  completed (collect r c s).2 !! k = Some e /\ (cKey c = k -> cTotal c <= 1 \/ cID c < cTotal c -> (collect r c s).1 = ([], false, true)).
Proof.
  intros Hr Ht He. pose proof (maybe_purge_completed k (cNow c) r s e Hr He Ht) as He'. unfold collect, Collect.
  rewrite (proj2 (Z.leb_gt r 0)), (proj2 (Z.ltb_lt 0 r)) by lia. set (s' := maybe_purge (cNow c) r s) in *. clearbody s'.
  destruct (decide (cKey c = k)) as [Hk | Hk].
  - assert (is_completed (cKey c) (cNow c) s' = true) as Hd by (unfold is_completed; rewrite Hk, He'; by apply Z.ltb_lt). rewrite !Hd.
    case_if; [done |]. case_if; [| done]. split; [done |]. intros _ [|]; zbool; lia.
  - split; [| done]. case_if; [case_if; [done |]; cbn; by rewrite lookup_insert_ne |]. case_if; [done |]. case_if; [done |].
    match goal with |- context [<[cKey c := ?x]>] => set (cur := x) end. clearbody cur.
    case_if; [done |]. destruct (assemble _ _ _); [| done]. cbn. by rewrite lookup_insert_ne.
Qed.

Lemma collect_all_completed (k : K) r e ds : 0 < r -> Forall (fun d => cNow d < e /\ (cKey d = k -> cTotal d <= 1 \/ cID d < cTotal d)) ds ->
  forall s : Store, completed s !! k = Some e ->
  completed (collect_all r ds s).2 !! k = Some e /\
  forall i d, ds !! i = Some d -> cKey d = k -> (collect_all r ds s).1 !! i = Some ([], false, true).
Proof.
  intros Hr. induction 1 as [| d ds [Ht Hid] _ IH]; intros s He; [done |]. cbn [collect_all].
  destruct (collect_completed k r e d s Hr Ht He) as [He' Ha]. destruct (collect r d s) as [a s1]. cbn [fst snd] in *.
  destruct (IH s1 He') as [IH1 IH2]. destruct (collect_all r ds s1) as [rs s2]. cbn [fst snd] in *. split; [done |].
  intros [| i] d' Hi Hk; cbn in *; [| by eapply IH2]. injection Hi as <-. by rewrite Ha by auto.
Qed.

(** C33: Reassembly, exactly once.  A message of 2 to 255 non-empty fragments, whose fragments
    arrive in any order and any number of times, mixed with calls for other messages, before the
    retention time has passed.  As long as a fragment is missing each of its calls returns nothing.
    The call that brings the last missing fragment returns the fragments in order.  Of all the
    calls that follow within the retention time after it, in any number and again mixed with calls
    for other messages, each one for this message whose fragment number is below its total, or
    whose total is at most 1, returns nothing and reports the message as completed. *)
Theorem fragments_reassembled (k : K) n p r t0 cs c ds (s : Store) :
  2 <= n <= 255 -> (forall i, 0 <= i < n -> p i <> []) -> 0 < r ->
  items s !! k = None -> completed s !! k = None ->
  Forall (in_flight k n p r t0) (cs ++ [c]) -> cKey c = k ->
  ids k cs <> all_ids n -> ids k cs ⊆ all_ids n -> {[cID c]} ∪ ids k cs = all_ids n ->
  Forall (fun d => cNow d < cNow c + r /\ (cKey d = k -> cTotal d <= 1 \/ cID d < cTotal d)) ds ->
  let answers := (collect_all r (cs ++ c :: ds) s).1 in
  (forall i c', cs !! i = Some c' -> cKey c' = k -> answers !! i = Some ([], false, false)) /\
  answers !! length cs = Some (concat (map p (seqZ 0 n)), true, false) /\
  (forall i d, ds !! i = Some d -> cKey d = k -> answers !! (length cs + S i)%nat = Some ([], false, true)).
Proof.
  intros Hn Hp Hr Hi Hc Hf Hk Hne Hsub Hfull Hds answers. rewrite Forall_app, Forall_singleton in Hf. destruct Hf as [Hf Hcc].
  assert (P : partial k n p t0 ∅ s) by (split; done).
  destruct (collect_all_partial k n p r t0 Hn Hp cs s Hr Hf P Hne Hsub) as [P1 Hres].
  destruct (collect_fragment k n p r t0 Hn Hp (ids k cs) c _ Hr Hcc Hk Hsub P1) as [_ Hready]. destruct (Hready Hfull) as [Ha Hdone].
  destruct (collect_all_completed k r (cNow c + r) ds Hr Hds _ Hdone) as [_ Hlater].
  unfold answers. rewrite (collect_all_app r cs (c :: ds)). cbn [fst collect_all]. pose proof (collect_all_length r cs s) as Hlen.
  destruct (collect r c _) as [answer s']. cbn [fst snd] in *. destruct (collect_all r ds s') as [rs s'']. cbn [fst snd] in *. split_and!.
  - intros i c' Hi' Hk'. apply lookup_app_l_Some. by eapply Hres.
  - rewrite lookup_app_r by lia. rewrite Hlen, Nat.sub_diag. cbn. by rewrite Ha.
  - intros i d Hd Hk'. rewrite lookup_app_r by lia. replace (length cs + S i - _)%nat with (S i) by lia. cbn. by eapply Hlater.
Qed.

Lemma collect_nil (k : K) n p r i0 c (s : Store) :
  2 <= n <= 255 -> 0 <= i0 < n -> p i0 = [] ->
  (cKey c = k -> cTotal c = n /\ 0 <= cID c < n /\ cPayload c = p (cID c)) -> nil_chunk k i0 s ->
  (cKey c = k -> (collect r c s).1.1.2 = false) /\ nil_chunk k i0 (collect r c s).2.
Proof.
  intros Hn Hi0 Hp Hm Hs. unfold collect, Collect.
  assert (Hs' : nil_chunk k i0 (maybe_purge (cNow c) r s)) by (eapply nil_chunk_sub; [apply maybe_purge_sub|done]).
  set (s' := maybe_purge (cNow c) r s) in *. clearbody s'.
  assert (Hdel : forall m x, nil_chunk k i0 (mkStore (delete (cKey c) (items s')) m x)).
  { intros m x e. simpl. rewrite lookup_delete_Some. intros [_ He]. by apply Hs'. }
  case_if; zbool.
  { split; [intros Hk; destruct (Hm Hk); lia|]. repeat (case_if; [done|]). apply Hdel. }
  case_if; [done|]. case_if; [done|].
  match goal with |- context [<[cKey c := ?e]>] => set (cur := e) end.
  assert (Hcur : cKey c = k -> chunks cur !! i0 = None).
  { intros Hk. destruct (Hm Hk) as (Ht & Hid & Hpay). unfold cur. rewrite Hpay, Hk.
    set (c1 := match items s' !! k with Some e => _ | None => _ end).
    assert (H1 : chunks c1 !! i0 = None).
    { unfold c1. destruct (items s' !! k) as [e|] eqn:E; [case_if; [by apply Hs'|]|]; apply lookup_empty. }
    set (c2 := match chunks c1 !! cID c with None => _ | Some _ => _ end).
    assert (H2 : chunks c2 = chunks c1) by (unfold c2; by destruct (chunks c1 !! cID c)).
    simpl. rewrite H2. unfold store_chunk. destruct (decide (cID c = i0)) as [->|Hne].
    - by rewrite H1, Hp.
    - destruct (chunks c1 !! cID c), (p (cID c)); by rewrite ?lookup_insert_ne. }
  assert (Hins : forall x y, nil_chunk k i0 (mkStore (<[cKey c := cur]> (items s')) x y)).
  { intros x y e. simpl. rewrite lookup_insert_Some. intros [[Hk <-]|[_ He]]; [auto|by apply Hs']. }
  case_if; [split; [done|apply Hins]|].
  destruct (assemble _ _ _) eqn:Ea; [|split; [done|apply Hins]]. split.
  - intros Hk. destruct (Hm Hk) as (Ht & _). rewrite (assemble_missing _ 0 i0) in Ea; [done| |auto]. lia.
  - eapply nil_chunk_sub; [|apply (Hdel ∅ 0)]. intros e. case_if; simpl; rewrite !lookup_delete_Some, lookup_insert_Some; naive_solver.
Qed.

(** Empty fragments block a message.  A fragment with an empty payload leaves its
    chunk nil, so it is counted each time it arrives and never found when the message
    is put together: no sequence of calls ever returns a message that has one. *)
Theorem empty_fragment_blocks (k : K) n p r i0 cs (s : Store) :
  2 <= n <= 255 -> 0 <= i0 < n -> p i0 = [] -> items s !! k = None ->
  Forall (fun c => cKey c = k -> cTotal c = n /\ 0 <= cID c < n /\ cPayload c = p (cID c)) cs ->
  forall i c a ready done, cs !! i = Some c -> cKey c = k ->
    (collect_all r cs s).1 !! i = Some (a, ready, done) -> ready = false.
Proof.
  intros Hn Hi0 Hp Hnone. assert (Hinv : nil_chunk k i0 s) by (intros e He; congruence). clear Hnone. revert s Hinv.
  induction cs as [|c0 cs IH]; intros s Hinv Hf; [done|]. apply Forall_cons in Hf as [Hc Hf]. cbn [collect_all].
  destruct (collect_nil k n p r i0 c0 s Hn Hi0 Hp Hc Hinv) as [Hnot Hinv']. destruct (collect r c0 s) as [x s1].
  specialize (IH s1 Hinv' Hf). destruct (collect_all r cs s1) as [rs s2]. cbn [fst snd] in *.
  intros [|i] c a ready done Hci Hk Hx; simpl in *; [|by eapply IH].
  injection Hci as ->. injection Hx as ->. by apply Hnot.
Qed.
End properties.

(** Two interleaved messages; the first is complete with its third fragment. *)
Definition sample_msg (i : Z) : bytes := [i; i + 10].
Definition sample_calls : list (call (K := Z)) :=
  [mkCall 7 (sample_msg 2) 2 3 100; mkCall 8 [1] 0 2 110; mkCall 7 (sample_msg 0) 0 3 120; mkCall 7 (sample_msg 2) 2 3 130].

(** After the end: a late copy of a fragment, a call for another message, and another late copy. *)
Definition late_calls : list (call (K := Z)) := [mkCall 7 (sample_msg 1) 1 3 150; mkCall 8 [2] 1 2 160; mkCall 7 (sample_msg 0) 0 3 1100].

Lemma fragments_reassembled_witness :
  let answers := (collect_all 1000 (sample_calls ++ mkCall 7 (sample_msg 1) 1 3 140 :: late_calls) New).1 in
  answers !! 4%nat = Some ([0; 10; 1; 11; 2; 12], true, false) /\ answers !! 7%nat = Some ([], false, true).
Proof.
  destruct (fragments_reassembled 7 3 sample_msg 1000 100 sample_calls (mkCall 7 (sample_msg 1) 1 3 140) late_calls New) as (_ & H1 & H2);
    [lia|done|lia|done|done| |done|by vm_compute| |by vm_compute| |].
  - repeat constructor; simpl; try lia; done.
  - apply (bool_decide_unpack _). by vm_compute.
  - repeat constructor; simpl; lia.
  - split; [exact H1|]. exact (H2 2%nat _ eq_refl eq_refl).
Defined.

(** The second fragment is empty: three arrivals count as three fragments of two, and
    still the message is not returned. *)
Definition blocked_calls : list (call (K := Z)) :=
  [mkCall 7 [1] 0 2 100; mkCall 7 [] 1 2 110; mkCall 7 [] 1 2 120; mkCall 7 [1] 0 2 130].

Lemma empty_fragment_blocks_witness :
  exists a b, (collect_all 1000 blocked_calls New).1 !! 3%nat = Some (a, false, b).
Proof.
  destruct ((collect_all 1000 blocked_calls New).1 !! 3%nat) as [[[a ready] b]|] eqn:E; [|by vm_compute in E].
  exists a, b. do 3 f_equal.
  eapply (empty_fragment_blocks 7 2 (fun i => if i =? 0 then [1] else []) 1000 1 blocked_calls New);
    [lia|lia|done|done| | | |exact E]; [|done|done].
  repeat constructor; simpl; lia || done.
Defined.
