(* ===== verification/SessionAccept.v ===== *)
(** * Session negotiation (masterdns vpnproto)

    src/masterdns/internal/vpnproto/session_accept.go: the SESSION_ACCEPT payload with
    the limits the server imposes on a client, its encoding, and their application to
    the client's settings. *)

From stdpp Require Import base tactics list strings.
From Stdlib Require Import ZArith Lia Floats.SpecFloat.
From S2P Require Import Prelude GoFloat.

Definition SessionAcceptBasePayloadSize : Z := 7.
Definition SessionAcceptPolicyPayloadSize : Z := 13.
Definition SessionAcceptPayloadSize : Z := SessionAcceptBasePayloadSize + SessionAcceptPolicyPayloadSize.

Definition SessionPolicyScaledMin : float64 := float64_lit 5 100.
Definition SessionPolicyScaledMax : float64 := float64_of_int 1.
(** [SessionPolicyScaledMax - SessionPolicyScaledMin], a constant expression. *)
Definition scaledSpan : float64 := float64_lit 95 100.

Record SessionAcceptClientPolicy := mkPolicy {
  MaxPacketDuplicationCount : Z;
  MaxSetupDuplicationCount : Z;
  MaxUploadMTU : Z;
  MaxDownloadMTU : Z;
  MaxRxTxWorkers : Z;
  MinPingAggressiveInterval : float64;
  MaxPacketsPerBatch : Z;
  MaxARQWindowSize : Z;
  MaxARQDataNackMaxGap : Z;
  MinCompressionMinSize : Z;
  MinARQInitialRTOSeconds : float64
}.

Record SessionAcceptPayload := mkAccept {
  SessionID : Z;
  SessionCookie : Z;
  CompressionPair : Z;
  VerifyCode : bytes;   (* [4]byte *)
  ClientPolicy : SessionAcceptClientPolicy;
  HasClientPolicySync : bool
}.

Record SessionAcceptClientSettings := mkSettings {
  PacketDuplicationCount : Z;
  SetupPacketDuplicationCount : Z;
  sMaxUploadMTU : Z;
  sMaxDownloadMTU : Z;
  RXTXWorkers : Z;
  PingAggressiveInterval : float64;
  sMaxPacketsPerBatch : Z;
  ARQWindowSize : Z;
  ARQDataNackMaxGap : Z;
  CompressionMinSize : Z;
  ARQInitialRTOSeconds : float64;
  ARQControlInitialRTOSeconds : float64;
  ARQMaxRTOSeconds : float64;
  ARQControlMaxRTOSeconds : float64
}.

Definition clampFloat64 (value minValue maxValue : float64) : float64 :=
  if flt value minValue then minValue else if flt maxValue value then maxValue else value.

Definition clampInt (value minValue maxValue : Z) : Z :=
  if value <? minValue then minValue else if maxValue <? value then maxValue else value.

Definition maxInt (a b : Z) : Z := if b <? a then a else b.

Definition EncodeSessionScaledByte (value : float64) : Z :=
  let clamped := clampFloat64 value SessionPolicyScaledMin SessionPolicyScaledMax in
  let normalized := fdiv (fsub clamped SessionPolicyScaledMin) scaledSpan in
  wrap8 (int_of_round (fmul normalized (float64_of_int 255))).

Definition DecodeSessionScaledByte (value : Z) : float64 :=
  let normalized := fdiv (float64_of_int value) (float64_of_int 255) in
  fadd SessionPolicyScaledMin (fmul normalized scaledSpan).

Definition EncodeSessionAcceptClientPolicy (policy : SessionAcceptClientPolicy) : bytes :=
  [wrap8 (Z.lor (Z.shiftl (clampInt (MaxSetupDuplicationCount policy) 0 15) 4)
            (clampInt (MaxPacketDuplicationCount policy) 0 15));
   wrap8 (clampInt (MaxUploadMTU policy) 0 255)] ++
  be16 (wrap16 (clampInt (MaxDownloadMTU policy) 0 65535)) ++
  [wrap8 (clampInt (MaxRxTxWorkers policy) 0 255);
   EncodeSessionScaledByte (MinPingAggressiveInterval policy);
   wrap8 (clampInt (MaxPacketsPerBatch policy) 0 255)] ++
  be16 (wrap16 (clampInt (MaxARQWindowSize policy) 0 65535)) ++
  [wrap8 (clampInt (MaxARQDataNackMaxGap policy) 0 255)] ++
  be16 (wrap16 (clampInt (MinCompressionMinSize policy) 0 65535)) ++
  [EncodeSessionScaledByte (MinARQInitialRTOSeconds policy)].

Inductive accept_error := TooShort | PolicyTooShort.

Definition DecodeSessionAcceptClientPolicy (payload : bytes) : outcome accept_error SessionAcceptClientPolicy :=
  if len payload <? SessionAcceptPolicyPayloadSize then Err PolicyTooShort
  else
    let! b0 := at_ payload 0 in
    let! b1 := at_ payload 1 in
    let! mtu := get16 payload 2 in
    let! b4 := at_ payload 4 in
    let! b5 := at_ payload 5 in
    let! b6 := at_ payload 6 in
    let! window := get16 payload 7 in
    let! b9 := at_ payload 9 in
    let! comp := get16 payload 10 in
    let! b12 := at_ payload 12 in
    Ok (mkPolicy (Z.land b0 15) (Z.land (Z.shiftr b0 4) 15) b1 mtu b4 (DecodeSessionScaledByte b5) b6 window b9 comp
          (DecodeSessionScaledByte b12)).

Definition EncodeSessionAcceptPayload (p : SessionAcceptPayload) : outcome accept_error bytes :=
  let size := if HasClientPolicySync p then SessionAcceptPayloadSize else SessionAcceptBasePayloadSize in
  let buf := make_bytes size in
  let! buf := put buf 0 (SessionID p) in
  let! buf := put buf 1 (SessionCookie p) in
  let! buf := put buf 2 (CompressionPair p) in
  let! buf := copy_at buf 3 (VerifyCode p) in
  if HasClientPolicySync p
  then copy_at buf SessionAcceptBasePayloadSize (EncodeSessionAcceptClientPolicy (ClientPolicy p))
  else Ok buf.

(** The zero value of the policy. *)
Definition zero_policy : SessionAcceptClientPolicy :=
  mkPolicy 0 0 0 0 0 (float64_of_int 0) 0 0 0 0 (float64_of_int 0).

Definition DecodeSessionAcceptPayload (payload : bytes) : outcome accept_error SessionAcceptPayload :=
  if len payload <? SessionAcceptBasePayloadSize then Err TooShort
  else
    let! b0 := at_ payload 0 in
    let! b1 := at_ payload 1 in
    let! b2 := at_ payload 2 in
    let! code := slice payload 3 7 in
    if SessionAcceptPayloadSize <=? len payload then
      let! rest := slice payload SessionAcceptBasePayloadSize SessionAcceptPayloadSize in
      let! policy := DecodeSessionAcceptClientPolicy rest in
      Ok (mkAccept b0 b1 b2 code policy true)
    else Ok (mkAccept b0 b1 b2 code zero_policy false).

Definition ApplySessionAcceptClientPolicy (current : SessionAcceptClientSettings) (policy : SessionAcceptClientPolicy) :
    SessionAcceptClientSettings :=
  let dup := clampInt (PacketDuplicationCount current) 1 (maxInt (MaxPacketDuplicationCount policy) 1) in
  mkSettings
    dup
    (clampInt (SetupPacketDuplicationCount current) dup (maxInt (MaxSetupDuplicationCount policy) dup))
    (clampInt (sMaxUploadMTU current) 1 (maxInt (MaxUploadMTU policy) 1))
    (clampInt (sMaxDownloadMTU current) 1 (maxInt (MaxDownloadMTU policy) 1))
    (clampInt (RXTXWorkers current) 1 (maxInt (MaxRxTxWorkers policy) 1))
    (clampFloat64 (PingAggressiveInterval current) (MinPingAggressiveInterval policy) (float64_of_int 30))
    (clampInt (sMaxPacketsPerBatch current) 1 (maxInt (MaxPacketsPerBatch policy) 1))
    (clampInt (ARQWindowSize current) 1 (maxInt (MaxARQWindowSize policy) 1))
    (clampInt (ARQDataNackMaxGap current) 0 (maxInt (MaxARQDataNackMaxGap policy) 0))
    (maxInt (CompressionMinSize current) (maxInt (MinCompressionMinSize policy) 1))
    (clampFloat64 (ARQInitialRTOSeconds current) (MinARQInitialRTOSeconds policy) (ARQMaxRTOSeconds current))
    (clampFloat64 (ARQControlInitialRTOSeconds current) (MinARQInitialRTOSeconds policy) (ARQControlMaxRTOSeconds current))
    (ARQMaxRTOSeconds current)
    (ARQControlMaxRTOSeconds current).

(** ** Round trip *)

(** What of a policy survives the wire: integers clamped to the width of their
    field, seconds rounded to one of 256 steps. *)
Definition on_wire (p : SessionAcceptClientPolicy) : SessionAcceptClientPolicy :=
  mkPolicy (clampInt (MaxPacketDuplicationCount p) 0 15) (clampInt (MaxSetupDuplicationCount p) 0 15)
    (clampInt (MaxUploadMTU p) 0 255) (clampInt (MaxDownloadMTU p) 0 65535) (clampInt (MaxRxTxWorkers p) 0 255)
    (DecodeSessionScaledByte (EncodeSessionScaledByte (MinPingAggressiveInterval p)))
    (clampInt (MaxPacketsPerBatch p) 0 255) (clampInt (MaxARQWindowSize p) 0 65535)
    (clampInt (MaxARQDataNackMaxGap p) 0 255) (clampInt (MinCompressionMinSize p) 0 65535)
    (DecodeSessionScaledByte (EncodeSessionScaledByte (MinARQInitialRTOSeconds p))).

Lemma clampInt_range v lo hi : lo <= hi -> lo <= clampInt v lo hi <= hi.
Proof. unfold clampInt. intros. repeat case_if; zbool; lia. Qed.

Lemma clampInt_id v lo hi : lo <= v <= hi -> clampInt v lo hi = v.
Proof. unfold clampInt. intros. repeat case_if; zbool; lia. Qed.

Lemma clampInt_idem v lo hi : lo <= hi -> clampInt (clampInt v lo hi) lo hi = clampInt v lo hi.
Proof. intros. apply clampInt_id. by apply clampInt_range. Qed.

(** Every byte is a fixed point of decoding and encoding. *)
Lemma scaled_byte_ok b : u8 b -> EncodeSessionScaledByte (DecodeSessionScaledByte b) = b.
Proof.
  intros Hb.
  assert (H : forallb (fun k => EncodeSessionScaledByte (DecodeSessionScaledByte (Z.of_nat k)) =? Z.of_nat k) (seq 0 256) = true)
    by (vm_compute; reflexivity).
  rewrite forallb_forall in H. specialize (H (Z.to_nat b)). rewrite Z2Nat.id in H by (unfold u8 in Hb; lia).
  apply Z.eqb_eq, H, in_seq. unfold u8 in Hb. lia.
Qed.

Lemma nibbles a b : 0 <= a <= 15 -> 0 <= b <= 15 ->
  let v := wrap8 (Z.lor (Z.shiftl a 4) b) in Z.land v 15 = b /\ Z.land (Z.shiftr v 4) 15 = a.
Proof.
  intros Ha Hb. assert (H : forallb (fun x => forallb (fun y =>
    let v := wrap8 (Z.lor (Z.shiftl (Z.of_nat x) 4) (Z.of_nat y)) in
    (Z.land v 15 =? Z.of_nat y) && (Z.land (Z.shiftr v 4) 15 =? Z.of_nat x)) (seq 0 16)) (seq 0 16) = true)
    by (vm_compute; reflexivity).
  rewrite forallb_forall in H. specialize (H (Z.to_nat a) ltac:(apply in_seq; lia)).
  rewrite forallb_forall in H. specialize (H (Z.to_nat b) ltac:(apply in_seq; lia)).
  rewrite !Z2Nat.id in H by lia. cbv zeta in *. apply andb_true_iff in H as [H1%Z.eqb_eq H2%Z.eqb_eq]. done.
Qed.

Lemma DecodePolicy_bytes b0 b1 b2 b3 b4 b5 b6 b7 b8 b9 b10 b11 b12 :
  DecodeSessionAcceptClientPolicy [b0; b1; b2; b3; b4; b5; b6; b7; b8; b9; b10; b11; b12] =
  Ok (mkPolicy (Z.land b0 15) (Z.land (Z.shiftr b0 4) 15) b1 (of_be16 b2 b3) b4 (DecodeSessionScaledByte b5) b6
        (of_be16 b7 b8) b9 (of_be16 b10 b11) (DecodeSessionScaledByte b12)).
Proof. reflexivity. Qed.

Lemma policy_roundtrip p : DecodeSessionAcceptClientPolicy (EncodeSessionAcceptClientPolicy p) = Ok (on_wire p).
Proof.
  assert (H8 : forall v, wrap8 (clampInt v 0 255) = clampInt v 0 255).
  { intros v. apply wrap8_id. pose proof (clampInt_range v 0 255). unfold u8. lia. }
  assert (H16 : forall v, u16 (clampInt v 0 65535)) by (intros v; pose proof (clampInt_range v 0 65535); unfold u16; lia).
  unfold EncodeSessionAcceptClientPolicy, on_wire.
  rewrite !H8, !wrap16_id by apply H16. unfold be16. cbn [app]. rewrite DecodePolicy_bytes.
  destruct (nibbles (clampInt (MaxSetupDuplicationCount p) 0 15) (clampInt (MaxPacketDuplicationCount p) 0 15))
    as [N1 N2]; [by apply clampInt_range..|]. cbv zeta in N1, N2. by rewrite N1, N2, !of_be16_be16 by apply H16.
Qed.

Lemma EncodePolicy_len p : len (EncodeSessionAcceptClientPolicy p) = 13.
Proof. reflexivity. Qed.

Lemma EncodePolicy_bytes p : bytes_ok (EncodeSessionAcceptClientPolicy p).
Proof.
  unfold EncodeSessionAcceptClientPolicy. repeat (apply bytes_ok_app; split); try apply bytes_ok_be16; repeat constructor; apply u8_wrap8.
Qed.

Definition accept_ok (p : SessionAcceptPayload) : Prop :=
  u8 (SessionID p) /\ u8 (SessionCookie p) /\ u8 (CompressionPair p) /\ len (VerifyCode p) = 4.

(** SESSION_ACCEPT round trip.  Encoding never indexes out of range and yields 7 bytes, or
    20 with a policy; decoding it gives back every field, the policy clamped to what
    its wire fields hold; and what was decoded once is encoded and decoded again
    without change, the scaled seconds included. *)
Theorem session_accept_roundtrip p :
  accept_ok p ->
  exists buf, EncodeSessionAcceptPayload p = Ok buf /\
    len buf = (if HasClientPolicySync p then SessionAcceptPayloadSize else SessionAcceptBasePayloadSize) /\
    DecodeSessionAcceptPayload buf =
      Ok (mkAccept (SessionID p) (SessionCookie p) (CompressionPair p) (VerifyCode p)
            (if HasClientPolicySync p then on_wire (ClientPolicy p) else zero_policy) (HasClientPolicySync p)) /\
    on_wire (on_wire (ClientPolicy p)) = on_wire (ClientPolicy p) /\ (bytes_ok (VerifyCode p) -> bytes_ok buf).
Proof.
  intros (H0 & H1 & H2 & Hv). destruct (VerifyCode p) as [|v0 [|v1 [|v2 [|v3 [|]]]]] eqn:Ev;
    unfold len in Hv; cbn [length] in Hv; try lia. clear Hv.
  assert (Hidem : on_wire (on_wire (ClientPolicy p)) = on_wire (ClientPolicy p)).
  { unfold on_wire. simpl. rewrite !clampInt_idem by lia. rewrite !scaled_byte_ok by apply u8_wrap8. done. }
  unfold EncodeSessionAcceptPayload. rewrite Ev. destruct (HasClientPolicySync p).
  - set (pol := EncodeSessionAcceptClientPolicy (ClientPolicy p)).
    exists ([SessionID p; SessionCookie p; CompressionPair p; v0; v1; v2; v3] ++ pol).
    split; [reflexivity|]. split; [reflexivity|]. split; [|split; [done|intros Hb; apply bytes_ok_app; split; [by do 3 (constructor; [done|])|apply EncodePolicy_bytes]]].
    assert (Hd : DecodeSessionAcceptPayload ([SessionID p; SessionCookie p; CompressionPair p; v0; v1; v2; v3] ++ pol) =
      let! policy := DecodeSessionAcceptClientPolicy pol in
      Ok (mkAccept (SessionID p) (SessionCookie p) (CompressionPair p) [v0; v1; v2; v3] policy true)) by reflexivity.
    rewrite Hd. unfold pol. by rewrite policy_roundtrip.
  - exists [SessionID p; SessionCookie p; CompressionPair p; v0; v1; v2; v3]. split_and!; try done. intros Hb. by do 3 (constructor; [done|]).
Qed.

Definition sample_policy : SessionAcceptClientPolicy :=
  mkPolicy 3 20 200 4000 8 (float64_lit 3 10) 12 8000 255 (-1) (float64_lit 2 1).

Lemma session_accept_roundtrip_witness :
  exists buf, EncodeSessionAcceptPayload (mkAccept 9 8 7 [1; 2; 3; 4] sample_policy true) = Ok buf /\ len buf = 20 /\
    MaxSetupDuplicationCount (on_wire sample_policy) = 15.
Proof.
  destruct (session_accept_roundtrip (mkAccept 9 8 7 [1; 2; 3; 4] sample_policy true)) as (buf & Hb & Hl & _).
  - repeat split; vm_compute; congruence.
  - exists buf. split; [exact Hb|]. split; [exact Hl|reflexivity].
Defined.

(** Negotiated limits.  After applying a policy, whatever its values, each integer
    setting of the client lies between its minimum and the server's limit, was not
    raised beyond that minimum, the setup duplication is at least the packet
    duplication, the compression threshold is at least the server's, and applying the
    same policy again changes none of them. *)
Theorem policy_limits c policy :
  let r := ApplySessionAcceptClientPolicy c policy in
  let r2 := ApplySessionAcceptClientPolicy r policy in
  (1 <= PacketDuplicationCount r <= Z.max (MaxPacketDuplicationCount policy) 1 /\
   PacketDuplicationCount r <= SetupPacketDuplicationCount r <=
     Z.max (MaxSetupDuplicationCount policy) (PacketDuplicationCount r) /\
   1 <= sMaxUploadMTU r <= Z.max (MaxUploadMTU policy) 1 /\ sMaxUploadMTU r <= Z.max (sMaxUploadMTU c) 1 /\
   1 <= sMaxDownloadMTU r <= Z.max (MaxDownloadMTU policy) 1 /\ sMaxDownloadMTU r <= Z.max (sMaxDownloadMTU c) 1 /\
   1 <= RXTXWorkers r <= Z.max (MaxRxTxWorkers policy) 1 /\ RXTXWorkers r <= Z.max (RXTXWorkers c) 1 /\
   1 <= sMaxPacketsPerBatch r <= Z.max (MaxPacketsPerBatch policy) 1 /\ sMaxPacketsPerBatch r <= Z.max (sMaxPacketsPerBatch c) 1 /\
   1 <= ARQWindowSize r <= Z.max (MaxARQWindowSize policy) 1 /\ ARQWindowSize r <= Z.max (ARQWindowSize c) 1 /\
   0 <= ARQDataNackMaxGap r <= Z.max (MaxARQDataNackMaxGap policy) 0 /\ ARQDataNackMaxGap r <= Z.max (ARQDataNackMaxGap c) 0 /\
   Z.max (MinCompressionMinSize policy) 1 <= CompressionMinSize r) /\
  (PacketDuplicationCount r2 = PacketDuplicationCount r /\
   SetupPacketDuplicationCount r2 = SetupPacketDuplicationCount r /\ sMaxUploadMTU r2 = sMaxUploadMTU r /\
   sMaxDownloadMTU r2 = sMaxDownloadMTU r /\ RXTXWorkers r2 = RXTXWorkers r /\
   sMaxPacketsPerBatch r2 = sMaxPacketsPerBatch r /\ ARQWindowSize r2 = ARQWindowSize r /\
   ARQDataNackMaxGap r2 = ARQDataNackMaxGap r /\ CompressionMinSize r2 = CompressionMinSize r).
Proof.
  cbv zeta. unfold ApplySessionAcceptClientPolicy. cbn [PacketDuplicationCount SetupPacketDuplicationCount sMaxUploadMTU
    sMaxDownloadMTU RXTXWorkers sMaxPacketsPerBatch ARQWindowSize ARQDataNackMaxGap CompressionMinSize].
  assert (Hm : forall a b, maxInt a b = Z.max a b) by (intros; unfold maxInt; case_if; zbool; lia). rewrite !Hm.
  assert (Hc : forall v lo hi, clampInt v lo (Z.max hi lo) = Z.min (Z.max v lo) (Z.max hi lo))
    by (intros; unfold clampInt; repeat case_if; zbool; lia).
  rewrite !Hc. repeat split; lia.
Qed.
