(* ===== verification/Inflight.v ===== *)
(** * In-flight request table (masterdns inflight)

    src/masterdns/internal/inflight/manager.go: of several callers with one key the
    first becomes the leader, the others wait for its result.  Entries are shared
    between the table and the callers, so they live in a heap and are named by a
    number; the [ready] channel of an entry is whether it was closed, and closing it
    twice is the panic of the language. *)

From stdpp Require Import base tactics list gmap strings.
From Stdlib Require Import ZArith Lia.
From S2P Require Import Prelude.

Section inflight.
Context {T : Type} (cloneValue : option (T -> T)).

Record Entry := mkInflight {
  createdAt : Z;
  ready : bool;          (* the channel is closed *)
  value : option T       (* the value, when [hasValue] *)
}.

Record Manager := mkManager {
  timeout : Z;
  cleanupWindow : Z;
  nextCleanupAt : Z;
  items : gmap string nat;
  heap : gmap nat Entry;
  next : nat
}.

#[export] Instance eta_manager : Eta Manager :=
  fun m => mkManager (timeout m) (cleanupWindow m) (nextCleanupAt m) (items m) (heap m) (next m).
#[export] Instance set_nextCleanupAt : Setter nextCleanupAt := ltac:(derive_setter).
#[export] Instance set_items : Setter items := ltac:(derive_setter).
#[export] Instance set_heap : Setter heap := ltac:(derive_setter).
#[export] Instance set_next : Setter next := ltac:(derive_setter).

Definition New (timeout' fallback : Z) : Manager :=
  let timeout' := if timeout' <=? 0 then fallback else timeout' in
  let window := Z.quot timeout' 4 in
  mkManager timeout' (if window <? 1000000000 then 1000000000 else window) 0 ∅ ∅ 0.

Definition clone (v : T) : T := match cloneValue with Some f => f v | None => v end.

(** An entry that is present and younger than the timeout. *)
Definition young (m : Manager) (now : Z) (id : nat) : bool :=
  match heap m !! id with Some e => now - createdAt e <? timeout m | None => false end.

Definition cleanup (now : Z) (m : Manager) : Manager :=
  if (nextCleanupAt m =? 0) || (nextCleanupAt m <=? now)
  then m <| items ::= filter (fun kv => young m now kv.2 = true) |> <| nextCleanupAt := now + cleanupWindow m |>
  else m.

(** The entry and whether the caller is its leader. *)
Definition Acquire (key : string) (now : Z) (m : Manager) : (option nat * bool) * Manager :=
  if bool_decide (key = EmptyString) then ((None, false), m)
  else
    let m := cleanup now m in
    let fresh :=
      let id := next m in
      ((Some id, true),
       m <| heap ::= <[id := mkInflight now false None]> |> <| items ::= <[key := id]> |> <| next ::= S |>) in
    match items m !! key with
    | Some id => if young m now id then ((Some id, false), m) else fresh
    | None => fresh
    end.

Definition Begin (key : string) (now : Z) (m : Manager) : bool * Manager :=
  let '((_, leader), m) := Acquire key now m in (leader, m).

Definition Resolve (key : string) (v : T) (hasValue : bool) (m : Manager) : outcome Empty_set Manager :=
  if bool_decide (key = EmptyString) then Ok m
  else
    match items m !! key with
    | None => Ok m
    | Some id =>
        let m := m <| items ::= delete key |> in
        match heap m !! id with
        | None => Ok m
        | Some e =>
            if ready e then Panic
            else Ok (m <| heap ::= <[id := mkInflight (createdAt e) true (if hasValue then Some (clone v) else value e)]> |>)
        end
    end.

(** [Wait] once the channel is closed; [None] while it is open (the caller then waits
    until its timer fires). *)
Definition Wait (id : nat) (m : Manager) : option (option T) :=
  match heap m !! id with
  | Some e => if ready e then Some (match value e with Some v => Some (clone v) | None => None end) else None
  | None => None
  end.

Inductive op :=
| OpAcquire (key : string) (now : Z)
| OpResolve (key : string) (v : T) (hasValue : bool).

Definition step (o : op) (m : Manager) : outcome Empty_set Manager :=
  match o with
  | OpAcquire key now => Ok (Acquire key now m).2
  | OpResolve key v hasValue => Resolve key v hasValue m
  end.

Fixpoint run (os : list op) (m : Manager) : outcome Empty_set Manager :=
  match os with
  | [] => Ok m
  | o :: os => let! m := step o m in run os m
  end.

(** ** Invariant: the table names distinct open entries *)

Record inv (m : Manager) : Prop := {
  in_heap : forall k id, items m !! k = Some id -> exists e, heap m !! id = Some e /\ ready e = false;
  in_inj : forall k k' id, items m !! k = Some id -> items m !! k' = Some id -> k = k';
  in_fresh : forall id, is_Some (heap m !! id) -> (id < next m)%nat
}.

Lemma cleanup_inv now m : inv m -> inv (cleanup now m).
Proof.
  intros [H1 H2 H3]. unfold cleanup. case_if; [|done]. split; simpl.
  - intros k id [Hk _]%map_lookup_filter_Some. eauto.
  - intros k k' id [Hk _]%map_lookup_filter_Some [Hk' _]%map_lookup_filter_Some. eauto.
  - done.
Qed.

Lemma fresh_inv key now m : inv m ->
  inv (m <| heap ::= <[next m := mkInflight now false None]> |> <| items ::= <[key := next m]> |> <| next ::= S |>).
Proof.
  intros [H1 H2 H3].
  assert (Hne : forall k id, items m !! k = Some id -> id <> next m).
  { intros k id Hk ->. destruct (H1 k _ Hk) as (e & He & _). pose proof (H3 (next m) (mk_is_Some _ _ He)). lia. }
  split; simpl.
  - intros k id. rewrite lookup_insert_Some. intros [[<- <-]|[_ Hk]]; [rewrite lookup_insert_eq; by eexists|].
    rewrite lookup_insert_ne by (symmetry; by eapply Hne). eauto.
  - intros k k' id. rewrite !lookup_insert_Some. intros [[<- <-]|[Hk1 Hk]] [[<- Hid]|[Hk2 Hk']]; try done; subst.
    + exfalso. by eapply (Hne k').
    + exfalso. by eapply (Hne k).
    + eauto.
  - intros id. rewrite lookup_insert_is_Some. intros [<-|[_ Hid]]; [lia|]. specialize (H3 id Hid). lia.
Qed.

Lemma Acquire_inv key now m : inv m -> inv (Acquire key now m).2.
Proof.
  intros I. unfold Acquire. case_if; [done|]. pose proof (cleanup_inv now m I) as I'.
  destruct (items (cleanup now m) !! key); [case_if; [done|]|]; by apply fresh_inv.
Qed.

Lemma Resolve_inv key v hv m : inv m -> exists m', Resolve key v hv m = Ok m' /\ inv m'.
Proof.
  intros [H1 H2 H3]. unfold Resolve. case_if; [by eexists|]. destruct (items m !! key) as [id|] eqn:Hk; [|by eexists].
  destruct (H1 key id Hk) as (e & He & Hr). simpl. rewrite He, Hr. eexists. split; [done|]. split; simpl.
  - intros k id'. rewrite lookup_delete_Some. intros [Hne Hk']. destruct (decide (id = id')) as [<-|Hid].
    + exfalso. apply Hne. by eapply H2.
    + rewrite lookup_insert_ne by done. eauto.
  - intros k k' id'. rewrite !lookup_delete_Some. intros [_ ?] [_ ?]. eauto.
  - intros id'. rewrite lookup_insert_is_Some. intros [<-|[_ ?]]; apply H3; [by eexists|done].
Qed.

Lemma run_inv os : forall m, inv m -> exists m', run os m = Ok m' /\ inv m'.
Proof.
  induction os as [|o os IH]; intros m I; cbn [run]; [by eexists|]. destruct o; cbn [step obind].
  - by apply IH, Acquire_inv.
  - destruct (Resolve_inv key v hasValue m I) as (m1 & -> & I1). by apply IH.
Qed.

Lemma New_inv t f : inv (New t f).
Proof. split; intros *; simpl; rewrite ?lookup_empty; try done. Qed.

(** ** One leader at a time *)

(** Entry [id] was created at [t] for [key] and is not resolved. *)
Definition leading (key : string) (id : nat) (t : Z) (m : Manager) : Prop :=
  items m !! key = Some id /\ exists v, heap m !! id = Some (mkInflight t false v).

(** Calls before the entry times out that do not resolve the key. *)
Definition meanwhile (key : string) (deadline : Z) (o : op) : Prop :=
  match o with OpAcquire _ now => now < deadline | OpResolve k _ _ => k <> key end.

Lemma cleanup_leading key id t now m : now - t < timeout m -> leading key id t m -> leading key id t (cleanup now m).
Proof.
  intros Ht [Hk (v & Hv)]. unfold cleanup. case_if; [|by split; eauto]. split; simpl; [|eauto].
  apply map_lookup_filter_Some. split; [done|]. simpl. unfold young. rewrite Hv. by apply Z.ltb_lt.
Qed.

Lemma cleanup_timeout now m : timeout (cleanup now m) = timeout m.
Proof. unfold cleanup. by case_if. Qed.

Lemma Acquire_leading key id t key' now m :
  inv m -> now - t < timeout m -> leading key id t m ->
  leading key id t (Acquire key' now m).2 /\ timeout (Acquire key' now m).2 = timeout m.
Proof.
  intros I Ht L. unfold Acquire. case_if; [done|]. pose proof (cleanup_leading key id t now m Ht L) as L'.
  pose proof (cleanup_timeout now m) as Et. pose proof (cleanup_inv now m I) as I'. set (m' := cleanup now m) in *.
  destruct L' as [Hk (v & Hv)].
  assert (Hid : (id < next m')%nat) by (apply (in_fresh _ I'); eauto).
  assert (Hfresh : key' <> key -> leading key id t (m' <| heap ::= <[next m' := mkInflight now false None]> |>
    <| items ::= <[key' := next m']> |> <| next ::= S |>)).
  { intros Hne. split; simpl; [by rewrite lookup_insert_ne|]. exists v. by rewrite lookup_insert_ne by lia. }
  destruct (decide (key' = key)) as [->|Hne].
  - rewrite Hk. unfold young. rewrite Hv. simpl. rewrite Et, (proj2 (Z.ltb_lt _ _)) by lia. split; [split; eauto|done].
  - destruct (items m' !! key'); [case_if; [split; [split; eauto|done]|]|]; (split; [by apply Hfresh|done]).
Qed.

Lemma Resolve_leading key id t key' v hv m m' :
  inv m -> key' <> key -> leading key id t m -> Resolve key' v hv m = Ok m' -> leading key id t m' /\ timeout m' = timeout m.
Proof.
  intros I Hne [Hk (v0 & Hv)]. unfold Resolve. case_if; [intros [= <-]; by split; [split; eauto|]|].
  destruct (items m !! key') as [id'|] eqn:Hk'; [|intros [= <-]; by split; [split; eauto|]].
  assert (id' <> id) by (intros ->; apply Hne; by eapply (in_inj _ I)). simpl.
  destruct (heap m !! id') as [e|]; [case_if; [done|]|]; intros [= <-]; (split; [|done]); split; simpl;
    rewrite ?lookup_delete_ne, ?lookup_insert_ne by done; eauto.
Qed.

Lemma run_leading key id t os : forall m, inv m -> leading key id t m -> Forall (meanwhile key (t + timeout m)) os ->
  exists m', run os m = Ok m' /\ inv m' /\ leading key id t m' /\ timeout m' = timeout m.
Proof.
  induction os as [|o os IH]; intros m I L Hf; cbn [run]; [by eexists|]. apply Forall_cons in Hf as [Ho Hf].
  destruct o as [key' now|key' v hv]; cbn [step obind meanwhile] in *.
  - destruct (Acquire_leading key id t key' now m I ltac:(lia) L) as [L' E]. rewrite <- E in Hf |- *.
    apply IH; [by apply Acquire_inv|done..].
  - destruct (Resolve_inv key' v hv m I) as (m1 & Hr & I1). rewrite Hr. cbn [obind].
    destruct (Resolve_leading key id t key' v hv m m1 I Ho L Hr) as [L' E]. rewrite <- E in Hf |- *. by apply IH.
Qed.

(** C34: One leader per key.  Any sequence of calls runs without closing a channel twice.
    When a caller becomes the leader of a key at time [t], then after any calls within
    the timeout that do not resolve that key, every further caller of the key gets the
    same entry and is not a leader, nobody waiting on it has been woken, and the
    leader's [Resolve] hands its value to all of them. *)
Theorem inflight_single_leader timeout' fallback os1 os2 key t v :
  exists m1, run os1 (New timeout' fallback) = Ok m1 /\
  forall id m2, Acquire key t m1 = ((Some id, true), m2) -> Forall (meanwhile key (t + timeout m2)) os2 ->
  exists m3, run os2 m2 = Ok m3 /\ Wait id m3 = None /\
    (forall now, now < t + timeout m2 -> (Acquire key now m3).1 = (Some id, false)) /\
    exists m4, Resolve key v true m3 = Ok m4 /\ Wait id m4 = Some (Some (clone (clone v))).
Proof.
  destruct (run_inv os1 _ (New_inv timeout' fallback)) as (m1 & Hr & I1). exists m1. split; [done|].
  intros id m2 Ha Hf. pose proof (Acquire_inv key t m1 I1) as I2. rewrite Ha in I2. simpl in I2.
  assert (Hkey : bool_decide (key = EmptyString) = false /\ leading key id t m2).
  { unfold Acquire in Ha. destruct (bool_decide _); [done|]. split; [done|].
    destruct (items (cleanup t m1) !! key); [destruct (young _ _ _); [done|]|]; injection Ha as <- <-;
      (split; simpl; [apply lookup_insert_eq|exists None; apply lookup_insert_eq]). }
  destruct Hkey as [Hne L2]. destruct (run_leading key id t os2 m2 I2 L2 Hf) as (m3 & Hr3 & I3 & L3 & E3).
  exists m3. split; [done|]. destruct L3 as [Hk (v0 & Hv)]. split; [unfold Wait; by rewrite Hv|]. split.
  - intros now Hnow. unfold Acquire. rewrite Hne.
    destruct (cleanup_leading key id t now m3) as [Hk' (v1 & Hv1)]; [lia|split; eauto|].
    rewrite Hk'. unfold young. rewrite Hv1. simpl. by rewrite cleanup_timeout, (proj2 (Z.ltb_lt _ _)) by lia.
  - unfold Resolve. rewrite Hne, Hk. simpl. rewrite Hv. simpl. eexists. split; [done|]. unfold Wait. simpl.
    by rewrite lookup_insert_eq.
Qed.
End inflight.

Lemma inflight_single_leader_witness :
  exists m3 m4, run (T := Z) None [OpAcquire "b" 15; OpAcquire "a" 20] (Acquire "a" 10 (New 5000 1)).2 = Ok m3 /\
    (Acquire "a" 30 m3).1 = (Some 0%nat, false) /\ Wait None 0 m4 = Some (Some 7).
Proof.
  destruct (inflight_single_leader (T := Z) None 5000 1 [] [OpAcquire "b" 15; OpAcquire "a" 20] "a" 10 7) as (m1 & Hr & H).
  injection Hr as <-. destruct (H 0%nat _ eq_refl) as (m3 & H3 & _ & Ha & m4 & _ & Hw); [repeat constructor|].
  exists m3, m4. split; [exact H3|]. split; [apply Ha; vm_compute; reflexivity|exact Hw].
Defined.
