(* ===== verification/GoHeap.v ===== *)
(** The binary heap of Go's [container/heap], used by the session records of the server
    (src/masterdns/internal/udpserver/session.go).  Elements are compared by an integer
    key; [Push], [Pop], [up] and [down] are those of the package, on the slice as a list. *)

From stdpp Require Import base tactics list.
From Stdlib Require Import ZArith Lia.
From S2P Require Import Prelude.

Module Heap.
Section heap.
Context {A : Type} (key : A -> Z).

Definition less (l : list A) (i j : nat) : bool :=
  match l !! i, l !! j with Some x, Some y => key x <? key y | _, _ => false end.

Definition swap (l : list A) (i j : nat) : list A :=
  match l !! i, l !! j with Some x, Some y => <[i := y]> (<[j := x]> l) | _, _ => l end.

Definition parent (j : nat) : nat := Nat.div2 (j - 1).

Fixpoint up (fuel : nat) (l : list A) (j : nat) : list A :=
  match fuel with
  | O => l
  | S fuel =>
      let i := parent j in
      if (i =? j)%nat || negb (less l j i) then l else up fuel (swap l i j) i
  end.

Fixpoint down (fuel : nat) (l : list A) (i n : nat) : list A :=
  match fuel with
  | O => l
  | S fuel =>
      let j1 := (2 * i + 1)%nat in
      if (n <=? j1)%nat then l
      else
        let j2 := S j1 in
        let j := if (j2 <? n)%nat && less l j2 j1 then j2 else j1 in
        if negb (less l j i) then l else down fuel (swap l i j) j n
  end.

Definition Push (l : list A) (x : A) : list A := up (S (length l)) (l ++ [x]) (length l).

Definition Pop (l : list A) : option (A * list A) :=
  let n := (length l - 1)%nat in
  let l := down (length l) (swap l 0 n) 0 n in
  match l !! n with Some x => Some (x, take n l) | None => None end.

(** ** Correctness *)

(** Every element of the first [n] but the first is at least its parent, except where
    [but] says so. *)
Definition ordered (n : nat) (but : nat -> Prop) (l : list A) : Prop :=
  forall j x y, (0 < j < n)%nat -> ~ but j -> l !! parent j = Some x -> l !! j = Some y -> key x <= key y.

Definition heap_ok (l : list A) : Prop := ordered (length l) (fun _ => False) l.

Lemma lookup_swap l i j k x y : l !! i = Some x -> l !! j = Some y ->
  swap l i j !! k = if decide (k = i) then Some y else if decide (k = j) then Some x else l !! k.
Proof.
  intros Hi Hj. unfold swap. rewrite Hi, Hj. pose proof (lookup_lt_Some _ _ _ Hi). pose proof (lookup_lt_Some _ _ _ Hj).
  destruct (decide (k = i)) as [->|]; [by rewrite list_lookup_insert_eq by (rewrite length_insert; lia)|].
  rewrite list_lookup_insert_ne by done. destruct (decide (k = j)) as [->|]; [by rewrite list_lookup_insert_eq by lia|].
  by rewrite list_lookup_insert_ne by done.
Qed.

Lemma swap_length l i j : length (swap l i j) = length l.
Proof. unfold swap. destruct (l !! i), (l !! j); by rewrite ?length_insert. Qed.

Lemma swap_perm l i j : swap l i j ≡ₚ l.
Proof.
  unfold swap. destruct (l !! i) as [x|] eqn:Hi; [|done]. destruct (l !! j) as [y|] eqn:Hj; [|done].
  by apply Permutation_insert_swap.
Qed.

Lemma parent_lt j : (0 < j)%nat -> (parent j < j)%nat.
Proof. intros. unfold parent. pose proof (Nat.div2_decr (j - 1) (j - 1) ltac:(lia)). lia. Qed.

Lemma parent_child j i : (0 < j)%nat -> parent j = i <-> j = (2 * i + 1)%nat \/ j = (2 * i + 2)%nat.
Proof.
  intros Hj. unfold parent. rewrite Nat.div2_div. split.
  - intros <-. pose proof (Nat.div_mod_eq (j - 1) 2). pose proof (Nat.mod_upper_bound (j - 1) 2). lia.
  - intros [->| ->]; [replace (2 * i + 1 - 1)%nat with (i * 2)%nat by lia; apply Nat.div_mul; lia|].
    replace (2 * i + 2 - 1)%nat with (1 + i * 2)%nat by lia. rewrite Nat.div_add by lia. done.
Qed.

Lemma up_perm fuel l j : up fuel l j ≡ₚ l.
Proof. revert l j. induction fuel as [|fuel IH]; intros l j; cbn [up]; [done|]. case_if; [done|]. by rewrite IH, swap_perm. Qed.

Lemma down_perm fuel l i n : down fuel l i n ≡ₚ l.
Proof.
  revert l i. induction fuel as [|fuel IH]; intros l i; cbn [down]; [done|].
  destruct (n <=? _)%nat; [done|]. destruct (negb _); [done|]. by rewrite IH, swap_perm.
Qed.

(** [up] repairs a heap whose element [j] may be too small; its parent is not above its
    children. *)
Lemma up_ok fuel : forall l j, (j < fuel)%nat -> (j < length l)%nat -> ordered (length l) (fun k => k = j) l ->
  (forall k x y, (0 < k < length l)%nat -> (0 < j)%nat -> parent k = j -> l !! parent j = Some x -> l !! k = Some y -> key x <= key y) ->
  heap_ok (up fuel l j).
Proof.
  induction fuel as [|fuel IH]; intros l j Hf Hj Ho Hg; [lia|]. cbn [up]. set (i := parent j).
  destruct (Nat.eqb_spec i j) as [Heq|Hne]; cbn [orb].
  { assert (j = 0)%nat by (destruct (Nat.eq_dec j 0); [done|]; pose proof (parent_lt j ltac:(lia)); unfold i in Heq; lia).
    intros k x y Hk _ Hx Hy. eapply Ho; eauto. lia. }
  assert (Hj0 : (0 < j)%nat) by (destruct j; [done|lia]). pose proof (parent_lt j Hj0) as Hlt. fold i in Hlt.
  destruct (lookup_lt_is_Some_2 l j Hj) as [y Hy]. destruct (lookup_lt_is_Some_2 l i ltac:(lia)) as [x Hx].
  unfold less. rewrite Hy, Hx. destruct (Z.ltb_spec (key y) (key x)) as [Hyx|Hxy]; cbn [negb].
  2:{ intros k a b Hk _ Ha Hb. destruct (decide (k = j)) as [->|]; [fold i in Ha; congruence|]. by eapply Ho. }
  apply IH; [lia|rewrite swap_length; lia|rewrite swap_length..].
  - intros k a b Hk Hki Ha Hb. rewrite (lookup_swap l i j _ x y Hx Hy) in Ha. rewrite (lookup_swap l i j _ x y Hx Hy) in Hb.
    rewrite (decide_False (P := k = i)) in Hb by done. destruct (decide (k = j)) as [->|Hkj].
    { fold i in Ha. rewrite decide_True in Ha by done. injection Ha as <-. injection Hb as <-. lia. }
    destruct (decide (parent k = i)) as [Hp|Hp].
    { injection Ha as <-. assert (key x <= key b); [|lia]. eapply (Ho k); [done|done| |exact Hb]. by rewrite Hp. }
    destruct (decide (parent k = j)) as [Hp2|Hp2]; [|by eapply Ho].
    injection Ha as <-. eapply (Hg k); eauto.
  - intros k a b Hk Hi0 Hp Ha Hb. rewrite (lookup_swap l i j _ x y Hx Hy) in Ha. rewrite (lookup_swap l i j _ x y Hx Hy) in Hb.
    pose proof (parent_lt i Hi0) as Hpi. rewrite !decide_False in Ha by lia.
    assert (Hax : key a <= key x) by (eapply (Ho i); [lia|lia|exact Ha|exact Hx]).
    pose proof (parent_lt k ltac:(lia)). rewrite (decide_False (P := k = i)) in Hb by lia.
    destruct (decide (k = j)) as [->|Hkj]; [injection Hb as <-; done|].
    assert (key x <= key b); [|lia]. eapply (Ho k); [done|done| |exact Hb]. by rewrite Hp.
Qed.

Lemma Push_heap l x : heap_ok l -> heap_ok (Push l x) /\ Push l x ≡ₚ x :: l.
Proof.
  intros Hl. unfold Push. split.
  - apply up_ok; [lia|rewrite length_app; cbn; lia| |].
    + intros j a b Hj Hne Ha Hb. rewrite length_app in Hj. cbn [length] in Hj. pose proof (parent_lt j ltac:(lia)).
      rewrite lookup_app_l in Ha, Hb by lia. eapply (Hl j); eauto. lia.
    + intros k a b Hk Hj Hp _ _. rewrite length_app in Hk. cbn [length] in Hk. pose proof (parent_lt k ltac:(lia)). lia.
  - rewrite up_perm. by rewrite Permutation_app_comm.
Qed.

Lemma less_spec l i j x y : l !! i = Some x -> l !! j = Some y -> less l i j = (key x <? key y).
Proof. intros Hx Hy. unfold less. by rewrite Hx, Hy. Qed.

(** [down] repairs the first [n] elements where [i] may be too large for its children. *)
Lemma down_ok fuel n : forall l i, (n <= i + fuel)%nat -> (n <= length l)%nat -> (i < n)%nat ->
  ordered n (fun k => parent k = i) l ->
  (forall k x y, (0 < k < n)%nat -> (0 < i)%nat -> parent k = i -> l !! parent i = Some x -> l !! k = Some y -> key x <= key y) ->
  ordered n (fun _ => False) (down fuel l i n) /\ length (down fuel l i n) = length l /\
  (forall k, (n <= k)%nat -> down fuel l i n !! k = l !! k).
Proof.
  induction fuel as [|fuel IH]; intros l i Hf Hn Hi Ho Hg; [lia|]. cbn [down]. set (j1 := (2 * i + 1)%nat).
  assert (Hpj : forall k, (0 < k)%nat -> parent k = i <-> k = j1 \/ k = S j1).
  { intros k Hk. rewrite parent_child by done. unfold j1. lia. }
  destruct (Nat.leb_spec n j1) as [Hge|Hlt].
  { split; [|done]. intros k a b Hk _ Ha Hb. eapply (Ho k); eauto. rewrite Hpj by lia. lia. }
  destruct (lookup_lt_is_Some_2 l i ltac:(lia)) as [xi Hxi]. destruct (lookup_lt_is_Some_2 l j1 ltac:(lia)) as [x1 Hx1].
  set (j := if (S j1 <? n)%nat && less l (S j1) j1 then S j1 else j1).
  assert (Hj : (j = j1 \/ j = S j1) /\ (j < n)%nat /\ exists xj, l !! j = Some xj /\ key xj <= key x1 /\
    (forall x2, (S j1 < n)%nat -> l !! S j1 = Some x2 -> key xj <= key x2)).
  { unfold j. destruct (Nat.ltb_spec (S j1) n) as [H2|H2]; cbn [andb].
    - destruct (lookup_lt_is_Some_2 l (S j1) ltac:(lia)) as [x2 Hx2]. rewrite (less_spec _ _ _ _ _ Hx2 Hx1).
      destruct (Z.ltb_spec (key x2) (key x1)).
      + split; [by right|]. split; [done|]. exists x2. split_and!; [done|lia|]. intros x3 _ Hx3. replace x3 with x2 by congruence. lia.
      + split; [by left|]. split; [done|]. exists x1. split_and!; [done|lia|]. intros x3 _ Hx3. replace x3 with x2 by congruence. lia.
    - split; [by left|]. split; [done|]. exists x1. split_and!; [done|lia|lia]. }
  destruct Hj as (Hj12 & Hjn & xj & Hxj & Hj1 & Hj2). rewrite (less_spec _ _ _ _ _ Hxj Hxi).
  assert (Hmin : forall k y, (0 < k < n)%nat -> parent k = i -> l !! k = Some y -> key xj <= key y).
  { intros k y Hk Hp Hy. rewrite Hpj in Hp by lia. destruct Hp as [->| ->]; [by replace y with x1 by congruence|]. by apply Hj2; [lia|]. }
  destruct (Z.ltb_spec (key xj) (key xi)) as [Hswap|Hdone]; cbn [negb].
  2:{ split; [|done]. intros k a b Hk _ Ha Hb. destruct (decide (parent k = i)) as [Hp|Hp]; [|by eapply Ho].
      rewrite Hp in Ha. assert (a = xi) as -> by congruence. specialize (Hmin k b Hk Hp Hb). lia. }
  assert (Hij : (i < j)%nat) by (unfold j1 in *; lia). assert (Hpji : parent j = i) by (by apply Hpj; [lia|]).
  destruct (IH (swap l i j) j) as (H1 & H2 & H3); [lia|by rewrite swap_length|done| | |].
  - intros k a b Hk Hpk Ha Hb. rewrite (lookup_swap l i j _ xi xj Hxi Hxj) in Ha. rewrite (lookup_swap l i j _ xi xj Hxi Hxj) in Hb. rewrite (decide_False (P := parent k = j)) in Ha by done.
    destruct (decide (k = i)) as [->|Hki].
    { injection Hb as <-. pose proof (parent_lt i ltac:(lia)). rewrite (decide_False (P := parent i = i)) in Ha by lia. eapply (Hg j); eauto; lia. }
    destruct (decide (parent k = i)) as [Hp|Hp].
    { injection Ha as <-. destruct (decide (k = j)) as [->|]; [injection Hb as <-; lia|]. by eapply Hmin. }
    rewrite (decide_False (P := k = j)) in Hb by congruence. by eapply Ho.
  - intros k a b Hk _ Hp Ha Hb. rewrite (lookup_swap l i j _ xi xj Hxi Hxj) in Ha. rewrite (lookup_swap l i j _ xi xj Hxi Hxj) in Hb. rewrite Hpji, decide_True in Ha by done. injection Ha as <-.
    pose proof (parent_lt k ltac:(lia)). rewrite !decide_False in Hb by lia. eapply (Ho k); [done| |by rewrite Hp|done]. lia.
  - rewrite swap_length in H2. split; [done|]. split; [done|]. intros k Hk. rewrite H3 by done.
    rewrite (lookup_swap l i j _ xi xj Hxi Hxj), !decide_False by lia. done.
Qed.

Lemma heap_min l x y k : heap_ok l -> l !! 0%nat = Some x -> l !! k = Some y -> key x <= key y.
Proof.
  intros Hl Hx. revert y. induction k as [k IH] using lt_wf_ind. intros y Hy. destruct k as [|k]; [by replace y with x by congruence|].
  pose proof (lookup_lt_Some _ _ _ Hy) as Hlt. pose proof (parent_lt (S k) ltac:(lia)) as Hp.
  destruct (lookup_lt_is_Some_2 l (parent (S k)) ltac:(lia)) as [z Hz]. transitivity (key z); [by eapply IH|]. eapply Hl; eauto. lia.
Qed.

Lemma Pop_nil : Pop [] = None.
Proof. done. Qed.

Lemma Pop_heap l x l0 : heap_ok l -> l = x :: l0 ->
  exists l', Pop l = Some (x, l') /\ heap_ok l' /\ l ≡ₚ x :: l' /\ forall y, y ∈ l -> key x <= key y.
Proof.
  intros Hl Heq. assert (Hx : l !! 0%nat = Some x) by (by subst l).
  remember (length l - 1)%nat as n eqn:En. assert (Hlen : length l = S n) by (subst; simpl; lia). destruct (lookup_lt_is_Some_2 l n ltac:(lia)) as [z Hz].
  assert (Hmin : forall y, y ∈ l -> key x <= key y).
  { intros y (k & Hk)%list_elem_of_lookup. by eapply heap_min. }
  assert (Hdown : ordered n (fun _ => False) (down (length l) (swap l 0 n) 0 n) /\ length (down (length l) (swap l 0 n) 0 n) = S n /\
    down (length l) (swap l 0 n) 0 n !! n = Some x).
  { assert (Hsw : swap l 0 n !! n = Some x).
    { rewrite (lookup_swap l 0 n n x z Hx Hz). destruct (decide (n = 0%nat)) as [E|]; [by rewrite E in Hz; congruence|by rewrite decide_True]. }
    destruct (decide (n = 0%nat)) as [E|Hn].
    { clear En. subst n. rewrite Hlen. change (down 1 (swap l 0 0) 0 0) with (swap l 0 0). split_and!; [intros ????; lia|by rewrite swap_length|done]. }
    destruct (down_ok (length l) n (swap l 0 n) 0) as (H1 & H2 & H3); [lia|rewrite swap_length; lia|lia| |intros; lia|].
    - intros k a b Hk Hp Ha Hb. rewrite (lookup_swap l 0 n _ x z Hx Hz) in Ha. rewrite (lookup_swap l 0 n _ x z Hx Hz) in Hb. pose proof (parent_lt k ltac:(lia)).
      rewrite !decide_False in Ha by lia. rewrite !decide_False in Hb by lia. eapply (Hl k); eauto. lia.
    - split; [done|]. split; [by rewrite H2, swap_length|]. by rewrite H3 by lia. }
  destruct Hdown as (Ho & Hlend & Hn). exists (take n (down (length l) (swap l 0 n) 0 n)). unfold Pop. rewrite <- En, Hn.
  split_and!; [done| | |done].
  - intros k a b Hk _ Ha Hb. rewrite length_take in Hk. apply lookup_take_Some in Ha as [Ha _]. apply lookup_take_Some in Hb as [Hb _].
    eapply (Ho k); eauto. lia.
  - rewrite <- (swap_perm l 0 n) at 1. rewrite <- (down_perm (length l) (swap l 0 n) 0 n) at 1.
    rewrite <- (take_drop n (down (length l) (swap l 0 n) 0 n)) at 1. rewrite (drop_S _ x n Hn), drop_ge by lia. by rewrite Permutation_app_comm.
Qed.
End heap.
End Heap.
