(* ===== verification/Session.v ===== *)
(** A session of the server: [sessionRecord] of
    src/masterdns/internal/udpserver/session.go, with the table of its streams.

    A [*Stream_server] is an address of the record's object store: the map [Streams], the
    cached snapshot of the active streams and the scheduler all refer to streams by
    address, and an object is its ARQ state with its transmit queue (ArqState.v,
    TxQueue.v).  The operations run under [StreamsMu]; each is one function of the record.
    [time.Now()] is an argument.  The version counter of the active streams, a uint64, is
    an integer here.  [streamCleanup], the server's hook on a closed stream, touches
    nothing of the record and is left to the caller. *)

From stdpp Require Import base tactics list gmap strings sorting.
From Stdlib Require Import ZArith Lia.
From S2P Require Import Prelude Enums Mlq Compression VpnProto GoFloat ArqState Arq TxQueue ArqData ArqControl ArqEvents GoHeap.

Module Session.

Definition sessionInitDataSize : Z := 10.

Record recentlyClosedStreamRecord := mkClosed { ClosedAt : Z; SuppressOrphan : bool }.

Record recentlyClosedEntry := mkEntry { entryStream : Z; closedAt : Z }.

(** A stream object: the ARQ and the [Stream_server] that is its enqueuer. *)
Abbreviation stream := (ARQ * StreamServer.Stream_server)%type.

Record sessionRecord := mkSession {
  ID : Z;
  Cookie : Z;
  ResponseMode : Z;
  UploadCompression : Z;
  DownloadCompression : Z;
  UploadMTU : Z;
  DownloadMTU : Z;
  DownloadMTUBytes : Z;
  VerifyCode : bytes;
  Signature : bytes;
  MaxPackedBlocks : Z;
  reuseUntilUnixNano : Z;
  lastActivityUnixNano : Z;
  lastDeferredCleanupActivityUnixNano : Z;
  objects : gmap nat stream;
  Streams : gmap Z nat;
  ActiveStreams : list Z;
  activeStreamSetVersion : Z;
  activeStreamSnapshotIDs : list Z;
  activeStreamSnapshotStreams : list (option nat);
  activeStreamSnapshotVersion : Z;
  RRStreamID : Z;
  RecentlyClosed : gmap Z recentlyClosedStreamRecord;
  RecentlyClosedHeap : list recentlyClosedEntry;
  RecentlyClosedTTL : Z;
  RecentlyClosedCap : Z;
  OrphanQueue : MultiLevelQueue Packet;
  LastPackedControlBlock : option Packet;
  LastPackedControlBlockRemaining : Z;
  MaxActiveStreamsPerSession : Z;
  closedFlag : bool
}.

#[export] Instance eta_session : Eta sessionRecord := fun r =>
  mkSession (ID r) (Cookie r) (ResponseMode r) (UploadCompression r) (DownloadCompression r) (UploadMTU r) (DownloadMTU r)
    (DownloadMTUBytes r) (VerifyCode r) (Signature r) (MaxPackedBlocks r) (reuseUntilUnixNano r) (lastActivityUnixNano r)
    (lastDeferredCleanupActivityUnixNano r) (objects r) (Streams r) (ActiveStreams r) (activeStreamSetVersion r)
    (activeStreamSnapshotIDs r) (activeStreamSnapshotStreams r) (activeStreamSnapshotVersion r) (RRStreamID r)
    (RecentlyClosed r) (RecentlyClosedHeap r) (RecentlyClosedTTL r) (RecentlyClosedCap r) (OrphanQueue r)
    (LastPackedControlBlock r) (LastPackedControlBlockRemaining r) (MaxActiveStreamsPerSession r) (closedFlag r).
#[export] Instance set_Cookie : Setter Cookie := ltac:(derive_setter).
#[export] Instance set_UploadCompression : Setter UploadCompression := ltac:(derive_setter).
#[export] Instance set_DownloadCompression : Setter DownloadCompression := ltac:(derive_setter).
#[export] Instance set_UploadMTU : Setter UploadMTU := ltac:(derive_setter).
#[export] Instance set_DownloadMTU : Setter DownloadMTU := ltac:(derive_setter).
#[export] Instance set_DownloadMTUBytes : Setter DownloadMTUBytes := ltac:(derive_setter).
#[export] Instance set_VerifyCode : Setter VerifyCode := ltac:(derive_setter).
#[export] Instance set_MaxPackedBlocks : Setter MaxPackedBlocks := ltac:(derive_setter).
#[export] Instance set_reuseUntil : Setter reuseUntilUnixNano := ltac:(derive_setter).
#[export] Instance set_lastActivity : Setter lastActivityUnixNano := ltac:(derive_setter).
#[export] Instance set_lastDeferred : Setter lastDeferredCleanupActivityUnixNano := ltac:(derive_setter).
#[export] Instance set_objects : Setter objects := ltac:(derive_setter).
#[export] Instance set_Streams : Setter Streams := ltac:(derive_setter).
#[export] Instance set_ActiveStreams : Setter ActiveStreams := ltac:(derive_setter).
#[export] Instance set_version : Setter activeStreamSetVersion := ltac:(derive_setter).
#[export] Instance set_snapshotIDs : Setter activeStreamSnapshotIDs := ltac:(derive_setter).
#[export] Instance set_snapshotStreams : Setter activeStreamSnapshotStreams := ltac:(derive_setter).
#[export] Instance set_snapshotVersion : Setter activeStreamSnapshotVersion := ltac:(derive_setter).
#[export] Instance set_RRStreamID : Setter RRStreamID := ltac:(derive_setter).
#[export] Instance set_RecentlyClosed : Setter RecentlyClosed := ltac:(derive_setter).
#[export] Instance set_RecentlyClosedHeap : Setter RecentlyClosedHeap := ltac:(derive_setter).
#[export] Instance set_OrphanQueue : Setter OrphanQueue := ltac:(derive_setter).
#[export] Instance set_LastPacked : Setter LastPackedControlBlock := ltac:(derive_setter).
#[export] Instance set_LastPackedRemaining : Setter LastPackedControlBlockRemaining := ltac:(derive_setter).
#[export] Instance set_closedFlag : Setter closedFlag := ltac:(derive_setter).

#[local] Existing Instances StreamServer.set_clock StreamServer.set_Status StreamServer.set_CloseTime.

(** ** Flags and activity *)

Definition markClosed (r : sessionRecord) : sessionRecord := r <| closedFlag := true |>.
Definition reopen (r : sessionRecord) : sessionRecord := r <| closedFlag := false |>.
Definition isClosed (r : sessionRecord) : bool := closedFlag r.

Definition setLastActivityUnixNano (now : Z) (r : sessionRecord) : sessionRecord := r <| lastActivityUnixNano := now |>.
Definition lastActivity (r : sessionRecord) : Z := lastActivityUnixNano r.
Definition lastDeferredCleanupActivity (r : sessionRecord) : Z := lastDeferredCleanupActivityUnixNano r.
Definition markDeferredCleanupActivity (activity : Z) (r : sessionRecord) : sessionRecord :=
  r <| lastDeferredCleanupActivityUnixNano := activity |>.

(** ** Streams *)

Definition markActiveStreamsChangedLocked (r : sessionRecord) : sessionRecord := r <| activeStreamSetVersion ::= Z.succ |>.

Definition canCreateAdditionalStreamLocked (streamID : Z) (r : sessionRecord) : bool :=
  if streamID =? 0 then true
  else if bool_decide (is_Some (Streams r !! streamID)) then true
  else
    let limit := if MaxActiveStreamsPerSession r <=? 0 then 2000 else MaxActiveStreamsPerSession r in
    let activeStreams := Z.of_nat (size (Streams r)) in
    let activeStreams := if bool_decide (is_Some (Streams r !! 0)) then activeStreams - 1 else activeStreams in
    activeStreams <? limit.

Definition canCreateAdditionalStream (streamID : Z) (r : sessionRecord) : bool :=
  if isClosed r then false else canCreateAdditionalStreamLocked streamID r.

(** [insertAt] of the loop over the active streams. *)
Fixpoint insert_pos (l : list Z) (i insertAt : nat) (streamID : Z) : nat :=
  match l with
  | [] => insertAt
  | id :: l => if streamID <? id then i else insert_pos l (S i) (S i) streamID
  end.

Definition insert_active (streamID : Z) (l : list Z) : list Z :=
  let insertAt := insert_pos l 0 0 streamID in
  take insertAt l ++ streamID :: drop insertAt l.

(** The address of the stream, or None where the code returns nil. *)
Definition getOrCreateStream (streamID : Z) (cfg : Config) (conn : bool) (now : Z) (r : sessionRecord) :
    option nat * sessionRecord :=
  if isClosed r then (None, r)
  else
    match Streams r !! streamID with
    | Some a => (Some a, r)
    | None =>
        if negb (canCreateAdditionalStreamLocked streamID r) then (None, r)
        else
          let r := r <| RecentlyClosed ::= delete streamID |> in
          let s := (Start (NewARQ streamID (ID r) conn (DownloadMTUBytes r) cfg now), StreamServer.NewStreamServer streamID now) in
          let a := fresh (dom (objects r)) in
          let r := r <| objects ::= <[a := s]> |> <| Streams ::= <[streamID := a]> |> in
          (Some a,
           if bool_decide (streamID ∈ ActiveStreams r) then r
           else markActiveStreamsChangedLocked (r <| ActiveStreams ::= insert_active streamID |>))
    end.

(** [arq.Config{IsVirtual: true}] *)
Definition virtual_config : Config :=
  let z := float64_of_int 0 in
  {| WindowSize := 0; RTO := z; MaxRTO := z; IsVirtual := true; StartPaused := false; EnableControlReliability := false;
     ControlRTO := z; ControlMaxRTO := z; ControlMaxRetries := 0; InactivityTimeout := z; DataPacketTTL := z;
     MaxDataRetries := 0; ControlPacketTTL := z; DataNackMaxGap := 0; DataNackInitialDelaySeconds := z;
     DataNackRepeatSeconds := z; TerminalDrainTimeout := z; TerminalAckWaitTimeout := z; CfgCompressionType := 0;
     CfgIsClient := false; InboundQueueSize := 0 |}.

Definition ensureStream0 (now : Z) (r : sessionRecord) : sessionRecord :=
  if isClosed r then r else (getOrCreateStream 0 virtual_config false now r).2.

Definition getStream (streamID : Z) (r : sessionRecord) : option nat :=
  if isClosed r then None else Streams r !! streamID.

(** [append(l[:i], l[i+1:]...)] at the first position of the stream. *)
Definition removeActiveStreamLocked (streamID : Z) (r : sessionRecord) : sessionRecord :=
  match list_find (fun id => id = streamID) (ActiveStreams r) with
  | Some (i, _) => markActiveStreamsChangedLocked (r <| ActiveStreams ::= fun l => take i l ++ drop (S i) l |>)
  | None => r
  end.

Definition deactivateStream (streamID : Z) (r : sessionRecord) : sessionRecord :=
  if isClosed r || (streamID =? 0) then r else removeActiveStreamLocked streamID r.

(** ** Recently closed streams *)

Definition closedStreamRecordTTL (r : sessionRecord) : Z := if RecentlyClosedTTL r <=? 0 then 600 * 1000000000 else RecentlyClosedTTL r.
Definition closedStreamRecordCap (r : sessionRecord) : Z := if RecentlyClosedCap r <? 1 then 2000 else RecentlyClosedCap r.

(** Whether a heap entry still describes the record of its stream. *)
Definition current_entry (m : gmap Z recentlyClosedStreamRecord) (e : recentlyClosedEntry) : bool :=
  match m !! entryStream e with Some c => ClosedAt c =? closedAt e | None => false end.

(** [heap.Pop(&r.RecentlyClosedHeap)] with its result dropped. *)
Definition heap_pop (h : list recentlyClosedEntry) : list recentlyClosedEntry :=
  match Heap.Pop closedAt h with Some (_, h) => h | None => h end.

(** Every turn of the loop takes an entry from the heap. *)
Fixpoint prune_loop (fuel : nat) (expiredBefore : Z) (m : gmap Z recentlyClosedStreamRecord) (h : list recentlyClosedEntry) :
    gmap Z recentlyClosedStreamRecord * list recentlyClosedEntry :=
  match fuel, h with
  | O, _ | _, [] => (m, h)
  | S fuel, entry :: _ =>
      if negb (current_entry m entry) then prune_loop fuel expiredBefore m (heap_pop h)
      else if closedAt entry <? expiredBefore then prune_loop fuel expiredBefore (delete (entryStream entry) m) (heap_pop h)
      else (m, h)
  end.

Definition pruneRecentlyClosedLocked (now : Z) (r : sessionRecord) : sessionRecord :=
  let '(m, h) := prune_loop (length (RecentlyClosedHeap r)) (now - closedStreamRecordTTL r) (RecentlyClosed r) (RecentlyClosedHeap r) in
  r <| RecentlyClosed := m |> <| RecentlyClosedHeap := h |>.

Definition pruneRecentlyClosed (now : Z) (r : sessionRecord) : sessionRecord :=
  if isClosed r then r else pruneRecentlyClosedLocked now r.

Fixpoint evict_loop (fuel : nat) (capacity : Z) (m : gmap Z recentlyClosedStreamRecord) (h : list recentlyClosedEntry) :
    gmap Z recentlyClosedStreamRecord * list recentlyClosedEntry :=
  match fuel with
  | O => (m, h)
  | S fuel =>
      if (capacity <? Z.of_nat (size m)) && (0 <? len h) then
        match Heap.Pop closedAt h with
        | None => (m, h)
        | Some (entry, h) => evict_loop fuel capacity (if current_entry m entry then delete (entryStream entry) m else m) h
        end
      else (m, h)
  end.

Definition evictOldestRecentlyClosedLocked (r : sessionRecord) : sessionRecord :=
  let '(m, h) := evict_loop (length (RecentlyClosedHeap r)) (closedStreamRecordCap r) (RecentlyClosed r) (RecentlyClosedHeap r) in
  r <| RecentlyClosed := m |> <| RecentlyClosedHeap := h |>.

Definition noteStreamClosed (streamID now : Z) (suppressOrphan : bool) (r : sessionRecord) : sessionRecord :=
  if isClosed r || (streamID =? 0) then r
  else
    let r := pruneRecentlyClosedLocked now r in
    let r := r <| RecentlyClosed ::= <[streamID := mkClosed now suppressOrphan]> |>
               <| RecentlyClosedHeap ::= fun h => Heap.Push closedAt h (mkEntry streamID now) |> in
    evictOldestRecentlyClosedLocked r.

Definition isRecentlyClosed (streamID now : Z) (r : sessionRecord) : bool :=
  if isClosed r then false
  else match RecentlyClosed r !! streamID with
       | None => false
       | Some c => now - ClosedAt c <=? closedStreamRecordTTL r
       end.

Definition shouldSuppressOrphanForClosedStream (streamID now : Z) (r : sessionRecord) : bool :=
  if isClosed r then false
  else match RecentlyClosed r !! streamID with
       | None => false
       | Some c => (now - ClosedAt c <=? closedStreamRecordTTL r) && SuppressOrphan c
       end.

Definition removeStream (streamID now : Z) (suppressOrphan : bool) (r : sessionRecord) : sessionRecord :=
  if isClosed r || (streamID =? 0) then r
  else
    let r := removeActiveStreamLocked streamID (r <| Streams ::= delete streamID |>) in
    noteStreamClosed streamID now suppressOrphan r.

(** [strings.Contains] and [strings.HasSuffix]. *)
Fixpoint Contains (s sub : string) : bool :=
  String.prefix sub s || match s with EmptyString => false | String.String _ s => Contains s sub end.

Definition HasSuffix (s suffix : string) : bool :=
  (String.length suffix <=? String.length s)%nat &&
  String.eqb (String.substring (String.length s - String.length suffix) (String.length suffix) s) suffix.

Definition shouldSuppressServerOrphanForCloseReason (reason : string) : bool :=
  Contains reason "close handshake completed" || HasSuffix reason "acknowledged".

Definition onStreamClosed (streamID now : Z) (reason : string) (r : sessionRecord) : sessionRecord :=
  if streamID =? 0 then r else removeStream streamID now (shouldSuppressServerOrphanForCloseReason reason) r.

(** ** The snapshot of the active streams *)

Definition activeStreamSnapshot (r : sessionRecord) : list Z * list (option nat) * sessionRecord :=
  if isClosed r then ([], [], r)
  else
    let r :=
      if activeStreamSetVersion r =? activeStreamSnapshotVersion r then r
      else r <| activeStreamSnapshotIDs := ActiveStreams r |>
             <| activeStreamSnapshotStreams := map (fun id => Streams r !! id) (ActiveStreams r) |>
             <| activeStreamSnapshotVersion := activeStreamSetVersion r |> in
    (activeStreamSnapshotIDs r, activeStreamSnapshotStreams r, r).

(** ** Closing streams *)

(** [stream.finalizeAfterARQClose(reason)] with the session's hook. *)
Definition finalizeStream (a : nat) (now : Z) (reason : string) (r : sessionRecord) : sessionRecord :=
  match objects r !! a with
  | None => r
  | Some (q, s) =>
      if StreamServer.cleanupDone s then r
      else
        let r := r <| objects ::= <[a := (q, StreamServer.finalizeAfterARQClose (s <| StreamServer.clock := now |>))]> |> in
        onStreamClosed (StreamServer.ID s) now reason r
  end.

(** An event of the ARQ of a stream ([handle], ArqEvents.v), with the session's hook when the
    ARQ ended. *)
Definition streamEvent (a : nat) (now : Z) (e : event) (r : sessionRecord) : sessionRecord :=
  match objects r !! a with
  | None => r
  | Some s =>
      let s' := handle now e (s.1, s.2 <| StreamServer.clock := now |>) in
      let r := r <| objects ::= <[a := s']> |> in
      if negb (StreamServer.cleanupDone s.2) && StreamServer.cleanupDone s'.2
      then onStreamClosed (StreamServer.ID s.2) now (closeReason s'.1) r else r
  end.

(** [s.ARQ.Close(reason, opts)] *)
Definition closeStream (a : nat) (reason : string) (opts : CloseOptions) (now : Z) (r : sessionRecord) : sessionRecord :=
  streamEvent a now (EvClose reason opts) r.

(** [stream.Abort(reason)] *)
Definition abortStream (a : nat) (reason : string) (now : Z) (r : sessionRecord) : sessionRecord :=
  let r := r <| objects ::= alter (fun s : stream => (s.1, StreamServer.closeUpstreamOnly "CLOSED" (s.2 <| StreamServer.clock := now |>))) a |> in
  closeStream a reason send_rst now r.

Definition force_close : CloseOptions := mkCloseOptions true false false false false 0.

(** One stream of [closeAllStreams]. *)
Definition close_one (reason : string) (now : Z) (r : sessionRecord) (a : nat) : sessionRecord :=
  let r := if bool_decide (reason = "session closed cleanup"%string) then closeStream a reason force_close now r
           else abortStream a reason now r in
  finalizeStream a now reason r.

Definition closeAllStreams (reason : string) (now : Z) (r : sessionRecord) : sessionRecord :=
  let r := markClosed r in
  let r := fold_left (close_one reason now) (map snd (map_to_list (Streams r))) r in
  let r := markActiveStreamsChangedLocked (r <| Streams := ∅ |> <| ActiveStreams := [] |>) in
  r <| OrphanQueue ::= fun q => (Mlq.Clear q).2 |>.

(** What [cleanupTerminalStreams] does to one stream: its new status and whether it is
    removed. *)
Definition terminal_status (now retention : Z) (s : stream) : bool * stream :=
  let '(q, v) := s in
  let v :=
    match state q with
    | StateDraining => v <| StreamServer.Status := "DRAINING"%string |>
    | StateHalfClosedLocal | StateHalfClosedRemote | StateClosing => v <| StreamServer.Status := "CLOSING"%string |>
    | StateTimeWait => v <| StreamServer.Status := "TIME_WAIT"%string |>
    | _ => v
    end in
  let forceClosedExpired := negb (IsZero (StreamServer.CloseTime v)) && (retention <=? now - StreamServer.CloseTime v) in
  if closed q || forceClosedExpired then
    let v := if IsZero (StreamServer.CloseTime v) then v <| StreamServer.CloseTime := now |> else v in
    let v := v <| StreamServer.Status := "TIME_WAIT"%string |> in
    (forceClosedExpired || (retention <=? now - StreamServer.CloseTime v), (q, v))
  else (false, (q, v)).

(** The first loop: statuses, and the streams to remove. *)
Definition terminal_scan (now retention : Z) (snapshot : list (Z * nat)) (r : sessionRecord) : list (Z * nat) * sessionRecord :=
  fold_left (fun '(removeIDs, r) '(streamID, a) =>
    if streamID =? 0 then (removeIDs, r)
    else match objects r !! a with
         | None => (removeIDs, r)
         | Some s =>
             let '(remove, s) := terminal_status now retention s in
             (if (remove : bool) then removeIDs ++ [(streamID, a)] else removeIDs, r <| objects ::= <[a := s]> |>)
         end) snapshot ([], r).

Definition terminal_remove (now : Z) (r : sessionRecord) (e : Z * nat) : sessionRecord :=
  let '(streamID, a) := e in
  let r := abortStream a "terminal stream retention cleanup" now r in
  let r := finalizeStream a now "terminal stream retention cleanup" r in
  removeStream streamID now false r.

Definition cleanupTerminalStreams (now retention : Z) (r : sessionRecord) : sessionRecord :=
  if isClosed r then r
  else
    let '(removeIDs, r) := terminal_scan now retention (map_to_list (Streams r)) r in
    fold_left (terminal_remove now) removeIDs r.

(** ** Resets for streams that do not exist *)

Definition orphanResetKey (packetType streamID : Z) : Z := PacketTypeStreamKey streamID packetType.

Definition enqueueOrphanReset (packetType streamID sequenceNum : Z) (r : sessionRecord) : sessionRecord :=
  if isClosed r || (streamID =? 0) then r
  else
    let packet := mkPacket 0 packetType 0 true streamID (negb (sequenceNum =? 0)) sequenceNum false 0 0 false 0 0 [] in
    r <| OrphanQueue ::= fun q => (Mlq.Push q 0 (orphanResetKey packetType streamID) packet).2 |>.
End Session.
