(* ===== verification/SessionInv.v ===== *)
(** The invariant of a session of the server, and the memory of its closed streams.

    Session.v defines the operations of src/masterdns/internal/udpserver/session.go on one
    session; here every operation keeps the table of streams, the sorted list of the
    active ones, its cached snapshot and the bounded memory of closed streams consistent. *)

From stdpp Require Import base tactics list gmap strings sorting.
From Stdlib Require Import ZArith Lia.
From S2P Require Import Prelude Enums Mlq Compression VpnProto GoFloat ArqState Arq TxQueue ArqData ArqControl ArqEvents ArqKeeps GoHeap Session.
Import Session.

#[local] Arguments insert_active : simpl never.

(** The number of a stream does not change. *)
Lemma handle_ID now e (s : stream) : StreamServer.ID (handle now e s).2 = StreamServer.ID s.2.
Proof.
  assert (Hr : forall t sn w, StreamServer.ID (StreamServer.remove_one t sn w).2 = StreamServer.ID w).
  { intros t sn w. unfold StreamServer.remove_one. by destruct (Mlq.RemoveByKey _ _). }
  apply (handle_keeps (fun w => StreamServer.ID w = StreamServer.ID s.2)); [..|done].
  - intros w r <-. cbn [PushTXPacket StreamServer.server_enqueuer]. unfold StreamServer.PushTXPacket. by destruct (push_queue _ _ _ _).
  - intros w reason' <-. cbn [OnARQClosed StreamServer.server_enqueuer]. unfold StreamServer.OnARQClosed, StreamServer.finalizeAfterARQClose.
    by case_if.
  - intros w sn <-. cbn [RemoveQueuedData StreamServer.server_enqueuer]. unfold StreamServer.RemoveQueuedData.
    pose proof (Hr PACKET_STREAM_DATA sn w) as H1. destruct (StreamServer.remove_one PACKET_STREAM_DATA sn w) as [r1 w1].
    pose proof (Hr PACKET_STREAM_RESEND sn w1) as H2. destruct (StreamServer.remove_one PACKET_STREAM_RESEND sn w1). cbn in *. congruence.
  - intros w sn <-. apply Hr.
Qed.

(** ** The sorted list of active streams *)

Fixpoint insert_sorted (x : Z) (l : list Z) : list Z :=
  match l with [] => [x] | y :: l' => if x <? y then x :: l else y :: insert_sorted x l' end.

Lemma insert_active_sorted x l : insert_active x l = insert_sorted x l.
Proof.
  unfold insert_active. assert (Hgen : forall l i, exists k, insert_pos l i i x = (i + k)%nat /\ take k l ++ x :: drop k l = insert_sorted x l).
  { clear l. induction l as [|y l IH]; intros i; cbn [insert_pos insert_sorted]; [exists 0%nat; by rewrite Nat.add_0_r|].
    destruct (x <? y); [exists 0%nat; by rewrite Nat.add_0_r|]. destruct (IH (S i)) as (k & Hk & Hl). exists (S k).
    rewrite Hk. split; [lia|]. cbn [take drop app]. by rewrite Hl. }
  destruct (Hgen l 0%nat) as (k & -> & Hl). exact Hl.
Qed.

Lemma insert_sorted_perm x l : insert_sorted x l ≡ₚ x :: l.
Proof. induction l as [|y l IH]; cbn [insert_sorted]; [done|]. destruct (x <? y); [done|]. rewrite IH. apply Permutation_swap. Qed.

Lemma insert_sorted_ok x l : x ∉ l -> StronglySorted Z.lt l -> StronglySorted Z.lt (insert_sorted x l).
Proof.
  intros Hx. induction 1 as [|y l Hl IH Hy]; cbn [insert_sorted]; [by repeat constructor|].
  apply not_elem_of_cons in Hx as [Hne Hx]. destruct (Z.ltb_spec x y).
  - constructor; [by constructor|]. constructor; [done|]. eapply Forall_impl; [exact Hy|]. intros z Hz. simpl in Hz. lia.
  - constructor; [by apply IH|]. rewrite insert_sorted_perm. constructor; [lia|done].
Qed.

Lemma sorted_filter (P : Z -> Prop) `{!forall x, Decision (P x)} l : StronglySorted Z.lt l -> StronglySorted Z.lt (filter P l).
Proof.
  induction 1 as [|x l Hl IH Hx]; [constructor|]. rewrite filter_cons. case_decide; [|done]. constructor; [done|].
  rewrite Forall_forall in *. intros y [_ Hy]%list_elem_of_filter. by apply Hx.
Qed.

Lemma remove_found x l i y : StronglySorted Z.lt l -> list_find (fun id => id = x) l = Some (i, y) ->
  take i l ++ drop (S i) l = filter (fun id => id <> x) l.
Proof.
  intros Hs. revert i. induction Hs as [|z l Hl IH Hz]; intros i Hf; [done|]. cbn [list_find] in Hf. rewrite filter_cons. case_decide as Hzx.
  - injection Hf as <- <-. subst z. rewrite decide_False by naive_solver. cbn [take drop app]. symmetry. apply list_filter_all.
    eapply Forall_impl; [exact Hz|]. intros w Hw. simpl in Hw. lia.
  - destruct (list_find _ l) as [[j w]|] eqn:E; [|done]. injection Hf as <- <-. rewrite decide_True by done. cbn [take drop app]. f_equal. by apply IH.
Qed.

Lemma remove_absent (x : Z) l : list_find (fun id => id = x) l = None -> filter (fun id => id <> x) l = l.
Proof. intros H%list_find_None. apply list_filter_all. eapply Forall_impl; [exact H|]. done. Qed.

(** ** The memory of closed streams *)

Abbreviation closed_map := (gmap Z recentlyClosedStreamRecord).

(** The heap knows every record of the map. *)
Definition tracked (m : closed_map) (h : list recentlyClosedEntry) : Prop :=
  Heap.heap_ok closedAt h /\ forall id c, m !! id = Some c -> mkEntry id (ClosedAt c) ∈ h.

Lemma tracked_nil m : tracked m [] -> m = ∅.
Proof.
  intros [_ H]. apply map_empty. intros i. destruct (m !! i) as [c|] eqn:E; [|done]. apply H in E. by apply elem_of_nil in E.
Qed.

Lemma current_true m e : current_entry m e = true -> exists c, m !! entryStream e = Some c /\ ClosedAt c = closedAt e.
Proof. unfold current_entry. destruct (m !! entryStream e) as [c|]; [|done]. intros ?%Z.eqb_eq. eauto. Qed.

(** What a pop leaves tracked. *)
Lemma pop_tracked m e h : tracked m (e :: h) ->
  exists h', Heap.Pop closedAt (e :: h) = Some (e, h') /\ length h' = length h /\
    (forall id c, m !! id = Some c -> closedAt e <= ClosedAt c) /\
    tracked (if current_entry m e then delete (entryStream e) m else m) h' /\ (forall x, x ∈ h' -> x ∈ e :: h).
Proof.
  intros [Hh Ht]. destruct (Heap.Pop_heap closedAt (e :: h) e h Hh eq_refl) as (h' & Hp & Hh' & Hperm & Hmin).
  exists h'. split; [done|]. split; [by apply Permutation_length in Hperm; simpl in Hperm; lia|].
  split; [intros id c Hc; apply (Hmin _ (Ht id c Hc))|]. split; [split; [done|]|intros x Hx; rewrite Hperm; by right].
  intros id c Hc. assert (Hin : forall id c, m !! id = Some c -> mkEntry id (ClosedAt c) <> e -> mkEntry id (ClosedAt c) ∈ h').
  { intros id' c' Hc' Hne. pose proof (Ht id' c' Hc') as Hin. rewrite Hperm in Hin. apply elem_of_cons in Hin as [Heq|]; [by destruct (Hne Heq)|done]. }
  destruct (current_entry m e) eqn:Hcur.
  - apply lookup_delete_Some in Hc as [Hne Hc]. apply Hin; [done|]. intros He. apply Hne. by rewrite <- He.
  - apply Hin; [done|]. intros He. unfold current_entry in Hcur. rewrite <- He in Hcur. cbn in Hcur. rewrite Hc in Hcur. by rewrite Z.eqb_refl in Hcur.
Qed.

Definition fresh_enough (expiredBefore : Z) (x : Z * recentlyClosedStreamRecord) : Prop := expiredBefore <= ClosedAt x.2.

#[export] Instance fresh_enough_dec t x : Decision (fresh_enough t x) := Z_le_dec _ _.

(** Pruning removes the expired records and nothing else. *)
Lemma prune_spec exp : forall fuel m h, (length h <= fuel)%nat -> tracked m h ->
  let '(m', h') := prune_loop fuel exp m h in m' = filter (fresh_enough exp) m /\ tracked m' h' /\ (forall x, x ∈ h' -> x ∈ h).
Proof.
  induction fuel as [|fuel IH]; intros m h Hf Ht.
  { destruct h; [|simpl in Hf; lia]. cbn [prune_loop]. rewrite (tracked_nil m Ht) in *. by rewrite map_filter_empty. }
  destruct h as [|e h]; cbn [prune_loop].
  { rewrite (tracked_nil m Ht) in *. by rewrite map_filter_empty. }
  destruct (pop_tracked m e h Ht) as (h' & Hp & Hlen & Hmin & Ht' & Hsub). unfold heap_pop. rewrite Hp.
  destruct (current_entry m e) eqn:Hcur; cbn [negb].
  - destruct (Z.ltb_spec (closedAt e) exp) as [Hexp|Hok].
    + specialize (IH (delete (entryStream e) m) h' ltac:(simpl in Hf; lia) Ht'). destruct (prune_loop fuel exp _ h') as [m2 h2].
      destruct IH as (-> & Ht2 & Hs2). split; [|split; [done|intros x Hx; by apply Hsub, Hs2]].
      destruct (current_true m e Hcur) as (c & Hc & Hca). rewrite map_filter_delete_not; [done|].
      intros c' Hc' Hfr. unfold fresh_enough in Hfr. cbn in Hfr. assert (c' = c) as -> by congruence. lia.
    + split; [|done]. symmetry. apply map_filter_id. intros id c Hc. unfold fresh_enough. cbn. specialize (Hmin id c Hc). lia.
  - specialize (IH m h' ltac:(simpl in Hf; lia) Ht'). destruct (prune_loop fuel exp m h') as [m2 h2].
    destruct IH as (-> & Ht2 & Hs2). split; [done|]. split; [done|]. intros x Hx. by apply Hsub, Hs2.
Qed.

(** Eviction keeps the newest records, as many as fit. *)
Lemma evict_spec cap : 0 <= cap -> forall fuel m h, (length h <= fuel)%nat -> tracked m h ->
  let '(m', h') := evict_loop fuel cap m h in
  m' ⊆ m /\ tracked m' h' /\ Z.of_nat (size m') = Z.min cap (Z.of_nat (size m)) /\
  (forall id c id' c', m !! id = Some c -> m' !! id = None -> m' !! id' = Some c' -> ClosedAt c <= ClosedAt c').
Proof.
  intros Hcap. induction fuel as [|fuel IH]; intros m h Hf Ht; cbn [evict_loop].
  { destruct h; [|simpl in Hf; lia]. rewrite (tracked_nil m Ht) in *. rewrite map_size_empty. split_and!; [done|done|lia|done]. }
  destruct (Z.ltb_spec cap (Z.of_nat (size m))) as [Hbig|Hfit]; cbn [andb].
  2:{ split_and!; [done|done|lia|]. intros id c id' c' Hc Hn _. congruence. }
  destruct h as [|e h].
  { rewrite (tracked_nil m Ht) in Hbig. rewrite map_size_empty in Hbig. lia. }
  rewrite len_cons, (proj2 (Z.ltb_lt 0 _)) by (pose proof (len_nonneg h); lia).
  destruct (pop_tracked m e h Ht) as (h' & -> & Hlen & Hmin & Ht' & _). set (m1 := if current_entry m e then _ else m) in *.
  specialize (IH m1 h' ltac:(simpl in Hf; lia) Ht'). destruct (evict_loop fuel cap m1 h') as [m2 h2].
  destruct IH as (Hsub & Ht2 & Hsz & Hord).
  assert (Hm1 : m1 ⊆ m) by (unfold m1; case_if; [apply delete_subseteq|done]). split_and!; [by transitivity m1|done| |].
  - rewrite Hsz. unfold m1. destruct (current_entry m e) eqn:Hcur; [|done]. destruct (current_true m e Hcur) as (c & Hc & _).
    rewrite map_size_delete, Hc. assert (size m <> 0)%nat by lia. lia.
  - intros id c id' c' Hc Hn Hc'. destruct (m1 !! id) as [c1|] eqn:E1.
    + assert (c1 = c) as -> by (eapply lookup_weaken in E1; [|exact Hm1]; congruence). by eapply Hord.
    + assert (He : id = entryStream e /\ ClosedAt c = closedAt e).
      { unfold m1 in E1. destruct (current_entry m e) eqn:Hcur; [|congruence]. destruct (current_true m e Hcur) as (c0 & Hc0 & Ha).
        destruct (decide (id = entryStream e)) as [->|Hne]; [split; [done|congruence]|]. rewrite lookup_delete_ne in E1 by done. congruence. }
      destruct He as [_ ->]. apply (Hmin id'). eapply lookup_weaken; [exact Hc'|]. by transitivity m1.
Qed.

(** ** The invariant *)

Definition stream_limit (r : sessionRecord) : Z := if MaxActiveStreamsPerSession r <=? 0 then 2000 else MaxActiveStreamsPerSession r.

Record wf (r : sessionRecord) : Prop := {
  (** the active streams are sorted and in the table *)
  wf_sorted : StronglySorted Z.lt (ActiveStreams r);
  wf_active : forall id, id ∈ ActiveStreams r -> is_Some (Streams r !! id);
  (** the table points to objects with the right number *)
  wf_objects : forall id a, Streams r !! id = Some a -> exists s, objects r !! a = Some s /\ StreamServer.ID s.2 = id;
  (** a snapshot of the current version is the current list *)
  wf_version : activeStreamSnapshotVersion r <= activeStreamSetVersion r;
  wf_snapshot : activeStreamSnapshotVersion r = activeStreamSetVersion r ->
    activeStreamSnapshotIDs r = ActiveStreams r /\ activeStreamSnapshotStreams r = map (fun id => Streams r !! id) (ActiveStreams r);
  (** the number of streams but stream 0 is bounded *)
  wf_limit : Z.of_nat (size (delete 0 (Streams r))) <= stream_limit r;
  (** no stream is open and closed; the memory of closed ones is bounded *)
  wf_disjoint : forall id, is_Some (Streams r !! id) -> RecentlyClosed r !! id = None;
  wf_tracked : tracked (RecentlyClosed r) (RecentlyClosedHeap r);
  wf_cap : Z.of_nat (size (RecentlyClosed r)) <= closedStreamRecordCap r;
  wf_zero : RecentlyClosed r !! 0 = None
}.

Lemma cap_pos r : 1 <= closedStreamRecordCap r.
Proof. unfold closedStreamRecordCap. destruct (Z.ltb_spec (RecentlyClosedCap r) 1); lia. Qed.

(** The records agree on what the invariant is about. *)
Lemma wf_same r r' : wf r -> Streams r' = Streams r -> ActiveStreams r' = ActiveStreams r -> objects r' = objects r ->
  activeStreamSetVersion r' = activeStreamSetVersion r -> activeStreamSnapshotVersion r' = activeStreamSnapshotVersion r ->
  activeStreamSnapshotIDs r' = activeStreamSnapshotIDs r -> activeStreamSnapshotStreams r' = activeStreamSnapshotStreams r ->
  MaxActiveStreamsPerSession r' = MaxActiveStreamsPerSession r -> RecentlyClosed r' = RecentlyClosed r ->
  RecentlyClosedHeap r' = RecentlyClosedHeap r -> RecentlyClosedCap r' = RecentlyClosedCap r -> wf r'.
Proof.
  intros [] H1 H2 H3 H4 H5 H6 H7 H8 H9 H10 H11. split; unfold stream_limit, closedStreamRecordCap in *; rewrite ?H1, ?H2, ?H3, ?H4, ?H5, ?H6, ?H7, ?H8, ?H9, ?H10, ?H11; done.
Qed.

Lemma wf_object r a s s' : wf r -> objects r !! a = Some s -> StreamServer.ID s'.2 = StreamServer.ID s.2 ->
  wf (r <| objects ::= <[a := s']> |>).
Proof.
  intros [] Ha Hid. split; try done. cbn. intros id a' Hs. destruct (wf_objects0 id a' Hs) as (s0 & Hs0 & Hid0).
  destruct (decide (a' = a)) as [->|Hne]; [|rewrite lookup_insert_ne by done; eauto]. rewrite lookup_insert_eq. exists s'. split; [done|]. congruence.
Qed.

Lemma wf_removeActive id r : wf r -> wf (removeActiveStreamLocked id r) /\
  ActiveStreams (removeActiveStreamLocked id r) = filter (fun x => x <> id) (ActiveStreams r).
Proof.
  intros Hwf. pose proof Hwf as []. unfold removeActiveStreamLocked. destruct (list_find _ (ActiveStreams r)) as [[i x]|] eqn:E.
  2:{ split; [done|]. by rewrite remove_absent. }
  assert (Hf : take i (ActiveStreams r) ++ drop (S i) (ActiveStreams r) = filter (fun y => y <> id) (ActiveStreams r)) by (by eapply remove_found).
  split; [|exact Hf]. split; try done; unfold markActiveStreamsChangedLocked; cbn.
  - rewrite Hf. by apply sorted_filter.
  - rewrite Hf. intros y [_ Hy]%list_elem_of_filter. by apply wf_active0.
  - lia.
  - lia.
Qed.

(** The records after a stream was noted as closed: the fresh ones and the new one, cut
    to the capacity. *)
Definition noted (id now : Z) (sup : bool) (r : sessionRecord) : closed_map :=
  <[id := mkClosed now sup]> (filter (fresh_enough (now - closedStreamRecordTTL r)) (RecentlyClosed r)).

Lemma note_shape id now sup r : tracked (RecentlyClosed r) (RecentlyClosedHeap r) -> isClosed r = false -> id <> 0 ->
  exists m h, noteStreamClosed id now sup r = r <| RecentlyClosed := m |> <| RecentlyClosedHeap := h |> /\
    m ⊆ noted id now sup r /\ tracked m h /\ Z.of_nat (size m) = Z.min (closedStreamRecordCap r) (Z.of_nat (size (noted id now sup r))) /\
    (forall x c y c', noted id now sup r !! x = Some c -> m !! x = None -> m !! y = Some c' -> ClosedAt c <= ClosedAt c').
Proof.
  intros Ht Hcl Hid. unfold noteStreamClosed. rewrite Hcl, (proj2 (Z.eqb_neq id 0)) by done. cbn [orb]. unfold pruneRecentlyClosedLocked.
  pose proof (prune_spec (now - closedStreamRecordTTL r) (length (RecentlyClosedHeap r)) _ _ (le_n _) Ht) as Hp.
  destruct (prune_loop _ _ _ _) as [m1 h1]. destruct Hp as (-> & [Hh1 Ht1] & _). unfold evictOldestRecentlyClosedLocked.
  assert (Ht2 : tracked (noted id now sup r) (Heap.Push closedAt h1 (mkEntry id now))).
  { destruct (Heap.Push_heap closedAt h1 (mkEntry id now) Hh1) as [Hh' Hperm]. split; [done|]. unfold noted.
    intros x c Hx. rewrite Hperm. apply lookup_insert_Some in Hx as [[<- <-]|[_ Hx]]; [by left|right; by apply Ht1]. }
  pose proof (evict_spec (closedStreamRecordCap r) ltac:(pose proof (cap_pos r); lia) _ _ _ (le_n _) Ht2) as He.
  unfold noted, closedStreamRecordCap in *. cbn. destruct (evict_loop _ _ _ _) as [m3 h3]. exists m3, h3. by split.
Qed.

Lemma wf_note id now sup r : wf r -> Streams r !! id = None -> wf (noteStreamClosed id now sup r).
Proof.
  intros Hwf Hs. pose proof Hwf as []. destruct (isClosed r) eqn:Hcl; [unfold noteStreamClosed; by rewrite Hcl|].
  destruct (decide (id = 0)) as [->|Hid]; [unfold noteStreamClosed; by rewrite Hcl|].
  destruct (note_shape id now sup r wf_tracked0 Hcl Hid) as (m & h & -> & Hsub & Ht & Hsz & _).
  assert (Hm : forall x, x <> id -> RecentlyClosed r !! x = None -> m !! x = None).
  { intros x Hx Hn. destruct (m !! x) as [c|] eqn:E; [|done]. eapply lookup_weaken in E; [|exact Hsub].
    unfold noted in E. rewrite lookup_insert_ne in E by done. apply map_lookup_filter_Some in E as [E _]. congruence. }
  split; cbn; try done.
  - intros x Hx. apply Hm; [|by apply wf_disjoint0]. intros ->. rewrite Hs in Hx. by destruct Hx.
  - unfold closedStreamRecordCap in *. cbn. lia.
  - by apply Hm.
Qed.

Lemma wf_delete id r : wf r -> id ∉ ActiveStreams r -> wf (r <| Streams ::= delete id |>).
Proof.
  intros [] Hid. split; cbn; try done.
  - intros x Hx. rewrite lookup_delete_ne by (intros ->; done). by apply wf_active0.
  - intros x a [_ Hx]%lookup_delete_Some. by apply wf_objects0.
  - intros Hv. destruct (wf_snapshot0 Hv) as [-> ->]. split; [done|]. apply map_ext_in. intros x Hx%list_elem_of_In.
    by rewrite lookup_delete_ne by (intros ->; done).
  - unfold stream_limit in *. cbn. rewrite delete_delete. etransitivity; [|exact wf_limit0]. apply inj_le, map_subseteq_size, delete_subseteq.
  - intros x [y Hx]. apply lookup_delete_Some in Hx as [_ Hx]. by apply wf_disjoint0.
Qed.

Lemma removeActive_Streams id f r : removeActiveStreamLocked id (r <| Streams ::= f |>) = (removeActiveStreamLocked id r) <| Streams ::= f |>.
Proof. unfold removeActiveStreamLocked. cbn. by destruct (list_find _ (ActiveStreams r)) as [[i x]|]. Qed.

Lemma wf_remove_tables id r : wf r ->
  wf ((removeActiveStreamLocked id r) <| Streams ::= delete id |>) /\ Streams ((removeActiveStreamLocked id r) <| Streams ::= delete id |>) = delete id (Streams r).
Proof.
  intros Hwf. destruct (wf_removeActive id r Hwf) as [H1 H2]. split.
  - apply wf_delete; [done|]. rewrite H2. by intros [? _]%list_elem_of_filter.
  - cbn. f_equal. unfold removeActiveStreamLocked. by destruct (list_find _ _) as [[i x]|].
Qed.

Lemma wf_remove id now sup r : wf r -> wf (removeStream id now sup r).
Proof.
  intros Hwf. unfold removeStream. case_if; [done|]. rewrite removeActive_Streams. destruct (wf_remove_tables id r Hwf) as [H1 H2].
  apply wf_note; [done|]. by rewrite H2, lookup_delete_eq.
Qed.

Lemma wf_onClosed id now reason r : wf r -> wf (onStreamClosed id now reason r).
Proof. intros Hwf. unfold onStreamClosed. case_if; [done|]. by apply wf_remove. Qed.

Lemma wf_getOrCreate id cfg conn now r : wf r -> wf (getOrCreateStream id cfg conn now r).2.
Proof.
  intros Hwf. pose proof Hwf as []. unfold getOrCreateStream. case_if; [done|]. destruct (Streams r !! id) as [a|] eqn:Hs; [done|].
  destruct (canCreateAdditionalStreamLocked id r) eqn:Hcan; [|done]. cbn [negb snd].
  set (a := fresh (dom (objects r))). assert (Ha : objects r !! a = None) by (apply not_elem_of_dom, is_fresh).
  assert (Hna : id ∉ ActiveStreams r) by (intros H; destruct (wf_active0 id H); congruence).
  rewrite bool_decide_false by done. unfold markActiveStreamsChangedLocked. split; cbn.
  - rewrite insert_active_sorted. by apply insert_sorted_ok.
  - intros x. rewrite insert_active_sorted, insert_sorted_perm. intros [->|Hx]%elem_of_cons; [by rewrite lookup_insert_eq|].
    rewrite lookup_insert_is_Some. destruct (decide (id = x)); [by left|right; split; [done|by apply wf_active0]].
  - intros x b Hb. apply lookup_insert_Some in Hb as [[<- <-]|[Hne Hb]].
    + rewrite lookup_insert_eq. eexists. split; [done|]. done.
    + destruct (wf_objects0 x b Hb) as (s & Hb' & Hid). exists s. split; [|done]. rewrite lookup_insert_ne; [done|].
      intros Heq. assert (H : objects r !! b = None) by (rewrite <- Heq; exact Ha).
      pose proof (eq_trans (eq_sym Hb') H). discriminate.
  - lia.
  - lia.
  - unfold stream_limit in *. cbn. unfold canCreateAdditionalStreamLocked in Hcan. rewrite Hs in Hcan. destruct (Z.eqb_spec id 0) as [->|Hid].
    { by rewrite delete_insert_eq. }
    rewrite (bool_decide_false (is_Some None)) in Hcan by (by intros []). rewrite delete_insert_ne, map_size_insert_None; [|by rewrite lookup_delete_ne|done].
    rewrite map_size_delete. destruct (Streams r !! 0) as [z|] eqn:E0.
    + rewrite bool_decide_true in Hcan by done. apply Z.ltb_lt in Hcan. assert (size (Streams r) <> 0)%nat; [|lia].
      by eapply map_size_ne_0_lookup_2.
    + rewrite bool_decide_false in Hcan by (by intros []). apply Z.ltb_lt in Hcan.
      unfold Datatypes.id. lia.
  - intros x Hx. apply lookup_insert_is_Some in Hx. destruct (decide (id = x)) as [->|Hne]; [apply lookup_delete_eq|].
    rewrite lookup_delete_ne by done. apply wf_disjoint0. by destruct Hx as [|[_ Hx]].
  - destruct wf_tracked0 as [Hh Ht]. split; [done|]. intros x c [_ Hx]%lookup_delete_Some. by apply Ht.
  - unfold closedStreamRecordCap in *. cbn. etransitivity; [|exact wf_cap0]. apply inj_le, map_subseteq_size, delete_subseteq.
  - destruct (decide (id = 0)) as [->|]; [apply lookup_delete_eq|by rewrite lookup_delete_ne].
Qed.

Lemma wf_finalize a now reason r : wf r -> wf (finalizeStream a now reason r).
Proof.
  intros Hwf. unfold finalizeStream. destruct (objects r !! a) as [[q s]|] eqn:Ha; [|done]. destruct (StreamServer.cleanupDone s) eqn:Hd; [done|].
  apply wf_onClosed. eapply wf_object; [done|exact Ha|]. cbn. unfold StreamServer.finalizeAfterARQClose. by case_if.
Qed.

Lemma wf_event a now e r : wf r -> wf (streamEvent a now e r).
Proof.
  intros Hwf. unfold streamEvent. destruct (objects r !! a) as [s|] eqn:Ha; [|done]. set (s' := handle _ _ _).
  assert (Hw : wf (r <| objects ::= <[a := s']> |>)) by (eapply wf_object; [done|exact Ha|]; exact (handle_ID now e (s.1, _))).
  case_if; [by apply wf_onClosed|done].
Qed.

Lemma wf_close a reason opts now r : wf r -> wf (closeStream a reason opts now r).
Proof. apply wf_event. Qed.

Lemma wf_alter (f : stream -> stream) a r : (forall s, StreamServer.ID (f s).2 = StreamServer.ID s.2) -> wf r -> wf (r <| objects ::= alter f a |>).
Proof.
  intros Hf Hwf. destruct (objects r !! a) as [s|] eqn:Ha.
  - assert (Heq : alter f a (objects r) = <[a := f s]> (objects r)) by (apply map_eq; intros b; destruct (decide (a = b)) as [<-|]; [by rewrite lookup_alter_eq, Ha, lookup_insert_eq|by rewrite lookup_alter_ne, lookup_insert_ne]).
    eapply (wf_same (r <| objects ::= <[a := f s]> |>)); try done. by eapply wf_object.
  - eapply (wf_same r); try done. cbn. apply map_eq. intros b. destruct (decide (a = b)) as [<-|]; [|by rewrite lookup_alter_ne].
    by rewrite lookup_alter_eq, Ha.
Qed.

Lemma wf_abort a reason now r : wf r -> wf (abortStream a reason now r).
Proof. intros Hwf. unfold abortStream. apply wf_close. apply wf_alter; [|done]. intros [q s]. cbn. unfold StreamServer.closeUpstreamOnly. by repeat case_bool_decide. Qed.

Lemma wf_prune now r : wf r -> wf (pruneRecentlyClosed now r).
Proof.
  intros Hwf. pose proof Hwf as []. unfold pruneRecentlyClosed, pruneRecentlyClosedLocked. case_if; [done|].
  pose proof (prune_spec (now - closedStreamRecordTTL r) _ _ _ (le_n _) wf_tracked0) as Hp. destruct (prune_loop _ _ _ _) as [m h].
  destruct Hp as (-> & Ht & _). split; cbn; try done.
  - intros x Hx. apply map_lookup_filter_None. left. by apply wf_disjoint0.
  - unfold closedStreamRecordCap in *. cbn. etransitivity; [|exact wf_cap0]. apply inj_le, map_subseteq_size, map_filter_subseteq.
  - apply map_lookup_filter_None. by left.
Qed.

Lemma wf_snapshot_op r : wf r -> wf (activeStreamSnapshot r).2.
Proof.
  intros Hwf. pose proof Hwf as []. unfold activeStreamSnapshot. case_if; [done|]. cbn [snd]. case_if; [done|]. split; cbn; done || lia.
Qed.

Lemma wf_fold {A} (f : sessionRecord -> A -> sessionRecord) l r : (forall r x, wf r -> wf (f r x)) -> wf r -> wf (fold_left f l r).
Proof. intros Hf. revert r. induction l as [|x l IH]; intros r Hr; [done|]. cbn [fold_left]. by apply IH, Hf. Qed.

Lemma wf_closeAll reason now r : wf r -> wf (closeAllStreams reason now r).
Proof.
  intros Hwf. unfold closeAllStreams. set (r1 := fold_left _ _ _). assert (Hw1 : wf r1).
  { apply wf_fold; [|by eapply (wf_same r)]. intros r0 a Hr0. unfold close_one. apply wf_finalize. case_bool_decide; [by apply wf_close|by apply wf_abort]. }
  pose proof Hw1 as []. unfold markActiveStreamsChangedLocked. split; cbn; try done; try lia; try constructor; try done.
  - by intros x ?%elem_of_nil.
  - unfold stream_limit in *. cbn. rewrite delete_empty, map_size_empty. destruct (Z.leb_spec (MaxActiveStreamsPerSession r1) 0); lia.
  - by intros x [y Hx].
Qed.

Lemma wf_scan now retention l : forall r ids, wf r ->
  wf (fold_left (fun '(removeIDs, r) '(streamID, a) =>
    if streamID =? 0 then (removeIDs, r)
    else match objects r !! a with
         | None => (removeIDs, r)
         | Some s =>
             let '(remove, s) := terminal_status now retention s in
             (if (remove : bool) then removeIDs ++ [(streamID, a)] else removeIDs, r <| objects ::= <[a := s]> |>)
         end) l (ids, r)).2.
Proof.
  induction l as [|[id a] l IH]; intros r ids Hwf; [done|]. cbn [fold_left]. destruct (id =? 0); [by apply IH|].
  destruct (objects r !! a) as [s|] eqn:Ha; [|by apply IH]. destruct (terminal_status now retention s) as [rm s'] eqn:Ht. apply IH.
  eapply wf_object; [done|exact Ha|]. unfold terminal_status in Ht. destruct s as [q v]. cbn in Ht.
  assert (Hid : forall b, (rm, s') = b -> StreamServer.ID b.2.2 = StreamServer.ID v -> StreamServer.ID s'.2 = StreamServer.ID v) by (by intros b <-).
  revert Ht. destruct (state q); repeat case_if; intros [= <- <-]; done.
Qed.

Lemma wf_cleanup now retention r : wf r -> wf (cleanupTerminalStreams now retention r).
Proof.
  intros Hwf. unfold cleanupTerminalStreams. case_if; [done|]. unfold terminal_scan.
  pose proof (wf_scan now retention (map_to_list (Streams r)) r [] Hwf) as Hs. destruct (fold_left _ _ ([], r)) as [ids r1].
  apply wf_fold; [|done]. intros r0 [id a] Hr0. unfold terminal_remove. by apply wf_remove, wf_finalize, wf_abort.
Qed.

(** The memory of closed streams is a window.  When an open session removes a stream,
    the stream leaves the table and the other streams stay; the memory has then the new
    record, if every other record is older, and of the records it had only such that are
    within the time to live; a record that is within it is dropped only when the memory is
    full, and then it is at most as new as every record that stays. *)
Theorem closed_streams_window (id now : Z) (sup : bool) (r : sessionRecord) :
  wf r -> isClosed r = false -> id <> 0 ->
  let r' := removeStream id now sup r in
  Streams r' = delete id (Streams r) /\ Z.of_nat (size (RecentlyClosed r')) <= closedStreamRecordCap r /\
  (forall x c, RecentlyClosed r' !! x = Some c ->
    x = id /\ c = mkClosed now sup \/ x <> id /\ RecentlyClosed r !! x = Some c /\ now - closedStreamRecordTTL r <= ClosedAt c) /\
  (forall x c, x <> id -> RecentlyClosed r !! x = Some c -> now - closedStreamRecordTTL r <= ClosedAt c -> RecentlyClosed r' !! x = None ->
    Z.of_nat (size (RecentlyClosed r')) = closedStreamRecordCap r /\
    forall y c', RecentlyClosed r' !! y = Some c' -> ClosedAt c <= ClosedAt c') /\
  ((forall x c, RecentlyClosed r !! x = Some c -> ClosedAt c < now) -> isRecentlyClosed id now r' = true).
Proof.
  intros Hwf Hcl Hid. unfold removeStream. rewrite Hcl, (proj2 (Z.eqb_neq id 0)) by done. cbn [orb]. rewrite removeActive_Streams.
  destruct (wf_remove_tables id r Hwf) as [Hw1 Hs1]. set (r1 := (removeActiveStreamLocked id r) <| Streams ::= delete id |>) in *.
  assert (Hr1 : RecentlyClosed r1 = RecentlyClosed r /\ isClosed r1 = false /\ RecentlyClosedTTL r1 = RecentlyClosedTTL r /\ RecentlyClosedCap r1 = RecentlyClosedCap r).
  { unfold r1, removeActiveStreamLocked. by destruct (list_find _ _) as [[i x]|]. }
  destruct Hr1 as (Hm1 & Hcl1 & Httl & Hcap). clearbody r1.
  destruct (note_shape id now sup r1 (wf_tracked _ Hw1) Hcl1 Hid) as (m & h & -> & Hsub & Ht & Hsz & Hord).
  unfold noted, closedStreamRecordTTL, closedStreamRecordCap in *. rewrite Hm1, Httl, Hcap in *.
  set (m2 := <[id := mkClosed now sup]> _) in *. assert (Hfull : forall x c, m2 !! x = Some c -> m !! x = None ->
    Z.of_nat (size m) = if RecentlyClosedCap r <? 1 then 2000 else RecentlyClosedCap r).
  { intros x c Hx Hn. destruct (Z.le_gt_cases (Z.of_nat (size m2)) (if RecentlyClosedCap r <? 1 then 2000 else RecentlyClosedCap r)); [|lia].
    assert (m = m2) as ->; [|congruence]. apply map_subseteq_size_eq; [done|lia]. }
  cbn. split_and!; [done|lia| | |].
  - intros x c Hx. eapply lookup_weaken in Hx; [|exact Hsub]. apply lookup_insert_Some in Hx as [[<- <-]|[Hne Hx]]; [by left|right].
    by apply map_lookup_filter_Some in Hx as [Hx Hfr].
  - intros x c Hne Hx Hfr Hn. assert (Hx2 : m2 !! x = Some c).
    { unfold m2. rewrite lookup_insert_ne by done. by apply map_lookup_filter_Some. }
    split; [|intros y c' Hy; by eapply Hord]. pose proof (Hfull x c Hx2 Hn). lia.
  - intros Hold. unfold isRecentlyClosed, isClosed in *. cbn. rewrite Hcl1. destruct (m !! id) as [c|] eqn:E.
    + assert (c = mkClosed now sup) as ->; [|cbn; unfold closedStreamRecordTTL; cbn; rewrite Httl; case_if; zbool; lia].
      eapply lookup_weaken in E; [|exact Hsub]. unfold m2 in E. rewrite lookup_insert_eq in E. congruence.
    + exfalso. pose proof (Hfull id (mkClosed now sup) ltac:(apply lookup_insert_eq) E) as Hsm.
      assert (size m <> 0)%nat as (y & c' & Hy)%map_size_ne_0_lookup by (destruct (Z.ltb_spec (RecentlyClosedCap r) 1); lia).
      pose proof (Hord id (mkClosed now sup) y c' ltac:(apply lookup_insert_eq) E Hy) as Hle. cbn in Hle.
      pose proof (lookup_weaken _ _ _ _ Hy Hsub) as Hy2. apply lookup_insert_Some in Hy2 as [[<- _]|[_ Hy2]]; [congruence|].
      apply map_lookup_filter_Some in Hy2 as [Hy2 _]. specialize (Hold y c' Hy2). lia.
Qed.
