(* ===== verification/SessionServe.v ===== *)
(** The scheduler of the server: which queued packet answers the next query of a session.

    Models [serveQueuedOrPong], [dequeueSessionResponse], [packControlBlocks] and the
    duplicates of packed blocks of src/masterdns/internal/udpserver/server_session.go, on
    the session records of Session.v.  One function is one critical section chain of the
    code; the session, its streams and their queues do not change in between. *)

From stdpp Require Import base tactics list gmap strings sorting.
From Stdlib Require Import ZArith Lia.
From S2P Require Import Prelude Enums Mlq Compression VpnProto GoFloat ArqState Arq TxQueue GoHeap Session.
Import Session.

#[local] Existing Instance StreamServer.set_TXQueue.

(** ** Packets *)

Definition vpnPacketFromTX (p : txPacket) (streamID : Z) : Packet :=
  mkPacket 0 (pktType p) 0 true streamID (negb (pktSequenceNum p =? 0)) (pktSequenceNum p)
    (negb (pktFragmentID p =? 0) || negb (pktTotalFragments p =? 0)) (pktFragmentID p) (pktTotalFragments p)
    (negb (pktCompressionType p =? TypeOff)) (pktCompressionType p) 0 (pktPayload p).

Definition packed_packet (payload : bytes) : Packet :=
  mkPacket 0 PACKET_PACKED_CONTROL_BLOCKS 0 true 0 false 0 false 0 0 false 0 0 payload.

Definition dequeueDuplicatedPackedControlBlock (r : sessionRecord) : option Packet * sessionRecord :=
  match LastPackedControlBlock r with
  | None => (None, r)
  | Some packet =>
      if LastPackedControlBlockRemaining r <=? 0 then (None, r)
      else
        let r := r <| LastPackedControlBlockRemaining ::= Z.pred |> in
        (Some packet,
         if LastPackedControlBlockRemaining r <=? 0
         then r <| LastPackedControlBlock := None |> <| LastPackedControlBlockRemaining := 0 |> else r)
  end.

Definition cachePackedControlBlockDuplicate (duplication : Z) (packet : Packet) (r : sessionRecord) : sessionRecord :=
  if (duplication <=? 1) || negb (PacketType packet =? PACKET_PACKED_CONTROL_BLOCKS)
  then r <| LastPackedControlBlock := None |> <| LastPackedControlBlockRemaining := 0 |>
  else r <| LastPackedControlBlock := Some packet |> <| LastPackedControlBlockRemaining := duplication - 1 |>.

(** ** Packing *)

Definition tx_block (p : txPacket) (streamID : Z) : ControlBlock :=
  mkBlock (pktType p) streamID (pktSequenceNum p) (pktFragmentID p) (pktTotalFragments p).

Definition orphan_block (p : Packet) : ControlBlock :=
  mkBlock (PacketType p) (StreamID p) (SequenceNum p) (FragmentID p) (TotalFragments p).

(** The packed payload, the number of blocks and the session. *)
Abbreviation packing := (bytes * Z * sessionRecord)%type.

(** [processID(-1, nil)] *)
Fixpoint process_orphans (fuel : nat) (limit : Z) (k : packing) : packing :=
  match fuel with
  | O => k
  | S fuel =>
      let '(payload, blocks, r) := k in
      if blocks <? limit then
        if Mlq.FastSize (OrphanQueue r) =? 0 then k
        else
          let '(popped, q) := Mlq.PopAnyIf (OrphanQueue r) 2 (Some (fun p => IsPackableControlPacket (PacketType p) 0)) in
          match popped with
          | None => k
          | Some p => process_orphans fuel limit (AppendPackedControlBlock payload (orphan_block p), blocks + 1, r <| OrphanQueue := q |>)
          end
      else k
  end.

(** [stream.NoteTXPacketDequeued(popped)] on the object [s], after the pop. *)
Definition note_dequeued (p : txPacket) (now : Z) (s : stream) : stream :=
  (NoteTXPacketDequeued (pktType p) (pktSequenceNum p) (pktFragmentID p) now s.1, s.2).

(** [processID(id, stream)] for a stream. *)
Fixpoint process_stream (fuel : nat) (limit id : Z) (a : nat) (now : Z) (k : packing) : packing :=
  match fuel with
  | O => k
  | S fuel =>
      let '(payload, blocks, r) := k in
      if blocks <? limit then
        match objects r !! a with
        | None => k
        | Some s =>
            if StreamServer.FastTXQueueSize s.2 =? 0 then k
            else
              let '(popped, v) := StreamServer.PopAnyTXPacket s.2 2 (Some (fun p => IsPackableControlPacket (pktType p) (len (pktPayload p)))) in
              match popped with
              | None => k
              | Some p =>
                  process_stream fuel limit id a now
                    (AppendPackedControlBlock payload (tx_block p id), blocks + 1, r <| objects ::= <[a := note_dequeued p now (s.1, v)]> |>)
              end
        end
      else k
  end.

(** A candidate of the scheduler: a stream number with its object, or -1 for the resets
    of streams that do not exist. *)
Abbreviation candidate := (Z * option nat)%type.

Definition processID (limit now : Z) (c : candidate) (k : packing) : packing :=
  if limit <=? k.1.2 then k
  else if c.1 =? -1 then process_orphans (Z.to_nat limit) limit k
  else match c.2 with None => k | Some a => process_stream (Z.to_nat limit) limit c.1 a now k end.

(** [goto buildResult] as soon as the payload is full. *)
Fixpoint process_all (limit now : Z) (cs : list candidate) (k : packing) : packing :=
  match cs with
  | [] => k
  | c :: cs => if limit <=? k.1.2 then k else process_all limit now cs (processID limit now c k)
  end.

(** The order in which the candidates are visited: the one that was served first, the
    resets, then the other streams from it on. *)
Definition pack_order (initialID : Z) (hasOrphan : bool) (ready : list candidate) : list candidate :=
  let initialIndex := if initialID =? -1 then None else fst <$> list_find (fun c : candidate => c.1 = initialID) ready in
  let initialStream := initialIndex ≫= fun i => (ready !! i : option candidate) ≫= snd in
  [(initialID, initialStream)] ++
  (if hasOrphan && negb (initialID =? -1) then [(-1, None)] else []) ++
  (match initialIndex with Some i => drop (S i) ready ++ take i ready | None => ready end) ++
  (if (initialID =? -1) && hasOrphan then ready else []).

Definition packControlBlocks (first : txPacket) (initialID initialStreamID now : Z) (r : sessionRecord) : Packet * sessionRecord :=
  let limit := MaxPackedBlocks r in
  if limit <=? 1 then (vpnPacketFromTX first initialStreamID, r)
  else
    let payload := AppendPackedControlBlock [] (tx_block first initialStreamID) in
    let '(readyIDs, readyStreams, r) := activeStreamSnapshot r in
    let hasOrphan := 0 <? Mlq.FastSize (OrphanQueue r) in
    let ready := zip readyIDs readyStreams in
    let '(payload, blocks, r) := process_all limit now (pack_order initialID hasOrphan ready) (payload, 1, r) in
    (if blocks <=? 1 then vpnPacketFromTX first initialStreamID else packed_packet payload, r).

(** ** The round robin *)

(** [startIdx]: the first candidate at or after the stream whose turn it is. *)
Definition start_index (rrStreamID : Z) (cs : list candidate) : nat :=
  match list_find (fun c : candidate => rrStreamID <= c.1) cs with Some (i, _) => i | None => 0%nat end.

(** The candidates at startIdx, startIdx+1, ... modulo their number. *)
Definition rotate {A} (i : nat) (l : list A) : list A := drop i l ++ take i l.

Definition orphan_item (p : Packet) : txPacket :=
  mkTxPacket (PacketType p) (SequenceNum p) (FragmentID p) (TotalFragments p) 0 (Payload p) 0 0 false.

Definition HasPendingSequence (sn : Z) (a : ARQ) : bool := bool_decide (is_Some (sndBuf a !! sn)).

Definition is_data (p : txPacket) : bool := (pktType p =? PACKET_STREAM_DATA) || (pktType p =? PACKET_STREAM_RESEND).

(** One turn of the loop over the candidates: the packet taken with the stream it belongs
    to, if the candidate has one to send. *)
Definition try_candidate (now : Z) (c : candidate) (r : sessionRecord) : option (txPacket * Z) * sessionRecord :=
  let '(id, stream) := c in
  if id =? -1 then
    let '(popped, q) := Mlq.Pop (OrphanQueue r) in
    (match popped with Some (p, _) => Some (orphan_item p, StreamID p) | None => None end, r <| OrphanQueue := q |>)
  else
    match stream ≫= fun a => s ← objects r !! a; Some (a, s) with
    | None => (None, r)
    | Some (a, s) =>
        if StreamServer.FastTXQueueSize s.2 =? 0 then (None, r)
        else if closed s.1 then
          (None, deactivateStream (wrap16 id) (r <| objects ::= <[a := (s.1, StreamServer.ClearTXQueue s.2)]> |>))
        else
          let '(popped, v) := StreamServer.PopNextTXPacket s.2 in
          match popped with
          | None => (None, r <| objects ::= <[a := (s.1, v)]> |>)
          | Some (p, _) =>
              let s := note_dequeued p now (s.1, v) in
              let r := r <| objects ::= <[a := s]> |> in
              if is_data p && negb (HasPendingSequence (pktSequenceNum p) s.1) then (None, r) else (Some (p, wrap16 id), r)
          end
    end.

Fixpoint try_candidates (now : Z) (cs : list candidate) (r : sessionRecord) : option (Z * txPacket * Z) * sessionRecord :=
  match cs with
  | [] => (None, r)
  | c :: cs =>
      let '(found, r) := try_candidate now c r in
      match found with
      | Some (item, selectedStreamID) => (Some (c.1, item, selectedStreamID), r)
      | None => try_candidates now cs r
      end
  end.

(** The end of the function: the next turn, and the packet, with more blocks where it is a
    packable one. *)
Definition answer_with (duplication now : Z) (found : option (Z * txPacket * Z)) (r : sessionRecord) : option Packet * sessionRecord :=
  match found with
  | None => (None, r)
  | Some (id, item, selectedStreamID) =>
      let r := r <| RRStreamID := id + 1 |> in
      if IsPackableControlPacket (pktType item) (len (pktPayload item)) && (1 <? MaxPackedBlocks r) then
        let '(pkt, r) := packControlBlocks item id selectedStreamID now r in
        (Some pkt, cachePackedControlBlockDuplicate duplication pkt r)
      else (Some (vpnPacketFromTX item selectedStreamID), r)
  end.

Definition dequeueSessionResponse (duplication now : Z) (r : sessionRecord) : option Packet * sessionRecord :=
  if isClosed r then (None, r)
  else
    let '(duplicate, r) := dequeueDuplicatedPackedControlBlock r in
    match duplicate with
    | Some packet => (Some packet, r)
    | None =>
        let rrStreamID := RRStreamID r in
        let '(readyIDs, readyStreams, r) := activeStreamSnapshot r in
        let hasOrphan := 0 <? Mlq.FastSize (OrphanQueue r) in
        let candidates := (if hasOrphan then [(-1, None)] else []) ++ zip readyIDs readyStreams in
        let '(found, r) := try_candidates now (rotate (start_index rrStreamID candidates) candidates) r in
        answer_with duplication now found r
    end.
