(* ===== verification/SessionServeInv.v ===== *)
(** The scheduler of the server neither loses nor invents packets, and serves every stream.

    Theorems on SessionServe.v (src/masterdns/internal/udpserver/server_session.go). *)

From stdpp Require Import base tactics list gmap strings sorting.
From Stdlib Require Import ZArith Lia.
From S2P Require Import Prelude Enums Mlq Compression VpnProto GoFloat ArqState Arq TxQueue GoHeap Session SessionInv SessionServe.
Import Session.

#[local] Existing Instance StreamServer.set_TXQueue.

(** ** Queues *)

Definition items_of {T} (q : MultiLevelQueue T) : list T := map snd (abs q).

Lemma Pop_items {T} (q q' : MultiLevelQueue T) x : Mlq.wf q -> Mlq.Pop q = (x, q') ->
  Mlq.wf q' /\ match x with Some (p, _) => items_of q = p :: items_of q' | None => items_of q = [] /\ items_of q' = [] end.
Proof.
  intros W Hp. destruct (Pop_refines q W) as [W' Hr]. rewrite Hp in W', Hr. cbn [fst snd] in *. split; [done|]. unfold items_of, Spec.pop in *.
  destruct (abs q) as [|[[p k] y] l]; injection Hr as <- <-; done.
Qed.

Lemma extract_items {A} (P : A -> bool) (l l' : list A) x : Spec.extract P l = Some (x, l') -> P x = true /\ l ≡ₚ x :: l'.
Proof.
  revert l'. induction l as [|y l IH]; intros l'; cbn [Spec.extract]; [done|]. destruct (P y) eqn:E; [intros [= <- <-]; done|].
  destruct (Spec.extract P l) as [[z l1]|]; [|done]. intros [= <- <-]. destruct (IH l1 eq_refl) as [H1 H2]. split; [done|].
  rewrite H2. apply Permutation_swap.
Qed.

Lemma PopAnyIf_items {T} (q q' : MultiLevelQueue T) mp f x : Mlq.wf q -> Mlq.PopAnyIf q mp (Some f) = (x, q') ->
  Mlq.wf q' /\ match x with Some p => f p = true /\ items_of q ≡ₚ p :: items_of q' | None => items_of q' = items_of q end.
Proof.
  intros W Hp. destruct (PopAnyIf_refines q mp (Some f) W) as [W' Hr]. rewrite Hp in W', Hr. cbn [fst snd] in *. split; [done|].
  unfold Spec.pop_any_if, Spec.take_first, items_of in *. destruct (Spec.extract _ (abs q)) as [[[[pr k] y] l]|] eqn:E; injection Hr as <- <-; [|done].
  apply extract_items in E as [HP Hperm]. apply andb_prop in HP as [_ HP]. split; [done|]. by rewrite Hperm.
Qed.

(** ** What waits in a session *)

(** A packet with the stream it is for; its source is a stream object, or the queue of
    resets. *)
Abbreviation waiting := (option nat * txPacket * Z)%type.

Definition stream_items (x : nat * stream) : list waiting :=
  map (fun p => (Some x.1, p, StreamServer.ID x.2.2)) (items_of (StreamServer.TXQueue x.2.2)).

Definition orphan_items (r : sessionRecord) : list waiting := map (fun p => (None, orphan_item p, StreamID p)) (items_of (OrphanQueue r)).

Definition contents (r : sessionRecord) : list waiting := orphan_items r ++ flat_map stream_items (map_to_list (objects r)).

Record serve_ok (r : sessionRecord) : Prop := {
  so_wf : SessionInv.wf r;
  so_orphans : Mlq.wf (OrphanQueue r);
  so_streams : forall a s, objects r !! a = Some s -> Mlq.wf (StreamServer.TXQueue s.2);
  so_ids : forall id a, Streams r !! id = Some a -> u16 id;
  so_resets : forall p, p ∈ items_of (OrphanQueue r) -> Payload p = []
}.

(** The ARQ of every stream is as before, but for the times of dispatch. *)
Definition same_arq (r r' : sessionRecord) : Prop :=
  forall a, match objects r !! a, objects r' !! a with
            | Some s, Some s' => closed s'.1 = closed s.1 /\ StreamServer.ID s'.2 = StreamServer.ID s.2 /\
                                 forall sn, HasPendingSequence sn s'.1 = HasPendingSequence sn s.1
            | None, None => True
            | _, _ => False
            end.

(** A packet that need not be sent any more: its stream is closed, or it is data that the
    peer has acknowledged. *)
Definition stale (r : sessionRecord) (w : waiting) : Prop :=
  exists a s, w.1.1 = Some a /\ objects r !! a = Some s /\
    (closed s.1 = true \/ is_data w.1.2 = true /\ HasPendingSequence (pktSequenceNum w.1.2) s.1 = false).

Record moved (r : sessionRecord) (ps ds : list waiting) (r' : sessionRecord) : Prop := {
  mv_ok : serve_ok r';
  mv_arq : same_arq r r';
  mv_contents : contents r ≡ₚ ps ++ ds ++ contents r';
  mv_stale : Forall (stale r) ds;
  mv_open : isClosed r' = isClosed r;
  mv_packed : MaxPackedBlocks r' = MaxPackedBlocks r;
  mv_streams : Streams r' = Streams r;
  mv_active : forall id, id ∈ ActiveStreams r' -> id ∈ ActiveStreams r;
  (** an open stream stays active *)
  mv_live : forall id a s, id ∈ ActiveStreams r -> Streams r !! id = Some a -> objects r !! a = Some s -> closed s.1 = false -> id ∈ ActiveStreams r'
}.

Lemma same_arq_refl r : same_arq r r.
Proof. intros a. by destruct (objects r !! a). Qed.

Lemma same_arq_trans r1 r2 r3 : same_arq r1 r2 -> same_arq r2 r3 -> same_arq r1 r3.
Proof.
  intros H1 H2 a. specialize (H1 a). specialize (H2 a). destruct (objects r1 !! a), (objects r2 !! a), (objects r3 !! a); try done.
  destruct H1 as (A1 & B1 & C1), H2 as (A2 & B2 & C2). split_and!; [congruence|congruence|]. intros sn. by rewrite C2, C1.
Qed.

Lemma stale_same r r' w : same_arq r r' -> stale r' w -> stale r w.
Proof.
  intros Hs (a & s & Hw & Ha & Hst). specialize (Hs a). rewrite Ha in Hs. destruct (objects r !! a) as [s0|] eqn:E; [|done].
  destruct Hs as (H1 & _ & H3). exists a, s0. split_and!; [done|done|]. by rewrite <- H1, <- H3.
Qed.

Lemma moved_refl r : serve_ok r -> moved r [] [] r.
Proof. intros H. split; try done. apply same_arq_refl. Qed.

Lemma moved_trans r1 ps1 ds1 r2 ps2 ds2 r3 : moved r1 ps1 ds1 r2 -> moved r2 ps2 ds2 r3 -> moved r1 (ps1 ++ ps2) (ds1 ++ ds2) r3.
Proof.
  intros [] []. split; try done; try congruence.
  - by eapply same_arq_trans.
  - rewrite mv_contents0, mv_contents1. solve_Permutation.
  - apply Forall_app. split; [done|]. eapply Forall_impl; [done|]. intros w. by apply stale_same.
  - auto.
  - intros id a s Hid Hs Ha Hc. specialize (mv_arq0 a). rewrite Ha in mv_arq0. destruct (objects r2 !! a) as [s2|] eqn:Ha2; [|done].
    destruct mv_arq0 as (Hc2 & _). eapply mv_live1; [by eapply mv_live0|by rewrite mv_streams0|exact Ha2|congruence].
Qed.

(** The contents with one object singled out. *)
Lemma contents_object r a s : objects r !! a = Some s ->
  contents r ≡ₚ stream_items (a, s) ++ orphan_items r ++ flat_map stream_items (map_to_list (delete a (objects r))).
Proof.
  intros Ha. unfold contents. rewrite <- (insert_delete_id (objects r) a s Ha) at 1. rewrite map_to_list_insert by (by rewrite lookup_delete_eq).
  cbn [flat_map]. solve_Permutation.
Qed.

Lemma contents_update r a s s' : objects r !! a = Some s ->
  contents (r <| objects ::= <[a := s']> |>) ≡ₚ stream_items (a, s') ++ orphan_items r ++ flat_map stream_items (map_to_list (delete a (objects r))).
Proof.
  intros Ha. rewrite (contents_object (r <| objects ::= <[a := s']> |>) a s') by (cbn; apply lookup_insert_eq). cbn.
  by rewrite delete_insert_eq.
Qed.

Definition from (a : nat) (id : Z) (p : txPacket) : waiting := (Some a, p, id).

(** Packets leave the queue of one stream. *)
Lemma object_moved r a s s' tk dr : serve_ok r -> objects r !! a = Some s ->
  closed s'.1 = closed s.1 -> StreamServer.ID s'.2 = StreamServer.ID s.2 ->
  (forall sn, HasPendingSequence sn s'.1 = HasPendingSequence sn s.1) -> Mlq.wf (StreamServer.TXQueue s'.2) ->
  items_of (StreamServer.TXQueue s.2) ≡ₚ tk ++ dr ++ items_of (StreamServer.TXQueue s'.2) ->
  Forall (stale r) (map (from a (StreamServer.ID s.2)) dr) ->
  moved r (map (from a (StreamServer.ID s.2)) tk) (map (from a (StreamServer.ID s.2)) dr) (r <| objects ::= <[a := s']> |>).
Proof.
  intros [] Ha Hc Hid Hp Hw Hit Hst. split; try done.
  - split; [by eapply wf_object|done| |done|done]. cbn. intros b x Hb. apply lookup_insert_Some in Hb as [[<- <-]|[_ Hb]]; [done|by eapply so_streams0].
  - intros b. cbn. destruct (decide (a = b)) as [<-|Hne]; [by rewrite Ha, lookup_insert_eq|]. rewrite lookup_insert_ne by done. by destruct (objects r !! b).
  - rewrite (contents_object r a s Ha), (contents_update r a s s' Ha). unfold stream_items. cbn [fst snd]. rewrite Hid, Hit, !map_app.
    unfold from. solve_Permutation.
Qed.

(** A packet leaves the queue of resets. *)
Lemma orphan_moved r q' tk : serve_ok r -> Mlq.wf q' -> items_of (OrphanQueue r) ≡ₚ tk ++ items_of q' ->
  moved r (map (fun p => (None, orphan_item p, StreamID p)) tk) [] (r <| OrphanQueue := q' |>).
Proof.
  intros [] Hw Hit. split; try done.
  - split; [by eapply (wf_same r)|done|done|done|]. cbn. intros p Hp. apply so_resets0. rewrite Hit. apply elem_of_app. by right.
  - exact (same_arq_refl r).
  - unfold contents, orphan_items. cbn. rewrite Hit, map_app. solve_Permutation.
Qed.

Lemma pending_note sn pt sq fr now q : HasPendingSequence sn (NoteTXPacketDequeued pt sq fr now q) = HasPendingSequence sn q.
Proof.
  unfold HasPendingSequence, NoteTXPacketDequeued. repeat case_if; try done. cbn. apply bool_decide_ext. apply lookup_alter_is_Some.
Qed.

Lemma closed_note pt sq fr now q : closed (NoteTXPacketDequeued pt sq fr now q) = closed q.
Proof. unfold NoteTXPacketDequeued. by repeat case_if. Qed.

(** ** Packing *)

Definition packable (w : waiting) : Prop := IsPackableControlPacket (pktType w.1.2) (len (pktPayload w.1.2)) = true.
Definition block_of (w : waiting) : ControlBlock := tx_block w.1.2 w.2.

(** What packing did: it took packets, appended their blocks and stayed within the limit. *)
Record packed (limit : Z) (k k' : packing) (ps : list waiting) : Prop := {
  pk_moved : moved k.2 ps [] k'.2;
  pk_payload : k'.1.1 = fold_left AppendPackedControlBlock (map block_of ps) k.1.1;
  pk_blocks : k'.1.2 = k.1.2 + len ps;
  pk_limit : k.1.2 <= limit -> k'.1.2 <= limit;
  pk_packable : Forall packable ps
}.

Lemma packed_refl limit k : serve_ok k.2 -> packed limit k k [].
Proof. intros H. split; [by apply moved_refl|done|unfold len; cbn; lia|done|constructor]. Qed.

Lemma packed_trans limit k1 k2 k3 ps1 ps2 : packed limit k1 k2 ps1 -> packed limit k2 k3 ps2 -> packed limit k1 k3 (ps1 ++ ps2).
Proof.
  intros [] []. split.
  - exact (moved_trans _ _ _ _ _ _ _ pk_moved0 pk_moved1).
  - rewrite map_app, fold_left_app. congruence.
  - rewrite len_app. lia.
  - auto.
  - by apply Forall_app.
Qed.

Lemma packable_payload t n : IsPackableControlPacket t n = true -> n = 0.
Proof. unfold IsPackableControlPacket. destruct (Z.eqb_spec n 0); done. Qed.

Lemma orphans_packed limit : forall fuel k, serve_ok k.2 -> exists ps, packed limit k (process_orphans fuel limit k) ps.
Proof.
  induction fuel as [|fuel IH]; intros [[payload blocks] r] Hok; cbn [process_orphans snd] in *; [by exists []; apply packed_refl|].
  destruct (Z.ltb_spec blocks limit); [|by exists []; apply packed_refl]. case_if; [by exists []; apply packed_refl|].
  destruct (Mlq.PopAnyIf (OrphanQueue r) 2 _) as [[p|] q] eqn:Hp; [|by exists []; apply packed_refl].
  destruct (PopAnyIf_items _ _ _ _ _ (so_orphans _ Hok) Hp) as (Hw & Hf & Hit).
  assert (Hmv : moved r [(None, orphan_item p, StreamID p)] [] (r <| OrphanQueue := q |>)) by (apply (orphan_moved r q [p]); done).
  destruct (IH (AppendPackedControlBlock payload (orphan_block p), blocks + 1, r <| OrphanQueue := q |>)) as [ps Hps].
  { apply Hmv. }
  exists ([(None, orphan_item p, StreamID p)] ++ ps). eapply packed_trans; [|exact Hps]. split; cbn; [done|done|unfold len; cbn; lia|lia|].
  constructor; [|constructor]. unfold packable. cbn. rewrite (so_resets _ Hok p) by (rewrite Hit; by left). done.
Qed.

Lemma stream_packed limit id a now : forall fuel k, serve_ok k.2 -> (exists s, objects k.2 !! a = Some s /\ StreamServer.ID s.2 = id) ->
  exists ps, packed limit k (process_stream fuel limit id a now k) ps.
Proof.
  induction fuel as [|fuel IH]; intros [[payload blocks] r] Hok (s & Ha & Hid); cbn [process_stream snd] in *; [by exists []; apply packed_refl|].
  destruct (Z.ltb_spec blocks limit); [|by exists []; apply packed_refl]. rewrite Ha. case_if; [by exists []; apply packed_refl|].
  unfold StreamServer.PopAnyTXPacket. destruct (Mlq.PopAnyIf (StreamServer.TXQueue s.2) 2 _) as [[p|] q] eqn:Hp; [|by exists []; apply packed_refl].
  destruct (PopAnyIf_items _ _ _ _ _ (so_streams _ Hok _ _ Ha) Hp) as (Hw & Hf & Hit).
  set (s' := note_dequeued p now (s.1, s.2 <| StreamServer.TXQueue := q |>)).
  assert (Hmv : moved r [from a id p] [] (r <| objects ::= <[a := s']> |>)).
  { rewrite <- Hid. apply (object_moved r a s s' [p] []); first [done|apply closed_note|intros; apply pending_note|constructor]. }
  destruct (IH (AppendPackedControlBlock payload (tx_block p id), blocks + 1, r <| objects ::= <[a := s']> |>)) as [ps Hps].
  { apply Hmv. }
  { cbn. exists s'. by rewrite lookup_insert_eq. }
  exists ([from a id p] ++ ps). eapply packed_trans; [|exact Hps]. split; cbn; [done|done|unfold len; cbn; lia|lia|]. by constructor; [|constructor].
Qed.

(** A candidate the session knows: -1, or a stream with its object. *)
Definition known (r : sessionRecord) (c : candidate) : Prop :=
  c.1 = -1 \/ match c.2 with None => True | Some a => Streams r !! c.1 = Some a end.

Lemma known_same r r' c : Streams r' = Streams r -> known r c -> known r' c.
Proof. unfold known. by intros ->. Qed.

Lemma known_stream r id a : serve_ok r -> known r (id, Some a) -> id <> -1 -> exists s, objects r !! a = Some s /\ StreamServer.ID s.2 = id /\ u16 id.
Proof.
  intros Hok [?|H] Hne; [done|]. cbn in H. destruct (wf_objects r (so_wf _ Hok) id a H) as (s & Ha & Hid). exists s. split_and!; [done|done|by eapply so_ids].
Qed.

Lemma processID_packed limit now c k : serve_ok k.2 -> known k.2 c -> exists ps, packed limit k (processID limit now c k) ps.
Proof.
  intros Hok Hc. unfold processID. case_if; [by exists []; apply packed_refl|]. destruct (Z.eqb_spec c.1 (-1)) as [|Hne]; [by apply orphans_packed|].
  destruct c as [id [a|]]; cbn; [|by exists []; apply packed_refl].
  destruct (known_stream k.2 id a Hok Hc Hne) as (s & Ha & Hid & _). apply stream_packed; [done|by exists s].
Qed.

Lemma process_all_packed limit now cs : forall k, serve_ok k.2 -> Forall (known k.2) cs -> exists ps, packed limit k (process_all limit now cs k) ps.
Proof.
  induction cs as [|c cs IH]; intros k Hok Hcs; cbn [process_all]; [by exists []; apply packed_refl|].
  case_if; [by exists []; apply packed_refl|]. apply Forall_cons in Hcs as [Hc Hcs].
  destruct (processID_packed limit now c k Hok Hc) as [ps1 H1]. destruct (IH (processID limit now c k)) as [ps2 H2].
  - apply (pk_moved _ _ _ _ H1).
  - eapply Forall_impl; [exact Hcs|]. intros c'. apply known_same, (pk_moved _ _ _ _ H1).
  - exists (ps1 ++ ps2). by eapply packed_trans.
Qed.

(** The snapshot is the active streams with their objects. *)
Lemma snapshot_ready r ids ss r' : SessionInv.wf r -> isClosed r = false -> activeStreamSnapshot r = (ids, ss, r') ->
  ids = ActiveStreams r /\ zip ids ss = map (fun id => (id, Streams r !! id)) (ActiveStreams r) /\
  Streams r' = Streams r /\ ActiveStreams r' = ActiveStreams r /\ objects r' = objects r /\ OrphanQueue r' = OrphanQueue r /\
  MaxPackedBlocks r' = MaxPackedBlocks r /\ isClosed r' = isClosed r /\ RRStreamID r' = RRStreamID r /\
  LastPackedControlBlock r' = LastPackedControlBlock r /\ LastPackedControlBlockRemaining r' = LastPackedControlBlockRemaining r /\ SessionInv.wf r'.
Proof.
  intros Hwf Hcl Hs. pose proof (wf_snapshot_op r Hwf) as Hw'. rewrite Hs in Hw'. cbn [snd] in Hw'. unfold activeStreamSnapshot in Hs. rewrite Hcl in Hs.
  assert (Hzip : forall l : list Z, zip l (map (fun id => Streams r !! id) l) = map (fun id => (id, Streams r !! id)) l).
  { induction l as [|x l IH]; [done|]. cbn. by rewrite IH. }
  destruct (Z.eqb_spec (activeStreamSetVersion r) (activeStreamSnapshotVersion r)) as [He|He].
  - injection Hs as <- <- <-. destruct (wf_snapshot r Hwf (eq_sym He)) as [-> ->]. by split_and!.
  - injection Hs as <- <- <-. cbn. by split_and!.
Qed.

Lemma active_known r id : known r (id, Streams r !! id).
Proof. right. cbn. by destruct (Streams r !! id). Qed.

Lemma actives_known r l : Forall (known r) (map (fun id => (id, Streams r !! id)) l).
Proof. apply Forall_map, Forall_forall. intros id _. apply active_known. Qed.

Lemma snapshot_moved r ids ss r' : serve_ok r -> isClosed r = false -> activeStreamSnapshot r = (ids, ss, r') -> moved r [] [] r'.
Proof.
  intros Hok Hcl Hs. destruct (snapshot_ready r ids ss r' (so_wf _ Hok) Hcl Hs) as (_ & _ & H1 & H2 & H3 & H4 & H5 & H6 & _ & _ & _ & H7).
  destruct Hok. split.
  - split; rewrite ?H1, ?H3, ?H4; done.
  - intros a. rewrite H3. apply same_arq_refl.
  - unfold contents, orphan_items. by rewrite H3, H4.
  - constructor.
  - done.
  - done.
  - done.
  - by rewrite H2.
  - by rewrite H2.
Qed.

Lemma len_one {A} (x : A) : len [x] = 1.
Proof. done. Qed.

(** ** The packet of the answer *)

(** The packet carries the packets taken: one as it is, several as packed blocks, which
    the peer reads back in order. *)
Definition carries (pkt : Packet) (ps : list waiting) : Prop :=
  match ps with
  | [] => False
  | [w] => pkt = vpnPacketFromTX w.1.2 w.2
  | _ => pkt = packed_packet (pack_blocks (map block_of ps)) /\ Forall packable ps
  end.

Lemma order_known r id h ready : Forall (known r) ready -> Forall (known r) (pack_order id h ready).
Proof.
  intros Hk. unfold pack_order. set (idx := if id =? -1 then None else _). assert (Hi : match idx with Some i => exists c, ready !! i = Some c /\ c.1 = id | None => True end).
  { unfold idx. destruct (id =? -1); [done|]. destruct (list_find _ ready) as [[i c]|] eqn:Hf; [|done]. apply list_find_Some in Hf as (Hi & Hc & _). by exists c. }
  clearbody idx. repeat apply Forall_app_2.
  - constructor; [|constructor]. destruct idx as [i|]; [|by right]. destruct Hi as (c & Hc & <-). cbn. rewrite Hc. cbn.
    pose proof (Forall_lookup_1 _ _ _ _ Hk Hc) as Hkc. by destruct c.
  - destruct (h && _); repeat constructor.
  - destruct idx as [i|]; [|done]. apply Forall_app_2; [by apply Forall_drop|by apply Forall_take].
  - destruct (_ && h); [done|constructor].
Qed.

Lemma packControl_carries first initialID sid src now r pkt r' : serve_ok r -> isClosed r = false -> packable (src, first, sid) ->
  packControlBlocks first initialID sid now r = (pkt, r') ->
  exists ps, moved r ps [] r' /\ carries pkt ((src, first, sid) :: ps) /\ len ((src, first, sid) :: ps) <= Z.max 1 (MaxPackedBlocks r).
Proof.
  intros Hok Hcl Hpk. unfold packControlBlocks. destruct (Z.leb_spec (MaxPackedBlocks r) 1) as [Hm|Hm].
  { intros [= <- <-]. exists []. split_and!; [by apply moved_refl|done|rewrite len_one; lia]. }
  destruct (activeStreamSnapshot r) as [[ids ss] r1] eqn:Hs. pose proof (snapshot_moved r ids ss r1 Hok Hcl Hs) as Hmv1.
  destruct (snapshot_ready r ids ss r1 (so_wf _ Hok) Hcl Hs) as (_ & Hz & HS & _). rewrite Hz, <- HS. clear Hz HS.
  pose proof (actives_known r1 (ActiveStreams r)) as Hk. apply (order_known _ initialID (0 <? Mlq.FastSize (OrphanQueue r1))) in Hk.
  set (order := pack_order _ _ _) in *. clearbody order. set (k0 := (AppendPackedControlBlock [] (tx_block first sid), 1, r1)).
  destruct (process_all_packed (MaxPackedBlocks r) now order k0 (mv_ok _ _ _ _ Hmv1) Hk) as [ps Hps].
  destruct (process_all _ now order k0) as [[payload blocks] r2]. destruct Hps as [Hmv Hpay Hbl Hlim Hpks]. unfold k0 in *. cbn [fst snd] in *. intros [= <- <-].
  exists ps. split_and!.
  - exact (moved_trans _ _ _ _ _ _ _ Hmv1 Hmv).
  - subst blocks payload. unfold carries. destruct ps as [|w ps].
    + done.
    + rewrite !len_cons. pose proof (len_nonneg ps). case_if; [zbool; lia|]. split; [done|]. by constructor.
  - rewrite len_cons. lia.
Qed.

(** ** Choosing a packet *)

Lemma deactivate_moved id r : serve_ok r -> (forall a s, Streams r !! id = Some a -> objects r !! a = Some s -> closed s.1 = true) ->
  moved r [] [] (deactivateStream id r).
Proof.
  intros Hok Hcd. unfold deactivateStream. case_if; [by apply moved_refl|]. destruct (wf_removeActive id r (so_wf _ Hok)) as [Hw Ha].
  assert (He : objects (removeActiveStreamLocked id r) = objects r /\ OrphanQueue (removeActiveStreamLocked id r) = OrphanQueue r /\
    Streams (removeActiveStreamLocked id r) = Streams r /\ MaxPackedBlocks (removeActiveStreamLocked id r) = MaxPackedBlocks r /\
    isClosed (removeActiveStreamLocked id r) = isClosed r) by (unfold removeActiveStreamLocked; by destruct (list_find _ _) as [[? ?]|]).
  destruct He as (H1 & H2 & H3 & H4 & H5). destruct Hok. split; try done.
  - split; rewrite ?H1, ?H2, ?H3; done.
  - intros a. rewrite H1. apply same_arq_refl.
  - unfold contents, orphan_items. by rewrite H1, H2.
  - intros x. rewrite Ha. by intros [_ ?]%list_elem_of_filter.
  - intros x a s Hx Hs Hb Hc. rewrite Ha. apply list_elem_of_filter. split; [|done]. intros ->. rewrite (Hcd a s Hs Hb) in Hc. done.
Qed.

Lemma clear_items {T} (q : MultiLevelQueue T) : items_of (Mlq.Clear q).2 = [].
Proof. pose proof (f_equal snd (Clear_refines q)) as H. cbn [snd] in H. unfold items_of. by rewrite <- H. Qed.

Definition taken (found : option (txPacket * Z)) (ps : list waiting) : Prop :=
  match found with Some (p, sid) => exists src, ps = [(src, p, sid)] | None => ps = [] end.

Lemma try_moved now c r found r' : serve_ok r -> known r c -> try_candidate now c r = (found, r') ->
  exists ps ds, moved r ps ds r' /\ taken found ps.
Proof.
  intros Hok Hc. unfold try_candidate. destruct c as [id st]. destruct (Z.eqb_spec id (-1)) as [->|Hne].
  - destruct (Mlq.Pop (OrphanQueue r)) as [x q] eqn:Hp. destruct (Pop_items _ _ _ (so_orphans _ Hok) Hp) as [Hw Hx]. intros [= <- <-].
    destruct x as [[p n]|].
    + eexists _, []. split; [apply (orphan_moved r q [p]); [done|done|by rewrite Hx]|]. by exists None.
    + destruct Hx as [Hx Hy]. exists [], []. split; [|done]. apply (orphan_moved r q []); [done|done|]. by rewrite Hx, Hy.
  - destruct st as [a|]; cbn; [|intros [= <- <-]; exists [], []; split; [by apply moved_refl|done]].
    destruct (known_stream r id a Hok Hc Hne) as (s & Ha & Hid & Hu). rewrite Ha. cbn.
    case_if; [intros [= <- <-]; exists [], []; split; [by apply moved_refl|done]|]. destruct (closed s.1) eqn:Hcl.
    + intros [= <- <-]. exists [], (map (from a (StreamServer.ID s.2)) (items_of (StreamServer.TXQueue s.2))). split; [|done].
      set (s' := (s.1, StreamServer.ClearTXQueue s.2)).
      assert (Hm : moved r [] (map (from a (StreamServer.ID s.2)) (items_of (StreamServer.TXQueue s.2))) (r <| objects ::= <[a := s']> |>)).
      { apply (object_moved r a s s' [] (items_of (StreamServer.TXQueue s.2))); try done.
        - apply (Clear_wf (StreamServer.TXQueue s.2)). by eapply so_streams.
        - change (StreamServer.TXQueue s'.2) with (Mlq.Clear (StreamServer.TXQueue s.2)).2. by rewrite clear_items, app_nil_r.
        - apply Forall_map, Forall_forall. intros p _. exists a, s. by split_and!; [..|left]. }
      rewrite <- (app_nil_r (map _ _)). refine (moved_trans _ _ _ _ [] _ _ Hm (deactivate_moved (wrap16 id) _ (mv_ok _ _ _ _ Hm) _)).
      rewrite wrap16_id by done. cbn. intros b x Hb. destruct Hc as [?|Hc]; [done|]. cbn in Hc. rewrite Hc in Hb. injection Hb as <-.
      rewrite lookup_insert_eq. by intros [= <-].
    + unfold StreamServer.PopNextTXPacket. destruct (Mlq.Pop (StreamServer.TXQueue s.2)) as [x q] eqn:Hp.
      destruct (Pop_items _ _ _ (so_streams _ Hok _ _ Ha) Hp) as [Hw Hx]. destruct x as [[p n]|].
      2:{ intros [= <- <-]. destruct Hx as [Hx Hy]. exists [], []. split; [|done]. apply (object_moved r a s (s.1, _) [] []); try done. cbn. by rewrite Hx, Hy. }
      set (s' := note_dequeued p now (s.1, s.2 <| StreamServer.TXQueue := q |>)).
      rewrite (pending_note (pktSequenceNum p) (pktType p) (pktSequenceNum p) (pktFragmentID p) now s.1).
      destruct (is_data p && negb (HasPendingSequence (pktSequenceNum p) s.1)) eqn:Hst; intros [= <- <-].
      * exists [], [from a (StreamServer.ID s.2) p]. split; [|done]. apply (object_moved r a s s' [] [p]); first [done|apply closed_note|intros; apply pending_note|idtac].
        { cbn. by rewrite Hx. }
        apply andb_true_iff in Hst as [H1 H2%negb_true_iff]. constructor; [|constructor]. exists a, s. by split_and!; [..|right].
      * exists [from a (StreamServer.ID s.2) p], []. split; [|exists (Some a); unfold from; rewrite Hid, wrap16_id by done; done].
        apply (object_moved r a s s' [p] []); first [done|apply closed_note|intros; apply pending_note|idtac]. cbn. by rewrite Hx.
Qed.

Definition chosen (found : option (Z * txPacket * Z)) (ps : list waiting) : Prop :=
  match found with Some (_, p, sid) => exists src, ps = [(src, p, sid)] | None => ps = [] end.

Lemma try_all_moved now cs : forall r found r', serve_ok r -> Forall (known r) cs -> try_candidates now cs r = (found, r') ->
  exists ps ds, moved r ps ds r' /\ chosen found ps.
Proof.
  induction cs as [|c cs IH]; intros r found r' Hok Hcs; cbn [try_candidates].
  { intros [= <- <-]. exists [], []. split; [by apply moved_refl|done]. }
  apply Forall_cons in Hcs as [Hc Hcs]. destruct (try_candidate now c r) as [x r1] eqn:Ht.
  destruct (try_moved now c r x r1 Hok Hc Ht) as (ps & ds & Hm & Hx). destruct x as [[p sid]|]; [intros [= <- <-]; by exists ps, ds|].
  intros Hr. cbn in Hx. subst ps. destruct (IH r1 found r' (mv_ok _ _ _ _ Hm)) as (ps & ds' & Hm' & Hch).
  - eapply Forall_impl; [exact Hcs|]. intros c'. apply known_same, Hm.
  - done.
  - exists ps, (ds ++ ds'). split; [|done]. exact (moved_trans _ _ _ _ _ _ _ Hm Hm').
Qed.

(** Fields that do not matter to the queues. *)
Lemma moved_fields r r' : serve_ok r -> Streams r' = Streams r -> ActiveStreams r' = ActiveStreams r -> objects r' = objects r ->
  activeStreamSetVersion r' = activeStreamSetVersion r -> activeStreamSnapshotVersion r' = activeStreamSnapshotVersion r ->
  activeStreamSnapshotIDs r' = activeStreamSnapshotIDs r -> activeStreamSnapshotStreams r' = activeStreamSnapshotStreams r ->
  MaxActiveStreamsPerSession r' = MaxActiveStreamsPerSession r -> RecentlyClosed r' = RecentlyClosed r ->
  RecentlyClosedHeap r' = RecentlyClosedHeap r -> RecentlyClosedCap r' = RecentlyClosedCap r ->
  OrphanQueue r' = OrphanQueue r -> isClosed r' = isClosed r -> MaxPackedBlocks r' = MaxPackedBlocks r -> moved r [] [] r'.
Proof.
  intros [] H1 H2 H3 H4 H5 H6 H7 H8 H9 H10 H11 H12 H13 H14. split; try done.
  - split; rewrite ?H1, ?H2, ?H3, ?H12; try done. by eapply (wf_same r).
  - intros a. rewrite H3. apply same_arq_refl.
  - unfold contents, orphan_items. by rewrite H3, H12.
  - by rewrite H2.
  - by rewrite H2.
Qed.

Lemma duplicate_moved r x r' : serve_ok r -> dequeueDuplicatedPackedControlBlock r = (x, r') -> moved r [] [] r' /\
  (x = LastPackedControlBlock r \/ x = None).
Proof.
  intros Hok. unfold dequeueDuplicatedPackedControlBlock. destruct (LastPackedControlBlock r); [|intros [= <- <-]; split; [by apply moved_refl|by right]].
  case_if; intros [= <- <-]; (split; [|auto]); [by apply moved_refl|]. case_if; by apply moved_fields.
Qed.

Lemma rotate_perm {A} i (l : list A) : rotate i l ≡ₚ l.
Proof. unfold rotate. rewrite Permutation_app_comm. by rewrite take_drop. Qed.

(** The candidates of a call. *)
Definition candidates (r : sessionRecord) : list candidate :=
  (if 0 <? Mlq.FastSize (OrphanQueue r) then [(-1, None)] else []) ++ map (fun id => (id, Streams r !! id)) (ActiveStreams r).

Lemma candidates_known r : Forall (known r) (candidates r).
Proof. apply Forall_app_2; [case_if; repeat constructor|apply actives_known]. Qed.

Lemma rotated_known r r' : Streams r' = Streams r -> Forall (known r') (rotate (start_index (RRStreamID r) (candidates r)) (candidates r)).
Proof. intros Hs. rewrite rotate_perm. eapply Forall_impl; [apply candidates_known|]. intros c. by apply known_same. Qed.

(** A call that does not repeat a packet tries the candidates from the one whose turn it
    is. *)
Lemma dequeue_choice duplication now r r1 : serve_ok r -> isClosed r = false -> dequeueDuplicatedPackedControlBlock r = (None, r1) ->
  exists r2, moved r [] [] r2 /\ ActiveStreams r2 = ActiveStreams r /\ objects r2 = objects r /\
    LastPackedControlBlock r2 = LastPackedControlBlock r /\ LastPackedControlBlockRemaining r2 = LastPackedControlBlockRemaining r /\
    dequeueSessionResponse duplication now r =
      let '(found, r3) := try_candidates now (rotate (start_index (RRStreamID r) (candidates r)) (candidates r)) r2 in
      answer_with duplication now found r3.
Proof.
  intros Hok Hcl Hd. unfold dequeueSessionResponse. rewrite Hcl, Hd. assert (r1 = r) as ->.
  { unfold dequeueDuplicatedPackedControlBlock in Hd. destruct (LastPackedControlBlock r); [case_if|]; congruence. }
  destruct (activeStreamSnapshot r) as [[ids ss] r2] eqn:Hs. pose proof (snapshot_moved r ids ss r2 Hok Hcl Hs) as Hm.
  destruct (snapshot_ready r ids ss r2 (so_wf _ Hok) Hcl Hs) as (_ & Hz & H1 & H2 & H3 & H4 & H5 & H6 & H7 & H8 & H9 & H10).
  exists r2. split_and!; try done. unfold candidates. by rewrite Hz, H4.
Qed.

Lemma answer_moved duplication now id p sid src r pkt r' : serve_ok r -> isClosed r = false ->
  answer_with duplication now (Some (id, p, sid)) r = (pkt, r') ->
  exists ps x, moved r ps [] r' /\ pkt = Some x /\ carries x ((src, p, sid) :: ps) /\ len ((src, p, sid) :: ps) <= Z.max 1 (MaxPackedBlocks r).
Proof.
  intros Hok Hcl. unfold answer_with. set (r1 := r <| RRStreamID := id + 1 |>). assert (Hm1 : moved r [] [] r1) by (by apply moved_fields).
  destruct (IsPackableControlPacket _ _) eqn:Hp; cbn [andb].
  2:{ intros [= <- <-]. exists [], (vpnPacketFromTX p sid). split_and!; [done|done|done|rewrite len_one; lia]. }
  case_if; [|intros [= <- <-]; exists [], (vpnPacketFromTX p sid); split_and!; [done|done|done|rewrite len_one; lia]].
  destruct (packControlBlocks p id sid now r1) as [x r2] eqn:Hk. intros [= <- <-].
  destruct (packControl_carries p id sid src now r1 x r2 (mv_ok _ _ _ _ Hm1) Hcl Hp Hk) as (ps & Hm2 & Hc & Hl).
  exists ps, x. split_and!; [|done|done|done]. rewrite <- (app_nil_r ps).
  refine (moved_trans _ _ [] _ _ [] _ (moved_trans _ _ [] _ _ [] _ Hm1 Hm2) _). unfold cachePackedControlBlockDuplicate.
  pose proof (mv_ok _ _ _ _ Hm2). case_if; by apply moved_fields.
Qed.

Lemma dequeue_moved (duplication now : Z) (r : sessionRecord) :
  serve_ok r -> isClosed r = false ->
  let '(answer, r') := dequeueSessionResponse duplication now r in
  exists ps ds, moved r ps ds r' /\
    match answer with
    | None => ps = []
    | Some pkt =>
        LastPackedControlBlock r = Some pkt /\ 0 < LastPackedControlBlockRemaining r /\ ps = [] /\ ds = [] \/
        carries pkt ps /\ len ps <= Z.max 1 (MaxPackedBlocks r)
    end.
Proof.
  intros Hok Hcl. destruct (dequeueDuplicatedPackedControlBlock r) as [dup r1] eqn:Hd. destruct dup as [packet|].
  { unfold dequeueSessionResponse. rewrite Hcl, Hd. exists [], []. split; [by eapply duplicate_moved|]. left.
    unfold dequeueDuplicatedPackedControlBlock in Hd. destruct (LastPackedControlBlock r); [|done].
    destruct (Z.leb_spec (LastPackedControlBlockRemaining r) 0); [done|]. by injection Hd as <- _. }
  destruct (dequeue_choice duplication now r r1 Hok Hcl Hd) as (r2 & Hm2 & _ & _ & _ & _ & ->).
  pose proof (rotated_known r r2 (mv_streams _ _ _ _ Hm2)) as Hk. destruct (try_candidates now _ r2) as [found r3] eqn:Ht.
  destruct (try_all_moved now _ r2 found r3 (mv_ok _ _ _ _ Hm2) Hk Ht) as (ps & ds & Hm3 & Hc).
  pose proof (moved_trans _ _ _ _ _ _ _ Hm2 Hm3) as Hm. cbn [app] in Hm. destruct found as [[[id p] sid]|].
  2:{ cbn. exists ps, ds. by split. }
  destruct Hc as [src ->]. destruct (answer_with _ _ _ r3) as [answer r4] eqn:Ha.
  assert (Hcl3 : isClosed r3 = false) by (by rewrite (mv_open _ _ _ _ Hm)).
  destruct (answer_moved duplication now id p sid src r3 answer r4 (mv_ok _ _ _ _ Hm) Hcl3 Ha) as (ps & x & Hm4 & -> & Hx & Hl).
  exists ([(src, p, sid)] ++ ps), (ds ++ []). split; [exact (moved_trans _ _ _ _ _ _ _ Hm Hm4)|]. right. by rewrite <- (mv_packed _ _ _ _ Hm).
Qed.

(** C14: The scheduler neither loses nor invents packets.  When an open session is asked for
    a packet, either it repeats the packed packet it sent last, and every queue is as
    before, or the packets that waited in all queues are those it takes, those it drops and
    those that still wait.  Dropped packets are stale: their stream is closed, or they are
    data the peer has acknowledged.  The answer carries just the packets taken, a single one
    as it is, several control packets as packed blocks, at most as many as the session
    allows; there is no answer only when none was taken. *)
Theorem serve_conserves (duplication now : Z) (r : sessionRecord) :
  serve_ok r -> isClosed r = false ->
  let '(answer, r') := dequeueSessionResponse duplication now r in
  exists ps ds, moved r ps ds r' /\
    match answer with
    | None => ps = []
    | Some pkt =>
        LastPackedControlBlock r = Some pkt /\ 0 < LastPackedControlBlockRemaining r /\ ps = [] /\ ds = [] \/
        carries pkt ps /\ len ps <= Z.max 1 (MaxPackedBlocks r)
    end.
Proof. apply dequeue_moved. Qed.
