(* ===== verification/SessionFair.v ===== *)
(** The round robin of the scheduler is fair: every open stream with a queued packet gets
    its turn.

    Theorems on SessionServe.v (src/masterdns/internal/udpserver/server_session.go). *)

From stdpp Require Import base tactics list gmap strings sorting.
From Stdlib Require Import ZArith Lia.
From S2P Require Import Prelude Enums Mlq Compression VpnProto GoFloat ArqState Arq TxQueue GoHeap Session SessionInv SessionServe SessionServeInv.
Import Session.

(** ** The turn *)

(** The fields that decide whose turn it is, and what is repeated. *)
Definition same_turn (r r' : sessionRecord) : Prop :=
  RRStreamID r' = RRStreamID r /\ LastPackedControlBlock r' = LastPackedControlBlock r /\
  LastPackedControlBlockRemaining r' = LastPackedControlBlockRemaining r.

Lemma turn_trans r1 r2 r3 : same_turn r1 r2 -> same_turn r2 r3 -> same_turn r1 r3.
Proof. intros (A & B & C) (A' & B' & C'). split_and!; congruence. Qed.

Lemma turn_orphans limit : forall fuel k, same_turn k.2 (process_orphans fuel limit k).2.
Proof.
  induction fuel as [|fuel IH]; intros [[payload blocks] r]; cbn [process_orphans]; [done|]. repeat (case_if; [|done || idtac]); [done|].
  destruct (Mlq.PopAnyIf _ _ _) as [[p|] q]; [|done]. eapply turn_trans; [|apply IH]. done.
Qed.

Lemma turn_stream limit id a now : forall fuel k, same_turn k.2 (process_stream fuel limit id a now k).2.
Proof.
  induction fuel as [|fuel IH]; intros [[payload blocks] r]; cbn [process_stream]; [done|]. case_if; [|done]. destruct (objects r !! a) as [s|]; [|done].
  case_if; [done|]. destruct (StreamServer.PopAnyTXPacket _ _ _) as [[p|] q]; [|done]. eapply turn_trans; [|apply IH]. done.
Qed.

Lemma turn_all limit now cs : forall k, same_turn k.2 (process_all limit now cs k).2.
Proof.
  induction cs as [|c cs IH]; intros k; cbn [process_all]; [done|]. case_if; [done|]. eapply turn_trans; [|apply IH]. unfold processID.
  repeat case_if; [done|apply turn_orphans|]. destruct (c.2); [apply turn_stream|done].
Qed.

Lemma turn_snapshot r : same_turn r (activeStreamSnapshot r).2.
Proof. unfold activeStreamSnapshot. by repeat case_if. Qed.

Lemma turn_pack first id sid now r : same_turn r (packControlBlocks first id sid now r).2.
Proof.
  unfold packControlBlocks. case_if; [done|]. pose proof (turn_snapshot r) as Hs. destruct (activeStreamSnapshot r) as [[ids ss] r1].
  match goal with |- context [process_all ?l now ?o ?k] => pose proof (turn_all l now o k) as Ha; destruct (process_all l now o k) as [[pay bl] r2] end.
  by eapply turn_trans.
Qed.

Lemma turn_try now c r : same_turn r (try_candidate now c r).2.
Proof.
  unfold try_candidate. destruct c as [id st]. case_if; [by destruct (Mlq.Pop _) as [x q]|]. destruct (st ≫= _) as [[a s]|]; [|done].
  repeat (case_if; [done || idtac|]); [|destruct (StreamServer.PopNextTXPacket s.2) as [[[p n]|] v]; [by case_if|done]].
  unfold deactivateStream, removeActiveStreamLocked. case_if; [done|]. by destruct (list_find _ _) as [[i x]|].
Qed.

Lemma turn_try_all now cs : forall r, same_turn r (try_candidates now cs r).2.
Proof.
  induction cs as [|c cs IH]; intros r; cbn [try_candidates]; [done|]. pose proof (turn_try now c r) as Ht.
  destruct (try_candidate now c r) as [[[p sid]|] r1]; [done|]. eapply turn_trans; [exact Ht|apply IH].
Qed.

(** ** The order of the turns *)

(** [c] comes before [id] when the turn is at [p]. *)
Definition before (p c id : Z) : Prop := p <= c /\ c < id \/ id < p /\ (p <= c \/ c < id).

#[global] Instance before_dec p c id : Decision (before p c id).
Proof. unfold before. apply _. Defined.

Definition sorted_ids (cs : list candidate) : Prop := StronglySorted Z.lt cs.*1.

Lemma ids_split (l1 l2 : list candidate) c : sorted_ids (l1 ++ c :: l2) -> Forall (fun d => d.1 < c.1) l1.
Proof.
  unfold sorted_ids. induction l1 as [|d l1 IH]; intros H; [constructor|]. cbn in H. apply StronglySorted_inv in H as [H Hd]. constructor; [|by apply IH].
  rewrite fmap_app in Hd. apply Forall_app in Hd as [_ Hd]. cbn in Hd. by apply Forall_cons in Hd as [Hd _].
Qed.

Lemma sorted_app_le (l1 l2 : list candidate) : sorted_ids (l1 ++ l2) -> sorted_ids l1 /\ sorted_ids l2.
Proof. unfold sorted_ids. rewrite fmap_app. intros H. split; [by eapply StronglySorted_app_1_l|by eapply StronglySorted_app_1_r]. Qed.

Lemma rotate_split p cs c : sorted_ids cs -> c ∈ cs ->
  exists l1 l2, rotate (start_index p cs) cs = l1 ++ c :: l2 /\ Forall (fun d => before p d.1 c.1) l1.
Proof.
  intros Hs Hc. unfold rotate, start_index. destruct (list_find _ cs) as [[i x]|] eqn:Hf.
  - apply list_find_Some in Hf as (Hi & Hx & Hlt). assert (Hlow : Forall (fun d : candidate => d.1 < p) (take i cs)).
    { apply Forall_lookup. intros j d Hj. apply lookup_take_Some in Hj as [Hj Hji]. specialize (Hlt j d Hj Hji). lia. }
    pose proof Hs as Hs'. rewrite <- (take_drop i cs) in Hs'. apply sorted_app_le in Hs' as [Hst Hsd].
    assert (Hhigh : Forall (fun d : candidate => p <= d.1) (drop i cs)).
    { rewrite (drop_S _ _ _ Hi). rewrite (drop_S _ _ _ Hi) in Hsd. constructor; [done|]. unfold sorted_ids in Hsd. cbn in Hsd.
      apply StronglySorted_inv in Hsd as [_ Hsd]. apply (Forall_fmap fst) in Hsd. eapply Forall_impl; [exact Hsd|]. intros d. cbn. lia. }
    rewrite <- (take_drop i cs) in Hc. apply elem_of_app in Hc as [Hc|Hc].
    + pose proof (proj1 (Forall_forall _ _) Hlow c Hc) as Hcp. cbn in Hcp. apply list_elem_of_split in Hc as (l1 & l2 & Hl). exists (drop i cs ++ l1), l2.
      rewrite Hl in *. split; [by rewrite (assoc_L (++))|]. apply Forall_app_2; [eapply Forall_impl; [exact Hhigh|]; intros d; cbn; right; lia|].
      eapply Forall_impl; [by eapply ids_split|]. intros d. cbn. right. lia.
    + apply list_elem_of_split in Hc as (l1 & l2 & Hl). exists l1, (l2 ++ take i cs). rewrite Hl in *. split; [by rewrite <- (assoc_L (++))|].
      apply Forall_app in Hhigh as [Hh _]. pose proof (ids_split _ _ _ Hsd) as Hsp. clear - Hh Hsp. induction l1; [constructor|].
      inversion Hh; inversion Hsp; subst. constructor; [left; lia|auto].
  - pose proof (proj1 (list_find_None _ _) Hf) as Hn. rewrite drop_0, take_0, app_nil_r. pose proof (proj1 (Forall_forall _ _) Hn c Hc) as Hcp. cbn in Hcp.
    apply list_elem_of_split in Hc as (l1 & l2 & ->). exists l1, l2. split; [done|]. eapply Forall_impl; [by eapply ids_split|]. intros d. cbn. right. lia.
Qed.

(** ** How long a stream waits *)

(** The calls that repeat the last packed packet. *)
Definition left (r : sessionRecord) : Z :=
  match LastPackedControlBlock r with Some _ => Z.max 0 (LastPackedControlBlockRemaining r) | None => 0 end.

(** The candidates whose turn comes before the stream's. *)
Definition turns (r : sessionRecord) (id : Z) : Z := len (filter (fun c => before (RRStreamID r) c id) (-1 :: ActiveStreams r)).

Definition queued (r : sessionRecord) (a : nat) : Z :=
  match objects r !! a with Some s => len (items_of (StreamServer.TXQueue s.2)) | None => 0 end.

Lemma ids_nodup r : serve_ok r -> NoDup (-1 :: ActiveStreams r).
Proof.
  intros Hok. apply NoDup_cons. split.
  - intros Hin. destruct (wf_active r (so_wf _ Hok) _ Hin) as [a Ha]. apply (so_ids _ Hok) in Ha. unfold u16 in Ha. lia.
  - pose proof (wf_sorted r (so_wf _ Hok)) as Hs. induction Hs as [|x l _ IH Hx]; constructor; [|done]. intros Hin.
    pose proof (proj1 (Forall_forall _ _) Hx x Hin). lia.
Qed.

Lemma before_next p c0 c id : before p c0 id -> before (c0 + 1) c id -> before p c id.
Proof. unfold before. lia. Qed.

Lemma turns_less r r' c0 id : serve_ok r' -> (forall x, x ∈ ActiveStreams r' -> x ∈ ActiveStreams r) -> RRStreamID r' = c0 + 1 ->
  before (RRStreamID r) c0 id -> c0 ∈ -1 :: ActiveStreams r -> turns r' id + 1 <= turns r id.
Proof.
  intros Hok Hsub Hrr Hb Hc. unfold turns. rewrite Hrr. set (l' := filter _ (-1 :: ActiveStreams r')). set (l := filter _ (-1 :: ActiveStreams r)).
  assert (Hl : c0 :: l' ⊆+ l).
  { apply NoDup_submseteq.
    - apply NoDup_cons. split; [|by apply NoDup_filter, ids_nodup]. intros [H _]%list_elem_of_filter. unfold before in H. lia.
    - intros x [->|Hx]%elem_of_cons; apply list_elem_of_filter; [done|]. apply list_elem_of_filter in Hx as [Hx Hin]. split; [by eapply before_next|].
      apply elem_of_cons in Hin as [->|Hin]; [by left|right; auto]. }
  apply submseteq_length in Hl. clearbody l l'. unfold len. cbn in Hl. lia.
Qed.

Lemma queued_contents r a : queued r a = len (filter (fun w : waiting => w.1.1 = Some a) (contents r)).
Proof.
  assert (Hother : forall m : gmap nat stream, m !! a = None -> filter (fun w : waiting => w.1.1 = Some a) (flat_map stream_items (map_to_list m)) = []).
  { intros m Hm. apply list_filter_none, Forall_forall. intros w Hw. apply list_elem_of_In, in_flat_map in Hw as ([b s] & Hb & Hw).
    apply list_elem_of_In, elem_of_map_to_list in Hb. apply in_map_iff in Hw as (p & <- & _). cbn. intros [= ->]. congruence. }
  assert (Horph : filter (fun w : waiting => w.1.1 = Some a) (orphan_items r) = []) by (apply list_filter_none, Forall_map, Forall_forall; done).
  unfold queued. destruct (objects r !! a) as [s|] eqn:Ha.
  - unfold len. f_equal. rewrite (filter_Permutation _ _ _ (contents_object r a s Ha)), !filter_app, Horph, Hother by apply lookup_delete_eq.
    rewrite !app_nil_r, list_filter_all; [unfold stream_items; by rewrite length_map|]. apply Forall_map, Forall_forall. done.
  - unfold contents. by rewrite filter_app, Horph, Hother.
Qed.

Lemma moved_queued r ps ds r' a : moved r ps ds r' -> queued r' a <= queued r a.
Proof.
  intros Hm. rewrite !queued_contents. unfold len. rewrite (filter_Permutation _ _ _ (mv_contents _ _ _ _ Hm)), !filter_app, !length_app. lia.
Qed.

(** A stream that has its turn gives a packet from its queue, to send or to drop. *)
Lemma try_live now id a r s : serve_ok r -> id <> -1 -> objects r !! a = Some s -> closed s.1 = false -> 0 < queued r a < 2147483648 ->
  queued (try_candidate now (id, Some a) r).2 a < queued r a.
Proof.
  intros Hok Hne Ha Hc Hq. unfold try_candidate. rewrite (proj2 (Z.eqb_neq id (-1))) by done. cbn. rewrite Ha. cbn. unfold queued in *. rewrite Ha in *.
  pose proof (so_streams _ Hok _ _ Ha) as Hw. assert (Hsz : StreamServer.FastTXQueueSize s.2 = len (items_of (StreamServer.TXQueue s.2))).
  { unfold StreamServer.FastTXQueueSize, FastSize. rewrite (wf_fast _ Hw), Size_refines by done. unfold items_of, len in *. rewrite length_map in *. by apply swrap32_id; lia. }
  rewrite Hsz, (proj2 (Z.eqb_neq _ 0)), Hc by lia. unfold StreamServer.PopNextTXPacket. destruct (Mlq.Pop (StreamServer.TXQueue s.2)) as [x q] eqn:Hp.
  destruct (Pop_items _ _ _ Hw Hp) as [Hw' Hx]. destruct x as [[p n]|].
  2:{ destruct Hx as [Hx _]. rewrite Hx in Hq. change (0 < 0 < 2147483648) in Hq. lia. }
  rewrite Hx, len_cons. assert (Hlt : len (items_of q) < 1 + len (items_of q)) by lia. case_if; cbn; rewrite lookup_insert_eq; exact Hlt.
Qed.

Lemma try_app now l1 c l2 : forall r, serve_ok r -> Forall (known r) l1 ->
  (exists c0 p sid r', c0 ∈ l1 /\ try_candidates now (l1 ++ c :: l2) r = (Some (c0.1, p, sid), r')) \/
  exists ds rm, moved r [] ds rm /\ try_candidates now (l1 ++ c :: l2) r = try_candidates now (c :: l2) rm.
Proof.
  induction l1 as [|d l1 IH]; intros r Hok Hk; [right; exists [], r; split; [by apply moved_refl|done]|].
  apply Forall_cons in Hk as [Hd Hk]. cbn [app try_candidates]. destruct (try_candidate now d r) as [x r1] eqn:Ht.
  destruct (try_moved now d r x r1 Hok Hd Ht) as (ps & ds & Hm & Hx). destruct x as [[p sid]|].
  { left. exists d, p, sid, r1. split; [by left|done]. }
  cbn in Hx. subst ps. destruct (IH r1 (mv_ok _ _ _ _ Hm)) as [(c0 & p & sid & r' & Hin & He)|(ds' & rm & Hm' & He)].
  - eapply Forall_impl; [exact Hk|]. intros c'. apply known_same, Hm.
  - left. exists c0, p, sid, r'. split; [by right|done].
  - right. exists (ds ++ ds'), rm. split; [exact (moved_trans _ _ _ _ _ _ _ Hm Hm')|done].
Qed.

Lemma answer_turn duplication now id p sid r : let r' := (answer_with duplication now (Some (id, p, sid)) r).2 in
  RRStreamID r' = id + 1 /\ left r' <= Z.max (left r) (Z.max 1 duplication - 1).
Proof.
  cbn [answer_with]. case_if; [|cbn; split; [done|unfold left; cbn; lia]]. pose proof (turn_pack p id sid now (r <| RRStreamID := id + 1 |>)) as (H1 & _).
  destruct (packControlBlocks _ _ _ _ _) as [pkt r2]. cbn in *. unfold cachePackedControlBlockDuplicate, left. case_if; cbn; [split; [done|lia]|].
  split; [done|]. match goal with H : _ || _ = false |- _ => apply orb_false_elim in H as [Hd _] end. zbool. lia.
Qed.

(** ** Fairness *)

(** An open stream with packets. *)
Record live (r : sessionRecord) (id : Z) (a : nat) : Prop := {
  lv_active : id ∈ ActiveStreams r;
  lv_stream : Streams r !! id = Some a;
  lv_open : exists s, objects r !! a = Some s /\ closed s.1 = false;
  lv_queue : 0 < queued r a < 2147483648
}.

Lemma live_moved r ps ds r' id a : moved r ps ds r' -> live r id a -> queued r' a = queued r a -> live r' id a.
Proof.
  intros [] [Hact Hs (s & Ha & Hc) Hq] Hsame. specialize (mv_arq a). rewrite Ha in mv_arq. destruct (objects r' !! a) as [s'|] eqn:Ha'; [|done].
  destruct mv_arq as (Hc' & _). split; [by eapply mv_live|by rewrite mv_streams|exists s'; split; [done|congruence]|lia].
Qed.

Lemma candidates_sorted r : serve_ok r -> sorted_ids (candidates r).
Proof.
  intros Hok. unfold sorted_ids, candidates. rewrite fmap_app. assert (He : (map (fun id => (id, Streams r !! id)) (ActiveStreams r)).*1 = ActiveStreams r).
  { induction (ActiveStreams r) as [|x l IH]; [done|]. cbn. by rewrite IH. }
  rewrite He. pose proof (wf_sorted r (so_wf _ Hok)) as Hs. case_if; [|done]. cbn. constructor; [done|]. apply Forall_forall. intros x Hx.
  destruct (wf_active r (so_wf _ Hok) x Hx) as [b Hb]. apply (so_ids _ Hok) in Hb. unfold u16 in Hb. lia.
Qed.

Definition potential (duplication : Z) (r : sessionRecord) (id : Z) : Z := left r + turns r id * Z.max 1 duplication.

(** What a call does for a live stream. *)
Definition progress (duplication id : Z) (a : nat) (r r' : sessionRecord) : Prop :=
  queued r' a < queued r a \/ live r' id a /\ queued r' a = queued r a /\ potential duplication r' id < potential duplication r id.

Lemma progress_or duplication id a r ps ds r' : moved r ps ds r' -> live r id a ->
  (queued r' a = queued r a -> potential duplication r' id < potential duplication r id) -> progress duplication id a r r'.
Proof.
  intros Hm Hl Hp. pose proof (moved_queued _ _ _ _ a Hm). destruct (decide (queued r' a = queued r a)) as [He|He]; [right|left; lia].
  split_and!; [by eapply live_moved|done|auto].
Qed.

Lemma duplicate_left r x r' : dequeueDuplicatedPackedControlBlock r = (Some x, r') -> left r' < left r /\ RRStreamID r' = RRStreamID r /\ ActiveStreams r' = ActiveStreams r.
Proof.
  unfold dequeueDuplicatedPackedControlBlock, left. destruct (LastPackedControlBlock r) as [y|] eqn:E; [|done]. destruct (Z.leb_spec (LastPackedControlBlockRemaining r) 0); [done|].
  intros [= <- <-]. case_if; cbn in *; rewrite ?E; split_and!; try done; zbool; lia.
Qed.

Lemma duplicate_none r r' : dequeueDuplicatedPackedControlBlock r = (None, r') -> left r = 0.
Proof. unfold dequeueDuplicatedPackedControlBlock, left. destruct (LastPackedControlBlock r); [|done]. destruct (Z.leb_spec (LastPackedControlBlockRemaining r) 0); [lia|done]. Qed.

(** The rest of a call takes packets only. *)
Lemma rest_queued duplication now l r a : serve_ok r -> isClosed r = false -> Forall (known r) l ->
  queued (let '(found, r') := try_candidates now l r in answer_with duplication now found r').2 a <= queued r a.
Proof.
  intros Hok Hcl Hk. destruct (try_candidates now l r) as [found r'] eqn:Ht. destruct (try_all_moved now l r found r' Hok Hk Ht) as (ps & ds & Hm & _).
  pose proof (moved_queued _ _ _ _ a Hm). destruct found as [[[id p] sid]|]; [|done]. destruct (answer_with _ _ _ r') as [x r4] eqn:Ha.
  destruct (answer_moved duplication now id p sid None r' x r4 (mv_ok _ _ _ _ Hm)) as (ps' & y & Hm' & _); [by rewrite (mv_open _ _ _ _ Hm)|done|].
  pose proof (moved_queued _ _ _ _ a Hm'). cbn. lia.
Qed.

(** A call that reaches the stream shortens its queue. *)
Lemma reached_queued duplication now id a l r : serve_ok r -> isClosed r = false -> live r id a -> Forall (known r) ((id, Some a) :: l) -> id <> -1 ->
  queued (let '(found, r') := try_candidates now ((id, Some a) :: l) r in answer_with duplication now found r').2 a < queued r a.
Proof.
  intros Hok Hcl [_ _ (s & Ha & Hc) Hq] Hk Hne. apply Forall_cons in Hk as [Hk1 Hk]. pose proof (try_live now id a r s Hok Hne Ha Hc Hq) as Hlt.
  cbn [try_candidates]. destruct (try_candidate now (id, Some a) r) as [x r1] eqn:Ht. destruct (try_moved now _ r x r1 Hok Hk1 Ht) as (ps & ds & Hm & _).
  assert (Hcl1 : isClosed r1 = false) by (by rewrite (mv_open _ _ _ _ Hm)). cbn [snd] in Hlt. destruct x as [[p sid]|].
  - destruct (answer_with _ _ _ r1) as [y r2] eqn:Hy. destruct (answer_moved _ _ _ _ _ None _ _ _ (mv_ok _ _ _ _ Hm) Hcl1 Hy) as (ps' & z & Hm' & _).
    pose proof (moved_queued _ _ _ _ a Hm'). cbn. lia.
  - assert (Hk' : Forall (known r1) l) by (eapply Forall_impl; [exact Hk|]; intros c; apply known_same, Hm).
    pose proof (rest_queued duplication now l r1 a (mv_ok _ _ _ _ Hm) Hcl1 Hk'). lia.
Qed.

Lemma live_candidate r id a : serve_ok r -> live r id a -> (id, Some a) ∈ candidates r /\ id <> -1.
Proof.
  intros Hok Hl. split.
  - apply elem_of_app. right. apply list_elem_of_In, in_map_iff. exists id. rewrite (lv_stream _ _ _ Hl). split; [done|]. apply list_elem_of_In, Hl.
  - pose proof (so_ids _ Hok _ _ (lv_stream _ _ _ Hl)) as Hu. unfold u16 in Hu. lia.
Qed.

Lemma candidate_id r c : c ∈ candidates r -> c.1 ∈ -1 :: ActiveStreams r.
Proof.
  intros [Hc|Hc]%elem_of_app.
  - case_if; [|by apply elem_of_nil in Hc]. apply list_elem_of_singleton in Hc as ->. by left.
  - apply list_elem_of_In, in_map_iff in Hc as (id & <- & Hid). right. by apply list_elem_of_In.
Qed.

Lemma serve_progress duplication now r id a : serve_ok r -> isClosed r = false -> live r id a ->
  let r' := (dequeueSessionResponse duplication now r).2 in serve_ok r' /\ isClosed r' = false /\ progress duplication id a r r'.
Proof.
  intros Hok Hcl Hl. pose proof (dequeue_moved duplication now r Hok Hcl) as Hmv.
  destruct (dequeueSessionResponse duplication now r) as [answer r'] eqn:He. destruct Hmv as (ps & ds & Hm & _). cbn [snd].
  split_and!; [apply Hm|by rewrite (mv_open _ _ _ _ Hm)|]. destruct (dequeueDuplicatedPackedControlBlock r) as [[x|] r1] eqn:Hd.
  { eapply progress_or; [exact Hm|done|]. intros _. unfold dequeueSessionResponse in He. rewrite Hcl, Hd in He. injection He as _ <-.
    destruct (duplicate_left r x r1 Hd) as (H1 & H2 & H3). unfold potential, turns. rewrite H2, H3. lia. }
  destruct (dequeue_choice duplication now r r1 Hok Hcl Hd) as (r2 & Hm2 & Hact & Hobj & Hlp & Hlr & Heq). apply duplicate_none in Hd as Hleft.
  destruct (live_candidate r id a Hok Hl) as [Hin Hne].
  destruct (rotate_split (RRStreamID r) (candidates r) _ (candidates_sorted r Hok) Hin) as (l1 & l2 & Hrot & Hbef).
  pose proof (rotated_known r r2 (mv_streams _ _ _ _ Hm2)) as Hk. rewrite Hrot in Hk, Heq. apply Forall_app in Hk as [Hk1 Hk2].
  destruct (try_app now l1 (id, Some a) l2 r2 (mv_ok _ _ _ _ Hm2) Hk1) as [(c0 & p & sid & r3 & Hc0 & Ht)|(ds' & rm & Hmm & Ht)].
  - eapply progress_or; [exact Hm|done|]. intros _. pose proof (turn_try_all now (l1 ++ (id, Some a) :: l2) r2) as (Hrr & Hlp3 & Hlr3).
    rewrite Ht in Heq, Hrr, Hlp3, Hlr3. cbn [snd] in *. destruct (answer_turn duplication now c0.1 p sid r3) as [Hrr' Hleft']. rewrite He in Heq. rewrite <- Heq in Hrr', Hleft'.
    cbn [snd] in *. pose proof (proj1 (Forall_forall _ _) Hbef c0 Hc0) as Hb. assert (Hl3 : left r3 = 0) by (unfold left in *; by rewrite Hlp3, Hlr3, Hlp, Hlr).
    assert (Hc0' : c0 ∈ candidates r).
    { rewrite <- (rotate_perm (start_index (RRStreamID r) (candidates r))), Hrot. apply elem_of_app. by left. }
    pose proof (turns_less r r' c0.1 id (mv_ok _ _ _ _ Hm) (mv_active _ _ _ _ Hm) Hrr' Hb (candidate_id r c0 Hc0')) as Hlt.
    unfold potential. rewrite Hl3, Hleft in *. nia.
  - left. pose proof (moved_trans _ _ _ _ _ _ _ Hm2 Hmm) as Hmr. pose proof (moved_queued _ _ _ _ a Hmr) as Hq.
    assert (Hclm : isClosed rm = false) by (by rewrite (mv_open _ _ _ _ Hmr)).
    assert (Hkm : Forall (known rm) ((id, Some a) :: l2)) by (eapply Forall_impl; [exact Hk2|]; intros c; apply known_same, Hmm).
    rewrite Ht, He in Heq. change r' with (answer, r').2. rewrite Heq. destruct (decide (queued rm a = queued r a)) as [Hsame|Hd'].
    + rewrite <- Hsame. apply reached_queued; [apply Hmr|done|by eapply live_moved|done|done].
    + pose proof (rest_queued duplication now _ rm a (mv_ok _ _ _ _ Hmr) Hclm Hkm). lia.
Qed.

(** The session after a call for each of the times. *)
Definition serve_all (duplication : Z) (times : list Z) (r : sessionRecord) : sessionRecord :=
  fold_left (fun r now => (dequeueSessionResponse duplication now r).2) times r.

Lemma serve_all_queued duplication a : forall times r, serve_ok r -> isClosed r = false -> queued (serve_all duplication times r) a <= queued r a.
Proof.
  induction times as [|now times IH]; intros r Hok Hcl; cbn [serve_all fold_left]; [done|]. pose proof (dequeue_moved duplication now r Hok Hcl) as Hmv.
  destruct (dequeueSessionResponse duplication now r) as [x r'] eqn:He. destruct Hmv as (ps & ds & Hm & _). cbn [snd]. pose proof (moved_queued _ _ _ _ a Hm).
  pose proof (IH r' (mv_ok _ _ _ _ Hm)) as Hi. unfold serve_all in Hi. rewrite (mv_open _ _ _ _ Hm) in Hi. specialize (Hi Hcl). lia.
Qed.

Lemma potential_nonneg duplication r id : 0 <= potential duplication r id.
Proof. unfold potential, turns, left. pose proof (len_nonneg (filter (fun c => before (RRStreamID r) c id) (-1 :: ActiveStreams r))). destruct (LastPackedControlBlock r); nia. Qed.

(** C15: The scheduler is fair.  An open, active stream with queued packets waits at most
    for the repetitions of the last packed packet and for one turn of every candidate
    before it, each with its repetitions: after that many calls, whatever the other
    streams have queued, a packet has left its queue. *)
Theorem fair_service (duplication id : Z) (a : nat) (times : list Z) (r : sessionRecord) :
  serve_ok r -> isClosed r = false -> live r id a ->
  left r + turns r id * Z.max 1 duplication < len times ->
  queued (serve_all duplication times r) a < queued r a.
Proof.
  change (left r + turns r id * Z.max 1 duplication) with (potential duplication r id). revert r.
  induction times as [|now times IH]; intros r Hok Hcl Hl Hlen.
  { pose proof (potential_nonneg duplication r id). change (len []) with 0 in Hlen. lia. }
  destruct (serve_progress duplication now r id a Hok Hcl Hl) as (Hok' & Hcl' & Hp). cbn [serve_all fold_left] in *. rewrite len_cons in Hlen.
  destruct Hp as [Hlt|(Hl' & Heq & Hlt)].
  - pose proof (serve_all_queued duplication a times _ Hok' Hcl') as Hq. unfold serve_all in Hq. lia.
  - specialize (IH _ Hok' Hcl' Hl'). unfold serve_all in IH. lia.
Qed.
