(* ===== verification/SessionReach.v ===== *)
(** Every state a session of the server can reach is consistent.

    The operations of session.go (Session.v), those of the streams' queues (TxQueue.v) and
    the scheduler (SessionServe.v), in any order, keep the invariant of SessionInv.v and the
    one the theorems on the scheduler (SessionServeInv.v, SessionFair.v) rest on. *)

From stdpp Require Import base tactics list gmap strings sorting.
From Stdlib Require Import ZArith Lia.
From S2P Require Import Prelude Enums Mlq Compression VpnProto GoFloat ArqState Arq TxQueue ArqData ArqControl ArqEvents ArqKeeps GoHeap Session SessionInv SessionServe SessionServeInv SessionFair.
Import Session.

(** ** The operations of a session *)

Inductive session_op :=
| OpGetOrCreate (streamID : Z) (cfg : Config) (conn : bool) (now : Z)
| OpEnsureStream0 (now : Z)
| OpRemove (streamID now : Z) (suppressOrphan : bool)
| OpStreamClosed (streamID now : Z) (reason : string)
| OpNoteClosed (streamID now : Z) (suppressOrphan : bool)
| OpDeactivate (streamID : Z)
| OpPrune (now : Z)
| OpSnapshot
| OpFinalize (a : nat) (now : Z) (reason : string)
| OpEvent (a : nat) (now : Z) (e : event)
| OpAbort (a : nat) (reason : string) (now : Z)
| OpCleanupTerminal (now retention : Z)
| OpCloseAll (reason : string) (now : Z)
| OpOrphanReset (packetType streamID sequenceNum : Z)
| OpStream (a : nat) (o : StreamServer.op)
| OpServe (duplication now : Z).

Definition step (r : sessionRecord) (o : session_op) : sessionRecord :=
  match o with
  | OpGetOrCreate id cfg conn now => (getOrCreateStream id cfg conn now r).2
  | OpEnsureStream0 now => ensureStream0 now r
  | OpRemove id now sup => removeStream id now sup r
  | OpStreamClosed id now reason => onStreamClosed id now reason r
  | OpNoteClosed id now sup => noteStreamClosed id now sup r
  | OpDeactivate id => deactivateStream id r
  | OpPrune now => pruneRecentlyClosed now r
  | OpSnapshot => (activeStreamSnapshot r).2
  | OpFinalize a now reason => finalizeStream a now reason r
  | OpEvent a now e => streamEvent a now e r
  | OpAbort a reason now => abortStream a reason now r
  | OpCleanupTerminal now retention => cleanupTerminalStreams now retention r
  | OpCloseAll reason now => closeAllStreams reason now r
  | OpOrphanReset pt id sn => enqueueOrphanReset pt id sn r
  | OpStream a o => r <| objects ::= alter (fun s : stream => (s.1, StreamServer.step s.2 o)) a |>
  | OpServe duplication now => (dequeueSessionResponse duplication now r).2
  end.

(** The code notes a closed stream itself only for a stream that it does not have; stream
    numbers are 16 bits wide. *)
Definition op_ok (r : sessionRecord) (o : session_op) : Prop :=
  match o with OpNoteClosed id _ _ => Streams r !! id = None | OpGetOrCreate id _ _ _ => u16 id | _ => True end.

(** ** The queues *)

Record queues_ok (r : sessionRecord) : Prop := {
  qo_orphans : Mlq.wf (OrphanQueue r);
  qo_streams : forall a s, objects r !! a = Some s -> Mlq.wf (StreamServer.TXQueue s.2);
  qo_ids : forall id a, Streams r !! id = Some a -> u16 id;
  qo_resets : forall p, p ∈ items_of (OrphanQueue r) -> Payload p = []
}.

Lemma serve_ok_split r : serve_ok r <-> SessionInv.wf r /\ queues_ok r.
Proof. split; [intros []; by split|intros [? []]; by split]. Qed.

(** The tables shrink, the queues stay. *)
Lemma queues_same r r' : queues_ok r -> objects r' = objects r -> OrphanQueue r' = OrphanQueue r ->
  (forall id a, Streams r' !! id = Some a -> Streams r !! id = Some a) -> queues_ok r'.
Proof. intros [] H1 H2 H3. split; rewrite ?H1, ?H2; try done. intros id a Hs. by eapply qo_ids0, H3. Qed.

Lemma queues_object r a s' : queues_ok r -> Mlq.wf (StreamServer.TXQueue s'.2) -> queues_ok (r <| objects ::= <[a := s']> |>).
Proof. intros [] Hw. split; try done. cbn. intros b s [[<- <-]|[_ Hb]]%lookup_insert_Some; [done|by eapply qo_streams0]. Qed.

Lemma remove_one_wf t sn v : Mlq.wf (StreamServer.TXQueue v) -> Mlq.wf (StreamServer.TXQueue (StreamServer.remove_one t sn v).2).
Proof.
  intros W. unfold StreamServer.remove_one. pose proof (RemoveByKey_refines _ (PacketIdentityKey (StreamServer.ID v) t sn 0) W) as [W' _].
  by destruct (Mlq.RemoveByKey _ _).
Qed.

Lemma PushTX_wf v q : Mlq.wf (StreamServer.TXQueue v) -> Mlq.wf (StreamServer.TXQueue (StreamServer.PushTXPacket v q).2).
Proof.
  intros W. unfold StreamServer.PushTXPacket. match goal with |- context [push_queue ?x ?i ?q ?p] => pose proof (push_queue_wf x i q p W) as W'; destruct (push_queue x i q p) end.
  done.
Qed.

Lemma finalize_wf v : Mlq.wf (StreamServer.TXQueue v) -> Mlq.wf (StreamServer.TXQueue (StreamServer.finalizeAfterARQClose v)).
Proof. intros W. unfold StreamServer.finalizeAfterARQClose. case_if; [done|]. by apply (Clear_wf (StreamServer.TXQueue v)). Qed.

Lemma step_wf v o : Mlq.wf (StreamServer.TXQueue v) -> Mlq.wf (StreamServer.TXQueue (StreamServer.step v o)).
Proof.
  intros W. destruct o as [now|q| |maxp f|sn|sn|closed host port status|status| |t|reason]; cbn [StreamServer.step]; [done|by apply PushTX_wf| | | |by apply remove_one_wf| | |by apply (Clear_wf (StreamServer.TXQueue v))|done|by apply finalize_wf].
  - unfold StreamServer.PopNextTXPacket. destruct (Pop_refines _ W) as [W' _]. by destruct (Mlq.Pop _).
  - unfold StreamServer.PopAnyTXPacket. destruct (PopAnyIf_refines _ maxp f W) as [W' _]. by destruct (Mlq.PopAnyIf _ _ _).
  - unfold StreamServer.RemoveQueuedData. pose proof (remove_one_wf PACKET_STREAM_DATA sn v W) as W1. destruct (StreamServer.remove_one PACKET_STREAM_DATA sn v) as [r1 v1].
    pose proof (remove_one_wf PACKET_STREAM_RESEND sn v1 W1) as W2. by destruct (StreamServer.remove_one PACKET_STREAM_RESEND sn v1).
  - unfold StreamServer.attachUpstreamConn. by repeat case_if.
  - unfold StreamServer.closeUpstreamOnly. by repeat case_if.
Qed.

Lemma handle_wf now e (s : stream) : Mlq.wf (StreamServer.TXQueue s.2) -> Mlq.wf (StreamServer.TXQueue (handle now e s).2).
Proof.
  apply (handle_keeps (fun v => Mlq.wf (StreamServer.TXQueue v))); [intros; by apply PushTX_wf|intros; by apply finalize_wf| |].
  - intros w sn. exact (step_wf w (StreamServer.OpRemoveData sn)).
  - intros w sn. exact (step_wf w (StreamServer.OpRemoveNack sn)).
Qed.

(** ** The operations keep the queues *)

Lemma queues_prune now r : queues_ok r -> queues_ok (pruneRecentlyClosedLocked now r).
Proof. intros H. unfold pruneRecentlyClosedLocked. destruct (prune_loop _ _ _ _). by eapply queues_same. Qed.

Lemma queues_note id now sup r : queues_ok r -> queues_ok (noteStreamClosed id now sup r).
Proof.
  intros H. unfold noteStreamClosed. case_if; [done|]. unfold evictOldestRecentlyClosedLocked. destruct (evict_loop _ _ _ _) as [m h].
  apply (queues_prune now) in H. by eapply (queues_same (pruneRecentlyClosedLocked now r)).
Qed.

Lemma queues_removeActive id r : queues_ok r -> queues_ok (removeActiveStreamLocked id r).
Proof. intros H. unfold removeActiveStreamLocked. destruct (list_find _ _) as [[i x]|]; [by eapply queues_same|done]. Qed.

Lemma queues_remove id now sup r : queues_ok r -> queues_ok (removeStream id now sup r).
Proof.
  intros H. unfold removeStream. case_if; [done|]. apply queues_note, queues_removeActive. eapply queues_same; [exact H|done|done|]. cbn.
  by intros x a [_ ?]%lookup_delete_Some.
Qed.

Lemma queues_onClosed id now reason r : queues_ok r -> queues_ok (onStreamClosed id now reason r).
Proof. intros H. unfold onStreamClosed. case_if; [done|]. by apply queues_remove. Qed.

Lemma queues_finalize a now reason r : queues_ok r -> queues_ok (finalizeStream a now reason r).
Proof.
  intros H. unfold finalizeStream. destruct (objects r !! a) as [[q v]|] eqn:Ha; [|done]. case_if; [done|]. apply queues_onClosed, queues_object; [done|].
  apply finalize_wf. by apply (qo_streams _ H a (q, v)).
Qed.

Lemma queues_event a now e r : queues_ok r -> queues_ok (streamEvent a now e r).
Proof.
  intros H. unfold streamEvent. destruct (objects r !! a) as [s|] eqn:Ha; [|done]. set (s' := handle _ _ _).
  assert (queues_ok (r <| objects ::= <[a := s']> |>)).
  { apply queues_object; [done|]. apply handle_wf. exact (qo_streams _ H a s Ha). }
  case_if; [by apply queues_onClosed|done].
Qed.

Lemma queues_close a reason opts now r : queues_ok r -> queues_ok (closeStream a reason opts now r).
Proof. apply queues_event. Qed.

Lemma queues_alter f a r : (forall s : stream, Mlq.wf (StreamServer.TXQueue s.2) -> Mlq.wf (StreamServer.TXQueue (f s).2)) -> queues_ok r ->
  queues_ok (r <| objects ::= alter f a |>).
Proof.
  intros Hf []. split; try done. cbn. intros b s Hb. apply lookup_alter_Some in Hb as [(<- & s0 & Hs & ->)|[_ Hb]]; eauto.
Qed.

Lemma queues_abort a reason now r : queues_ok r -> queues_ok (abortStream a reason now r).
Proof. intros H. unfold abortStream. apply queues_close, queues_alter; [|done]. intros s Hs. exact (step_wf s.2 (StreamServer.OpCloseUpstream "CLOSED") Hs). Qed.

Lemma queues_fold {A} (f : sessionRecord -> A -> sessionRecord) l r : (forall r x, queues_ok r -> queues_ok (f r x)) -> queues_ok r -> queues_ok (fold_left f l r).
Proof. intros Hf. revert r. induction l as [|x l IH]; intros r H; [done|]. cbn. auto. Qed.

Lemma queues_getOrCreate id cfg conn now r : u16 id -> queues_ok r -> queues_ok (getOrCreateStream id cfg conn now r).2.
Proof.
  intros Hu H. unfold getOrCreateStream. case_if; [done|]. destruct (Streams r !! id); [done|]. case_if; [done|]. cbn [snd].
  set (r1 := _ <| Streams ::= _ |>). assert (queues_ok r1).
  { destruct H. split; try done; cbn.
    - intros a s [[<- <-]|[_ Ha]]%lookup_insert_Some; [|by eapply qo_streams0]. apply (New_wf (T := txPacket)).
    - intros x a [[<- <-]|[_ Hx]]%lookup_insert_Some; [done|by eapply qo_ids0]. }
  case_if; [done|]. by eapply (queues_same r1).
Qed.

Lemma queues_terminal_status now retention (s : stream) : StreamServer.TXQueue (terminal_status now retention s).2.2 = StreamServer.TXQueue s.2.
Proof. unfold terminal_status. destruct s as [q v]. destruct (state q); repeat case_if; done. Qed.

Lemma queues_scan now retention l : forall r ids, queues_ok r ->
  queues_ok (fold_left (fun '(removeIDs, r) '(streamID, a) =>
    if streamID =? 0 then (removeIDs, r)
    else match objects r !! a with
         | None => (removeIDs, r)
         | Some s =>
             let '(remove, s) := terminal_status now retention s in
             (if (remove : bool) then removeIDs ++ [(streamID, a)] else removeIDs, r <| objects ::= <[a := s]> |>)
         end) l (ids, r)).2.
Proof.
  induction l as [|[id a] l IH]; intros r ids H; [done|]. cbn [fold_left]. case_if; [by apply IH|]. destruct (objects r !! a) as [s|] eqn:Ha; [|by apply IH].
  pose proof (queues_terminal_status now retention s) as Ht. destruct (terminal_status now retention s) as [rm s']. apply IH, queues_object; [done|].
  cbn [snd] in Ht. rewrite Ht. by eapply qo_streams.
Qed.

Lemma push_items {T} (q : MultiLevelQueue T) p k x y : Mlq.wf q -> y ∈ items_of (Mlq.Push q p k x).2 -> y = x \/ y ∈ items_of q.
Proof.
  intros W. pose proof (f_equal snd (Push_refines q p k x W)) as Hr. cbn [snd] in Hr. unfold items_of. rewrite <- Hr. unfold Spec.push.
  case_if; [by right|]. cbn [snd]. rewrite map_app. cbn [map]. rewrite elem_of_app, elem_of_cons. intros H.
  assert (Hf : forall (P : Z * Z * T -> Prop) `{!forall z, Decision (P z)} l, y ∈ map snd (filter P l) -> y ∈ map snd l).
  { intros P ? l. rewrite !list_elem_of_In, !in_map_iff. intros (z & <- & Hz). exists z. split; [done|]. apply list_elem_of_In in Hz.
    apply list_elem_of_filter in Hz as [_ Hz]. by apply list_elem_of_In. }
  destruct H as [H|[->|H]]; [right|by left|right]; by eapply Hf.
Qed.

Lemma queues_reset pt id sn r : queues_ok r -> queues_ok (enqueueOrphanReset pt id sn r).
Proof.
  intros H. unfold enqueueOrphanReset. case_if; [done|]. destruct H. split; try done; cbn.
  - by apply Push_wf.
  - intros p [->|Hp]%push_items; [done|by apply qo_resets0|done].
Qed.

Lemma queues_closeAll reason now r : queues_ok r -> queues_ok (closeAllStreams reason now r).
Proof.
  intros H. unfold closeAllStreams. set (r1 := fold_left _ _ _). assert (queues_ok r1) as [].
  { apply queues_fold; [|by eapply queues_same]. intros r0 a H0. unfold close_one. apply queues_finalize. case_if; [by apply queues_close|by apply queues_abort]. }
  clearbody r1. split; cbn; [by apply (Clear_wf (OrphanQueue r1))|done|done|]. intros p Hp. change (p ∈ items_of (Mlq.Clear (OrphanQueue r1)).2) in Hp.
  rewrite clear_items in Hp. by apply elem_of_nil in Hp.
Qed.

Lemma queues_cleanup now retention r : queues_ok r -> queues_ok (cleanupTerminalStreams now retention r).
Proof.
  intros H. unfold cleanupTerminalStreams. case_if; [done|]. unfold terminal_scan. pose proof (queues_scan now retention (map_to_list (Streams r)) r [] H) as Hs.
  destruct (fold_left _ _ ([], r)) as [ids r1]. apply queues_fold; [|done]. intros r0 [id a] H0. unfold terminal_remove. by apply queues_remove, queues_finalize, queues_abort.
Qed.

(** ** Reachable states *)

Lemma stream_step_ID v o : StreamServer.ID (StreamServer.step v o) = StreamServer.ID v.
Proof.
  assert (Hr : forall t sn v, StreamServer.ID (StreamServer.remove_one t sn v).2 = StreamServer.ID v).
  { intros t sn w. unfold StreamServer.remove_one. by destruct (Mlq.RemoveByKey _ _). }
  destruct o as [now|q| |maxp f|sn|sn|closed host port status|status| |t|reason]; cbn [StreamServer.step]; [done| | | | |by apply Hr| | |done|done|].
  - unfold StreamServer.PushTXPacket. by destruct (push_queue _ _ _ _).
  - unfold StreamServer.PopNextTXPacket. by destruct (Mlq.Pop _).
  - unfold StreamServer.PopAnyTXPacket. by destruct (Mlq.PopAnyIf _ _ _).
  - unfold StreamServer.RemoveQueuedData. pose proof (Hr PACKET_STREAM_DATA sn v) as H1. destruct (StreamServer.remove_one PACKET_STREAM_DATA sn v) as [r1 v1].
    pose proof (Hr PACKET_STREAM_RESEND sn v1) as H2. destruct (StreamServer.remove_one PACKET_STREAM_RESEND sn v1). cbn in *. congruence.
  - unfold StreamServer.attachUpstreamConn. by repeat case_if.
  - unfold StreamServer.closeUpstreamOnly. by repeat case_if.
  - unfold StreamServer.OnARQClosed, StreamServer.finalizeAfterARQClose. by case_if.
Qed.

Lemma serve_step dup now r : serve_ok r -> serve_ok (dequeueSessionResponse dup now r).2.
Proof.
  intros Hok. destruct (isClosed r) eqn:Hcl; [unfold dequeueSessionResponse; by rewrite Hcl|]. pose proof (dequeue_moved dup now r Hok Hcl) as Hm.
  destruct (dequeueSessionResponse dup now r) as [x r']. destruct Hm as (ps & ds & Hm & _). apply Hm.
Qed.

Lemma serve_ok_step r o : serve_ok r -> op_ok r o -> serve_ok (step r o).
Proof.
  intros Hok Ho. destruct o; cbn [step]; try (by apply serve_step); apply serve_ok_split in Hok as [Hw Hq]; apply serve_ok_split; split.
  - by apply wf_getOrCreate.
  - by apply queues_getOrCreate.
  - unfold ensureStream0. case_if; [done|]. by apply wf_getOrCreate.
  - unfold ensureStream0. case_if; [done|]. by apply queues_getOrCreate.
  - by apply wf_remove.
  - by apply queues_remove.
  - by apply wf_onClosed.
  - by apply queues_onClosed.
  - by apply wf_note.
  - by apply queues_note.
  - unfold deactivateStream. case_if; [done|]. by apply wf_removeActive.
  - unfold deactivateStream. case_if; [done|]. by apply queues_removeActive.
  - by apply wf_prune.
  - unfold pruneRecentlyClosed. case_if; [done|]. by apply queues_prune.
  - by apply wf_snapshot_op.
  - unfold activeStreamSnapshot. repeat case_if; [done|done|]. by eapply queues_same.
  - by apply wf_finalize.
  - by apply queues_finalize.
  - by apply wf_event.
  - by apply queues_event.
  - by apply wf_abort.
  - by apply queues_abort.
  - by apply wf_cleanup.
  - by apply queues_cleanup.
  - by apply wf_closeAll.
  - by apply queues_closeAll.
  - unfold enqueueOrphanReset. case_if; [done|]. by eapply (wf_same r).
  - by apply queues_reset.
  - apply wf_alter; [|done]. intros s. apply stream_step_ID.
  - apply queues_alter; [|done]. intros s. apply step_wf.
Qed.

Inductive reachable (r0 : sessionRecord) : sessionRecord -> Prop :=
| reachable_start : reachable r0 r0
| reachable_step r o : reachable r0 r -> op_ok r o -> reachable r0 (step r o).

(** A record without streams, as it is created for a session. *)
Definition blank (r : sessionRecord) : Prop :=
  Streams r = ∅ /\ objects r = ∅ /\ ActiveStreams r = [] /\ RecentlyClosed r = ∅ /\ RecentlyClosedHeap r = [] /\ OrphanQueue r = Mlq.New /\
  activeStreamSetVersion r = 0 /\ activeStreamSnapshotVersion r = 0 /\ activeStreamSnapshotIDs r = [] /\ activeStreamSnapshotStreams r = [].

Lemma serve_ok_blank r : blank r -> serve_ok r.
Proof.
  intros (H1 & Ho & H2 & H3 & H4 & Hq & H5 & H6 & H7 & H8). pose proof (cap_pos r). apply serve_ok_split. split; split;
    rewrite ?H1, ?Ho, ?H2, ?H3, ?H4, ?Hq, ?H5, ?H6, ?H7, ?H8; try done; try (by constructor).
  - by intros x ?%elem_of_nil.
  - rewrite delete_empty, map_size_empty. unfold stream_limit. destruct (Z.leb_spec (MaxActiveStreamsPerSession r) 0); lia.
  - rewrite map_size_empty. lia.
  - apply (New_wf (T := Packet)).
  - by intros p ?%elem_of_nil.
Qed.

Lemma reachable_ok r0 r : blank r0 -> reachable r0 r -> serve_ok r.
Proof. intros Hb Hr. induction Hr as [|r o _ IH Ho]; [by apply serve_ok_blank|]. by apply serve_ok_step. Qed.

(** C13: In every state a session can reach, by any sequence of the operations on the
    session, on its streams and of the scheduler: the list of active streams is sorted and
    part of the table, the table points to stream objects with the right number, a cached
    snapshot that carries the current version is the current list with the current
    objects, the streams but stream 0 are at most as many as the limit, no stream is both
    open and remembered as closed, the memory of closed streams has at most as many records
    as its capacity, each with its entry in the heap, every queue is a well-formed queue,
    and the queue of resets has packets without payload only. *)
Theorem session_invariant (r0 r : sessionRecord) :
  blank r0 -> reachable r0 r -> serve_ok r.
Proof. apply reachable_ok. Qed.

(** ** Examples *)

(** A session with four blocks per packet and room for two closed streams. *)
Definition example_session : sessionRecord :=
  mkSession 7 33 0 0 0 100 100 100 [] [] 4 0 0 0 ∅ ∅ [] 0 [] [] 0 0 ∅ [] 0 2 Mlq.New None 0 10 false.

Definition example_ack (sn : Z) : TXRequest := mkTX 0 PACKET_STREAM_DATA_ACK sn 0 0 0 0 [].

(** Streams 5 and 9 with two acknowledgements each, and a reset of a stream that does not exist. *)
Definition example_ops : list session_op :=
  [OpEnsureStream0 1; OpGetOrCreate 5 virtual_config false 2; OpGetOrCreate 9 virtual_config false 3;
   OpStream 1 (StreamServer.OpPush (example_ack 1)); OpStream 1 (StreamServer.OpPush (example_ack 2));
   OpStream 2 (StreamServer.OpPush (example_ack 1)); OpStream 2 (StreamServer.OpPush (example_ack 2));
   OpOrphanReset PACKET_STREAM_RST 77 0].

Definition example_busy : sessionRecord := fold_left step example_ops example_session.

Lemma example_reachable : reachable example_session example_busy.
Proof. unfold example_busy, example_ops. cbn [fold_left]. repeat (apply reachable_step; [|cbn [op_ok]; first [done|unfold u16; lia]]). apply reachable_start. Qed.

Lemma example_blank : blank example_session.
Proof. by split_and!. Qed.

Lemma example_ok : serve_ok example_busy.
Proof. exact (reachable_ok _ _ example_blank example_reachable). Qed.

Lemma session_invariant_witness : serve_ok example_busy /\ ActiveStreams example_busy = [0; 5; 9].
Proof. split; [exact (session_invariant _ _ example_blank example_reachable)|vm_compute; reflexivity]. Defined.

(** The first packet carries the four acknowledgements; the reset, which cannot be packed,
    waits. *)
Lemma serve_conserves_witness :
  let '(answer, r') := dequeueSessionResponse 2 10 example_busy in
  (PacketType <$> answer) = Some PACKET_PACKED_CONTROL_BLOCKS /\ queued r' 1 = 0 /\
  exists ps ds, moved example_busy ps ds r' /\
    match answer with
    | None => ps = []
    | Some pkt =>
        LastPackedControlBlock example_busy = Some pkt /\ 0 < LastPackedControlBlockRemaining example_busy /\ ps = [] /\ ds = [] \/
        carries pkt ps /\ len ps <= Z.max 1 (MaxPackedBlocks example_busy)
    end.
Proof.
  pose proof (serve_conserves 2 10 example_busy example_ok eq_refl) as H.
  assert (E : (PacketType <$> (dequeueSessionResponse 2 10 example_busy).1) = Some PACKET_PACKED_CONTROL_BLOCKS /\
    queued (dequeueSessionResponse 2 10 example_busy).2 1 = 0) by (vm_compute; split; reflexivity).
  destruct (dequeueSessionResponse 2 10 example_busy) as [answer r']. destruct E as [E1 E2]. split; [exact E1|]. split; [exact E2|exact H].
Defined.

Lemma example_live : live example_busy 9 2.
Proof.
  split.
  - apply list_elem_of_In. vm_compute. auto.
  - vm_compute. reflexivity.
  - eexists. split; [vm_compute; reflexivity|vm_compute; reflexivity].
  - vm_compute. split; reflexivity.
Qed.

Lemma fair_service_witness : queued (serve_all 2 [11; 12; 13; 14; 15] example_busy) 2 < queued example_busy 2.
Proof. apply (fair_service 2 9 2 [11; 12; 13; 14; 15] example_busy example_ok eq_refl example_live). vm_compute. reflexivity. Defined.

Lemma closed_streams_window_witness :
  let r' := removeStream 5 100 true example_busy in
  Streams r' !! 5 = None /\ isRecentlyClosed 5 100 r' = true.
Proof.
  assert (Hid : 5 <> 0) by discriminate.
  pose proof (closed_streams_window 5 100 true example_busy (so_wf _ example_ok) eq_refl Hid) as (H & _ & _ & _ & Hn). split.
  - rewrite H. vm_compute. reflexivity.
  - apply Hn. vm_compute. intros x c Hx. discriminate Hx.
Defined.
