(* ===== verification/SessionStore.v ===== *)
(** The sessions of the server: [sessionStore] of
    src/masterdns/internal/udpserver/session.go and the tracker of wrong cookies of
    invalid_cookie_tracker.go.

    The array [byID] is a map from session numbers to records (Session.v).  Every operation
    is one critical section.  [time.Now()] and the bytes [rand.Read] delivers are arguments;
    a missing delivery is an error of the generator. *)

From stdpp Require Import base tactics list gmap strings sorting.
From Stdlib Require Import ZArith Lia.
From S2P Require Import Prelude Enums Mlq Compression VpnProto GoFloat ArqState Arq TxQueue GoHeap Session.
Import Session.

Definition maxServerSessionID : Z := 255.
Definition maxServerSessionSlots : Z := 255.
Definition minSessionMTU : Z := 10.
Definition maxSessionMTU : Z := 4096.
Definition mtuProbeModeRaw : Z := 0.
Definition mtuProbeModeBase64 : Z := 1.

Record sessionRuntimeView := mkView {
  viewID : Z;
  viewCookie : Z;
  viewResponseMode : Z;
  viewResponseBase64 : bool;
  viewDownloadCompression : Z;
  viewDownloadMTU : Z;
  viewDownloadMTUBytes : Z;
  viewMaxPackedBlocks : Z
}.

Record closedSessionRecord := mkClosedSession { csCookie : Z; csResponseMode : Z; csExpiresAt : Z }.

Inductive sessionLookupState := sessionLookupUnknown | sessionLookupActive | sessionLookupClosed.

Record sessionLookupResult := mkLookup { lkCookie : Z; lkResponseMode : Z; lkState : sessionLookupState }.

Record sessionValidationResult := mkValidation {
  vLookup : sessionLookupResult;
  vKnown : bool;
  vValid : bool;
  vActive : option sessionRuntimeView
}.

Record sessionStore := mkStore {
  nextID : Z;
  activeCount : Z;
  nextReuseSweepUnixNano : Z;
  cookieBytes : bytes;
  cookieIndex : Z;
  byID : gmap Z sessionRecord;
  bySig : gmap bytes Z;
  recentClosed : gmap Z closedSessionRecord;
  maxActiveSessions : Z;
  maxActiveStreams : Z;
  sessionInitTTL : Z;
  recentlyClosedTTL : Z;
  recentlyClosedCap : Z
}.

#[export] Instance eta_store : Eta sessionStore := fun s =>
  mkStore (nextID s) (activeCount s) (nextReuseSweepUnixNano s) (cookieBytes s) (cookieIndex s) (byID s) (bySig s)
    (recentClosed s) (maxActiveSessions s) (maxActiveStreams s) (sessionInitTTL s) (recentlyClosedTTL s) (recentlyClosedCap s).
#[export] Instance set_nextID : Setter nextID := ltac:(derive_setter).
#[export] Instance set_activeCount : Setter activeCount := ltac:(derive_setter).
#[export] Instance set_nextReuseSweep : Setter nextReuseSweepUnixNano := ltac:(derive_setter).
#[export] Instance set_cookieBytes : Setter cookieBytes := ltac:(derive_setter).
#[export] Instance set_cookieIndex : Setter cookieIndex := ltac:(derive_setter).
#[export] Instance set_byID : Setter byID := ltac:(derive_setter).
#[export] Instance set_bySig : Setter bySig := ltac:(derive_setter).
#[export] Instance set_recentClosed : Setter recentClosed := ltac:(derive_setter).
#[export] Instance set_maxActiveSessions : Setter maxActiveSessions := ltac:(derive_setter).
#[export] Instance set_maxActiveStreams : Setter maxActiveStreams := ltac:(derive_setter).

(** The untyped options of [newSessionStore]. *)
Inductive any := AnyDuration (d : Z) | AnyInt (n : Z).

Definition duration_option (options : list any) (i : nat) (default : Z) : Z :=
  match options !! i with Some (AnyDuration v) => if 0 <? v then v else default | _ => default end.

Definition int_option (options : list any) (i : nat) (default : Z) : Z :=
  match options !! i with Some (AnyInt v) => if 0 <? v then v else default | _ => default end.

Definition newSessionStore (options : list any) : sessionStore :=
  mkStore 1 0 0 (make_bytes 32) 32 ∅ ∅ ∅ maxServerSessionSlots 1000
    (duration_option options 0 (600 * 1000000000)) (duration_option options 1 (600 * 1000000000)) (int_option options 2 2000).

(** ** Helpers *)

Definition clampMTU (value : Z) : Z :=
  if value <? minSessionMTU then minSessionMTU else if maxSessionMTU <? value then maxSessionMTU else value.

Definition clampMTUToLimit (value maxAllowed : Z) : Z :=
  let clamped := clampMTU value in if maxAllowed <? clamped then maxAllowed else clamped.

Definition clampSessionInitAllowedMTU (value : Z) : Z :=
  if value <? minSessionMTU then minSessionMTU else if maxSessionMTU <? value then maxSessionMTU else wrap16 value.

Definition isValidSessionResponseMode (value : Z) : bool := value <=? mtuProbeModeBase64.

Definition nextSessionID (current : Z) : Z := if maxServerSessionID <=? current then 1 else wrap8 (current + 1).

Definition applyMTUFromSessionInit (uploadMTU downloadMTU maxPacketsPerBatch maxClientUploadMTU maxClientDownloadMTU : Z)
    (r : sessionRecord) : sessionRecord :=
  let r := r <| UploadMTU := clampMTUToLimit uploadMTU (clampSessionInitAllowedMTU maxClientUploadMTU) |>
             <| DownloadMTU := clampMTUToLimit downloadMTU (clampSessionInitAllowedMTU maxClientDownloadMTU) |> in
  let r := r <| DownloadMTUBytes := DownloadMTU r |> in
  r <| MaxPackedBlocks := CalculateMaxPackedBlocks (DownloadMTUBytes r) 80 maxPacketsPerBatch |>.

Definition runtimeView (r : sessionRecord) : sessionRuntimeView :=
  mkView (ID r) (Cookie r) (ResponseMode r) (ResponseMode r =? mtuProbeModeBase64) (DownloadCompression r) (DownloadMTU r)
    (DownloadMTUBytes r) (MaxPackedBlocks r).

(** ** The store *)

Definition expireReuseLocked (now : Z) (s : sessionStore) : sessionStore :=
  if bool_decide (bySig s = ∅) then s <| nextReuseSweepUnixNano := 0 |>
  else if negb (nextReuseSweepUnixNano s =? 0) && (now <? nextReuseSweepUnixNano s) then s
  else
    let reuse id := match byID s !! id with Some r => reuseUntilUnixNano r | None => 0 end in
    let kept := filter (fun e : bytes * Z => is_Some (byID s !! e.2) /\ now <= reuse e.2) (bySig s) in
    let next := fold_left (fun next (e : bytes * Z) => if (next =? 0) || (reuse e.2 <? next) then reuse e.2 else next)
                  (map_to_list kept) 0 in
    s <| bySig := kept |> <| nextReuseSweepUnixNano := next |>.

(** The slots in the order of the two loops. *)
Definition slots_from (start : Z) : list Z := seqZ start (maxServerSessionID - start + 1) ++ seqZ 1 (start - 1).

Definition allocateSlotLocked (s : sessionStore) : Z :=
  let maxActive :=
    if (maxActiveSessions s <=? 0) || (maxServerSessionSlots <? maxActiveSessions s) then maxServerSessionSlots else maxActiveSessions s in
  if wrap16 maxActive <=? activeCount s then -1
  else
    let start := nextID s in
    let start := if (start <? 1) || (maxServerSessionID <? start) then 1 else start in
    match list_find (fun slot => byID s !! slot = None) (slots_from start) with Some (_, slot) => slot | None => -1 end.

(** [entropy] is what [rand.Read] would deliver. *)
Definition randomCookieLocked (entropy : option bytes) (s : sessionStore) : Z * sessionStore :=
  let refill :=
    if len (cookieBytes s) <=? cookieIndex s then
      match entropy with
      | None => None
      | Some b => Some (s <| cookieBytes := b |> <| cookieIndex := 0 |>)
      end
    else Some s in
  match refill with
  | None => (0, s <| cookieIndex := len (cookieBytes s) |>)
  | Some s => (default 0 (cookieBytes s !! Z.to_nat (cookieIndex s)), s <| cookieIndex ::= Z.succ |>)
  end.

Definition updateNextReuseSweepLocked (reuseUntil : Z) (s : sessionStore) : sessionStore :=
  if (nextReuseSweepUnixNano s =? 0) || (reuseUntil <? nextReuseSweepUnixNano s) then s <| nextReuseSweepUnixNano := reuseUntil |> else s.

(** The record of a new session: the composite literal, and what is set afterwards. *)
Definition blank_record (slot : Z) (payload : bytes) (s : sessionStore) : sessionRecord :=
  mkSession slot 0 (nth 0 payload 0) 0 0 0 0 0 (make_bytes 4) (take 10 payload) 0 0 0 0 ∅ ∅ [] 0 [] [] 0 0 ∅ []
    (recentlyClosedTTL s) (recentlyClosedCap s) Mlq.New None 0 (maxActiveStreams s) false.

Definition fill_record (payload : bytes) (upload download maxPacketsPerBatch maxUpload maxDownload now ttl : Z) (r : sessionRecord) : sessionRecord :=
  let r := r <| reuseUntilUnixNano := now + ttl |> in
  let r := setLastActivityUnixNano now r in
  let r := r <| UploadCompression := upload |> <| DownloadCompression := download |> in
  let r := applyMTUFromSessionInit (of_be16 (nth 2 payload 0) (nth 3 payload 0)) (of_be16 (nth 4 payload 0) (nth 5 payload 0))
             maxPacketsPerBatch maxUpload maxDownload r in
  r <| VerifyCode := take 4 (drop 6 payload) |>.

Definition new_record (slot : Z) (payload : bytes) (upload download maxPacketsPerBatch maxUpload maxDownload now : Z) (s : sessionStore) : sessionRecord :=
  fill_record payload upload download maxPacketsPerBatch maxUpload maxDownload now (sessionInitTTL s) (ensureStream0 now (blank_record slot payload s)).

(** The tables with a new session. *)
Definition enter_session (slot : Z) (signature : bytes) (record : sessionRecord) (s : sessionStore) : sessionStore :=
  let s := s <| byID ::= <[slot := record]> |> <| activeCount ::= (fun n => wrap16 (n + 1)) |> <| bySig ::= <[signature := slot]> |> in
  let s := updateNextReuseSweepLocked (reuseUntilUnixNano record) s in
  s <| recentClosed ::= delete slot |> <| nextID := nextSessionID slot |>.

(** The result of [findOrCreate]: nil, a session with whether it existed, or the error
    [ErrSessionTableFull]. *)
Inductive found_session := NoSession | Session (id : Z) (reused : bool) | ErrSessionTableFull.

(** The end of [findOrCreate], for a signature that no session has. *)
Definition create_session (payload : bytes) (upload download maxPacketsPerBatch maxUpload maxDownload now : Z)
    (entropy : option bytes) (s : sessionStore) : found_session * sessionStore :=
  let slot := allocateSlotLocked s in
  if slot <? 0 then (ErrSessionTableFull, s)
  else
    let record := new_record slot payload upload download maxPacketsPerBatch maxUpload maxDownload now s in
    let '(cookie, s) := randomCookieLocked entropy s in
    (Session slot false, enter_session slot (take 10 payload) (record <| Cookie := cookie |>) s).

Definition findOrCreate (payload : bytes) (upload download maxPacketsPerBatch maxUpload maxDownload now : Z)
    (entropy : option bytes) (s : sessionStore) : found_session * sessionStore :=
  if negb (len payload =? sessionInitDataSize) || negb (isValidSessionResponseMode (nth 0 payload 0)) then (NoSession, s)
  else
    let signature := take 10 payload in
    let s := expireReuseLocked now s in
    let existing :=
      match bySig s !! signature with
      | Some id => match byID s !! id with
                   | Some r => if now <=? reuseUntilUnixNano r then Some id else None
                   | None => None
                   end
      | None => None
      end in
    match existing with
    | Some id => (Session id true, s <| byID ::= alter (setLastActivityUnixNano now) id |>)
    | None => create_session payload upload download maxPacketsPerBatch maxUpload maxDownload now entropy (s <| bySig ::= delete signature |>)
    end.

Definition Get (sessionID : Z) (s : sessionStore) : option sessionRecord :=
  match byID s !! sessionID with
  | Some r => if isClosed r then None else Some r
  | None => None
  end.

Definition HasActive (sessionID : Z) (s : sessionStore) : bool :=
  if sessionID =? 0 then false
  else match byID s !! sessionID with Some r => negb (isClosed r) | None => false end.

Definition Lookup (sessionID : Z) (s : sessionStore) : sessionLookupResult * bool :=
  match byID s !! sessionID with
  | Some r => (mkLookup (Cookie r) (ResponseMode r) sessionLookupActive, true)
  | None =>
      match recentClosed s !! sessionID with
      | Some c => (mkLookup (csCookie c) (csResponseMode c) sessionLookupClosed, true)
      | None => (mkLookup 0 0 sessionLookupUnknown, false)
      end
  end.

Definition ValidateAndTouch (sessionID cookie now : Z) (s : sessionStore) : sessionValidationResult * sessionStore :=
  match byID s !! sessionID with
  | Some r =>
      let valid := Cookie r =? cookie in
      (mkValidation (mkLookup (Cookie r) (ResponseMode r) sessionLookupActive) true valid (if valid then Some (runtimeView r) else None),
       if valid then s <| byID ::= alter (setLastActivityUnixNano now) sessionID |> else s)
  | None =>
      match recentClosed s !! sessionID with
      | Some c => (mkValidation (mkLookup (csCookie c) (csResponseMode c) sessionLookupClosed) true false None, s)
      | None => (mkValidation (mkLookup 0 0 sessionLookupUnknown) false false None, s)
      end
  end.

Definition decrement_active (s : sessionStore) : sessionStore :=
  if 0 <? activeCount s then s <| activeCount ::= Z.pred |> else s.

Definition Close (sessionID now retention : Z) (s : sessionStore) : option sessionRecord * sessionStore :=
  match byID s !! sessionID with
  | None => (None, s)
  | Some record =>
      let record := markClosed record in
      let s := s <| bySig ::= delete (Signature record) |> <| byID ::= delete sessionID |> in
      let s := decrement_active s in
      (Some record,
       if 0 <? retention
       then s <| recentClosed ::= <[sessionID := mkClosedSession (Cookie record) (ResponseMode record) (now + retention)]> |>
       else s <| recentClosed ::= delete sessionID |>)
  end.

(** One session of the loop of [Cleanup]. *)
Definition cleanup_session (now idleTimeout closedRetention : Z) (acc : list (Z * sessionRecord) * sessionStore) (sessionID : Z) :
    list (Z * sessionRecord) * sessionStore :=
  let '(expired, s) := acc in
  match byID s !! sessionID with
  | None => (expired, s)
  | Some record =>
      let last := lastActivity record in
      if negb (last =? 0) && (now - last <? idleTimeout) then (expired, s)
      else
        let s := s <| bySig ::= delete (Signature record) |> <| byID ::= delete sessionID |> in
        let s := decrement_active s in
        let s := if 0 <? closedRetention
                 then s <| recentClosed ::= <[sessionID := mkClosedSession (Cookie record) (ResponseMode record) (now + closedRetention)]> |>
                 else s in
        (expired ++ [(sessionID, markClosed record)], s)
  end.

Definition Cleanup (now idleTimeout closedRetention : Z) (s : sessionStore) : list (Z * sessionRecord) * sessionStore :=
  let s := expireReuseLocked now s in
  let s := s <| recentClosed ::= filter (fun e : Z * closedSessionRecord => now < csExpiresAt e.2) |> in
  if idleTimeout <=? 0 then ([], s)
  else fold_left (cleanup_session now idleTimeout closedRetention) (seqZ 1 maxServerSessionID) ([], s).

Definition SweepTerminalStreams (now retention : Z) (s : sessionStore) : sessionStore :=
  s <| byID ::= fmap (cleanupTerminalStreams now retention) |>.

Definition SweepRecentlyClosedStreams (now : Z) (s : sessionStore) : sessionStore :=
  s <| byID ::= fmap (pruneRecentlyClosed now) |>.

Definition collect_idle (now idleTimeout : Z) (acc : list (Z * Z) * sessionStore) (sessionID : Z) : list (Z * Z) * sessionStore :=
  let '(idle, s) := acc in
  match Get sessionID s with
  | None => (idle, s)
  | Some record =>
      let last := lastActivity record in
      if (last =? 0) || (now - last <? idleTimeout) then (idle, s)
      else if lastDeferredCleanupActivity record =? last then (idle, s)
      else (idle ++ [(sessionID, last)], s <| byID ::= alter (markDeferredCleanupActivity last) sessionID |>)
  end.

Definition CollectIdleDeferredSessions (now idleTimeout : Z) (s : sessionStore) : list (Z * Z) * sessionStore :=
  if idleTimeout <=? 0 then ([], s)
  else fold_left (collect_idle now idleTimeout) (seqZ 1 maxServerSessionID) ([], s).

(** Any operation on the record of a session, by those that got it from [Get]. *)
Definition on_session (sessionID : Z) (f : sessionRecord -> sessionRecord) (s : sessionStore) : sessionStore :=
  match Get sessionID s with Some _ => s <| byID ::= alter f sessionID |> | None => s end.
