(* ===== verification/SessionStoreInv.v ===== *)
(** The invariant of the server's sessions, and the life of a session.

    Theorems on SessionStore.v (src/masterdns/internal/udpserver/session.go). *)

From stdpp Require Import base tactics list gmap strings sorting.
From Stdlib Require Import ZArith Lia.
From S2P Require Import Prelude Enums Mlq Compression VpnProto GoFloat ArqState Arq TxQueue ArqData ArqControl ArqEvents GoHeap Session SessionInv SessionServe SessionServeInv SessionFair SessionReach SessionStore.
Import Session.

(** ** What the operations of a session leave alone *)

(** The identity of a session: all that is set when it is created. *)
Definition core (r : sessionRecord) :=
  (ID r, Cookie r, ResponseMode r, UploadCompression r, DownloadCompression r,
   (UploadMTU r, DownloadMTU r, DownloadMTUBytes r, MaxPackedBlocks r), VerifyCode r, Signature r, reuseUntilUnixNano r, closedFlag r).

Lemma core_note id now sup r : core (noteStreamClosed id now sup r) = core r.
Proof.
  unfold noteStreamClosed. case_if; [done|]. unfold evictOldestRecentlyClosedLocked, pruneRecentlyClosedLocked.
  destruct (prune_loop _ _ _ _). destruct (evict_loop _ _ _ _). done.
Qed.

Lemma core_removeActive id r : core (removeActiveStreamLocked id r) = core r.
Proof. unfold removeActiveStreamLocked. by destruct (list_find _ _) as [[i x]|]. Qed.

Lemma core_remove id now sup r : core (removeStream id now sup r) = core r.
Proof. unfold removeStream. case_if; [done|]. by rewrite core_note, core_removeActive. Qed.

Lemma core_onClosed id now reason r : core (onStreamClosed id now reason r) = core r.
Proof. unfold onStreamClosed. case_if; [done|]. apply core_remove. Qed.

Lemma core_finalize a now reason r : core (finalizeStream a now reason r) = core r.
Proof. unfold finalizeStream. destruct (objects r !! a) as [[q v]|]; [|done]. case_if; [done|]. by rewrite core_onClosed. Qed.

Lemma core_event a now e r : core (streamEvent a now e r) = core r.
Proof. unfold streamEvent. destruct (objects r !! a); [|done]. case_if; [by rewrite core_onClosed|done]. Qed.

Lemma core_abort a reason now r : core (abortStream a reason now r) = core r.
Proof. unfold abortStream, closeStream. by rewrite core_event. Qed.

Lemma core_getOrCreate id cfg conn now r : core (getOrCreateStream id cfg conn now r).2 = core r.
Proof. unfold getOrCreateStream. case_if; [done|]. destruct (Streams r !! id); [done|]. case_if; [done|]. cbn [snd]. by case_if. Qed.

Lemma core_fold {A} (f : sessionRecord -> A -> sessionRecord) l r : (forall r x, core (f r x) = core r) -> core (fold_left f l r) = core r.
Proof. intros Hf. revert r. induction l as [|x l IH]; intros r; [done|]. cbn. by rewrite IH, Hf. Qed.

Lemma core_cleanup now retention r : core (cleanupTerminalStreams now retention r) = core r.
Proof.
  unfold cleanupTerminalStreams. case_if; [done|]. unfold terminal_scan.
  assert (Hs : forall l ids r, core (fold_left (fun '(removeIDs, r) '(streamID, a) =>
    if streamID =? 0 then (removeIDs, r)
    else match objects r !! a with
         | None => (removeIDs, r)
         | Some s =>
             let '(remove, s) := terminal_status now retention s in
             (if (remove : bool) then removeIDs ++ [(streamID, a)] else removeIDs, r <| objects ::= <[a := s]> |>)
         end) l (ids, r)).2 = core r).
  { induction l as [|[id a] l IH]; intros ids r0; [done|]. cbn [fold_left]. case_if; [apply IH|]. destruct (objects r0 !! a); [|apply IH].
    destruct (terminal_status _ _ _). by rewrite IH. }
  specialize (Hs (map_to_list (Streams r)) [] r). destruct (fold_left _ _ ([], r)) as [ids r1]. rewrite core_fold; [done|]. intros r0 [id a].
  unfold terminal_remove. by rewrite core_remove, core_finalize, core_abort.
Qed.

Lemma core_orphans limit : forall fuel k, core (process_orphans fuel limit k).2 = core k.2.
Proof.
  induction fuel as [|fuel IH]; intros [[payload blocks] r]; cbn [process_orphans]; [done|]. repeat (case_if; [|done || idtac]); [done|].
  destruct (Mlq.PopAnyIf _ _ _) as [[p|] q]; [|done]. by rewrite IH.
Qed.

Lemma core_stream limit id a now : forall fuel k, core (process_stream fuel limit id a now k).2 = core k.2.
Proof.
  induction fuel as [|fuel IH]; intros [[payload blocks] r]; cbn [process_stream]; [done|]. case_if; [|done]. destruct (objects r !! a) as [s|]; [|done].
  case_if; [done|]. destruct (StreamServer.PopAnyTXPacket _ _ _) as [[p|] q]; [|done]. by rewrite IH.
Qed.

Lemma core_process limit now cs : forall k, core (process_all limit now cs k).2 = core k.2.
Proof.
  induction cs as [|c cs IH]; intros k; cbn [process_all]; [done|]. case_if; [done|]. rewrite IH. unfold processID.
  repeat case_if; [done|apply core_orphans|]. destruct (c.2); [apply core_stream|done].
Qed.

Lemma core_snapshot r : core (activeStreamSnapshot r).2 = core r.
Proof. unfold activeStreamSnapshot. by repeat case_if. Qed.

Lemma core_pack first id sid now r : core (packControlBlocks first id sid now r).2 = core r.
Proof.
  unfold packControlBlocks. case_if; [done|]. pose proof (core_snapshot r) as Hs. destruct (activeStreamSnapshot r) as [[ids ss] r1].
  match goal with |- context [process_all ?l now ?o ?k] => pose proof (core_process l now o k) as Ha; destruct (process_all l now o k) as [[pay bl] r2] end.
  cbn [snd] in *. congruence.
Qed.

Lemma core_try now cs : forall r, core (try_candidates now cs r).2 = core r.
Proof.
  assert (H1 : forall c r, core (try_candidate now c r).2 = core r).
  { intros [id st] r. unfold try_candidate. case_if; [by destruct (Mlq.Pop _)|]. destruct (st ≫= _) as [[a s]|]; [|done].
    repeat (case_if; [done || idtac|]); [|destruct (StreamServer.PopNextTXPacket s.2) as [[[p n]|] v]; [by case_if|done]].
    cbn [snd]. unfold deactivateStream. case_if; [done|]. by rewrite core_removeActive. }
  induction cs as [|c cs IH]; intros r; cbn [try_candidates]; [done|]. specialize (H1 c r). destruct (try_candidate now c r) as [[[p sid]|] r1]; [done|].
  cbn [snd] in H1. by rewrite IH.
Qed.

Lemma core_serve duplication now r : core (dequeueSessionResponse duplication now r).2 = core r.
Proof.
  unfold dequeueSessionResponse. case_if; [done|]. assert (Hd : core (dequeueDuplicatedPackedControlBlock r).2 = core r).
  { unfold dequeueDuplicatedPackedControlBlock. destruct (LastPackedControlBlock r); [|done]. case_if; [done|]. cbn [snd]. by case_if. }
  destruct (dequeueDuplicatedPackedControlBlock r) as [[x|] r1]; [done|]. cbn [snd] in Hd. rewrite <- Hd. pose proof (core_snapshot r1) as Hs.
  destruct (activeStreamSnapshot r1) as [[ids ss] r2]. cbn [snd] in Hs. rewrite <- Hs.
  match goal with |- context [try_candidates now ?l r2] => pose proof (core_try now l r2) as Ht; destruct (try_candidates now l r2) as [found r3] end.
  cbn [snd] in Ht. rewrite <- Ht. destruct found as [[[id p] sid]|]; [|done]. unfold answer_with. case_if; [|done].
  pose proof (core_pack p id sid now (r3 <| RRStreamID := id + 1 |>)) as Hp. destruct (packControlBlocks _ _ _ _ _) as [pkt r4]. cbn [snd] in *.
  unfold cachePackedControlBlockDuplicate. by case_if.
Qed.

(** Closing all streams of a session also marks it as closed. *)
Definition is_closeAll (o : session_op) : bool := match o with OpCloseAll _ _ => true | _ => false end.

Lemma core_step r o : is_closeAll o = false -> core (step r o) = core r.
Proof.
  intros Ho. destruct o; cbn [step]; try done.
  - apply core_getOrCreate.
  - unfold ensureStream0. case_if; [done|]. apply core_getOrCreate.
  - apply core_remove.
  - apply core_onClosed.
  - apply core_note.
  - unfold deactivateStream. case_if; [done|]. apply core_removeActive.
  - unfold pruneRecentlyClosed. case_if; [done|]. unfold pruneRecentlyClosedLocked. by destruct (prune_loop _ _ _ _).
  - apply core_snapshot.
  - apply core_finalize.
  - apply core_event.
  - apply core_abort.
  - apply core_cleanup.
  - unfold enqueueOrphanReset. by case_if.
  - apply core_serve.
Qed.

(** ** The invariant *)

(** What the handshake fixed: the signature is the payload of the request, and mode, verify
    code and MTUs come from it; the compression types are known ones. *)
Record negotiated (r : sessionRecord) : Prop := {
  ng_cookie : u8 (Cookie r);
  ng_mode : ResponseMode r = nth 0 (Signature r) 0;
  ng_code : VerifyCode r = take 4 (drop 6 (Signature r));
  ng_upload : UploadMTU r <= Z.max minSessionMTU (of_be16 (nth 2 (Signature r) 0) (nth 3 (Signature r) 0));
  ng_download : DownloadMTU r <= Z.max minSessionMTU (of_be16 (nth 4 (Signature r) 0) (nth 5 (Signature r) 0));
  ng_types : 0 <= UploadCompression r <= 3 /\ 0 <= DownloadCompression r <= 3
}.

Record record_ok (id : Z) (r : sessionRecord) : Prop := {
  ro_id : ID r = id;
  ro_serve : serve_ok r;
  ro_open : isClosed r = false;
  ro_upload : minSessionMTU <= UploadMTU r <= maxSessionMTU;
  ro_download : minSessionMTU <= DownloadMTU r <= maxSessionMTU;
  ro_bytes : DownloadMTUBytes r = DownloadMTU r;
  ro_blocks : 1 <= MaxPackedBlocks r;
  ro_reuse : 0 < reuseUntilUnixNano r;
  ro_negotiated : negotiated r
}.

Record store_ok (s : sessionStore) : Prop := {
  (** sessions have numbers from 1 to 255 and are counted *)
  st_range : forall id r, byID s !! id = Some r -> 1 <= id <= maxServerSessionID;
  st_record : forall id r, byID s !! id = Some r -> record_ok id r;
  st_count : activeCount s = Z.of_nat (size (byID s));
  (** a registered signature leads to a session with that signature, and is swept in time *)
  st_sig : forall sig id, bySig s !! sig = Some id -> exists r, byID s !! id = Some r /\ Signature r = sig /\
    nextReuseSweepUnixNano s <> 0 /\ nextReuseSweepUnixNano s <= reuseUntilUnixNano r;
  (** no session is open and remembered as closed *)
  st_closed : forall id c, recentClosed s !! id = Some c -> byID s !! id = None;
  st_next : 1 <= nextID s <= maxServerSessionID;
  st_cookies : len (cookieBytes s) = 32 /\ bytes_ok (cookieBytes s) /\ 0 <= cookieIndex s <= 32;
  st_ttl : 0 < sessionInitTTL s
}.

Lemma core_record_ok id r r' : core r' = core r -> serve_ok r' -> record_ok id r -> record_ok id r'.
Proof. unfold core, isClosed. intros [= H1 H2 H3 H4 H5 H6 H7 H8 H9 H10 H11 H12 H13] Hs []. split; unfold isClosed in *; try congruence.
  destruct ro_negotiated0. split; rewrite ?H2, ?H3, ?H4, ?H5, ?H6, ?H7, ?H8, ?H9, ?H10, ?H11; done.
Qed.

Lemma core_signature r r' : core r' = core r -> Signature r' = Signature r /\ reuseUntilUnixNano r' = reuseUntilUnixNano r /\ Cookie r' = Cookie r.
Proof. unfold core. intros [= H1 H2 H3 H4 H5 H6 H7 H8 H9 H10 H11 H12 H13]. done. Qed.

(** The records of [s'] are those of [s] after operations of the sessions. *)
Definition same_sessions (s s' : sessionStore) : Prop :=
  forall id, match byID s !! id, byID s' !! id with
             | Some r, Some r' => core r' = core r /\ (serve_ok r -> serve_ok r')
             | None, None => True
             | _, _ => False
             end.

(** Every session of [s'] is one of [s], with what was set when it was created. *)
Definition descends (s s' : sessionStore) : Prop := forall id r', byID s' !! id = Some r' -> exists r, byID s !! id = Some r /\ core r' = core r.

Lemma descends_same s s' : same_sessions s s' -> descends s s'.
Proof. intros H id r' Hr'. specialize (H id). rewrite Hr' in H. destruct (byID s !! id) as [r |]; [| done]. exists r. split; [done | apply H]. Qed.

Lemma descends_byID s s' : byID s' = byID s -> descends s s'.
Proof. intros H id r' Hr'. rewrite H in Hr'. by exists r'. Qed.

Lemma descends_trans s1 s2 s3 : descends s1 s2 -> descends s2 s3 -> descends s1 s3.
Proof. intros H1 H2 id r3 Hr3. destruct (H2 id r3 Hr3) as (r2 & Hr2 & E2). destruct (H1 id r2 Hr2) as (r1 & Hr1 & E1). exists r1. split; [done | congruence]. Qed.

Lemma same_size s s' : same_sessions s s' -> size (byID s') = size (byID s).
Proof.
  intros H. rewrite <- !size_dom. f_equal. apply set_eq. intros id. rewrite !elem_of_dom. specialize (H id).
  destruct (byID s !! id), (byID s' !! id); try done; split; intros [? ?]; eauto; done.
Qed.

Lemma store_same s s' : store_ok s -> same_sessions s s' -> activeCount s' = activeCount s -> bySig s' = bySig s ->
  nextReuseSweepUnixNano s' = nextReuseSweepUnixNano s -> recentClosed s' = recentClosed s -> nextID s' = nextID s ->
  cookieBytes s' = cookieBytes s -> cookieIndex s' = cookieIndex s -> sessionInitTTL s' = sessionInitTTL s -> store_ok s'.
Proof.
  intros [] Hs H1 H2 H3 H4 H5 H6 H7 H8. pose proof (same_size s s' Hs) as Hsz. split; rewrite ?H1, ?H2, ?H3, ?H4, ?H5, ?H6, ?H7, ?H8; try done.
  - intros id r' Hr'. specialize (Hs id). rewrite Hr' in Hs. destruct (byID s !! id) eqn:E; [|done]. by eapply st_range0.
  - intros id r' Hr'. specialize (Hs id). rewrite Hr' in Hs. destruct (byID s !! id) as [r|] eqn:E; [|done]. destruct Hs as [Hc Hk].
    pose proof (st_record0 id r E) as Hr. eapply core_record_ok; [exact Hc|apply Hk, Hr|exact Hr].
  - congruence.
  - intros sig id Hg. destruct (st_sig0 sig id Hg) as (r & Hr & Hsg & Hn & Hle). specialize (Hs id). rewrite Hr in Hs.
    destruct (byID s' !! id) as [r'|]; [|done]. destruct Hs as [(E1 & E2 & _)%core_signature _]. exists r'. split_and!; [done|congruence|done|congruence].
  - intros id c Hc. specialize (Hs id). rewrite (st_closed0 id c Hc) in Hs. by destruct (byID s' !! id).
Qed.

Lemma same_alter s f id : (forall r, byID s !! id = Some r -> core (f r) = core r /\ (serve_ok r -> serve_ok (f r))) ->
  same_sessions s (s <| byID ::= alter f id |>).
Proof.
  intros Hf x. cbn. destruct (decide (id = x)) as [<-|Hne]; [|rewrite lookup_alter_ne by done; by destruct (byID s !! x)].
  rewrite lookup_alter_eq. destruct (byID s !! id) as [r|]; [|done]. cbn. by apply Hf.
Qed.

Lemma same_fmap s f : (forall r, core (f r) = core r /\ (serve_ok r -> serve_ok (f r))) -> same_sessions s (s <| byID ::= fmap f |>).
Proof. intros Hf x. cbn. rewrite lookup_fmap. destruct (byID s !! x); [|done]. cbn. apply Hf. Qed.

Lemma serve_ok_fields r r' : serve_ok r -> Streams r' = Streams r -> ActiveStreams r' = ActiveStreams r -> objects r' = objects r ->
  activeStreamSetVersion r' = activeStreamSetVersion r -> activeStreamSnapshotVersion r' = activeStreamSnapshotVersion r ->
  activeStreamSnapshotIDs r' = activeStreamSnapshotIDs r -> activeStreamSnapshotStreams r' = activeStreamSnapshotStreams r ->
  MaxActiveStreamsPerSession r' = MaxActiveStreamsPerSession r -> RecentlyClosed r' = RecentlyClosed r ->
  RecentlyClosedHeap r' = RecentlyClosedHeap r -> RecentlyClosedCap r' = RecentlyClosedCap r -> OrphanQueue r' = OrphanQueue r -> serve_ok r'.
Proof.
  intros [] H1 H2 H3 H4 H5 H6 H7 H8 H9 H10 H11 H12. split; rewrite ?H1, ?H3, ?H12; try done. by eapply (wf_same r).
Qed.

Lemma touch_ok now r : core (setLastActivityUnixNano now r) = core r /\ (serve_ok r -> serve_ok (setLastActivityUnixNano now r)).
Proof. split; [done|]. intros H. by eapply (serve_ok_fields r). Qed.

Lemma mark_ok now r : core (markDeferredCleanupActivity now r) = core r /\ (serve_ok r -> serve_ok (markDeferredCleanupActivity now r)).
Proof. split; [done|]. intros H. by eapply (serve_ok_fields r). Qed.

(** ** Expiry of signatures *)

Lemma fold_min (reuse : bytes * Z -> Z) l : Forall (fun e => 0 < reuse e) l -> forall n, 0 <= n ->
  let m := fold_left (fun next e => if (next =? 0) || (reuse e <? next) then reuse e else next) l n in
  0 <= m /\ (n <> 0 -> m <> 0 /\ m <= n) /\ Forall (fun e => m <> 0 /\ m <= reuse e) l.
Proof.
  induction 1 as [|e l He _ IH]; intros n Hn; cbn [fold_left]; [split_and!; [done|done|constructor]|].
  set (n' := if (n =? 0) || (reuse e <? n) then reuse e else n). assert (Hn' : 0 < n' /\ n' <= reuse e /\ (n <> 0 -> n' <= n)).
  { unfold n'. destruct (Z.eqb_spec n 0), (Z.ltb_spec (reuse e) n); cbn [orb]; lia. }
  destruct (IH n') as (H1 & H2 & H3); [lia|]. destruct H2 as [H2 H2']; [lia|]. split_and!; [done|intros; lia|]. constructor; [lia|done].
Qed.

Lemma expire_spec now s : store_ok s -> let s' := expireReuseLocked now s in
  store_ok s' /\ byID s' = byID s /\ recentClosed s' = recentClosed s /\ nextID s' = nextID s /\ activeCount s' = activeCount s /\
  (forall sig id, bySig s' !! sig = Some id <-> bySig s !! sig = Some id /\ exists r, byID s !! id = Some r /\ now <= reuseUntilUnixNano r).
Proof.
  intros Hok. unfold expireReuseLocked. case_bool_decide as He.
  { assert (Hno : forall sig id, bySig s !! sig <> Some id) by (intros sig id; by rewrite He, lookup_empty).
    split_and!; try done; [|intros sig id; cbn; split; [intros H; exfalso; by eapply Hno|intros [H _]; exfalso; by eapply Hno]].
    destruct Hok. split; try done. cbn. intros sig id Hg. exfalso. by eapply Hno. }
  case_if.
  { split_and!; try done. intros sig id. split; [|by intros [? _]]. intros Hg. split; [done|]. destruct (st_sig _ Hok sig id Hg) as (r & Hr & _ & Hn & Hle).
    exists r. split; [done|]. match goal with H : _ && _ = true |- _ => apply andb_true_iff in H as [_ H]; zbool; lia end. }
  set (reuse := fun id => match byID s !! id with Some r => reuseUntilUnixNano r | None => 0 end).
  set (kept := filter _ (bySig s)). assert (Hk : forall sig id, kept !! sig = Some id <-> bySig s !! sig = Some id /\ exists r, byID s !! id = Some r /\ now <= reuseUntilUnixNano r).
  { intros sig id. unfold kept. rewrite map_lookup_filter_Some. cbn. split; intros [H1 H2]; (split; [done|]).
    - destruct H2 as [[r Hr] H2]. exists r. rewrite Hr in H2. done.
    - destruct H2 as (r & Hr & H2). rewrite Hr. split; [by eexists|done]. }
  split_and!; try done.
  assert (Hpos : Forall (fun e : bytes * Z => 0 < reuse e.2) (map_to_list kept)).
  { apply Forall_forall. intros [sig id] Hin. apply elem_of_map_to_list, Hk in Hin as (_ & r & Hr & _). cbn. unfold reuse. rewrite Hr. apply (st_record _ Hok id r Hr). }
  destruct (fold_min (fun e => reuse e.2) _ Hpos 0) as (_ & _ & Hall); [done|].
  destruct Hok. split; try done. cbn. intros sig id Hg. pose proof (proj1 (Hk sig id) Hg) as (Hold & r & Hr & _).
  destruct (st_sig0 sig id Hold) as (r' & Hr' & Hsg & _). rewrite Hr in Hr'. injection Hr' as <-. exists r. split; [done|]. split; [done|].
  apply elem_of_map_to_list in Hg. pose proof (proj1 (Forall_forall _ _) Hall _ Hg) as Hm.
  assert (Hre : reuse id = reuseUntilUnixNano r) by (unfold reuse; by rewrite Hr). rewrite <- Hre. exact Hm.
Qed.

(** ** Slots *)

(** The number of sessions the configuration allows. *)
Definition session_limit (s : sessionStore) : Z :=
  if (maxActiveSessions s <=? 0) || (maxServerSessionSlots <? maxActiveSessions s) then maxServerSessionSlots else maxActiveSessions s.

Lemma session_limit_range s : 1 <= session_limit s <= 255.
Proof. unfold session_limit, maxServerSessionSlots. destruct (Z.leb_spec (maxActiveSessions s) 0), (Z.ltb_spec 255 (maxActiveSessions s)); cbn [orb]; lia. Qed.

Lemma slots_cover start x : 1 <= start <= 255 -> x ∈ slots_from start <-> 1 <= x <= 255.
Proof. intros Hs. unfold slots_from, maxServerSessionID. rewrite elem_of_app, !elem_of_seqZ. lia. Qed.

Lemma slots_full (m : gmap Z sessionRecord) : (forall x, 1 <= x <= 255 -> is_Some (m !! x)) -> 255 <= Z.of_nat (size m).
Proof.
  intros H. assert (Hs : list_to_set (C := gset Z) (seqZ 1 255) ⊆ dom m).
  { intros x Hx. apply elem_of_list_to_set, elem_of_seqZ in Hx. apply elem_of_dom, H. lia. }
  apply subseteq_size in Hs. rewrite size_list_to_set in Hs by apply NoDup_seqZ. rewrite length_seqZ, size_dom in Hs. lia.
Qed.

Lemma allocate_spec s : store_ok s ->
  allocateSlotLocked s = -1 /\ session_limit s <= Z.of_nat (size (byID s)) \/
  1 <= allocateSlotLocked s <= 255 /\ byID s !! allocateSlotLocked s = None /\ Z.of_nat (size (byID s)) < session_limit s.
Proof.
  intros Hok. unfold allocateSlotLocked. fold (session_limit s). pose proof (session_limit_range s) as Hl. rewrite wrap16_id by (unfold u16; lia).
  rewrite (st_count _ Hok). destruct (Z.leb_spec (session_limit s) (Z.of_nat (size (byID s)))); [by left|right]. pose proof (st_next _ Hok) as Hn.
  unfold maxServerSessionID in *. replace ((nextID s <? 1) || (255 <? nextID s)) with false by (symmetry; apply orb_false_iff; split; apply Z.ltb_ge; lia).
  destruct (list_find _ (slots_from (nextID s))) as [[i x]|] eqn:Hf.
  - apply list_find_Some in Hf as (Hi & Hx & _). split; [|done]. apply list_elem_of_lookup_2, slots_cover in Hi; lia.
  - exfalso. apply list_find_None in Hf. assert (255 <= Z.of_nat (size (byID s))); [|lia]. apply slots_full. intros x Hx.
    apply (slots_cover (nextID s)) in Hx; [|lia]. pose proof (proj1 (Forall_forall _ _) Hf x Hx) as Hnone. by apply not_eq_None_Some.
Qed.

(** ** New sessions *)

Lemma clamp_range v limit : minSessionMTU <= clampMTUToLimit v (clampSessionInitAllowedMTU limit) <= maxSessionMTU.
Proof.
  unfold clampMTUToLimit, clampMTU, clampSessionInitAllowedMTU, minSessionMTU, maxSessionMTU.
  destruct (Z.ltb_spec limit 10), (Z.ltb_spec 4096 limit), (Z.ltb_spec v 10), (Z.ltb_spec 4096 v); try lia; rewrite ?wrap16_id by (unfold u16; lia); case_if; zbool; lia.
Qed.

Lemma clamp_below v limit : clampMTUToLimit v limit <= Z.max minSessionMTU v.
Proof. unfold clampMTUToLimit, clampMTU, minSessionMTU, maxSessionMTU. repeat case_if; zbool; lia. Qed.

(** Known compression types. *)
Definition known_types (up down : Z) : Prop := 0 <= up <= 3 /\ 0 <= down <= 3.

Lemma signature_fields payload : nth 0 (take 10 payload) 0 = nth 0 payload 0 /\ nth 2 (take 10 payload) 0 = nth 2 payload 0 /\
  nth 3 (take 10 payload) 0 = nth 3 payload 0 /\ nth 4 (take 10 payload) 0 = nth 4 payload 0 /\ nth 5 (take 10 payload) 0 = nth 5 payload 0 /\
  take 4 (drop 6 (take 10 payload)) = take 4 (drop 6 payload).
Proof. by destruct payload as [|? [|? [|? [|? [|? [|? [|? [|? [|? [|? ?]]]]]]]]]]. Qed.

Lemma fill_record_ok slot payload up down batch maxUp maxDown now ttl r : serve_ok r -> ID r = slot -> isClosed r = false -> 0 < now + ttl ->
  Signature r = take 10 payload -> ResponseMode r = nth 0 payload 0 -> u8 (Cookie r) -> known_types up down ->
  record_ok slot (fill_record payload up down batch maxUp maxDown now ttl r) /\
  Signature (fill_record payload up down batch maxUp maxDown now ttl r) = Signature r /\
  reuseUntilUnixNano (fill_record payload up down batch maxUp maxDown now ttl r) = now + ttl.
Proof.
  intros H1 H2 H3 H4 Hsg Hmode Hck Ht. split; [|by split]. split; cbn; [done| |done| | |done| |lia|].
  - by eapply (serve_ok_fields r).
  - apply clamp_range.
  - apply clamp_range.
  - unfold CalculateMaxPackedBlocks. cbv zeta. lia.
  - destruct (signature_fields payload) as (E0 & E2 & E3 & E4 & E5 & E6).
    split; cbn [set set_UploadMTU Signature]; cbn; rewrite ?Hsg, ?E0, ?E2, ?E3, ?E4, ?E5, ?E6; try done; apply clamp_below.
Qed.

Lemma new_record_ok slot payload up down batch maxUp maxDown now s : store_ok s -> 0 < now -> known_types up down ->
  record_ok slot (new_record slot payload up down batch maxUp maxDown now s) /\
  Signature (new_record slot payload up down batch maxUp maxDown now s) = take 10 payload /\
  reuseUntilUnixNano (new_record slot payload up down batch maxUp maxDown now s) = now + sessionInitTTL s.
Proof.
  intros Hok Hnow Ht. unfold new_record. assert (H0 : serve_ok (blank_record slot payload s)) by (apply serve_ok_blank; by split_and!).
  pose proof (serve_ok_step _ (OpEnsureStream0 now) H0 I) as H1. cbn [step] in H1.
  pose proof (core_step (blank_record slot payload s) (OpEnsureStream0 now) eq_refl) as Hc. cbn [step] in Hc.
  assert (Hb : ID (blank_record slot payload s) = slot /\ closedFlag (blank_record slot payload s) = false /\ Signature (blank_record slot payload s) = take 10 payload /\
    ResponseMode (blank_record slot payload s) = nth 0 payload 0 /\ Cookie (blank_record slot payload s) = 0) by done.
  destruct Hb as (B1 & B2 & B3 & B4 & B5). set (r1 := ensureStream0 now (blank_record slot payload s)) in *. clearbody r1.
  unfold core in Hc. injection Hc as C1 C2 C3 C4 C5 C6 C7 C8 C9 C10 C11 C12 C13. pose proof (st_ttl _ Hok).
  destruct (fill_record_ok slot payload up down batch maxUp maxDown now (sessionInitTTL s) r1 H1) as (F1 & F2 & F3);
    [congruence|unfold isClosed; congruence|lia|congruence|congruence|rewrite C2; unfold u8; lia|done|].
  split_and!; [done|congruence|done].
Qed.

(** What a new session grants, from the request and the limits of the server. *)
Definition granted_mtu (asked limit : Z) : Z := Z.max minSessionMTU (Z.min maxSessionMTU (Z.min asked limit)).

Lemma clamp_granted v limit : clampMTUToLimit v (clampSessionInitAllowedMTU limit) = granted_mtu v limit.
Proof.
  unfold granted_mtu, clampMTUToLimit, clampMTU, clampSessionInitAllowedMTU, minSessionMTU, maxSessionMTU.
  destruct (Z.ltb_spec limit 10), (Z.ltb_spec 4096 limit), (Z.ltb_spec v 10), (Z.ltb_spec 4096 v); try lia; rewrite ?wrap16_id by (unfold u16; lia); case_if; zbool; lia.
Qed.

Lemma new_record_terms slot payload up down batch maxUp maxDown now s cookie :
  let r := (new_record slot payload up down batch maxUp maxDown now s) <| Cookie := cookie |> in
  UploadCompression r = up /\ DownloadCompression r = down /\
  UploadMTU r = granted_mtu (of_be16 (nth 2 payload 0) (nth 3 payload 0)) maxUp /\
  DownloadMTU r = granted_mtu (of_be16 (nth 4 payload 0) (nth 5 payload 0)) maxDown /\
  MaxPackedBlocks r = CalculateMaxPackedBlocks (DownloadMTU r) 80 batch.
Proof. cbv zeta. rewrite <- !clamp_granted. done. Qed.

Definition entropy_ok (e : option bytes) : Prop := match e with Some b => len b = 32 /\ bytes_ok b | None => True end.

Lemma cookie_spec entropy s c s' : store_ok s -> entropy_ok entropy -> randomCookieLocked entropy s = (c, s') ->
  u8 c /\ exists b i, s' = s <| cookieBytes := b |> <| cookieIndex := i |> /\ len b = 32 /\ bytes_ok b /\ 0 <= i <= 32.
Proof.
  intros Hok He. destruct (st_cookies _ Hok) as (Hl & Hb & Hi). unfold randomCookieLocked. rewrite Hl.
  assert (Hget : forall b i, len b = 32 -> bytes_ok b -> 0 <= i < 32 -> u8 (default 0 (b !! Z.to_nat i))).
  { intros b i Hlb Hob Hib. destruct (b !! Z.to_nat i) as [x|] eqn:E; [|unfold u8; cbn; lia]. cbn. by eapply (Forall_lookup_1 _ _ _ _ Hob E). }
  destruct (Z.leb_spec 32 (cookieIndex s)).
  - destruct entropy as [b|]; intros [= <- <-].
    + destruct He as [Hlb Hob]. split; [by apply (Hget b 0)|]. exists b, 1. by split_and!.
    + split; [unfold u8; lia|]. exists (cookieBytes s), 32. split_and!; try done; lia.
  - intros [= <- <-]. split; [apply Hget; [done|done|lia]|]. exists (cookieBytes s), (Z.succ (cookieIndex s)). split_and!; try done; lia.
Qed.

(** ** Requests for a session *)

Definition init_payload (payload : bytes) : Prop := len payload = 10 /\ nth 0 payload 0 <= 1.

#[global] Instance init_payload_dec p : Decision (init_payload p).
Proof. unfold init_payload. apply _. Defined.

Lemma signature_payload payload : init_payload payload -> take 10 payload = payload.
Proof. intros [H _]. apply take_ge. unfold len in H. lia. Qed.

(** A new session is entered into the tables. *)
Lemma store_insert s slot r sig : store_ok s -> 1 <= slot <= 255 -> byID s !! slot = None -> record_ok slot r -> Signature r = sig ->
  bySig s !! sig = None -> Z.of_nat (size (byID s)) < 255 ->
  store_ok (enter_session slot sig r s) /\ byID (enter_session slot sig r s) = <[slot := r]> (byID s) /\
  bySig (enter_session slot sig r s) !! sig = Some slot.
Proof.
  intros Hok Hslot Hfree Hr Hsig Hnosig Hsz. unfold enter_session. set (s1 := s <| byID ::= _ |> <| activeCount ::= _ |> <| bySig ::= _ |>).
  set (s2 := updateNextReuseSweepLocked (reuseUntilUnixNano r) s1). assert (H2 : byID s2 = <[slot := r]> (byID s) /\ activeCount s2 = wrap16 (activeCount s + 1) /\ bySig s2 = <[sig := slot]> (bySig s) /\
    recentClosed s2 = recentClosed s /\ nextID s2 = nextID s /\ cookieBytes s2 = cookieBytes s /\ cookieIndex s2 = cookieIndex s /\ sessionInitTTL s2 = sessionInitTTL s).
  { unfold s2, updateNextReuseSweepLocked. by case_if. }
  destruct H2 as (E1 & E2 & E3 & E4 & E5 & E6 & E7 & E8). pose proof (ro_reuse _ _ Hr) as Hpos.
  assert (Hnext : nextReuseSweepUnixNano s2 <= reuseUntilUnixNano r /\ (nextReuseSweepUnixNano s <> 0 -> nextReuseSweepUnixNano s2 <= nextReuseSweepUnixNano s) /\ nextReuseSweepUnixNano s2 <> 0).
  { unfold s2, updateNextReuseSweepLocked. cbn. destruct (Z.eqb_spec (nextReuseSweepUnixNano s) 0), (Z.ltb_spec (reuseUntilUnixNano r) (nextReuseSweepUnixNano s)); cbn; lia. }
  clearbody s2. split; [|cbn; rewrite E1, E3; split; [done|apply lookup_insert_eq]]. destruct Hok. split; cbn; rewrite ?E1, ?E2, ?E3, ?E4, ?E5, ?E6, ?E7, ?E8; try done.
  - intros id x [[<- <-]|[_ Hx]]%lookup_insert_Some; [done|by eapply st_range0].
  - intros id x [[<- <-]|[_ Hx]]%lookup_insert_Some; [done|by eapply st_record0].
  - rewrite map_size_insert_None, st_count0, wrap16_id by (done || (unfold u16; lia)). lia.
  - intros g id [[<- <-]|[Hne Hg]]%lookup_insert_Some; [exists r; rewrite lookup_insert_eq; split_and!; try done; lia|].
    destruct (st_sig0 g id Hg) as (x & Hx & Hsx & Hn & Hle). exists x. rewrite lookup_insert_ne by (intros ->; congruence). split_and!; try done; lia.
  - intros id c [Hne Hc]%lookup_delete_Some. rewrite lookup_insert_ne by done. by eapply st_closed0.
  - unfold nextSessionID, maxServerSessionID. destruct (Z.leb_spec 255 slot); [lia|]. rewrite wrap8_id by (unfold u8; lia). lia.
Qed.

Lemma store_unsig s sig : store_ok s -> store_ok (s <| bySig ::= delete sig |>).
Proof. intros []. split; try done. cbn. intros g id [_ Hg]%lookup_delete_Some. by apply st_sig0. Qed.

Lemma store_cookies s b i : store_ok s -> len b = 32 -> bytes_ok b -> 0 <= i <= 32 -> store_ok (s <| cookieBytes := b |> <| cookieIndex := i |>).
Proof. intros [] H1 H2 H3. split; try done. Qed.

Lemma record_cookie id r c : u8 c -> record_ok id r -> record_ok id (r <| Cookie := c |>).
Proof. intros Hc []. split; try done; [by eapply (serve_ok_fields r)|]. destruct ro_negotiated0. by split. Qed.

Lemma cookie_signature r c : Signature (r <| Cookie := c |>) = Signature r.
Proof. done. Qed.

Lemma new_record_same slot payload up down batch maxUp maxDown now s s' : sessionInitTTL s' = sessionInitTTL s ->
  recentlyClosedTTL s' = recentlyClosedTTL s -> recentlyClosedCap s' = recentlyClosedCap s -> maxActiveStreams s' = maxActiveStreams s ->
  new_record slot payload up down batch maxUp maxDown now s' = new_record slot payload up down batch maxUp maxDown now s.
Proof. unfold new_record, blank_record. by intros -> -> -> ->. Qed.

Lemma expire_frame now s : let s' := expireReuseLocked now s in
  sessionInitTTL s' = sessionInitTTL s /\ maxActiveSessions s' = maxActiveSessions s /\ recentlyClosedTTL s' = recentlyClosedTTL s /\
  recentlyClosedCap s' = recentlyClosedCap s /\ maxActiveStreams s' = maxActiveStreams s.
Proof. unfold expireReuseLocked. by repeat case_if. Qed.

(** What [findOrCreate] does to a store. *)
Definition init_result (payload : bytes) (now : Z) (s : sessionStore) (res : found_session) (s' : sessionStore) (fresh : Z -> Z -> sessionRecord) : Prop :=
  match res with
  | NoSession => False
  | Session id true =>
      exists r, bySig s !! payload = Some id /\ byID s !! id = Some r /\ Signature r = payload /\ now <= reuseUntilUnixNano r /\
        byID s' = <[id := setLastActivityUnixNano now r]> (byID s) /\ bySig s' !! payload = Some id
  | Session id false =>
      (forall id' r, bySig s !! payload = Some id' -> byID s !! id' = Some r -> reuseUntilUnixNano r < now) /\
      1 <= id <= 255 /\ byID s !! id = None /\ Z.of_nat (size (byID s)) < session_limit s /\
      exists cookie, u8 cookie /\ byID s' = <[id := fresh id cookie]> (byID s) /\ bySig s' !! payload = Some id
  | ErrSessionTableFull => byID s' = byID s /\ session_limit s <= Z.of_nat (size (byID s))
  end.

#[local] Opaque new_record enter_session randomCookieLocked allocateSlotLocked.

Lemma create_spec payload up down batch maxUp maxDown now entropy s : store_ok s -> init_payload payload -> 0 < now -> entropy_ok entropy ->
  bySig s !! payload = None -> known_types up down ->
  let '(res, s') := create_session payload up down batch maxUp maxDown now entropy s in
  store_ok s' /\ init_result payload now s res s' (fun id cookie => (new_record id payload up down batch maxUp maxDown now s) <| Cookie := cookie |>).
Proof.
  intros Hok Hp Hnow He Hsig Ht. unfold create_session. pose proof (session_limit_range s) as Hlr. rewrite signature_payload by done.
  destruct (allocate_spec s Hok) as [[Ha Hfull]|(Hr & Hfree & Hroom)].
  { rewrite Ha. by split. }
  rewrite (proj2 (Z.ltb_ge _ _)) by lia. set (slot := allocateSlotLocked s) in *. clearbody slot.
  destruct (new_record_ok slot payload up down batch maxUp maxDown now s Hok Hnow Ht) as (Hnew & Hns & _). rewrite signature_payload in Hns by done.
  remember (new_record slot payload up down batch maxUp maxDown now s) as r eqn:Hrec. destruct (randomCookieLocked entropy s) as [c s3] eqn:Hc.
  destruct (cookie_spec entropy s c s3 Hok He Hc) as (Hu & b & i & -> & Hlb & Hob & Hi).
  destruct (store_insert (s <| cookieBytes := b |> <| cookieIndex := i |>) slot (r <| Cookie := c |>) payload) as (H1 & H2 & H3).
  - by apply store_cookies.
  - done.
  - exact Hfree.
  - by apply record_cookie.
  - rewrite cookie_signature. exact Hns.
  - exact Hsig.
  - apply (Z.lt_le_trans _ _ _ Hroom), Hlr.
  - split; [exact H1|]. split; [intros id' r' Hg; by rewrite Hsig in Hg|]. split; [done|]. split; [done|]. split; [done|].
    exists c. rewrite <- Hrec. by split.
Qed.

Lemma findOrCreate_spec payload up down batch maxUp maxDown now entropy s : store_ok s -> init_payload payload -> 0 < now -> entropy_ok entropy ->
  known_types up down ->
  let '(res, s') := findOrCreate payload up down batch maxUp maxDown now entropy s in
  store_ok s' /\ init_result payload now s res s' (fun id cookie => (new_record id payload up down batch maxUp maxDown now s) <| Cookie := cookie |>).
Proof.
  intros Hok Hp Hnow He Ht. unfold findOrCreate. destruct Hp as [Hlen Hmode]. rewrite Hlen, (proj2 (Z.leb_le _ _) Hmode : isValidSessionResponseMode _ = true).
  cbn [Z.eqb negb orb sessionInitDataSize Pos.eqb]. rewrite (signature_payload payload) by done.
  destruct (expire_spec now s Hok) as (Hok1 & E1 & E2 & E3 & E4 & Hsig). set (s1 := expireReuseLocked now s) in *.
  pose proof (expire_frame now s) as Httl. fold s1 in Httl. clearbody s1. destruct Httl as (T1 & T2 & T3 & T4 & T5). destruct (bySig s1 !! payload) as [id|] eqn:Hg.
  - destruct (proj1 (Hsig payload id) Hg) as (Hg0 & r & Hr & Hle). rewrite E1, Hr. rewrite (proj2 (Z.leb_le _ _) Hle). split.
    + eapply (store_same s1); try done. apply same_alter. intros x _. apply touch_ok.
    + destruct (st_sig _ Hok payload id Hg0) as (r' & Hr' & Hsg & _). rewrite Hr in Hr'. injection Hr' as <-. exists r. split_and!; try done. cbn. rewrite E1.
      apply map_eq. intros x. destruct (decide (id = x)) as [<-|]; [rewrite lookup_alter_eq, lookup_insert_eq, Hr; done|]. by rewrite lookup_alter_ne, lookup_insert_ne.
  - set (s2 := s1 <| bySig ::= delete payload |>). pose proof (store_unsig s1 payload Hok1) as Hok2. fold s2 in Hok2.
    pose proof (create_spec payload up down batch maxUp maxDown now entropy s2 Hok2 (conj Hlen Hmode) Hnow He (lookup_delete_eq _ _) Ht) as Hc.
    destruct (create_session _ _ _ _ _ _ _ _ s2) as [res s']. destruct Hc as [Hok' Hc]. split; [done|]. unfold init_result, session_limit in *. cbn in Hc. rewrite E1, T2 in Hc.
    destruct res as [|id [|]|]; [done| | |done].
    + destruct Hc as (r & Hc & _). by rewrite lookup_delete_eq in Hc.
    + rewrite (new_record_same id payload up down batch maxUp maxDown now s s2) in Hc by done. destruct Hc as [_ Hc]. split; [|exact Hc].
      intros id' r' Hg' Hr'. destruct (Z.lt_ge_cases (reuseUntilUnixNano r') now); [done|]. exfalso.
      assert (bySig s1 !! payload = Some id') by (apply Hsig; split; [done|by exists r']). congruence.
Qed.

(** ** The end of a session *)

(** What [Close] and [Cleanup] do to the tables. *)
Record removed (id : Z) (r : sessionRecord) (s s' : sessionStore) : Prop := {
  rm_byID : byID s' = delete id (byID s);
  rm_bySig : bySig s' = delete (Signature r) (bySig s);
  rm_count : activeCount s' = (if 0 <? activeCount s then activeCount s - 1 else activeCount s);
  rm_closed : forall x c, recentClosed s' !! x = Some c -> x = id \/ recentClosed s !! x = Some c;
  rm_rest : nextReuseSweepUnixNano s' = nextReuseSweepUnixNano s /\ nextID s' = nextID s /\ cookieBytes s' = cookieBytes s /\
    cookieIndex s' = cookieIndex s /\ sessionInitTTL s' = sessionInitTTL s
}.

Lemma store_removed id r s s' : store_ok s -> byID s !! id = Some r -> removed id r s s' -> store_ok s'.
Proof.
  intros Hok Hr [H1 H2 H3 H4 (H5 & H6 & H7 & H8 & H9)]. assert (Hpos : (0 < size (byID s))%nat).
  { destruct (size (byID s)) eqn:E; [|lia]. apply map_size_empty_iff in E. rewrite E, lookup_empty in Hr. done. }
  destruct Hok. split; rewrite ?H1, ?H2, ?H3, ?H5, ?H6, ?H7, ?H8, ?H9; try done.
  - intros x y [_ Hx]%lookup_delete_Some. by eapply st_range0.
  - intros x y [_ Hx]%lookup_delete_Some. by eapply st_record0.
  - rewrite map_size_delete_Some by (by eexists). rewrite st_count0, (proj2 (Z.ltb_lt _ _)) by lia. lia.
  - intros g x [Hne Hg]%lookup_delete_Some. destruct (st_sig0 g x Hg) as (y & Hy & Hsg & Hn & Hle). exists y. rewrite lookup_delete_ne by (intros ->; congruence). done.
  - intros x c Hc. destruct (decide (x = id)) as [->|Hne]; [apply lookup_delete_eq|]. rewrite lookup_delete_ne by done.
    destruct (H4 x c Hc) as [?|?]; [done|]. by eapply st_closed0.
Qed.

Lemma close_removed id now retention s : match byID s !! id with
  | Some r => removed id r s (Close id now retention s).2 | None => (Close id now retention s).2 = s end.
Proof.
  unfold Close. destruct (byID s !! id) as [r|]; [|done]. cbn [snd]. unfold decrement_active. cbn.
  destruct (0 <? activeCount s) eqn:E, (0 <? retention); (split; cbn; [done|done|by rewrite E| |done]).
  - intros x c [[<- _]|[_ Hx]]%lookup_insert_Some; by auto.
  - intros x c [_ Hx]%lookup_delete_Some; by auto.
  - intros x c [[<- _]|[_ Hx]]%lookup_insert_Some; by auto.
  - intros x c [_ Hx]%lookup_delete_Some; by auto.
Qed.

Lemma cleanup_removed now idle retention ids s id : match byID s !! id with
  | Some r => (lastActivity r <> 0 /\ now - lastActivity r < idle /\ (cleanup_session now idle retention (ids, s) id).2 = s) \/
              (lastActivity r = 0 \/ idle <= now - lastActivity r) /\ removed id r s (cleanup_session now idle retention (ids, s) id).2
  | None => (cleanup_session now idle retention (ids, s) id).2 = s end.
Proof.
  unfold cleanup_session. destruct (byID s !! id) as [r|]; [|done]. destruct (Z.eqb_spec (lastActivity r) 0), (Z.ltb_spec (now - lastActivity r) idle); cbn [negb andb]; [right|right|by left|right].
  all: split; [lia|]. all: cbn [snd]; unfold decrement_active; cbn; destruct (0 <? activeCount s) eqn:E, (0 <? retention); (split; cbn; [done|done|by rewrite E| |done]).
  all: try (intros x c [[<- _]|[_ Hx]]%lookup_insert_Some; by auto). all: by auto.
Qed.

(** ** The operations of the store *)

Inductive store_op :=
| StInit (payload : bytes) (upload download maxPacketsPerBatch maxUpload maxDownload now : Z) (entropy : option bytes)
| StValidate (sessionID cookie now : Z)
| StClose (sessionID now retention : Z)
| StCleanup (now idleTimeout closedRetention : Z)
| StSweepTerminal (now retention : Z)
| StSweepClosed (now : Z)
| StCollect (now idleTimeout : Z)
| StSession (sessionID : Z) (o : session_op).

Definition store_step (s : sessionStore) (o : store_op) : sessionStore :=
  match o with
  | StInit payload up down batch maxUp maxDown now entropy => (findOrCreate payload up down batch maxUp maxDown now entropy s).2
  | StValidate id cookie now => (ValidateAndTouch id cookie now s).2
  | StClose id now retention => (Close id now retention s).2
  | StCleanup now idle retention => (Cleanup now idle retention s).2
  | StSweepTerminal now retention => SweepTerminalStreams now retention s
  | StSweepClosed now => SweepRecentlyClosedStreams now s
  | StCollect now idle => (CollectIdleDeferredSessions now idle s).2
  | StSession id o => on_session id (fun r => step r o) s
  end.

(** The clock is past zero; [rand.Read] fills the 32 bytes; compression types are known; streams of a session in the
    table are not closed all at once. *)
Definition store_op_ok (s : sessionStore) (o : store_op) : Prop :=
  match o with
  | StInit _ up down _ _ _ now entropy => 0 < now /\ entropy_ok entropy /\ known_types up down
  | StSession id o => is_closeAll o = false /\ forall r, byID s !! id = Some r -> op_ok r o
  | _ => True
  end.

Lemma collect_same now idle l : forall ids s, same_sessions s (fold_left (collect_idle now idle) l (ids, s)).2 /\
  exists m, (fold_left (collect_idle now idle) l (ids, s)).2 = s <| byID := m |>.
Proof.
  assert (Hrefl : forall s, same_sessions s s) by (intros s id; by destruct (byID s !! id)).
  induction l as [|id l IH]; intros ids s; cbn [fold_left]; [split; [done|exists (byID s); by destruct s]|]. unfold collect_idle at 2 4. destruct (Get id s) as [r|]; [|apply IH].
  repeat (case_if; [apply IH|]). set (s1 := s <| byID ::= _ |>). destruct (IH (ids ++ [(id, lastActivity r)]) s1) as [H1 [m H2]].
  split; [|exists m; by rewrite H2]. intros x. specialize (H1 x). pose proof (same_alter s (markDeferredCleanupActivity (lastActivity r)) id (fun r _ => mark_ok _ r) x) as H0.
  change (s <| byID ::= alter (markDeferredCleanupActivity (lastActivity r)) id |>) with s1 in H0.
  destruct (byID s !! x), (byID s1 !! x), (byID _ !! x); try done. destruct H0 as [A0 B0], H1 as [A1 B1]. split; [congruence|auto].
Qed.

Lemma store_closed_filter P `{!forall e, Decision (P e)} s : store_ok s -> store_ok (s <| recentClosed ::= filter P |>).
Proof. intros []. split; try done. cbn. intros id c [Hc _]%map_lookup_filter_Some. by eapply st_closed0. Qed.

Lemma cleanup_fold (P : sessionStore -> Prop) now idle retention l :
  (forall ids s id, P s -> P (cleanup_session now idle retention (ids, s) id).2) -> forall ids s, P s -> P (fold_left (cleanup_session now idle retention) l (ids, s)).2.
Proof.
  intros Hstep. induction l as [|id l IH]; intros ids s Hs; [done|]. cbn [fold_left]. pose proof (Hstep ids s id Hs) as H.
  destruct (cleanup_session now idle retention (ids, s) id) as [ids' s']. by apply IH.
Qed.

Lemma store_cleanup_session now idle retention ids s id : store_ok s -> store_ok (cleanup_session now idle retention (ids, s) id).2.
Proof.
  intros Hok. pose proof (cleanup_removed now idle retention ids s id) as H. destruct (byID s !! id) as [r|] eqn:Hr; [|by rewrite H].
  destruct H as [(_ & _ & ->)|[_ H]]; [done|]. by eapply store_removed.
Qed.

(** Clean-up only takes sessions away, and the sweeps run operations of the sessions. *)
Lemma descends_removed id r s s' : removed id r s s' -> descends s s'.
Proof. intros [H _ _ _ _] x r' Hr'. rewrite H in Hr'. apply lookup_delete_Some in Hr' as [_ Hr']. by exists r'. Qed.

Lemma cleanup_descends now idle retention s : store_ok s -> descends s (Cleanup now idle retention s).2.
Proof.
  intros Hok. unfold Cleanup. destruct (expire_spec now s Hok) as (_ & E & _). case_if; [by apply descends_byID |].
  apply (cleanup_fold (descends s)); [| by apply descends_byID]. intros ids t id Ht. eapply descends_trans; [exact Ht |].
  pose proof (cleanup_removed now idle retention ids t id) as H. destruct (byID t !! id) as [r |]; [| rewrite H; by apply descends_byID].
  destruct H as [(_ & _ & ->) | [_ H]]; [by apply descends_byID | by eapply descends_removed].
Qed.

Lemma collect_descends now idle s : descends s (CollectIdleDeferredSessions now idle s).2.
Proof. unfold CollectIdleDeferredSessions. case_if; [by apply descends_byID |]. apply descends_same, collect_same. Qed.

Lemma sweepTerminal_same now retention s : same_sessions s (SweepTerminalStreams now retention s).
Proof. apply same_fmap. intros r. split; [apply core_cleanup |]. intros Hr. exact (serve_ok_step r (OpCleanupTerminal now retention) Hr I). Qed.

Lemma sweepClosed_same now s : same_sessions s (SweepRecentlyClosedStreams now s).
Proof. apply same_fmap. intros r. split; [exact (core_step r (OpPrune now) eq_refl) |]. intros Hr. exact (serve_ok_step r (OpPrune now) Hr I). Qed.

Lemma on_session_same id o s : is_closeAll o = false -> (forall r, byID s !! id = Some r -> op_ok r o) -> same_sessions s (s <| byID ::= alter (fun r => step r o) id |>).
Proof. intros Hc Ho. apply same_alter. intros r Hr. split; [by apply core_step|]. intros Hs. apply serve_ok_step; auto. Qed.

Lemma store_step_ok s o : store_ok s -> store_op_ok s o -> store_ok (store_step s o).
Proof.
  intros Hok Ho. destruct o as [payload up down batch maxUp maxDown now entropy|id cookie now|id now ret|now idle ret|now ret|now|now idle|id o]; cbn [store_step].
  - destruct Ho as (Hnow & He & Ht). destruct (decide (init_payload payload)) as [Hp|Hp].
    + pose proof (findOrCreate_spec payload up down batch maxUp maxDown now entropy s Hok Hp Hnow He Ht) as H. destruct (findOrCreate _ _ _ _ _ _ _ _ s). apply H.
    + unfold findOrCreate, isValidSessionResponseMode, sessionInitDataSize, mtuProbeModeBase64. destruct (Z.eqb_spec (len payload) 10), (Z.leb_spec (nth 0 payload 0) 1); cbn [negb orb]; try done.
      exfalso. apply Hp. by split.
  - unfold ValidateAndTouch. destruct (byID s !! id) as [r|]; [|by destruct (recentClosed s !! id)]. cbn [snd]. case_if; [|done].
    eapply (store_same s); try done. apply same_alter. intros x _. apply touch_ok.
  - pose proof (close_removed id now ret s) as H. destruct (byID s !! id) as [r|] eqn:Hr; [by eapply store_removed|by rewrite H].
  - unfold Cleanup. destruct (expire_spec now s Hok) as [Hok1 _]. assert (Hok2 := store_closed_filter (fun e : Z * closedSessionRecord => now < csExpiresAt e.2) _ Hok1).
    case_if; [done|]. apply (cleanup_fold store_ok); [|done]. intros ids s0 id. apply store_cleanup_session.
  - eapply (store_same s); try done. apply sweepTerminal_same.
  - eapply (store_same s); try done. apply sweepClosed_same.
  - unfold CollectIdleDeferredSessions. case_if; [done|]. destruct (collect_same now idle (seqZ 1 maxServerSessionID) [] s) as [Hs [m Hm]].
    eapply (store_same s); [done|exact Hs|..]; by rewrite Hm.
  - destruct Ho as [Hc Ho]. unfold on_session. destruct (Get id s); [|done]. eapply (store_same s); try done. by apply on_session_same.
Qed.
