(* ===== verification/SessionLife.v ===== *)
(** The life of a session of the server: created once, found again by the same request,
    forgotten when it ends.

    Theorems on SessionStore.v (src/masterdns/internal/udpserver/session.go). *)

From stdpp Require Import base tactics list gmap strings sorting.
From Stdlib Require Import ZArith Lia.
From S2P Require Import Prelude Enums Mlq Compression VpnProto GoFloat ArqState Arq TxQueue GoHeap Session SessionInv SessionServe SessionServeInv SessionFair SessionReach SessionStore SessionStoreInv.
Import Session.

(** ** Reachable stores *)

(** The store of a server, with the limits of its configuration. *)
Definition server_store (options : list any) (maxSessions maxStreams : Z) : sessionStore :=
  (newSessionStore options) <| maxActiveSessions := maxSessions |> <| maxActiveStreams := maxStreams |>.

Lemma duration_pos options i d : 0 < d -> 0 < duration_option options i d.
Proof. intros Hd. unfold duration_option. destruct (options !! i) as [[v|v]|]; [|done|done]. destruct (Z.ltb_spec 0 v); lia. Qed.

Lemma server_store_ok options maxSessions maxStreams : store_ok (server_store options maxSessions maxStreams).
Proof.
  split; try (cbn; done).
  - split_and!; [done| |done|done]. repeat constructor; unfold u8; lia.
  - apply duration_pos. lia.
Qed.

Inductive store_reachable (s0 : sessionStore) : sessionStore -> Prop :=
| store_start : store_reachable s0 s0
| store_next s o : store_reachable s0 s -> store_op_ok s o -> store_reachable s0 (store_step s o).

Lemma store_reachable_ok options maxSessions maxStreams s : store_reachable (server_store options maxSessions maxStreams) s -> store_ok s.
Proof. induction 1 as [|s o _ IH Ho]; [apply server_store_ok|]. by apply store_step_ok. Qed.

(** C17: In every state the sessions of a server can reach: sessions have numbers from 1 to
    255, their records carry these numbers, MTUs within the limits and at least one packed
    block, and satisfy the invariant of a session; the counter of sessions is their
    number; a registered signature leads to a session that has it, and the time of the
    next sweep is not after the end of any registered one; no session is both open and
    remembered as closed. *)
Theorem store_invariant (options : list any) (maxSessions maxStreams : Z) (s : sessionStore) :
  store_reachable (server_store options maxSessions maxStreams) s -> store_ok s.
Proof. apply store_reachable_ok. Qed.

(** ** Repeated requests *)

Definition registered (payload : bytes) (id : Z) (r0 : sessionRecord) (s : sessionStore) : Prop :=
  bySig s !! payload = Some id /\ exists r, byID s !! id = Some r /\ core r = core r0.

(** The operation ends no session with this signature and runs before the time [t]. *)
Definition spares (payload : bytes) (t : Z) (s : sessionStore) (o : store_op) : Prop :=
  match o with
  | StInit _ _ _ _ _ _ now _ => now <= t
  | StClose id _ _ => forall r, byID s !! id = Some r -> Signature r <> payload
  | StCleanup now idle _ =>
      now <= t /\ (idle <= 0 \/ forall id r, byID s !! id = Some r -> Signature r = payload -> lastActivity r <> 0 /\ now - lastActivity r < idle)
  | _ => True
  end.

Lemma registered_same payload id r0 s s' : same_sessions s s' -> bySig s' = bySig s -> registered payload id r0 s -> registered payload id r0 s'.
Proof.
  intros Hs Hsig (H1 & r & H2 & H3). split; [by rewrite Hsig|]. specialize (Hs id). rewrite H2 in Hs. destruct (byID s' !! id) as [r'|]; [|done].
  destruct Hs as [Hc _]. exists r'. split; [done|congruence].
Qed.

Lemma registered_expire payload id r0 now s : store_ok s -> now <= reuseUntilUnixNano r0 -> registered payload id r0 s -> registered payload id r0 (expireReuseLocked now s).
Proof.
  intros Hok Hle (H1 & r & H2 & H3). destruct (expire_spec now s Hok) as (_ & E1 & _ & _ & _ & Hsig). split; [|exists r; by rewrite E1].
  apply Hsig. split; [done|]. exists r. split; [done|]. apply core_signature in H3 as (_ & H3 & _). congruence.
Qed.

Lemma registered_removed payload id r0 x r s s' : store_ok s -> byID s !! x = Some r -> removed x r s s' -> Signature r <> payload ->
  registered payload id r0 s -> registered payload id r0 s'.
Proof.
  intros Hok Hr [E1 E2 _ _ _] Hne (H1 & r1 & H2 & H3). destruct (st_sig _ Hok payload id H1) as (r1' & H2' & Hsg & _).
  split; [by rewrite E2, lookup_delete_ne|]. exists r1. rewrite E1, lookup_delete_ne by (intros ->; congruence). done.
Qed.

(** A request with another signature leaves the session alone. *)
Lemma registered_create payload id r0 p up down batch maxUp maxDown now entropy s : store_ok s -> p <> payload ->
  registered payload id r0 s -> bySig s !! p = None -> init_payload p -> 0 < now -> entropy_ok entropy ->
  registered payload id r0 (create_session p up down batch maxUp maxDown now entropy s).2.
Proof.
  intros Hok Hne (H1 & r & H2 & H3) Hp Hi Hnow He. unfold create_session. rewrite signature_payload by done.
  destruct (allocate_spec s Hok) as [[Ha _]|(Hr & Hfree & Hroom)]; [rewrite Ha; split; [done|by exists r]|].
  rewrite (proj2 (Z.ltb_ge _ _)) by lia. destruct (randomCookieLocked entropy s) as [c s3] eqn:Hc.
  destruct (cookie_spec entropy s c s3 Hok He Hc) as (_ & b & i & -> & _). cbn [snd]. unfold enter_session, updateNextReuseSweepLocked.
  split; case_if; cbn; rewrite ?lookup_insert_ne by (done || congruence); (done || by exists r).
Qed.

Lemma registered_cleanup payload id r0 now idle ret s : store_ok s -> registered payload id r0 s -> now <= reuseUntilUnixNano r0 ->
  (idle <= 0 \/ forall x r, byID s !! x = Some r -> Signature r = payload -> lastActivity r <> 0 /\ now - lastActivity r < idle) ->
  registered payload id r0 (Cleanup now idle ret s).2.
Proof.
  intros Hok Hreg Hle Hact. unfold Cleanup. destruct (expire_spec now s Hok) as (Hok1 & E1 & _). apply (registered_expire _ _ _ now) in Hreg; [|done|done].
  apply (store_closed_filter (fun e : Z * closedSessionRecord => now < csExpiresAt e.2)) in Hok1. set (s1 := (expireReuseLocked now s) <| recentClosed ::= _ |>) in *.
  assert (Hreg1 : registered payload id r0 s1) by exact Hreg. destruct (Z.leb_spec idle 0) as [_|Hidle]; [done|]. destruct Hact as [?|Hact]; [lia|]. rewrite <- E1 in Hact.
  change (byID (expireReuseLocked now s)) with (byID s1) in Hact. clearbody s1.
  pose (P := fun s => store_ok s /\ registered payload id r0 s /\
    forall x r, byID s !! x = Some r -> Signature r = payload -> lastActivity r <> 0 /\ now - lastActivity r < idle).
  refine (proj1 (proj2 (cleanup_fold P now idle ret _ _ [] s1 (conj Hok1 (conj Hreg1 Hact))))). intros ids s2 x (Hok2 & Hreg2 & Hact2).
  pose proof (cleanup_removed now idle ret ids s2 x) as H. destruct (byID s2 !! x) as [r|] eqn:Hr; [|by rewrite H]. destruct H as [(_ & _ & ->)|[Hex H]]; [done|].
  assert (Hne : Signature r <> payload) by (intros Hsg; specialize (Hact2 x r Hr Hsg); lia). split_and!; [by eapply store_removed|by eapply registered_removed|].
  intros y r1. rewrite (rm_byID _ _ _ _ H). intros [_ Hy]%lookup_delete_Some. by apply (Hact2 y).
Qed.

Lemma registered_step payload id r0 s o : store_ok s -> registered payload id r0 s -> store_op_ok s o -> spares payload (reuseUntilUnixNano r0) s o ->
  registered payload id r0 (store_step s o).
Proof.
  intros Hok Hreg Ho Hsp. destruct o as [p up down batch maxUp maxDown now entropy|x cookie now|x now ret|now idle ret|now ret|now|now idle|x o]; cbn [store_step].
  - destruct Ho as (Hnow & He & _). unfold findOrCreate. destruct (negb _ || negb _) eqn:Hinit; [done|]. assert (Hi : init_payload p).
    { unfold init_payload, isValidSessionResponseMode, sessionInitDataSize, mtuProbeModeBase64 in *. destruct (Z.eqb_spec (len p) 10), (Z.leb_spec (nth 0 p 0) 1); done. }
    rewrite signature_payload by done. destruct (expire_spec now s Hok) as [Hok1 _]. apply (registered_expire _ _ _ now) in Hreg; [|done|done].
    set (s1 := expireReuseLocked now s) in *. clearbody s1. destruct (decide (p = payload)) as [->|Hne].
    + pose proof Hreg as (H1 & r & H2 & H3). rewrite H1, H2. apply core_signature in H3 as (_ & H3 & _). rewrite (proj2 (Z.leb_le _ _)) by (cbn in Hsp; lia).
      apply (registered_same _ _ _ s1); [apply same_alter; intros y _; apply touch_ok|done|done].
    + set (existing := match bySig s1 !! p with Some _ => _ | None => _ end). destruct existing as [y|].
      * apply (registered_same _ _ _ s1); [apply same_alter; intros z _; apply touch_ok|done|done].
      * apply registered_create; try done; [by apply store_unsig| |apply lookup_delete_eq]. destruct Hreg as (H1 & H2). split; [cbn; by rewrite lookup_delete_ne|done].
  - unfold ValidateAndTouch. destruct (byID s !! x) as [r|]; [|by destruct (recentClosed s !! x)]. cbn [snd]. case_if; [|done].
    apply (registered_same _ _ _ s); [apply same_alter; intros z _; apply touch_ok|done|done].
  - pose proof (close_removed x now ret s) as H. destruct (byID s !! x) as [r|] eqn:Hr; [|by rewrite H]. eapply registered_removed; [done|exact Hr|exact H|by apply Hsp|done].
  - destruct Hsp. by apply registered_cleanup.
  - apply (registered_same _ _ _ s); [apply same_fmap|done|done]. intros r. split; [apply core_cleanup|]. intros Hr. exact (serve_ok_step r (OpCleanupTerminal now ret) Hr I).
  - apply (registered_same _ _ _ s); [apply same_fmap|done|done]. intros r. split; [exact (core_step r (OpPrune now) eq_refl)|]. intros Hr. exact (serve_ok_step r (OpPrune now) Hr I).
  - unfold CollectIdleDeferredSessions. case_if; [done|]. destruct (collect_same now idle (seqZ 1 maxServerSessionID) [] s) as [Hs [m Hm]].
    apply (registered_same _ _ _ s); [exact Hs|by rewrite Hm|done].
  - destruct Ho as [Hc Ho]. unfold on_session. destruct (Get x s); [|done]. apply (registered_same _ _ _ s); [by apply on_session_same|done|done].
Qed.

(** A sequence of operations that spare the sessions with the signature. *)
Inductive spared (payload : bytes) (t : Z) (s0 : sessionStore) : sessionStore -> Prop :=
| spared_start : spared payload t s0 s0
| spared_next s o : spared payload t s0 s -> store_op_ok s o -> spares payload t s o -> spared payload t s0 (store_step s o).

Lemma spared_registered payload id r0 s0 s : store_ok s0 -> registered payload id r0 s0 -> spared payload (reuseUntilUnixNano r0) s0 s ->
  store_ok s /\ registered payload id r0 s.
Proof.
  intros Hok Hreg. induction 1 as [|s o _ [IH1 IH2] Ho Hs]; [done|]. split; [by apply store_step_ok|by apply registered_step].
Qed.

Lemma find_registered payload id r0 up down batch maxUp maxDown now entropy s : store_ok s -> init_payload payload -> 0 < now -> entropy_ok entropy ->
  registered payload id r0 s -> now <= reuseUntilUnixNano r0 ->
  exists r, byID s !! id = Some r /\ core r = core r0 /\
    findOrCreate payload up down batch maxUp maxDown now entropy s =
      (Session id true, (expireReuseLocked now s) <| byID ::= alter (setLastActivityUnixNano now) id |>).
Proof.
  intros Hok [Hlen Hmode] Hnow He Hreg Hle. pose proof Hreg as (_ & r & Hr & Hc). exists r. split; [done|]. split; [done|].
  apply (registered_expire _ _ _ now) in Hreg; [|done|done]. destruct (expire_spec now s Hok) as (_ & E1 & _). unfold findOrCreate.
  rewrite Hlen, (proj2 (Z.leb_le _ _) Hmode : isValidSessionResponseMode _ = true). cbn [Z.eqb negb orb sessionInitDataSize Pos.eqb]. rewrite signature_payload by done.
  rewrite (proj1 Hreg), E1, Hr. apply core_signature in Hc as (_ & Hc & _). by rewrite (proj2 (Z.leb_le _ _)) by lia.
Qed.

(** C19: A request for a session is idempotent.  When a request created or found a session,
    the same request finds that session again, with the same number, cookie, MTUs and
    compression, until the session's time of reuse has passed, whatever happens to the
    other sessions in between and whatever the streams of this one do, as long as no
    session with this signature is closed. *)
Theorem init_idempotent payload up down batch maxUp maxDown now entropy s0 id b s1 r1 s2 now' entropy' up' down' :
  store_ok s0 -> init_payload payload -> 0 < now -> entropy_ok entropy ->
  known_types up down ->
  findOrCreate payload up down batch maxUp maxDown now entropy s0 = (Session id b, s1) -> byID s1 !! id = Some r1 ->
  spared payload (reuseUntilUnixNano r1) s1 s2 -> 0 < now' -> entropy_ok entropy' -> now' <= reuseUntilUnixNano r1 ->
  exists s3 r3, findOrCreate payload up' down' batch maxUp maxDown now' entropy' s2 = (Session id true, s3) /\
    byID s3 !! id = Some r3 /\ core r3 = core r1 /\ lastActivity r3 = now'.
Proof.
  intros Hok Hp Hnow He Ht Hf Hr1 Hsp Hnow' He' Hle. pose proof (findOrCreate_spec payload up down batch maxUp maxDown now entropy s0 Hok Hp Hnow He Ht) as Hs.
  rewrite Hf in Hs. destruct Hs as [Hok1 Hs]. assert (Hreg : registered payload id r1 s1).
  { split; [|by exists r1]. destruct b; [by destruct Hs as (r & _ & _ & _ & _ & _ & Hs)|]. by destruct Hs as (_ & _ & _ & _ & c & _ & _ & Hs). }
  destruct (spared_registered payload id r1 s1 s2 Hok1 Hreg Hsp) as [Hok2 Hreg2].
  destruct (find_registered payload id r1 up' down' batch maxUp maxDown now' entropy' s2 Hok2 Hp Hnow' He' Hreg2 Hle) as (r & Hr & Hc & Heq).
  eexists _, (setLastActivityUnixNano now' r). split; [exact Heq|]. destruct (expire_spec now' s2 Hok2) as (_ & E1 & _). cbn. rewrite lookup_alter_eq, E1, Hr. done.
Qed.

(** C36: The condition of idempotence is needed: sessions can share a signature when the
    time of reuse of the older one had passed as the newer one was created, and closing
    the older session removes the signature of the newer one.  The request that created
    the newer session then no longer finds it, although it is open and within its time of
    reuse: it gets another session, or none when the table is full. *)
Theorem old_close_forgets payload up down batch maxUp maxDown now entropy t retention old id r r' s :
  store_ok s -> init_payload payload -> 0 < now -> entropy_ok entropy ->
  known_types up down ->
  bySig s !! payload = Some id -> byID s !! id = Some r -> now <= reuseUntilUnixNano r ->
  byID s !! old = Some r' -> Signature r' = payload -> old <> id ->
  let s1 := (Close old t retention s).2 in
  byID s1 !! id = Some r /\ (findOrCreate payload up down batch maxUp maxDown now entropy s1).1 <> Session id true.
Proof.
  intros Hok Hp Hnow He Ht Hsig Hr Hle Hr' Hsg Hne s1. pose proof (close_removed old t retention s) as Hrm. rewrite Hr' in Hrm. fold s1 in Hrm.
  pose proof (store_removed old r' s s1 Hok Hr' Hrm) as Hok1. destruct Hrm as [E1 E2 _ _ _]. split; [by rewrite E1, lookup_delete_ne|].
  pose proof (findOrCreate_spec payload up down batch maxUp maxDown now entropy s1 Hok1 Hp Hnow He Ht) as Hs.
  destruct (findOrCreate payload up down batch maxUp maxDown now entropy s1) as [res s2]. destruct Hs as [_ Hs]. cbn [fst]. intros ->.
  destruct Hs as (x & Hx & _). by rewrite E2, Hsg, lookup_delete_eq in Hx.
Qed.

(** ** Examples *)

Definition example_payload : bytes := [1; 0; 0; 200; 1; 0; 9; 8; 7; 6].
Definition example_entropy : option bytes := Some (repeat 77 32).
Definition example_store : sessionStore := server_store [AnyDuration 1000] 0 0.
Definition example_init (now : Z) (s : sessionStore) : found_session * sessionStore :=
  findOrCreate example_payload 0 0 8 200 200 now example_entropy s.

Lemma example_entropy_ok : entropy_ok example_entropy.
Proof. split; [done|]. repeat constructor; unfold u8; lia. Qed.

Lemma example_types : known_types 0 0.
Proof. split; lia. Qed.

(** Two sessions with the same signature. *)
Definition example_two : sessionStore := (example_init 2000 (example_init 1 example_store).2).2.

Lemma example_two_ok : store_ok example_two.
Proof.
  assert (Hop : forall s now, 0 < now -> store_ok s -> store_ok (example_init now s).2).
  { intros s now Hnow Hs. exact (store_step_ok s (StInit example_payload 0 0 8 200 200 now example_entropy) Hs (conj Hnow (conj example_entropy_ok example_types))). }
  apply Hop; [lia|]. apply Hop; [lia|]. apply server_store_ok.
Qed.

Lemma store_invariant_witness : store_ok (store_step example_store (StInit example_payload 0 0 8 200 200 1 example_entropy)).
Proof.
  apply (store_invariant [AnyDuration 1000] 0 0). apply store_next; [apply store_start|]. split; [lia|]. split; [exact example_entropy_ok|exact example_types].
Defined.

Lemma example_init_payload : init_payload example_payload.
Proof. split; [reflexivity|cbn; lia]. Qed.

Lemma init_idempotent_witness :
  exists s3 r3, findOrCreate example_payload 0 0 8 200 200 500 None (store_step (example_init 1 example_store).2 (StValidate 1 77 400)) = (Session 1 true, s3) /\
    byID s3 !! 1 = Some r3 /\ lastActivity r3 = 500.
Proof.
  assert (Hr : exists r, byID (example_init 1 example_store).2 !! 1 = Some r /\ reuseUntilUnixNano r = 1001) by (eexists; vm_compute; split; reflexivity).
  destruct Hr as (r & Hr & Ht).
  destruct (init_idempotent example_payload 0 0 8 200 200 1 example_entropy example_store 1 false (example_init 1 example_store).2 r
    (store_step (example_init 1 example_store).2 (StValidate 1 77 400)) 500 None 0 0 (server_store_ok _ _ _) example_init_payload eq_refl example_entropy_ok example_types)
    as (s3 & r3 & H1 & H2 & _ & H3).
  - unfold example_init. vm_compute. reflexivity.
  - exact Hr.
  - apply spared_next; [apply spared_start|exact I|exact I].
  - reflexivity.
  - exact I.
  - rewrite Ht. discriminate.
  - exists s3, r3. split; [exact H1|]. split; [exact H2|exact H3].
Defined.

Lemma old_close_forgets_witness :
  (findOrCreate example_payload 0 0 8 200 200 2500 None (Close 1 2400 60 example_two).2).1 <> Session 2 true /\
  (findOrCreate example_payload 0 0 8 200 200 2500 example_entropy (Close 1 2400 60 example_two).2).1 = Session 3 false.
Proof.
  split; [|vm_compute; reflexivity].
  assert (Hr : exists r, byID example_two !! 2 = Some r /\ reuseUntilUnixNano r = 3000) by (eexists; vm_compute; split; reflexivity).
  assert (Ho : exists r, byID example_two !! 1 = Some r /\ Signature r = example_payload) by (eexists; vm_compute; split; reflexivity).
  destruct Hr as (r & Hr & Ht), Ho as (r' & Hr' & Hs).
  refine (proj2 (old_close_forgets example_payload 0 0 8 200 200 2500 None 2400 60 1 2 r r' example_two example_two_ok example_init_payload eq_refl I example_types _ Hr _ Hr' Hs _)).
  - vm_compute. reflexivity.
  - rewrite Ht. discriminate.
  - discriminate.
Defined.
