(* ===== verification/CookieTracker.v ===== *)
(** The tracker of packets with a wrong session cookie:
    src/masterdns/internal/udpserver/invalid_cookie_tracker.go.

    [Note] tells whether the server answers such a packet with an error: only when the same
    wrong cookie was seen [threshold] times within a window, and at most once per window.
    The theorem says that the bounded lists of attempts and the removal of old records
    implement just this rule on the whole history. *)

From stdpp Require Import base tactics list gmap strings sorting.
From Stdlib Require Import ZArith Lia.
From S2P Require Import Prelude Enums Mlq Compression VpnProto GoFloat ArqState Arq TxQueue GoHeap Session SessionStore.

(** Session number, expected cookie, cookie of the packet and state of the session. *)
Abbreviation invalidCookieTrackerKey := (Z * Z * Z * Z)%type.

Record invalidCookieTrackerRecord := mkTracked { attempts : list Z; lastEmitAt : Z }.

Abbreviation invalidCookieTracker := (gmap invalidCookieTrackerKey invalidCookieTrackerRecord).

Definition unknownExpectedCookieMarker : Z := 256.

Definition newInvalidCookieTracker : invalidCookieTracker := ∅.

(** [uint8(lookup.State)] *)
Definition state_number (st : sessionLookupState) : Z :=
  match st with sessionLookupUnknown => 0 | sessionLookupActive => 1 | sessionLookupClosed => 2 end.

Fixpoint pruneAttemptTimes (values : list Z) (cutoff : Z) : list Z :=
  match values with
  | [] => []
  | v :: values' => if v <? cutoff then pruneAttemptTimes values' cutoff else values
  end.

Definition appendBoundedAttempt (values : list Z) (nowUnix limit : Z) : list Z :=
  if limit <=? 0 then []
  else if len values <? limit then values ++ [nowUnix]
  else match values with [] => [] | _ :: values => values ++ [nowUnix] end.

Definition tracker_key (sessionID : Z) (lookup : sessionLookupResult) (known : bool) (packetCookie : Z) : invalidCookieTrackerKey :=
  (sessionID, if known then lkCookie lookup else unknownExpectedCookieMarker, packetCookie, state_number (lkState lookup)).

(** The critical section of [Note]. *)
Definition note_key (key : invalidCookieTrackerKey) (nowUnix windowNanos threshold : Z) (t : invalidCookieTracker) : bool * invalidCookieTracker :=
  let cutoff := nowUnix - windowNanos in
  let record := default (mkTracked [] 0) (t !! key) in
  let attempts := appendBoundedAttempt (pruneAttemptTimes (attempts record) cutoff) nowUnix threshold in
  if len attempts <? threshold then (false, <[key := mkTracked attempts (lastEmitAt record)]> t)
  else if negb (lastEmitAt record =? 0) && (nowUnix - lastEmitAt record <? windowNanos)
  then (false, <[key := mkTracked attempts (lastEmitAt record)]> t)
  else (true, <[key := mkTracked attempts nowUnix]> t).

Definition Note (sessionID : Z) (lookup : sessionLookupResult) (known : bool) (packetCookie nowUnix windowNanos threshold : Z)
    (t : invalidCookieTracker) : bool * invalidCookieTracker :=
  if (windowNanos <=? 0) || (threshold <=? 0) then (false, t)
  else note_key (tracker_key sessionID lookup known packetCookie) nowUnix windowNanos threshold t.

(** What [Cleanup] leaves of a record. *)
Definition cleanup_record (cutoff : Z) (r : invalidCookieTrackerRecord) : option invalidCookieTrackerRecord :=
  let kept := pruneAttemptTimes (attempts r) cutoff in
  if (len kept =? 0) && ((lastEmitAt r =? 0) || (lastEmitAt r <? cutoff)) then None else Some (mkTracked kept (lastEmitAt r)).

Definition TrackerCleanup (now window : Z) (t : invalidCookieTracker) : invalidCookieTracker :=
  if window <=? 0 then t else omap (cleanup_record (now - window)) t.

(** ** The rule on the history *)

Module Rule.
(** What happened: a packet with its key, its time and whether it was answered. *)
Abbreviation event := (invalidCookieTrackerKey * Z * bool)%type.

Definition seen (key : invalidCookieTrackerKey) (h : list event) : list Z := (filter (fun e : event => e.1.1 = key) h).*1.*2.
Definition answered (key : invalidCookieTrackerKey) (h : list event) : list Z := (filter (fun e : event => e.1.1 = key /\ e.2 = true) h).*1.*2.

(** A packet at [t] is answered when it is the [threshold]-th of its key since [t - w] at
    least, and none of them was answered less than [w] ago. *)
Definition answers (w threshold : Z) (h : list event) (key : invalidCookieTrackerKey) (t : Z) : bool :=
  (threshold <=? len (filter (fun x => t - w <= x) (seen key h)) + 1) && forallb (fun e => w <=? t - e) (answered key h).
End Rule.

(** A run of the server: packets and cleanups with their times. *)
Inductive tracker_call := CallNote (key : invalidCookieTrackerKey) (t : Z) | CallCleanup (t : Z).
Definition call_time (c : tracker_call) : Z := match c with CallNote _ t | CallCleanup t => t end.

Fixpoint run_tracker (w threshold : Z) (calls : list tracker_call) (s : invalidCookieTracker) : list bool :=
  match calls with
  | [] => []
  | CallNote key t :: calls => let '(b, s) := note_key key t w threshold s in b :: run_tracker w threshold calls s
  | CallCleanup t :: calls => run_tracker w threshold calls (TrackerCleanup t w s)
  end.

Fixpoint run_rule (w threshold : Z) (calls : list tracker_call) (h : list Rule.event) : list bool :=
  match calls with
  | [] => []
  | CallNote key t :: calls => let b := Rule.answers w threshold h key t in b :: run_rule w threshold calls (h ++ [(key, t, b)])
  | CallCleanup _ :: calls => run_rule w threshold calls h
  end.

(** The times are positive and do not decrease. *)
Fixpoint timed (t0 : Z) (calls : list tracker_call) : Prop :=
  match calls with [] => True | c :: calls => t0 <= call_time c /\ timed (call_time c) calls end.

(** ** Bounded lists of times *)

Definition lastn {A} (n : nat) (l : list A) : list A := drop (length l - n) l.

Lemma lastn_short {A} n (l : list A) : (length l <= n)%nat -> lastn n l = l.
Proof. intros H. unfold lastn. by replace (length l - n)%nat with 0%nat by lia. Qed.

Lemma lastn_cons {A} n (x : A) l : (n <= length l)%nat -> lastn n (x :: l) = lastn n l.
Proof. intros H. unfold lastn. cbn [length]. by replace (S (length l) - n)%nat with (S (length l - n)) by lia. Qed.

Lemma length_lastn {A} n (l : list A) : length (lastn n l) = min n (length l).
Proof. unfold lastn. rewrite length_drop. lia. Qed.

Lemma Forall_lastn {A} (P : A -> Prop) n l : Forall P l -> Forall P (lastn n l).
Proof. apply Forall_drop. Qed.

Abbreviation since c l := (filter (fun x => c <= x) l).
Abbreviation ordered l := (StronglySorted Z.le l).

Lemma since_all c l : Forall (fun x => c <= x) l -> since c l = l.
Proof. apply list_filter_all. Qed.

Lemma since_above c x l : ordered (x :: l) -> c <= x -> since c l = l.
Proof. intros [_ Hx]%StronglySorted_inv Hc. apply since_all. eapply Forall_impl; [exact Hx|]. cbn. lia. Qed.

Lemma prune_since l c : ordered l -> pruneAttemptTimes l c = since c l.
Proof.
  induction l as [|x l IH]; intros Hl; [done|]. cbn [pruneAttemptTimes]. destruct (Z.ltb_spec x c).
  - rewrite filter_cons_False by lia. apply IH. by apply StronglySorted_inv in Hl as [? _].
  - rewrite filter_cons_True by lia. by rewrite (since_above c x l).
Qed.

Lemma since_lastn c n l : ordered l -> since c (lastn n l) = lastn n (since c l).
Proof.
  induction l as [|x l IH]; intros Hl; [done|]. destruct (Nat.le_gt_cases (S (length l)) n) as [Hn|Hn].
  { rewrite !lastn_short; [done| |done]. etrans; [apply length_filter|done]. }
  rewrite lastn_cons by lia. pose proof (proj1 (StronglySorted_inv Hl)) as Hl'. destruct (Z.le_gt_cases c x) as [Hc|Hc].
  - rewrite filter_cons_True by done. rewrite IH by done. rewrite (since_above c x l) by done. by rewrite lastn_cons by lia.
  - rewrite filter_cons_False by lia. by apply IH.
Qed.

Lemma since_since c c' (l : list Z) : c <= c' -> since c' (since c l) = since c' l.
Proof. intros H. rewrite list_filter_filter. apply list_filter_iff. intros x. lia. Qed.

Lemma append_lastn l t n : 0 < n -> appendBoundedAttempt (lastn (Z.to_nat n) l) t n = lastn (Z.to_nat n) (l ++ [t]).
Proof.
  intros Hn. unfold appendBoundedAttempt. rewrite (proj2 (Z.leb_gt _ _)) by lia. unfold len. rewrite length_lastn. destruct (Z.ltb_spec (Z.of_nat (min (Z.to_nat n) (length l))) n).
  - rewrite !lastn_short; [done| |lia]. rewrite length_app. cbn. lia.
  - assert (Hl : (Z.to_nat n <= length l)%nat) by lia. unfold lastn. rewrite length_app. cbn [length].
    replace (length l + 1 - Z.to_nat n)%nat with (S (length l - Z.to_nat n)) by lia. rewrite drop_app_le by lia.
    destruct (drop (length l - Z.to_nat n) l) as [|x d] eqn:E.
    + apply (f_equal length) in E. rewrite length_drop in E. cbn in E. lia.
    + f_equal. rewrite <- Nat.add_1_r, <- drop_drop, E. done.
Qed.

Lemma ordered_snoc l t : ordered l -> Forall (fun x => x <= t) l -> ordered (l ++ [t]).
Proof. intros Hl Ht. apply StronglySorted_app_2; [|done|by repeat constructor]. intros x y Hx Hy. apply list_elem_of_singleton in Hy as ->. by apply (proj1 (Forall_forall _ _) Ht). Qed.

Lemma ordered_drop n l : ordered l -> ordered (drop n l).
Proof. revert n. induction l as [|x l IH]; intros [|n] Hl; [done|done|done|]. cbn. apply IH. by apply StronglySorted_inv in Hl as [? _]. Qed.

Lemma ordered_since c l : ordered l -> ordered (since c l).
Proof. intros Hl. rewrite <- prune_since by done. induction l as [|x l IH]; [done|]. cbn. case_if; [apply IH; by apply StronglySorted_inv in Hl as [? _]|done]. Qed.

(** ** The tracker and the history *)

Section refinement.
Context (w threshold : Z) (w_pos : 0 < w) (threshold_pos : 0 < threshold).

Abbreviation record_of s key := (default (mkTracked [] 0) ((s : invalidCookieTracker) !! key)).

(** What the record of a key says about its history, from the time [now] on. *)
Record tracks (now : Z) (h : list Rule.event) (key : invalidCookieTrackerKey) (r : invalidCookieTrackerRecord) : Prop := {
  tr_ordered : ordered (attempts r);
  tr_seen : ordered (Rule.seen key h);
  tr_past : Forall (fun x => x <= now) (Rule.seen key h);
  tr_attempts : forall c, now - w <= c -> since c (attempts r) = lastn (Z.to_nat threshold) (since c (Rule.seen key h));
  tr_emit : forall t, now <= t -> lastEmitAt r <> 0 /\ t - lastEmitAt r < w <-> exists e, e ∈ Rule.answered key h /\ t - e < w
}.

Lemma tracks_later now t h key r : now <= t -> tracks now h key r -> tracks t h key r.
Proof.
  intros Ht []. split; [done|done| | |].
  - eapply Forall_impl; [exact tr_past0|]. cbn. lia.
  - intros c Hc. apply tr_attempts0. lia.
  - intros t' Ht'. apply tr_emit0. lia.
Qed.

Lemma seen_snoc key h key' t b : Rule.seen key (h ++ [(key', t, b)]) = Rule.seen key h ++ (if decide (key' = key) then [t] else []).
Proof. unfold Rule.seen. rewrite filter_app, !fmap_app. f_equal. cbn. unfold filter, list_filter. cbn. by case_decide. Qed.

Lemma answered_snoc key h key' t b : Rule.answered key (h ++ [(key', t, b)]) = Rule.answered key h ++ (if decide (key' = key /\ b = true) then [t] else []).
Proof. unfold Rule.answered. rewrite filter_app, !fmap_app. f_equal. cbn. unfold filter, list_filter. cbn. by case_decide. Qed.

(** Events of other keys do not matter. *)
Lemma tracks_other now h key key' t b r : key' <> key -> tracks now h key r -> tracks now (h ++ [(key', t, b)]) key r.
Proof.
  intros Hne []. split; rewrite ?seen_snoc, ?answered_snoc; rewrite ?decide_False by naive_solver; by rewrite ?app_nil_r.
Qed.

(** The list of attempts after a packet. *)
Lemma attempts_next now h key r t : tracks now h key r -> now <= t ->
  appendBoundedAttempt (pruneAttemptTimes (attempts r) (t - w)) t threshold = lastn (Z.to_nat threshold) (since (t - w) (Rule.seen key h) ++ [t]).
Proof. intros [] Ht. rewrite prune_since, tr_attempts0, append_lastn by (done || lia). done. Qed.

Lemma attempts_full now h key r t : tracks now h key r -> now <= t ->
  (len (lastn (Z.to_nat threshold) (since (t - w) (Rule.seen key h) ++ [t])) <? threshold) = negb (threshold <=? len (since (t - w) (Rule.seen key h)) + 1).
Proof.
  intros _ _. unfold len. rewrite length_lastn, length_app. cbn [length].
  destruct (Z.ltb_spec (Z.of_nat (min (Z.to_nat threshold) (length (since (t - w) (Rule.seen key h)) + 1))) threshold),
    (Z.leb_spec threshold (Z.of_nat (length (since (t - w) (Rule.seen key h))) + 1)); cbn; try done; lia.
Qed.

Lemma emit_free now h key r t : tracks now h key r -> now <= t ->
  negb (lastEmitAt r =? 0) && (t - lastEmitAt r <? w) = negb (forallb (fun e => w <=? t - e) (Rule.answered key h)).
Proof.
  intros Htr Ht. pose proof (tr_emit _ _ _ _ Htr t Ht) as Hi. apply eq_true_iff_eq. rewrite andb_true_iff, !negb_true_iff, Z.eqb_neq, Z.ltb_lt, Hi.
  rewrite <- not_true_iff_false, forallb_forall. split.
  - intros (e & He & Hlt) Hall. apply list_elem_of_In in He. specialize (Hall e He). apply Z.leb_le in Hall. lia.
  - intros Hn. destruct (decide (Exists (fun e => t - e < w) (Rule.answered key h))) as [(e & He & Hlt)%Exists_exists|Hne]; [by exists e|].
    exfalso. apply Hn. intros e He. apply list_elem_of_In in He. apply not_Exists_Forall in Hne; [|apply _]. pose proof (proj1 (Forall_forall _ _) Hne e He) as Hx. cbn in Hx. lia.
Qed.

Lemma tracks_note now h key r t : tracks now h key r -> now <= t -> 0 < t ->
  let b := Rule.answers w threshold h key t in
  let r' := mkTracked (lastn (Z.to_nat threshold) (since (t - w) (Rule.seen key h) ++ [t])) (if b then t else lastEmitAt r) in
  tracks t (h ++ [(key, t, b)]) key r'.
Proof.
  intros Htr Ht Hpos b r'. pose proof (emit_free now h key r t Htr Ht) as Hfree. pose proof (tracks_later _ t _ _ _ Ht Htr) as []. 
  assert (Ho : ordered (since (t - w) (Rule.seen key h) ++ [t])).
  { apply ordered_snoc; [by apply ordered_since|]. apply Forall_forall. intros x [_ Hx]%list_elem_of_filter. by apply (proj1 (Forall_forall _ _) tr_past0). }
  split; rewrite ?seen_snoc, ?decide_True by done.
  - by apply ordered_drop.
  - by apply ordered_snoc.
  - apply Forall_app. split; [done|]. by repeat constructor.
  - intros c Hc. cbn [attempts r']. rewrite since_lastn by done. f_equal. rewrite !filter_app. f_equal. by apply since_since.
  - intros t' Ht'. rewrite answered_snoc. cbn [lastEmitAt r']. destruct b eqn:Hb.
    + rewrite decide_True by done. split; [intros [_ Hlt]; exists t; split; [apply elem_of_app; right; by left|done]|]. intros (e & [He|He]%elem_of_app & Hlt).
      * unfold b, Rule.answers in Hb. apply andb_true_iff in Hb as [_ Hall]. rewrite forallb_forall in Hall. apply list_elem_of_In in He. specialize (Hall e He). apply Z.leb_le in Hall. lia.
      * apply list_elem_of_singleton in He as ->. lia.
    + rewrite decide_False by naive_solver. rewrite app_nil_r. apply tr_emit0. lia.
Qed.

Lemma tracks_cleanup now h key r t : tracks now h key r -> now <= t ->
  tracks t h key (default (mkTracked [] 0) (cleanup_record (t - w) r)).
Proof.
  intros Htr Ht. apply (tracks_later _ t) in Htr as []; [|done]. unfold cleanup_record. rewrite prune_since by done.
  assert (Hs : forall c, t - w <= c -> since c (since (t - w) (attempts r)) = lastn (Z.to_nat threshold) (since c (Rule.seen key h))).
  { intros c Hc. rewrite since_since by done. auto. }
  destruct (_ && _) eqn:Hd; cbn [default]; split; cbn [attempts lastEmitAt]; try done.
  - constructor.
  - intros c Hc. rewrite <- Hs by done. apply andb_true_iff in Hd as [Hl%Z.eqb_eq _]. unfold len in Hl. by destruct (since (t - w) (attempts r)).
  - intros t' Ht'. rewrite <- tr_emit0 by done. apply andb_true_iff in Hd as [_ Hd]. apply orb_true_iff in Hd as [Hd%Z.eqb_eq|Hd%Z.ltb_lt]; [by rewrite Hd|]. split; [by intros [? _]|lia].
  - by apply ordered_since.
Qed.

Definition tracked (now : Z) (h : list Rule.event) (s : invalidCookieTracker) : Prop := forall key, tracks now h key (record_of s key).

Lemma tracked_note now h s key t : tracked now h s -> now <= t -> 0 < t ->
  let '(b, s') := note_key key t w threshold s in
  b = Rule.answers w threshold h key t /\ tracked t (h ++ [(key, t, b)]) s'.
Proof.
  intros Hs Ht Hpos. unfold note_key. rewrite (attempts_next now h key (record_of s key) t (Hs key) Ht), (attempts_full now h key (record_of s key) t (Hs key) Ht).
  rewrite (emit_free now h key (record_of s key) t (Hs key) Ht). pose proof (tracks_note now h key (record_of s key) t (Hs key) Ht Hpos) as Hn.
  unfold Rule.answers in *. set (c1 := threshold <=? _) in *. set (c2 := forallb _ _) in *. clearbody c1 c2.
  assert (Hall : forall b x, tracks t (h ++ [(key, t, b)]) key x -> tracked t (h ++ [(key, t, b)]) (<[key := x]> s)).
  { intros b x Hx k. destruct (decide (key = k)) as [<-|Hne]; [by rewrite lookup_insert_eq|]. rewrite lookup_insert_ne by done. by apply tracks_other, (tracks_later now). }
  destruct c1, c2; cbn [negb andb] in *; (split; [done|]); by apply Hall.
Qed.

Lemma tracked_cleanup now h s t : tracked now h s -> now <= t -> tracked t h (TrackerCleanup t w s).
Proof.
  intros Hs Ht key. unfold TrackerCleanup. rewrite (proj2 (Z.leb_gt _ _)) by done. rewrite lookup_omap. specialize (Hs key). destruct (s !! key) as [r|]; cbn in *.
  - by apply tracks_cleanup with now.
  - by apply tracks_later with now.
Qed.

Lemma tracker_run_refines calls : forall now h s, 0 < now -> tracked now h s -> timed now calls -> run_tracker w threshold calls s = run_rule w threshold calls h.
Proof.
  induction calls as [|[key t|t] calls IH]; intros now h s Hpos Hs Htc; [done| |]; destruct Htc as [Ht Hc]; cbn [run_tracker run_rule call_time] in *.
  - pose proof (tracked_note now h s key t Hs Ht) as Hn. destruct (note_key key t w threshold s) as [b s']. destruct Hn as [-> Hs']; [lia|]. f_equal. apply (IH t); [lia|done|done].
  - apply (IH t); [lia|by apply tracked_cleanup with now|done].
Qed.
End refinement.

(** The tracker of wrong cookies implements its rule on the whole history: for every
    sequence of packets and cleanups with times that do not decrease, a packet is answered
    just when it is at least the [threshold]-th with its key since one window ago and no
    packet of that key was answered less than a window ago.  The bounded lists of attempts
    and the records that [Cleanup] deletes make no difference. *)
Theorem cookie_tracker_refines (w threshold : Z) (calls : list tracker_call) :
  0 < w -> 0 < threshold -> timed 1 calls ->
  run_tracker w threshold calls newInvalidCookieTracker = run_rule w threshold calls [].
Proof.
  intros Hw Ht Hc. apply (tracker_run_refines w threshold Hw Ht calls 1); [lia| |done]. intros key. cbn. split; cbn; try constructor; try done.
  - intros [? _]. done.
  - intros (e & He & _). by apply elem_of_nil in He.
Qed.

Lemma cookie_tracker_refines_witness :
  let k := (7, 33, 34, 1) in
  run_tracker 100 2 [CallNote k 5; CallNote k 20; CallNote k 30; CallCleanup 200; CallNote k 210; CallNote k 220] newInvalidCookieTracker =
    [false; true; false; false; true].
Proof.
  cbv zeta. rewrite (cookie_tracker_refines 100 2); [vm_compute; reflexivity|lia|lia|]. cbn. lia.
Defined.
