(* ===== verification/DeferredSession.v ===== *)
(** The worker pool for the slow requests of the sessions:
    src/masterdns/internal/udpserver/deferred_session.go.

    A request that needs a name lookup or an outgoing connection runs outside the receive
    path: [Enqueue] puts it into the channel of a worker, a table remembers the worker of
    each lane (session and stream), and closing a stream or a session removes its requests
    from the channels.  The mutex [p.mu] covers the tables, but the workers receive from
    their channels without it, and so while a removal drains and refills a channel.  The
    model therefore has one step per atomic action: a critical section, one receive or one
    send of a removal, and the four steps of a worker (receive, [beginTaskContext], the end
    of the task, [finishLane]).  A run is any interleaving of such steps. *)

From stdpp Require Import base tactics list gmap strings sorting.
From Stdlib Require Import ZArith Lia.
From S2P Require Import Prelude.

(** ** Data *)

Record deferredSessionLane := mkLane { laneSession : Z; laneStream : Z }.
#[export] Instance lane_eq_dec : EqDecision deferredSessionLane.
Proof. solve_decision. Defined.
#[export] Program Instance lane_countable : Countable deferredSessionLane :=
  inj_countable' (fun l => (laneSession l, laneStream l)) (fun p => mkLane p.1 p.2) _.
Next Obligation. by intros []. Qed.

(** An [int32] sum. *)
Definition int32 (x : Z) : Z := (x + 2147483648) mod 4294967296 - 2147483648.

(** Why a lock-held step cannot go on: the lock is taken, a channel is empty or full, or the
    goroutine is elsewhere. *)
Inductive blocked := Blocked.

(** The lanes a removal asks to drop. *)
Inductive drop_request := DropSession (sessionID : Z) | DropLane (lane : deferredSessionLane).

Definition drops (d : drop_request) (lane : deferredSessionLane) : bool :=
  match d with
  | DropSession sessionID => laneSession lane =? sessionID
  | DropLane l => bool_decide (lane = l)
  end.

Section Processor.
(** What a task does when it runs. *)
Context {R : Type}.

Record deferredSessionTask := mkTask { taskLane : deferredSessionLane; taskRun : R }.

Record deferredSessionWorker := mkWorker { jobs : list deferredSessionTask; pending : Z }.

#[export] Instance eta_worker : Eta deferredSessionWorker := fun w => mkWorker (jobs w) (pending w).
#[export] Instance set_jobs : Setter jobs := ltac:(derive_setter).
#[export] Instance set_pending : Setter pending := ltac:(derive_setter).

(** Where the goroutine of a worker is: waiting for a task, holding one it has received,
    running one under a context, or past the end of the task and before [finishLane].  In
    [Running] the flag says whether the deferred [cancel] is the one of the context. *)
Inductive goroutine :=
| Idle
| Received (t : deferredSessionTask)
| Running (t : deferredSessionTask) (ctx : nat) (own : bool)
| Ended (t : deferredSessionTask).

(** A removal inside [compactQueuesLocked]: the worker it is at, the tasks it has taken
    out and will put back, and whether it is putting them back. *)
Record compaction := mkCompaction { cDrop : drop_request; cWorker : nat; cQueued : list deferredSessionTask; cRefill : bool }.

(** [contexts] counts the contexts made by [context.WithCancel]; [done] are the cancelled
    ones.  [compacting] is the removal that holds the lock between two of its steps. *)
Record deferredSessionProcessor := mkProcessor {
  workers : list deferredSessionWorker;
  goroutines : list goroutine;
  queueLimit : Z;
  laneWorker : gmap deferredSessionLane nat;
  cancelled : gset deferredSessionLane;
  running : gmap deferredSessionLane nat;
  sessionPending : gmap Z Z;
  sessionPendingCap : Z;
  nextWorker : nat;
  contexts : nat;
  done : gset nat;
  compacting : option compaction }.

#[export] Instance eta_processor : Eta deferredSessionProcessor := fun p => mkProcessor (workers p) (goroutines p) (queueLimit p)
  (laneWorker p) (cancelled p) (running p) (sessionPending p) (sessionPendingCap p) (nextWorker p) (contexts p) (done p) (compacting p).
#[export] Instance set_workers : Setter workers := ltac:(derive_setter).
#[export] Instance set_goroutines : Setter goroutines := ltac:(derive_setter).
#[export] Instance set_laneWorker : Setter laneWorker := ltac:(derive_setter).
#[export] Instance set_cancelled : Setter cancelled := ltac:(derive_setter).
#[export] Instance set_running : Setter running := ltac:(derive_setter).
#[export] Instance set_sessionPending : Setter sessionPending := ltac:(derive_setter).
#[export] Instance set_nextWorker : Setter nextWorker := ltac:(derive_setter).
#[export] Instance set_contexts : Setter contexts := ltac:(derive_setter).
#[export] Instance set_done : Setter done := ltac:(derive_setter).
#[export] Instance set_compacting : Setter compacting := ltac:(derive_setter).

Definition deriveDeferredSessionPendingCap (workerCount queueLimit : Z) : Z :=
  let workerCount := if workerCount <=? 0 then 1 else workerCount in
  let queueLimit := if queueLimit <? 1 then 256 else queueLimit in
  let capGuess := Z.min (Z.max (queueLimit ÷ 2) 32) 1024 in
  let totalCapacity := workerCount * queueLimit in
  let capGuess := if capGuess >? totalCapacity then totalCapacity else capGuess in
  let capGuess := if capGuess <? 8 then 8 else capGuess in
  let capGuess := if capGuess >? totalCapacity then totalCapacity else capGuess in
  int32 capGuess.

Definition newDeferredSessionProcessor (workerCount queueLimit : Z) : option deferredSessionProcessor :=
  if workerCount <=? 0 then None
  else
    let workerCount := if workerCount >? 64 then 64 else workerCount in
    let queueLimit := if queueLimit <? 1 then 256 else queueLimit in
    let queueLimit := if queueLimit >? 8192 then 8192 else queueLimit in
    Some (mkProcessor (replicate (Z.to_nat workerCount) (mkWorker [] 0)) (replicate (Z.to_nat workerCount) Idle) queueLimit
            ∅ ∅ ∅ ∅ (deriveDeferredSessionPendingCap workerCount queueLimit) 0 0 ∅ None).

(** ** Counters *)

(** Reading a Go map gives zero for a key that is not there. *)
Definition pending_of (p : deferredSessionProcessor) (sessionID : Z) : Z := default 0 (sessionPending p !! sessionID).

Definition canAcceptSessionLocked (p : deferredSessionProcessor) (sessionID : Z) : bool :=
  if sessionID =? 0 then true else pending_of p sessionID <? sessionPendingCap p.

Definition decrementSessionPendingLocked (sessionID : Z) (p : deferredSessionProcessor) : deferredSessionProcessor :=
  if sessionID =? 0 then p
  else if pending_of p sessionID >? 1 then p <| sessionPending ::= insert sessionID (int32 (pending_of p sessionID - 1)) |>
  else p <| sessionPending ::= delete sessionID |>.

Definition incrementSessionPending (sessionID : Z) (p : deferredSessionProcessor) : deferredSessionProcessor :=
  p <| sessionPending ::= insert sessionID (int32 (pending_of p sessionID + 1)) |>.

(** [worker.pending.Add(d)] *)
Definition add_pending (d : Z) (w : deferredSessionWorker) : deferredSessionWorker := w <| pending := int32 (pending w + d) |>.

Definition update_worker (i : nat) (f : deferredSessionWorker -> deferredSessionWorker) (p : deferredSessionProcessor) : deferredSessionProcessor :=
  p <| workers ::= alter f i |>.

Definition set_goroutine (i : nat) (g : goroutine) (p : deferredSessionProcessor) : deferredSessionProcessor :=
  p <| goroutines ::= insert i g |>.

(** [cancel()] of a context. *)
Definition cancel (ctx : nat) (p : deferredSessionProcessor) : deferredSessionProcessor := p <| done ::= (fun d => {[ctx]} ∪ d) |>.

(** ** Enqueue *)

(** The body shared by [enqueueToExistingWorkerLocked] and [tryEnqueueLocked]: the send is a
    [select] with a default branch. *)
Definition tryEnqueueLocked (workerIdx : nat) (task : deferredSessionTask) (p : deferredSessionProcessor)
    : outcome blocked (bool * deferredSessionProcessor) :=
  match workers p !! workerIdx with
  | None => Panic
  | Some worker =>
      let p := update_worker workerIdx (add_pending 1) p in
      let p := incrementSessionPending (laneSession (taskLane task)) p in
      if len (jobs worker) <? queueLimit p
      then Ok (true, update_worker workerIdx (fun w => w <| jobs ::= (fun js => js ++ [task]) |>) p)
      else Ok (false, decrementSessionPendingLocked (laneSession (taskLane task)) (update_worker workerIdx (add_pending (-1)) p))
  end.

Definition enqueueToExistingWorkerLocked := tryEnqueueLocked.

(** The loop over the offsets; [best] is the index and the load of the best so far. *)
Fixpoint select_loop (ws : list deferredSessionWorker) (start : nat) (offsets : list nat) (best : option (nat * Z)) : option nat :=
  match offsets with
  | [] => fst <$> best
  | offset :: offsets =>
      let idx := ((start + offset) mod length ws)%nat in
      let load := default 0 (pending <$> ws !! idx) in
      match best with
      | Some (_, bestPending) =>
          if load <? bestPending then (if load =? 0 then Some idx else select_loop ws start offsets (Some (idx, load)))
          else select_loop ws start offsets best
      | None => if load =? 0 then Some idx else select_loop ws start offsets (Some (idx, load))
      end
  end.

Definition selectLeastLoadedWorkerLocked (start : nat) (p : deferredSessionProcessor) : option nat :=
  match workers p with
  | [] => None
  | _ => select_loop (workers p) start (seq 0 (length (workers p))) None
  end.

Definition Enqueue (lane : deferredSessionLane) (run : R) (p : deferredSessionProcessor) : outcome blocked (bool * deferredSessionProcessor) :=
  match workers p with
  | [] => Ok (false, p)
  | _ =>
      let task := mkTask lane run in
      let p := p <| cancelled ::= (fun c => c ∖ {[lane]}) |> in
      if negb (canAcceptSessionLocked p (laneSession lane)) then Ok (false, p)
      else match laneWorker p !! lane with
      | Some workerIdx => enqueueToExistingWorkerLocked workerIdx task p
      | None =>
          match selectLeastLoadedWorkerLocked (nextWorker p) p with
          | None => Ok (false, p)
          | Some workerIdx =>
              let p := p <| nextWorker := ((workerIdx + 1) mod length (workers p))%nat |> in
              let p := p <| laneWorker ::= insert lane workerIdx |> in
              let! (ok, p) := tryEnqueueLocked workerIdx task p in
              Ok (ok, if ok : bool then p else p <| laneWorker ::= delete lane |>)
          end
      end
  end.

(** ** Removals

    The first part of each removal, up to the call of [compactQueuesLocked]. *)

Definition start_compaction (d : drop_request) (p : deferredSessionProcessor) : deferredSessionProcessor :=
  p <| compacting := Some (mkCompaction d 0 [] false) |>.

Definition of_session (sessionID : Z) (lane : deferredSessionLane) : Prop := laneSession lane = sessionID.

Definition RemoveSession (sessionID : Z) (p : deferredSessionProcessor) : deferredSessionProcessor :=
  let doomed := filter (fun kv : deferredSessionLane * nat => laneSession kv.1 = sessionID) (running p) in
  let p := map_fold (fun _ ctx => cancel ctx) p doomed in
  let p := p <| running ::= (fun r => filter (fun kv : deferredSessionLane * nat => laneSession kv.1 <> sessionID) r) |> in
  let lanes := filter (fun kv : deferredSessionLane * nat => laneSession kv.1 = sessionID) (laneWorker p) in
  let p := p <| cancelled ::= (fun c => dom lanes ∪ c) |> in
  let p := p <| laneWorker ::= (fun l => filter (fun kv : deferredSessionLane * nat => laneSession kv.1 <> sessionID) l) |> in
  start_compaction (DropSession sessionID) p.

(** [if cancel, ok := p.running[lane]; ok { cancel(); delete(p.running, lane) }] *)
Definition cancel_running (lane : deferredSessionLane) (p : deferredSessionProcessor) : deferredSessionProcessor :=
  match running p !! lane with
  | Some ctx => (cancel ctx p) <| running ::= delete lane |>
  | None => p
  end.

Definition forget_lane (lane : deferredSessionLane) (p : deferredSessionProcessor) : deferredSessionProcessor :=
  start_compaction (DropLane lane) (p <| laneWorker ::= delete lane |> <| cancelled ::= (fun c => {[lane]} ∪ c) |>).

Definition RemoveLane (lane : deferredSessionLane) (p : deferredSessionProcessor) : deferredSessionProcessor :=
  if laneSession lane =? 0 then p else forget_lane lane (cancel_running lane p).

Definition FinalizeLane (lane : deferredSessionLane) (p : deferredSessionProcessor) : deferredSessionProcessor :=
  if laneSession lane =? 0 then p else forget_lane lane p.

Definition shouldDropTaskLocked (lane : deferredSessionLane) (d : drop_request) (p : deferredSessionProcessor) : bool :=
  drops d lane || bool_decide (lane ∈ cancelled p).

(** What the outside sees of a task. *)
Inductive event := Accepted (t : deferredSessionTask) | Dropped (t : deferredSessionTask) | Finished (t : deferredSessionTask).

(** The next action of [compactWorkerLocked]: receive one task and drop or keep it; when the
    channel is empty, go over to sending the kept ones back; when all are back, go on with
    the next worker; after the last one release the lock. *)
Definition compactStep (p : deferredSessionProcessor) : outcome blocked (deferredSessionProcessor * list event) :=
  match compacting p with
  | None => Err Blocked
  | Some c =>
      match workers p !! cWorker c with
      | None => Ok (p <| compacting := None |>, [])
      | Some worker =>
          match cRefill c, jobs worker, cQueued c with
          | false, task :: rest, queued =>
              let p := update_worker (cWorker c) (fun w => w <| jobs := rest |>) p in
              if shouldDropTaskLocked (taskLane task) (cDrop c) p
              then
                let p := update_worker (cWorker c) (add_pending (-1)) p in
                let p := p <| laneWorker ::= delete (taskLane task) |> in
                Ok (decrementSessionPendingLocked (laneSession (taskLane task)) p, [Dropped task])
              else Ok (p <| compacting := Some (mkCompaction (cDrop c) (cWorker c) (queued ++ [task]) false) |>, [])
          | false, [], queued => Ok (p <| compacting := Some (mkCompaction (cDrop c) (cWorker c) queued true) |>, [])
          | true, js, task :: queued =>
              if len js <? queueLimit p
              then Ok (update_worker (cWorker c) (fun w => w <| jobs ::= (fun js => js ++ [task]) |>)
                         (p <| compacting := Some (mkCompaction (cDrop c) (cWorker c) queued true) |>), [])
              else Err Blocked
          | true, _, [] => Ok (p <| compacting := Some (mkCompaction (cDrop c) (S (cWorker c)) [] false) |>, [])
          end
      end
  end.

(** ** Workers *)

(** [task := <-worker.jobs] of worker [i]. *)
Definition takeStep (i : nat) (p : deferredSessionProcessor) : outcome blocked deferredSessionProcessor :=
  match workers p !! i, goroutines p !! i with
  | Some worker, Some Idle =>
      match jobs worker with
      | [] => Err Blocked
      | task :: rest => Ok (set_goroutine i (Received task) (update_worker i (fun w => w <| jobs := rest |>) p))
      end
  | _, _ => Err Blocked
  end.

(** The new context and whether its [cancel] is handed back. *)
Definition beginTaskContext (lane : deferredSessionLane) (p : deferredSessionProcessor) : nat * bool * deferredSessionProcessor :=
  let ctx := contexts p in
  let p := p <| contexts ::= S |> in
  if bool_decide (lane ∈ cancelled p) then (ctx, false, cancel ctx p)
  else (ctx, true, p <| running ::= insert lane ctx |>).

Definition beginStep (i : nat) (p : deferredSessionProcessor) : outcome blocked deferredSessionProcessor :=
  match goroutines p !! i with
  | Some (Received task) =>
      let '(ctx, own, p) := beginTaskContext (taskLane task) p in
      Ok (set_goroutine i (Running task ctx own) p)
  | _ => Err Blocked
  end.

(** [task.run] has returned, or panicked: [cancel()] and [worker.pending.Add(-1)]. *)
Definition endStep (i : nat) (p : deferredSessionProcessor) : outcome blocked deferredSessionProcessor :=
  match goroutines p !! i with
  | Some (Running task ctx own) =>
      let p := if own : bool then cancel ctx p else p in
      Ok (set_goroutine i (Ended task) (update_worker i (add_pending (-1)) p))
  | _ => Err Blocked
  end.

Definition finishLane (lane : deferredSessionLane) (workerIdx : nat) (p : deferredSessionProcessor) : deferredSessionProcessor :=
  let p := if bool_decide (laneWorker p !! lane = Some workerIdx) then p <| laneWorker ::= delete lane |> else p in
  let p := cancel_running lane p in
  let p := p <| cancelled ::= (fun c => c ∖ {[lane]}) |> in
  decrementSessionPendingLocked (laneSession lane) p.

Definition finishStep (i : nat) (p : deferredSessionProcessor) : outcome blocked (deferredSessionProcessor * list event) :=
  match goroutines p !! i with
  | Some (Ended task) => Ok (set_goroutine i Idle (finishLane (taskLane task) i p), [Finished task])
  | _ => Err Blocked
  end.

(** ** Runs *)

Inductive action :=
| DoEnqueue (lane : deferredSessionLane) (run : R)
| DoRemoveSession (sessionID : Z)
| DoRemoveLane (lane : deferredSessionLane)
| DoFinalizeLane (lane : deferredSessionLane)
| DoCompact
| DoTake (i : nat)
| DoBegin (i : nat)
| DoEnd (i : nat)
| DoFinish (i : nat).

(** A critical section waits for the removal that holds the lock. *)
Definition locked {A} (p : deferredSessionProcessor) (c : outcome blocked A) : outcome blocked A :=
  match compacting p with Some _ => Err Blocked | None => c end.

Definition perform (a : action) (p : deferredSessionProcessor) : outcome blocked (deferredSessionProcessor * list event) :=
  match a with
  | DoEnqueue lane run =>
      locked p (let! (ok, p) := Enqueue lane run p in Ok (p, if ok : bool then [Accepted (mkTask lane run)] else []))
  | DoRemoveSession sessionID => locked p (Ok (RemoveSession sessionID p, []))
  | DoRemoveLane lane => locked p (Ok (RemoveLane lane p, []))
  | DoFinalizeLane lane => locked p (Ok (FinalizeLane lane p, []))
  | DoCompact => compactStep p
  | DoTake i => let! p := takeStep i p in Ok (p, [])
  | DoBegin i => locked p (let! p := beginStep i p in Ok (p, []))
  | DoEnd i => let! p := endStep i p in Ok (p, [])
  | DoFinish i => locked p (finishStep i p)
  end.

(** A run with its events; an action that is not enabled does not happen. *)
Fixpoint run_actions (l : list action) (p : deferredSessionProcessor) : outcome blocked (deferredSessionProcessor * list event) :=
  match l with
  | [] => Ok (p, [])
  | a :: l => let! (p, es) := perform a p in let! (p, es') := run_actions l p in Ok (p, es ++ es')
  end.
End Processor.
