(* ===== verification/DeferredSessionInv.v ===== *)
(** The invariant of the worker pool of DeferredSession, over all interleavings. *)

From stdpp Require Import base tactics list gmap strings sorting.
From Stdlib Require Import ZArith Lia.
From S2P Require Import Prelude DeferredSession.

Section Inv.
Context {R : Type}.
Local Abbreviation task := (@deferredSessionTask R).
Local Abbreviation worker := (@deferredSessionWorker R).
Local Abbreviation processor := (@deferredSessionProcessor R).

(** ** The tasks in the pool *)

Definition held (p : processor) : list task := match compacting p with Some c => cQueued c | None => [] end.

(** The tasks a removal has taken out of the channel of worker [i]. *)
Definition held_of (p : processor) (i : nat) : list task :=
  match compacting p with Some c => if bool_decide (cWorker c = i) then cQueued c else [] | None => [] end.

Definition carried (g : goroutine) : list task :=
  match g with Idle => [] | Received t => [t] | Running t _ _ => [t] | Ended t => [t] end.

(** Tasks received and not yet taken off the load of the worker. *)
Definition busy (g : @goroutine R) : Z := match g with Received _ | Running _ _ _ => 1 | _ => 0 end.

Definition tasks (p : processor) : list task := (workers p ≫= jobs) ++ held p ++ (goroutines p ≫= carried).

Definition count (s : Z) (ts : list task) : Z := len (filter (fun t => laneSession (taskLane t) = s) ts).

(** ** The invariant *)

(** A task that a removal leaves alone. *)
Definition kept (p : processor) (t : task) : Prop :=
  taskLane t ∉ cancelled p /\ match compacting p with Some c => drops (cDrop c) (taskLane t) = false | None => True end.

(** The channels the removal in progress, if any, is done with. *)
Definition compacted (p : processor) (i : nat) : Prop :=
  match compacting p with Some c => (i < cWorker c)%nat \/ (i = cWorker c /\ cRefill c = true) | None => True end.

Definition worker_ok (p : processor) (i : nat) (w : worker) : Prop :=
  len (jobs w) + len (held_of p i) <= queueLimit p /\
  pending w = len (jobs w) + len (held_of p i) + busy (default Idle (goroutines p !! i)) /\
  (compacted p i -> Forall (kept p) (jobs w)).

Definition pending_ok (sp : gmap Z Z) (cap : Z) (ts : list task) : Prop :=
  forall s, s <> 0 -> sp !! s = (if count s ts =? 0 then None else Some (count s ts)) /\ count s ts <= cap.

Record processor_ok (p : processor) : Prop := {
  ok_goroutines : length (goroutines p) = length (workers p);
  ok_workers : workers p <> [];
  ok_limit : 1 <= queueLimit p <= 8192;
  ok_cap : 1 <= sessionPendingCap p <= 1024;
  ok_worker : forall i w, workers p !! i = Some w -> worker_ok p i w;
  ok_held : held p <> [] -> exists c, compacting p = Some c /\ (cWorker c < length (workers p))%nat;
  ok_kept : Forall (kept p) (held p);
  ok_pending : pending_ok (sessionPending p) (sessionPendingCap p) (tasks p);
  ok_lanes : map_Forall (fun _ i => (i < length (workers p))%nat) (laneWorker p) }.

(** ** Counting *)

Lemma count_cons s t ts : count s (t :: ts) = (if bool_decide (laneSession (taskLane t) = s) then 1 else 0) + count s ts.
Proof.
  unfold count, len. rewrite filter_cons. destruct (decide (laneSession (taskLane t) = s)) as [H | H].
  - rewrite (bool_decide_eq_true_2 _ H). cbn [length]. lia.
  - rewrite (bool_decide_eq_false_2 _ H). lia.
Qed.

Lemma count_nonneg s ts : 0 <= count s ts.
Proof. unfold count, len. lia. Qed.

Lemma count_perm s ts ts' : ts ≡ₚ ts' -> count s ts = count s ts'.
Proof. intros H. unfold count, len. by rewrite H. Qed.

Lemma pending_perm sp cap ts ts' : ts ≡ₚ ts' -> pending_ok sp cap ts -> pending_ok sp cap ts'.
Proof. intros H Hp s Hs. rewrite <- (count_perm s _ _ H). by apply Hp. Qed.

Lemma int32_id x : -2147483648 <= x < 2147483648 -> int32 x = x.
Proof. intros H. unfold int32. rewrite Z.mod_small; lia. Qed.

Lemma pending_lookup sp cap ts s : pending_ok sp cap ts -> s <> 0 -> default 0 (sp !! s) = count s ts.
Proof. intros Hp Hs. destruct (Hp s Hs) as [-> _]. destruct (Z.eqb_spec (count s ts) 0); cbn; lia. Qed.

Lemma pending_add (p : processor) ts t :
  1 <= sessionPendingCap p <= 1024 -> pending_ok (sessionPending p) (sessionPendingCap p) ts ->
  canAcceptSessionLocked p (laneSession (taskLane t)) = true ->
  pending_ok (sessionPending (incrementSessionPending (laneSession (taskLane t)) p)) (sessionPendingCap p) (t :: ts).
Proof.
  intros Hcap Hp Hacc s Hs. rewrite count_cons. change (sessionPending (incrementSessionPending _ p))
    with (<[laneSession (taskLane t) := int32 (pending_of p (laneSession (taskLane t)) + 1)]> (sessionPending p)).
  unfold canAcceptSessionLocked in Hacc. pose proof (count_nonneg s ts).
  destruct (decide (laneSession (taskLane t) = s)) as [<- | Hne].
  - rewrite lookup_insert_eq. rewrite bool_decide_eq_true_2 by done.
    destruct (Z.eqb_spec (laneSession (taskLane t)) 0); [done |]. unfold pending_of in *.
    rewrite (pending_lookup _ _ _ _ Hp Hs) in *. apply Z.ltb_lt in Hacc. rewrite int32_id by lia.
    destruct (Z.eqb_spec (1 + count (laneSession (taskLane t)) ts) 0); [lia |]. split; [f_equal; lia | lia].
  - rewrite lookup_insert_ne by done. rewrite bool_decide_eq_false_2 by done. apply (Hp s Hs).
Qed.

Lemma pending_remove (p : processor) ts t :
  sessionPendingCap p <= 1024 -> pending_ok (sessionPending p) (sessionPendingCap p) (t :: ts) ->
  pending_ok (sessionPending (decrementSessionPendingLocked (laneSession (taskLane t)) p)) (sessionPendingCap p) ts.
Proof.
  intros Hcap Hp s Hs. destruct (Hp s Hs) as [Hl Hc]. rewrite count_cons in *. pose proof (count_nonneg s ts).
  unfold decrementSessionPendingLocked. destruct (Z.eqb_spec (laneSession (taskLane t)) 0) as [H0 | H0].
  { rewrite bool_decide_eq_false_2 in * by congruence. by split. }
  unfold pending_of. rewrite (pending_lookup _ _ _ _ Hp H0). rewrite count_cons. rewrite (bool_decide_eq_true_2 (_ = _)) by done.
  destruct (decide (laneSession (taskLane t) = s)) as [He | Hne].
  - subst s. rewrite (bool_decide_eq_true_2 (_ = _)) in * by done. case_if; (split; [| lia]).
    + change (sessionPending (p <| sessionPending ::= ?f |>)) with (f (sessionPending p)). rewrite lookup_insert_eq. rewrite int32_id by lia.
      zbool. destruct (Z.eqb_spec (count (laneSession (taskLane t)) ts) 0); [lia | f_equal; lia].
    + change (sessionPending (p <| sessionPending ::= ?f |>)) with (f (sessionPending p)). rewrite lookup_delete_eq.
      destruct (Z.eqb_spec (count (laneSession (taskLane t)) ts) 0); [done | zbool; lia].
  - rewrite (bool_decide_eq_false_2 (_ = s)) in * by done. rewrite Z.add_0_l in *. split; [| lia].
    rewrite <- Hl. case_if; change (sessionPending (p <| sessionPending ::= ?f |>)) with (f (sessionPending p));
      [rewrite lookup_insert_ne | rewrite lookup_delete_ne]; done.
Qed.

(** ** Positions in lists *)

Lemma bind_insert {A B} (f : A -> list B) (l : list A) i x y :
  l !! i = Some x -> exists rest, l ≫= f ≡ₚ f x ++ rest /\ <[i := y]> l ≫= f ≡ₚ f y ++ rest.
Proof.
  intros H. exists ((take i l ≫= f) ++ (drop (S i) l ≫= f)). split.
  - transitivity ((take i l ++ x :: drop (S i) l) ≫= f); [by rewrite (take_drop_middle l i x H) |].
    rewrite bind_app, bind_cons. solve_Permutation.
  - rewrite insert_take_drop by (by eapply lookup_lt_Some). rewrite bind_app, bind_cons. solve_Permutation.
Qed.

Lemma lanes_shrink {A} (P : A -> Prop) (m m' : gmap deferredSessionLane A) :
  m ⊆ m' -> map_Forall (fun _ => P) m' -> map_Forall (fun _ => P) m.
Proof. intros Hs Hm k x Hx. apply (Hm k x). by eapply lookup_weaken. Qed.

(** ** One worker changes *)

Lemma tasks_update (p p' : processor) i w w' g g' :
  workers p !! i = Some w -> goroutines p !! i = Some g ->
  workers p' = <[i := w']> (workers p) -> goroutines p' = <[i := g']> (goroutines p) ->
  exists rest, tasks p ≡ₚ jobs w ++ held p ++ carried g ++ rest /\ tasks p' ≡ₚ jobs w' ++ held p' ++ carried g' ++ rest.
Proof.
  intros Hw Hg Hw' Hg'. unfold tasks. rewrite Hw', Hg'.
  destruct (bind_insert jobs _ _ _ w' Hw) as (r1 & E1 & E2). destruct (bind_insert carried _ _ _ g' Hg) as (r2 & E3 & E4).
  exists (r1 ++ r2). rewrite E1, E2, E3, E4. split; solve_Permutation.
Qed.

Lemma ok_update (p p' : processor) i w w' g g' :
  processor_ok p -> workers p !! i = Some w -> goroutines p !! i = Some g ->
  workers p' = <[i := w']> (workers p) -> goroutines p' = <[i := g']> (goroutines p) ->
  queueLimit p' = queueLimit p -> sessionPendingCap p' = sessionPendingCap p ->
  (forall j, j <> i -> held_of p' j = held_of p j) -> (forall j, j <> i -> compacted p' j -> compacted p j) ->
  (forall t, kept p t -> kept p' t) -> worker_ok p' i w' ->
  (held p' <> [] -> exists c, compacting p' = Some c /\ (cWorker c < length (workers p))%nat) -> Forall (kept p') (held p') ->
  pending_ok (sessionPending p') (sessionPendingCap p) (tasks p') ->
  map_Forall (fun _ j => (j < length (workers p))%nat) (laneWorker p') -> processor_ok p'.
Proof.
  intros H Hw Hg Ew Eg El Ec Hh Hcd Hk Hwo Hhl Hkh Hp Hl.
  pose proof (lookup_lt_Some _ _ _ Hw) as Hi. destruct H as [H1 H2 H3 H4 H5 H6 H7 H8 H9].
  assert (length (workers p') = length (workers p)) as Elen by (rewrite Ew; apply length_insert).
  constructor; rewrite ?Elen, ?El, ?Ec; try done.
  - rewrite Eg, length_insert. done.
  - intros E. rewrite E in Elen. cbn in Elen. lia.
  - intros j wj Hj. destruct (decide (j = i)) as [-> | Hne].
    { rewrite Ew, list_lookup_insert_eq in Hj by done. by simplify_eq. }
    rewrite Ew, list_lookup_insert_ne in Hj by done. destruct (H5 j wj Hj) as (A & B & C).
    unfold worker_ok. rewrite (Hh j Hne), El, Eg, list_lookup_insert_ne by done. split_and!; [done | done |].
    intros Hc. eapply Forall_impl; [apply C, Hcd; done | apply Hk].
Qed.

(** ** What a step does to the tasks *)

Definition accepted (es : list event) : list task := es ≫= (fun e => match e with Accepted t => [t] | _ => [] end).
Definition gone (es : list event) : list task := es ≫= (fun e => match e with Dropped t | Finished t => [t] | _ => [] end).

Definition step_spec (p : processor) (p' : processor) (es : list event) : Prop :=
  processor_ok p' /\ tasks p ++ accepted es ≡ₚ tasks p' ++ gone es.

Lemma goroutine_of (p : processor) i w : processor_ok p -> workers p !! i = Some w -> exists g, goroutines p !! i = Some g.
Proof.
  intros H Hw. apply lookup_lt_is_Some. rewrite (ok_goroutines _ H). by eapply lookup_lt_Some.
Qed.

Lemma worker_of (p : processor) i g : processor_ok p -> goroutines p !! i = Some g -> exists w, workers p !! i = Some w.
Proof.
  intros H Hw. apply lookup_lt_is_Some. rewrite <- (ok_goroutines _ H). by eapply lookup_lt_Some.
Qed.

Lemma take_ok i (p p' : processor) : processor_ok p -> takeStep i p = Ok p' -> step_spec p p' [].
Proof.
  intros H Ht. unfold takeStep in Ht. destruct (workers p !! i) as [w |] eqn:Hw; [| done].
  destruct (goroutines p !! i) as [[] |] eqn:Hg; try done. destruct (jobs w) as [| t rest] eqn:Hj; [done |].
  injection Ht as <-.
  assert (workers (set_goroutine i (Received t) (update_worker i (fun w0 => w0 <| jobs := rest |>) p))
          = <[i := w <| jobs := rest |>]> (workers p)) as Ew by apply (alter_insert _ _ _ _ Hw).
  set (p' := set_goroutine i (Received t) (update_worker i (fun w0 => w0 <| jobs := rest |>) p)) in *.
  destruct (tasks_update p p' i w _ Idle (Received t) Hw Hg Ew eq_refl) as (r & E1 & E2).
  assert (tasks p ≡ₚ tasks p') as Ep.
  { rewrite E1, E2, Hj. change (held p') with (held p). cbn [carried]. change (jobs (w <| jobs := rest |>)) with rest. solve_Permutation. }
  destruct (ok_worker _ H i w Hw) as (A & B & C). rewrite Hg in B. rewrite Hj in A, B, C.
  split; [| cbn; by rewrite !app_nil_r].
  apply (ok_update p p' i w (w <| jobs := rest |>) Idle (Received t)); try done; [| apply H | apply H | | apply H].
  - split_and!.
    + change (len rest + len (held_of p i) <= queueLimit p). unfold len in *. cbn [length] in A. lia.
    + change (pending w = len rest + len (held_of p i) + busy (default Idle (<[i := Received t]> (goroutines p) !! i))).
      rewrite list_lookup_insert_eq by (by eapply lookup_lt_Some). rewrite B. unfold len in *. cbn [length busy default]. cbn. lia.
    + intros Hc. specialize (C Hc). by apply Forall_cons in C as [_ C].
  - eapply pending_perm; [apply Ep | apply H].
Qed.

Lemma begin_ok i (p p' : processor) : processor_ok p -> beginStep i p = Ok p' -> step_spec p p' [].
Proof.
  intros H Ht. unfold beginStep in Ht. destruct (goroutines p !! i) as [[| t | |] |] eqn:Hg; try done.
  destruct (worker_of p i _ H Hg) as [w Hw]. destruct (beginTaskContext (taskLane t) p) as [[ctx own] q] eqn:Hb.
  injection Ht as <-.
  assert (exists r c d, q = p <| running := r |> <| contexts := c |> <| done := d |>) as (r & c & d & ->).
  { exists (running q), (contexts q), (done q). unfold beginTaskContext in Hb. destruct p. case_if; by simplify_eq. }
  clear Hb. set (p' := set_goroutine i (Running t ctx own) (p <| running := r |> <| contexts := c |> <| done := d |>)) in *.
  assert (workers p' = <[i := w]> (workers p)) as Ew by (symmetry; by apply list_insert_id).
  destruct (tasks_update p p' i w w _ (Running t ctx own) Hw Hg Ew eq_refl) as (rest & E1 & E2).
  assert (tasks p ≡ₚ tasks p') as Ep by (rewrite E1, E2; done).
  destruct (ok_worker _ H i w Hw) as (A & B & C). rewrite Hg in B.
  split; [| cbn; by rewrite !app_nil_r].
  apply (ok_update p p' i w w (Received t) (Running t ctx own)); try done; [| apply H | apply H | | apply H].
  - split_and!; [done | | done].
    change (pending w = len (jobs w) + len (held_of p i) + busy (default Idle (<[i := Running t ctx own]> (goroutines p) !! i))).
    rewrite list_lookup_insert_eq by (by eapply lookup_lt_Some). done.
  - eapply pending_perm; [apply Ep | apply H].
Qed.

Lemma worker_pending_range (p : processor) i w : processor_ok p -> workers p !! i = Some w -> 0 <= pending w <= 8193.
Proof.
  intros H Hw. destruct (ok_worker _ H i w Hw) as (A & B & _). pose proof (ok_limit _ H). rewrite B. unfold len in *.
  destruct (default Idle (goroutines p !! i)); cbn [busy]; lia.
Qed.

Lemma end_ok i (p p' : processor) : processor_ok p -> endStep i p = Ok p' -> step_spec p p' [].
Proof.
  intros H Ht. unfold endStep in Ht. destruct (goroutines p !! i) as [[| | t ctx own |] |] eqn:Hg; try done.
  destruct (worker_of p i _ H Hg) as [w Hw]. injection Ht as <-.
  assert (exists d, (if own then cancel ctx p else p) = p <| done := d |>) as (d & ->).
  { exists (done (if own then cancel ctx p else p)). by destruct p, own. }
  set (p' := set_goroutine i (Ended t) (update_worker i (add_pending (-1)) (p <| done := d |>))) in *.
  assert (workers p' = <[i := add_pending (-1) w]> (workers p)) as Ew by apply (alter_insert _ _ _ _ Hw).
  destruct (tasks_update p p' i w _ _ (Ended t) Hw Hg Ew eq_refl) as (rest & E1 & E2).
  assert (tasks p ≡ₚ tasks p') as Ep by (rewrite E1, E2; done).
  pose proof (worker_pending_range p i w H Hw) as Hr.
  destruct (ok_worker _ H i w Hw) as (A & B & C). rewrite Hg in B.
  split; [| cbn; by rewrite !app_nil_r].
  apply (ok_update p p' i w (add_pending (-1) w) (Running t ctx own) (Ended t)); try done; [| apply H | apply H | | apply H].
  - split_and!; [done | | done].
    change (int32 (pending w + -1) = len (jobs w) + len (held_of p i) + busy (default Idle (<[i := Ended t]> (goroutines p) !! i))).
    rewrite list_lookup_insert_eq by (by eapply lookup_lt_Some). rewrite int32_id by lia. rewrite B. cbn. lia.
  - eapply pending_perm; [apply Ep | apply H].
Qed.

(** The critical sections change the tables only. *)
Lemma kept_shrink (p p' : processor) t :
  compacting p' = compacting p -> (forall l, l ∈ cancelled p' -> l ∈ cancelled p) -> kept p t -> kept p' t.
Proof. intros Hc Hs [A B]. unfold kept. rewrite Hc. split; [intros E; by apply A, Hs | done]. Qed.

Lemma cancel_running_shape lane (p : processor) :
  exists r d, cancel_running lane p = p <| running := r |> <| done := d |>.
Proof.
  exists (running (cancel_running lane p)), (done (cancel_running lane p)). unfold cancel_running. destruct p as [? ? ? ? ? run].
  by case_match.
Qed.

Lemma decrement_shape s (p : processor) : exists sp, decrementSessionPendingLocked s p = p <| sessionPending := sp |>.
Proof.
  exists (sessionPending (decrementSessionPendingLocked s p)). unfold decrementSessionPendingLocked. destruct p. by repeat case_if.
Qed.

Lemma finishLane_shape lane i (p : processor) :
  exists lw r d sp, finishLane lane i p = p <| laneWorker := lw |> <| running := r |> <| done := d |> <| cancelled ::= (fun c => c ∖ {[lane]}) |> <| sessionPending := sp |> /\
    lw ⊆ laneWorker p /\ sp = sessionPending (decrementSessionPendingLocked (laneSession lane) p).
Proof.
  unfold finishLane.
  set (q := if bool_decide (laneWorker p !! lane = Some i) then p <| laneWorker ::= delete lane |> else p).
  assert (exists lw, q = p <| laneWorker := lw |> /\ lw ⊆ laneWorker p) as (lw & -> & Hlw).
  { unfold q. case_if; [exists (delete lane (laneWorker p)) | exists (laneWorker p)]; (split; [by destruct p |]);
      [apply delete_subseteq | done]. }
  destruct (cancel_running_shape lane (p <| laneWorker := lw |>)) as (r & d & ->).
  exists lw, r, d, (sessionPending (decrementSessionPendingLocked (laneSession lane) p)). split_and!; [| done | done].
  unfold decrementSessionPendingLocked. case_if; [by destruct p |].
  change (pending_of (p <| laneWorker := lw |> <| running := r |> <| done := d |> <| cancelled ::= ?f |>) (laneSession lane)) with (pending_of p (laneSession lane)).
  case_if; by destruct p.
Qed.

Lemma finish_ok i (p p' : processor) es : processor_ok p -> compacting p = None -> finishStep i p = Ok (p', es) -> step_spec p p' es.
Proof.
  intros H Hn Ht. unfold finishStep in Ht. destruct (goroutines p !! i) as [[| | | t] |] eqn:Hg; try done.
  destruct (worker_of p i _ H Hg) as [w Hw]. injection Ht as <- <-.
  destruct (finishLane_shape (taskLane t) i p) as (lw & r & d & sp & -> & Hlw & Hsp).
  set (p' := set_goroutine i Idle _) in *.
  assert (workers p' = <[i := w]> (workers p)) as Ew by (symmetry; by apply list_insert_id).
  destruct (tasks_update p p' i w w _ Idle Hw Hg Ew eq_refl) as (rest & E1 & E2).
  assert (tasks p ≡ₚ t :: tasks p') as Ep.
  { rewrite E1, E2. change (held p') with (held p). cbn [carried]. solve_Permutation. }
  destruct (ok_worker _ H i w Hw) as (A & B & C). rewrite Hg in B.
  assert (forall t, kept p t -> kept p' t) as Hk.
  { intros x. apply kept_shrink; [done |]. intros l. change (cancelled p') with (cancelled p ∖ {[taskLane t]}). set_solver. }
  split; [| cbn; rewrite app_nil_r, Ep; solve_Permutation].
  apply (ok_update p p' i w w (Ended t) Idle); try done.
  - split_and!; [done | |].
    + change (pending w = len (jobs w) + len (held_of p i) + busy (default Idle (<[i := Idle]> (goroutines p) !! i))).
      rewrite list_lookup_insert_eq by (by eapply lookup_lt_Some). done.
    + intros Hc. eapply Forall_impl; [by apply C | apply Hk].
  - apply H.
  - change (held p') with (held p). eapply Forall_impl; [apply (ok_kept _ H) | apply Hk].
  - change (sessionPending p') with sp. rewrite Hsp. apply pending_remove; [apply H |].
    eapply pending_perm; [apply Ep | apply H].
  - apply (lanes_shrink _ _ (laneWorker p)); [apply Hlw | apply H].
Qed.

(** The start of a removal. *)
Lemma removal_ok (p p' : processor) d r dn lw cs :
  processor_ok p -> compacting p = None ->
  p' = p <| running := r |> <| done := dn |> <| laneWorker := lw |> <| cancelled := cs |> <| compacting := Some (mkCompaction d 0 [] false) |> ->
  lw ⊆ laneWorker p -> step_spec p p' [].
Proof.
  intros H Hn -> Hlw. set (p' := set compacting _ _).
  assert (tasks p' = tasks p) as Et by (unfold tasks, held; by rewrite Hn).
  split; [| rewrite Et; cbn; by rewrite !app_nil_r].
  constructor; try apply H; try done.
  - intros i w Hw. destruct (ok_worker _ H i w Hw) as (A & B & C).
    assert (held_of p i = []) as E by (unfold held_of; by rewrite Hn).
    assert (held_of p' i = []) as E' by (unfold held_of; cbn; by case_if).
    unfold worker_ok. rewrite E', <- E. split_and!; [apply A | apply B |]. intros [Hlt | [_ ?]]; [cbn in Hlt; lia | done].
  - rewrite Et. apply H.
  - apply (lanes_shrink _ _ (laneWorker p)); [apply Hlw | apply H].
Qed.

Lemma cancel_fold (m : gmap deferredSessionLane nat) (p : processor) :
  exists dn, map_fold (fun _ ctx => cancel ctx) p m = p <| done := dn |>.
Proof.
  induction m as [| l ctx m Hl Hf IH] using map_first_key_ind.
  - exists (done p). rewrite map_fold_empty. by destruct p.
  - rewrite map_fold_insert_first_key by done. destruct IH as [dn ->]. exists ({[ctx]} ∪ dn). done.
Qed.

Lemma remove_ok a (p p' : processor) es :
  match a with DoRemoveSession _ | DoRemoveLane _ | DoFinalizeLane _ => True | _ => False end ->
  processor_ok p -> compacting p = None -> perform a p = Ok (p', es) -> step_spec p p' es.
Proof.
  intros Ha H Hn Hp. destruct a; try done; cbn [perform] in Hp; unfold locked in Hp; rewrite Hn in Hp; injection Hp as <- <-.
  - unfold RemoveSession. destruct (cancel_fold (filter (fun kv => laneSession kv.1 = sessionID) (running p)) p) as [dn ->].
    eapply removal_ok; [done | done | by destruct p |]. apply map_filter_subseteq.
  - unfold RemoveLane. case_if; [split; [done | cbn; by rewrite !app_nil_r] |].
    destruct (cancel_running_shape lane p) as (r & d & ->).
    eapply removal_ok; [done | done | by destruct p |]. apply delete_subseteq.
  - unfold FinalizeLane. case_if; [split; [done | cbn; by rewrite !app_nil_r] |].
    eapply (removal_ok _ _ _ (running p) (done p)); [done | done | by destruct p |]. apply delete_subseteq.
Qed.

(** ** Enqueue *)

Lemma ok_tables (p : processor) cs n lw :
  processor_ok p -> cs ⊆ cancelled p -> map_Forall (fun _ i => (i < length (workers p))%nat) lw ->
  processor_ok (p <| cancelled := cs |> <| nextWorker := n |> <| laneWorker := lw |>).
Proof.
  intros H Hcs Hlw. set (p' := set laneWorker _ _).
  assert (forall t, kept p t -> kept p' t) as Hk by (intros t; apply kept_shrink; [done | set_solver]).
  constructor; try apply H; try done.
  - intros i w Hw. destruct (ok_worker _ H i w Hw) as (A & B & C). split_and!; [done | done |].
    intros Hc. eapply Forall_impl; [by apply C | apply Hk].
  - eapply Forall_impl; [apply (ok_kept _ H) | apply Hk].
Qed.

Lemma tryEnqueue_full (p : processor) i w (t : task) :
  processor_ok p -> workers p !! i = Some w -> canAcceptSessionLocked p (laneSession (taskLane t)) = true ->
  step_spec p (decrementSessionPendingLocked (laneSession (taskLane t))
    (update_worker i (add_pending (-1)) (incrementSessionPending (laneSession (taskLane t)) (update_worker i (add_pending 1) p)))) [].
Proof.
  intros H Hw Ha. destruct (goroutine_of p i w H Hw) as [g Hg]. pose proof (worker_pending_range p i w H Hw) as Hr.
  assert (pending_ok (sessionPending (decrementSessionPendingLocked (laneSession (taskLane t)) (incrementSessionPending (laneSession (taskLane t)) p)))
            (sessionPendingCap p) (tasks p)) as Hp.
  { apply (pending_remove (incrementSessionPending (laneSession (taskLane t)) p)); [apply H |]. exact (pending_add p (tasks p) t (ok_cap _ H) (ok_pending _ H) Ha). }
  set (s := laneSession (taskLane t)) in *.
  set (q := update_worker i (add_pending (-1)) (incrementSessionPending s (update_worker i (add_pending 1) p))).
  assert (workers q = workers p) as Ew.
  { change (alter (add_pending (-1)) i (alter (add_pending 1) i (workers p)) = workers p). rewrite (alter_insert _ _ _ _ Hw).
    rewrite (alter_insert _ _ _ (add_pending 1 w)) by (apply list_lookup_insert_eq; by eapply lookup_lt_Some).
    rewrite list_insert_insert_eq. apply list_insert_id. rewrite Hw. f_equal. destruct w as [js n].
    change (pending (mkWorker js n)) with n in Hr. change (mkWorker js n = mkWorker js (int32 (int32 (n + 1) + -1))).
    rewrite (int32_id (n + 1)) by lia. rewrite int32_id by lia. f_equal. lia. }
  assert (decrementSessionPendingLocked s q = p <| sessionPending := sessionPending (decrementSessionPendingLocked s (incrementSessionPending s p)) |>) as ->.
  { unfold decrementSessionPendingLocked. change (pending_of q s) with (pending_of (incrementSessionPending s p) s).
    assert (forall f, q <| sessionPending ::= f |> = p <| sessionPending := f (sessionPending (incrementSessionPending s p)) |>) as E.
    { intros f. transitivity (p <| workers := workers q |> <| sessionPending := f (sessionPending (incrementSessionPending s p)) |>); [done |].
      rewrite Ew. by destruct p. }
    repeat case_if; rewrite ?E; try done. transitivity (q <| sessionPending ::= id |>); [by destruct p | apply E]. }
  split; [| cbn; by rewrite !app_nil_r].
  set (p' := set sessionPending _ p).
  apply (ok_update p p' i w w g g); try done; try (symmetry; by apply list_insert_id); try apply H; done.
Qed.

Lemma tryEnqueue_room (p : processor) i w (t : task) :
  processor_ok p -> compacting p = None -> workers p !! i = Some w -> len (jobs w) < queueLimit p ->
  taskLane t ∉ cancelled p -> canAcceptSessionLocked p (laneSession (taskLane t)) = true ->
  step_spec p (update_worker i (fun w => w <| jobs ::= (fun js => js ++ [t]) |>)
    (incrementSessionPending (laneSession (taskLane t)) (update_worker i (add_pending 1) p))) [Accepted t].
Proof.
  intros H Hn Hw Hlen Hc Ha. destruct (goroutine_of p i w H Hw) as [g Hg]. pose proof (worker_pending_range p i w H Hw) as Hr.
  set (p' := update_worker i _ _).
  assert (workers p' = <[i := (add_pending 1 w) <| jobs := jobs w ++ [t] |>]> (workers p)) as Ew.
  { change (workers p') with (alter (fun w : worker => w <| jobs ::= (fun js => js ++ [t]) |>) i (alter (add_pending 1) i (workers p))).
    rewrite (alter_insert _ _ _ _ Hw). rewrite (alter_insert _ _ _ (add_pending 1 w)) by (apply list_lookup_insert_eq; by eapply lookup_lt_Some).
    by rewrite list_insert_insert_eq. }
  assert (goroutines p' = <[i := g]> (goroutines p)) as Eg by (symmetry; by apply list_insert_id).
  destruct (tasks_update p p' i w _ g g Hw Hg Ew Eg) as (r & E1 & E2).
  assert (tasks p' ≡ₚ t :: tasks p) as Ep.
  { rewrite E1, E2. change (held p') with (held p). change (jobs (_ <| jobs := ?x |>)) with x. solve_Permutation. }
  destruct (ok_worker _ H i w Hw) as (A & B & C).
  assert (held_of p i = []) as Eh by (unfold held_of; by rewrite Hn). rewrite Hg, Eh in B. rewrite Eh in A.
  split; [| rewrite Ep; cbn; rewrite ?app_nil_r; solve_Permutation].
  apply (ok_update p p' i w ((add_pending 1 w) <| jobs := jobs w ++ [t] |>) g g); try done; [| apply H | apply H | | apply H].
  - split_and!.
    + change (len (jobs w ++ [t]) + len (held_of p i) <= queueLimit p). rewrite Eh. unfold len in *. rewrite length_app. cbn. lia.
    + change (int32 (pending w + 1) = len (jobs w ++ [t]) + len (held_of p i) + busy (default Idle (goroutines p !! i))).
      rewrite Eh, Hg. rewrite int32_id by lia. rewrite B. unfold len. rewrite length_app. cbn [length]. lia.
    + intros Hcm. apply Forall_app. split.
      * eapply Forall_impl; [apply C; unfold compacted; by rewrite Hn | done].
      * constructor; [| done]. split; [done |]. change (compacting p') with (compacting p). by rewrite Hn.
  - eapply pending_perm; [symmetry; apply Ep |]. exact (pending_add p (tasks p) t (ok_cap _ H) (ok_pending _ H) Ha).
Qed.

Lemma tryEnqueue_ok (p : processor) i (t : task) :
  processor_ok p -> compacting p = None -> (i < length (workers p))%nat ->
  taskLane t ∉ cancelled p -> canAcceptSessionLocked p (laneSession (taskLane t)) = true ->
  exists ok p', tryEnqueueLocked i t p = Ok (ok, p') /\ step_spec p p' (if ok : bool then [Accepted t] else []) /\
    laneWorker p' = laneWorker p /\ compacting p' = None /\ length (workers p') = length (workers p).
Proof.
  intros H Hn Hi Hc Ha. destruct (lookup_lt_is_Some_2 _ _ Hi) as [w Hw]. unfold tryEnqueueLocked. rewrite Hw. case_if.
  - eexists true, _. split; [done |]. split; [apply tryEnqueue_room with w; try done; zbool; done |].
    split_and!; [done | done |]. cbn. by rewrite !length_alter.
  - eexists false, _. split; [done |]. split; [by apply tryEnqueue_full with w |].
    destruct (decrement_shape (laneSession (taskLane t)) (update_worker i (add_pending (-1)) (incrementSessionPending (laneSession (taskLane t)) (update_worker i (add_pending 1) p)))) as [sp ->].
    split_and!; [done | done |]. cbn. by rewrite !length_alter.
Qed.

Lemma select_loop_range (ws : list worker) start offsets best :
  ws <> [] -> (forall b n, best = Some (b, n) -> (b < length ws)%nat) -> (best = None -> offsets <> []) ->
  exists i, select_loop ws start offsets best = Some i /\ (i < length ws)%nat.
Proof.
  intros Hne. assert (length ws <> 0%nat) as Hl by (destruct ws; [done | by cbn]). revert best.
  induction offsets as [| o os IH]; intros best Hb Ho.
  - destruct best as [[b n] |]; [| by destruct (Ho eq_refl)]. exists b. split; [done | by eapply Hb].
  - cbn [select_loop]. set (idx := ((start + o) mod length ws)%nat). set (load := default 0 (pending <$> ws !! idx)).
    assert (idx < length ws)%nat by (by apply Nat.mod_upper_bound).
    assert (exists i, (if load =? 0 then Some idx else select_loop ws start os (Some (idx, load))) = Some i /\ (i < length ws)%nat) as Hhit.
    { case_if; [by exists idx |]. apply IH; [| done]. intros ? ? [= <- <-]. done. }
    destruct best as [[b n] |]; [| done]. case_if; [done |]. apply IH; [done | done].
Qed.

Lemma select_range (p : processor) start :
  workers p <> [] -> exists i, selectLeastLoadedWorkerLocked start p = Some i /\ (i < length (workers p))%nat.
Proof.
  intros Hne. unfold selectLeastLoadedWorkerLocked. destruct (workers p) as [| w ws] eqn:E; [done |].
  apply select_loop_range; done.
Qed.

Lemma enqueue_ok (p : processor) lane run :
  processor_ok p -> compacting p = None ->
  exists ok p', Enqueue lane run p = Ok (ok, p') /\ step_spec p p' (if ok : bool then [Accepted (mkTask lane run)] else []).
Proof.
  intros H Hn. unfold Enqueue. destruct (workers p) eqn:Ew; [by destruct (ok_workers _ H) |]. clear Ew.
  set (p1 := p <| cancelled ::= (fun c => c ∖ {[lane]}) |>).
  assert (p1 = p <| cancelled := cancelled p ∖ {[lane]} |> <| nextWorker := nextWorker p |> <| laneWorker := laneWorker p |>) as E1 by (by destruct p).
  assert (processor_ok p1) as H1 by (rewrite E1; apply ok_tables; [done | set_solver | apply H]). clear E1.
  change (tasks p) with (tasks p1) in *. unfold step_spec. change (tasks p) with (tasks p1).
  destruct (canAcceptSessionLocked p1 (laneSession lane)) eqn:Ha; cbn [negb].
  2:{ exists false, p1. split_and!; [done | done |]. cbn. by rewrite !app_nil_r. }
  assert (lane ∉ cancelled p1) as Hnc by (change (lane ∉ cancelled p ∖ {[lane]}); set_solver).
  destruct (laneWorker p1 !! lane) as [i |] eqn:Hl.
  { destruct (tryEnqueue_ok p1 i (mkTask lane run) H1 Hn) as (ok & p' & E & S & _); [| done | done |].
    - exact (ok_lanes _ H1 lane i Hl).
    - exists ok, p'. by split. }
  destruct (select_range p1 (nextWorker p1) (ok_workers _ H)) as (i & -> & Hi).
  set (p2 := p1 <| nextWorker := ((i + 1) mod length (workers p1))%nat |> <| laneWorker ::= insert lane i |>).
  assert (processor_ok p2) as H2.
  { assert (p2 = p1 <| cancelled := cancelled p1 |> <| nextWorker := ((i + 1) mod length (workers p1))%nat |> <| laneWorker := <[lane := i]> (laneWorker p1) |>) as -> by (by destruct p).
    apply ok_tables; [done | done |]. apply map_Forall_insert_2; [done | apply H1]. }
  destruct (tryEnqueue_ok p2 i (mkTask lane run) H2 Hn Hi) as (ok & p' & E & [S1 S2] & Elw & _ & Elen); [done | done |].
  rewrite E. cbn [obind]. exists ok. eexists. split; [done |]. destruct ok; [by split |].
  assert (processor_ok (p' <| laneWorker ::= delete lane |>)) as H3.
  { assert (p' <| laneWorker ::= delete lane |> = p' <| cancelled := cancelled p' |> <| nextWorker := nextWorker p' |> <| laneWorker := delete lane (laneWorker p') |>) as -> by (by destruct p').
    apply ok_tables; [done | done |]. eapply lanes_shrink; [apply delete_subseteq | apply S1]. }
  split; [done | apply S2].
Qed.

(** ** Compaction *)

Lemma drop_ok (p : processor) c w t rest :
  processor_ok p -> compacting p = Some c -> workers p !! cWorker c = Some w -> cRefill c = false -> jobs w = t :: rest ->
  step_spec p (decrementSessionPendingLocked (laneSession (taskLane t))
    ((update_worker (cWorker c) (add_pending (-1)) (update_worker (cWorker c) (fun w => w <| jobs := rest |>) p)) <| laneWorker ::= delete (taskLane t) |>)) [Dropped t].
Proof.
  intros H Hc Hw Hr Hj. set (i := cWorker c) in *. destruct (goroutine_of p i w H Hw) as [g Hg].
  pose proof (worker_pending_range p i w H Hw) as Hpr. destruct (ok_worker _ H i w Hw) as (A & B & C).
  rewrite Hj in A, B. rewrite Hg in B. set (q := set laneWorker _ _).
  set (p' := decrementSessionPendingLocked (laneSession (taskLane t)) q).
  assert (exists sp, p' = q <| sessionPending := sp |> /\ sp = sessionPending (decrementSessionPendingLocked (laneSession (taskLane t)) p)) as (sp & Eq & Hsp).
  { exists (sessionPending (decrementSessionPendingLocked (laneSession (taskLane t)) p)). split; [| done]. unfold p', decrementSessionPendingLocked.
    change (pending_of q ?s) with (pending_of p s). repeat case_if; by destruct p. }
  rewrite Eq. clear p' Eq. set (p' := q <| sessionPending := sp |>).
  set (w' := (add_pending (-1) w) <| jobs := rest |>).
  assert (workers p' = <[i := w']> (workers p)) as Ew.
  { change (workers p') with (alter (add_pending (-1)) i (alter (fun w : worker => w <| jobs := rest |>) i (workers p))).
    rewrite (alter_insert _ _ _ _ Hw). rewrite (alter_insert _ _ _ (w <| jobs := rest |>)) by (apply list_lookup_insert_eq; by eapply lookup_lt_Some).
    by rewrite list_insert_insert_eq. }
  assert (goroutines p' = <[i := g]> (goroutines p)) as Eg by (symmetry; by apply list_insert_id).
  destruct (tasks_update p p' i w w' g g Hw Hg Ew Eg) as (r & E1 & E2).
  assert (tasks p ≡ₚ t :: tasks p') as Ep.
  { rewrite E1, E2, Hj. change (held p') with (held p). change (jobs w') with rest. solve_Permutation. }
  split; [| rewrite Ep; cbn; rewrite ?app_nil_r; solve_Permutation].
  apply (ok_update p p' i w w' g g); try done; [| apply H | apply H | |].
  - split_and!.
    + change (len rest + len (held_of p i) <= queueLimit p). unfold len in *. cbn [length] in A. lia.
    + change (int32 (pending w + -1) = len rest + len (held_of p i) + busy (default Idle (goroutines p !! i))).
      rewrite Hg. rewrite int32_id by lia. unfold len in *. cbn [length default] in B |- *. lia.
    + intros Hcm. exfalso. change (compacted p i) in Hcm. unfold compacted in Hcm. rewrite Hc in Hcm. unfold i in Hcm.
      destruct Hcm as [? | [_ ?]]; [lia | congruence].
  - change (sessionPending p') with sp. rewrite Hsp. apply pending_remove; [apply H |].
    eapply pending_perm; [apply Ep | apply H].
  - eapply lanes_shrink; [apply delete_subseteq | apply H].
Qed.

Lemma recompact_ok (p : processor) c c' w js :
  processor_ok p -> compacting p = Some c -> workers p !! cWorker c = Some w -> cWorker c' = cWorker c -> cDrop c' = cDrop c ->
  js ++ cQueued c' ≡ₚ jobs w ++ cQueued c -> Forall (kept p) (cQueued c') -> (cRefill c' = true -> Forall (kept p) js) ->
  step_spec p (update_worker (cWorker c) (fun w => w <| jobs := js |>) (p <| compacting := Some c' |>)) [].
Proof.
  intros H Hc Hw Hi Hd Hq Hk Hjs. set (i := cWorker c) in *. destruct (goroutine_of p i w H Hw) as [g Hg].
  destruct (ok_worker _ H i w Hw) as (A & B & C). set (p' := update_worker i _ _).
  assert (workers p' = <[i := w <| jobs := js |>]> (workers p)) as Ew by apply (alter_insert _ _ _ _ Hw).
  assert (goroutines p' = <[i := g]> (goroutines p)) as Eg by (symmetry; by apply list_insert_id).
  assert (held p' = cQueued c') as Eh' by done. assert (held p = cQueued c) as Eh by (unfold held; by rewrite Hc).
  assert (held_of p' i = cQueued c') as Ei' by (unfold held_of; cbn; by rewrite bool_decide_eq_true_2).
  assert (held_of p i = cQueued c) as Ei by (unfold held_of; rewrite Hc; by rewrite bool_decide_eq_true_2).
  destruct (tasks_update p p' i w _ g g Hw Hg Ew Eg) as (r & E1 & E2). rewrite Eh in E1. rewrite Eh' in E2.
  change (jobs (w <| jobs := js |>)) with js in E2.
  assert (tasks p ≡ₚ tasks p') as Ep by (rewrite E1, E2; rewrite (app_assoc (jobs w)), (app_assoc js), Hq; done).
  assert (forall t, kept p t -> kept p' t) as Hkk.
  { intros t. unfold kept. rewrite Hc. intros [K1 K2]. split; [done |]. change (drops (cDrop c') (taskLane t) = false). by rewrite Hd. }
  split; [| rewrite Ep; cbn; by rewrite !app_nil_r].
  apply Permutation_length in Hq. rewrite !length_app in Hq. rewrite Ei in A, B.
  apply (ok_update p p' i w (w <| jobs := js |>) g g); try done.
  - intros j Hj. unfold held_of. rewrite Hc.
    change ((if bool_decide (cWorker c' = j) then cQueued c' else []) = (if bool_decide (i = j) then cQueued c else [])). rewrite Hi. rewrite !bool_decide_eq_false_2 by (intros E; by apply Hj). done.
  - intros j Hj. unfold compacted. rewrite Hc.
    change ((j < cWorker c')%nat \/ j = cWorker c' /\ cRefill c' = true -> (j < i)%nat \/ j = i /\ cRefill c = true).
    rewrite Hi. intros [? | [? ?]]; [by left | done].
  - unfold worker_ok. rewrite Ei'. split_and!.
    + change (len js + len (cQueued c') <= queueLimit p). unfold len in *. lia.
    + change (pending w = len js + len (cQueued c') + busy (default Idle (goroutines p !! i))). rewrite B. unfold len. lia.
    + change ((i < cWorker c')%nat \/ i = cWorker c' /\ cRefill c' = true -> Forall (kept p') js). rewrite Hi. intros [? | [_ ?]]; [lia |].
      eapply Forall_impl; [by apply Hjs | apply Hkk].
  - intros _. exists c'. split; [done |]. rewrite Hi. by eapply lookup_lt_Some.
  - rewrite Eh'. eapply Forall_impl; [done | apply Hkk].
  - eapply pending_perm; [apply Ep | apply H].
  - apply H.
Qed.

(** The removal moves on to the next worker, or releases the lock. *)
Lemma advance_ok (p : processor) c oc :
  processor_ok p -> compacting p = Some c -> cQueued c = [] ->
  (exists w, workers p !! cWorker c = Some w) /\ cRefill c = true /\ oc = Some (mkCompaction (cDrop c) (S (cWorker c)) [] false) \/
  workers p !! cWorker c = None /\ oc = None ->
  step_spec p (p <| compacting := oc |>) [].
Proof.
  intros H Hc Hq Hoc. set (p' := p <| compacting := oc |>).
  assert (held p = []) as Eh by (unfold held; by rewrite Hc).
  assert (held p' = []) as Eh'.
  { unfold held. change (compacting p') with oc. by destruct Hoc as [(_ & _ & ->) | [_ ->]]. }
  assert (tasks p' = tasks p) as Et by (unfold tasks; by rewrite Eh, Eh').
  split; [| rewrite Et; cbn; by rewrite !app_nil_r].
  constructor; try apply H; try (rewrite Et; apply H).
  - intros j w Hw. change (workers p !! j = Some w) in Hw. destruct (ok_worker _ H j w Hw) as (A & B & C).
    assert (held_of p j = []) as E by (unfold held_of; rewrite Hc; by case_if).
    assert (held_of p' j = []) as E'.
    { unfold held_of. change (compacting p') with oc. destruct Hoc as [(_ & _ & ->) | [_ ->]]; [by case_if | done]. }
    unfold worker_ok. rewrite E', <- E. split_and!; [done | done |]. intros Hcm.
    apply lookup_lt_Some in Hw as Hj. unfold compacted in *. rewrite Hc in C. change (compacting p') with oc in Hcm.
    destruct Hoc as [([w' Hw'] & Hr & ->) | [Hnone ->]].
    + cbn in Hcm. destruct Hcm as [Hlt | [_ ?]]; [| done].
      eapply Forall_impl; [apply C; destruct (decide (j = cWorker c)); [by right | left; lia] |].
      intros t [K1 K2]. split; [done |]. rewrite Hc in K2. done.
    + apply lookup_ge_None in Hnone. eapply Forall_impl; [apply C; left; lia |]. intros t [? ?]. by split.
  - by rewrite Eh'.
  - rewrite Eh'. constructor.
Qed.

Lemma update_ext (p : processor) i w f f' :
  workers p !! i = Some w -> f w = f' w -> update_worker i f p = update_worker i f' p.
Proof.
  intros Hw E. unfold update_worker. transitivity (p <| workers := alter f i (workers p) |>); [done |].
  rewrite (alter_insert f _ _ _ Hw), E, <- (alter_insert f' _ _ _ Hw). done.
Qed.

Lemma update_same (p : processor) i w f : workers p !! i = Some w -> f w = w -> update_worker i f p = p.
Proof.
  intros Hw E. transitivity (p <| workers := alter f i (workers p) |>); [done |].
  rewrite (alter_insert f _ _ _ Hw), E, list_insert_id by done. by destruct p.
Qed.

Lemma compact_ok (p : processor) :
  processor_ok p -> compacting p <> None -> exists p' es, compactStep p = Ok (p', es) /\ step_spec p p' es.
Proof.
  intros H Hne. unfold compactStep. destruct (compacting p) as [c |] eqn:Hc; [| done]. clear Hne.
  destruct (workers p !! cWorker c) as [w |] eqn:Hw.
  2:{ eexists _, _. split; [done |]. apply (advance_ok p c None); [done | done | | by right].
      destruct (cQueued c) eqn:Hq; [done |]. destruct (ok_held _ H) as (c' & E & Hlt).
      - unfold held. rewrite Hc, Hq. done.
      - apply lookup_ge_None in Hw. assert (c' = c) as -> by congruence. lia. }
  pose proof (ok_kept _ H) as Hk. unfold held in Hk. rewrite Hc in Hk.
  destruct (ok_worker _ H _ _ Hw) as (A & B & C). unfold held_of in A. rewrite Hc, bool_decide_eq_true_2 in A by done.
  destruct (cRefill c) eqn:Hr.
  - assert (Forall (kept p) (jobs w)) as Hkj by (apply C; unfold compacted; rewrite Hc; by right).
    destruct (cQueued c) as [| t q] eqn:Hq.
    + eexists _, _. split; [by destruct (jobs w) |]. eapply advance_ok; [done | done | done |]. left. by split; [exists w |].
    + assert (len (jobs w) <? queueLimit p = true) as E by (apply Z.ltb_lt; unfold len in *; cbn [length] in A; lia).
      apply Forall_cons in Hk as [Hk1 Hk2]. set (c' := mkCompaction (cDrop c) (cWorker c) q true).
      exists (update_worker (cWorker c) (fun w => w <| jobs ::= (fun js => js ++ [t]) |>) (p <| compacting := Some c' |>)), [].
      split; [by destruct (jobs w); rewrite E |].
      rewrite (update_ext _ _ w _ (fun w0 => w0 <| jobs := jobs w ++ [t] |>)) by done.
      apply (recompact_ok p c c' w); try done.
      * rewrite Hq. change (cQueued c') with q. solve_Permutation.
      * intros _. apply Forall_app. split; [done | by constructor].
  - destruct (jobs w) as [| t rest] eqn:Hj.
    + eexists _, _. split; [done |]. set (c' := mkCompaction (cDrop c) (cWorker c) (cQueued c) true).
      assert (p <| compacting := Some c' |> = update_worker (cWorker c) (fun w0 => w0 <| jobs := [] |>) (p <| compacting := Some c' |>)) as ->.
      { rewrite (update_same _ _ w) by (done || (destruct w; cbn in Hj |- *; by rewrite Hj)). done. }
      apply (recompact_ok p c c' w); try done. by rewrite Hj.
    + case_if.
      * eexists _, _. split; [done |]. by apply drop_ok with w.
      * eexists _, _. split; [done |].
        set (c' := mkCompaction (cDrop c) (cWorker c) (cQueued c ++ [t]) false).
        apply (recompact_ok p c c' w); try done.
        -- rewrite Hj. change (cQueued c') with (cQueued c ++ [t]). solve_Permutation.
        -- apply Forall_app. split; [done |]. constructor; [| done]. unfold shouldDropTaskLocked in Heqb.
           apply orb_false_iff in Heqb as [K1 K2]. apply bool_decide_eq_false in K2. split; [done |]. by rewrite Hc.
Qed.

(** ** Every step *)

Lemma perform_ok (p : processor) a :
  processor_ok p -> match perform a p with Ok (p', es) => step_spec p p' es | Err _ => True | Panic => False end.
Proof.
  intros H. destruct (compacting p) as [c |] eqn:Hc.
  - destruct a; cbn [perform]; unfold locked; rewrite ?Hc; try done.
    + destruct (compact_ok p H) as (p' & es & -> & S); [by rewrite Hc | done].
    + destruct (takeStep i p) eqn:E; cbn [obind]; [by eapply take_ok | done |]. unfold takeStep in E. by repeat case_match.
    + destruct (endStep i p) eqn:E; cbn [obind]; [by eapply end_ok | done |]. unfold endStep in E. by repeat case_match.
  - destruct a; try (destruct (perform _ p) as [[p' es] | |] eqn:E;
      [eapply remove_ok; [| done | done | exact E]; done | done | cbn [perform] in E; unfold locked in E; by rewrite Hc in E]);
      cbn [perform]; unfold locked; rewrite ?Hc.
    + destruct (enqueue_ok p lane run H Hc) as (ok & p' & -> & S). done.
    + unfold compactStep. by rewrite Hc.
    + destruct (takeStep i p) eqn:E; cbn [obind]; [by eapply take_ok | done |]. unfold takeStep in E. by repeat case_match.
    + destruct (beginStep i p) eqn:E; cbn [obind]; [by eapply begin_ok | done |]. unfold beginStep in E. by repeat case_match.
    + destruct (endStep i p) eqn:E; cbn [obind]; [by eapply end_ok | done |]. unfold endStep in E. by repeat case_match.
    + destruct (finishStep i p) as [[p' es] | |] eqn:E; [by eapply finish_ok | done |]. unfold finishStep in E. by repeat case_match.
Qed.

Lemma run_ok (l : list action) (p : processor) :
  processor_ok p -> match run_actions l p with Ok (p', es) => step_spec p p' es | Err _ => True | Panic => False end.
Proof.
  revert p. induction l as [| a l IH]; intros p H; cbn [run_actions]; [split; [done | cbn; by rewrite !app_nil_r] |].
  pose proof (perform_ok p a H) as Ha. destruct (perform a p) as [[p1 es1] | |]; cbn [obind]; [| done | done].
  destruct Ha as [H1 E1]. specialize (IH p1 H1). destruct (run_actions l p1) as [[p2 es2] | |]; cbn [obind]; [| done | done].
  destruct IH as [H2 E2]. split; [done |]. unfold accepted, gone in *. rewrite !bind_app. rewrite app_assoc, E1.
  rewrite <- (app_assoc (tasks p1)), (Permutation_app_comm _ (es2 ≫= _)), app_assoc, E2. solve_Permutation.
Qed.

Lemma cap_range wc ql : 1 <= wc -> 1 <= ql -> 1 <= deriveDeferredSessionPendingCap wc ql <= 1024.
Proof.
  intros Hw Hq. unfold deriveDeferredSessionPendingCap.
  rewrite (proj2 (Z.leb_gt wc 0)) by lia. rewrite (proj2 (Z.ltb_ge ql 1)) by lia.
  assert (1 <= wc * ql) by nia. pose proof (Z.quot_pos ql 2).
  set (g := Z.min (Z.max (ql ÷ 2) 32) 1024). assert (32 <= g <= 1024) by lia.
  repeat case_if; rewrite int32_id; zbool; lia.
Qed.

Lemma new_ok wc ql (p : processor) : newDeferredSessionProcessor wc ql = Some p -> processor_ok p /\ tasks p = [] /\ compacting p = None.
Proof.
  unfold newDeferredSessionProcessor. destruct (wc <=? 0) eqn:Hwc; [done |]. intros [= <-].
  set (n := if wc >? 64 then 64 else wc). set (k := if ql <? 1 then 256 else ql). set (m := if k >? 8192 then 8192 else k).
  apply Z.leb_gt in Hwc.
  assert (1 <= n <= 64) by (unfold n; case_if; zbool; lia). assert (1 <= k) by (unfold k; case_if; zbool; lia).
  assert (1 <= m <= 8192) by (unfold m; case_if; zbool; lia). clearbody n m. clear k H0.
  assert (forall (B : Type) (x : B) j y, replicate (Z.to_nat n) x !! j = Some y -> y = x) as Hrep by (intros ? x j y E; by apply lookup_replicate in E as [-> _]).
  assert (forall (A B : Type) (f : A -> list B) x j, f x = [] -> replicate j x ≫= f = []) as Hb.
  { intros A B f x j E. induction j as [| j IH]; [done |]. cbn [replicate]. by rewrite bind_cons, E, IH. }
  split; [| split; [unfold tasks, held; cbn; by rewrite !Hb | done]].
  constructor; cbn; try done.
  - by rewrite !length_replicate.
  - intros E. apply (f_equal length) in E. rewrite length_replicate in E. cbn in E. lia.
  - apply cap_range; lia.
  - intros i w Hw. apply Hrep in Hw as ->.
    enough (0 + 0 <= m /\ 0 = 0 + 0 + busy (default Idle (replicate (Z.to_nat n) (@Idle R) !! i))) as [A B] by (split_and!; [exact A | exact B | constructor]).
    replace (default Idle (replicate (Z.to_nat n) Idle !! i)) with (@Idle R)
      by (destruct (replicate (Z.to_nat n) Idle !! i) eqn:E; [by apply Hrep in E as -> | done]).
    cbn [busy]. lia.
  - unfold tasks, held. cbn. rewrite !Hb by done. intros s Hs. cbn. split; [done |]. unfold count. cbn.
    pose proof (cap_range n m). unfold len. cbn. lia.
Qed.
End Inv.
