(* ===== verification/DeferredSessionLife.v ===== *)
(** The life of the worker pool: what every run keeps, what a removal does, and two tasks of
    one lane that overlap. *)

From stdpp Require Import base tactics list gmap strings sorting.
From Stdlib Require Import ZArith Lia.
From S2P Require Import Prelude DeferredSession DeferredSessionInv.

Section Removal.
Context {R : Type}.
Local Abbreviation task := (@deferredSessionTask R).
Local Abbreviation processor := (@deferredSessionProcessor R).

(** [p'] comes after some steps of the removal in [p], and no other step. *)
Definition compacts (p p' : processor) : Prop := exists n es, run_actions (replicate n DoCompact) p = Ok (p', es).

Lemma compacts_refl p : compacts p p.
Proof. by exists 0%nat, []. Qed.

Lemma compacts_step p p1 es p' : compactStep p = Ok (p1, es) -> compacts p1 p' -> compacts p p'.
Proof.
  intros E (n & es' & En). exists (S n), (es ++ es'). cbn [replicate run_actions perform]. rewrite E. cbn [obind]. by rewrite En.
Qed.

Lemma run_app (l l' : list action) (p : processor) :
  run_actions (l ++ l') p = (let! (p, es) := run_actions l p in let! (p, es') := run_actions l' p in Ok (p, es ++ es')).
Proof.
  revert p. induction l as [| a l IH]; intros p; cbn [app run_actions obind].
  - by destruct (run_actions l' p) as [[] | |].
  - destruct (perform a p) as [[p1 es1] | |]; cbn [obind]; [| done | done]. rewrite IH.
    destruct (run_actions l p1) as [[p2 es2] | |]; cbn [obind]; [| done | done].
    destruct (run_actions l' p2) as [[p3 es3] | |]; cbn [obind]; [by rewrite app_assoc | done | done].
Qed.

Lemma compacts_trans p p1 p' : compacts p p1 -> compacts p1 p' -> compacts p p'.
Proof.
  intros (n & es & E) (n' & es' & E'). exists (n + n')%nat, (es ++ es'). rewrite replicate_add, run_app, E. cbn [obind]. by rewrite E'.
Qed.

(** What the removal [d] leaves in a channel. *)
Definition survivors (d : drop_request) (cs : gset deferredSessionLane) (js : list task) : list task :=
  filter (fun t => drops d (taskLane t) || bool_decide (taskLane t ∈ cs) = false) js.

(** The parts of the pool a removal does not touch after its first section. *)
Definition same_frame (p p' : processor) : Prop :=
  goroutines p' = goroutines p /\ cancelled p' = cancelled p /\ running p' = running p /\ done p' = done p /\ queueLimit p' = queueLimit p.

Definition channels (p : processor) : list (list task) := jobs <$> workers p.

Lemma fmap_alter {A B} (g : A -> B) (f : A -> A) (h : B -> B) (l : list A) i :
  (forall x, g (f x) = h (g x)) -> g <$> alter f i l = alter h i (g <$> l).
Proof.
  intros H. apply list_eq. intros j. rewrite list_lookup_fmap. destruct (decide (i = j)) as [<- | Hne].
  - rewrite !list_lookup_alter_eq, list_lookup_fmap. destruct (l !! i); [cbn; by rewrite H | done].
  - by rewrite !list_lookup_alter_ne, list_lookup_fmap.
Qed.

Lemma channels_update (p : processor) i f :
  channels (update_worker i (fun w => w <| jobs ::= f |>) p) = alter f i (channels p).
Proof. exact (fmap_alter jobs (fun w => w <| jobs ::= f |>) f (workers p) i (fun _ => eq_refl)). Qed.

Lemma channel_at (p : processor) i js : channels p !! i = Some js -> exists w, workers p !! i = Some w /\ jobs w = js.
Proof. intros H. unfold channels in H. rewrite list_lookup_fmap in H. apply fmap_Some in H as (w & Hw & ->). by exists w. Qed.

Lemma drain (p : processor) d i q js :
  compacting p = Some (mkCompaction d i q false) -> channels p !! i = Some js ->
  exists p', compacts p p' /\ compacting p' = Some (mkCompaction d i (q ++ survivors d (cancelled p) js) false) /\
    channels p' = <[i := []]> (channels p) /\ same_frame p p'.
Proof.
  revert p q. induction js as [| t js IH]; intros p q Hc Hj.
  - exists p. split; [apply compacts_refl |]. rewrite Hc. unfold survivors. rewrite filter_nil, app_nil_r. split; [done |].
    split; [by rewrite list_insert_id | done].
  - destruct (channel_at p i _ Hj) as (w & Hw & Ej).
    assert (exists p1 es, compactStep p = Ok (p1, es) /\ channels p1 = <[i := js]> (channels p) /\ same_frame p p1 /\
              compacting p1 = Some (mkCompaction d i (q ++ survivors d (cancelled p) [t]) false)) as (p1 & es & E & C1 & F1 & K1).
    { unfold compactStep. rewrite Hc. cbn [cWorker cRefill cDrop cQueued]. rewrite Hw, Ej.
      assert (channels (update_worker i (fun w0 => w0 <| jobs := js |>) p) = <[i := js]> (channels p)) as Ech.
      { rewrite (channels_update p i (fun _ => js)). exact (alter_insert (fun _ => js) _ _ _ Hj). }
      unfold survivors. rewrite filter_cons, filter_nil. unfold shouldDropTaskLocked. cbn [cancelled].
      change (cancelled (update_worker i _ p)) with (cancelled p).
      destruct (drops d (taskLane t) || bool_decide (taskLane t ∈ cancelled p)) eqn:Hd.
      - rewrite decide_False by congruence. eexists _, _. split; [done |].
        match goal with |- context [decrementSessionPendingLocked ?s ?q0] => destruct (decrement_shape s q0) as [sp ->] end.
        split; [| split; [done | cbn; by rewrite app_nil_r]]. rewrite <- Ech.
        transitivity (alter id i (channels (update_worker i (fun w0 => w0 <| jobs := js |>) p)));
          [exact (fmap_alter jobs (add_pending (-1)) id _ i (fun _ => eq_refl)) | by apply list_alter_id].
      - rewrite decide_True by done. eexists _, _. by split. }
    destruct (IH p1 (q ++ survivors d (cancelled p) [t]) K1) as (p' & Hs & Hc' & Hch & F').
    { rewrite C1. apply list_lookup_insert_eq. by eapply lookup_lt_Some. }
    exists p'. split; [by eapply compacts_step |]. destruct F1 as (f1 & f2 & f3 & f4 & f5), F' as (g1 & g2 & g3 & g4 & g5).
    rewrite Hc', f2. split_and!; [| rewrite Hch, C1; apply list_insert_insert_eq | unfold same_frame; split_and!; congruence].
    unfold survivors. by rewrite <- app_assoc, <- filter_app.
Qed.

Lemma refill (p : processor) d i q js :
  compacting p = Some (mkCompaction d i q true) -> channels p !! i = Some js -> len (js ++ q) <= queueLimit p ->
  exists p', compacts p p' /\ compacting p' = Some (mkCompaction d i [] true) /\ channels p' = <[i := js ++ q]> (channels p) /\ same_frame p p'.
Proof.
  revert p js. induction q as [| t q IH]; intros p js Hc Hj Hl.
  - exists p. split; [apply compacts_refl |]. rewrite app_nil_r. split; [done |]. split; [by rewrite list_insert_id | done].
  - destruct (channel_at p i _ Hj) as (w & Hw & Ej).
    set (p1 := update_worker i (fun w => w <| jobs ::= (fun js => js ++ [t]) |>) (p <| compacting := Some (mkCompaction d i q true) |>)).
    assert (compactStep p = Ok (p1, [])) as E.
    { unfold compactStep. rewrite Hc. cbn [cWorker cRefill cDrop cQueued]. rewrite Hw, Ej.
      rewrite (proj2 (Z.ltb_lt _ _)) by (unfold len in *; rewrite length_app in Hl; cbn [length] in Hl; lia). by destruct js. }
    assert (channels p1 = <[i := js ++ [t]]> (channels p)) as C1.
    { unfold p1. rewrite channels_update. exact (alter_insert (fun js => js ++ [t]) _ _ _ Hj). }
    destruct (IH p1 (js ++ [t])) as (p' & Hs & Hc' & Hch & F'); [done | | by rewrite <- app_assoc |].
    { rewrite C1. apply list_lookup_insert_eq. by eapply lookup_lt_Some. }
    exists p'. split; [by eapply compacts_step |]. split; [done |]. split; [| done].
    rewrite Hch, C1, list_insert_insert_eq. by rewrite <- app_assoc.
Qed.

Lemma compact_one (p : processor) d i js :
  compacting p = Some (mkCompaction d i [] false) -> channels p !! i = Some js -> len js <= queueLimit p ->
  exists p', compacts p p' /\ compacting p' = Some (mkCompaction d (S i) [] false) /\
    channels p' = <[i := survivors d (cancelled p) js]> (channels p) /\ same_frame p p'.
Proof.
  intros Hc Hj Hl. destruct (drain p d i [] js Hc Hj) as (p1 & S1 & C1 & E1 & F1). cbn [app] in C1.
  set (q := survivors d (cancelled p) js) in *.
  assert (i < length (channels p))%nat as Hi by (by eapply lookup_lt_Some).
  assert (channels p1 !! i = Some []) as Hj1 by (rewrite E1; by apply list_lookup_insert_eq).
  destruct (channel_at p1 i _ Hj1) as (w1 & Hw1 & Ej1).
  set (p2 := p1 <| compacting := Some (mkCompaction d i q true) |>).
  assert (compactStep p1 = Ok (p2, [])) as E2 by (unfold compactStep; rewrite C1; cbn [cWorker cRefill cDrop cQueued]; by rewrite Hw1, Ej1).
  destruct (refill p2 d i q []) as (p3 & S3 & C3 & E3 & F3); [done | done | |].
  { destruct F1 as (_ & _ & _ & _ & F1). change (len q <= queueLimit p1). rewrite F1. etransitivity; [| apply Hl].
    unfold len, q, survivors. apply inj_le. apply length_filter. }
  assert (channels p3 !! i = Some q) as Hj3.
  { rewrite E3. apply list_lookup_insert_eq. change (channels p2) with (channels p1). by rewrite E1, length_insert. }
  destruct (channel_at p3 i _ Hj3) as (w3 & Hw3 & Ej3).
  set (p4 := p3 <| compacting := Some (mkCompaction d (S i) [] false) |>).
  assert (compactStep p3 = Ok (p4, [])) as E4.
  { unfold compactStep. rewrite C3. cbn [cWorker cRefill cDrop cQueued]. rewrite Hw3. by destruct (jobs w3). }
  exists p4. split.
  { eapply compacts_trans; [apply S1 |]. eapply compacts_step; [apply E2 |]. eapply compacts_trans; [apply S3 |].
    eapply compacts_step; [apply E4 | apply compacts_refl]. }
  split; [done |]. split; [change (channels p4) with (channels p3); rewrite E3; change (channels p2) with (channels p1); by rewrite E1, list_insert_insert_eq |].
  destruct F1 as (f1 & f2 & f3 & f4 & f5), F3 as (g1 & g2 & g3 & g4 & g5). unfold same_frame. cbn in *. split_and!; congruence.
Qed.

(** From worker [i] on, the removal ends, and the channels from [i] on keep the survivors
    in their order. *)
Lemma compact_rest (p : processor) d i :
  compacting p = Some (mkCompaction d i [] false) -> Forall (fun js => len js <= queueLimit p) (channels p) ->
  exists p', compacts p p' /\ compacting p' = None /\ same_frame p p' /\
    channels p' = take i (channels p) ++ (survivors d (cancelled p) <$> drop i (channels p)).
Proof.
  remember (length (channels p) - i)%nat as n eqn:Hn. revert p i Hn. induction n as [| n IH]; intros p i Hn Hc Hl.
  - assert (length (channels p) <= i)%nat as Hi by lia.
    exists (p <| compacting := None |>). split.
    { eapply compacts_step; [| apply compacts_refl]. unfold compactStep. rewrite Hc. cbn [cWorker].
      rewrite lookup_ge_None_2; [done |]. unfold channels in Hi. by rewrite length_fmap in Hi. }
    split_and!; [done | done |]. change (channels (_ <| compacting := None |>)) with (channels p).
    by rewrite take_ge, drop_ge, app_nil_r.
  - destruct (lookup_lt_is_Some_2 (channels p) i) as [js Hj]; [lia |].
    destruct (compact_one p d i js Hc Hj) as (p1 & S1 & C1 & E1 & F1); [by eapply Forall_lookup_1 in Hl |].
    destruct F1 as (f1 & f2 & f3 & f4 & f5).
    destruct (IH p1 (S i)) as (p' & S' & C' & F' & E'); [rewrite E1, length_insert; lia | done | |].
    { rewrite E1, f5. apply Forall_insert; [done |]. etransitivity; [| by eapply Forall_lookup_1 in Hl].
      unfold len, survivors. apply inj_le, length_filter. }
    exists p'. split; [by eapply compacts_trans |]. split; [done |].
    destruct F' as (g1 & g2 & g3 & g4 & g5). split; [unfold same_frame; split_and!; congruence |].
    rewrite E', E1, f2. assert (i < length (channels p))%nat as Hi by lia.
    rewrite (take_S_r _ _ (survivors d (cancelled p) js)) by (by apply list_lookup_insert_eq).
    rewrite take_insert_ge, drop_insert_lt by lia. rewrite (drop_S _ _ _ Hj). cbn. by rewrite <- app_assoc.
Qed.

(** What a removal asks to drop, and the lanes whose running task it cancels. *)
Definition request (a : @action R) : option drop_request :=
  match a with
  | DoRemoveSession sessionID => Some (DropSession sessionID)
  | DoRemoveLane lane | DoFinalizeLane lane => if laneSession lane =? 0 then None else Some (DropLane lane)
  | _ => None
  end.

Definition cancels (a : @action R) (lane : deferredSessionLane) : bool :=
  match a with
  | DoRemoveSession sessionID => laneSession lane =? sessionID
  | DoRemoveLane l => bool_decide (lane = l)
  | _ => false
  end.

Lemma fold_cancels (m : gmap deferredSessionLane nat) (p : processor) lane ctx :
  m !! lane = Some ctx -> ctx ∈ done (map_fold (fun _ ctx => cancel ctx) p m).
Proof.
  induction m as [| l c m Hl Hf IH] using map_first_key_ind; intros Hm.
  - by rewrite lookup_empty in Hm.
  - rewrite map_fold_insert_first_key by done.
    change (ctx ∈ {[c]} ∪ done (map_fold (fun _ ctx0 => cancel ctx0) p m)).
    destruct (decide (l = lane)) as [-> | Hne]; [rewrite lookup_insert_eq in Hm; set_solver |].
    rewrite lookup_insert_ne in Hm by done. apply elem_of_union_r. by apply IH.
Qed.

Lemma removal_start (p : processor) a d :
  compacting p = None -> request a = Some d ->
  exists p1, perform a p = Ok (p1, []) /\ compacting p1 = Some (mkCompaction d 0 [] false) /\ workers p1 = workers p /\
    goroutines p1 = goroutines p /\ queueLimit p1 = queueLimit p /\
    (forall lane, lane ∈ cancelled p1 -> lane ∈ cancelled p \/ drops d lane = true) /\
    (forall lane ctx, cancels a lane = true -> running p !! lane = Some ctx -> ctx ∈ done p1).
Proof.
  intros Hn Hr. destruct a; try done; cbn [request] in Hr; cbn [perform]; unfold locked; rewrite Hn.
  - injection Hr as <-. eexists. split; [done |]. unfold RemoveSession.
    pose proof (fold_cancels (filter (fun kv => laneSession kv.1 = sessionID) (running p)) p) as Hfold.
    destruct (cancel_fold (filter (fun kv => laneSession kv.1 = sessionID) (running p)) p) as [dn E].
    rewrite E in Hfold |- *. split_and!; try done.
    + intros lane Hl. change (lane ∈ dom (filter (fun kv => laneSession kv.1 = sessionID) (laneWorker p)) ∪ cancelled p) in Hl.
      apply elem_of_union in Hl as [Hl | Hl]; [right | by left]. apply elem_of_dom in Hl as [x Hx].
      apply map_lookup_filter_Some in Hx as [_ Hx]. cbn in *. by apply Z.eqb_eq.
    + intros lane ctx Hc Hrun. apply (Hfold lane). apply map_lookup_filter_Some. split; [done |]. cbn in *. by apply Z.eqb_eq.
  - destruct (laneSession lane =? 0) eqn:E0; [done |]. injection Hr as <-. unfold RemoveLane. rewrite E0.
    assert (forall ctx, running p !! lane = Some ctx -> ctx ∈ done (cancel_running lane p)) as Hd.
    { intros ctx Hrun. unfold cancel_running. rewrite Hrun. change (ctx ∈ {[ctx]} ∪ done p). set_solver. }
    destruct (cancel_running_shape lane p) as (r & dn & E). rewrite E in Hd |- *. eexists. split; [done |]. split_and!; try done.
    + intros l Hl. change (l ∈ {[lane]} ∪ cancelled p) in Hl. apply elem_of_union in Hl as [Hl | Hl]; [right | by left].
      cbn. apply bool_decide_eq_true. set_solver.
    + intros l ctx Hc. cbn in Hc. apply bool_decide_eq_true in Hc as ->. apply Hd.
  - destruct (laneSession lane =? 0) eqn:E0; [done |]. injection Hr as <-. unfold FinalizeLane. rewrite E0.
    eexists. split; [done |]. split_and!; try done.
    intros l Hl. change (l ∈ {[lane]} ∪ cancelled p) in Hl. apply elem_of_union in Hl as [Hl | Hl]; [right | by left].
    cbn. apply bool_decide_eq_true. set_solver.
Qed.

Lemma filter_agree {A} (P Q : A -> Prop) `{forall x, Decision (P x)} `{forall x, Decision (Q x)} (l : list A) :
  (forall x, x ∈ l -> P x <-> Q x) -> filter P l = filter Q l.
Proof.
  induction l as [| x l IH]; intros Hpq; [done |]. rewrite !filter_cons, IH by (intros; apply Hpq; by right).
  destruct (Hpq x) as [? ?]; [by left |]. repeat case_decide; tauto.
Qed.

Lemma removal_spec (p : processor) a d :
  processor_ok p -> compacting p = None -> request a = Some d ->
  exists n p' es, run_actions (a :: replicate n DoCompact) p = Ok (p', es) /\ compacting p' = None /\ goroutines p' = goroutines p /\
    channels p' = filter (fun t => drops d (taskLane t) = false) <$> channels p /\
    (forall lane ctx, cancels a lane = true -> running p !! lane = Some ctx -> ctx ∈ done p').
Proof.
  intros H Hn Hr. destruct (removal_start p a d Hn Hr) as (p1 & E1 & C1 & W1 & G1 & L1 & K1 & D1).
  assert (channels p1 = channels p) as Ech by (unfold channels; by rewrite W1).
  assert (forall js, js ∈ channels p -> len js <= queueLimit p /\ Forall (fun t => taskLane t ∉ cancelled p) js) as Hch.
  { intros js Hj. apply list_elem_of_lookup in Hj as [i Hi]. destruct (channel_at p i js Hi) as (w & Hw & <-).
    destruct (ok_worker _ H i w Hw) as (A & _ & C). split; [unfold len in *; lia |].
    eapply Forall_impl; [apply C; unfold compacted; by rewrite Hn |]. by intros t [? _]. }
  destruct (compact_rest p1 d 0 C1) as (p' & (n & es & En) & C' & (g1 & g2 & g3 & g4 & g5) & E').
  { rewrite Ech, L1. apply Forall_forall. intros js Hj. by apply Hch. }
  exists n, p', es. split_and!.
  - cbn [run_actions]. rewrite E1. cbn [obind]. by rewrite En.
  - done.
  - congruence.
  - rewrite E', take_0, drop_0, Ech. cbn [app]. apply list_fmap_ext. intros i js Hi.
    destruct (Hch js) as [_ Hk]; [by eapply list_elem_of_lookup_2 |]. apply filter_agree. intros t Ht.
    rewrite Forall_forall in Hk. specialize (Hk t Ht). rewrite orb_false_iff. split; [by intros [? _] |].
    intros Hd. split; [done |]. apply bool_decide_eq_false. intros Hin. destruct (K1 _ Hin); [done | congruence].
  - intros lane ctx Hc Hrun. rewrite g4. by apply (D1 lane).
Qed.
End Removal.

(** ** Claims *)

(** C20: Every interleaving of enqueues, removals, workers and removal steps on a new pool
    keeps the invariant: no channel is over its capacity, each worker's load counter and
    each session's counter are exact, no session has more tasks than its cap, lanes point
    to existing workers.  No step panics, and no accepted task is lost or run twice: the
    accepted ones are those still in the pool, the finished ones and the dropped ones. *)
Theorem pool_invariant {R} (workerCount limit : Z) (p : @deferredSessionProcessor R) (l : list action) :
  newDeferredSessionProcessor workerCount limit = Some p ->
  match run_actions l p with
  | Ok (p', es) => processor_ok p' /\ accepted es ≡ₚ tasks p' ++ gone es
  | Err _ => True
  | Panic => False
  end.
Proof.
  intros Hnew. destruct (new_ok _ _ _ Hnew) as (H & Ht & _). pose proof (run_ok l p H) as Hr.
  destruct (run_actions l p) as [[p' es] | |]; [| done | done]. destruct Hr as [H' E]. by rewrite Ht in E.
Qed.

(** C21: A removal that has the lock never waits: from every reachable state in which the
    lock is free, removing a session or a lane and then the removal's own steps alone lead
    to a state with the lock free, in which every channel holds the other lanes' tasks in
    their order and nothing else.  Removing (not finalizing) also cancels the context of
    the registered running task of the removed lanes. *)
Theorem removal_completes {R} (workerCount limit : Z) (p0 p : @deferredSessionProcessor R) (l : list action) es a d :
  newDeferredSessionProcessor workerCount limit = Some p0 -> run_actions l p0 = Ok (p, es) -> compacting p = None -> request a = Some d ->
  exists n p' es', run_actions (a :: replicate n DoCompact) p = Ok (p', es') /\ compacting p' = None /\ goroutines p' = goroutines p /\
    channels p' = filter (fun t => drops d (taskLane t) = false) <$> channels p /\
    (forall lane ctx, cancels a lane = true -> running p !! lane = Some ctx -> ctx ∈ done p').
Proof.
  intros Hnew Hrun Hn Hr. apply removal_spec; [| done | done]. destruct (new_ok _ _ _ Hnew) as (H & _).
  pose proof (run_ok l p0 H) as Hok. rewrite Hrun in Hok. apply Hok.
Qed.

(** Two workers with channels of 16 places. *)
Definition small_pool : @deferredSessionProcessor Z :=
  default (mkProcessor [] [] 0 ∅ ∅ ∅ ∅ 0 0 0 ∅ None) (newDeferredSessionProcessor 2 16).

Definition lane7 : deferredSessionLane := mkLane 7 5.

(** Two requests of one stream and one of another; the first runs when the stream closes. *)
Definition example_run : list (@action Z) :=
  [DoEnqueue lane7 1; DoEnqueue (mkLane 7 6) 2; DoEnqueue lane7 3; DoTake 0; DoBegin 0].

Lemma pool_invariant_witness :
  exists p es, run_actions (example_run ++ [DoEnd 0; DoFinish 0]) small_pool = Ok (p, es) /\ processor_ok p /\ accepted es ≡ₚ tasks p ++ gone es.
Proof.
  eexists _, _. split; [vm_compute; reflexivity |].
  exact (pool_invariant 2 16 small_pool (example_run ++ [DoEnd 0; DoFinish 0]) eq_refl).
Defined.

Lemma removal_completes_witness :
  exists p es, run_actions example_run small_pool = Ok (p, es) /\
  exists n p' es', run_actions (DoRemoveLane lane7 :: replicate n DoCompact) p = Ok (p', es') /\ compacting p' = None /\ goroutines p' = goroutines p /\
    channels p' = filter (fun t => drops (DropLane lane7) (taskLane t) = false) <$> channels p /\
    (forall lane ctx, cancels (R:=Z) (DoRemoveLane lane7) lane = true -> running p !! lane = Some ctx -> ctx ∈ done p').
Proof.
  destruct (run_actions example_run small_pool) as [[p es] | |] eqn:E; [| vm_compute in E; discriminate | vm_compute in E; discriminate].
  exists p, es. split; [reflexivity |].
  refine (removal_completes 2 16 small_pool p example_run es (DoRemoveLane lane7) (DropLane lane7) eq_refl E _ eq_refl).
  vm_compute in E. injection E as <- <-. reflexivity.
Defined.

(** The schedule of the next theorem: the end of task 1 forgets the worker of the lane
    although task 2 of the lane still waits in its channel, so task 3 goes to the other
    worker. *)
Definition overlap_run : list (@action Z) :=
  [DoEnqueue lane7 1; DoTake 0; DoBegin 0; DoEnqueue lane7 2; DoEnd 0; DoFinish 0; DoTake 0; DoBegin 0;
   DoEnqueue lane7 3; DoTake 1; DoBegin 1].

(** C37: The tasks of one lane are not run one after the other: in a pool of two workers two
    tasks of one stream run at the same time, and when the first ends, [finishLane] cancels
    the context of the second, which is still running. *)
Theorem lane_overlap :
  exists p es p' es',
    run_actions overlap_run small_pool = Ok (p, es) /\
    goroutines p = [Running (mkTask lane7 2) 1 true; Running (mkTask lane7 3) 2 true] /\ 2%nat ∉ done p /\
    run_actions [DoEnd 0; DoFinish 0] p = Ok (p', es') /\
    goroutines p' = [Idle; Running (mkTask lane7 3) 2 true] /\ 2%nat ∈ done p'.
Proof.
  destruct (run_actions overlap_run small_pool) as [[p es] | |] eqn:E; [| vm_compute in E; discriminate | vm_compute in E; discriminate].
  destruct (run_actions [DoEnd 0; DoFinish 0] p) as [[p' es'] | |] eqn:E';
    vm_compute in E; injection E as <- <-; vm_compute in E'; try discriminate. injection E' as <- <-.
  eexists _, _, _, _. split_and!; try reflexivity; apply (bool_decide_unpack _); vm_compute; exact I.
Qed.
