(* ===== verification/DeferredTracking.v ===== *)
(** The deferred requests that are under way: the two maps [deferredInflight] and
    [deferredInflightIndex] of src/masterdns/internal/udpserver/server_postsession.go.

    A deferred packet is queued at most once: [tryBeginDeferredPacket] enters its key, the
    end of its task removes it, and the end of its stream or session removes all keys of
    that stream or session through the index.  The theorem says that the two maps behave
    as one set of packet identities. *)

From stdpp Require Import base tactics list gmap strings sorting.
From Stdlib Require Import ZArith Lia.
From S2P Require Import Prelude Enums Compression VpnProto.

(** The key in a [uint64]. *)
Definition deferredTrackedPacketKey (packet : Packet) : Z :=
  Z.lor (Z.lor (Z.lor (Z.lor (Z.shiftl (SessionID packet) 48) (Z.shiftl (StreamID packet) 32)) (Z.shiftl (PacketType packet) 24))
           (Z.shiftl (SequenceNum packet) 8)) (FragmentID packet).

Record deferredTracker := mkTracker { deferredInflight : gset Z; deferredInflightIndex : gmap Z (gmap Z (gset Z)) }.

Definition newDeferredTracker : deferredTracker := mkTracker ∅ ∅.

Definition tryBeginDeferredPacket (packet : Packet) (t : deferredTracker) : bool * deferredTracker :=
  let key := deferredTrackedPacketKey packet in
  if bool_decide (key ∈ deferredInflight t) then (false, t)
  else
    let sessionMap := default ∅ (deferredInflightIndex t !! SessionID packet) in
    let streamMap := default ∅ (sessionMap !! StreamID packet) in
    (true, mkTracker ({[key]} ∪ deferredInflight t)
             (<[SessionID packet := <[StreamID packet := {[key]} ∪ streamMap]> sessionMap]> (deferredInflightIndex t))).

Definition removeDeferredInflightIndexLocked (sessionID streamID key : Z) (index : gmap Z (gmap Z (gset Z))) : gmap Z (gmap Z (gset Z)) :=
  if sessionID =? 0 then index
  else match index !! sessionID with
  | None => index
  | Some sessionMap =>
      match sessionMap !! streamID with
      | None => index
      | Some streamMap =>
          let streamMap := streamMap ∖ {[key]} in
          if negb (bool_decide (streamMap = ∅)) then <[sessionID := <[streamID := streamMap]> sessionMap]> index
          else
            let sessionMap := delete streamID sessionMap in
            if bool_decide (sessionMap = ∅) then delete sessionID index else <[sessionID := sessionMap]> index
      end
  end.

Definition finishDeferredPacket (packet : Packet) (t : deferredTracker) : deferredTracker :=
  let key := deferredTrackedPacketKey packet in
  mkTracker (deferredInflight t ∖ {[key]})
    (removeDeferredInflightIndexLocked (SessionID packet) (StreamID packet) key (deferredInflightIndex t)).

Definition isDeferredPacketStillTracked (packet : Packet) (t : deferredTracker) : bool :=
  bool_decide (deferredTrackedPacketKey packet ∈ deferredInflight t).

Definition clearDeferredInflightForSession (sessionID : Z) (t : deferredTracker) : deferredTracker :=
  if sessionID =? 0 then t
  else match deferredInflightIndex t !! sessionID with
  | None => t
  | Some sessionMap =>
      mkTracker (map_fold (fun _ streamMap keys => keys ∖ streamMap) (deferredInflight t) sessionMap)
        (delete sessionID (deferredInflightIndex t))
  end.

Definition clearDeferredInflightForStream (sessionID streamID : Z) (t : deferredTracker) : deferredTracker :=
  if (sessionID =? 0) || (streamID =? 0) then t
  else match deferredInflightIndex t !! sessionID with
  | None => t
  | Some sessionMap =>
      match sessionMap !! streamID with
      | None => t
      | Some streamMap =>
          let sessionMap := delete streamID sessionMap in
          mkTracker (deferredInflight t ∖ streamMap)
            (if bool_decide (sessionMap = ∅) then delete sessionID (deferredInflightIndex t)
             else <[sessionID := sessionMap]> (deferredInflightIndex t))
      end
  end.

(** ** The set of identities *)

(** Session, stream, type, sequence number and fragment of a packet. *)
Abbreviation identity := (Z * Z * Z * Z * Z)%type.

Definition identity_of (p : Packet) : identity := (SessionID p, StreamID p, PacketType p, SequenceNum p, FragmentID p).

Definition key_of (i : identity) : Z :=
  let '(s, st, t, n, f) := i in
  Z.lor (Z.lor (Z.lor (Z.lor (Z.shiftl s 48) (Z.shiftl st 32)) (Z.shiftl t 24)) (Z.shiftl n 8)) f.

Definition identity_ok (i : identity) : Prop := let '(s, st, t, n, f) := i in u8 s /\ u16 st /\ u8 t /\ u16 n /\ u8 f.

Lemma key_of_arith s st t n f :
  identity_ok (s, st, t, n, f) -> key_of (s, st, t, n, f) = 2 ^ 48 * s + 2 ^ 32 * st + 2 ^ 24 * t + 2 ^ 8 * n + f.
Proof.
  unfold identity_ok, key_of, u8, u16. intros (Hs & Hst & Ht & Hn & Hf).
  assert (Hshl : forall a n, 0 <= n -> Z.shiftl a n = 2 ^ n * a) by (intros; rewrite Z.shiftl_mul_pow2 by lia; lia).
  rewrite (lor_shiftl_disjoint s) by (rewrite ?Hshl; lia).
  replace (2 ^ 48 * s + Z.shiftl st 32) with (Z.shiftl (2 ^ 16 * s + st) 32) by (rewrite !Hshl; lia).
  rewrite (lor_shiftl_disjoint (2 ^ 16 * s + st)) by (rewrite ?Hshl; lia).
  replace (2 ^ 32 * (2 ^ 16 * s + st) + Z.shiftl t 24) with (Z.shiftl (2 ^ 24 * s + 2 ^ 8 * st + t) 24) by (rewrite !Hshl; lia).
  rewrite (lor_shiftl_disjoint (2 ^ 24 * s + 2 ^ 8 * st + t)) by (rewrite ?Hshl; lia).
  replace (2 ^ 24 * (2 ^ 24 * s + 2 ^ 8 * st + t) + Z.shiftl n 8) with (Z.shiftl (2 ^ 40 * s + 2 ^ 24 * st + 2 ^ 16 * t + n) 8)
    by (rewrite !Hshl; lia).
  rewrite lor_shiftl_disjoint by lia. lia.
Qed.

(** Different identities have different keys. *)
Lemma key_of_inj i j : identity_ok i -> identity_ok j -> key_of i = key_of j -> i = j.
Proof.
  destruct i as [[[[s st] t] n] f], j as [[[[s' st'] t'] n'] f']. intros Hi Hj. rewrite !key_of_arith by done.
  unfold identity_ok, u8, u16 in *. intros E. assert (s = s' /\ st = st' /\ t = t' /\ n = n' /\ f = f') as (-> & -> & -> & -> & ->) by lia. done.
Qed.

(** The keys of a stream in the index. *)
Definition indexed (index : gmap Z (gmap Z (gset Z))) (s st : Z) : gset Z := default ∅ (default ∅ (index !! s) !! st).

Definition in_stream (s st : Z) (i : identity) : Prop := i.1.1.1.1 = s /\ i.1.1.1.2 = st.
#[export] Instance in_stream_dec s st i : Decision (in_stream s st i).
Proof. unfold in_stream. apply _. Defined.

(** The maps hold the set [ids]; the index leaves out session 0, which no session has. *)
Record tracks (ids : gset identity) (t : deferredTracker) : Prop := {
  tr_ok : forall i, i ∈ ids -> identity_ok i;
  tr_keys : forall k, k ∈ deferredInflight t <-> exists i, i ∈ ids /\ key_of i = k;
  tr_index : forall s st k, s <> 0 -> k ∈ indexed (deferredInflightIndex t) s st <-> exists i, i ∈ ids /\ in_stream s st i /\ key_of i = k }.

Lemma key_of_packet p : deferredTrackedPacketKey p = key_of (identity_of p).
Proof. done. Qed.

Lemma tracks_key ids t i : tracks ids t -> identity_ok i -> key_of i ∈ deferredInflight t <-> i ∈ ids.
Proof.
  intros H Hi. rewrite (tr_keys _ _ H). split; [| by exists i]. intros (j & Hj & E). apply key_of_inj in E as ->; [done | by eapply tr_ok | done].
Qed.

(** ** Lookups in the index *)

Lemma indexed_insert index s st sm s' st' :
  indexed (<[s := <[st := sm]> (default ∅ (index !! s))]> index) s' st' = if bool_decide (s' = s /\ st' = st) then sm else indexed index s' st'.
Proof.
  unfold indexed. destruct (decide (s' = s)) as [-> | Hs].
  - rewrite lookup_insert_eq. cbn. destruct (decide (st' = st)) as [-> | Hst].
    + rewrite lookup_insert_eq. by rewrite bool_decide_eq_true_2.
    + rewrite lookup_insert_ne by done. rewrite bool_decide_eq_false_2; [done | by intros []].
  - rewrite lookup_insert_ne by done. rewrite bool_decide_eq_false_2; [done | by intros []].
Qed.

(** Removing a stream from the map of its session, and the session with its last stream. *)
Lemma indexed_remove index s sm st s' st' :
  index !! s = Some sm ->
  indexed (if bool_decide (delete st sm = ∅) then delete s index else <[s := delete st sm]> index) s' st' =
  if bool_decide (s' = s /\ st' = st) then ∅ else indexed index s' st'.
Proof.
  intros Hs. assert (indexed (<[s := delete st sm]> index) s' st' = if bool_decide (s' = s /\ st' = st) then ∅ else indexed index s' st') as E.
  { unfold indexed. destruct (decide (s' = s)) as [-> | Hne].
    - rewrite lookup_insert_eq, Hs. cbn. destruct (decide (st' = st)) as [-> | Hst].
      + rewrite lookup_delete_eq. by rewrite bool_decide_eq_true_2.
      + rewrite lookup_delete_ne by done. rewrite bool_decide_eq_false_2; [done | by intros []].
    - rewrite lookup_insert_ne by done. rewrite bool_decide_eq_false_2; [done | by intros []]. }
  destruct (decide (delete st sm = ∅)) as [Hem | Hem]; [rewrite bool_decide_eq_true_2 by done | by rewrite bool_decide_eq_false_2].
  rewrite <- E. unfold indexed. destruct (decide (s' = s)) as [-> | Hne].
  - rewrite lookup_delete_eq, lookup_insert_eq, Hem. cbn. by rewrite lookup_empty.
  - by rewrite lookup_delete_ne, lookup_insert_ne.
Qed.

Lemma indexed_removeLocked index s st k s' st' :
  s <> 0 -> indexed (removeDeferredInflightIndexLocked s st k index) s' st' =
  if bool_decide (s' = s /\ st' = st) then indexed index s' st' ∖ {[k]} else indexed index s' st'.
Proof.
  intros H0. unfold removeDeferredInflightIndexLocked. rewrite (proj2 (Z.eqb_neq _ _) H0).
  assert (forall x, (s' = s /\ st' = st -> x = ∅) -> x = (if bool_decide (s' = s /\ st' = st) then x ∖ {[k]} else x :> gset Z)) as Hnone.
  { intros x Hx. case_bool_decide as Hb; [| done]. rewrite (Hx Hb). set_solver. }
  destruct (index !! s) as [sm |] eqn:Hs.
  2:{ apply Hnone. intros [-> ->]. unfold indexed. rewrite Hs. cbn. by rewrite lookup_empty. }
  destruct (sm !! st) as [stm |] eqn:Hst.
  2:{ apply Hnone. intros [-> ->]. unfold indexed. rewrite Hs. cbn. by rewrite Hst. }
  assert (indexed index s st = stm) as Hi by (unfold indexed; rewrite Hs; cbn; by rewrite Hst).
  destruct (decide (stm ∖ {[k]} = ∅)) as [Hem | Hem];
    [rewrite (bool_decide_eq_true_2 (stm ∖ {[k]} = ∅)) by done | rewrite (bool_decide_eq_false_2 (stm ∖ {[k]} = ∅)) by done]; cbn [negb].
  - rewrite (indexed_remove _ _ _ _ _ _ Hs). case_bool_decide as Hb; [| done]. destruct Hb as [-> ->]. by rewrite Hi, Hem.
  - replace sm with (default ∅ (index !! s)) by (by rewrite Hs). rewrite indexed_insert. case_bool_decide as Hb; [| done].
    destruct Hb as [-> ->]. by rewrite Hi.
Qed.

Lemma fold_difference (m : gmap Z (gset Z)) (keys : gset Z) k :
  k ∈ map_fold (fun _ streamMap keys => keys ∖ streamMap) keys m <-> k ∈ keys /\ forall st, k ∉ default ∅ (m !! st).
Proof.
  induction m as [| st sm m Hst Hf IH] using map_first_key_ind.
  - rewrite map_fold_empty. setoid_rewrite lookup_empty. set_solver.
  - rewrite map_fold_insert_first_key by done. rewrite elem_of_difference, IH. split.
    + intros [[Hk Hm] Hsm]. split; [done |]. intros st'. destruct (decide (st' = st)) as [-> | Hne]; [by rewrite lookup_insert_eq | by rewrite lookup_insert_ne].
    + intros [Hk Hm]. split; [split; [done |] | specialize (Hm st); by rewrite lookup_insert_eq in Hm].
      intros st'. destruct (decide (st' = st)) as [-> | Hne]; [rewrite Hst; set_solver |]. specialize (Hm st'). by rewrite lookup_insert_ne in Hm.
Qed.

(** ** The operations *)

Lemma tracks_begin ids t p : identity_ok (identity_of p) -> tracks ids t ->
  (tryBeginDeferredPacket p t).1 = bool_decide (identity_of p ∉ ids) /\
  tracks ({[identity_of p]} ∪ ids) (tryBeginDeferredPacket p t).2.
Proof.
  intros Hp H. unfold tryBeginDeferredPacket. rewrite key_of_packet. set (i := identity_of p) in *.
  destruct (decide (i ∈ ids)) as [Hin | Hin].
  - rewrite bool_decide_eq_true_2 by (by apply (tracks_key ids)). split; [by rewrite bool_decide_eq_false_2 by tauto |].
    cbn [snd]. replace ({[i]} ∪ ids) with ids by set_solver. done.
  - rewrite bool_decide_eq_false_2 by (by rewrite (tracks_key ids)). split; [by rewrite bool_decide_eq_true_2 |]. destruct H as [H1 H2 H3]. split.
    + intros j [->%elem_of_singleton | Hj]%elem_of_union; [done | by apply H1].
    + intros k. cbn [deferredInflight snd]. rewrite elem_of_union, elem_of_singleton, H2. split.
      * intros [-> | (j & ? & ?)]; [exists i | exists j]; (split; [apply elem_of_union |]); [left; by apply elem_of_singleton | done | by right | done].
      * intros (j & [->%elem_of_singleton | Hj]%elem_of_union & <-); [by left |]. right. by exists j.
    + intros s st k Hs. cbn [deferredInflightIndex snd]. rewrite indexed_insert. case_bool_decide as Hb.
      * destruct Hb as [-> ->]. change (default ∅ (default ∅ (deferredInflightIndex t !! SessionID p) !! StreamID p))
          with (indexed (deferredInflightIndex t) (SessionID p) (StreamID p)).
        rewrite elem_of_union, elem_of_singleton, H3 by done. split.
        -- intros [-> | (j & Hj & ? & ?)]; [exists i | exists j]; (split; [apply elem_of_union | by split]).
           ++ left. by apply elem_of_singleton.
           ++ by right.
        -- intros (j & [->%elem_of_singleton | Hj]%elem_of_union & ? & <-); [by left |]. right. by exists j.
      * rewrite H3 by done. split; [intros (j & ? & ? & ?); exists j; split; [by apply elem_of_union_r | by split] |].
        intros (j & [->%elem_of_singleton | Hj]%elem_of_union & [E1 E2] & <-); [| by exists j]. by destruct Hb.
Qed.

Lemma tracks_finish ids t p : identity_ok (identity_of p) -> tracks ids t -> tracks (ids ∖ {[identity_of p]}) (finishDeferredPacket p t).
Proof.
  intros Hp H. unfold finishDeferredPacket. rewrite key_of_packet. set (i := identity_of p) in *. pose proof H as [H1 H2 H3].
  assert (forall j, j ∈ ids -> key_of j = key_of i -> j = i) as Hinj by (intros j Hj E; apply key_of_inj; auto). split.
  - intros j Hj. apply H1. set_solver.
  - intros k. cbn [deferredInflight]. rewrite elem_of_difference, H2, elem_of_singleton. split.
    + intros [(j & Hj & <-) Hne]. exists j. split; [| done]. set_unfold. split; [done |]. by intros ->.
    + intros (j & [Hj Hne]%elem_of_difference & <-). split; [by exists j |]. intros E. apply Hne. rewrite (Hinj j Hj E). by apply elem_of_singleton.
  - intros s st k Hs. cbn [deferredInflightIndex]. assert (k ∈ indexed (deferredInflightIndex t) s st /\ (in_stream s st i -> k <> key_of i) <->
      exists j, j ∈ ids ∖ {[i]} /\ in_stream s st j /\ key_of j = k) as E.
    { rewrite H3 by done. split.
      - intros [(j & Hj & Hst & <-) Hne]. exists j. split_and!; [| done | done]. set_unfold. split; [done |]. intros ->. by apply Hne.
      - intros (j & [Hj Hne]%elem_of_difference & Hst & <-). split; [by exists j |]. intros _ E. apply Hne. rewrite (Hinj j Hj E). by apply elem_of_singleton. }
    rewrite <- E. destruct (decide (SessionID p = 0)) as [H0 | H0].
    + unfold removeDeferredInflightIndexLocked. rewrite H0. cbn [Z.eqb]. split; [| tauto]. intros Hk. split; [done |].
      intros [Hsi _]. exfalso. apply Hs. rewrite <- Hsi. exact H0.
    + rewrite indexed_removeLocked by done. case_bool_decide as Hb.
      * destruct Hb as [-> ->]. rewrite elem_of_difference, elem_of_singleton. split; [tauto |]. intros [Hk Hne]. split; [done |]. by apply Hne.
      * split; [| tauto]. intros Hk. split; [done |]. intros [E1 E2]. by destruct Hb.
Qed.

Definition without_stream (s st : Z) (ids : gset identity) : gset identity :=
  if (s =? 0) || (st =? 0) then ids else filter (fun i => ~ in_stream s st i) ids.

Lemma tracks_clearStream ids t s st : tracks ids t -> tracks (without_stream s st ids) (clearDeferredInflightForStream s st t).
Proof.
  intros H. unfold without_stream, clearDeferredInflightForStream. destruct ((s =? 0) || (st =? 0)) eqn:H0; [done |].
  apply orb_false_iff in H0 as [Hs0%Z.eqb_neq _]. pose proof H as [H1 H2 H3].
  assert (indexed (deferredInflightIndex t) s st = ∅ -> tracks (filter (fun i => ~ in_stream s st i) ids) t) as Hnone.
  { intros He. replace (filter (fun i => ~ in_stream s st i) ids) with ids; [done |]. apply set_eq. intros i. rewrite elem_of_filter.
    split; [| tauto]. intros Hi. split; [| done]. intros Hst. assert (key_of i ∈ indexed (deferredInflightIndex t) s st) as Hk by (apply H3; [done |]; by exists i).
    rewrite He in Hk. set_solver. }
  destruct (deferredInflightIndex t !! s) as [sm |] eqn:Hsm; [| apply Hnone; unfold indexed; rewrite Hsm; cbn; by rewrite lookup_empty].
  destruct (sm !! st) as [stm |] eqn:Hstm; [| apply Hnone; unfold indexed; rewrite Hsm; cbn; by rewrite Hstm]. clear Hnone.
  assert (indexed (deferredInflightIndex t) s st = stm) as Hi by (unfold indexed; rewrite Hsm; cbn; by rewrite Hstm).
  assert (forall k, k ∈ stm <-> exists i, i ∈ ids /\ in_stream s st i /\ key_of i = k) as Hk by (intros k; rewrite <- Hi; by apply H3).
  assert (forall i j, i ∈ ids -> j ∈ ids -> key_of i = key_of j -> i = j) as Hinj by (intros; apply key_of_inj; auto). split.
  - intros i [_ Hin]%elem_of_filter. by apply H1.
  - intros k. cbn [deferredInflight]. rewrite elem_of_difference, H2, Hk. split.
    + intros [(i & Hin & <-) Hno]. exists i. split; [| done]. apply elem_of_filter. split; [| done]. intros Hst. apply Hno. by exists i.
    + intros (i & [Hno Hin]%elem_of_filter & <-). split; [by exists i |]. intros (j & Hj & Hst & E). apply Hinj in E as ->; done.
  - intros s' st' k Hs'. cbn [deferredInflightIndex]. rewrite (indexed_remove _ _ _ _ _ _ Hsm). case_bool_decide as Hb.
    + destruct Hb as [-> ->]. split; [set_solver |]. intros (i & [Hno _]%elem_of_filter & Hst & _). done.
    + rewrite H3 by done. split.
      * intros (i & Hin & Hst & <-). exists i. split; [| done]. apply elem_of_filter. split; [| done]. intros [E1 E2]. destruct Hst as [F1 F2]. apply Hb. by split; congruence.
      * intros (i & [_ Hin]%elem_of_filter & Hst & <-). by exists i.
Qed.

Definition without_session (s : Z) (ids : gset identity) : gset identity :=
  if s =? 0 then ids else filter (fun i => i.1.1.1.1 <> s) ids.

Lemma tracks_clearSession ids t s : tracks ids t -> tracks (without_session s ids) (clearDeferredInflightForSession s t).
Proof.
  intros H. unfold without_session, clearDeferredInflightForSession. destruct (Z.eqb_spec s 0) as [_ | Hs0]; [done |]. pose proof H as [H1 H2 H3].
  destruct (deferredInflightIndex t !! s) as [sm |] eqn:Hsm.
  2:{ replace (filter (fun i => i.1.1.1.1 <> s) ids) with ids; [done |]. apply set_eq. intros i. rewrite elem_of_filter. split; [| tauto].
      intros Hi. split; [| done]. intros Hst. assert (key_of i ∈ indexed (deferredInflightIndex t) s (i.1.1.1.2)) as Hk by (apply H3; [done |]; by exists i).
      unfold indexed in Hk. rewrite Hsm in Hk. cbn in Hk. rewrite lookup_empty in Hk. set_solver. }
  assert (forall st k, k ∈ default ∅ (sm !! st) <-> exists i, i ∈ ids /\ in_stream s st i /\ key_of i = k) as Hk.
  { intros st k. rewrite <- H3 by done. unfold indexed. by rewrite Hsm. }
  assert (forall i j, i ∈ ids -> j ∈ ids -> key_of i = key_of j -> i = j) as Hinj by (intros; apply key_of_inj; auto). split.
  - intros i [_ Hin]%elem_of_filter. by apply H1.
  - intros k. cbn [deferredInflight]. rewrite fold_difference, H2. setoid_rewrite Hk. split.
    + intros [(i & Hin & <-) Hno]. exists i. split; [| done]. apply elem_of_filter. split; [| done]. intros Hst. apply (Hno i.1.1.1.2). by exists i.
    + intros (i & [Hno Hin]%elem_of_filter & <-). split; [by exists i |]. intros st (j & Hj & [Hst _] & E). apply Hinj in E as ->; done.
  - intros s' st' k Hs'. cbn [deferredInflightIndex]. destruct (decide (s' = s)) as [-> | Hne].
    + unfold indexed. rewrite lookup_delete_eq. cbn. rewrite lookup_empty. split; [set_solver |].
      intros (i & [Hno _]%elem_of_filter & [Hst _] & _). done.
    + unfold indexed. rewrite lookup_delete_ne by done. change (default ∅ (default ∅ (deferredInflightIndex t !! s') !! st')) with (indexed (deferredInflightIndex t) s' st').
      rewrite H3 by done. split.
      * intros (i & Hin & [E1 E2] & <-). exists i. split; [apply elem_of_filter; split; congruence |]. by split.
      * intros (i & [_ Hin]%elem_of_filter & Hst & <-). by exists i.
Qed.

(** ** Histories *)

Inductive track_op := TrackBegin (p : Packet) | TrackFinish (p : Packet) | TrackClearStream (sessionID streamID : Z) | TrackClearSession (sessionID : Z).

Definition track_op_ok (o : track_op) : Prop := match o with TrackBegin p | TrackFinish p => identity_ok (identity_of p) | _ => True end.

Definition track_step (t : deferredTracker) (o : track_op) : deferredTracker :=
  match o with
  | TrackBegin p => (tryBeginDeferredPacket p t).2
  | TrackFinish p => finishDeferredPacket p t
  | TrackClearStream s st => clearDeferredInflightForStream s st t
  | TrackClearSession s => clearDeferredInflightForSession s t
  end.

(** The same operation on the set of identities. *)
Definition track_spec (ids : gset identity) (o : track_op) : gset identity :=
  match o with
  | TrackBegin p => {[identity_of p]} ∪ ids
  | TrackFinish p => ids ∖ {[identity_of p]}
  | TrackClearStream s st => without_stream s st ids
  | TrackClearSession s => without_session s ids
  end.

Lemma tracks_step ids t o : track_op_ok o -> tracks ids t -> tracks (track_spec ids o) (track_step t o).
Proof.
  intros Ho H. destruct o; cbn [track_spec track_step]; [by apply tracks_begin | by apply tracks_finish | by apply tracks_clearStream | by apply tracks_clearSession].
Qed.

Lemma tracks_new : tracks ∅ newDeferredTracker.
Proof.
  split; [set_solver | | ].
  - intros k. cbn. set_solver.
  - intros s st k _. unfold indexed. cbn. rewrite lookup_empty. cbn. rewrite lookup_empty. set_solver.
Qed.

Lemma tracks_run ops ids t : Forall track_op_ok ops -> tracks ids t -> tracks (fold_left track_spec ops ids) (fold_left track_step ops t).
Proof. revert ids t. induction ops as [| o ops IH]; intros ids t Ho H; [done |]. apply Forall_cons in Ho as [Ho Hr]. by apply IH, tracks_step. Qed.

(** After any history of packets that begin and end, of streams and of sessions that are
    cleared, the two maps hold exactly the set of the packet identities (session, stream,
    type, sequence number, fragment) that this history leaves: a packet can begin exactly
    when its identity is not in the set, and is tracked exactly when it is. *)
Theorem tracker_refines (ops : list track_op) (p : Packet) :
  Forall track_op_ok ops -> identity_ok (identity_of p) ->
  let t := fold_left track_step ops newDeferredTracker in
  let ids := fold_left track_spec ops ∅ in
  (tryBeginDeferredPacket p t).1 = bool_decide (identity_of p ∉ ids) /\
  isDeferredPacketStillTracked p t = bool_decide (identity_of p ∈ ids).
Proof.
  intros Ho Hp t ids. assert (tracks ids t) as H by (apply tracks_run; [done | apply tracks_new]). split; [by apply tracks_begin |].
  unfold isDeferredPacketStillTracked. apply bool_decide_ext. rewrite key_of_packet. by apply tracks_key.
Qed.

Definition syn_packet (sequenceNum fragmentID : Z) : Packet :=
  mkPacket 7 PACKET_SOCKS5_SYN 33 true 5 true sequenceNum true fragmentID 3 false 0 0 [].

Lemma tracker_refines_witness :
  let ops := [TrackBegin (syn_packet 1 0); TrackBegin (syn_packet 1 1); TrackFinish (syn_packet 1 0)] in
  let t := fold_left track_step ops newDeferredTracker in
  ((tryBeginDeferredPacket (syn_packet 1 0) t).1 = true /\ isDeferredPacketStillTracked (syn_packet 1 1) t = true) /\
  (tryBeginDeferredPacket (syn_packet 1 1) t).1 = bool_decide (identity_of (syn_packet 1 1) ∉ fold_left track_spec ops ∅).
Proof.
  split; [vm_compute; split; reflexivity |].
  refine (proj1 (tracker_refines [TrackBegin (syn_packet 1 0); TrackBegin (syn_packet 1 1); TrackFinish (syn_packet 1 0)] (syn_packet 1 1) _ _)).
  - repeat constructor; vm_compute; repeat split; congruence.
  - vm_compute; repeat split; congruence.
Defined.
