(* ===== verification/NetIP.v ===== *)
(** IP addresses and their text, as Go's packages net and net/netip have them.

    The sources print addresses with [net.IP.String], read them with [net.ParseIP] and ask
    whether they are public (src/masterdns/internal/socksproto/target.go,
    src/masterdns/internal/udpserver/socks5_upstream.go).  An address is its bytes, a text is
    a list of bytes.  Reading a printed address gives the address back. *)

From stdpp Require Import base tactics list gmap strings sorting.
From Stdlib Require Import ZArith Lia.
From S2P Require Import Prelude.

Module NetIP.

(** ** Addresses *)

Definition v4InV6Prefix : bytes := [0; 0; 0; 0; 0; 0; 0; 0; 0; 0; 255; 255].

Definition To4 (ip : bytes) : option bytes :=
  if len ip =? 4 then Some ip
  else if (len ip =? 16) && bool_decide (take 12 ip = v4InV6Prefix) then Some (drop 12 ip)
  else None.

Definition To16 (ip : bytes) : option bytes :=
  if len ip =? 4 then Some (v4InV6Prefix ++ ip) else if len ip =? 16 then Some ip else None.

Definition byte_at (ip : bytes) (i : nat) : Z := nth i ip 0.

(** [ip.Equal]: an IPv4 address equals its IPv4-in-IPv6 form. *)
Definition Equal (ip x : bytes) : bool := bool_decide (To16 ip = To16 x).

Definition IPv4zero : bytes := [0; 0; 0; 0].
Definition IPv4bcast : bytes := [255; 255; 255; 255].
Definition IPv6unspecified : bytes := replicate 16 0.
Definition IPv6loopback : bytes := replicate 15 0 ++ [1].

Definition IsUnspecified (ip : bytes) : bool := Equal ip IPv4zero || Equal ip IPv6unspecified.

Definition IsLoopback (ip : bytes) : bool :=
  match To4 ip with Some ip4 => byte_at ip4 0 =? 127 | None => Equal ip IPv6loopback end.

Definition IsPrivate (ip : bytes) : bool :=
  match To4 ip with
  | Some ip4 =>
      (byte_at ip4 0 =? 10) || ((byte_at ip4 0 =? 172) && (Z.land (byte_at ip4 1) 240 =? 16)) ||
      ((byte_at ip4 0 =? 192) && (byte_at ip4 1 =? 168))
  | None => (len ip =? 16) && (Z.land (byte_at ip 0) 254 =? 252)
  end.

Definition IsMulticast (ip : bytes) : bool :=
  match To4 ip with
  | Some ip4 => Z.land (byte_at ip4 0) 240 =? 224
  | None => (len ip =? 16) && (byte_at ip 0 =? 255)
  end.

Definition IsLinkLocalMulticast (ip : bytes) : bool :=
  match To4 ip with
  | Some ip4 => (byte_at ip4 0 =? 224) && (byte_at ip4 1 =? 0) && (byte_at ip4 2 =? 0)
  | None => (len ip =? 16) && (byte_at ip 0 =? 255) && (Z.land (byte_at ip 1) 15 =? 2)
  end.

Definition IsLinkLocalUnicast (ip : bytes) : bool :=
  match To4 ip with
  | Some ip4 => (byte_at ip4 0 =? 169) && (byte_at ip4 1 =? 254)
  | None => (len ip =? 16) && (byte_at ip 0 =? 254) && (Z.land (byte_at ip 1) 192 =? 128)
  end.

Definition IsGlobalUnicast (ip : bytes) : bool :=
  ((len ip =? 4) || (len ip =? 16)) && negb (Equal ip IPv4bcast) && negb (IsUnspecified ip) && negb (IsLoopback ip) &&
  negb (IsMulticast ip) && negb (IsLinkLocalUnicast ip).

(** ** Printing *)

Definition dec_byte (n : Z) : bytes :=
  if n <? 10 then [48 + n]
  else if n <? 100 then [48 + n / 10; 48 + n mod 10]
  else [48 + n / 100; 48 + (n / 10) mod 10; 48 + n mod 10].

(** Texts with a separator between them. *)
Fixpoint join (sep : bytes) (ts : list bytes) : bytes :=
  match ts with [] => [] | [t] => t | t :: ts => t ++ sep ++ join sep ts end.

Definition ip4_string (ip : bytes) : bytes := join [46] (map dec_byte ip).

Definition hex_digit (d : Z) : Z := if d <? 10 then 48 + d else 87 + d.

Definition appendHex (x : Z) : bytes :=
  (if 4096 <=? x then [hex_digit (Z.shiftr x 12)] else []) ++
  (if 256 <=? x then [hex_digit (Z.land (Z.shiftr x 8) 15)] else []) ++
  (if 16 <=? x then [hex_digit (Z.land (Z.shiftr x 4) 15)] else []) ++
  [hex_digit (Z.land x 15)].

(** The eight groups of an IPv6 address. *)
Definition group (ip : bytes) (i : nat) : Z := of_be16 (byte_at ip (2 * i)) (byte_at ip (2 * i + 1)).

(** [for j < 8 && ip.v6u16(j) == 0 { j++ }] *)
Fixpoint run_end (ip : bytes) (fuel j : nat) : nat :=
  match fuel with
  | O => j
  | S fuel => if (j <? 8)%nat && (group ip j =? 0) then run_end ip fuel (S j) else j
  end.

(** The longest run of zero groups so far, from [zeroStart] to [zeroEnd]. *)
Definition better_run (ip : bytes) (zero : nat * nat) (i : nat) : nat * nat :=
  let j := run_end ip 8 i in
  if (2 <=? j - i)%nat && (zero.2 - zero.1 <? j - i)%nat then (i, j) else zero.

Definition zero_run (ip : bytes) : nat * nat := fold_left (better_run ip) (seq 0 8) (255, 255)%nat.

Fixpoint print6 (ip : bytes) (zero : nat * nat) (fuel i : nat) : bytes :=
  match fuel with
  | O => []
  | S fuel =>
      if (8 <=? i)%nat then []
      else if (i =? zero.1)%nat then
        [58; 58] ++ (if (8 <=? zero.2)%nat then [] else appendHex (group ip zero.2) ++ print6 ip zero fuel (S zero.2))
      else (if (0 <? i)%nat then [58] else []) ++ appendHex (group ip i) ++ print6 ip zero fuel (S i)
  end.

Definition ip6_string (ip : bytes) : bytes := print6 ip (zero_run ip) 8 0.

(** [ip.String()] of an address with 4 or 16 bytes. *)
Definition String (ip : bytes) : bytes := match To4 ip with Some ip4 => ip4_string ip4 | None => ip6_string ip end.

(** ** Reading *)

Definition is_digit (c : Z) : bool := (48 <=? c) && (c <=? 57).

(** The loop of [parseIPv4Fields]: the fields so far, the value and the digits of the
    current one, the character before. *)
Fixpoint parse4_loop (s : bytes) (prev : option Z) (fields : bytes) (val digLen : Z) : option bytes :=
  match s with
  | [] => if len fields <? 3 then None else Some (fields ++ [val])
  | c :: s =>
      if is_digit c then
        if (digLen =? 1) && (val =? 0) then None
        else
          let val := val * 10 + (c - 48) in
          if 255 <? val then None else parse4_loop s (Some c) fields val (digLen + 1)
      else if c =? 46 then
        if bool_decide (prev = None) || bool_decide (s = []) || bool_decide (prev = Some 46) then None
        else if len fields =? 3 then None
        else parse4_loop s (Some c) (fields ++ [val]) 0 0
      else None
  end.

Definition parseIPv4 (s : bytes) : option bytes := parse4_loop s None [] 0 0.

Definition hex_value (c : Z) : option Z :=
  if is_digit c then Some (c - 48)
  else if (97 <=? c) && (c <=? 102) then Some (c - 87)
  else if (65 <=? c) && (c <=? 70) then Some (c - 55)
  else None.

(** The digits of a group: how many, their value, what follows. *)
Fixpoint hex_number (s : bytes) (off : nat) (acc : Z) : option (nat * Z * bytes) :=
  match s with
  | [] => Some (off, acc, [])
  | c :: s' =>
      match hex_value c with
      | None => Some (off, acc, s)
      | Some d =>
          let acc := Z.shiftl acc 4 + d in
          if (3 <? off)%nat then None else if 65535 <? acc then None else hex_number s' (S off) acc
      end
  end.

(** The loop of [parseIPv6] over the groups; [fuel] counts the groups that are left, [ip] is
    what has been read. *)
Fixpoint parse6_loop (fuel : nat) (s ip : bytes) (ellipsis : option nat) : option (bytes * bytes * option nat) :=
  match fuel with
  | O => Some (s, ip, ellipsis)
  | S fuel =>
      match hex_number s 0 0 with
      | None => None
      | Some (off, acc, rest) =>
          if (off =? 0)%nat then None
          else if bool_decide (head rest = Some 46) then
            if bool_decide (ellipsis = None) && negb (len ip =? 12) then None
            else if 16 <? len ip + 4 then None
            else match parseIPv4 s with None => None | Some ip4 => Some ([], ip ++ ip4, ellipsis) end
          else
            let ip := ip ++ [Z.shiftr acc 8; Z.land acc 255] in
            match rest with
            | [] => Some ([], ip, ellipsis)
            | c :: rest =>
                if negb (c =? 58) then None
                else match rest with
                | [] => None
                | c :: rest' =>
                    if c =? 58 then
                      if bool_decide (is_Some ellipsis) then None
                      else match rest' with
                           | [] => Some ([], ip, Some (length ip))
                           | _ => parse6_loop fuel rest' ip (Some (length ip))
                           end
                    else parse6_loop fuel rest ip ellipsis
                end
            end
      end
  end.

Definition parse6_finish (r : option (bytes * bytes * option nat)) : option bytes :=
  match r with
  | None => None
  | Some (s, ip, ellipsis) =>
      if negb (bool_decide (s = [])) then None
      else if len ip <? 16 then
        match ellipsis with
        | None => None
        | Some e => Some (take e ip ++ replicate (16 - length ip) 0 ++ drop e ip)
        end
      else match ellipsis with Some _ => None | None => Some ip end
  end.

(** The address and the zone. *)
Definition parseIPv6 (s : bytes) : option (bytes * bytes) :=
  let split :=
    match list_find (fun c => c = 37) s with
    | None => Some (s, [])
    | Some (i, _) => if bool_decide (drop (S i) s = []) then None else Some (take i s, drop (S i) s)
    end in
  match split with
  | None => None
  | Some (s, zone) =>
      (fun ip => (ip, zone)) <$>
      (if bool_decide (take 2 s = [58; 58]) then
         if bool_decide (drop 2 s = []) then Some IPv6unspecified else parse6_finish (parse6_loop 8 (drop 2 s) [] (Some 0%nat))
       else parse6_finish (parse6_loop 8 s [] None))
  end.

(** [netip.ParseAddr]: the first of the characters [.], [:] and [%] decides. *)
Fixpoint parse_kind (s : bytes) : option Z :=
  match s with [] => None | c :: s => if (c =? 46) || (c =? 58) || (c =? 37) then Some c else parse_kind s end.

Definition ParseIP (s : bytes) : option bytes :=
  match parse_kind s with
  | Some 46 => (fun ip4 => v4InV6Prefix ++ ip4) <$> parseIPv4 s
  | Some 58 => match parseIPv6 s with Some (ip, []) => Some ip | _ => None end
  | _ => None
  end.

(** ** Host and port *)

Definition IndexByte (s : bytes) (c : Z) : option nat := fst <$> list_find (fun x => x = c) s.

Definition LastIndexByte (s : bytes) (c : Z) : option nat :=
  match IndexByte (reverse s) c with Some i => Some (length s - S i)%nat | None => None end.

Definition contains_byte (s : bytes) (c : Z) : bool := bool_decide (c ∈ s).

(** [net.SplitHostPort]; None where it returns an error. *)
Definition SplitHostPort (hostport : bytes) : option (bytes * bytes) :=
  match LastIndexByte hostport 58 with
  | None => None
  | Some i =>
      let finish host j k :=
        if contains_byte (drop j hostport) 91 || contains_byte (drop k hostport) 93 then None
        else Some (host, drop (S i) hostport) in
      if bool_decide (head hostport = Some 91) then
        match IndexByte hostport 93 with
        | None => None
        | Some end_ => if (S end_ =? i)%nat then finish (drop 1 (take end_ hostport)) 1%nat (S end_) else None
        end
      else
        let host := take i hostport in
        if contains_byte host 58 then None else finish host 0%nat 0%nat
  end.

(** ** Dotted decimal *)

Lemma parse4_digits n rest prev fields :
  0 <= n <= 255 -> exists c k, 0 < k /\ c <> 46 /\ parse4_loop (dec_byte n ++ rest) prev fields 0 0 = parse4_loop rest (Some c) fields n k.
Proof.
  intros Hn. unfold dec_byte.
  assert (Hd : forall c, 0 <= c <= 9 -> is_digit (48 + c) = true) by (intros; unfold is_digit; lia).
  assert (Hstep : forall c s prev fields val k, 0 <= c <= 9 -> k <> 1 \/ val <> 0 -> val * 10 + c <= 255 ->
    parse4_loop (48 + c :: s) prev fields val k = parse4_loop s (Some (48 + c)) fields (val * 10 + c) (k + 1)).
  { intros c s pr fs val k Hc Hk Hv. cbn [parse4_loop]. rewrite Hd by done.
    replace ((k =? 1) && (val =? 0)) with false by (symmetry; apply andb_false_iff; rewrite !Z.eqb_neq; lia).
    replace (48 + c - 48) with c by lia. by rewrite (proj2 (Z.ltb_ge _ _)). }
  pose proof (Z.div_mod n 10). pose proof (Z.mod_pos_bound n 10). pose proof (Z.div_mod (n / 10) 10). pose proof (Z.mod_pos_bound (n / 10) 10).
  assert (n / 100 = n / 10 / 10) as Hd100 by (by rewrite Z.div_div by lia). destruct (Z.ltb_spec n 10); [| destruct (Z.ltb_spec n 100)]; cbn [app].
  - rewrite Hstep by lia. exists (48 + n), 1. split_and!; [lia | lia |]. f_equal; lia.
  - rewrite (Hstep (n / 10)) by lia. rewrite (Hstep (n mod 10)) by lia. exists (48 + n mod 10), 2. split_and!; [lia | lia |]. f_equal; lia.
  - rewrite (Hstep (n / 100)) by lia. rewrite (Hstep ((n / 10) mod 10)) by lia. rewrite (Hstep (n mod 10)) by lia.
    exists (48 + n mod 10), 3. split_and!; [lia | lia |]. f_equal; lia.
Qed.

Lemma parse4_dot rest c fields n k : c <> 46 -> rest <> [] -> len fields <> 3 ->
  parse4_loop (46 :: rest) (Some c) fields n k = parse4_loop rest (Some 46) (fields ++ [n]) 0 0.
Proof.
  intros Hc Hr Hf. cbn [parse4_loop]. change (is_digit 46) with false. change (46 =? 46) with true. cbn match.
  rewrite !bool_decide_eq_false_2 by congruence. cbn [orb]. by rewrite (proj2 (Z.eqb_neq _ _)).
Qed.

Lemma dec_byte_ne n : dec_byte n <> [].
Proof. unfold dec_byte. by repeat case_if. Qed.

Lemma parse4_string ip : length ip = 4%nat -> bytes_ok ip -> parseIPv4 (ip4_string ip) = Some ip.
Proof.
  destruct ip as [| a [| b [| c [| d [| ]]]]]; try done. intros _ Hok. unfold bytes_ok in Hok.
  repeat (apply Forall_cons in Hok as [? Hok]). unfold u8 in *. unfold parseIPv4, ip4_string. cbn [map join app].
  assert (Hne : forall n s, dec_byte n ++ s <> []) by (intros n s E; apply app_eq_nil in E as [E _]; by apply dec_byte_ne in E).
  destruct (parse4_digits a (46 :: dec_byte b ++ 46 :: dec_byte c ++ 46 :: dec_byte d) None []) as (x & k & _ & Hx & ->); [lia |].
  rewrite parse4_dot by (done || apply Hne).
  destruct (parse4_digits b (46 :: dec_byte c ++ 46 :: dec_byte d) (Some 46) ([] ++ [a])) as (y & k' & _ & Hy & ->); [lia |].
  rewrite parse4_dot by (done || apply Hne).
  destruct (parse4_digits c (46 :: dec_byte d) (Some 46) (([] ++ [a]) ++ [b])) as (z & k'' & _ & Hz & ->); [lia |].
  rewrite parse4_dot by (done || apply dec_byte_ne). rewrite <- (app_nil_r (dec_byte d)).
  destruct (parse4_digits d [] (Some 46) ((([] ++ [a]) ++ [b]) ++ [c])) as (w & k''' & _ & _ & ->); [lia | done].
Qed.

(** The kind of a text that starts with characters that do not decide. *)
Lemma parse_kind_skip s t : Forall (fun c => c <> 46 /\ c <> 58 /\ c <> 37) s -> parse_kind (s ++ t) = parse_kind t.
Proof.
  induction 1 as [| c s (H1 & H2 & H3) _ IH]; [done |]. cbn [app parse_kind].
  by rewrite (proj2 (Z.eqb_neq _ _) H1), (proj2 (Z.eqb_neq _ _) H2), (proj2 (Z.eqb_neq _ _) H3).
Qed.

Lemma dec_byte_plain n : 0 <= n <= 255 -> Forall (fun c => c <> 46 /\ c <> 58 /\ c <> 37) (dec_byte n).
Proof.
  intros Hn. unfold dec_byte. pose proof (Z.div_mod n 10). pose proof (Z.mod_pos_bound n 10). pose proof (Z.div_mod (n / 10) 10).
  pose proof (Z.mod_pos_bound (n / 10) 10). assert (n / 100 = n / 10 / 10) by (by rewrite Z.div_div by lia).
  repeat case_if; zbool; repeat constructor; lia.
Qed.

(** Reading a printed IPv4 address gives its IPv4-in-IPv6 form. *)
Lemma ParseIP_ip4 ip : length ip = 4%nat -> bytes_ok ip -> ParseIP (ip4_string ip) = Some (v4InV6Prefix ++ ip).
Proof.
  intros Hl Hok. unfold ParseIP. rewrite parse4_string by done.
  replace (parse_kind (ip4_string ip)) with (Some 46); [done |]. symmetry.
  destruct ip as [| a [| b ip]]; try done. unfold ip4_string. cbn [map join]. unfold bytes_ok in Hok. apply Forall_cons in Hok as [Ha _].
  destruct (map dec_byte (b :: ip)) eqn:E; [done |]. cbn [join]. rewrite parse_kind_skip by (apply dec_byte_plain; unfold u8 in Ha; lia). done.
Qed.

(** ** Groups *)

Lemma hex_value_digit d : 0 <= d <= 15 -> hex_value (hex_digit d) = Some d.
Proof. intros Hd. unfold hex_value, hex_digit, is_digit. repeat case_if; zbool; try lia; f_equal; lia. Qed.

Lemma hex_number_step d s off acc :
  0 <= d <= 15 -> (off <= 3)%nat -> 0 <= acc -> acc * 16 + d <= 65535 ->
  hex_number (hex_digit d :: s) off acc = hex_number s (S off) (acc * 16 + d).
Proof.
  intros Hd Ho Ha Hv. cbn [hex_number]. rewrite hex_value_digit by done. rewrite Z.shiftl_mul_pow2 by lia. change (2 ^ 4) with 16.
  rewrite (proj2 (Nat.ltb_ge _ _)) by lia. by rewrite (proj2 (Z.ltb_ge _ _)).
Qed.

Lemma hex_number_stop rest off acc : (forall c r, rest = c :: r -> hex_value c = None) -> hex_number rest off acc = Some (off, acc, rest).
Proof. destruct rest as [| c r]; intros H; [done |]. cbn [hex_number]. by rewrite (H c r). Qed.

Lemma hex_nibbles x : 0 <= x <= 65535 ->
  Z.shiftr x 12 = x / 4096 /\ Z.land (Z.shiftr x 8) 15 = (x / 256) mod 16 /\ Z.land (Z.shiftr x 4) 15 = (x / 16) mod 16 /\ Z.land x 15 = x mod 16.
Proof.
  intros Hx. change 15 with (Z.ones 4). rewrite !Z.land_ones by lia. rewrite !Z.shiftr_div_pow2 by lia. done.
Qed.

(** Reading a printed group stops after it. *)
Lemma hex_number_group x rest : 0 <= x <= 65535 -> (forall c r, rest = c :: r -> hex_value c = None) ->
  exists off, off <> 0%nat /\ hex_number (appendHex x ++ rest) 0 0 = Some (off, x, rest).
Proof.
  intros Hx Hr. unfold appendHex. destruct (hex_nibbles x Hx) as (-> & -> & -> & ->).
  set (a := x / 4096). set (b := (x / 256) mod 16). set (c := (x / 16) mod 16). set (d := x mod 16).
  assert (0 <= a <= 15) by (unfold a; split; [apply Z.div_pos; lia | apply Z.lt_succ_r, Z.div_lt_upper_bound; lia]).
  assert (0 <= b <= 15) by (unfold b; pose proof (Z.mod_pos_bound (x / 256) 16); lia).
  assert (0 <= c <= 15) by (unfold c; pose proof (Z.mod_pos_bound (x / 16) 16); lia).
  assert (0 <= d <= 15) by (unfold d; pose proof (Z.mod_pos_bound x 16); lia).
  assert (x = ((a * 16 + b) * 16 + c) * 16 + d) as Hv.
  { unfold a, b, c, d. pose proof (Z.div_mod x 16). pose proof (Z.div_mod (x / 16) 16). pose proof (Z.div_mod (x / 256) 16).
    assert (x / 256 = x / 16 / 16) by (by rewrite Z.div_div by lia). assert (x / 4096 = x / 256 / 16) by (by rewrite Z.div_div by lia). lia. }
  clearbody a b c d. repeat case_if; zbool; cbn [app]; rewrite !hex_number_step by lia; rewrite (hex_number_stop rest) by done;
    eexists; (split; [| f_equal; f_equal; f_equal; lia]); done.
Qed.

Definition group_ok (x : Z) : Prop := 0 <= x <= 65535.

Definition split16 (x : Z) : bytes := [Z.shiftr x 8; Z.land x 255].

(** The texts of groups with colons between them. *)
Abbreviation groups_text gs := (join [58] (map appendHex gs)).

Lemma hex_value_colon : hex_value 58 = None.
Proof. done. Qed.

Lemma groups_text_ne x gs : exists c t, groups_text (x :: gs) = c :: t /\ c <> 58.
Proof.
  assert (exists c t, appendHex x = c :: t /\ c <> 58) as (c & t & E & Hc).
  { unfold appendHex. assert (forall d, 0 <= d -> hex_digit d <> 58) as Hd by (intros d Hd; unfold hex_digit; case_if; zbool; lia).
    assert (Hl : forall y, 0 <= Z.land y 15) by (intros y; apply Z.land_nonneg; lia).
    repeat case_if; zbool; cbn [app]; eexists _, _; (split; [reflexivity |]); apply Hd; first [apply Hl | apply Z.shiftr_nonneg; lia]. }
  destruct gs as [| y gs]; cbn [map join]; rewrite E; cbn [app]; by eexists _, _.
Qed.

(** Groups up to the end of the text. *)
Lemma parse6_groups gs : forall fuel ip el, gs <> [] -> (length gs <= fuel)%nat -> Forall group_ok gs ->
  parse6_loop fuel (groups_text gs) ip el = Some ([], ip ++ (gs ≫= split16), el).
Proof.
  induction gs as [| x gs IH]; intros fuel ip el Hne Hf Hok; [done |]. apply Forall_cons in Hok as [Hx Hok]. destruct fuel as [| fuel]; [cbn in Hf; lia |].
  cbn [parse6_loop]. destruct gs as [| y gs].
  - cbn [map join]. rewrite <- (app_nil_r (appendHex x)). destruct (hex_number_group x [] Hx) as (off & Ho & ->); [done |].
    rewrite (proj2 (Nat.eqb_neq _ _) Ho). cbn. done.
  - change (groups_text (x :: y :: gs)) with (appendHex x ++ 58 :: groups_text (y :: gs)).
    destruct (hex_number_group x (58 :: groups_text (y :: gs)) Hx) as (off & Ho & ->); [by intros c r [= <- <-] |].
    rewrite (proj2 (Nat.eqb_neq _ _) Ho). rewrite bool_decide_eq_false_2 by done. change (negb (58 =? 58)) with false. cbn match.
    destruct (groups_text_ne y gs) as (c & t & E & Hc). rewrite E. rewrite (proj2 (Z.eqb_neq _ _) Hc). rewrite <- E.
    rewrite IH by (done || cbn in *; lia). cbn [mbind list_bind]. by rewrite <- app_assoc.
Qed.

(** Groups up to the double colon. *)
Lemma parse6_ellipsis gs : forall fuel ip t, gs <> [] -> (length gs <= fuel)%nat -> Forall group_ok gs ->
  parse6_loop fuel (groups_text gs ++ 58 :: 58 :: t) ip None =
  let ip' := ip ++ (gs ≫= split16) in
  match t with [] => Some ([], ip', Some (length ip')) | _ => parse6_loop (fuel - length gs) t ip' (Some (length ip')) end.
Proof.
  induction gs as [| x gs IH]; intros fuel ip t Hne Hf Hok; [done |]. apply Forall_cons in Hok as [Hx Hok]. destruct fuel as [| fuel]; [cbn in Hf; lia |].
  cbn [parse6_loop]. destruct gs as [| y gs].
  - cbn [map join]. destruct (hex_number_group x (58 :: 58 :: t) Hx) as (off & Ho & ->); [by intros c r [= <- <-] |].
    rewrite (proj2 (Nat.eqb_neq _ _) Ho). rewrite bool_decide_eq_false_2 by done. change (negb (58 =? 58)) with false. change (58 =? 58) with true. cbn match.
    rewrite bool_decide_eq_false_2 by (by intros []). replace (S fuel - length [x])%nat with fuel by (cbn; lia). cbn [mbind list_bind]. rewrite app_nil_r. done.
  - change (groups_text (x :: y :: gs)) with (appendHex x ++ 58 :: groups_text (y :: gs)). rewrite <- app_assoc. cbn [app].
    destruct (hex_number_group x (58 :: groups_text (y :: gs) ++ 58 :: 58 :: t) Hx) as (off & Ho & ->); [by intros c r [= <- <-] |].
    rewrite (proj2 (Nat.eqb_neq _ _) Ho). rewrite bool_decide_eq_false_2 by done. change (negb (58 =? 58)) with false. cbn match.
    destruct (groups_text_ne y gs) as (c & u & E & Hc). rewrite E. cbn [app]. rewrite (proj2 (Z.eqb_neq _ _) Hc). change (c :: u ++ ?r) with ((c :: u) ++ r). rewrite <- E.
    rewrite IH by (done || cbn in *; lia). cbn [mbind list_bind length]. rewrite <- (app_assoc ip). done.
Qed.
(** ** The printed form *)

Definition groups (ip : bytes) (i n : nat) : list Z := map (group ip) (seq i n).

Lemma groups_cons ip i n : groups ip i (S n) = group ip i :: groups ip (S i) n.
Proof. done. Qed.

Lemma groups_split ip i n m : groups ip i (n + m) = groups ip i n ++ groups ip (i + n) m.
Proof. unfold groups. by rewrite seq_app, map_app. Qed.

(** Groups without the run. *)
Lemma print6_plain ip zero fuel : forall i, (forall j, (i <= j < 8)%nat -> j <> zero.1) -> (8 - i <= fuel)%nat ->
  print6 ip zero fuel i = if (8 <=? i)%nat then [] else (if (0 <? i)%nat then [58] else []) ++ groups_text (groups ip i (8 - i)).
Proof.
  induction fuel as [| fuel IH]; intros i Hz Hf.
  - rewrite (proj2 (Nat.leb_le 8 i)) by lia. done.
  - cbn [print6]. destruct (Nat.leb_spec 8 i) as [| Hi]; [done |]. rewrite (proj2 (Nat.eqb_neq i zero.1)) by (apply Hz; lia).
    rewrite IH by (intros; try apply Hz; lia). replace (8 - i)%nat with (S (8 - S i)) by lia. rewrite groups_cons. f_equal.
    destruct (Nat.leb_spec 8 (S i)) as [H8 | H8].
    + replace (8 - S i)%nat with 0%nat by lia. cbn. by rewrite app_nil_r.
    + replace (8 - S i)%nat with (S (8 - S (S i))) by lia. rewrite groups_cons. done.
Qed.

(** Groups with the run of zeros ahead. *)
Lemma print6_run ip zs ze fuel : (zs < 8)%nat -> (zs < ze)%nat -> forall i, (i <= zs)%nat -> (8 - i <= fuel)%nat ->
  print6 ip (zs, ze) fuel i =
  (if (i <? zs)%nat then (if (0 <? i)%nat then [58] else []) ++ groups_text (groups ip i (zs - i)) else []) ++
  [58; 58] ++ (if (8 <=? ze)%nat then [] else groups_text (groups ip ze (8 - ze))).
Proof.
  intros Hzs Hze. induction fuel as [| fuel IH]; intros i Hi Hf; [lia |]. cbn [print6 fst snd].
  rewrite (proj2 (Nat.leb_gt 8 i)) by lia. destruct (Nat.eqb_spec i zs) as [-> | Hne].
  - rewrite Nat.ltb_irrefl. cbn [app]. do 2 f_equal. destruct (Nat.leb_spec 8 ze) as [| H8]; [done |].
    rewrite print6_plain by (cbn [fst]; intros; lia). replace (8 - ze)%nat with (S (8 - S ze)) by lia. rewrite groups_cons.
    destruct (Nat.leb_spec 8 (S ze)) as [H9 | H9].
    + replace (8 - S ze)%nat with 0%nat by lia. cbn. by rewrite app_nil_r.
    + replace (8 - S ze)%nat with (S (8 - S (S ze))) by lia. by rewrite groups_cons.
  - rewrite IH by lia. rewrite (proj2 (Nat.ltb_lt i zs)) by lia. rewrite <- app_assoc. f_equal.
    replace (zs - i)%nat with (S (zs - S i)) by lia. rewrite groups_cons. destruct (Nat.ltb_spec (S i) zs) as [Hl | Hl].
    + replace (zs - S i)%nat with (S (zs - S (S i))) by lia. rewrite groups_cons. change (0 <? S i)%nat with true. cbn match.
      change (groups_text (?x :: ?y :: ?l)) with (appendHex x ++ [58] ++ groups_text (y :: l)). by rewrite <- !app_assoc.
    + replace (zs - S i)%nat with 0%nat by lia. done.
Qed.

Lemma run_end_spec ip fuel i : (i <= 8)%nat ->
  (i <= run_end ip fuel i <= 8)%nat /\ forall j, (i <= j < run_end ip fuel i)%nat -> group ip j = 0.
Proof.
  revert i. induction fuel as [| fuel IH]; intros i Hi; cbn [run_end]; [split; [lia | intros; lia] |].
  destruct (Nat.ltb_spec i 8) as [H8 |]; cbn [andb]; [| split; [lia | intros; lia]].
  destruct (Z.eqb_spec (group ip i) 0) as [H0 |]; [| split; [lia | intros; lia]].
  destruct (IH (S i)) as [H1 H2]; [lia |]. split; [lia |]. intros j Hj. destruct (decide (j = i)) as [-> | Hne]; [done |]. apply H2. lia.
Qed.

Definition run_ok (ip : bytes) (z : nat * nat) : Prop :=
  z.1 = 255%nat \/ (z.1 + 2 <= z.2 <= 8)%nat /\ forall j, (z.1 <= j < z.2)%nat -> group ip j = 0.

Lemma zero_run_ok ip : run_ok ip (zero_run ip).
Proof.
  unfold zero_run. assert (forall l z, Forall (fun i => i <= 8)%nat l -> run_ok ip z -> run_ok ip (fold_left (better_run ip) l z)) as H.
  { induction l as [| i l IH]; intros z Hl Hz; [done |]. apply Forall_cons in Hl as [Hi Hl]. cbn [fold_left]. apply IH; [done |].
    unfold better_run. destruct (run_end_spec ip 8 i Hi) as [H1 H2]. destruct ((2 <=? _)%nat && _) eqn:Hb; [| done].
    apply andb_true_iff in Hb as [Ha%Nat.leb_le _]. right. cbn [fst snd]. split; [lia | done]. }
  apply H; [| by left]. apply Forall_forall. intros i Hi%elem_of_seq. lia.
Qed.

(** ** Reading a printed IPv6 address *)

Lemma split16_be a b : u8 a -> u8 b -> split16 (of_be16 a b) = [a; b].
Proof.
  unfold u8, split16. intros Ha Hb. rewrite of_be16_arith by done. change 255 with (Z.ones 8). rewrite Z.land_ones by lia.
  rewrite Z.shiftr_div_pow2 by lia. change (2 ^ 8) with 256. f_equal; [| f_equal].
  - rewrite Z.add_comm, Z.mul_comm, Z.div_add by lia. rewrite Z.div_small by lia. lia.
  - rewrite Z.add_comm, Z.mul_comm, Z.mod_add by lia. apply Z.mod_small. lia.
Qed.

Lemma groups_bytes ip : length ip = 16%nat -> bytes_ok ip -> groups ip 0 8 ≫= split16 = ip /\ Forall group_ok (groups ip 0 8).
Proof.
  intros Hl Hok. do 16 (destruct ip as [| ? ip]; [done |]). destruct ip; [| done]. clear Hl. unfold bytes_ok in Hok.
  repeat (apply Forall_cons in Hok as [? Hok]). unfold groups, group, byte_at. cbn [seq map Nat.mul Nat.add nth]. split.
  - cbn [mbind list_bind]. rewrite !split16_be by done. done.
  - repeat constructor; unfold group_ok; unfold u8 in *; rewrite of_be16_arith by (unfold u8; lia); lia.
Qed.

Lemma appendHex_plain x : 0 <= x -> Forall (fun c => c <> 46 /\ c <> 58 /\ c <> 37) (appendHex x).
Proof.
  intros Hx. assert (forall d, 0 <= d -> hex_digit d <> 46 /\ hex_digit d <> 58 /\ hex_digit d <> 37) as Hd by (intros d Hd; unfold hex_digit; case_if; zbool; lia).
  assert (Hl : forall y, 0 <= Z.land y 15) by (intros y; apply Z.land_nonneg; lia).
  unfold appendHex. repeat apply Forall_app_2; repeat case_if; repeat constructor; apply Hd; first [apply Hl | by apply Z.shiftr_nonneg].
Qed.

Lemma groups_text_chars gs : Forall group_ok gs -> Forall (fun c => c <> 37) (groups_text gs).
Proof.
  assert (forall x, group_ok x -> Forall (fun c => c <> 37) (appendHex x)) as Hx.
  { intros x Hx. eapply Forall_impl; [apply appendHex_plain; unfold group_ok in Hx; lia |]. by intros c (_ & _ & ?). }
  induction 1 as [| x gs Hg Hgs IH]; [constructor |]. cbn [map join]. destruct gs as [| y gs]; [by apply Hx |].
  cbn [map] in *. apply Forall_app_2; [by apply Hx |]. apply Forall_app_2; [by repeat constructor |]. exact IH.
Qed.

Lemma no_percent s : Forall (fun c => c <> 37) s -> list_find (fun c => c = 37) s = None.
Proof. intros H. apply list_find_None. eapply Forall_impl; [exact H | done]. Qed.

(** Groups and then a colon make an IPv6 text. *)
Lemma kind_groups gs t : gs <> [] -> Forall group_ok gs -> parse_kind (groups_text gs ++ 58 :: t) = Some 58.
Proof.
  intros Hne Hok. destruct gs as [| x gs]; [done |]. apply Forall_cons in Hok as [Hx Hok]. unfold group_ok in Hx. destruct gs as [| y gs].
  - cbn [map join]. by rewrite parse_kind_skip by (apply appendHex_plain; lia).
  - change (groups_text (x :: y :: gs)) with (appendHex x ++ 58 :: groups_text (y :: gs)). rewrite <- app_assoc.
    by rewrite parse_kind_skip by (apply appendHex_plain; lia).
Qed.

Lemma ParseIP_colon s : parse_kind s = Some 58 -> Forall (fun c => c <> 37) s ->
  ParseIP s =
    if bool_decide (take 2 s = [58; 58]) then
      if bool_decide (drop 2 s = []) then Some IPv6unspecified else parse6_finish (parse6_loop 8 (drop 2 s) [] (Some 0%nat))
    else parse6_finish (parse6_loop 8 s [] None).
Proof.
  intros Hk Hp. unfold ParseIP, parseIPv6. rewrite Hk, no_percent by done.
  set (o := if bool_decide (take 2 s = [58; 58]) then _ else _). by destruct o.
Qed.

(** A text of groups does not start with a colon. *)
Lemma ParseIP_groups gs t : gs <> [] -> Forall group_ok gs -> Forall (fun c => c <> 37) t -> parse_kind (groups_text gs ++ t) = Some 58 ->
  ParseIP (groups_text gs ++ t) = parse6_finish (parse6_loop 8 (groups_text gs ++ t) [] None).
Proof.
  intros Hne Hok Ht Hk. rewrite ParseIP_colon by (done || by apply Forall_app_2; [apply groups_text_chars |]).
  destruct gs as [| x gs]; [done |]. destruct (groups_text_ne x gs) as (c & u & -> & Hc). cbn [app].
  rewrite bool_decide_eq_false_2; [done |]. destruct (u ++ t); cbn; congruence.
Qed.

(** The address around the run of zeros. *)
Lemma groups_around ip zs ze : (zs <= ze <= 8)%nat -> (forall j, (zs <= j < ze)%nat -> group ip j = 0) ->
  groups ip 0 8 ≫= split16 = (groups ip 0 zs ≫= split16) ++ replicate (2 * (ze - zs)) 0 ++ (groups ip ze (8 - ze) ≫= split16).
Proof.
  intros Hz Hj. replace 8%nat with (zs + ((ze - zs) + (8 - ze)))%nat at 1 by lia. rewrite !groups_split, !bind_app. cbn [Nat.add].
  replace (zs + (ze - zs))%nat with ze by lia. f_equal. f_equal.
  assert (forall n i, (forall j, (i <= j < i + n)%nat -> group ip j = 0) -> groups ip i n ≫= split16 = replicate (2 * n) 0) as H.
  { induction n as [| n IH]; intros i Hg; [done |]. rewrite groups_cons, bind_cons, Hg, IH by (intros; try apply Hg; lia).
    replace (2 * S n)%nat with (S (S (2 * n))) by lia. done. }
  apply H. intros j Hjr. apply Hj. lia.
Qed.

Lemma groups_length ip i n : length (groups ip i n) = n.
Proof. unfold groups. by rewrite length_map, length_seq. Qed.

Lemma groups_split16_length ip i n : length (groups ip i n ≫= split16) = (2 * n)%nat.
Proof. revert i. induction n as [| n IH]; intros i; [done |]. rewrite groups_cons, bind_cons, length_app, IH. cbn. lia. Qed.

(** Reading a printed IPv6 address gives the address. *)
Lemma ParseIP_ip6 ip : length ip = 16%nat -> bytes_ok ip -> ParseIP (ip6_string ip) = Some ip.
Proof.
  intros Hl Hok. destruct (groups_bytes ip Hl Hok) as [Hb Hg]. unfold ip6_string. pose proof (zero_run_ok ip) as Hz.
  destruct (zero_run ip) as [zs ze]. destruct Hz as [Hz | [Hz Hj]]; cbn [fst snd] in Hz.
  - subst zs. rewrite print6_plain by (cbn [fst]; intros; lia). change (8 <=? 0)%nat with false. change (0 <? 0)%nat with false. cbn match. cbn [app].
    rewrite <- (app_nil_r (groups_text _)). rewrite ParseIP_groups; [| done | done | constructor |].
    + rewrite app_nil_r. rewrite parse6_groups by done. change (8 - 0)%nat with 8%nat. cbn [app]. rewrite Hb. unfold parse6_finish.
      rewrite bool_decide_eq_true_2 by done. unfold len. rewrite Hl. done.
    + rewrite app_nil_r. change (groups ip 0 (8 - 0)) with (group ip 0 :: groups ip 1 7).
      change (groups_text (group ip 0 :: groups ip 1 7)) with (groups_text [group ip 0] ++ 58 :: groups_text (groups ip 1 7)).
      apply kind_groups; [done |]. apply Forall_cons in Hg as [Hg _]. by constructor.
  - cbn [fst snd] in Hj. rewrite print6_run by lia. rewrite Nat.sub_0_r. change (0 <? 0)%nat with false. cbn match. cbn [app].
    assert (groups ip 0 8 = groups ip 0 zs ++ groups ip zs (ze - zs) ++ groups ip ze (8 - ze)) as Hs.
    { replace 8%nat with (zs + ((ze - zs) + (8 - ze)))%nat at 1 by lia. rewrite !groups_split. cbn [Nat.add]. by replace (zs + (ze - zs))%nat with ze by lia. }
    rewrite Hs in Hg. apply Forall_app in Hg as [Hg1 Hg2]. apply Forall_app in Hg2 as [_ Hg2].
    set (t := if (8 <=? ze)%nat then [] else groups_text (groups ip ze (8 - ze))).
    assert (Forall (fun c => c <> 37) (58 :: 58 :: t)) as Ht.
    { unfold t. do 2 (constructor; [done |]). case_if; [constructor | by apply groups_text_chars]. }
    assert (forall fuel el ip0, (8 - ze <= fuel)%nat -> t <> [] ->
      parse6_loop fuel t ip0 el = Some ([], ip0 ++ (groups ip ze (8 - ze) ≫= split16), el)) as Htl.
    { intros fuel el ip0 Hf Hne. unfold t in *. destruct (Nat.leb_spec 8 ze) as [| H8]; [done |]. apply parse6_groups; [| by rewrite groups_length | done].
      replace (8 - ze)%nat with (S (8 - S ze)) by lia. done. }
    assert (t = [] -> groups ip ze (8 - ze) = []) as Htn.
    { unfold t. destruct (Nat.leb_spec 8 ze) as [H8 | H8]; [by replace (8 - ze)%nat with 0%nat by lia |].
      replace (8 - ze)%nat with (S (8 - S ze)) by lia. rewrite groups_cons. intros E. destruct (groups_text_ne (group ip ze) (groups ip (S ze) (8 - S ze))) as (? & ? & E' & _). congruence. }
    rewrite (groups_around ip zs ze) in Hb by (done || lia).
    destruct (Nat.ltb_spec 0 zs) as [Hzs | Hzs].
    + assert (groups ip 0 zs <> []) as Hne by (destruct zs; [lia | done]).
      rewrite ParseIP_groups by (done || by apply kind_groups). rewrite parse6_ellipsis by (done || by rewrite groups_length; lia).
      cbn [app]. set (a := groups ip 0 zs ≫= split16) in *. assert (length a = 2 * zs)%nat as Ha by apply groups_split16_length.
      unfold parse6_finish. destruct t as [| c t'] eqn:Et.
      * assert (8 - ze = 0)%nat as H8 by (rewrite <- (groups_length ip ze (8 - ze)), Htn; done).
        rewrite bool_decide_eq_true_2 by done. unfold len. rewrite Ha. rewrite (proj2 (Z.ltb_lt _ _)) by lia. rewrite <- Ha. rewrite take_ge, drop_ge by lia.
        rewrite app_nil_r. rewrite Htn in Hb by done. cbn in Hb. rewrite app_nil_r in Hb. f_equal. etransitivity; [| exact Hb]. f_equal. f_equal. lia.
      * rewrite Htl by (done || rewrite groups_length; lia). rewrite bool_decide_eq_true_2 by done.
        unfold len. rewrite length_app, Ha, groups_split16_length. rewrite (proj2 (Z.ltb_lt _ _)) by lia. rewrite <- Ha. rewrite take_app_length, drop_app_length.
        f_equal. etransitivity; [| exact Hb]. f_equal. f_equal. f_equal. lia.
    + assert (zs = 0%nat) as -> by lia. cbn [app]. rewrite ParseIP_colon by done. change (take 2 (58 :: 58 :: t)) with [58; 58]. change (drop 2 (58 :: 58 :: t)) with t.
      rewrite bool_decide_eq_true_2 by done. unfold groups in Hb at 1. cbn [seq map mbind list_bind app] in Hb.
      destruct t as [| c t'] eqn:Et.
      * rewrite bool_decide_eq_true_2 by done. rewrite Htn in Hb by done. cbn in Hb. rewrite app_nil_r in Hb. f_equal. rewrite <- Hb. unfold IPv6unspecified. f_equal.
        apply (f_equal length) in Hb. rewrite length_replicate in Hb. lia.
      * rewrite bool_decide_eq_false_2 by done. rewrite Htl by (done || lia). unfold parse6_finish. rewrite bool_decide_eq_true_2 by done. cbn [app]. unfold len. rewrite groups_split16_length.
        rewrite (proj2 (Z.ltb_lt _ _)) by lia. rewrite take_0, drop_0. cbn [app]. f_equal. etransitivity; [| exact Hb]. f_equal. f_equal. lia.
Qed.
End NetIP.
