(* ===== verification/SocksProto.v ===== *)
(** SOCKS5 targets and the server's check of them.

    Models src/masterdns/internal/socksproto/target.go and udp.go, the text of a target that a
    SYN of a stream or a UDP datagram carries, and [validateSOCKSTargetHost] of
    src/masterdns/internal/udpserver/socks5_upstream.go, which decides the hosts the server
    may dial.  Every target that is built reads back, nothing that arrives panics, and a
    target that carries an address is refused exactly when the address lies in one of ten
    IPv4 or five IPv6 blocks.  As a name, such an IPv6 address passes with any zone, and so does
    [localhost] with a final dot. *)

From stdpp Require Import base tactics list gmap strings sorting.
From Stdlib Require Import ZArith Lia.
From S2P Require Import Prelude NetIP DnsParser DnsTransport.

Module SocksProto.
Import NetIP DnsParser DnsTransport.

(** ** Targets (target.go) *)

Definition AddressTypeIPv4 : Z := 1.
Definition AddressTypeDomain : Z := 3.
Definition AddressTypeIPv6 : Z := 4.

Inductive socks_error :=
| ErrTargetTooShort
| ErrUnsupportedAddressType
| ErrInvalidDomainLength
| ErrUDPDatagramTooShort
| ErrUDPFragmented.

Record Target := mkTarget { AddressType : Z; Host : bytes; Port : Z }.

Definition ParseTargetPayload (payload : bytes) : outcome socks_error Target :=
  if len payload <? 3 then Err ErrTargetTooShort
  else
    let! kind := at_ payload 0 in
    let! (host, offset) :=
      (if kind =? AddressTypeIPv4 then
         if len payload <? 1 + 4 + 2 then Err ErrTargetTooShort
         else let! ip := slice payload 1 (1 + 4) in Ok (NetIP.String ip, 1 + 4)
       else if kind =? AddressTypeDomain then
         if len payload <? 1 + 1 then Err ErrTargetTooShort
         else
           let! domainLength := at_ payload 1 in
           if (domainLength <? 1) || (len payload <? 2 + domainLength + 2) then Err ErrInvalidDomainLength
           else let! host := slice payload 2 (2 + domainLength) in Ok (host, 2 + domainLength)
       else if kind =? AddressTypeIPv6 then
         if len payload <? 1 + 16 + 2 then Err ErrTargetTooShort
         else let! ip := slice payload 1 (1 + 16) in Ok (NetIP.String ip, 1 + 16)
       else Err ErrUnsupportedAddressType) in
    let! port := get16 payload offset in
    Ok (mkTarget kind host port).

Definition ParseIPv4 (host : bytes) : bytes :=
  match ParseIP host with
  | None => IPv4zero
  | Some ip => match To4 ip with Some ipv4 => ipv4 | None => IPv4zero end
  end.

Definition ParseIPv6 (host : bytes) : bytes :=
  match ParseIP host with
  | None => IPv6unspecified
  | Some ip =>
      match To4 ip with
      | Some _ => IPv6unspecified
      | None => match To16 ip with Some ip => ip | None => IPv6unspecified end
      end
  end.

(** ** Datagrams (udp.go) *)

Record UDPDatagram := mkDatagram { UDP_Target : Target; UDP_Payload : bytes }.

Definition parseTargetWithOffset (payload : bytes) : outcome socks_error (Target * Z) :=
  let! target := ParseTargetPayload payload in
  let kind := AddressType target in
  if kind =? AddressTypeIPv4 then Ok (target, 1 + (4 + 2))
  else if kind =? AddressTypeIPv6 then Ok (target, 1 + (16 + 2))
  else if kind =? AddressTypeDomain then
    if len payload <? 2 then Err ErrTargetTooShort
    else let! n := at_ payload 1 in Ok (target, 1 + (1 + n + 2))
  else Err ErrUnsupportedAddressType.

Definition ParseUDPDatagram (packet : bytes) : outcome socks_error UDPDatagram :=
  if len packet <? 4 then Err ErrUDPDatagramTooShort
  else
    let! frag := at_ packet 2 in
    if negb (frag =? 0) then Err ErrUDPFragmented
    else
      let! body := slice packet 3 (len packet) in
      let! (target, offset) := parseTargetWithOffset body in
      let offset := offset + 3 in
      if len packet <? offset then Err ErrUDPDatagramTooShort
      else let! payload := slice packet offset (len packet) in Ok (mkDatagram target payload).

(** [copy(packet[a:b], src)] *)
Definition copy_range {E} (packet : bytes) (a b : Z) (src : bytes) : outcome E bytes :=
  let! _ := slice packet a b in copy_at packet a (take (Z.to_nat (b - a)) src).

(** [binary.BigEndian.PutUint16(packet[a:], v)] *)
Definition put16 {E} (packet : bytes) (a v : Z) : outcome E bytes :=
  let! packet := put packet a (wrap8 (Z.shiftr v 8)) in put packet (a + 1) (wrap8 v).

Definition BuildUDPDatagram (target : Target) (payload : bytes) : outcome socks_error bytes :=
  let kind := AddressType target in
  let host := Host target in
  let targetLen :=
    1 + 2 + (if kind =? AddressTypeIPv4 then 4 else if kind =? AddressTypeIPv6 then 16
             else if kind =? AddressTypeDomain then 1 + len host else 0) in
  let packet := make_bytes (3 + targetLen + len payload) in
  let! packet := put packet 3 kind in
  let! (packet, offset) :=
    (if kind =? AddressTypeIPv4 then let! packet := copy_range packet 4 (4 + 4) (ParseIPv4 host) in Ok (packet, 4 + 4)
     else if kind =? AddressTypeIPv6 then let! packet := copy_range packet 4 (4 + 16) (ParseIPv6 host) in Ok (packet, 4 + 16)
     else if kind =? AddressTypeDomain then
       let! packet := put packet 4 (wrap8 (len host)) in
       let! packet := copy_range packet 5 (5 + len host) host in Ok (packet, 5 + len host)
     else Ok (packet, 4)) in
  let! packet := put16 packet offset (Port target) in
  copy_at packet (offset + 2) payload.

Definition BuildTargetPayload (target : Target) : outcome socks_error bytes :=
  let kind := AddressType target in
  let host := Host target in
  if kind =? AddressTypeIPv4 then
    let! packet := put (make_bytes (1 + 4 + 2)) 0 AddressTypeIPv4 in
    let! packet := copy_range packet 1 5 (ParseIPv4 host) in
    put16 packet 5 (Port target)
  else if kind =? AddressTypeIPv6 then
    let! packet := put (make_bytes (1 + 16 + 2)) 0 AddressTypeIPv6 in
    let! packet := copy_range packet 1 17 (ParseIPv6 host) in
    put16 packet 17 (Port target)
  else
    let! packet := put (make_bytes (1 + 1 + len host + 2)) 0 AddressTypeDomain in
    let! packet := put packet 1 (wrap8 (len host)) in
    let! packet := copy_range packet 2 (2 + len host) host in
    put16 packet (2 + len host) (Port target).

(** ** The check of the host (socks5_upstream.go) *)

(** "localhost" and ".localhost". *)
Definition localhost : bytes := [108; 111; 99; 97; 108; 104; 111; 115; 116].
Definition dot_localhost : bytes := 46 :: localhost.

Definition HasSuffix (s suffix : bytes) : bool :=
  (length suffix <=? length s)%nat && bool_decide (drop (length s - length suffix) s = suffix).

Inductive blockedSOCKSTargetError := blocked_host (host : bytes).

Definition validateSOCKSTargetHost (host : bytes) : outcome blockedSOCKSTargetError unit :=
  let trimmed := TrimSpace host in
  if bool_decide (trimmed = []) then Err (blocked_host host)
  else
    let lower := ToLower trimmed in
    if bool_decide (lower = localhost) || HasSuffix lower dot_localhost then Err (blocked_host host)
    else
      match ParseIP trimmed with
      | None => Ok tt
      | Some ip =>
          if negb (IsGlobalUnicast ip) || IsLoopback ip || IsPrivate ip || IsMulticast ip || IsLinkLocalUnicast ip ||
             IsLinkLocalMulticast ip || IsUnspecified ip
          then Err (blocked_host host)
          else
            match To4 ip with
            | None => Ok tt
            | Some v4 =>
                let! a := at_ v4 0 in
                let! b := at_ v4 1 in
                if (a =? 100) && (64 <=? b) && (b <=? 127) then Err (blocked_host host)
                else if (a =? 198) && ((b =? 18) || (b =? 19)) then Err (blocked_host host)
                else Ok tt
            end
      end.

(** ** Reference: CIDR blocks *)

(** The bytes of the mask of [ones] leading ones. *)
Fixpoint CIDRMask (n : nat) (ones : Z) : bytes :=
  match n with
  | O => []
  | S n => 256 - 2 ^ (8 - Z.max 0 (Z.min 8 ones)) :: CIDRMask n (ones - 8)
  end.

Fixpoint masked (ip m : bytes) : bytes :=
  match ip, m with a :: ip, b :: m => Z.land a b :: masked ip m | _, _ => [] end.

(** Membership in [base/ones]. *)
Definition in_block (ip : bytes) (block : bytes * Z) : bool :=
  let m := CIDRMask (length ip) block.2 in bool_decide (masked ip m = masked block.1 m).

(** 0.0.0.0/32, 10/8, 100.64/10, 127/8, 169.254/16, 172.16/12, 192.168/16, 198.18/15,
    224/4, 255.255.255.255/32. *)
Definition blocks4 : list (bytes * Z) :=
  [([0; 0; 0; 0], 32); ([10; 0; 0; 0], 8); ([100; 64; 0; 0], 10); ([127; 0; 0; 0], 8); ([169; 254; 0; 0], 16);
   ([172; 16; 0; 0], 12); ([192; 168; 0; 0], 16); ([198; 18; 0; 0], 15); ([224; 0; 0; 0], 4); ([255; 255; 255; 255], 32)].

(** ::/128, ::1/128, fc00::/7, fe80::/10, ff00::/8. *)
Definition blocks6 : list (bytes * Z) :=
  [(replicate 16 0, 128); (replicate 15 0 ++ [1], 128); (252 :: replicate 15 0, 7); (254 :: 128 :: replicate 14 0, 10);
   (255 :: replicate 15 0, 8)].

(** The addresses the server refuses to dial: an IPv4 address, also in its IPv4-in-IPv6
    form, in one of [blocks4]; another IPv6 address in one of [blocks6]. *)
Definition refused (ip : bytes) : bool :=
  match To4 ip with
  | Some ip4 => existsb (in_block ip4) blocks4
  | None => existsb (in_block ip) blocks6
  end.

(** ** The check is membership in a block *)

Lemma byte_cases (P : Z -> bool) : forallb P (map Z.of_nat (seq 0 256)) = true -> forall b, u8 b -> P b = true.
Proof.
  rewrite forallb_forall. intros H b Hb. apply H. apply list_elem_of_In, list_elem_of_fmap. exists (Z.to_nat b). unfold u8 in Hb.
  split; [lia |]. apply elem_of_seq. lia.
Qed.

Lemma land_255 b : u8 b -> Z.land b 255 = b.
Proof. intros Hb. apply Z.eqb_eq. by apply (byte_cases (fun b => Z.land b 255 =? b)). Qed.

(** The masks that the checks write as ranges. *)
Lemma masks b : u8 b ->
  (Z.land b 192 = 64 <-> 64 <= b <= 127) /\ (Z.land b 254 = 18 <-> b = 18 \/ b = 19) /\ (Z.land b 240 = 224 <-> 224 <= b <= 239).
Proof.
  intros Hb.
  pose proof (byte_cases (fun b => eqb (Z.land b 192 =? 64) ((64 <=? b) && (b <=? 127))) eq_refl b Hb) as H1.
  pose proof (byte_cases (fun b => eqb (Z.land b 254 =? 18) ((b =? 18) || (b =? 19))) eq_refl b Hb) as H2.
  pose proof (byte_cases (fun b => eqb (Z.land b 240 =? 224) ((224 <=? b) && (b <=? 239))) eq_refl b Hb) as H3.
  cbv beta in *. apply eqb_prop in H1, H2, H3. rewrite <- !Z.eqb_eq, H1, H2, H3. split_and!; lia.
Qed.

(** What the checks after [net.ParseIP] say of an address. *)
Definition verdict (ip : bytes) : bool :=
  negb (IsGlobalUnicast ip) || IsLoopback ip || IsPrivate ip || IsMulticast ip || IsLinkLocalUnicast ip ||
  IsLinkLocalMulticast ip || IsUnspecified ip ||
  match To4 ip with
  | Some v4 => (byte_at v4 0 =? 100) && (64 <=? byte_at v4 1) && (byte_at v4 1 <=? 127) ||
               (byte_at v4 0 =? 198) && ((byte_at v4 1 =? 18) || (byte_at v4 1 =? 19))
  | None => false
  end.

Lemma in_block_eq ip base ones m mb : CIDRMask (length ip) ones = m -> masked base m = mb ->
  in_block ip (base, ones) = bool_decide (masked ip m = mb).
Proof. intros <- <-. done. Qed.

(** Evaluates the masks of the blocks. *)
Ltac blocks :=
  repeat match goal with
  | |- context [in_block ?ip (?base, ?ones)] =>
      let m := eval vm_compute in (CIDRMask (length base) ones) in
      let mb := eval vm_compute in (masked base m) in
      rewrite (in_block_eq ip base ones m mb eq_refl eq_refl); cbn [masked]
  end.

Lemma same_list a b c d x y z w : bool_decide ([a; b; c; d] = [x; y; z; w]) = (a =? x) && (b =? y) && (c =? z) && (d =? w).
Proof. apply eq_true_iff_eq. rewrite bool_decide_eq_true, !andb_true_iff, !Z.eqb_eq. naive_solver. Qed.

Lemma same4 a b c d x y z w :
  bool_decide (Some (v4InV6Prefix ++ [a; b; c; d]) = Some (v4InV6Prefix ++ [x; y; z; w])) = (a =? x) && (b =? y) && (c =? z) && (d =? w).
Proof. rewrite <- same_list. apply bool_decide_ext. split; [by intros ?%(inj Some)%(inj (app v4InV6Prefix)) | by intros ->]. Qed.

Lemma verdict4 a b c d : bytes_ok [a; b; c; d] -> verdict (v4InV6Prefix ++ [a; b; c; d]) = existsb (in_block [a; b; c; d]) blocks4.
Proof.
  unfold bytes_ok. rewrite !Forall_cons. intros (Ha & Hb & Hc & Hd & _).
  destruct (masks a Ha) as (_ & _ & Ma). destruct (masks b Hb) as (Mb1 & Mb2 & _).
  apply eq_true_iff_eq. unfold verdict, IsGlobalUnicast, IsUnspecified, IsLoopback, IsPrivate, IsMulticast, IsLinkLocalUnicast, IsLinkLocalMulticast, Equal.
  change (To4 (v4InV6Prefix ++ [a; b; c; d])) with (Some [a; b; c; d]). change (To16 (v4InV6Prefix ++ [a; b; c; d])) with (Some (v4InV6Prefix ++ [a; b; c; d])).
  change (To16 IPv4zero) with (Some (v4InV6Prefix ++ [0; 0; 0; 0])). change (To16 IPv4bcast) with (Some (v4InV6Prefix ++ [255; 255; 255; 255])).
  change (To16 IPv6unspecified) with (Some (replicate 16 0)). change (len (v4InV6Prefix ++ [a; b; c; d])) with 16.
  cbn [existsb blocks4]. blocks. unfold byte_at. cbn [nth]. change ((16 =? 4) || (16 =? 16)) with true. cbn [andb].
  rewrite ?(land_255 a), ?(land_255 b), ?(land_255 c), ?(land_255 d), ?Z.land_0_r by done.
  rewrite (bool_decide_eq_false_2 (_ = Some (replicate 16 0))) by done.
  rewrite !same4, !same_list. change (0 =? 0) with true. cbn [andb]. rewrite !orb_false_r, !andb_true_r.
  destruct (decide (a ∈ [0; 10; 100; 127; 169; 172; 192; 198; 255])) as [Hin | Hout].
  - clear Ma. rewrite !elem_of_cons in Hin. rewrite elem_of_nil in Hin. destruct_or! Hin; subst a;
      repeat match goal with |- context [Z.land ?x 240] => let v := eval vm_compute in (Z.land x 240) in change (Z.land x 240) with v end;
      cbn [Z.eqb Pos.eqb andb orb negb]; rewrite ?orb_true_r, ?orb_false_r; lia.
  - rewrite !not_elem_of_cons in Hout. rewrite (proj2 (Z.eqb_neq a 0)) by tauto. 
    repeat match goal with |- context [a =? ?k] => rewrite (proj2 (Z.eqb_neq a k)) by tauto; cbn [andb orb negb] end.
    destruct (Z.land a 240 =? 224) eqn:E; cbn [andb orb negb]; [done |]. apply Z.eqb_neq in E. rewrite (proj2 (Z.eqb_neq a 224)) by lia. done.
Qed.

Lemma verdict_v4 ip : length ip = 4%nat -> bytes_ok ip -> verdict (v4InV6Prefix ++ ip) = existsb (in_block ip) blocks4.
Proof. intros Hl. destruct ip as [| a [| b [| c [| d [|]]]]]; try done. apply verdict4. Qed.

Lemma masked_all ip : bytes_ok ip -> masked ip (replicate (length ip) 255) = ip.
Proof. induction 1 as [| b ip Hb _ IH]; [done |]. cbn [length replicate masked]. by rewrite land_255, IH. Qed.

Lemma masked_none ip : masked ip (replicate (length ip) 0) = replicate (length ip) 0.
Proof. induction ip as [| b ip IH]; [done |]. cbn [length replicate masked]. by rewrite Z.land_0_r, IH. Qed.

Lemma same_head a b l : bool_decide (a :: l = b :: l) = (a =? b).
Proof. apply eq_true_iff_eq. rewrite bool_decide_eq_true, Z.eqb_eq. naive_solver. Qed.

Lemma same_two a b x y l : bool_decide (a :: b :: l = x :: y :: l) = (a =? x) && (b =? y).
Proof. apply eq_true_iff_eq. rewrite bool_decide_eq_true, andb_true_iff, !Z.eqb_eq. naive_solver. Qed.

Lemma same_some (l k : bytes) : bool_decide (Some l = Some k) = bool_decide (l = k).
Proof. apply bool_decide_ext. naive_solver. Qed.

Lemma verdict6 ip : length ip = 16%nat -> bytes_ok ip -> To4 ip = None -> verdict ip = existsb (in_block ip) blocks6.
Proof.
  intros Hl Hok H4. assert (len ip = 16) as Hlen by (unfold len; lia). cbn [existsb blocks6]. unfold in_block. cbn [fst snd]. rewrite Hl.
  assert (CIDRMask 16 128 = replicate (length ip) 255) as -> by (rewrite Hl; done).
  rewrite (masked_all ip Hok), !Hl.
  assert (forall k, bool_decide (To16 ip = Some k) = bool_decide (ip = k)) as Hsame.
  { intros k. unfold To16. rewrite Hlen. change (16 =? 4) with false. change (16 =? 16) with true. apply same_some. }
  unfold verdict, IsGlobalUnicast, IsUnspecified, IsLoopback, IsPrivate, IsMulticast, IsLinkLocalUnicast, IsLinkLocalMulticast, Equal. rewrite H4, Hlen.
  change (To16 IPv4zero) with (Some (v4InV6Prefix ++ [0; 0; 0; 0])). change (To16 IPv4bcast) with (Some (v4InV6Prefix ++ [255; 255; 255; 255])).
  change (To16 IPv6unspecified) with (Some (replicate 16 0)). change (To16 IPv6loopback) with (Some (replicate 15 0 ++ [1])). rewrite !Hsame.
  assert (forall t, length t = 4%nat -> bool_decide (ip = v4InV6Prefix ++ t) = false) as Hno.
  { intros t Ht. apply bool_decide_eq_false_2. intros ->. unfold To4 in H4. rewrite Hlen in H4. done. }
  rewrite !Hno by done. change (masked (replicate 16 0) (replicate 16 255)) with (replicate 16 0).
  change (masked (replicate 15 0 ++ [1]) (replicate 16 255)) with (replicate 15 0 ++ [1]).
  destruct ip as [| a [| b ip]]; [done | done |]. apply Forall_cons in Hok as [Ha Hok]. apply Forall_cons in Hok as [Hb _]. cbn [length] in Hl.
  change (CIDRMask 16 7) with (254 :: 0 :: replicate 14 0). change (CIDRMask 16 10) with (255 :: 192 :: replicate 14 0).
  change (CIDRMask 16 8) with (255 :: 0 :: replicate 14 0).
  change (masked (252 :: replicate 15 0) (254 :: 0 :: replicate 14 0)) with (252 :: 0 :: replicate 14 0).
  change (masked (254 :: 128 :: replicate 14 0) (255 :: 192 :: replicate 14 0)) with (254 :: 128 :: replicate 14 0).
  change (masked (255 :: replicate 15 0) (255 :: 0 :: replicate 14 0)) with (255 :: 0 :: replicate 14 0).
  replace 14%nat with (length ip) by lia. cbn [masked]. rewrite masked_none, !same_two, !land_255, Z.land_0_r by done. unfold byte_at. cbn [nth]. change (0 =? 0) with true. rewrite !andb_true_r. 
  change (16 =? 4) with false. change (16 =? 16) with true. cbn [orb andb negb].
  repeat match goal with |- context [bool_decide ?P] => generalize (bool_decide P); intros [] end;
  destruct (a =? 255), (a =? 254), (Z.land a 254 =? 252), (Z.land b 192 =? 128); cbn; rewrite ?orb_true_r, ?andb_false_r, ?orb_false_r; try done.
Qed.

(** ** The text of an address *)

Definition ip_char (c : Z) : Prop := 48 <= c <= 57 \/ 97 <= c <= 102 \/ c = 46 \/ c = 58.

Lemma dec_byte_chars n : u8 n -> Forall ip_char (dec_byte n).
Proof.
  unfold u8. intros Hn. pose proof (Z.mod_pos_bound n 10). pose proof (Z.mod_pos_bound (n / 10) 10).
  pose proof (Z.div_le_lower_bound n 10 0). pose proof (Z.div_lt_upper_bound n 10 10). pose proof (Z.div_lt_upper_bound n 100 3). pose proof (Z.div_pos n 100).
  unfold dec_byte, ip_char. repeat case_if; zbool; repeat constructor; lia.
Qed.

Lemma ip4_chars ip : bytes_ok ip -> Forall ip_char (ip4_string ip).
Proof.
  unfold ip4_string. induction 1 as [| b ip Hb Hip IH]; [constructor |]. cbn [map join]. destruct ip as [| b' ip]; [by apply dec_byte_chars |].
  cbn [map] in *. apply Forall_app_2; [by apply dec_byte_chars |]. apply Forall_cons. split; [unfold ip_char; lia | done].
Qed.

Lemma hex_digit_char d : 0 <= d <= 15 -> ip_char (hex_digit d).
Proof. intros. unfold hex_digit, ip_char. case_if; zbool; lia. Qed.

Lemma appendHex_chars x : group_ok x -> Forall ip_char (appendHex x).
Proof.
  intros Hx. unfold group_ok in Hx.
  assert (forall y, 0 <= Z.land y 15 <= 15) as Hland by (intros y; change 15 with (Z.ones 4); rewrite Z.land_ones by lia; change (2 ^ 4) with 16; pose proof (Z.mod_pos_bound y 16); change (Z.ones 4) with 15; lia).
  assert (0 <= Z.shiftr x 12 <= 15) as Hs.
  { rewrite Z.shiftr_div_pow2 by lia. change (2 ^ 12) with 4096. pose proof (Z.div_pos x 4096). pose proof (Z.div_lt_upper_bound x 4096 16). lia. }
  unfold appendHex. rewrite !Forall_app. split_and!; repeat case_if; try apply Forall_nil_2; apply Forall_singleton; by apply hex_digit_char.
Qed.

Lemma group_range ip i : bytes_ok ip -> group_ok (group ip i).
Proof.
  intros Hok. assert (forall j, u8 (byte_at ip j)) as Hb.
  { intros j. unfold byte_at. destruct (nth_in_or_default j ip 0) as [Hin | ->]; [| done]. rewrite <- list_elem_of_In in Hin. exact (proj1 (Forall_forall _ _) Hok _ Hin). }
  unfold group, group_ok. pose proof (u16_of_be16 _ _ (Hb (2 * i)%nat) (Hb (2 * i + 1)%nat)) as H. unfold u16 in H. lia.
Qed.

Lemma print6_chars ip zero fuel : bytes_ok ip -> forall i, Forall ip_char (print6 ip zero fuel i).
Proof.
  intros Hok. assert (ip_char 58) as Hc by (unfold ip_char; lia). assert (forall i, Forall ip_char (appendHex (group ip i))) as Hg by (intros; by apply appendHex_chars, group_range).
  induction fuel as [| fuel IH]; intros i; cbn [print6]; [constructor |]. repeat case_if; rewrite ?Forall_app, ?Forall_cons; auto using Forall_nil_2.
Qed.

Lemma String_chars ip : bytes_ok ip -> Forall ip_char (NetIP.String ip).
Proof.
  intros Hok. unfold NetIP.String. destruct (To4 ip) as [ip4 |] eqn:E; [| by apply print6_chars].
  apply ip4_chars. unfold To4 in E. repeat case_if; simplify_eq; [done | by apply Forall_drop].
Qed.

Lemma short_address ip : length ip = 4%nat -> To4 ip = Some ip /\ To16 ip = Some (v4InV6Prefix ++ ip).
Proof. intros Hl. unfold To4, To16, len. by rewrite Hl. Qed.

Lemma long_address ip : length ip = 16%nat ->
  To16 ip = Some ip /\ (To4 ip = None \/ exists ip4, To4 ip = Some ip4 /\ ip = v4InV6Prefix ++ ip4 /\ length ip4 = 4%nat).
Proof.
  intros Hl. unfold To4, To16, len. rewrite Hl. change (Z.of_nat 16 =? 4) with false. change (Z.of_nat 16 =? 16) with true. cbn [andb].
  split; [done |]. destruct (bool_decide _) eqn:E; [right | by left]. apply bool_decide_eq_true in E. eexists. split; [done |].
  rewrite <- E, take_drop, length_drop, Hl. done.
Qed.

Lemma ParseIP_String ip : length ip = 4%nat \/ length ip = 16%nat -> bytes_ok ip -> ParseIP (NetIP.String ip) = To16 ip.
Proof.
  intros [Hl | Hl] Hok; unfold NetIP.String.
  - destruct (short_address ip Hl) as [-> ->]. by apply ParseIP_ip4.
  - destruct (long_address ip Hl) as [-> [-> | (ip4 & -> & -> & H4)]]; [by apply ParseIP_ip6 |]. apply bytes_ok_app in Hok as [_ Hok]. by apply ParseIP_ip4.
Qed.

Lemma trim_left_id s : Forall ip_char s -> trim_left s = s.
Proof. destruct 1 as [| c s Hc _]; [done |]. cbn [trim_left]. unfold is_space, ip_char in *. by rewrite (proj2 (orb_false_iff _ _)) by lia. Qed.

Lemma TrimSpace_id s : Forall ip_char s -> TrimSpace s = s.
Proof. intros Hs. unfold TrimSpace. rewrite (trim_left_id s Hs), trim_left_id, reverse_involutive; [done | by apply Forall_reverse]. Qed.

(** No address reads like a name of the host itself. *)
Lemma not_localhost s : Forall ip_char s -> ToLower s <> localhost /\ HasSuffix (ToLower s) dot_localhost = false.
Proof.
  intros Hs. assert (116 ∉ ToLower s) as Hno.
  { intros (c & Hc & Hin)%list_elem_of_fmap. pose proof (proj1 (Forall_forall _ _) Hs c Hin) as H. unfold lower_byte, is_upper, ip_char in *. case_if; zbool; lia. }
  assert (116 ∈ localhost) as Hl by (unfold localhost; set_solver). split.
  - intros E. rewrite E in Hno. done.
  - unfold HasSuffix. apply andb_false_iff. right. apply bool_decide_eq_false. intros E. apply Hno. eapply subseteq_drop. rewrite E. by apply list_elem_of_further.
Qed.

Lemma validate_verdict host ip : Forall ip_char host -> ParseIP host = Some ip -> length ip = 16%nat ->
  validateSOCKSTargetHost host = if verdict ip then Err (blocked_host host) else Ok tt.
Proof.
  intros Hc Hp Hl. unfold validateSOCKSTargetHost. rewrite (TrimSpace_id host Hc), Hp. destruct (not_localhost host Hc) as [H1 ->].
  rewrite !bool_decide_eq_false_2 by (done || by intros ->). cbn [orb]. unfold verdict.
  destruct (_ || IsUnspecified ip); [done |]. cbn [orb]. destruct (long_address ip Hl) as [_ [-> | (ip4 & -> & _ & H4)]]; [done |].
  destruct ip4 as [| a [| b r]]; [done | done |]. unfold byte_at. cbn [nth].
  change (at_ (a :: b :: r) 0) with (@Ok blockedSOCKSTargetError Z a). change (at_ (a :: b :: r) 1) with (@Ok blockedSOCKSTargetError Z b). cbn [obind].
  by destruct ((a =? 100) && _ && _), (_ && _).
Qed.

(** The check of the text of an address. *)
Lemma validate_address ip : length ip = 4%nat \/ length ip = 16%nat -> bytes_ok ip ->
  validateSOCKSTargetHost (NetIP.String ip) = if refused ip then Err (blocked_host (NetIP.String ip)) else Ok tt.
Proof.
  intros Hl Hok. pose proof (ParseIP_String ip Hl Hok) as Hp. assert (exists ip16, To16 ip = Some ip16 /\ length ip16 = 16%nat /\ verdict ip16 = refused ip) as (ip16 & E & H16 & <-).
  { unfold refused. destruct Hl as [Hl | Hl].
    - destruct (short_address ip Hl) as [-> ->]. eexists. split; [done |]. split; [by rewrite length_app, Hl |]. by apply verdict_v4.
    - destruct (long_address ip Hl) as [-> [E | (ip4 & -> & Eip & H4)]]; exists ip; split_and!; try done; [rewrite E; by apply verdict6 |].
      subst ip. apply bytes_ok_app in Hok as [_ Hok]. by apply verdict_v4. }
  apply validate_verdict; [by apply String_chars | by rewrite Hp | done].
Qed.

(** ** Targets on the wire *)

(** The bytes between the type and the port. *)
Definition wire (t : Target) (addr : bytes) : Prop :=
  (AddressType t = AddressTypeIPv4 /\ length addr = 4%nat /\ Host t = NetIP.String addr) \/
  (AddressType t = AddressTypeIPv6 /\ length addr = 16%nat /\ Host t = NetIP.String addr) \/
  (AddressType t = AddressTypeDomain /\ addr = len (Host t) :: Host t /\ 1 <= len (Host t) <= 255).

Definition wire_bytes (t : Target) (addr : bytes) : bytes := AddressType t :: addr ++ be16 (Port t).

Lemma get16_be16 {E} l v rest a : a = len l -> u16 v -> get16 (E:=E) (l ++ be16 v ++ rest) a = Ok v.
Proof.
  intros -> Hv. unfold get16, be16. cbn [app]. rewrite at_middle by done. cbn [obind].
  change (l ++ wrap8 (Z.shiftr v 8) :: wrap8 v :: rest) with (l ++ [wrap8 (Z.shiftr v 8)] ++ wrap8 v :: rest).
  rewrite app_assoc, at_middle by (rewrite len_app; done). cbn [obind]. by rewrite of_be16_be16.
Qed.

Lemma parse_wire t addr rest : wire t addr -> u16 (Port t) -> ParseTargetPayload (wire_bytes t addr ++ rest) = Ok t.
Proof.
  intros Hw Hp. destruct t as [kind host port]. unfold wire, wire_bytes in *. cbn [AddressType Host Port] in *.
  pose proof (len_nonneg rest) as Hr. unfold ParseTargetPayload. replace (kind :: addr ++ be16 port) with ([kind] ++ addr ++ be16 port) by done.
  assert (len (([kind] ++ addr ++ be16 port) ++ rest) = 1 + len addr + 2 + len rest) as Hlen by (rewrite !len_app; unfold be16, len; cbn; lia).
  rewrite <- !app_assoc in *. pose proof (len_nonneg addr).
  rewrite Hlen. rewrite (proj2 (Z.ltb_ge _ _)) by lia. change (at_ ([kind] ++ addr ++ be16 port ++ rest) 0) with (@Ok socks_error Z kind). cbn [obind].
  assert (forall n, n = len addr -> get16 (E:=socks_error) ([kind] ++ addr ++ be16 port ++ rest) (1 + n) = Ok port) as Hport.
  { intros n ->. rewrite app_assoc. apply get16_be16; [by rewrite len_app | done]. }
  destruct Hw as [(-> & Hl & ->) | [(-> & Hl & ->) | (-> & Ha & Hl)]].
  - change (AddressTypeIPv4 =? AddressTypeIPv4) with true. cbn match. assert (len addr = 4) as Ha by (unfold len; lia). rewrite (proj2 (Z.ltb_ge _ _)) by lia.
    rewrite slice_app by (rewrite ?Ha; done). cbn [obind]. rewrite Hport by lia. done.
  - change (AddressTypeIPv6 =? AddressTypeIPv4) with false. change (AddressTypeIPv6 =? AddressTypeDomain) with false. change (AddressTypeIPv6 =? AddressTypeIPv6) with true. cbn match.
    assert (len addr = 16) as Ha by (unfold len; lia). rewrite (proj2 (Z.ltb_ge _ _)) by lia.
    rewrite slice_app by (rewrite ?Ha; done). cbn [obind]. rewrite Hport by lia. done.
  - change (AddressTypeDomain =? AddressTypeIPv4) with false. change (AddressTypeDomain =? AddressTypeDomain) with true. cbn match.
    assert (len addr = 1 + len host) as Hla by (rewrite Ha; apply len_cons). rewrite (proj2 (Z.ltb_ge _ (1 + 1))) by lia.
    assert (at_ (E:=socks_error) ([AddressTypeDomain] ++ addr ++ be16 port ++ rest) 1 = Ok (len host)) as -> by (by rewrite Ha). cbn [obind].
    rewrite (proj2 (Z.ltb_ge _ 1)), (proj2 (Z.ltb_ge _ _)) by lia. cbn [orb].
    assert (slice (E:=socks_error) ([AddressTypeDomain] ++ addr ++ be16 port ++ rest) 2 (2 + len host) = Ok host) as ->.
    { rewrite Ha. change ([AddressTypeDomain] ++ (len host :: host) ++ be16 port ++ rest) with ([AddressTypeDomain; len host] ++ host ++ be16 port ++ rest). by apply slice_app. }
    cbn [obind]. replace (2 + len host) with (1 + (1 + len host)) by lia. rewrite Hport by lia. done.
Qed.

(** Cutting a prefix off. *)
Lemma split_at (l : bytes) n : (n <= length l)%nat -> exists a b, l = a ++ b /\ length a = n.
Proof. intros. exists (take n l), (drop n l). rewrite take_drop, length_take. split; [done | lia]. Qed.

Lemma split_two (l : bytes) : bytes_ok l -> (2 <= length l)%nat -> exists v b, l = be16 v ++ b /\ u16 v.
Proof.
  intros Hok Hl. destruct l as [| x [| y l]]; [cbn in Hl; lia .. |]. apply Forall_cons in Hok as [Hx Hok]. apply Forall_cons in Hok as [Hy _].
  exists (of_be16 x y), l. rewrite be16_of_be16 by done. split; [done | by apply u16_of_be16].
Qed.

(** The address after the type and the port behind it. *)
Lemma split_address (l : bytes) n : bytes_ok l -> (n + 2 <= length l)%nat ->
  exists addr v rest, l = addr ++ be16 v ++ rest /\ length addr = n /\ u16 v.
Proof.
  intros Hok Hl. destruct (split_at l n) as (addr & b & -> & Ha); [lia |]. rewrite length_app in Hl. apply bytes_ok_app in Hok as [_ Hok].
  destruct (split_two b Hok) as (v & rest & -> & Hv); [lia |]. by exists addr, v, rest.
Qed.

Definition parsed (payload : bytes) : Prop :=
  exists t addr rest, ParseTargetPayload payload = Ok t /\ payload = wire_bytes t addr ++ rest /\ wire t addr /\ u16 (Port t).

Lemma parsed_intro t addr rest : wire t addr -> u16 (Port t) -> parsed (wire_bytes t addr ++ rest).
Proof. intros. exists t, addr, rest. split; [by apply parse_wire | done]. Qed.

(** Every payload reads as a target in front, or as an error. *)
Lemma parse_cases payload : bytes_ok payload -> (exists e, ParseTargetPayload payload = Err e) \/ parsed payload.
Proof.
  intros Hok. unfold ParseTargetPayload. destruct (len payload <? 3) eqn:H3; [left; by eexists |]. zbool.
  destruct payload as [| kind l]; [unfold len in H3; cbn in H3; lia |]. rewrite at_cons_0. cbn [obind]. apply Forall_cons in Hok as [Hk Hok]. fold (bytes_ok l) in Hok.
  assert (len (kind :: l) = 1 + Z.of_nat (length l)) as Hlen by (apply len_cons). rewrite Hlen in *.
  assert (forall addr v rest t, l = addr ++ be16 v ++ rest -> AddressType t = kind -> Port t = v -> wire t addr -> u16 v -> parsed (kind :: l)) as Hgo.
  { intros addr v rest t -> <- <- Hw Hv. pose proof (parsed_intro t addr rest Hw Hv) as H. unfold wire_bytes in H. cbn [app] in H. by rewrite <- app_assoc in H. }
  destruct (kind =? AddressTypeIPv4) eqn:E1; [| destruct (kind =? AddressTypeDomain) eqn:E3; [| destruct (kind =? AddressTypeIPv6) eqn:E4]]; zbool; subst.
  - destruct (_ <? 1 + 4 + 2) eqn:H; [left; by eexists |]. zbool. right. destruct (split_address l 4 Hok) as (addr & v & rest & Hl & Ha & Hv); [lia |].
    apply (Hgo addr v rest (mkTarget AddressTypeIPv4 (NetIP.String addr) v)); unfold wire; auto.
  - destruct (_ <? 1 + 1) eqn:H; [left; by eexists |]. zbool. destruct l as [| n l]; [cbn in H; lia |]. apply Forall_cons in Hok as [Hn Hok]. unfold u8 in Hn. cbn [length] in *.
    change (at_ (AddressTypeDomain :: n :: l) 1) with (@Ok socks_error Z n). cbn [obind]. destruct (_ || _) eqn:H2; [left; by eexists |]. zbool. right.
    destruct (split_address l (Z.to_nat n) Hok) as (addr & v & rest & Hl & Ha & Hv); [lia |].
    apply (Hgo (n :: addr) v rest (mkTarget AddressTypeDomain addr v)); [by rewrite Hl | done | done | | done].
    right; right. cbn [AddressType Host]. unfold len. rewrite Ha. split_and!; [done | f_equal; lia | lia | lia].
  - destruct (_ <? 1 + 16 + 2) eqn:H; [left; by eexists |]. zbool. right. destruct (split_address l 16 Hok) as (addr & v & rest & Hl & Ha & Hv); [lia |].
    apply (Hgo addr v rest (mkTarget AddressTypeIPv6 (NetIP.String addr) v)); unfold wire; auto.
  - left. by eexists.
Qed.

(** ** Targets that are built *)

Lemma put_fresh {E} l n v a : a = len l -> put (E:=E) (l ++ replicate (S n) 0) a v = Ok ((l ++ [v]) ++ replicate n 0).
Proof. intros ->. cbn [replicate]. rewrite put_middle by done. by rewrite <- app_assoc. Qed.

Lemma put16_fresh {E} l n v a : a = len l -> put16 (E:=E) (l ++ replicate (S (S n)) 0) a v = Ok ((l ++ be16 v) ++ replicate n 0).
Proof.
  intros ->. unfold put16. rewrite put_fresh by done. cbn [obind]. rewrite put_fresh by (rewrite len_app; done). by rewrite <- !app_assoc.
Qed.

Lemma copy_zero {E} l src n a b : a = len l -> b = len l + len src ->
  copy_range (E:=E) (l ++ replicate (length src + n) 0) a b src = Ok ((l ++ src) ++ replicate n 0).
Proof.
  intros -> ->. unfold copy_range. rewrite replicate_add. rewrite slice_app by (done || by unfold len; rewrite length_replicate). cbn [obind].
  replace (len l + len src - len l) with (len src) by lia. unfold len at 2. rewrite Nat2Z.id, take_ge by done.
  unfold copy_at, len. pose proof (len_nonneg l). rewrite !length_app, !length_replicate, Nat2Z.id.
  rewrite (proj2 (Z.leb_le _ _)), (proj2 (Z.leb_le _ _)) by lia. cbn [andb]. replace (Nat.min _ _) with (length src) by lia.
  rewrite take_app_length, take_ge, <- drop_drop, drop_app_length by done. rewrite drop_app_length' by (by rewrite length_replicate). by rewrite <- app_assoc.
Qed.

(** A target whose bytes are those of its text. *)
Definition target_ok (t : Target) : Prop := u16 (Port t) /\ exists addr, wire t addr /\ bytes_ok addr /\ (AddressType t = AddressTypeIPv6 -> To4 addr = None).

Lemma ParseIPv4_String addr : length addr = 4%nat -> bytes_ok addr -> ParseIPv4 (NetIP.String addr) = addr.
Proof.
  intros Hl Hok. unfold ParseIPv4. rewrite ParseIP_String by auto. destruct (short_address addr Hl) as [_ ->].
  destruct addr as [| a [| b [| c [| d [|]]]]]; try done.
Qed.

Lemma ParseIPv6_String addr : length addr = 16%nat -> bytes_ok addr -> To4 addr = None -> ParseIPv6 (NetIP.String addr) = addr.
Proof. intros Hl Hok H4. unfold ParseIPv6. rewrite ParseIP_String by auto. destruct (long_address addr Hl) as [E _]. by rewrite E, H4, E. Qed.

Lemma make_bytes_split n m : 0 <= n -> n = Z.of_nat m -> make_bytes n = [] ++ replicate m 0.
Proof. intros ? ->. unfold make_bytes. by rewrite Nat2Z.id. Qed.

Lemma build_wire t addr : wire t addr -> bytes_ok addr -> (AddressType t = AddressTypeIPv6 -> To4 addr = None) ->
  BuildTargetPayload t = Ok (wire_bytes t addr).
Proof.
  destruct t as [kind host port]. unfold wire, wire_bytes, BuildTargetPayload. cbn [AddressType Host Port]. intros Hw Hok H4.
  destruct Hw as [(-> & Hl & ->) | [(-> & Hl & ->) | (-> & -> & Hl)]].
  - change (AddressTypeIPv4 =? AddressTypeIPv4) with true. cbn match. rewrite ParseIPv4_String by done. rewrite (make_bytes_split _ (S (length addr + 2))) by lia.
    rewrite put_fresh by done. cbn [obind]. rewrite copy_zero by (unfold len; rewrite ?Hl; done). cbn [obind]. rewrite put16_fresh by (unfold len; rewrite length_app, Hl; done).
    cbn [replicate]. by rewrite app_nil_r.
  - change (AddressTypeIPv6 =? AddressTypeIPv4) with false. change (AddressTypeIPv6 =? AddressTypeIPv6) with true. cbn match.
    rewrite ParseIPv6_String by auto. rewrite (make_bytes_split _ (S (length addr + 2))) by lia.
    rewrite put_fresh by done. cbn [obind]. rewrite copy_zero by (unfold len; rewrite ?Hl; done). cbn [obind]. rewrite put16_fresh by (unfold len; rewrite length_app, Hl; done).
    cbn [replicate]. by rewrite app_nil_r.
  - change (AddressTypeDomain =? AddressTypeIPv4) with false. change (AddressTypeDomain =? AddressTypeIPv6) with false. cbn match.
    rewrite (make_bytes_split _ (S (S (length host + 2)))) by (unfold len; lia). rewrite put_fresh by done. cbn [obind]. rewrite put_fresh by done. cbn [obind].
    rewrite copy_zero by done. cbn [obind]. rewrite put16_fresh by (rewrite len_app; done). cbn [replicate]. rewrite app_nil_r, wrap8_id by (unfold u8; lia). done.
Qed.

Lemma build_datagram t addr payload : wire t addr -> bytes_ok addr -> (AddressType t = AddressTypeIPv6 -> To4 addr = None) ->
  BuildUDPDatagram t payload = Ok ([0; 0; 0] ++ wire_bytes t addr ++ payload).
Proof.
  destruct t as [kind host port]. unfold wire, wire_bytes, BuildUDPDatagram. cbn [AddressType Host Port]. intros Hw Hok H4.
  assert (forall k m n, n = Z.of_nat (3 + S m) -> put (E:=socks_error) (make_bytes n) 3 k = Ok ([0; 0; 0; k] ++ replicate m 0)) as Hhead.
  { intros k m n ->. rewrite (make_bytes_split _ (3 + S m)) by lia. rewrite replicate_add. change ([] ++ replicate 3 0 ++ replicate (S m) 0) with ([0; 0; 0] ++ replicate (S m) 0). by rewrite put_fresh. }
  assert (forall l a, a = len l -> copy_at (E:=socks_error) (l ++ replicate (length payload) 0) a payload = Ok (l ++ payload)) as Htail.
  { intros l a ->. apply copy_at_end; [done | by rewrite length_replicate]. }
  destruct Hw as [(-> & Hl & ->) | [(-> & Hl & ->) | (-> & -> & Hl)]].
  - change (AddressTypeIPv4 =? AddressTypeIPv4) with true. cbn match. rewrite ParseIPv4_String by done.
    rewrite (Hhead _ (length addr + S (S (length payload)))%nat) by (unfold len; lia). cbn [obind]. rewrite copy_zero by (unfold len; rewrite ?Hl; done). cbn [obind].
    rewrite put16_fresh by (unfold len; rewrite length_app, Hl; done). cbn [obind]. rewrite Htail by (unfold len; rewrite !length_app, Hl; done). cbn [app]. by rewrite <- !app_assoc.
  - change (AddressTypeIPv6 =? AddressTypeIPv4) with false. change (AddressTypeIPv6 =? AddressTypeIPv6) with true. cbn match. rewrite ParseIPv6_String by auto.
    rewrite (Hhead _ (length addr + S (S (length payload)))%nat) by (unfold len; lia). cbn [obind]. rewrite copy_zero by (unfold len; rewrite ?Hl; done). cbn [obind].
    rewrite put16_fresh by (unfold len; rewrite length_app, Hl; done). cbn [obind]. rewrite Htail by (unfold len; rewrite !length_app, Hl; done). cbn [app]. by rewrite <- !app_assoc.
  - change (AddressTypeDomain =? AddressTypeIPv4) with false. change (AddressTypeDomain =? AddressTypeIPv6) with false. change (AddressTypeDomain =? AddressTypeDomain) with true. cbn match.
    rewrite (Hhead _ (S (length host + S (S (length payload))))%nat) by (unfold len; lia). cbn [obind]. rewrite put_fresh by done. cbn [obind]. rewrite copy_zero by done. cbn [obind].
    rewrite put16_fresh by (rewrite len_app; done). cbn [obind]. rewrite Htail by (rewrite !len_app; unfold len, be16; cbn; lia). rewrite wrap8_id by (unfold u8; lia). cbn [app]. by rewrite <- !app_assoc.
Qed.

Lemma offset_wire t addr rest : wire t addr -> u16 (Port t) -> parseTargetWithOffset (wire_bytes t addr ++ rest) = Ok (t, len (wire_bytes t addr)).
Proof.
  intros Hw Hp. unfold parseTargetWithOffset. rewrite parse_wire by done. cbn [obind].
  assert (len (wire_bytes t addr) = 1 + len addr + 2) as Hlen by (unfold wire_bytes; rewrite len_cons, len_app; unfold be16, len; cbn; lia).
  destruct t as [kind host port]. unfold wire in Hw. cbn [AddressType Host Port] in *. destruct Hw as [(-> & Hl & ->) | [(-> & Hl & ->) | (-> & -> & Hl)]].
  - change (AddressTypeIPv4 =? AddressTypeIPv4) with true. cbn match. unfold len in *. do 2 f_equal. lia.
  - change (AddressTypeIPv6 =? AddressTypeIPv4) with false. change (AddressTypeIPv6 =? AddressTypeIPv6) with true. cbn match. unfold len in *. do 2 f_equal. lia.
  - change (AddressTypeDomain =? AddressTypeIPv4) with false. change (AddressTypeDomain =? AddressTypeIPv6) with false. change (AddressTypeDomain =? AddressTypeDomain) with true. cbn match.
    rewrite len_cons in Hlen. rewrite len_app. pose proof (len_nonneg rest). rewrite (proj2 (Z.ltb_ge _ _)) by lia.
    unfold wire_bytes. cbn [AddressType Host Port app]. rewrite at_cons_S by lia. cbn [Z.sub Z.add Z.opp Pos.pred_double Z.pos_sub]. rewrite at_cons_0. cbn [obind].
    do 2 f_equal. unfold wire_bytes in Hlen. cbn [AddressType Host Port app] in Hlen. lia.
Qed.

Lemma parse_datagram t addr payload : wire t addr -> u16 (Port t) ->
  ParseUDPDatagram ([0; 0; 0] ++ wire_bytes t addr ++ payload) = Ok (mkDatagram t payload).
Proof.
  intros Hw Hp. unfold ParseUDPDatagram.
  assert (1 <= len (wire_bytes t addr)) as Hl by (unfold wire_bytes; rewrite len_cons; pose proof (len_nonneg (addr ++ be16 (Port t))); lia).
  pose proof (len_nonneg payload). assert (len ([0; 0; 0] ++ wire_bytes t addr ++ payload) = 3 + len (wire_bytes t addr) + len payload) as Hlen by (rewrite !len_app; change (len [0; 0; 0]) with 3; lia).
  rewrite Hlen, (proj2 (Z.ltb_ge _ _)) by lia. change (at_ ([0; 0; 0] ++ wire_bytes t addr ++ payload) 2) with (@Ok socks_error Z 0). cbn [obind]. change (negb (0 =? 0)) with false. cbn match.
  rewrite slice_tail by (rewrite ?len_app; change (len [0; 0; 0]) with 3; lia). cbn [obind]. rewrite offset_wire by done. cbn [obind].
  rewrite (proj2 (Z.ltb_ge _ _)) by lia. rewrite app_assoc, slice_tail by (rewrite ?len_app; change (len [0; 0; 0]) with 3; lia). done.
Qed.

(** A datagram never panics. *)
Lemma datagram_total packet : bytes_ok packet -> is_panic (ParseUDPDatagram packet) = false.
Proof.
  intros Hok. unfold ParseUDPDatagram. destruct (len packet <? 4) eqn:H4; [done |]. zbool. destruct (at_ok (E:=socks_error) packet 2) as (frag & -> & _); [lia |]. cbn [obind].
  case_if; [done |]. rewrite slice_ok by lia. cbn [obind].
  match goal with |- context [parseTargetWithOffset ?b] => assert (bytes_ok b) as Hb by (by apply Forall_take, Forall_drop); assert (len b = len packet - 3) as Hlb by (unfold len in *; rewrite length_take, length_drop; lia); set (body := b) in * end.
  destruct (parse_cases body Hb) as [(e & He) | (t & addr & rest & _ & E & Hw & Hp)].
  - unfold parseTargetWithOffset. by rewrite He.
  - rewrite E, offset_wire by done. cbn [obind]. assert (3 + len (wire_bytes t addr) <= len packet) as Hle.
    { rewrite E, len_app in Hlb. pose proof (len_nonneg rest). lia. }
    rewrite (proj2 (Z.ltb_ge _ _)) by lia. rewrite slice_ok; [done | pose proof (len_nonneg (wire_bytes t addr)); lia | lia].
Qed.

(** ** Claims *)

(** a target that is built reads back.  For every target with an IPv4 address, an IPv6
    address that is not an IPv4 address in disguise, or a domain of 1 to 255 bytes, the
    payload of a SYN and the UDP datagram are built without a panic, and reading them gives
    the target, whatever follows, and the payload of the datagram. *)
Theorem socks_target_roundtrip t : target_ok t ->
  exists p, BuildTargetPayload t = Ok p /\ (forall rest, ParseTargetPayload (p ++ rest) = Ok t) /\
  forall payload, exists d, BuildUDPDatagram t payload = Ok d /\ ParseUDPDatagram d = Ok (mkDatagram t payload).
Proof.
  intros (Hp & addr & Hw & Hok & H4). exists (wire_bytes t addr). split_and!; [by apply build_wire | intros; by apply parse_wire |].
  intros payload. eexists. split; [by apply build_datagram | by apply parse_datagram].
Qed.

Lemma socks_target_roundtrip_witness :
  let t := mkTarget AddressTypeIPv6 (NetIP.String [32; 1; 13; 184; 0; 0; 0; 0; 0; 0; 0; 0; 0; 0; 0; 1]) 443 in
  exists p, BuildTargetPayload t = Ok p /\ (forall rest, ParseTargetPayload (p ++ rest) = Ok t) /\
  forall payload, exists d, BuildUDPDatagram t payload = Ok d /\ ParseUDPDatagram d = Ok (mkDatagram t payload).
Proof.
  apply (socks_target_roundtrip (mkTarget AddressTypeIPv6 (NetIP.String [32; 1; 13; 184; 0; 0; 0; 0; 0; 0; 0; 0; 0; 0; 0; 1]) 443)).
  split; [unfold u16; cbn; lia |]. exists [32; 1; 13; 184; 0; 0; 0; 0; 0; 0; 0; 0; 0; 0; 0; 1]. split; [right; left; done |]. split; [repeat constructor; unfold u8; lia | done].
Defined.

(** C25: what a client sends as a target neither panics the server nor dials a private
    address.  Reading any payload and any datagram ends with a target or an error, and when
    the target carries an address, [validateSOCKSTargetHost] refuses its text exactly when
    the address lies in one of the blocks of loopback, private, shared, link-local,
    multicast, benchmark, unspecified or broadcast addresses, IPv4 addresses written as
    IPv6 addresses included. *)
Theorem socks_guard_exact payload : bytes_ok payload ->
  is_panic (ParseTargetPayload payload) = false /\ is_panic (ParseUDPDatagram payload) = false /\
  forall t, ParseTargetPayload payload = Ok t -> AddressType t <> AddressTypeDomain ->
    let ip := take (if AddressType t =? AddressTypeIPv4 then 4 else 16) (drop 1 payload) in
    validateSOCKSTargetHost (Host t) = if refused ip then Err (blocked_host (Host t)) else Ok tt.
Proof.
  intros Hok. destruct (parse_cases payload Hok) as [(e & He) | (t & addr & rest & Ht & E & Hw & Hp)].
  - rewrite He. split_and!; [done | by apply datagram_total | done].
  - rewrite Ht. split_and!; [done | by apply datagram_total |]. intros t' [= <-] Hd. cbv zeta. rewrite E in *. unfold wire_bytes in *. cbn [app drop] in *.
    apply Forall_cons in Hok as [_ Hok]. rewrite <- app_assoc in *. apply bytes_ok_app in Hok as [Hok _].
    destruct Hw as [(Hk & Hl & ->) | [(Hk & Hl & ->) | (Hk & _)]]; [| | done]; rewrite Hk.
    + change (AddressTypeIPv4 =? AddressTypeIPv4) with true. cbn match. rewrite drop_0, take_app_length' by done. apply validate_address; auto.
    + change (AddressTypeIPv6 =? AddressTypeIPv4) with false. cbn match. rewrite drop_0, take_app_length' by done. apply validate_address; auto.
Qed.

Lemma socks_guard_exact_witness :
  validateSOCKSTargetHost (NetIP.String [192; 168; 1; 1]) = Err (blocked_host (NetIP.String [192; 168; 1; 1])) /\
  validateSOCKSTargetHost (NetIP.String [1; 1; 1; 1]) = Ok tt.
Proof.
  split.
  - refine (proj2 (proj2 (socks_guard_exact [1; 192; 168; 1; 1; 0; 80] _)) (mkTarget AddressTypeIPv4 (NetIP.String [192; 168; 1; 1]) 80) _ _); [repeat constructor; unfold u8; lia | done | done].
  - refine (proj2 (proj2 (socks_guard_exact [1; 1; 1; 1; 1; 0; 80] _)) (mkTarget AddressTypeIPv4 (NetIP.String [1; 1; 1; 1]) 80) _ _); [repeat constructor; unfold u8; lia | done | done].
Defined.

(** ** Texts the check does not see through *)

(** Visible ASCII characters. *)
Definition visible (c : Z) : Prop := 33 <= c <= 126.

Lemma TrimSpace_visible s : Forall visible s -> TrimSpace s = s.
Proof.
  assert (forall l, Forall visible l -> trim_left l = l) as H.
  { destruct 1 as [| c l Hc _]; [done |]. cbn [trim_left]. unfold is_space, visible in *. by rewrite (proj2 (orb_false_iff _ _)) by lia. }
  intros Hs. unfold TrimSpace. rewrite (H s Hs), H, reverse_involutive; [done | by apply Forall_reverse].
Qed.

Lemma ip_char_visible s : Forall ip_char s -> Forall visible s /\ Forall (fun c => c <> 37) s.
Proof. intros Hs. split; (eapply Forall_impl; [exact Hs |]); unfold ip_char, visible; cbn; lia. Qed.

(** A text without [sep], then [sep], then [z]: it ends in [d], which has no [sep], only if [z] does. *)
Lemma HasSuffix_after (a z d : bytes) (sep : Z) : sep ∉ d -> HasSuffix (a ++ sep :: z) d = HasSuffix z d.
Proof.
  intros Hd. unfold HasSuffix. rewrite length_app. cbn [length]. destruct (Nat.leb_spec (length d) (length z)) as [Hl | Hl].
  - rewrite (proj2 (Nat.leb_le _ _)) by lia. replace (length a + S (length z) - length d)%nat with (length (a ++ [sep]) + (length z - length d))%nat by (rewrite length_app; cbn; lia).
    change (sep :: z) with ([sep] ++ z). by rewrite app_assoc, <- drop_drop, drop_app_length.
  - apply andb_false_iff. right. apply bool_decide_eq_false. intros E. apply Hd. rewrite <- E. rewrite drop_app_le by lia. apply elem_of_app. right. by left.
Qed.

Lemma parse_kind_app s t k : parse_kind s = Some k -> parse_kind (s ++ t) = Some k.
Proof. induction s as [| c s IH]; [done |]. cbn [parse_kind app]. case_if; [done | exact IH]. Qed.

Lemma find_percent s zone : Forall (fun c => c <> 37) s -> list_find (fun c => c = 37) (s ++ 37 :: zone) = Some (length s, 37).
Proof.
  intros Hs. apply list_find_Some. split; [by rewrite lookup_app_r, Nat.sub_diag |]. split; [done |]. intros j y Hj Hlt. rewrite lookup_app_l in Hj by done.
  by apply (Forall_lookup_1 _ _ _ _ Hs Hj).
Qed.

(** An IPv6 address with a zone: [netip.ParseAddr] reads the address and the zone. *)
Lemma zone_read ip zone : length ip = 16%nat -> bytes_ok ip -> To4 ip = None -> zone <> [] ->
  parse_kind (NetIP.String ip ++ 37 :: zone) = Some 58 /\ parseIPv6 (NetIP.String ip ++ 37 :: zone) = Some (ip, zone).
Proof.
  intros Hl Hok H4 Hz. pose proof (ParseIP_String ip (or_intror Hl) Hok) as Hp. destruct (long_address ip Hl) as [E16 _]. rewrite E16 in Hp.
  destruct (ip_char_visible _ (String_chars ip Hok)) as [_ Hn]. assert (parse_kind (NetIP.String ip) = Some 58 /\ parseIPv6 (NetIP.String ip) = Some (ip, [])) as [Hk H6].
  { unfold ParseIP in Hp. repeat case_match; simplify_eq; try done. apply fmap_Some in Hp as (ip4 & _ & ->). exfalso. revert H4. unfold To4, len. rewrite Hl. cbn.
    rewrite bool_decide_true by done. done. }
  split; [by apply parse_kind_app |]. unfold parseIPv6 in *. rewrite no_percent in H6 by done. rewrite find_percent, take_app_length by done.
  replace (drop (S (length (NetIP.String ip))) (NetIP.String ip ++ 37 :: zone)) with zone.
  2: { change (37 :: zone) with ([37] ++ zone). rewrite app_assoc. symmetry. apply drop_app_length'. rewrite length_app. cbn. lia. }
  rewrite bool_decide_false by done. apply fmap_Some in H6 as (x & Hx & Ex). rewrite Hx. injection Ex as ->. done.
Qed.

Lemma zone_accepted ip zone : length ip = 16%nat -> bytes_ok ip -> To4 ip = None -> zone <> [] -> Forall visible zone ->
  HasSuffix (ToLower zone) dot_localhost = false -> validateSOCKSTargetHost (NetIP.String ip ++ 37 :: zone) = Ok tt.
Proof.
  intros Hl Hok H4 Hz Hv Hs. destruct (zone_read ip zone Hl Hok H4 Hz) as [Hk H6]. destruct (ip_char_visible _ (String_chars ip Hok)) as [Hc _].
  unfold validateSOCKSTargetHost. rewrite TrimSpace_visible by (apply Forall_app_2; [done | by constructor]).
  rewrite bool_decide_false by (by destruct (NetIP.String ip)).
  assert (37 ∈ ToLower (NetIP.String ip ++ 37 :: zone)) as Hin by (unfold ToLower; rewrite map_app; apply elem_of_app; right; by left).
  rewrite bool_decide_false by (intros E; rewrite E in Hin; unfold localhost in Hin; set_solver).
  unfold ToLower in *. rewrite map_app. cbn [map]. change (lower_byte 37) with 37.
  rewrite HasSuffix_after by (unfold dot_localhost, localhost; set_solver). rewrite Hs. cbn [orb]. unfold ParseIP. rewrite Hk, H6. by destruct zone.
Qed.

Lemma localhost_letters name : ToLower name = localhost -> Forall (fun c => 65 <= c <= 122) name.
Proof.
  intros Hn. apply Forall_forall. intros c Hc. assert (lower_byte c ∈ localhost) as Hin by (rewrite <- Hn; apply list_elem_of_fmap; by exists c).
  unfold lower_byte, is_upper, localhost in *. case_if; zbool; [lia |]. rewrite !elem_of_cons, elem_of_nil in Hin. lia.
Qed.

Lemma localhost_refused name : ToLower name = localhost -> validateSOCKSTargetHost name = Err (blocked_host name).
Proof.
  intros Hn. unfold validateSOCKSTargetHost. rewrite TrimSpace_visible by (eapply Forall_impl; [by apply localhost_letters |]; unfold visible; cbn; lia).
  rewrite bool_decide_false by (by intros ->). by rewrite Hn, bool_decide_true.
Qed.

(** The name of the host itself, in any case, with the dot of the root. *)
Lemma rooted_accepted name : ToLower name = localhost -> validateSOCKSTargetHost (name ++ [46]) = Ok tt.
Proof.
  intros Hn. pose proof (localhost_letters name Hn) as Hv.
  assert (parse_kind (name ++ [46]) = Some 46) as Hk by (rewrite parse_kind_skip; [done |]; eapply Forall_impl; [exact Hv |]; cbn; lia).
  unfold validateSOCKSTargetHost. rewrite TrimSpace_visible.
  2: { apply Forall_app_2; [eapply Forall_impl; [exact Hv |]; unfold visible; cbn; lia | by repeat constructor; unfold visible]. }
  rewrite bool_decide_false by (by destruct name). unfold ToLower in *. rewrite map_app, Hn. change (bool_decide (localhost ++ map lower_byte [46] = localhost) || HasSuffix (localhost ++ map lower_byte [46]) dot_localhost) with false.
  cbn match. unfold ParseIP. rewrite Hk. replace (parseIPv4 (name ++ [46])) with (@None bytes); [done |].
  destruct Hv as [| c name Hc _]; [done |]. unfold parseIPv4. cbn [app parse4_loop]. unfold is_digit. rewrite (proj2 (Z.leb_gt c 57)), andb_false_r by lia. by rewrite (proj2 (Z.eqb_neq c 46)) by lia.
Qed.

(** C38: Two ways around the check.  Take any IPv6 address that [validateSOCKSTargetHost] refuses,
    such as a loopback or a private one, and any zone of visible ASCII characters that does not end
    in [.localhost].  The text of the address, a percent sign and the zone, sent as a domain of at
    most 255 bytes, is read as a target and passes the check, because [net.ParseIP] does not read
    it as an address, while [netip.ParseAddr], with which the dialer reads it, finds the refused
    address in it.  And [localhost], in any mix of case, passes with the dot of the root. *)
Theorem socks_guard_gaps (ip zone : bytes) (port : Z) :
  length ip = 16%nat -> bytes_ok ip -> To4 ip = None -> refused ip = true ->
  zone <> [] -> Forall visible zone -> HasSuffix (ToLower zone) dot_localhost = false -> u16 port ->
  let host := NetIP.String ip ++ 37 :: zone in
  validateSOCKSTargetHost (NetIP.String ip) = Err (blocked_host (NetIP.String ip)) /\
  (len host <= 255 -> ParseTargetPayload ([AddressTypeDomain; len host] ++ host ++ be16 port) = Ok (mkTarget AddressTypeDomain host port)) /\
  validateSOCKSTargetHost host = Ok tt /\ parse_kind host = Some 58 /\ parseIPv6 host = Some (ip, zone) /\
  forall name, ToLower name = localhost -> validateSOCKSTargetHost name = Err (blocked_host name) /\ validateSOCKSTargetHost (name ++ [46]) = Ok tt.
Proof.
  intros Hl Hok H4 Hr Hz Hv Hs Hp host. destruct (zone_read ip zone Hl Hok H4 Hz) as [Hk H6]. split_and!; try done.
  - by rewrite validate_address, Hr by auto.
  - intros Hle. rewrite <- (app_nil_r (_ ++ _)). apply (parse_wire (mkTarget AddressTypeDomain host port) (len host :: host)); [| done]. right; right. split; [done |]. split; [done |]. change (1 <= len host <= 255). split; [| done].
    unfold host. rewrite len_app, len_cons. pose proof (len_nonneg (NetIP.String ip)). pose proof (len_nonneg zone). lia.
  - by apply zone_accepted.
  - intros name Hn. split; [| by apply rooted_accepted]. by apply localhost_refused.
Qed.

(** The loopback address in the zone of its interface. *)
Lemma socks_guard_gaps_witness : validateSOCKSTargetHost ([58; 58; 49; 37] ++ [108; 111]) = Ok tt /\
  parseIPv6 ([58; 58; 49; 37] ++ [108; 111]) = Some (IPv6loopback, [108; 111]).
Proof.
  destruct (socks_guard_gaps IPv6loopback [108; 111] 80) as (_ & _ & H1 & _ & H2 & _); [done | | done | done | done | | done | | split; [exact H1 | exact H2]].
  - apply (bool_decide_unpack _). vm_compute. exact I.
  - repeat constructor; unfold visible; lia.
  - split; lia.
Defined.
End SocksProto.
