(* ===== verification/ServerConfig.v ===== *)
(** The configuration of the server: src/masterdns/internal/config/server.go.

    [ServerConfig] has the fields of the Go struct, [finalizeServerConfig] checks and
    completes what was read from the file, and the methods derive durations and sizes.
    Texts are lists of bytes, floating-point settings are float64 values (GoFloat.v).  Reading
    the file (TOML or JSON) and the command-line flags are not modelled: any [ServerConfig]
    may come in.  Whatever comes in without a NaN, what goes out is within the documented
    ranges and is a fixed point of the function. *)

From stdpp Require Import base tactics list gmap strings sorting.
From Stdlib Require Import ZArith Lia Floats.SpecFloat.
From S2P Require Import Prelude GoFloat Compression DnsParser DnsTransport NetIP.

Module ServerCfg.
Import DnsParser DnsTransport.

(** The bytes of a text. *)
Definition str (s : string) : bytes := map (fun c => Z.of_N (Ascii.N_of_ascii c)) (String.list_ascii_of_string s).

Record ServerConfig := mkServerConfig {
  ConfigDir : bytes;
  ConfigPath : bytes;
  ProtocolType : bytes;
  UDPHost : bytes;
  UDPPort : Z;
  FallbackAddress : bytes;
  UDPReaders : Z;
  SocketBufferSize : Z;
  MaxConcurrentRequests : Z;
  DNSRequestWorkers : Z;
  DeferredSessionWorkers : Z;
  DeferredSessionQueueLimit : Z;
  MaxPacketSize : Z;
  DropLogIntervalSecs : float64;
  InvalidCookieWindowSecs : float64;
  InvalidCookieErrorThreshold : Z;
  SessionTimeoutSecs : float64;
  SessionCleanupIntervalSecs : float64;
  ClosedSessionRetentionSecs : float64;
  SessionInitReuseTTLSeconds : float64;
  RecentlyClosedStreamTTLSeconds : float64;
  RecentlyClosedStreamCap : Z;
  TerminalStreamRetentionSeconds : float64;
  MaxPacketsPerBatch : Z;
  PacketBlockControlDuplication : Z;
  DNSUpstreamServers : list bytes;
  DNSUpstreamTimeoutSecs : float64;
  DNSInflightWaitTimeoutSecs : float64;
  SOCKSConnectTimeoutSecs : float64;
  DNSFragmentAssemblyTimeoutSecs : float64;
  StreamSetupAckTTLSeconds : float64;
  StreamResultPacketTTLSeconds : float64;
  StreamFailurePacketTTLSeconds : float64;
  DNSCacheMaxRecords : Z;
  DNSCacheTTLSeconds : float64;
  UseExternalSOCKS5 : bool;
  SOCKS5Auth : bool;
  SOCKS5User : bytes;
  SOCKS5Pass : bytes;
  ForwardIP : bytes;
  ForwardPort : Z;
  Domain : list bytes;
  MinVPNLabelLength : Z;
  SupportedUploadCompressionTypes : list Z;
  SupportedDownloadCompressionTypes : list Z;
  DataEncryptionMethod : Z;
  EncryptionKeyFile : bytes;
  LogLevel : bytes;
  ARQWindowSize : Z;
  ARQInitialRTOSeconds : float64;
  ARQMaxRTOSeconds : float64;
  ARQControlInitialRTOSeconds : float64;
  ARQControlMaxRTOSeconds : float64;
  ARQMaxControlRetries : Z;
  ARQInactivityTimeoutSeconds : float64;
  ARQDataPacketTTLSeconds : float64;
  ARQControlPacketTTLSeconds : float64;
  ARQMaxDataRetries : Z;
  ARQDataNackMaxGap : Z;
  ARQDataNackInitialDelaySeconds : float64;
  ARQDataNackRepeatSeconds : float64;
  ARQTerminalDrainTimeoutSec : float64;
  ARQTerminalAckWaitTimeoutSec : float64;
  MaxAllowedClientActiveSessions : Z;
  MaxAllowedClientActiveStreams : Z;
  ClientMaxPacketDuplicationCount : Z;
  ClientMaxSetupDuplicationCount : Z;
  ClientMaxUploadMTU : Z;
  ClientMaxDownloadMTU : Z;
  ClientMaxRxTxWorkers : Z;
  ClientMinPingAggressiveInterval : float64;
  ClientMaxPacketsPerBatch : Z;
  ClientMaxARQWindowSize : Z;
  ClientMaxARQDataNackMaxGap : Z;
  ClientMinCompressionMinSize : Z;
  ClientMinARQInitialRTOSeconds : float64
}.

Definition defaultServerConfig : ServerConfig := {|
  ConfigDir := [];
  ConfigPath := [];
  ProtocolType := str "SOCKS5";
  UDPHost := [];
  UDPPort := 53;
  FallbackAddress := [];
  UDPReaders := 4;
  SocketBufferSize := 8 * 1024 * 1024;
  MaxConcurrentRequests := 16384;
  DNSRequestWorkers := 8;
  DeferredSessionWorkers := 4;
  DeferredSessionQueueLimit := 4096;
  MaxPacketSize := 65535;
  DropLogIntervalSecs := float64_of_int 2;
  InvalidCookieWindowSecs := float64_of_int 2;
  InvalidCookieErrorThreshold := 10;
  SessionTimeoutSecs := float64_of_int 300;
  SessionCleanupIntervalSecs := float64_of_int 30;
  ClosedSessionRetentionSecs := float64_of_int 600;
  SessionInitReuseTTLSeconds := float64_of_int 600;
  RecentlyClosedStreamTTLSeconds := float64_of_int 600;
  RecentlyClosedStreamCap := 2000;
  TerminalStreamRetentionSeconds := float64_of_int 45;
  MaxPacketsPerBatch := 5;
  PacketBlockControlDuplication := 1;
  DNSUpstreamServers := [str "1.1.1.1:53"; str "1.0.0.1:53"];
  DNSUpstreamTimeoutSecs := float64_of_int 4;
  DNSInflightWaitTimeoutSecs := float64_of_int 15;
  SOCKSConnectTimeoutSecs := float64_of_int 120;
  DNSFragmentAssemblyTimeoutSecs := float64_of_int 300;
  StreamSetupAckTTLSeconds := float64_of_int 400;
  StreamResultPacketTTLSeconds := float64_of_int 300;
  StreamFailurePacketTTLSeconds := float64_of_int 120;
  DNSCacheMaxRecords := 50000;
  DNSCacheTTLSeconds := float64_of_int 300;
  UseExternalSOCKS5 := false;
  SOCKS5Auth := false;
  SOCKS5User := str "admin";
  SOCKS5Pass := str "123456";
  ForwardIP := [];
  ForwardPort := 1080;
  Domain := [];
  MinVPNLabelLength := 3;
  SupportedUploadCompressionTypes := [0; 1; 2; 3];
  SupportedDownloadCompressionTypes := [0; 1; 2; 3];
  DataEncryptionMethod := 1;
  EncryptionKeyFile := str "encrypt_key.txt";
  LogLevel := str "INFO";
  ARQWindowSize := 800;
  ARQInitialRTOSeconds := float64_of_int 1;
  ARQMaxRTOSeconds := float64_of_int 5;
  ARQControlInitialRTOSeconds := float64_lit 5 10;
  ARQControlMaxRTOSeconds := float64_of_int 3;
  ARQMaxControlRetries := 400;
  ARQInactivityTimeoutSeconds := float64_of_int 1800;
  ARQDataPacketTTLSeconds := float64_of_int 2400;
  ARQControlPacketTTLSeconds := float64_of_int 1200;
  ARQMaxDataRetries := 1200;
  ARQDataNackMaxGap := 16;
  ARQDataNackInitialDelaySeconds := float64_lit 3 10;
  ARQDataNackRepeatSeconds := float64_of_int 1;
  ARQTerminalDrainTimeoutSec := float64_of_int 120;
  ARQTerminalAckWaitTimeoutSec := float64_of_int 90;
  MaxAllowedClientActiveSessions := 255;
  MaxAllowedClientActiveStreams := 2000;
  ClientMaxPacketDuplicationCount := 5;
  ClientMaxSetupDuplicationCount := 6;
  ClientMaxUploadMTU := 150;
  ClientMaxDownloadMTU := 4096;
  ClientMaxRxTxWorkers := 255;
  ClientMinPingAggressiveInterval := float64_lit 5 100;
  ClientMaxPacketsPerBatch := 20;
  ClientMaxARQWindowSize := 8000;
  ClientMaxARQDataNackMaxGap := 255;
  ClientMinCompressionMinSize := 120;
  ClientMinARQInitialRTOSeconds := float64_lit 5 100
|}.

(** ** Helpers (client.go) *)

Definition defaultString (value fallback : bytes) : bytes := if bool_decide (value = []) then fallback else value.

Definition defaultIntBelow (value minValue fallback : Z) : Z := if value <? minValue then fallback else value.

Definition clampInt (value minValue maxValue : Z) : Z :=
  if value <? minValue then minValue else if maxValue <? value then maxValue else value.

Definition fzero : float64 := float64_of_int 0.

(** [x <= y] *)
Definition fle (x y : float64) : bool := SFleb x y.

Definition defaultFloatAtMostZero (value fallback : float64) : float64 := if fle value fzero then fallback else value.

Definition clampFloat (value minValue maxValue : float64) : float64 :=
  if flt value minValue then minValue else if flt maxValue value then maxValue else value.

(** [strings.ToUpper] on ASCII. *)
Definition upper_byte (c : Z) : Z := if (97 <=? c) && (c <=? 122) then c - 32 else c.
Definition ToUpper (s : bytes) : bytes := map upper_byte s.

(** The loop of [normalizeCompressionTypeList]; [seen] are the types so far. *)
Fixpoint normalize_types (values seen : list Z) : list Z :=
  match values with
  | [] => []
  | value :: values =>
      if (value <? 0) || (3 <? value) || bool_decide (value ∈ seen) || negb (IsTypeAvailable (wrap8 value)) then normalize_types values seen
      else value :: normalize_types values (value :: seen)
  end.

Definition normalizeCompressionTypeList (values : list Z) : list Z :=
  match values with
  | [] => [0]
  | _ => match normalize_types values [] with [] => [0] | out => out end
  end.

(** ** Checks *)

Inductive config_error :=
| ErrProtocolType
| ErrUDPHost
| ErrUDPPort
| ErrFallback
| ErrForwardPort
| ErrSOCKS5User
| ErrSOCKS5Pass
| ErrSOCKS5Auth
| ErrExternalSOCKS5.

(** [strconv.Atoi] of digits, as a number of any size. *)
Definition digits_value (s : bytes) : Z := fold_left (fun v c => 10 * v + (c - 48)) s 0.

Definition port_ok (portText : bytes) : bool :=
  negb (bool_decide (portText = [])) && forallb NetIP.is_digit portText && (1 <=? digits_value portText) && (digits_value portText <=? 65535).

Definition fallback_ok (fallbackAddress : bytes) : bool :=
  if bool_decide (fallbackAddress = []) then true
  else match NetIP.SplitHostPort fallbackAddress with
  | None => false
  | Some (host, portText) =>
      if bool_decide (host = []) || negb (bool_decide (host = TrimSpace host)) then false
      else if match NetIP.ParseIP host with Some ip => NetIP.IsUnspecified ip | None => false end then false
      else port_ok portText
  end.

(** The fields that are filled in or moved into their range. *)
Definition complete (protocolType fallbackAddress : bytes) (cfg : ServerConfig) : ServerConfig :=
  let windowSize := clampInt (defaultIntBelow (ARQWindowSize cfg) 1 800) 1 8000 in
  let initialRTO := clampFloat (defaultFloatAtMostZero (ARQInitialRTOSeconds cfg) (float64_lit 5 10)) (float64_lit 1 100) (float64_of_int 60) in
  let controlInitialRTO := clampFloat (defaultFloatAtMostZero (ARQControlInitialRTOSeconds cfg) (float64_lit 5 10)) (float64_lit 1 100) (float64_of_int 60) in
  let dataNackGapCap := Z.min (Z.min (Z.max (windowSize ÷ 8) 16) 128) (windowSize - 1) in
  {|
    ConfigDir := ConfigDir cfg;
    ConfigPath := ConfigPath cfg;
    ProtocolType := protocolType;
    UDPHost := UDPHost cfg;
    UDPPort := UDPPort cfg;
    FallbackAddress := fallbackAddress;
    UDPReaders := if UDPReaders cfg <=? 0 then UDPReaders defaultServerConfig else UDPReaders cfg;
    SocketBufferSize := if SocketBufferSize cfg <=? 0 then 8 * 1024 * 1024 else SocketBufferSize cfg;
    MaxConcurrentRequests := if MaxConcurrentRequests cfg <=? 0 then 4096 else MaxConcurrentRequests cfg;
    DNSRequestWorkers := if DNSRequestWorkers cfg <=? 0 then DNSRequestWorkers defaultServerConfig else DNSRequestWorkers cfg;
    DeferredSessionWorkers := let n := if DeferredSessionWorkers cfg <? 0 then 0 else DeferredSessionWorkers cfg in if 128 <? n then 128 else n;
    DeferredSessionQueueLimit := let n := if DeferredSessionQueueLimit cfg <? 1 then 256 else DeferredSessionQueueLimit cfg in if 14336 <? n then 14336 else n;
    MaxPacketSize := if MaxPacketSize cfg <=? 0 then 65535 else MaxPacketSize cfg;
    DropLogIntervalSecs := if fle (DropLogIntervalSecs cfg) fzero then (float64_of_int 2) else DropLogIntervalSecs cfg;
    InvalidCookieWindowSecs := if fle (InvalidCookieWindowSecs cfg) fzero then (float64_of_int 2) else InvalidCookieWindowSecs cfg;
    InvalidCookieErrorThreshold := if InvalidCookieErrorThreshold cfg <=? 0 then 10 else InvalidCookieErrorThreshold cfg;
    SessionTimeoutSecs := if fle (SessionTimeoutSecs cfg) fzero then (float64_of_int 300) else SessionTimeoutSecs cfg;
    SessionCleanupIntervalSecs := if fle (SessionCleanupIntervalSecs cfg) fzero then (float64_of_int 30) else SessionCleanupIntervalSecs cfg;
    ClosedSessionRetentionSecs := if fle (ClosedSessionRetentionSecs cfg) fzero then (float64_of_int 600) else ClosedSessionRetentionSecs cfg;
    SessionInitReuseTTLSeconds := clampFloat (defaultFloatAtMostZero (SessionInitReuseTTLSeconds cfg) (float64_of_int 600)) (float64_of_int 1) (float64_of_int 86400);
    RecentlyClosedStreamTTLSeconds := clampFloat (defaultFloatAtMostZero (RecentlyClosedStreamTTLSeconds cfg) (float64_of_int 600)) (float64_of_int 1) (float64_of_int 86400);
    RecentlyClosedStreamCap := clampInt (defaultIntBelow (RecentlyClosedStreamCap cfg) 1 2000) 1 1000000;
    TerminalStreamRetentionSeconds := clampFloat (defaultFloatAtMostZero (TerminalStreamRetentionSeconds cfg) (float64_of_int 45)) (float64_of_int 1) (float64_of_int 86400);
    MaxPacketsPerBatch := if MaxPacketsPerBatch cfg <? 1 then 20 else MaxPacketsPerBatch cfg;
    PacketBlockControlDuplication := let n := if PacketBlockControlDuplication cfg <? 1 then 1 else PacketBlockControlDuplication cfg in if 4 <? n then 4 else n;
    DNSUpstreamServers := if len (DNSUpstreamServers cfg) =? 0 then [str "1.1.1.1:53"] else DNSUpstreamServers cfg;
    DNSUpstreamTimeoutSecs := if fle (DNSUpstreamTimeoutSecs cfg) fzero then (float64_of_int 4) else DNSUpstreamTimeoutSecs cfg;
    DNSInflightWaitTimeoutSecs := clampFloat (defaultFloatAtMostZero (DNSInflightWaitTimeoutSecs cfg) (float64_of_int 15)) (float64_lit 1 10) (float64_of_int 120);
    SOCKSConnectTimeoutSecs := if fle (SOCKSConnectTimeoutSecs cfg) fzero then (float64_of_int 120) else SOCKSConnectTimeoutSecs cfg;
    DNSFragmentAssemblyTimeoutSecs := if fle (DNSFragmentAssemblyTimeoutSecs cfg) fzero then (float64_of_int 300) else DNSFragmentAssemblyTimeoutSecs cfg;
    StreamSetupAckTTLSeconds := clampFloat (defaultFloatAtMostZero (StreamSetupAckTTLSeconds cfg) (float64_of_int 400)) (float64_of_int 1) (float64_of_int 86400);
    StreamResultPacketTTLSeconds := clampFloat (defaultFloatAtMostZero (StreamResultPacketTTLSeconds cfg) (float64_of_int 300)) (float64_of_int 1) (float64_of_int 86400);
    StreamFailurePacketTTLSeconds := clampFloat (defaultFloatAtMostZero (StreamFailurePacketTTLSeconds cfg) (float64_of_int 120)) (float64_of_int 1) (float64_of_int 86400);
    DNSCacheMaxRecords := if DNSCacheMaxRecords cfg <? 1 then 50000 else DNSCacheMaxRecords cfg;
    DNSCacheTTLSeconds := if fle (DNSCacheTTLSeconds cfg) fzero then (float64_of_int 3600) else DNSCacheTTLSeconds cfg;
    UseExternalSOCKS5 := UseExternalSOCKS5 cfg;
    SOCKS5Auth := SOCKS5Auth cfg;
    SOCKS5User := SOCKS5User cfg;
    SOCKS5Pass := SOCKS5Pass cfg;
    ForwardIP := ForwardIP cfg;
    ForwardPort := ForwardPort cfg;
    Domain := Domain cfg;
    MinVPNLabelLength := if MinVPNLabelLength cfg <=? 0 then 3 else MinVPNLabelLength cfg;
    SupportedUploadCompressionTypes := normalizeCompressionTypeList (SupportedUploadCompressionTypes cfg);
    SupportedDownloadCompressionTypes := normalizeCompressionTypeList (SupportedDownloadCompressionTypes cfg);
    DataEncryptionMethod := if (DataEncryptionMethod cfg <? 0) || (5 <? DataEncryptionMethod cfg) then 1 else DataEncryptionMethod cfg;
    EncryptionKeyFile := if bool_decide (EncryptionKeyFile cfg = []) then str "encrypt_key.txt" else EncryptionKeyFile cfg;
    LogLevel := if bool_decide (LogLevel cfg = []) then str "INFO" else LogLevel cfg;
    ARQWindowSize := windowSize;
    ARQInitialRTOSeconds := initialRTO;
    ARQMaxRTOSeconds := clampFloat (defaultFloatAtMostZero (ARQMaxRTOSeconds cfg) (float64_of_int 3)) initialRTO (float64_of_int 120);
    ARQControlInitialRTOSeconds := controlInitialRTO;
    ARQControlMaxRTOSeconds := clampFloat (defaultFloatAtMostZero (ARQControlMaxRTOSeconds cfg) (float64_of_int 2)) controlInitialRTO (float64_of_int 120);
    ARQMaxControlRetries := clampInt (defaultIntBelow (ARQMaxControlRetries cfg) 1 128) 1 5000;
    ARQInactivityTimeoutSeconds := clampFloat (defaultFloatAtMostZero (ARQInactivityTimeoutSeconds cfg) (float64_of_int 1800)) (float64_of_int 10) (float64_of_int 86400);
    ARQDataPacketTTLSeconds := clampFloat (defaultFloatAtMostZero (ARQDataPacketTTLSeconds cfg) (float64_of_int 2400)) (float64_of_int 10) (float64_of_int 86400);
    ARQControlPacketTTLSeconds := clampFloat (defaultFloatAtMostZero (ARQControlPacketTTLSeconds cfg) (float64_of_int 1200)) (float64_of_int 10) (float64_of_int 86400);
    ARQMaxDataRetries := clampInt (defaultIntBelow (ARQMaxDataRetries cfg) 1 128) 1 5000;
    ARQDataNackMaxGap := clampInt (defaultIntBelow (ARQDataNackMaxGap cfg) 0 16) 0 dataNackGapCap;
    ARQDataNackInitialDelaySeconds := clampFloat (defaultFloatAtMostZero (ARQDataNackInitialDelaySeconds cfg) (float64_lit 3 10)) (float64_lit 1 100) (float64_of_int 30);
    ARQDataNackRepeatSeconds := clampFloat (defaultFloatAtMostZero (ARQDataNackRepeatSeconds cfg) (float64_lit 8 10)) (float64_lit 1 100) (float64_of_int 30);
    ARQTerminalDrainTimeoutSec := clampFloat (defaultFloatAtMostZero (ARQTerminalDrainTimeoutSec cfg) (float64_of_int 120)) (float64_of_int 10) (float64_of_int 3600);
    ARQTerminalAckWaitTimeoutSec := clampFloat (defaultFloatAtMostZero (ARQTerminalAckWaitTimeoutSec cfg) (float64_of_int 90)) (float64_of_int 5) (float64_of_int 3600);
    MaxAllowedClientActiveSessions := clampInt (defaultIntBelow (MaxAllowedClientActiveSessions cfg) 1 (MaxAllowedClientActiveSessions defaultServerConfig)) 1 255;
    MaxAllowedClientActiveStreams := clampInt (defaultIntBelow (MaxAllowedClientActiveStreams cfg) 1 (MaxAllowedClientActiveStreams defaultServerConfig)) 1 65535;
    ClientMaxPacketDuplicationCount := clampInt (defaultIntBelow (ClientMaxPacketDuplicationCount cfg) 0 (ClientMaxPacketDuplicationCount defaultServerConfig)) 0 (Z.min 15 255);
    ClientMaxSetupDuplicationCount := clampInt (defaultIntBelow (ClientMaxSetupDuplicationCount cfg) 0 (ClientMaxSetupDuplicationCount defaultServerConfig)) 0 (Z.min 15 255);
    ClientMaxUploadMTU := clampInt (defaultIntBelow (ClientMaxUploadMTU cfg) 1 (ClientMaxUploadMTU defaultServerConfig)) 1 255;
    ClientMaxDownloadMTU := clampInt (defaultIntBelow (ClientMaxDownloadMTU cfg) 1 (ClientMaxDownloadMTU defaultServerConfig)) 1 65535;
    ClientMaxRxTxWorkers := clampInt (defaultIntBelow (ClientMaxRxTxWorkers cfg) 1 (ClientMaxRxTxWorkers defaultServerConfig)) 1 255;
    ClientMinPingAggressiveInterval := clampFloat (defaultFloatAtMostZero (ClientMinPingAggressiveInterval cfg) (ClientMinPingAggressiveInterval defaultServerConfig)) (float64_lit 5 100) (float64_of_int 1);
    ClientMaxPacketsPerBatch := clampInt (defaultIntBelow (ClientMaxPacketsPerBatch cfg) 1 (ClientMaxPacketsPerBatch defaultServerConfig)) 1 255;
    ClientMaxARQWindowSize := clampInt (defaultIntBelow (ClientMaxARQWindowSize cfg) 1 (ClientMaxARQWindowSize defaultServerConfig)) 1 (Z.min 8000 65535);
    ClientMaxARQDataNackMaxGap := clampInt (defaultIntBelow (ClientMaxARQDataNackMaxGap cfg) 0 (ClientMaxARQDataNackMaxGap defaultServerConfig)) 0 (Z.min 255 255);
    ClientMinCompressionMinSize := clampInt (defaultIntBelow (ClientMinCompressionMinSize cfg) 1 (ClientMinCompressionMinSize defaultServerConfig)) 1 65535;
    ClientMinARQInitialRTOSeconds := clampFloat (defaultFloatAtMostZero (ClientMinARQInitialRTOSeconds cfg) (ClientMinARQInitialRTOSeconds defaultServerConfig)) (float64_lit 5 100) (float64_of_int 1)
  |}.

Definition finalizeServerConfig (cfg : ServerConfig) : outcome config_error ServerConfig :=
  let protocolType := defaultString (ToUpper (TrimSpace (ProtocolType cfg))) (str "SOCKS5") in
  let fallbackAddress := TrimSpace (FallbackAddress cfg) in
  check! bool_decide (protocolType = str "SOCKS5") || bool_decide (protocolType = str "TCP") else ErrProtocolType in
  check! bool_decide (UDPHost cfg = []) || bool_decide (is_Some (NetIP.ParseIP (UDPHost cfg))) else ErrUDPHost in
  check! (0 <? UDPPort cfg) && (UDPPort cfg <=? 65535) else ErrUDPPort in
  check! fallback_ok fallbackAddress else ErrFallback in
  check! (0 <=? ForwardPort cfg) && (ForwardPort cfg <=? 65535) else ErrForwardPort in
  check! len (SOCKS5User cfg) <=? 255 else ErrSOCKS5User in
  check! len (SOCKS5Pass cfg) <=? 255 else ErrSOCKS5Pass in
  check! negb (SOCKS5Auth cfg && (bool_decide (SOCKS5User cfg = []) || bool_decide (SOCKS5Pass cfg = []))) else ErrSOCKS5Auth in
  check! negb (UseExternalSOCKS5 cfg && (bool_decide (ForwardIP cfg = []) || (ForwardPort cfg <=? 0))) else ErrExternalSOCKS5 in
  Ok (complete protocolType fallbackAddress cfg).

(** ** Derived settings *)

Definition InvalidCookieWindow (c : ServerConfig) : Z := seconds (InvalidCookieWindowSecs c).
Definition SessionTimeout (c : ServerConfig) : Z := seconds (SessionTimeoutSecs c).
Definition SessionCleanupInterval (c : ServerConfig) : Z := seconds (SessionCleanupIntervalSecs c).
Definition ClosedSessionRetention (c : ServerConfig) : Z := seconds (ClosedSessionRetentionSecs c).
Definition SOCKSConnectTimeout (c : ServerConfig) : Z := seconds (SOCKSConnectTimeoutSecs c).
Definition DNSFragmentAssemblyTimeout (c : ServerConfig) : Z := seconds (DNSFragmentAssemblyTimeoutSecs c).
Definition SessionInitReuseTTL (c : ServerConfig) : Z := seconds (SessionInitReuseTTLSeconds c).
Definition RecentlyClosedStreamTTL (c : ServerConfig) : Z := seconds (RecentlyClosedStreamTTLSeconds c).
Definition TerminalStreamRetention (c : ServerConfig) : Z := seconds (TerminalStreamRetentionSeconds c).
Definition StreamSetupAckTTL (c : ServerConfig) : Z := seconds (StreamSetupAckTTLSeconds c).
Definition StreamResultPacketTTL (c : ServerConfig) : Z := seconds (StreamResultPacketTTLSeconds c).
Definition StreamFailurePacketTTL (c : ServerConfig) : Z := seconds (StreamFailurePacketTTLSeconds c).

Definition EffectiveMaxPacketsPerBatch (c : ServerConfig) : Z :=
  let recommended := if 3000 <? ARQWindowSize c then 14 else if 1500 <? ARQWindowSize c then 12 else if 1024 <? ARQWindowSize c then 10 else 5 in
  clampInt (Z.max (MaxPacketsPerBatch c) recommended) 1 64.

(** [cpus] is [runtime.NumCPU()]. *)
Definition EffectiveDeferredSessionWorkers (cpus : Z) (c : ServerConfig) : Z :=
  let recommended := Z.min (Z.max (cpus ÷ 2) 2) 16 in
  let recommended := if bool_decide (ProtocolType c = str "SOCKS5") && (recommended <? 4) then 4 else recommended in
  clampInt (Z.max (DeferredSessionWorkers c) recommended) 0 256.

Definition EffectiveDeferredSessionQueueLimit (cpus : Z) (c : ServerConfig) : Z :=
  let recommended := clampInt (Z.max (EffectiveDeferredSessionWorkers cpus c * 512) (EffectiveMaxPacketsPerBatch c * 128)) 256 16384 in
  clampInt (Z.max (DeferredSessionQueueLimit c) recommended) 256 32768.

(** ** Floating-point settings *)

Definition not_nan (x : float64) : bool := match x with S754_nan => false | _ => true end.

Lemma compare_opp x y : SFcompare y x = CompOpp <$> SFcompare x y.
Proof.
  destruct x as [[] | [] | | [] mx ex], y as [[] | [] | | [] my ey]; try done; cbn -[Pos.compare_cont];
    rewrite (Z.compare_antisym ex ey); destruct (ex ?= ey) eqn:E; cbn -[Pos.compare_cont]; try done;
    change (Pos.compare_cont Eq) with Pos.compare; rewrite (Pos.compare_antisym mx my); by rewrite ?CompOpp_involutive.
Qed.

Lemma flt_irrefl x : flt x x = false.
Proof. unfold flt, SFltb. destruct x as [[] | [] | | [] m e]; try done; cbn; by rewrite Z.compare_refl, Pos.compare_cont_refl. Qed.

Lemma fle_refl x : not_nan x = true -> fle x x = true.
Proof. unfold fle, SFleb. destruct x as [[] | [] | | [] m e]; try done; cbn; by rewrite Z.compare_refl, Pos.compare_cont_refl. Qed.

Lemma fle_total x y : not_nan x = true -> not_nan y = true -> flt x y = false -> fle y x = true.
Proof.
  intros Hx Hy. unfold flt, fle, SFltb, SFleb. rewrite (compare_opp x y). destruct (SFcompare x y) as [[] |] eqn:E; try done.
  by destruct x as [[] | [] | | [] m e], y as [[] | [] | | [] m' e'].
Qed.

(** [clampFloat] stays between its limits and is the identity there. *)
Lemma clampFloat_range v lo hi : not_nan v = true -> not_nan lo = true -> not_nan hi = true -> fle lo hi = true ->
  fle lo (clampFloat v lo hi) = true /\ fle (clampFloat v lo hi) hi = true.
Proof. intros Hv Hl Hh Hle. unfold clampFloat. repeat case_if; auto using fle_refl, fle_total. Qed.

Definition setting (x d lo hi : float64) : float64 := clampFloat (defaultFloatAtMostZero x d) lo hi.

Lemma setting_cases x d lo hi (P : float64 -> Prop) :
  P lo -> P hi -> (fle d fzero = false -> P d) -> fle d fzero = false -> (fle x fzero = false -> flt hi x = false -> P x) -> P (setting x d lo hi).
Proof. intros Hl Hh Hd Hpos Hx. unfold setting, clampFloat, defaultFloatAtMostZero. repeat case_if; auto. Qed.

Lemma setting_positive x d lo hi : fle d fzero = false -> fle lo fzero = false -> fle hi fzero = false -> fle (setting x d lo hi) fzero = false.
Proof. intros. apply setting_cases; auto. Qed.

Lemma setting_below x d lo hi : fle d fzero = false -> flt hi lo = false -> flt hi d = false -> flt hi (setting x d lo hi) = false.
Proof. intros. apply setting_cases; auto using flt_irrefl. Qed.

(** A setting that has been completed is not changed again. *)
Lemma setting_fixed x d lo hi : fle d fzero = false -> fle lo fzero = false -> fle hi fzero = false -> flt hi lo = false ->
  setting (setting x d lo hi) d lo hi = setting x d lo hi.
Proof.
  intros Hd Hl Hh Hlh. pose proof (setting_positive x d lo hi Hd Hl Hh) as Hp. unfold setting at 1. unfold defaultFloatAtMostZero. rewrite Hp.
  unfold setting, clampFloat. set (v := defaultFloatAtMostZero x d).
  destruct (flt v lo) eqn:E1; [by rewrite flt_irrefl, Hlh |]. destruct (flt hi v) eqn:E2; [by rewrite Hlh, flt_irrefl | by rewrite E1, E2].
Qed.

(** What is not above 60 is not above 120. *)
Lemma below_120 x : flt (float64_of_int 60) x = false -> flt (float64_of_int 120) x = false.
Proof.
  change (float64_of_int 60) with (S754_finite false 8444249301319680 (-47)). change (float64_of_int 120) with (S754_finite false 8444249301319680 (-46)).
  destruct x as [[] | [] | | [] m e]; try done. unfold flt, SFltb. cbn -[Z.compare Pos.compare_cont].
  destruct (Z.compare_spec (-47) e) as [He | He | He]; try done.
  - intros _. destruct (Z.compare_spec (-46) e); try done; lia.
  - intros _. destruct (Z.compare_spec (-46) e); try done; lia.
Qed.

(** ** Completed configurations *)

(** Reduces the fields of a completed configuration. *)
Ltac config_fields :=
  cbn [
    ConfigDir ConfigPath ProtocolType UDPHost UDPPort FallbackAddress UDPReaders SocketBufferSize MaxConcurrentRequests
    DNSRequestWorkers DeferredSessionWorkers DeferredSessionQueueLimit MaxPacketSize DropLogIntervalSecs InvalidCookieWindowSecs
    InvalidCookieErrorThreshold SessionTimeoutSecs SessionCleanupIntervalSecs ClosedSessionRetentionSecs
    SessionInitReuseTTLSeconds RecentlyClosedStreamTTLSeconds RecentlyClosedStreamCap TerminalStreamRetentionSeconds
    MaxPacketsPerBatch PacketBlockControlDuplication DNSUpstreamServers DNSUpstreamTimeoutSecs DNSInflightWaitTimeoutSecs
    SOCKSConnectTimeoutSecs DNSFragmentAssemblyTimeoutSecs StreamSetupAckTTLSeconds StreamResultPacketTTLSeconds
    StreamFailurePacketTTLSeconds DNSCacheMaxRecords DNSCacheTTLSeconds UseExternalSOCKS5 SOCKS5Auth SOCKS5User SOCKS5Pass
    ForwardIP ForwardPort Domain MinVPNLabelLength SupportedUploadCompressionTypes SupportedDownloadCompressionTypes
    DataEncryptionMethod EncryptionKeyFile LogLevel ARQWindowSize ARQInitialRTOSeconds ARQMaxRTOSeconds
    ARQControlInitialRTOSeconds ARQControlMaxRTOSeconds ARQMaxControlRetries ARQInactivityTimeoutSeconds ARQDataPacketTTLSeconds
    ARQControlPacketTTLSeconds ARQMaxDataRetries ARQDataNackMaxGap ARQDataNackInitialDelaySeconds ARQDataNackRepeatSeconds
    ARQTerminalDrainTimeoutSec ARQTerminalAckWaitTimeoutSec MaxAllowedClientActiveSessions MaxAllowedClientActiveStreams
    ClientMaxPacketDuplicationCount ClientMaxSetupDuplicationCount ClientMaxUploadMTU ClientMaxDownloadMTU ClientMaxRxTxWorkers
    ClientMinPingAggressiveInterval ClientMaxPacketsPerBatch ClientMaxARQWindowSize ClientMaxARQDataNackMaxGap
    ClientMinCompressionMinSize ClientMinARQInitialRTOSeconds].

Lemma clampInt_fixed v m d lo hi : m <= lo <= hi -> clampInt (defaultIntBelow (clampInt (defaultIntBelow v m d) lo hi) m d) lo hi = clampInt (defaultIntBelow v m d) lo hi.
Proof. intros H. unfold clampInt, defaultIntBelow. repeat case_if; zbool; lia. Qed.

Lemma normalize_fixed values seen : NoDup (normalize_types values seen) /\
  (forall x, x ∈ normalize_types values seen -> 0 <= x <= 3 /\ IsTypeAvailable (wrap8 x) = true /\ x ∉ seen) .
Proof.
  revert seen. induction values as [| v values IH]; intros seen; cbn [normalize_types]; [split; [constructor | by intros x ?%elem_of_nil] |].
  destruct (_ || _) eqn:E; [apply IH |]. zbool. destruct (IH (v :: seen)) as [Hn Hx]. split.
  - constructor; [intros Hin; destruct (Hx v Hin) as (_ & _ & Hs); apply Hs; by left | done].
  - intros x [-> | Hin]%elem_of_cons; [split_and!; [lia | lia | done | by eapply bool_decide_eq_false_1] |].
    destruct (Hx x Hin) as (Hr & Ha & Hs). split_and!; [lia | lia | done |]. intros Hin'. apply Hs. by right.
Qed.

(** A list of distinct available types is not changed. *)
Lemma normalize_same l seen : NoDup l -> (forall x, x ∈ l -> 0 <= x <= 3 /\ IsTypeAvailable (wrap8 x) = true /\ x ∉ seen) -> normalize_types l seen = l.
Proof.
  revert seen. induction l as [| v l IH]; intros seen Hn Hx; [done |]. apply NoDup_cons in Hn as [Hv Hn]. cbn [normalize_types].
  destruct (Hx v ltac:(by left)) as (H1 & H2 & H3). rewrite H2, bool_decide_eq_false_2 by done. rewrite (proj2 (Z.ltb_ge v 0)), (proj2 (Z.ltb_ge 3 v)) by lia. cbn [orb negb].
  f_equal. apply IH; [done |]. intros x Hin. destruct (Hx x ltac:(by right)) as (? & ? & ?). split_and!; [lia | lia | done |]. intros [-> | Hs]%elem_of_cons; done.
Qed.

Definition types_ok (l : list Z) : Prop := l <> [] /\ NoDup l /\ Forall (fun x => 0 <= x <= 3 /\ IsTypeAvailable (wrap8 x) = true) l.

Lemma normalize_types_ok l : types_ok (normalizeCompressionTypeList l).
Proof.
  assert (H0 : types_ok [0]) by (split_and!; [done | by apply NoDup_singleton | by repeat constructor]).
  unfold normalizeCompressionTypeList. destruct l as [| v l]; [done |]. destruct (normalize_fixed (v :: l) []) as [Hn Hx].
  destruct (normalize_types (v :: l) []) as [| x out]; [done |]. split_and!; [done | done |]. apply Forall_forall. intros y Hy. destruct (Hx y Hy) as (? & ? & _). done.
Qed.

Lemma normalize_ok_same l : types_ok l -> normalizeCompressionTypeList l = l.
Proof.
  intros (Hne & Hn & Hf). unfold normalizeCompressionTypeList. destruct l as [| v l]; [done |]. rewrite normalize_same; [done | done |].
  intros x Hx. pose proof (proj1 (Forall_forall _ _) Hf x Hx) as (? & ?). split_and!; [lia | lia | done | by intros ?%elem_of_nil].
Qed.

Lemma float_fixed x d lo hi : fle d fzero = false -> fle lo fzero = false -> fle hi fzero = false -> flt hi lo = false ->
  clampFloat (defaultFloatAtMostZero (clampFloat (defaultFloatAtMostZero x d) lo hi) d) lo hi = clampFloat (defaultFloatAtMostZero x d) lo hi.
Proof. apply setting_fixed. Qed.

(** The limits of the second retransmission timeout. *)
Lemma rto_limits x d : fle d fzero = false -> flt (float64_of_int 60) d = false ->
  let lo := clampFloat (defaultFloatAtMostZero x d) (float64_lit 1 100) (float64_of_int 60) in
  fle lo fzero = false /\ flt (float64_of_int 120) lo = false.
Proof.
  intros Hd H60. split; [by apply (setting_positive x d) |]. apply below_120. by apply (setting_below x d).
Qed.

Lemma positive_default x d : fle d fzero = false ->
  (if fle (if fle x fzero then d else x) fzero then d else if fle x fzero then d else x) = if fle x fzero then d else x.
Proof. intros Hd. destruct (fle x fzero) eqn:E; by rewrite ?Hd, ?E. Qed.

Lemma complete_fixed P F cfg : complete P F (complete P F cfg) = complete P F cfg.
Proof.
  unfold complete. config_fields. rewrite (normalize_ok_same _ (normalize_types_ok _)), (normalize_ok_same _ (normalize_types_ok _)).
  rewrite (clampInt_fixed (ARQWindowSize cfg)) by lia.
  rewrite (float_fixed (ARQInitialRTOSeconds cfg)), (float_fixed (ARQControlInitialRTOSeconds cfg)) by (by vm_compute).
  destruct (rto_limits (ARQInitialRTOSeconds cfg) (float64_lit 5 10)) as [R1 R2]; [by vm_compute .. |].
  destruct (rto_limits (ARQControlInitialRTOSeconds cfg) (float64_lit 5 10)) as [R3 R4]; [by vm_compute .. |].
  f_equal;
    first [ reflexivity | apply float_fixed; first [assumption | by vm_compute] | apply positive_default; by vm_compute
          | apply clampInt_fixed; first [lia | unfold clampInt, defaultIntBelow; repeat case_if; zbool; pose proof (Z.quot_pos (ARQWindowSize cfg) 8); lia]
          | unfold UDPReaders, DNSRequestWorkers, defaultServerConfig; repeat case_if; zbool; first [done | lia | congruence] ].
Qed.

(** ** Ranges *)

(** The ranges of the integer settings. *)
Definition int_ranges (c : ServerConfig) : list (Z * Z * Z) :=
  [(1, UDPPort c, 65535); (0, DeferredSessionWorkers c, 128); (1, DeferredSessionQueueLimit c, 14336); (1, RecentlyClosedStreamCap c, 1000000);
   (1, PacketBlockControlDuplication c, 4); (0, ForwardPort c, 65535); (0, DataEncryptionMethod c, 5); (1, ARQWindowSize c, 8000);
   (1, ARQMaxControlRetries c, 5000); (1, ARQMaxDataRetries c, 5000); (0, ARQDataNackMaxGap c, Z.min 128 (ARQWindowSize c - 1));
   (1, MaxAllowedClientActiveSessions c, 255); (1, MaxAllowedClientActiveStreams c, 65535); (0, ClientMaxPacketDuplicationCount c, 15);
   (0, ClientMaxSetupDuplicationCount c, 15); (1, ClientMaxUploadMTU c, 255); (1, ClientMaxDownloadMTU c, 65535); (1, ClientMaxRxTxWorkers c, 255);
   (1, ClientMaxPacketsPerBatch c, 255); (1, ClientMaxARQWindowSize c, 8000); (0, ClientMaxARQDataNackMaxGap c, 255); (1, ClientMinCompressionMinSize c, 65535)].

(** The settings that need only be positive. *)
Definition positive_ints (c : ServerConfig) : list Z :=
  [UDPReaders c; SocketBufferSize c; MaxConcurrentRequests c; DNSRequestWorkers c; MaxPacketSize c; InvalidCookieErrorThreshold c;
   MaxPacketsPerBatch c; DNSCacheMaxRecords c; MinVPNLabelLength c].

(** The ranges of the floating-point settings; the upper limit is infinity where the code has none. *)
Definition float_ranges (c : ServerConfig) : list (float64 * float64 * float64) :=
  let i := float64_of_int in
  [(i 1, SessionInitReuseTTLSeconds c, i 86400); (i 1, RecentlyClosedStreamTTLSeconds c, i 86400); (i 1, TerminalStreamRetentionSeconds c, i 86400);
   (float64_lit 1 10, DNSInflightWaitTimeoutSecs c, i 120); (i 1, StreamSetupAckTTLSeconds c, i 86400); (i 1, StreamResultPacketTTLSeconds c, i 86400);
   (i 1, StreamFailurePacketTTLSeconds c, i 86400); (float64_lit 1 100, ARQInitialRTOSeconds c, i 60); (ARQInitialRTOSeconds c, ARQMaxRTOSeconds c, i 120);
   (float64_lit 1 100, ARQControlInitialRTOSeconds c, i 60); (ARQControlInitialRTOSeconds c, ARQControlMaxRTOSeconds c, i 120);
   (i 10, ARQInactivityTimeoutSeconds c, i 86400); (i 10, ARQDataPacketTTLSeconds c, i 86400); (i 10, ARQControlPacketTTLSeconds c, i 86400);
   (float64_lit 1 100, ARQDataNackInitialDelaySeconds c, i 30); (float64_lit 1 100, ARQDataNackRepeatSeconds c, i 30);
   (i 10, ARQTerminalDrainTimeoutSec c, i 3600); (i 5, ARQTerminalAckWaitTimeoutSec c, i 3600);
   (float64_lit 5 100, ClientMinPingAggressiveInterval c, i 1); (float64_lit 5 100, ClientMinARQInitialRTOSeconds c, i 1)].

Definition positive_floats (c : ServerConfig) : list float64 :=
  [DropLogIntervalSecs c; InvalidCookieWindowSecs c; SessionTimeoutSecs c; SessionCleanupIntervalSecs c; ClosedSessionRetentionSecs c;
   DNSUpstreamTimeoutSecs c; SOCKSConnectTimeoutSecs c; DNSFragmentAssemblyTimeoutSecs c; DNSCacheTTLSeconds c].

Definition floats (c : ServerConfig) : list float64 := map (fun r => r.1.2) (float_ranges c) ++ positive_floats c.

Record in_range (c : ServerConfig) : Prop := {
  ir_protocol : ProtocolType c = str "SOCKS5" \/ ProtocolType c = str "TCP";
  ir_ints : Forall (fun '(lo, x, hi) => lo <= x <= hi) (int_ranges c);
  ir_positive : Forall (fun x => 0 < x) (positive_ints c);
  ir_floats : Forall (fun '(lo, x, hi) => fle lo x = true /\ fle x hi = true) (float_ranges c);
  ir_seconds : Forall (fun x => flt fzero x = true) (positive_floats c);
  ir_types : types_ok (SupportedUploadCompressionTypes c) /\ types_ok (SupportedDownloadCompressionTypes c);
  ir_upstream : DNSUpstreamServers c <> [];
  ir_names : EncryptionKeyFile c <> [] /\ LogLevel c <> [];
  ir_socks : SOCKS5Auth c = true -> 1 <= len (SOCKS5User c) <= 255 /\ 1 <= len (SOCKS5Pass c) <= 255;
  ir_external : UseExternalSOCKS5 c = true -> ForwardIP c <> [] /\ 0 < ForwardPort c
}.

Lemma trim_left_idem s : trim_left (trim_left s) = trim_left s.
Proof. induction s as [| c s IH]; [done |]. cbn [trim_left]. destruct (is_space c) eqn:E; [done |]. cbn [trim_left]. by rewrite E. Qed.

Lemma trim_left_suffix s : exists p, s = p ++ trim_left s.
Proof. induction s as [| c s [p IH]]; [by exists [] |]. cbn [trim_left]. case_if; [exists (c :: p); cbn [app]; by f_equal | by exists []]. Qed.

Lemma TrimSpace_idem s : TrimSpace (TrimSpace s) = TrimSpace s.
Proof.
  unfold TrimSpace. pose proof (trim_left_idem s) as Ht. set (t := trim_left s) in *. pose proof (trim_left_idem (reverse t)) as Hr.
  destruct (trim_left_suffix (reverse t)) as [p Hp]. set (u := trim_left (reverse t)) in *.
  assert (t = reverse u ++ reverse p) as E by (by rewrite <- reverse_app, <- Hp, reverse_involutive).
  assert (trim_left (reverse u) = reverse u) as ->; [| by rewrite reverse_involutive, Hr].
  destruct (reverse u) as [| c v] eqn:Eu; [done |]. rewrite E in Ht. cbn [app trim_left] in *. destruct (is_space c) eqn:Ec; [| done].
  exfalso. destruct (trim_left_suffix (v ++ reverse p)) as [q Hq]. apply (f_equal length) in Hq. rewrite Ht, !length_app in Hq. cbn [length] in Hq. rewrite length_app in Hq. lia.
Qed.

Lemma flt_of_not_fle x : not_nan x = true -> fle x fzero = false -> flt fzero x = true.
Proof. destruct x as [[] | [] | | [] m e]; done. Qed.

Lemma default_range x d lo hi : not_nan x = true -> not_nan d = true -> not_nan lo = true -> not_nan hi = true -> fle lo hi = true ->
  fle lo (clampFloat (defaultFloatAtMostZero x d) lo hi) = true /\ fle (clampFloat (defaultFloatAtMostZero x d) lo hi) hi = true.
Proof. intros. apply clampFloat_range; [unfold defaultFloatAtMostZero; by case_if | done ..]. Qed.

Lemma setting_not_nan x d lo hi : not_nan x = true -> not_nan d = true -> not_nan lo = true -> not_nan hi = true ->
  not_nan (clampFloat (defaultFloatAtMostZero x d) lo hi) = true.
Proof. intros. unfold clampFloat, defaultFloatAtMostZero. by repeat case_if. Qed.

Lemma positive_float x d : not_nan x = true -> flt fzero d = true -> flt fzero (if fle x fzero then d else x) = true.
Proof. intros Hx Hd. destruct (fle x fzero) eqn:E; [done | by apply flt_of_not_fle]. Qed.

Lemma int_range v m d lo hi : lo <= hi -> lo <= clampInt (defaultIntBelow v m d) lo hi <= hi.
Proof. intros. unfold clampInt, defaultIntBelow. repeat case_if; zbool; lia. Qed.

Lemma complete_ints P F cfg : 1 <= UDPPort cfg <= 65535 -> 0 <= ForwardPort cfg <= 65535 ->
  Forall (fun '(lo, x, hi) => lo <= x <= hi) (int_ranges (complete P F cfg)) /\ Forall (fun x => 0 < x) (positive_ints (complete P F cfg)).
Proof.
  intros Hu Hf. unfold int_ranges, positive_ints, complete. config_fields. split.
  - pose proof (int_range (ARQWindowSize cfg) 1 800 1 8000 ltac:(lia)) as Hw. set (w := clampInt (defaultIntBelow (ARQWindowSize cfg) 1 800) 1 8000) in *.
    repeat apply Forall_cons_2; try apply Forall_nil_2; try (apply int_range; lia); try lia; try (repeat case_if; zbool; lia).
    pose proof (int_range (ARQDataNackMaxGap cfg) 0 16 0 (Z.min (Z.min (Z.max (w ÷ 8) 16) 128) (w - 1)) ltac:(lia)). lia.
  - unfold UDPReaders, DNSRequestWorkers, defaultServerConfig. repeat apply Forall_cons_2; try apply Forall_nil_2; repeat case_if; zbool; lia.
Qed.

(** The second timeout lies between the first and two minutes. *)
Lemma max_rto_range x i d : not_nan x = true -> not_nan i = true -> not_nan d = true ->
  let lo := clampFloat (defaultFloatAtMostZero i (float64_lit 5 10)) (float64_lit 1 100) (float64_of_int 60) in
  fle lo (clampFloat (defaultFloatAtMostZero x d) lo (float64_of_int 120)) = true /\
  fle (clampFloat (defaultFloatAtMostZero x d) lo (float64_of_int 120)) (float64_of_int 120) = true.
Proof.
  intros Hx Hi Hd. cbv zeta. destruct (rto_limits i (float64_lit 5 10)) as [_ H]; [by vm_compute .. |].
  pose proof (setting_not_nan i (float64_lit 5 10) (float64_lit 1 100) (float64_of_int 60) Hi ltac:(by vm_compute) ltac:(by vm_compute) ltac:(by vm_compute)) as Hl.
  apply default_range; try done. by apply fle_total.
Qed.

(** A field that is not NaN, or a constant. *)
Ltac float_side := lazymatch goal with |- not_nan (_ ?c) = true => first [is_var c; assumption | vm_compute; reflexivity] | _ => vm_compute; reflexivity end.

Lemma complete_floats P F cfg : Forall (fun x => not_nan x = true) (floats cfg) ->
  Forall (fun '(lo, x, hi) => fle lo x = true /\ fle x hi = true) (float_ranges (complete P F cfg)) /\ Forall (fun x => flt fzero x = true) (positive_floats (complete P F cfg)).
Proof.
  unfold floats, positive_floats, float_ranges. cbn [map app fst snd]. intros H. rewrite !Forall_cons in H. destruct_and! H. unfold complete. config_fields. split.
  - repeat apply Forall_cons_2; try apply Forall_nil_2; cbv beta iota;
      lazymatch goal with |- fle (clampFloat _ _ _) _ = true /\ _ => apply max_rto_range | _ => apply default_range end; float_side.
  - repeat apply Forall_cons_2; try apply Forall_nil_2; cbv beta; apply positive_float; float_side.
Qed.

Lemma len_pos {A} (l : list A) : l <> [] -> 1 <= len l.
Proof. destruct l; [done |]. intros _. unfold len. cbn. lia. Qed.

Lemma finalize_inv cfg c : finalizeServerConfig cfg = Ok c ->
  exists P F, c = complete P F cfg /\ (P = str "SOCKS5" \/ P = str "TCP") /\ F = TrimSpace (FallbackAddress cfg) /\ fallback_ok F = true /\
  (UDPHost cfg = [] \/ is_Some (NetIP.ParseIP (UDPHost cfg))) /\ 1 <= UDPPort cfg <= 65535 /\ 0 <= ForwardPort cfg <= 65535 /\
  len (SOCKS5User cfg) <= 255 /\ len (SOCKS5Pass cfg) <= 255 /\
  (SOCKS5Auth cfg = true -> SOCKS5User cfg <> [] /\ SOCKS5Pass cfg <> []) /\ (UseExternalSOCKS5 cfg = true -> ForwardIP cfg <> [] /\ 0 < ForwardPort cfg).
Proof.
  unfold finalizeServerConfig. set (P := defaultString _ _). set (F := TrimSpace _). intros H. exists P, F.
  destruct (bool_decide (P = _) || _) eqn:E1; [| done]. destruct (bool_decide (UDPHost cfg = []) || _) eqn:E2; [| done].
  destruct ((0 <? UDPPort cfg) && _) eqn:E3; [| done]. destruct (fallback_ok F) eqn:E4; [| done]. destruct ((0 <=? ForwardPort cfg) && _) eqn:E5; [| done].
  destruct (len (SOCKS5User cfg) <=? 255) eqn:E6; [| done]. destruct (len (SOCKS5Pass cfg) <=? 255) eqn:E7; [| done].
  destruct (negb (SOCKS5Auth cfg && _)) eqn:E8; [| done]. destruct (negb (UseExternalSOCKS5 cfg && _)) eqn:E9; [| done]. injection H as <-.
  apply orb_true_iff in E1, E2. rewrite !bool_decide_eq_true in E1, E2. apply andb_true_iff in E3 as [?%Z.ltb_lt ?%Z.leb_le]. apply andb_true_iff in E5 as [?%Z.leb_le ?%Z.leb_le].
  apply Z.leb_le in E6, E7. split_and!; try done; try lia.
  - intros Ha. rewrite Ha in E8. cbn [andb] in E8. apply negb_true_iff, orb_false_iff in E8. by rewrite !bool_decide_eq_false in E8.
  - intros Ha. rewrite Ha in E9. cbn [andb] in E9. apply negb_true_iff, orb_false_iff in E9. rewrite bool_decide_eq_false, Z.leb_gt in E9. done.
Qed.

Lemma finalize_again P F cfg : (P = str "SOCKS5" \/ P = str "TCP") -> F = TrimSpace (FallbackAddress cfg) -> fallback_ok F = true ->
  (UDPHost cfg = [] \/ is_Some (NetIP.ParseIP (UDPHost cfg))) -> 1 <= UDPPort cfg <= 65535 -> 0 <= ForwardPort cfg <= 65535 ->
  len (SOCKS5User cfg) <= 255 -> len (SOCKS5Pass cfg) <= 255 ->
  (SOCKS5Auth cfg = true -> SOCKS5User cfg <> [] /\ SOCKS5Pass cfg <> []) -> (UseExternalSOCKS5 cfg = true -> ForwardIP cfg <> [] /\ 0 < ForwardPort cfg) ->
  finalizeServerConfig (complete P F cfg) = Ok (complete P F cfg).
Proof.
  intros HP HF Hfo Hh Hu Hfp Hus Hpa Hau Hex. unfold finalizeServerConfig.
  assert (defaultString (ToUpper (TrimSpace (ProtocolType (complete P F cfg)))) (str "SOCKS5") = P) as -> by (change (ProtocolType (complete P F cfg)) with P; by destruct HP as [-> | ->]).
  assert (TrimSpace (FallbackAddress (complete P F cfg)) = F) as -> by (change (FallbackAddress (complete P F cfg)) with F; rewrite HF; apply TrimSpace_idem).
  rewrite complete_fixed, Hfo. change (UDPHost (complete P F cfg)) with (UDPHost cfg). change (UDPPort (complete P F cfg)) with (UDPPort cfg).
  change (ForwardPort (complete P F cfg)) with (ForwardPort cfg). change (SOCKS5User (complete P F cfg)) with (SOCKS5User cfg). change (SOCKS5Pass (complete P F cfg)) with (SOCKS5Pass cfg).
  change (SOCKS5Auth (complete P F cfg)) with (SOCKS5Auth cfg). change (UseExternalSOCKS5 (complete P F cfg)) with (UseExternalSOCKS5 cfg). change (ForwardIP (complete P F cfg)) with (ForwardIP cfg).
  rewrite (proj2 (orb_true_iff _ _)) by (rewrite !bool_decide_eq_true; done). rewrite (proj2 (orb_true_iff _ _)) by (rewrite !bool_decide_eq_true; done).
  rewrite (proj2 (Z.ltb_lt _ _)), !(proj2 (Z.leb_le _ _)) by lia. cbn [andb].
  destruct (SOCKS5Auth cfg).
  - destruct (Hau eq_refl). rewrite !bool_decide_eq_false_2 by done. cbn [andb orb negb]. destruct (UseExternalSOCKS5 cfg); [| done].
    destruct (Hex eq_refl). rewrite bool_decide_eq_false_2, (proj2 (Z.leb_gt _ _)) by done. done.
  - cbn [andb negb]. destruct (UseExternalSOCKS5 cfg); [| done]. destruct (Hex eq_refl). rewrite bool_decide_eq_false_2, (proj2 (Z.leb_gt _ _)) by done. done.
Qed.

Lemma complete_in_range P F cfg : (P = str "SOCKS5" \/ P = str "TCP") -> 1 <= UDPPort cfg <= 65535 -> 0 <= ForwardPort cfg <= 65535 ->
  len (SOCKS5User cfg) <= 255 -> len (SOCKS5Pass cfg) <= 255 ->
  (SOCKS5Auth cfg = true -> SOCKS5User cfg <> [] /\ SOCKS5Pass cfg <> []) -> (UseExternalSOCKS5 cfg = true -> ForwardIP cfg <> [] /\ 0 < ForwardPort cfg) ->
  Forall (fun x => not_nan x = true) (floats cfg) -> in_range (complete P F cfg).
Proof.
  intros HP Hu Hfp Hus Hpa Hau Hex Hn. destruct (complete_ints P F cfg Hu Hfp) as [Hi Hp]. destruct (complete_floats P F cfg Hn) as [Hf Hs]. split; try done.
  - split; apply normalize_types_ok.
  - cbn. destruct (DNSUpstreamServers cfg); done.
  - split; cbn; case_bool_decide; done.
  - intros Ha. destruct (Hau Ha) as [? ?]. split; (split; [by apply len_pos | done]).
Qed.

(** C26: a configuration that the server accepts is a sane one.  Whatever a file puts into
    the fields, as long as no floating-point setting is NaN, [finalizeServerConfig] refuses
    it or returns one in which every setting is within its range: among others the
    window is between 1 and 8000, the gap of negative acknowledgements is below the window,
    each maximal timeout is at least the initial one, the lists of compression types are
    not empty and without repetition, and credentials that are to be used exist.  Accepting
    the result again changes nothing. *)
Theorem config_in_range cfg c : Forall (fun x => not_nan x = true) (floats cfg) -> finalizeServerConfig cfg = Ok c ->
  in_range c /\ finalizeServerConfig c = Ok c.
Proof.
  intros Hn Hc. destruct (finalize_inv cfg c Hc) as (P & F & -> & HP & HF & Hfo & Hh & Hu & Hfp & Hus & Hpa & Hau & Hex).
  split; [by apply complete_in_range | by apply finalize_again].
Qed.

Lemma config_in_range_witness :
  exists c, finalizeServerConfig defaultServerConfig = Ok c /\ in_range c /\ ARQMaxRTOSeconds c = float64_of_int 5.
Proof.
  destruct (finalizeServerConfig defaultServerConfig) as [c | |] eqn:E; [| vm_compute in E; discriminate E ..].
  exists c. split; [reflexivity |]. split.
  - refine (proj1 (config_in_range defaultServerConfig c _ E)). repeat (apply Forall_cons_2; [vm_compute; reflexivity |]). apply Forall_nil_2.
  - vm_compute in E. injection E as <-. vm_compute. reflexivity.
Defined.
End ServerCfg.
