(* ===== verification/VpnTyped.v ===== *)
(** A decoded packet has fields of their Go types.

    The fields of [Packet] (internal/vpnproto/parser.go) are [uint8], [uint16] and [[]byte];
    the model keeps them as integers.  The theorems of this file show that what the decoder
    returns is in range, whatever text a client sends: the base 36 decoder, the ciphers and the
    decompressors deliver bytes. *)

From stdpp Require Import base tactics list.
From Stdlib Require Import ZArith Lia.
From S2P Require Import Prelude Enums BaseCodec Security Compression VpnProto DnsParser DeferredTracking.

(** The identity of a packet and its payload are in range. *)
Definition packet_typed (p : Packet) : Prop := identity_ok (identity_of p) /\ bytes_ok (Payload p).

(** A result that is empty or was in range already. *)
Ltac typed := intros [= <-]; first [done | by constructor].

(** ** The libraries deliver bytes *)

Class TypedCrypto (C : Crypto) : Prop := {
  chacha20_typed : forall key nonce counter src out, bytes_ok src ->
    chacha20_xor key nonce counter src = Ok out -> bytes_ok out;
  gcm_typed : forall key nonce src out, bytes_ok src -> gcm_open key nonce src = Some out -> bytes_ok out
}.

Class TypedCompressors (C : Compressors) : Prop := {
  inflate_typed : forall c n, bytes_ok c -> bytes_ok (fst (fst (inflate c n)));
  zstd_typed : forall c n out, bytes_ok c -> zstd_decode c n = Some out -> bytes_ok out;
  lz4_typed : forall c n out, bytes_ok c -> lz4_uncompress c n = Some out -> bytes_ok out
}.

#[export] Instance toy_typed : TypedCrypto toy_crypto.
Proof.
  split; simpl.
  - intros key nonce counter src out Hs. repeat case_if; intros [= <-]. apply Forall_map.
    eapply Forall_impl; [exact Hs|]. intros x Hx. apply u8_lxor; [unfold u8; lia|done].
  - intros key nonce src out Hs [= <-]. by apply Forall_take.
Qed.

Lemma unrle_typed c out : bytes_ok c -> unrle c = Some out -> bytes_ok out.
Proof.
  unfold unrle. intros Hc. repeat case_match; try done; intros [= <-].
  - apply Forall_replicate. unfold u8; lia.
  - by apply Forall_cons in Hc as [_ Hc].
Qed.

#[export] Instance rle_typed : TypedCompressors rle_compressors.
Proof.
  split; simpl.
  - intros c n Hc. destruct (unrle c) eqn:He; simpl; [|constructor]. eapply Forall_take, unrle_typed; done.
  - intros c n out Hc. destruct (unrle c) eqn:He; intros [= <-]. eapply Forall_take, unrle_typed; done.
  - intros c n out Hc. destruct (unrle c) eqn:He; intros [= <-]. eapply Forall_take, unrle_typed; done.
Qed.

(** ** The decoders *)

Lemma write_block_typed i out offset val r : bytes_ok out -> write_block out offset i val = Ok r -> bytes_ok r.
Proof.
  revert out val. induction i as [|i IH]; cbn [write_block]; intros out val Ho; [typed|].
  unfold put at 1. case_if; [|done]. cbn [obind]. apply IH.
  apply Forall_insert; [done|apply u8_wrap8].
Qed.

Lemma decode_loop_typed fuel out offset src r :
  bytes_ok out -> DecodeLowerBase36String_loop fuel out offset src = Ok r -> bytes_ok r.
Proof.
  revert out offset src. induction fuel as [|n IH]; cbn [DecodeLowerBase36String_loop]; intros out offset src Ho;
    [typed|].
  case_if; [|typed].
  intros ([b c] & _ & (ch & _ & (v & _ & (out' & Hw%write_block_typed & (src' & _ & Hr)%obind_ok_inv)%obind_ok_inv)
    %obind_ok_inv)%obind_ok_inv)%obind_ok_inv; [|done]. by eapply IH.
Qed.

Lemma DecodeString_typed data r : DecodeString data = Ok r -> bytes_ok r.
Proof.
  unfold DecodeString, DecodeLowerBase36String. case_if; [typed|].
  intros (n & _ & Hr)%obind_ok_inv. eapply decode_loop_typed; [|exact Hr].
  apply Forall_replicate. unfold u8; lia.
Qed.

Lemma get16_typed {E} (l : bytes) i v : bytes_ok l -> get16 (E:=E) l i = Ok v -> u16 v.
Proof.
  intros Hl (hi & Hh & (lo & Hlo & [= <-])%obind_ok_inv)%obind_ok_inv.
  apply u16_of_be16; by eapply at_u8.
Qed.

Lemma parseFrom_typed data start p : bytes_ok data -> parseFrom data start = Ok p -> packet_typed p.
Proof.
  intros Hd (data' & Hs & H)%obind_ok_inv. pose proof (slice_bytes_ok _ _ _ _ Hd Hs) as Hb. clear Hs.
  revert H. case_if; [done|]. intros (ty & Hty & (fl & _ & H)%obind_ok_inv)%obind_ok_inv. revert H.
  destruct (negb _); [done|]. destruct (len data' <? header_len fl); [done|].
  intros (sid & Hsid & ([st o1] & Hst & ([sq o2] & Hsq & ([[f t] o3] & Hf & ([ct o4] & Hct & (ck & _ & (cb & _ & (hd & _ & H)
    %obind_ok_inv)%obind_ok_inv)%obind_ok_inv)%obind_ok_inv)%obind_ok_inv)%obind_ok_inv)%obind_ok_inv)%obind_ok_inv.
  revert H. cbv zeta. destruct (negb _); [done|]. intros (pl & Hpl & [= <-])%obind_ok_inv.
  split; [|by eapply slice_bytes_ok]. cbn. split_and!.
  - by eapply at_u8.
  - revert Hst. case_if; [|intros [= <- _]; unfold u16; lia].
    intros (v & Hv & [= <- _])%obind_ok_inv. by eapply get16_typed.
  - by eapply at_u8.
  - revert Hsq. case_if; [|intros [= <- _]; unfold u16; lia].
    intros (v & Hv & [= <- _])%obind_ok_inv. by eapply get16_typed.
  - revert Hf. case_if; [|intros [= <- _ _]; unfold u8; lia].
    intros (v & Hv & (t' & _ & [= <- _ _])%obind_ok_inv)%obind_ok_inv. by eapply at_u8.
Qed.

Lemma Parse_typed data p : bytes_ok data -> Parse data = Ok p -> packet_typed p.
Proof. unfold Parse, ParseAtOffset. intros Hd. case_if; [done|]. by apply parseFrom_typed. Qed.

Section decoders.
Context `{C : Crypto} {T : TypedCrypto C} `{K : Compressors} {TK : TypedCompressors K}.

Lemma map_err_ok_inv {E E' A} (f : E -> E') (c : outcome E A) a : map_err f c = Ok a -> c = Ok a.
Proof. destruct c; simpl; intros [=]; by subst. Qed.

(** A codec as [NewCodec] makes it. *)
Definition codec_typed (c : option Codec) : Prop := forall k, c = Some k -> bytes_ok (codec_key k).

Lemma decrypt_typed c data r : codec_typed (Some c) -> bytes_ok data -> codec_decrypt c data = Ok r -> bytes_ok r.
Proof.
  intros Hc Hd. specialize (Hc c eq_refl). unfold codec_decrypt, noCrypto.
  case_if; [typed|]. case_if.
  { destruct (xor_roundtrip _ data Hc Hd) as (e & -> & He & _). typed. }
  case_if.
  - unfold chachaDecrypt. case_if; [typed|]. case_if; [done|].
    intros (n & _ & (ct & Hs & (tl & _ & (ctr & _ & Hx)%obind_ok_inv)%obind_ok_inv)%obind_ok_inv)%obind_ok_inv.
    eapply chacha20_typed; [|exact Hx]. by eapply slice_bytes_ok.
  - unfold aesDecryptor. case_if; [typed|]. case_if; [done|].
    intros (n & _ & (ct & Hs & Hx)%obind_ok_inv)%obind_ok_inv. revert Hx. case_match eqn:Hg; [|done]. intros [= <-].
    eapply gcm_typed; [|exact Hg]. by eapply slice_bytes_ok.
Qed.

Lemma ParseFromLabels_typed labels c p : codec_typed c -> ParseFromLabels labels c = Ok p -> packet_typed p.
Proof.
  intros Hc. unfold ParseFromLabels. destruct c as [c|]; [|done]. case_if; [done|].
  intros (raw & Hr%map_err_ok_inv & Hp)%obind_ok_inv. eapply Parse_typed; [|exact Hp].
  revert Hr. unfold DecodeStringAndDecrypt. intros (d & Hd%map_err_ok_inv%DecodeString_typed & Hr)%obind_ok_inv.
  revert Hr. case_if; [typed|]. by apply decrypt_typed.
Qed.

Lemma decompress_typed data t r : bytes_ok data -> TryDecompressPayload data t = Some r -> bytes_ok r.
Proof.
  intros Hd. unfold TryDecompressPayload. case_if; [typed|]. case_if; [typed|].
  case_if; [|case_if; [|case_if; [|typed]]].
  - unfold decompressZLIB. pose proof (inflate_typed data (maxDecompressedSize + 1) Hd) as Hi.
    destruct (inflate _ _) as [[b e] u]. repeat case_if; try done. typed.
  - unfold decompressZSTD. case_match eqn:Hz; [|done]. case_if; [done|]. intros [= <-]. by eapply zstd_typed.
  - unfold decompressLZ4. case_match; [|done]. case_if; [done|]. case_match eqn:Hz; [|done]. case_if; [done|].
    intros [= <-]. eapply lz4_typed; [|exact Hz]. by apply Forall_drop.
Qed.

Lemma InflatePayload_typed p q : packet_typed p -> InflatePayload p = Ok q -> packet_typed q.
Proof.
  intros [Hi Hp]. unfold InflatePayload. case_if; [typed|].
  case_match eqn:Ht; [|done]. intros [= <-]. split; [exact Hi|]. by eapply decompress_typed.
Qed.

Lemma ParseInflated_typed labels c p : codec_typed c -> ParseInflatedFromLabels labels c = Ok p -> packet_typed p.
Proof.
  intros Hc (q & Hq & Hp)%obind_ok_inv. eapply InflatePayload_typed; [|exact Hp]. by eapply ParseFromLabels_typed.
Qed.
End decoders.
