(* ===== verification/DeferredPool.v ===== *)
(** What the server needs of the worker pool.

    The request path of the server puts work off, and takes it back when a stream or a
    session ends, through four methods of the pool: [Enqueue], [RemoveSession], [RemoveLane]
    and [FinalizeLane].  The class below states what they promise when each runs to its end
    without a worker in between; the instance discharges it for the pool of
    src/masterdns/internal/udpserver/deferred_session.go (DeferredSession.v), where a removal
    is a sequence of steps.  The server and its theorems (ServerState.v to ServerReach.v) use the
    class only. *)

From stdpp Require Import base tactics list gmap strings sorting.
From Stdlib Require Import ZArith Lia.
From S2P Require Import Prelude DeferredSession DeferredSessionInv DeferredSessionLife.

(** A pool [P] of jobs [J]. *)
Class DeferredPool (J P : Type) := {
  pool_Enqueue : deferredSessionLane -> J -> P -> outcome blocked (bool * P);
  pool_RemoveSession : Z -> P -> outcome blocked P;
  pool_RemoveLane : deferredSessionLane -> P -> outcome blocked P;
  pool_FinalizeLane : deferredSessionLane -> P -> outcome blocked P;
  pool_queued : P -> list (deferredSessionLane * J);
  pool_work : P -> P -> Prop
}.

(** [pool_ok] is the pool's own invariant.  Every call ends.  [Enqueue] accepts the job or
    leaves the queues alone; a removal takes the jobs of its lanes out and no others.
    [pool_work] is a step of a worker. *)
Class DeferredPoolLaws {J P : Type} (D : DeferredPool J P) := {
  pool_ok : P -> Prop;
  pool_enqueue_law : forall lane j p, pool_ok p -> exists ok p', pool_Enqueue lane j p = Ok (ok, p') /\ pool_ok p' /\
    pool_queued p' ≡ₚ (if ok : bool then pool_queued p ++ [(lane, j)] else pool_queued p);
  pool_session_law : forall s p, pool_ok p -> exists p', pool_RemoveSession s p = Ok p' /\ pool_ok p' /\
    pool_queued p' = filter (fun e => laneSession e.1 <> s) (pool_queued p);
  pool_lane_law : forall lane p, pool_ok p -> exists p', pool_RemoveLane lane p = Ok p' /\ pool_ok p' /\
    pool_queued p' = filter (fun e => laneSession lane = 0 \/ e.1 <> lane) (pool_queued p);
  pool_finalize_law : forall lane p, pool_ok p -> exists p', pool_FinalizeLane lane p = Ok p' /\ pool_ok p' /\
    pool_queued p' = filter (fun e => laneSession lane = 0 \/ e.1 <> lane) (pool_queued p);
  pool_work_law : forall p p', pool_ok p -> pool_work p p' -> pool_ok p' /\ pool_queued p' ⊆+ pool_queued p
}.

(** ** The pool of the server *)

Section pool.
Context {R : Type}.
Abbreviation processor := (@deferredSessionProcessor R).

(** How many steps a removal still has: for each channel it has not finished, one per task
    it takes out, one per task it puts back, and the turns in between. *)
Definition compaction_left (p : processor) : nat :=
  match compacting p with
  | None => 0
  | Some c =>
      let ahead := sum_list_with (fun js => 2 * length js + 2)%nat (drop (S (cWorker c)) (channels p)) in
      let here := match channels p !! cWorker c with
                  | None => O
                  | Some js => if cRefill c then S (length (cQueued c)) else (2 * length js + length (cQueued c) + 2)%nat
                  end in
      S (here + ahead)
  end.

(** [compactQueuesLocked] to its end. *)
Fixpoint compact_loop (fuel : nat) (p : processor) : outcome blocked processor :=
  match compacting p, fuel with
  | None, _ => Ok p
  | Some _, O => Err Blocked
  | Some _, S fuel => let! (p, _) := compactStep p in compact_loop fuel p
  end.

Definition compactQueuesLocked (p : processor) : outcome blocked processor := compact_loop (compaction_left p) p.

(** The steps of the workers' goroutines. *)
Definition worker_actions (n : nat) : list (@action R) := seq 0 n ≫= fun i => [DoTake i; DoBegin i; DoEnd i; DoFinish i].

#[export] Instance processor_pool : DeferredPool R processor := {|
  pool_Enqueue := Enqueue;
  pool_RemoveSession s p := compactQueuesLocked (RemoveSession s p);
  pool_RemoveLane lane p := compactQueuesLocked (RemoveLane lane p);
  pool_FinalizeLane lane p := compactQueuesLocked (FinalizeLane lane p);
  pool_queued p := map (fun t => (taskLane t, taskRun t)) (concat (channels p));
  pool_work p p' := exists a es, a ∈ worker_actions (length (workers p)) /\ perform a p = Ok (p', es)
|}.

Lemma drop_channels (f : deferredSessionWorker -> deferredSessionWorker) (p : processor) i :
  drop (S i) (channels (update_worker i f p)) = drop (S i) (channels p).
Proof.
  change (drop (S i) (jobs <$> alter f i (workers p)) = drop (S i) (jobs <$> workers p)).
  rewrite <- !fmap_drop. f_equal. apply list_eq. intros j. rewrite !lookup_drop. apply list_lookup_alter_ne. lia.
Qed.

Lemma here_channel (f : deferredSessionWorker -> deferredSessionWorker) (p : processor) i w :
  workers p !! i = Some w -> channels (update_worker i f p) !! i = Some (jobs (f w)).
Proof.
  intros Hw. change ((jobs <$> alter f i (workers p)) !! i = Some (jobs (f w))).
  by rewrite list_lookup_fmap, list_lookup_alter_eq, Hw.
Qed.

Lemma left_at (p : processor) d i q b js :
  compacting p = Some (mkCompaction d i q b) -> channels p !! i = Some js ->
  compaction_left p = S ((if b then S (length q) else 2 * length js + length q + 2) + sum_list_with (fun js => 2 * length js + 2) (drop (S i) (channels p)))%nat.
Proof. intros Hc Hj. unfold compaction_left. rewrite Hc. cbn [cWorker cRefill cQueued]. rewrite Hj. by destruct b. Qed.

Lemma compactStep_left (p p' : processor) es : compactStep p = Ok (p', es) -> (compaction_left p' < compaction_left p)%nat.
Proof.
  unfold compactStep. destruct (compacting p) as [[d i q b] |] eqn:Ec; [| done]. cbn [cWorker cRefill cQueued cDrop].
  destruct (workers p !! i) as [w |] eqn:Ew.
  2: { intros [= <- _]. unfold compaction_left. cbn. rewrite Ec. lia. }
  assert (channels p !! i = Some (jobs w)) as Hj by (unfold channels; by rewrite list_lookup_fmap, Ew).
  rewrite (left_at p d i q b (jobs w) Ec Hj). destruct b.
  - destruct q as [| t q].
    + intros [= <- _]. set (p1 := p <| compacting := Some (mkCompaction d (S i) [] false) |>). destruct (channels p !! S i) as [js |] eqn:Hs.
      * rewrite (left_at p1 d (S i) [] false js eq_refl Hs), (drop_S _ _ _ Hs). cbn [length sum_list_with]. change (channels p1) with (channels p). lia.
      * unfold compaction_left. change (compacting p1) with (Some (mkCompaction (R:=R) d (S i) [] false)). cbn [cWorker cRefill cQueued].
        change (channels p1) with (channels p). rewrite Hs. apply lookup_ge_None in Hs. rewrite (drop_ge _ (S (S i))) by lia. cbn. lia.
    + destruct (jobs w) eqn:Ejw; case_if; intros [= <- _].
      all: match goal with |- (compaction_left (update_worker ?i ?f ?p0) < _)%nat =>
             rewrite (left_at (update_worker i f p0) d i q true (jobs (f w)) eq_refl (here_channel f p0 i w Ew)), drop_channels end.
      all: cbn [length]; change (channels (p <| compacting := Some (mkCompaction d i q true) |>)) with (channels p); lia.
  - destruct (jobs w) as [| t js] eqn:Ejw.
    + intros [= <- _]. set (p1 := p <| compacting := Some (mkCompaction d i q true) |>). rewrite (left_at p1 d i q true [] eq_refl Hj). change (channels p1) with (channels p). cbn [length]. lia.
    + set (f := fun w0 : deferredSessionWorker => w0 <| jobs := js |>). pose proof (here_channel f p i w Ew) as Hf. cbn in Hf.
      case_if; intros [= <- _].
      * match goal with |- context [decrementSessionPendingLocked ?s ?q0] => destruct (decrement_shape s q0) as [sp ->] end.
        set (p1 := update_worker i (add_pending (-1)) (update_worker i f p)).
        change (compaction_left (p1 <| laneWorker ::= delete (taskLane t) |> <| sessionPending := sp |>)) with (compaction_left p1).
        assert (workers (update_worker i f p) !! i = Some (f w)) as Ew' by (cbn; by rewrite list_lookup_alter_eq, Ew).
        rewrite (left_at p1 d i q false js Ec (here_channel _ _ i (f w) Ew')). unfold p1. rewrite !drop_channels. cbn. lia.
      * set (p1 := (update_worker i f p) <| compacting := Some (mkCompaction d i (q ++ [t]) false) |>).
        rewrite (left_at p1 d i (q ++ [t]) false js eq_refl Hf), length_app. change (channels p1) with (channels (update_worker i f p)).
        rewrite drop_channels. cbn [length]. lia.
Qed.

(** A run of the steps of a removal is [compactQueuesLocked]. *)
Lemma compact_run n : forall fuel (p p' : processor) es,
  run_actions (replicate n DoCompact) p = Ok (p', es) -> compacting p' = None -> (compaction_left p <= fuel)%nat -> compact_loop fuel p = Ok p'.
Proof.
  induction n as [| n IH]; intros fuel p p' es Hr Hn Hf.
  - injection Hr as <- _. destruct fuel; cbn [compact_loop]; by rewrite Hn.
  - cbn [replicate run_actions perform] in Hr. destruct (compactStep p) as [[p1 e1] | |] eqn:E; [| done | done]. cbn [obind] in Hr.
    destruct (run_actions (replicate n DoCompact) p1) as [[p2 e2] | |] eqn:E2; [| done | done]. injection Hr as <- _.
    pose proof (compactStep_left _ _ _ E) as Hl. destruct fuel as [| fuel]; [lia |]. cbn [compact_loop].
    destruct (compacting p) eqn:Ec; [| by unfold compactStep in E; rewrite Ec in E]. rewrite E. cbn [obind]. eapply IH; [done | done | lia].
Qed.

Definition quiet (p : processor) : Prop := processor_ok p /\ compacting p = None.

Lemma queued_filter (P : deferredSessionLane * R -> Prop) `{!forall x, Decision (P x)} (Q : deferredSessionTask -> Prop) `{!forall x, Decision (Q x)} (p p' : processor) :
  (forall t, Q t <-> P (taskLane t, taskRun t)) -> channels p' = filter Q <$> channels p -> pool_queued p' = filter P (pool_queued p).
Proof.
  intros Hpq Hc. cbn [pool_queued processor_pool]. rewrite Hc. clear Hc. induction (channels p) as [| js l IH]; [done |].
  cbn [fmap list_fmap concat]. rewrite !map_app, filter_app, IH. f_equal. clear IH. induction js as [| t js IH]; [done |].
  cbn [map]. rewrite !filter_cons. destruct (Hpq t). destruct (decide (Q t)), (decide (P (taskLane t, taskRun t))); try tauto.
  cbn [map]. f_equal. exact IH.
Qed.

Lemma removal_run (p p1 : processor) a d (P : deferredSessionLane * R -> Prop) `{!forall x, Decision (P x)} :
  quiet p -> request a = Some d -> perform a p = Ok (p1, []) -> (forall e, drops d e.1 = false <-> P e) ->
  exists p', compactQueuesLocked p1 = Ok p' /\ quiet p' /\ pool_queued p' = filter P (pool_queued p).
Proof.
  intros [Hok0 Hn] Hr Hp HP. destruct (removal_spec p a d Hok0 Hn Hr) as (n & p' & es & Hrun & Hc & _ & Hch & _).
  pose proof (run_ok (a :: replicate n DoCompact) p Hok0) as Hok. rewrite Hrun in Hok. exists p'. split_and!; [| by split; [apply Hok |] |].
  - cbn [run_actions] in Hrun. rewrite Hp in Hrun. cbn [obind] in Hrun.
    destruct (run_actions (replicate n DoCompact) p1) as [[p2 e2] | |] eqn:E; [| done | done]. injection Hrun as <- _. by eapply compact_run.
  - eapply queued_filter; [| exact Hch]. intros t. apply (HP (taskLane t, taskRun t)).
Qed.

(** [Enqueue] touches neither the workers' goroutines nor a removal. *)
Lemma tryEnqueue_frame (p p' : processor) i t ok :
  tryEnqueueLocked i t p = Ok (ok, p') -> goroutines p' = goroutines p /\ compacting p' = compacting p.
Proof.
  unfold tryEnqueueLocked. destruct (workers p !! i); [| done]. case_if; intros [= _ <-]; [by split |].
  match goal with |- context [decrementSessionPendingLocked ?s ?q] => destruct (decrement_shape s q) as [sp ->] end. by split.
Qed.

Lemma Enqueue_frame (p p' : processor) lane j ok :
  Enqueue lane j p = Ok (ok, p') -> goroutines p' = goroutines p /\ compacting p' = compacting p.
Proof.
  unfold Enqueue. destruct (workers p) eqn:Ew; [by intros [= _ <-] |]. clear Ew. case_if; [by intros [= _ <-] |].
  destruct (laneWorker _ !! lane) as [i |]; [exact (tryEnqueue_frame _ _ _ _ _) |].
  destruct (selectLeastLoadedWorkerLocked _ _) as [i |]; [| by intros [= _ <-]].
  match goal with |- context [tryEnqueueLocked i ?t ?q] => destruct (tryEnqueueLocked i t q) as [[ok1 p1] | |] eqn:E end; [| done | done].
  apply tryEnqueue_frame in E. cbn [obind]. destruct ok1; intros [= _ <-]; exact E.
Qed.

Lemma quiet_tasks (p : processor) : compacting p = None -> tasks p = concat (channels p) ++ (goroutines p ≫= carried).
Proof.
  intros Hq. unfold tasks, held. rewrite Hq. cbn [app]. f_equal. unfold channels. induction (workers p) as [| w ws IH]; [done |]. cbn. by rewrite IH.
Qed.

Lemma perm_cancel {A} (l l' g a : list A) : (l ++ g) ++ a ≡ₚ l' ++ g -> l' ≡ₚ l ++ a.
Proof.
  intros H. apply (Permutation_app_inv_r g). rewrite <- H, <- !app_assoc. apply Permutation_app_head, Permutation_app_comm.
Qed.

Lemma Enqueue_queued (p p' : processor) lane j ok :
  quiet p -> Enqueue lane j p = Ok (ok, p') -> step_spec p p' (if ok : bool then [Accepted (mkTask lane j)] else []) ->
  pool_queued p' ≡ₚ (if ok : bool then pool_queued p ++ [(lane, j)] else pool_queued p).
Proof.
  intros [H Hn] E [_ Hp]. destruct (Enqueue_frame _ _ _ _ _ E) as [Eg Ec].
  rewrite (quiet_tasks p Hn), (quiet_tasks p') in Hp by congruence. rewrite Eg in Hp. set (g := goroutines p ≫= carried) in Hp. clearbody g.
  assert (concat (channels p') ≡ₚ concat (channels p) ++ (if ok then [mkTask lane j] else [])) as Hc.
  { apply (perm_cancel _ _ g). assert (gone (if ok then [Accepted (mkTask lane j)] else []) = []) as Eq by (by destruct ok).
    rewrite Eq, app_nil_r in Hp. by destruct ok. }
  cbn [pool_queued processor_pool]. rewrite Hc. destruct ok; rewrite map_app; [done |]. by rewrite app_nil_r.
Qed.

Lemma lane_run (p p1 : processor) a lane : quiet p -> (a = DoRemoveLane lane \/ a = DoFinalizeLane lane) -> perform a p = Ok (p1, []) ->
  exists p', compactQueuesLocked p1 = Ok p' /\ quiet p' /\
    pool_queued p' = filter (fun e => laneSession lane = 0 \/ e.1 <> lane) (pool_queued p).
Proof.
  intros Hq Ha Hp. destruct (Z.eqb_spec (laneSession lane) 0) as [H0 | H0].
  - assert (p1 = p) as -> by (destruct Hq as [_ Hn]; destruct Ha as [-> | ->]; cbn in Hp; unfold locked, RemoveLane, FinalizeLane in Hp; rewrite Hn, H0 in Hp; by injection Hp).
    exists p. split_and!; [| done | symmetry; apply list_filter_all; apply Forall_forall; by left].
    unfold compactQueuesLocked. destruct Hq as [_ Hn]. destruct (compaction_left p); cbn [compact_loop]; by rewrite Hn.
  - apply (removal_run p p1 a (DropLane lane)); [done | | done |].
    + apply Z.eqb_neq in H0. destruct Ha as [-> | ->]; cbn [request]; by rewrite H0.
    + intros [l j]. cbn. rewrite bool_decide_eq_false. naive_solver.
Qed.

Lemma enqueue_law lane j (p : processor) : quiet p -> exists ok p', Enqueue lane j p = Ok (ok, p') /\ quiet p' /\
  pool_queued p' ≡ₚ (if ok : bool then pool_queued p ++ [(lane, j)] else pool_queued p).
Proof.
  intros Hq. destruct (enqueue_ok p lane j (proj1 Hq) (proj2 Hq)) as (ok & p' & E & S). exists ok, p'. split; [exact E |].
  split; [split; [apply S | destruct (Enqueue_frame _ _ _ _ _ E), Hq; congruence] | by apply (Enqueue_queued p p')].
Qed.

Lemma session_law s (p : processor) : quiet p -> exists p', compactQueuesLocked (RemoveSession s p) = Ok p' /\ quiet p' /\
  pool_queued p' = filter (fun e => laneSession e.1 <> s) (pool_queued p).
Proof.
  intros Hq. apply (removal_run p (RemoveSession s p) (DoRemoveSession s) (DropSession s)); [done | done | | intros [l j]; cbn; apply Z.eqb_neq].
  cbn. unfold locked. by rewrite (proj2 Hq).
Qed.

Lemma remove_lane_law lane (p : processor) : quiet p -> exists p', compactQueuesLocked (RemoveLane lane p) = Ok p' /\ quiet p' /\
  pool_queued p' = filter (fun e => laneSession lane = 0 \/ e.1 <> lane) (pool_queued p).
Proof. intros Hq. apply (lane_run p (RemoveLane lane p) (DoRemoveLane lane)); [done | by left |]. cbn. unfold locked. by rewrite (proj2 Hq). Qed.

Lemma finalize_lane_law lane (p : processor) : quiet p -> exists p', compactQueuesLocked (FinalizeLane lane p) = Ok p' /\ quiet p' /\
  pool_queued p' = filter (fun e => laneSession lane = 0 \/ e.1 <> lane) (pool_queued p).
Proof. intros Hq. apply (lane_run p (FinalizeLane lane p) (DoFinalizeLane lane)); [done | by right |]. cbn. unfold locked. by rewrite (proj2 Hq). Qed.

(** A worker takes a task out of its channel, and puts none in. *)
Lemma take_channel (p : processor) i w t js : workers p !! i = Some w -> jobs w = t :: js ->
  concat (jobs <$> alter (fun w0 : deferredSessionWorker => w0 <| jobs := js |>) i (workers p)) ⊆+ concat (channels p).
Proof.
  unfold channels. revert i. induction (workers p) as [| w0 ws IH]; intros [| i] Hw Hj; [done | done | |].
  - injection Hw as ->. cbn. rewrite Hj. cbn. by apply submseteq_cons.
  - cbn. apply submseteq_app; [done | by apply (IH i)].
Qed.

Lemma pending_channels i (p : processor) d : channels (update_worker i (add_pending d) p) = channels p.
Proof.
  unfold channels. change (jobs <$> alter (add_pending d) i (workers p) = jobs <$> workers p). generalize (workers p) i. clear.
  induction l as [| w l IH]; intros [| i]; [done | done | done |]. cbn. by rewrite IH.
Qed.

Lemma work_law (p p' : processor) : quiet p -> pool_work p p' -> quiet p' /\ pool_queued p' ⊆+ pool_queued p.
Proof.
  intros [Hok Hn] (a & es & Ha & Hp). pose proof (perform_ok p a Hok) as Hok'. rewrite Hp in Hok'. destruct Hok' as [Hok' _].
  apply list_elem_of_bind in Ha as (i & Ha & _). cbn [pool_queued processor_pool].
  cut (compacting p' = None /\ concat (channels p') ⊆+ concat (channels p)).
  { intros [Hn' Hs]. split; [by split |]. by apply fmap_submseteq. }
  rewrite !elem_of_cons, elem_of_nil in Ha. destruct Ha as [-> | [-> | [-> | [-> | []]]]]; cbn [perform] in Hp; unfold locked in Hp; rewrite ?Hn in Hp.
  - apply obind_ok_inv in Hp as (p1 & Ht & [= <- _]). unfold takeStep in Ht.
    destruct (workers p !! i) as [w |] eqn:Ew; [| by repeat case_match]. repeat (case_match; try done). injection Ht as <-.
    split; [exact Hn |]. eapply take_channel; done.
  - apply obind_ok_inv in Hp as (p1 & Ht & [= <- _]). unfold beginStep, beginTaskContext in Ht. repeat (case_match; try done). all: by simplify_eq.
  - apply obind_ok_inv in Hp as (p1 & Ht & [= <- _]). unfold endStep in Ht. repeat (case_match; try done). all: simplify_eq; split; [exact Hn |].
    all: match goal with |- context [set_goroutine ?j ?g (update_worker ?j ?f ?q)] =>
           change (channels (set_goroutine j g (update_worker j f q))) with (channels (update_worker j f q)) end; by rewrite pending_channels.
  - unfold finishStep, finishLane, cancel_running in Hp. repeat (case_match; try done). all: simplify_eq.
    all: match goal with |- context [decrementSessionPendingLocked ?s ?q] => destruct (decrement_shape s q) as [sp ->] end; by split.
Qed.

#[export] Instance processor_laws : DeferredPoolLaws processor_pool := {|
  pool_ok := quiet;
  pool_enqueue_law := enqueue_law;
  pool_session_law := session_law;
  pool_lane_law := remove_lane_law;
  pool_finalize_law := finalize_lane_law;
  pool_work_law := work_law
|}.

(** A new pool satisfies its invariant and has nothing queued. *)
Lemma new_pool_ok (workerCount limit : Z) (p : processor) :
  newDeferredSessionProcessor workerCount limit = Some p -> pool_ok p /\ pool_queued p = [].
Proof.
  intros Hnew. destruct (new_ok _ _ _ Hnew) as (H & Ht & Hn). split; [by split |].
  rewrite (quiet_tasks p Hn) in Ht. apply app_eq_nil in Ht as [Ht _]. cbn [pool_queued processor_pool]. by rewrite Ht.
Qed.
End pool.
