(* ===== verification/ServerState.v ===== *)
(** The server's state and what the packet handlers share: the struct [Server] and [New] of
    src/masterdns/internal/udpserver/server.go, the cleanup, queueing and dispatch functions of
    server_session.go and server_postsession.go, the helpers of server_utils.go.

    A handler is a function of the server's state; [blocked] is the outcome of a call of the
    worker pool that waits for ever, which the interface of the pool excludes.  A datagram is
    handled with one reading of the clock, the argument [now].  A [*sessionRecord] is the
    session in the table under its number; nothing removes a session while a packet of it is
    handled.  Work that is put off is a value of [job].  Counters and rate limits that only
    feed the log are left out. *)

From stdpp Require Import base tactics list gmap strings sorting.
From Stdlib Require Import ZArith Lia.
From S2P Require Import Prelude Enums Mlq SessionAccept FragmentStore Compression Security VpnProto DnsParser DomainMatcher.
From S2P Require Import GoFloat ArqState Arq TxQueue ArqData ArqControl ArqEvents GoHeap Session SessionServe SessionStore.
From S2P Require Import CookieTracker DeferredSession DeferredPool DeferredTracking ServerConfig.
Import Session.

#[local] Existing Instances StreamServer.set_clock StreamServer.set_Status StreamServer.set_CloseTime.

(** ** Constants *)

Definition mtuProbeCodeLength : Z := 4.
Definition mtuProbeMetaLength : Z := mtuProbeCodeLength + 2.
Definition mtuProbeUpMinSize : Z := 1 + mtuProbeCodeLength.
Definition mtuProbeDownMinSize : Z := mtuProbeUpMinSize + 2.
Definition mtuProbeMinDownSize : Z := SessionAcceptPayloadSize.
Definition mtuProbeMaxDownSize : Z := 4096.

(** ** Work that is put off *)

(** The closures handed to the worker pools. *)
Inductive deferred_run :=
| RunDNSQuery (downloadCompression downloadMTUBytes : Z) (assembledQuery : bytes)
| RunStreamSyn
| RunSOCKS5Syn.

Record job := mkJob { jobPacket : Packet; jobRun : deferred_run }.

Inductive deferredDispatchResult := deferredDispatchDropped | deferredDispatchEnqueued | deferredDispatchAlreadyPending.

(** ** Helpers *)

Definition buildCompressionMask (values : list Z) : Z :=
  fold_left (fun mask value =>
    if (value <? TypeOff) || (TypeZLIB <? value) || negb (IsTypeAvailable (wrap8 value)) then mask
    else wrap8 (Z.lor mask (Z.shiftl 1 (wrap8 value)))) values (Z.shiftl 1 TypeOff).

(** The encoding and whether the mode is known. *)
Definition parseMTUProbeBaseEncoding (mode : Z) : bool * bool :=
  if mode =? mtuProbeModeRaw then (false, true) else if mode =? mtuProbeModeBase64 then (true, true) else (false, false).

(** [probeCode] has at least four bytes. *)
Definition buildMTUProbeMetaPayload (probeCode : bytes) (payloadLen : Z) : bytes := take 4 probeCode ++ be16 (wrap16 payloadLen).

Definition resolveCompressionType (requested allowedMask : Z) : Z :=
  if (requested <=? TypeZLIB) && negb (Z.land allowedMask (Z.shiftl 1 requested) =? 0) then requested else TypeOff.

Definition getEffectivePriority (packetType basePriority : Z) : Z := NormalizePacketPriority packetType basePriority.

Definition isStreamCreationPacketType (packetType : Z) : bool := case_of packetType [PACKET_STREAM_SYN; PACKET_SOCKS5_SYN].

Definition isDeferredPostSessionPacketType (packetType : Z) : bool :=
  case_of packetType [PACKET_DNS_QUERY_REQ; PACKET_STREAM_SYN; PACKET_SOCKS5_SYN].

Definition deferredSessionLaneForPacket (packet : Packet) : deferredSessionLane := mkLane (SessionID packet) (StreamID packet).

(** [splitDeferredSessionPools]: workers and queue of the DNS pool, then of the other one. *)
Definition splitDeferredSessionPools (totalWorkers totalQueue : Z) : (Z * Z) * (Z * Z) :=
  let totalWorkers := if totalWorkers <=? 0 then 1 else totalWorkers in
  let totalQueue := if totalQueue <=? 0 then 256 else totalQueue in
  ((1, Z.min (Z.max (totalQueue ÷ 4) 64) 256), (totalWorkers, totalQueue)).

(** The 32-bit shifts of [nextPongPayload]. *)
Definition mix_nonce (nonce : Z) : Z :=
  let nonce := Z.lxor nonce (wrap32 (Z.shiftl nonce 13)) in
  let nonce := Z.lxor nonce (Z.shiftr nonce 17) in
  Z.lxor nonce (wrap32 (Z.shiftl nonce 5)).

(** ** The state *)

Section server.
Context {P : Type} {D : DeferredPool job P}.

Record Server := mkServer {
  cfg : ServerCfg.ServerConfig;
  codec : option Codec;
  domainMatcher : Matcher;
  sessions : sessionStore;
  deferredDNSSession : option P;
  deferredConnectSession : option P;
  cookieTracker : invalidCookieTracker;
  dnsFragments : Store (K := Z * Z);
  socks5Fragments : Store (K := Z * Z * Z);
  dnsFragmentTimeout : Z;
  uploadCompressionMask : Z;
  downloadCompressionMask : Z;
  invalidCookieWindowNanos : Z;
  invalidCookieThreshold : Z;
  deferredPackets : deferredTracker;
  deferredDroppedPackets : Z;
  pongNonce : Z;
  invalidDropMode : Z
}.

#[export] Instance eta_srv : Eta Server := fun s =>
  mkServer (cfg s) (codec s) (domainMatcher s) (sessions s) (deferredDNSSession s) (deferredConnectSession s) (cookieTracker s)
    (dnsFragments s) (socks5Fragments s) (dnsFragmentTimeout s) (uploadCompressionMask s) (downloadCompressionMask s)
    (invalidCookieWindowNanos s) (invalidCookieThreshold s) (deferredPackets s) (deferredDroppedPackets s) (pongNonce s) (invalidDropMode s).
#[export] Instance set_sessions : Setter sessions := ltac:(derive_setter).
#[export] Instance set_deferredDNS : Setter deferredDNSSession := ltac:(derive_setter).
#[export] Instance set_deferredConnect : Setter deferredConnectSession := ltac:(derive_setter).
#[export] Instance set_cookieTracker : Setter cookieTracker := ltac:(derive_setter).
#[export] Instance set_dnsFragments : Setter dnsFragments := ltac:(derive_setter).
#[export] Instance set_socks5Fragments : Setter socks5Fragments := ltac:(derive_setter).
#[export] Instance set_deferredPackets : Setter deferredPackets := ltac:(derive_setter).
#[export] Instance set_deferredDropped : Setter deferredDroppedPackets := ltac:(derive_setter).
#[export] Instance set_pongNonce : Setter pongNonce := ltac:(derive_setter).
#[export] Instance set_invalidDropMode : Setter invalidDropMode := ltac:(derive_setter).

(** [New] with the two pools made by [newPool].  [cpus] is the number of processors. *)
Definition New (newPool : Z -> Z -> option P) (cpus : Z) (c : ServerCfg.ServerConfig) (cdc : option Codec) : Server :=
  let window := ServerCfg.InvalidCookieWindow c in
  let window := if window <=? 0 then 2 * 1000000000 else window in
  let timeout := ServerCfg.DNSFragmentAssemblyTimeout c in
  let timeout := if timeout <=? 0 then 300 * 1000000000 else timeout in
  let '((dnsWorkers, dnsQueue), (connectWorkers, connectQueue)) :=
    splitDeferredSessionPools (ServerCfg.EffectiveDeferredSessionWorkers cpus c) (ServerCfg.EffectiveDeferredSessionQueueLimit cpus c) in
  {| cfg := c;
     codec := cdc;
     domainMatcher := DomainMatcher.New (ServerCfg.Domain c) (ServerCfg.MinVPNLabelLength c);
     sessions := (newSessionStore [AnyDuration (ServerCfg.SessionInitReuseTTL c); AnyDuration (ServerCfg.RecentlyClosedStreamTTL c);
                                   AnyInt (ServerCfg.RecentlyClosedStreamCap c)])
                   <| maxActiveSessions := ServerCfg.MaxAllowedClientActiveSessions c |>
                   <| maxActiveStreams := ServerCfg.MaxAllowedClientActiveStreams c |>;
     deferredDNSSession := newPool dnsWorkers dnsQueue;
     deferredConnectSession := newPool connectWorkers connectQueue;
     cookieTracker := newInvalidCookieTracker;
     dnsFragments := FragmentStore.New;
     socks5Fragments := FragmentStore.New;
     dnsFragmentTimeout := timeout;
     uploadCompressionMask := buildCompressionMask (ServerCfg.SupportedUploadCompressionTypes c);
     downloadCompressionMask := buildCompressionMask (ServerCfg.SupportedDownloadCompressionTypes c);
     invalidCookieWindowNanos := window;
     invalidCookieThreshold := ServerCfg.InvalidCookieErrorThreshold c;
     deferredPackets := newDeferredTracker;
     deferredDroppedPackets := 0;
     pongNonce := 0;
     invalidDropMode := 0 |}.

(** ** Taking work back *)

(** A call on a pool that may be missing. *)
Definition on_pool (call : P -> outcome blocked P) (pool : option P) : outcome blocked (option P) :=
  match pool with None => Ok None | Some p => let! p := call p in Ok (Some p) end.

Definition clearDeferredPacketsForSession (sessionID : Z) (s : Server) : Server :=
  s <| deferredPackets ::= clearDeferredInflightForSession sessionID |>.

Definition clearDeferredPacketsForStream (sessionID streamID : Z) (s : Server) : outcome blocked Server :=
  if (sessionID =? 0) || (streamID =? 0) then Ok s
  else
    let s := s <| deferredPackets ::= clearDeferredInflightForStream sessionID streamID |> in
    let! p := on_pool (pool_RemoveLane (mkLane sessionID streamID)) (deferredConnectSession s) in
    Ok (s <| deferredConnectSession := p |>).

Definition finalizeDeferredPacketsForStream (sessionID streamID : Z) (s : Server) : outcome blocked Server :=
  if (sessionID =? 0) || (streamID =? 0) then Ok s
  else
    let s := s <| deferredPackets ::= clearDeferredInflightForStream sessionID streamID |> in
    let! p := on_pool (pool_FinalizeLane (mkLane sessionID streamID)) (deferredConnectSession s) in
    Ok (s <| deferredConnectSession := p |>).

Definition removeSOCKS5SynFragmentsForSession (sessionID : Z) (s : Server) : Server :=
  if sessionID =? 0 then s else s <| socks5Fragments ::= RemoveIf (fun key => key.1.1 =? sessionID) |>.

Definition removeSOCKS5SynFragmentsForStream (sessionID streamID : Z) (s : Server) : Server :=
  if (sessionID =? 0) || (streamID =? 0) then s
  else s <| socks5Fragments ::= RemoveIf (fun key => (key.1.1 =? sessionID) && (key.1.2 =? streamID)) |>.

Definition removeDNSQueryFragmentsForSession (sessionID : Z) (s : Server) : Server :=
  if sessionID =? 0 then s else s <| dnsFragments ::= RemoveIf (fun key => key.1 =? sessionID) |>.

Definition cleanupStreamArtifacts (sessionID streamID : Z) (s : Server) : outcome blocked Server :=
  if (sessionID =? 0) || (streamID =? 0) then Ok s
  else
    let! s := clearDeferredPacketsForStream sessionID streamID s in
    Ok (removeSOCKS5SynFragmentsForStream sessionID streamID s).

Definition finalizeStreamArtifacts (sessionID streamID : Z) (s : Server) : outcome blocked Server :=
  if (sessionID =? 0) || (streamID =? 0) then Ok s
  else
    let! s := finalizeDeferredPacketsForStream sessionID streamID s in
    Ok (removeSOCKS5SynFragmentsForStream sessionID streamID s).

Definition cleanupDeferredSessionState (sessionID : Z) (s : Server) : outcome blocked Server :=
  if sessionID =? 0 then Ok s
  else
    let! p := on_pool (pool_RemoveSession sessionID) (deferredDNSSession s) in
    let s := s <| deferredDNSSession := p |> in
    let! p := on_pool (pool_RemoveSession sessionID) (deferredConnectSession s) in
    let s := s <| deferredConnectSession := p |> in
    Ok (removeDNSQueryFragmentsForSession sessionID s).

(** ** Sessions *)

(** The streams that ended in [r']: their [onStreamClosed] has run. *)
Definition ended (r r' : sessionRecord) : list Z :=
  omap (fun e : nat * stream =>
    match objects r !! e.1 with
    | Some (_, v) => if negb (StreamServer.cleanupDone v) && StreamServer.cleanupDone e.2.2 then Some (StreamServer.ID e.2.2) else None
    | None => None
    end) (map_to_list (objects r')).

(** [streamCleanup] of the sessions, for the streams that ended. *)
Fixpoint cleanup_streams (sessionID : Z) (streamIDs : list Z) (s : Server) : outcome blocked Server :=
  match streamIDs with
  | [] => Ok s
  | streamID :: streamIDs => let! s := cleanupStreamArtifacts sessionID streamID s in cleanup_streams sessionID streamIDs s
  end.

(** An operation on the session [sessionID], if it is open, with the hook of its streams. *)
Definition on_record (sessionID : Z) (f : sessionRecord -> sessionRecord) (s : Server) : outcome blocked Server :=
  match SessionStore.Get sessionID (sessions s) with
  | None => Ok s
  | Some r => cleanup_streams sessionID (ended r (f r)) (s <| sessions ::= fun t => t <| byID ::= <[sessionID := f r]> |> |>)
  end.

Definition cleanupClosedSession (sessionID : Z) (record : sessionRecord) (now : Z) (s : Server) : outcome blocked Server :=
  if sessionID =? 0 then Ok s
  else
    let s := clearDeferredPacketsForSession sessionID s in
    let s := removeSOCKS5SynFragmentsForSession sessionID s in
    let! s := cleanup_streams sessionID (ended record (closeAllStreams "session closed cleanup" now record)) s in
    cleanupDeferredSessionState sessionID s.

Definition cleanupIdleDeferredSession (sessionID : Z) (s : Server) : outcome blocked Server :=
  if sessionID =? 0 then Ok s
  else
    let s := clearDeferredPacketsForSession sessionID s in
    let s := removeSOCKS5SynFragmentsForSession sessionID s in
    cleanupDeferredSessionState sessionID s.

(** ** Queueing *)

Definition streamARQConfig (compressionType : Z) (s : Server) : Config :=
  let c := cfg s in
  {| WindowSize := ServerCfg.ARQWindowSize c;
     RTO := ServerCfg.ARQInitialRTOSeconds c;
     MaxRTO := ServerCfg.ARQMaxRTOSeconds c;
     IsVirtual := false;
     StartPaused := false;
     EnableControlReliability := true;
     ControlRTO := ServerCfg.ARQControlInitialRTOSeconds c;
     ControlMaxRTO := ServerCfg.ARQControlMaxRTOSeconds c;
     ControlMaxRetries := ServerCfg.ARQMaxControlRetries c;
     InactivityTimeout := ServerCfg.ARQInactivityTimeoutSeconds c;
     DataPacketTTL := ServerCfg.ARQDataPacketTTLSeconds c;
     MaxDataRetries := ServerCfg.ARQMaxDataRetries c;
     ControlPacketTTL := ServerCfg.ARQControlPacketTTLSeconds c;
     DataNackMaxGap := ServerCfg.ARQDataNackMaxGap c;
     DataNackInitialDelaySeconds := ServerCfg.ARQDataNackInitialDelaySeconds c;
     DataNackRepeatSeconds := ServerCfg.ARQDataNackRepeatSeconds c;
     TerminalDrainTimeout := ServerCfg.ARQTerminalDrainTimeoutSec c;
     TerminalAckWaitTimeout := ServerCfg.ARQTerminalAckWaitTimeoutSec c;
     CfgCompressionType := compressionType;
     CfgIsClient := false;
     InboundQueueSize := 0 |}.

(** [stream.PushTXPacket] of the stream at address [a]. *)
Definition pushTX (a : nat) (now : Z) (q : TXRequest) (r : sessionRecord) : sessionRecord :=
  r <| objects ::= alter (fun v : stream => (v.1, (StreamServer.PushTXPacket (v.2 <| StreamServer.clock := now |>) q).2)) a |>.

(** [queueSessionPacket] on the record; its result is ignored by all callers. *)
Definition queue_packet (packet : Packet) (now : Z) (r : sessionRecord) : sessionRecord :=
  let q := mkTX (getEffectivePriority (PacketType packet) 3) (PacketType packet) (SequenceNum packet) (FragmentID packet)
             (TotalFragments packet) (CompressionType packet) 0 (Payload packet) in
  let r := if StreamID packet =? 0 then ensureStream0 now r else r in
  match getStream (StreamID packet) r with Some a => pushTX a now q r | None => r end.

Definition queueSessionPacket (sessionID : Z) (packet : Packet) (now : Z) (s : Server) : outcome blocked Server :=
  on_record sessionID (queue_packet packet now) s.

(** The acknowledgement of [queueImmediateControlAck] on the stream at [a]. *)
Definition ack_stream (a : nat) (ackType : Z) (packet : Packet) (now : Z) (c : ServerCfg.ServerConfig) (r : sessionRecord) : sessionRecord :=
  if isStreamCreationPacketType (PacketType packet)
  then streamEvent a now
         (EvControl ackType (SequenceNum packet) (FragmentID packet) (TotalFragments packet) [] (DefaultPacketPriority ackType)
            false None (ServerCfg.StreamSetupAckTTL c)) r
  else pushTX a now (mkTX (DefaultPacketPriority ackType) ackType (SequenceNum packet) (FragmentID packet) (TotalFragments packet) 0 0 []) r.

Definition queueImmediateControlAck (sessionID : Z) (packet : Packet) (now : Z) (s : Server) : outcome blocked Server :=
  match ControlAckFor (PacketType packet) with
  | None => Ok s
  | Some ackType =>
      if StreamID packet =? 0
      then queueSessionPacket sessionID
             (mkPacket 0 ackType 0 false (StreamID packet) false (SequenceNum packet) false (FragmentID packet) (TotalFragments packet)
                false 0 0 []) now s
      else
        on_record sessionID (fun r =>
          match getStream (StreamID packet) r with
          | Some a => ack_stream a ackType packet now (cfg s) r
          | None =>
              if isStreamCreationPacketType (PacketType packet) then
                match getOrCreateStream (StreamID packet) (streamARQConfig (DownloadCompression r) s) false now r with
                | (Some a, r) => ack_stream a ackType packet now (cfg s) r
                | (None, r) => r
                end
              else r
          end) s
  end.

(** ** Dispatch of deferred work *)

Definition dispatchDeferredSessionPacket (packet : Packet) (run : job) (s : Server) : outcome blocked (bool * Server) :=
  if negb (isDeferredPostSessionPacketType (PacketType packet)) then Ok (false, s)
  else if PacketType packet =? PACKET_DNS_QUERY_REQ then
    match deferredDNSSession s with
    | None => Ok (false, s)
    | Some p =>
        let! (ok, p) := pool_Enqueue (deferredSessionLaneForPacket packet) run p in
        Ok (ok, s <| deferredDNSSession := Some p |>)
    end
  else if isStreamCreationPacketType (PacketType packet) then
    match deferredConnectSession s with
    | None => Ok (false, s)
    | Some p =>
        let! (ok, p) := pool_Enqueue (deferredSessionLaneForPacket packet) run p in
        Ok (ok, s <| deferredConnectSession := Some p |>)
    end
  else Ok (false, s).

Definition dispatchDeferredSessionPacketTracked (packet : Packet) (run : deferred_run) (s : Server) :
    outcome blocked (deferredDispatchResult * Server) :=
  let '(ok, t) := tryBeginDeferredPacket packet (deferredPackets s) in
  let s := s <| deferredPackets := t |> in
  if negb ok then Ok (deferredDispatchAlreadyPending, s)
  else
    let! (enqueued, s) := dispatchDeferredSessionPacket packet (mkJob packet run) s in
    if enqueued : bool then Ok (deferredDispatchEnqueued, s)
    else Ok (deferredDispatchDropped, s <| deferredPackets ::= finishDeferredPacket packet |>
                                        <| deferredDroppedPackets ::= (fun n => (n + 1) mod 2 ^ 64) |>).

Definition shouldExecuteDeferredPacket (packet : Packet) (now : Z) (s : Server) : bool :=
  let '(lookup, known) := Lookup (SessionID packet) (sessions s) in
  if negb known || negb (match lkState lookup with sessionLookupActive => true | _ => false end) || negb (lkCookie lookup =? SessionCookie packet) then false
  else if StreamID packet =? 0 then true
  else
    match SessionStore.Get (SessionID packet) (sessions s) with
    | None => false
    | Some r =>
        if isRecentlyClosed (StreamID packet) now r then false
        else
          match getStream (StreamID packet) r with
          | None => true
          | Some a =>
              match objects r !! a with
              | None => true
              | Some (q, v) =>
                  if closed q || IsReset q then false
                  else negb (bool_decide (StreamServer.Status v = "CLOSED"%string) || negb (IsZero (StreamServer.CloseTime v)))
              end
          end
    end.

(** ** Nonces *)

Definition nextPongPayload (s : Server) : bytes * Server :=
  let s := s <| pongNonce ::= (fun n => wrap32 (n + 1)) |> in
  ([80; 79; 58] ++ be32 (mix_nonce (pongNonce s)), s).

Definition nextInvalidDropPayload (s : Server) : bytes * Server :=
  let s := s <| pongNonce ::= (fun n => wrap32 (n + 1)) |> in
  let nonce := mix_nonce (pongNonce s) in
  ([73; 78; 86] ++ be32 nonce ++ [wrap8 nonce], s).

Definition nextUnknownInvalidDropMode (s : Server) : Z * Server :=
  let s := s <| invalidDropMode ::= (fun n => wrap32 (n + 1)) |> in
  (if Z.land (invalidDropMode s) 1 =? 0 then mtuProbeModeRaw else mtuProbeModeBase64, s).
End server.
