(* ===== verification/ServerPackets.v ===== *)
(** The packets of a session: src/masterdns/internal/udpserver/server_postsession.go.

    Each handler is a function of the server's state (ServerState.v) that says whether it
    handled the packet. *)

From stdpp Require Import base tactics list gmap strings sorting.
From Stdlib Require Import ZArith Lia.
From S2P Require Import Prelude Enums Mlq SessionAccept FragmentStore Compression Security VpnProto DnsParser DomainMatcher.
From S2P Require Import GoFloat ArqState Arq TxQueue ArqData ArqControl ArqEvents GoHeap Session SessionServe SessionStore.
From S2P Require Import CookieTracker DeferredSession DeferredPool DeferredTracking NetIP SocksProto ServerConfig ServerState.
Import Session.

#[local] Existing Instances StreamServer.set_clock StreamServer.set_Status StreamServer.set_CloseTime.

Section server.
Context {P : Type} {D : DeferredPool job P}.
Abbreviation Server := (@Server P).
Implicit Types s : Server.

(** The open session of a packet. *)
Definition record_of (vpnPacket : Packet) s : option sessionRecord := SessionStore.Get (SessionID vpnPacket) (sessions s).

(** The stream of a packet: its address and what is stored there. *)
Definition stream_of (vpnPacket : Packet) (r : sessionRecord) : option (nat * stream) :=
  match getStream (StreamID vpnPacket) r with
  | None => None
  | Some a => match objects r !! a with Some v => Some (a, v) | None => None end
  end.

(** ** Packets of streams that are not there *)

Definition orphan_reset (packetType : Z) (sequenceNum : Z) (vpnPacket : Packet) s : outcome blocked Server :=
  on_record (SessionID vpnPacket) (enqueueOrphanReset packetType (StreamID vpnPacket) sequenceNum) s.

Definition enqueueMissingStreamReset (vpnPacket : Packet) s : outcome blocked (bool * Server) :=
  let t := PacketType vpnPacket in
  if (StreamID vpnPacket =? 0) ||
     case_of t [PACKET_STREAM_SYN; PACKET_SOCKS5_SYN; PACKET_PACKED_CONTROL_BLOCKS; PACKET_PING; PACKET_DNS_QUERY_REQ]
  then Ok (false, s)
  else if case_of t [PACKET_STREAM_DATA_ACK; PACKET_STREAM_DATA_NACK] then Ok (true, s)
  else if bool_decide (is_Some (ReverseControlAckFor t)) then Ok (true, s)
  else if t =? PACKET_STREAM_RST then
    let! s := orphan_reset PACKET_STREAM_RST_ACK (SequenceNum vpnPacket) vpnPacket s in Ok (true, s)
  else
    let! s := orphan_reset (default PACKET_STREAM_RST (GetPacketCloseStream t)) 0 vpnPacket s in Ok (true, s).

Definition ackRecentlyClosedStreamPacket (vpnPacket : Packet) s : outcome blocked (bool * Server) :=
  let t := PacketType vpnPacket in
  if StreamID vpnPacket =? 0 then Ok (false, s)
  else if case_of t [PACKET_STREAM_DATA_ACK; PACKET_STREAM_DATA_NACK] then Ok (true, s)
  else if bool_decide (is_Some (ReverseControlAckFor t)) then Ok (true, s)
  else match ControlAckFor t with
  | Some ackType => let! s := orphan_reset ackType (SequenceNum vpnPacket) vpnPacket s in Ok (true, s)
  | None => Ok (false, s)
  end.

Definition rejectNewStreamBecauseLimit (vpnPacket : Packet) (now : Z) s : outcome blocked (bool * Server) :=
  if StreamID vpnPacket =? 0 then Ok (false, s)
  else
    let packetType := if PacketType vpnPacket =? PACKET_SOCKS5_SYN then PACKET_SOCKS5_CONNECT_FAIL else PACKET_STREAM_CONNECT_FAIL in
    let! s := orphan_reset packetType (SequenceNum vpnPacket) vpnPacket s in
    let! s := queueImmediateControlAck (SessionID vpnPacket) vpnPacket now s in
    Ok (true, s).

(** ** Acknowledgements *)

(** [stream.Status = "CLOSED"] and the time of the close, if there is none. *)
Definition mark_closed (a : nat) (now : Z) (r : sessionRecord) : sessionRecord :=
  r <| objects ::= alter (fun v : stream =>
         (v.1, StreamServer.setClosed (if IsZero (StreamServer.CloseTime v.2) then now else StreamServer.CloseTime v.2) v.2)) a |>.

Definition clear_queue (a : nat) (r : sessionRecord) : sessionRecord :=
  r <| objects ::= alter (fun v : stream => (v.1, StreamServer.ClearTXQueue v.2)) a |>.

(** [existing] is the stream of the packet. *)
Definition consumeInboundStreamAck (vpnPacket : Packet) (existing : option (nat * stream)) (now : Z) s : outcome blocked (bool * Server) :=
  match existing with
  | None => Ok (false, s)
  | Some (a, _) =>
      let before := match record_of vpnPacket s with Some r => objects r !! a | None => None end in
      let handledAck :=
        match before with
        | Some v => (HandleAckPacket (PacketType vpnPacket) (SequenceNum vpnPacket) (FragmentID vpnPacket) now
                       (v.1, v.2 <| StreamServer.clock := now |>)).1
        | None => false
        end in
      let! s := on_record (SessionID vpnPacket)
                  (streamEvent a now (EvAckPacket (PacketType vpnPacket) (SequenceNum vpnPacket) (FragmentID vpnPacket))) s in
      let arqClosed :=
        match record_of vpnPacket s with
        | Some r => match objects r !! a with Some v => closed v.1 | None => false end
        | None => false
        end in
      if handledAck && bool_decide (is_Some (GetPacketCloseStream (PacketType vpnPacket))) && arqClosed then
        let! s := on_record (SessionID vpnPacket) (fun r => deactivateStream (StreamID vpnPacket) (clear_queue a r)) s in
        let! s := clearDeferredPacketsForStream (SessionID vpnPacket) (StreamID vpnPacket) s in
        let! s := on_record (SessionID vpnPacket) (mark_closed a now) s in
        Ok (handledAck, s)
      else Ok (handledAck, s)
  end.

Definition preprocessInboundPacket (vpnPacket : Packet) (now : Z) s : outcome blocked (bool * Server) :=
  let t := PacketType vpnPacket in
  match record_of vpnPacket s with
  | None => Ok (false, s)
  | Some record =>
      let existing := stream_of vpnPacket record in
      if negb (StreamID vpnPacket =? 0) && bool_decide (existing = None) then
        if isRecentlyClosed (StreamID vpnPacket) now record then
          if case_of t [PACKET_STREAM_SYN; PACKET_SOCKS5_SYN; PACKET_STREAM_DATA; PACKET_STREAM_RESEND] then
            let! s := orphan_reset PACKET_STREAM_RST 0 vpnPacket s in Ok (true, s)
          else
            let! (handled, s) := ackRecentlyClosedStreamPacket vpnPacket s in
            if handled : bool then Ok (true, s)
            else if shouldSuppressOrphanForClosedStream (StreamID vpnPacket) now record then Ok (true, s)
            else enqueueMissingStreamReset vpnPacket s
        else enqueueMissingStreamReset vpnPacket s
      else
        let! s := if case_of t [PACKET_STREAM_DATA; PACKET_STREAM_RESEND; PACKET_DNS_QUERY_REQ; PACKET_STREAM_SYN; PACKET_SOCKS5_SYN]
                  then Ok s else queueImmediateControlAck (SessionID vpnPacket) vpnPacket now s in
        consumeInboundStreamAck vpnPacket existing now s
  end.

(** ** DNS queries *)

Definition collectDNSQueryFragments (vpnPacket : Packet) (totalFragments now : Z) s : (bytes * bool * bool) * Server :=
  let totalFragments := if totalFragments =? 0 then 1 else totalFragments in
  let '(result, store) := Collect (SessionID vpnPacket, SequenceNum vpnPacket) (Payload vpnPacket) (FragmentID vpnPacket) totalFragments now
                            (dnsFragmentTimeout s) (dnsFragments s) in
  (result, s <| dnsFragments := store |>).

Definition handleDNSQueryRequest (vpnPacket : Packet) (view : sessionRuntimeView) (now : Z) s : outcome blocked (bool * Server) :=
  let totalFragments := if TotalFragments vpnPacket =? 0 then 1 else TotalFragments vpnPacket in
  let '((assembledQuery, ready, completed), s) := collectDNSQueryFragments vpnPacket totalFragments now s in
  if completed : bool then Ok (true, s)
  else if negb ready then Ok (true, s)
  else
    let! (result, s) := dispatchDeferredSessionPacketTracked vpnPacket
                          (RunDNSQuery (viewDownloadCompression view) (viewDownloadMTUBytes view) assembledQuery) s in
    match result with
    | deferredDispatchDropped => Ok (false, s)
    | _ => let! s := queueImmediateControlAck (SessionID vpnPacket) vpnPacket now s in Ok (true, s)
    end.

(** ** New streams *)

(** [stream.ARQ.SendControlPacketWithTTL(packetType, seq, 0, 0, nil, prio, true, nil, ttl)] *)
Definition send_result (a : nat) (packetType ttl : Z) (vpnPacket : Packet) (now : Z) s : outcome blocked Server :=
  on_record (SessionID vpnPacket)
    (streamEvent a now (EvControl packetType (SequenceNum vpnPacket) 0 0 [] (DefaultPacketPriority packetType) true None ttl)) s.

Definition same_target (host : bytes) (port : Z) (v : StreamServer.Stream_server) : bool :=
  bool_decide (StreamServer.TargetHost v = host) && (StreamServer.TargetPort v =? port).

Definition tryHandleImmediateConnectedStreamSyn (vpnPacket : Packet) (now : Z) s : outcome blocked (bool * Server) :=
  if (SessionID vpnPacket =? 0) || (StreamID vpnPacket =? 0) then Ok (false, s)
  else match record_of vpnPacket s with
  | None => Ok (false, s)
  | Some record =>
      match stream_of vpnPacket record with
      | None => Ok (false, s)
      | Some (a, (_, v)) =>
          if negb (StreamServer.Connected v) || negb (same_target (ServerCfg.ForwardIP (cfg s)) (wrap16 (ServerCfg.ForwardPort (cfg s))) v)
          then Ok (false, s)
          else
            let! s := send_result a PACKET_STREAM_CONNECTED (ServerCfg.StreamResultPacketTTL (cfg s)) vpnPacket now s in
            let! s := clearDeferredPacketsForStream (SessionID vpnPacket) (StreamID vpnPacket) s in
            Ok (true, s)
      end
  end.

Definition tryHandleImmediateConnectedSOCKS5Syn (vpnPacket : Packet) (now : Z) s : outcome blocked (bool * Server) :=
  if (SessionID vpnPacket =? 0) || (StreamID vpnPacket =? 0) || (1 <? TotalFragments vpnPacket) then Ok (false, s)
  else match record_of vpnPacket s with
  | None => Ok (false, s)
  | Some record =>
      match stream_of vpnPacket record with
      | None => Ok (false, s)
      | Some (a, (_, v)) =>
          if negb (StreamServer.Connected v) then Ok (false, s)
          else match SocksProto.ParseTargetPayload (Payload vpnPacket) with
          | Ok target =>
              let packetType := if same_target (SocksProto.Host target) (SocksProto.Port target) v then PACKET_SOCKS5_CONNECTED else PACKET_SOCKS5_CONNECT_FAIL in
              let! s := send_result a packetType (ServerCfg.StreamResultPacketTTL (cfg s)) vpnPacket now s in
              let! s := cleanupStreamArtifacts (SessionID vpnPacket) (StreamID vpnPacket) s in
              Ok (true, s)
          | Err _ => Ok (false, s)
          | Panic => Panic
          end
      end
  end.

(** A refused host is the only error here, [mapSOCKSConnectError] of it is RULESET_DENIED. *)
Definition tryHandleImmediateRejectedSOCKS5Syn (vpnPacket : Packet) (now : Z) s : outcome blocked (bool * Server) :=
  if (SessionID vpnPacket =? 0) || (StreamID vpnPacket =? 0) || (1 <? TotalFragments vpnPacket) then Ok (false, s)
  else match record_of vpnPacket s with
  | None => Ok (false, s)
  | Some record =>
      match stream_of vpnPacket record with
      | None => Ok (false, s)
      | Some (a, _) =>
          match SocksProto.ParseTargetPayload (Payload vpnPacket) with
          | Ok target =>
              match SocksProto.validateSOCKSTargetHost (SocksProto.Host target) with
              | Ok _ => Ok (false, s)
              | Err _ =>
                  let! s := send_result a PACKET_SOCKS5_RULESET_DENIED (ServerCfg.StreamFailurePacketTTL (cfg s)) vpnPacket now s in
                  let! s := cleanupStreamArtifacts (SessionID vpnPacket) (StreamID vpnPacket) s in
                  Ok (true, s)
              | Panic => Panic
              end
          | Err _ => Ok (false, s)
          | Panic => Panic
          end
      end
  end.

(** The end of the two SYN handlers: the work is put off and the packet acknowledged. *)
Definition defer_syn (run : deferred_run) (vpnPacket : Packet) (now : Z) s : outcome blocked (bool * Server) :=
  let! (result, s) := dispatchDeferredSessionPacketTracked vpnPacket run s in
  match result with
  | deferredDispatchDropped => Ok (false, s)
  | _ => let! s := queueImmediateControlAck (SessionID vpnPacket) vpnPacket now s in Ok (true, s)
  end.

Definition handleStreamSynRequest (vpnPacket : Packet) (now : Z) s : outcome blocked (bool * Server) :=
  if negb (HasStreamID vpnPacket) || (StreamID vpnPacket =? 0) then Ok (false, s)
  else match record_of vpnPacket s with
  | None => Ok (false, s)
  | Some record =>
      if negb (canCreateAdditionalStream (StreamID vpnPacket) record) then rejectNewStreamBecauseLimit vpnPacket now s
      else
        let! (handled, s) := tryHandleImmediateConnectedStreamSyn vpnPacket now s in
        if handled : bool then let! s := queueImmediateControlAck (SessionID vpnPacket) vpnPacket now s in Ok (true, s)
        else defer_syn RunStreamSyn vpnPacket now s
  end.

Definition handleSOCKS5SynRequest (vpnPacket : Packet) (now : Z) s : outcome blocked (bool * Server) :=
  if negb (HasStreamID vpnPacket) || (StreamID vpnPacket =? 0) then Ok (false, s)
  else match record_of vpnPacket s with
  | None => Ok (false, s)
  | Some record =>
      if negb (canCreateAdditionalStream (StreamID vpnPacket) record) then rejectNewStreamBecauseLimit vpnPacket now s
      else
        let! (handled, s) := tryHandleImmediateConnectedSOCKS5Syn vpnPacket now s in
        if handled : bool then let! s := queueImmediateControlAck (SessionID vpnPacket) vpnPacket now s in Ok (true, s)
        else
          let! (handled, s) := tryHandleImmediateRejectedSOCKS5Syn vpnPacket now s in
          if handled : bool then let! s := queueImmediateControlAck (SessionID vpnPacket) vpnPacket now s in Ok (true, s)
          else defer_syn RunSOCKS5Syn vpnPacket now s
  end.

Definition rejectProtocolMismatchedSyn (packetType : Z) s : bool :=
  if bool_decide (ServerCfg.ProtocolType (cfg s) = ServerCfg.str "TCP") then packetType =? PACKET_SOCKS5_SYN
  else if bool_decide (ServerCfg.ProtocolType (cfg s) = ServerCfg.str "SOCKS5") then packetType =? PACKET_STREAM_SYN
  else false.

(** ** Data and the end of streams *)

Definition handleStreamDataRequest (vpnPacket : Packet) (now : Z) s : outcome blocked (bool * Server) :=
  match record_of vpnPacket s with
  | None => Ok (true, s)
  | Some record =>
      match stream_of vpnPacket record with
      | None => Ok (true, s)
      | Some (a, (q, _)) =>
          let! s := if closed q || IsReset q then orphan_reset PACKET_STREAM_RST 0 vpnPacket s
                    else on_record (SessionID vpnPacket) (streamEvent a now (EvReceiveData (SequenceNum vpnPacket) (Payload vpnPacket))) s in
          Ok (true, s)
      end
  end.

(** An event for the stream of the packet, if it exists. *)
Definition stream_event (e : ArqEvents.event) (vpnPacket : Packet) (now : Z) s : outcome blocked Server :=
  match record_of vpnPacket s with
  | None => Ok s
  | Some record =>
      match stream_of vpnPacket record with
      | None => Ok s
      | Some (a, _) => on_record (SessionID vpnPacket) (streamEvent a now e) s
      end
  end.

Definition handleStreamDataNackRequest (vpnPacket : Packet) (now : Z) s : outcome blocked (bool * Server) :=
  let! s := stream_event (EvDataNack (SequenceNum vpnPacket)) vpnPacket now s in Ok (true, s).

(** The two half closes differ in the event. *)
Definition handle_half_close (e : ArqEvents.event) (vpnPacket : Packet) (now : Z) s : outcome blocked (bool * Server) :=
  if negb (HasStreamID vpnPacket) || (StreamID vpnPacket =? 0) then Ok (false, s)
  else match record_of vpnPacket s with
  | None => Ok (true, s)
  | Some record =>
      match stream_of vpnPacket record with
      | None => Ok (true, s)
      | Some (a, _) =>
          let! s := clearDeferredPacketsForStream (SessionID vpnPacket) (StreamID vpnPacket) s in
          let! s := on_record (SessionID vpnPacket) (streamEvent a now e) s in
          Ok (true, s)
      end
  end.

Definition handleStreamCloseReadRequest := handle_half_close EvCloseReadReceived.
Definition handleStreamCloseWriteRequest := handle_half_close EvCloseWriteReceived.

Definition handleStreamRSTRequest (vpnPacket : Packet) (now : Z) s : outcome blocked (bool * Server) :=
  let sessionID := SessionID vpnPacket in
  let streamID := StreamID vpnPacket in
  if negb (HasStreamID vpnPacket) || (streamID =? 0) then Ok (false, s)
  else match record_of vpnPacket s with
  | None => Ok (true, s)
  | Some record =>
      let! s := orphan_reset PACKET_STREAM_RST_ACK (SequenceNum vpnPacket) vpnPacket s in
      match stream_of vpnPacket record with
      | Some (a, (q, _)) =>
          let! s := on_record sessionID (fun r => deactivateStream streamID (clear_queue a r)) s in
          let! s := clearDeferredPacketsForStream sessionID streamID s in
          if closed q then Ok (true, s)
          else
            let! s := on_record sessionID (streamEvent a now EvRstReceived) s in
            let! s := on_record sessionID (closeStream a "peer reset before/while connect" force_close now) s in
            let! s := on_record sessionID (fun r => r <| objects ::= alter (fun v : stream => (v.1, StreamServer.setClosed now v.2)) a |>) s in
            Ok (true, removeSOCKS5SynFragmentsForStream sessionID streamID s)
      | None =>
          let! s := on_record sessionID (noteStreamClosed streamID now false) s in
          let! s := clearDeferredPacketsForStream sessionID streamID s in
          Ok (true, removeSOCKS5SynFragmentsForStream sessionID streamID s)
      end
  end.

(** ** Dispatch *)

Definition dispatchPostSessionPacket (vpnPacket : Packet) (view : sessionRuntimeView) (now : Z) s : outcome blocked (bool * Server) :=
  let t := PacketType vpnPacket in
  if t =? PACKET_PING then Ok (true, s)
  else if case_of t [PACKET_STREAM_DATA; PACKET_STREAM_RESEND] then handleStreamDataRequest vpnPacket now s
  else if t =? PACKET_STREAM_DATA_NACK then handleStreamDataNackRequest vpnPacket now s
  else if t =? PACKET_DNS_QUERY_REQ then handleDNSQueryRequest vpnPacket view now s
  else if t =? PACKET_STREAM_SYN then handleStreamSynRequest vpnPacket now s
  else if t =? PACKET_SOCKS5_SYN then handleSOCKS5SynRequest vpnPacket now s
  else if t =? PACKET_STREAM_CLOSE_READ then handleStreamCloseReadRequest vpnPacket now s
  else if t =? PACKET_STREAM_CLOSE_WRITE then handleStreamCloseWriteRequest vpnPacket now s
  else if t =? PACKET_STREAM_RST then handleStreamRSTRequest vpnPacket now s
  else Ok (false, s).

(** One block of a packed packet, as the packet it stands for. *)
Definition block_packet (vpnPacket : Packet) (b : ControlBlock) : Packet :=
  mkPacket (SessionID vpnPacket) (bType b) (SessionCookie vpnPacket) true (bStream b) true (bSeq b) false (bFrag b) (bTotal b) false 0 0 [].

Definition handle_block (vpnPacket : Packet) (view : sessionRuntimeView) (now : Z) s (b : ControlBlock) : outcome blocked Server :=
  if (bType b =? PACKET_PACKED_CONTROL_BLOCKS) || rejectProtocolMismatchedSyn (bType b) s then Ok s
  else
    let block := block_packet vpnPacket b in
    let! (handled, s) := preprocessInboundPacket block now s in
    if handled : bool then Ok s
    else let! (_, s) := dispatchPostSessionPacket block view now s in Ok s.

(** What it returns is ignored by the caller. *)
Definition handlePackedControlBlocksRequest (vpnPacket : Packet) (view : sessionRuntimeView) (now : Z) s : outcome blocked Server :=
  if len (Payload vpnPacket) <? PackedControlBlockSize then Ok s
  else match ForEachPackedControlBlock (Payload vpnPacket)
               (fun (st : outcome blocked Server) b => (let! s := st in handle_block vpnPacket view now s b, true)) (Ok s) with
  | Ok st => st
  | Err _ => Ok s
  | Panic => Panic
  end.

Definition handlePostSessionPacket (vpnPacket : Packet) (view : sessionRuntimeView) (now : Z) s : outcome blocked (bool * Server) :=
  if rejectProtocolMismatchedSyn (PacketType vpnPacket) s then Ok (false, s)
  else
    let! (handled, s) := preprocessInboundPacket vpnPacket now s in
    if handled : bool then Ok (true, s)
    else if PacketType vpnPacket =? PACKET_PACKED_CONTROL_BLOCKS then
      let! s := handlePackedControlBlocksRequest vpnPacket view now s in Ok (true, s)
    else let! (_, s) := dispatchPostSessionPacket vpnPacket view now s in Ok (true, s).
End server.
