(* ===== verification/ServerIngress.v ===== *)
(** A datagram at the server: src/masterdns/internal/udpserver/server_ingress.go, the
    validation, the session handshake, the MTU probes and the answers of server_session.go,
    [safeHandlePacket] of server_runtime.go.

    A handler gives the answer and the new state.  The answer is [Ok None] where the code
    returns nil and [Panic] where building it panics; every change of the state comes before
    the answer is built, and [safeHandlePacket] turns a panic into no answer. *)

From stdpp Require Import base tactics list gmap strings sorting.
From Stdlib Require Import ZArith Lia.
From S2P Require Import Prelude Enums Mlq SessionAccept FragmentStore Compression Security VpnProto DnsParser DnsTransport DomainMatcher.
From S2P Require Import GoFloat ArqState Arq TxQueue ArqData ArqControl ArqEvents GoHeap Session SessionServe SessionStore.
From S2P Require Import CookieTracker DeferredSession DeferredPool DeferredTracking NetIP SocksProto ServerConfig ServerState ServerPackets.
Import Session.

Definition preSessionPacketTypes : list Z := [PACKET_SESSION_INIT; PACKET_MTU_UP_REQ; PACKET_MTU_DOWN_REQ].
Definition isPreSessionRequestType (packetType : Z) : bool := case_of packetType preSessionPacketTypes.

(** An answer, nil, or a panic while it is built. *)
Abbreviation answer := (outcome unit (option bytes)).

(** [if err != nil { return nil }; return response] *)
Definition response {E} (c : outcome E bytes) : answer :=
  match c with Ok b => Ok (Some b) | Err _ => Ok None | Panic => Panic end.

Section server.
Context `{CR : Crypto} `{CP : Compressors} {P : Type} {D : DeferredPool job P}.
Abbreviation Server := (@Server P).
Implicit Types s : Server.

Definition plain_packet (sessionID packetType : Z) (payload : bytes) : Packet :=
  mkPacket sessionID packetType 0 false 0 false 0 false 0 0 false 0 0 payload.

(** ** Answers *)

Definition buildInvalidSessionErrorResponse (questionPacket requestName : bytes) (sessionID responseMode : Z) s : answer * Server :=
  let '(payload, s) := nextInvalidDropPayload s in
  (response (BuildVPNResponsePacket questionPacket requestName (plain_packet sessionID PACKET_ERROR_DROP payload)
               (responseMode =? mtuProbeModeBase64)), s).

Definition buildSessionBusyResponse (questionPacket requestName : bytes) (responseMode : Z) (verifyCode : bytes) : answer :=
  if len verifyCode <? mtuProbeCodeLength then Ok None
  else response (BuildVPNResponsePacket questionPacket requestName (plain_packet 0 PACKET_SESSION_BUSY (take 4 verifyCode))
                   (responseMode =? mtuProbeModeBase64)).

Definition buildSessionVPNResponse (questionPacket requestName : bytes) (record : sessionRuntimeView) (packet : Packet) : answer :=
  response (BuildVPNResponsePacket questionPacket requestName
    (mkPacket (viewID record) (PacketType packet) (viewCookie record) (HasStreamID packet) (StreamID packet) (HasSequenceNum packet)
       (SequenceNum packet) (HasFragmentInfo packet) (FragmentID packet) (TotalFragments packet) (HasCompressionType packet)
       (CompressionType packet) (HeaderLength packet) (Payload packet)) (viewResponseBase64 record)).

(** [s.dequeueSessionResponse] of the session, with the hooks of its streams. *)
Definition dequeue (sessionID now : Z) s : outcome blocked (option Packet * Server) :=
  match SessionStore.Get sessionID (sessions s) with
  | None => Ok (None, s)
  | Some r =>
      let duplication := ServerCfg.PacketBlockControlDuplication (cfg s) in
      let! s := on_record sessionID (fun r => (dequeueSessionResponse duplication now r).2) s in
      Ok ((dequeueSessionResponse duplication now r).1, s)
  end.

Definition serveQueuedOrPong (questionPacket requestName : bytes) (record : sessionRuntimeView) (now : Z) s : outcome blocked (answer * Server) :=
  let! (pkt, s) := dequeue (viewID record) now s in
  match pkt with
  | Some pkt => Ok (buildSessionVPNResponse questionPacket requestName record pkt, s)
  | None =>
      let '(payload, s) := nextPongPayload s in
      Ok (buildSessionVPNResponse questionPacket requestName record (plain_packet 0 PACKET_PONG payload), s)
  end.

(** ** Validation *)

(** The session, or the answer to a packet that has none. *)
Definition validatePostSessionPacket (questionPacket requestName : bytes) (vpnPacket : Packet) (now : Z) s :
    (sessionRuntimeView + answer) * Server :=
  let '(validation, store) := ValidateAndTouch (SessionID vpnPacket) (SessionCookie vpnPacket) now (sessions s) in
  let s := s <| sessions := store |> in
  let drop mode s :=
    let '(a, s) := buildInvalidSessionErrorResponse questionPacket requestName (SessionID vpnPacket) mode s in (inr a, s) in
  match vActive validation with
  | Some view => (inl view, s)
  | None =>
      if negb (vKnown validation) then
        let '(mode, s) := nextUnknownInvalidDropMode s in drop mode s
      else if match lkState (vLookup validation) with sessionLookupClosed => true | _ => false end
      then drop (lkResponseMode (vLookup validation)) s
      else
        let '(emit, t) := Note (SessionID vpnPacket) (vLookup validation) (vKnown validation) (SessionCookie vpnPacket) now
                            (invalidCookieWindowNanos s) (invalidCookieThreshold s) (cookieTracker s) in
        let s := s <| cookieTracker := t |> in
        if negb emit then (inr (Ok None), s) else drop (lkResponseMode (vLookup validation)) s
  end.

Definition handleSessionCloseNotice (vpnPacket : Packet) (now : Z) s : outcome blocked Server :=
  if SessionID vpnPacket =? 0 then Ok s
  else
    let '(lookup, known) := Lookup (SessionID vpnPacket) (sessions s) in
    if negb known || negb (match lkState lookup with sessionLookupActive => true | _ => false end)
       || negb (lkCookie lookup =? SessionCookie vpnPacket) then Ok s
    else
      let '(record, store) := SessionStore.Close (SessionID vpnPacket) now (ServerCfg.ClosedSessionRetention (cfg s)) (sessions s) in
      let s := s <| sessions := store |> in
      match record with
      | None => Ok s
      | Some record => cleanupClosedSession (SessionID vpnPacket) record now s
      end.

(** ** The handshake *)

Definition client_policy (c : ServerCfg.ServerConfig) : SessionAcceptClientPolicy :=
  {| MaxPacketDuplicationCount := ServerCfg.ClientMaxPacketDuplicationCount c;
     MaxSetupDuplicationCount := ServerCfg.ClientMaxSetupDuplicationCount c;
     MaxUploadMTU := ServerCfg.ClientMaxUploadMTU c;
     MaxDownloadMTU := ServerCfg.ClientMaxDownloadMTU c;
     MaxRxTxWorkers := ServerCfg.ClientMaxRxTxWorkers c;
     MinPingAggressiveInterval := ServerCfg.ClientMinPingAggressiveInterval c;
     MaxPacketsPerBatch := ServerCfg.ClientMaxPacketsPerBatch c;
     MaxARQWindowSize := ServerCfg.ClientMaxARQWindowSize c;
     MaxARQDataNackMaxGap := ServerCfg.ClientMaxARQDataNackMaxGap c;
     MinCompressionMinSize := ServerCfg.ClientMinCompressionMinSize c;
     MinARQInitialRTOSeconds := ServerCfg.ClientMinARQInitialRTOSeconds c |}.

(** The payload of SESSION_ACCEPT for a session. *)
Definition accept_payload (c : ServerCfg.ServerConfig) (record : sessionRecord) : SessionAcceptPayload :=
  {| SessionAccept.SessionID := ID record;
     SessionAccept.SessionCookie := Cookie record;
     CompressionPair := PackPair (UploadCompression record) (DownloadCompression record);
     SessionAccept.VerifyCode := VerifyCode record;
     ClientPolicy := client_policy c;
     HasClientPolicySync := true |}.

Definition handleSessionInitRequest (questionPacket : bytes) (decision : Decision) (vpnPacket : Packet) (now : Z) (entropy : option bytes) s :
    answer * Server :=
  let payload := Payload vpnPacket in
  if negb (SessionID vpnPacket =? 0) || negb (len payload =? sessionInitDataSize) then (Ok None, s)
  else match SplitPair (nth 1 payload 0) with
  | Ok (requestedUpload, requestedDownload) =>
      let resolvedUpload := resolveCompressionType requestedUpload (uploadCompressionMask s) in
      let resolvedDownload := resolveCompressionType requestedDownload (downloadCompressionMask s) in
      let '(found, store) := findOrCreate payload resolvedUpload resolvedDownload (ServerCfg.EffectiveMaxPacketsPerBatch (cfg s))
                               (ServerCfg.ClientMaxUploadMTU (cfg s)) (ServerCfg.ClientMaxDownloadMTU (cfg s)) now entropy (sessions s) in
      let s := s <| sessions := store |> in
      match found with
      | ErrSessionTableFull => (buildSessionBusyResponse questionPacket (RequestName decision) (nth 0 payload 0) (take 4 (drop 6 payload)), s)
      | NoSession => (Ok None, s)
      | SessionStore.Session id _ =>
          match byID store !! id with
          | None => (Ok None, s)
          | Some record =>
              match EncodeSessionAcceptPayload (accept_payload (cfg s) record) with
              | Ok responsePayload =>
                  (response (BuildVPNResponsePacket questionPacket (RequestName decision) (plain_packet 0 PACKET_SESSION_ACCEPT responsePayload)
                     (ResponseMode record =? mtuProbeModeBase64)), s)
              | Err _ | Panic => (Panic, s)
              end
          end
      end
  | Err _ | Panic => (Panic, s)
  end.

(** ** MTU probes *)

Definition handleMTUUpRequest (questionPacket : bytes) (decision : Decision) (vpnPacket : Packet) : answer :=
  let payload := Payload vpnPacket in
  if len payload <? mtuProbeUpMinSize then Ok None
  else
    let '(baseEncode, ok) := parseMTUProbeBaseEncoding (nth 0 payload 0) in
    if negb ok then Ok None
    else response (BuildVPNResponsePacket questionPacket (RequestName decision)
           (plain_packet (SessionID vpnPacket) PACKET_MTU_UP_RES (buildMTUProbeMetaPayload (take 4 (drop 1 payload)) (len payload))) baseEncode).

(** The probe: the code, its size and zeros.  The pooled buffer has [mtuProbeMaxDownSize]
    bytes, and all of the slice is written. *)
Definition mtu_down_payload (code : bytes) (downloadSize : Z) : bytes :=
  take 4 code ++ be16 (wrap16 downloadSize) ++ make_bytes (downloadSize - mtuProbeMetaLength).

Definition handleMTUDownRequest (questionPacket : bytes) (decision : Decision) (vpnPacket : Packet) : answer :=
  let payload := Payload vpnPacket in
  if len payload <? mtuProbeDownMinSize then Ok None
  else
    let '(baseEncode, ok) := parseMTUProbeBaseEncoding (nth 0 payload 0) in
    if negb ok then Ok None
    else
      let downloadSize := of_be16 (nth 5 payload 0) (nth 6 payload 0) in
      if (downloadSize <? mtuProbeMinDownSize) || (mtuProbeMaxDownSize <? downloadSize) then Ok None
      else response (BuildVPNResponsePacket questionPacket (RequestName decision)
             (mkPacket (SessionID vpnPacket) PACKET_MTU_DOWN_RES 0 false (StreamID vpnPacket) false (SequenceNum vpnPacket) false
                (FragmentID vpnPacket) (TotalFragments vpnPacket) false 0 0 (mtu_down_payload (take 4 (drop 1 payload)) downloadSize)) baseEncode).

(** ** Datagrams *)

Definition buildNoDataResponseLite (packet : bytes) (parsed : LitePacket) : answer := response (BuildNoDataResponseFromLite packet parsed).

(** Postcondition of a packet with a session: the answer from the queues, or nothing. *)
Definition handleTunnelCandidate (packet : bytes) (parsed : LitePacket) (decision : Decision) (now : Z) (entropy : option bytes) s :
    outcome blocked (answer * Server) :=
  match ParseInflatedFromLabels (Labels decision) (codec s) with
  | Err _ => Ok (buildNoDataResponseLite packet parsed, s)
  | Panic => Ok (Panic, s)
  | Ok vpnPacket =>
      let t := PacketType vpnPacket in
      if t =? PACKET_SESSION_CLOSE then
        let! s := handleSessionCloseNotice vpnPacket now s in
        Ok (buildNoDataResponseLite packet parsed, s)
      else if negb (isPreSessionRequestType t) then
        match validatePostSessionPacket packet (RequestName decision) vpnPacket now s with
        | (inr a, s) => Ok (a, s)
        | (inl record, s) =>
            let! (handled, s) := handlePostSessionPacket vpnPacket record now s in
            if negb handled then Ok (buildNoDataResponseLite packet parsed, s)
            else serveQueuedOrPong packet (RequestName decision) record now s
        end
      else if t =? PACKET_MTU_UP_REQ then Ok (handleMTUUpRequest packet decision vpnPacket, s)
      else if t =? PACKET_MTU_DOWN_REQ then Ok (handleMTUDownRequest packet decision vpnPacket, s)
      else if t =? PACKET_SESSION_INIT then Ok (handleSessionInitRequest packet decision vpnPacket now entropy s)
      else Ok (buildNoDataResponseLite packet parsed, s)
  end.

Definition handleParsedPacket (packet : bytes) (parsed : LitePacket) (now : Z) (entropy : option bytes) s : outcome blocked (answer * Server) :=
  if negb (hQR (lHeader parsed) =? 0) then Ok (Ok None, s)
  else if negb (HasQuestion parsed) then Ok (response (BuildNoDataResponse packet), s)
  else
    let decision := Match (domainMatcher s) parsed in
    match dAction decision with
    | ActionProcess =>
        let! (a, s) := handleTunnelCandidate packet parsed decision now entropy s in
        Ok (match a with Ok None => buildNoDataResponseLite packet parsed | _ => a end, s)
    | ActionFormatError => Ok (response (BuildFormatErrorResponseFromLite packet parsed), s)
    | ActionNoData =>
        match dReason decision with
        | unauthorized_domain => Ok (response (BuildNameErrorResponseFromLite packet parsed), s)
        | _ => Ok (buildNoDataResponseLite packet parsed, s)
        end
    end.

Definition handlePacket (packet : bytes) (now : Z) (entropy : option bytes) s : outcome blocked (answer * Server) :=
  match ParseDNSRequestLite packet with
  | Ok parsed => handleParsedPacket packet parsed now entropy s
  | Err ErrNotDNSRequest | Err ErrDnsPacketTooShort => Ok (Ok None, s)
  | Err _ => Ok (response (BuildNoDataResponse packet), s)
  | Panic => Ok (Panic, s)
  end.

(** A panic of the handler is recovered and gives no answer. *)
Definition safeHandlePacket (packet : bytes) (now : Z) (entropy : option bytes) s : outcome blocked (option bytes * Server) :=
  let! (a, s) := handlePacket packet now entropy s in
  Ok (match a with Ok b => b | Err _ | Panic => None end, s).
End server.
