(* ===== verification/ServerInv.v ===== *)
(** What the handlers of the server keep: the invariant of its state, and the sessions that
    a packet leaves alone.

    Theorems on ServerState.v and ServerPackets.v.  A handler is shown to end, to keep the
    invariant and to touch one session only.  The invariant includes the terms each session was
    granted for its request ([granted]).  The proofs use the interface of the worker pool
    (DeferredPool.v) and the invariants of the sessions (SessionStoreInv.v). *)

From stdpp Require Import base tactics list gmap strings sorting.
From Stdlib Require Import ZArith Lia.
From S2P Require Import Prelude Enums Mlq SessionAccept FragmentStore Compression Security VpnProto DnsParser DomainMatcher.
From S2P Require Import GoFloat ArqState Arq TxQueue ArqData ArqControl ArqEvents GoHeap Session SessionInv SessionServe SessionServeInv SessionFair SessionReach SessionStore SessionStoreInv.
From S2P Require Import CookieTracker DeferredSession DeferredPool DeferredTracking NetIP SocksProto ServerConfig VpnTyped ServerState ServerPackets.
Import Session.

#[local] Existing Instances StreamServer.set_clock StreamServer.set_Status StreamServer.set_CloseTime.

Create HintDb server.

(** ** Fragments *)

(** The chunks that are kept are bytes. *)
Definition fragments_typed {K} `{Countable K} (st : Store (K:=K)) : Prop :=
  map_Forall (fun _ e => map_Forall (fun _ c => bytes_ok c) (chunks e)) (items st).

Lemma removeIf_typed {K} `{Countable K} f (st : Store (K:=K)) : fragments_typed st -> fragments_typed (RemoveIf f st).
Proof. intros Ht k e [He _]%map_lookup_filter_Some. by apply (Ht k). Qed.

Lemma purge_typed {K} `{Countable K} now retention (st : Store (K:=K)) : fragments_typed st -> fragments_typed (purgeLocked now retention st).
Proof.
  intros Ht. unfold purgeLocked. case_if; [apply map_Forall_empty |]. intros k e [He _]%map_lookup_filter_Some. by apply (Ht k).
Qed.

Lemma assemble_typed n : forall idx (c : gmap Z bytes) r, map_Forall (fun _ c => bytes_ok c) c -> assemble n idx c = Some r -> bytes_ok r.
Proof.
  induction n as [| n IH]; intros idx c r Hc; cbn [assemble]; [intros [= <-]; constructor |].
  destruct (c !! idx) as [x |] eqn:Hx; [| done]. destruct (assemble n (idx + 1) c) as [y |] eqn:Hy; [| done]. intros [= <-].
  apply bytes_ok_app. split; [by apply (Hc idx) | by eapply IH].
Qed.

Lemma delete_typed {K} `{Countable K} (f : gmap K Z -> gmap K Z) key (st : Store (K:=K)) : fragments_typed st -> fragments_typed (st <| items ::= delete key |> <| completed ::= f |>).
Proof. intros Ht. by apply map_Forall_delete. Qed.

Lemma Collect_typed {K} `{Countable K} key payload id total now retention (st : Store (K:=K)) : fragments_typed st -> bytes_ok payload ->
  let '((r, _, _), st') := Collect key payload id total now retention st in bytes_ok r /\ fragments_typed st'.
Proof.
  intros Ht Hp. unfold Collect. assert (bytes_ok []) as Hnil by constructor.
  assert (fragments_typed (maybe_purge now retention st)) as Hm by (unfold maybe_purge; case_if; [by apply purge_typed | done]).
  case_if; [case_if; [by split |]; case_if; [by split | split; [done | by apply delete_typed]] |].
  case_if; [by split |]. cbv zeta. case_if; [by split |].
  match goal with |- context [<[key := ?e]>] => set (current := e) end.
  assert (map_Forall (fun _ c => bytes_ok c) (chunks current)) as Hcur.
  { unfold current. match goal with |- context [store_chunk id payload] => cbn [chunks set set_chunks] end.
    match goal with |- map_Forall _ (store_chunk id payload ?m) => assert (map_Forall (fun _ c => bytes_ok c) m) as Hc end.
    { destruct (items _ !! key) as [e |] eqn:He; [case_if |]; case_match; try (apply map_Forall_empty); try exact (Hm key e He). }
    unfold store_chunk. repeat case_match; try done; by apply map_Forall_insert_2. }
  assert (fragments_typed ((maybe_purge now retention st) <| items ::= <[key := current]> |>)) as Hs by (by apply map_Forall_insert_2).
  case_if; [by split |]. destruct (assemble _ _ _) as [r |] eqn:Ha; [| by split]. split; [by eapply assemble_typed |].
  case_if; by apply (delete_typed _ key).
Qed.

Section invariant.
Context {P : Type} {D : DeferredPool job P} {L : DeferredPoolLaws D}.
Abbreviation Server := (@Server P).
Implicit Types s : Server.

(** ** The invariant *)

(** What never changes. *)
Definition settings s :=
  (cfg s, codec s, domainMatcher s, dnsFragmentTimeout s, uploadCompressionMask s, downloadCompressionMask s,
   invalidCookieWindowNanos s, invalidCookieThreshold s).

Definition pools s : list P := option_list (deferredDNSSession s) ++ option_list (deferredConnectSession s).

(** The jobs that wait. *)
Definition waiting s : list (deferredSessionLane * job) := pools s ≫= pool_queued.

Lemma waiting_eq s : waiting s = from_option pool_queued [] (deferredDNSSession s) ++ from_option pool_queued [] (deferredConnectSession s).
Proof.
  unfold waiting, pools. rewrite bind_app. f_equal; [destruct (deferredDNSSession s) | destruct (deferredConnectSession s)]; cbn; by rewrite ?app_nil_r.
Qed.

(** What a session was granted: the compression types its request names, each if the server
    allows it, and the MTUs its request names, within the limits of the server.  The signature of
    a session is the payload of its request. *)
Record granted s (r : sessionRecord) : Prop := {
  gr_types : exists up down, SplitPair (nth 1 (Signature r) 0) = Ok (up, down) /\
    UploadCompression r = resolveCompressionType up (uploadCompressionMask s) /\ DownloadCompression r = resolveCompressionType down (downloadCompressionMask s);
  gr_upload : UploadMTU r = granted_mtu (of_be16 (nth 2 (Signature r) 0) (nth 3 (Signature r) 0)) (ServerCfg.ClientMaxUploadMTU (cfg s));
  gr_download : DownloadMTU r = granted_mtu (of_be16 (nth 4 (Signature r) 0) (nth 5 (Signature r) 0)) (ServerCfg.ClientMaxDownloadMTU (cfg s));
  gr_blocks : MaxPackedBlocks r = CalculateMaxPackedBlocks (DownloadMTU r) 80 (ServerCfg.EffectiveMaxPacketsPerBatch (cfg s))
}.

Definition all_granted s : Prop := forall id r, byID (sessions s) !! id = Some r -> granted s r.

Lemma granted_core s s' r r' : settings s' = settings s -> core r' = core r -> granted s r -> granted s' r'.
Proof.
  unfold settings, core. intros [= H1 _ _ _ H2 H3 _ _] [= _ _ _ C1 C2 C3 C4 _ C5 _ C6 _ _] [].
  split; rewrite ?C1, ?C2, ?C3, ?C4, ?C5, ?C6, ?H1, ?H2, ?H3; done.
Qed.

Lemma granted_descends s s' : settings s' = settings s -> descends (sessions s) (sessions s') -> all_granted s -> all_granted s'.
Proof. intros Hs Hd Hg id r' Hr'. destruct (Hd id r' Hr') as (r & Hr & Hc). eapply granted_core; [exact Hs | exact Hc | by eapply Hg]. Qed.

(** The table of sessions and the pools satisfy their invariants, the tracked packets are a
    set of packet identities, the kept fragments of targets are bytes, and every session has
    what it was granted. *)
Record server_ok s : Prop := {
  sv_sessions : store_ok (sessions s);
  sv_pools : Forall pool_ok (pools s);
  sv_tracked : exists ids, tracks ids (deferredPackets s);
  sv_fragments : fragments_typed (socks5Fragments s);
  sv_granted : all_granted s
}.

(** [s'] comes from [s] by work for session [id]: the other sessions and their waiting jobs
    are the same, and of the table of sessions only the record of [id] changed, by operations
    of a session. *)
Record touches (id : Z) s s' : Prop := {
  to_settings : settings s' = settings s;
  to_store : exists m, sessions s' = (sessions s) <| byID := m |>;
  to_same : same_sessions (sessions s) (sessions s');
  to_others : forall x, x <> id -> byID (sessions s') !! x = byID (sessions s) !! x;
  to_waiting : filter (fun e => laneSession e.1 <> id) (waiting s') ≡ₚ filter (fun e => laneSession e.1 <> id) (waiting s);
  to_pools : Forall pool_ok (pools s) -> Forall pool_ok (pools s');
  to_tracked : (exists ids, tracks ids (deferredPackets s)) -> exists ids, tracks ids (deferredPackets s');
  to_fragments : fragments_typed (socks5Fragments s) -> fragments_typed (socks5Fragments s')
}.

Lemma same_sessions_refl t : same_sessions t t.
Proof. intros x. destruct (byID t !! x); done. Qed.

Lemma same_sessions_trans t1 t2 t3 : same_sessions t1 t2 -> same_sessions t2 t3 -> same_sessions t1 t3.
Proof.
  intros H1 H2 x. specialize (H1 x). specialize (H2 x). destruct (byID t1 !! x), (byID t2 !! x), (byID t3 !! x); try done.
  destruct H1 as [A1 B1], H2 as [A2 B2]. split; [congruence | auto].
Qed.

Lemma touches_refl id s : touches id s s.
Proof. split; try done; [by exists (byID (sessions s)); destruct s as [? ? ? []] | apply same_sessions_refl]. Qed.

Lemma touches_trans id s1 s2 s3 : touches id s1 s2 -> touches id s2 s3 -> touches id s1 s3.
Proof.
  intros [A1 [m1 A2] A3 A4 A5 A6 A7 A8] [B1 [m2 B2] B3 B4 B5 B6 B7 B8]. split; auto; try congruence.
  - exists m2. by rewrite B2, A2.
  - by eapply same_sessions_trans.
  - intros x Hx. by rewrite B4, A4.
  - by rewrite B5.
Qed.

Lemma touches_ok id s s' : touches id s s' -> server_ok s -> server_ok s'.
Proof.
  intros T [Hs Hp Ht Hf Hg]. destruct T as [Hset [m Em] Hsame _ _ Hpool Htr Hfr]. split; auto.
  - eapply store_same; [exact Hs | exact Hsame |..]; by rewrite Em.
  - eapply granted_descends; [exact Hset | by apply descends_same | exact Hg].
Qed.

(** A handler for session [id]: it ends, and touches no other session. *)
Definition serves {A} (id : Z) s (c : outcome blocked (A * Server)) : Prop := exists a s', c = Ok (a, s') /\ touches id s s'.
Definition runs (id : Z) s (c : outcome blocked Server) : Prop := exists s', c = Ok s' /\ touches id s s'.

Lemma serves_ok {A} id s (a : A) : serves id s (Ok (a, s)).
Proof. exists a, s. split; [done | apply touches_refl]. Qed.

Lemma runs_ok id s : runs id s (Ok s).
Proof. exists s. split; [done | apply touches_refl]. Qed.

Lemma serves_after {A} id s s1 (c : outcome blocked (A * Server)) : touches id s s1 -> serves id s1 c -> serves id s c.
Proof. intros T (a & s2 & -> & T2). exists a, s2. split; [done | by eapply touches_trans]. Qed.

Lemma runs_after id s s1 c : touches id s s1 -> runs id s1 c -> runs id s c.
Proof. intros T (s2 & -> & T2). exists s2. split; [done | by eapply touches_trans]. Qed.

(** Composition: the second part runs in a state that satisfies the invariant again. *)
Lemma runs_bind id s c k : server_ok s -> runs id s c -> (forall s', server_ok s' -> touches id s s' -> runs id s' (k s')) -> runs id s (obind c k).
Proof.
  intros Hok (s1 & -> & T1) Hk. destruct (Hk s1 (touches_ok _ _ _ T1 Hok) T1) as (s2 & E2 & T2). exists s2. split; [exact E2 | by eapply touches_trans].
Qed.

Lemma serves_bind {A} id s c (k : Server -> outcome blocked (A * Server)) :
  server_ok s -> runs id s c -> (forall s', server_ok s' -> touches id s s' -> serves id s' (k s')) -> serves id s (obind c k).
Proof.
  intros Hok (s1 & -> & T1) Hk. destruct (Hk s1 (touches_ok _ _ _ T1 Hok) T1) as (a & s2 & E2 & T2). exists a, s2. split; [exact E2 | by eapply touches_trans].
Qed.

Lemma serves_bind2 {A B} id s (c : outcome blocked (A * Server)) (k : A * Server -> outcome blocked (B * Server)) :
  server_ok s -> serves id s c -> (forall a s', server_ok s' -> touches id s s' -> serves id s' (k (a, s'))) -> serves id s (obind c k).
Proof.
  intros Hok (a1 & s1 & -> & T1) Hk. destruct (Hk a1 s1 (touches_ok _ _ _ T1 Hok) T1) as (a & s2 & E2 & T2). exists a, s2. split; [exact E2 | by eapply touches_trans].
Qed.

Lemma runs_bind2 {A} id s (c : outcome blocked (A * Server)) (k : A * Server -> outcome blocked Server) :
  server_ok s -> serves id s c -> (forall a s', server_ok s' -> touches id s s' -> runs id s' (k (a, s'))) -> runs id s (obind c k).
Proof.
  intros Hok (a1 & s1 & -> & T1) Hk. destruct (Hk a1 s1 (touches_ok _ _ _ T1 Hok) T1) as (s2 & E2 & T2). exists s2. split; [exact E2 | by eapply touches_trans].
Qed.

(** ** Taking work back *)

(** A change of the pools, the trackers and the fragments for session [id]. *)
Lemma touches_work id s s' :
  settings s' = settings s -> sessions s' = sessions s ->
  filter (fun e => laneSession e.1 <> id) (waiting s') ≡ₚ filter (fun e => laneSession e.1 <> id) (waiting s) ->
  (Forall pool_ok (pools s) -> Forall pool_ok (pools s')) ->
  ((exists ids, tracks ids (deferredPackets s)) -> exists ids, tracks ids (deferredPackets s')) ->
  (fragments_typed (socks5Fragments s) -> fragments_typed (socks5Fragments s')) -> touches id s s'.
Proof.
  intros H1 H2 H3 H4 H5 H6. split; auto; rewrite ?H2; try done; [by exists (byID (sessions s)); destruct (sessions s) | apply same_sessions_refl].
Qed.

Lemma on_pool_runs (id : Z) (call : P -> outcome blocked P) (o : option P) :
  (forall p, pool_ok p -> exists p', call p = Ok p' /\ pool_ok p' /\
     filter (fun e => laneSession e.1 <> id) (pool_queued p') = filter (fun e => laneSession e.1 <> id) (pool_queued p)) ->
  Forall pool_ok (option_list o) -> exists o', on_pool call o = Ok o' /\ Forall pool_ok (option_list o') /\
    filter (fun e => laneSession e.1 <> id) (option_list o' ≫= pool_queued) = filter (fun e => laneSession e.1 <> id) (option_list o ≫= pool_queued).
Proof.
  intros Hc Ho. destruct o as [p |]; [| by exists None]. assert (pool_ok p) as Hp by exact (Forall_inv Ho). destruct (Hc p Hp) as (p' & E & Hp' & Hq).
  exists (Some p'). cbn [on_pool]. rewrite E. split; [done |]. split; [by apply Forall_singleton |]. cbn. by rewrite !app_nil_r.
Qed.

Lemma other_lane (id st : Z) (l : list (deferredSessionLane * job)) (Q : deferredSessionLane * job -> Prop) `{!forall e, base.Decision (Q e)} :
  (forall e, laneSession e.1 <> id -> Q e) ->
  filter (fun e => laneSession e.1 <> id) (filter Q l) = filter (fun e => laneSession e.1 <> id) l.
Proof.
  intros HQ. induction l as [| e l IH]; [done |]. rewrite (filter_cons Q). destruct (decide (Q e)) as [Hq | Hq].
  - rewrite !filter_cons, IH. done.
  - rewrite IH, (filter_cons _ e). case_decide; [by destruct Hq; apply HQ | done].
Qed.

Lemma remove_lane_other id st p : pool_ok p -> exists p', pool_RemoveLane (mkLane id st) p = Ok p' /\ pool_ok p' /\
  filter (fun e => laneSession e.1 <> id) (pool_queued p') = filter (fun e => laneSession e.1 <> id) (pool_queued p).
Proof.
  intros Hp. destruct (pool_lane_law (mkLane id st) p Hp) as (p' & E & Hp' & Hq). exists p'. split_and!; [done | done |]. rewrite Hq.
  apply (other_lane id st). intros e He. right. intros E1. apply He. by rewrite E1.
Qed.

Lemma finalize_lane_other id st p : pool_ok p -> exists p', pool_FinalizeLane (mkLane id st) p = Ok p' /\ pool_ok p' /\
  filter (fun e => laneSession e.1 <> id) (pool_queued p') = filter (fun e => laneSession e.1 <> id) (pool_queued p).
Proof.
  intros Hp. destruct (pool_finalize_law (mkLane id st) p Hp) as (p' & E & Hp' & Hq). exists p'. split_and!; [done | done |]. rewrite Hq.
  apply (other_lane id st). intros e He. right. intros E1. apply He. by rewrite E1.
Qed.

Lemma remove_session_other id p : pool_ok p -> exists p', pool_RemoveSession id p = Ok p' /\ pool_ok p' /\
  filter (fun e => laneSession e.1 <> id) (pool_queued p') = filter (fun e => laneSession e.1 <> id) (pool_queued p).
Proof.
  intros Hp. destruct (pool_session_law id p Hp) as (p' & E & Hp' & Hq). exists p'. split_and!; [done | done |]. rewrite Hq.
  apply (other_lane id 0). done.
Qed.

Lemma connect_pool_runs id s t call : server_ok s ->
  (forall p, pool_ok p -> exists p', call p = Ok p' /\ pool_ok p' /\
     filter (fun e => laneSession e.1 <> id) (pool_queued p') = filter (fun e => laneSession e.1 <> id) (pool_queued p)) ->
  ((exists ids, tracks ids (deferredPackets s)) -> exists ids, tracks ids t) ->
  exists o, on_pool call (deferredConnectSession s) = Ok o /\ touches id s (s <| deferredPackets := t |> <| deferredConnectSession := o |>).
Proof.
  intros Hok Hc Ht. pose proof (sv_pools _ Hok) as Hp. apply Forall_app in Hp as [Hd Hp].
  destruct (on_pool_runs id call (deferredConnectSession s) Hc Hp) as (o & E & Ho & Hq). exists o. split; [done |].
  apply touches_work; try done.
  - unfold waiting, pools. change (deferredDNSSession (_ <| deferredConnectSession := o |>)) with (deferredDNSSession s).
    change (deferredConnectSession (_ <| deferredConnectSession := o |>)) with o. by rewrite !bind_app, !filter_app, Hq.
  - intros _. by apply Forall_app.
Qed.

Lemma clearDeferredPacketsForStream_runs id st s : server_ok s -> runs id s (clearDeferredPacketsForStream id st s).
Proof.
  intros Hok. unfold clearDeferredPacketsForStream. case_if; [apply runs_ok |].
  destruct (connect_pool_runs id s (clearDeferredInflightForStream id st (deferredPackets s)) (pool_RemoveLane (mkLane id st)) Hok) as (o & E & T).
  - intros p Hp. by apply remove_lane_other.
  - intros [ids Hi]. eexists. by apply tracks_clearStream.
  - cbn. rewrite E. by eexists.
Qed.

Lemma finalizeDeferredPacketsForStream_runs id st s : server_ok s -> runs id s (finalizeDeferredPacketsForStream id st s).
Proof.
  intros Hok. unfold finalizeDeferredPacketsForStream. case_if; [apply runs_ok |].
  destruct (connect_pool_runs id s (clearDeferredInflightForStream id st (deferredPackets s)) (pool_FinalizeLane (mkLane id st)) Hok) as (o & E & T).
  - intros p Hp. by apply finalize_lane_other.
  - intros [ids Hi]. eexists. by apply tracks_clearStream.
  - cbn. rewrite E. by eexists.
Qed.

Lemma removeSOCKS5Stream_touches id x st s : touches id s (removeSOCKS5SynFragmentsForStream x st s).
Proof. unfold removeSOCKS5SynFragmentsForStream. case_if; [apply touches_refl | apply touches_work; try done; apply removeIf_typed]. Qed.

Lemma cleanupStreamArtifacts_runs id st s : server_ok s -> runs id s (cleanupStreamArtifacts id st s).
Proof.
  intros Hok. unfold cleanupStreamArtifacts. case_if; [apply runs_ok |].
  apply runs_bind; [done | by apply clearDeferredPacketsForStream_runs |]. intros s' _ _. eexists. split; [done | apply removeSOCKS5Stream_touches].
Qed.

Lemma finalizeStreamArtifacts_runs id st s : server_ok s -> runs id s (finalizeStreamArtifacts id st s).
Proof.
  intros Hok. unfold finalizeStreamArtifacts. case_if; [apply runs_ok |].
  apply runs_bind; [done | by apply finalizeDeferredPacketsForStream_runs |]. intros s' _ _. eexists. split; [done | apply removeSOCKS5Stream_touches].
Qed.

Lemma cleanup_streams_runs id l : forall s, server_ok s -> runs id s (cleanup_streams id l s).
Proof.
  induction l as [| st l IH]; intros s Hok; [apply runs_ok |]. cbn [cleanup_streams].
  apply runs_bind; [done | by apply cleanupStreamArtifacts_runs |]. intros s' Hok' _. by apply IH.
Qed.

(** ** Operations on a session *)

(** An operation that keeps the identity and the invariant of a session. *)
Definition keeps_at (f : sessionRecord -> sessionRecord) (r : sessionRecord) : Prop := core (f r) = core r /\ (serve_ok r -> serve_ok (f r)).
Definition keeps_record (f : sessionRecord -> sessionRecord) : Prop := forall r, keeps_at f r.

Lemma get_byID id t r : SessionStore.Get id t = Some r -> byID t !! id = Some r /\ isClosed r = false.
Proof. unfold SessionStore.Get. destruct (byID t !! id) as [r0 |]; [| done]. destruct (isClosed r0) eqn:E; [done |]. by intros [= <-]. Qed.

Lemma insert_touches id s r r' : byID (sessions s) !! id = Some r -> core r' = core r /\ (serve_ok r -> serve_ok r') ->
  touches id s (s <| sessions ::= fun t => t <| byID ::= <[id := r']> |> |>).
Proof.
  intros Hr Hk. split; try done; [by eexists | | intros x Hx; cbn; by rewrite lookup_insert_ne].
  intros x. cbn. destruct (decide (x = id)) as [-> | Hx]; [by rewrite lookup_insert_eq, Hr | rewrite lookup_insert_ne by done].
  by destruct (byID (sessions s) !! x).
Qed.

Lemma on_record_runs_at id f s : server_ok s -> (forall r, SessionStore.Get id (sessions s) = Some r -> keeps_at f r) -> runs id s (on_record id f s).
Proof.
  intros Hok Hf. unfold on_record. destruct (SessionStore.Get id (sessions s)) as [r |] eqn:Hg; [| apply runs_ok].
  destruct (get_byID _ _ _ Hg) as [Hr _]. pose proof (insert_touches id s r (f r) Hr (Hf r eq_refl)) as T1.
  destruct (cleanup_streams_runs id (ended r (f r)) _ (touches_ok _ _ _ T1 Hok)) as (s2 & E & T2). exists s2. split; [done | by eapply touches_trans].
Qed.

Lemma on_record_runs id f s : server_ok s -> keeps_record f -> runs id s (on_record id f s).
Proof. intros Hok Hf. apply on_record_runs_at; auto. Qed.

Lemma keeps_op o : is_closeAll o = false -> (forall r, op_ok r o) -> keeps_record (fun r => step r o).
Proof. intros Hc Ho r. split; [by apply core_step | intros Hr; by apply serve_ok_step]. Qed.

Lemma keeps_compose f g : keeps_record f -> keeps_record g -> keeps_record (fun r => f (g r)).
Proof. intros Hf Hg r. destruct (Hf (g r)) as [F1 F2], (Hg r) as [G1 G2]. split; [congruence | auto]. Qed.

Lemma keeps_id : keeps_record (fun r => r).
Proof. by intros r. Qed.

Lemma keeps_alter (g : stream -> stream) a :
  (forall v, StreamServer.ID (g v).2 = StreamServer.ID v.2 /\ (Mlq.wf (StreamServer.TXQueue v.2) -> Mlq.wf (StreamServer.TXQueue (g v).2))) ->
  keeps_record (fun r => r <| objects ::= alter g a |>).
Proof.
  intros Hg r. split; [done |]. intros Hr. apply serve_ok_split in Hr as [Hw Hq]. apply serve_ok_split.
  split; [apply wf_alter | apply queues_alter]; try done; apply Hg.
Qed.

Lemma keeps_orphan t st n : keeps_record (enqueueOrphanReset t st n).
Proof. exact (keeps_op (OpOrphanReset t st n) eq_refl (fun _ => I)). Qed.

Lemma keeps_event a now e : keeps_record (streamEvent a now e).
Proof. exact (keeps_op (OpEvent a now e) eq_refl (fun _ => I)). Qed.

Lemma keeps_stream a o : keeps_record (fun r => step r (OpStream a o)).
Proof. exact (keeps_op (OpStream a o) eq_refl (fun _ => I)). Qed.

Lemma keeps_clear st a : keeps_record (fun r => deactivateStream st (clear_queue a r)).
Proof. apply (keeps_compose (deactivateStream st)); [exact (keeps_op (OpDeactivate st) eq_refl (fun _ => I)) | exact (keeps_stream a StreamServer.OpClear)]. Qed.

Lemma keeps_mark a now : keeps_record (mark_closed a now).
Proof. apply keeps_alter. by intros v. Qed.

Lemma keeps_set_closed a now : keeps_record (fun r => r <| objects ::= alter (fun v : stream => (v.1, StreamServer.setClosed now v.2)) a |>).
Proof. apply keeps_alter. by intros v. Qed.

Lemma keeps_push a now q : keeps_record (pushTX a now q).
Proof.
  apply keeps_alter. intros v. pose proof (stream_step_ID (v.2 <| StreamServer.clock := now |>) (StreamServer.OpPush q)) as E.
  split; [exact E |]. intros Hw. apply (PushTX_wf (v.2 <| StreamServer.clock := now |>) q). exact Hw.
Qed.

Lemma keeps_queue packet now : keeps_record (queue_packet packet now).
Proof.
  intros r. unfold keeps_at, queue_packet. cbv zeta. set (r1 := if StreamID packet =? 0 then ensureStream0 now r else r).
  assert (keeps_at (fun r => if StreamID packet =? 0 then ensureStream0 now r else r) r) as [K1 K2].
  { unfold keeps_at. case_if; [exact (keeps_op (OpEnsureStream0 now) eq_refl (fun _ => I) r) | done]. }
  fold r1 in K1, K2. clearbody r1. destruct (getStream (StreamID packet) r1) as [a |]; [| done].
  match goal with |- context [pushTX a now ?q r1] => destruct (keeps_push a now q r1) as [A B] end. split; [congruence | auto].
Qed.

Lemma keeps_ack a t packet now c : keeps_record (ack_stream a t packet now c).
Proof. intros r. unfold keeps_at, ack_stream. case_if; [apply keeps_event | apply keeps_push]. Qed.

Lemma keeps_create st cf conn now r : u16 st -> core (getOrCreateStream st cf conn now r).2 = core r /\ (serve_ok r -> serve_ok (getOrCreateStream st cf conn now r).2).
Proof. intros Hst. exact (keeps_op (OpGetOrCreate st cf conn now) eq_refl (fun _ => Hst) r). Qed.

(** ** Queueing and dispatch *)

Lemma queueSessionPacket_runs id packet now s : server_ok s -> runs id s (queueSessionPacket id packet now s).
Proof. intros Hok. apply on_record_runs; [done | apply keeps_queue]. Qed.

Lemma queueImmediateControlAck_runs id packet now s : server_ok s -> u16 (StreamID packet) -> runs id s (queueImmediateControlAck id packet now s).
Proof.
  intros Hok Hst. unfold queueImmediateControlAck. destruct (ControlAckFor (PacketType packet)) as [t |]; [| apply runs_ok].
  case_if; [by apply queueSessionPacket_runs |]. apply on_record_runs; [done |]. intros r. unfold keeps_at.
  destruct (getStream (StreamID packet) r) as [a |]; [apply keeps_ack |]. case_if; [| done].
  destruct (keeps_create (StreamID packet) (streamARQConfig (DownloadCompression r) s) false now r Hst) as [A B].
  destruct (getOrCreateStream _ _ _ _ _) as [[a |] r1]; cbn [snd] in A, B; [| done]. destruct (keeps_ack a t packet now (cfg s) r1) as [A' B']. split; [congruence | auto].
Qed.

Lemma typed_stream p : packet_typed p -> u16 (StreamID p).
Proof. by intros [(_ & H & _) _]. Qed.

Lemma dispatch_serves packet run s : server_ok s -> serves (SessionID packet) s (dispatchDeferredSessionPacket packet run s).
Proof.
  intros Hok. unfold dispatchDeferredSessionPacket. case_if; [apply serves_ok |]. pose proof (sv_pools _ Hok) as Hp. apply Forall_app in Hp as [Hd Hc].
  assert (forall l ok, filter (fun e : deferredSessionLane * job => laneSession e.1 <> SessionID packet)
            (if ok : bool then l ++ [(deferredSessionLaneForPacket packet, run)] else l) = filter (fun e => laneSession e.1 <> SessionID packet) l) as Hf.
  { intros l [|]; [| done]. rewrite filter_app, filter_cons, decide_False by (cbn; tauto). by rewrite filter_nil, app_nil_r. }
  case_if.
  - destruct (deferredDNSSession s) as [p |] eqn:E; [| apply serves_ok].
    destruct (pool_enqueue_law (deferredSessionLaneForPacket packet) run p (Forall_inv Hd)) as (ok & p' & -> & Hp' & Hq). cbn [obind].
    eexists _, _. split; [done |]. apply touches_work; try done.
    + rewrite !waiting_eq. cbn. rewrite E. cbn. rewrite !filter_app. apply Permutation_app_tail. by rewrite Hq, Hf.
    + intros _. unfold pools. cbn. constructor; done.
  - case_if; [| apply serves_ok]. destruct (deferredConnectSession s) as [p |] eqn:E; [| apply serves_ok].
    destruct (pool_enqueue_law (deferredSessionLaneForPacket packet) run p (Forall_inv Hc)) as (ok & p' & -> & Hp' & Hq). cbn [obind].
    eexists _, _. split; [done |]. apply touches_work; try done.
    + rewrite !waiting_eq. cbn. rewrite E. cbn. rewrite !filter_app. apply Permutation_app_head. by rewrite Hq, Hf.
    + intros _. unfold pools. apply Forall_app. split; [done | by repeat constructor].
Qed.

Lemma dispatchTracked_serves packet run s : server_ok s -> packet_typed packet ->
  serves (SessionID packet) s (dispatchDeferredSessionPacketTracked packet run s).
Proof.
  intros Hok [Hid _]. unfold dispatchDeferredSessionPacketTracked.
  assert (forall t, ((exists ids, tracks ids (deferredPackets s)) -> exists ids, tracks ids t) -> touches (SessionID packet) s (s <| deferredPackets := t |>)) as Ht
    by (intros t Ht; by apply touches_work).
  pose proof (Ht (tryBeginDeferredPacket packet (deferredPackets s)).2) as T1.
  destruct (tryBeginDeferredPacket packet (deferredPackets s)) as [ok t] eqn:E. cbn [snd] in T1.
  assert (touches (SessionID packet) s (s <| deferredPackets := t |>)) as T by (apply T1; intros [ids Hi]; eexists; by apply (tracks_begin _ _ packet Hid) in Hi as [_ Hi]; rewrite E in Hi).
  destruct ok; cbn [negb]; [| by eexists _, _].
  destruct (dispatch_serves packet (mkJob packet run) _ (touches_ok _ _ _ T Hok)) as (en & s1 & -> & T2). cbn [obind].
  pose proof (touches_trans _ _ _ _ T T2) as T3. destruct en; [by eexists _, _ |]. eexists _, _. split; [done |].
  eapply touches_trans; [exact T3 |]. apply touches_work; try done. intros [ids Hi]. eexists. by apply tracks_finish.
Qed.

End invariant.

#[export] Hint Resolve serves_ok runs_ok clearDeferredPacketsForStream_runs cleanupStreamArtifacts_runs on_record_runs keeps_orphan keeps_event
  keeps_clear keeps_mark keeps_set_closed queueImmediateControlAck_runs typed_stream dispatchTracked_serves : server.

(** Case analysis of a handler, its parts by the lemmas above. *)
Ltac serve :=
  repeat first
    [ progress intros
    | solve [eauto with server]
    | match goal with
      | |- serves _ _ (obind ?c (fun _ => _)) => first [eapply serves_bind2 | eapply serves_bind]; [assumption | |]
      | |- runs _ _ (obind ?c (fun _ => _)) => first [eapply runs_bind2 | eapply runs_bind]; [assumption | |]
      end
    | case_match; simplify_eq ].

(** ** The handlers *)

Section handlers.
Context {P : Type} {D : DeferredPool job P} {L : DeferredPoolLaws D}.
Abbreviation Server := (@Server P).
Implicit Types s : Server.

Lemma orphan_reset_runs t n p s : server_ok s -> runs (SessionID p) s (orphan_reset t n p s).
Proof. intros Hok. apply on_record_runs; [done | apply keeps_orphan]. Qed.
#[local] Hint Resolve orphan_reset_runs : server.

Lemma enqueueMissingStreamReset_serves p s : server_ok s -> serves (SessionID p) s (enqueueMissingStreamReset p s).
Proof. intros Hok. unfold enqueueMissingStreamReset. serve. Qed.

Lemma ackRecentlyClosed_serves p s : server_ok s -> serves (SessionID p) s (ackRecentlyClosedStreamPacket p s).
Proof. intros Hok. unfold ackRecentlyClosedStreamPacket. serve. Qed.

Lemma rejectNewStream_serves p now s : server_ok s -> packet_typed p -> serves (SessionID p) s (rejectNewStreamBecauseLimit p now s).
Proof. intros Hok Hp. unfold rejectNewStreamBecauseLimit. serve. Qed.

Lemma consumeInboundStreamAck_serves p e now s : server_ok s -> serves (SessionID p) s (consumeInboundStreamAck p e now s).
Proof. intros Hok. unfold consumeInboundStreamAck. serve. Qed.
#[local] Hint Resolve enqueueMissingStreamReset_serves ackRecentlyClosed_serves rejectNewStream_serves consumeInboundStreamAck_serves : server.

Lemma preprocess_serves p now s : server_ok s -> packet_typed p -> serves (SessionID p) s (preprocessInboundPacket p now s).
Proof. intros Hok Hp. unfold preprocessInboundPacket. serve. Qed.
#[local] Hint Resolve preprocess_serves : server.

(** Parsing a target and judging it do not panic. *)
Lemma parse_target_cases payload : bytes_ok payload ->
  (exists t, SocksProto.ParseTargetPayload payload = Ok t) \/ (exists e, SocksProto.ParseTargetPayload payload = Err e).
Proof. intros Hp. destruct (SocksProto.parse_cases payload Hp) as [? | (t & _ & _ & -> & _)]; [by right | left; by eexists]. Qed.

Lemma validate_cases host : (SocksProto.validateSOCKSTargetHost host = Ok tt) \/ (exists e, SocksProto.validateSOCKSTargetHost host = Err e).
Proof.
  unfold SocksProto.validateSOCKSTargetHost. repeat (case_if; [by eauto |]). destruct (NetIP.ParseIP _) as [ip |]; [| by left]. case_if; [by eauto |].
  destruct (NetIP.To4 ip) as [v4 |] eqn:E4; [| by left].
  assert (len v4 = 4) as Hl.
  { unfold NetIP.To4 in E4. repeat case_if; simplify_eq; zbool; unfold len in *; rewrite ?length_drop; lia. }
  destruct (at_ok (E:=SocksProto.blockedSOCKSTargetError) v4 0) as (x & -> & _); [lia |].
  destruct (at_ok (E:=SocksProto.blockedSOCKSTargetError) v4 1) as (y & -> & _); [lia |]. cbn [obind]. repeat (case_if; eauto).
Qed.

Lemma connectedStreamSyn_serves p now s : server_ok s -> serves (SessionID p) s (tryHandleImmediateConnectedStreamSyn p now s).
Proof. intros Hok. unfold tryHandleImmediateConnectedStreamSyn, send_result. serve. Qed.

Lemma connectedSOCKS5Syn_serves p now s : server_ok s -> packet_typed p -> serves (SessionID p) s (tryHandleImmediateConnectedSOCKS5Syn p now s).
Proof.
  intros Hok [_ Hp]. unfold tryHandleImmediateConnectedSOCKS5Syn, send_result.
  destruct (parse_target_cases _ Hp) as [[t ->] | [e ->]]; serve.
Qed.

Lemma rejectedSOCKS5Syn_serves p now s : server_ok s -> packet_typed p -> serves (SessionID p) s (tryHandleImmediateRejectedSOCKS5Syn p now s).
Proof.
  intros Hok [_ Hp]. unfold tryHandleImmediateRejectedSOCKS5Syn, send_result.
  destruct (parse_target_cases _ Hp) as [[t ->] | [e ->]]; [| serve].
  destruct (validate_cases (SocksProto.Host t)) as [-> | [e ->]]; serve.
Qed.

Lemma defer_syn_serves run p now s : server_ok s -> packet_typed p -> serves (SessionID p) s (defer_syn run p now s).
Proof. intros Hok Hp. unfold defer_syn. serve. Qed.
#[local] Hint Resolve connectedStreamSyn_serves connectedSOCKS5Syn_serves rejectedSOCKS5Syn_serves defer_syn_serves : server.

Lemma streamSyn_serves p now s : server_ok s -> packet_typed p -> serves (SessionID p) s (handleStreamSynRequest p now s).
Proof. intros Hok Hp. unfold handleStreamSynRequest. serve. Qed.

Lemma socks5Syn_serves p now s : server_ok s -> packet_typed p -> serves (SessionID p) s (handleSOCKS5SynRequest p now s).
Proof. intros Hok Hp. unfold handleSOCKS5SynRequest. serve. Qed.

Lemma dnsQuery_serves p view now s : server_ok s -> packet_typed p -> serves (SessionID p) s (handleDNSQueryRequest p view now s).
Proof.
  intros Hok Hp. unfold handleDNSQueryRequest, collectDNSQueryFragments. destruct (Collect _ _ _ _ _ _ _) as [[[q ready] completed] store].
  set (s1 := s <| dnsFragments := store |>). assert (touches (SessionID p) s s1) as T by (by apply touches_work).
  pose proof (touches_ok _ _ _ T Hok) as Hok1.
  apply (serves_after _ s s1); [done |]. serve.
Qed.

Lemma streamData_serves p now s : server_ok s -> serves (SessionID p) s (handleStreamDataRequest p now s).
Proof. intros Hok. unfold handleStreamDataRequest. serve. Qed.

Lemma dataNack_serves p now s : server_ok s -> serves (SessionID p) s (handleStreamDataNackRequest p now s).
Proof. intros Hok. unfold handleStreamDataNackRequest, stream_event. serve. Qed.

Lemma halfClose_serves e p now s : server_ok s -> serves (SessionID p) s (handle_half_close e p now s).
Proof. intros Hok. unfold handle_half_close. serve. Qed.

(** What an operation does to the record: the hooks of ended streams do not touch it. *)
Lemma clear_sessions id st s s' : clearDeferredPacketsForStream id st s = Ok s' -> sessions s' = sessions s.
Proof. unfold clearDeferredPacketsForStream. case_if; [by intros [= <-] |]. by intros (o & _ & [= <-])%obind_ok_inv. Qed.

Lemma cleanup_streams_sessions id l : forall s s', cleanup_streams id l s = Ok s' -> sessions s' = sessions s.
Proof.
  induction l as [| st l IH]; intros s s'; cbn [cleanup_streams]; [by intros [= <-] |]. intros (s1 & E & ->%IH)%obind_ok_inv. revert E.
  unfold cleanupStreamArtifacts. case_if; [by intros [= <-] |]. intros (s2 & <-%clear_sessions & [= <-])%obind_ok_inv.
  unfold removeSOCKS5SynFragmentsForStream. by case_if.
Qed.

Lemma on_record_sessions id f s s' r : SessionStore.Get id (sessions s) = Some r -> on_record id f s = Ok s' ->
  sessions s' = (sessions s) <| byID ::= <[id := f r]> |>.
Proof. intros Hg. unfold on_record. rewrite Hg. by intros ->%cleanup_streams_sessions. Qed.

Lemma no_stream s p r : server_ok s -> record_of p s = Some r -> stream_of p r = None -> Streams r !! StreamID p = None.
Proof.
  intros Hok Hr. destruct (get_byID _ _ _ Hr) as [Hid Hcl]. unfold stream_of, getStream. rewrite Hcl.
  destruct (Streams r !! StreamID p) as [a |] eqn:Ha; [| done].
  pose proof (ro_serve _ _ (st_record _ (sv_sessions _ Hok) _ _ Hid)) as [Hw _]%serve_ok_split.
  destruct (wf_objects _ Hw _ _ Ha) as (v & -> & _). done.
Qed.

Lemma rst_missing_serves p now s r : server_ok s -> record_of p s = Some r -> stream_of p r = None ->
  runs (SessionID p) s (let! s := orphan_reset PACKET_STREAM_RST_ACK (SequenceNum p) p s in on_record (SessionID p) (noteStreamClosed (StreamID p) now false) s).
Proof.
  intros Hok Hr Hn. pose proof (no_stream s p r Hok Hr Hn) as Hst.
  destruct (orphan_reset_runs PACKET_STREAM_RST_ACK (SequenceNum p) p s Hok) as (s1 & E1 & T1). pose proof (touches_ok _ _ _ T1 Hok) as Hok1.
  rewrite E1. cbn [obind]. eapply runs_after; [exact T1 |]. apply on_record_runs_at; [done |]. intros r1 [Hr1 _]%get_byID.
  unfold orphan_reset in E1. rewrite (on_record_sessions _ _ _ _ r Hr E1) in Hr1. cbn in Hr1. rewrite lookup_insert_eq in Hr1. injection Hr1 as <-.
  set (r1 := enqueueOrphanReset _ _ _ r). assert (Streams r1 !! StreamID p = None) as Hst1 by (unfold r1, enqueueOrphanReset; by case_if).
  split; [apply core_note |]. intros Hs. exact (serve_ok_step r1 (OpNoteClosed (StreamID p) now false) Hs Hst1).
Qed.

Lemma rst_serves p now s : server_ok s -> serves (SessionID p) s (handleStreamRSTRequest p now s).
Proof.
  intros Hok. unfold handleStreamRSTRequest. case_if; [apply serves_ok |]. destruct (record_of p s) as [r |] eqn:Hr; [| apply serves_ok].
  destruct (stream_of p r) as [[a [q v]] |] eqn:Hst.
  - serve; unfold closeStream; eauto with server. all: eexists _, _; split; [done | apply removeSOCKS5Stream_touches].
  - destruct (rst_missing_serves p now s r Hok Hr Hst) as (s2 & E & T). apply obind_ok_inv in E as (s1 & -> & E). cbn [obind]. rewrite E. cbn [obind].
    apply (serves_after _ s s2); [done |]. pose proof (touches_ok _ _ _ T Hok). serve. eexists _, _. split; [done | apply removeSOCKS5Stream_touches].
Qed.
#[local] Hint Resolve streamSyn_serves socks5Syn_serves dnsQuery_serves streamData_serves dataNack_serves halfClose_serves rst_serves : server.

Lemma dispatchPost_serves p view now s : server_ok s -> packet_typed p -> serves (SessionID p) s (dispatchPostSessionPacket p view now s).
Proof.
  intros Hok Hp. unfold dispatchPostSessionPacket, handleStreamCloseReadRequest, handleStreamCloseWriteRequest. repeat (case_if; [by eauto with server |]). apply serves_ok.
Qed.
#[local] Hint Resolve dispatchPost_serves : server.

Lemma block_typed p b : packet_typed p -> block_ok b -> packet_typed (block_packet p b).
Proof.
  intros [(H1 & _) _] (A & B & C & E & F). split; [by split_and! | constructor].
Qed.

Lemma handle_block_runs p view now s b : server_ok s -> packet_typed p -> block_ok b -> runs (SessionID p) s (handle_block p view now s b).
Proof.
  intros Hok Hp Hb. pose proof (block_typed p b Hp Hb) as Hbp. unfold handle_block. case_if; [apply runs_ok |].
  change (SessionID p) with (SessionID (block_packet p b)). set (q := block_packet p b) in *. clearbody q. serve.
Qed.

(** A loop over packed blocks keeps what its body keeps, on blocks of bytes. *)
Lemma forEach_inv {S} (I : S -> Prop) (yield : S -> ControlBlock -> S * bool) payload : bytes_ok payload ->
  (forall st b, I st -> block_ok b -> I (yield st b).1) -> forall fuel st off, 0 <= off -> I st ->
  exists st', ForEachPackedControlBlock_loop fuel payload yield st off = Ok st' /\ I st'.
Proof.
  intros Hp Hy. induction fuel as [| fuel IH]; intros st off Hoff Hst; cbn [ForEachPackedControlBlock_loop]; [by exists st |].
  unfold PackedControlBlockSize in *. destruct (Z.leb_spec (off + 7) (len payload)) as [Hl | Hl]; [| by exists st].
  assert (forall i, 0 <= i < len payload -> exists x, at_ (E:=vpn_error) payload i = Ok x /\ u8 x) as Hat.
  { intros i Hi. destruct (at_ok (E:=vpn_error) payload i Hi) as (x & Hx & _). exists x. split; [done | by eapply at_u8]. }
  destruct (Hat off) as (t & -> & Ht); [lia |]. cbn [obind].
  destruct (get16_ok (E:=vpn_error) payload (off + 1)) as (sid & -> & Hsid); [done | lia | lia |]. cbn [obind].
  destruct (get16_ok (E:=vpn_error) payload (off + 3)) as (sn & -> & Hsn); [done | lia | lia |]. cbn [obind].
  destruct (Hat (off + 5)) as (f & -> & Hf); [lia |]. cbn [obind]. destruct (Hat (off + 6)) as (tot & -> & Htot); [lia |]. cbn [obind].
  pose proof (Hy st (mkBlock t sid sn f tot) Hst ltac:(by split_and!)) as Hn. destruct (yield st _) as [st' []]; [| by exists st']. apply IH; [lia | done].
Qed.

Lemma packed_runs p view now s : server_ok s -> packet_typed p -> runs (SessionID p) s (handlePackedControlBlocksRequest p view now s).
Proof.
  intros Hok Hp. unfold handlePackedControlBlocksRequest. case_if; [apply runs_ok |].
  destruct (forEach_inv (fun st => runs (SessionID p) s st) (fun (st : outcome blocked Server) b => (let! s := st in handle_block p view now s b, true)) (Payload p) (proj2 Hp))
    with (fuel := Datatypes.S (length (Payload p))) (st := Ok s : outcome blocked Server) (off := 0) as (st & E & Hst); [| lia | apply runs_ok |].
  - intros st b Hst Hb. cbn [fst]. apply runs_bind; [done | done |]. intros s' Hok' _. by apply handle_block_runs.
  - unfold ForEachPackedControlBlock. by rewrite E.
Qed.
#[local] Hint Resolve packed_runs : server.

Lemma post_serves p view now s : server_ok s -> packet_typed p -> serves (SessionID p) s (handlePostSessionPacket p view now s).
Proof. intros Hok Hp. unfold handlePostSessionPacket. serve. Qed.
End handlers.
