(* ===== verification/ServerDeferred.v ===== *)
(** Work off the request path: the jobs of the worker pools,
    src/masterdns/internal/udpserver/server_deferred.go, with [dialSOCKSStreamTargetContext] and
    the fragments of SOCKS5 targets of socks5_upstream.go, and the body of
    [sessionCleanupLoop] of server_runtime.go.

    A job that connects has two steps, before and after the dialling; in between other
    datagrams are handled and the session may be closed, so the second step gets whether the
    session it started with is still in the table ([attached]).  The connection and the error
    of the dialling come from the network and are arguments, like the answer of the resolver
    to a DNS query. *)

From stdpp Require Import base tactics list gmap strings sorting.
From Stdlib Require Import ZArith Lia.
From S2P Require Import Prelude Enums Mlq SessionAccept FragmentStore Compression Security VpnProto DnsParser DnsTransport DomainMatcher.
From S2P Require Import GoFloat ArqState Arq TxQueue ArqData ArqControl ArqEvents GoHeap Session SessionServe SessionStore.
From S2P Require Import CookieTracker DeferredSession DeferredPool DeferredTracking NetIP SocksProto ServerConfig ServerState ServerPackets.
Import Session.

#[local] Existing Instances StreamServer.set_clock StreamServer.set_Status StreamServer.set_CloseTime.

(** ** Errors of a connection *)

(** What [errors.Is] and [errors.As] find in an error, and its text. *)
Record connect_error := mkConnectError {
  ceDeadline : bool;
  ceBlocked : bool;
  ceUpstream : option Z;
  ceDNS : bool;
  ceOpTimeout : bool;
  ceNetTimeout : bool;
  ceMessage : bytes
}.

Fixpoint Contains (s sub : bytes) : bool :=
  bool_decide (take (length sub) s = sub) || match s with [] => false | _ :: s => Contains s sub end.

Definition mapSOCKSConnectError (err : option connect_error) : Z :=
  match err with
  | None => PACKET_SOCKS5_CONNECT_FAIL
  | Some e =>
      if ceDeadline e then PACKET_SOCKS5_TTL_EXPIRED
      else if ceBlocked e then PACKET_SOCKS5_RULESET_DENIED
      else match ceUpstream e with
      | Some packetType => packetType
      | None =>
          if ceDNS e then PACKET_SOCKS5_HOST_UNREACHABLE
          else if ceOpTimeout e || ceNetTimeout e then PACKET_SOCKS5_TTL_EXPIRED
          else
            let message := ToLower (ceMessage e) in
            let has text := Contains message (ServerCfg.str text) in
            if has "connection refused" then PACKET_SOCKS5_CONNECTION_REFUSED
            else if has "network is unreachable" then PACKET_SOCKS5_NETWORK_UNREACHABLE
            else if has "no route to host" || has "host is unreachable" || has "no such host" then PACKET_SOCKS5_HOST_UNREACHABLE
            else if has "i/o timeout" || has "timed out" then PACKET_SOCKS5_TTL_EXPIRED
            else PACKET_SOCKS5_UPSTREAM_UNAVAILABLE
      end
  end.

(** ** Fragments of an answer *)

Fixpoint fragment_loop (fuel : nat) (response : bytes) (limit : Z) : list bytes :=
  match fuel with
  | O => []
  | S fuel =>
      if len response <=? 0 then []
      else take (Z.to_nat limit) response :: fragment_loop fuel (drop (Z.to_nat limit) response) limit
  end.

Definition fragmentDNSResponsePayload (response : bytes) (mtu : Z) : list bytes :=
  if len response =? 0 then []
  else
    let limit := if mtu <? 1 then 256 else mtu in
    if len response <=? limit then [response]
    else
      let total := (len response + limit - 1) ÷ limit in
      if 255 <? total then [] else fragment_loop (length response) response limit.

(** ** Jobs *)

(** A connection to be made: where, and the stream it is for. *)
Record dial_request := mkDial {
  dialPacket : Packet;
  dialRun : deferred_run;
  dialStream : nat;
  dialHost : bytes;
  dialPort : Z;
  dialExternal : option bytes
}.

(** [attemptCtx] and [ctx] when the dialling returns, and what it returns. *)
Inductive dial_result :=
| DialFailed (err : connect_error) (timedOut : bool)
| DialNil
| DialConnected.

Section server.
Context {P : Type} {D : DeferredPool job P}.
Abbreviation Server := (@Server P).
Implicit Types s : Server.

Definition maxDeferredConnectAttemptTimeout : Z := 15 * 1000000000.

(** [socksConnectTimeout] is the setting, or eight seconds. *)
Definition socksConnectTimeout s : Z :=
  let t := ServerCfg.SOCKSConnectTimeout (cfg s) in if t <=? 0 then 8 * 1000000000 else t.

Definition deferredConnectAttemptTimeout s : Z :=
  let timeout := socksConnectTimeout s in
  let timeout := if timeout <=? 0 then ServerCfg.SOCKSConnectTimeout (cfg s) else timeout in
  let timeout := if timeout <=? 0 then 8 * 1000000000 else timeout in
  if maxDeferredConnectAttemptTimeout <? timeout then maxDeferredConnectAttemptTimeout else timeout.

Definition collectSOCKS5SynFragments (vpnPacket : Packet) (totalFragments now : Z) s : (bytes * bool * bool) * Server :=
  let totalFragments := if totalFragments =? 0 then 1 else totalFragments in
  let '(result, store) := Collect (SessionID vpnPacket, StreamID vpnPacket, SequenceNum vpnPacket) (Payload vpnPacket) (FragmentID vpnPacket)
                            totalFragments now (dnsFragmentTimeout s) (socks5Fragments s) in
  (result, s <| socks5Fragments := store |>).

(** The host is checked before any connection is made; None is the refusal. *)
Definition dialSOCKSStreamTarget (host : bytes) (port : Z) (targetPayload : bytes) s : outcome SocksProto.blockedSOCKSTargetError (option bytes) :=
  let! _ := SocksProto.validateSOCKSTargetHost host in
  Ok (if negb (ServerCfg.UseExternalSOCKS5 (cfg s)) || (len targetPayload =? 0) then None else Some targetPayload).

(** [processDeferredDNSQuery] with the resolver's answer. *)
Fixpoint queue_fragments (vpnPacket : Packet) (downloadCompression totalFragments : Z) (fragmentID : Z) (fragments : list bytes) (now : Z) s : outcome blocked Server :=
  match fragments with
  | [] => Ok s
  | fragmentPayload :: fragments =>
      if negb (shouldExecuteDeferredPacket (mkPacket (SessionID vpnPacket) 0 (SessionCookie vpnPacket) false 0 false 0 false 0 0 false 0 0 []) now s) then Ok s
      else
        let! s := queueSessionPacket (SessionID vpnPacket)
                    (mkPacket 0 PACKET_DNS_QUERY_RES 0 false 0 false (SequenceNum vpnPacket) false (wrap8 fragmentID) totalFragments false
                       downloadCompression 0 fragmentPayload) now s in
        queue_fragments vpnPacket downloadCompression totalFragments (fragmentID + 1) fragments now s
  end.

Definition processDeferredDNSQuery (vpnPacket : Packet) (downloadCompression downloadMTUBytes : Z) (rawResponse : bytes) (now : Z) s : outcome blocked Server :=
  if negb (shouldExecuteDeferredPacket (mkPacket (SessionID vpnPacket) 0 (SessionCookie vpnPacket) false 0 false 0 false 0 0 false 0 0 []) now s)
     || negb (HasActive (SessionID vpnPacket) (sessions s)) || (len rawResponse =? 0) then Ok s
  else
    let fragments := fragmentDNSResponsePayload rawResponse downloadMTUBytes in
    queue_fragments vpnPacket downloadCompression (wrap8 (len fragments)) 0 fragments now s.

(** [getOrCreateStream] for the packet: its address, None where it is refused. *)
Definition create_stream (vpnPacket : Packet) (now : Z) s : outcome blocked (option nat * Server) :=
  match record_of vpnPacket s with
  | None => Ok (None, s)
  | Some r =>
      let create r := getOrCreateStream (StreamID vpnPacket) (streamARQConfig (DownloadCompression r) s) false now r in
      let! s := on_record (SessionID vpnPacket) (fun r => (create r).2) s in
      Ok ((create r).1, s)
  end.

(** What the stream at [a] is connected to. *)
Definition connection (vpnPacket : Packet) (a : nat) s : option StreamServer.Stream_server :=
  match record_of vpnPacket s with
  | None => None
  | Some r => match objects r !! a with Some (_, v) => if StreamServer.Connected v then Some v else None | None => None end
  end.

(** The end of a job for a stream: [finalizeDeferredConnectStream] or [finalizeStreamArtifacts]. *)
Definition finish_stream (run : deferred_run) (vpnPacket : Packet) s : outcome blocked Server :=
  match run with
  | RunSOCKS5Syn => finalizeStreamArtifacts (SessionID vpnPacket) (StreamID vpnPacket) s
  | _ => finalizeDeferredPacketsForStream (SessionID vpnPacket) (StreamID vpnPacket) s
  end.

(** A result for the client, and the end of the job. *)
Definition report (run : deferred_run) (a : nat) (packetType ttl : Z) (vpnPacket : Packet) (now : Z) s : outcome blocked Server :=
  let! s := send_result a packetType ttl vpnPacket now s in finish_stream run vpnPacket s.

(** [processDeferredStreamSyn] up to the dialling. *)
Definition begin_stream_syn (vpnPacket : Packet) (now : Z) s : outcome blocked (option dial_request * Server) :=
  let c := cfg s in
  let! (created, s) := create_stream vpnPacket now s in
  match created with
  | None => let! s := orphan_reset PACKET_STREAM_RST 0 vpnPacket s in Ok (None, s)
  | Some a =>
      if bool_decide (ServerCfg.ForwardIP c = []) || (ServerCfg.ForwardPort c <=? 0) then
        let! s := report RunStreamSyn a PACKET_STREAM_CONNECT_FAIL (ServerCfg.StreamFailurePacketTTL c) vpnPacket now s in Ok (None, s)
      else if match connection vpnPacket a s with
              | Some v => same_target (ServerCfg.ForwardIP c) (wrap16 (ServerCfg.ForwardPort c)) v
              | None => false
              end then
        let! s := report RunStreamSyn a PACKET_STREAM_CONNECTED (ServerCfg.StreamResultPacketTTL c) vpnPacket now s in Ok (None, s)
      else if negb (shouldExecuteDeferredPacket vpnPacket now s) then Ok (None, s)
      else Ok (Some (mkDial vpnPacket RunStreamSyn a (ServerCfg.ForwardIP c) (ServerCfg.ForwardPort c) None), s)
  end.

(** [processDeferredSOCKS5Syn] up to the dialling.  A refused host ends the job here, with the
    packet that [mapSOCKSConnectError] gives for it. *)
Definition begin_socks5_syn (vpnPacket : Packet) (now : Z) s : outcome blocked (option dial_request * Server) :=
  let c := cfg s in
  if negb (bool_decide (is_Some (record_of vpnPacket s))) then Ok (None, s)
  else
  let totalFragments := if TotalFragments vpnPacket =? 0 then 1 else TotalFragments vpnPacket in
  let '((assembledTarget, ready, completed), s) := collectSOCKS5SynFragments vpnPacket totalFragments now s in
  if completed || negb ready then Ok (None, s)
  else if negb (shouldExecuteDeferredPacket vpnPacket now s) then Ok (None, s)
  else
    let! (created, s) := create_stream vpnPacket now s in
    match created with
    | None =>
        let! s := orphan_reset PACKET_STREAM_RST 0 vpnPacket s in
        let! s := finish_stream RunSOCKS5Syn vpnPacket s in Ok (None, s)
    | Some a =>
        match SocksProto.ParseTargetPayload assembledTarget with
        | Panic => Panic
        | Err e =>
            if negb (shouldExecuteDeferredPacket vpnPacket now s) then Ok (None, s)
            else
              let packetType := match e with
                                | SocksProto.ErrUnsupportedAddressType | SocksProto.ErrInvalidDomainLength => PACKET_SOCKS5_ADDRESS_TYPE_UNSUPPORTED
                                | _ => PACKET_SOCKS5_CONNECT_FAIL
                                end in
              let! s := report RunSOCKS5Syn a packetType (ServerCfg.StreamFailurePacketTTL c) vpnPacket now s in Ok (None, s)
        | Ok target =>
            match connection vpnPacket a s with
            | Some v =>
                let! s :=
                  if same_target (SocksProto.Host target) (SocksProto.Port target) v
                  then report RunSOCKS5Syn a PACKET_SOCKS5_CONNECTED (ServerCfg.StreamResultPacketTTL c) vpnPacket now s
                  else report RunSOCKS5Syn a PACKET_SOCKS5_CONNECT_FAIL (ServerCfg.StreamFailurePacketTTL c) vpnPacket now s in
                Ok (None, s)
            | None =>
                if negb (shouldExecuteDeferredPacket vpnPacket now s) then Ok (None, s)
                else match dialSOCKSStreamTarget (SocksProto.Host target) (SocksProto.Port target) assembledTarget s with
                | Panic => Panic
                | Err _ =>
                    if negb (shouldExecuteDeferredPacket vpnPacket now s) then Ok (None, s)
                    else
                      let packetType := mapSOCKSConnectError (Some (mkConnectError false true None false false false [])) in
                      let! s := report RunSOCKS5Syn a packetType (ServerCfg.StreamFailurePacketTTL c) vpnPacket now s in Ok (None, s)
                | Ok external => Ok (Some (mkDial vpnPacket RunSOCKS5Syn a (SocksProto.Host target) (SocksProto.Port target) external), s)
                end
            end
        end
    end.

(** The start of a job: the guard of [dispatchDeferredSessionPacketTracked] and the work up to
    the dialling.  Without a dialling the packet is no longer tracked afterwards. *)
Definition begin_job (j : job) (ctxDone : bool) (rawResponse : bytes) (now : Z) s : outcome blocked (option dial_request * Server) :=
  let vpnPacket := jobPacket j in
  let finish s := s <| deferredPackets ::= finishDeferredPacket vpnPacket |> in
  if ctxDone || negb (isDeferredPacketStillTracked vpnPacket (deferredPackets s)) || negb (shouldExecuteDeferredPacket vpnPacket now s)
  then Ok (None, finish s)
  else
    let! (d, s) :=
      match jobRun j with
      | RunDNSQuery downloadCompression downloadMTUBytes _ =>
          let! s := processDeferredDNSQuery vpnPacket downloadCompression downloadMTUBytes rawResponse now s in Ok (None, s)
      | RunStreamSyn => begin_stream_syn vpnPacket now s
      | RunSOCKS5Syn => begin_socks5_syn vpnPacket now s
      end in
    Ok (d, match d with None => finish s | Some _ => s end).

(** Attaching the connection to the stream. *)
Definition attach (d : dial_request) (now : Z) s : outcome blocked (bool * Server) :=
  match record_of (dialPacket d) s with
  | None => Ok (false, s)
  | Some r =>
      match objects r !! dialStream d with
      | None => Ok (false, s)
      | Some (q, v) =>
          let port := match dialRun d with RunSOCKS5Syn => dialPort d | _ => wrap16 (dialPort d) end in
          let op v := StreamServer.attachUpstreamConn (closed q) (dialHost d) port "CONNECTED" (v <| StreamServer.clock := now |>) in
          let! s := on_record (SessionID (dialPacket d)) (fun r => r <| objects ::= alter (fun v : stream => (v.1, (op v.2).2)) (dialStream d) |>) s in
          Ok ((op v).1, s)
      end
  end.

(** The job after the dialling.  [attached]: the session is the one the job started with. *)
Definition end_job (d : dial_request) (result : dial_result) (ctxDone attached : bool) (now : Z) s : outcome blocked Server :=
  let vpnPacket := dialPacket d in
  let c := cfg s in
  let finish s := s <| deferredPackets ::= finishDeferredPacket vpnPacket |> in
  let fail packetType s :=
    if negb (shouldExecuteDeferredPacket vpnPacket now s) then Ok s
    else if attached : bool then report (dialRun d) (dialStream d) packetType (ServerCfg.StreamFailurePacketTTL c) vpnPacket now s
    else finish_stream (dialRun d) vpnPacket s in
  let! s :=
    match result with
    | DialFailed err timedOut =>
        if ctxDone && negb timedOut then Ok s
        else fail (match dialRun d with RunSOCKS5Syn => mapSOCKSConnectError (Some err) | _ => PACKET_STREAM_CONNECT_FAIL end) s
    | DialNil => fail (match dialRun d with RunSOCKS5Syn => PACKET_SOCKS5_CONNECT_FAIL | _ => PACKET_STREAM_CONNECT_FAIL end) s
    | DialConnected =>
        if ctxDone then Ok s
        else
          let! (ok, s) := if attached : bool then attach d now s else Ok (false, s) in
          if negb ok then finish_stream (dialRun d) vpnPacket s
          else if negb (shouldExecuteDeferredPacket vpnPacket now s) then finish_stream (dialRun d) vpnPacket s
          else
            let! s := on_record (SessionID vpnPacket) (streamEvent (dialStream d) now EvSetLocalConn) s in
            let ready s := on_record (SessionID vpnPacket) (streamEvent (dialStream d) now (EvSetIOReady true)) s in
            let! s := match dialRun d with
                      | RunSOCKS5Syn =>
                          let! s := ready s in send_result (dialStream d) PACKET_SOCKS5_CONNECTED (ServerCfg.StreamResultPacketTTL c) vpnPacket now s
                      | _ =>
                          let! s := send_result (dialStream d) PACKET_STREAM_CONNECTED (ServerCfg.StreamResultPacketTTL c) vpnPacket now s in ready s
                      end in
            finish_stream (dialRun d) vpnPacket s
    end in
  Ok (finish s).

(** ** The cleanup of sessions *)

Definition deferredIdleCleanupTimeout (cleanupInterval sessionTimeout : Z) s : Z :=
  let timeout := deferredConnectAttemptTimeout s in
  let timeout := if timeout <=? 0 then 15 * 1000000000 else timeout in
  let cleanupInterval := if cleanupInterval <=? 0 then 30 * 1000000000 else cleanupInterval in
  let idle := timeout + cleanupInterval in
  if (0 <? sessionTimeout) && (sessionTimeout <? idle) then sessionTimeout else idle.

(** The streams that ended while terminal streams were swept, by session. *)
Definition swept (t t' : sessionStore) : list (Z * list Z) :=
  omap (fun e : Z * sessionRecord => match byID t !! e.1 with Some r => Some (e.1, ended r e.2) | None => None end) (map_to_list (byID t')).

Fixpoint cleanup_swept (l : list (Z * list Z)) s : outcome blocked Server :=
  match l with
  | [] => Ok s
  | (sessionID, streamIDs) :: l => let! s := cleanup_streams sessionID streamIDs s in cleanup_swept l s
  end.

Fixpoint cleanup_idle (l : list (Z * Z)) s : outcome blocked Server :=
  match l with
  | [] => Ok s
  | (sessionID, _) :: l => let! s := cleanupIdleDeferredSession sessionID s in cleanup_idle l s
  end.

Fixpoint cleanup_expired (l : list (Z * sessionRecord)) (now : Z) s : outcome blocked Server :=
  match l with
  | [] => Ok s
  | (sessionID, record) :: l => let! s := cleanupClosedSession sessionID record now s in cleanup_expired l now s
  end.

(** One turn of the loop; [sweep] is whether five minutes have passed since the last sweep of
    the closed streams. *)
Definition cleanup_turn (sweep : bool) (now : Z) s : outcome blocked Server :=
  let interval := ServerCfg.SessionCleanupInterval (cfg s) in
  let interval := if interval <=? 0 then 30 * 1000000000 else interval in
  let sessionTimeout := ServerCfg.SessionTimeout (cfg s) in
  let '(expired, t) := Cleanup now sessionTimeout (ServerCfg.ClosedSessionRetention (cfg s)) (sessions s) in
  let '(idleDeferred, t) := CollectIdleDeferredSessions now (deferredIdleCleanupTimeout interval sessionTimeout s) t in
  let t' := SweepTerminalStreams now (ServerCfg.TerminalStreamRetention (cfg s)) t in
  let! s := cleanup_swept (swept t t') (s <| sessions := t' |>) in
  let s := if sweep then s <| sessions ::= SweepRecentlyClosedStreams now |> else s in
  let s := s <| cookieTracker ::= TrackerCleanup now (invalidCookieWindowNanos s) |> in
  let s := s <| dnsFragments ::= Purge now (dnsFragmentTimeout s) |> in
  let s := s <| socks5Fragments ::= Purge now (dnsFragmentTimeout s) |> in
  let! s := cleanup_idle idleDeferred s in
  cleanup_expired expired now s.
End server.
