(* ===== verification/ServerReach.v ===== *)
(** The server as a whole: every datagram is handled to its end, keeps the invariant of the
    server and changes only the session that it proves to belong to.

    Theorems on ServerIngress.v and ServerDeferred.v
    (src/masterdns/internal/udpserver/server_ingress.go, server_session.go,
    server_deferred.go, server_runtime.go). *)

From stdpp Require Import base tactics list gmap strings sorting.
From Stdlib Require Import ZArith Lia.
From S2P Require Import Prelude Enums Mlq SessionAccept FragmentStore Compression Security VpnProto DnsParser DnsTransport DomainMatcher.
From S2P Require Import GoFloat ArqState Arq TxQueue ArqData ArqControl ArqEvents GoHeap Session SessionInv SessionServe SessionServeInv SessionFair SessionReach SessionStore SessionStoreInv SessionLife.
From S2P Require Import CookieTracker DeferredSession DeferredPool DeferredTracking NetIP SocksProto ServerConfig VpnTyped ServerState ServerPackets ServerIngress ServerInv ServerDeferred.
Import Session.

#[local] Existing Instances StreamServer.set_clock StreamServer.set_Status StreamServer.set_CloseTime.

Section datagrams.
Context `{CR : Crypto} {TC : TypedCrypto CR} `{CP : Compressors} {TP : TypedCompressors CP}.
Context {P : Type} {D : DeferredPool job P} {L : DeferredPoolLaws D}.
Abbreviation Server := (@Server P).
Implicit Types s : Server.

(** ** What a step changes *)

(** The jobs of one session that wait. *)
Definition waiting_of (x : Z) s : list (deferredSessionLane * job) := filter (fun e => laneSession e.1 = x) (waiting s).

(** From [s] to [s'] the invariant is kept, and of the sessions and their jobs only those in
    [S] changed. *)
Record affects (S : Z -> Prop) s s' : Prop := {
  af_settings : settings s' = settings s;
  af_ok : server_ok s -> server_ok s';
  af_sessions : forall x, ~ S x -> byID (sessions s') !! x = byID (sessions s) !! x;
  af_waiting : forall x, ~ S x -> waiting_of x s' ≡ₚ waiting_of x s
}.

Lemma affects_refl S s : affects S s s.
Proof. by split. Qed.

Lemma affects_trans S s1 s2 s3 : affects S s1 s2 -> affects S s2 s3 -> affects S s1 s3.
Proof.
  intros [A1 A2 A3 A4] [B1 B2 B3 B4]. split; auto; [congruence | intros x Hx; by rewrite B3, A3 | intros x Hx; by rewrite B4, A4].
Qed.

Lemma affects_mono (S S' : Z -> Prop) s s' : (forall x, S x -> S' x) -> affects S s s' -> affects S' s s'.
Proof. intros H [A1 A2 A3 A4]. split; auto. Qed.

Lemma filter_other (id x : Z) (l l' : list (deferredSessionLane * job)) : x <> id ->
  filter (fun e => laneSession e.1 <> id) l' ≡ₚ filter (fun e => laneSession e.1 <> id) l ->
  filter (fun e => laneSession e.1 = x) l' ≡ₚ filter (fun e => laneSession e.1 = x) l.
Proof.
  intros Hx H. assert (forall k : list (deferredSessionLane * job), filter (fun e => laneSession e.1 = x) k =
    filter (fun e => laneSession e.1 = x) (filter (fun e => laneSession e.1 <> id) k)) as Hf.
  { intros k. rewrite list_filter_filter. apply list_filter_iff. intros e. split; [| tauto]. intros <-. tauto. }
  rewrite (Hf l), (Hf l'). by rewrite H.
Qed.

Lemma touches_affects id s s' : touches id s s' -> affects (eq id) s s'.
Proof.
  intros T. split; [apply T | by apply (touches_ok id) | |]; intros x Hx; assert (x <> id) as Hn by (intros ->; by apply Hx).
  - by apply (to_others _ _ _ T).
  - by apply (filter_other id), T.
Qed.

(** A step that changes counters only. *)
Lemma affects_counters S s s' : settings s' = settings s -> sessions s' = sessions s -> pools s' = pools s ->
  deferredPackets s' = deferredPackets s -> socks5Fragments s' = socks5Fragments s -> affects S s s'.
Proof.
  intros H1 H2 H3 H4 H5. split; [done | | by rewrite H2 | intros x _; unfold waiting_of, waiting; by rewrite H3].
  intros [A B C E F]. split; rewrite ?H2, ?H3, ?H4, ?H5; try done. eapply granted_descends; [exact H1 | apply descends_byID; by rewrite H2 | exact F].
Qed.

(** ** Answers *)

Lemma keeps_dequeue duplication now : keeps_record (fun r => (dequeueSessionResponse duplication now r).2).
Proof. exact (keeps_op (OpServe duplication now) eq_refl (fun _ => I)). Qed.

Lemma dequeue_serves id now s : server_ok s -> serves id s (dequeue id now s).
Proof.
  intros Hok. unfold dequeue. destruct (SessionStore.Get id (sessions s)); [| apply serves_ok].
  eapply serves_bind; [done | apply on_record_runs; [done | apply keeps_dequeue] |]. intros s' _ _. apply serves_ok.
Qed.

Lemma serveQueuedOrPong_serves packet name view now s : server_ok s -> serves (viewID view) s (serveQueuedOrPong packet name view now s).
Proof.
  intros Hok. unfold serveQueuedOrPong. eapply serves_bind2; [done | by apply dequeue_serves |].
  intros [p |] s' _ _; [apply serves_ok |]. unfold nextPongPayload. eexists _, _. split; [done |]. by apply touches_work.
Qed.

(** ** Validation *)

(** The packet belongs to the open session [x]. *)
Definition authentic (p : Packet) s (x : Z) : Prop :=
  exists r, SessionID p = x /\ byID (sessions s) !! x = Some r /\ Cookie r = SessionCookie p.

#[global] Instance authentic_dec p s x : base.Decision (authentic p s x).
Proof.
  destruct (byID (sessions s) !! x) as [r |] eqn:Hr; [| right; intros (r & _ & H & _); congruence].
  destruct (decide (SessionID p = x /\ Cookie r = SessionCookie p)) as [[H1 H2] | H]; [left; by exists r |].
  right. intros (r' & H1 & H2 & H3). apply H. split; congruence.
Defined.

Lemma alter_touches id f s : (forall r, byID (sessions s) !! id = Some r -> core (f r) = core r /\ (serve_ok r -> serve_ok (f r))) ->
  touches id s (s <| sessions := (sessions s) <| byID ::= alter f id |> |>).
Proof.
  intros Hf. split; try done; [by eexists | by apply same_alter | intros x Hx; cbn; by rewrite lookup_alter_ne].
Qed.

Lemma validate_affects packet name p now s : server_ok s ->
  let '(v, s') := validatePostSessionPacket packet name p now s in
  affects (authentic p s) s s' /\ (forall view, v = inl view -> viewID view = SessionID p /\ authentic p s (SessionID p) /\ authentic p s' (SessionID p)).
Proof.
  intros Hok. unfold validatePostSessionPacket, ValidateAndTouch. destruct (byID (sessions s) !! SessionID p) as [r |] eqn:Hr.
  - cbn [vActive]. destruct (Z.eqb_spec (Cookie r) (SessionCookie p)) as [Hc | Hc].
    + assert (authentic p s (SessionID p)) as Ha by (by exists r). cbn [vActive]. split.
      * apply (affects_mono (eq (SessionID p))); [by intros x <- |]. apply touches_affects.
        apply alter_touches. intros y _. apply touch_ok.
      * intros view [= <-]. split; [exact (ro_id _ _ (st_record _ (sv_sessions _ Hok) _ _ Hr)) |]. split; [done |].
        exists (setLastActivityUnixNano now r). cbn. by rewrite lookup_alter_eq, Hr.
    + cbn [vActive vKnown negb vLookup lkState]. replace (s <| sessions := sessions s |>) with s by (by destruct s).
      destruct (Note _ _ _ _ _ _ _ _) as [emit t]. destruct emit; cbn [negb]; (split; [by apply affects_counters | done]).
  - replace (s <| sessions := sessions s |>) with s by (by destruct s).
    destruct (recentClosed (sessions s) !! SessionID p) as [c |]; (split; [by apply affects_counters | done]).
Qed.

(** ** The end of a session *)

(** No packet of session [id] is tracked, and none of its target fragments is kept. *)
Definition forgotten (id : Z) s : Prop :=
  (exists ids, tracks ids (deferredPackets s) /\ forall i, i ∈ ids -> i.1.1.1.1 <> id) /\
  (forall key, key.1.1 = id -> items (socks5Fragments s) !! key = None /\ completed (socks5Fragments s) !! key = None).

(** Nothing is left of session [id]. *)
Record clean (id : Z) s : Prop := {
  cl_session : byID (sessions s) !! id = None;
  cl_waiting : waiting_of id s = [];
  cl_tracked : forall p, identity_ok (identity_of p) -> SessionID p = id -> isDeferredPacketStillTracked p (deferredPackets s) = false;
  cl_dns : forall key, key.1 = id -> items (dnsFragments s) !! key = None /\ completed (dnsFragments s) !! key = None;
  cl_socks5 : forall key, key.1.1 = id -> items (socks5Fragments s) !! key = None /\ completed (socks5Fragments s) !! key = None
}.

Lemma removeIf_gone {K} `{Countable K} (f : K -> bool) (st : Store (K:=K)) key :
  f key = true \/ items st !! key = None /\ completed st !! key = None ->
  items (RemoveIf f st) !! key = None /\ completed (RemoveIf f st) !! key = None.
Proof.
  intros Hf. cbn. split; apply map_lookup_filter_None; (destruct Hf as [Hf | [H1 H2]]; [right; intros v _; cbn; by rewrite Hf | by left]).
Qed.

Lemma clear_stream_forgotten id x st s s' : forgotten id s -> clearDeferredPacketsForStream x st s = Ok s' -> forgotten id s'.
Proof.
  intros F. unfold clearDeferredPacketsForStream. case_if; [by intros [= <-] |]. destruct F as [(ids & Ht & Hi) Hf].
  intros (o & _ & [= <-])%obind_ok_inv. split; [| exact Hf]. exists (without_stream x st ids). split; [by apply tracks_clearStream |].
  intros i. unfold without_stream. case_if; [apply Hi |]. intros [_ H]%elem_of_filter. by apply Hi.
Qed.

Lemma cleanup_streams_forgotten id x l : forall s s', forgotten id s -> cleanup_streams x l s = Ok s' -> forgotten id s'.
Proof.
  induction l as [| st l IH]; intros s s' Hf; cbn [cleanup_streams]; [by intros [= <-] |]. intros (s1 & E & H)%obind_ok_inv. eapply IH; [| exact H].
  revert E. unfold cleanupStreamArtifacts. case_if; [by intros [= <-] |].
  intros (s2 & [Ht Hs]%(clear_stream_forgotten id) & [= <-])%obind_ok_inv; [| done]. unfold removeSOCKS5SynFragmentsForStream. case_if; [by split |].
  split; [exact Ht |]. intros key Hk. apply removeIf_gone. right. by apply Hs.
Qed.

Lemma clear_session_forgotten id s : id <> 0 -> server_ok s -> forgotten id (removeSOCKS5SynFragmentsForSession id (clearDeferredPacketsForSession id s)).
Proof.
  intros H0 Hok. unfold removeSOCKS5SynFragmentsForSession. rewrite (proj2 (Z.eqb_neq _ _) H0). split.
  - destruct (sv_tracked _ Hok) as [ids Hi]. exists (without_session id ids). split; [by apply tracks_clearSession |].
    intros i. unfold without_session. rewrite (proj2 (Z.eqb_neq _ _) H0). by intros [H _]%elem_of_filter.
  - intros key <-. apply removeIf_gone. left. apply Z.eqb_refl.
Qed.

Lemma forgotten_tracked id s p : forgotten id s -> identity_ok (identity_of p) -> SessionID p = id -> isDeferredPacketStillTracked p (deferredPackets s) = false.
Proof.
  intros [(ids & Ht & Hi) _] Hp Hid. unfold isDeferredPacketStillTracked. apply bool_decide_eq_false. rewrite key_of_packet, (tracks_key ids) by done.
  intros H. by apply (Hi _ H).
Qed.

Lemma remove_session_pool id o : Forall pool_ok (option_list o) ->
  exists o', on_pool (pool_RemoveSession id) o = Ok o' /\ Forall pool_ok (option_list o') /\
    option_list o' ≫= pool_queued = filter (fun e => laneSession e.1 <> id) (option_list o ≫= pool_queued).
Proof.
  intros Ho. destruct o as [p |]; [| by exists None]. destruct (pool_session_law id p (Forall_inv Ho)) as (p' & E & Hp' & Hq).
  exists (Some p'). cbn [on_pool]. rewrite E. split; [done |]. split; [by repeat constructor |]. cbn. by rewrite !app_nil_r.
Qed.

Lemma deferred_state_runs id s : id <> 0 -> server_ok s -> exists s', cleanupDeferredSessionState id s = Ok s' /\ touches id s s' /\
  sessions s' = sessions s /\ waiting_of id s' = [] /\ deferredPackets s' = deferredPackets s /\ socks5Fragments s' = socks5Fragments s /\
  (forall key, key.1 = id -> items (dnsFragments s') !! key = None /\ completed (dnsFragments s') !! key = None).
Proof.
  intros H0 Hok. unfold cleanupDeferredSessionState, removeDNSQueryFragmentsForSession. rewrite (proj2 (Z.eqb_neq _ _) H0).
  pose proof (sv_pools _ Hok) as Hp. apply Forall_app in Hp as [Hd Hc].
  destruct (remove_session_pool id _ Hd) as (o1 & E1 & P1 & Q1), (remove_session_pool id _ Hc) as (o2 & E2 & P2 & Q2).
  rewrite E1. cbn. rewrite E2. cbn. eexists. split; [done |].
  assert (forall s', deferredDNSSession s' = o1 -> deferredConnectSession s' = o2 -> waiting s' = filter (fun e => laneSession e.1 <> id) (waiting s)) as Hw.
  { intros s' F1 F2. unfold waiting, pools. by rewrite F1, F2, !bind_app, filter_app, Q1, Q2. }
  split_and!; try done.
  - apply touches_work; try done; [| intros _; by apply Forall_app]. rewrite Hw by done. apply Permutation_refl'. apply (other_lane id 0). done.
  - unfold waiting_of. rewrite Hw by done. apply list_filter_none, Forall_forall. by intros e [He _]%list_elem_of_filter.
  - intros key <-. apply removeIf_gone. left. apply Z.eqb_refl.
Qed.

Lemma forgetting_touches id s : server_ok s -> touches id s (removeSOCKS5SynFragmentsForSession id (clearDeferredPacketsForSession id s)).
Proof.
  intros Hok. unfold removeSOCKS5SynFragmentsForSession. case_if; (apply touches_work; try done); try apply removeIf_typed.
  all: intros [ids Hi]; eexists; by apply tracks_clearSession.
Qed.

Lemma cleanupClosed_runs id record now s : id <> 0 -> server_ok s ->
  exists s', cleanupClosedSession id record now s = Ok s' /\ touches id s s' /\ sessions s' = sessions s /\ (byID (sessions s) !! id = None -> clean id s').
Proof.
  intros H0 Hok. unfold cleanupClosedSession. rewrite (proj2 (Z.eqb_neq _ _) H0).
  pose proof (forgetting_touches id s Hok) as T1. pose proof (clear_session_forgotten id s H0 Hok) as F1.
  assert (sessions (removeSOCKS5SynFragmentsForSession id (clearDeferredPacketsForSession id s)) = sessions s) as E1
    by (unfold removeSOCKS5SynFragmentsForSession; by case_if).
  set (s1 := removeSOCKS5SynFragmentsForSession _ _) in *. clearbody s1. pose proof (touches_ok _ _ _ T1 Hok) as Hok1.
  match goal with |- context [cleanup_streams id ?l s1] => destruct (cleanup_streams_runs id l s1 Hok1) as (s2 & E2 & T2); rewrite E2 end. cbn [obind].
  pose proof (cleanup_streams_sessions _ _ _ _ E2) as S2. apply (cleanup_streams_forgotten id) in E2 as F2; [| done].
  destruct (deferred_state_runs id s2 H0 (touches_ok _ _ _ T2 Hok1)) as (s3 & E3 & T3 & S3 & W3 & D3 & K3 & N3). exists s3. split; [done |].
  split; [eapply touches_trans; [exact T1 | eapply touches_trans; [exact T2 | exact T3]] |]. split; [congruence |]. intros Hn.
  assert (forgotten id s3) as F3 by (unfold forgotten; by rewrite D3, K3). split; [congruence | done | intros p; by apply forgotten_tracked | done | apply F3].
Qed.

Lemma cleanupIdle_runs id s : server_ok s -> runs id s (cleanupIdleDeferredSession id s).
Proof.
  intros Hok. unfold cleanupIdleDeferredSession. destruct (Z.eqb_spec id 0) as [H0 | H0]; [apply runs_ok |].
  pose proof (forgetting_touches id s Hok) as T1. destruct (deferred_state_runs id _ H0 (touches_ok _ _ _ T1 Hok)) as (s3 & E3 & T3 & _).
  exists s3. split; [done | by eapply touches_trans].
Qed.

(** A change of the table of sessions alone. *)
Lemma affects_store (S : Z -> Prop) s t : store_ok t -> descends (sessions s) t -> (forall x, ~ S x -> byID t !! x = byID (sessions s) !! x) ->
  affects S s (s <| sessions := t |>).
Proof. intros Ht Hd Hx. split; try done. intros [A B C E F]. split; try done. by eapply (granted_descends s). Qed.

Lemma close_affects p now s : server_ok s ->
  exists s', handleSessionCloseNotice p now s = Ok s' /\ affects (authentic p s) s s' /\ (authentic p s (SessionID p) -> clean (SessionID p) s').
Proof.
  intros Hok. unfold handleSessionCloseNotice. pose proof (sv_sessions _ Hok) as Hst. destruct (Z.eqb_spec (SessionID p) 0) as [H0 | H0].
  { exists s. split; [done |]. split; [apply affects_refl |]. intros (r & _ & Hr & _). apply (st_range _ Hst) in Hr. lia. }
  unfold Lookup. destruct (byID (sessions s) !! SessionID p) as [r |] eqn:Hr.
  2: { assert (authentic p s (SessionID p) -> False) as Hno by (intros (r & _ & Hr' & _); congruence).
       destruct (recentClosed _ !! _); cbn; exists s; (split; [done |]); (split; [apply affects_refl | done]). }
  cbn. destruct (Z.eqb_spec (Cookie r) (SessionCookie p)) as [Hc | Hc]; cbn [negb].
  2: { exists s. split; [done |]. split; [apply affects_refl |]. intros (r' & _ & Hr' & Hc'). congruence. }
  assert (authentic p s (SessionID p)) as Ha by (by exists r).
  pose proof (close_removed (SessionID p) now (ServerCfg.ClosedSessionRetention (cfg s)) (sessions s)) as Hrm. rewrite Hr in Hrm.
  pose proof (store_removed _ _ _ _ Hst Hr Hrm) as Hst'. pose proof (rm_byID _ _ _ _ Hrm) as Hb.
  assert ((SessionStore.Close (SessionID p) now (ServerCfg.ClosedSessionRetention (cfg s)) (sessions s)).1 = Some (markClosed r)) as E1 by (unfold SessionStore.Close; by rewrite Hr).
  destruct (SessionStore.Close _ _ _ _) as [o t]. cbn [fst snd] in *. subst o.
  assert (affects (authentic p s) s (s <| sessions := t |>)) as A1.
  { apply affects_store; [done | by eapply descends_removed |]. intros x Hx. rewrite Hb, lookup_delete_ne; [done |]. by intros <-. }
  destruct (cleanupClosed_runs (SessionID p) (markClosed r) now (s <| sessions := t |>) H0 (af_ok _ _ _ A1 Hok)) as (s' & E' & T' & _ & C').
  exists s'. split; [done |]. split; [| intros _; apply C'; cbn; rewrite Hb; apply lookup_delete_eq]. eapply affects_trans; [exact A1 |]. apply (affects_mono (eq (SessionID p))); [by intros x <- |]. by apply touches_affects.
Qed.

(** ** The handshake *)

(** What SESSION_INIT [p] does to the entry of session [x]: a new session with the payload as
    its signature, or a sign of life for the session that has this signature. *)
Definition introduces (p : Packet) (now : Z) (x : Z) s s' : Prop :=
  match byID (sessions s) !! x with
  | None => exists r, byID (sessions s') !! x = Some r /\ Signature r = Payload p
  | Some r => Signature r = Payload p /\ byID (sessions s') !! x = Some (setLastActivityUnixNano now r)
  end.

Lemma init_store payload up down batch maxUp maxDown now entropy t : store_ok t -> 0 < now -> entropy_ok entropy -> known_types up down ->
  let '(res, t') := findOrCreate payload up down batch maxUp maxDown now entropy t in
  store_ok t' /\ (forall x, byID t' !! x = byID t !! x \/
    match byID t !! x with
    | None => exists r, byID t' !! x = Some r /\ Signature r = payload
    | Some r => Signature r = payload /\ byID t' !! x = Some (setLastActivityUnixNano now r)
    end) /\
  forall x r', byID t' !! x = Some r' -> (exists r, byID t !! x = Some r /\ core r' = core r) \/
    Signature r' = payload /\ UploadCompression r' = up /\ DownloadCompression r' = down /\
    UploadMTU r' = granted_mtu (of_be16 (nth 2 payload 0) (nth 3 payload 0)) maxUp /\
    DownloadMTU r' = granted_mtu (of_be16 (nth 4 payload 0) (nth 5 payload 0)) maxDown /\
    MaxPackedBlocks r' = CalculateMaxPackedBlocks (DownloadMTU r') 80 batch.
Proof.
  intros Hok Hnow He Ht. destruct (decide (init_payload payload)) as [Hp | Hp].
  2: { unfold findOrCreate. replace (negb _ || negb _) with true; [split; [done |]; split; [by left | intros x r' Hr'; left; by exists r'] |]. symmetry. apply orb_true_iff.
       destruct (Z.eqb_spec (len payload) sessionInitDataSize) as [Hl | Hl]; [right | by left].
       unfold isValidSessionResponseMode, mtuProbeModeBase64. destruct (Z.leb_spec (nth 0 payload 0) 1); [| done]. destruct Hp. by split. }
  pose proof (findOrCreate_spec payload up down batch maxUp maxDown now entropy t Hok Hp Hnow He Ht) as H.
  destruct (findOrCreate _ _ _ _ _ _ _ _ t) as [res t']. destruct H as [Hok' Hr]. split; [done |].
  destruct res as [| id [|] |]; cbn [init_result] in Hr; [done | | | destruct Hr as [-> _]; split; [by left | intros x r' Hr'; left; by exists r']].
  - destruct Hr as (r & _ & Hr & Hs & _ & -> & _). split; intros x; (destruct (decide (x = id)) as [-> | Hx]; [| rewrite lookup_insert_ne by done]).
    + right. by rewrite Hr, lookup_insert_eq.
    + by left.
    + rewrite lookup_insert_eq. intros r' [= <-]. left. exists r. split; [done | apply touch_ok].
    + intros r' Hr'. left. by exists r'.
  - destruct Hr as (_ & _ & Hn & _ & cookie & _ & -> & _).
    assert (Signature ((new_record id payload up down batch maxUp maxDown now t) <| Cookie := cookie |>) = payload) as Hsg.
    { rewrite cookie_signature. destruct (new_record_ok id payload up down batch maxUp maxDown now t Hok Hnow Ht) as (_ & -> & _). by apply signature_payload. }
    split; intros x; (destruct (decide (x = id)) as [-> | Hx]; [| rewrite lookup_insert_ne by done]).
    + right. rewrite Hn, lookup_insert_eq. by eexists.
    + by left.
    + rewrite lookup_insert_eq. intros r' Hr'. injection Hr' as <-. right. split; [exact Hsg |]. apply (new_record_terms id payload up down batch maxUp maxDown now t cookie).
    + intros r' Hr'. left. by exists r'.
Qed.

Lemma resolve_range t mask : 0 <= t <= 3 -> 0 <= resolveCompressionType t mask <= 3.
Proof. intros Ht. unfold resolveCompressionType, TypeOff. case_if; lia. Qed.

Lemma init_affects packet decision p now entropy s : server_ok s -> 0 < now -> entropy_ok entropy ->
  let s' := (handleSessionInitRequest packet decision p now entropy s).2 in
  exists t, s' = s <| sessions := t |> /\ store_ok t /\ all_granted s' /\
    forall x, byID t !! x = byID (sessions s) !! x \/ SessionID p = 0 /\ introduces p now x s s'.
Proof.
  intros Hok Hnow He. unfold handleSessionInitRequest.
  assert (exists t, s = s <| sessions := t |> /\ store_ok t /\ all_granted s /\ forall x, byID t !! x = byID (sessions s) !! x \/ SessionID p = 0 /\ introduces p now x s s) as Hsame.
  { exists (sessions s). split; [by destruct s |]. split; [apply Hok |]. split; [apply Hok | by left]. }
  destruct (Z.eqb_spec (SessionID p) 0) as [H0 | H0]; [| exact Hsame]. cbn [negb orb]. case_if; [exact Hsame |].
  destruct (SplitPair _) as [[up down] | |] eqn:Hsp; [| exact Hsame | exact Hsame]. pose proof (SplitPair_range _ _ _ Hsp) as [Hup Hdown].
  match goal with |- context [findOrCreate ?a ?b ?c ?d ?e ?f ?g ?h ?i] => pose proof (init_store a b c d e f g h i (sv_sessions _ Hok) Hnow He (conj (resolve_range up (uploadCompressionMask s) Hup) (resolve_range down (downloadCompressionMask s) Hdown))) as H; destruct (findOrCreate a b c d e f g h i) as [res t'] end.
  destruct H as (Hok' & Hx & Hnew). match goal with |- exists t, ?s' = _ /\ _ => assert (s' = s <| sessions := t' |>) as -> by (by repeat case_match) end.
  exists t'. split; [done |]. split; [done |]. split; [| intros x; destruct (Hx x) as [Hl | Hr]; [by left | by right]].
  intros x r' Hr'. destruct (Hnew x r' Hr') as [(r & Hr & Hc) | (N1 & N2 & N3 & N4 & N5 & N6)].
  - eapply (granted_core s); [done | exact Hc | by eapply (sv_granted _ Hok)].
  - split; rewrite ?N1; [by exists up, down | exact N4 | exact N5 | exact N6].
Qed.

(** ** Datagrams *)

(** The packet in a datagram, if it is a query for the tunnel. *)
Definition carried_packet (packet : bytes) s : option Packet :=
  match ParseDNSRequestLite packet with
  | Ok parsed =>
      if negb (hQR (lHeader parsed) =? 0) || negb (HasQuestion parsed) then None
      else let decision := Match (domainMatcher s) parsed in
        match dAction decision, ParseInflatedFromLabels (Labels decision) (codec s) with
        | ActionProcess, Ok p => Some p
        | _, _ => None
        end
  | _ => None
  end.

(** The session [x] after a datagram with packet [c]: it is as before, unless the packet
    has its number and its cookie or asks for a session with its signature. *)
Definition isolated (c : option Packet) (now : Z) s s' : Prop := forall x,
  (exists p, c = Some p /\ authentic p s x) \/
  waiting_of x s' ≡ₚ waiting_of x s /\
  (byID (sessions s') !! x = byID (sessions s) !! x \/
   exists p, c = Some p /\ PacketType p = PACKET_SESSION_INIT /\ SessionID p = 0 /\ introduces p now x s s').

Lemma affects_isolated p now s s' : affects (authentic p s) s s' -> isolated (Some p) now s s'.
Proof.
  intros A x. destruct (decide (authentic p s x)) as [Hx | Hx]; [left; by exists p | right].
  split; [by apply (af_waiting _ _ _ A) | left; by apply (af_sessions _ _ _ A)].
Qed.

Lemma isolated_refl c now s : isolated c now s s.
Proof. intros x. right. by split; [| left]. Qed.

(** A datagram is handled to its end. *)
Definition handled (packet : bytes) (now : Z) s (c : outcome blocked (answer * Server)) : Prop :=
  exists a s', c = Ok (a, s') /\ settings s' = settings s /\ server_ok s' /\ isolated (carried_packet packet s) now s s' /\
    (forall p, carried_packet packet s = Some p -> PacketType p = PACKET_SESSION_CLOSE -> authentic p s (SessionID p) -> clean (SessionID p) s').

Lemma answered packet now s a : server_ok s -> (forall p, carried_packet packet s = Some p -> PacketType p <> PACKET_SESSION_CLOSE) ->
  handled packet now s (Ok (a, s)).
Proof. intros Hok Hc. exists a, s. split_and!; [done | done | done | apply isolated_refl | intros p Hp Ht; by destruct (Hc p)]. Qed.

Lemma session_handled packet now s p c : server_ok s -> carried_packet packet s = Some p -> PacketType p <> PACKET_SESSION_CLOSE ->
  (exists a s', c = Ok (a, s') /\ affects (authentic p s) s s') -> handled packet now s c.
Proof.
  intros Hok Hp Ht (a & s' & -> & A). exists a, s'. split_and!; [done | apply A | by apply A | rewrite Hp; by apply affects_isolated |].
  intros q Hq. rewrite Hp in Hq. by injection Hq as <-.
Qed.

Lemma serves_affects {A} (S : Z -> Prop) id s (c : outcome blocked (A * Server)) : S id -> serves id s c -> exists a s', c = Ok (a, s') /\ affects S s s'.
Proof. intros Hs (a & s' & -> & T). exists a, s'. split; [done |]. apply (affects_mono (eq id)); [by intros x <- | by apply touches_affects]. Qed.

(** A packet with a session. *)
Lemma post_handled packet name parsed p now s : server_ok s -> packet_typed p ->
  exists a s', (match validatePostSessionPacket packet name p now s with
   | (inr a, s) => Ok (a, s)
   | (inl record, s) =>
       let! (handled, s) := handlePostSessionPacket p record now s in
       if negb handled then Ok (buildNoDataResponseLite packet parsed, s) else serveQueuedOrPong packet name record now s
   end) = Ok (a, s') /\ affects (authentic p s) s s'.
Proof.
  intros Hok Hp. pose proof (validate_affects packet name p now s Hok) as Hv. destruct (validatePostSessionPacket _ _ _ _ _) as [[view | a] s1].
  2: { exists a, s1. split; [done | apply Hv]. }
  destruct Hv as [A1 Hv]. destruct (Hv view eq_refl) as (Hid & Ha & _). pose proof (af_ok _ _ _ A1 Hok) as Hok1.
  destruct (post_serves p view now s1 Hok1 Hp) as (b & s2 & E2 & T2). rewrite E2. cbn [obind]. pose proof (touches_ok _ _ _ T2 Hok1) as Hok2.
  assert (affects (authentic p s) s s2) as A2.
  { eapply affects_trans; [exact A1 |]. apply (affects_mono (eq (SessionID p))); [by intros x <- | by apply touches_affects]. }
  destruct b; cbn [negb]; [| by eexists _, _].
  rewrite <- Hid in Ha. destruct (serves_affects (authentic p s) _ _ _ Ha (serveQueuedOrPong_serves packet name view now s2 Hok2)) as (a & s3 & -> & A3).
  exists a, s3. split; [done | by eapply affects_trans].
Qed.

Lemma tunnel_handled packet parsed now entropy s : server_ok s -> codec_typed (codec s) -> 0 < now -> entropy_ok entropy ->
  let decision := Match (domainMatcher s) parsed in
  carried_packet packet s = match ParseInflatedFromLabels (Labels decision) (codec s) with Ok p => Some p | _ => None end ->
  handled packet now s (handleTunnelCandidate packet parsed decision now entropy s).
Proof.
  intros Hok Hcd Hnow He decision Hc. unfold handleTunnelCandidate. destruct (ParseInflatedFromLabels _ _) as [p | e |] eqn:Ep.
  2, 3: apply answered; [done |]; by rewrite Hc.
  apply ParseInflated_typed in Ep; [| done]. destruct (Z.eqb_spec (PacketType p) PACKET_SESSION_CLOSE) as [Ht | Ht].
  { destruct (close_affects p now s Hok) as (s' & -> & A & Hcl). cbn [obind]. eexists _, s'.
    split_and!; [done | apply A | by apply A | rewrite Hc; by apply affects_isolated |]. intros q Hq. rewrite Hc in Hq. by injection Hq as <-. }
  case_if; [apply (session_handled _ _ _ p); try done; by apply post_handled |].
  assert (forall a, handled packet now s (Ok (a, s))) as Hans by (intros a; apply answered; [done |]; rewrite Hc; by intros q [= <-]).
  case_if; [apply Hans |]. case_if; [apply Hans |]. destruct (Z.eqb_spec (PacketType p) PACKET_SESSION_INIT) as [Hi | Hi]; [| apply Hans].
  destruct (init_affects packet decision p now entropy s Hok Hnow He) as (t & Es & Ht' & Hgr & Hx).
  destruct (handleSessionInitRequest _ _ _ _ _ _) as [a s']. cbn [snd] in *. exists a, s'. rewrite Hc. subst s'. split_and!; [done | done | destruct Hok; by split | |].
  - intros x. right. split; [done |]. destruct (Hx x) as [H | [H0 H]]; [by left | right; by exists p].
  - intros q [= <-] Hq. by destruct Ht.
Qed.

Lemma packet_handled packet now entropy s : server_ok s -> codec_typed (codec s) -> 0 < now -> entropy_ok entropy ->
  handled packet now s (handlePacket packet now entropy s).
Proof.
  intros Hok Hcd Hnow He. unfold handlePacket. destruct (ParseDNSRequestLite packet) as [parsed | e |] eqn:Ep.
  2, 3: assert (carried_packet packet s = None) as Hc by (unfold carried_packet; by rewrite Ep).
  2: destruct e; (apply answered; [done | by rewrite Hc]).
  2: apply answered; [done | by rewrite Hc].
  unfold handleParsedPacket. assert (carried_packet packet s = if negb (hQR (lHeader parsed) =? 0) || negb (HasQuestion parsed) then None else
    match dAction (Match (domainMatcher s) parsed), ParseInflatedFromLabels (Labels (Match (domainMatcher s) parsed)) (codec s) with ActionProcess, Ok p => Some p | _, _ => None end) as Hc
    by (unfold carried_packet; by rewrite Ep).
  destruct (negb (hQR (lHeader parsed) =? 0)); [apply answered; [done | by rewrite Hc] |]. destruct (negb (HasQuestion parsed)); [apply answered; [done | by rewrite Hc] |].
  cbn [orb] in Hc. destruct (dAction (Match (domainMatcher s) parsed)) eqn:Ea.
  - apply answered; [done | by rewrite Hc].
  - destruct (dReason _); (apply answered; [done | by rewrite Hc]).
  - apply (tunnel_handled packet parsed now entropy s Hok Hcd Hnow He) in Hc as (a & s' & -> & H). cbn [obind]. by eexists _, s'.
Qed.
End datagrams.
