(* ===== verification/ServerJobs.v ===== *)
(** The jobs of the worker pools and the cleanup of sessions keep the invariant of the server.

    Theorems on ServerDeferred.v (src/masterdns/internal/udpserver/server_deferred.go and
    [sessionCleanupLoop] of server_runtime.go). *)

From stdpp Require Import base tactics list gmap strings sorting.
From Stdlib Require Import ZArith Lia.
From S2P Require Import Prelude Enums Mlq SessionAccept FragmentStore Compression Security VpnProto DnsParser DomainMatcher.
From S2P Require Import GoFloat ArqState Arq TxQueue ArqData ArqControl ArqEvents GoHeap Session SessionInv SessionServe SessionServeInv SessionFair SessionReach SessionStore SessionStoreInv.
From S2P Require Import CookieTracker DeferredSession DeferredPool DeferredTracking NetIP SocksProto ServerConfig VpnTyped ServerState ServerPackets ServerInv ServerDeferred ServerReach.
Import Session.

#[local] Existing Instances StreamServer.set_clock StreamServer.set_Status StreamServer.set_CloseTime.

Section jobs.
Context {P : Type} {D : DeferredPool job P} {L : DeferredPoolLaws D}.
Abbreviation Server := (@Server P).
Implicit Types s : Server.

#[local] Hint Resolve queueSessionPacket_runs orphan_reset_runs finalizeDeferredPacketsForStream_runs finalizeStreamArtifacts_runs : server.

(** ** Jobs *)

Lemma queue_fragments_runs p c total fs now : forall i s, server_ok s -> runs (SessionID p) s (queue_fragments p c total i fs now s).
Proof.
  induction fs as [| f fs IH]; intros i s Hok; cbn [queue_fragments]; [apply runs_ok |]. case_if; [apply runs_ok |].
  apply runs_bind; [done | by apply queueSessionPacket_runs |]. intros s' Hok' _. by apply IH.
Qed.

Lemma dns_runs p c mtu raw now s : server_ok s -> runs (SessionID p) s (processDeferredDNSQuery p c mtu raw now s).
Proof. intros Hok. unfold processDeferredDNSQuery. case_if; [apply runs_ok | by apply queue_fragments_runs]. Qed.

Lemma create_serves p now s : server_ok s -> packet_typed p -> serves (SessionID p) s (create_stream p now s).
Proof.
  intros Hok Hp. unfold create_stream. destruct (record_of p s) as [r |]; [| apply serves_ok].
  eapply serves_bind; [done | | intros s' _ _; apply serves_ok]. apply on_record_runs; [done |]. intros r'. by apply keeps_create, typed_stream.
Qed.

Lemma finish_runs run p s : server_ok s -> runs (SessionID p) s (finish_stream run p s).
Proof. intros Hok. unfold finish_stream. destruct run; eauto with server. Qed.

Lemma send_runs a t ttl p now s : server_ok s -> runs (SessionID p) s (send_result a t ttl p now s).
Proof. intros Hok. by apply on_record_runs, keeps_event. Qed.

Lemma report_runs run a t ttl p now s : server_ok s -> runs (SessionID p) s (report run a t ttl p now s).
Proof. intros Hok. unfold report. apply runs_bind; [done | by apply send_runs |]. intros s' Hok' _. by apply finish_runs. Qed.

Lemma collect_socks5 p total now s : server_ok s -> packet_typed p ->
  let '((target, _, _), s') := collectSOCKS5SynFragments p total now s in touches (SessionID p) s s' /\ bytes_ok target.
Proof.
  intros Hok [_ Hp]. unfold collectSOCKS5SynFragments.
  match goal with |- context [Collect ?k ?b ?i ?t ?n ?r ?st] => pose proof (Collect_typed k b i t n r st (sv_fragments _ Hok) Hp) as H; destruct (Collect k b i t n r st) as [[[target ready] completed] store] end.
  destruct H as [Hb Hf]. split; [| done]. by apply touches_work.
Qed.

#[local] Hint Resolve create_serves finish_runs send_runs report_runs dns_runs : server.

Lemma stream_syn_serves p now s : server_ok s -> packet_typed p -> serves (SessionID p) s (begin_stream_syn p now s).
Proof. intros Hok Hp. unfold begin_stream_syn. serve. Qed.

Lemma socks5_syn_serves p now s : server_ok s -> packet_typed p -> serves (SessionID p) s (begin_socks5_syn p now s).
Proof.
  intros Hok Hp. unfold begin_socks5_syn. case_if; [apply serves_ok |].
  match goal with |- context [collectSOCKS5SynFragments p ?t now s] => pose proof (collect_socks5 p t now s Hok Hp) as H; destruct (collectSOCKS5SynFragments p t now s) as [[[target ready] completed] s1] end.
  destruct H as [T1 Hb]. pose proof (touches_ok _ _ _ T1 Hok) as Hok1. apply (serves_after _ s s1); [done |].
  case_if; [apply serves_ok |]. case_if; [apply serves_ok |]. eapply serves_bind2; [done | by apply create_serves |]. intros [a |] s2 Hok2 _; [| serve].
  destruct (parse_target_cases target Hb) as [[t ->] | [e ->]]; [| serve]. unfold dialSOCKSStreamTarget.
  destruct (validate_cases (SocksProto.Host t)) as [-> | [e ->]]; cbn [obind]; serve.
Qed.

Lemma finish_touches p s : server_ok s -> packet_typed p -> touches (SessionID p) s (s <| deferredPackets ::= finishDeferredPacket p |>).
Proof. intros Hok [Hp _]. apply touches_work; try done. intros [ids Hi]. eexists. by apply tracks_finish. Qed.

Lemma begin_job_serves j done raw now s : server_ok s -> packet_typed (jobPacket j) -> serves (SessionID (jobPacket j)) s (begin_job j done raw now s).
Proof.
  intros Hok Hp. unfold begin_job. case_if; [eexists _, _; split; [reflexivity | by apply finish_touches] |].
  eapply serves_bind2; [done | | intros [d |] s' Hok' _; [apply serves_ok | eexists _, _; split; [reflexivity | by apply finish_touches]]].
  destruct (jobRun j); [| by apply stream_syn_serves | by apply socks5_syn_serves]. serve.
Qed.

Lemma keeps_attach (q : bool) host port status now a :
  keeps_record (fun r => r <| objects ::= alter (fun v : stream => (v.1, (StreamServer.attachUpstreamConn q host port status (v.2 <| StreamServer.clock := now |>)).2)) a |>).
Proof. apply keeps_alter. intros v. unfold StreamServer.attachUpstreamConn. repeat case_if; by split. Qed.

Lemma attach_serves d now s : server_ok s -> serves (SessionID (dialPacket d)) s (attach d now s).
Proof.
  intros Hok. unfold attach. destruct (record_of (dialPacket d) s) as [r |]; [| apply serves_ok]. destruct (objects r !! dialStream d) as [[q v] |]; [| apply serves_ok].
  eapply serves_bind; [done | apply on_record_runs; [done | apply keeps_attach] | intros s' _ _; apply serves_ok].
Qed.
#[local] Hint Resolve attach_serves : server.

Lemma end_job_runs d result done attached now s : server_ok s -> packet_typed (dialPacket d) -> runs (SessionID (dialPacket d)) s (end_job d result done attached now s).
Proof.
  intros Hok Hp. unfold end_job. eapply runs_bind; [done | | intros s' Hok' _; eexists; split; [reflexivity | by apply finish_touches]].
  destruct result as [err timedOut | |]; serve.
Qed.

(** A worker of a pool makes a step. *)
Inductive work_step : Server -> Server -> Prop :=
| work_dns s p p' : deferredDNSSession s = Some p -> pool_work p p' -> work_step s (s <| deferredDNSSession := Some p' |>)
| work_connect s p p' : deferredConnectSession s = Some p -> pool_work p p' -> work_step s (s <| deferredConnectSession := Some p' |>).

Lemma work_ok s s' : work_step s s' -> server_ok s -> server_ok s' /\ settings s' = settings s /\ sessions s' = sessions s /\ waiting s' ⊆+ waiting s.
Proof.
  intros Hw [A B C E F]. apply Forall_app in B as [B1 B2]. destruct Hw as [s p p' Hs Hp | s p p' Hs Hp]; rewrite Hs in *.
  - destruct (pool_work_law p p' (Forall_inv B1) Hp) as [Hok Hq]. split_and!; [split; try done; [constructor; done | by eapply (granted_descends s), F; [| by apply descends_byID]] | done | done |].
    rewrite !waiting_eq. cbn. rewrite Hs. cbn. by apply submseteq_app.
  - destruct (pool_work_law p p' (Forall_inv B2) Hp) as [Hok Hq]. split_and!; [split; try done; [apply Forall_app; by repeat constructor | by eapply (granted_descends s), F; [| by apply descends_byID]] | done | done |].
    rewrite !waiting_eq. cbn. rewrite Hs. cbn. by apply submseteq_app.
Qed.

(** ** The cleanup *)

(** The invariant alone, for steps over many sessions. *)
Definition keeps s (c : outcome blocked Server) : Prop := exists s', c = Ok s' /\ server_ok s' /\ settings s' = settings s.

Lemma runs_keeps id s c : server_ok s -> runs id s c -> keeps s c.
Proof. intros Hok (s' & -> & T). exists s'. split_and!; [done | by eapply touches_ok | apply T]. Qed.

Lemma keeps_bind s c k : keeps s c -> (forall s', server_ok s' -> keeps s' (k s')) -> keeps s (obind c k).
Proof. intros (s1 & -> & Hok & E1) Hk. destruct (Hk s1 Hok) as (s2 & E & Hok2 & E2). exists s2. split_and!; [exact E | done | congruence]. Qed.

Lemma swept_keeps l : forall s, server_ok s -> keeps s (cleanup_swept l s).
Proof.
  induction l as [| [id sts] l IH]; intros s Hok; cbn [cleanup_swept]; [by exists s |].
  apply keeps_bind; [by eapply runs_keeps, cleanup_streams_runs | done].
Qed.

Lemma idle_keeps l : forall s, server_ok s -> keeps s (cleanup_idle l s).
Proof.
  induction l as [| [id last] l IH]; intros s Hok; cbn [cleanup_idle]; [by exists s |].
  apply keeps_bind; [by eapply runs_keeps, cleanupIdle_runs | done].
Qed.

Lemma expired_keeps now l : Forall (fun e : Z * sessionRecord => e.1 <> 0) l -> forall s, server_ok s -> keeps s (cleanup_expired l now s).
Proof.
  induction 1 as [| [id r] l H0 _ IH]; intros s Hok; cbn [cleanup_expired]; [by exists s |].
  apply keeps_bind; [| done]. destruct (cleanupClosed_runs id r now s H0 Hok) as (s' & E & T & _). eapply runs_keeps; [done | by exists s'].
Qed.

Lemma expired_ids now idle retention l : Forall (fun x => x <> 0) l -> forall ids t, Forall (fun e : Z * sessionRecord => e.1 <> 0) ids ->
  Forall (fun e : Z * sessionRecord => e.1 <> 0) (fold_left (cleanup_session now idle retention) l (ids, t)).1.
Proof.
  induction 1 as [| x l Hx _ IH]; intros ids t Hids; [done |]. cbn [fold_left]. unfold cleanup_session at 2.
  destruct (byID t !! x) as [r |]; [| by apply IH]. case_if; [by apply IH |]. apply IH, Forall_app. split; [done | by repeat constructor].
Qed.

Lemma Cleanup_ids now idle retention t : Forall (fun e : Z * sessionRecord => e.1 <> 0) (SessionStore.Cleanup now idle retention t).1.
Proof.
  unfold SessionStore.Cleanup. case_if; [constructor |]. apply expired_ids; [| constructor]. apply Forall_forall. intros x Hx%elem_of_seqZ. lia.
Qed.

Lemma store_keeps s t : store_ok t -> descends (sessions s) t -> server_ok s -> server_ok (s <| sessions := t |>).
Proof. intros Ht Hd [A B C E F]. split; try done. by eapply (granted_descends s). Qed.

Lemma cleanup_keeps sweep now s : server_ok s -> keeps s (cleanup_turn sweep now s).
Proof.
  intros Hok. unfold cleanup_turn. pose proof (sv_sessions _ Hok) as H0.
  match goal with |- context [SessionStore.Cleanup ?a ?b ?c ?t] => pose proof (store_step_ok t (StCleanup a b c) H0 I) as H1; pose proof (Cleanup_ids a b c t) as He; pose proof (cleanup_descends a b c t H0) as D1; cbn [store_step] in H1; destruct (SessionStore.Cleanup a b c t) as [expired t1] end.
  match goal with |- context [CollectIdleDeferredSessions ?a ?b ?t] => pose proof (store_step_ok t1 (StCollect a b) H1 I) as H2; pose proof (collect_descends a b t1) as D2; cbn [store_step] in H2; destruct (CollectIdleDeferredSessions a b t) as [idle t2] end.
  pose proof (store_step_ok t2 (StSweepTerminal now (ServerCfg.TerminalStreamRetention (cfg s))) H2 I) as H3. cbn [store_step fst snd] in *.
  pose proof (descends_trans _ _ _ D1 (descends_trans _ _ _ D2 (descends_same _ _ (sweepTerminal_same now (ServerCfg.TerminalStreamRetention (cfg s)) t2)))) as D3.
  destruct (swept_keeps (swept t2 (SweepTerminalStreams now (ServerCfg.TerminalStreamRetention (cfg s)) t2)) _ (store_keeps s _ H3 D3 Hok)) as (s1 & E1 & Hok1 & Es1).
  rewrite E1. cbn [obind].
  set (s2 := if sweep then s1 <| sessions ::= SweepRecentlyClosedStreams now |> else s1).
  assert (server_ok s2 /\ settings s2 = settings s1) as [Hok2 Es2].
  { unfold s2. destruct sweep; [| done]. split; [| done]. apply store_keeps; [| apply descends_same, sweepClosed_same | done]. exact (store_step_ok _ (StSweepClosed now) (sv_sessions _ Hok1) I). }
  clearbody s2. match goal with |- context [cleanup_idle idle ?x] => set (s3 := x) end.
  assert (server_ok s3 /\ settings s3 = settings s2) as [Hok3 Es3].
  { split; [| done]. destruct Hok2 as [A B C E F]. split; try done; [by apply purge_typed | by eapply (granted_descends s2), F; [| by apply descends_byID]]. }
  clearbody s3. destruct (idle_keeps idle s3 Hok3) as (s4 & E4 & Hok4 & Es4). rewrite E4. cbn [obind].
  destruct (expired_keeps now expired He s4 Hok4) as (s5 & E5 & Hok5 & Es5). exists s5. split_and!; [done | done | ].
  rewrite Es5, Es4, Es3, Es2, Es1. done.
Qed.
End jobs.
