(* ===== verification/ServerLife.v ===== *)
(** Everything a server can reach.

    The server is started by [New] with pools of deferred_session.go; then datagrams, steps of
    the workers, beginnings and ends of jobs, events of streams and turns of the cleanup loop
    follow each other in any order (src/masterdns/internal/udpserver/). *)

From stdpp Require Import base tactics list gmap strings sorting.
From Stdlib Require Import ZArith Lia.
From S2P Require Import Prelude Enums Mlq SessionAccept FragmentStore Compression Security VpnProto DnsParser DnsTransport DnsQuery DomainMatcher.
From S2P Require Import GoFloat ArqState Arq TxQueue ArqData ArqControl ArqEvents GoHeap Session SessionInv SessionServe SessionServeInv SessionFair SessionReach SessionStore SessionStoreInv SessionLife.
From S2P Require Import CookieTracker DeferredSession DeferredPool DeferredTracking NetIP SocksProto ServerConfig VpnTyped ServerState ServerPackets ServerIngress ServerInv ServerDeferred ServerReach ServerJobs.
Import Session.

Abbreviation processor := (@deferredSessionProcessor job).

(** The server with its own pools. *)
Definition start_server (cpus : Z) (c : ServerCfg.ServerConfig) (cdc : Codec) : Server (P := processor) :=
  New newDeferredSessionProcessor cpus c (Some cdc).

Section life.
Context `{CR : Crypto} {CL : CryptoLaws CR} {TC : TypedCrypto CR} `{CP : Compressors} {TP : TypedCompressors CP}.
Abbreviation Server := (Server (P := processor)).
Implicit Types s : Server.

(** A step of the server: a datagram, a worker, the begin and the end of a job, an event of a
    stream, a turn of the cleanup. *)
Inductive server_step : Server -> Server -> Prop :=
| step_datagram s packet now entropy b s' : 0 < now -> entropy_ok entropy -> safeHandlePacket packet now entropy s = Ok (b, s') -> server_step s s'
| step_worker s s' : work_step s s' -> server_step s s'
| step_begin s j ctxDone raw now d s' : packet_typed (jobPacket j) -> begin_job j ctxDone raw now s = Ok (d, s') -> server_step s s'
| step_end s d result ctxDone attached now s' : packet_typed (dialPacket d) -> end_job d result ctxDone attached now s = Ok s' -> server_step s s'
| step_stream s sessionID a now e s' : on_record sessionID (streamEvent a now e) s = Ok s' -> server_step s s'
| step_cleanup s sweep now s' : cleanup_turn sweep now s = Ok s' -> server_step s s'.

Inductive server_reachable (s0 : Server) : Server -> Prop :=
| reach_start : server_reachable s0 s0
| reach_next s s' : server_reachable s0 s -> server_step s s' -> server_reachable s0 s'.

Lemma start_ok cpus c m rawKey cdc : bytes_ok rawKey -> NewCodec m rawKey = Ok cdc ->
  server_ok (start_server cpus c cdc) /\ codec_typed (codec (start_server cpus c cdc)).
Proof.
  intros Hk Hc. unfold start_server, New. destruct (splitDeferredSessionPools _ _) as [[w1 q1] [w2 q2]]. split; [split |]; cbn.
  - exact (server_store_ok _ _ _).
  - unfold pools. cbn. apply Forall_app. split.
    + destruct (newDeferredSessionProcessor w1 q1) as [p |] eqn:E; [| constructor]. constructor; [by apply (new_pool_ok w1 q1) | constructor].
    + destruct (newDeferredSessionProcessor w2 q2) as [p |] eqn:E; [| constructor]. constructor; [by apply (new_pool_ok w2 q2) | constructor].
  - exists ∅. apply tracks_new.
  - apply map_Forall_empty.
  - intros id r Hr. cbn in Hr. by rewrite lookup_empty in Hr.
  - intros k [= <-]. by destruct (NewCodec_key m rawKey cdc Hk Hc) as (_ & _ & H & _).
Qed.

Lemma safe_handled packet now entropy s : server_ok s -> codec_typed (codec s) -> 0 < now -> entropy_ok entropy ->
  exists b s', safeHandlePacket packet now entropy s = Ok (b, s') /\ settings s' = settings s /\ server_ok s'.
Proof.
  intros Hok Hc Hnow He. destruct (packet_handled packet now entropy s Hok Hc Hnow He) as (a & s' & E & Hs & Hok' & _).
  unfold safeHandlePacket. rewrite E. cbn [obind]. by eexists _, s'.
Qed.

Lemma step_ok s s' : server_step s s' -> server_ok s -> codec_typed (codec s) -> server_ok s' /\ settings s' = settings s.
Proof.
  intros Hst Hok Hc. destruct Hst as [s packet now entropy b s' Hnow He E | s s' Hw | s j cd raw now d s' Hj E | s d res cd at' now s' Hd E | s id a now e s' E | s sweep now s' E].
  - destruct (safe_handled packet now entropy s Hok Hc Hnow He) as (b' & s1 & E1 & Hs & Hok1). rewrite E in E1. by injection E1 as _ <-.
  - by destruct (work_ok _ _ Hw Hok) as (H1 & H2 & _).
  - destruct (begin_job_serves j cd raw now s Hok Hj) as (d' & s1 & E1 & T). rewrite E in E1. simplify_eq. split; [by eapply touches_ok | apply T].
  - destruct (end_job_runs d res cd at' now s Hok Hd) as (s1 & E1 & T). rewrite E in E1. simplify_eq. split; [by eapply touches_ok | apply T].
  - destruct (on_record_runs id (streamEvent a now e) s Hok (keeps_event _ _ _)) as (s1 & E1 & T). rewrite E in E1. simplify_eq. split; [by eapply touches_ok | apply T].
  - destruct (cleanup_keeps sweep now s Hok) as (s1 & E1 & Hok1 & Hs). rewrite E in E1. by injection E1 as <-.
Qed.

Lemma settings_codec s s' : settings s' = settings s -> codec s' = codec s.
Proof. unfold settings. by intros [=]. Qed.

Lemma server_reachable_ok cpus c m rawKey cdc s : bytes_ok rawKey -> NewCodec m rawKey = Ok cdc -> server_reachable (start_server cpus c cdc) s ->
  server_ok s /\ codec_typed (codec s).
Proof.
  intros Hk Hc. induction 1 as [| s s' _ [IH1 IH2] Hst]; [by eapply start_ok |]. destruct (step_ok s s' Hst IH1 IH2) as [H1 H2]. split; [done |].
  by rewrite (settings_codec _ _ H2).
Qed.

Lemma reachable_settings cpus c m rawKey cdc s : bytes_ok rawKey -> NewCodec m rawKey = Ok cdc -> server_reachable (start_server cpus c cdc) s ->
  settings s = settings (start_server cpus c cdc).
Proof.
  intros Hk Hc. induction 1 as [| s s' Hr IH Hst]; [done |]. destruct (server_reachable_ok _ _ _ _ _ _ Hk Hc Hr) as [H1 H2].
  by destruct (step_ok s s' Hst H1 H2) as [_ ->].
Qed.

(** C8: In every state that a server can reach, by datagrams, jobs, stream events and cleanup in
    any order, its table of sessions, its worker pools, its record of packets in flight and its
    fragments satisfy their invariants; and whatever datagram comes next, the handler returns
    (it neither waits for ever nor is left with a panic) and the invariants hold again; so do
    the next job, its end and the next turn of the cleanup. *)
Theorem server_invariant (cpus : Z) (c : ServerCfg.ServerConfig) (m : Z) (rawKey : bytes) (cdc : Codec) (s : Server) :
  bytes_ok rawKey -> NewCodec m rawKey = Ok cdc -> server_reachable (start_server cpus c cdc) s ->
  server_ok s /\
  (forall packet now entropy, 0 < now -> entropy_ok entropy -> exists b s', safeHandlePacket packet now entropy s = Ok (b, s') /\ server_ok s') /\
  (forall j ctxDone raw now, packet_typed (jobPacket j) -> exists d s', begin_job j ctxDone raw now s = Ok (d, s') /\ server_ok s') /\
  (forall d result ctxDone attached now, packet_typed (dialPacket d) -> exists s', end_job d result ctxDone attached now s = Ok s' /\ server_ok s') /\
  (forall sweep now, exists s', cleanup_turn sweep now s = Ok s' /\ server_ok s').
Proof.
  intros Hk Hc Hr. destruct (server_reachable_ok _ _ _ _ _ _ Hk Hc Hr) as [Hok Hcd]. split_and!; [done | | | |].
  - intros packet now entropy Hnow He. destruct (safe_handled packet now entropy s Hok Hcd Hnow He) as (b & s' & E & _ & H). by exists b, s'.
  - intros j cd raw now Hj. destruct (begin_job_serves j cd raw now s Hok Hj) as (d & s' & E & T). exists d, s'. split; [done | by eapply touches_ok].
  - intros d res cd at' now Hd. destruct (end_job_runs d res cd at' now s Hok Hd) as (s' & E & T). exists s'. split; [done | by eapply touches_ok].
  - intros sweep now. destruct (cleanup_keeps sweep now s Hok) as (s' & E & H & _). by exists s'.
Qed.

(** C10: Sessions are isolated.  A datagram changes a session or the jobs that wait for it only
    if it carries a packet with the number and the cookie of that session, or a SESSION_INIT,
    which creates a session in a free place or renews the activity of the one that has its
    signature.  A job changes the session of its packet only. *)
Theorem session_isolation (cpus : Z) (c : ServerCfg.ServerConfig) (m : Z) (rawKey : bytes) (cdc : Codec) (s : Server) :
  bytes_ok rawKey -> NewCodec m rawKey = Ok cdc -> server_reachable (start_server cpus c cdc) s ->
  (forall packet now entropy b s', 0 < now -> entropy_ok entropy -> safeHandlePacket packet now entropy s = Ok (b, s') ->
     isolated (carried_packet packet s) now s s') /\
  (forall j ctxDone raw now d s', packet_typed (jobPacket j) -> begin_job j ctxDone raw now s = Ok (d, s') -> affects (eq (SessionID (jobPacket j))) s s') /\
  (forall d result ctxDone attached now s', packet_typed (dialPacket d) -> end_job d result ctxDone attached now s = Ok s' ->
     affects (eq (SessionID (dialPacket d))) s s').
Proof.
  intros Hk Hc Hr. destruct (server_reachable_ok _ _ _ _ _ _ Hk Hc Hr) as [Hok Hcd]. split_and!.
  - intros packet now entropy b s' Hnow He E. destruct (packet_handled packet now entropy s Hok Hcd Hnow He) as (a & s1 & E1 & _ & _ & Hi & _).
    unfold safeHandlePacket in E. rewrite E1 in E. by injection E as _ <-.
  - intros j cd raw now d s' Hj E. destruct (begin_job_serves j cd raw now s Hok Hj) as (d' & s1 & E1 & T). rewrite E in E1. simplify_eq. by apply touches_affects.
  - intros d res cd at' now s' Hd E. destruct (end_job_runs d res cd at' now s Hok Hd) as (s1 & E1 & T). rewrite E in E1. simplify_eq. by apply touches_affects.
Qed.

(** C12: An authenticated SESSION_CLOSE leaves nothing behind: the session is out of the table,
    no job of it waits in a worker pool, no packet of it counts as in flight, so that a job that a
    worker took before but did not start yet does nothing, and no fragment of a query or a
    target is kept. *)
Theorem session_close_cleans (cpus : Z) (c : ServerCfg.ServerConfig) (m : Z) (rawKey : bytes) (cdc : Codec) (s : Server) packet p now entropy b s' :
  bytes_ok rawKey -> NewCodec m rawKey = Ok cdc -> server_reachable (start_server cpus c cdc) s -> 0 < now -> entropy_ok entropy ->
  carried_packet packet s = Some p -> PacketType p = PACKET_SESSION_CLOSE -> authentic p s (SessionID p) ->
  safeHandlePacket packet now entropy s = Ok (b, s') ->
  clean (SessionID p) s' /\
  (forall j ctxDone raw now', packet_typed (jobPacket j) -> SessionID (jobPacket j) = SessionID p ->
     exists s'', begin_job j ctxDone raw now' s' = Ok (None, s'') /\ sessions s'' = sessions s').
Proof.
  intros Hk Hc Hr Hnow He Hp Ht Ha E. destruct (server_reachable_ok _ _ _ _ _ _ Hk Hc Hr) as [Hok Hcd].
  destruct (packet_handled packet now entropy s Hok Hcd Hnow He) as (a & s1 & E1 & _ & _ & _ & Hcl).
  unfold safeHandlePacket in E. rewrite E1 in E. injection E as _ <-. pose proof (Hcl p Hp Ht Ha) as C. split; [done |].
  intros j cd raw now' [Hj _] Hid. unfold begin_job. rewrite (cl_tracked _ _ C _ Hj Hid). cbn [negb]. rewrite orb_true_r. by eexists.
Qed.
End life.

(** ** An example *)

(** A configuration of the example, with the domain "t.co". *)
#[local] Instance eta_config : Eta ServerCfg.ServerConfig := fun c =>
  ServerCfg.mkServerConfig (ServerCfg.ConfigDir c) (ServerCfg.ConfigPath c) (ServerCfg.ProtocolType c) (ServerCfg.UDPHost c)
    (ServerCfg.UDPPort c) (ServerCfg.FallbackAddress c) (ServerCfg.UDPReaders c) (ServerCfg.SocketBufferSize c)
    (ServerCfg.MaxConcurrentRequests c) (ServerCfg.DNSRequestWorkers c) (ServerCfg.DeferredSessionWorkers c)
    (ServerCfg.DeferredSessionQueueLimit c) (ServerCfg.MaxPacketSize c) (ServerCfg.DropLogIntervalSecs c)
    (ServerCfg.InvalidCookieWindowSecs c) (ServerCfg.InvalidCookieErrorThreshold c) (ServerCfg.SessionTimeoutSecs c)
    (ServerCfg.SessionCleanupIntervalSecs c) (ServerCfg.ClosedSessionRetentionSecs c) (ServerCfg.SessionInitReuseTTLSeconds c)
    (ServerCfg.RecentlyClosedStreamTTLSeconds c) (ServerCfg.RecentlyClosedStreamCap c)
    (ServerCfg.TerminalStreamRetentionSeconds c) (ServerCfg.MaxPacketsPerBatch c) (ServerCfg.PacketBlockControlDuplication c)
    (ServerCfg.DNSUpstreamServers c) (ServerCfg.DNSUpstreamTimeoutSecs c) (ServerCfg.DNSInflightWaitTimeoutSecs c)
    (ServerCfg.SOCKSConnectTimeoutSecs c) (ServerCfg.DNSFragmentAssemblyTimeoutSecs c) (ServerCfg.StreamSetupAckTTLSeconds c)
    (ServerCfg.StreamResultPacketTTLSeconds c) (ServerCfg.StreamFailurePacketTTLSeconds c) (ServerCfg.DNSCacheMaxRecords c)
    (ServerCfg.DNSCacheTTLSeconds c) (ServerCfg.UseExternalSOCKS5 c) (ServerCfg.SOCKS5Auth c) (ServerCfg.SOCKS5User c)
    (ServerCfg.SOCKS5Pass c) (ServerCfg.ForwardIP c) (ServerCfg.ForwardPort c) (ServerCfg.Domain c)
    (ServerCfg.MinVPNLabelLength c) (ServerCfg.SupportedUploadCompressionTypes c)
    (ServerCfg.SupportedDownloadCompressionTypes c) (ServerCfg.DataEncryptionMethod c) (ServerCfg.EncryptionKeyFile c)
    (ServerCfg.LogLevel c) (ServerCfg.ARQWindowSize c) (ServerCfg.ARQInitialRTOSeconds c) (ServerCfg.ARQMaxRTOSeconds c)
    (ServerCfg.ARQControlInitialRTOSeconds c) (ServerCfg.ARQControlMaxRTOSeconds c) (ServerCfg.ARQMaxControlRetries c)
    (ServerCfg.ARQInactivityTimeoutSeconds c) (ServerCfg.ARQDataPacketTTLSeconds c) (ServerCfg.ARQControlPacketTTLSeconds c)
    (ServerCfg.ARQMaxDataRetries c) (ServerCfg.ARQDataNackMaxGap c) (ServerCfg.ARQDataNackInitialDelaySeconds c)
    (ServerCfg.ARQDataNackRepeatSeconds c) (ServerCfg.ARQTerminalDrainTimeoutSec c) (ServerCfg.ARQTerminalAckWaitTimeoutSec c)
    (ServerCfg.MaxAllowedClientActiveSessions c) (ServerCfg.MaxAllowedClientActiveStreams c)
    (ServerCfg.ClientMaxPacketDuplicationCount c) (ServerCfg.ClientMaxSetupDuplicationCount c) (ServerCfg.ClientMaxUploadMTU c)
    (ServerCfg.ClientMaxDownloadMTU c) (ServerCfg.ClientMaxRxTxWorkers c) (ServerCfg.ClientMinPingAggressiveInterval c)
    (ServerCfg.ClientMaxPacketsPerBatch c) (ServerCfg.ClientMaxARQWindowSize c) (ServerCfg.ClientMaxARQDataNackMaxGap c)
    (ServerCfg.ClientMinCompressionMinSize c) (ServerCfg.ClientMinARQInitialRTOSeconds c).
#[local] Instance set_domain : Setter ServerCfg.Domain := ltac:(derive_setter).

Definition example_config : ServerCfg.ServerConfig := ServerCfg.defaultServerConfig <| ServerCfg.Domain := [ServerCfg.str "t.co"] |>.
Definition example_codec : Codec := match NewCodec (C := toy_crypto) 0 [1; 2; 3] with Ok c => c | _ => mkCodec 0 [] end.
Definition example_server : Server (P := processor) := start_server 2 example_config example_codec.

(** The query of a client with a packet. *)
Definition example_query (o : BuildOptions) : bytes :=
  match BuildEncodedAuto (CR := toy_crypto) (CP := rle_compressors) o (Some example_codec) toy_rnd 1 with
  | Ok text => match BuildTunnelTXTQuestionPacket (ServerCfg.str "t.co") text DNS_RECORD_TYPE_TXT 1232 0 with Ok (q, _) => q | _ => [] end
  | _ => []
  end.

(** A SESSION_INIT and the SESSION_CLOSE of the session it leads to. *)
Definition init_query : bytes := example_query (mkBuildOptions 0 PACKET_SESSION_INIT 0 0 0 0 0 0 [1; 0; 0; 100; 1; 0; 9; 8; 7; 6]).
Definition close_query : bytes := example_query (mkBuildOptions 1 PACKET_SESSION_CLOSE 5 0 0 0 0 0 []).

Abbreviation example_handle := (safeHandlePacket (CR := toy_crypto) (CP := rle_compressors) (P := processor)).

(** The server with the session. *)
Definition first_datagram : outcome blocked (option bytes * Server (P := processor)) := example_handle init_query 1000 (Some (replicate 32 5)) example_server.
Definition example_open : Server (P := processor) := match first_datagram with Ok (_, s) => s | _ => example_server end.

Lemma open_reachable : server_reachable (CR := toy_crypto) (CP := rle_compressors) example_server example_open.
Proof.
  assert (exists b, first_datagram = Ok (b, example_open)) as [b E] by (eexists; vm_compute; reflexivity).
  eapply reach_next; [apply reach_start |]. eapply step_datagram; [| | exact E]; [lia |]. split; [reflexivity |]. apply Forall_replicate. unfold u8; lia.
Qed.

Lemma example_key : bytes_ok [1; 2; 3] /\ NewCodec (C := toy_crypto) 0 [1; 2; 3] = Ok example_codec.
Proof. split; [repeat constructor; lia | vm_compute; reflexivity]. Qed.

Lemma server_invariant_witness : exists b s', example_handle close_query 2000 None example_open = Ok (b, s') /\ server_ok s'.
Proof.
  destruct example_key as [Hk Hc].
  destruct (server_invariant (CR := toy_crypto) (CP := rle_compressors) 2 example_config 0 [1; 2; 3] example_codec example_open Hk Hc open_reachable) as (_ & H & _).
  apply H; [lia | exact I].
Defined.

(** Session 1 is not changed by a query with another cookie. *)
Lemma session_isolation_witness : exists b s',
  example_handle (example_query (mkBuildOptions 1 PACKET_SESSION_CLOSE 6 0 0 0 0 0 [])) 2000 None example_open = Ok (b, s') /\
  byID (sessions s') !! 1 = byID (sessions example_open) !! 1.
Proof.
  destruct example_key as [Hk Hc].
  destruct (session_isolation (CR := toy_crypto) (CP := rle_compressors) 2 example_config 0 [1; 2; 3] example_codec example_open Hk Hc open_reachable) as (H & _).
  destruct (example_handle (example_query (mkBuildOptions 1 PACKET_SESSION_CLOSE 6 0 0 0 0 0 [])) 2000 None example_open) as [[b s'] | |] eqn:E;
    [| vm_compute in E; discriminate E ..].
  exists b, s'. split; [reflexivity |].
  destruct (H _ 2000 None b s' ltac:(lia) I E 1) as [(p & Hp & r & _ & Hr & Hck) | [_ [Hs | (p & Hp & Ht & _)]]]; [exfalso | exact Hs | exfalso].
  - vm_compute in Hp. injection Hp as <-. vm_compute in Hr. injection Hr as <-. vm_compute in Hck. discriminate Hck.
  - vm_compute in Hp. injection Hp as <-. vm_compute in Ht. discriminate Ht.
Defined.

(** What the second query carries. *)
Lemma close_query_packet : exists p, carried_packet (CR := toy_crypto) (CP := rle_compressors) close_query example_open = Some p /\
  SessionID p = 1 /\ PacketType p = PACKET_SESSION_CLOSE /\ authentic p example_open 1.
Proof.
  eexists. split; [vm_compute; reflexivity |]. split; [reflexivity |]. split; [reflexivity |].
  eexists. split; [reflexivity |]. split; [vm_compute; reflexivity | vm_compute; reflexivity].
Qed.

Lemma session_close_cleans_witness : is_Some (byID (sessions example_open) !! 1) /\
  exists b s', example_handle close_query 2000 None example_open = Ok (b, s') /\ clean 1 s'.
Proof.
  split; [vm_compute; by eexists |]. destruct example_key as [Hk Hc]. destruct close_query_packet as (p & Hp & H1 & H2 & Ha).
  assert (exists b s', example_handle close_query 2000 None example_open = Ok (b, s')) as (b & s' & E) by (eexists _, _; vm_compute; reflexivity).
  exists b, s'. split; [exact E |]. rewrite <- H1 in Ha |- *.
  refine (proj1 (session_close_cleans (CR := toy_crypto) (CP := rle_compressors) 2 example_config 0 [1; 2; 3] example_codec example_open close_query p 2000 None b s'
    Hk Hc open_reachable _ I Hp H2 Ha E)). lia.
Defined.
