(* ===== verification/ClientConn.v ===== *)
(** A resolver and tunnel domain as the client sees them: [Connection] of
    src/masterdns/internal/client/balancer.go. *)

From stdpp Require Import base list.
From Stdlib Require Import ZArith.
From S2P Require Import Prelude.

Module Conn.
Record Connection := mkConnection {
  Domain : bytes;
  Resolver : bytes;
  ResolverPort : Z;
  ResolverLabel : bytes;
  Key : bytes;
  IsValid : bool;
  UploadMTUBytes : Z;
  UploadMTUChars : Z;
  DownloadMTUBytes : Z;
  MTUResolveTime : Z;
  LastHealthCheckAt : Z
}.

#[export] Instance eta_connection : Eta Connection := fun c =>
  mkConnection (Domain c) (Resolver c) (ResolverPort c) (ResolverLabel c) (Key c) (IsValid c) (UploadMTUBytes c) (UploadMTUChars c)
    (DownloadMTUBytes c) (MTUResolveTime c) (LastHealthCheckAt c).
#[export] Instance set_IsValid : Setter IsValid := ltac:(derive_setter).
#[export] Instance set_UploadMTUBytes : Setter UploadMTUBytes := ltac:(derive_setter).
#[export] Instance set_UploadMTUChars : Setter UploadMTUChars := ltac:(derive_setter).
#[export] Instance set_DownloadMTUBytes : Setter DownloadMTUBytes := ltac:(derive_setter).
#[export] Instance set_MTUResolveTime : Setter MTUResolveTime := ltac:(derive_setter).
#[export] Instance set_LastHealthCheckAt : Setter LastHealthCheckAt := ltac:(derive_setter).
End Conn.
