(* ===== verification/ClientSession.v ===== *)
(** The session of the client: src/masterdns/internal/client/session.go, with
    [resetSessionState] of async_runtime.go, [encodedCharsForPacketPayload],
    [computeSafeUploadMTU] and [mtuCryptoOverhead] of mtu.go, the query builders of
    tunnel_query.go and the back-off between attempts of client.go.

    The state is what the handshake reads and writes of the struct [Client].  The settings that
    the server's policy limits are the record of SessionAccept.v.  What a resolver returns for a
    query, random bytes and the clock are arguments; log messages are left out, and so are the
    channels that [syncSessionPolicyDerivedState] makes anew. *)

From stdpp Require Import base tactics list strings.
From Stdlib Require Import ZArith Lia.
From S2P Require Import Prelude Enums GoFloat SessionAccept Compression Security VpnProto DnsParser DnsTransport ClientConn.

Module ClientSession.

Export Conn.

Record Client := mkClient {
  (** settings *)
  BaseEncodeData : bool;
  settings : SessionAcceptClientSettings;
  TunnelProcessWorkers : Z;
  UploadCompressionType : Z;
  DownloadCompressionType : Z;
  mtuCryptoOverhead : Z;
  codec : option Codec;
  (** session *)
  sessionID : Z;
  sessionCookie : Z;
  responseMode : Z;
  sessionReady : bool;
  sessionInitReady : bool;
  sessionInitBase64 : bool;
  sessionInitPayload : bytes;
  sessionInitVerify : bytes;
  sessionInitCursor : Z;
  sessionInitBusyUnix : Z;
  sessionResetPending : bool;
  (** negotiated *)
  uploadCompression : Z;
  downloadCompression : Z;
  syncedUploadMTU : Z;
  syncedDownloadMTU : Z;
  syncedUploadChars : Z;
  safeUploadMTU : Z;
  maxPackedBlocks : Z
}.

#[export] Instance eta_client : Eta Client := fun c =>
  mkClient (BaseEncodeData c) (settings c) (TunnelProcessWorkers c) (UploadCompressionType c) (DownloadCompressionType c)
    (mtuCryptoOverhead c) (codec c) (sessionID c) (sessionCookie c) (responseMode c) (sessionReady c) (sessionInitReady c)
    (sessionInitBase64 c) (sessionInitPayload c) (sessionInitVerify c) (sessionInitCursor c) (sessionInitBusyUnix c)
    (sessionResetPending c) (uploadCompression c) (downloadCompression c) (syncedUploadMTU c) (syncedDownloadMTU c)
    (syncedUploadChars c) (safeUploadMTU c) (maxPackedBlocks c).
#[export] Instance set_settings : Setter settings := ltac:(derive_setter).
#[export] Instance set_workers : Setter TunnelProcessWorkers := ltac:(derive_setter).
#[export] Instance set_uploadType : Setter UploadCompressionType := ltac:(derive_setter).
#[export] Instance set_downloadType : Setter DownloadCompressionType := ltac:(derive_setter).
#[export] Instance set_sessionID : Setter sessionID := ltac:(derive_setter).
#[export] Instance set_sessionCookie : Setter sessionCookie := ltac:(derive_setter).
#[export] Instance set_responseMode : Setter responseMode := ltac:(derive_setter).
#[export] Instance set_sessionReady : Setter sessionReady := ltac:(derive_setter).
#[export] Instance set_initReady : Setter sessionInitReady := ltac:(derive_setter).
#[export] Instance set_initBase64 : Setter sessionInitBase64 := ltac:(derive_setter).
#[export] Instance set_initPayload : Setter sessionInitPayload := ltac:(derive_setter).
#[export] Instance set_initVerify : Setter sessionInitVerify := ltac:(derive_setter).
#[export] Instance set_initCursor : Setter sessionInitCursor := ltac:(derive_setter).
#[export] Instance set_initBusy : Setter sessionInitBusyUnix := ltac:(derive_setter).
#[export] Instance set_resetPending : Setter sessionResetPending := ltac:(derive_setter).
#[export] Instance set_upload : Setter uploadCompression := ltac:(derive_setter).
#[export] Instance set_download : Setter downloadCompression := ltac:(derive_setter).
#[export] Instance set_syncedUp : Setter syncedUploadMTU := ltac:(derive_setter).
#[export] Instance set_syncedDown : Setter syncedDownloadMTU := ltac:(derive_setter).
#[export] Instance set_syncedChars : Setter syncedUploadChars := ltac:(derive_setter).
#[export] Instance set_safe : Setter safeUploadMTU := ltac:(derive_setter).
#[export] Instance set_blocks : Setter maxPackedBlocks := ltac:(derive_setter).

Inductive init_error := ErrSessionInitFailed | ErrSessionInitBusy | ErrNoValidConnections | ErrRandom | ErrExchange.

Definition mtuProbeBase64Reply : Z := 1.
Definition sessionInitPayloadSize : Z := 10.
Definition sessionBusyPayloadSize : Z := 4.
Definition EDnsSafeUDPSize : Z := 4096.
Definition RuntimeUDPReadBufferSize : Z := 65535.

(** ** The state of a handshake *)

Definition resetSessionInitStateLocked (c : Client) : Client :=
  c <| sessionInitPayload := [] |> <| sessionInitVerify := make_bytes 4 |> <| sessionInitBase64 := false |>
    <| sessionInitReady := false |> <| sessionInitCursor := 0 |>.

Definition setSessionInitBusyUntil (deadline : Z) (c : Client) : Client := c <| sessionInitBusyUnix := deadline |>.
Definition clearSessionInitBusyUntil (c : Client) : Client := c <| sessionInitBusyUnix := 0 |>.
Definition clearSessionResetPending (c : Client) : Client := c <| sessionResetPending := false |>.

Definition resetSessionState (resetSessionCookie : bool) (c : Client) : Client :=
  let c := c <| sessionReady := false |> <| sessionID := 0 |> in
  let c := if resetSessionCookie then c <| sessionCookie := 0 |> else c in
  let c := c <| responseMode := 0 |> in
  resetSessionInitStateLocked (clearSessionInitBusyUntil c).

(** [random] is what [randomBytes(4)] delivers. *)
Definition buildSessionInitPayload (random : option bytes) (c : Client) : outcome init_error (bytes * bool * bytes) :=
  match random with
  | None => Err ErrRandom
  | Some verifyCode =>
      let mode := if BaseEncodeData c then mtuProbeBase64Reply else 0 in
      let payload := [mode; PackPair (uploadCompression c) (downloadCompression c)]
                       ++ be16 (wrap16 (syncedUploadMTU c)) ++ be16 (wrap16 (syncedDownloadMTU c)) ++ verifyCode in
      Ok (payload, mode =? mtuProbeBase64Reply, verifyCode)
  end.

(** The first valid connection from the cursor on, with the next cursor. *)
Fixpoint next_valid (checked : nat) (start : Z) (active : list Connection) : option (Connection * Z) :=
  match checked with
  | O => None
  | S checked =>
      let idxInValid := start mod len active in
      match active !! Z.to_nat idxInValid with
      | Some conn =>
          if negb (IsValid conn) || bool_decide (Key conn = []) then next_valid checked (start + 1) active
          else Some (conn, (idxInValid + 1) mod len active)
      | None => None
      end
  end.

Definition nextSessionInitAttempt (random : option bytes) (active : list Connection) (c : Client) :
    outcome init_error (Connection * bytes * bytes) * Client :=
  let ready :=
    if sessionInitReady c then Ok c
    else
      let! (payload, responseBase64, verifyCode) := buildSessionInitPayload random c in
      Ok (c <| sessionInitPayload := payload |> <| sessionInitBase64 := responseBase64 |> <| sessionInitVerify := verifyCode |>
            <| sessionInitReady := true |> <| sessionInitCursor := 0 |>) in
  match ready with
  | Err e => (Err e, c)
  | Panic => (Panic, c)
  | Ok c =>
      if len active =? 0 then (Err ErrNoValidConnections, c)
      else match next_valid (length active) (sessionInitCursor c) active with
      | Some (conn, cursor) => (Ok (conn, sessionInitPayload c, sessionInitVerify c), c <| sessionInitCursor := cursor |>)
      | None => (Err ErrNoValidConnections, c)
      end
  end.

(** ** The policy of the server *)

Definition deriveSessionPolicyTunnelProcessWorkers (current rxWorkers : Z) : Z :=
  let rxWorkers := if rxWorkers <? 1 then 1 else rxWorkers in
  let recommended := Z.max 4 (rxWorkers + 1) in
  let recommended := if 256 <? recommended then 256 else recommended in
  let current := if current <? recommended then recommended else current in
  if current <? rxWorkers then rxWorkers else if 256 <? current then 256 else current.

Definition computeSafeUploadMTU (uploadMTU cryptoOverhead : Z) : Z :=
  if uploadMTU <=? 0 then 0
  else
    let safe := uploadMTU - cryptoOverhead in
    let safe := if safe <? 64 then 64 else safe in
    if uploadMTU <? safe then uploadMTU else safe.

Definition mtuCryptoOverhead_of (method : Z) : Z :=
  if method =? 2 then 16 else if (method =? 3) || (method =? 4) || (method =? 5) then 28 else 0.

Section client.
Context `{CR : Crypto} `{CP : Compressors}.

(** The length of a query text for a payload; the content of the pooled buffer does not
    matter for it. *)
Definition encodedCharsForPacketPayload (packetType payloadLen : Z) (rnd : Z -> option bytes) (c : Client) : Z :=
  if payloadLen <=? 0 then 0
  else if RuntimeUDPReadBufferSize <? payloadLen then 0
  else match BuildEncoded (mkBuildOptions 255 packetType 255 65535 65535 255 255 255 (make_bytes payloadLen)) (codec c) rnd with
  | Ok encoded => len encoded
  | Err _ | Panic => 0
  end.

Definition encodedCharsForPayload (payloadLen : Z) (rnd : Z -> option bytes) (c : Client) : Z :=
  encodedCharsForPacketPayload MaxHeaderPacketType payloadLen rnd c.

Definition syncSessionPolicyDerivedState (rnd : Z -> option bytes) (c : Client) : Client :=
  let c :=
    if 0 <? syncedUploadMTU c then
      let c := c <| syncedUploadMTU ::= fun mtu => Z.min mtu (sMaxUploadMTU (settings c)) |> in
      let c := c <| syncedUploadChars := encodedCharsForPayload (syncedUploadMTU c) rnd c |> in
      let c := c <| safeUploadMTU := computeSafeUploadMTU (syncedUploadMTU c) (mtuCryptoOverhead c) |> in
      c <| maxPackedBlocks := CalculateMaxPackedBlocks (syncedUploadMTU c) 80 (sMaxPacketsPerBatch (settings c)) |>
    else c <| syncedUploadChars := 0 |> <| safeUploadMTU := 0 |> <| maxPackedBlocks := 1 |> in
  if 0 <? syncedDownloadMTU c then c <| syncedDownloadMTU ::= fun mtu => Z.min mtu (sMaxDownloadMTU (settings c)) |> else c.

Definition applySessionClientPolicy (policy : SessionAcceptClientPolicy) (rnd : Z -> option bytes) (c : Client) : Client :=
  let c := c <| settings ::= fun before => ApplySessionAcceptClientPolicy before policy |> in
  let c := c <| TunnelProcessWorkers ::= fun n => deriveSessionPolicyTunnelProcessWorkers n (RXTXWorkers (settings c)) |> in
  syncSessionPolicyDerivedState rnd c.

(** One direction of [applySessionCompressionPolicy]: the type in force, and whether the setting
    is switched off with it. *)
Definition compression_in_force (mtu minSize t : Z) : Z * bool :=
  let t := NormalizeAvailableType t in
  if (0 <? mtu) && (mtu <? 100) then (TypeOff, true)
  else if (0 <? mtu) && (mtu <=? minSize) then (TypeOff, false)
  else (t, false).

Definition applySessionCompressionPolicy (c : Client) : Client :=
  let minSize := CompressionMinSize (settings c) in
  let minSize := if minSize <=? 0 then DefaultMinSize else minSize in
  let '(upload, offUp) := compression_in_force (syncedUploadMTU c) minSize (uploadCompression c) in
  let c := if offUp then c <| UploadCompressionType := TypeOff |> else c in
  let '(download, offDown) := compression_in_force (syncedDownloadMTU c) minSize (downloadCompression c) in
  let c := if offDown then c <| DownloadCompressionType := TypeOff |> else c in
  c <| uploadCompression := upload |> <| downloadCompression := download |>.

Definition applySyncedMTUState (uploadMTU downloadMTU uploadChars : Z) (c : Client) : Client :=
  let c := c <| syncedUploadMTU := uploadMTU |> <| syncedDownloadMTU := downloadMTU |> <| syncedUploadChars := uploadChars |> in
  let c := c <| safeUploadMTU := computeSafeUploadMTU uploadMTU (mtuCryptoOverhead c) |>
             <| maxPackedBlocks := CalculateMaxPackedBlocks uploadMTU 80 (sMaxPacketsPerBatch (settings c)) |> in
  applySessionCompressionPolicy c.

(** ** The answer of the server *)

Definition applySessionInitPacket (packet : Packet) (initPayload verifyCode : bytes) (busyUntil : Z) (rnd : Z -> option bytes) (c : Client) :
    outcome init_error unit * Client :=
  if sessionReady c then (Ok tt, c)
  else if PacketType packet =? PACKET_SESSION_BUSY then
    if (len (Payload packet) <? sessionBusyPayloadSize) || negb (bool_decide (take 4 (Payload packet) = verifyCode))
    then (Err ErrSessionInitFailed, c)
    else (Err ErrSessionInitBusy, setSessionInitBusyUntil busyUntil c)
  else if PacketType packet =? PACKET_SESSION_ACCEPT then
    match DecodeSessionAcceptPayload (Payload packet) with
    | Panic => (Panic, c)
    | Err _ => (Err ErrSessionInitFailed, c)
    | Ok sessionAccept =>
        if negb (bool_decide (VerifyCode sessionAccept = verifyCode)) then (Err ErrSessionInitFailed, c)
        else match SplitPair (CompressionPair sessionAccept) with
        | Err _ | Panic => (Panic, c)
        | Ok (upload, download) =>
            let c := c <| sessionID := SessionAccept.SessionID sessionAccept |> <| sessionCookie := SessionAccept.SessionCookie sessionAccept |>
                       <| responseMode := nth 0 initPayload 0 |> <| uploadCompression := upload |> <| downloadCompression := download |> in
            let c := if HasClientPolicySync sessionAccept then applySessionClientPolicy (ClientPolicy sessionAccept) rnd c else c in
            let c := applySessionCompressionPolicy (c <| sessionReady := true |>) in
            (Ok tt, clearSessionResetPending (resetSessionInitStateLocked (clearSessionInitBusyUntil c)))
        end
    end
  else (Err ErrSessionInitFailed, c).

(** ** Attempts *)

Definition buildTunnelTXTQueryRaw (domain : bytes) (options : BuildOptions) (rnd : Z -> option bytes) (counter : Z) (c : Client) :
    outcome init_error (bytes * Z) :=
  let! raw := map_err (fun _ => ErrSessionInitFailed) (BuildRaw options) in
  let! encoded := map_err (fun _ => ErrSessionInitFailed) (EncryptAndEncodeBytes (codec c) rnd raw) in
  map_err (fun _ => ErrSessionInitFailed) (BuildTunnelTXTQuestionPacket domain encoded DNS_RECORD_TYPE_TXT EDnsSafeUDPSize counter).

Definition buildTunnelQuery (domain : bytes) (id packetType : Z) (payload : bytes) (rnd : Z -> option bytes) (counter : Z) (c : Client) :
    outcome init_error (bytes * Z) :=
  buildTunnelTXTQueryRaw domain (mkBuildOptions id packetType 0 0 0 0 0 0 payload) rnd counter c.

Definition buildSessionQuery (domain : bytes) (packetType : Z) (payload : bytes) (rnd : Z -> option bytes) (counter : Z) (c : Client) :
    outcome init_error (bytes * Z) :=
  buildTunnelQuery domain 0 packetType payload rnd counter c.

(** [exchangeDNSOverConnection] with the message that came back. *)
Definition exchange_result (response : option bytes) (c : Client) : option Packet :=
  match response with
  | None => None
  | Some response => match ExtractVPNResponse response (responseMode c =? mtuProbeBase64Reply) with Ok p => Some p | _ => None end
  end.

(** The answers of the racing queries in the order they come; the list ends with the safety
    timeout. *)
Fixpoint wait_phase (turns : nat) (responses : list (option bytes)) (initPayload verifyCode : bytes) (lastErr : option init_error) (busyUntil : Z)
    (rnd : Z -> option bytes) (c : Client) : outcome init_error unit * Client :=
  match turns, responses with
  | O, _ => (Err (default ErrSessionInitFailed lastErr), c)
  | _, [] => (Err ErrSessionInitFailed, c)
  | S turns, response :: responses =>
      match exchange_result response c with
      | None => wait_phase turns responses initPayload verifyCode (Some ErrExchange) busyUntil rnd c
      | Some packet =>
          match applySessionInitPacket packet initPayload verifyCode busyUntil rnd c with
          | (Ok _, c) => (Ok tt, c)
          | (Err ErrSessionInitBusy, c) => (Err ErrSessionInitBusy, c)
          | (Err _, c) => wait_phase turns responses initPayload verifyCode None busyUntil rnd c
          | (Panic, c) => (Panic, c)
          end
      end
  end.

Definition racingCount : nat := 3.

(** What the environment gives an attempt. *)
Record attempt_input := mkAttempt {
  inRandom : option bytes;
  inActive : list Connection;
  inResponses : list (option bytes);
  inBusyUntil : Z
}.

Definition initializeSessionRequest (input : attempt_input) (rnd : Z -> option bytes) (counter : Z) (c : Client) : outcome init_error unit * Client :=
  let '(attempt, c) := nextSessionInitAttempt (inRandom input) (inActive input) c in
  match attempt with
  | Err e => (Err e, c)
  | Panic => (Panic, c)
  | Ok (conn, initPayload, verifyCode) =>
      match buildSessionQuery (Domain conn) PACKET_SESSION_INIT initPayload rnd counter c with
      | Panic => (Panic, c)
      | Err _ => (Err ErrSessionInitFailed, c)
      | Ok _ => wait_phase racingCount (inResponses input) initPayload verifyCode None (inBusyUntil input) rnd c
      end
  end.

Fixpoint initialize_loop (inputs : list attempt_input) (rnd : Z -> option bytes) (counter : Z) (c : Client) : outcome init_error unit * Client :=
  match inputs with
  | [] => (Err ErrSessionInitFailed, c)
  | input :: inputs =>
      match initializeSessionRequest input rnd counter c with
      | (Ok _, c) => (Ok tt, c)
      | (Err ErrNoValidConnections, c) => (Err ErrNoValidConnections, c)
      | (Err ErrSessionInitBusy, c) => (Err ErrSessionInitBusy, c)
      | (Err _, c) => initialize_loop inputs rnd counter c
      | (Panic, c) => (Panic, c)
      end
  end.

(** [InitializeSession] with one input per attempt. *)
Definition InitializeSession (inputs : list attempt_input) (rnd : Z -> option bytes) (counter : Z) (c : Client) : outcome init_error unit * Client :=
  if (syncedUploadMTU c <=? 0) || (syncedDownloadMTU c <=? 0) then (Err ErrSessionInitFailed, c)
  else initialize_loop inputs rnd counter c.

(** The query of [sendSessionCloseRound]. *)
Definition sessionCloseQuery (domain : bytes) (rnd : Z -> option bytes) (counter : Z) (c : Client) : outcome init_error (bytes * Z) :=
  buildTunnelTXTQueryRaw domain (mkBuildOptions (sessionID c) PACKET_SESSION_CLOSE (sessionCookie c) 0 0 0 0 0 []) rnd counter c.
End client.

(** The pause before the next attempt (client.go). *)
Definition nextSessionInitRetryDelay (failures linearAfter base step_ maxDelay : Z) : Z :=
  if failures <=? 0 then 0
  else
    let delay := if linearAfter <? failures then base + (failures - linearAfter) * step_ else base in
    if maxDelay <? delay then maxDelay else delay.
End ClientSession.
