(* ===== verification/Handshake.v ===== *)
(** The handshake between the client and the server.

    The client of ClientSession.v (src/masterdns/internal/client/session.go) asks for a session
    over a resolver, the server of ServerIngress.v (src/masterdns/internal/udpserver/) answers,
    and the client takes the answer over.  The theorems give the terms both sides hold after it
    ([agreed]), and what becomes of a client that asks again after a reset. *)

From stdpp Require Import base tactics list gmap strings sorting.
From Stdlib Require Import ZArith Lia.
From S2P Require Import Prelude Enums BaseCodec Base64 Mlq SessionAccept FragmentStore Compression Security VpnProto DnsParser DnsTransport DnsAnswers DnsQuery DomainMatcher.
From S2P Require Import GoFloat ArqState Arq TxQueue ArqData ArqControl ArqEvents GoHeap Session SessionInv SessionServe SessionServeInv SessionFair SessionReach SessionStore SessionStoreInv SessionLife.
From S2P Require Import CookieTracker DeferredSession DeferredPool DeferredTracking NetIP SocksProto ServerConfig VpnTyped ServerState ServerPackets ServerIngress ServerInv ServerDeferred ServerReach ServerJobs ServerLife ClientConn ClientSession.
Import Session.

#[local] Existing Instances ClientSession.set_sessionReady ClientSession.set_uploadType.

(** ** A query on its way *)

(** A resolver forwards a query with another identifier, other flags, another additional
    section and any mix of case.  If it adds an OPT record, that record is at the root. *)
Record relayed (question datagram : bytes) : Prop := {
  rl_bytes : bytes_ok datagram;
  rl_layout : exists id flags ar question' tail, datagram = message_header id flags 1 0 0 ar ++ question' ++ tail /\
    u16 id /\ u16 flags /\ u16 ar /\ isLikelyDNSRequestHeader (header_of id flags 1 0 0 ar) = true /\ ToLower question' = ToLower question;
  rl_root : forall h s l, parseHeader (E:=transport_error) datagram = Ok h ->
    findOPTRecordRange (E:=transport_error) datagram h (12 + len question) = Ok (s, l) -> 0 < l -> datagram !! Z.to_nat s = Some 0
}.

Lemma relayed_plain question datagram id flags ar ls tail : relayed question datagram ->
  datagram = message_header id flags 1 0 0 ar ++ (wire_name ls ++ be16 DNS_RECORD_TYPE_TXT ++ be16 1) ++ tail ->
  len (wire_name ls ++ be16 DNS_RECORD_TYPE_TXT ++ be16 1) = len question -> name_ok ls -> ls <> [] -> plain_query datagram ls.
Proof.
  intros [Hb _ Hr] -> Hl Hn Hne. split; try done.
  - exists (message_header id flags 1 0 0 ar), (be16 DNS_RECORD_TYPE_TXT ++ be16 1), tail. split; [by rewrite !(assoc_L (++)) |]. by split.
  - intros h s l Hh Hf Hpos. rewrite !len_app in Hl. change (len (be16 DNS_RECORD_TYPE_TXT) + len (be16 1)) with 4 in Hl.
    apply (Hr h s l Hh); [| done]. by rewrite <- Hl, Z.add_assoc.
Qed.

(** A resolver that leaves the additional section out. *)
Lemma relayed_bare question : bytes_ok question -> relayed question (message_header 77 0x0100 1 0 0 0 ++ question).
Proof.
  intros Hb. split.
  - apply bytes_ok_app. split; [| done]. repeat (apply bytes_ok_app; split); apply bytes_ok_be16.
  - exists 77, 0x0100, 0, question, []. rewrite app_nil_r. split_and!; try done; unfold u16; lia.
  - intros h s l Hh Hf Hl. rewrite parseHeader_message in Hh by (unfold u16; lia). injection Hh as <-.
    cbn in Hf. injection Hf as <- <-. lia.
Qed.

Lemma case_len b b' : ToLower b = ToLower b' -> len b = len b'.
Proof. intros H. unfold len. apply (f_equal length) in H. unfold ToLower in H. rewrite !length_map in H. by rewrite H. Qed.

Lemma sameDNSName_refl n : sameDNSName n n = true.
Proof.
  unfold sameDNSName, EqualFold. by rewrite bool_decide_true.
Qed.

Section queries.
Context `{CR : Crypto} {CRL : CryptoLaws CR} `{CP : Compressors} {CPL : CompressorLaws CP}.

(** The text of a packet that is not compressed. *)
Lemma raw_text o m rawKey c rnd : opts_ok o -> valid_type (oPacketType o) = true -> has (packet_flags (oPacketType o)) packetFlagCompression = false ->
  bytes_ok rawKey -> NewCodec m rawKey = Ok c -> rnd_ok rnd -> (m = 2 -> counter_fits rnd (wire o)) ->
  BuildRaw o = Ok (wire o) /\ exists text, EncryptAndEncodeBytes (Some c) rnd (wire o) = Ok text /\
    Forall (fun ch => ch ∈ lowerBase36Alphabet) text /\ ParseInflatedFromLabels text (Some c) = Ok (VpnProto.packet_of o).
Proof.
  intros Ho Hv Hx Hk Hc Hr Hf. split; [rewrite BuildRaw_wire by apply Ho; by rewrite Hv |].
  destruct (codec_roundtrip_text m rawKey c rnd (wire o) Hk Hc Hr (bytes_ok_wire o Ho) Hf) as (text & _ & He & Ha & Hd).
  exists text. split; [done |]. split; [done |]. destruct (alphabet_text text Ha) as (Htb & _ & _ & Htl).
  destruct (Hd text Htb Htl) as [_ Hdec].
  unfold ParseInflatedFromLabels, ParseFromLabels. destruct (Z.eqb_spec (len text) 0) as [H0 | H0].
  { apply len_zero in H0 as ->. rewrite DecodeStringAndDecrypt_nil in Hdec. injection Hdec as Hdec.
    unfold wire, header_bytes in Hdec. discriminate Hdec. }
  rewrite Hdec. cbn [map_err obind]. unfold wire. rewrite Parse_header, Hv, Z.eqb_refl by done. cbn [negb obind].
  unfold InflatePayload, VpnProto.packet_of. cbn. by rewrite Hx.
Qed.
End queries.

(** ** The client *)

(** The payload of SESSION_INIT: mode, compression pair, MTUs and verify code. *)
Definition init_form (base64 : bool) (payload verify : bytes) : Prop :=
  exists pair up down, payload = [if base64 then 1 else 0; pair] ++ be16 up ++ be16 down ++ verify /\
    u8 pair /\ u16 up /\ u16 down /\ len verify = 4 /\ bytes_ok verify.

(** The compression types are bytes, and a handshake under way has its payload. *)
Record client_ok (c : ClientSession.Client) : Prop := {
  cl_types : u8 (ClientSession.uploadCompression c) /\ u8 (ClientSession.downloadCompression c);
  cl_init : ClientSession.sessionInitReady c = true ->
    init_form (ClientSession.BaseEncodeData c) (ClientSession.sessionInitPayload c) (ClientSession.sessionInitVerify c)
}.

Lemma PackPair_byte up down : u8 up -> u8 down -> u8 (PackPair up down).
Proof.
  intros [Hu _] [Hd _]. replace (PackPair up down) with (PackPair (NormalizeType up) (NormalizeType down)).
  - apply PackPair_u8; unfold NormalizeType, TypeZLIB, TypeOff; case_if; zbool; lia.
  - unfold PackPair, NormalizeType, TypeZLIB, TypeOff. destruct (Z.leb_spec up 3), (Z.leb_spec down 3);
      rewrite ?(proj2 (Z.ltb_ge _ _)), ?(proj2 (Z.ltb_lt 3 _)) by lia; done.
Qed.

Lemma init_form_bytes base64 payload verify : init_form base64 payload verify -> init_payload payload /\ bytes_ok payload /\ len verify = 4 /\
  nth 0 payload 0 = (if base64 then 1 else 0) /\ take 4 (drop 6 payload) = verify.
Proof.
  intros (pair & up & down & -> & Hp & Hu & Hd & Hl & Hv). split_and!; [split | | done | done |].
  - rewrite !len_app, Hl. done.
  - by destruct base64.
  - repeat (apply bytes_ok_app; split); try done; [| apply bytes_ok_be16..]. repeat constructor; (by destruct base64) || (apply Hp).
  - change (drop 6 _) with verify. apply take_ge. unfold len in Hl. lia.
Qed.

Lemma next_valid_range n start active conn cursor : ClientSession.next_valid n start active = Some (conn, cursor) -> conn ∈ active.
Proof.
  revert start. induction n as [| n IH]; intros start; cbn; [done |]. destruct (active !! _) as [x |] eqn:Hx; [| done].
  destruct (negb _ || _); [apply IH |]. intros [= <- <-]. by eapply list_elem_of_lookup_2.
Qed.

(** What an attempt leaves alone. *)
Definition attempt_frame (c : ClientSession.Client) :=
  (ClientSession.BaseEncodeData c, ClientSession.codec c, ClientSession.responseMode c, ClientSession.sessionReady c).

(** What an attempt sends. *)
Lemma attempt_payload random active c conn payload verify c1 : client_ok c -> len random = 4 -> bytes_ok random ->
  ClientSession.nextSessionInitAttempt (Some random) active c = (Ok (conn, payload, verify), c1) ->
  init_form (ClientSession.BaseEncodeData c) payload verify /\ attempt_frame c1 = attempt_frame c /\ client_ok c1.
Proof.
  intros [[T1 T2] Hi] Hl Hb. unfold ClientSession.nextSessionInitAttempt, ClientSession.buildSessionInitPayload. cbn [obind].
  destruct (ClientSession.sessionInitReady c) eqn:Hr; cbn [obind]; (destruct (len active =? 0); [done |]);
    (destruct (ClientSession.next_valid _ _ _) as [[x cursor] |]; [| done]); intros [= <- <- <- <-].
  - split; [by apply Hi |]. split; [done |]. split; [done |]. intros _. by apply Hi.
  - match goal with |- init_form ?b ?p ?v /\ _ => assert (init_form b p v) as Hf end.
    { eexists _, (wrap16 _), (wrap16 _). split; [by destruct (ClientSession.BaseEncodeData c) |].
      split_and!; [by apply PackPair_byte | apply u16_wrap16 | apply u16_wrap16 | done | done]. }
    split; [exact Hf |]. split; [done |]. split; [done |]. intros _. exact Hf.
Qed.

(** An attempt keeps the settings and the MTUs, and a new handshake asks for what the client has. *)
Lemma attempt_request random active c conn payload verify c1 :
  ClientSession.nextSessionInitAttempt (Some random) active c = (Ok (conn, payload, verify), c1) ->
  ClientSession.settings c1 = ClientSession.settings c /\ ClientSession.syncedUploadMTU c1 = ClientSession.syncedUploadMTU c /\
  ClientSession.syncedDownloadMTU c1 = ClientSession.syncedDownloadMTU c /\
  (ClientSession.sessionInitReady c = false ->
   payload = [if ClientSession.BaseEncodeData c then 1 else 0; PackPair (ClientSession.uploadCompression c) (ClientSession.downloadCompression c)] ++
     be16 (wrap16 (ClientSession.syncedUploadMTU c)) ++ be16 (wrap16 (ClientSession.syncedDownloadMTU c)) ++ random).
Proof.
  unfold ClientSession.nextSessionInitAttempt, ClientSession.buildSessionInitPayload. cbn [obind].
  destruct (ClientSession.sessionInitReady c); cbn [obind]; (destruct (len active =? 0); [done |]);
    (destruct (ClientSession.next_valid _ _ _) as [[x cursor] |]; [| done]); intros [= <- <- <- <-]; by destruct (ClientSession.BaseEncodeData c).
Qed.

(** The type a server settles on for the one a client asks for. *)
Definition settled (supported : list Z) (t : Z) : Z := if bool_decide (t ∈ supported) then t else TypeOff.

(** The type a client uses, for the type of the session: none where its packets are too small. *)
Definition in_force (mtu minSize t : Z) : Z := if (0 <? mtu) && ((mtu <? 100) || (mtu <=? minSize)) then TypeOff else t.

(** An MTU that was found, under a new limit. *)
Definition limited (mtu limit : Z) : Z := if 0 <? mtu then Z.min mtu limit else mtu.

(** The client [c], which was [c0] before, and the server with configuration [cf] after an
    accepted request. *)
Record agreed (cf : ServerCfg.ServerConfig) (c0 c : ClientSession.Client) (store : sessionStore) (payload : bytes) (r : sessionRecord) : Prop := {
  ag_ready : ClientSession.sessionReady c = true;
  (** the session is the one of this request *)
  ag_record : byID store !! ClientSession.sessionID c = Some r;
  ag_request : Signature r = payload;
  ag_cookie : ClientSession.sessionCookie c = Cookie r;
  ag_mode : ClientSession.responseMode c = ResponseMode r;
  (** its compression types are the ones asked for, where the server supports them *)
  ag_types : exists up down, SplitPair (nth 1 payload 0) = Ok (up, down) /\
    UploadCompression r = settled (ServerCfg.SupportedUploadCompressionTypes cf) up /\
    DownloadCompression r = settled (ServerCfg.SupportedDownloadCompressionTypes cf) down;
  (** its MTUs are the ones asked for, within the limits of the server *)
  ag_mtus : UploadMTU r = granted_mtu (of_be16 (nth 2 payload 0) (nth 3 payload 0)) (ServerCfg.ClientMaxUploadMTU cf) /\
    DownloadMTU r = granted_mtu (of_be16 (nth 4 payload 0) (nth 5 payload 0)) (ServerCfg.ClientMaxDownloadMTU cf);
  (** the client has the policy of the server, as the answer carries it *)
  ag_settings : ClientSession.settings c = ApplySessionAcceptClientPolicy (ClientSession.settings c0) (on_wire (client_policy cf));
  ag_synced : ClientSession.syncedUploadMTU c = limited (ClientSession.syncedUploadMTU c0) (sMaxUploadMTU (ClientSession.settings c)) /\
    ClientSession.syncedDownloadMTU c = limited (ClientSession.syncedDownloadMTU c0) (sMaxDownloadMTU (ClientSession.settings c));
  (** and it compresses with the types of the session, unless its packets are too small *)
  ag_upload : ClientSession.uploadCompression c =
    in_force (ClientSession.syncedUploadMTU c) (CompressionMinSize (ClientSession.settings c)) (UploadCompression r);
  ag_download : ClientSession.downloadCompression c =
    in_force (ClientSession.syncedDownloadMTU c) (CompressionMinSize (ClientSession.settings c)) (DownloadCompression r);
  (** the handshake is over *)
  ag_over : ClientSession.sessionInitReady c = false /\ ClientSession.sessionResetPending c = false
}.

(** ** The compression types a server supports *)

Lemma mask_step t v mask : 0 <= t <= 3 -> Z.testbit (if (v <? TypeOff) || (TypeZLIB <? v) || negb (IsTypeAvailable (wrap8 v)) then mask
  else wrap8 (Z.lor mask (Z.shiftl 1 (wrap8 v)))) t = Z.testbit mask t || (v =? t).
Proof.
  intros Ht. unfold TypeOff, TypeZLIB. destruct (Z.ltb_spec v 0); [rewrite (proj2 (Z.eqb_neq v t)), orb_false_r by lia; done |].
  destruct (Z.ltb_spec 3 v); [rewrite (proj2 (Z.eqb_neq v t)), orb_false_r by lia; done |]. cbn [orb].
  assert (wrap8 v = v /\ IsTypeAvailable v = true) as [-> ->] by (assert (v = 0 \/ v = 1 \/ v = 2 \/ v = 3) as [-> | [-> | [-> | ->]]] by lia; done).
  cbn [negb]. unfold wrap8. change 256 with (2 ^ 8). rewrite Z.mod_pow2_bits_low, Z.lor_spec, Z.shiftl_1_l, Z.pow2_bits_eqb by lia. done.
Qed.

Lemma mask_bit l t : 0 <= t <= 3 -> Z.testbit (buildCompressionMask l) t = (t =? 0) || bool_decide (t ∈ l).
Proof.
  intros Ht. unfold buildCompressionMask.
  assert (forall mask, Z.testbit (fold_left (fun mask value => if (value <? TypeOff) || (TypeZLIB <? value) || negb (IsTypeAvailable (wrap8 value)) then mask
    else wrap8 (Z.lor mask (Z.shiftl 1 (wrap8 value)))) l mask) t = Z.testbit mask t || bool_decide (t ∈ l)) as H.
  { induction l as [| v l IH]; intros mask; cbn [fold_left]; [by rewrite orb_false_r |]. rewrite IH, mask_step, <- orb_assoc by done. f_equal.
    rewrite (bool_decide_ext _ _ (elem_of_cons l t v)). destruct (Z.eqb_spec v t) as [-> |]; cbn [orb].
    - symmetry. apply bool_decide_true. by left.
    - apply bool_decide_ext. split; [by right | by intros [-> |]]. }
  rewrite H. assert (t = 0 \/ t = 1 \/ t = 2 \/ t = 3) as [-> | [-> | [-> | ->]]] by lia; done.
Qed.

Lemma resolve_settled l t : 0 <= t <= 3 -> resolveCompressionType t (buildCompressionMask l) = settled l t.
Proof.
  intros Ht. unfold resolveCompressionType, settled, TypeZLIB, TypeOff. rewrite (proj2 (Z.leb_le t 3)) by lia. cbn [andb].
  pose proof (mask_bit l t Ht) as Hb. set (mask := buildCompressionMask l) in *. clearbody mask. rewrite Z.shiftl_1_l.
  assert ((Z.land mask (2 ^ t) =? 0) = negb (Z.testbit mask t)) as ->.
  { destruct (Z.testbit mask t) eqn:E; cbn [negb].
    - apply Z.eqb_neq. intros H0. apply (f_equal (fun x => Z.testbit x t)) in H0. by rewrite Z.land_spec, E, Z.pow2_bits_true, Z.bits_0 in H0 by lia.
    - apply Z.eqb_eq, Z.bits_inj'. intros i Hi. rewrite Z.land_spec, Z.pow2_bits_eqb, Z.bits_0 by lia. destruct (Z.eqb_spec t i) as [<- |]; by rewrite ?E, ?andb_false_r. }
  rewrite negb_involutive, Hb. destruct (Z.eqb_spec t 0) as [-> |]; cbn [orb]; [by destruct (bool_decide _) | done].
Qed.

Section answers.
Context `{CR : Crypto} `{CP : Compressors}.

(** What the policy of the server leaves alone. *)
Definition policy_frame (c : ClientSession.Client) :=
  (attempt_frame c, ClientSession.sessionID c, ClientSession.sessionCookie c, ClientSession.uploadCompression c, ClientSession.downloadCompression c,
   ClientSession.sessionInitReady c).

Lemma policy_leaves policy rnd c : policy_frame (ClientSession.applySessionClientPolicy policy rnd c) = policy_frame c.
Proof. unfold ClientSession.applySessionClientPolicy, ClientSession.syncSessionPolicyDerivedState. cbv zeta. by repeat case_if. Qed.

Lemma sync_effect rnd c :
  let c' := ClientSession.syncSessionPolicyDerivedState rnd c in
  ClientSession.settings c' = ClientSession.settings c /\
  ClientSession.syncedUploadMTU c' = limited (ClientSession.syncedUploadMTU c) (sMaxUploadMTU (ClientSession.settings c)) /\
  ClientSession.syncedDownloadMTU c' = limited (ClientSession.syncedDownloadMTU c) (sMaxDownloadMTU (ClientSession.settings c)).
Proof.
  unfold ClientSession.syncSessionPolicyDerivedState. match goal with |- context [if 0 <? ClientSession.syncedUploadMTU c then ?x else ?y] => set (c1 := if 0 <? ClientSession.syncedUploadMTU c then x else y) end.
  assert (ClientSession.settings c1 = ClientSession.settings c /\ ClientSession.syncedDownloadMTU c1 = ClientSession.syncedDownloadMTU c /\
    ClientSession.syncedUploadMTU c1 = limited (ClientSession.syncedUploadMTU c) (sMaxUploadMTU (ClientSession.settings c))) as (E1 & E2 & E3)
    by (unfold c1, limited; by destruct (0 <? ClientSession.syncedUploadMTU c)).
  clearbody c1. cbv zeta. rewrite E2. unfold limited in *. destruct (0 <? ClientSession.syncedDownloadMTU c); cbn; by rewrite ?E1, ?E2, ?E3.
Qed.

Lemma policy_effect policy rnd c :
  let c' := ClientSession.applySessionClientPolicy policy rnd c in
  ClientSession.settings c' = ApplySessionAcceptClientPolicy (ClientSession.settings c) policy /\
  ClientSession.syncedUploadMTU c' = limited (ClientSession.syncedUploadMTU c) (sMaxUploadMTU (ClientSession.settings c')) /\
  ClientSession.syncedDownloadMTU c' = limited (ClientSession.syncedDownloadMTU c) (sMaxDownloadMTU (ClientSession.settings c')).
Proof.
  unfold ClientSession.applySessionClientPolicy. match goal with |- context [ClientSession.syncSessionPolicyDerivedState rnd ?x] => destruct (sync_effect rnd x) as (E1 & E2 & E3) end.
  cbv zeta. by rewrite E1, E2, E3.
Qed.

Lemma in_force_type mtu minSize t : 0 <= t <= 3 -> (ClientSession.compression_in_force mtu minSize t).1 = in_force mtu minSize t.
Proof.
  intros Ht. unfold ClientSession.compression_in_force, in_force. destruct (NormalizeAvailableType_cases t) as [[He _] | [? _]]; [lia | rewrite <- He | lia].
  destruct (0 <? mtu), (mtu <? 100), (mtu <=? minSize); done.
Qed.

(** What the choice of the compression types leaves alone, and what it sets. *)
Definition compression_frame (c : ClientSession.Client) :=
  (attempt_frame c, ClientSession.sessionID c, ClientSession.sessionCookie c, ClientSession.settings c, ClientSession.syncedUploadMTU c, ClientSession.syncedDownloadMTU c).

Lemma compression_effect c : 0 <= ClientSession.uploadCompression c <= 3 -> 0 <= ClientSession.downloadCompression c <= 3 -> 1 <= CompressionMinSize (ClientSession.settings c) ->
  let c' := ClientSession.applySessionCompressionPolicy c in
  compression_frame c' = compression_frame c /\
  ClientSession.uploadCompression c' = in_force (ClientSession.syncedUploadMTU c) (CompressionMinSize (ClientSession.settings c)) (ClientSession.uploadCompression c) /\
  ClientSession.downloadCompression c' = in_force (ClientSession.syncedDownloadMTU c) (CompressionMinSize (ClientSession.settings c)) (ClientSession.downloadCompression c).
Proof.
  intros Hu Hd Hm. cbv zeta. unfold ClientSession.applySessionCompressionPolicy. rewrite (proj2 (Z.leb_gt _ 0)) by lia.
  set (minSize := CompressionMinSize _). pose proof (in_force_type (ClientSession.syncedUploadMTU c) minSize _ Hu) as Cu.
  pose proof (in_force_type (ClientSession.syncedDownloadMTU c) minSize _ Hd) as Cd.
  destruct (ClientSession.compression_in_force (ClientSession.syncedUploadMTU c) minSize (ClientSession.uploadCompression c)) as [up offUp]. cbn [fst] in Cu. subst up.
  replace (ClientSession.syncedDownloadMTU (if offUp then _ else _)) with (ClientSession.syncedDownloadMTU c) by (by destruct offUp).
  replace (ClientSession.downloadCompression (if offUp then _ else _)) with (ClientSession.downloadCompression c) by (by destruct offUp).
  destruct (ClientSession.compression_in_force (ClientSession.syncedDownloadMTU c) minSize (ClientSession.downloadCompression c)) as [down offDown]. cbn [fst] in Cd. subst down.
  by destruct offUp, offDown.
Qed.

Lemma policy_min_size current policy : 1 <= CompressionMinSize (ApplySessionAcceptClientPolicy current policy).
Proof. cbn. unfold maxInt. repeat case_if; zbool; lia. Qed.

(** The last part of an accepted handshake. *)
Lemma accept_effect policy rnd c : 0 <= ClientSession.uploadCompression c <= 3 -> 0 <= ClientSession.downloadCompression c <= 3 ->
  exists c', ClientSession.applySessionCompressionPolicy ((ClientSession.applySessionClientPolicy policy rnd c) <| ClientSession.sessionReady := true |>) = c' /\
  ClientSession.sessionReady c' = true /\ ClientSession.responseMode c' = ClientSession.responseMode c /\
  ClientSession.sessionID c' = ClientSession.sessionID c /\ ClientSession.sessionCookie c' = ClientSession.sessionCookie c /\
  ClientSession.settings c' = ApplySessionAcceptClientPolicy (ClientSession.settings c) policy /\
  ClientSession.syncedUploadMTU c' = limited (ClientSession.syncedUploadMTU c) (sMaxUploadMTU (ClientSession.settings c')) /\
  ClientSession.syncedDownloadMTU c' = limited (ClientSession.syncedDownloadMTU c) (sMaxDownloadMTU (ClientSession.settings c')) /\
  ClientSession.uploadCompression c' = in_force (ClientSession.syncedUploadMTU c') (CompressionMinSize (ClientSession.settings c')) (ClientSession.uploadCompression c) /\
  ClientSession.downloadCompression c' = in_force (ClientSession.syncedDownloadMTU c') (CompressionMinSize (ClientSession.settings c')) (ClientSession.downloadCompression c).
Proof.
  intros Hu Hd. destruct (policy_effect policy rnd c) as (P1 & P2 & P3). pose proof (policy_leaves policy rnd c) as Hf.
  set (c2 := ClientSession.applySessionClientPolicy policy rnd c) in *. clearbody c2. unfold policy_frame, attempt_frame in Hf. injection Hf as F1 F2 F3 F4 F5 F6 F7 F8 F9.
  destruct (compression_effect (c2 <| ClientSession.sessionReady := true |>)) as (G1 & G2 & G3); [cbn; lia | cbn; lia | cbn; rewrite P1; apply policy_min_size |].
  eexists. split; [reflexivity |]. unfold compression_frame, attempt_frame in G1. injection G1 as J1 J2 J3 J4 J5 J6 J7 J8 J9.
  rewrite G2, G3, J3, J4, J5, J6, J7, J8, J9. cbn. rewrite <- F7, <- F8. split_and!; done.
Qed.

(** What the server encodes for a session. *)
Lemma accept_payload_ok cf r : record_ok (ID r) r -> 1 <= ID r <= 255 -> len (Signature r) = 10 -> accept_ok (accept_payload cf r).
Proof.
  intros Hrec Hid Hl. destruct (ro_negotiated _ _ Hrec) as [N1 N2 N3 _ _ [N6 N7]].
  split_and!; cbn [accept_payload SessionAccept.SessionID SessionAccept.SessionCookie CompressionPair SessionAccept.VerifyCode];
    [unfold u8; lia | done | by apply PackPair_u8 |].
  rewrite N3. unfold len in *. rewrite length_take, length_drop. lia.
Qed.

(** The terms of a session, by the configuration of its server. *)
Definition terms_of (cf : ServerCfg.ServerConfig) (r : sessionRecord) : Prop :=
  (exists up down, SplitPair (nth 1 (Signature r) 0) = Ok (up, down) /\
     UploadCompression r = settled (ServerCfg.SupportedUploadCompressionTypes cf) up /\
     DownloadCompression r = settled (ServerCfg.SupportedDownloadCompressionTypes cf) down) /\
  UploadMTU r = granted_mtu (of_be16 (nth 2 (Signature r) 0) (nth 3 (Signature r) 0)) (ServerCfg.ClientMaxUploadMTU cf) /\
  DownloadMTU r = granted_mtu (of_be16 (nth 4 (Signature r) 0) (nth 5 (Signature r) 0)) (ServerCfg.ClientMaxDownloadMTU cf).

(** The client takes an accepted session over. *)
Lemma apply_accept c payload verify packet busyUntil rnd store cf r buf :
  client_ok c -> ClientSession.sessionReady c = false -> init_form (ClientSession.BaseEncodeData c) payload verify ->
  record_ok (ID r) r -> terms_of cf r -> byID store !! ID r = Some r -> Signature r = payload -> 1 <= ID r <= 255 ->
  EncodeSessionAcceptPayload (accept_payload cf r) = Ok buf -> PacketType packet = PACKET_SESSION_ACCEPT -> Payload packet = buf ->
  exists c', ClientSession.applySessionInitPacket packet payload verify busyUntil rnd c = (Ok tt, c') /\ agreed cf c c' store payload r /\ client_ok c'.
Proof.
  intros Hc Hr Hf Hrec (T1 & T2 & T3) Hst Hsg Hid Hbuf Ht Hp. destruct (init_form_bytes _ _ _ Hf) as ([Hlp _] & _ & Hl & Hmode & Hcode).
  pose proof (ro_negotiated _ _ Hrec) as [N1 N2 N3 N4 N5 [N6 N7]]. rewrite Hsg in *. rewrite Hcode in N3.
  destruct (session_accept_roundtrip (accept_payload cf r)) as (buf' & E & _ & Hdec & _); [apply accept_payload_ok; by rewrite ?Hsg |].
  rewrite Hbuf in E. injection E as <-. unfold ClientSession.applySessionInitPacket. rewrite Hr, Ht, Hp.
  change (PACKET_SESSION_ACCEPT =? PACKET_SESSION_BUSY) with false. rewrite Z.eqb_refl, Hdec. cbv beta iota zeta.
  cbn [accept_payload SessionAccept.VerifyCode SessionAccept.SessionID SessionAccept.SessionCookie CompressionPair HasClientPolicySync ClientPolicy].
  rewrite N3, bool_decide_true by done. cbn [negb]. rewrite SplitPair_PackPair by lia.
  assert (NormalizeType (UploadCompression r) = UploadCompression r /\ NormalizeType (DownloadCompression r) = DownloadCompression r) as [-> ->].
  { unfold NormalizeType, TypeZLIB. by rewrite !(proj2 (Z.leb_le _ _)) by lia. }
  match goal with |- context [ClientSession.applySessionClientPolicy ?pol rnd ?c1] =>
    destruct (accept_effect pol rnd c1) as (c2 & -> & G1 & G2 & G3 & G4 & G5 & G6 & G7 & G8 & G9); [exact N6 | exact N7 |] end.
  cbn in G2, G3, G4, G8, G9. eexists. split; [reflexivity |]. split.
  - split; [exact G1 | | done | exact G4 | | done | done | exact G5 | split; [exact G6 | exact G7] | exact G8 | exact G9 | done].
    + change (byID store !! ClientSession.sessionID c2 = Some r). by rewrite G3.
    + change (ClientSession.responseMode c2 = ResponseMode r). by rewrite G2.
  - split; cbn; [| done]. rewrite G8, G9. unfold in_force, u8, TypeOff. repeat case_if; lia.
Qed.

(** The client learns that the server is full. *)
Lemma apply_busy c payload verify packet busyUntil rnd : ClientSession.sessionReady c = false -> len verify = 4 ->
  PacketType packet = PACKET_SESSION_BUSY -> Payload packet = verify ->
  ClientSession.applySessionInitPacket packet payload verify busyUntil rnd c = (Err ClientSession.ErrSessionInitBusy, ClientSession.setSessionInitBusyUntil busyUntil c).
Proof.
  intros Hr Hl Ht Hp. unfold ClientSession.applySessionInitPacket. rewrite Hr, Ht, Z.eqb_refl, Hp, Hl.
  rewrite take_ge by (unfold len in Hl; lia). by rewrite bool_decide_true.
Qed.
End answers.

(** ** The server *)

Section server.
Context `{CR : Crypto} `{CP : Compressors} {P : Type} {D : DeferredPool job P} {L : DeferredPoolLaws D}.
Abbreviation Server := (@Server P).
Implicit Types s : Server.

Lemma plain_packet_parsed t payload ct : valid_type t = true -> has (packet_flags t) packetFlagCompression = false ->
  PacketType (VpnProto.packet_of (with_payload (opts_of (plain_packet 0 t payload)) ct payload)) = t /\
  Payload (VpnProto.packet_of (with_payload (opts_of (plain_packet 0 t payload)) ct payload)) = payload.
Proof. done. Qed.

(** The answer to SESSION_INIT: the session with this signature, or busy when the table is full. *)
Lemma init_answer packet decision p now entropy s : server_ok s -> 0 < now -> entropy_ok entropy -> SessionID p = 0 -> init_payload (Payload p) -> bytes_ok (Payload p) ->
  exists a s', handleSessionInitRequest packet decision p now entropy s = (a, s') /\ s' = s <| sessions := sessions s' |> /\
  ((exists r buf, record_ok (ID r) r /\ byID (sessions s') !! ID r = Some r /\ Signature r = Payload p /\ 1 <= ID r <= 255 /\
      EncodeSessionAcceptPayload (accept_payload (cfg s) r) = Ok buf /\
      a = response (BuildVPNResponsePacket packet (RequestName decision) (plain_packet 0 PACKET_SESSION_ACCEPT buf) (nth 0 (Payload p) 0 =? 1))) \/
   (byID (sessions s') = byID (sessions s) /\ session_limit (sessions s) <= Z.of_nat (size (byID (sessions s))) /\
      a = response (BuildVPNResponsePacket packet (RequestName decision) (plain_packet 0 PACKET_SESSION_BUSY (take 4 (drop 6 (Payload p)))) (nth 0 (Payload p) 0 =? 1)))).
Proof.
  intros Hok Hnow He H0 Hp Hb. unfold handleSessionInitRequest. rewrite H0, (proj1 Hp). cbn [Z.eqb Pos.eqb negb orb sessionInitDataSize].
  destruct (SplitPair_total (nth 1 (Payload p) 0)) as (up & down & -> & Hup & Hdown).
  match goal with |- context [findOrCreate ?a ?b ?c ?d ?e ?f ?g ?h ?t] =>
    pose proof (findOrCreate_spec a b c d e f g h t (sv_sessions _ Hok) Hp Hnow He (conj (resolve_range up _ Hup) (resolve_range down _ Hdown))) as Hf;
    destruct (findOrCreate a b c d e f g h t) as [res t'] end.
  destruct Hf as [Hok' Hres]. destruct res as [| id b |]; [done | |].
  - assert (bySig t' !! Payload p = Some id) as Hsig.
    { destruct b; [by destruct Hres as (r & _ & _ & _ & _ & _ & ?) | by destruct Hres as (_ & _ & _ & _ & cookie & _ & _ & ?)]. }
    destruct (st_sig _ Hok' _ _ Hsig) as (r & Hr & Hsg & _). pose proof (st_record _ Hok' _ _ Hr) as Hrec. pose proof (ro_id _ _ Hrec) as Hid. subst id.
    pose proof (ng_mode _ (ro_negotiated _ _ Hrec)) as N2. rewrite Hsg in N2. pose proof (st_range _ Hok' _ _ Hr) as Hrange.
    rewrite Hr. destruct (session_accept_roundtrip (accept_payload (cfg s) r)) as (buf & E & _); [apply accept_payload_ok; rewrite ?Hsg; done || apply Hp |].
    change (cfg (s <| sessions := t' |>)) with (cfg s). rewrite E. eexists _, _. split; [reflexivity |]. split; [done |]. left.
    exists r, buf. rewrite N2. done.
  - destruct Hres as [Hsame Hfull]. unfold buildSessionBusyResponse. replace (len (take 4 (drop 6 (Payload p))) <? mtuProbeCodeLength) with false.
    2: { symmetry. apply Z.ltb_ge. destruct Hp as [Hl _]. unfold len, mtuProbeCodeLength in *. rewrite length_take, length_drop. lia. }
    rewrite take_take. eexists _, _. split; [reflexivity |]. split; [done |]. by right.
Qed.

Lemma init_datagram datagram lp p now entropy s a s' :
  ParseDNSRequestLite datagram = Ok lp -> hQR (lHeader lp) = 0 -> HasQuestion lp = true -> dAction (Match (domainMatcher s) lp) = ActionProcess ->
  ParseInflatedFromLabels (Labels (Match (domainMatcher s) lp)) (codec s) = Ok p -> PacketType p = PACKET_SESSION_INIT ->
  handleSessionInitRequest datagram (Match (domainMatcher s) lp) p now entropy s = (Ok (Some a), s') ->
  safeHandlePacket datagram now entropy s = Ok (Some a, s').
Proof.
  intros Hl Hq Hh Ha Hp Ht E. unfold safeHandlePacket, handlePacket, handleParsedPacket, handleTunnelCandidate. rewrite Hl, Hq, Hh. cbn [Z.eqb negb].
  rewrite Ha, Hp, Ht. change (PACKET_SESSION_INIT =? PACKET_SESSION_CLOSE) with false. change (isPreSessionRequestType PACKET_SESSION_INIT) with true.
  change (PACKET_SESSION_INIT =? PACKET_MTU_UP_REQ) with false. change (PACKET_SESSION_INIT =? PACKET_MTU_DOWN_REQ) with false. rewrite Z.eqb_refl. cbn [negb].
  by rewrite E.
Qed.
End server.

Section handshake.
Context `{CR : Crypto} {CRL : CryptoLaws CR} {TC : TypedCrypto CR} `{CP : Compressors} {CPL : CompressorLaws CP} {TP : TypedCompressors CP}.

(** A plain answer arrives, whatever the resolver does to the order of the records. *)
Lemma plain_answer datagram ls t payload base64 : plain_query datagram ls -> valid_type t = true -> u8 t -> bytes_ok payload -> len payload <= 48000 ->
  exists answer full ct, response (BuildVPNResponsePacket datagram (dotted (map ToLower ls)) (plain_packet 0 t payload) base64) = Ok (Some answer) /\
    ParsePacket answer = Ok full /\
    forall message full', ParsePacket message = Ok full' -> txt_data full' ≡ₚ txt_data full ->
      ExtractVPNResponse message base64 = Ok (VpnProto.packet_of (with_payload (opts_of (plain_packet 0 t payload)) ct payload)).
Proof.
  intros Hq Hv Ht Hb Hl. destruct (vpn_response_ok datagram (dotted (map ToLower ls)) ls (plain_packet 0 t payload) base64) as (answer & full & ct & E & Hp & _ & H).
  - done.
  - apply sameDNSName_refl.
  - unfold opts_ok, opts_of, plain_packet, u8, u16 in *. cbn. split_and!; (done || lia).
  - done.
  - done.
  - exists answer, full, ct. rewrite E. split; [done |]. split; [done |]. exact H.
Qed.



(** The query of the client. *)
Lemma init_query_text (c : ClientSession.Client) payload domain domains minLen m rawKey cdc rnd counter :
  bytes_ok rawKey -> NewCodec m rawKey = Ok cdc -> ClientSession.codec c = Some cdc -> rnd_ok rnd -> bytes_ok payload ->
  let o := mkBuildOptions 0 PACKET_SESSION_INIT 0 0 0 0 0 0 payload in
  (m = 2 -> counter_fits rnd (wire o)) -> tunnel_domain domain domains ->
  exists text, EncryptAndEncodeBytes (Some cdc) rnd (wire o) = Ok text /\
    ((if minLen <? 1 then 3 else minLen) <= len text <= CalculateMaxEncodedQNameChars domain ->
     exists id question ar tail counter',
       ClientSession.buildSessionQuery domain PACKET_SESSION_INIT payload rnd counter c = Ok (message_header id 0x0100 1 0 0 ar ++ question ++ tail, counter') /\
       bytes_ok question /\
       forall datagram, relayed question datagram -> exists lp ls, ParseDNSRequestLite datagram = Ok lp /\ plain_query datagram ls /\
         hQR (lHeader lp) = 0 /\ HasQuestion lp = true /\ dAction (Match (DomainMatcher.New domains minLen) lp) = ActionProcess /\
         RequestName (Match (DomainMatcher.New domains minLen) lp) = dotted (map ToLower ls) /\
         ParseInflatedFromLabels (Labels (Match (DomainMatcher.New domains minLen) lp)) (Some cdc) = Ok (VpnProto.packet_of o)).
Proof.
  intros Hk Hc Hcc Hr Hb o Hf Htd. assert (opts_ok o) as Ho by (unfold opts_ok, o, u8, u16; cbn; split_and!; (done || lia)).
  destruct (raw_text o m rawKey cdc rnd Ho eq_refl eq_refl Hk Hc Hr Hf) as (Hraw & text & He & Ha & Hp). exists text. split; [done |]. intros [Hmin Hfit].
  assert (Hne : text <> []). { intros ->. change (len []) with 0 in Hmin. destruct (Z.ltb_spec minLen 1); lia. }
  destruct (query_roundtrip domain domains minLen text ClientSession.EDnsSafeUDPSize counter Htd Ha Hne Hmin Hfit) as (id & q & ar & tail & counter' & Hq & Hqb & Hall).
  exists id, q, ar, tail, counter'. split.
  { unfold ClientSession.buildSessionQuery, ClientSession.buildTunnelQuery, ClientSession.buildTunnelTXTQueryRaw. fold o. rewrite Hraw. cbn [map_err obind].
    rewrite Hcc, He. cbn [map_err obind]. by rewrite Hq. }
  split; [done |]. intros datagram Hrel. pose proof Hrel as [Hdb (id' & flags' & ar' & q' & tail' & Hd & U1 & U2 & U3 & Hh & Hlow) _].
  assert (bytes_ok q') as Hqb'. { rewrite Hd in Hdb. apply bytes_ok_app in Hdb as [_ Hdb]. by apply bytes_ok_app in Hdb as [Hdb _]. }
  destruct (Hall id' flags' ar' q' tail' U1 U2 U3 Hh Hqb' Hlow) as (lp & ls & Hlp & Hqs & Hn & Hnl & Hqr & Hhq & Hact & _ & Hlab & Hname).
  exists lp, ls. rewrite <- Hd in Hlp. split; [done |]. split.
  { apply (relayed_plain q datagram id' flags' ar' ls tail' Hrel); [by rewrite <- Hqs | rewrite <- Hqs; by apply case_len | done | done]. }
  split_and!; try done. by rewrite Hlab.
Qed.

(** One round of the client with the answer [message]. *)
Lemma round_result (c c1 : ClientSession.Client) random active conn payload verify message rest busyUntil rnd counter query packet :
  ClientSession.nextSessionInitAttempt random active c = (Ok (conn, payload, verify), c1) ->
  ClientSession.buildSessionQuery (Conn.Domain conn) PACKET_SESSION_INIT payload rnd counter c1 = Ok query ->
  ExtractVPNResponse message (ClientSession.responseMode c1 =? ClientSession.mtuProbeBase64Reply) = Ok packet ->
  forall result c2, ClientSession.applySessionInitPacket packet payload verify busyUntil rnd c1 = (result, c2) ->
    result = Ok tt \/ result = Err ClientSession.ErrSessionInitBusy ->
  ClientSession.initializeSessionRequest (ClientSession.mkAttempt random active (Some message :: rest) busyUntil) rnd counter c = (result, c2).
Proof.
  intros Ha Hq He result c2 Hp Hres. unfold ClientSession.initializeSessionRequest. cbn [ClientSession.inRandom ClientSession.inActive ClientSession.inResponses ClientSession.inBusyUntil].
  rewrite Ha, Hq. cbn [ClientSession.racingCount ClientSession.wait_phase ClientSession.exchange_result]. rewrite He, Hp. by destruct Hres as [-> | ->].
Qed.


(** The answer of a server to a request for a session. *)
Definition init_reply (s s' : Server (P := processor)) (payload : bytes) (t : Z) (reply : bytes) : Prop :=
  (t = PACKET_SESSION_ACCEPT /\ exists r, record_ok (ID r) r /\ granted s r /\ byID (sessions s') !! ID r = Some r /\ Signature r = payload /\ 1 <= ID r <= 255 /\
     EncodeSessionAcceptPayload (accept_payload (cfg s) r) = Ok reply) \/
  (t = PACKET_SESSION_BUSY /\ reply = take 4 (drop 6 payload) /\
     session_limit (sessions s) <= Z.of_nat (size (byID (sessions s))) /\ byID (sessions s') = byID (sessions s)).

Section round.
Context (cpus : Z) (cf : ServerCfg.ServerConfig) (m : Z) (rawKey : bytes) (cdc : Codec) (s : Server (P := processor)).
Context (c c1 : ClientSession.Client) (random : bytes) (active : list Conn.Connection) (conn : Conn.Connection) (payload verify : bytes).
Context (rnd : Z -> option bytes) (counter now : Z) (entropy : option bytes).
Context (Hk : bytes_ok rawKey) (Hc : NewCodec m rawKey = Ok cdc) (Hreach : server_reachable (start_server cpus cf cdc) s) (Hnow : 0 < now) (He : entropy_ok entropy).
Context (Hcl : client_ok c) (Hcc : ClientSession.codec c = Some cdc) (Hlr : len random = 4) (Hbr : bytes_ok random).
Context (Hatt : ClientSession.nextSessionInitAttempt (Some random) active c = (Ok (conn, payload, verify), c1)).
Context (Hr : rnd_ok rnd) (Hf : m = 2 -> counter_fits rnd (wire (mkBuildOptions 0 PACKET_SESSION_INIT 0 0 0 0 0 0 payload))).
Context (Htd : tunnel_domain (Conn.Domain conn) (ServerCfg.Domain cf)).

Lemma init_round : exists text, EncryptAndEncodeBytes (Some cdc) rnd (wire (mkBuildOptions 0 PACKET_SESSION_INIT 0 0 0 0 0 0 payload)) = Ok text /\
  ((if ServerCfg.MinVPNLabelLength cf <? 1 then 3 else ServerCfg.MinVPNLabelLength cf) <= len text <= CalculateMaxEncodedQNameChars (Conn.Domain conn) ->
   exists id question ar tail counter',
     ClientSession.buildSessionQuery (Conn.Domain conn) PACKET_SESSION_INIT payload rnd counter c1 =
       Ok (message_header id 0x0100 1 0 0 ar ++ question ++ tail, counter') /\ bytes_ok question /\
     forall datagram, relayed question datagram -> exists ls t reply s', plain_query datagram ls /\ bytes_ok reply /\ len reply <= 100 /\ init_reply s s' payload t reply /\
       forall answer, response (BuildVPNResponsePacket datagram (dotted (map ToLower ls)) (plain_packet 0 t reply) (nth 0 payload 0 =? 1)) = Ok (Some answer) ->
         safeHandlePacket datagram now entropy s = Ok (Some answer, s')).
Proof.
  destruct (server_reachable_ok _ _ _ _ _ _ Hk Hc Hreach) as [Hok _]. pose proof (reachable_settings _ _ _ _ _ _ Hk Hc Hreach) as Hset.
  unfold settings in Hset. injection Hset as _ Hcodec Hdm _ _ _ _ _.
  destruct (attempt_payload random active c conn payload verify c1 Hcl Hlr Hbr Hatt) as (Hform & Hframe & Hcl1).
  unfold attempt_frame in Hframe. injection Hframe as F1 F2 F3 F4. destruct (init_form_bytes _ _ _ Hform) as (Hip & Hpb & Hlv & Hm0 & Hcode).
  destruct (init_query_text c1 payload (Conn.Domain conn) (ServerCfg.Domain cf) (ServerCfg.MinVPNLabelLength cf) m rawKey cdc rnd counter)
    as (text & Htext & Hq); try done; [congruence |].
  exists text. split; [done |]. intros Hfit. destruct (Hq Hfit) as (id & q & ar & tail & counter' & Hbq & Hqb & Hall). clear Hq.
  exists id, q, ar, tail, counter'. split; [done |]. split; [done |]. intros datagram Hrel.
  destruct (Hall datagram Hrel) as (lp & ls & Hlp & Hplain & Hqr & Hhq & Hact & Hname & Hpkt).
  rewrite <- Hcodec in Hpkt. rewrite <- Hdm in Hact, Hname, Hpkt. exists ls. set (o := mkBuildOptions _ _ _ _ _ _ _ _ _) in *.
  destruct (init_answer datagram (Match (domainMatcher s) lp) (VpnProto.packet_of o) now entropy s Hok Hnow He eq_refl Hip Hpb)
    as (a & s' & Ea & Es & [(r & buf & Hrec & Hst & Hsg & Hid & Hbuf & ->) | (Hsame & Hfull & ->)]);
    rewrite Hname in Ea; change (Payload (VpnProto.packet_of o)) with payload in *.
  - exists PACKET_SESSION_ACCEPT, buf, s'. split; [done |].
    destruct (session_accept_roundtrip (accept_payload (cfg s) r)) as (buf' & E & Hlb & _ & _ & Hbb); [apply accept_payload_ok; rewrite ?Hsg; done || apply Hip |].
    rewrite Hbuf in E. injection E as <-. split_and!.
    + apply Hbb. cbn. rewrite (ng_code _ (ro_negotiated _ _ Hrec)), Hsg. by apply Forall_take, Forall_drop.
    + rewrite Hlb. done.
    + left. split; [done |]. exists r. split; [done |]. split; [| done]. eapply (granted_core s'); [by rewrite Es | done |].
      pose proof (init_affects datagram (Match (domainMatcher s) lp) (VpnProto.packet_of o) now entropy s Hok Hnow He) as (t & _ & _ & Hall' & _). rewrite Ea in Hall'. by eapply Hall'.
    + intros answer Eb. rewrite Eb in Ea. by eapply init_datagram.
  - exists PACKET_SESSION_BUSY, (take 4 (drop 6 payload)), s'. split; [done |]. split_and!.
    + by apply Forall_take, Forall_drop.
    + rewrite Hcode, Hlv. done.
    + right. done.
    + intros answer Eb. rewrite Eb in Ea. by eapply init_datagram.
Qed.
End round.

(** A server keeps its configuration, and its sessions have the terms that follow from it. *)
Lemma reachable_terms cpus cf m rawKey cdc (s : Server (P := processor)) r : bytes_ok rawKey -> NewCodec m rawKey = Ok cdc ->
  server_reachable (start_server cpus cf cdc) s -> granted s r -> cfg s = cf /\ terms_of cf r.
Proof.
  intros Hk Hc Hreach [(up & down & Hsp & G1 & G2) G3 G4 _]. pose proof (reachable_settings _ _ _ _ _ _ Hk Hc Hreach) as Hset.
  unfold settings, start_server, New in Hset. destruct (splitDeferredSessionPools _ _) as [[w1 q1] [w2 q2]]. injection Hset as S1 _ _ _ S2 S3 _ _.
  rewrite S1 in G3, G4. rewrite S2 in G1. rewrite S3 in G2. destruct (SplitPair_range _ _ _ Hsp) as [Hu Hd]. rewrite resolve_settled in G1, G2 by done.
  split; [done |]. split; [by exists up, down | done].
Qed.

(** C6: The handshake.  A client that has no session, and that reads answers in the mode it asks for
    (as at its start; after a reset it may not), sends SESSION_INIT over any resolver to a server in
    any state it can reach.  A new handshake asks for the compression types and the MTUs the client
    has.  The server answers, and when the answer arrives, in whatever order a resolver returns its
    records, the attempt ends with one of two results.
    Either the client is ready, and both sides agree: number, cookie and response mode of the client
    are those of a session of the server for this request; the types of the session are exactly the ones asked for where the server supports them, and
    none otherwise; its MTUs are exactly the ones asked for, at most 4096 and the limits of the
    server and then at least 10; the client has the settings that the policy of the server makes of its own, and
    MTUs within them; and it compresses with the type of the session, except where its MTU is below 100
    or not above the least size to compress.
    Or the table of the server is full and the client waits until the given time. *)
Theorem session_handshake (cpus : Z) (cf : ServerCfg.ServerConfig) (m : Z) (rawKey : bytes) (cdc : Codec) (s : Server (P := processor))
    (c c1 : ClientSession.Client) random active conn payload verify rnd counter now entropy :
  bytes_ok rawKey -> NewCodec m rawKey = Ok cdc -> server_reachable (start_server cpus cf cdc) s -> 0 < now -> entropy_ok entropy ->
  client_ok c -> ClientSession.codec c = Some cdc -> ClientSession.sessionReady c = false ->
  ClientSession.responseMode c = (if ClientSession.BaseEncodeData c then 1 else 0) ->
  len random = 4 -> bytes_ok random ->
  ClientSession.nextSessionInitAttempt (Some random) active c = (Ok (conn, payload, verify), c1) ->
  let o := mkBuildOptions 0 PACKET_SESSION_INIT 0 0 0 0 0 0 payload in
  rnd_ok rnd -> (m = 2 -> counter_fits rnd (wire o)) -> tunnel_domain (Conn.Domain conn) (ServerCfg.Domain cf) ->
  (ClientSession.sessionInitReady c = false ->
   payload = [if ClientSession.BaseEncodeData c then 1 else 0; PackPair (ClientSession.uploadCompression c) (ClientSession.downloadCompression c)] ++
     be16 (wrap16 (ClientSession.syncedUploadMTU c)) ++ be16 (wrap16 (ClientSession.syncedDownloadMTU c)) ++ random) /\
  exists text, EncryptAndEncodeBytes (Some cdc) rnd (wire o) = Ok text /\
    ((if ServerCfg.MinVPNLabelLength cf <? 1 then 3 else ServerCfg.MinVPNLabelLength cf) <= len text <= CalculateMaxEncodedQNameChars (Conn.Domain conn) ->
     exists id question ar tail counter',
       ClientSession.buildSessionQuery (Conn.Domain conn) PACKET_SESSION_INIT payload rnd counter c1 =
         Ok (message_header id 0x0100 1 0 0 ar ++ question ++ tail, counter') /\ bytes_ok question /\
       forall datagram, relayed question datagram -> exists answer full s',
         safeHandlePacket datagram now entropy s = Ok (Some answer, s') /\ ParsePacket answer = Ok full /\
         forall message full' rest busyUntil, ParsePacket message = Ok full' -> txt_data full' ≡ₚ txt_data full ->
           let result := ClientSession.initializeSessionRequest (ClientSession.mkAttempt (Some random) active (Some message :: rest) busyUntil) rnd counter c in
           (exists c' r, result = (Ok tt, c') /\ agreed cf c c' (sessions s') payload r /\ client_ok c') \/
           (session_limit (sessions s) <= Z.of_nat (size (byID (sessions s))) /\ byID (sessions s') = byID (sessions s) /\
            exists c', result = (Err ClientSession.ErrSessionInitBusy, c') /\ ClientSession.sessionInitBusyUnix c' = busyUntil /\
              ClientSession.sessionReady c' = false /\ client_ok c')).
Proof.
  intros Hk Hc Hreach Hnow He Hcl Hcc Hready Hmode Hlr Hbr Hatt o Hr Hf Htd.
  destruct (attempt_payload random active c conn payload verify c1 Hcl Hlr Hbr Hatt) as (Hform & [= F1 F2 F3 F4] & Hcl1).
  destruct (init_form_bytes _ _ _ Hform) as (_ & _ & Hlv & Hm0 & Hcode). destruct (attempt_request _ _ _ _ _ _ _ Hatt) as (Q1 & Q2 & Q3 & Q4). split; [exact Q4 |].
  destruct (init_round cpus cf m rawKey cdc s c c1 random active conn payload verify rnd counter now entropy) as (text & Htext & Hq); try done.
  exists text. split; [done |]. intros Hfit. destruct (Hq Hfit) as (id & q & ar & tail & counter' & Hbq & Hqb & Hall).
  exists id, q, ar, tail, counter'. split; [done |]. split; [done |]. intros datagram Hrel. destruct (Hall datagram Hrel) as (ls & t & reply & s' & Hplain & Hrb & Hrl & Hreply & Hans).
  destruct (plain_answer datagram ls t reply (nth 0 payload 0 =? 1) Hplain) as (answer & full & ct & Eb & Hfull & Hex);
    [by destruct Hreply as [[-> _] | [-> _]] | by destruct Hreply as [[-> _] | [-> _]] | done | lia |].
  exists answer, full, s'. split; [by apply Hans |]. split; [done |]. intros message full' rest busyUntil Hm1 Hm2.
  specialize (Hex message full' Hm1 Hm2). rewrite Hm0, <- Hmode, <- F3 in Hex.
  destruct Hreply as [[-> (r & Hrec & Hgr & Hst & Hsg & Hid & Hbuf)] | (-> & -> & Hlim & Hsame)]; [left | right].
  - destruct (reachable_terms _ _ _ _ _ _ _ Hk Hc Hreach Hgr) as [Ecf Hterms]. rewrite Ecf in Hbuf.
    destruct (apply_accept c1 payload verify (VpnProto.packet_of (with_payload (opts_of (plain_packet 0 PACKET_SESSION_ACCEPT reply)) ct reply)) busyUntil rnd (sessions s') cf r reply)
      as (c' & Hap & Hag & Hok'); try done; [congruence | by rewrite F1 |].
    exists c', r. split; [eapply round_result; try done; by left |]. split; [| done]. destruct Hag. split; try done; congruence.
  - split; [done |]. split; [done |]. exists (ClientSession.setSessionInitBusyUntil busyUntil c1).
    split; [| split; [reflexivity | split; [cbn; congruence |]]]; [| destruct Hcl1; by split].
    eapply round_result; try done; [| by right]. rewrite Hcode. by apply apply_busy; [congruence | ..].
Qed.

End handshake.

(** ** An example *)

Lemma example_domain : tunnel_domain (ServerCfg.str "t.co") (ServerCfg.Domain example_config).
Proof.
  split.
  - repeat constructor; vm_compute; congruence.
  - eexists _, _. vm_compute. reflexivity.
  - vm_compute. reflexivity.
  - apply (bool_decide_unpack _). vm_compute. exact I.
  - intros d (_ & _ & x & Hx & <-)%elem_of_normalizeDomains Hne.
    apply elem_of_cons in Hx as [-> | Hx%elem_of_nil]; [by destruct Hne | done].
  - repeat constructor; vm_compute; congruence.
Qed.

(** A client that asks for base64 answers. *)
Definition example_settings : SessionAcceptClientSettings :=
  mkSettings 2 2 150 1000 4 (float64_lit 3 10) 5 600 16 120 (float64_lit 1 1) (float64_lit 1 1) (float64_lit 8 1) (float64_lit 8 1).
Definition example_client : ClientSession.Client :=
  ClientSession.mkClient true example_settings 4 1 1 0 (Some example_codec) 0 0 1 false false false [] (make_bytes 4) 0 0 false 1 1 120 500 200 120 8.
Definition example_conn : Conn.Connection :=
  Conn.mkConnection (ServerCfg.str "t.co") (ServerCfg.str "192.0.2.1") 53 (ServerCfg.str "192.0.2.1:53") (ServerCfg.str "k") true 120 200 500 0 0.

Lemma example_client_ok : client_ok example_client.
Proof. split; [by split | done]. Qed.

Definition example_init_request : bytes := [1; 17; 0; 120; 1; 244; 9; 8; 7; 6].
Definition attempted (c : ClientSession.Client) : ClientSession.Client := (ClientSession.nextSessionInitAttempt (Some [9; 8; 7; 6]) [example_conn] c).2.
Definition example_round (responses : list (option bytes)) (c : ClientSession.Client) :=
  ClientSession.initializeSessionRequest (CR := toy_crypto) (CP := rle_compressors)
    (ClientSession.mkAttempt (Some [9; 8; 7; 6]) [example_conn] responses 5000) toy_rnd 0 c.

Lemma example_attempt : ClientSession.nextSessionInitAttempt (Some [9; 8; 7; 6]) [example_conn] example_client =
  (Ok (example_conn, example_init_request, [9; 8; 7; 6]), attempted example_client).
Proof. vm_compute. reflexivity. Qed.


Lemma example_code : len [9; 8; 7; 6] = 4 /\ bytes_ok [9; 8; 7; 6] /\ entropy_ok (Some (replicate 32 5)).
Proof. split; [reflexivity |]. split; [repeat constructor; unfold u8; lia |]. split; [reflexivity |]. apply Forall_replicate. unfold u8; lia. Qed.

Lemma session_handshake_witness : exists datagram answer s' c' r,
  example_handle datagram 1000 (Some (replicate 32 5)) example_server = Ok (Some answer, s') /\
  example_round [Some answer] example_client = (Ok tt, c') /\ agreed example_config example_client c' (sessions s') example_init_request r.
Proof.
  destruct example_key as [Hk Hc], example_code as (Hl & Hb & He).
  destruct (session_handshake (CR := toy_crypto) (CP := rle_compressors) 2 example_config 0 [1; 2; 3] example_codec example_server example_client (attempted example_client)
    [9; 8; 7; 6] [example_conn] example_conn example_init_request [9; 8; 7; 6] toy_rnd 0 1000 (Some (replicate 32 5))) as (_ & text & Ht & H).
  - exact Hk.
  - exact Hc.
  - apply reach_start.
  - reflexivity.
  - exact He.
  - exact example_client_ok.
  - reflexivity.
  - reflexivity.
  - reflexivity.
  - exact Hl.
  - exact Hb.
  - exact example_attempt.
  - exact toy_rnd_ok.
  - discriminate.
  - exact example_domain.
  - vm_compute in Ht. injection Ht as <-. destruct H as (id & q & ar & tail & counter' & _ & Hq & Hall); [vm_compute; split; discriminate |].
    destruct (Hall _ (relayed_bare q Hq)) as (answer & full & s' & Hh & Hp & Hres).
    destruct (Hres answer full [] 5000 Hp (Permutation_refl _)) as [(c' & r & E & Hag & _) | (Hfull & _)].
    + exists (message_header 77 0x0100 1 0 0 0 ++ q), answer, s', c', r. split; [exact Hh |]. split; [exact E | exact Hag].
    + exfalso. revert Hfull. vm_compute. intros Hfull. by apply Hfull.
Defined.

