(* ===== verification/DnsCache.v ===== *)
(** The cache of DNS answers: src/masterdns/internal/dnscache/store.go.

    A store has 32 shards; a shard is a map from keys to elements of a list in the order of
    their use.  An element has an identity, as the map and the list share it.  Times are
    nanoseconds since the Unix epoch, and [zero_time] is Go's zero time; [now.Sub] does not
    saturate here, which no comparison with a duration can tell apart.  Files are lists of bytes;
    that writing one succeeds is an argument. *)

From stdpp Require Import base tactics list gmap strings.
From Stdlib Require Import ZArith Lia.
From S2P Require Import Prelude.

Module DnsCache.

Definition StatusPending : Z := 1.
Definition StatusReady : Z := 2.

Definition shardCount : Z := 32.
Definition shardMask : Z := shardCount - 1.

Definition second : Z := 1000000000.
(** January 1 of year 1. *)
Definition zero_time : Z := -62135596800 * second.

Record Entry := mkEntry {
  Domain : bytes;
  QuestionType : Z;
  QuestionClass : Z;
  Status : Z;
  CreatedAt : Z;
  LastUsedAt : Z;
  LastDispatchAt : Z;
  Response : bytes
}.

#[export] Instance eta_entry : Eta Entry := fun e =>
  mkEntry (Domain e) (QuestionType e) (QuestionClass e) (Status e) (CreatedAt e) (LastUsedAt e) (LastDispatchAt e) (Response e).
#[export] Instance set_LastUsedAt : Setter LastUsedAt := ltac:(derive_setter).
#[export] Instance set_LastDispatchAt : Setter LastDispatchAt := ltac:(derive_setter).

Record LookupResult := mkLookupResult { lrStatus : Z; lrResponse : bytes; DispatchNeeded : bool }.

(** An element of the list with its [cacheNode]. *)
Record element := mkElement { eid : nat; key : bytes; entry : Entry }.

Record shard := mkShard { items : gmap bytes nat; order : list element }.

Record Store := mkStore {
  maxRecords : Z;
  cacheTTL : Z;
  pendingTimeout : Z;
  shards : list shard;
  pendingTotal : Z;
  dirty : Z;
  nextElement : nat
}.

#[export] Instance eta_store : Eta Store := fun s =>
  mkStore (maxRecords s) (cacheTTL s) (pendingTimeout s) (shards s) (pendingTotal s) (dirty s) (nextElement s).
#[export] Instance set_shards : Setter shards := ltac:(derive_setter).
#[export] Instance set_pendingTotal : Setter pendingTotal := ltac:(derive_setter).
#[export] Instance set_dirty : Setter dirty := ltac:(derive_setter).
#[export] Instance set_nextElement : Setter nextElement := ltac:(derive_setter).

Definition empty_shard : shard := mkShard ∅ [].

Definition New (maxRecords cacheTTL pendingTimeout : Z) : Store :=
  let maxRecords := if maxRecords <? 1 then 1 else maxRecords in
  let cacheTTL := if cacheTTL <=? 0 then 3600 * second else cacheTTL in
  let pendingTimeout := if pendingTimeout <=? 0 then 30 * second else pendingTimeout in
  mkStore maxRecords cacheTTL pendingTimeout (replicate (Z.to_nat shardCount) empty_shard) 0 0 0.

Definition BuildKey (domain : bytes) (qType qClass : Z) : bytes := be16 qType ++ be16 qClass ++ domain.

(** [fnv.New32a] *)
Definition fnv32a (data : bytes) : Z :=
  fold_left (fun h b => wrap32 (Z.lxor h b * 16777619)) data 2166136261.

Definition getShardIndex (key : bytes) : nat := Z.to_nat (Z.land (fnv32a key) shardMask).

Definition PatchResponseForQuery (rawResponse rawQuery : bytes) : bytes :=
  if len rawResponse <? 2 then rawResponse
  else if len rawQuery <? 2 then rawResponse
  else
    let patched := take 2 rawQuery ++ drop 2 rawResponse in
    if (4 <=? len rawQuery) && (4 <=? len patched) then
      let queryFlags := of_be16 (nth 2 rawQuery 0) (nth 3 rawQuery 0) in
      let responseFlags := of_be16 (nth 2 patched 0) (nth 3 patched 0) in
      let responseFlags := Z.lor (Z.ldiff responseFlags 0x0110) (Z.land queryFlags 0x0110) in
      take 2 patched ++ be16 responseFlags ++ drop 4 patched
    else patched.

(** ** Elements *)

Definition shard_of (i : nat) (s : Store) : shard := default empty_shard (shards s !! i).

Definition update_element (id : nat) (f : Entry -> Entry) (l : list element) : list element :=
  map (fun e => if decide (eid e = id) then mkElement (eid e) (key e) (f (entry e)) else e) l.

Definition remove_id (id : nat) (l : list element) : list element := filter (fun e => eid e <> id) l.

(** [order.MoveToBack(element)] *)
Definition move_to_back (id : nat) (l : list element) : list element := remove_id id l ++ filter (fun e => eid e = id) l.

Definition on_order (i : nat) (f : list element -> list element) (s : Store) : Store :=
  s <| shards ::= alter (fun sh => mkShard (items sh) (f (order sh))) i |>.

Definition isExpired (e : Entry) (now : Z) (s : Store) : bool :=
  if Status e =? StatusPending then false else cacheTTL s <=? now - LastUsedAt e.

Definition note_dirty (s : Store) : Store := s <| dirty ::= fun n => wrap64 (n + 1) |>.

Definition touchEntryLocked (i id : nat) (now : Z) (s : Store) : Store :=
  match list_find (fun e => eid e = id) (order (shard_of i s)) with
  | None => s
  | Some (_, e) =>
      let used := LastUsedAt (entry e) in
      let s := on_order i (update_element id (fun e => e <| LastUsedAt := now |>)) s in
      if (used =? zero_time) || (second <=? now - used) then note_dirty s else s
  end.

(** The counter of pending entries, on its way down. *)
Definition drop_pending (e : Entry) (s : Store) : Store :=
  if (Status e =? StatusPending) && (0 <? pendingTotal s) then s <| pendingTotal ::= Z.pred |> else s.

Definition removeElementLocked (i : nat) (e : element) (s : Store) : Store :=
  let s := drop_pending (entry e) s in
  note_dirty (s <| shards ::= alter (fun sh => mkShard (delete (key e) (items sh)) (remove_id (eid e) (order sh))) i |>).

Definition shard_limit (s : Store) : Z :=
  let limit := Z.quot (maxRecords s) shardCount in if limit <? 1 then 1 else limit.

Fixpoint evict_loop (fuel : nat) (i : nat) (s : Store) : Store :=
  match fuel with
  | O => s
  | S fuel =>
      if Z.of_nat (size (items (shard_of i s))) <=? shard_limit s then s
      else match order (shard_of i s) with
      | [] => s
      | front :: _ => evict_loop fuel i (removeElementLocked i front s)
      end
  end.

(** Every turn takes an element off the list. *)
Definition evictIfNeededLocked (i : nat) (s : Store) : Store := evict_loop (length (order (shard_of i s))) i s.

(** [PushBack] of a new element, and its entry in the map. *)
Definition push_element (i : nat) (k : bytes) (e : Entry) (s : Store) : Store :=
  let id := nextElement s in
  s <| shards ::= alter (fun sh => mkShard (<[k := id]> (items sh)) (order sh ++ [mkElement id k e])) i |>
    <| nextElement ::= S |>.

(** The element that the map gives for a key. *)
Definition find_element (k : bytes) (sh : shard) : option element :=
  match items sh !! k with
  | None => None
  | Some id => snd <$> list_find (fun e => eid e = id) (order sh)
  end.

(** ** Operations *)

Definition create_pending (i : nat) (k domain : bytes) (qType qClass now : Z) (s : Store) : LookupResult * Store :=
  let s := push_element i k (mkEntry domain qType qClass StatusPending now now now []) s in
  let s := note_dirty (s <| pendingTotal ::= Z.succ |>) in
  (mkLookupResult StatusPending [] true, evictIfNeededLocked i s).

Definition LookupOrCreatePending (k domain : bytes) (qType qClass now : Z) (s : Store) : LookupResult * Store :=
  if bool_decide (k = []) then (mkLookupResult 0 [] false, s)
  else
    let i := getShardIndex k in
    match find_element k (shard_of i s) with
    | None => create_pending i k domain qType qClass now s
    | Some e =>
        if isExpired (entry e) now s then create_pending i k domain qType qClass now (removeElementLocked i e s)
        else
          let s := touchEntryLocked i (eid e) now s in
          if Status (entry e) =? StatusReady then
            (mkLookupResult StatusReady (PatchResponseForQuery (Response (entry e)) []) false, on_order i (move_to_back (eid e)) s)
          else if pendingTimeout s <=? now - LastDispatchAt (entry e) then
            let s := note_dirty (on_order i (update_element (eid e) (fun e => e <| LastDispatchAt := now |>)) s) in
            (mkLookupResult StatusPending [] true, on_order i (move_to_back (eid e)) s)
          else (mkLookupResult StatusPending [] false, on_order i (move_to_back (eid e)) s)
    end.

Definition GetReady (k rawQuery : bytes) (now : Z) (s : Store) : option bytes * Store :=
  if bool_decide (k = []) then (None, s)
  else
    let i := getShardIndex k in
    match find_element k (shard_of i s) with
    | None => (None, s)
    | Some e =>
        if isExpired (entry e) now s then (None, removeElementLocked i e s)
        else
          let s := on_order i (move_to_back (eid e)) (touchEntryLocked i (eid e) now s) in
          if negb (Status (entry e) =? StatusReady) || (len (Response (entry e)) =? 0) then (None, s)
          else (Some (PatchResponseForQuery (Response (entry e)) rawQuery), s)
    end.

Definition set_response (domain : bytes) (qType qClass : Z) (response : bytes) (now : Z) (e : Entry) : Entry :=
  mkEntry domain qType qClass StatusReady (if CreatedAt e =? zero_time then now else CreatedAt e) now (LastDispatchAt e) response.

Definition SetReady (k domain : bytes) (qType qClass : Z) (rawResponse : bytes) (now : Z) (s : Store) : Store :=
  if bool_decide (k = []) || (len rawResponse <? 2) then s
  else
    let i := getShardIndex k in
    let normalized := [0; 0] ++ drop 2 rawResponse in
    match find_element k (shard_of i s) with
    | Some e =>
        let s := drop_pending (entry e) s in
        let s := note_dirty (on_order i (update_element (eid e) (set_response domain qType qClass normalized now)) s) in
        on_order i (move_to_back (eid e)) s
    | None =>
        let s := push_element i k (mkEntry domain qType qClass StatusReady now now zero_time normalized) s in
        evictIfNeededLocked i (note_dirty s)
    end.

Definition Snapshot (k : bytes) (s : Store) : option Entry :=
  if bool_decide (k = []) then None else entry <$> find_element k (shard_of (getShardIndex k) s).

Definition HasPending (s : Store) : bool := 0 <? pendingTotal s.

(** The loops of [ClearPending]. *)
Definition clear_pending_shard (s : Store) (i : nat) : Store :=
  fold_left (fun s e => if Status (entry e) =? StatusPending then removeElementLocked i e s else s) (order (shard_of i s)) s.

Definition ClearPending (s : Store) : Store := fold_left clear_pending_shard (seq 0 (Z.to_nat shardCount)) s.

(** ** Files *)

Definition binaryMagic : Z := 0x444E5343.
Definition binaryVersion : Z := 1.

(** Big-endian integers of [n] bytes. *)
Fixpoint be_bytes (n : nat) (v : Z) : bytes :=
  match n with O => [] | S n => wrap8 (Z.shiftr v (8 * Z.of_nat n)) :: be_bytes n v end.

Definition be_value (l : bytes) : Z := fold_left (fun v b => v * 256 + b) l 0.

(** [int64(v)] *)
Definition signed64 (v : Z) : Z := if v <? 2 ^ 63 then v else v - 2 ^ 64.

(** [t.Unix()] and [time.Unix(sec, 0)] *)
Definition unix (t : Z) : Z := t / second.
Definition of_unix (sec : Z) : Z := sec * second.

Definition writeBinaryEntry (k : bytes) (e : Entry) : bytes :=
  be_bytes 2 (wrap16 (len k)) ++ k ++
  be_bytes 2 (wrap16 (len (Domain e))) ++ Domain e ++
  be_bytes 2 (QuestionType e) ++ be_bytes 2 (QuestionClass e) ++
  be_bytes 2 (wrap16 (len (Response e))) ++ Response e ++
  be_bytes 8 (wrap64 (unix (CreatedAt e))) ++ be_bytes 8 (wrap64 (unix (LastUsedAt e))).

Inductive cache_error := EOF | ErrUnexpectedEOF | InvalidMagic | UnsupportedVersion | EntryFailed (i : Z) (e : cache_error) | FileError.

(** [io.ReadFull] of [n] bytes: [EOF] just when nothing is left. *)
Definition read_full (n : Z) (r : bytes) : outcome cache_error (bytes * bytes) :=
  if n =? 0 then Ok ([], r)
  else if len r =? 0 then Err EOF
  else if len r <? n then Err ErrUnexpectedEOF
  else Ok (take (Z.to_nat n) r, drop (Z.to_nat n) r).

(** [binary.Read] of an unsigned integer of [n] bytes. *)
Definition read_uint (n : Z) (r : bytes) : outcome cache_error (Z * bytes) :=
  let! (b, r) := read_full n r in Ok (be_value b, r).

Definition readBinaryEntry (r : bytes) : outcome cache_error (Entry * bytes * bytes) :=
  let! (keyLen, r) := read_uint 2 r in
  let! (keyBuf, r) := read_full keyLen r in
  let! (domainLen, r) := read_uint 2 r in
  let! (domainBuf, r) := read_full domainLen r in
  let! (qType, r) := read_uint 2 r in
  let! (qClass, r) := read_uint 2 r in
  let! (resLen, r) := read_uint 2 r in
  let! (resBuf, r) := read_full resLen r in
  let! (createdAt, r) := read_uint 8 r in
  let! (lastUsedAt, r) := read_uint 8 r in
  Ok (mkEntry domainBuf qType qClass StatusReady (of_unix (signed64 createdAt)) (of_unix (signed64 lastUsedAt)) zero_time resBuf, keyBuf, r).

(** What [os.Open] and reading deliver. *)
Inductive file := NotExist | OpenError | Contents (b : bytes).

(** The loop over the entries; a truncated file ends it. *)
Fixpoint load_loop (count : nat) (i : Z) (r : bytes) (now loaded : Z) (s : Store) : outcome cache_error Z * Store :=
  match count with
  | O => (Ok loaded, s)
  | S count =>
      match readBinaryEntry r with
      | Err EOF => (Ok loaded, s)
      | Err e => (Err (EntryFailed i e), s)
      | Panic => (Panic, s)
      | Ok (e, k, r) =>
          if isExpired e now s then load_loop count (i + 1) r now loaded s
          else load_loop count (i + 1) r now (loaded + 1) (push_element (getShardIndex k) k e s)
      end
  end.

Definition read_header (b : bytes) : outcome cache_error (Z * bytes) :=
  let! (magic, r) := read_uint 4 b in
  if negb (magic =? binaryMagic) then Err InvalidMagic
  else
    let! (version, r) := read_uint 2 r in
    if negb (version =? binaryVersion) then Err UnsupportedVersion
    else read_uint 4 r.

Definition LoadFromFile (f : file) (now : Z) (s : Store) : outcome cache_error Z * Store :=
  match f with
  | NotExist => (Ok 0, s)
  | OpenError => (Err FileError, s)
  | Contents b =>
      match read_header b with
      | Err e => (Err e, s)
      | Panic => (Panic, s)
      | Ok (count, r) =>
          let s := s <| pendingTotal := 0 |> <| shards := replicate (Z.to_nat shardCount) empty_shard |> in
          match load_loop (Z.to_nat count) 0 r now 0 s with
          | (Ok loaded, s) =>
              let s := fold_left (fun s i => evictIfNeededLocked i s) (seq 0 (Z.to_nat shardCount)) s in
              (Ok loaded, s <| dirty := 0 |>)
          | (c, s) => (c, s)
          end
      end
  end.

(** The elements that are saved, in the order of the shards. *)
Definition saved_elements (now : Z) (s : Store) : list element :=
  filter (fun e => Status (entry e) = StatusReady /\ isExpired (entry e) now s = false) (concat (map order (shards s))).

Definition file_bytes (l : list element) : bytes :=
  be_bytes 4 binaryMagic ++ be_bytes 2 binaryVersion ++ be_bytes 4 (wrap32 (len l)) ++
  concat (map (fun e => writeBinaryEntry (key e) (entry e)) l).

(** The bytes of the new file, if one is written; [written] tells that all of it succeeded. *)
Definition SaveToFile (now : Z) (written : bool) (s : Store) : option bytes * outcome cache_error Z * Store :=
  if dirty s =? 0 then (None, Ok 0, s)
  else
    let l := saved_elements now s in
    if written then (Some (file_bytes l), Ok (len l), s <| dirty := 0 |>) else (None, Err FileError, s).
End DnsCache.
