(* ===== verification/DnsCacheInv.v ===== *)
(** Theorems on the cache of DNS answers (DnsCache.v): it implements lists of answers in the
    order of their use, one per shard and of bounded length; it keeps an answer as long as few
    other questions come in between; and a saved cache is loaded again. *)

From stdpp Require Import base tactics list gmap strings sorting.
From Stdlib Require Import ZArith Lia.
From S2P Require Import Prelude DnsCache.
Import DnsCache.

(** ** The specification *)

(** The answers of a shard, the one used last at the end. *)
Abbreviation lru := (list (bytes * Entry)).

Definition forget (k : bytes) (l : lru) : lru := filter (fun p : bytes * Entry => p.1 <> k) l.

(** [k] is used: it goes to the end, and at most [limit] answers stay. *)
Definition use (limit : nat) (k : bytes) (e : Entry) (l : lru) : lru :=
  let l := forget k l ++ [(k, e)] in drop (length l - limit) l.

Definition lru_find (k : bytes) (l : lru) : option Entry := (fun p : nat * (bytes * Entry) => p.2.2) <$> list_find (fun p : bytes * Entry => p.1 = k) l.

(** The settings of a cache. *)
Record params := mkParams { limit : nat; ttl : Z; timeout : Z }.

Definition expired (p : params) (e : Entry) (now : Z) : bool := negb (Status e =? StatusPending) && (ttl p <=? now - LastUsedAt e).

Definition new_pending (domain : bytes) (qType qClass now : Z) : Entry := mkEntry domain qType qClass StatusPending now now now [].

Definition spec_lookup (p : params) (k domain : bytes) (qType qClass now : Z) (l : lru) : LookupResult * lru :=
  match lru_find k l with
  | Some e =>
      if expired p e now then (mkLookupResult StatusPending [] true, use (limit p) k (new_pending domain qType qClass now) l)
      else
        let e' := e <| LastUsedAt := now |> in
        if Status e =? StatusReady then (mkLookupResult StatusReady (Response e) false, use (limit p) k e' l)
        else if timeout p <=? now - LastDispatchAt e then
          (mkLookupResult StatusPending [] true, use (limit p) k (e' <| LastDispatchAt := now |>) l)
        else (mkLookupResult StatusPending [] false, use (limit p) k e' l)
  | None => (mkLookupResult StatusPending [] true, use (limit p) k (new_pending domain qType qClass now) l)
  end.

Definition spec_get (p : params) (k rawQuery : bytes) (now : Z) (l : lru) : option bytes * lru :=
  match lru_find k l with
  | Some e =>
      if expired p e now then (None, forget k l)
      else (if (Status e =? StatusReady) && negb (len (Response e) =? 0) then Some (PatchResponseForQuery (Response e) rawQuery) else None,
            use (limit p) k (e <| LastUsedAt := now |>) l)
  | None => (None, l)
  end.

Definition spec_set (p : params) (k domain : bytes) (qType qClass : Z) (rawResponse : bytes) (now : Z) (l : lru) : lru :=
  let response := [0; 0] ++ drop 2 rawResponse in
  use (limit p) k
    (match lru_find k l with
     | Some e => set_response domain qType qClass response now e
     | None => mkEntry domain qType qClass StatusReady now now zero_time response
     end) l.

Definition spec_clear (l : lru) : lru := filter (fun p : bytes * Entry => Status p.2 <> StatusPending) l.

(** ** Operations *)

Inductive cache_op :=
| OpLookup (k domain : bytes) (qType qClass now : Z)
| OpGet (k rawQuery : bytes) (now : Z)
| OpSet (k domain : bytes) (qType qClass : Z) (rawResponse : bytes) (now : Z)
| OpSnapshot (k : bytes)
| OpHasPending
| OpClear.

Inductive cache_result :=
| RLookup (r : LookupResult)
| RGet (r : option bytes)
| RSnapshot (r : option Entry)
| RPending (b : bool)
| RUnit.

Definition cache_step (o : cache_op) (s : Store) : cache_result * Store :=
  match o with
  | OpLookup k domain qType qClass now => let '(r, s) := LookupOrCreatePending k domain qType qClass now s in (RLookup r, s)
  | OpGet k rawQuery now => let '(r, s) := GetReady k rawQuery now s in (RGet r, s)
  | OpSet k domain qType qClass rawResponse now => (RUnit, SetReady k domain qType qClass rawResponse now s)
  | OpSnapshot k => (RSnapshot (Snapshot k s), s)
  | OpHasPending => (RPending (HasPending s), s)
  | OpClear => (RUnit, ClearPending s)
  end.

Definition is_pending (p : bytes * Entry) : Prop := Status p.2 = StatusPending.
#[global] Instance is_pending_dec p : Decision (is_pending p) := ltac:(unfold is_pending; apply _).

(** The same on the specification: one list per shard. *)
Definition spec_step (p : params) (o : cache_op) (ls : list lru) : cache_result * list lru :=
  let at_key k := default [] (ls !! getShardIndex k) in
  match o with
  | OpLookup k domain qType qClass now =>
      if bool_decide (k = []) then (RLookup (mkLookupResult 0 [] false), ls)
      else let '(r, l) := spec_lookup p k domain qType qClass now (at_key k) in (RLookup r, <[getShardIndex k := l]> ls)
  | OpGet k rawQuery now =>
      if bool_decide (k = []) then (RGet None, ls)
      else let '(r, l) := spec_get p k rawQuery now (at_key k) in (RGet r, <[getShardIndex k := l]> ls)
  | OpSet k domain qType qClass rawResponse now =>
      if bool_decide (k = []) || (len rawResponse <? 2) then (RUnit, ls)
      else (RUnit, <[getShardIndex k := spec_set p k domain qType qClass rawResponse now (at_key k)]> ls)
  | OpSnapshot k => (RSnapshot (if bool_decide (k = []) then None else lru_find k (at_key k)), ls)
  | OpHasPending => (RPending (bool_decide (Exists (Exists is_pending) ls)), ls)
  | OpClear => (RUnit, map spec_clear ls)
  end.

Fixpoint run {S} (step : cache_op -> S -> cache_result * S) (ops : list cache_op) (s : S) : list cache_result * S :=
  match ops with
  | [] => ([], s)
  | o :: ops => let '(r, s) := step o s in let '(rs, s) := run step ops s in (r :: rs, s)
  end.

(** ** The invariant *)

Definition pairs (l : list element) : lru := map (fun e => (key e, entry e)) l.
Definition contents (s : Store) : list lru := map (fun sh => pairs (order sh)) (shards s).
Definition pending_in (l : list element) : Z := len (filter is_pending (pairs l)).
Definition pending_sum (ls : list shard) : Z := foldr (fun sh n => pending_in (order sh) + n) 0 ls.

Definition status_ok (e : Entry) : Prop := Status e = StatusPending \/ Status e = StatusReady.

(** Map and list of a shard agree, for elements below [next] and with keys of shard [i]. *)
Record shard_ok (i next : nat) (sh : shard) : Prop := {
  sh_ids : NoDup (map eid (order sh));
  sh_keys : NoDup (map key (order sh));
  sh_items : forall k id, items sh !! k = Some id <-> exists e, e ∈ order sh /\ key e = k /\ eid e = id;
  sh_elements : Forall (fun e => (eid e < next)%nat /\ getShardIndex (key e) = i /\ status_ok (entry e)) (order sh)
}.

Record store_ok (s : Store) : Prop := {
  st_shards : length (shards s) = 32%nat;
  st_shard : forall i sh, shards s !! i = Some sh -> shard_ok i (nextElement s) sh /\ len (order sh) <= shard_limit s;
  st_pending : pendingTotal s = pending_sum (shards s);
  st_max : 1 <= maxRecords s;
  st_ttl : 0 < cacheTTL s
}.

(** ** Lists of elements *)

Lemma NoDup_map_inj {A B} (f : A -> B) (l : list A) x y : NoDup (map f l) -> x ∈ l -> y ∈ l -> f x = f y -> x = y.
Proof.
  intros Hn Hx Hy Hf. apply list_elem_of_lookup in Hx as [i Hi], Hy as [j Hj].
  assert (i = j) as ->; [| congruence]. eapply (NoDup_lookup (map f l) i j (f x)); [done | |]; rewrite list_lookup_fmap.
  - by rewrite Hi.
  - by rewrite Hj, Hf.
Qed.

Lemma map_filter {A B} (f : A -> B) (P : A -> Prop) (Q : B -> Prop) `{!forall x, Decision (P x)} `{!forall y, Decision (Q y)} (l : list A) :
  (forall x, x ∈ l -> P x <-> Q (f x)) -> map f (filter P l) = filter Q (map f l).
Proof.
  induction l as [| x l IH]; intros HPQ; [done |]. cbn [map]. rewrite !filter_cons. assert (P x <-> Q (f x)) as Hx by (apply HPQ, elem_of_cons; by left).
  specialize (IH (fun y Hy => HPQ y (proj2 (elem_of_cons _ _ _) (or_intror Hy)))). destruct (decide (P x)) as [p | p], (decide (Q (f x))) as [q | q]; cbn; tauto || (by rewrite IH).
Qed.

Lemma filter_ext_in {A} (P Q : A -> Prop) `{!forall x, Decision (P x)} `{!forall y, Decision (Q y)} (l : list A) :
  (forall x, x ∈ l -> P x <-> Q x) -> filter P l = filter Q l.
Proof. intros HPQ. pose proof (map_filter (fun x => x) P Q l HPQ) as E. by rewrite !map_id in E. Qed.

Lemma filter_all {A} (P : A -> Prop) `{!forall x, Decision (P x)} (l : list A) : Forall P l -> filter P l = l.
Proof. induction 1 as [| x l Hx Hl IH]; [done |]. rewrite filter_cons, decide_True by done. by rewrite IH. Qed.

Section shard.
Context (i next : nat) (sh : shard) (Hok : shard_ok i next sh).

Lemma same_element e e' : e ∈ order sh -> e' ∈ order sh -> eid e = eid e' \/ key e = key e' -> e = e'.
Proof. intros H1 H2 [H | H]; [eapply (NoDup_map_inj eid) | eapply (NoDup_map_inj key)]; (done || apply Hok). Qed.

Lemma pairs_remove e : e ∈ order sh -> pairs (remove_id (eid e) (order sh)) = forget (key e) (pairs (order sh)).
Proof.
  intros He. apply map_filter. intros x Hx. cbn. split; intros Hne Heq; apply Hne.
  - by rewrite (same_element x e) by auto.
  - by rewrite (same_element x e) by auto.
Qed.

Lemma find_element_spec k : match find_element k sh with
  | Some e => e ∈ order sh /\ key e = k /\ lru_find k (pairs (order sh)) = Some (entry e)
  | None => lru_find k (pairs (order sh)) = None /\ forall e, e ∈ order sh -> key e <> k
  end.
Proof.
  unfold find_element. destruct (items sh !! k) as [id |] eqn:Hi.
  - apply (sh_items _ _ _ Hok) in Hi as (e & He & Hk & Hid). destruct (list_find (fun x => eid x = id) (order sh)) as [[n x] |] eqn:Hf.
    + apply list_find_Some in Hf as (Hx & Hxid & _). apply list_elem_of_lookup_2 in Hx. assert (x = e) as -> by (apply same_element; [done | done | left; congruence]).
      cbn. split; [done |]. split; [done |]. unfold lru_find.
      destruct (list_find (fun p : bytes * Entry => p.1 = k) (pairs (order sh))) as [[m [k' e']] |] eqn:Hl.
      * apply list_find_Some in Hl as (Hl & Hk' & _). cbn in Hk'. subst k'. unfold pairs in Hl. apply list_lookup_fmap_Some in Hl as (y & Hy & Hy').
        apply list_elem_of_lookup_2 in Hy'. injection Hy as Hyk Hye. cbn. f_equal. rewrite Hye. f_equal. apply same_element; [done | done | right; congruence].
      * apply list_find_None in Hl. rewrite Forall_forall in Hl. destruct (Hl (key e, entry e)); [| done]. by apply (list_elem_of_fmap_2 (fun e => (key e, entry e))).
    + apply list_find_None in Hf. rewrite Forall_forall in Hf. by destruct (Hf e).
  - assert (forall e, e ∈ order sh -> key e <> k) as Hno.
    { intros e He Hk. assert (items sh !! k = Some (eid e)) by (apply (sh_items _ _ _ Hok); by exists e). congruence. }
    split; [| done]. unfold lru_find. destruct (list_find _ _) as [[m [k' e']] |] eqn:Hl; [| done].
    apply list_find_Some in Hl as (Hl & Hk' & _). cbn in Hk'. subst k'. apply list_elem_of_lookup_2, list_elem_of_fmap in Hl as (y & Hy & Hy'). injection Hy as Hy _. by destruct (Hno y).
Qed.

Lemma items_size : size (items sh) = length (order sh).
Proof.
  rewrite <- size_dom. rewrite <- (length_map key), <- (size_list_to_set (C := gset bytes) (map key (order sh))) by apply Hok.
  f_equal. apply set_eq. intros k. rewrite elem_of_dom, elem_of_list_to_set, list_elem_of_fmap. split.
  - intros [id Hid]. apply (sh_items _ _ _ Hok) in Hid as (e & He & Hk & _). by exists e.
  - intros (e & -> & He). exists (eid e). apply (sh_items _ _ _ Hok). by exists e.
Qed.

Lemma NoDup_remove {A} (f : element -> A) id : NoDup (map f (order sh)) -> NoDup (map f (remove_id id (order sh))).
Proof. intros Hn. eapply sublist_NoDup; [exact Hn |]. apply fmap_sublist, sublist_filter. Qed.

Lemma shard_remove e : e ∈ order sh -> shard_ok i next (mkShard (delete (key e) (items sh)) (remove_id (eid e) (order sh))).
Proof.
  intros He. split; cbn.
  - apply NoDup_remove, Hok.
  - apply NoDup_remove, Hok.
  - intros k id. rewrite lookup_delete_Some, (sh_items _ _ _ Hok). split.
    + intros (Hk & x & Hx & Hxk & Hxi). exists x. split; [| done]. apply list_elem_of_filter. split; [| done]. intros Heq. apply Hk. by rewrite <- (same_element x e) by auto.
    + intros (x & (Hne & Hx)%list_elem_of_filter & Hxk & Hxi). split; [| by exists x]. intros Heq. apply Hne. by rewrite (same_element x e) by (auto; right; congruence).
  - apply Forall_forall. intros x [_ Hx]%list_elem_of_filter. by apply (proj1 (Forall_forall _ _) (sh_elements _ _ _ Hok)).
Qed.

(** An element goes to the end with another entry. *)
Definition moved (e : element) (v : Entry) : list element := remove_id (eid e) (order sh) ++ [mkElement (eid e) (key e) v].

Lemma update_move e f : e ∈ order sh -> move_to_back (eid e) (update_element (eid e) f (order sh)) = moved e (f (entry e)).
Proof.
  intros He. unfold move_to_back, moved. assert (forall l, remove_id (eid e) (update_element (eid e) f l) = remove_id (eid e) l) as Hr.
  { induction l as [| x l IH]; [done |]. unfold remove_id, update_element in *. cbn [map]. destruct (decide (eid x = eid e)) as [E | E]; rewrite !filter_cons; cbn [eid].
    - by rewrite !decide_False by (intros Hne; by apply Hne).
    - rewrite !decide_True by done. by rewrite IH. }
  rewrite Hr. f_equal. destruct (list_elem_of_split _ _ He) as (l1 & l2 & Hl). pose proof (sh_ids _ _ _ Hok) as Hn. rewrite Hl in Hn |- *.
  rewrite map_app in Hn. cbn in Hn. apply NoDup_app in Hn as (_ & Hn1 & Hn2). apply NoDup_cons in Hn2 as [Hn2 _].
  assert (forall l, eid e ∉ map eid l -> filter (fun x => eid x = eid e) (update_element (eid e) f l) = []) as Hnone.
  { induction l as [| x l IH]; [done |]. cbn [map update_element]. intros Hx. rewrite filter_cons. assert (eid x <> eid e) by (intros E; apply Hx; rewrite E; left).
    rewrite decide_False by (by case_decide). apply IH. intros Hin. apply Hx. by right. }
  unfold update_element in *. rewrite map_app, filter_app. cbn [map]. rewrite filter_cons, decide_True by (by case_decide). rewrite decide_True by done.
  rewrite !Hnone; [done | done |]. intros Hin. apply (Hn1 _ Hin). left.
Qed.

Lemma pairs_moved e v : e ∈ order sh -> pairs (moved e v) = forget (key e) (pairs (order sh)) ++ [(key e, v)].
Proof. intros He. unfold moved, pairs. rewrite map_app. f_equal. by apply pairs_remove. Qed.

Lemma moved_length e v : e ∈ order sh -> length (moved e v) = length (order sh).
Proof.
  intros He. unfold moved. rewrite length_app. cbn. destruct (list_elem_of_split _ _ He) as (l1 & l2 & Hl). pose proof (sh_ids _ _ _ Hok) as Hn. rewrite Hl in Hn |- *.
  rewrite map_app in Hn. cbn in Hn. apply NoDup_app in Hn as (_ & Hn1 & Hn2). apply NoDup_cons in Hn2 as [Hn2 _].
  assert (forall l, eid e ∉ map eid l -> remove_id (eid e) l = l) as Hall.
  { intros l Hx. apply filter_all, Forall_forall. intros x Hin E. apply Hx. rewrite <- E. by apply list_elem_of_fmap_2. }
  unfold remove_id in *. rewrite filter_app, filter_cons, decide_False by (intros Hne; by apply Hne).
  rewrite !Hall; [rewrite !length_app; cbn; lia | done |]. intros Hin. apply (Hn1 _ Hin). left.
Qed.

Lemma shard_moved e v : e ∈ order sh -> status_ok v -> shard_ok i next (mkShard (items sh) (moved e v)).
Proof.
  intros He Hv. pose proof (shard_remove e He) as [R1 R2 R3 R4]. cbn in *. unfold moved.
  split; cbn; rewrite ?map_app; cbn.
  - apply NoDup_app. split; [done |]. split; [| apply NoDup_singleton]. intros x (y & -> & Hy)%list_elem_of_fmap Hx%list_elem_of_singleton.
    apply list_elem_of_filter in Hy as [Hy _]. done.
  - apply NoDup_app. split; [done |]. split; [| apply NoDup_singleton]. intros x (y & -> & Hy)%list_elem_of_fmap Hx%list_elem_of_singleton.
    apply list_elem_of_filter in Hy as [Hne Hy]. apply Hne. by rewrite (same_element y e) by auto.
  - intros k id. rewrite (sh_items _ _ _ Hok). split.
    + intros (x & Hx & Hk & Hid). destruct (decide (eid x = eid e)) as [E | E].
      * assert (x = e) as -> by (apply same_element; auto). exists (mkElement (eid e) (key e) v). split; [| done]. apply elem_of_app. right. left.
      * exists x. split; [| done]. apply elem_of_app. left. by apply list_elem_of_filter.
    + intros (x & [Hx | Hx]%elem_of_app & Hk & Hid); [apply list_elem_of_filter in Hx as [_ Hx]; by exists x |].
      apply list_elem_of_singleton in Hx as ->. by exists e.
  - apply Forall_app. split; [done |]. apply Forall_singleton. cbn. destruct (proj1 (Forall_forall _ _) (sh_elements _ _ _ Hok) e He) as (H1 & H2 & _). done.
Qed.

(** A new element. *)
Lemma shard_push k v : (forall e, e ∈ order sh -> key e <> k) -> getShardIndex k = i -> status_ok v ->
  shard_ok i (S next) (mkShard (<[k := next]> (items sh)) (order sh ++ [mkElement next k v])).
Proof.
  intros Hno Hk Hv. pose proof (proj1 (Forall_forall _ _) (sh_elements _ _ _ Hok)) as Hel. split; cbn; rewrite ?map_app; cbn.
  - apply NoDup_app. split; [apply Hok |]. split; [| apply NoDup_singleton]. intros x (y & -> & Hy)%list_elem_of_fmap Hx%list_elem_of_singleton.
    destruct (Hel y Hy) as [Hlt _]. lia.
  - apply NoDup_app. split; [apply Hok |]. split; [| apply NoDup_singleton]. intros x (y & -> & Hy)%list_elem_of_fmap Hx%list_elem_of_singleton. by apply (Hno y).
  - intros k' id. rewrite lookup_insert_Some, (sh_items _ _ _ Hok). split.
    + intros [[<- <-] | (Hne & x & Hx & Hxk & Hid)]; [eexists; split; [apply elem_of_app; right; left | done] |]. exists x. split; [apply elem_of_app; by left | done].
    + intros (x & [Hx | Hx]%elem_of_app & Hxk & Hid); [right; split; [intros ->; by apply (Hno x) | by exists x] |].
      apply list_elem_of_singleton in Hx as ->. by left.
  - apply Forall_app. split; [| apply Forall_singleton; cbn; split; [lia | done]]. eapply Forall_impl; [apply Hok |]. cbn. intros x (H1 & H2 & H3). split; [lia | done].
Qed.

(** The elements at the front go. *)
Lemma shard_front e l : order sh = e :: l -> remove_id (eid e) (order sh) = l.
Proof.
  intros Hl. pose proof (sh_ids _ _ _ Hok) as Hn. rewrite Hl in Hn |- *. cbn in Hn. apply NoDup_cons in Hn as [Hn _]. unfold remove_id.
  rewrite filter_cons, decide_False by (intros Hne; by apply Hne). apply filter_all, Forall_forall. intros x Hx E. apply Hn. rewrite <- E. by apply list_elem_of_fmap_2.
Qed.
End shard.

(** ** Stores *)

Definition cache_settings (s : Store) := (maxRecords s, cacheTTL s, pendingTimeout s).
Definition counted (s : Store) : Prop := pendingTotal s = pending_sum (shards s).

(** From [s] to [s'] only shard [i] changed, and became [sh]. *)
Record becomes (i : nat) (sh : shard) (s s' : Store) : Prop := {
  be_shards : shards s' = <[i := sh]> (shards s);
  be_settings : cache_settings s' = cache_settings s;
  be_next : (nextElement s <= nextElement s')%nat;
  be_counted : counted s';
  be_ok : shard_ok i (nextElement s') sh
}.

Lemma shard_ok_mono i next next' sh : (next <= next')%nat -> shard_ok i next sh -> shard_ok i next' sh.
Proof. intros Hle []. split; try done. eapply Forall_impl; [done |]. cbn. intros e (H1 & H2 & H3). split; [lia | done]. Qed.

Lemma pending_nonneg l : 0 <= pending_in l.
Proof. apply len_nonneg. Qed.

Lemma pending_app l l' : pending_in (l ++ l') = pending_in l + pending_in l'.
Proof. unfold pending_in, pairs. rewrite map_app, filter_app, len_app. done. Qed.

Lemma pending_sum_cons sh ls : pending_sum (sh :: ls) = pending_in (order sh) + pending_sum ls.
Proof. done. Qed.

Lemma pending_sum_insert i sh sh' ls : ls !! i = Some sh -> pending_sum (<[i := sh']> ls) = pending_sum ls - pending_in (order sh) + pending_in (order sh').
Proof.
  revert i. induction ls as [| x ls IH]; intros [| i]; [done | done | |]; rewrite pending_sum_cons; [intros [= ->] | intros Hi].
  - change (<[0%nat := sh']> (sh :: ls)) with (sh' :: ls). rewrite pending_sum_cons. lia.
  - change (<[S i := sh']> (x :: ls)) with (x :: <[i := sh']> ls). rewrite pending_sum_cons, (IH i) by done. lia.
Qed.

Lemma pending_sum_nonneg ls : 0 <= pending_sum ls.
Proof. induction ls as [| x ls IH]; [done |]. rewrite pending_sum_cons. pose proof (pending_nonneg (order x)). lia. Qed.

Lemma pending_le i sh ls : ls !! i = Some sh -> pending_in (order sh) <= pending_sum ls.
Proof.
  revert i. induction ls as [| x ls IH]; intros [| i]; [done | done | |]; rewrite pending_sum_cons; cbn.
  - intros [= ->]. pose proof (pending_sum_nonneg ls). lia.
  - intros Hi%IH. pose proof (pending_nonneg (order x)). lia.
Qed.

Lemma becomes_trans i sh1 sh2 s s1 s2 : becomes i sh1 s s1 -> becomes i sh2 s1 s2 -> becomes i sh2 s s2.
Proof.
  intros [A1 A2 A3 A4 A5] [B1 B2 B3 B4 B5]. split; [| congruence | lia | done | done]. by rewrite B1, A1, list_insert_insert_eq.
Qed.

Lemma becomes_dirty i sh s s' : becomes i sh s s' -> becomes i sh s (note_dirty s').
Proof. intros []. by split. Qed.

Lemma becomes_limit i sh s s' : becomes i sh s s' -> shard_limit s' = shard_limit s.
Proof. intros [_ Hs _ _ _]. unfold cache_settings in Hs. injection Hs as E1 _ _. unfold shard_limit. by rewrite E1. Qed.

Lemma shard_of_lookup i sh s : shards s !! i = Some sh -> shard_of i s = sh.
Proof. unfold shard_of. by intros ->. Qed.

(** The change of the counter with an element. *)
Definition weight (e : Entry) : Z := if Status e =? StatusPending then 1 else 0.

Lemma pending_element e : pending_in [e] = weight (entry e).
Proof.
  unfold pending_in, pairs, weight. cbn [map]. rewrite filter_cons. unfold is_pending. cbn.
  destruct (Z.eqb_spec (Status (entry e)) StatusPending); [by rewrite decide_True | by rewrite decide_False].
Qed.

Lemma drop_pending_total e s : weight e <= pendingTotal s -> pendingTotal (drop_pending e s) = pendingTotal s - weight e /\
  shards (drop_pending e s) = shards s /\ cache_settings (drop_pending e s) = cache_settings s /\ nextElement (drop_pending e s) = nextElement s.
Proof.
  unfold drop_pending, weight. destruct (Status e =? StatusPending); cbn [andb]; [| intros; split_and!; (done || lia)].
  intros. rewrite (proj2 (Z.ltb_lt _ _)) by lia. cbn. split_and!; (done || lia).
Qed.

Lemma pending_split (l : list element) e : NoDup (map eid l) -> e ∈ l -> pending_in l = pending_in (remove_id (eid e) l) + weight (entry e).
Proof.
  intros Hn He. destruct (list_elem_of_split _ _ He) as (l1 & l2 & Hl). rewrite Hl in Hn |- *. rewrite map_app in Hn. cbn in Hn.
  apply NoDup_app in Hn as (_ & Hn1 & Hn2). apply NoDup_cons in Hn2 as [Hn2 _].
  assert (forall l, eid e ∉ map eid l -> remove_id (eid e) l = l) as Hall.
  { intros l' Hx. apply filter_all, Forall_forall. intros x Hin E. apply Hx. rewrite <- E. by apply list_elem_of_fmap_2. }
  unfold remove_id in *. rewrite filter_app, filter_cons, decide_False by (intros Hne; by apply Hne).
  rewrite !Hall; [| done | intros Hin; apply (Hn1 _ Hin); left]. change (e :: l2) with ([e] ++ l2). rewrite !pending_app, pending_element. lia.
Qed.

Section operations.
Context (i : nat) (s : Store) (sh : shard) (Hs : shards s !! i = Some sh) (Hok : shard_ok i (nextElement s) sh) (Hc : counted s).

Lemma remove_becomes e : e ∈ order sh -> becomes i (mkShard (delete (key e) (items sh)) (remove_id (eid e) (order sh))) s (removeElementLocked i e s).
Proof.
  intros He. pose proof (pending_le _ _ _ Hs) as Hle. pose proof (pending_split _ e (sh_ids _ _ _ Hok) He) as Hsp. pose proof (pending_nonneg (remove_id (eid e) (order sh))).
  unfold removeElementLocked. apply becomes_dirty. unfold counted in Hc. destruct (drop_pending_total (entry e) s) as (D1 & D2 & D3 & D4); [lia |].
  split; cbn.
  - rewrite D2. by rewrite (alter_insert _ _ _ sh).
  - exact D3.
  - rewrite D4. lia.
  - unfold counted. cbn. rewrite D1, D2, (alter_insert _ _ _ sh), (pending_sum_insert _ sh) by done. cbn. lia.
  - rewrite D4. by apply shard_remove.
Qed.

Lemma push_becomes k v : (forall e, e ∈ order sh -> key e <> k) -> getShardIndex k = i -> status_ok v -> becomes i (mkShard (<[k := nextElement s]> (items sh)) (order sh ++ [mkElement (nextElement s) k v])) s
  ((push_element i k v s) <| pendingTotal ::= fun n => n + weight v |>).
Proof.
  intros Hno Hk Hv. unfold push_element. split; cbn; [by rewrite (alter_insert _ _ _ sh) | done | lia | | by apply shard_push].
  unfold counted in *. cbn. rewrite (alter_insert _ _ _ sh), (pending_sum_insert _ sh) by done. cbn. rewrite pending_app, pending_element. cbn. lia.
Qed.

Lemma on_order_becomes f : shard_ok i (nextElement s) (mkShard (items sh) (f (order sh))) -> pending_in (f (order sh)) = pending_in (order sh) -> becomes i (mkShard (items sh) (f (order sh))) s (on_order i f s).
Proof.
  intros Ho Hp. unfold on_order. split; cbn; [by rewrite (alter_insert _ _ _ sh) | done | lia | | done].
  unfold counted in *. cbn. rewrite (alter_insert _ _ _ sh), (pending_sum_insert _ sh) by done. cbn. lia.
Qed.
End operations.

(** Eviction. *)
Lemma evict_becomes fuel i : forall s sh, shards s !! i = Some sh -> shard_ok i (nextElement s) sh -> counted s ->
  (length (order sh) - Z.to_nat (shard_limit s) <= fuel)%nat ->
  exists it, becomes i (mkShard it (drop (length (order sh) - Z.to_nat (shard_limit s)) (order sh))) s (evict_loop fuel i s).
Proof.
  assert (forall s, 1 <= shard_limit s) as Hlim by (intros s; unfold shard_limit; case_if; zbool; lia).
  assert (forall s sh, shards s !! i = Some sh -> shard_ok i (nextElement s) sh -> counted s -> (length (order sh) <= Z.to_nat (shard_limit s))%nat ->
    exists it, becomes i (mkShard it (drop (length (order sh) - Z.to_nat (shard_limit s)) (order sh))) s s) as Hstay.
  { intros s sh Hs Hok Hc Hl. exists (items sh). replace (length (order sh) - _)%nat with 0%nat by lia. cbn. destruct sh as [it l].
    split; [by rewrite list_insert_id | done | lia | done | done]. }
  induction fuel as [| fuel IH]; intros s sh Hs Hok Hc Hf; [apply (Hstay s sh); (done || lia) |].
  cbn [evict_loop]. rewrite (shard_of_lookup _ _ _ Hs), (items_size _ _ _ Hok). pose proof (Hlim s). destruct (Z.leb_spec (Z.of_nat (length (order sh))) (shard_limit s)) as [Hle | Hgt].
  { apply Hstay; (done || lia). }
  destruct (order sh) as [| e l] eqn:Hl; [cbn in Hgt; lia |]. assert (e ∈ order sh) as He by (rewrite Hl; left).
  pose proof (remove_becomes i s sh Hs Hok Hc e He) as B. rewrite (shard_front i _ sh Hok e l Hl) in B.
  set (s1 := removeElementLocked i e s) in *. pose proof (becomes_limit _ _ _ _ B) as El.
  destruct (IH s1 (mkShard (delete (key e) (items sh)) l)) as (it & B2).
  - rewrite (be_shards _ _ _ _ B). apply list_lookup_insert_eq. by eapply lookup_lt_Some.
  - apply B.
  - apply B.
  - cbn. rewrite El. cbn in Hf. lia.
  - exists it. cbn [order] in B2. rewrite El in B2. cbn [length].
    replace (S (length l) - Z.to_nat (shard_limit s))%nat with (S (length l - Z.to_nat (shard_limit s))) by (cbn in Hgt; lia). by eapply becomes_trans.
Qed.

(** ** The operations on the lists *)

Definition params_of (s : Store) : params := mkParams (Z.to_nat (shard_limit s)) (cacheTTL s) (pendingTimeout s).

(** The operation on key [k] took its shard to [l]. *)
Definition leads (k : bytes) (l : lru) (s s' : Store) : Prop :=
  exists sh, becomes (getShardIndex k) sh s s' /\ pairs (order sh) = l /\ (length l <= limit (params_of s))%nat.

Lemma shard_index_range k : (getShardIndex k < 32)%nat.
Proof.
  unfold getShardIndex, shardMask, shardCount. change (32 - 1) with (Z.ones 5). rewrite Z.land_ones by lia.
  pose proof (Z.mod_pos_bound (fnv32a k) (2 ^ 5) ltac:(lia)). lia.
Qed.

Lemma shard_at k s : store_ok s -> exists sh, shards s !! getShardIndex k = Some sh /\ shard_of (getShardIndex k) s = sh /\
  shard_ok (getShardIndex k) (nextElement s) sh /\ (length (order sh) <= limit (params_of s))%nat /\ default [] (contents s !! getShardIndex k) = pairs (order sh).
Proof.
  intros Hok. pose proof (shard_index_range k) as Hr. destruct (lookup_lt_is_Some_2 (shards s) (getShardIndex k)) as [sh Hs]; [by rewrite (st_shards _ Hok) |].
  exists sh. destruct (st_shard _ Hok _ _ Hs) as [H1 H2]. split_and!; [done | by apply shard_of_lookup | done | cbn; unfold len in H2; lia |].
  unfold contents. rewrite list_lookup_fmap, Hs. done.
Qed.

Lemma becomes_ok i sh s s' : store_ok s -> becomes i sh s s' -> (length (order sh) <= limit (params_of s))%nat ->
  store_ok s' /\ params_of s' = params_of s /\ contents s' = <[i := pairs (order sh)]> (contents s).
Proof.
  intros [] B Hlen. pose proof (becomes_limit _ _ _ _ B) as El. destruct B as [B1 B2 B3 B4 B5]. unfold cache_settings in B2. injection B2 as E1 E2 E3. split_and!.
  - split; [by rewrite B1, length_insert | | done | by rewrite E1 | by rewrite E2]. rewrite B1. intros j x Hx.
    apply list_lookup_insert_Some in Hx as [(<- & <- & _) | [Hne Hx]].
    + split; [done |]. unfold len. cbn in Hlen. rewrite El. unfold shard_limit in *. case_if; zbool; lia.
    + destruct (st_shard0 j x Hx) as [H1 H2]. split; [by eapply shard_ok_mono | by rewrite El].
  - unfold params_of. by rewrite El, E2, E3.
  - unfold contents. rewrite B1. by rewrite list_fmap_insert.
Qed.

Lemma leads_ok k l s s' : store_ok s -> leads k l s s' -> store_ok s' /\ params_of s' = params_of s /\ contents s' = <[getShardIndex k := l]> (contents s).
Proof. intros Hok (sh & B & <- & Hlen). apply becomes_ok; [done | done |]. unfold pairs in Hlen. by rewrite length_map in Hlen. Qed.

Lemma use_short n k e (l : lru) : (length (forget k l ++ [(k, e)]) <= n)%nat -> use n k e l = forget k l ++ [(k, e)].
Proof. intros Hl. unfold use. by replace (length (forget k l ++ [(k, e)]) - n)%nat with 0%nat by lia. Qed.

Lemma use_length n k e l : (length (use n k e l) <= n)%nat.
Proof. unfold use. rewrite length_drop. lia. Qed.

Lemma counted_ok s : store_ok s -> counted s.
Proof. by intros []. Qed.

Lemma pending_moved i next sh e v : shard_ok i next sh -> e ∈ order sh -> pending_in (moved sh e v) = pending_in (order sh) - weight (entry e) + weight v.
Proof.
  intros Hok He. unfold moved. rewrite pending_app, pending_element, (pending_split (order sh) e) by (done || apply Hok). cbn. lia.
Qed.

Lemma on_order_twice i f g s : on_order i f (on_order i g s) = on_order i (fun l => f (g l)) s.
Proof.
  destruct s. unfold on_order, set, set_shards. cbn. f_equal. apply list_eq. intros j.
  destruct (decide (i = j)) as [<- |]; [| by rewrite !list_lookup_alter_ne]. rewrite !list_lookup_alter_eq. by destruct (_ !! _).
Qed.

(** An element is used: its entry changes and it moves to the end. *)
Lemma reuse_leads k s sh e f : store_ok s -> shards s !! getShardIndex k = Some sh -> shard_ok (getShardIndex k) (nextElement s) sh ->
  (length (order sh) <= limit (params_of s))%nat -> e ∈ order sh -> key e = k -> status_ok (f (entry e)) ->
  forall s', (exists n, s' = (on_order (getShardIndex k) (move_to_back (eid e)) (on_order (getShardIndex k) (update_element (eid e) f) s))
    <| pendingTotal := pendingTotal s - weight (entry e) + weight (f (entry e)) |> <| dirty := n |>) ->
  leads k (use (limit (params_of s)) k (f (entry e)) (pairs (order sh))) s s'.
Proof.
  intros Hst Hs Hok Hlen He Hk Hst' s' [n ->]. exists (mkShard (items sh) (moved sh e (f (entry e)))).
  assert (pairs (moved sh e (f (entry e))) = forget k (pairs (order sh)) ++ [(k, f (entry e))]) as Hp by (rewrite (pairs_moved _ _ _ Hok) by done; by rewrite Hk).
  assert (length (moved sh e (f (entry e))) = length (order sh)) as Hml by (by eapply moved_length).
  rewrite use_short by (rewrite <- Hp; unfold pairs; rewrite length_map; lia). rewrite <- Hp. split; [| split; [done | unfold pairs; rewrite length_map; lia]].
  rewrite on_order_twice. split; cbn.
  - rewrite (alter_insert _ _ _ sh) by done. by rewrite (update_move _ _ _ Hok).
  - done.
  - lia.
  - pose proof (counted_ok s Hst) as Hc. unfold counted in *. cbn. rewrite (alter_insert _ _ _ sh), (pending_sum_insert _ sh), (update_move _ _ _ Hok), Hc by done. cbn [order].
    rewrite (pending_moved _ _ _ e _ Hok He). lia.
  - by apply shard_moved.
Qed.

(** An element is added at the end. *)
Lemma push_leads k s s1 l v : store_ok s -> status_ok v ->
  (exists sh, becomes (getShardIndex k) sh s s1 /\ pairs (order sh) = forget k l /\ forall e, e ∈ order sh -> key e <> k) ->
  forall s2, (exists n, s2 = (push_element (getShardIndex k) k v s1) <| pendingTotal ::= fun n => n + weight v |> <| dirty := n |>) ->
  leads k (use (limit (params_of s)) k v l) s (evictIfNeededLocked (getShardIndex k) s2).
Proof.
  intros Hst Hv (sh & B & Hp & Hno) s2 [n ->]. pose proof (shard_index_range k) as Hr.
  assert (shards s1 !! getShardIndex k = Some sh) as Hs1 by (rewrite (be_shards _ _ _ _ B); apply list_lookup_insert_eq; by rewrite (st_shards _ Hst)).
  pose proof (push_becomes _ s1 sh Hs1 (be_ok _ _ _ _ B) (be_counted _ _ _ _ B) k v Hno eq_refl Hv) as B2.
  set (s2 := (push_element _ _ _ _) <| pendingTotal ::= _ |>) in *. assert (becomes (getShardIndex k) (mkShard (<[k := nextElement s1]> (items sh)) (order sh ++ [mkElement (nextElement s1) k v])) s1 (s2 <| dirty := n |>)) as B3 by (destruct B2; by split).
  clear B2. set (s3 := s2 <| dirty := n |>) in *. clearbody s3. clear s2. pose proof (becomes_trans _ _ _ _ _ _ B B3) as B4.
  set (sh3 := mkShard _ _) in *. assert (shards s3 !! getShardIndex k = Some sh3) as Hs3 by (rewrite (be_shards _ _ _ _ B4); apply list_lookup_insert_eq; by rewrite (st_shards _ Hst)).
  unfold evictIfNeededLocked. rewrite (shard_of_lookup _ _ _ Hs3).
  destruct (evict_becomes (length (order sh3)) (getShardIndex k) s3 sh3 Hs3 (be_ok _ _ _ _ B4) (be_counted _ _ _ _ B4)) as (it & B5); [lia |].
  eexists. split; [exact (becomes_trans _ _ _ _ _ _ B4 B5) |]. cbn [order]. rewrite (becomes_limit _ _ _ _ B4).
  split; [| apply use_length]. unfold use, params_of. cbn [limit]. rewrite <- Hp. unfold sh3, pairs. cbn [order]. rewrite <- skipn_map, map_app, !length_app, length_map. done.
Qed.

(** Two entries with the same state of waiting. *)
Lemma weight_status e e' : Status e = Status e' -> weight e = weight e'.
Proof. unfold weight. by intros ->. Qed.

Lemma touch_dirty i id now s : exists n, touchEntryLocked i id now s =
  match list_find (fun e => eid e = id) (order (shard_of i s)) with
  | None => s
  | Some _ => (on_order i (update_element id (fun e => e <| LastUsedAt := now |>)) s) <| dirty := n |>
  end.
Proof.
  unfold touchEntryLocked. destruct (list_find _ _) as [[j e] |]; [| by exists 0]. case_if; [by eexists |]. exists (dirty s). by destruct s.
Qed.

Lemma find_own i next sh e : shard_ok i next sh -> e ∈ order sh -> exists j, list_find (fun x => eid x = eid e) (order sh) = Some (j, e).
Proof.
  intros Hok He. destruct (list_find (fun x => eid x = eid e) (order sh)) as [[j x] |] eqn:Hf.
  - apply list_find_Some in Hf as (Hx & Hxid & _). apply list_elem_of_lookup_2 in Hx. exists j. by rewrite (same_element _ _ _ Hok x e) by auto.
  - apply list_find_None in Hf. rewrite Forall_forall in Hf. by destruct (Hf e).
Qed.

Lemma update_twice id f g l : update_element id f (update_element id g l) = update_element id (fun x => f (g x)) l.
Proof.
  unfold update_element. rewrite map_map. apply map_ext. intros x. destruct (decide (eid x = id)) as [E | E]; cbn; [by rewrite decide_True | by rewrite decide_False].
Qed.

Lemma update_idle i id n s : (on_order i (update_element id (fun e => e)) (s <| dirty := n |>)) <| dirty := n |> = s <| dirty := n |>.
Proof.
  destruct s. unfold on_order, set, set_shards, set_dirty. cbn. f_equal. apply list_eq. intros j. destruct (decide (i = j)) as [<- |]; [| by rewrite !list_lookup_alter_ne].
  rewrite list_lookup_alter_eq. destruct (_ !! _) as [[it l] |]; [| done]. cbn. do 2 f_equal. unfold update_element. rewrite <- (map_id l) at 2. apply map_ext. intros x.
  destruct (decide (eid x = id)); [by destruct x | done].
Qed.

Lemma remove_forgets k i next sh e : shard_ok i next sh -> e ∈ order sh -> key e = k ->
  pairs (remove_id (eid e) (order sh)) = forget k (pairs (order sh)) /\ forall x, x ∈ remove_id (eid e) (order sh) -> key x <> k.
Proof.
  intros Hok He Hk. split; [rewrite (pairs_remove _ _ _ Hok) by done; by rewrite Hk |]. intros x [Hne Hx]%list_elem_of_filter Hxk. apply Hne.
  by rewrite (same_element _ _ _ Hok x e) by (auto; right; congruence).
Qed.

#[local] Opaque update_element move_to_back remove_id.

(** The end of an operation that found [e] and changes it by [f]. *)
Lemma touch_leads k s sh e now f : store_ok s -> shards s !! getShardIndex k = Some sh -> shard_ok (getShardIndex k) (nextElement s) sh ->
  (length (order sh) <= limit (params_of s))%nat -> e ∈ order sh -> key e = k -> (forall x, Status (f x) = Status x) ->
  forall s', (exists n m, s' = (on_order (getShardIndex k) (move_to_back (eid e)) ((on_order (getShardIndex k) (update_element (eid e) f)
      ((on_order (getShardIndex k) (update_element (eid e) (fun e => e <| LastUsedAt := now |>)) s) <| dirty := n |>)) <| dirty := m |>))) ->
  leads k (use (limit (params_of s)) k (f ((entry e) <| LastUsedAt := now |>)) (pairs (order sh))) s s'.
Proof.
  intros Hst Hs Hok Hlen He Hk Hf s' (n & m & ->).
  assert (status_ok (entry e)) as Hso by (by destruct (proj1 (Forall_forall _ _) (sh_elements _ _ _ Hok) e He) as (_ & _ & ?)).
  apply (reuse_leads k s sh e (fun x => f (x <| LastUsedAt := now |>))); try done.
  - unfold status_ok in *. by rewrite !Hf.
  - exists m. cbv beta. rewrite (weight_status (f ((entry e) <| LastUsedAt := now |>)) (entry e)) by (by rewrite Hf).
    destruct s. unfold on_order, set, set_shards, set_dirty, set_pendingTotal. cbn. f_equal; [| lia]. apply list_eq. intros j. destruct (decide (getShardIndex k = j)) as [<- |]; [| by rewrite !list_lookup_alter_ne].
    rewrite !list_lookup_alter_eq. cbn in Hs. rewrite Hs. cbn. by rewrite update_twice.
Qed.

Lemma expired_eq e now s : isExpired e now s = expired (params_of s) e now.
Proof. unfold isExpired, expired. by destruct (Status e =? StatusPending). Qed.

(** The new entry of a question, after [s1]. *)
Lemma create_leads k domain qType qClass now s s1 l : store_ok s ->
  (exists sh, becomes (getShardIndex k) sh s s1 /\ pairs (order sh) = forget k l /\ forall e, e ∈ order sh -> key e <> k) ->
  exists s', create_pending (getShardIndex k) k domain qType qClass now s1 = (mkLookupResult StatusPending [] true, s') /\
    leads k (use (limit (params_of s)) k (new_pending domain qType qClass now) l) s s'.
Proof.
  intros Hst Hs1. unfold create_pending. eexists. split; [reflexivity |]. eapply (push_leads k s s1 l (new_pending domain qType qClass now)); [done | by left | done |].
  eexists. unfold note_dirty. destruct s1. reflexivity.
Qed.

Lemma becomes_refl i sh s : shards s !! i = Some sh -> shard_ok i (nextElement s) sh -> counted s -> becomes i sh s s.
Proof. intros Hs Hok Hc. split; [by rewrite list_insert_id | done | lia | done | done]. Qed.

Lemma forget_none k l : (forall p : bytes * Entry, p ∈ l -> p.1 <> k) -> forget k l = l.
Proof. intros H. apply filter_all, Forall_forall. done. Qed.

Lemma forget_pairs k (l : list element) : (forall e, e ∈ l -> key e <> k) -> forget k (pairs l) = pairs l.
Proof. intros Hno. apply forget_none. intros p (e & -> & He)%list_elem_of_fmap. by apply Hno. Qed.

Lemma lookup_refines k domain qType qClass now s : store_ok s -> k <> [] ->
  exists r l s', spec_lookup (params_of s) k domain qType qClass now (default [] (contents s !! getShardIndex k)) = (r, l) /\
    LookupOrCreatePending k domain qType qClass now s = (r, s') /\ leads k l s s'.
Proof.
  intros Hst Hk. destruct (shard_at k s Hst) as (sh & Hs & Hso & Hok & Hlen & ->). unfold LookupOrCreatePending, spec_lookup. rewrite bool_decide_false by done.
  rewrite Hso. pose proof (find_element_spec _ _ _ Hok k) as Hf. destruct (find_element k sh) as [e |].
  - destruct Hf as (He & Hke & ->). rewrite expired_eq. destruct (expired _ _ _).
    + destruct (create_leads k domain qType qClass now s (removeElementLocked (getShardIndex k) e s) (pairs (order sh)) Hst) as (s' & E & Hl).
      { eexists. split; [apply remove_becomes; (done || by apply counted_ok) |]. cbn [order]. by eapply remove_forgets. }
      eexists _, _, s'. rewrite E. done.
    + destruct (touch_dirty (getShardIndex k) (eid e) now s) as [n ->]. rewrite Hso. destruct (find_own _ _ _ e Hok He) as [j ->].
      change (PatchResponseForQuery (Response (entry e)) []) with (if len (Response (entry e)) <? 2 then Response (entry e) else Response (entry e)).
      replace (if len (Response (entry e)) <? 2 then Response (entry e) else Response (entry e)) with (Response (entry e)) by (by case_if).
      destruct (Status (entry e) =? StatusReady); [| cbn [pendingTimeout set set_dirty on_order set_shards]; change (timeout (params_of s)) with (pendingTimeout s);
        change (pendingTimeout ((on_order (getShardIndex k) (update_element (eid e) (fun e => e <| LastUsedAt := now |>)) s) <| dirty := n |>)) with (pendingTimeout s);
        destruct (_ <=? _)];
        (eexists _, _, _; split; [reflexivity |]; split; [reflexivity |]).
      * apply (touch_leads k s sh e now (fun e => e)); try done. exists n, n. by rewrite update_idle.
      * apply (touch_leads k s sh e now (fun e => e <| LastDispatchAt := now |>)); try done. eexists n, _. reflexivity.
      * apply (touch_leads k s sh e now (fun e => e)); try done. exists n, n. by rewrite update_idle.
  - destruct Hf as [-> Hno].
    destruct (create_leads k domain qType qClass now s s (pairs (order sh)) Hst) as (s' & E & Hl).
    { exists sh. split; [by apply becomes_refl; [| | apply counted_ok] |]. by rewrite forget_pairs. }
    eexists _, _, s'. rewrite E. done.
Qed.

Lemma get_refines k rawQuery now s : store_ok s -> k <> [] ->
  exists r l s', spec_get (params_of s) k rawQuery now (default [] (contents s !! getShardIndex k)) = (r, l) /\
    GetReady k rawQuery now s = (r, s') /\ leads k l s s'.
Proof.
  intros Hst Hk. destruct (shard_at k s Hst) as (sh & Hs & Hso & Hok & Hlen & ->). unfold GetReady, spec_get. rewrite bool_decide_false by done.
  rewrite Hso. pose proof (find_element_spec _ _ _ Hok k) as Hf. destruct (find_element k sh) as [e |].
  - destruct Hf as (He & Hke & ->). rewrite expired_eq. destruct (expired _ _ _).
    + eexists _, _, _. split; [reflexivity |]. split; [reflexivity |]. eexists. split; [apply remove_becomes; (done || by apply counted_ok) |]. cbn [order].
      destruct (remove_forgets k _ _ _ e Hok He Hke) as [-> _]. split; [done |]. pose proof (length_filter (fun p : bytes * Entry => p.1 <> k) (pairs (order sh))) as Hle.
      unfold forget. unfold pairs in Hle at 2. rewrite length_map in Hle. lia.
    + destruct (touch_dirty (getShardIndex k) (eid e) now s) as [n ->]. rewrite Hso. destruct (find_own _ _ _ e Hok He) as [j ->].
      eexists _, _, (on_order (getShardIndex k) (move_to_back (eid e)) _). split; [reflexivity |].
      split; [by destruct (Status (entry e) =? StatusReady), (len (Response (entry e)) =? 0) |].
      apply (touch_leads k s sh e now (fun e => e)); try done. exists n, n. by rewrite update_idle.
  - destruct Hf as [-> _]. exists None, (pairs (order sh)), s. split; [done |]. split; [done |]. exists sh. split; [by apply becomes_refl; [| | apply counted_ok] |].
    split; [done |]. unfold pairs. by rewrite length_map.
Qed.

Lemma set_refines k domain qType qClass rawResponse now s : store_ok s -> k <> [] -> 2 <= len rawResponse ->
  leads k (spec_set (params_of s) k domain qType qClass rawResponse now (default [] (contents s !! getShardIndex k))) s
    (SetReady k domain qType qClass rawResponse now s).
Proof.
  intros Hst Hk Hl. destruct (shard_at k s Hst) as (sh & Hs & Hso & Hok & Hlen & ->). unfold SetReady, spec_set. rewrite bool_decide_false by done.
  rewrite (proj2 (Z.ltb_ge _ _)) by lia. cbn [orb]. rewrite Hso. pose proof (find_element_spec _ _ _ Hok k) as Hf. destruct (find_element k sh) as [e |].
  - destruct Hf as (He & Hke & ->). apply (reuse_leads k s sh e (set_response domain qType qClass ([0; 0] ++ drop 2 rawResponse) now)); try done; [by right |].
    assert (weight (entry e) <= pendingTotal s) as Hw.
    { rewrite (st_pending _ Hst). pose proof (pending_le _ _ _ Hs). rewrite (pending_split (order sh) e) in * by (done || apply Hok). pose proof (pending_nonneg (remove_id (eid e) (order sh))). lia. }
    unfold drop_pending, weight in *. eexists (wrap64 (dirty s + 1)). destruct s. unfold note_dirty, on_order, set, set_shards, set_dirty, set_pendingTotal. cbn in *.
    destruct (Status (entry e) =? StatusPending); cbn [andb]; [rewrite (proj2 (Z.ltb_lt _ _)) by lia |]; cbn; f_equal; lia.
  - destruct Hf as [-> Hno]. eapply (push_leads k s s); [done | by right | |].
    + exists sh. split; [by apply becomes_refl; [| | apply counted_ok] |]. by rewrite forget_pairs.
    + eexists. unfold note_dirty. destruct s. unfold set, set_pendingTotal. cbn. by rewrite Z.add_0_r.
Qed.

(** ** Clearing *)

Definition spared_by (l : list element) (e : element) : Prop := Status (entry e) = StatusPending -> eid e ∉ map eid l.
#[global] Instance spared_by_dec l e : Decision (spared_by l e) := ltac:(unfold spared_by; apply _).

Transparent remove_id.

Lemma clear_becomes i l : forall s sh, shards s !! i = Some sh -> shard_ok i (nextElement s) sh -> counted s -> NoDup (map eid l) -> Forall (fun e => e ∈ order sh) l ->
  exists it, becomes i (mkShard it (filter (spared_by l) (order sh))) s
    (fold_left (fun s e => if Status (entry e) =? StatusPending then removeElementLocked i e s else s) l s).
Proof.
  induction l as [| e l IH]; intros s sh Hs Hok Hc Hn Hl; cbn [fold_left].
  { exists (items sh). rewrite (filter_all (spared_by [])) by (apply Forall_forall; intros x _ _; apply not_elem_of_nil). destruct sh. by apply becomes_refl. }
  cbn [map] in Hn. apply NoDup_cons in Hn as [Hne Hn]. apply Forall_cons in Hl as [He Hl]. rewrite Forall_forall in Hl. destruct (Z.eqb_spec (Status (entry e)) StatusPending) as [Hp | Hp].
  - pose proof (remove_becomes i s sh Hs Hok Hc e He) as B. destruct (IH (removeElementLocked i e s) (mkShard (delete (key e) (items sh)) (remove_id (eid e) (order sh)))) as (it & B2).
    + rewrite (be_shards _ _ _ _ B). apply list_lookup_insert_eq. by eapply lookup_lt_Some.
    + apply B.
    + apply B.
    + done.
    + apply Forall_forall. intros x Hx. cbn. apply list_elem_of_filter. split; [| by apply Hl]. intros E. apply Hne. rewrite <- E. by apply list_elem_of_fmap_2.
    + exists it. eapply becomes_trans; [exact B |]. cbn [order] in B2. unfold remove_id in B2. rewrite list_filter_filter in B2.
      erewrite filter_ext_in in B2; [exact B2 |]. intros x Hx. unfold spared_by. cbn [map]. rewrite not_elem_of_cons. split; [tauto |]. intros Hx2. split; [tauto |].
      intros E. rewrite (same_element _ _ _ Hok x e) in Hx2 by auto. by destruct (Hx2 Hp).
  - destruct (IH s sh Hs Hok Hc Hn) as (it & B); [by apply Forall_forall |]. exists it. erewrite filter_ext_in; [exact B |]. intros x Hx. unfold spared_by. cbn [map].
    rewrite not_elem_of_cons. split; [tauto |]. intros Hx2 Hxp. split; [| by apply Hx2]. intros E. apply Hp. by rewrite <- (same_element _ _ _ Hok x e) by auto.
Qed.

Lemma clear_shard_leads i s : store_ok s -> (i < 32)%nat ->
  store_ok (clear_pending_shard s i) /\ params_of (clear_pending_shard s i) = params_of s /\
  contents (clear_pending_shard s i) = alter spec_clear i (contents s).
Proof.
  intros Hst Hi. destruct (lookup_lt_is_Some_2 (shards s) i) as [sh Hs]; [by rewrite (st_shards _ Hst) |]. destruct (st_shard _ Hst _ _ Hs) as [Hok Hl].
  unfold clear_pending_shard. rewrite (shard_of_lookup _ _ _ Hs).
  destruct (clear_becomes i (order sh) s sh Hs Hok (counted_ok s Hst) (sh_ids _ _ _ Hok)) as (it & B); [by apply Forall_forall |].
  destruct (becomes_ok _ _ _ _ Hst B) as (H1 & H2 & H3).
  { cbn [order]. pose proof (length_filter (spared_by (order sh)) (order sh)). cbn. unfold len in Hl. lia. }
  split; [done |]. split; [done |]. rewrite H3. rewrite (alter_insert _ _ _ (pairs (order sh))) by (unfold contents; by rewrite list_lookup_fmap, Hs). f_equal. cbn [order].
  apply map_filter. intros x Hx. unfold spared_by. cbn. split; [intros Hs2 Hp; apply (Hs2 Hp); by apply list_elem_of_fmap_2 | intros Hp Hp2; by destruct (Hp Hp2)].
Qed.

Lemma alter_all {A} (f : A -> A) (l : list A) n : (length l <= n)%nat -> fold_left (fun l i => alter f i l) (seq 0 n) l = map f l.
Proof.
  intros Hn. assert (forall k j, fold_left (fun l i => alter f i l) (seq 0 k) l !! j = if decide (j < k)%nat then f <$> l !! j else l !! j) as H.
  { induction k as [| k IH]; intros j; [by rewrite decide_False by lia |]. rewrite seq_S, fold_left_app. cbn [fold_left Nat.add]. destruct (decide (k = j)) as [<- | Hne].
    - rewrite list_lookup_alter_eq, IH, decide_False by lia. by rewrite decide_True by lia.
    - rewrite list_lookup_alter_ne, IH by done. repeat case_decide; (done || lia). }
  apply list_eq. intros j. rewrite H, list_lookup_fmap. case_decide; [done |]. by rewrite lookup_ge_None_2 by lia.
Qed.

Lemma clear_refines s : store_ok s -> store_ok (ClearPending s) /\ params_of (ClearPending s) = params_of s /\ contents (ClearPending s) = map spec_clear (contents s).
Proof.
  intros Hst. rewrite <- (alter_all spec_clear (contents s) 32) by (unfold contents; by rewrite length_map, (st_shards _ Hst)).
  unfold ClearPending. change (Z.to_nat shardCount) with 32%nat. assert (Forall (fun i => (i < 32)%nat) (seq 0 32)) as Hr by (apply Forall_forall; intros i Hi%elem_of_seq; lia).
  revert s Hst. induction Hr as [| i is_ Hi _ IH]; intros s Hst; cbn [fold_left]; [done |].
  destruct (clear_shard_leads i s Hst Hi) as (H1 & H2 & H3). destruct (IH _ H1) as (H4 & H5 & H6). split; [done |]. split; [congruence |]. by rewrite H6, H3.
Qed.

(** ** Refinement *)

Lemma has_pending_spec s : store_ok s -> HasPending s = bool_decide (Exists (Exists is_pending) (contents s)).
Proof.
  intros Hst. unfold HasPending. rewrite (st_pending _ Hst). unfold contents. induction (shards s) as [| sh ls IH]; [by rewrite bool_decide_false by (by intros H; inversion H) |].
  rewrite pending_sum_cons. cbn [map]. pose proof (pending_nonneg (order sh)). pose proof (pending_sum_nonneg ls).
  destruct (Z.ltb_spec 0 (pending_in (order sh))) as [Hp | Hp].
  - rewrite (proj2 (Z.ltb_lt _ _)) by lia. symmetry. apply bool_decide_true. left. apply Exists_exists. unfold pending_in, len in Hp.
    destruct (filter is_pending (pairs (order sh))) as [| x l] eqn:E; [cbn in Hp; lia |]. exists x.
    assert (x ∈ filter is_pending (pairs (order sh))) as Hx by (rewrite E; left). by apply list_elem_of_filter in Hx as [? ?].
  - replace (pending_in (order sh) + pending_sum ls) with (pending_sum ls) by lia. rewrite IH. apply bool_decide_ext. rewrite Exists_cons. split; [by right |]. intros [H1 | H1]; [exfalso | done].
    apply Exists_exists in H1 as (x & Hx & Hxp). assert (x ∈ filter is_pending (pairs (order sh))) as Hin by (by apply list_elem_of_filter).
    unfold pending_in, len in Hp. destruct (filter is_pending (pairs (order sh))); [by apply not_elem_of_nil in Hin | cbn in Hp; lia].
Qed.

Lemma step_refines o s : store_ok s -> exists r s', cache_step o s = (r, s') /\ store_ok s' /\ params_of s' = params_of s /\
  spec_step (params_of s) o (contents s) = (r, contents s').
Proof.
  intros Hst. destruct o as [k domain qType qClass now | k rawQuery now | k domain qType qClass rawResponse now | k | |]; cbn [cache_step spec_step].
  - destruct (decide (k = [])) as [-> | Hk]; [by eexists _, s |]. rewrite bool_decide_false by done.
    destruct (lookup_refines k domain qType qClass now s Hst Hk) as (r & l & s' & -> & -> & Hl). destruct (leads_ok _ _ _ _ Hst Hl) as (H1 & H2 & H3). eexists _, s'. by rewrite H3.
  - destruct (decide (k = [])) as [-> | Hk]; [by eexists _, s |]. rewrite bool_decide_false by done.
    destruct (get_refines k rawQuery now s Hst Hk) as (r & l & s' & -> & -> & Hl). destruct (leads_ok _ _ _ _ Hst Hl) as (H1 & H2 & H3). eexists _, s'. by rewrite H3.
  - eexists _, _. split; [reflexivity |]. destruct (bool_decide (k = []) || (len rawResponse <? 2)) eqn:E.
    + unfold SetReady. by rewrite E.
    + apply orb_false_iff in E as [E1%bool_decide_eq_false E2%Z.ltb_ge].
      destruct (leads_ok _ _ _ _ Hst (set_refines k domain qType qClass rawResponse now s Hst E1 E2)) as (H1 & H2 & H3). by rewrite H3.
  - eexists _, s. split; [reflexivity |]. split; [done |]. split; [done |]. do 2 f_equal. unfold Snapshot. case_bool_decide; [done |].
    destruct (shard_at k s Hst) as (sh & _ & -> & Hok & _ & ->). pose proof (find_element_spec _ _ _ Hok k) as Hf. destruct (find_element k sh); [by destruct Hf as (_ & _ & ->) | by destruct Hf as [-> _]].
  - eexists _, s. by rewrite <- has_pending_spec.
  - destruct (clear_refines s Hst) as (H1 & H2 & H3). eexists _, _. split; [reflexivity |]. by rewrite <- H3.
Qed.

Lemma New_ok m t p : store_ok (New m t p) /\ contents (New m t p) = replicate 32 [].
Proof.
  split; [| done]. assert (forall i sh, replicate 32 empty_shard !! i = Some sh -> shard_ok i 0 sh /\ len (order sh) <= shard_limit (New m t p)) as Hsh.
  { intros i sh (-> & _)%lookup_replicate. split; [split; cbn; [constructor | constructor | | constructor] |].
    - intros k id. split; [done |]. by intros (e & He%not_elem_of_nil & _).
    - unfold shard_limit. change (len (order empty_shard)) with 0. case_if; zbool; lia. }
  split; [done | exact Hsh | done | |]; cbn; case_if; zbool; unfold second; lia.
Qed.

Lemma cache_run_refines ops : forall s, store_ok s -> exists rs s', run cache_step ops s = (rs, s') /\ store_ok s' /\ params_of s' = params_of s /\
  run (spec_step (params_of s)) ops (contents s) = (rs, contents s').
Proof.
  induction ops as [| o ops IH]; intros s Hst; cbn [run]; [by eexists _, s |].
  destruct (step_refines o s Hst) as (r & s1 & -> & H1 & H2 & ->). destruct (IH s1 H1) as (rs & s2 & -> & H3 & H4 & H5). rewrite H2 in H5. rewrite H5.
  eexists _, s2. split_and!; [done | done | congruence | done].
Qed.

(** C22: The cache implements lists in the order of use.  On a new cache any sequence of
    lookups, answers, reads and clearings returns what one list per shard returns, in which
    every question that is used moves to the end and the front is dropped beyond the limit;
    and the maps, the linked lists and the counter of open questions stay consistent. *)
Theorem cache_refines_lru (maxRecords cacheTTL pendingTimeout : Z) (ops : list cache_op) :
  let s0 := New maxRecords cacheTTL pendingTimeout in
  exists rs s, run cache_step ops s0 = (rs, s) /\ run (spec_step (params_of s0)) ops (replicate 32 []) = (rs, contents s) /\ store_ok s.
Proof.
  intros s0. destruct (New_ok maxRecords cacheTTL pendingTimeout) as [H1 H2]. destruct (cache_run_refines ops s0 H1) as (rs & s & E & H3 & _ & E2).
  unfold s0 in E2 at 2. rewrite H2 in E2. by exists rs, s.
Qed.
