(* ===== verification/DnsCacheLife.v ===== *)
(** How long the cache of DNS answers keeps an answer, and that a saved cache is loaded again
    (src/masterdns/internal/dnscache/store.go, on DnsCache.v). *)

From stdpp Require Import base tactics list gmap strings sorting.
From Stdlib Require Import ZArith Lia.
From S2P Require Import Prelude DnsCache DnsCacheInv.
Import DnsCache.

(** ** Retention *)

Definition op_key (o : cache_op) : option bytes :=
  match o with
  | OpLookup k _ _ _ _ | OpGet k _ _ | OpSet k _ _ _ _ _ => Some k
  | OpSnapshot _ | OpHasPending | OpClear => None
  end.

(** [o] does not change the answer of [k]: it is about another question, or reads this one
    between the times [t0] and [now]. *)
Definition reads_only (k : bytes) (t0 now : Z) (o : cache_op) : Prop :=
  match o with
  | OpLookup k' _ _ _ t | OpGet k' _ t => k' = k -> t0 <= t <= now
  | OpSet k' _ _ _ _ _ => k' <> k
  | _ => True
  end.

(** The other questions of the shard of [k] in [ops]. *)
Definition rivals (k : bytes) (ops : list cache_op) : gset bytes :=
  list_to_set (filter (fun k' => k' <> k /\ getShardIndex k' = getShardIndex k) (omap op_key ops)).

(** The answer of [k] is in the list, and only [T] was used after it. *)
Definition kept (k response : bytes) (t0 now : Z) (T : gset bytes) (l : lru) : Prop :=
  exists l1 e l2, l = l1 ++ (k, e) :: l2 /\ Forall (fun p : bytes * Entry => p.1 ∈ T) l2 /\
    Status e = StatusReady /\ Response e = response /\ t0 <= LastUsedAt e <= now.

Lemma kept_find k response t0 now T l : NoDup (map fst l) -> kept k response t0 now T l ->
  exists e, lru_find k l = Some e /\ Status e = StatusReady /\ Response e = response /\ t0 <= LastUsedAt e <= now.
Proof.
  intros Hn (l1 & e & l2 & -> & _ & H). exists e. split; [| done]. unfold lru_find. rewrite list_find_app_r; [cbn; by rewrite decide_True |].
  apply list_find_None, Forall_forall. intros [k' e'] Hin Hk. cbn in Hk. subst k'. rewrite map_app in Hn. apply NoDup_app in Hn as (_ & Hn & _). apply (Hn k).
  - apply list_elem_of_fmap. by exists (k, e').
  - cbn. left.
Qed.

(** Another key is used. *)
Lemma kept_other n k k' e' response t0 now T l : NoDup (map fst l) -> k' <> k -> (size (T ∪ {[k']}) < n)%nat ->
  kept k response t0 now T l -> kept k response t0 now (T ∪ {[k']}) (use n k' e' l).
Proof.
  intros Hn Hk Hsz (l1 & e & l2 & -> & HT & H). rewrite map_app in Hn. cbn in Hn. apply NoDup_app in Hn as (_ & _ & Hn). apply NoDup_cons in Hn as [_ Hn].
  unfold use, forget. rewrite filter_app, filter_cons, decide_True by (cbn; done).
  set (l1' := filter (fun p : bytes * Entry => p.1 <> k') l1). set (l2' := filter (fun p : bytes * Entry => p.1 <> k') l2).
  assert (length (l2' ++ [(k', e')]) <= size (T ∪ {[k']}))%nat as Hlen.
  { assert (NoDup (map fst (l2' ++ [(k', e')]))) as Hnd.
    { rewrite map_app. apply NoDup_app. split; [eapply sublist_NoDup; [exact Hn |]; apply fmap_sublist, sublist_filter |]. split; [| apply NoDup_singleton].
      intros x (p & -> & Hp)%list_elem_of_fmap Hx%list_elem_of_singleton. apply list_elem_of_filter in Hp as [Hp _]. done. }
    rewrite <- (length_map fst), <- (size_list_to_set (C := gset bytes)) by done. apply subseteq_size. intros x (p & -> & Hp)%elem_of_list_to_set%list_elem_of_fmap.
    apply elem_of_app in Hp as [Hp | Hp%list_elem_of_singleton]; [| subst p; set_solver]. apply list_elem_of_filter in Hp as [_ Hp].
    rewrite Forall_forall in HT. specialize (HT p Hp). set_solver. }
  rewrite <- !(assoc_L (++)). cbn [app]. set (m := (length _ - n)%nat). assert (m <= length l1')%nat as Hm.
  { unfold m. rewrite !length_app. cbn [length]. rewrite !length_app in *. cbn [length] in *. lia. }
  exists (drop m l1'), e, (l2' ++ [(k', e')]). rewrite drop_app_le by done. split; [done |]. split; [| done].
  apply Forall_app. split; [| apply Forall_singleton; cbn; set_solver]. apply Forall_forall. intros p [_ Hp]%list_elem_of_filter. rewrite Forall_forall in HT. specialize (HT p Hp). set_solver.
Qed.

(** [k] itself is used. *)
Lemma kept_own n k e response t0 now T l : (1 <= n)%nat -> Status e = StatusReady -> Response e = response -> t0 <= LastUsedAt e <= now ->
  kept k response t0 now T (use n k e l).
Proof.
  intros Hn H1 H2 H3. unfold use. set (m := (length _ - n)%nat). exists (drop m (forget k l)), e, []. rewrite drop_app_le by (unfold m; rewrite length_app; cbn; lia).
  split; [done |]. split; [constructor | done].
Qed.

Lemma kept_mono k response t0 now T T' l : T ⊆ T' -> kept k response t0 now T l -> kept k response t0 now T' l.
Proof.
  intros HT (l1 & e & l2 & -> & H1 & H2). exists l1, e, l2. split; [done |]. split; [| done]. eapply Forall_impl; [exact H1 |]. set_solver.
Qed.

Lemma kept_forget k k' response t0 now T l : k' <> k -> kept k response t0 now T l -> kept k response t0 now T (forget k' l).
Proof.
  intros Hk (l1 & e & l2 & -> & H1 & H2). unfold forget. rewrite filter_app, filter_cons, decide_True by (cbn; done).
  eexists _, e, _. split; [reflexivity |]. split; [| done]. apply Forall_forall. intros p [_ Hp]%list_elem_of_filter. by apply (proj1 (Forall_forall _ _) H1).
Qed.

Lemma kept_clear k response t0 now T l : kept k response t0 now T l -> kept k response t0 now T (spec_clear l).
Proof.
  intros (l1 & e & l2 & -> & H1 & H2 & H3). unfold spec_clear. rewrite filter_app, filter_cons, decide_True by (cbn; by rewrite H2).
  eexists _, e, _. split; [reflexivity |]. split; [| done]. apply Forall_forall. intros p [_ Hp]%list_elem_of_filter. by apply (proj1 (Forall_forall _ _) H1).
Qed.

Definition shard_list (k : bytes) (s : Store) : lru := default [] (contents s !! getShardIndex k).

Lemma shard_list_nodup k s : store_ok s -> NoDup (map fst (shard_list k s)).
Proof.
  intros Hst. destruct (shard_at k s Hst) as (sh & _ & _ & Hok & _ & E). unfold shard_list. rewrite E. unfold pairs. rewrite map_map. apply Hok.
Qed.

Lemma limit_pos s : (1 <= limit (params_of s))%nat.
Proof. cbn. unfold shard_limit. case_if; zbool; lia. Qed.

Section retention.
Context (k response : bytes) (t0 now : Z).

(** One operation on the list of the shard. *)
Lemma kept_used p k' T l r l' : NoDup (map fst l) -> (1 <= limit p)%nat -> now - t0 < ttl p -> kept k response t0 now T l ->
  (k' <> k -> (size (T ∪ {[k']}) < limit p)%nat) ->
  (exists domain qType qClass t, spec_lookup p k' domain qType qClass t l = (r, l') /\ (k' = k -> t0 <= t <= now)) ->
  kept k response t0 now (if decide (k' = k) then T else T ∪ {[k']}) l'.
Proof.
  intros Hn Hp Ht Hk Hsz (domain & qType & qClass & t & E & Hkt). unfold spec_lookup in E. case_decide as Hd.
  - subst k'. specialize (Hkt eq_refl). destruct (kept_find _ _ _ _ _ _ Hn Hk) as (e & Hf & H1 & H2 & H3). rewrite Hf in E.
    replace (expired p e t) with false in E; [| symmetry; unfold expired; rewrite H1; cbn; apply Z.leb_gt; lia]. rewrite H1 in E. cbn in E. injection E as _ <-.
    apply kept_own; done.
  - specialize (Hsz Hd). destruct (lru_find k' l) as [e |]; [destruct (expired p e t); [| destruct (Status e =? StatusReady); [| destruct (_ <=? _)]] |]; injection E as _ <-; by apply kept_other.
Qed.

Lemma kept_got p k' T l rawQuery r l' t : NoDup (map fst l) -> (1 <= limit p)%nat -> now - t0 < ttl p -> kept k response t0 now T l ->
  (k' <> k -> (size (T ∪ {[k']}) < limit p)%nat) -> (k' = k -> t0 <= t <= now) -> spec_get p k' rawQuery t l = (r, l') ->
  kept k response t0 now (if decide (k' = k) then T else T ∪ {[k']}) l'.
Proof.
  intros Hn Hp Ht Hk Hsz Hkt E. unfold spec_get in E. case_decide as Hd.
  - subst k'. specialize (Hkt eq_refl). destruct (kept_find _ _ _ _ _ _ Hn Hk) as (e & Hf & H1 & H2 & H3). rewrite Hf in E.
    replace (expired p e t) with false in E; [| symmetry; unfold expired; rewrite H1; cbn; apply Z.leb_gt; lia]. injection E as _ <-. apply kept_own; done.
  - specialize (Hsz Hd). destruct (lru_find k' l) as [e |]; [destruct (expired p e t) |]; injection E as _ <-.
    + apply (kept_mono _ _ _ _ T); [set_solver |]. by apply kept_forget.
    + by apply kept_other.
    + apply (kept_mono _ _ _ _ T); [set_solver | done].
Qed.

Lemma shard_list_insert k' l s s' : store_ok s -> contents s' = <[getShardIndex k' := l]> (contents s) ->
  shard_list k s' = if decide (getShardIndex k' = getShardIndex k) then l else shard_list k s.
Proof.
  intros Hst E. unfold shard_list. rewrite E. case_decide as Hd; [| by rewrite list_lookup_insert_ne]. rewrite Hd, list_lookup_insert_eq; [done |].
  unfold contents. rewrite length_map, (st_shards _ Hst). apply shard_index_range.
Qed.

Lemma rivals_one o k' : op_key o = Some k' -> rivals k [o] = if decide (k' <> k /\ getShardIndex k' = getShardIndex k) then {[k']} else ∅.
Proof.
  intros E. unfold rivals. cbn [omap list_omap]. rewrite E, filter_cons. case_decide; cbn; set_solver.
Qed.

Lemma kept_step o s T : store_ok s -> reads_only k t0 now o -> (size (T ∪ rivals k [o]) < limit (params_of s))%nat -> now - t0 < cacheTTL s ->
  kept k response t0 now T (shard_list k s) -> kept k response t0 now (T ∪ rivals k [o]) (shard_list k (cache_step o s).2).
Proof.
  intros Hst Ho Hsz Ht Hk. destruct (step_refines o s Hst) as (r & s' & E & Hst' & _ & Hspec). rewrite E. cbn [snd].
  pose proof (shard_list_nodup k s Hst) as Hn. pose proof (limit_pos s) as Hp.
  assert (contents s' = contents s -> kept k response t0 now (T ∪ rivals k [o]) (shard_list k s')) as Hsame.
  { intros Es. unfold shard_list. rewrite Es. eapply kept_mono; [| exact Hk]. set_solver. }
  assert (forall k' l', op_key o = Some k' -> contents s' = <[getShardIndex k' := l']> (contents s) ->
    (getShardIndex k' = getShardIndex k -> (k' <> k -> (size (T ∪ {[k']}) < limit (params_of s))%nat) -> kept k response t0 now (if decide (k' = k) then T else T ∪ {[k']}) l') ->
    kept k response t0 now (T ∪ rivals k [o]) (shard_list k s')) as Hkey.
  { intros k' l' Hok Es Hl. rewrite (rivals_one o k' Hok) in *. rewrite (shard_list_insert k' l' s s' Hst Es). destruct (decide (getShardIndex k' = getShardIndex k)) as [Hi | Hi].
    - destruct (decide (k' = k)) as [-> | Hne].
      + eapply kept_mono; [| apply Hl; [done | by intros []]]. set_solver.
      + rewrite decide_True in * by done. apply Hl; [done |]. intros _. exact Hsz.
    - eapply kept_mono; [| exact Hk]. set_solver. }
  destruct o as [k' domain qType qClass t | k' rawQuery t | k' domain qType qClass rawResponse t | k' | |]; cbn [spec_step] in Hspec.
  - destruct (decide (k' = [])) as [-> | Hk']; [rewrite bool_decide_true in Hspec by done; injection Hspec as _ Es; by apply Hsame |]. rewrite bool_decide_false in Hspec by done.
    destruct (spec_lookup _ _ _ _ _ _ _) as [r' l'] eqn:El. injection Hspec as _ Es. eapply (Hkey k' l'); [done | by rewrite Es |]. intros Hi Hs2. rewrite Hi in El.
    eapply (kept_used (params_of s)); [exact Hn | done | done | done | done |]. eexists _, _, _, _. split; [exact El | exact Ho].
  - destruct (decide (k' = [])) as [-> | Hk']; [rewrite bool_decide_true in Hspec by done; injection Hspec as _ Es; by apply Hsame |]. rewrite bool_decide_false in Hspec by done.
    destruct (spec_get _ _ _ _ _) as [r' l'] eqn:El. injection Hspec as _ Es. eapply (Hkey k' l'); [done | by rewrite Es |]. intros Hi Hs2. rewrite Hi in El.
    eapply (kept_got (params_of s)); [exact Hn | done | done | done | done | exact Ho | exact El].
  - destruct (bool_decide (k' = []) || _); [injection Hspec as _ Es; by apply Hsame |]. injection Hspec as _ Es. eapply (Hkey k' _); [done | by rewrite Es |].
    intros Hi Hs2. cbn in Ho. rewrite decide_False by done. unfold spec_set. rewrite Hi. apply kept_other; [exact Hn | done | by apply Hs2 | exact Hk].
  - injection Hspec as _ Es. by apply Hsame.
  - injection Hspec as _ Es. by apply Hsame.
  - injection Hspec as _ Es. unfold shard_list. rewrite <- Es. unfold shard_list in Hk. eapply kept_mono; [| rewrite list_lookup_fmap; destruct (contents s !! getShardIndex k); cbn in *; [by apply kept_clear | exact Hk]]. set_solver.
Qed.
End retention.

Lemma rivals_cons k o ops : rivals k (o :: ops) = rivals k [o] ∪ rivals k ops.
Proof. unfold rivals. change (o :: ops) with ([o] ++ ops). rewrite omap_app, filter_app. by rewrite list_to_set_app_L. Qed.

Lemma kept_run k response t0 now ops : forall s T, store_ok s -> Forall (reads_only k t0 now) ops -> (size (T ∪ rivals k ops) < limit (params_of s))%nat ->
  now - t0 < cacheTTL s -> kept k response t0 now T (shard_list k s) ->
  let s' := (run cache_step ops s).2 in store_ok s' /\ params_of s' = params_of s /\ kept k response t0 now (T ∪ rivals k ops) (shard_list k s').
Proof.
  induction ops as [| o ops IH]; intros s T Hst Hops Hsz Ht Hk; cbn [run]; [split_and!; [done | done |]; eapply kept_mono; [| exact Hk]; set_solver |].
  apply Forall_cons in Hops as [Ho Hops]. rewrite rivals_cons, (assoc_L (∪)) in Hsz |- *. destruct (step_refines o s Hst) as (r & s1 & E & Hst1 & Hp & _). rewrite E.
  assert (size (T ∪ rivals k [o]) <= size (T ∪ rivals k [o] ∪ rivals k ops))%nat by (apply subseteq_size; set_solver).
  pose proof (kept_step k response t0 now o s T Hst Ho ltac:(lia) Ht Hk) as Hk1. rewrite E in Hk1. cbn [snd] in Hk1.
  destruct (IH s1 (T ∪ rivals k [o])) as (H1 & H2 & H3); [done | done | by rewrite Hp | | done |].
  - unfold params_of in Hp. injection Hp as _ -> _. done.
  - destruct (run cache_step ops s1) as [rs s2]. cbn [snd] in *. split_and!; [done | congruence | done].
Qed.

(** C31: The cache keeps an answer.  When an answer was stored, and since then the cache was
    used for fewer other questions of the same shard than a shard holds, and for this question
    only by reads, a read within the lifetime of an answer returns it, with the identifier
    and the flags of the new query; whatever happened to the cache before. *)
Theorem cache_retains (maxRecords ttl pendingTimeout : Z) (ops0 ops : list cache_op) (k domain rawResponse rawQuery : bytes) (qType qClass t0 now : Z) :
  let s0 := (run cache_step ops0 (New maxRecords ttl pendingTimeout)).2 in
  let s := (run cache_step ops (SetReady k domain qType qClass rawResponse t0 s0)).2 in
  k <> [] -> 2 <= len rawResponse -> Forall (reads_only k t0 now) ops -> (size (rivals k ops) < limit (params_of s0))%nat -> t0 <= now -> now - t0 < cacheTTL s0 ->
  (GetReady k rawQuery now s).1 = Some (PatchResponseForQuery ([0; 0] ++ drop 2 rawResponse) rawQuery).
Proof.
  intros s0 s Hk Hl Hops Hsz Hle Ht. unfold s. clear s. destruct (New_ok maxRecords ttl pendingTimeout) as [Hnew _].
  destruct (cache_run_refines ops0 _ Hnew) as (rs0 & s0' & E0 & Hst0 & _). unfold s0 in *. rewrite E0 in *. cbn [snd] in *. clear s0 E0 Hnew. rename s0' into s0.
  pose proof (set_refines k domain qType qClass rawResponse t0 s0 Hst0 Hk Hl) as Hset. destruct (leads_ok _ _ _ _ Hst0 Hset) as (Hst1 & Hp1 & Hc1).
  set (s1 := SetReady k domain qType qClass rawResponse t0 s0) in *. clearbody s1. set (response := [0; 0] ++ drop 2 rawResponse) in *.
  assert (kept k response t0 now ∅ (shard_list k s1)) as Hk1.
  { rewrite (shard_list_insert k k _ s0 s1 Hst0 Hc1), decide_True by done. unfold spec_set. apply kept_own; [apply limit_pos | | |]; by destruct (lru_find _ _). }
  destruct (kept_run k response t0 now ops s1 ∅ Hst1 Hops) as (Hst2 & Hp2 & Hk2).
  - rewrite Hp1. by rewrite (left_id_L ∅ (∪)).
  - unfold params_of in Hp1. injection Hp1 as _ -> _. done.
  - done.
  - set (s := (run cache_step ops s1).2) in *. clearbody s. destruct (kept_find _ _ _ _ _ _ (shard_list_nodup k s Hst2) Hk2) as (e & Hf & H1 & H2 & H3).
    destruct (get_refines k rawQuery now s Hst2 Hk) as (r & l & s' & Hspec & -> & _). cbn [fst].
    fold (shard_list k s) in Hspec. unfold spec_get in Hspec. rewrite Hf in Hspec. rewrite Hp2, Hp1 in Hspec.
    replace (expired (params_of s0) e now) with false in Hspec; [| symmetry; unfold expired; rewrite H1; cbn; apply Z.leb_gt; lia].
    rewrite H1, H2 in Hspec. replace (len response =? 0) with false in Hspec; [by injection Hspec as <- |].
    symmetry. apply Z.eqb_neq. unfold response. rewrite len_app. change (len [0; 0]) with 2. pose proof (len_nonneg (drop 2 rawResponse)). lia.
Qed.

(** ** Files *)

Lemma be_value_app l acc : fold_left (fun v b => v * 256 + b) l acc = acc * 256 ^ len l + be_value l.
Proof.
  unfold be_value. revert acc. induction l as [| b l IH]; intros acc; cbn [fold_left]; [change (len []) with 0; lia |].
  rewrite IH, (IH (0 * 256 + b)), len_cons. pose proof (len_nonneg l). rewrite (Z.pow_add_r 256 1) by lia. lia.
Qed.

Lemma len_be_bytes n v : len (be_bytes n v) = Z.of_nat n.
Proof. induction n as [| n IH]; [done |]. cbn [be_bytes]. rewrite len_cons, IH. lia. Qed.

Lemma be_value_bytes n v : be_value (be_bytes n v) = v mod 256 ^ Z.of_nat n.
Proof.
  induction n as [| n IH]; [cbn; by rewrite Z.mod_1_r |]. cbn [be_bytes]. unfold be_value. cbn [fold_left]. rewrite be_value_app, IH, len_be_bytes.
  rewrite Nat2Z.inj_succ, Z.pow_succ_r, (Z.mul_comm 256) by lia. rewrite Z.rem_mul_r by lia. unfold wrap8. rewrite Z.shiftr_div_pow2 by lia.
  replace (2 ^ (8 * Z.of_nat n)) with (256 ^ Z.of_nat n) by (by rewrite Z.pow_mul_r by lia). lia.
Qed.

Lemma read_full_app b r : read_full (len b) (b ++ r) = Ok (b, r).
Proof.
  unfold read_full. pose proof (len_nonneg b). pose proof (len_nonneg r). destruct (Z.eqb_spec (len b) 0) as [Hz | Hz]; [destruct b; [done | rewrite len_cons in Hz; pose proof (len_nonneg b); lia] |].
  rewrite len_app. rewrite (proj2 (Z.eqb_neq _ _)), (proj2 (Z.ltb_ge _ _)) by lia. unfold len. rewrite Nat2Z.id, take_app_length, drop_app_length. done.
Qed.

Lemma read_uint_app n v r : 0 <= v < 256 ^ Z.of_nat n -> read_uint (Z.of_nat n) (be_bytes n v ++ r) = Ok (v, r).
Proof.
  intros Hv. unfold read_uint. rewrite <- (len_be_bytes n v) at 1. rewrite read_full_app. cbn [obind]. by rewrite be_value_bytes, Z.mod_small.
Qed.

(** What fits the fields of a file. *)
Record entry_fits (k : bytes) (e : Entry) : Prop := {
  ef_key : len k < 65536;
  ef_domain : len (Domain e) < 65536;
  ef_type : u16 (QuestionType e);
  ef_class : u16 (QuestionClass e);
  ef_response : len (Response e) < 65536;
  ef_created : - 2 ^ 63 <= unix (CreatedAt e) < 2 ^ 63;
  ef_used : - 2 ^ 63 <= unix (LastUsedAt e) < 2 ^ 63
}.

(** An entry as it is read back: times in whole seconds, and never sent again. *)
Definition on_disk (e : Entry) : Entry :=
  mkEntry (Domain e) (QuestionType e) (QuestionClass e) StatusReady (of_unix (unix (CreatedAt e))) (of_unix (unix (LastUsedAt e))) zero_time (Response e).

Lemma signed64_wrap v : - 2 ^ 63 <= v < 2 ^ 63 -> signed64 (wrap64 v) = v.
Proof.
  intros Hv. unfold signed64, wrap64. change 18446744073709551616 with (2 ^ 64). destruct (Z.lt_ge_cases v 0).
  - replace (v mod 2 ^ 64) with (v + 2 ^ 64) by (symmetry; rewrite <- (Z.mod_add v 1) by lia; rewrite Z.mod_small by lia; lia).
    rewrite (proj2 (Z.ltb_ge _ _)) by lia. lia.
  - rewrite Z.mod_small, (proj2 (Z.ltb_lt _ _)) by lia. done.
Qed.

Lemma entry_roundtrip k e r : entry_fits k e -> readBinaryEntry (writeBinaryEntry k e ++ r) = Ok (on_disk e, k, r).
Proof.
  intros []. unfold readBinaryEntry, writeBinaryEntry. pose proof (len_nonneg k). pose proof (len_nonneg (Domain e)). pose proof (len_nonneg (Response e)). unfold u16 in *.
  rewrite !(wrap16_id (len _)) by (unfold u16; lia). rewrite <- !(assoc_L (++)).
  assert (forall v r, 0 <= v < 65536 -> read_uint 2 (be_bytes 2 v ++ r) = Ok (v, r)) as R2 by (intros; by apply (read_uint_app 2)).
  assert (forall v r, read_uint 8 (be_bytes 8 (wrap64 v) ++ r) = Ok (wrap64 v, r)) as R8.
  { intros v r'. apply (read_uint_app 8). unfold wrap64. apply (Z.mod_pos_bound v 18446744073709551616). lia. }
  rewrite R2 by lia. cbn [obind]. rewrite read_full_app. cbn [obind]. rewrite R2 by lia. cbn [obind]. rewrite read_full_app. cbn [obind]. rewrite R2 by lia. cbn [obind].
  rewrite R2 by lia. cbn [obind]. rewrite R2 by lia. cbn [obind]. rewrite read_full_app. cbn [obind]. rewrite R8. cbn [obind]. rewrite R8. cbn [obind].
  rewrite !signed64_wrap by lia. done.
Qed.

(** The entries that a load keeps. *)
Definition alive (p : params) (now : Z) (q : bytes * Entry) : Prop := expired p q.2 now = false.
#[global] Instance alive_dec p now q : Decision (alive p now q) := ltac:(unfold alive; apply _).

(** What is left of a shard after saving at [now] and loading at [now']. *)
Definition reloaded (p : params) (now now' : Z) (l : lru) : lru :=
  filter (alive p now') (map (fun q : bytes * Entry => (q.1, on_disk q.2)) (filter (fun q : bytes * Entry => Status q.2 = StatusReady /\ alive p now q) l)).

Definition push_pair (s : Store) (q : bytes * Entry) : Store := push_element (getShardIndex q.1) q.1 q.2 s.

Lemma push_settings q s : cache_settings (push_pair s q) = cache_settings s.
Proof. done. Qed.

Lemma load_loop_ok now (l : lru) : forall i loaded s, Forall (fun q : bytes * Entry => entry_fits q.1 q.2) l ->
  exists n, load_loop (length l) i (concat (map (fun q : bytes * Entry => writeBinaryEntry q.1 q.2) l)) now loaded s =
    (Ok n, fold_left push_pair (filter (alive (params_of s) now) (map (fun q : bytes * Entry => (q.1, on_disk q.2)) l)) s).
Proof.
  induction l as [| [k e] l IH]; intros i loaded s Hf; [by eexists |]. apply Forall_cons in Hf as [He Hf]. cbn [length map concat load_loop fst snd] in *.
  rewrite entry_roundtrip by done. rewrite expired_eq, filter_cons. destruct (expired (params_of s) (on_disk e) now) eqn:Ex.
  - rewrite decide_False by (unfold alive; cbn [snd]; congruence). apply (IH (i + 1) loaded s Hf).
  - rewrite decide_True by done. cbn [fold_left]. destruct (IH (i + 1) (loaded + 1) (push_pair s (k, on_disk e)) Hf) as [n E]. exists n. exact E.
Qed.

(** A store while entries are loaded. *)
Record loading (s : Store) : Prop := {
  ld_shards : length (shards s) = 32%nat;
  ld_shard : forall i sh, shards s !! i = Some sh -> shard_ok i (nextElement s) sh;
  ld_counted : counted s
}.

Lemma push_loading q s : loading s -> Status q.2 = StatusReady -> q.1 ∉ map fst (concat (contents s)) ->
  loading (push_pair s q) /\ cache_settings (push_pair s q) = cache_settings s /\ contents (push_pair s q) = alter (fun l => l ++ [q]) (getShardIndex q.1) (contents s).
Proof.
  destruct q as [k v]. cbn [fst snd]. intros [L1 L2 L3] Hv Hno. pose proof (shard_index_range k) as Hr. destruct (lookup_lt_is_Some_2 (shards s) (getShardIndex k)) as [sh Hs]; [by rewrite L1 |].
  assert (forall e, e ∈ order sh -> key e <> k) as Hnk.
  { intros e He <-. apply Hno. apply list_elem_of_fmap. exists (key e, entry e). split; [done |]. apply list_elem_of_In, in_concat. exists (pairs (order sh)).
    split; apply list_elem_of_In; [apply list_elem_of_fmap; exists sh; split; [done | by eapply list_elem_of_lookup_2] | apply list_elem_of_fmap; by exists e]. }
  pose proof (push_becomes _ s sh Hs (L2 _ _ Hs) L3 k v Hnk eq_refl (or_intror Hv)) as B.
  assert ((push_element (getShardIndex k) k v s) <| pendingTotal ::= fun n => n + weight v |> = push_pair s (k, v)) as E.
  { unfold push_pair, weight. rewrite Hv. destruct s. unfold set, set_pendingTotal. cbn. by rewrite Z.add_0_r. }
  rewrite E in B. destruct B as [B1 B2 B3 B4 B5]. split; [split |].
  - by rewrite B1, length_insert.
  - intros i x. rewrite B1. intros [(<- & <- & _) | [_ Hx]]%list_lookup_insert_Some; [done |]. eapply shard_ok_mono; [exact B3 | by apply L2].
  - done.
  - split; [done |]. unfold contents. rewrite B1, list_fmap_insert. rewrite (alter_insert _ _ _ (pairs (order sh))) by (by rewrite list_lookup_fmap, Hs). cbn [order]. unfold pairs. by rewrite map_app.
Qed.

Lemma concat_alter (f : lru -> lru) i (ls : list lru) q : (forall l, f l = l ++ [q]) -> forall x, x ∈ concat (alter f i ls) -> x ∈ concat ls \/ x = q.
Proof.
  intros Hf. revert i. induction ls as [| l ls IH]; intros [| i] x; cbn; [by left | by left | |]; rewrite !elem_of_app.
  - rewrite Hf, elem_of_app, list_elem_of_singleton. tauto.
  - intros [Hx | Hx%IH]; tauto.
Qed.

Lemma pushes_ok (l : lru) : forall s, loading s -> Forall (fun q : bytes * Entry => Status q.2 = StatusReady) l -> NoDup (map fst l) ->
  (forall k, k ∈ map fst l -> k ∉ map fst (concat (contents s))) ->
  let s' := fold_left push_pair l s in loading s' /\ cache_settings s' = cache_settings s /\
  forall i, contents s' !! i = (fun c => c ++ filter (fun q : bytes * Entry => getShardIndex q.1 = i) l) <$> contents s !! i.
Proof.
  induction l as [| q l IH]; intros s Hl Hst Hn Hno; cbn [fold_left].
  { split; [done |]. split; [done |]. intros i. destruct (contents s !! i); cbn; [by rewrite app_nil_r | done]. }
  apply Forall_cons in Hst as [Hq Hst]. cbn [map] in Hn, Hno. apply NoDup_cons in Hn as [Hnq Hn].
  destruct (push_loading q s Hl Hq) as (H1 & H2 & H3); [apply Hno; left |]. destruct (IH (push_pair s q) H1 Hst Hn) as (H4 & H5 & H6).
  { intros k Hk Hin. rewrite H3 in Hin. apply list_elem_of_fmap in Hin as (x & -> & Hx). apply (concat_alter _ _ _ q) in Hx as [Hx | ->]; [| done | done].
    apply (Hno x.1); [by right | apply list_elem_of_fmap; by exists x]. }
  split; [done |]. split; [congruence |]. intros i. rewrite H6, H3. destruct (decide (getShardIndex q.1 = i)) as [<- | Hi].
  - rewrite list_lookup_alter_eq. rewrite filter_cons, decide_True by done. destruct (contents s !! _); [| done]. cbn [fmap option_fmap option_map]. by rewrite <- (assoc_L (++)).
  - rewrite list_lookup_alter_ne by done. by rewrite filter_cons, decide_False.
Qed.

(** ** What the shards of the file are *)

Lemma reloaded_keys p now now' l : sublist (map fst (reloaded p now now' l)) (map fst l).
Proof.
  unfold reloaded. etrans; [apply (fmap_sublist fst), sublist_filter |]. rewrite map_map. cbn [fst]. apply (fmap_sublist fst), sublist_filter.
Qed.

Lemma reloaded_concat p now now' ls : reloaded p now now' (concat ls) = concat (map (reloaded p now now') ls).
Proof.
  induction ls as [| l ls IH]; [done |]. cbn [concat map]. rewrite <- IH. unfold reloaded. by rewrite filter_app, map_app, filter_app.
Qed.

Lemma reloaded_ready p now now' l : Forall (fun q : bytes * Entry => Status q.2 = StatusReady) (reloaded p now now' l).
Proof. apply Forall_forall. intros q (_ & (x & -> & _)%list_elem_of_fmap)%list_elem_of_filter. done. Qed.

(** Lists whose keys belong to the shards [base], [base + 1], ... *)
Definition sharded (base : nat) (ls : list lru) : Prop :=
  forall j l, ls !! j = Some l -> NoDup (map fst l) /\ Forall (fun k => getShardIndex k = (base + j)%nat) (map fst l).

Lemma sharded_tail base l ls : sharded base (l :: ls) -> sharded (S base) ls.
Proof. intros H j x Hj. destruct (H (S j) x Hj) as [H1 H2]. split; [done |]. eapply Forall_impl; [exact H2 |]. cbn. lia. Qed.

Lemma sharded_range base ls : sharded base ls -> Forall (fun k => (base <= getShardIndex k)%nat) (map fst (concat ls)).
Proof.
  revert base. induction ls as [| l ls IH]; intros base H; cbn; [constructor |]. rewrite map_app. apply Forall_app. split.
  - eapply Forall_impl; [apply (H 0%nat l eq_refl) |]. cbn. lia.
  - eapply Forall_impl; [apply (IH (S base)), (sharded_tail _ l), H |]. cbn. lia.
Qed.

Lemma sharded_NoDup base ls : sharded base ls -> NoDup (map fst (concat ls)).
Proof.
  revert base. induction ls as [| l ls IH]; intros base H; cbn; [constructor |]. rewrite map_app. destruct (H 0%nat l eq_refl) as [H1 H2]. pose proof (sharded_tail _ _ _ H) as Ht.
  apply NoDup_app. split; [done |]. split; [| by eapply IH]. intros k Hk Hk'. rewrite Forall_forall in H2. specialize (H2 k Hk).
  pose proof (sharded_range _ _ Ht) as Hr. rewrite Forall_forall in Hr. specialize (Hr k Hk'). lia.
Qed.

Lemma sharded_filter ls : forall base i, sharded base ls -> (base <= i)%nat -> filter (fun q : bytes * Entry => getShardIndex q.1 = i) (concat ls) = default [] (ls !! (i - base)%nat).
Proof.
  induction ls as [| l ls IH]; intros base i H Hi; [done |]. cbn [concat]. rewrite filter_app. destruct (H 0%nat l eq_refl) as [_ H2].
  rewrite Forall_fmap in H2. pose proof (sharded_tail _ _ _ H) as Ht. destruct (decide (i = base)) as [-> | Hne].
  - rewrite Nat.sub_diag. cbn [lookup list_lookup default]. rewrite (list_filter_all _ l), (list_filter_none _ (concat ls)), app_nil_r; [done | |].
    + pose proof (sharded_range _ _ Ht) as Hr. rewrite Forall_fmap in Hr. eapply Forall_impl; [exact Hr |]. cbn. lia.
    + eapply Forall_impl; [exact H2 |]. cbn. lia.
  - rewrite (list_filter_none _ l), (IH (S base) i Ht); [| lia | eapply Forall_impl; [exact H2 |]; cbn; lia].
    by replace (i - base)%nat with (S (i - S base)) by lia.
Qed.

Lemma contents_sharded s : store_ok s -> sharded 0 (contents s).
Proof.
  intros Hst j l Hj. unfold contents in Hj. apply list_lookup_fmap_Some in Hj as (sh & -> & Hs). destruct (st_shard _ Hst _ _ Hs) as [Hok _]. unfold pairs. rewrite map_map. cbn [fst].
  split; [apply Hok |]. apply Forall_fmap. eapply Forall_impl; [apply Hok |]. cbn. tauto.
Qed.

Lemma reloaded_sharded p now now' ls : sharded 0 ls -> sharded 0 (map (reloaded p now now') ls).
Proof.
  intros H j l Hj. apply list_lookup_fmap_Some in Hj as (x & -> & Hx). destruct (H _ _ Hx) as [H1 H2]. pose proof (reloaded_keys p now now' x) as Hk.
  split; [by eapply sublist_NoDup |]. rewrite !Forall_forall in *. intros k Hin. apply H2. by eapply elem_of_sublist.
Qed.

(** ** Saving and loading *)

Lemma filter_pairs (P : bytes * Entry -> Prop) `{!forall q, Decision (P q)} (l : list element) : pairs (filter (fun e => P (key e, entry e)) l) = filter P (pairs l).
Proof. induction l as [| e l IH]; [done |]. cbn [pairs map]. rewrite !filter_cons. unfold pairs in *. case_decide; cbn [map]; by rewrite IH. Qed.

Lemma pairs_concat s : pairs (concat (map order (shards s))) = concat (contents s).
Proof. unfold pairs, contents. rewrite concat_map, map_map. done. Qed.

Lemma saved_pairs now s : pairs (saved_elements now s) = filter (fun q : bytes * Entry => Status q.2 = StatusReady /\ alive (params_of s) now q) (concat (contents s)).
Proof.
  rewrite <- pairs_concat, <- filter_pairs. unfold saved_elements. f_equal. apply list_filter_iff. intros e. by rewrite expired_eq.
Qed.

Lemma header_ok n r : 0 <= n < 2 ^ 32 -> read_header (be_bytes 4 binaryMagic ++ be_bytes 2 binaryVersion ++ be_bytes 4 n ++ r) = Ok (n, r).
Proof.
  intros Hn. unfold read_header. rewrite (read_uint_app 4) by done. cbn [obind]. rewrite Z.eqb_refl. cbn [negb].
  rewrite (read_uint_app 2) by done. cbn [obind]. rewrite Z.eqb_refl. cbn [negb]. by apply (read_uint_app 4).
Qed.

Lemma evict_idle i s sh : shards s !! i = Some sh -> size (items sh) = length (order sh) -> len (order sh) <= shard_limit s -> evictIfNeededLocked i s = s.
Proof.
  intros Hs Hn Hl. unfold evictIfNeededLocked, shard_of, len in *. rewrite Hs. cbn [default id]. destruct (order sh) as [| e l] eqn:E; [done |].
  cbn [length evict_loop]. unfold shard_of. rewrite Hs. cbn [default id]. rewrite Hn. by rewrite (proj2 (Z.leb_le _ _)).
Qed.

Lemma evict_all_idle (l : list nat) s : (forall i, i ∈ l -> evictIfNeededLocked i s = s) -> fold_left (fun s i => evictIfNeededLocked i s) l s = s.
Proof. induction l as [| i l IH]; intros Hi; [done |]. cbn [fold_left]. rewrite Hi by left. apply IH. intros j Hj. apply Hi. by right. Qed.

Lemma empty_loading s : let e := s <| pendingTotal := 0 |> <| shards := replicate (Z.to_nat shardCount) empty_shard |> in
  loading e /\ cache_settings e = cache_settings s /\ contents e = replicate 32 [].
Proof.
  intros e. split; [| done]. split; [done | | done]. intros i sh (-> & _)%lookup_replicate. split; cbn; [constructor | constructor | | constructor].
  intros k id. split; [done |]. by intros (x & Hx%not_elem_of_nil & _).
Qed.

(** A loaded store whose shards are within their limit. *)
Lemma loaded_ok s ls : loading s -> contents s = ls -> 1 <= maxRecords s -> 0 < cacheTTL s -> (forall l, l ∈ ls -> len l <= shard_limit s) ->
  let s' := fold_left (fun s i => evictIfNeededLocked i s) (seq 0 (Z.to_nat shardCount)) s in store_ok (s' <| dirty := 0 |>) /\ contents (s' <| dirty := 0 |>) = ls.
Proof.
  intros [L1 L2 L3] <- Hm Ht Hlim. assert (forall i sh, shards s !! i = Some sh -> len (order sh) <= shard_limit s) as Hb.
  { intros i sh Hs. specialize (Hlim (pairs (order sh))). unfold len, pairs in *. rewrite length_map in Hlim. apply Hlim. apply list_elem_of_fmap. exists sh. split; [done |]. by eapply list_elem_of_lookup_2. }
  cbv zeta. rewrite evict_all_idle.
  - split; [| done]. split; [done | | done | done | done]. intros i sh Hs. split; [by apply L2 | by apply (Hb i)].
  - intros i Hi. apply elem_of_seq in Hi. destruct (lookup_lt_is_Some_2 (shards s) i) as [sh Hs]; [rewrite L1; unfold shardCount in Hi; lia |].
    eapply evict_idle; [exact Hs | eapply items_size; by apply L2 | by apply (Hb i)].
Qed.

Lemma settings_params s s' : cache_settings s = cache_settings s' -> params_of s = params_of s'.
Proof. unfold cache_settings, params_of, shard_limit. intros E. injection E as -> -> ->. done. Qed.

Lemma params_limit s s' : store_ok s -> store_ok s' -> params_of s = params_of s' -> shard_limit s = shard_limit s'.
Proof.
  intros Hs Hs' E. injection E as E _ _. destruct Hs as [_ _ _ Hm _], Hs' as [_ _ _ Hm' _]. unfold shard_limit in *. repeat case_if; zbool; lia.
Qed.

(** The file of a store, loaded into a store with the same settings. *)
Lemma file_roundtrip s s0 now now' : store_ok s -> store_ok s0 -> params_of s0 = params_of s ->
  Forall (fun e => entry_fits (key e) (entry e)) (saved_elements now s) -> len (saved_elements now s) < 2 ^ 32 ->
  exists loaded s1, LoadFromFile (Contents (file_bytes (saved_elements now s))) now' s0 = (Ok loaded, s1) /\
    store_ok s1 /\ dirty s1 = 0 /\ contents s1 = map (reloaded (params_of s) now now') (contents s).
Proof.
  intros Hst Hst0 Hset Hfit Hlen. pose proof (len_nonneg (saved_elements now s)) as Hge. unfold LoadFromFile, file_bytes, wrap32.
  rewrite Z.mod_small, header_ok by lia. destruct (empty_loading s0) as (L1 & L2 & L3). set (e := s0 <| pendingTotal := 0 |> <| shards := _ |>) in *.
  assert (params_of e = params_of s) as Hp by (rewrite <- Hset; by apply settings_params).
  assert (Z.to_nat (len (saved_elements now s)) = length (pairs (saved_elements now s))) as -> by (unfold pairs, len; rewrite length_map; lia).
  replace (map (fun x => writeBinaryEntry (key x) (entry x)) (saved_elements now s)) with (map (fun q : bytes * Entry => writeBinaryEntry q.1 q.2) (pairs (saved_elements now s))) by (unfold pairs; by rewrite map_map).
  destruct (load_loop_ok now' (pairs (saved_elements now s)) 0 0 e) as [n ->]; [by apply Forall_fmap |]. rewrite Hp, saved_pairs. fold (reloaded (params_of s) now now' (concat (contents s))).
  pose proof (reloaded_sharded (params_of s) now now' _ (contents_sharded s Hst)) as Hsh. rewrite reloaded_concat.
  destruct (pushes_ok (concat (map (reloaded (params_of s) now now') (contents s))) e L1) as (P1 & P2 & P3);
    [rewrite <- reloaded_concat; apply reloaded_ready | by eapply sharded_NoDup | intros k _; rewrite L3; apply not_elem_of_nil |].
  set (s1 := fold_left push_pair _ e) in *. assert (contents s1 = map (reloaded (params_of s) now now') (contents s)) as Hc.
  { apply list_eq. intros i. rewrite P3, L3, (sharded_filter _ 0 i Hsh), Nat.sub_0_r by lia. destruct (decide (i < 32)%nat) as [Hi | Hi].
    - rewrite lookup_replicate_2 by done. destruct (lookup_lt_is_Some_2 (map (reloaded (params_of s) now now') (contents s)) i) as [x ->]; [| done].
      unfold contents. rewrite !length_map. by rewrite (st_shards _ Hst).
    - rewrite (lookup_ge_None_2 (replicate _ _)) by (rewrite length_replicate; lia). rewrite lookup_ge_None_2; [done |]. unfold contents. rewrite !length_map, (st_shards _ Hst). lia. }
  rewrite L2 in P2. injection P2 as E1 E2 E3. destruct (loaded_ok s1 _ P1 Hc) as [Hok Hc']; [rewrite E1; apply Hst0 | rewrite E2; apply Hst0 | | by eexists _, _].
  intros l (x & -> & Hx)%list_elem_of_fmap. apply list_elem_of_fmap in Hx as (sh & -> & Hx). apply list_elem_of_lookup in Hx as [i Hi].
  assert (shard_limit s1 = shard_limit s0) as -> by (unfold shard_limit; by rewrite E1). rewrite (params_limit s0 s) by done. etrans; [| apply (st_shard _ Hst i sh Hi)]. pose proof (sublist_length _ _ (reloaded_keys (params_of s) now now' (pairs (order sh)))) as Hl.
  unfold len, pairs in *. rewrite !length_map in Hl. lia.
Qed.

(** C32: The file of a cache gives the cache back.  After any operations, at least one of
    which left something to save, the file that [SaveToFile] writes is one that
    [LoadFromFile] reads into a cache with the same settings, whatever it held.  Every
    shard then holds, in the order of use, the answers that were ready and alive when the
    file was written and are alive when it is read, with their times in whole seconds; the
    cache satisfies its invariant and has nothing to save. *)
Theorem cache_file_roundtrip (maxRecords ttl pendingTimeout now now' : Z) (ops ops' : list cache_op) :
  let s := (run cache_step ops (New maxRecords ttl pendingTimeout)).2 in
  let s0 := (run cache_step ops' (New maxRecords ttl pendingTimeout)).2 in
  dirty s <> 0 -> Forall (fun e => entry_fits (key e) (entry e)) (saved_elements now s) -> len (saved_elements now s) < 2 ^ 32 ->
  exists b saved s' loaded s1, SaveToFile now true s = (Some b, Ok saved, s') /\ LoadFromFile (Contents b) now' s0 = (Ok loaded, s1) /\
    store_ok s1 /\ dirty s1 = 0 /\ contents s1 = map (reloaded (params_of s) now now') (contents s).
Proof.
  destruct (New_ok maxRecords ttl pendingTimeout) as [Hnew _]. destruct (cache_run_refines ops _ Hnew) as (rs & s & -> & Hst & Hp & _).
  destruct (cache_run_refines ops' _ Hnew) as (rs0 & s0 & -> & Hst0 & Hp0 & _). cbn [snd]. intros Hd Hf Hl.
  destruct (file_roundtrip s s0 now now' Hst Hst0) as (loaded & s1 & E & H1 & H2 & H3); [congruence | done | done |].
  unfold SaveToFile. rewrite (proj2 (Z.eqb_neq _ _)) by done. by eexists _, _, _, _, _.
Qed.

Definition example_ops : list cache_op := [OpSet [1] [97] 1 1 [7; 8; 9] (10 * second); OpLookup [2] [98] 1 1 (11 * second); OpGet [1] [5; 6] (12 * second)].

Lemma cache_file_roundtrip_witness :
  let s := (run cache_step example_ops (New 96 (60 * second) second)).2 in
  exists b saved s' loaded s1, SaveToFile (13 * second) true s = (Some b, Ok saved, s') /\
    LoadFromFile (Contents b) (14 * second) (New 96 (60 * second) second) = (Ok loaded, s1) /\ store_ok s1 /\ dirty s1 = 0 /\
    contents s1 = map (reloaded (params_of s) (13 * second) (14 * second)) (contents s).
Proof.
  apply (cache_file_roundtrip 96 (60 * second) second (13 * second) (14 * second) example_ops []).
  - vm_compute. discriminate.
  - change (saved_elements _ _) with [mkElement 0 [1] (mkEntry [97] 1 1 StatusReady (10 * second) (12 * second) zero_time [0; 0; 9])].
    apply Forall_cons. split; [| constructor]. split; vm_compute; intuition discriminate.
  - vm_compute. reflexivity.
Defined.

Lemma cache_retains_witness :
  let s := (run cache_step [OpLookup [2] [98] 1 1 (11 * second); OpGet [1] [5; 6] (12 * second)] (SetReady [1] [97] 1 1 [7; 8; 9] (10 * second) (New 96 (60 * second) second))).2 in
  (GetReady [1] [5; 6] (13 * second) s).1 = Some (PatchResponseForQuery ([0; 0] ++ drop 2 [7; 8; 9]) [5; 6]).
Proof.
  apply (cache_retains 96 (60 * second) second [] [OpLookup [2] [98] 1 1 (11 * second); OpGet [1] [5; 6] (12 * second)] [1] [97] [7; 8; 9] [5; 6] 1 1 (10 * second) (13 * second)).
  - discriminate.
  - vm_compute. discriminate.
  - repeat constructor; vm_compute; intuition discriminate.
  - vm_compute. lia.
  - vm_compute. discriminate.
  - vm_compute. reflexivity.
Defined.
