(* ===== verification/Balancer.v ===== *)
(** The balancer of the client: src/masterdns/internal/client/balancer.go.

    The balancer keeps the resolvers, which of them are in use, statistics of each, the resolver
    that a stream prefers, and the queries that wait for an answer.  The seed of the random
    numbers, the clock and the addresses are arguments, and so is the order in which Go enumerates
    a map of waiting queries ([enum]).  A pointer to the statistics of a resolver is its index
    together with the number of the table ([generation], how often [SetConnections] ran).  The
    handlers that are called when a resolver is taken out of use are outside the balancer: the
    answer of [confirmResolverDown] is an argument of the section that uses it. *)

From stdpp Require Import base tactics list gmap strings.
From Stdlib Require Import ZArith Lia.
From S2P Require Import Prelude Enums ClientConn.

Module Balancer.
Export Conn.

Definition BalancingRoundRobinDefault : Z := 0.
Definition BalancingRandom : Z := 1.
Definition BalancingRoundRobin : Z := 2.
Definition BalancingLeastLoss : Z := 3.
Definition BalancingLowestLatency : Z := 4.
Definition BalancingHybridScore : Z := 5.
Definition BalancingLossThenLatency : Z := 6.
Definition BalancingLeastLossTopRandom : Z := 7.
Definition BalancingLeastLossTopRoundRobin : Z := 8.

Definition millisecond : Z := 1000000.
Definition second : Z := 1000000000.

(** [time.Time{}] *)
Definition zero_time : Z := -62135596800 * second.

Record balancerStreamRouteState := mkRoute { PreferredResolverKey : bytes; ResendStreak : Z; LastFailoverAt : Z }.
#[export] Instance eta_route : Eta balancerStreamRouteState := fun r => mkRoute (PreferredResolverKey r) (ResendStreak r) (LastFailoverAt r).
#[export] Instance set_PreferredResolverKey : Setter PreferredResolverKey := ltac:(derive_setter).
#[export] Instance set_ResendStreak : Setter ResendStreak := ltac:(derive_setter).
#[export] Instance set_LastFailoverAt : Setter LastFailoverAt := ltac:(derive_setter).

(** Address of the resolver, local address, identifier of the query. *)
Abbreviation balancerResolverSampleKey := (bytes * bytes * Z)%type.

Record balancerResolverSample := mkSample { serverKey : bytes; sentAt : Z; timedOut : bool; timedOutAt : Z; evictAfter : Z }.

Record balancerTimeoutObservation := mkObservation { obsKey : bytes; obsAt : Z }.

Abbreviation pendingMap := (gmap (bytes * bytes * Z) balancerResolverSample).

Record connectionStats := mkStats {
  sent : Z;
  acked : Z;
  lost : Z;
  rttMicrosSum : Z;
  rttCount : Z;
  windowStartedAt : Z;
  windowSent : Z;
  windowLost : Z
}.
#[export] Instance eta_stats : Eta connectionStats := fun s =>
  mkStats (sent s) (acked s) (lost s) (rttMicrosSum s) (rttCount s) (windowStartedAt s) (windowSent s) (windowLost s).
#[export] Instance set_sent : Setter sent := ltac:(derive_setter).
#[export] Instance set_acked : Setter acked := ltac:(derive_setter).
#[export] Instance set_lost : Setter lost := ltac:(derive_setter).
#[export] Instance set_rttMicrosSum : Setter rttMicrosSum := ltac:(derive_setter).
#[export] Instance set_rttCount : Setter rttCount := ltac:(derive_setter).
#[export] Instance set_windowStartedAt : Setter windowStartedAt := ltac:(derive_setter).
#[export] Instance set_windowSent : Setter windowSent := ltac:(derive_setter).
#[export] Instance set_windowLost : Setter windowLost := ltac:(derive_setter).

Record Balancer := mkBalancer {
  strategy : Z;
  rrCounter : Z;
  healthRRCounter : Z;
  rngState : Z;
  nextPendingSweep : Z;
  pendingOverflow : bool;
  pendingSize : Z;
  pendingEvictRR : Z;
  connections : list Connection;
  indexByKey : gmap bytes Z;
  activeIDs : list Z;
  inactiveIDs : list Z;
  stats : list connectionStats;
  streamRoutes : gmap Z balancerStreamRouteState;
  pendingShards : list pendingMap;
  streamFailoverThreshold : Z;
  streamFailoverCooldown : Z;
  autoDisableEnabled : bool;
  autoDisableTimeoutWindow : Z;
  confirmResolverDown : bool;
  generation : nat
}.
#[export] Instance eta_balancer : Eta Balancer := fun b =>
  mkBalancer (strategy b) (rrCounter b) (healthRRCounter b) (rngState b) (nextPendingSweep b) (pendingOverflow b) (pendingSize b)
    (pendingEvictRR b) (connections b) (indexByKey b) (activeIDs b) (inactiveIDs b) (stats b) (streamRoutes b) (pendingShards b)
    (streamFailoverThreshold b) (streamFailoverCooldown b) (autoDisableEnabled b) (autoDisableTimeoutWindow b)
    (confirmResolverDown b) (generation b).
#[export] Instance set_rrCounter : Setter rrCounter := ltac:(derive_setter).
#[export] Instance set_healthRRCounter : Setter healthRRCounter := ltac:(derive_setter).
#[export] Instance set_rngState : Setter rngState := ltac:(derive_setter).
#[export] Instance set_nextPendingSweep : Setter nextPendingSweep := ltac:(derive_setter).
#[export] Instance set_pendingOverflow : Setter pendingOverflow := ltac:(derive_setter).
#[export] Instance set_pendingSize : Setter pendingSize := ltac:(derive_setter).
#[export] Instance set_pendingEvictRR : Setter pendingEvictRR := ltac:(derive_setter).
#[export] Instance set_connections : Setter connections := ltac:(derive_setter).
#[export] Instance set_indexByKey : Setter indexByKey := ltac:(derive_setter).
#[export] Instance set_activeIDs : Setter activeIDs := ltac:(derive_setter).
#[export] Instance set_inactiveIDs : Setter inactiveIDs := ltac:(derive_setter).
#[export] Instance set_stats : Setter stats := ltac:(derive_setter).
#[export] Instance set_streamRoutes : Setter streamRoutes := ltac:(derive_setter).
#[export] Instance set_pendingShards : Setter pendingShards := ltac:(derive_setter).
#[export] Instance set_streamFailoverThreshold : Setter streamFailoverThreshold := ltac:(derive_setter).
#[export] Instance set_streamFailoverCooldown : Setter streamFailoverCooldown := ltac:(derive_setter).
#[export] Instance set_autoDisableEnabled : Setter autoDisableEnabled := ltac:(derive_setter).
#[export] Instance set_autoDisableTimeoutWindow : Setter autoDisableTimeoutWindow := ltac:(derive_setter).
#[export] Instance set_confirmResolverDown : Setter confirmResolverDown := ltac:(derive_setter).
#[export] Instance set_generation : Setter generation := ltac:(derive_setter).

Inductive balancer_error := ErrNoValidConnections.

(** Results of operations that may index out of range. *)
Abbreviation run_ A := (outcome balancer_error A).

Definition resolverPendingSoftCap : Z := 8192.
Definition resolverPendingHardCap : Z := 12288.
Definition resolverPendingShardCount : Z := 16.
Definition connectionStatsHalfLifeThreshold : Z := 1000.

Definition empty_stats : connectionStats := mkStats 0 0 0 0 0 0 0 0.

(** [NewBalancer], with the time in nanoseconds for the seed. *)
Definition seedRNG (now : Z) : Z := let seed := wrap64 now in if seed =? 0 then 0x9e3779b97f4a7c15 else seed.

Definition NewBalancer (strategy now : Z) : Balancer :=
  mkBalancer strategy 0 0 (seedRNG now) 0 false 0 0 [] ∅ [] [] [] ∅ (replicate (Z.to_nat resolverPendingShardCount) ∅) 1 second false 0 false 0.

Definition SetStreamFailoverConfig (threshold cooldown : Z) (b : Balancer) : Balancer :=
  let threshold := if threshold <? 1 then 1 else threshold in
  let cooldown := if cooldown <=? 0 then second else cooldown in
  b <| streamFailoverThreshold := threshold |> <| streamFailoverCooldown := cooldown |>.

Definition SetAutoDisableConfig (enabled : bool) (window : Z) (b : Balancer) : Balancer :=
  b <| autoDisableEnabled := enabled |> <| autoDisableTimeoutWindow := window |>.

Definition SetResolverDownConfirmHandler (b : Balancer) : Balancer := b <| confirmResolverDown := true |>.

(** One turn of the loop of [SetConnections]. *)
Definition add_connection (b : Balancer) (conn : Connection) : Balancer :=
  if bool_decide (Key conn = []) then b
  else
    let copied := conn <| IsValid := false |> <| UploadMTUBytes := 0 |> <| UploadMTUChars := 0 |> <| DownloadMTUBytes := 0 |>
      <| MTUResolveTime := 0 |> <| LastHealthCheckAt := zero_time |> in
    let idx := len (connections b) in
    b <| connections ::= (fun l => l ++ [copied]) |> <| indexByKey ::= <[Key copied := idx]> |>
      <| inactiveIDs ::= (fun l => l ++ [idx]) |> <| stats ::= (fun l => l ++ [empty_stats]) |>.

Definition SetConnections (conns : list Connection) (b : Balancer) : Balancer :=
  let b := b <| connections := [] |> <| indexByKey := ∅ |> <| activeIDs := [] |> <| inactiveIDs := [] |> <| stats := [] |>
    <| pendingShards ::= map (fun _ => ∅) |> <| pendingOverflow := false |> <| pendingSize := 0 |> <| streamRoutes := ∅ |>
    <| generation ::= S |> in
  fold_left add_connection conns b.

Definition ActiveCount (b : Balancer) : Z := len (activeIDs b).
Definition TotalCount (b : Balancer) : Z := len (connections b).

(** The index of a key, when it is one of the list [l]. *)
Definition index_in {A} (key : bytes) (l : list A) (b : Balancer) : option Z :=
  match indexByKey b !! key with
  | None => None
  | Some idx => if (idx <? 0) || (len l <=? idx) then None else Some idx
  end.

Definition connectionByKeyLocked (key : bytes) (b : Balancer) : option (Z * Connection) :=
  match index_in key (connections b) b with
  | None => None
  | Some idx => (fun c => (idx, c)) <$> connections b !! Z.to_nat idx
  end.

Definition GetConnectionByKey (key : bytes) (b : Balancer) : option Connection := snd <$> connectionByKeyLocked key b.

Definition statsForKey (key : bytes) (b : Balancer) : option Z := index_in key (stats b) b.

Definition on_connection (idx : Z) (f : Connection -> Connection) (b : Balancer) : Balancer := b <| connections ::= alter f (Z.to_nat idx) |>.
Definition on_stats (idx : Z) (f : connectionStats -> connectionStats) (b : Balancer) : Balancer := b <| stats ::= alter f (Z.to_nat idx) |>.

Definition clearPreferredResolverReferencesLocked (key : bytes) (b : Balancer) : Balancer :=
  if bool_decide (key = []) then b
  else b <| streamRoutes ::= fmap (fun state =>
    if bool_decide (PreferredResolverKey state <> key) then state else state <| PreferredResolverKey := [] |> <| ResendStreak := 0 |>) |>.

(** ** The lists of resolvers *)

Definition add_index (idx : Z) (ids : list Z) : list Z := if bool_decide (idx ∈ ids) then ids else ids ++ [idx].

(** [ids[i] = ids[len(ids)-1]; ids = ids[:len(ids)-1]] at the first [i] where [idx] is. *)
Definition remove_index (idx : Z) (ids : list Z) : list Z :=
  match list_find (fun x => x = idx) ids with
  | None => ids
  | Some (i, _) => take (length ids - 1) (<[i := default 0 (last ids)]> ids)
  end.

Definition addActiveIndexLocked (idx : Z) (b : Balancer) : Balancer := b <| activeIDs ::= add_index idx |>.
Definition addInactiveIndexLocked (idx : Z) (b : Balancer) : Balancer := b <| inactiveIDs ::= add_index idx |>.
Definition removeActiveIndexLocked (idx : Z) (b : Balancer) : Balancer := b <| activeIDs ::= remove_index idx |>.
Definition removeInactiveIndexLocked (idx : Z) (b : Balancer) : Balancer := b <| inactiveIDs ::= remove_index idx |>.

Definition moveConnectionStateLocked (idx : Z) (valid : bool) (b : Balancer) : Balancer :=
  if valid then addActiveIndexLocked idx (removeInactiveIndexLocked idx b)
  else addInactiveIndexLocked idx (removeActiveIndexLocked idx b).

Definition resetWindow (s : connectionStats) : connectionStats := s <| windowStartedAt := 0 |> <| windowSent := 0 |> <| windowLost := 0 |>.

Definition SetConnectionValidity (key : bytes) (valid : bool) (b : Balancer) : run_ (bool * Balancer) :=
  match connectionByKeyLocked key b with
  | None => Ok (false, b)
  | Some (idx, conn) =>
      if Bool.eqb (IsValid conn) valid then Ok (true, b)
      else
        let b := on_connection idx (fun c => c <| IsValid := valid |>) b in
        let! b := if valid then let! _ := at_ (stats b) idx in Ok (on_stats idx resetWindow b)
                  else Ok (clearPreferredResolverReferencesLocked key b) in
        Ok (true, moveConnectionStateLocked idx valid b)
  end.

Definition SetConnectionMTU (key : bytes) (uploadBytes uploadChars downloadBytes : Z) (b : Balancer) : bool * Balancer :=
  match connectionByKeyLocked key b with
  | None => (false, b)
  | Some (idx, _) =>
      (true, on_connection idx (fun c => c <| UploadMTUBytes := uploadBytes |> <| UploadMTUChars := uploadChars |> <| DownloadMTUBytes := downloadBytes |>) b)
  end.

Definition ApplyMTUProbeResult (key : bytes) (uploadBytes uploadChars downloadBytes resolveTime : Z) (active : bool) (b : Balancer) : run_ (bool * Balancer) :=
  match connectionByKeyLocked key b with
  | None => Ok (false, b)
  | Some (idx, conn) =>
      let b := on_connection idx (fun c => c <| UploadMTUBytes := uploadBytes |> <| UploadMTUChars := uploadChars |>
        <| DownloadMTUBytes := downloadBytes |> <| MTUResolveTime := resolveTime |> <| IsValid := active |>) b in
      let wasValid := IsValid conn in
      let! b := if active then let! _ := at_ (stats b) idx in Ok (on_stats idx resetWindow b)
                else Ok (clearPreferredResolverReferencesLocked key b) in
      Ok (true, if negb (Bool.eqb wasValid active) then moveConnectionStateLocked idx active b else b)
  end.

(** ** Statistics *)

Definition applyHalfLife (s : connectionStats) : connectionStats :=
  if (sent s <=? connectionStatsHalfLifeThreshold) && (acked s <=? connectionStatsHalfLifeThreshold) &&
     (lost s <=? connectionStatsHalfLifeThreshold) && (rttCount s <=? connectionStatsHalfLifeThreshold) then s
  else s <| sent := sent s / 2 |> <| acked := acked s / 2 |> <| lost := lost s / 2 |> <| rttMicrosSum := rttMicrosSum s / 2 |> <| rttCount := rttCount s / 2 |>.

Definition with_stats (key : bytes) (f : connectionStats -> connectionStats) (b : Balancer) : Balancer :=
  match statsForKey key b with None => b | Some idx => on_stats idx f b end.

Definition ReportSend (key : bytes) (b : Balancer) : Balancer :=
  with_stats key (fun s => applyHalfLife (s <| sent := wrap64 (sent s + 1) |>)) b.

Definition ReportSuccess (key : bytes) (rtt : Z) (b : Balancer) : Balancer :=
  with_stats key (fun s =>
    let s := s <| acked := wrap64 (acked s + 1) |> in
    let s := if 0 <? rtt then s <| rttMicrosSum := wrap64 (rttMicrosSum s + rtt / 1000) |> <| rttCount := wrap64 (rttCount s + 1) |> else s in
    applyHalfLife s) b.

Definition ResetServerStats (key : bytes) (b : Balancer) : Balancer :=
  with_stats key (fun s => s <| sent := 0 |> <| acked := 0 |> <| lost := 0 |> <| rttMicrosSum := 0 |> <| rttCount := 0 |>) b.

Definition SeedConservativeStats (key : bytes) (b : Balancer) : Balancer :=
  with_stats key (fun s => s <| sent := 10 |> <| acked := 8 |> <| lost := 0 |> <| rttMicrosSum := 0 |> <| rttCount := 0 |>) b.

Definition AverageRTT (key : bytes) (b : Balancer) : option Z :=
  match statsForKey key b with
  | None => None
  | Some idx =>
      let s := default empty_stats (stats b !! Z.to_nat idx) in
      if rttCount s =? 0 then None else Some (rttMicrosSum s / rttCount s * 1000)
  end.

(** [clock] is the time that [time.Now()] gives. *)
Definition ensureWindowLocked (now window clock : Z) (s : connectionStats) : connectionStats :=
  let now := if now =? zero_time then clock else now in
  if window <=? 0 then if windowStartedAt s =? 0 then s <| windowStartedAt := now |> else s
  else if (windowStartedAt s =? 0) || (window <=? now - windowStartedAt s)
  then s <| windowStartedAt := now |> <| windowSent := 0 |> <| windowLost := 0 |>
  else s.

Definition recordWindowSend (now window clock : Z) (s : connectionStats) : connectionStats :=
  (ensureWindowLocked now window clock s) <| windowSent ::= fun n => wrap32 (n + 1) |>.

Definition recordWindowTimeout (now window clock : Z) (s : connectionStats) : connectionStats :=
  (ensureWindowLocked now window clock s) <| windowLost ::= fun n => wrap32 (n + 1) |>.

Definition retractWindowTimeout (now window clock : Z) (s : connectionStats) : bool * connectionStats :=
  let s := ensureWindowLocked now window clock s in
  if windowLost s =? 0 then (false, s) else (true, s <| windowLost ::= Z.pred |>).

Definition RetractTimeout (key : bytes) (now window clock : Z) (b : Balancer) : bool * Balancer :=
  match statsForKey key b with
  | None => (false, b)
  | Some idx =>
      let s := default empty_stats (stats b !! Z.to_nat idx) in
      let s := if 0 <? lost s then s <| lost ::= Z.pred |> else s in
      let '(r, s) := retractWindowTimeout now window clock (applyHalfLife s) in
      (r, on_stats idx (fun _ => s) b)
  end.

(** ** Taking a resolver out of use *)

Definition scaleAutoDisableMinObservations (base window : Z) : Z :=
  if base <=? 0 then base
  else if 60 * second <=? window then base * 3
  else if 30 * second <=? window then base * 2
  else base.

Definition autoDisableMinObservationsForActiveCount (active window : Z) : Z :=
  if active <=? 3 then 1000000
  else if active <=? 5 then scaleAutoDisableMinObservations 48 window
  else if active <=? 8 then scaleAutoDisableMinObservations 40 window
  else if active <=? 10 then scaleAutoDisableMinObservations 34 window
  else if active <=? 15 then scaleAutoDisableMinObservations 26 window
  else if active <=? 20 then scaleAutoDisableMinObservations 22 window
  else if active <=? 30 then scaleAutoDisableMinObservations 18 window
  else if active <=? 40 then scaleAutoDisableMinObservations 15 window
  else if active <=? 50 then scaleAutoDisableMinObservations 13 window
  else if active <=? 75 then scaleAutoDisableMinObservations 10 window
  else if active <=? 100 then scaleAutoDisableMinObservations 8 window
  else if active <=? 150 then scaleAutoDisableMinObservations 7 window
  else scaleAutoDisableMinObservations 6 window.

Definition autoDisableCheckIntervalForActiveCount (active window : Z) : Z :=
  let interval := Z.quot window 30 in
  let interval := if interval <=? 0 then 3 * second else interval in
  let interval := if interval <? second then second else interval in
  let maxInterval := if 60 * second <=? window then 12 * second else if 30 * second <=? window then 8 * second else 5 * second in
  let interval := if maxInterval <? interval then maxInterval else interval in
  let at_least n := if interval <? n then n else interval in
  if active <=? 3 then at_least (5 * second)
  else if active <=? 5 then at_least (5 * second)
  else if active <=? 8 then at_least (4500 * millisecond)
  else if active <=? 10 then at_least (4 * second)
  else if active <=? 15 then at_least (3500 * millisecond)
  else if active <=? 20 then at_least (3 * second)
  else if active <=? 30 then at_least (2500 * millisecond)
  else if active <=? 50 then at_least (2 * second)
  else if active <=? 75 then at_least (1500 * millisecond)
  else interval.

Inductive timeout_verdict :=
| Kept
| Disabled (conn : Connection)
| NeedsConfirm (conn : Connection) (statsOf : Z * nat).

(** [conn.IsValid = false] and what follows, for the statistics [statsOf]. *)
Definition disable (key : bytes) (idx : Z) (statsOf : Z * nat) (b : Balancer) : Balancer :=
  let b := on_connection idx (fun c => c <| IsValid := false |>) b in
  let b := if bool_decide (statsOf.2 = generation b) then on_stats statsOf.1 resetWindow b else b in
  let b := clearPreferredResolverReferencesLocked key b in
  match indexByKey b !! key with None => b | Some idx => moveConnectionStateLocked idx false b end.

(** [ReportTimeout] up to the call of [confirmResolverDown]. *)
Definition ReportTimeout_first (key : bytes) (now window minActive clock : Z) (b : Balancer) : timeout_verdict * Balancer :=
  match statsForKey key b with
  | None => (Kept, b)
  | Some i =>
      let b := on_stats i (fun s => recordWindowTimeout now window clock (applyHalfLife (s <| lost := wrap64 (lost s + 1) |>))) b in
      let s := default empty_stats (stats b !! Z.to_nat i) in
      match connectionByKeyLocked key b with
      | None => (Kept, b)
      | Some (idx, conn) =>
          if negb (IsValid conn) then (Kept, b)
          else
            let activeCount := len (activeIDs b) in
            let minObservations := autoDisableMinObservationsForActiveCount activeCount window in
            if (windowSent s <? minObservations) || negb (windowLost s =? windowSent s) then (Kept, b)
            else
              let minActive := if minActive <? 0 then 0 else minActive in
              let minActive := if minActive <? 2 then 2 else minActive in
              if activeCount <=? minActive then (Kept, b)
              else if confirmResolverDown b && (activeCount <=? 20) then (NeedsConfirm conn (i, generation b), b)
              else (Disabled conn, disable key idx (i, generation b) b)
      end
  end.

(** [ReportTimeout] after [confirmResolverDown] has answered [down]. *)
Definition ReportTimeout_confirmed (key : bytes) (statsOf : Z * nat) (down : bool) (b : Balancer) : timeout_verdict * Balancer :=
  match connectionByKeyLocked key b with
  | None => (Kept, b)
  | Some (idx, conn) =>
      if negb (IsValid conn) then (Kept, b)
      else if negb down then (Kept, if bool_decide (statsOf.2 = generation b) then on_stats statsOf.1 resetWindow b else b)
      else (Disabled conn, disable key idx statsOf b)
  end.

(** The whole of it, when nothing happens while [confirmResolverDown] runs. *)
Definition ReportTimeout (confirm : Connection -> Z -> bool) (key : bytes) (now window minActive clock : Z) (b : Balancer) : timeout_verdict * Balancer :=
  match ReportTimeout_first key now window minActive clock b with
  | (NeedsConfirm conn statsOf, b) => ReportTimeout_confirmed key statsOf (confirm conn window) b
  | r => r
  end.

(** ** The queries that wait for an answer *)

Definition resolverSampleTTL (tunnelPacketTimeout : Z) : Z :=
  let ttl := tunnelPacketTimeout * 3 in
  let ttl := if ttl <? 10 * second then 10 * second else ttl in
  if 45 * second <? ttl then 45 * second else ttl.

Definition resolverRequestTimeout (tunnelPacketTimeout checkInterval window : Z) : Z :=
  let timeout := tunnelPacketTimeout in
  let timeout := if timeout <=? 0 then 5 * second else timeout in
  let timeout := if (0 <? checkInterval) && (checkInterval <? timeout) then checkInterval else timeout in
  let timeout := if (0 <? window) && (window <? timeout) then window else timeout in
  if timeout <? 500 * millisecond then 500 * millisecond else timeout.

Definition resolverLateResponseGrace (requestTimeout ttl : Z) : Z :=
  let requestTimeout := if requestTimeout <=? 0 then 5 * second else requestTimeout in
  let grace := requestTimeout * 3 in
  let grace := if grace <? second then second else grace in
  if (0 <? ttl) && (ttl <? grace) then ttl else grace.

Definition pendingSweepDue (now : Z) (b : Balancer) : bool := (nextPendingSweep b =? 0) || (nextPendingSweep b <=? now).

Definition schedulePendingSweepAt (next : Z) (b : Balancer) : Balancer :=
  if next =? zero_time then b
  else if negb (nextPendingSweep b =? 0) && (nextPendingSweep b <=? next) then b
  else b <| nextPendingSweep := next |>.

Definition setNextPendingSweepLocked (next : Z) (b : Balancer) : Balancer :=
  b <| nextPendingSweep := if next =? zero_time then 0 else next |>.

Definition pendingShardIndex (key : balancerResolverSampleKey) : nat :=
  let '(resolverAddr, localAddr, dnsID) := key in
  let step := fold_left (fun hash c => wrap32 (wrap32 (hash * 33) + c)) in
  Z.to_nat (step localAddr (step resolverAddr dnsID) mod resolverPendingShardCount).

Definition shard_at (i : nat) (b : Balancer) : pendingMap := default ∅ (pendingShards b !! i).
Definition on_shard (i : nat) (f : pendingMap -> pendingMap) (b : Balancer) : Balancer := b <| pendingShards ::= alter f i |>.

(** The earlier of two times, where the zero time is none. *)
Definition due_before (t nextDue : Z) : bool := (nextDue =? zero_time) || (t <? nextDue).

(** What the loop of [prunePendingLocked] has so far. *)
Record prune_state := mkPrune { prMap : pendingMap; prObs : list balancerTimeoutObservation; prNext : Z; prRemoved : Z }.

Definition prune_key (now requestTimeout ttl : Z) (p : prune_state) (k : bytes * bytes * Z) : prune_state :=
  match prMap p !! k with
  | None => p
  | Some s =>
      let lateGrace := resolverLateResponseGrace requestTimeout ttl in
      let removed m := mkPrune (delete k (prMap m)) (prObs m) (prNext m) (prRemoved m + 1) in
      if negb (timedOut s) then
        let timeoutAt := sentAt s + requestTimeout in
        let p :=
          if sentAt s <=? now - requestTimeout then
            let at' := if now <? timeoutAt then now else timeoutAt in
            let s' := mkSample (serverKey s) (sentAt s) true at' (at' + lateGrace) in
            mkPrune (<[k := s']> (prMap p))
              (if bool_decide (serverKey s <> []) then prObs p ++ [mkObservation (serverKey s) at'] else prObs p) (prNext p) (prRemoved p)
          else if due_before timeoutAt (prNext p) then mkPrune (prMap p) (prObs p) timeoutAt (prRemoved p)
          else p in
        if sentAt s <? now - ttl then removed p else p
      else if negb (evictAfter s =? zero_time) && (evictAfter s <=? now) then removed p
      else if sentAt s <? now - ttl then removed p
      else
        let evictAt := if evictAfter s =? zero_time then sentAt s + ttl else evictAfter s in
        if due_before evictAt (prNext p) then mkPrune (prMap p) (prObs p) evictAt (prRemoved p) else p
  end.

Section enumeration.
(** The order in which Go enumerates a map. *)
Context (enum : pendingMap -> list (bytes * bytes * Z)).

Definition prunePendingLocked (pending : pendingMap) (now requestTimeout ttl : Z) : prune_state :=
  fold_left (prune_key now requestTimeout ttl) (enum pending) (mkPrune pending [] zero_time 0).

(** The first key that the enumeration gives is deleted. *)
Definition evict_one (i : nat) (b : Balancer) : bool * Balancer :=
  match head (enum (shard_at i b)) with
  | None => (false, b)
  | Some k => (true, (on_shard i (delete k) b) <| pendingSize ::= Z.pred |>)
  end.

Fixpoint evict_round (shards : list nat) (evictCount : Z) (removedAny : bool) (b : Balancer) : Z * bool * Balancer :=
  match shards with
  | [] => (evictCount, removedAny, b)
  | i :: shards =>
      if evictCount <=? 0 then (evictCount, removedAny, b)
      else match evict_one i b with
      | (true, b) => evict_round shards (evictCount - 1) true b
      | (false, b) => evict_round shards evictCount removedAny b
      end
  end.

Fixpoint evict_rounds (fuel : nat) (evictCount : Z) (b : Balancer) : Balancer :=
  match fuel with
  | O => b
  | S fuel =>
      if evictCount <=? 0 then b
      else
        let counter := wrap32 (pendingEvictRR b + 1) in
        let b := b <| pendingEvictRR := counter |> in
        let start := Z.to_nat (wrap32 (counter - 1) mod resolverPendingShardCount) in
        let order := map (fun i => ((start + i) mod Z.to_nat resolverPendingShardCount)%nat) (seq 0 (Z.to_nat resolverPendingShardCount)) in
        let '(evictCount, removedAny, b) := evict_round order evictCount false b in
        if removedAny then evict_rounds fuel evictCount b else b
  end.

(** Every turn that goes on has deleted a query. *)
Definition evictSomePendingGlobal (evictCount : Z) (b : Balancer) : Balancer := evict_rounds (Z.to_nat evictCount) evictCount b.

Definition TrackResolverSend (packet resolverAddr localAddr key : bytes) (sentAt tunnelPacketTimeout clock : Z) (b : Balancer) : run_ Balancer :=
  if (len packet <? 2) || bool_decide (resolverAddr = []) || bool_decide (key = []) then Ok b
  else
    let window := autoDisableTimeoutWindow b in
    let checkInterval := autoDisableCheckIntervalForActiveCount (len (activeIDs b)) window in
    let! dnsID := get16 packet 0 in
    let k := (resolverAddr, localAddr, dnsID) in
    let requestTimeout := resolverRequestTimeout tunnelPacketTimeout checkInterval window in
    let b :=
      if resolverPendingHardCap <=? pendingSize b then
        let extra := pendingSize b - resolverPendingHardCap + 1 in
        if 0 <? extra then evictSomePendingGlobal extra b else b
      else b in
    let i := pendingShardIndex k in
    let exists_ := bool_decide (is_Some (shard_at i b !! k)) in
    let b := if resolverPendingSoftCap <=? pendingSize b then setNextPendingSweepLocked sentAt (b <| pendingOverflow := true |>) else b in
    let b := on_shard i <[k := mkSample key sentAt false zero_time zero_time]> b in
    let b := if exists_ then b else b <| pendingSize ::= Z.succ |> in
    let b := schedulePendingSweepAt (sentAt + requestTimeout) b in
    let b := ReportSend key b in
    Ok (with_stats key (recordWindowSend sentAt window clock) b).

(** The query that an answer is for, taken off the map. *)
Definition take_sample (packet addr localAddr : bytes) (b : Balancer) : run_ (option balancerResolverSample * Balancer) :=
  let! dnsID := get16 packet 0 in
  let k := (addr, localAddr, dnsID) in
  let i := pendingShardIndex k in
  match shard_at i b !! k with
  | None => Ok (None, b)
  | Some s => Ok (Some s, (on_shard i (delete k) b) <| pendingSize ::= Z.pred |>)
  end.

Definition TrackResolverSuccess (packet : bytes) (addr : option bytes) (localAddr : bytes) (receivedAt rtt clock : Z) (b : Balancer) : run_ Balancer :=
  match addr with
  | None => Ok b
  | Some addr =>
      if len packet <? 2 then Ok b
      else
        let window := autoDisableTimeoutWindow b in
        let! (sample, b) := take_sample packet addr localAddr b in
        match sample with
        | None => Ok b
        | Some s =>
            if bool_decide (serverKey s = []) then Ok b
            else
              let b := if timedOut s && negb (timedOutAt s =? zero_time) then (RetractTimeout (serverKey s) receivedAt window clock b).2 else b in
              let rtt := if negb (sentAt s =? zero_time) && (sentAt s <=? receivedAt) then receivedAt - sentAt s else rtt in
              Ok (if 0 <? rtt then ReportSuccess (serverKey s) rtt b else b)
        end
  end.

(** [TrackResolverFailure] up to the report: the key of the resolver to report. *)
Definition TrackResolverFailure_first (packet : bytes) (addr : option bytes) (localAddr : bytes) (b : Balancer) : run_ (option bytes * Balancer) :=
  match addr with
  | None => Ok (None, b)
  | Some addr =>
      if len packet <? 2 then Ok (None, b)
      else
        let autoDisable := autoDisableEnabled b in
        let! (sample, b) := take_sample packet addr localAddr b in
        match sample with
        | None => Ok (None, b)
        | Some s =>
            if bool_decide (serverKey s = []) || timedOut s || negb autoDisable then Ok (None, b)
            else Ok (Some (serverKey s), b)
        end
  end.

Definition TrackResolverFailure (confirm : Connection -> Z -> bool) (packet : bytes) (addr : option bytes) (localAddr : bytes) (failedAt clock : Z) (b : Balancer) : run_ Balancer :=
  let window := autoDisableTimeoutWindow b in
  let! (report, b) := TrackResolverFailure_first packet addr localAddr b in
  Ok (match report with None => b | Some key => (ReportTimeout confirm key failedAt window 1 clock b).2 end).

(** One shard of the sweep. *)
Definition sweep_shard (now requestTimeout ttl : Z) (acc : list balancerTimeoutObservation * Z * Balancer) (i : nat) : list balancerTimeoutObservation * Z * Balancer :=
  let '(obs, nextDue, b) := acc in
  let p := prunePendingLocked (shard_at i b) now requestTimeout ttl in
  let b := on_shard i (fun _ => prMap p) b in
  let b := if 0 <? prRemoved p then b <| pendingSize ::= fun n => n - prRemoved p |> else b in
  let nextDue := if (nextDue =? zero_time) || (negb (prNext p =? zero_time) && (prNext p <? nextDue)) then prNext p else nextDue in
  (obs ++ prObs p, nextDue, b).

(** [CollectExpiredResolverTimeouts] up to the reports. *)
Definition CollectExpiredResolverTimeouts_first (now tunnelPacketTimeout : Z) (b : Balancer) : list balancerTimeoutObservation * Balancer :=
  let window := autoDisableTimeoutWindow b in
  let checkInterval := autoDisableCheckIntervalForActiveCount (len (activeIDs b)) window in
  if negb (autoDisableEnabled b) then ([], b)
  else if negb (pendingOverflow b) && negb (pendingSweepDue now b) then ([], b)
  else
    let requestTimeout := resolverRequestTimeout tunnelPacketTimeout checkInterval window in
    let ttl := resolverSampleTTL tunnelPacketTimeout in
    let '(obs, nextDue, b) := fold_left (sweep_shard now requestTimeout ttl) (seq 0 (Z.to_nat resolverPendingShardCount)) ([], zero_time, b) in
    let overflow := pendingSize b - resolverPendingHardCap in
    let b := if 0 <=? overflow then evictSomePendingGlobal (overflow + 1) b else b in
    (obs, (setNextPendingSweepLocked nextDue b) <| pendingOverflow := false |>).

Definition CollectExpiredResolverTimeouts (confirm : Connection -> Z -> bool) (now tunnelPacketTimeout clock : Z) (b : Balancer) : Balancer :=
  let window := autoDisableTimeoutWindow b in
  let '(obs, b) := CollectExpiredResolverTimeouts_first now tunnelPacketTimeout b in
  fold_left (fun b o => (ReportTimeout confirm (obsKey o) (obsAt o) window 1 clock b).2) obs b.
End enumeration.

(** ** Choosing resolvers *)

Definition xorshift64 (v : Z) : Z :=
  let v := if v =? 0 then 0x9e3779b97f4a7c15 else v in
  let v := Z.lxor v (wrap64 (Z.shiftl v 13)) in
  let v := Z.lxor v (Z.shiftr v 7) in
  Z.lxor v (wrap64 (Z.shiftl v 17)).

Definition nextRandom (b : Balancer) : Z * Balancer :=
  let next := xorshift64 (rngState b) in (next, b <| rngState := next |>).

Definition roundRobinStartIndex (counter n : Z) : Z := if n <=? 0 then 0 else counter mod n.

(** [b.rrCounter.Add(step) - step] *)
Definition rr_advance (step : Z) (b : Balancer) : Z * Balancer :=
  let counter := wrap64 (rrCounter b + step) in (wrap64 (counter - step), b <| rrCounter := counter |>).

(** [l[(start+i)%len(l)]] for the first [count] indices. *)
Fixpoint rotated {A} (l : list A) (start : Z) (js : list nat) : run_ (list A) :=
  match js with
  | [] => Ok []
  | i :: rest => let! x := at_ l ((start + Z.of_nat i) mod len l) in let! xs := rotated l start rest in Ok (x :: xs)
  end.

Definition rotatedActiveIndicesLocked (step : Z) (b : Balancer) : run_ (list Z * Balancer) :=
  if len (activeIDs b) =? 0 then Ok ([], b)
  else
    let step := if step <? 1 then 1 else step in
    let '(counter, b) := rr_advance step b in
    let start := roundRobinStartIndex counter (len (activeIDs b)) in
    let! ordered := rotated (activeIDs b) start (seq 0 (length (activeIDs b))) in
    Ok (ordered, b).

(** *** Scores *)

Fixpoint any_stats (test : connectionStats -> bool) (ids : list Z) (b : Balancer) : run_ bool :=
  match ids with
  | [] => Ok false
  | idx :: ids => let! s := at_ (stats b) idx in if test s then Ok true else any_stats test ids b
  end.

Definition hasLossSignalLocked (b : Balancer) : run_ bool := any_stats (fun s => 5 <=? sent s) (activeIDs b) b.
Definition hasLatencySignalLocked (b : Balancer) : run_ bool := any_stats (fun s => 5 <=? rttCount s) (activeIDs b) b.
Definition hasHybridSignalLocked (b : Balancer) : run_ bool :=
  let! r := hasLossSignalLocked b in if r then Ok true else hasLatencySignalLocked b.

Definition stats_at (idx : Z) (b : Balancer) : option connectionStats :=
  if (idx <? 0) || (len (stats b) <=? idx) then None else stats b !! Z.to_nat idx.

Definition lossScoreLocked (b : Balancer) (idx : Z) : Z :=
  match stats_at idx b with
  | None => 200
  | Some s => if sent s <? 5 then 200 else if lost s =? 0 then 0 else wrap64 (lost s * 1000) / sent s
  end.

Definition latencyScoreLocked (b : Balancer) (idx : Z) : Z :=
  match stats_at idx b with
  | None => 999000
  | Some s => if rttCount s <? 5 then 999000 else rttMicrosSum s / rttCount s
  end.

Definition hybridLatencyPenaltyLocked (b : Balancer) (idx : Z) : Z :=
  let latencyMicros := latencyScoreLocked b idx in
  if latencyMicros =? 999000 then 200
  else let latencyMillis := latencyMicros / 1000 in if 1000 <? latencyMillis then 1000 else latencyMillis.

Definition hybridScoreLocked (b : Balancer) (idx : Z) : Z :=
  wrap64 (lossScoreLocked b idx * 8 + hybridLatencyPenaltyLocked b idx).

Definition strategyScorerLocked (b : Balancer) : run_ (option (Z -> Z) * bool) :=
  if strategy b =? BalancingLeastLoss then let! r := hasLossSignalLocked b in Ok (Some (lossScoreLocked b), r)
  else if strategy b =? BalancingLowestLatency then let! r := hasLatencySignalLocked b in Ok (Some (latencyScoreLocked b), r)
  else if strategy b =? BalancingHybridScore then let! r := hasHybridSignalLocked b in Ok (Some (hybridScoreLocked b), r)
  else Ok (None, false).

(** *** Lists of connections *)

(** [Connection{}] *)
Definition no_connection : Connection := mkConnection [] [] 0 [] [] false 0 0 0 0 zero_time.

Definition connectionsByIndicesLocked (indices : list Z) (b : Balancer) : list Connection :=
  map (fun idx => if (idx <? 0) || (len (connections b) <=? idx) then no_connection else default no_connection (connections b !! Z.to_nat idx)) indices.

Definition connectionsByIDsLocked : list Z -> Balancer -> list Connection := connectionsByIndicesLocked.

Definition ActiveConnections (b : Balancer) : list Connection := connectionsByIDsLocked (activeIDs b) b.
Definition InactiveConnections (b : Balancer) : list Connection := connectionsByIDsLocked (inactiveIDs b) b.
Definition AllConnections (b : Balancer) : list Connection := connections b.

(** [b.connections[idx]] for each of a list. *)
Fixpoint connections_at (ids : list Z) (b : Balancer) : run_ (list Connection) :=
  match ids with
  | [] => Ok []
  | idx :: ids => let! c := at_ (connections b) idx in let! cs := connections_at ids b in Ok (c :: cs)
  end.

(** *** Selection of minima *)

Definition swap {A} (i j : nat) (l : list A) : list A :=
  match l !! i, l !! j with Some x, Some y => <[j := x]> (<[i := y]> l) | _, _ => l end.

(** The first position from [i] on with the least score. *)
Definition min_from {A} (score : A -> Z) (i : nat) (l : list A) : nat :=
  fold_left (fun m j => match l !! j, l !! m with Some x, Some y => if score x <? score y then j else m | _, _ => m end)
    (seq (S i) (length l - S i)) i.

(** The first [count] turns of a selection sort. *)
Definition select_min {A} (score : A -> Z) (count : nat) (l : list A) : list A :=
  fold_left (fun l i => swap i (min_from score i l) l) (seq 0 count) l.

Fixpoint best_scored (scorer : Z -> Z) (ids : list Z) (bestIndex bestScore : Z) : Z :=
  match ids with
  | [] => bestIndex
  | idx :: ids =>
      let score := scorer idx in
      if (bestIndex =? -1) || (score <? bestScore) then best_scored scorer ids idx score else best_scored scorer ids bestIndex bestScore
  end.

Definition best_connection (bestIndex : Z) (b : Balancer) : run_ (option Connection * Balancer) :=
  if bestIndex <? 0 then Ok (None, b) else let! c := at_ (connections b) bestIndex in Ok (Some c, b).

Definition bestScoredConnectionLocked (scorer : Z -> Z) (b : Balancer) : run_ (option Connection * Balancer) :=
  let! (ordered, b) := rotatedActiveIndicesLocked 1 b in best_connection (best_scored scorer ordered (-1) 0) b.

(** The indices whose key is not [excludeKey]. *)
Fixpoint other_indices (excludeKey : bytes) (ids : list Z) (b : Balancer) : run_ (list Z) :=
  match ids with
  | [] => Ok []
  | idx :: ids =>
      let! c := at_ (connections b) idx in
      let! rest := other_indices excludeKey ids b in
      Ok (if bool_decide (Key c = excludeKey) then rest else idx :: rest)
  end.

Definition bestScoredConnectionExcludingLocked (scorer : Z -> Z) (excludeKey : bytes) (b : Balancer) : run_ (option Connection * Balancer) :=
  let! (ordered, b) := rotatedActiveIndicesLocked 1 b in
  let! ids := other_indices excludeKey ordered b in
  best_connection (best_scored scorer ids (-1) 0) b.

Fixpoint first_other (excludeKey : bytes) (ids : list Z) (b : Balancer) : run_ (option Connection) :=
  match ids with
  | [] => Ok None
  | idx :: ids => let! c := at_ (connections b) idx in if bool_decide (Key c = excludeKey) then first_other excludeKey ids b else Ok (Some c)
  end.

Definition roundRobinBestConnectionLocked (b : Balancer) : run_ (option Connection * Balancer) :=
  if len (activeIDs b) =? 0 then Ok (None, b)
  else
    let '(counter, b) := rr_advance 1 b in
    let! idx := at_ (activeIDs b) (roundRobinStartIndex counter (len (activeIDs b))) in
    let! c := at_ (connections b) idx in Ok (Some c, b).

Definition roundRobinBestConnectionExcludingLocked (excludeKey : bytes) (b : Balancer) : run_ (option Connection * Balancer) :=
  if len (activeIDs b) =? 0 then Ok (None, b)
  else
    let! (ordered, b) := rotatedActiveIndicesLocked 1 b in
    let! c := first_other excludeKey ordered b in Ok (c, b).

Definition selectRoundRobinLocked (count : Z) (b : Balancer) : run_ (list Connection * Balancer) :=
  let '(counter, b) := rr_advance count b in
  let start := roundRobinStartIndex counter (len (activeIDs b)) in
  let! ids := rotated (activeIDs b) start (seq 0 (Z.to_nat count)) in
  let! cs := connections_at ids b in Ok (cs, b).

Fixpoint shuffle (turns i : nat) (indices : list Z) (b : Balancer) : list Z * Balancer :=
  match turns with
  | O => (indices, b)
  | S turns =>
      let '(r, b) := nextRandom b in
      let j := (i + Z.to_nat (r mod (len indices - Z.of_nat i)))%nat in
      shuffle turns (S i) (swap i j indices) b
  end.

Definition selectRandomLocked (count : Z) (b : Balancer) : run_ (list Connection * Balancer) :=
  let n := len (activeIDs b) in
  if (count <=? 0) || (n =? 0) then Ok ([], b)
  else if count =? 1 then
    let '(r, b) := nextRandom b in
    let! idx := at_ (activeIDs b) (r mod n) in
    let! c := at_ (connections b) idx in Ok ([c], b)
  else
    let '(indices, b) := shuffle (Z.to_nat count) 0 (activeIDs b) b in
    let! chosen := slice indices 0 count in
    Ok (connectionsByIndicesLocked chosen b, b).

Definition selectLowestScoreLocked (count : Z) (scorer : Z -> Z) (b : Balancer) : run_ (list Connection * Balancer) :=
  let n := len (activeIDs b) in
  if (count <=? 0) || (n =? 0) then Ok ([], b)
  else if count =? 1 then
    let! (c, b) := bestScoredConnectionLocked scorer b in
    Ok (match c with Some c => [c] | None => [] end, b)
  else
    let! (ordered, b) := rotatedActiveIndicesLocked count b in
    let scored := select_min snd (Z.to_nat (Z.min count n)) (map (fun idx => (idx, scorer idx)) ordered) in
    let! chosen := slice scored 0 count in
    Ok (connectionsByIndicesLocked (map fst chosen) b, b).

(** *** Pools of candidates *)

Inductive balancerPoolPick := poolPickRandom | poolPickRoundRobin.

(** The active indices without [excludeKey], when it is not empty. *)
Definition candidate_ids (excludeKey : bytes) (b : Balancer) : run_ (list Z) :=
  if bool_decide (excludeKey = []) then Ok (activeIDs b) else other_indices excludeKey (activeIDs b) b.

Definition latencyToleranceForTier (bestLatency : Z) : Z :=
  if 200 <=? bestLatency then 0
  else
    let tolerance := bestLatency / 4 in
    let tolerance := if tolerance <? 2 then 2 else tolerance in
    if 25 <? tolerance then 25 else tolerance.

Definition max_uint64 : Z := 18446744073709551615.

Definition lossThenLatencyCandidatesLocked (excludeKey : bytes) (b : Balancer) : run_ (list Connection) :=
  let! signal := hasHybridSignalLocked b in
  if negb signal || (len (activeIDs b) =? 0) then Ok []
  else
    let! candidates := candidate_ids excludeKey b in
    if len candidates =? 0 then Ok []
    else
      let bestLoss := fold_left (fun best idx => if lossScoreLocked b idx <? best then lossScoreLocked b idx else best) candidates max_uint64 in
      let lossTolerance := if 200 <=? bestLoss then 0 else 25 in
      let lossCutoff := wrap64 (bestLoss + lossTolerance) in
      let lossShortlist := filter (fun idx => lossScoreLocked b idx <= lossCutoff) candidates in
      match lossShortlist with
      | [] => Ok []
      | first :: _ =>
          let bestLatency := fold_left (fun best idx => if hybridLatencyPenaltyLocked b idx <? best then hybridLatencyPenaltyLocked b idx else best) lossShortlist max_uint64 in
          let latencyCutoff := wrap64 (bestLatency + latencyToleranceForTier bestLatency) in
          match filter (fun idx => hybridLatencyPenaltyLocked b idx <= latencyCutoff) lossShortlist with
          | [] => connections_at [first] b
          | selected => connections_at selected b
          end
      end.

Definition leastLossTopTierCandidatesLocked (excludeKey : bytes) (b : Balancer) : run_ (list Connection) :=
  let! signal := hasLossSignalLocked b in
  if negb signal || (len (activeIDs b) =? 0) then Ok []
  else
    let! candidates := candidate_ids excludeKey b in
    if len candidates =? 0 then Ok []
    else
      let topCount := Z.max 2 ((len candidates + 9) / 10) in
      let topCount := if len candidates <? topCount then len candidates else topCount in
      connections_at (take (Z.to_nat topCount) (select_min (lossScoreLocked b) (Z.to_nat topCount) candidates)) b.

Definition strategyCandidatePoolLocked (excludeKey : bytes) (b : Balancer) : run_ (list Connection * balancerPoolPick * bool) :=
  if strategy b =? BalancingLossThenLatency then
    let! signal := hasHybridSignalLocked b in
    if negb signal then Ok ([], poolPickRandom, true)
    else let! pool := lossThenLatencyCandidatesLocked excludeKey b in Ok (pool, poolPickRandom, true)
  else if strategy b =? BalancingLeastLossTopRandom then
    let! signal := hasLossSignalLocked b in
    if negb signal then Ok ([], poolPickRandom, true)
    else let! pool := leastLossTopTierCandidatesLocked excludeKey b in Ok (pool, poolPickRandom, true)
  else if strategy b =? BalancingLeastLossTopRoundRobin then
    let! signal := hasLossSignalLocked b in
    if negb signal then Ok ([], poolPickRoundRobin, true)
    else let! pool := leastLossTopTierCandidatesLocked excludeKey b in Ok (pool, poolPickRoundRobin, true)
  else Ok ([], poolPickRandom, false).

Definition pickFromPoolLocked (pool : list Connection) (pick : balancerPoolPick) (b : Balancer) : run_ (option Connection * Balancer) :=
  if len pool =? 0 then Ok (None, b)
  else match pick with
  | poolPickRoundRobin =>
      let '(counter, b) := rr_advance 1 b in
      let! c := at_ pool (roundRobinStartIndex counter (len pool)) in Ok (Some c, b)
  | poolPickRandom =>
      let '(r, b) := nextRandom b in
      let! c := at_ pool (r mod len pool) in Ok (Some c, b)
  end.

Definition limitConnectionPoolLocked (pool : list Connection) (count : Z) (pick : balancerPoolPick) (b : Balancer) : run_ (list Connection * Balancer) :=
  if len pool =? 0 then Ok ([], b)
  else if len pool <=? count then Ok (pool, b)
  else match pick with
  | poolPickRoundRobin =>
      let '(counter, b) := rr_advance count b in
      let! ordered := rotated pool (roundRobinStartIndex counter (len pool)) (seq 0 (length pool)) in
      let! chosen := slice ordered 0 count in Ok (chosen, b)
  | poolPickRandom => let! chosen := slice pool 0 count in Ok (chosen, b)
  end.

(** *** The strategies *)

Definition normalizeRequiredCount (validCount requiredCount defaultIfInvalid : Z) : Z :=
  if validCount <=? 0 then 0
  else
    let requiredCount := if requiredCount <=? 0 then defaultIfInvalid else requiredCount in
    if validCount <? requiredCount then validCount else requiredCount.

Definition getUniqueConnectionsLocked (requiredCount : Z) (b : Balancer) : run_ (list Connection * Balancer) :=
  let count := normalizeRequiredCount (len (activeIDs b)) requiredCount 1 in
  if count <=? 0 then Ok ([], b)
  else if strategy b =? BalancingRandom then selectRandomLocked count b
  else
    let! (pool, pick, handled) := strategyCandidatePoolLocked [] b in
    if handled : bool then if len pool =? 0 then selectRoundRobinLocked count b else limitConnectionPoolLocked pool count pick b
    else
      let! (scorer, hasSignal) := strategyScorerLocked b in
      match scorer with
      | None => selectRoundRobinLocked count b
      | Some scorer => if negb hasSignal then selectRoundRobinLocked count b else selectLowestScoreLocked count scorer b
      end.

Definition GetUniqueConnections : Z -> Balancer -> run_ (list Connection * Balancer) := getUniqueConnectionsLocked.

Definition selectTargetByStrategyLocked (b : Balancer) : run_ (option Connection * Balancer) :=
  let! (selected, b) := getUniqueConnectionsLocked 1 b in Ok (head selected, b).

Definition getBestConnectionExcludingLocked (excludeKey : bytes) (b : Balancer) : run_ (option Connection * Balancer) :=
  if strategy b =? BalancingRandom then
    let! (ordered, b) := rotatedActiveIndicesLocked 1 b in
    let! c := first_other excludeKey ordered b in Ok (c, b)
  else
    let! (pool, pick, handled) := strategyCandidatePoolLocked excludeKey b in
    if handled : bool then
      if len pool =? 0 then roundRobinBestConnectionExcludingLocked excludeKey b else pickFromPoolLocked pool pick b
    else
      let! (scorer, hasSignal) := strategyScorerLocked b in
      match scorer with
      | None => roundRobinBestConnectionExcludingLocked excludeKey b
      | Some scorer =>
          if negb hasSignal then roundRobinBestConnectionExcludingLocked excludeKey b
          else bestScoredConnectionExcludingLocked scorer excludeKey b
      end.

Definition GetBestConnectionExcluding (excludeKey : bytes) (b : Balancer) : run_ (option Connection * Balancer) :=
  if len (activeIDs b) =? 0 then Ok (None, b) else getBestConnectionExcludingLocked excludeKey b.

Definition GetBestConnection (b : Balancer) : run_ (option Connection * Balancer) :=
  if len (activeIDs b) =? 0 then Ok (None, b)
  else if strategy b =? BalancingRandom then
    let '(r, b) := nextRandom b in
    let! idx := at_ (activeIDs b) (r mod len (activeIDs b)) in
    let! c := at_ (connections b) idx in Ok (Some c, b)
  else
    let! (pool, pick, handled) := strategyCandidatePoolLocked [] b in
    if handled : bool then if len pool =? 0 then roundRobinBestConnectionLocked b else pickFromPoolLocked pool pick b
    else
      let! (scorer, hasSignal) := strategyScorerLocked b in
      match scorer with
      | None => roundRobinBestConnectionLocked b
      | Some scorer => if negb hasSignal then roundRobinBestConnectionLocked b else bestScoredConnectionLocked scorer b
      end.

(** ** Streams *)

Definition isBalancerStreamDataLike (packetType : Z) : bool := (packetType =? PACKET_STREAM_DATA) || (packetType =? PACKET_STREAM_RESEND).

Definition ensureStreamRouteLocked (streamID : Z) (b : Balancer) : Balancer :=
  if streamID =? 0 then b
  else match streamRoutes b !! streamID with
  | Some _ => b
  | None => b <| streamRoutes ::= <[streamID := mkRoute [] 0 zero_time]> |>
  end.

Definition EnsureStream (streamID : Z) (b : Balancer) : Balancer := if streamID =? 0 then b else ensureStreamRouteLocked streamID b.
Definition CleanupStream (streamID : Z) (b : Balancer) : Balancer := if streamID =? 0 then b else b <| streamRoutes ::= delete streamID |>.
Definition NoteStreamProgress (streamID : Z) (b : Balancer) : Balancer :=
  if streamID =? 0 then b else b <| streamRoutes ::= alter (fun state => state <| ResendStreak := 0 |>) streamID |>.

Definition validPreferredConnectionLocked (state : balancerStreamRouteState) (b : Balancer) : option Connection :=
  if bool_decide (PreferredResolverKey state = []) then None
  else match connectionByKeyLocked (PreferredResolverKey state) b with
  | None => None
  | Some (_, conn) => if negb (IsValid conn) || bool_decide (Key conn = []) then None else Some conn
  end.

Definition selectInitialPreferredConnectionLocked (b : Balancer) : run_ (option Connection * Balancer) :=
  if len (activeIDs b) =? 0 then Ok (None, b)
  else if (strategy b =? BalancingRandom) || (strategy b =? BalancingRoundRobin) || (strategy b =? BalancingRoundRobinDefault)
  then selectTargetByStrategyLocked b
  else
    let! (pool, pick, handled) := strategyCandidatePoolLocked [] b in
    if handled : bool then if len pool =? 0 then selectTargetByStrategyLocked b else pickFromPoolLocked pool pick b
    else
      let! (scorer, hasSignal) := strategyScorerLocked b in
      match scorer with
      | None => selectTargetByStrategyLocked b
      | Some scorer =>
          if negb hasSignal then selectTargetByStrategyLocked b
          else
            let topN := if len (activeIDs b) <? 10 then len (activeIDs b) else 10 in
            let! (pool, b) := selectLowestScoreLocked topN scorer b in
            if len pool =? 0 then selectTargetByStrategyLocked b else pickFromPoolLocked pool poolPickRandom b
      end.

(** The part of [selectAlternateConnectionLocked] after the first attempt. *)
Definition alternate_fallback (excludeKey : bytes) (b : Balancer) : run_ (option Connection * Balancer) :=
  let! (selected, b) := getUniqueConnectionsLocked 1 b in
  match head selected with
  | None => Ok (None, b)
  | Some c => if bool_decide (excludeKey = []) || bool_decide (Key c <> excludeKey) then Ok (Some c, b) else getBestConnectionExcludingLocked excludeKey b
  end.

Definition selectAlternateConnectionLocked (excludeKey : bytes) (b : Balancer) : run_ (option Connection * Balancer) :=
  if bool_decide (excludeKey = []) then alternate_fallback excludeKey b
  else
    let! (replacement, b) := getBestConnectionExcludingLocked excludeKey b in
    match replacement with
    | Some c => Ok (Some c, b)
    | None => alternate_fallback excludeKey b
    end.

(** The resolver of a new stream, or of one whose resolver is gone. *)
Definition select_replacement (state : balancerStreamRouteState) (b : Balancer) : run_ (option Connection * balancerStreamRouteState * Balancer) :=
  let! (replacement, b) :=
    if bool_decide (PreferredResolverKey state = []) then selectInitialPreferredConnectionLocked b
    else selectAlternateConnectionLocked (PreferredResolverKey state) b in
  match replacement with
  | Some c => Ok (Some c, state <| PreferredResolverKey := Key c |> <| ResendStreak := 0 |>, b)
  | None => Ok (None, state, b)
  end.

Definition selectPreferredConnectionForStreamLocked (packetType : Z) (clock : Z) (state : balancerStreamRouteState) (b : Balancer) :
    run_ (option Connection * balancerStreamRouteState * Balancer) :=
  let resend := packetType =? PACKET_STREAM_RESEND in
  let state := if resend then state <| ResendStreak ::= Z.succ |> else state in
  match validPreferredConnectionLocked state b with
  | None => select_replacement state b
  | Some current =>
      if negb resend || (ResendStreak state <? streamFailoverThreshold b) || (clock - LastFailoverAt state <? streamFailoverCooldown b)
      then Ok (Some current, state, b)
      else
        let! (replacement, b) := selectAlternateConnectionLocked (Key current) b in
        match replacement with
        | Some c => Ok (Some c, state <| PreferredResolverKey := Key c |> <| ResendStreak := 0 |> <| LastFailoverAt := clock |>, b)
        | None => Ok (Some current, state, b)
        end
  end.

Definition getUniqueConnectionsExcludingLocked (requiredCount : Z) (excludeKey : bytes) (b : Balancer) : run_ (list Connection * Balancer) :=
  if (requiredCount <=? 0) || (len (activeIDs b) =? 0) then Ok ([], b)
  else
    let! (all, b) := getUniqueConnectionsLocked (requiredCount + 1) b in
    Ok (take (Z.to_nat requiredCount) (filter (fun c => Key c <> excludeKey) all), b).

Definition SelectTargets (packetType streamID requiredCount clock : Z) (b : Balancer) : run_ (list Connection * Balancer) :=
  let requiredCount := normalizeRequiredCount (len (activeIDs b)) requiredCount 1 in
  if requiredCount <=? 0 then Err ErrNoValidConnections
  else if (requiredCount =? 1) || (streamID =? 0) || negb (isBalancerStreamDataLike packetType) then
    let! (selected, b) := getUniqueConnectionsLocked requiredCount b in
    if len selected =? 0 then Err ErrNoValidConnections else Ok (selected, b)
  else match streamRoutes b !! streamID with
  | None => getUniqueConnectionsLocked requiredCount b
  | Some state =>
      let! (preferred, state, b) := selectPreferredConnectionForStreamLocked packetType clock state b in
      let b := b <| streamRoutes ::= <[streamID := state]> |> in
      match preferred with
      | None => getUniqueConnectionsLocked requiredCount b
      | Some preferred =>
          let remaining := requiredCount - 1 in
          if 0 <? remaining then
            let! (others, b) := getUniqueConnectionsExcludingLocked remaining (Key preferred) b in Ok (preferred :: others, b)
          else Ok ([preferred], b)
      end
  end.

(** ** Health checks *)

Fixpoint health_scan (now minInterval start : Z) (js : list nat) (b : Balancer) : run_ (option Connection * Balancer) :=
  match js with
  | [] => Ok (None, b)
  | i :: js =>
      let! idx := at_ (inactiveIDs b) ((start + Z.of_nat i) mod len (inactiveIDs b)) in
      if (idx <? 0) || (len (connections b) <=? idx) then health_scan now minInterval start js b
      else
        let conn := default no_connection (connections b !! Z.to_nat idx) in
        if negb (LastHealthCheckAt conn =? zero_time) && (now - LastHealthCheckAt conn <? minInterval) then health_scan now minInterval start js b
        else Ok (Some (conn <| LastHealthCheckAt := now |>), on_connection idx (fun c => c <| LastHealthCheckAt := now |>) b)
  end.

Definition NextInactiveConnectionForHealthCheck (now minInterval : Z) (b : Balancer) : run_ (option Connection * Balancer) :=
  let n := len (inactiveIDs b) in
  if n =? 0 then Ok (None, b)
  else
    let minInterval := if minInterval <? 0 then 0 else minInterval in
    let counter := wrap64 (healthRRCounter b + 1) in
    let b := b <| healthRRCounter := counter |> in
    health_scan now minInterval (roundRobinStartIndex (wrap64 (counter - 1)) n) (seq 0 (Z.to_nat n)) b.
End Balancer.
