(* ===== verification/BalancerInv.v ===== *)
(** The invariant of the balancer and the theorems on its choices
    (src/masterdns/internal/client/balancer.go, on Balancer.v). *)

From stdpp Require Import base tactics list gmap strings sorting.
From Stdlib Require Import ZArith Lia.
From S2P Require Import Prelude Enums ClientConn Balancer.
Import Balancer.

(** ** Lists *)

Lemma swap_positions_perm {A} i j (l : list A) : swap i j l ≡ₚ l.
Proof.
  unfold swap. destruct (l !! i) as [x |] eqn:Hi; [| done]. destruct (l !! j) as [y |] eqn:Hj; [| done]. by apply Permutation_insert_swap.
Qed.

Lemma swap_lookup {A} i j (l : list A) x y p : l !! i = Some x -> l !! j = Some y ->
  swap i j l !! p = if decide (p = j) then Some x else if decide (p = i) then Some y else l !! p.
Proof.
  intros Hi Hj. unfold swap. rewrite Hi, Hj. apply lookup_lt_Some in Hi as ?. apply lookup_lt_Some in Hj as ?. destruct (decide (p = j)) as [-> | Hpj].
  - by rewrite list_lookup_insert_eq by (by rewrite length_insert).
  - rewrite list_lookup_insert_ne by done. destruct (decide (p = i)) as [-> |]; [by rewrite list_lookup_insert_eq | by rewrite list_lookup_insert_ne].
Qed.

Section minima.
Context {A : Type} (score : A -> Z).

(** [x] has the least score of the positions from [i] to [n - 1]. *)
Definition least (l : list A) (i n : nat) (x : A) : Prop := forall j y, (i <= j < n)%nat -> l !! j = Some y -> score x <= score y.

Lemma min_fold l i k : forall a m x, (i <= a)%nat -> (i <= m < length l)%nat -> (a + k <= length l)%nat -> l !! m = Some x -> least l i a x ->
  let m' := fold_left (fun m j => match l !! j, l !! m with Some x, Some y => if score x <? score y then j else m | _, _ => m end) (seq a k) m in
  (i <= m' < length l)%nat /\ exists x', l !! m' = Some x' /\ least l i (a + k) x'.
Proof.
  induction k as [| k IH]; intros a m x Ha Hm Hk Hx Hl; cbn [seq fold_left]; [split; [done |]; exists x; split; [done |]; by rewrite Nat.add_0_r |].
  destruct (lookup_lt_is_Some_2 l a) as [y Hy]; [lia |]. rewrite Hy, Hx. replace (a + S k)%nat with (S a + k)%nat by lia.
  assert (forall z, score z <= score y -> score z <= score x -> least l i (S a) z) as Hext.
  { intros z H1 H2 j w Hj Hw. destruct (decide (j = a)) as [-> |]; [congruence |]. etrans; [exact H2 |]. apply (Hl j w); [lia | done]. }
  destruct (Z.ltb_spec (score y) (score x)); [apply (IH (S a) a y) | apply (IH (S a) m x)]; (lia || done || (apply Hext; lia)).
Qed.

Lemma min_from_least l i : (i < length l)%nat -> (i <= min_from score i l < length l)%nat /\ exists x, l !! min_from score i l = Some x /\ least l i (length l) x.
Proof.
  intros Hi. destruct (lookup_lt_is_Some_2 l i Hi) as [x Hx]. destruct (min_fold l i (length l - S i) (S i) i x) as (H1 & x' & H2 & H3); [lia | lia | lia | done | |].
  - intros j y Hj. replace j with i by lia. intros Hy. assert (x = y) by congruence. subst. lia.
  - split; [exact H1 |]. exists x'. split; [exact H2 |]. by replace (S i + (length l - S i))%nat with (length l) in H3 by lia.
Qed.

(** The first [k] elements are in order and before all others. *)
Definition sorted_upto (k : nat) (l : list A) : Prop :=
  forall i j x y, (i < k)%nat -> (i <= j)%nat -> l !! i = Some x -> l !! j = Some y -> score x <= score y.

Lemma select_turn k l : (k < length l)%nat -> sorted_upto k l -> sorted_upto (S k) (swap k (min_from score k l) l).
Proof.
  intros Hk Hs. destruct (min_from_least l k Hk) as (Hm & x & Hx & Hl). set (m := min_from score k l) in *. destruct (lookup_lt_is_Some_2 l k Hk) as [z Hz].
  assert (forall j y, (k <= j)%nat -> swap k m l !! j = Some y -> exists p, (k <= p < length l)%nat /\ l !! p = Some y) as Htail.
  { intros j y Hj. rewrite (swap_lookup k m l z x) by done. destruct (decide (j = m)) as [-> |]; [intros [= <-]; by exists k |]. destruct (decide (j = k)) as [-> |]; [intros [= <-]; by exists m |].
    intros Hy. exists j. apply lookup_lt_Some in Hy as ?. done. }
  assert (forall i, (i < k)%nat -> swap k m l !! i = l !! i) as Hhead by (intros i Hi; rewrite (swap_lookup k m l z x) by done; rewrite !decide_False by lia; done).
  intros i j a b Hi Hij Ha Hb. destruct (decide (i = k)) as [-> |].
  - destruct (Htail j b Hij Hb) as (p & Hp & Hpb). rewrite (swap_lookup k m l z x) in Ha by done.
    assert (a = x) as -> by (destruct (decide (k = m)) as [E |]; [rewrite <- E in Hx; congruence | rewrite decide_True in Ha by done; congruence]). by apply (Hl p b).
  - rewrite Hhead in Ha by lia. destruct (decide (j < k)%nat); [rewrite Hhead in Hb by done; eapply (Hs i j); eauto; lia |].
    destruct (Htail j b) as (p & Hp & Hpb); [lia | done |]. eapply (Hs i p); eauto; lia.
Qed.

Lemma select_min_spec l k : (k <= length l)%nat -> select_min score k l ≡ₚ l /\ sorted_upto k (select_min score k l).
Proof.
  unfold select_min. induction k as [| k IH]; intros Hk; [split; [done |]; intros i; lia |]. rewrite seq_S, fold_left_app. cbn [fold_left Nat.add].
  destruct IH as [H1 H2]; [lia |]. split; [by rewrite swap_positions_perm |]. apply select_turn; [| done]. by rewrite (Permutation_length H1).
Qed.
End minima.

(** The elements from the position [start] on, around the end. *)
Definition rotate_list {A} (start : nat) (l : list A) : list A := drop start l ++ take start l.

Lemma rotate_list_perm {A} start (l : list A) : rotate_list start l ≡ₚ l.
Proof. unfold rotate_list. rewrite (Permutation_app_comm _ _). by rewrite take_drop. Qed.

Lemma rotate_lookup {A} start i (l : list A) : (start < length l)%nat -> (i < length l)%nat -> rotate_list start l !! i = l !! ((start + i) mod length l)%nat.
Proof.
  intros Hs Hi. unfold rotate_list. destruct (decide (start + i < length l)%nat).
  - rewrite lookup_app_l by (rewrite length_drop; lia). rewrite lookup_drop, Nat.mod_small by lia. done.
  - rewrite lookup_app_r, length_drop by (rewrite length_drop; lia). rewrite lookup_take_lt by lia. f_equal.
    symmetry. replace (start + i)%nat with (i - (length l - start) + 1 * length l)%nat by lia. rewrite Nat.Div0.mod_add. apply Nat.mod_small. lia.
Qed.

Lemma rotated_ok {A} (l : list A) start js : l <> [] -> (forall i, i ∈ js -> (i < length l)%nat) -> 0 <= start < len l ->
  exists r, rotated l start js = Ok r /\ map Some r = map (fun i => rotate_list (Z.to_nat start) l !! i) js.
Proof.
  intros Hl. induction js as [| i js IH]; intros Hj Hs; cbn [rotated map]; [by exists [] |]. destruct IH as (r & -> & Er); [intros k Hk; apply Hj; by right | done |].
  assert (i < length l)%nat as Hi by (apply Hj; left). unfold len in *. rewrite rotate_lookup by lia.
  destruct (at_ok (E := balancer_error) l ((start + Z.of_nat i) mod Z.of_nat (length l))) as (x & -> & Hx); [unfold len; apply Z.mod_pos_bound; lia |].
  exists (x :: r). split; [done |]. cbn [map]. rewrite Er. f_equal. rewrite <- Hx. f_equal. apply Nat2Z.inj. pose proof (Z.mod_pos_bound (start + Z.of_nat i) (Z.of_nat (length l))). rewrite Nat2Z.inj_mod, Nat2Z.inj_add, !Z2Nat.id by lia. done.
Qed.

Lemma map_Some_seq {A} (r l : list A) k : map Some r = map (fun i => l !! i) (seq 0 k) -> (k <= length l)%nat -> r = take k l.
Proof.
  intros E Hk. assert (length r = k) as Hr by (apply (f_equal length) in E; by rewrite !length_map, length_seq in E).
  apply list_eq. intros i. destruct (decide (i < k)%nat) as [Hi |].
  - apply (f_equal (.!! i)) in E. rewrite !list_lookup_fmap, (lookup_seq_lt 0 k i Hi) in E. cbn in E. rewrite lookup_take_lt by done.
    destruct (r !! i) as [x |] eqn:Ex; cbn in E; congruence.
  - rewrite !lookup_ge_None_2; [done | rewrite length_take; lia | lia].
Qed.

Lemma rotated_take {A} (l : list A) start k : l <> [] -> (k <= length l)%nat -> 0 <= start < len l -> rotated l start (seq 0 k) = Ok (take k (rotate_list (Z.to_nat start) l)).
Proof.
  intros Hl Hk Hs. destruct (rotated_ok l start (seq 0 k) Hl) as (r & -> & Er); [intros i Hi; apply elem_of_seq in Hi; lia | done |]. f_equal. apply map_Some_seq; [done |].
  by rewrite (Permutation_length (rotate_list_perm _ _)).
Qed.

(** ** The table of resolvers *)

Record table_ok (b : Balancer) : Prop := {
  tb_stats : length (stats b) = length (connections b);
  tb_ids : activeIDs b ++ inactiveIDs b ≡ₚ map Z.of_nat (seq 0 (length (connections b)));
  tb_valid : forall i c, connections b !! i = Some c -> IsValid c = bool_decide (Z.of_nat i ∈ activeIDs b);
  tb_keys : forall i c, connections b !! i = Some c -> Key c <> [];
  tb_index : forall k i, indexByKey b !! k = Some i -> 0 <= i /\ exists c, connections b !! Z.to_nat i = Some c /\ Key c = k;
  tb_indexed : forall i c, connections b !! i = Some c -> is_Some (indexByKey b !! Key c)
}.

(** [id] is in use and is the index of [c]. *)
Definition in_use (b : Balancer) (id : Z) (c : Connection) : Prop := id ∈ activeIDs b /\ 0 <= id < len (connections b) /\ connections b !! Z.to_nat id = Some c.

(** [cs] are the resolvers [ids], all in use and different. *)
Definition chosen (b : Balancer) (ids : list Z) (cs : list Connection) : Prop := NoDup ids /\ Forall2 (in_use b) ids cs.

(** Only the counter of the rotation and the random numbers have changed. *)
Definition quiet (b b' : Balancer) : Prop := exists r g, b' = b <| rrCounter := r |> <| rngState := g |>.

Lemma quiet_refl b : quiet b b.
Proof. exists (rrCounter b), (rngState b). by destruct b. Qed.

Lemma quiet_trans b1 b2 b3 : quiet b1 b2 -> quiet b2 b3 -> quiet b1 b3.
Proof. intros (r & g & ->) (r' & g' & ->). by exists r', g'. Qed.

Lemma quiet_advance step b : quiet b (rr_advance step b).2.
Proof. exists (wrap64 (rrCounter b + step)), (rngState b). by destruct b. Qed.

Lemma quiet_random b : quiet b (nextRandom b).2.
Proof. exists (rrCounter b), (xorshift64 (rngState b)). by destruct b. Qed.

Lemma quiet_table b b' : quiet b b' -> table_ok b -> table_ok b'.
Proof. intros (r & g & ->) []. by split. Qed.

Lemma quiet_chosen b b' ids cs : quiet b b' -> chosen b' ids cs -> chosen b ids cs.
Proof. intros (r & g & ->) H. exact H. Qed.

#[local] Hint Resolve quiet_refl quiet_advance quiet_random : core.

Section table.
Context (b : Balancer) (Hb : table_ok b).

Lemma ids_range i : i ∈ activeIDs b \/ i ∈ inactiveIDs b <-> 0 <= i < len (connections b).
Proof.
  rewrite <- elem_of_app, (tb_ids _ Hb). rewrite list_elem_of_fmap. unfold len. split.
  - intros (n & -> & Hn%elem_of_seq). lia.
  - intros Hi. exists (Z.to_nat i). split; [lia |]. apply elem_of_seq. lia.
Qed.

Lemma ids_NoDup : NoDup (activeIDs b ++ inactiveIDs b).
Proof. rewrite (tb_ids _ Hb). apply NoDup_fmap; [apply _ | apply NoDup_seq]. Qed.

Lemma active_NoDup : NoDup (activeIDs b).
Proof. pose proof ids_NoDup as H. by apply NoDup_app in H as (? & _). Qed.

Lemma active_in_use i : i ∈ activeIDs b -> exists c, in_use b i c /\ at_ (E := balancer_error) (connections b) i = Ok c /\ IsValid c = true /\ Key c <> [].
Proof.
  intros Hi. assert (0 <= i < len (connections b)) as Hr by (apply ids_range; by left). destruct (at_ok (E := balancer_error) (connections b) i Hr) as (c & Ha & Hc).
  exists c. split; [exact (conj Hi (conj Hr Hc)) |]. split; [done |]. split; [| by eapply tb_keys]. rewrite (tb_valid _ Hb _ _ Hc). rewrite Z2Nat.id by lia. by apply bool_decide_eq_true.
Qed.

Lemma connections_chosen ids : NoDup ids -> (forall i, i ∈ ids -> i ∈ activeIDs b) -> exists cs, connections_at ids b = Ok cs /\ chosen b ids cs /\ connectionsByIndicesLocked ids b = cs.
Proof.
  induction ids as [| i ids IH]; intros Hn Hi; [exists []; split; [done |]; split; [| done]; split; constructor |]. apply NoDup_cons in Hn as [Hni Hn].
  destruct (active_in_use i) as (c & Hc & Ha & _); [apply Hi; left |]. destruct IH as (cs & E & [H1 H2] & Ec); [done | intros j Hj; apply Hi; by right |].
  exists (c :: cs). cbn [connections_at]. rewrite Ha, E. split; [done |]. split; [split; [by constructor | by constructor] |].
  unfold connectionsByIndicesLocked in *. cbn [map]. rewrite Ec. f_equal. destruct Hc as (_ & Hr & ->). rewrite (proj2 (Z.ltb_ge _ _)), (proj2 (Z.leb_gt _ _)) by lia. done.
Qed.

Lemma rotatedActive_ok step : exists ordered b', rotatedActiveIndicesLocked step b = Ok (ordered, b') /\ quiet b b' /\ ordered ≡ₚ activeIDs b.
Proof.
  unfold rotatedActiveIndicesLocked. destruct (Z.eqb_spec (len (activeIDs b)) 0) as [Hz | Hz].
  - exists [], b. split; [done |]. split; [done |]. unfold len in Hz. by rewrite (nil_length_inv (activeIDs b)) by lia.
  - set (s := if step <? 1 then 1 else step). pose proof (quiet_advance s b) as Hq. destruct (rr_advance s b) as [counter b'] eqn:E. cbn [snd] in Hq.
    assert (activeIDs b' = activeIDs b) as Ea by (destruct Hq as (r & g & ->); done). rewrite Ea. unfold roundRobinStartIndex. pose proof (len_nonneg (activeIDs b)).
    rewrite (proj2 (Z.leb_gt _ _)) by lia. rewrite rotated_take; [| intros E'; by rewrite E' in Hz | lia | apply Z.mod_pos_bound; lia]. cbn [obind].
    eexists _, b'. split; [done |]. split; [done |]. rewrite take_ge by (by rewrite (Permutation_length (rotate_list_perm _ _))). apply rotate_list_perm.
Qed.

Lemma other_indices_ok excludeKey ids : (forall i, i ∈ ids -> i ∈ activeIDs b) -> exists ids', other_indices excludeKey ids b = Ok ids' /\ sublist ids' ids /\
  forall i, i ∈ ids' <-> i ∈ ids /\ forall c, connections b !! Z.to_nat i = Some c -> Key c <> excludeKey.
Proof.
  induction ids as [| i ids IH]; intros Hi; cbn [other_indices].
  - exists []. split; [done |]. split; [done |]. intros i. set_solver.
  - destruct (active_in_use i) as (c & (_ & _ & Hc) & -> & _); [apply Hi; left |]. destruct IH as (ids' & -> & Hs & Hin); [intros j Hj; apply Hi; by right |]. cbn [obind].
    eexists. split; [done |]. case_bool_decide as Hk; [split; [by constructor |] | split; [by constructor |]]; intros j; rewrite ?elem_of_cons, Hin.
    + split; [tauto |]. intros [[-> | Hj] Hne]; [by destruct (Hne c Hc) | done].
    + split; [| tauto]. intros [-> | [Hj Hne]]; [| tauto]. split; [by left |]. intros c' Hc'. congruence.
Qed.
End table.

(** ** What the functions choose *)

(** The call returns the resolvers [ids], with [P]. *)
Definition picks (b : Balancer) (r : outcome balancer_error (list Connection * Balancer)) (P : list Z -> Prop) : Prop :=
  exists ids cs b', r = Ok (cs, b') /\ quiet b b' /\ chosen b ids cs /\ P ids.

(** The call returns a resolver with [P], or none when [N]. *)
Definition pick (b : Balancer) (r : outcome balancer_error (option Connection * Balancer)) (P : Z -> Connection -> Prop) (N : Prop) : Prop :=
  exists o b', r = Ok (o, b') /\ quiet b b' /\ match o with Some c => exists i, in_use b i c /\ P i c | None => N end.

Lemma picks_mono b r (P Q : list Z -> Prop) : picks b r P -> (forall ids, P ids -> Q ids) -> picks b r Q.
Proof. intros (ids & cs & b' & H1 & H2 & H3 & H4) H. exists ids, cs, b'. auto. Qed.

Lemma pick_mono b r (P Q : Z -> Connection -> Prop) (N M : Prop) : pick b r P N -> (forall i c, P i c -> Q i c) -> (N -> M) -> pick b r Q M.
Proof. intros (o & b' & H1 & H2 & H3) HP HN. exists o, b'. split; [done |]. split; [done |]. destruct o; [destruct H3 as (i & H4 & H5); exists i; auto | auto]. Qed.

Lemma picks_quiet b b1 r P : quiet b b1 -> picks b1 r P -> picks b r P.
Proof.
  intros Hq (ids & cs & b' & H1 & H2 & H3 & H4). exists ids, cs, b'. split; [done |]. split; [by eapply quiet_trans |]. split; [by eapply quiet_chosen | done].
Qed.

Lemma pick_quiet b b1 r P N : quiet b b1 -> pick b1 r P N -> pick b r P N.
Proof.
  intros Hq (o & b' & H1 & H2 & H3). exists o, b'. split; [done |]. split; [by eapply quiet_trans |]. by destruct Hq as (? & ? & ->).
Qed.

Lemma best_scored_ok scorer ids : forall best bestScore, (best = -1 \/ bestScore = scorer best /\ best <> -1) -> -1 ∉ ids -> (best <> -1 \/ ids <> []) ->
  let r := best_scored scorer ids best bestScore in (r ∈ ids \/ r = best) /\ r <> -1 /\ (forall j, j ∈ ids -> scorer r <= scorer j) /\ (best = -1 \/ scorer r <= scorer best).
Proof.
  induction ids as [| i ids IH]; intros best bestScore Hbest Hi Hne; cbn [best_scored].
  - split; [by right |]. split; [by destruct Hne |]. split; [set_solver | right; lia].
  - apply not_elem_of_cons in Hi as [Hi1 Hi2]. destruct ((best =? -1) || (scorer i <? bestScore)) eqn:E.
    + destruct (IH i (scorer i)) as (H1 & H2 & H3 & H4); [right; split; [done | congruence] | done | left; congruence |].
      assert (scorer (best_scored scorer ids i (scorer i)) <= scorer i) as H5 by (destruct H4 as [-> |]; [congruence | done]).
      split; [set_solver |]. split; [done |]. split; [intros j [-> | Hj]%elem_of_cons; [done | by apply H3] |].
      destruct Hbest as [-> | [-> Hb1]]; [by left |]. right. zbool. destruct E as [E | E]; zbool; [done | lia].
    + zbool. destruct Hbest as [-> | [-> Hb1]]; [done |]. destruct (IH best (scorer best)) as (H1 & H2 & H3 & H4); [by right | done | by left |].
      assert (scorer (best_scored scorer ids best (scorer best)) <= scorer best) as H5 by (by destruct H4).
      split; [set_solver |]. split; [done |]. split; [intros j [-> | Hj]%elem_of_cons; [lia | by apply H3] | by right].
Qed.

Section selection.
Context (b : Balancer) (Hb : table_ok b) (Hn : activeIDs b <> []).

Lemma active_pos : 0 < len (activeIDs b).
Proof. unfold len. destruct (activeIDs b); [done | cbn; lia]. Qed.

Lemma start_range counter : 0 <= roundRobinStartIndex counter (len (activeIDs b)) < len (activeIDs b).
Proof. pose proof active_pos. unfold roundRobinStartIndex. rewrite (proj2 (Z.leb_gt _ _)) by lia. apply Z.mod_pos_bound. lia. Qed.

(** Some of a rearrangement of the active indices. *)
Lemma sub_ids ids l : sublist ids l -> l ≡ₚ activeIDs b -> NoDup ids /\ forall i, i ∈ ids -> i ∈ activeIDs b.
Proof.
  intros Hs Hp. split; [eapply sublist_NoDup; [| exact Hs]; rewrite Hp; by apply active_NoDup |]. intros i Hi. rewrite <- Hp. by eapply elem_of_sublist.
Qed.

Lemma selectRoundRobin_ok count : 1 <= count <= len (activeIDs b) -> picks b (selectRoundRobinLocked count b) (fun ids => len ids = count).
Proof.
  intros Hc. unfold selectRoundRobinLocked. pose proof (quiet_advance count b) as Hq. destruct (rr_advance count b) as [counter b'] eqn:E. cbn [snd] in Hq.
  assert (activeIDs b' = activeIDs b) as Ea by (destruct Hq as (? & ? & ->); done). rewrite Ea. rewrite rotated_take; [| done | unfold len in *; lia | apply start_range].
  set (l := rotate_list _ _). pose proof (rotate_list_perm (Z.to_nat (roundRobinStartIndex counter (len (activeIDs b)))) (activeIDs b)) as Hp. fold l in Hp.
  destruct (sub_ids (take (Z.to_nat count) l) l) as [H1 H2]; [apply sublist_take | done |]. cbn [obind].
  destruct (connections_chosen b' (quiet_table _ _ Hq Hb) (take (Z.to_nat count) l)) as (cs & -> & Hch & _); [done | by rewrite Ea |]. cbn [obind].
  eexists _, cs, b'. split; [done |]. split; [done |]. split; [by eapply quiet_chosen |]. unfold len in *. rewrite length_take, (Permutation_length Hp). lia.
Qed.

Lemma random_range r n : 0 < n -> 0 <= r mod n < n.
Proof. intros. by apply Z.mod_pos_bound. Qed.

Lemma shuffle_ok turns : forall i indices b1, (i + turns <= length indices)%nat -> exists l b', shuffle turns i indices b1 = (l, b') /\ l ≡ₚ indices /\ quiet b1 b'.
Proof.
  induction turns as [| turns IH]; intros i indices b1 Hi; cbn [shuffle]; [by exists indices, b1 |]. pose proof (quiet_random b1) as Hq. destruct (nextRandom b1) as [r b2]. cbn [snd] in Hq.
  destruct (IH (S i) (swap i (i + Z.to_nat (r mod (len indices - Z.of_nat i)))%nat indices) b2) as (l & b' & -> & Hp & Hq').
  { rewrite (Permutation_length (swap_positions_perm _ _ _)). lia. }
  exists l, b'. split; [done |]. split; [by rewrite Hp, swap_positions_perm | by eapply quiet_trans].
Qed.

(** A position of the active list gives a resolver in use. *)
Lemma at_active pos b' : quiet b b' -> 0 <= pos < len (activeIDs b) ->
  exists i c, at_ (E := balancer_error) (activeIDs b') pos = Ok i /\ at_ (E := balancer_error) (connections b') i = Ok c /\ in_use b i c.
Proof.
  intros (r & g & ->) Hp. destruct (at_ok (E := balancer_error) (activeIDs b) pos Hp) as (i & Hi & Hl). destruct (active_in_use b Hb i) as (c & Hc & Ha & _); [by eapply list_elem_of_lookup_2 |].
  exists i, c. done.
Qed.

Lemma singleton_chosen b' i c : in_use b' i c -> chosen b' [i] [c].
Proof. intros Hi. split; [apply NoDup_singleton | by constructor]. Qed.

Lemma selectRandom_ok count : 1 <= count <= len (activeIDs b) -> picks b (selectRandomLocked count b) (fun ids => len ids = count).
Proof.
  intros Hc. unfold selectRandomLocked. rewrite (proj2 (Z.leb_gt _ _)), (proj2 (Z.eqb_neq (len (activeIDs b)) 0)) by lia. cbn [orb]. destruct (Z.eqb_spec count 1) as [-> | Hne].
  - pose proof (quiet_random b) as Hq. destruct (nextRandom b) as [r b']. cbn [snd] in Hq. destruct (at_active (r mod len (activeIDs b)) b' Hq) as (i & c & -> & E & Hi); [apply random_range; lia |].
    cbn [obind]. rewrite E. eexists [i], [c], b'. split; [done |]. split; [done |]. split; [by apply singleton_chosen | done].
  - destruct (shuffle_ok (Z.to_nat count) 0 (activeIDs b) b) as (l & b' & -> & Hp & Hq); [unfold len in *; lia |].
    assert (len l = len (activeIDs b)) as Hll by (unfold len; by rewrite (Permutation_length Hp)). rewrite slice_ok by lia. cbn [obind]. rewrite Z.sub_0_r, drop_0.
    destruct (sub_ids (take (Z.to_nat count) l) l) as [H1 H2]; [apply sublist_take | done |].
    destruct (connections_chosen b' (quiet_table _ _ Hq Hb) (take (Z.to_nat count) l)) as (cs & _ & Hch & ->); [done | by destruct Hq as (? & ? & ->) |].
    eexists _, cs, b'. split; [done |]. split; [done |]. split; [by eapply quiet_chosen |]. unfold len in *. rewrite length_take. lia.
Qed.

End selection.

(** No resolver in use but [excludeKey]. *)
Definition only (b : Balancer) (excludeKey : bytes) : Prop := forall i c, in_use b i c -> Key c = excludeKey.

Section choices.
Context (b : Balancer) (Hb : table_ok b) (Hn : activeIDs b <> []).

Lemma active_not_neg i : i ∈ activeIDs b -> i <> -1.
Proof. intros Hi. assert (0 <= i < len (connections b)) by (apply ids_range; [done | by left]). lia. Qed.

Lemma best_connection_ok b' i : quiet b b' -> i ∈ activeIDs b -> exists c, best_connection i b' = Ok (Some c, b') /\ in_use b i c.
Proof.
  intros (r & g & ->) Hi. destruct (active_in_use b Hb i Hi) as (c & Hc & Ha & _). exists c. split; [| done]. unfold best_connection.
  rewrite (proj2 (Z.ltb_ge _ _)) by (destruct Hc; lia). cbn [connections]. change (connections _) with (connections b). by rewrite Ha.
Qed.

Lemma bestScored_ok scorer : pick b (bestScoredConnectionLocked scorer b) (fun i _ => forall j, j ∈ activeIDs b -> scorer i <= scorer j) False.
Proof.
  unfold bestScoredConnectionLocked. destruct (rotatedActive_ok b 1) as (ordered & b' & -> & Hq & Hp). cbn [obind].
  destruct (best_scored_ok scorer ordered (-1) 0) as (H1 & H2 & H3 & _); [by left | intros H; rewrite Hp in H; by apply active_not_neg in H | right; intros ->; by apply Permutation_nil_l in Hp |].
  set (i := best_scored _ _ _ _) in *. clearbody i. destruct H1 as [H1 |]; [| done]. rewrite Hp in H1. destruct (best_connection_ok b' _ Hq H1) as (c & -> & Hc).
  eexists _, b'. split; [done |]. split; [done |]. eexists. split; [done |]. intros j Hj. apply H3. by rewrite Hp.
Qed.

Lemma bestScoredExcluding_ok scorer excludeKey : pick b (bestScoredConnectionExcludingLocked scorer excludeKey b)
  (fun i c => Key c <> excludeKey /\ forall j c', in_use b j c' -> Key c' <> excludeKey -> scorer i <= scorer j) (only b excludeKey).
Proof.
  unfold bestScoredConnectionExcludingLocked. destruct (rotatedActive_ok b 1) as (ordered & b' & -> & Hq & Hp). cbn [obind].
  destruct (other_indices_ok b' (quiet_table _ _ Hq Hb) excludeKey ordered) as (ids & -> & Hs & Hin); [intros i Hi; rewrite Hp in Hi; by destruct Hq as (? & ? & ->) |]. cbn [obind].
  assert (connections b' = connections b) as Ec by (by destruct Hq as (? & ? & ->)). rewrite Ec in Hin.
  destruct (decide (ids = [])) as [-> | Hne].
  - eexists None, b'. split; [done |]. split; [done |]. intros i c (Hi & _ & Hc). destruct (decide (Key c = excludeKey)) as [| Hk]; [done |].
    assert (i ∈ @nil Z) as []%not_elem_of_nil. apply Hin. rewrite Hp. split; [done |]. intros c' Hc'. congruence.
  - assert (forall i, i ∈ ids -> i ∈ activeIDs b) as Hsub by (intros i [Hi _]%Hin; by rewrite <- Hp).
    destruct (best_scored_ok scorer ids (-1) 0) as (H1 & H2 & H3 & _); [by left | intros H; by apply Hsub, active_not_neg in H | by right |].
    destruct H1 as [H1 |]; [| done]. destruct (best_connection_ok b' _ Hq (Hsub _ H1)) as (c & -> & Hc).
    eexists _, b'. split; [done |]. split; [done |]. eexists. split; [done |]. apply Hin in H1 as [_ H1]. split; [apply H1, Hc |].
    intros j c' (Hj & _ & Hc') Hk. apply H3, Hin. rewrite Hp. split; [done |]. intros c'' E. congruence.
Qed.

Lemma selectLowest_ok count scorer : 1 <= count <= len (activeIDs b) ->
  picks b (selectLowestScoreLocked count scorer b) (fun ids => len ids = count /\ forall i j, i ∈ ids -> j ∈ activeIDs b -> j ∉ ids -> scorer i <= scorer j).
Proof.
  intros Hc. unfold selectLowestScoreLocked. rewrite (proj2 (Z.leb_gt _ _)), (proj2 (Z.eqb_neq (len (activeIDs b)) 0)) by lia. cbn [orb]. destruct (Z.eqb_spec count 1) as [-> | Hne].
  - destruct (bestScored_ok scorer) as (o & b' & -> & Hq & Ho). cbn [obind]. destruct o as [c |]; [| done]. destruct Ho as (i & Hi & Hmin).
    eexists [i], [c], b'. split; [done |]. split; [done |]. split; [by apply singleton_chosen |]. split; [done |]. intros i' j ->%list_elem_of_singleton Hj _. by apply Hmin.
  - destruct (rotatedActive_ok b count) as (ordered & b' & -> & Hq & Hp). cbn [obind]. rewrite Z.min_l by lia. set (l := map (fun idx => (idx, scorer idx)) ordered).
    assert (length l = length (activeIDs b)) as Hl by (unfold l; by rewrite length_map, (Permutation_length Hp)).
    destruct (select_min_spec snd l (Z.to_nat count)) as [Hs Ht]; [unfold len in *; lia |]. set (sl := select_min snd (Z.to_nat count) l) in *.
    assert (len sl = len (activeIDs b)) as Hsl by (unfold len; by rewrite (Permutation_length Hs), Hl). rewrite slice_ok by lia. cbn [obind]. rewrite Z.sub_0_r, drop_0.
    assert (map fst sl ≡ₚ activeIDs b) as Hf by (rewrite Hs; unfold l; rewrite map_map; cbn [fst]; by rewrite map_id).
    assert (forall q, q ∈ sl -> q.2 = scorer q.1) as Hsc by (intros q Hq'; rewrite Hs in Hq'; by apply list_elem_of_fmap in Hq' as (i & -> & _)).
    destruct (sub_ids b Hb (map fst (take (Z.to_nat count) sl)) (map fst sl)) as [H1 H2]; [by apply (fmap_sublist fst), sublist_take | done |].
    destruct (connections_chosen b' (quiet_table _ _ Hq Hb) (map fst (take (Z.to_nat count) sl))) as (cs & _ & Hch & ->); [done | by destruct Hq as (? & ? & ->) |].
    eexists _, cs, b'. split; [done |]. split; [done |]. split; [by eapply quiet_chosen |]. split; [unfold len in *; rewrite length_map, length_take; lia |].
    intros i j Hi Hj Hnj. rewrite <- Hf in Hj. apply list_elem_of_fmap in Hi as (q & -> & Hq1), Hj as (q' & -> & Hq2). apply list_elem_of_lookup in Hq1 as [p Hp1]. apply list_elem_of_lookup in Hq2 as [p' Hp2].
    assert (p < Z.to_nat count)%nat as Hpc by (apply lookup_lt_Some in Hp1; rewrite length_take in Hp1; lia). rewrite lookup_take_lt in Hp1 by done.
    destruct (decide (p' < Z.to_nat count)%nat) as [Hp' | Hp']; [destruct Hnj; apply list_elem_of_fmap; exists q'; split; [done |]; apply (list_elem_of_lookup_2 _ p'); by rewrite lookup_take_lt |].
    rewrite <- (Hsc q), <- (Hsc q') by (by eapply list_elem_of_lookup_2). by apply (Ht p p'); [done | lia | |].
Qed.

Lemma first_other_ok excludeKey ids : (forall i, i ∈ ids -> i ∈ activeIDs b) -> exists o, first_other excludeKey ids b = Ok o /\
  match o with Some c => exists i, in_use b i c /\ Key c <> excludeKey | None => forall i c, i ∈ ids -> in_use b i c -> Key c = excludeKey end.
Proof.
  induction ids as [| i ids IH]; intros Hi; cbn [first_other]; [exists None; split; [done |]; set_solver |].
  destruct (active_in_use b Hb i) as (c & Hc & -> & _); [apply Hi; left |]. cbn [obind]. case_bool_decide as Hk.
  - destruct IH as (o & -> & Ho); [intros j Hj; apply Hi; by right |]. exists o. split; [done |]. destruct o as [c' |]; [done |]. intros j c' [-> | Hj]%elem_of_cons Hc'; [| by eapply Ho].
    destruct Hc as (_ & _ & Hc), Hc' as (_ & _ & Hc'). congruence.
  - exists (Some c). split; [done |]. by exists i.
Qed.

Lemma rotated_first excludeKey : pick b (let! (ordered, b') := rotatedActiveIndicesLocked 1 b in let! c := first_other excludeKey ordered b' in Ok (c, b')) (fun _ c => Key c <> excludeKey) (only b excludeKey).
Proof.
  destruct (rotatedActive_ok b 1) as (ordered & b' & -> & Hq & Hp). cbn [obind].
  assert (first_other excludeKey ordered b' = first_other excludeKey ordered b) as -> by (destruct Hq as (r & g & ->); clear; induction ordered as [| i l IH]; [done |]; cbn [first_other]; by rewrite IH).
  destruct (first_other_ok excludeKey ordered) as (o & -> & Ho); [intros i Hi; by rewrite Hp in Hi |]. exists o, b'. split; [done |]. split; [done |]. destruct o; [done |].
  intros i c Hi. apply (Ho i); [rewrite Hp; apply Hi | done].
Qed.

Lemma roundRobinExcluding_ok excludeKey : pick b (roundRobinBestConnectionExcludingLocked excludeKey b) (fun _ c => Key c <> excludeKey) (only b excludeKey).
Proof. unfold roundRobinBestConnectionExcludingLocked. pose proof (active_pos b Hn). rewrite (proj2 (Z.eqb_neq _ 0)) by lia. apply rotated_first. Qed.

Lemma roundRobinBest_ok : pick b (roundRobinBestConnectionLocked b) (fun _ _ => True) False.
Proof.
  unfold roundRobinBestConnectionLocked. pose proof (active_pos b Hn). rewrite (proj2 (Z.eqb_neq _ 0)) by lia. pose proof (quiet_advance 1 b) as Hq. destruct (rr_advance 1 b) as [counter b']. cbn [snd] in Hq.
  assert (activeIDs b' = activeIDs b) as Ea by (by destruct Hq as (? & ? & ->)).
  destruct (at_active b Hb (roundRobinStartIndex counter (len (activeIDs b))) b' Hq) as (i & c & E1 & E2 & Hi); [by apply start_range |]. rewrite Ea in *. rewrite E1. cbn [obind]. rewrite E2.
  eexists _, b'. split; [done |]. split; [done |]. by exists i.
Qed.
End choices.

(** ** Pools *)

(** A strategy that chooses from a pool. *)
Definition pooled (b : Balancer) : bool := (6 <=? strategy b) && (strategy b <=? 8).

Section pools.
Context (b : Balancer) (Hb : table_ok b).

Lemma any_stats_ok test ids : (forall i, i ∈ ids -> i ∈ activeIDs b) -> exists r, any_stats test ids b = Ok r.
Proof.
  induction ids as [| i ids IH]; intros Hi; cbn [any_stats]; [by exists false |]. assert (0 <= i < len (connections b)) as Hr by (apply ids_range; [done |]; left; apply Hi; left).
  destruct (at_ok (E := balancer_error) (stats b) i) as (s & -> & _); [unfold len in *; by rewrite (tb_stats _ Hb) |]. cbn [obind]. destruct (test s); [by exists true |]. apply IH. intros j Hj. apply Hi. by right.
Qed.

Lemma loss_signal : exists r, hasLossSignalLocked b = Ok r.
Proof. by apply any_stats_ok. Qed.

Lemma latency_signal : exists r, hasLatencySignalLocked b = Ok r.
Proof. by apply any_stats_ok. Qed.

Lemma hybrid_signal : exists r, hasHybridSignalLocked b = Ok r.
Proof. unfold hasHybridSignalLocked. destruct loss_signal as ([] & ->); [by exists true |]. apply latency_signal. Qed.

Lemma scorer_ok : exists o r, strategyScorerLocked b = Ok (o, r) /\ (strategy b < 3 \/ 5 < strategy b -> o = None).
Proof.
  unfold strategyScorerLocked, BalancingLeastLoss, BalancingLowestLatency, BalancingHybridScore. destruct loss_signal as (r1 & ->), latency_signal as (r2 & ->), hybrid_signal as (r3 & ->). cbn [obind].
  repeat (case_if; zbool; [eexists _, _; split; [done |]; lia |]). by eexists _, _.
Qed.

Definition keys_not (excludeKey : bytes) (cs : list Connection) : Prop := Forall (fun c => Key c <> excludeKey) cs.

Lemma candidate_ids_ok excludeKey : exists ids, candidate_ids excludeKey b = Ok ids /\ sublist ids (activeIDs b) /\
  forall i, i ∈ ids -> forall c, connections b !! Z.to_nat i = Some c -> Key c <> excludeKey.
Proof.
  unfold candidate_ids. case_bool_decide as He.
  - exists (activeIDs b). split; [done |]. split; [done |]. intros i Hi c Hc. rewrite He. by eapply tb_keys.
  - destruct (other_indices_ok b Hb excludeKey (activeIDs b)) as (ids & -> & Hs & Hin); [done |]. exists ids. split; [done |]. split; [done |]. intros i Hi. by apply Hin.
Qed.

(** A part of the candidates, in any order. *)
Lemma candidates_chosen excludeKey (ids l : list Z) : (forall i, i ∈ ids -> forall c, connections b !! Z.to_nat i = Some c -> Key c <> excludeKey) ->
  NoDup l -> (forall i, i ∈ l -> i ∈ ids /\ i ∈ activeIDs b) -> exists cs, connections_at l b = Ok cs /\ chosen b l cs /\ keys_not excludeKey cs.
Proof.
  intros Hk Hn Hl. destruct (connections_chosen b Hb l Hn) as (cs & -> & Hc & _); [intros i Hi; by apply Hl |]. exists cs. split; [done |]. split; [done |].
  destruct Hc as [_ Hc]. apply Forall_forall. intros c Hin. apply list_elem_of_lookup in Hin as [p Hp]. destruct (Forall2_lookup_r _ _ _ _ _ Hc Hp) as (i & Hi & _ & _ & Hic).
  apply (Hk i); [apply Hl; by eapply list_elem_of_lookup_2 | done].
Qed.

Lemma empty_chosen excludeKey : chosen b [] [] /\ keys_not excludeKey [].
Proof. split; [split; constructor | constructor]. Qed.

Lemma lossThenLatency_ok excludeKey : exists ids cs, lossThenLatencyCandidatesLocked excludeKey b = Ok cs /\ chosen b ids cs /\ keys_not excludeKey cs.
Proof.
  unfold lossThenLatencyCandidatesLocked. destruct hybrid_signal as (r & ->). cbn [obind]. destruct (negb r || _); [exists [], []; split; [done |]; apply empty_chosen |].
  destruct (candidate_ids_ok excludeKey) as (ids & -> & Hs & Hk). cbn [obind]. case_if; [exists [], []; split; [done |]; apply empty_chosen |]. cbv zeta.
  assert (NoDup ids) as Hn by (eapply sublist_NoDup; [by apply active_NoDup | done]). assert (forall i, i ∈ ids -> i ∈ activeIDs b) as Hsub by (intros i Hi; by eapply elem_of_sublist).
  match goal with |- context [filter ?P ids] => set (short := filter P ids) end. assert (NoDup short) as Hns by (by apply NoDup_filter).
  assert (forall i, i ∈ short -> i ∈ ids /\ i ∈ activeIDs b) as Hss by (intros i [_ Hi]%list_elem_of_filter; auto).
  destruct short as [| first short'] eqn:Es; [exists [], []; split; [done |]; apply empty_chosen |]. rewrite <- Es in *. assert (first ∈ short) as Hfirst by (rewrite Es; left). clear Es.
  match goal with |- context [filter ?P ?l] => destruct (filter P l) as [| x sel] eqn:Ef end.
  - destruct (candidates_chosen excludeKey ids [first] Hk) as (cs & E & H1 & H2); [apply NoDup_singleton | intros i ->%list_elem_of_singleton; by apply Hss |]. by exists [first], cs.
  - rewrite <- Ef. match type of Ef with ?l = _ => destruct (candidates_chosen excludeKey ids l Hk) as (cs & E & H1 & H2); [by apply NoDup_filter | intros i [_ Hi]%list_elem_of_filter; by apply Hss |]; exists l, cs end. done.
Qed.

Lemma leastLossTop_ok excludeKey : exists ids cs, leastLossTopTierCandidatesLocked excludeKey b = Ok cs /\ chosen b ids cs /\ keys_not excludeKey cs.
Proof.
  unfold leastLossTopTierCandidatesLocked. destruct loss_signal as (r & ->). cbn [obind]. destruct (negb r || _); [exists [], []; split; [done |]; apply empty_chosen |].
  destruct (candidate_ids_ok excludeKey) as (ids & -> & Hs & Hk). cbn [obind]. case_if; [exists [], []; split; [done |]; apply empty_chosen |]. cbv zeta.
  assert (NoDup ids) as Hn by (eapply sublist_NoDup; [by apply active_NoDup | done]). set (top := if len ids <? _ then _ else _).
  assert (Z.to_nat top <= length ids)%nat as Ht by (unfold top, len in *; case_if; zbool; lia). destruct (select_min_spec (lossScoreLocked b) ids (Z.to_nat top) Ht) as [Hp _].
  set (l := select_min _ _ _) in *. destruct (candidates_chosen excludeKey ids (take (Z.to_nat top) l) Hk) as (cs & E & H1 & H2).
  - eapply sublist_NoDup; [| apply sublist_take]. by rewrite Hp.
  - intros i Hi. assert (i ∈ ids) as Hi' by (rewrite <- Hp; eapply elem_of_sublist; [exact Hi | apply sublist_take]). split; [done |]. by eapply elem_of_sublist.
  - by eexists _, cs.
Qed.

Lemma pool_ok excludeKey : exists ids pool p, strategyCandidatePoolLocked excludeKey b = Ok (pool, p, pooled b) /\ chosen b ids pool /\ keys_not excludeKey pool.
Proof.
  unfold strategyCandidatePoolLocked, pooled, BalancingLossThenLatency, BalancingLeastLossTopRandom, BalancingLeastLossTopRoundRobin. destruct loss_signal as (r1 & ->), hybrid_signal as (r2 & ->).
  destruct (lossThenLatency_ok excludeKey) as (ids1 & cs1 & -> & H1), (leastLossTop_ok excludeKey) as (ids2 & cs2 & -> & H2). cbn [obind].
  destruct (Z.eqb_spec (strategy b) 6) as [-> |]; [destruct r2; cbn [negb obind]; [by eexists _, _, _ | exists [], [], poolPickRandom; split; [done |]; apply empty_chosen] |].
  destruct (Z.eqb_spec (strategy b) 7) as [-> |]; [destruct r1; cbn [negb obind]; [by eexists _, _, _ | exists [], [], poolPickRandom; split; [done |]; apply empty_chosen] |].
  destruct (Z.eqb_spec (strategy b) 8) as [-> |]; [destruct r1; cbn [negb obind]; [by eexists _, _, _ | exists [], [], poolPickRoundRobin; split; [done |]; apply empty_chosen] |].
  exists [], [], poolPickRandom. split; [| apply empty_chosen]. do 2 f_equal. symmetry. apply andb_false_iff. destruct (Z.leb_spec 6 (strategy b)); [right; apply Z.leb_gt; lia | by left].
Qed.

Lemma pickFromPool_ok (P : Connection -> Prop) pool p ids : chosen b ids pool -> Forall P pool -> pool <> [] -> pick b (pickFromPoolLocked pool p b) (fun _ c => P c) False.
Proof.
  intros [_ Hc] HP Hne. assert (0 < len pool) as Hl by (unfold len; destruct pool; [done | cbn; lia]). unfold pickFromPoolLocked. rewrite (proj2 (Z.eqb_neq _ 0)) by lia.
  assert (forall pos b', quiet b b' -> 0 <= pos < len pool -> pick b (let! c := at_ pool pos in Ok (Some c, b')) (fun _ c => P c) False) as Hat.
  { intros pos b' Hq Hpos. destruct (at_ok (E := balancer_error) pool pos Hpos) as (c & -> & Hpc). cbn [obind]. exists (Some c), b'. split; [done |]. split; [done |].
    destruct (Forall2_lookup_r _ _ _ _ _ Hc Hpc) as (i & _ & Hi). exists i. split; [done |]. rewrite Forall_lookup in HP. by eapply HP. }
  destruct p.
  - pose proof (quiet_random b) as Hq. destruct (nextRandom b) as [r b']. apply Hat; [done |]. by apply Z.mod_pos_bound.
  - pose proof (quiet_advance 1 b) as Hq. destruct (rr_advance 1 b) as [counter b']. apply Hat; [done |]. unfold roundRobinStartIndex. rewrite (proj2 (Z.leb_gt _ _)) by lia. by apply Z.mod_pos_bound.
Qed.

Lemma chosen_perm ids cs cs' : chosen b ids cs -> cs' ≡ₚ cs -> exists ids', chosen b ids' cs' /\ ids' ≡ₚ ids.
Proof.
  intros [H1 H2] Hp. symmetry in Hp. apply Forall2_flip in H2. destruct (Permutation.Permutation_Forall2 Hp H2) as (ids' & H3 & H4). exists ids'. split; [split; [by rewrite <- H3 | by apply Forall2_flip] | done].
Qed.

Lemma chosen_take n ids cs : chosen b ids cs -> chosen b (take n ids) (take n cs).
Proof. intros [H1 H2]. split; [eapply sublist_NoDup; [exact H1 | apply sublist_take] | by apply Forall2_take]. Qed.

Lemma limitPool_ok pool p count ids : chosen b ids pool -> pool <> [] -> 1 <= count -> picks b (limitConnectionPoolLocked pool count p b) (fun ids => 1 <= len ids <= count).
Proof.
  intros Hc Hne Hcount. assert (0 < len pool) as Hl by (unfold len; destruct pool; [done | cbn; lia]). assert (forall ids cs, chosen b ids cs -> len ids = len cs) as Hlen by (intros ? ? [_ H]; unfold len; by rewrite (Forall2_length _ _ _ H)).
  unfold limitConnectionPoolLocked. rewrite (proj2 (Z.eqb_neq _ 0)) by lia. destruct (Z.leb_spec (len pool) count); [exists ids, pool, b; split_and!; [done | done | done | rewrite (Hlen _ _ Hc); lia..] |].
  destruct p.
  - rewrite slice_ok by lia. cbn [obind]. rewrite Z.sub_0_r, drop_0. eexists _, _, b. split; [done |]. split; [done |]. split; [by apply chosen_take |]. rewrite (Hlen _ _ (chosen_take _ _ _ Hc)).
    unfold len in *. rewrite length_take. lia.
  - pose proof (quiet_advance count b) as Hq. destruct (rr_advance count b) as [counter b']. cbn [snd] in Hq. rewrite rotated_take; [| done | lia |].
    2:{ unfold roundRobinStartIndex. rewrite (proj2 (Z.leb_gt _ _)) by lia. by apply Z.mod_pos_bound. }
    set (l := rotate_list _ _). assert (l ≡ₚ pool) as Hp by apply rotate_list_perm. cbn [obind]. rewrite take_ge by (by rewrite (Permutation_length Hp)).
    assert (len l = len pool) as Hll by (unfold len; by rewrite (Permutation_length Hp)). rewrite slice_ok by lia. cbn [obind]. rewrite Z.sub_0_r, drop_0.
    destruct (chosen_perm _ _ _ Hc Hp) as (ids' & Hc' & _). eexists _, _, b'. split; [done |]. split; [done |]. split; [by apply chosen_take |]. rewrite (Hlen _ _ (chosen_take _ _ _ Hc')).
    unfold len in *. rewrite length_take. lia.
Qed.
End pools.

(** ** The strategies *)

Section strategies.
Context (b : Balancer) (Hb : table_ok b) (Hn : activeIDs b <> []).

Lemma count_range n : 1 <= normalizeRequiredCount (len (activeIDs b)) n 1 <= len (activeIDs b).
Proof. pose proof (active_pos b Hn). unfold normalizeRequiredCount. repeat case_if; zbool; lia. Qed.

Lemma pool_nonempty {A} (l : list A) : (len l =? 0) = false -> l <> [].
Proof. by intros H ->. Qed.

Lemma getUnique_ok n : let count := normalizeRequiredCount (len (activeIDs b)) n 1 in
  picks b (getUniqueConnectionsLocked n b) (fun ids => 1 <= len ids <= count /\ (pooled b = false -> len ids = count)).
Proof.
  intros count. pose proof (count_range n) as Hc. fold count in Hc. unfold getUniqueConnectionsLocked. fold count. rewrite (proj2 (Z.leb_gt _ _)) by lia.
  assert (forall r, picks b r (fun ids => len ids = count) -> picks b r (fun ids => 1 <= len ids <= count /\ (pooled b = false -> len ids = count))) as Hex by (intros r Hr; eapply picks_mono; [exact Hr |]; intros ids E; cbv beta in *; split; [lia | done]).
  destruct (Z.eqb_spec (strategy b) BalancingRandom); [apply Hex; by apply selectRandom_ok |].
  destruct (pool_ok b Hb []) as (pids & pool & p & -> & Hpc & _). cbn [obind]. destruct (pooled b) eqn:Ep.
  - case_if; [apply Hex; by apply selectRoundRobin_ok |]. eapply picks_mono; [eapply limitPool_ok; [done | by apply pool_nonempty | lia] |]. intros ids Hi. split; [done | congruence].
  - destruct (scorer_ok b Hb) as ([scorer |] & signal & -> & _); cbn [obind]; [| apply Hex; by apply selectRoundRobin_ok]. destruct signal; cbn [negb]; [| apply Hex; by apply selectRoundRobin_ok].
    eapply picks_mono; [by apply selectLowest_ok |]. intros ids [E _]. split; [lia | done].
Qed.

(** With a score that has a signal, the least scores are chosen. *)
Lemma getUnique_lowest n scorer : strategyScorerLocked b = Ok (Some scorer, true) ->
  picks b (getUniqueConnectionsLocked n b) (fun ids => len ids = normalizeRequiredCount (len (activeIDs b)) n 1 /\ forall i j, i ∈ ids -> j ∈ activeIDs b -> j ∉ ids -> scorer i <= scorer j).
Proof.
  intros Es. pose proof (count_range n) as Hc. unfold getUniqueConnectionsLocked. set (count := normalizeRequiredCount _ _ _) in *. rewrite (proj2 (Z.leb_gt _ _)) by lia.
  destruct (scorer_ok b Hb) as (o & r & E & Hst). rewrite Es in E. injection E as <- <-. assert (3 <= strategy b <= 5) as Hs by (destruct (decide (3 <= strategy b <= 5)); [done |]; discriminate Hst; lia).
  rewrite (proj2 (Z.eqb_neq _ _)) by (unfold BalancingRandom; lia). destruct (pool_ok b Hb []) as (pids & pool & p & -> & _). cbn [obind].
  assert (pooled b = false) as -> by (unfold pooled; apply andb_false_iff; left; apply Z.leb_gt; lia). rewrite Es. cbn [obind negb]. by apply selectLowest_ok.
Qed.

Lemma target_ok : pick b (selectTargetByStrategyLocked b) (fun _ _ => True) False.
Proof.
  unfold selectTargetByStrategyLocked. destruct (getUnique_ok 1) as (ids & cs & b' & -> & Hq & [_ Hc] & [Hl _]). cbn [obind]. exists (head cs), b'. split; [done |]. split; [done |].
  destruct Hc as [| i c ids cs Hi Hc]; [change (len []) with 0 in Hl; lia |]. by exists i.
Qed.

Lemma getBestExcluding_ok excludeKey : pick b (getBestConnectionExcludingLocked excludeKey b) (fun _ c => Key c <> excludeKey) (only b excludeKey).
Proof.
  unfold getBestConnectionExcludingLocked. destruct (_ =? BalancingRandom); [by apply rotated_first |]. destruct (pool_ok b Hb excludeKey) as (pids & pool & p & -> & Hpc & Hk). cbn [obind]. destruct (pooled b).
  - case_if; [by apply roundRobinExcluding_ok |]. eapply pick_mono; [by eapply (pickFromPool_ok b); [| exact Hk | by apply pool_nonempty] | done | done].
  - destruct (scorer_ok b Hb) as ([scorer |] & signal & -> & _); cbn [obind]; [| by apply roundRobinExcluding_ok]. destruct signal; cbn [negb]; [| by apply roundRobinExcluding_ok].
    eapply pick_mono; [by apply bestScoredExcluding_ok | by intros i c [? _] | done].
Qed.

Lemma GetBest_ok : pick b (GetBestConnection b) (fun _ _ => True) False.
Proof.
  unfold GetBestConnection. pose proof (active_pos b Hn). rewrite (proj2 (Z.eqb_neq _ 0)) by lia. destruct (_ =? BalancingRandom).
  - pose proof (quiet_random b) as Hq. destruct (nextRandom b) as [r b']. cbn [snd] in Hq. assert (activeIDs b' = activeIDs b) as Ea by (by destruct Hq as (? & ? & ->)).
    destruct (at_active b Hb (r mod len (activeIDs b)) b' Hq) as (i & c & E1 & E2 & Hi); [by apply Z.mod_pos_bound |]. rewrite Ea in *. rewrite E1. cbn [obind]. rewrite E2. exists (Some c), b'. split; [done |]. split; [done |]. by exists i.
  - destruct (pool_ok b Hb []) as (pids & pool & p & -> & Hpc & Hk). cbn [obind]. destruct (pooled b).
    + case_if; [by apply roundRobinBest_ok |]. eapply pick_mono; [by eapply (pickFromPool_ok b); [| exact Hk | by apply pool_nonempty] | done | done].
    + destruct (scorer_ok b Hb) as ([scorer |] & signal & -> & _); cbn [obind]; [| by apply roundRobinBest_ok]. destruct signal; cbn [negb]; [| by apply roundRobinBest_ok].
      eapply pick_mono; [by apply bestScored_ok | done | done].
Qed.

Lemma initial_ok : pick b (selectInitialPreferredConnectionLocked b) (fun _ _ => True) False.
Proof.
  unfold selectInitialPreferredConnectionLocked. pose proof (active_pos b Hn). rewrite (proj2 (Z.eqb_neq _ 0)) by lia. destruct (_ || _); [apply target_ok |].
  destruct (pool_ok b Hb []) as (pids & pool & p & -> & Hpc & Hk). cbn [obind]. destruct (pooled b).
  - case_if; [apply target_ok |]. eapply pick_mono; [by eapply (pickFromPool_ok b); [| exact Hk | by apply pool_nonempty] | done | done].
  - destruct (scorer_ok b Hb) as ([scorer |] & signal & -> & _); cbn [obind]; [| apply target_ok]. destruct signal; cbn [negb]; [| apply target_ok]. cbv zeta. set (topN := if _ <? 10 then _ else 10).
    destruct (selectLowest_ok b Hb Hn topN scorer) as (ids & cs & b' & -> & Hq & Hc & Hl & _); [unfold topN; case_if; zbool; lia |]. cbn [obind].
    assert (len cs = len ids) as El by (unfold len; destruct Hc as [_ Hc]; by rewrite (Forall2_length _ _ _ Hc)). assert (1 <= topN) by (unfold topN; case_if; zbool; lia).
    rewrite (proj2 (Z.eqb_neq (len cs) 0)) by lia. eapply pick_quiet; [exact Hq |]. eapply (pickFromPool_ok b' (fun _ => True)); [by destruct Hq as (? & ? & ->) | by apply Forall_true | intros ->; change (len []) with 0 in El; lia].
Qed.

End strategies.

Lemma quiet_active b b' : quiet b b' -> activeIDs b' = activeIDs b.
Proof. by intros (? & ? & ->). Qed.

Lemma alternate_ok b excludeKey : table_ok b -> activeIDs b <> [] -> pick b (selectAlternateConnectionLocked excludeKey b) (fun _ c => Key c <> excludeKey) (only b excludeKey).
Proof.
  intros Hb Hn. assert (forall b', quiet b b' -> pick b' (alternate_fallback excludeKey b') (fun _ c => Key c <> excludeKey) (only b' excludeKey)) as Hfall.
  { intros b' Hq. apply (quiet_table _ _ Hq) in Hb as Hb'. assert (activeIDs b' <> []) as Hn' by (by rewrite (quiet_active _ _ Hq)). unfold alternate_fallback.
    destruct (getUnique_ok b' Hb' Hn' 1) as (ids & cs & b2 & -> & Hq2 & [_ Hc] & [Hl _]). cbn [obind]. destruct Hc as [| i c ids cs Hi Hc]; [change (len []) with 0 in Hl; lia |]. cbn [head].
    assert (Key c <> []) as Hkc by (destruct Hi as (_ & _ & Hi); by eapply tb_keys). repeat case_bool_decide; cbn [orb].
    1-3: exists (Some c), b2; split; [done |]; split; [done |]; exists i; split; [done |]; congruence.
    eapply pick_quiet; [exact Hq2 |]. eapply pick_mono; [apply getBestExcluding_ok; [by eapply quiet_table | by rewrite (quiet_active _ _ Hq2)] | done |]. by destruct Hq2 as (? & ? & ->). }
  unfold selectAlternateConnectionLocked. case_bool_decide; [by apply Hfall |]. destruct (getBestExcluding_ok b Hb Hn excludeKey) as (o & b' & -> & Hq & Ho). cbn [obind]. destruct o as [c |]; [by exists (Some c), b' |].
  eapply pick_quiet; [exact Hq |]. eapply pick_mono; [by apply Hfall | done |]. by destruct Hq as (? & ? & ->).
Qed.

(** ** Targets of a packet *)

(** The counter of the rotation, the random numbers and the routes of streams may have changed. *)
Definition routed (b b' : Balancer) : Prop := exists r g m, b' = b <| rrCounter := r |> <| rngState := g |> <| streamRoutes := m |>.

Lemma quiet_routed b b' : quiet b b' -> routed b b'.
Proof. intros (r & g & ->). exists r, g, (streamRoutes b). by destruct b. Qed.

Lemma routed_quiet b b1 m b2 : quiet b b1 -> quiet (b1 <| streamRoutes := m |>) b2 -> routed b b2.
Proof. intros (r & g & ->) (r' & g' & ->). exists r', g', m. by destruct b. Qed.

Lemma routed_table b b' : routed b b' -> table_ok b -> table_ok b'.
Proof. intros (r & g & m & ->) []. by split. Qed.

Lemma connectionByKey_ok b key idx c : table_ok b -> connectionByKeyLocked key b = Some (idx, c) ->
  0 <= idx < len (connections b) /\ connections b !! Z.to_nat idx = Some c /\ Key c = key /\ indexByKey b !! key = Some idx.
Proof.
  intros Hb. unfold connectionByKeyLocked, index_in. destruct (indexByKey b !! key) as [i |] eqn:Ei; [| done]. destruct (_ || _) eqn:E; [done |]. zbool.
  destruct (connections b !! Z.to_nat i) as [c' |] eqn:Ec; [| done]. intros [= <- <-]. destruct (tb_index _ Hb _ _ Ei) as (_ & c'' & Hc'' & Hk). split_and!; [lia | lia | done | congruence | done].
Qed.

Lemma valid_in_use b idx c : table_ok b -> 0 <= idx < len (connections b) -> connections b !! Z.to_nat idx = Some c -> IsValid c = true -> in_use b idx c.
Proof.
  intros Hb Hr Hc Hv. rewrite (tb_valid _ Hb _ _ Hc), Z2Nat.id in Hv by lia. apply bool_decide_eq_true in Hv. exact (conj Hv (conj Hr Hc)).
Qed.

Lemma preferred_ok b packetType clock state : table_ok b -> activeIDs b <> [] ->
  exists o state' b', selectPreferredConnectionForStreamLocked packetType clock state b = Ok (o, state', b') /\ quiet b b' /\ (forall c, o = Some c -> exists i, in_use b i c).
Proof.
  intros Hb Hn. unfold selectPreferredConnectionForStreamLocked. set (st := if _ =? PACKET_STREAM_RESEND then _ else _). destruct (validPreferredConnectionLocked st b) as [current |] eqn:Ev.
  - assert (exists i, in_use b i current) as Hcur.
    { unfold validPreferredConnectionLocked in Ev. case_bool_decide; [done |]. destruct (connectionByKeyLocked _ b) as [[idx c] |] eqn:Ec; [| done]. destruct (negb (IsValid c) || _) eqn:E; [done |]. injection Ev as ->. zbool.
      destruct (connectionByKey_ok _ _ _ _ Hb Ec) as (Hr & Hl & _). exists idx. by apply valid_in_use. }
    case_if; [exists (Some current), st, b; split; [done |]; split; [apply quiet_refl |]; by intros c [= ->] |].
    destruct (alternate_ok b (Key current) Hb Hn) as (o & b' & -> & Hq & Ho). cbn [obind]. destruct o as [c |]; eexists _, _, b'; (split; [done |]); (split; [done |]); intros c' [= <-]; [destruct Ho as (i & Hi & _); by exists i | done].
  - assert (pick b (if bool_decide (PreferredResolverKey st = []) then selectInitialPreferredConnectionLocked b else selectAlternateConnectionLocked (PreferredResolverKey st) b) (fun _ _ => True) True) as (o & b' & E & Hq & Ho).
    { case_bool_decide; [eapply pick_mono; [by apply initial_ok | done | done] | eapply pick_mono; [by apply alternate_ok | done | done]]. }
    unfold select_replacement. rewrite E. cbn [obind]. destruct o as [c |]; eexists _, _, b'; (split; [done |]); (split; [done |]); intros c' Hc'; [| done]. injection Hc' as <-. destruct Ho as (i & Hi & _). by exists i.
Qed.

Definition distinct_keys (b : Balancer) : Prop := NoDup (map Key (connections b)).

Lemma chosen_filter b (P : Connection -> Prop) `{!forall c, Decision (P c)} ids cs : chosen b ids cs -> exists ids', chosen b ids' (filter P cs) /\ sublist ids' ids.
Proof.
  intros [Hn Hc]. induction Hc as [| i c ids cs Hi Hc IH]; [exists []; by split; [split; constructor |] |]. apply NoDup_cons in Hn as [Hni Hn]. destruct (IH Hn) as (ids' & [H1 H2] & Hs).
  rewrite filter_cons. case_decide; [exists (i :: ids') | exists ids'; split; [done | by constructor]]. split; [| by constructor]. split; [| by constructor]. constructor; [| done].
  intros Hin. apply Hni. by eapply elem_of_sublist.
Qed.

Lemma chosen_keys b ids cs : distinct_keys b -> chosen b ids cs -> NoDup (map Key cs).
Proof.
  intros Hd [Hn Hc]. induction Hc as [| i c ids cs Hi Hc IH]; [constructor |]. apply NoDup_cons in Hn as [Hni Hn]. cbn [map]. apply NoDup_cons. split; [| by apply IH].
  intros (c' & Hk & Hin)%list_elem_of_fmap. apply list_elem_of_lookup in Hin as [p Hp]. destruct (Forall2_lookup_r _ _ _ _ _ Hc Hp) as (j & Hj & _ & Hrj & Hcj). destruct Hi as (_ & Hri & Hci).
  assert (Z.to_nat i = Z.to_nat j) as Eij by (apply (NoDup_lookup _ _ _ (Key c) Hd); rewrite list_lookup_fmap; [by rewrite Hci | rewrite Hcj; cbn; by rewrite Hk]).
  apply Hni. replace i with j by lia. by eapply list_elem_of_lookup_2.
Qed.

Lemma filter_key_length (k : bytes) cs : NoDup (map Key cs) -> len cs - 1 <= len (filter (fun c => Key c <> k) cs).
Proof.
  induction cs as [| c cs IH]; intros Hn; [rewrite filter_nil; unfold len; cbn; lia |]. cbn [map] in Hn. apply NoDup_cons in Hn as [Hc Hn]. rewrite filter_cons, len_cons. case_decide as Hk.
  - specialize (IH Hn). rewrite len_cons. lia.
  - rewrite list_filter_all; [lia |]. apply Forall_forall. intros c' Hc' E. apply Hc. apply list_elem_of_fmap. exists c'. split; [destruct (decide (Key c = k)); congruence | done].
Qed.

(** [SelectTargets] with resolvers in use. *)
Lemma select_targets_ok b packetType streamID n clock : table_ok b -> activeIDs b <> [] -> let count := normalizeRequiredCount (len (activeIDs b)) n 1 in
  exists ids cs b', SelectTargets packetType streamID n clock b = Ok (cs, b') /\ routed b b' /\ chosen b ids cs /\ 1 <= len ids <= count /\ (pooled b = false -> distinct_keys b -> len ids = count).
Proof.
  intros Hb Hn count. pose proof (count_range b Hn n) as Hc. fold count in Hc. assert (normalizeRequiredCount (len (activeIDs b)) count 1 = count) as Ecc by (unfold normalizeRequiredCount; repeat case_if; zbool; lia).
  assert (forall b1, quiet b b1 -> forall m, exists ids cs b', getUniqueConnectionsLocked count (b1 <| streamRoutes := m |>) = Ok (cs, b') /\ routed b b' /\ chosen b ids cs /\ 1 <= len ids <= count /\ (pooled b = false -> len ids = count)) as Hgu.
  { intros b1 Hq m. set (b2 := b1 <| streamRoutes := m |>). assert (table_ok b2) as Hb2 by (destruct (quiet_table _ _ Hq Hb); by split). destruct (getUnique_ok b2 Hb2) with (n := count) as (ids & cs & b' & E & Hq' & Hch & Hl1 & Hl2); [by destruct Hq as (? & ? & ->) |].
    exists ids, cs, b'. split; [done |]. split; [by eapply routed_quiet |]. destruct Hq as (r & g & ->). change (len (activeIDs b2)) with (len (activeIDs b)) in *. rewrite Ecc in *. exact (conj Hch (conj Hl1 Hl2)). }
  unfold SelectTargets. fold count. rewrite (proj2 (Z.leb_gt _ _)) by lia. assert (b = b <| streamRoutes := streamRoutes b |>) as Eb by (by destruct b).
  destruct (Hgu b (quiet_refl b) (streamRoutes b)) as (ids0 & cs0 & b0 & E0 & Hr0 & Hc0 & Hl0 & Hl0'). rewrite <- Eb in E0.
  destruct ((count =? 1) || _ || _) eqn:Em.
  { rewrite E0. cbn [obind]. assert (len cs0 = len ids0) as El by (unfold len; destruct Hc0 as [_ Hc0]; by rewrite (Forall2_length _ _ _ Hc0)). rewrite (proj2 (Z.eqb_neq (len cs0) 0)) by lia.
    exists ids0, cs0, b0. split_and!; auto; lia. }
  destruct (streamRoutes b !! streamID) as [state |]; [| exists ids0, cs0, b0; split_and!; auto; lia].
  destruct (preferred_ok b packetType clock state Hb Hn) as (o & state' & b1 & -> & Hq & Ho). cbn [obind]. change (set streamRoutes ?f b1) with (b1 <| streamRoutes := f (streamRoutes b1) |>).
  destruct o as [c |]; [| destruct (Hgu b1 Hq (<[streamID := state']> (streamRoutes b1))) as (ids1 & cs1 & b' & E1 & Hr1 & Hc1 & Hl1 & Hl1'); exists ids1, cs1, b'; split_and!; auto; lia].
  destruct (Ho c eq_refl) as (i & Hi). zbool. assert (2 <= count) as Hc2 by lia. rewrite (proj2 (Z.ltb_lt _ _)) by lia. unfold getUniqueConnectionsExcludingLocked.
  change (activeIDs (b1 <| streamRoutes := _ |>)) with (activeIDs b1). rewrite (quiet_active _ _ Hq). rewrite (proj2 (Z.leb_gt _ _)), (proj2 (Z.eqb_neq (len (activeIDs b)) 0)) by lia. cbn [orb].
  replace (count - 1 + 1) with count by lia. destruct (Hgu b1 Hq (<[streamID := state']> (streamRoutes b1))) as (ids1 & cs1 & b' & E1 & Hr1 & Hc1 & Hl1 & Hl1'). rewrite E1. cbn [obind].
  destruct (chosen_filter b (fun c' => Key c' <> Key c) ids1 cs1 Hc1) as (ids2 & Hc2' & Hs2). set (rest := filter _ cs1) in *. pose proof (chosen_take b (Z.to_nat (count - 1)) _ _ Hc2') as [Ht1 Ht2].
  assert (len ids2 = len rest) as El2 by (unfold len; destruct Hc2' as [_ Hc2']; by rewrite (Forall2_length _ _ _ Hc2')).
  exists (i :: take (Z.to_nat (count - 1)) ids2). eexists _, b'. split; [done |]. split; [done |]. split; [split; [| by constructor] |].
  - constructor; [| done]. intros Hin. apply list_elem_of_lookup in Hin as [p Hp]. destruct (Forall2_lookup_l _ _ _ _ _ Ht2 Hp) as (c' & Hc' & _ & _ & Hic'). destruct Hi as (_ & _ & Hic). assert (c' = c) by congruence. subst c'.
    apply list_elem_of_lookup_2 in Hc'. eapply elem_of_sublist in Hc'; [| apply sublist_take]. by apply list_elem_of_filter in Hc' as [? _].
  - assert (len (take (Z.to_nat (count - 1)) ids2) = Z.min (count - 1) (len ids2)) as Elt by (unfold len; rewrite length_take; lia). pose proof (len_nonneg ids2).
    rewrite len_cons, Elt. split; [lia |]. intros Hpool Hd. pose proof (filter_key_length (Key c) cs1 (chosen_keys _ _ _ Hd Hc1)) as Hf. fold rest in Hf.
    assert (len cs1 = len ids1) as El1 by (unfold len; destruct Hc1 as [_ Hc1]; by rewrite (Forall2_length _ _ _ Hc1)). specialize (Hl1' Hpool). lia.
Qed.
