(* ===== verification/BalancerLife.v ===== *)
(** The balancer over all sequences of operations: its invariant, the sweep of waiting queries and
    when a resolver is taken out of use (src/masterdns/internal/client/balancer.go, on Balancer.v). *)

From stdpp Require Import base tactics list gmap strings sorting.
From Stdlib Require Import ZArith Lia.
From S2P Require Import Prelude Enums ClientConn Balancer BalancerInv.
Import Balancer.

(** ** Frames *)

Definition same_table (b b' : Balancer) : Prop :=
  connections b' = connections b /\ indexByKey b' = indexByKey b /\ activeIDs b' = activeIDs b /\ inactiveIDs b' = inactiveIDs b /\ length (stats b') = length (stats b).

Definition same_pending (b b' : Balancer) : Prop := pendingShards b' = pendingShards b /\ pendingSize b' = pendingSize b.

Lemma same_table_ok b b' : same_table b b' -> table_ok b -> table_ok b'.
Proof.
  intros (E1 & E2 & E3 & E4 & E5) [T1 T2 T3 T4 T5 T6]. split; rewrite ?E1, ?E2, ?E3, ?E4, ?E5; done.
Qed.

Lemma same_table_trans b1 b2 b3 : same_table b1 b2 -> same_table b2 b3 -> same_table b1 b3.
Proof. intros (? & ? & ? & ? & ?) (? & ? & ? & ? & ?). repeat split; congruence. Qed.

Lemma on_stats_same idx f b : same_table b (on_stats idx f b) /\ same_pending b (on_stats idx f b).
Proof. split; [repeat split; cbn; by rewrite length_alter | done]. Qed.

Lemma with_stats_same key f b : same_table b (with_stats key f b) /\ same_pending b (with_stats key f b).
Proof. unfold with_stats. destruct (statsForKey key b); [apply on_stats_same | done]. Qed.

Lemma clear_same key b : same_table b (clearPreferredResolverReferencesLocked key b) /\ same_pending b (clearPreferredResolverReferencesLocked key b).
Proof. unfold clearPreferredResolverReferencesLocked. by case_bool_decide. Qed.

(** ** The lists of indices *)

Lemma remove_index_perm idx ids : idx ∈ ids -> ids ≡ₚ idx :: remove_index idx ids.
Proof.
  intros Hin. unfold remove_index. destruct (list_find (fun x => x = idx) ids) as [[i y] |] eqn:E.
  - apply list_find_Some in E as (Hi & -> & _). apply list_elem_of_split_length in Hi as (l1 & l2 & -> & ->). destruct l2 as [| z l2 _] using rev_ind.
    + rewrite last_snoc. cbn [default]. rewrite insert_app_r_alt by lia. rewrite Nat.sub_diag. cbn. rewrite take_app_le by (rewrite length_app; cbn; lia). rewrite take_ge by (rewrite length_app; cbn; lia). by rewrite Permutation_app_comm.
    + replace (l1 ++ idx :: l2 ++ [z]) with ((l1 ++ idx :: l2) ++ [z]) by (by rewrite <- (assoc_L (++))). rewrite last_snoc. cbn [default]. rewrite <- (assoc_L (++)). rewrite insert_app_r_alt by lia. rewrite Nat.sub_diag. cbn.
      replace (l1 ++ z :: l2 ++ [z]) with ((l1 ++ z :: l2) ++ [z]) by (by rewrite <- (assoc_L (++))). rewrite take_app_length' by (rewrite !length_app; cbn; rewrite length_app; cbn; lia). solve_Permutation.
  - apply list_find_None in E. rewrite Forall_forall in E. by destruct (E idx).
Qed.

Lemma move_table b idx c v f : table_ok b -> 0 <= idx -> connections b !! Z.to_nat idx = Some c -> IsValid c = negb v -> IsValid (f c) = v -> Key (f c) = Key c ->
  table_ok (moveConnectionStateLocked idx v (on_connection idx f b)).
Proof.
  intros Hb Hi Hc Hv Hfv Hfk. pose proof (ids_NoDup b Hb) as Hnd. pose proof (tb_valid _ Hb _ _ Hc) as Hact. rewrite Z2Nat.id in Hact by lia. rewrite Hv in Hact.
  assert (idx ∈ activeIDs b \/ idx ∈ inactiveIDs b) as Hin by (apply ids_range; [done |]; apply lookup_lt_Some in Hc; unfold len; lia). apply NoDup_app in Hnd as (N1 & N2 & N3).
  set (b' := moveConnectionStateLocked idx v (on_connection idx f b)). assert (connections b' = <[Z.to_nat idx := f c]> (connections b)) as Ec by (unfold b', moveConnectionStateLocked; destruct v; cbn; by apply alter_insert).
  assert (indexByKey b' = indexByKey b) as Ei by (unfold b', moveConnectionStateLocked; by destruct v). assert (stats b' = stats b) as Es by (unfold b', moveConnectionStateLocked; by destruct v).
  assert (activeIDs b' ++ inactiveIDs b' ≡ₚ activeIDs b ++ inactiveIDs b /\ forall j, j ∈ activeIDs b' <-> if v then j ∈ activeIDs b \/ j = idx else j ∈ activeIDs b /\ j <> idx) as [Hp Ha].
  { unfold b', moveConnectionStateLocked. symmetry in Hact. destruct v; cbn -[add_index remove_index]; unfold add_index.
    - apply bool_decide_eq_false in Hact. destruct Hin as [| Hin]; [done |]. rewrite bool_decide_false by done. pose proof (remove_index_perm idx _ Hin) as Hr. split; [rewrite Hr at 2; solve_Permutation |].
      intros j. rewrite elem_of_app, list_elem_of_singleton. done.
    - apply bool_decide_eq_true in Hact. pose proof (remove_index_perm idx _ Hact) as Hr. rewrite bool_decide_false by (intros Hx; by apply (N2 idx)). split; [rewrite Hr at 2; solve_Permutation |].
      intros j. rewrite Hr at 2. rewrite elem_of_cons. rewrite Hr in N1. apply NoDup_cons in N1 as [N1 _]. split; [intros Hj; split; [by right |]; intros ->; done | intros [[-> |] ?]; done]. }
  assert (forall i x, connections b' !! i = Some x -> exists y, connections b !! i = Some y /\ Key x = Key y /\ (i <> Z.to_nat idx -> x = y)) as Hold.
  { intros i x. rewrite Ec. intros [(<- & <- & _) | [Hne Hx]]%list_lookup_insert_Some; [by exists c | by exists x]. }
  split.
  - rewrite Es, Ec, length_insert. apply Hb.
  - rewrite Hp, Ec, length_insert. apply Hb.
  - intros i x Hx. destruct (Hold i x Hx) as (y & Hy & _ & Hxy). destruct (decide (i = Z.to_nat idx)) as [-> | Hne].
    + rewrite Ec, list_lookup_insert_eq in Hx by (by eapply lookup_lt_Some). injection Hx as <-. rewrite Hfv. symmetry. rewrite Z2Nat.id by lia. destruct v; [apply bool_decide_eq_true | apply bool_decide_eq_false]; rewrite Ha; tauto.
    + rewrite (Hxy Hne), (tb_valid _ Hb _ _ Hy). apply bool_decide_ext. rewrite Ha. assert (Z.of_nat i <> idx) by lia. destruct v; tauto.
  - intros i x Hx. destruct (Hold i x Hx) as (y & Hy & -> & _). by eapply tb_keys.
  - intros k i. rewrite Ei. intros Hk. destruct (tb_index _ Hb _ _ Hk) as (H0 & y & Hy & Hky). split; [done |]. rewrite Ec. destruct (decide (Z.to_nat i = Z.to_nat idx)) as [E |].
    + rewrite E in *. exists (f c). rewrite list_lookup_insert_eq by (by eapply lookup_lt_Some). split; [done |]. congruence.
    + exists y. by rewrite list_lookup_insert_ne by done.
  - intros i x Hx. rewrite Ei. destruct (Hold i x Hx) as (y & Hy & -> & _). by eapply tb_indexed.
Qed.

Lemma keep_table b idx f : table_ok b -> (forall c, connections b !! Z.to_nat idx = Some c -> IsValid (f c) = IsValid c /\ Key (f c) = Key c) -> table_ok (on_connection idx f b).
Proof.
  intros [T1 T2 T3 T4 T5 T6] Hf. assert (forall i x, alter f (Z.to_nat idx) (connections b) !! i = Some x -> exists y, connections b !! i = Some y /\ IsValid x = IsValid y /\ Key x = Key y) as Hold.
  { intros i x. destruct (decide (Z.to_nat idx = i)) as [<- |]; [rewrite list_lookup_alter_eq | rewrite list_lookup_alter_ne by done; intros Hx; by exists x].
    destruct (connections b !! Z.to_nat idx) as [y |]; [| done]. intros [= <-]. exists y. destruct (Hf y eq_refl). done. }
  split; cbn.
  - by rewrite length_alter.
  - by rewrite length_alter.
  - intros i x Hx. destruct (Hold i x Hx) as (y & Hy & -> & _). by apply T3.
  - intros i x Hx. destruct (Hold i x Hx) as (y & Hy & _ & ->). by eapply T4.
  - intros k i Hk. destruct (T5 _ _ Hk) as (H0 & y & Hy & <-). split; [done |]. destruct (decide (Z.to_nat idx = Z.to_nat i)) as [E |]; [rewrite E in *; rewrite list_lookup_alter_eq, Hy; exists (f y); split; [done | by apply Hf] |].
    exists y. by rewrite list_lookup_alter_ne.
  - intros i x Hx. destruct (Hold i x Hx) as (y & Hy & _ & ->). by eapply T6.
Qed.

Lemma add_table b conn : table_ok b -> table_ok (add_connection b conn).
Proof.
  intros [T1 T2 T3 T4 T5 T6]. unfold add_connection. case_bool_decide as Hk; [by split |]. set (n := length (connections b)). split; cbn -[len seq].
  - rewrite !length_app. cbn. lia.
  - rewrite length_app. cbn [length]. rewrite Nat.add_1_r, seq_S, map_app, (assoc_L (++)), T2. done.
  - intros i x. rewrite lookup_app. destruct (connections b !! i) as [y |] eqn:Hy; [intros [= <-]; by apply T3 |]. intros Hx. apply list_lookup_singleton_Some in Hx as [Hi <-]. cbn. symmetry. apply bool_decide_eq_false. intros Hin.
    assert (Z.of_nat i ∈ map Z.of_nat (seq 0 (length (connections b)))) as (m & Em & Hm)%list_elem_of_fmap by (rewrite <- T2; apply elem_of_app; by left). apply elem_of_seq in Hm. apply lookup_ge_None in Hy. lia.
  - intros i x. rewrite lookup_app. destruct (connections b !! i) as [y |] eqn:Hy; [intros [= <-]; by eapply T4 |]. intros Hx. by apply list_lookup_singleton_Some in Hx as [_ <-].
  - intros k i. rewrite lookup_insert_Some. intros [[<- <-] | [Hne Hi]].
    + unfold len. split; [lia |]. rewrite Nat2Z.id, lookup_app_r, Nat.sub_diag by lia. by eexists.
    + destruct (T5 _ _ Hi) as (H0 & c & Hc & Hkc). split; [done |]. exists c. by rewrite lookup_app_l by (by eapply lookup_lt_Some).
  - intros i x. rewrite lookup_app. destruct (connections b !! i) as [y |] eqn:Hy.
    + intros [= <-]. destruct (decide (Key conn = Key y)) as [-> |]; [by rewrite lookup_insert_eq |]. rewrite lookup_insert_ne by done. by eapply T6.
    + intros Hx. apply list_lookup_singleton_Some in Hx as [_ <-]. cbn. by rewrite lookup_insert_eq.
Qed.

(** ** The waiting queries *)

Definition waiting (shards : list pendingMap) : Z := foldr (fun m n => Z.of_nat (size m) + n) 0 shards.

Record pending_ok (b : Balancer) : Prop := {
  pd_shards : length (pendingShards b) = 16%nat;
  pd_size : pendingSize b = waiting (pendingShards b);
  pd_cap : pendingSize b <= resolverPendingHardCap
}.

Definition bal_ok (b : Balancer) : Prop := table_ok b /\ pending_ok b.

Lemma same_pending_ok b b' : same_pending b b' -> pending_ok b -> pending_ok b'.
Proof. intros [E1 E2] []. by split; rewrite ?E1, ?E2. Qed.

Lemma same_ok b b' : same_table b b' -> same_pending b b' -> bal_ok b -> bal_ok b'.
Proof. intros H1 H2 [H3 H4]. split; [by eapply same_table_ok | by eapply same_pending_ok]. Qed.

Lemma waiting_insert (shards : list pendingMap) i m m' : shards !! i = Some m -> waiting (<[i := m']> shards) = waiting shards - Z.of_nat (size m) + Z.of_nat (size m').
Proof.
  revert i. induction shards as [| x shards IH]; intros [| i] Hi; [done | done | |]; change (waiting (x :: shards)) with (Z.of_nat (size x) + waiting shards).
  - injection Hi as ->. change (waiting (<[0%nat := m']> (m :: shards))) with (Z.of_nat (size m') + waiting shards). lia.
  - change (waiting (<[S i := m']> (x :: shards))) with (Z.of_nat (size x) + waiting (<[i := m']> shards)). rewrite (IH i Hi). lia.
Qed.

Lemma waiting_nonneg shards : 0 <= waiting shards.
Proof. induction shards as [| m shards IH]; [done |]. change (0 <= Z.of_nat (size m) + waiting shards). lia. Qed.

Lemma waiting_pos shards : 0 < waiting shards -> exists i m, shards !! i = Some m /\ m <> ∅.
Proof.
  induction shards as [| m shards IH]; [done |]. change (waiting (m :: shards)) with (Z.of_nat (size m) + waiting shards). intros H. destruct (decide (m = ∅)) as [-> | Hm]; [| by exists 0%nat, m]. rewrite map_size_empty in H. destruct IH as (i & x & Hi & Hx); [lia |]. by exists (S i), x.
Qed.

(** A change of one shard. *)
Lemma on_shard_ok b i f : (i < length (pendingShards b))%nat -> length (pendingShards (on_shard i f b)) = length (pendingShards b) /\
  waiting (pendingShards (on_shard i f b)) = waiting (pendingShards b) - Z.of_nat (size (shard_at i b)) + Z.of_nat (size (f (shard_at i b))).
Proof.
  intros Hi. destruct (lookup_lt_is_Some_2 _ _ Hi) as [m Hm]. unfold on_shard, shard_at. cbn. rewrite length_alter. split; [done |]. rewrite (alter_insert _ _ _ m) by done. rewrite Hm. by rewrite (waiting_insert _ _ m).
Qed.

Lemma pending_index_range key : (pendingShardIndex key < 16)%nat.
Proof. destruct key as [[ra la] id]. unfold pendingShardIndex. pose proof (Z.mod_pos_bound (fold_left (fun hash c => wrap32 (wrap32 (hash * 33) + c)) la (fold_left (fun hash c => wrap32 (wrap32 (hash * 33) + c)) ra id)) resolverPendingShardCount eq_refl). unfold resolverPendingShardCount in *. lia. Qed.

(** What a sweep makes of a query, and what it reports. *)
Definition give_up_at (now requestTimeout : Z) (s : balancerResolverSample) : Z := Z.min now (sentAt s + requestTimeout).

Definition swept (now requestTimeout ttl : Z) (s : balancerResolverSample) : option balancerResolverSample :=
  if sentAt s <? now - ttl then None
  else if timedOut s then if negb (evictAfter s =? zero_time) && (evictAfter s <=? now) then None else Some s
  else if sentAt s <=? now - requestTimeout
  then Some (mkSample (serverKey s) (sentAt s) true (give_up_at now requestTimeout s) (give_up_at now requestTimeout s + resolverLateResponseGrace requestTimeout ttl))
  else Some s.

Definition reported (now requestTimeout : Z) (s : balancerResolverSample) : option balancerTimeoutObservation :=
  if timedOut s || (now - requestTimeout <? sentAt s) || bool_decide (serverKey s = []) then None
  else Some (mkObservation (serverKey s) (give_up_at now requestTimeout s)).

Lemma prune_step now rt ttl p k : let p' := prune_key now rt ttl p k in
  (forall k', prMap p' !! k' = if decide (k' = k) then prMap p !! k ≫= swept now rt ttl else prMap p !! k') /\
  prObs p' = prObs p ++ option_list (prMap p !! k ≫= reported now rt) /\
  Z.of_nat (size (prMap p')) + prRemoved p' = Z.of_nat (size (prMap p)) + prRemoved p /\ prRemoved p <= prRemoved p'.
Proof.
  unfold prune_key. destruct (prMap p !! k) as [s |] eqn:Hk; cbn [mbind option_bind option_list].
  2:{ rewrite app_nil_r. split; [| split_and!; try done; lia]. intros k'. by case_decide as E; [rewrite E |]. }
  assert (size (prMap p) <> 0%nat) as Hpos by (intros E; apply map_size_empty_inv in E; by rewrite E, lookup_empty in Hk).
  assert ((if now <? sentAt s + rt then now else sentAt s + rt) = give_up_at now rt s) as -> by (unfold give_up_at; destruct (Z.ltb_spec now (sentAt s + rt)); lia).
  assert (forall x, size (<[k := x]> (prMap p)) = size (prMap p)) as Hins by (intros x; by apply map_size_insert_Some).
  assert (forall m : pendingMap, is_Some (m !! k) -> size m <> 0%nat -> Z.of_nat (size (delete k m)) = Z.of_nat (size m) - 1) as Hdel by (intros m Hm Hz; rewrite map_size_delete_Some by done; lia).
  unfold swept, reported. rewrite (Z.ltb_antisym (sentAt s) (now - rt)). assert (bool_decide (serverKey s <> []) = negb (bool_decide (serverKey s = []))) as -> by (by do 2 case_bool_decide).
  cbv zeta. destruct (timedOut s), (sentAt s <=? now - rt), (sentAt s <? now - ttl), (bool_decide (serverKey s = [])), (negb (evictAfter s =? zero_time) && (evictAfter s <=? now)); cbn [negb orb andb option_list]; try (destruct (due_before _ _));
    rewrite ?app_nil_r; cbn [prMap prObs prRemoved];
    (split; [intros k'; case_decide as E; [rewrite E |]; by simplify_map_eq |]); (split; [done |]); rewrite ?Hdel, ?Hins by (rewrite ?lookup_insert_eq, ?Hins; done); lia.
Qed.

Lemma prune_fold now rt ttl ks : NoDup ks -> forall p, let p' := fold_left (prune_key now rt ttl) ks p in
  (forall k, prMap p' !! k = if decide (k ∈ ks) then prMap p !! k ≫= swept now rt ttl else prMap p !! k) /\
  prObs p' = prObs p ++ omap (fun k => prMap p !! k ≫= reported now rt) ks /\
  Z.of_nat (size (prMap p')) + prRemoved p' = Z.of_nat (size (prMap p)) + prRemoved p /\ prRemoved p <= prRemoved p'.
Proof.
  induction 1 as [| k ks Hk Hn IH]; intros p; cbn [fold_left omap list_omap].
  { split; [intros k; by rewrite decide_False by apply not_elem_of_nil |]. rewrite app_nil_r. split_and!; try done; lia. }
  destruct (prune_step now rt ttl p k) as (S1 & S2 & S3 & S4). destruct (IH (prune_key now rt ttl p k)) as (F1 & F2 & F3 & F4). cbv zeta. split; [| split; [| split; lia]].
  - intros k'. rewrite F1, !S1. destruct (decide (k' = k)) as [-> | Hne]; [rewrite decide_False by done; by rewrite decide_True by left |].
    destruct (decide (k' ∈ ks)) as [Hin | Hin]; [by rewrite decide_True by (by right) | by rewrite decide_False by set_solver].
  - rewrite F2, S2, <- (assoc_L (++)). f_equal. assert (omap (fun k' => prMap (prune_key now rt ttl p k) !! k' ≫= reported now rt) ks = omap (fun k' => prMap p !! k' ≫= reported now rt) ks) as ->.
    { clear -S1 Hk. induction ks as [| k' ks IH]; [done |]. apply not_elem_of_cons in Hk as [Hne Hk]. cbn [omap list_omap]. rewrite S1, decide_False by done. by rewrite IH. }
    by destruct (prMap p !! k ≫= reported now rt).
Qed.

Section sweeps.
Context (enum : pendingMap -> list (bytes * bytes * Z)) (enum_ok : forall m, enum m ≡ₚ (map_to_list m).*1).

Lemma enum_NoDup m : NoDup (enum m).
Proof. rewrite enum_ok. apply NoDup_fst_map_to_list. Qed.

Lemma enum_elem m k : k ∈ enum m <-> is_Some (m !! k).
Proof.
  rewrite enum_ok, list_elem_of_fmap. split; [intros ([k' s] & -> & Hs); apply elem_of_map_to_list in Hs; by exists s |]. intros [s Hs]. exists (k, s). split; [done |]. by apply elem_of_map_to_list.
Qed.

Lemma prune_ok m now rt ttl : let p := prunePendingLocked enum m now rt ttl in
  prMap p = omap (swept now rt ttl) m /\ prObs p = omap (fun k => m !! k ≫= reported now rt) (enum m) /\ Z.of_nat (size (prMap p)) = Z.of_nat (size m) - prRemoved p /\ 0 <= prRemoved p.
Proof.
  destruct (prune_fold now rt ttl (enum m) (enum_NoDup m) (mkPrune m [] zero_time 0)) as (F1 & F2 & F3 & F4). fold (prunePendingLocked enum m now rt ttl) in *. cbn [prMap prObs prRemoved] in *. split_and!; [| done | lia | lia].
  apply map_eq. intros k. rewrite F1, lookup_omap. case_decide as Hk; [done |]. rewrite enum_elem, <- eq_None_not_Some in Hk. by rewrite Hk.
Qed.

(** ** Evictions *)

(** A balancer whose sizes agree, with any number of queries. *)
Definition counted (b : Balancer) : Prop := length (pendingShards b) = 16%nat /\ pendingSize b = waiting (pendingShards b).

Lemma evict_one_ok b i : counted b -> (i < 16)%nat -> let '(r, b') := evict_one enum i b in
  counted b' /\ same_table b b' /\ pendingSize b' = pendingSize b - (if r : bool then 1 else 0) /\ (r = false -> b' = b /\ shard_at i b = ∅).
Proof.
  intros [C1 C2] Hi. unfold evict_one. pose proof (enum_elem (shard_at i b)) as He. destruct (enum (shard_at i b)) as [| k ks]; cbn [head].
  - split; [done |]. split; [done |]. split; [lia |]. intros _. split; [done |]. apply map_eq. intros k. rewrite lookup_empty. apply eq_None_not_Some. intros Hk. apply He in Hk. by apply not_elem_of_nil in Hk.
  - assert (is_Some (shard_at i b !! k)) as Hk by (apply He; left). destruct (on_shard_ok b i (delete k)) as [O1 O2]; [by rewrite C1 |].
    assert (size (shard_at i b) <> 0%nat) as Hz by (intros E; apply map_size_empty_inv in E; rewrite E, lookup_empty in Hk; by destruct Hk).
    rewrite map_size_delete_Some in O2 by done. split; [split; [exact (eq_trans O1 C1) |]; change (Z.pred (pendingSize b) = waiting (pendingShards (on_shard i (delete k) b))); lia |]. split; [done |]. split; [| done]. cbn. lia.
Qed.

Lemma evict_round_ok l : forall n any b, counted b -> (forall i, i ∈ l -> (i < 16)%nat) -> 0 <= n -> let '(n', any', b') := evict_round enum l n any b in
  counted b' /\ same_table b b' /\ 0 <= n' <= n /\ pendingSize b' = pendingSize b - (n - n') /\ (any' = true <-> any = true \/ n' < n) /\ ((exists i, i ∈ l /\ shard_at i b <> ∅) -> 0 < n -> n' < n).
Proof.
  induction l as [| i l IH]; intros n any b Hc Hl Hn; cbn [evict_round].
  { split_and!; [done | done.. | lia | lia | lia | |]; [naive_solver lia |]. by intros (i & Hi%not_elem_of_nil & _). }
  destruct (Z.leb_spec n 0) as [Hz | Hz]; [split_and!; [done | done.. | lia | lia | lia | naive_solver lia | lia] |].
  pose proof (evict_one_ok b i Hc (Hl i ltac:(left))) as Ho. destruct (evict_one enum i b) as [[] b1]; destruct Ho as (O1 & O2 & O3 & O4).
  - specialize (IH (n - 1) true b1 O1 (fun j Hj => Hl j ltac:(by right)) ltac:(lia)). destruct (evict_round enum l (n - 1) true b1) as [[n' any'] b']. destruct IH as (I1 & I2 & I3 & I4 & I5 & I6).
    split_and!; [done | by eapply same_table_trans.. | lia | lia | lia | naive_solver lia | intros; lia].
  - destruct (O4 eq_refl) as [-> Ho]. specialize (IH n any b Hc (fun j Hj => Hl j ltac:(by right)) Hn). destruct (evict_round enum l n any b) as [[n' any'] b']. destruct IH as (I1 & I2 & I3 & I4 & I5 & I6).
    split; [done |]. split; [done |]. split; [lia |]. split; [lia |]. split; [done |]. intros (j & [-> | Hj]%elem_of_cons & Hne) ?; [done | apply I6; [by exists j | done]].
Qed.

Lemma round_covers start i : (i < 16)%nat -> i ∈ map (fun i => ((start + i) mod 16)%nat) (seq 0 16).
Proof.
  intros Hi. apply list_elem_of_fmap. exists ((i + 16 - start mod 16) mod 16)%nat. pose proof (Nat.mod_upper_bound start 16 ltac:(lia)). split; [| apply elem_of_seq; pose proof (Nat.mod_upper_bound (i + 16 - start mod 16) 16); lia].
  rewrite Nat.Div0.add_mod_idemp_r. rewrite (Nat.div_mod_eq start 16) at 1. replace (16 * (start / 16) + start mod 16 + (i + 16 - start mod 16))%nat with (i + (start / 16 + 1) * 16)%nat by lia. rewrite Nat.Div0.mod_add. by rewrite Nat.mod_small.
Qed.

Lemma evict_rounds_ok fuel : forall n b, counted b -> 0 <= n <= pendingSize b -> n <= Z.of_nat fuel ->
  let b' := evict_rounds enum fuel n b in counted b' /\ same_table b b' /\ pendingSize b' = pendingSize b - n.
Proof.
  induction fuel as [| fuel IH]; intros n b Hc Hn Hf; cbn [evict_rounds]; [split_and!; [done.. | lia] |]. destruct (Z.leb_spec n 0) as [Hz | Hz]; [split_and!; [done.. | lia] |]. cbv zeta.
  change (Z.to_nat resolverPendingShardCount) with 16%nat. set (start := Z.to_nat _). set (b1 := b <| pendingEvictRR := _ |>). set (l := map _ (seq 0 16)).
  assert (forall i, i ∈ l -> (i < 16)%nat) as Hl by (intros i (j & -> & _)%list_elem_of_fmap; apply Nat.mod_upper_bound; lia).
  pose proof (evict_round_ok l n false b1 Hc Hl ltac:(lia)) as Hr. destruct (evict_round enum l n false b1) as [[n' any] b2]. destruct Hr as (R1 & R2 & R3 & R4 & R5 & R6). change (pendingSize b1) with (pendingSize b) in R4.
  assert (n' < n) as Hlt.
  { apply R6; [| done]. destruct Hc as [C1 C2]. destruct (waiting_pos (pendingShards b)) as (i & m & Hi & Hm); [lia |]. exists i. split; [apply round_covers; rewrite <- C1; by eapply lookup_lt_Some |]. unfold shard_at, b1. cbn. by rewrite Hi. }
  destruct any; [| by destruct R5 as [_ R5]; discriminate R5; right]. destruct (IH n' b2 R1) as (I1 & I2 & I3); [lia | lia |]. split; [done |]. split; [| lia]. eapply same_table_trans; [exact R2 | exact I2].
Qed.

Lemma evict_ok n b : counted b -> 0 <= n <= pendingSize b -> let b' := evictSomePendingGlobal enum n b in counted b' /\ same_table b b' /\ pendingSize b' = pendingSize b - n.
Proof. intros Hc Hn. apply evict_rounds_ok; [done | done | lia]. Qed.

Lemma pending_counted b : pending_ok b -> counted b.
Proof. by intros []. Qed.

(** ** Sweeps *)

Lemma sweep_shard_ok now rt ttl obs next b i : counted b -> (i < 16)%nat -> let '(obs', _, b') := sweep_shard enum now rt ttl (obs, next, b) i in
  counted b' /\ same_table b b' /\ pendingSize b' <= pendingSize b /\ pendingShards b' = alter (omap (swept now rt ttl)) i (pendingShards b) /\
  obs' = obs ++ omap (fun k => shard_at i b !! k ≫= reported now rt) (enum (shard_at i b)).
Proof.
  intros [C1 C2] Hi. unfold sweep_shard. destruct (prune_ok (shard_at i b) now rt ttl) as (P1 & P2 & P3 & P4). set (p := prunePendingLocked enum _ _ _ _) in *. cbv zeta.
  destruct (on_shard_ok b i (fun _ => prMap p)) as [O1 O2]; [by rewrite C1 |]. set (b' := if 0 <? prRemoved p then _ else _).
  assert (pendingShards b' = pendingShards (on_shard i (fun _ => prMap p) b)) as E1 by (unfold b'; by case_if). assert (pendingSize b' = pendingSize b - prRemoved p) as E2 by (unfold b'; case_if; zbool; cbn; lia).
  split; [split; rewrite E1; [by rewrite O1 | lia] |]. split; [unfold b'; by case_if |]. split; [lia |]. split; [| by rewrite P2].
  rewrite E1. unfold on_shard, shard_at. cbn. destruct (lookup_lt_is_Some_2 (pendingShards b) i) as [m Hm]; [by rewrite C1 |]. rewrite !(alter_insert _ _ _ m) by done. f_equal. rewrite P1. unfold shard_at. by rewrite Hm.
Qed.

(** The queries of all shards. *)
Definition all_queries (b : Balancer) : list balancerResolverSample := concat (map (fun m => (map_to_list m).*2) (pendingShards b)).

Lemma sweep_fold now rt ttl l : forall obs next b, counted b -> (forall i, i ∈ l -> (i < 16)%nat) -> NoDup l -> let '(obs', _, b') := fold_left (sweep_shard enum now rt ttl) l (obs, next, b) in
  counted b' /\ same_table b b' /\ pendingSize b' <= pendingSize b /\ (forall i, pendingShards b' !! i = (if decide (i ∈ l) then omap (swept now rt ttl) else id) <$> pendingShards b !! i) /\
  obs' = obs ++ concat (map (fun i => omap (fun k => shard_at i b !! k ≫= reported now rt) (enum (shard_at i b))) l).
Proof.
  induction l as [| i l IH]; intros obs next b Hc Hl Hn; cbn [fold_left map concat].
  { split; [done |]. split; [done |]. split; [lia |]. split; [| by rewrite app_nil_r]. intros i. rewrite decide_False by apply not_elem_of_nil. by rewrite option_fmap_id. }
  apply NoDup_cons in Hn as [Hni Hn]. pose proof (sweep_shard_ok now rt ttl obs next b i Hc (Hl i ltac:(left))) as Hs. destruct (sweep_shard enum now rt ttl (obs, next, b) i) as [[obs1 next1] b1]. destruct Hs as (S1 & S2 & S3 & S4 & S5).
  specialize (IH obs1 next1 b1 S1 (fun j Hj => Hl j ltac:(by right)) Hn). destruct (fold_left _ l _) as [[obs' next'] b']. destruct IH as (I1 & I2 & I3 & I4 & I5).
  split; [done |]. split; [by eapply same_table_trans |]. split; [lia |]. split.
  - intros j. rewrite I4, S4. destruct (decide (j = i)) as [-> | Hne].
    + rewrite list_lookup_alter_eq, decide_False by done. rewrite decide_True by left. by destruct (pendingShards b !! i).
    + rewrite list_lookup_alter_ne by done. destruct (decide (j ∈ l)); [by rewrite decide_True by (by right) | by rewrite decide_False by set_solver].
  - rewrite I5, S5, <- (assoc_L (++)). do 2 f_equal. f_equal. apply map_ext_in. intros j Hj%list_elem_of_In. assert (shard_at j b1 = shard_at j b) as ->; [| done]. unfold shard_at. rewrite S4, list_lookup_alter_ne; [done |]. by intros ->.
Qed.

Lemma reports_of m now rt : omap (fun k => m !! k ≫= reported now rt) (enum m) ≡ₚ omap (reported now rt) (map_to_list m).*2.
Proof.
  rewrite enum_ok. assert (forall l : list (bytes * bytes * Z * balancerResolverSample), (forall q, q ∈ l -> m !! q.1 = Some q.2) -> omap (fun k => m !! k ≫= reported now rt) l.*1 = omap (reported now rt) l.*2) as Hl.
  { induction l as [| q l IH]; intros Hq; [done |]. cbn [fmap list_fmap omap list_omap]. rewrite (Hq q) by left. cbn [mbind option_bind]. rewrite IH by (intros q' Hq'; apply Hq; by right). done. }
  rewrite Hl; [done |]. intros [k s]. by rewrite elem_of_map_to_list.
Qed.

Lemma shards_list {B} (f : pendingMap -> B) b : length (pendingShards b) = 16%nat -> map (fun i => f (shard_at i b)) (seq 0 16) = map f (pendingShards b).
Proof.
  intros Hl. rewrite <- Hl. apply list_eq. intros i. rewrite !list_lookup_fmap. destruct (decide (i < length (pendingShards b))%nat) as [Hi | Hi].
  - rewrite lookup_seq_lt by done. cbn. unfold shard_at. destruct (lookup_lt_is_Some_2 _ _ Hi) as [m Hm]. by rewrite Hm.
  - rewrite lookup_ge_None_2 by (rewrite length_seq; lia). by rewrite lookup_ge_None_2 by lia.
Qed.

Lemma all_reports b now rt : length (pendingShards b) = 16%nat ->
  concat (map (fun i => omap (fun k => shard_at i b !! k ≫= reported now rt) (enum (shard_at i b))) (seq 0 16)) ≡ₚ omap (reported now rt) (all_queries b).
Proof.
  intros Hl. rewrite (shards_list (fun m => omap (fun k => m !! k ≫= reported now rt) (enum m)) b Hl). unfold all_queries. clear Hl. induction (pendingShards b) as [| m l IH]; [done |]. cbn [map concat]. rewrite omap_app, IH, reports_of. done.
Qed.

(** The times that a sweep uses. *)
Definition sweep_timeout (tunnelPacketTimeout : Z) (b : Balancer) : Z :=
  resolverRequestTimeout tunnelPacketTimeout (autoDisableCheckIntervalForActiveCount (len (activeIDs b)) (autoDisableTimeoutWindow b)) (autoDisableTimeoutWindow b).

Lemma collect_ok now tpt b : pending_ok b -> let '(obs, b') := CollectExpiredResolverTimeouts_first enum now tpt b in
  pending_ok b' /\ same_table b b' /\
  (autoDisableEnabled b = true -> pendingOverflow b = true \/ pendingSweepDue now b = true -> pendingSize b < resolverPendingHardCap ->
    pendingShards b' = map (omap (swept now (sweep_timeout tpt b) (resolverSampleTTL tpt))) (pendingShards b) /\ obs ≡ₚ omap (reported now (sweep_timeout tpt b)) (all_queries b)).
Proof.
  intros Hp. pose proof (pending_counted b Hp) as Hc. unfold CollectExpiredResolverTimeouts_first. destruct (autoDisableEnabled b); cbn [negb]; [| done].
  destruct (negb (pendingOverflow b) && negb (pendingSweepDue now b)) eqn:Ed; [split; [done |]; split; [done |]; intros _ [E | E]; rewrite E in Ed; by rewrite ?andb_false_r in Ed |].
  fold (sweep_timeout tpt b). change (Z.to_nat resolverPendingShardCount) with 16%nat. set (rt := sweep_timeout tpt b). set (ttl := resolverSampleTTL tpt).
  pose proof (sweep_fold now rt ttl (seq 0 16) [] zero_time b Hc (fun i Hi => proj2 (proj1 (elem_of_seq _ _ _) Hi)) (NoDup_seq 0 16)) as Hs. destruct (fold_left _ (seq 0 16) _) as [[obs next] b1]. destruct Hs as (S1 & S2 & S3 & S4 & S5).
  assert (pendingShards b1 = map (omap (swept now rt ttl)) (pendingShards b)) as Es.
  { apply list_eq. intros i. rewrite S4, list_lookup_fmap. case_decide as Hi; [done |]. rewrite lookup_ge_None_2; [done |]. rewrite elem_of_seq in Hi. destruct Hc as [-> _]. lia. }
  destruct Hc as [Hl _]. cbv zeta. destruct (Z.leb_spec 0 (pendingSize b1 - resolverPendingHardCap)) as [Ho | Ho].
  - assert (0 <= pendingSize b1 - resolverPendingHardCap + 1 <= pendingSize b1) as Hr by (unfold resolverPendingHardCap in *; lia). destruct (evict_ok _ b1 S1 Hr) as ([E1 E1'] & E2 & E3). split; [split; [exact E1 | exact E1' | change (pendingSize (evictSomePendingGlobal enum (pendingSize b1 - resolverPendingHardCap + 1) b1) <= resolverPendingHardCap); lia] |].
    split; [eapply same_table_trans; [exact S2 | exact E2] |]. intros _ _ Hlt. lia.
  - destruct S1 as [S1 S1']. split; [split; [exact S1 | exact S1' | change (pendingSize b1 <= resolverPendingHardCap); lia] |]. split; [exact S2 |]. intros _ _ _. split; [exact Es |]. rewrite S5. by apply all_reports.
Qed.

(** ** Sends and answers *)

Lemma take_sample_ok packet addr localAddr b : pending_ok b -> 2 <= len packet -> exists o b', take_sample packet addr localAddr b = Ok (o, b') /\ pending_ok b' /\ same_table b b'.
Proof.
  intros [P1 P2 P3] Hl. unfold take_sample, get16. destruct (at_ok (E := balancer_error) packet 0) as (x & -> & _); [lia |]. destruct (at_ok (E := balancer_error) packet (0 + 1)) as (y & -> & _); [lia |]. cbn [obind].
  set (k := (addr, localAddr, of_be16 x y)). pose proof (pending_index_range k) as Hi. destruct (shard_at _ b !! k) as [s |] eqn:Hk; [| by eexists _, b].
  eexists _, _. split; [done |]. destruct (on_shard_ok b (pendingShardIndex k) (delete k)) as [O1 O2]; [by rewrite P1 |]. rewrite map_size_delete_Some in O2 by done.
  assert (size (shard_at (pendingShardIndex k) b) <> 0%nat) as Hz by (intros E; apply map_size_empty_inv in E; by rewrite E, lookup_empty in Hk).
  split; [| done]. split; [exact (eq_trans O1 P1) | change (Z.pred (pendingSize b) = waiting (pendingShards (on_shard (pendingShardIndex k) (delete k) b))); lia | cbn; lia].
Qed.

Lemma schedule_same next b : same_table b (schedulePendingSweepAt next b) /\ same_pending b (schedulePendingSweepAt next b).
Proof. unfold schedulePendingSweepAt. by repeat case_if. Qed.

Lemma send_ok packet resolverAddr localAddr key sentAt tpt clock b : pending_ok b -> exists b', TrackResolverSend enum packet resolverAddr localAddr key sentAt tpt clock b = Ok b' /\ pending_ok b' /\ same_table b b'.
Proof.
  intros Hp. unfold TrackResolverSend. case_if; [by exists b |]. zbool. unfold get16. destruct (at_ok (E := balancer_error) packet 0) as (x & -> & _); [lia |]. destruct (at_ok (E := balancer_error) packet (0 + 1)) as (y & -> & _); [lia |]. cbn [obind]. cbv zeta.
  set (k := (resolverAddr, localAddr, of_be16 x y)). pose proof (pending_index_range k) as Hi. set (b1 := if resolverPendingHardCap <=? pendingSize b then _ else b).
  assert (counted b1 /\ same_table b b1 /\ pendingSize b1 < resolverPendingHardCap) as (Hc & Ht & Hlt).
  { pose proof (pending_counted b Hp) as Hc. destruct Hp as [_ _ Hcap]. unfold b1. destruct (Z.leb_spec resolverPendingHardCap (pendingSize b)) as [Hge | Hge]; [| done]. rewrite (proj2 (Z.ltb_lt _ _)) by lia.
    destruct (evict_ok (pendingSize b - resolverPendingHardCap + 1) b Hc) as (E1 & E2 & E3); [unfold resolverPendingHardCap in *; lia |]. split; [done |]. split; [done |]. lia. }
  set (b2 := if resolverPendingSoftCap <=? pendingSize b1 then _ else b1). assert (same_table b1 b2 /\ same_pending b1 b2) as [Ht2 [Hp2 Hs2]] by (unfold b2; by case_if).
  set (f := <[k := mkSample key sentAt false zero_time zero_time]>). destruct Hc as [C1 C2]. destruct (on_shard_ok b2 (pendingShardIndex k) f) as [O1 O2]; [by rewrite Hp2, C1 |].
  assert (shard_at (pendingShardIndex k) b2 = shard_at (pendingShardIndex k) b1) as Esh by (unfold shard_at; by rewrite Hp2). rewrite Esh, Hp2 in O2. unfold f in O2 at 2. rewrite map_size_insert in O2.
  set (b3 := on_shard (pendingShardIndex k) f b2) in *. set (b4 := if bool_decide _ then b3 else _).
  assert (pending_ok b4 /\ same_table b b4) as [P4 T4].
  { assert (same_table b b3) as T3 by (eapply same_table_trans; [exact Ht | exact Ht2]). assert (pendingSize b3 = pendingSize b1) as E3 by exact Hs2. assert (length (pendingShards b3) = 16%nat) as L3 by (by rewrite O1, Hp2).
    unfold b4. destruct (decide (is_Some (shard_at (pendingShardIndex k) b1 !! k))) as [Hex | Hex]; [rewrite bool_decide_true by done | rewrite bool_decide_false by done]; (split; [| exact T3]).
    - destruct Hex as [s Hs]. rewrite Hs in O2. cbn [id] in O2. split; [done | lia | lia].
    - apply eq_None_not_Some in Hex. rewrite Hex in O2. split; [exact L3 | change (Z.succ (pendingSize b3) = waiting (pendingShards b3)); lia | change (Z.succ (pendingSize b3) <= resolverPendingHardCap); lia]. }
  eexists. split; [done |]. destruct (schedule_same (sentAt + resolverRequestTimeout tpt (autoDisableCheckIntervalForActiveCount (len (activeIDs b)) (autoDisableTimeoutWindow b)) (autoDisableTimeoutWindow b)) b4) as [T5 P5].
  set (b5 := schedulePendingSweepAt _ b4) in *. unfold ReportSend. match goal with |- context [with_stats key ?g b5] => destruct (with_stats_same key g b5) as [T6 P6]; set (b6 := with_stats key g b5) in * end.
  match goal with |- context [with_stats key ?g b6] => destruct (with_stats_same key g b6) as [T7 P7] end. split; [do 3 (eapply same_pending_ok; [eassumption |]); done |]. do 3 (eapply same_table_trans; [| eassumption]). done.
Qed.
End sweeps.

(** ** Resolvers that go out of use *)

Lemma move_same i v b b' : same_table b b' -> same_table (moveConnectionStateLocked i v b) (moveConnectionStateLocked i v b').
Proof. intros (E1 & E2 & E3 & E4 & E5). unfold moveConnectionStateLocked, same_table. destruct v; cbn; by rewrite E1, E2, E3, E4, E5. Qed.

Lemma move_pending i v b : same_pending b (moveConnectionStateLocked i v b).
Proof. by destruct v. Qed.

Lemma remove_index_length idx ids : idx ∈ ids -> len (remove_index idx ids) = len ids - 1.
Proof. intros Hi%remove_index_perm. unfold len. rewrite (Permutation_length Hi). cbn [length]. lia. Qed.

Lemma reset_if_same (p : bool) i b : same_table b (if p then on_stats i resetWindow b else b) /\ same_pending b (if p then on_stats i resetWindow b else b).
Proof. destruct p; [apply on_stats_same | done]. Qed.

Lemma disable_ok key idx statsOf c b : bal_ok b -> connectionByKeyLocked key b = Some (idx, c) -> IsValid c = true ->
  bal_ok (disable key idx statsOf b) /\ len (activeIDs (disable key idx statsOf b)) = len (activeIDs b) - 1 /\ forall i, i ∈ activeIDs (disable key idx statsOf b) -> i ∈ activeIDs b.
Proof.
  intros [Hb Hp] Hk Hv. destruct (connectionByKey_ok _ _ _ _ Hb Hk) as (Hr & Hc & Hkc & Hi). set (f := fun c : Connection => c <| IsValid := false |>). set (b1 := on_connection idx f b).
  destruct (reset_if_same (bool_decide (statsOf.2 = generation b1)) statsOf.1 b1) as [T2 P2]. set (b2 := if bool_decide _ then _ else _) in T2, P2. destruct (clear_same key b2) as [T3 P3]. set (b3 := clearPreferredResolverReferencesLocked key b2) in *.
  assert (disable key idx statsOf b = moveConnectionStateLocked idx false b3) as ->.
  { unfold disable. cbv zeta. fold f. fold b1. fold b2. fold b3. assert (indexByKey b3 !! key = Some idx) as ->; [| done]. destruct T3 as (_ & -> & _), T2 as (_ & -> & _). done. }
  assert (same_table b1 b3) as T by (by eapply same_table_trans). pose proof (move_same idx false _ _ T) as Tm. split; [split |].
  - eapply same_table_ok; [exact Tm |]. apply (move_table b idx c false f); [done | lia | done | done | done | done].
  - eapply same_pending_ok; [apply move_pending |]. eapply same_pending_ok; [exact P3 |]. eapply same_pending_ok; [exact P2 |]. by apply (same_pending_ok b).
  - destruct Tm as (_ & _ & -> & _). assert (idx ∈ activeIDs b) as Hin by (destruct (valid_in_use b idx c Hb Hr Hc Hv); done). cbn -[remove_index]. pose proof (remove_index_perm idx _ Hin) as Hpm. split; [by apply remove_index_length |].
    intros i Hx. rewrite Hpm. by right.
Qed.

Lemma timeout_first_ok key now window minActive clock b : bal_ok b -> let '(v, b') := ReportTimeout_first key now window minActive clock b in
  bal_ok b' /\ (forall i, i ∈ activeIDs b' -> i ∈ activeIDs b) /\
  match v with Kept => activeIDs b' = activeIDs b | NeedsConfirm _ _ => activeIDs b' = activeIDs b /\ Z.max 2 minActive < len (activeIDs b) | Disabled _ => len (activeIDs b') = len (activeIDs b) - 1 /\ Z.max 2 minActive < len (activeIDs b) end.
Proof.
  intros Hb. unfold ReportTimeout_first. destruct (statsForKey key b) as [i |]; [| done]. cbv zeta. set (g := fun s => recordWindowTimeout _ _ _ _). destruct (on_stats_same i g b) as [T P]. set (b1 := on_stats i g b) in *.
  pose proof (same_ok _ _ T P Hb) as Hb1. assert (activeIDs b1 = activeIDs b) as Ea by (destruct T as (_ & _ & -> & _); done). destruct (connectionByKeyLocked key b1) as [[idx c] |] eqn:Ec; [| by rewrite Ea].
  destruct (IsValid c) eqn:Ev; cbn [negb]; [| by rewrite Ea]. case_if; [by rewrite Ea |]. rewrite Ea. set (m := if (if minActive <? 0 then 0 else minActive) <? 2 then 2 else _).
  assert (m = Z.max 2 minActive) as Em by (unfold m; repeat case_if; zbool; lia). rewrite Em. destruct (Z.leb_spec (len (activeIDs b)) (Z.max 2 minActive)); [by rewrite Ea |]. case_if; [by rewrite Ea |].
  destruct (disable_ok key idx (i, generation b1) c b1 Hb1 Ec Ev) as (D1 & D2 & D3). rewrite Ea in *. done.
Qed.

Lemma timeout_confirmed_ok key statsOf down b : bal_ok b -> let '(v, b') := ReportTimeout_confirmed key statsOf down b in
  bal_ok b' /\ (forall i, i ∈ activeIDs b' -> i ∈ activeIDs b) /\ match v with Kept => activeIDs b' = activeIDs b | NeedsConfirm _ _ => False | Disabled _ => down = true /\ len (activeIDs b') = len (activeIDs b) - 1 end.
Proof.
  intros Hb. unfold ReportTimeout_confirmed. destruct (connectionByKeyLocked key b) as [[idx c] |] eqn:Ec; [| done]. destruct (IsValid c) eqn:Ev; cbn [negb]; [| done]. destruct down; cbn [negb].
  - destruct (disable_ok key idx statsOf c b Hb Ec Ev) as (D1 & D2 & D3). done.
  - destruct (reset_if_same (bool_decide (statsOf.2 = generation b)) statsOf.1 b) as [T P]. split; [by eapply same_ok |]. destruct T as (_ & _ & -> & _). done.
Qed.

Lemma timeout_ok confirm key now window minActive clock b : bal_ok b -> let b' := (ReportTimeout confirm key now window minActive clock b).2 in
  bal_ok b' /\ (forall i, i ∈ activeIDs b' -> i ∈ activeIDs b) /\ (activeIDs b' = activeIDs b \/ len (activeIDs b') = len (activeIDs b) - 1 /\ Z.max 2 minActive < len (activeIDs b)).
Proof.
  intros Hb. unfold ReportTimeout. pose proof (timeout_first_ok key now window minActive clock b Hb) as Hf. destruct (ReportTimeout_first _ _ _ _ _ b) as [v b1]. destruct Hf as (F1 & F2 & F3). destruct v as [| conn | conn statsOf]; cbn [snd]; [tauto.. |].
  destruct F3 as [F3 F4]. pose proof (timeout_confirmed_ok key statsOf (confirm conn window) b1 F1) as Hc. destruct (ReportTimeout_confirmed _ _ _ b1) as [v b2]. cbn [snd]. destruct Hc as (C1 & C2 & C3). rewrite F3 in *. split; [done |]. split; [done |]. destruct v; [by left | right; tauto | done].
Qed.

(** ** All operations *)

Inductive bal_op :=
| BSetConnections (conns : list Connection)
| BFailoverConfig (threshold cooldown : Z)
| BAutoDisableConfig (enabled : bool) (window : Z)
| BConfirmHandler
| BValidity (key : bytes) (valid : bool)
| BMTU (key : bytes) (uploadBytes uploadChars downloadBytes : Z)
| BProbe (key : bytes) (uploadBytes uploadChars downloadBytes resolveTime : Z) (active : bool)
| BReportSend (key : bytes)
| BReportSuccess (key : bytes) (rtt : Z)
| BTimeout (key : bytes) (now window minActive clock : Z)
| BConfirmed (key : bytes) (statsOf : Z * nat) (down : bool)
| BRetract (key : bytes) (now window clock : Z)
| BResetStats (key : bytes)
| BSeedStats (key : bytes)
| BTrackSend (packet resolverAddr localAddr key : bytes) (at_time tunnelPacketTimeout clock : Z)
| BTrackSuccess (packet : bytes) (addr : option bytes) (localAddr : bytes) (receivedAt rtt clock : Z)
| BTrackFailure (packet : bytes) (addr : option bytes) (localAddr : bytes)
| BCollect (now tunnelPacketTimeout : Z)
| BBest
| BBestExcluding (key : bytes)
| BUnique (requiredCount : Z)
| BTargets (packetType streamID requiredCount clock : Z)
| BHealthCheck (now minInterval : Z)
| BEnsureStream (streamID : Z)
| BCleanupStream (streamID : Z)
| BProgress (streamID : Z).

Definition new_state {A} (r : outcome balancer_error (A * Balancer)) : outcome balancer_error Balancer := let! (_, b) := r in Ok b.

Definition bal_step (enum : pendingMap -> list (bytes * bytes * Z)) (o : bal_op) (b : Balancer) : outcome balancer_error Balancer :=
  match o with
  | BSetConnections conns => Ok (SetConnections conns b)
  | BFailoverConfig threshold cooldown => Ok (SetStreamFailoverConfig threshold cooldown b)
  | BAutoDisableConfig enabled window => Ok (SetAutoDisableConfig enabled window b)
  | BConfirmHandler => Ok (SetResolverDownConfirmHandler b)
  | BValidity key valid => new_state (SetConnectionValidity key valid b)
  | BMTU key u uc d => Ok (SetConnectionMTU key u uc d b).2
  | BProbe key u uc d rt active => new_state (ApplyMTUProbeResult key u uc d rt active b)
  | BReportSend key => Ok (ReportSend key b)
  | BReportSuccess key rtt => Ok (ReportSuccess key rtt b)
  | BTimeout key now window minActive clock => Ok (ReportTimeout_first key now window minActive clock b).2
  | BConfirmed key statsOf down => Ok (ReportTimeout_confirmed key statsOf down b).2
  | BRetract key now window clock => Ok (RetractTimeout key now window clock b).2
  | BResetStats key => Ok (ResetServerStats key b)
  | BSeedStats key => Ok (SeedConservativeStats key b)
  | BTrackSend packet resolverAddr localAddr key sentAt tpt clock => TrackResolverSend enum packet resolverAddr localAddr key sentAt tpt clock b
  | BTrackSuccess packet addr localAddr receivedAt rtt clock => TrackResolverSuccess packet addr localAddr receivedAt rtt clock b
  | BTrackFailure packet addr localAddr => new_state (TrackResolverFailure_first packet addr localAddr b)
  | BCollect now tpt => Ok (CollectExpiredResolverTimeouts_first enum now tpt b).2
  | BBest => new_state (GetBestConnection b)
  | BBestExcluding key => new_state (GetBestConnectionExcluding key b)
  | BUnique n => new_state (GetUniqueConnections n b)
  | BTargets packetType streamID n clock => new_state (SelectTargets packetType streamID n clock b)
  | BHealthCheck now minInterval => new_state (NextInactiveConnectionForHealthCheck now minInterval b)
  | BEnsureStream streamID => Ok (EnsureStream streamID b)
  | BCleanupStream streamID => Ok (CleanupStream streamID b)
  | BProgress streamID => Ok (NoteStreamProgress streamID b)
  end.

(** A call that returns an error leaves the balancer as it is. *)
Fixpoint bal_run (enum : pendingMap -> list (bytes * bytes * Z)) (ops : list bal_op) (b : Balancer) : outcome balancer_error Balancer :=
  match ops with
  | [] => Ok b
  | o :: ops => match bal_step enum o b with Ok b' => bal_run enum ops b' | Err _ => bal_run enum ops b | Panic => Panic end
  end.

Lemma set_connections_ok conns b : bal_ok b -> bal_ok (SetConnections conns b).
Proof.
  intros [Hb [P1 P2 P3]]. unfold SetConnections. set (b0 := b <| connections := [] |> <| indexByKey := ∅ |> <| activeIDs := [] |> <| inactiveIDs := [] |> <| stats := [] |> <| pendingShards ::= _ |> <| pendingOverflow := _ |> <| pendingSize := _ |> <| streamRoutes := _ |> <| generation ::= _ |>).
  assert (bal_ok b0) as H0.
  { split; [split; done |]. split; cbn; [by rewrite length_map | | done]. clear. induction (pendingShards b) as [| m l IH]; [done |]. cbn. rewrite <- IH. done. }
  clearbody b0. revert b0 H0. induction conns as [| c conns IH]; intros b0 H0; [done |]. cbn [fold_left]. apply IH. destruct H0 as [H1 H2]. split; [by apply add_table |]. unfold add_connection. case_bool_decide; [done |]. by apply (same_pending_ok b0).
Qed.

Lemma reset_or_clear (valid : bool) key idx b : 0 <= idx < len (stats b) ->
  exists b', (if valid then let! _ := at_ (stats b) idx in Ok (on_stats idx resetWindow b) else Ok (clearPreferredResolverReferencesLocked key b)) = Ok (E := balancer_error) b' /\ same_table b b' /\ same_pending b b'.
Proof.
  intros Hr. destruct valid; [| eexists; split; [done | apply clear_same]]. destruct (at_ok (E := balancer_error) (stats b) idx Hr) as (s & -> & _). eexists. split; [done | apply on_stats_same].
Qed.

Lemma validity_ok key valid b : bal_ok b -> exists r b', SetConnectionValidity key valid b = Ok (r, b') /\ bal_ok b'.
Proof.
  intros [Hb Hp]. unfold SetConnectionValidity. destruct (connectionByKeyLocked key b) as [[idx c] |] eqn:Ec; [| by eexists _, b]. destruct (Bool.eqb (IsValid c) valid) eqn:Ev; [by eexists _, b |].
  destruct (connectionByKey_ok _ _ _ _ Hb Ec) as (Hr & Hc & _). set (f := fun c : Connection => c <| IsValid := valid |>). set (b1 := on_connection idx f b).
  destruct (reset_or_clear valid key idx b1) as (b2 & -> & T & P); [change (stats b1) with (stats b); unfold len in *; by rewrite (tb_stats _ Hb) |].
  cbn [obind]. eexists _, _. split; [done |]. split.
  - eapply same_table_ok; [apply move_same; exact T |]. apply (move_table b idx c valid f); [done | lia | done | by destruct (IsValid c), valid | done | done].
  - eapply same_pending_ok; [apply move_pending |]. eapply same_pending_ok; [exact P |]. by apply (same_pending_ok b).
Qed.

Lemma probe_ok key u uc d rt active b : bal_ok b -> exists r b', ApplyMTUProbeResult key u uc d rt active b = Ok (r, b') /\ bal_ok b'.
Proof.
  intros [Hb Hp]. unfold ApplyMTUProbeResult. destruct (connectionByKeyLocked key b) as [[idx c] |] eqn:Ec; [| by eexists _, b]. destruct (connectionByKey_ok _ _ _ _ Hb Ec) as (Hr & Hc & _). cbv zeta.
  set (f := fun c : Connection => c <| UploadMTUBytes := u |> <| UploadMTUChars := uc |> <| DownloadMTUBytes := d |> <| MTUResolveTime := rt |> <| IsValid := active |>). set (b1 := on_connection idx f b).
  destruct (reset_or_clear active key idx b1) as (b2 & -> & T & P); [change (stats b1) with (stats b); unfold len in *; by rewrite (tb_stats _ Hb) |].
  cbn [obind]. eexists _, _. split; [done |]. assert (pending_ok b2) as Hp2 by (eapply same_pending_ok; [exact P |]; by apply (same_pending_ok b)). destruct (Bool.eqb (IsValid c) active) eqn:Ev; cbn [negb]; split; [| done | |].
  - eapply same_table_ok; [exact T |]. apply keep_table; [done |]. intros c' Hc'. assert (c' = c) as -> by congruence. split; [| done]. cbn. by destruct (IsValid c), active.
  - eapply same_table_ok; [apply move_same; exact T |]. apply (move_table b idx c active f); [done | lia | done | by destruct (IsValid c), active | done | done].
  - by eapply same_pending_ok; [apply move_pending |].
Qed.

Lemma health_ok now minInterval start js : forall b, bal_ok b -> inactiveIDs b <> [] -> exists o b', health_scan now minInterval start js b = Ok (o, b') /\ bal_ok b'.
Proof.
  induction js as [| j js IH]; intros b Hb Hn; cbn [health_scan]; [by eexists _, b |]. assert (0 < len (inactiveIDs b)) as Hl by (unfold len; destruct (inactiveIDs b); [done | cbn; lia]).
  destruct (at_ok (E := balancer_error) (inactiveIDs b) ((start + Z.of_nat j) mod len (inactiveIDs b))) as (idx & -> & _); [by apply Z.mod_pos_bound |]. cbn [obind]. case_if; [by apply IH |]. case_if; [by apply IH |].
  eexists _, _. split; [done |]. destruct Hb as [H1 H2]. split; [by apply keep_table | by apply (same_pending_ok b)].
Qed.

Lemma pick_step b r P N : bal_ok b -> pick b r P N -> exists b', new_state r = Ok b' /\ bal_ok b'.
Proof. intros [H1 H2] (o & b' & -> & Hq & _). exists b'. split; [done |]. split; [by eapply quiet_table |]. destruct Hq as (? & ? & ->). by apply (same_pending_ok b). Qed.

Lemma success_ok packet addr localAddr receivedAt rtt clock b : bal_ok b -> exists b', TrackResolverSuccess packet addr localAddr receivedAt rtt clock b = Ok b' /\ bal_ok b'.
Proof.
  intros [Hb Hp]. unfold TrackResolverSuccess. destruct addr as [addr |]; [| by exists b]. destruct (Z.ltb_spec (len packet) 2) as [| Hl]; [by exists b |]. destruct (take_sample_ok packet addr localAddr b Hp Hl) as (o & b1 & -> & P1 & T1). cbn [obind].
  assert (bal_ok b1) as Hb1 by (split; [by eapply same_table_ok | done]). destruct o as [s |]; [| by exists b1]. case_if; [by exists b1 |]. eexists. split; [done |]. set (b2 := if timedOut s && _ then _ else b1).
  assert (bal_ok b2) as Hb2. { unfold b2. case_if; [| done]. unfold RetractTimeout. destruct (statsForKey _ b1) as [i |]; [| done]. destruct (retractWindowTimeout _ _ _ _) as [r s']. cbn [snd]. eapply same_ok; [apply on_stats_same.. | done]. }
  destruct (0 <? _); [| done]. eapply same_ok; [apply with_stats_same.. | done].
Qed.

Section invariant.
Context (enum : pendingMap -> list (bytes * bytes * Z)) (enum_ok : forall m, enum m ≡ₚ (map_to_list m).*1).

Lemma bal_step_ok o b : bal_ok b -> match bal_step enum o b with Ok b' => bal_ok b' | Err _ => activeIDs b = [] | Panic => False end.
Proof.
  intros Hb. pose proof Hb as [Ht Hp]. assert (activeIDs b = [] \/ activeIDs b <> []) as Hact by (destruct (activeIDs b); [by left | by right]).
  destruct o; cbn [bal_step]; try (eapply same_ok; [apply with_stats_same.. | done]); try (by apply (same_ok b)).
  - by apply set_connections_ok.
  - destruct (validity_ok key valid b Hb) as (r & b' & -> & H). done.
  - unfold SetConnectionMTU. destruct (connectionByKeyLocked key b) as [[idx c] |]; [| done]. split; [by apply keep_table | by apply (same_pending_ok b)].
  - destruct (probe_ok key uploadBytes uploadChars downloadBytes resolveTime active b Hb) as (r & b' & -> & H). done.
  - pose proof (timeout_first_ok key now window minActive clock b Hb) as H. destruct (ReportTimeout_first _ _ _ _ _ b). tauto.
  - pose proof (timeout_confirmed_ok key statsOf down b Hb) as H. destruct (ReportTimeout_confirmed _ _ _ b). tauto.
  - unfold RetractTimeout. destruct (statsForKey key b) as [i |]; [| done]. destruct (retractWindowTimeout _ _ _ _) as [r s']. cbn [snd]. eapply same_ok; [apply on_stats_same.. | done].
  - destruct (send_ok enum enum_ok packet resolverAddr localAddr key at_time tunnelPacketTimeout clock b Hp) as (b' & -> & P & T). split; [by eapply same_table_ok | done].
  - destruct (success_ok packet addr localAddr receivedAt rtt clock b Hb) as (b' & -> & H). done.
  - unfold TrackResolverFailure_first. destruct addr as [addr |]; [| done]. destruct (Z.ltb_spec (len packet) 2) as [| Hl]; [done |]. destruct (take_sample_ok packet addr localAddr b Hp Hl) as (o & b1 & -> & P1 & T1). cbn [obind].
    assert (bal_ok b1) as Hb1 by (split; [by eapply same_table_ok | done]). destruct o as [s |]; [| done]. by case_if.
  - pose proof (collect_ok enum enum_ok now tunnelPacketTimeout b Hp) as H. destruct (CollectExpiredResolverTimeouts_first _ _ _ b) as [obs b']. destruct H as (P & T & _). split; [by eapply same_table_ok | done].
  - destruct Hact as [Ha | Ha]; [unfold GetBestConnection; by rewrite Ha |]. destruct (pick_step b _ _ _ Hb (GetBest_ok b Ht Ha)) as (b' & -> & H). done.
  - unfold GetBestConnectionExcluding. destruct Hact as [Ha | Ha]; [by rewrite Ha |]. pose proof (active_pos b Ha). rewrite (proj2 (Z.eqb_neq _ 0)) by lia. destruct (pick_step b _ _ _ Hb (getBestExcluding_ok b Ht Ha key)) as (b' & -> & H'). done.
  - unfold GetUniqueConnections. destruct Hact as [Ha | Ha]; [unfold getUniqueConnectionsLocked; by rewrite Ha |]. destruct (getUnique_ok b Ht Ha requiredCount) as (ids & cs & b' & -> & Hq & _). cbn. split; [by eapply quiet_table |]. destruct Hq as (? & ? & ->). by apply (same_pending_ok b).
  - destruct Hact as [Ha | Ha]; [unfold SelectTargets; rewrite Ha; done |]. destruct (select_targets_ok b packetType streamID requiredCount clock Ht Ha) as (ids & cs & b' & -> & Hq & _). cbn. split; [by eapply routed_table |]. destruct Hq as (? & ? & ? & ->). by apply (same_pending_ok b).
  - unfold NextInactiveConnectionForHealthCheck. destruct (Z.eqb_spec (len (inactiveIDs b)) 0) as [| Hne]; [done |]. cbv zeta. set (b1 := b <| healthRRCounter := _ |>). assert (bal_ok b1) as Hb1 by (by apply (same_ok b)).
    match goal with |- context [health_scan ?a1 ?a2 ?a3 ?a4 b1] => destruct (health_ok a1 a2 a3 a4 b1 Hb1) as (o & b' & -> & H) end; [| done]. change (inactiveIDs b1) with (inactiveIDs b). intros E. rewrite E in Hne. done.
  - unfold EnsureStream, ensureStreamRouteLocked. repeat case_if; [done.. |]. destruct (streamRoutes b !! streamID); [done | by apply (same_ok b)].
  - unfold CleanupStream. case_if; [done | by apply (same_ok b)].
  - unfold NoteStreamProgress. case_if; [done | by apply (same_ok b)].
Qed.

Lemma new_balancer_ok st now : bal_ok (NewBalancer st now).
Proof. split; [by split |]. by split. Qed.

Lemma bal_run_ok ops : forall b, bal_ok b -> exists b', bal_run enum ops b = Ok b' /\ bal_ok b'.
Proof.
  induction ops as [| o ops IH]; intros b Hb; cbn [bal_run]; [by exists b |]. pose proof (bal_step_ok o b Hb) as Hs. destruct (bal_step enum o b) as [b' | e |]; [by apply IH | by apply IH | done].
Qed.
End invariant.

(** ** Sequences of reports *)

Lemma reports_ok confirm window clock obs : forall b, bal_ok b ->
  let b' := fold_left (fun b o => (ReportTimeout confirm (obsKey o) (obsAt o) window 1 clock b).2) obs b in
  bal_ok b' /\ (forall i, i ∈ activeIDs b' -> i ∈ activeIDs b) /\ Z.min 2 (len (activeIDs b)) <= len (activeIDs b').
Proof.
  induction obs as [| o obs IH]; intros b Hb; cbn [fold_left]; [split; [done |]; split; [done | lia] |].
  destruct (timeout_ok confirm (obsKey o) (obsAt o) window 1 clock b Hb) as (T1 & T2 & T3). destruct (IH _ T1) as (I1 & I2 & I3). split; [done |]. split; [auto |]. destruct T3 as [E | [E1 E2]]; [rewrite E in I3; done | lia].
Qed.

(** ** The rotation *)

Fixpoint repeat_unique (k : nat) (b : Balancer) : outcome balancer_error (list Connection * Balancer) :=
  match k with
  | O => Ok ([], b)
  | S k => let! (cs, b) := getUniqueConnectionsLocked 1 b in let! (rest, b) := repeat_unique k b in Ok (cs ++ rest, b)
  end.

Lemma unique_rotates b : table_ok b -> activeIDs b <> [] -> strategy b = BalancingRoundRobin \/ strategy b = BalancingRoundRobinDefault -> 0 <= rrCounter b -> rrCounter b + 1 < 2 ^ 64 ->
  exists i c, getUniqueConnectionsLocked 1 b = Ok ([c], b <| rrCounter ::= Z.succ |>) /\ activeIDs b !! Z.to_nat (rrCounter b mod len (activeIDs b)) = Some i /\ in_use b i c.
Proof.
  intros Hb Hn Hs H0 Hw. pose proof (active_pos b Hn) as Hl. unfold getUniqueConnectionsLocked. assert (normalizeRequiredCount (len (activeIDs b)) 1 1 = 1) as -> by (unfold normalizeRequiredCount; repeat case_if; zbool; lia). change (1 <=? 0) with false.
  assert ((strategy b =? BalancingRandom) = false) as -> by (by destruct Hs as [-> | ->]). assert (strategyCandidatePoolLocked [] b = Ok ([], poolPickRandom, false)) as -> by (unfold strategyCandidatePoolLocked; by destruct Hs as [-> | ->]).
  cbn [obind]. assert (strategyScorerLocked b = Ok (None, false)) as -> by (unfold strategyScorerLocked; by destruct Hs as [-> | ->]). cbn [obind]. unfold selectRoundRobinLocked, rr_advance, wrap64. change 18446744073709551616 with (2 ^ 64).
  rewrite !(Z.mod_small _ (2 ^ 64)) by lia. replace (rrCounter b + 1 - 1) with (rrCounter b) by lia. unfold roundRobinStartIndex. change (activeIDs (b <| rrCounter := _ |>)) with (activeIDs b). rewrite (proj2 (Z.leb_gt _ _)) by lia.
  change (Z.to_nat 1) with 1%nat. cbn [seq rotated]. rewrite Z.add_0_r, Z.mod_mod by lia. destruct (at_ok (E := balancer_error) (activeIDs b) (rrCounter b mod len (activeIDs b))) as (i & -> & Hi); [by apply Z.mod_pos_bound |]. cbn [obind connections_at].
  destruct (active_in_use b Hb i) as (c & Hc & Ha & _); [by eapply list_elem_of_lookup_2 |]. exists i, c. change (connections (b <| rrCounter := _ |>)) with (connections b). rewrite Ha. done.
Qed.

Lemma repeat_rotates k : forall b, table_ok b -> activeIDs b <> [] -> strategy b = BalancingRoundRobin \/ strategy b = BalancingRoundRobinDefault -> 0 <= rrCounter b -> rrCounter b + Z.of_nat k < 2 ^ 64 ->
  exists ids cs b', repeat_unique k b = Ok (cs, b') /\ Forall2 (in_use b) ids cs /\ map Some ids = map (fun j => activeIDs b !! Z.to_nat ((rrCounter b + Z.of_nat j) mod len (activeIDs b))) (seq 0 k).
Proof.
  induction k as [| k IH]; intros b Hb Hn Hs H0 Hw; cbn [repeat_unique]; [exists [], [], b; split; [done |]; split; [constructor | done] |].
  destruct (unique_rotates b Hb Hn Hs H0) as (i & c & -> & Hi & Hc); [lia |]. cbn [obind]. set (b1 := b <| rrCounter ::= Z.succ |>). destruct (IH b1) as (ids & cs & b' & -> & H1 & H2); [by apply (same_table_ok b) | done | done | cbn; lia | cbn; lia |].
  cbn [obind]. exists (i :: ids), (c :: cs), b'. split; [done |]. split; [by constructor |]. cbn [map seq]. rewrite Z.add_0_r. f_equal; [done |]. rewrite H2, <- seq_shift, map_map. apply map_ext. intros j. change (activeIDs b1) with (activeIDs b). do 3 f_equal. change (rrCounter b1) with (Z.succ (rrCounter b)). lia.
Qed.

Lemma rotation_fair b : table_ok b -> activeIDs b <> [] -> strategy b = BalancingRoundRobin \/ strategy b = BalancingRoundRobinDefault -> 0 <= rrCounter b -> rrCounter b + len (activeIDs b) < 2 ^ 64 ->
  exists ids cs b', repeat_unique (length (activeIDs b)) b = Ok (cs, b') /\ Forall2 (in_use b) ids cs /\ ids ≡ₚ activeIDs b.
Proof.
  intros Hb Hn Hs H0 Hw. destruct (repeat_rotates (length (activeIDs b)) b Hb Hn Hs H0 Hw) as (ids & cs & b' & E & H1 & H2). exists ids, cs, b'. split; [done |]. split; [done |]. pose proof (active_pos b Hn) as Hl.
  set (start := Z.to_nat (rrCounter b mod len (activeIDs b))). assert (0 <= rrCounter b mod len (activeIDs b) < len (activeIDs b)) as Hr by (by apply Z.mod_pos_bound).
  assert (ids = take (length (activeIDs b)) (rotate_list start (activeIDs b))) as ->; [| rewrite take_ge by (by rewrite (Permutation_length (rotate_list_perm _ _))); apply rotate_list_perm].
  apply map_Some_seq; [| by rewrite (Permutation_length (rotate_list_perm _ _))]. rewrite H2. apply map_ext_in. intros j Hj%list_elem_of_In. apply elem_of_seq in Hj. rewrite rotate_lookup by (unfold start, len in *; lia). f_equal.
  apply Nat2Z.inj. unfold start, len in *. rewrite Nat2Z.inj_mod, Nat2Z.inj_add, !Z2Nat.id by (apply Z.mod_pos_bound; lia). by rewrite Zplus_mod_idemp_l.
Qed.

(** ** Theorems *)

(** C16: Over every sequence of operations no call of the balancer panics, and the balancer stays
    consistent: every resolver is in exactly one of the lists of active and inactive indices, in the
    active one if and only if it is marked valid; keys lead to their resolvers; every resolver has
    its statistics; the counter of waiting queries is their number and never above its cap.  Reports
    of timeouts are interleaved in two sections, before and after the confirmation. *)
Theorem balancer_invariant (enum : pendingMap -> list (bytes * bytes * Z)) (strategy now : Z) (ops : list bal_op) :
  (forall m, enum m ≡ₚ (map_to_list m).*1) ->
  exists b, bal_run enum ops (NewBalancer strategy now) = Ok b /\ table_ok b /\ pending_ok b.
Proof. intros He. destruct (bal_run_ok enum He ops _ (new_balancer_ok strategy now)) as (b & E & H1 & H2). by exists b. Qed.

(** C18: The targets of a packet.  In every reachable state [SelectTargets] returns an error only when
    no resolver is active.  Otherwise it returns resolvers that are active and all different, at least
    one and at most as many as are asked for; with the strategies that do not choose from a pool, and
    keys that are different, exactly as many as are asked for or are active. *)
Theorem targets_distinct (enum : pendingMap -> list (bytes * bytes * Z)) (strategy now packetType streamID requiredCount clock : Z) (ops : list bal_op) (b : Balancer) :
  (forall m, enum m ≡ₚ (map_to_list m).*1) -> bal_run enum ops (NewBalancer strategy now) = Ok b ->
  match SelectTargets packetType streamID requiredCount clock b with
  | Ok (cs, b') => exists ids, chosen b ids cs /\ Forall (fun c => IsValid c = true) cs /\ 1 <= len cs <= Z.max 1 requiredCount /\
      (pooled b = false -> distinct_keys b -> len cs = Z.min (Z.max 1 requiredCount) (len (activeIDs b)))
  | Err _ => activeIDs b = []
  | Panic => False
  end.
Proof.
  intros He Hr. destruct (bal_run_ok enum He ops _ (new_balancer_ok strategy now)) as (b0 & E & Hb & _). assert (b0 = b) as -> by congruence.
  assert (activeIDs b = [] \/ activeIDs b <> []) as [Ha | Ha] by (destruct (activeIDs b); [by left | by right]); [unfold SelectTargets; by rewrite Ha |].
  destruct (select_targets_ok b packetType streamID requiredCount clock Hb Ha) as (ids & cs & b' & -> & _ & Hc & Hl & Hx). exists ids. split; [done |]. assert (len cs = len ids) as El by (unfold len; destruct Hc as [_ Hc]; by rewrite (Forall2_length _ _ _ Hc)).
  assert (normalizeRequiredCount (len (activeIDs b)) requiredCount 1 = Z.min (Z.max 1 requiredCount) (len (activeIDs b))) as En by (pose proof (active_pos b Ha); unfold normalizeRequiredCount; repeat case_if; zbool; lia).
  split; [| rewrite El; rewrite En in *; split; [lia | done]]. apply Forall_lookup. intros p c Hp. destruct Hc as [_ Hc]. destruct (Forall2_lookup_r _ _ _ _ _ Hc Hp) as (i & _ & Hi & Hri & Hci).
  rewrite (tb_valid _ Hb _ _ Hci), Z2Nat.id by lia. by apply bool_decide_eq_true.
Qed.

(** C27: The strategies that score resolvers (least loss, lowest latency, hybrid) choose the best.  As
    soon as there is a signal, [GetUniqueConnections] returns as many different active resolvers as it
    can up to the number asked for, and no active resolver that is left out has a lower score than one
    that is chosen. *)
Theorem lowest_scores_chosen (enum : pendingMap -> list (bytes * bytes * Z)) (strategy now requiredCount : Z) (ops : list bal_op) (b : Balancer) (scorer : Z -> Z) :
  (forall m, enum m ≡ₚ (map_to_list m).*1) -> bal_run enum ops (NewBalancer strategy now) = Ok b -> activeIDs b <> [] -> strategyScorerLocked b = Ok (Some scorer, true) ->
  exists ids cs b', GetUniqueConnections requiredCount b = Ok (cs, b') /\ chosen b ids cs /\ len ids = Z.min (Z.max 1 requiredCount) (len (activeIDs b)) /\
    forall i j, i ∈ ids -> j ∈ activeIDs b -> j ∉ ids -> scorer i <= scorer j.
Proof.
  intros He Hr Ha Es. destruct (bal_run_ok enum He ops _ (new_balancer_ok strategy now)) as (b0 & E & Hb & _). assert (b0 = b) as -> by congruence.
  destruct (getUnique_lowest b Hb Ha requiredCount scorer Es) as (ids & cs & b' & Hg & _ & Hc & Hl & Hm). exists ids, cs, b'. split_and!; [done | done.. | | done]. rewrite Hl.
  pose proof (active_pos b Ha). unfold normalizeRequiredCount. repeat case_if; zbool; lia.
Qed.

(** C28: The rotation is fair.  With a round-robin strategy, as many calls in a row as there are active
    resolvers return each of them exactly once, until the counter of 64 bits wraps around. *)
Theorem round_robin_fair (enum : pendingMap -> list (bytes * bytes * Z)) (strategy now : Z) (ops : list bal_op) (b : Balancer) :
  (forall m, enum m ≡ₚ (map_to_list m).*1) -> bal_run enum ops (NewBalancer strategy now) = Ok b -> activeIDs b <> [] ->
  Balancer.strategy b = BalancingRoundRobin \/ Balancer.strategy b = BalancingRoundRobinDefault -> 0 <= rrCounter b -> rrCounter b + len (activeIDs b) < 2 ^ 64 ->
  exists ids cs b', repeat_unique (length (activeIDs b)) b = Ok (cs, b') /\ Forall2 (in_use b) ids cs /\ ids ≡ₚ activeIDs b.
Proof.
  intros He Hr Ha Hs H0 Hw. destruct (bal_run_ok enum He ops _ (new_balancer_ok strategy now)) as (b0 & E & Hb & _). assert (b0 = b) as -> by congruence. by apply rotation_fair.
Qed.

(** C29: A sweep is exact.  When the sweep of waiting queries runs and there is room for more of them,
    every query is treated by its age alone, whatever the order in which Go enumerates the maps:
    those older than the time to live and those whose grace has passed are dropped, those that have
    waited for the timeout are marked, the others stay; and exactly one timeout is reported for each
    query that is given up now. *)
Theorem sweep_exact (enum : pendingMap -> list (bytes * bytes * Z)) (strategy start now tunnelPacketTimeout : Z) (ops : list bal_op) (b : Balancer) :
  (forall m, enum m ≡ₚ (map_to_list m).*1) -> bal_run enum ops (NewBalancer strategy start) = Ok b ->
  autoDisableEnabled b = true -> pendingOverflow b = true \/ pendingSweepDue now b = true -> pendingSize b < resolverPendingHardCap ->
  let '(obs, b') := CollectExpiredResolverTimeouts_first enum now tunnelPacketTimeout b in
  pendingShards b' = map (omap (swept now (sweep_timeout tunnelPacketTimeout b) (resolverSampleTTL tunnelPacketTimeout))) (pendingShards b) /\
  obs ≡ₚ omap (reported now (sweep_timeout tunnelPacketTimeout b)) (all_queries b).
Proof.
  intros He Hr H1 H2 H3. destruct (bal_run_ok enum He ops _ (new_balancer_ok strategy start)) as (b0 & E & _ & Hp). assert (b0 = b) as -> by congruence.
  pose proof (collect_ok enum He now tunnelPacketTimeout b Hp) as Hc. destruct (CollectExpiredResolverTimeouts_first _ _ _ b) as [obs b']. destruct Hc as (_ & _ & Hc). by apply Hc.
Qed.

(** C30: Two resolvers stay.  When the reports of a sweep are not interleaved with others, they only
    take resolvers out of use, and never so many that fewer than two are left of two or more, whatever
    the confirmations say. *)
Theorem two_resolvers_stay (enum : pendingMap -> list (bytes * bytes * Z)) (confirm : Connection -> Z -> bool) (strategy start now tunnelPacketTimeout clock : Z) (ops : list bal_op) (b : Balancer) :
  (forall m, enum m ≡ₚ (map_to_list m).*1) -> bal_run enum ops (NewBalancer strategy start) = Ok b ->
  let b' := CollectExpiredResolverTimeouts enum confirm now tunnelPacketTimeout clock b in
  (forall i, i ∈ activeIDs b' -> i ∈ activeIDs b) /\ Z.min 2 (len (activeIDs b)) <= len (activeIDs b').
Proof.
  intros He Hr. destruct (bal_run_ok enum He ops _ (new_balancer_ok strategy start)) as (b0 & E & Hb & Hp). assert (b0 = b) as -> by congruence. unfold CollectExpiredResolverTimeouts. cbv zeta.
  pose proof (collect_ok enum He now tunnelPacketTimeout b Hp) as Hc. destruct (CollectExpiredResolverTimeouts_first _ _ _ b) as [obs b1]. destruct Hc as (P1 & T1 & _).
  destruct (reports_ok confirm (autoDisableTimeoutWindow b) clock obs b1) as (_ & R2 & R3); [split; [by eapply same_table_ok | done] |]. destruct T1 as (_ & _ & -> & _) in R2, R3. done.
Qed.

(** ** Examples *)

Definition some_enum (m : pendingMap) : list (bytes * bytes * Z) := (map_to_list m).*1.
Definition some_connection (k : Z) : Connection := mkConnection [97] [k] 53 [k] [k] false 0 0 0 0 zero_time.

Definition four_keys : list Z := [1; 2; 3; 4].
Definition some_ops : list bal_op :=
  [BSetConnections (map some_connection four_keys); BAutoDisableConfig true (10 * second); BConfirmHandler] ++ map (fun k => BValidity [k] true) four_keys.

(** Every resolver has lost all but one of its queries. *)
Definition race_ops : list bal_op :=
  some_ops ++ concat (map (fun k => map (fun i => BTrackSend [0; Z.of_nat i] [k] [9] [k] second (5 * second) second) (seq 0 48) ++
    replicate 47 (BTimeout [k] (2 * second) (10 * second) 1 (2 * second))) four_keys).

Definition state_after (ops : list bal_op) (strategy : Z) : Balancer :=
  match bal_run some_enum ops (NewBalancer strategy 1) with Ok b => b | _ => NewBalancer strategy 1 end.

Lemma state_after_ok ops strategy : match bal_run some_enum ops (NewBalancer strategy 1) with Ok _ => true | _ => false end = true ->
  bal_run some_enum ops (NewBalancer strategy 1) = Ok (state_after ops strategy).
Proof. unfold state_after. by destruct (bal_run _ _ _). Qed.

(** C39: The floor does not hold for reports that overlap.  Four resolvers are active and a timeout of
    each is reported; each report finds four active resolvers and waits for its confirmation; when the
    confirmations arrive no report counts the active resolvers again, and none is left. *)
Theorem confirm_race : exists b, bal_run some_enum race_ops (NewBalancer BalancingRoundRobin 1) = Ok b /\ len (activeIDs b) = 4 /\
  let report '(vs, b) k := let '(v, b) := ReportTimeout_first [k] (2 * second) (10 * second) 1 (2 * second) b in (vs ++ [v], b) in
  let r := fold_left report four_keys ([], b) in
  map (fun v => match v with NeedsConfirm c _ => Key c | _ => [] end) r.1 = [[1]; [2]; [3]; [4]] /\ len (activeIDs r.2) = 4 /\
  let confirmed b '(k, v) := match v with NeedsConfirm _ statsOf => (ReportTimeout_confirmed [k] statsOf true b).2 | _ => b end in
  activeIDs (fold_left confirmed (zip four_keys r.1) r.2) = [].
Proof.
  exists (state_after race_ops BalancingRoundRobin). split; [apply state_after_ok; by vm_compute |]. cbv zeta. split_and!; by vm_compute.
Qed.

Lemma some_enum_ok m : some_enum m ≡ₚ (map_to_list m).*1.
Proof. done. Qed.

Lemma balancer_invariant_witness : exists b, bal_run some_enum some_ops (NewBalancer BalancingLeastLoss 1) = Ok b /\ table_ok b /\ pending_ok b.
Proof. apply (balancer_invariant some_enum BalancingLeastLoss 1 some_ops). exact some_enum_ok. Defined.

Definition more_ops : list bal_op :=
  some_ops ++ [BTrackSend [0; 7] [1] [9] [1] second (5 * second) second; BEnsureStream 5; BSeedStats [1]; BSeedStats [2]; BTimeout [1] second 0 0 second].

Lemma targets_distinct_witness : let b := state_after more_ops BalancingLeastLoss in
  match SelectTargets PACKET_STREAM_DATA 5 3 second b with
  | Ok (cs, b') => exists ids, chosen b ids cs /\ Forall (fun c => IsValid c = true) cs /\ 1 <= len cs <= Z.max 1 3 /\
      (pooled b = false -> distinct_keys b -> len cs = Z.min (Z.max 1 3) (len (activeIDs b)))
  | Err _ => activeIDs b = []
  | Panic => False
  end.
Proof.
  apply (targets_distinct some_enum BalancingLeastLoss 1 PACKET_STREAM_DATA 5 3 second more_ops (state_after more_ops BalancingLeastLoss)); [exact some_enum_ok |].
  apply state_after_ok. vm_compute. reflexivity.
Defined.

Lemma lowest_scores_chosen_witness : let b := state_after more_ops BalancingLeastLoss in
  exists ids cs b', GetUniqueConnections 2 b = Ok (cs, b') /\ chosen b ids cs /\ len ids = Z.min (Z.max 1 2) (len (activeIDs b)) /\
    forall i j, i ∈ ids -> j ∈ activeIDs b -> j ∉ ids -> lossScoreLocked b i <= lossScoreLocked b j.
Proof.
  apply (lowest_scores_chosen some_enum BalancingLeastLoss 1 2 more_ops (state_after more_ops BalancingLeastLoss) (lossScoreLocked (state_after more_ops BalancingLeastLoss))).
  - exact some_enum_ok.
  - apply state_after_ok. vm_compute. reflexivity.
  - vm_compute. discriminate.
  - assert (hasLossSignalLocked (state_after more_ops BalancingLeastLoss) = Ok true) as E by (vm_compute; reflexivity). unfold strategyScorerLocked. rewrite E. reflexivity.
Defined.

Lemma round_robin_fair_witness : let b := state_after more_ops BalancingRoundRobin in
  exists ids cs b', repeat_unique (length (activeIDs b)) b = Ok (cs, b') /\ Forall2 (in_use b) ids cs /\ ids ≡ₚ activeIDs b.
Proof.
  apply (round_robin_fair some_enum BalancingRoundRobin 1 more_ops (state_after more_ops BalancingRoundRobin)).
  - exact some_enum_ok.
  - apply state_after_ok. vm_compute. reflexivity.
  - vm_compute. discriminate.
  - left. vm_compute. reflexivity.
  - vm_compute. discriminate.
  - vm_compute. reflexivity.
Defined.

Lemma sweep_exact_witness : let b := state_after more_ops BalancingRoundRobin in
  let '(obs, b') := CollectExpiredResolverTimeouts_first some_enum (20 * second) (5 * second) b in
  pendingShards b' = map (omap (swept (20 * second) (sweep_timeout (5 * second) b) (resolverSampleTTL (5 * second)))) (pendingShards b) /\
  obs ≡ₚ omap (reported (20 * second) (sweep_timeout (5 * second) b)) (all_queries b).
Proof.
  apply (sweep_exact some_enum BalancingRoundRobin 1 (20 * second) (5 * second) more_ops (state_after more_ops BalancingRoundRobin)).
  - exact some_enum_ok.
  - apply state_after_ok. vm_compute. reflexivity.
  - vm_compute. reflexivity.
  - right. vm_compute. reflexivity.
  - vm_compute. reflexivity.
Defined.

Lemma two_resolvers_stay_witness : let b := state_after more_ops BalancingRoundRobin in
  let b' := CollectExpiredResolverTimeouts some_enum (fun _ _ => true) (20 * second) (5 * second) (20 * second) b in
  (forall i, i ∈ activeIDs b' -> i ∈ activeIDs b) /\ Z.min 2 (len (activeIDs b)) <= len (activeIDs b').
Proof.
  apply (two_resolvers_stay some_enum (fun _ _ => true) BalancingRoundRobin 1 (20 * second) (5 * second) (20 * second) more_ops (state_after more_ops BalancingRoundRobin)); [exact some_enum_ok |].
  apply state_after_ok. vm_compute. reflexivity.
Defined.
